(* ===== verification/_CoqProject ===== *)
-Q . S2P
Prelude.v
PyDict.v
Float64.v
Sha256.v
Paths.v
Json.v
Patterns.v
PyText.v
Campaigns.v
Models.v
Manifest.v
ManifestFacts.v
Planner.v
PlannerFacts.v
Control.v
Recovery.v
Reconciler.v
Hub.v
Endpoints.v
Waves.v
WaveFacts.v
EndpointFacts.v
ControllerStatus.v
ControllerProtocol.v
ControllerStoreFacts.v
Coordination.v
ControlStore.v
Launch.v
Watchdog.v
Observer.v
BucketEvidence.v
Envelope.v
NativeBundle.v
ResultModels.v
Finalizer.v
ResultTables.v
Results.v
Composition.v
ResultFiles.v
Apply.v
CampaignPass.v
CampaignProtocol.v
CampaignStoreFacts.v
PassFacts.v
HubStoreLaws.v
LaunchFacts.v
Admission.v
ControlFacts.v
RecoveryFacts.v
ObserverFacts.v
BucketFacts.v
FinalizerFacts.v
ShelfFacts.v
ResultFacts.v
ReconcilerFacts.v
SubmissionFacts.v
HubModel.v
Scenario.v
ControllerScenario.v
PassScenario.v
EvidenceScenario.v
FinalizerScenario.v
ControllerProperties.v
CampaignStoreProperties.v
CoordinationProperties.v
EndpointProperties.v
PlannerProperties.v
LaunchProperties.v
ControlProperties.v
RecoveryProperties.v
PlanProperties.v
PassProperties.v
UsageProperties.v
EvidenceProperties.v
ResultProperties.v
