(* ===== verification/Prelude.v ===== *)
(** * harbor-hf: a verification development

    harbor-hf runs agent benchmarks as campaigns on remote infrastructure.  An
    experiment manifest is planned into a campaign: runs, shards and logical
    trials with content-derived identities.  A campaign is driven by an
    append-only set of events in a coordination Dataset; a controller Job
    reconciles it again and again: it observes evidence, projects the events
    into a state, plans actions within budgets, reserves each action durably and
    applies it.  Endpoints, Jobs, buckets and the Dataset are remote, calls fail
    in ambiguous ways and controllers are replaced, so that the correctness of
    the program lies in its state machines, its identities, its optimistic
    transactions and the order of its durable writes.  The library models the
    Python package src/src/harbor_hf and proves these parts.

    ** How the program is modelled

    A pure function is a Rocq function; a function that raises returns [result]
    ([Ok] or [Err] with the exception class, Prelude).  A function with effects
    is a computation [hub W A] over the world [W] of its services (Hub): a state
    and error function, whose [try]/[except] and [finally] are combinators.  A
    Pydantic model is a record; its validators are a boolean function or a
    function [validate_X] that raises or returns the record as the validators
    rewrite it.  Enumerations are inductive types, Python dictionaries are
    association lists in insertion order (PyDict), integers are [Z] (Python's
    are unbounded), floats are binary64 (Float64), strings are the bytes of
    their UTF-8 text (so that their order is that of the code points, a JSON text
    escapes code points, and a length is exact for ASCII text; digits, cases and
    blanks are the ASCII ones) and datetimes and clocks microseconds in UTC
    (PyText).  SHA-256 is executable (Sha256),
    since every identity is a digest.  Code outside the package is a class of
    operations ([HubApi], [JobsApi], [HfJobsApi], [BucketApi],
    [EndpointProvisioningPort], [EvidenceParsers], [ParquetFormat],
    [PydanticModel], clocks and identifiers) and what the program relies on of it is a class of laws
    ([HubLaws], [JobsLaws], [BucketLaws], [OwnedBucket], [ClockLaws],
    [PydanticLaws]).  Each class of laws has an
    instance: HubModel, ControllerScenario, PassScenario, EvidenceScenario and
    the scenarios of the property files are in-memory services on which the
    definitions run.  Other clients of the Dataset are part of the laws: between
    two calls [main] may grow by any steps of the protocol, and a commit may be
    made although its answer is lost.

    ** The parts

    - Language and libraries: Prelude (results, the exceptions, folds, tactics),
      PyDict, Float64, Sha256, Paths, PyText, Json, Patterns; Hub (computations, the Dataset client, the commit loop of
      coordination and control stores, and a logic [keeps] of what a computation
      keeps, whatever way it ends).
    - Manifest: Models, Manifest, ManifestFacts (models.py, provider_models.py,
      evidence.py, task_selection.py, provider_agents.py).
    - Planning: Planner, PlannerFacts (planner.py, benchmark_source.py,
      [build_campaign_plan] of campaigns.py).
    - Locks: Campaigns (campaigns.py), Waves, WaveFacts (runs.py and the wave
      locks of campaigns.py).
    - The event log: Control, ControlFacts ([ordered_events] and
      [project_campaign] of control.py), Recovery, RecoveryFacts (recovery.py),
      Reconciler, ReconcilerFacts, SubmissionFacts (reconciler.py and what
      campaigns.py accepts of its actions).
    - The stores: ControlStore ([HubCampaignStore]) with its protocol
      CampaignProtocol and CampaignStoreFacts, HubStoreLaws; ControllerStatus
      ([HubControllerStateStore]) with ControllerProtocol and
      ControllerStoreFacts; Coordination ([HubClaimStore]).  A protocol is a step
      relation on trees of the Dataset: the abstract specification that every
      operation of a store refines, and that other clients are assumed to follow.
    - Endpoints: Endpoints, EndpointFacts (endpoints.py).
    - The controller: Launch, LaunchFacts (the launch part of submission.py),
      Watchdog (campaign_watchdog.py; its facts are in LaunchFacts), Admission
      (controller_admission.py and the decisions of campaign_controller.py).
    - A pass: Apply, CampaignPass, PassFacts (campaign_apply.py).  The pass is
      proved against the interface [CampaignStoreLaws], which HubStoreLaws
      discharges for the Hub store.
    - Evidence: Observer, ObserverFacts (campaign_observer.py), BucketEvidence,
      BucketFacts (bucket_evidence.py).  The observer is proved against the
      interface [EvidenceReaderLaws], which BucketFacts discharges for the
      reader with its cache.
    - Finalization: Envelope (publication_envelope.py), NativeBundle
      (harbor_native_bundle.py and the records of harbor_adapter/models.py),
      ResultModels (the evidence records of results.py), Finalizer,
      FinalizerFacts (campaign_finalizer.py).  The finalizer is proved against
      the interface [EvidenceShelf] of what it stores, which ShelfFacts
      discharges for the bucket reader and writer when no other client writes
      below the prefix of the campaign ([OwnedBucket]).
    - Results: ResultTables (rows), Results (verification, provenance, tables,
      rebuild, audit), Composition ([compose_result_tables]), ResultFiles
      (scores, files of a publication, projection, index, catalog), ResultFacts;
      all of results.py but the Arrow schemas.
    - Concrete data: Scenario, HubModel, ControllerScenario, PassScenario,
      EvidenceScenario and
      FinalizerScenario.

    ** What the theorems show

    - PlanProperties: a plan respects wave, campaign and spend budgets, plans
      nothing billable for a campaign that stops or waits for an operator,
      depends on the set of events only, and starts waves of free shards and of
      trials whose retry is due.
    - ControlProperties, RecoveryProperties: terminal statuses absorb,
      cancellation is permanent, waves and executions move along their life
      cycles, spend is the sum of what was recorded, a terminal decision is
      sound, retry delays are bounded.
    - ControllerProperties, CampaignStoreProperties, CoordinationProperties:
      the stores follow their protocols, and what these promise: exclusive
      leases and provider capacity, monotone statuses, records written once,
      cancellations that win against terminal events.
    - PassProperties, UsageProperties: a billable Job starts only for an action
      whose reservation is on record, a stopped campaign starts none, a pass
      takes up its selected actions in order and has their outcomes on record, an
      unfinished action is taken up again, admission usage counts each wave once.
    - EvidenceProperties: only units with verified digests become events,
      evidence is never overwritten, reads are repeatable.
    - ResultProperties: a run is marked successful only
      after its manifest, which covers its files exactly; a campaign is marked
      only over sealed runs; a scored trial has a verified bundle; a
      publication rests on verified evidence; a composition resolves every task
      exactly once.
    - PlannerProperties, EndpointProperties, LaunchProperties: a plan covers the
      matrix exactly, locks are reproducible and match their action, validation
      is idempotent, an endpoint is used only when it is exactly the desired one
      and is not left running, one Job per controller attempt, a recovery is due
      and on record with its decision, its reservation and its Job.

    ** Bounds

    The commit loops try [_MAX_COMMIT_ATTEMPTS] times, as the source does. The
    polling loops of endpoints have no bound in the source but their deadline:
    they run on the fuel [polls], the number of poll intervals in the timeout
    and two, and [EndpointProperties.provisioning_terminates] shows that it is
    never used up when sleeping advances the clock.  The other loops are folds
    over finite lists.

    ** Not modelled

    Subprocesses, threads, signals, file systems, HTTP clients and proxies
    (worker.py, wave_worker.py, profile_worker.py, provider_proxy.py,
    judge_recorder.py, hf_endpoints.py, benchmark_bundle.py,
    benchmark_staging.py), and what is there to call them (cli.py,
    automation.py, operations.py).  In campaign_controller.py the threads and
    the in-process executor of a controller.  In results.py the Arrow schemas of
    the tables and the manifest of schemas: Parquet is the class
    [ParquetFormat].  Upload, correction and migration of publications
    (result_publisher.py, publication_correction.py, reassessment.py,
    private_artifacts.py, migration.py, catalog_cutover.py) and the extraction of
    evidence from trial directories (trial_evidence.py).
    Pydantic's conversion of JSON into typed fields is the class
    [PydanticModel] or a parser of [EvidenceParsers], [BundleParsers],
    [RunLockParser] or [ResultParsers]: the validators are
    modelled, the coercions are not.  Regular expressions are written out as
    boolean functions.  The TypeScript services and the agent adapters are other
    programs. *)
From Stdlib Require Export Ascii.
From stdpp Require Export base tactics option list sets strings pretty gmap.
From Stdlib Require Export ZArith Lia Sorted.

#[global] Open Scope Z_scope.

(** ** Exceptions and the error monad

    Every Python exception the modelled code raises is a constructor; the
    string is the message of the [raise].  [KeyError], [AttributeError] and
    [TypeError] are the exceptions the language itself raises (a missing
    dictionary key, a payload of the wrong class, arithmetic on [None]).
    [OutOfFuel] is no exception of the program: it marks a polling loop that was
    given too few steps, and the loops are proved never to end with it. *)
Inductive exn : Type :=
  | ValueError (message : string)
  | ControlError (message : string)
  | CampaignConflict (message : string)
  | CampaignCancellationWon (message : string)
  | CoordinationError (message : string)
  | ClaimConflict (message : string)
  | ControllerStatusError (message : string)
  | ControllerOwnershipConflict (message : string)
  | ProviderCapacityUnavailable (message : string)
  | ControllerLaunchUnavailable (message : string)
  | CampaignControllerError (message : string)
  | CampaignWatchdogError (message : string)
  | CampaignObservationError (message : string)
  | CampaignApplyError (message : string)
  | ActionExecutionError (message : string)
  | AmbiguousActionOutcome (message : string)
  | CampaignFinalizationError (message : string)
  | ManifestError (message : string)
  | BucketEvidenceError (message : string)
  | ResultPublicationError (message : string)
  | TrialEvidenceError (message : string)
  | JudgeRecorderError (message : string)
  | ProviderProxyError (message : string)
  | NativeBundleError (message : string)
  | WorkerError (message : string)
  | UnicodeDecodeError
  | ProcessError (message : string)
  | ValidationError (message : string)
  | EndpointProvisioningError (message : string)
  | EndpointNotFound (message : string)
  | EndpointProviderError (message : string)
  | AmbiguousEndpointCreate (message : string)
  | AmbiguousEndpointPause (message : string)
  | AmbiguousEndpointDelete (message : string)
  | EndpointVerificationTimeout (message : string)
  | EndpointConfigurationMismatch (message : string)
  | EndpointIdentityMismatch (message : string)
  | EndpointNotPaused (message : string)
  | AssertionError
  | RuntimeError (message : string)
  | OSError (message : string)
  | TransportError
  | StopIteration
  | HfHubHTTPError (status_code : Z)
  | EntryNotFoundError
  | KeyError (key : string)
  | IndexError
  | OverflowError
  | AttributeError
  | TypeError
  | OutOfFuel.

#[export] Instance exn_eq_dec : EqDecision exn.
Proof. solve_decision. Defined.

(** [isinstance(error, ValueError)], and the same for [OSError] (the errors of
    the Hub client are [OSError]s) and [RuntimeError]. *)
Definition is_value_error (e : exn) : bool :=
  match e with ValueError _ | ValidationError _ | ManifestError _ | UnicodeDecodeError => true | _ => false end.

Definition is_os_error (e : exn) : bool :=
  match e with OSError _ | HfHubHTTPError _ | EntryNotFoundError => true | _ => false end.

Definition is_runtime_error (e : exn) : bool :=
  match e with
  | RuntimeError _ | ControlError _ | CampaignConflict _ | CampaignCancellationWon _
  | CoordinationError _ | ClaimConflict _ | ControllerStatusError _ | ControllerOwnershipConflict _
  | ProviderCapacityUnavailable _ | ControllerLaunchUnavailable _ | CampaignControllerError _
  | CampaignWatchdogError _ | CampaignObservationError _ | CampaignApplyError _
  | ActionExecutionError _ | AmbiguousActionOutcome _ | CampaignFinalizationError _ | ProcessError _
  | EndpointProvisioningError _ | EndpointNotFound _ | EndpointProviderError _
  | AmbiguousEndpointCreate _ | AmbiguousEndpointPause _ | AmbiguousEndpointDelete _
  | EndpointVerificationTimeout _ | EndpointConfigurationMismatch _ | EndpointIdentityMismatch _
  | EndpointNotPaused _ | BucketEvidenceError _ | ResultPublicationError _ | TrialEvidenceError _
  | JudgeRecorderError _ | ProviderProxyError _ | NativeBundleError _ | WorkerError _ => true
  | _ => false
  end.

Inductive result (A : Type) : Type :=
  | Ok (value : A)
  | Err (error : exn).
Arguments Ok {A} value.
Arguments Err {A} error.

#[export] Instance result_eq_dec `{EqDecision A} : EqDecision (result A).
Proof. solve_decision. Defined.

Definition result_bind {A B} (m : result A) (k : A -> result B) : result B :=
  match m with Ok a => k a | Err e => Err e end.

Declare Scope py_scope.
Delimit Scope py_scope with py.
Notation "'let*' x ':=' m 'in' k" := (result_bind m (fun x => k))
  (at level 10, x name, m at level 200, k at level 200, only parsing) : py_scope.
Notation "'let*' ' x ':=' m 'in' k" := (result_bind m (fun x => k))
  (at level 10, x strict pattern, m at level 200, k at level 200, only parsing) : py_scope.
Notation "'raise_if' c 'with' e ;; k" := (if c then Err e else k)
  (at level 10, c at level 200, e at level 99, k at level 200, only parsing) : py_scope.
#[global] Open Scope py_scope.

Lemma result_bind_Ok {A B} (m : result A) (k : A -> result B) b :
  result_bind m k = Ok b <-> exists a, m = Ok a /\ k a = Ok b.
Proof. destruct m; naive_solver. Qed.

Lemma result_bind_Err {A B} (m : result A) (k : A -> result B) e :
  result_bind m k = Err e <->
  m = Err e \/ exists a, m = Ok a /\ k a = Err e.
Proof. destruct m; naive_solver. Qed.

Lemma result_bind_assoc {A B C} (m : result A) (f : A -> result B) (g : B -> result C) :
  result_bind (result_bind m f) g = result_bind m (fun a => result_bind (f a) g).
Proof. by destruct m. Qed.

(** [inv_ok] decomposes every hypothesis that says a monadic computation
    returned: binds are split, guards that raise are discharged. *)
Ltac inv_ok_step :=
  match goal with
  | H : Ok _ = Ok _ |- _ => injection H as H; try subst
  | H : Err _ = Ok _ |- _ => discriminate H
  | H : Ok _ = Err _ |- _ => discriminate H
  | H : result_bind _ _ = Ok _ |- _ =>
      let a := fresh "v" in let Ha := fresh "Hv" in
      apply result_bind_Ok in H as (a & Ha & H); cbn beta iota in H
  | H : (if ?c then Err _ else _) = Ok _ |- _ =>
      let Hc := fresh "Hc" in destruct c eqn:Hc; [discriminate H|]
  | H : (if ?c then _ else Err _) = Ok _ |- _ =>
      let Hc := fresh "Hc" in destruct c eqn:Hc; [|discriminate H]
  end.
Ltac inv_ok := repeat inv_ok_step.

(** [map] and left fold of a raising function, in the order Python evaluates. *)
Fixpoint mapM {A B} (f : A -> result B) (l : list A) : result (list B) :=
  match l with
  | [] => Ok []
  | x :: l => let* y := f x in let* ys := mapM f l in Ok (y :: ys)
  end.

Fixpoint foldM {A S} (f : S -> A -> result S) (s : S) (l : list A) : result S :=
  match l with
  | [] => Ok s
  | x :: l => let* s' := f s x in foldM f s' l
  end.

Lemma mapM_Forall2 {A B} (f : A -> result B) l ys :
  mapM f l = Ok ys <-> Forall2 (fun x y => f x = Ok y) l ys.
Proof.
  split.
  - revert ys; induction l as [|x l IH]; intros ys H; cbn in H; inv_ok; eauto.
  - induction 1 as [|x y l ys Hx _ IH]; cbn; [done|]. by rewrite Hx, IH.
Qed.

Lemma mapM_length {A B} (f : A -> result B) l ys :
  mapM f l = Ok ys -> length ys = length l.
Proof. intros H%mapM_Forall2. symmetry. by eapply Forall2_length. Qed.

Lemma mapM_pure {A B} (f : A -> result B) (g : A -> B) l :
  (forall x, x ∈ l -> f x = Ok (g x)) -> mapM f l = Ok (map g l).
Proof.
  induction l as [|x l IH]; intros H; cbn; [done|].
  rewrite H by set_solver. cbn. rewrite IH by set_solver. done.
Qed.

Lemma foldM_app {A S} (f : S -> A -> result S) s l1 l2 :
  foldM f s (l1 ++ l2) = (let* s' := foldM f s l1 in foldM f s' l2).
Proof.
  revert s; induction l1 as [|x l1 IH]; intros s; cbn; [done|].
  destruct (f s x); cbn; auto.
Qed.

(** Rule induction over a successful fold: an invariant of the accumulator. *)
(** As [foldM_invariant], for a property of the elements read so far. *)
Lemma foldM_prefix_go {A S} (P : list A -> S -> Prop) (f : S -> A -> result S) l0 l s s' :
  P l0 s ->
  (forall l1 x l2 s s', l0 ++ l = l1 ++ x :: l2 -> P l1 s -> f s x = Ok s' -> P (l1 ++ [x]) s') ->
  foldM f s l = Ok s' -> P (l0 ++ l) s'.
Proof.
  revert l0 s. induction l as [|x l IH]; intros l0 s H0 Hstep H; cbn in H.
  - injection H as <-. by rewrite app_nil_r.
  - apply result_bind_Ok in H as (s1 & E & H).
    change (x :: l) with ([x] ++ l). rewrite app_assoc. apply (IH _ s1); [| |done].
    + by apply (Hstep l0 x l s s1).
    + intros l1 y l2 t t' Hl. rewrite <- app_assoc in Hl. by apply (Hstep l1 y l2).
Qed.

Lemma foldM_prefix_invariant {A S} (P : list A -> S -> Prop) (f : S -> A -> result S) l s s' :
  P [] s ->
  (forall l1 x l2 s s', l = l1 ++ x :: l2 -> P l1 s -> f s x = Ok s' -> P (l1 ++ [x]) s') ->
  foldM f s l = Ok s' -> P l s'.
Proof. apply (foldM_prefix_go P f [] l). Qed.

Lemma foldM_invariant {A S} (P : S -> Prop) (f : S -> A -> result S) l s s' :
  (forall s x s', x ∈ l -> P s -> f s x = Ok s' -> P s') ->
  P s -> foldM f s l = Ok s' -> P s'.
Proof.
  revert s; induction l as [|x l IH]; intros s Hstep Hs H; cbn in H; inv_ok; [done|].
  eapply (IH v); [|eapply Hstep; [by left|exact Hs|exact Hv]|exact H].
  intros; eapply Hstep; eauto. by right.
Qed.

(** Two folds that agree step by step up to a relation agree. *)
Lemma foldM_rel {A S} (R : S -> S -> Prop) (f : S -> A -> result S) l s s' :
  (forall s, R s s) -> (forall a b c, R a b -> R b c -> R a c) ->
  (forall s x s', x ∈ l -> f s x = Ok s' -> R s s') ->
  foldM f s l = Ok s' -> R s s'.
Proof.
  intros Hrefl Htrans Hstep H.
  eapply (foldM_invariant (R s)); [|apply Hrefl|exact H].
  intros s1 x s2 Hin H1 H2. eauto.
Qed.

(** Evaluate the decisions between closed constants, in the goal and the hypotheses. *)
Ltac bd_const :=
  repeat match goal with
  | |- context [bool_decide ?P] =>
      let b := eval vm_compute in (bool_decide P) in
      lazymatch b with
      | true => change (bool_decide P) with true
      | false => change (bool_decide P) with false
      end
  | H : context [bool_decide ?P] |- _ =>
      let b := eval vm_compute in (bool_decide P) in
      lazymatch b with
      | true => change (bool_decide P) with true in H
      | false => change (bool_decide P) with false in H
      end
  end; cbn [andb orb negb] in *.

(** ** Python integers, lists and strings *)
Definition len {A} (l : list A) : Z := Z.of_nat (length l).

Lemma len_nonneg {A} (l : list A) : 0 <= len l.
Proof. unfold len. lia. Qed.

Lemma len_app {A} (l k : list A) : len (l ++ k) = len l + len k.
Proof. unfold len. rewrite length_app. lia. Qed.

Lemma len_cons {A} (x : A) l : len (x :: l) = 1 + len l.
Proof. unfold len. cbn. lia. Qed.

Definition sum_z (l : list Z) : Z := foldr Z.add 0 l.

Lemma sum_z_cons x l : sum_z (x :: l) = x + sum_z l.
Proof. done. Qed.

Lemma sum_z_app l k : sum_z (l ++ k) = sum_z l + sum_z k.
Proof. unfold sum_z. induction l; cbn; lia. Qed.

Lemma sum_z_nonneg l : Forall (fun x => 0 <= x) l -> 0 <= sum_z l.
Proof. unfold sum_z. induction 1; cbn; lia. Qed.

Lemma sum_z_perm l k : l ≡ₚ k -> sum_z l = sum_z k.
Proof. unfold sum_z. induction 1; cbn; lia. Qed.

(** [sum(p(x) for x in l)] of booleans: the number of elements satisfying [p]. *)
Definition count_if {A} (p : A -> bool) (l : list A) : Z :=
  sum_z (map (fun x => if p x then 1 else 0) l).

#[global] Arguments len : simpl never.
#[global] Arguments sum_z : simpl never.
#[global] Arguments count_if : simpl never.

Lemma count_if_cons {A} (p : A -> bool) x l :
  count_if p (x :: l) = (if p x then 1 else 0) + count_if p l.
Proof. done. Qed.

Lemma count_if_bounds {A} (p : A -> bool) l : 0 <= count_if p l <= len l.
Proof.
  induction l as [|x l IH]; [done|].
  rewrite count_if_cons, len_cons. destruct (p x); lia.
Qed.

Lemma count_if_forallb {A} (p : A -> bool) l :
  forallb p l = true -> count_if p l = len l.
Proof.
  induction l as [|x l IH]; cbn; [done|].
  intros [Hx Hl]%andb_prop. rewrite count_if_cons, len_cons, Hx, IH; done.
Qed.

(** Membership in a list of strings, Python's [x in xs]. *)
Definition str_mem (x : string) (l : list string) : bool := existsb (String.eqb x) l.

Lemma str_mem_true x l : str_mem x l = true <-> x ∈ l.
Proof.
  unfold str_mem. rewrite existsb_exists. split.
  - intros (y & Hy & ->%String.eqb_eq). by apply list_elem_of_In.
  - intros H. exists x. split; [by apply list_elem_of_In|apply String.eqb_refl].
Qed.

Lemma str_mem_false x l : str_mem x l = false <-> x ∉ l.
Proof. rewrite <- str_mem_true. destruct (str_mem x l); naive_solver. Qed.

(** [len(xs) == len(set(xs))]: no duplicates. *)
Definition str_unique (l : list string) : bool :=
  Nat.eqb (length l) (length (remove_dups l)).

Lemma length_remove_dups_le (l : list string) :
  (length (remove_dups l) <= length l)%nat.
Proof. induction l as [|x l IH]; cbn; [done|]. case_decide; cbn; lia. Qed.

Lemma str_unique_NoDup l : str_unique l = true <-> NoDup l.
Proof.
  unfold str_unique. rewrite Nat.eqb_eq. induction l as [|x l IH]; cbn.
  - split; [constructor|done].
  - rewrite NoDup_cons. case_decide as Hx; cbn.
    + pose proof (length_remove_dups_le l). split; [lia|naive_solver].
    + rewrite <- IH. naive_solver lia.
Qed.

(** [NoDup] of images. *)
Lemma NoDup_of_map {A B} (f : A -> B) l : NoDup (map f l) -> NoDup l.
Proof.
  induction l as [|x l IH]; cbn; [constructor|]. rewrite !NoDup_cons. intros [H1 H2].
  split; [|auto]. intros Hx. apply H1. apply list_elem_of_In, in_map. by apply list_elem_of_In.
Qed.

Lemma NoDup_map_inj {A B} (f : A -> B) l x y :
  NoDup (map f l) -> x ∈ l -> y ∈ l -> f x = f y -> x = y.
Proof.
  induction l as [|z l IH]; cbn; [by intros _ ?%elem_of_nil|].
  rewrite NoDup_cons, !elem_of_cons. intros [Hz Hl] Hx Hy Hf.
  assert (forall w, w ∈ l -> f w ∈ map f l) as Hin
    by (intros w Hw; apply list_elem_of_In, in_map; by apply list_elem_of_In).
  destruct Hx as [->|Hx], Hy as [->|Hy]; [done| | |auto].
  - destruct Hz. rewrite Hf. auto.
  - destruct Hz. rewrite <- Hf. auto.
Qed.

Lemma concat_elem {A} (l : list (list A)) x : x ∈ concat l -> exists k, k ∈ l /\ x ∈ k.
Proof.
  rewrite list_elem_of_In, in_concat. intros (k & Hk & Hx). exists k.
  by rewrite !list_elem_of_In.
Qed.

Lemma concat_elem_2 {A} (l : list (list A)) k x : k ∈ l -> x ∈ k -> x ∈ concat l.
Proof. rewrite !list_elem_of_In, in_concat. eauto. Qed.

Lemma filter_elem_of {A} (p : A -> bool) l x : x ∈ List.filter p l <-> x ∈ l /\ p x = true.
Proof. by rewrite !list_elem_of_In, filter_In. Qed.

Lemma NoDup_map_filter {A B} (f : A -> B) (p : A -> bool) l :
  NoDup (map f l) -> NoDup (map f (List.filter p l)).
Proof.
  induction l as [|x l IH]; cbn; [done|]. rewrite NoDup_cons. intros [Hx Hl].
  destruct (p x); cbn; [|auto]. apply NoDup_cons. split; [|auto].
  intros Hin. apply Hx. apply list_elem_of_fmap in Hin as (y & Hy & Hin).
  apply filter_elem_of in Hin as [Hin _]. apply list_elem_of_fmap. eauto.
Qed.

(** ** Ordering

    [sorted] of Python is stable: [sort_by] is the insertion sort that keeps
    equal elements in their original order, hence computes the same list as
    any stable sort. *)
Section sorting.
Context {A : Type} (le : A -> A -> bool).

Fixpoint insert_by (x : A) (l : list A) : list A :=
  match l with
  | [] => [x]
  | y :: l' => if le x y then x :: y :: l' else y :: insert_by x l'
  end.

Definition sort_by (l : list A) : list A := foldr insert_by [] l.

Lemma insert_by_perm x l : insert_by x l ≡ₚ x :: l.
Proof.
  induction l as [|y l IH]; cbn; [done|].
  destruct (le x y); [done|]. rewrite IH. constructor.
Qed.

Lemma sort_by_perm l : sort_by l ≡ₚ l.
Proof. induction l as [|x l IH]; cbn; [done|]. by rewrite insert_by_perm, IH. Qed.

Lemma sort_by_elem_of x l : x ∈ sort_by l <-> x ∈ l.
Proof. by rewrite sort_by_perm. Qed.

Lemma sort_by_length l : length (sort_by l) = length l.
Proof. by rewrite sort_by_perm. Qed.

Hypothesis le_total : forall x y, le x y = true \/ le y x = true.
Hypothesis le_trans : forall x y z, le x y = true -> le y z = true -> le x z = true.

Abbreviation ordered := (StronglySorted (fun x y => le x y = true)).

Lemma insert_by_sorted x l : ordered l -> ordered (insert_by x l).
Proof.
  induction 1 as [|y l Hl IH Hy]; cbn; [repeat constructor|].
  destruct (le x y) eqn:E.
  - constructor; [by constructor|]. constructor; [done|].
    eapply Forall_impl; [exact Hy|]. cbn; eauto.
  - constructor; [done|]. rewrite insert_by_perm. constructor; [|done].
    destruct (le_total x y); congruence.
Qed.

Lemma sort_by_sorted l : ordered (sort_by l).
Proof. induction l; cbn; [constructor|by apply insert_by_sorted]. Qed.

Lemma ordered_snoc l x : ordered l -> (forall y, y ∈ l -> le y x = true) -> ordered (l ++ [x]).
Proof.
  induction 1 as [|y l Hl IH Hy]; intros Hx; cbn; [repeat constructor|]. constructor.
  - apply IH. intros z Hz. apply Hx. by right.
  - apply Forall_app. split; [done|]. apply Forall_singleton, Hx. by left.
Qed.

(** A sorted list is determined by its elements when the order separates them. *)
Lemma sorted_unique l k :
  (forall x y, x ∈ l -> y ∈ l -> le x y = true -> le y x = true -> x = y) ->
  ordered l -> ordered k -> l ≡ₚ k -> l = k.
Proof.
  intros Hanti Hl. revert k Hanti.
  induction Hl as [|x l Hl IH Hx]; intros k Hanti Hk Hp.
  { by apply Permutation_nil_l in Hp as ->. }
  destruct Hk as [|y k Hk Hy]; [by apply Permutation_nil_r in Hp|].
  assert (x = y) as <-.
  { assert (x ∈ y :: k) as [->|Hin]%elem_of_cons by (rewrite <- Hp; by left); [done|].
    assert (y ∈ x :: l) as [->|Hin']%elem_of_cons by (rewrite Hp; by left); [done|].
    rewrite Forall_forall in Hx, Hy.
    apply Hanti; [by left|by right|by apply Hx|by apply Hy]. }
  f_equal. apply IH; [|done|by eapply Permutation_cons_inv].
  intros a b Ha Hb. apply Hanti; by right.
Qed.

Lemma sort_by_perm_eq l k :
  (forall x y, x ∈ l -> y ∈ l -> le x y = true -> le y x = true -> x = y) ->
  l ≡ₚ k -> sort_by l = sort_by k.
Proof.
  intros Hanti Hp. apply sorted_unique; try apply sort_by_sorted.
  - intros x y Hx Hy. rewrite sort_by_elem_of in Hx, Hy. by apply Hanti.
  - by rewrite (sort_by_perm l), (sort_by_perm k).
Qed.

Lemma sort_by_id l : ordered l -> sort_by l = l.
Proof.
  induction 1 as [|x l Hl IH Hx]; [done|].
  change (sort_by (x :: l)) with (insert_by x (sort_by l)). rewrite IH.
  destruct Hx as [|y l Hxy _]; cbn; [done|by rewrite Hxy].
Qed.
End sorting.

(** Sorting by a key, and the order of Python strings (code points). *)
Fixpoint str_leb (s t : string) : bool :=
  match s, t with
  | EmptyString, _ => true
  | String _ _, EmptyString => false
  | String a s', String b t' =>
      let x := Ascii.N_of_ascii a in let y := Ascii.N_of_ascii b in
      if (x <? y)%N then true else if (y <? x)%N then false else str_leb s' t'
  end.

Lemma str_leb_total s t : str_leb s t = true \/ str_leb t s = true.
Proof.
  revert t; induction s as [|a s IH]; intros [|b t]; cbn; auto.
  destruct (N.ltb_spec (Ascii.N_of_ascii a) (Ascii.N_of_ascii b)),
    (N.ltb_spec (Ascii.N_of_ascii b) (Ascii.N_of_ascii a)); auto; lia.
Qed.

Lemma str_leb_trans s t u :
  str_leb s t = true -> str_leb t u = true -> str_leb s u = true.
Proof.
  revert t u; induction s as [|a s IH]; intros [|b t] [|c u]; cbn; try done.
  destruct (N.ltb_spec (Ascii.N_of_ascii a) (Ascii.N_of_ascii b)),
    (N.ltb_spec (Ascii.N_of_ascii b) (Ascii.N_of_ascii a)),
    (N.ltb_spec (Ascii.N_of_ascii b) (Ascii.N_of_ascii c)),
    (N.ltb_spec (Ascii.N_of_ascii c) (Ascii.N_of_ascii b)),
    (N.ltb_spec (Ascii.N_of_ascii a) (Ascii.N_of_ascii c)),
    (N.ltb_spec (Ascii.N_of_ascii c) (Ascii.N_of_ascii a)); try done; try lia.
  eauto.
Qed.

Lemma str_leb_antisym s t : str_leb s t = true -> str_leb t s = true -> s = t.
Proof.
  revert t; induction s as [|a s IH]; intros [|b t]; cbn; try done.
  destruct (N.ltb_spec (Ascii.N_of_ascii a) (Ascii.N_of_ascii b)),
    (N.ltb_spec (Ascii.N_of_ascii b) (Ascii.N_of_ascii a)); try done; try lia.
  intros H1 H2. assert (Ascii.N_of_ascii a = Ascii.N_of_ascii b) as E by lia.
  rewrite <- (Ascii.ascii_N_embedding a), <- (Ascii.ascii_N_embedding b), E.
  f_equal; auto.
Qed.

(** The order on pairs and tuples compares components from left to right. *)
Definition lex_leb {K L} (eqK : K -> K -> bool) (leK : K -> K -> bool)
    (leL : L -> L -> bool) (x y : K * L) : bool :=
  if eqK x.1 y.1 then leL x.2 y.2 else leK x.1 y.1.

Section lex.
Context {K L : Type} (eqK leK : K -> K -> bool) (leL : L -> L -> bool).
Hypothesis eqK_spec : forall x y, eqK x y = true <-> x = y.
Hypothesis leK_total : forall x y, leK x y = true \/ leK y x = true.
Hypothesis leK_trans : forall x y z, leK x y = true -> leK y z = true -> leK x z = true.
Hypothesis leK_antisym : forall x y, leK x y = true -> leK y x = true -> x = y.
Hypothesis leL_total : forall x y, leL x y = true \/ leL y x = true.
Hypothesis leL_trans : forall x y z, leL x y = true -> leL y z = true -> leL x z = true.

Local Ltac lex_cases :=
  unfold lex_leb; cbn;
  repeat match goal with
  | |- context [eqK ?x ?y] =>
      let E := fresh "E" in
      destruct (eqK x y) eqn:E;
      [apply eqK_spec in E; subst|
       assert (x <> y) by (intros ?; apply eqK_spec in E || (rewrite <- not_true_iff_false in E; by apply E, eqK_spec)); clear E]
  end.

Lemma lex_leb_total x y :
  lex_leb eqK leK leL x y = true \/ lex_leb eqK leK leL y x = true.
Proof. destruct x, y. lex_cases; try congruence; auto. Qed.

Lemma lex_leb_trans x y z :
  lex_leb eqK leK leL x y = true -> lex_leb eqK leK leL y z = true ->
  lex_leb eqK leK leL x z = true.
Proof.
  destruct x, y, z. lex_cases; try congruence; eauto.
Qed.

Lemma lex_leb_antisym x y :
  (forall a b, leL a b = true -> leL b a = true -> a = b) ->
  lex_leb eqK leK leL x y = true -> lex_leb eqK leK leL y x = true -> x = y.
Proof.
  intros Hanti. destruct x, y. lex_cases; try congruence; intros H1 H2.
  - f_equal; auto.
  - exfalso; eauto.
Qed.
End lex.

Lemma existsb_negb {A} (f : A -> bool) l :
  existsb (fun x => negb (f x)) l = false -> forallb f l = true.
Proof.
  induction l as [|x l IH]; simpl; [done|].
  intros [H1 H2]%orb_false_iff. apply negb_false_iff in H1. by rewrite H1, IH.
Qed.

Lemma find_unique {A} (f : A -> bool) l x :
  x ∈ l -> f x = true -> (forall y, y ∈ l -> f y = true -> y = x) -> List.find f l = Some x.
Proof.
  intros Hx Hf Hu. destruct (List.find f l) as [y|] eqn:E.
  - apply find_some in E as [Hy Hfy]. f_equal. apply Hu; [by apply list_elem_of_In|done].
  - apply list_elem_of_In in Hx. pose proof (find_none _ _ E _ Hx). congruence.
Qed.

Lemma concat_map_perm {A B} (f g : A -> list B) l k :
  l ≡ₚ k -> (forall x, f x ≡ₚ g x) -> concat (map f l) ≡ₚ concat (map g k).
Proof.
  intros Hl Hfg. transitivity (concat (map g l)).
  - clear Hl. induction l as [|x l IH]; simpl; [done|]. by rewrite Hfg, IH.
  - rewrite <- !flat_map_concat_map. by apply Permutation_flat_map.
Qed.

(** ** Slicing a list into chunks

    [[l[o : o + n] for o in range(0, len(l), n)]]: a zero step raises, a
    negative step makes the range empty. *)
Fixpoint chunks_go {A} (fuel : nat) (n : nat) (l : list A) : list (list A) :=
  match fuel, l with
  | S fuel, _ :: _ => take n l :: chunks_go fuel n (drop n l)
  | _, _ => []
  end.

Definition chunks {A} (n : Z) (l : list A) : result (list (list A)) :=
  if n =? 0 then Err (ValueError "range() arg 3 must not be zero")
  else if n <? 0 then Ok []
  else Ok (chunks_go (length l) (Z.to_nat n) l).

Section chunks.
Context {A : Type}.
Implicit Types l : list A.

Lemma chunks_go_concat fuel n l :
  (0 < n)%nat -> (length l <= fuel)%nat -> concat (chunks_go fuel n l) = l.
Proof.
  revert l; induction fuel as [|fuel IH]; intros [|x l] Hn Hl; cbn in *; try done; try lia.
  rewrite IH by (rewrite ?length_drop; cbn; lia).
  destruct n; [lia|]. cbn. f_equal. apply take_drop.
Qed.

Lemma chunks_go_bounds fuel n l c :
  (0 < n)%nat -> c ∈ chunks_go fuel n l -> c <> [] /\ (length c <= n)%nat.
Proof.
  revert l; induction fuel as [|fuel IH]; intros [|x l] Hn; cbn; rewrite ?elem_of_nil; try done.
  rewrite elem_of_cons. intros [->|H]; [|by eapply IH].
  destruct n; [lia|]. split; [done|]. rewrite length_take. lia.
Qed.

Lemma chunks_concat n l cs : 0 < n -> chunks n l = Ok cs -> concat cs = l.
Proof.
  unfold chunks. intros Hn. destruct (Z.eqb_spec n 0), (Z.ltb_spec n 0); try lia.
  intros [= <-]. apply chunks_go_concat; lia.
Qed.

Lemma chunks_bounds n l cs c :
  chunks n l = Ok cs -> c ∈ cs -> c <> [] /\ len c <= n.
Proof.
  unfold chunks, len. destruct (Z.eqb_spec n 0), (Z.ltb_spec n 0); try done.
  - intros [= <-]. by rewrite elem_of_nil.
  - intros [= <-] [Hc Hl]%chunks_go_bounds; [|lia]. split; [done|lia].
Qed.

Lemma chunks_total n l : n <> 0 -> exists cs, chunks n l = Ok cs.
Proof.
  unfold chunks. destruct (Z.eqb_spec n 0); [done|]. destruct (n <? 0); eauto.
Qed.

Lemma chunks_nodup n l cs c : chunks n l = Ok cs -> c ∈ cs -> NoDup l -> NoDup c.
Proof.
  intros H Hc Hnd. destruct (Z.leb_spec n 0).
  - unfold chunks in H. destruct (Z.eqb_spec n 0), (Z.ltb_spec n 0); try lia; try done.
    injection H as <-. by apply elem_of_nil in Hc.
  - rewrite <- (chunks_concat n l cs) in Hnd by done. clear H.
    apply list_elem_of_split in Hc as (l1 & l2 & ->). rewrite concat_app in Hnd. cbn in Hnd.
    apply NoDup_app in Hnd as (_ & _ & Hnd). by apply NoDup_app in Hnd as (? & _ & _).
Qed.

Lemma chunks_elem_of n l cs c x : chunks n l = Ok cs -> c ∈ cs -> x ∈ c -> x ∈ l.
Proof.
  intros H Hc Hx. destruct (Z.ltb_spec 0 n).
  - rewrite <- (chunks_concat n l cs) by done.
    apply list_elem_of_In, in_concat. exists c. by rewrite <- !list_elem_of_In.
  - unfold chunks in H. destruct (Z.eqb_spec n 0), (Z.ltb_spec n 0); try lia; try done.
    injection H as <-. by apply elem_of_nil in Hc.
Qed.
End chunks.

(** ** Strings *)
Fixpoint str_join (sep : string) (l : list string) : string :=
  match l with
  | [] => ""
  | [s] => s
  | s :: l' => s +:+ sep +:+ str_join sep l'
  end.

Fixpoint str_forall (p : Ascii.ascii -> bool) (s : string) : bool :=
  match s with
  | EmptyString => true
  | String c s' => p c && str_forall p s'
  end.

Definition char_between (lo hi c : Ascii.ascii) : bool :=
  ((Ascii.N_of_ascii lo <=? Ascii.N_of_ascii c) && (Ascii.N_of_ascii c <=? Ascii.N_of_ascii hi))%N.

(** The class [[A-Za-z0-9]]. *)
Definition is_alnum (c : Ascii.ascii) : bool :=
  char_between "A"%char "Z"%char c || char_between "a"%char "z"%char c || char_between "0"%char "9"%char c.

(** [re.fullmatch(r"[A-Za-z0-9][A-Za-z0-9._-]{0,max}", s)] *)
Definition safe_component (max : Z) (s : string) : bool :=
  match s with
  | EmptyString => false
  | String c s' =>
      is_alnum c &&
      str_forall (fun c => is_alnum c || Ascii.eqb c "."%char || Ascii.eqb c "_"%char || Ascii.eqb c "-"%char) s' &&
      (Z.of_nat (String.length s') <=? max)
  end.

(** [re.fullmatch(r"[0-9a-f]{n}", s)] *)
Definition hex_fullmatch (n : Z) (s : string) : bool :=
  str_forall (fun c => char_between "0"%char "9"%char c || char_between "a"%char "f"%char c) s &&
  (Z.of_nat (String.length s) =? n).

(** [s.startswith(p)], [s.endswith(p)], [s.removeprefix(p)], [s[:n]]. *)
Definition str_startswith (p s : string) : bool := String.prefix p s.

Definition str_endswith (p s : string) : bool :=
  let n := String.length p in let m := String.length s in
  Nat.leb n m && String.eqb (String.substring (m - n) n s) p.

Definition str_removeprefix (p s : string) : string :=
  if String.prefix p s
  then String.substring (String.length p) (String.length s - String.length p) s else s.

Definition str_take (n : nat) (s : string) : string := String.substring 0 n s.

(** [s.replace(a, b)] for single characters. *)
Fixpoint str_replace (a b : Ascii.ascii) (s : string) : string :=
  match s with
  | EmptyString => EmptyString
  | String c s' => String (if Ascii.eqb c a then b else c) (str_replace a b s')
  end.

Definition str_removesuffix (p s : string) : string :=
  if str_endswith p s then String.substring 0 (String.length s - String.length p) s else s.

Lemma app_string_inj_r (p s t : string) : p +:+ s = p +:+ t -> s = t.
Proof. induction p as [|c p IH]; cbn; [done|]. intros [= H]. auto. Qed.

(** [sorted({..})] of strings: the distinct elements in increasing order. *)
Definition sorted_set (l : list string) : list string := sort_by str_leb (remove_dups l).

Lemma sorted_set_elem_of x l : x ∈ sorted_set l <-> x ∈ l.
Proof. unfold sorted_set. by rewrite sort_by_elem_of, elem_of_remove_dups. Qed.

Lemma sorted_set_NoDup l : NoDup (sorted_set l).
Proof. unfold sorted_set. rewrite sort_by_perm. apply NoDup_remove_dups. Qed.

(** [max(xs, default=d)] and [min(xs)] of integers. *)
Definition max_default (d : Z) (l : list Z) : Z :=
  match l with [] => d | x :: l => foldl Z.max x l end.

Lemma foldl_max_spec l x :
  (forall y, y ∈ l -> y <= foldl Z.max x l) /\ x <= foldl Z.max x l /\
  (foldl Z.max x l = x \/ foldl Z.max x l ∈ l).
Proof.
  revert x; induction l as [|y l IH]; intros x; cbn.
  - split_and!; [intros ? []%elem_of_nil|lia|by left].
  - destruct (IH (Z.max x y)) as (H1 & H2 & H3). split_and!.
    + intros z [->|Hz]%elem_of_cons; [lia|auto].
    + lia.
    + destruct H3 as [H3|H3]; [|right; by right].
      rewrite H3. destruct (Z.max_spec x y) as [[_ ->]|[_ ->]]; [right; by left|by left].
Qed.

Lemma max_default_ge d l x : x ∈ l -> x <= max_default d l.
Proof.
  destruct l as [|y l]; [by intros ?%elem_of_nil|]. cbn.
  intros [->|H]%elem_of_cons; apply foldl_max_spec; done.
Qed.

(** Ceiling division of non-negative integers, [(a + b - 1) // b]. *)
Lemma ceil_div_spec a b :
  0 < b -> b * ((a + b - 1) / b - 1) < a <= b * ((a + b - 1) / b).
Proof.
  intros Hb. pose proof (Z.div_mod (a + b - 1) b) as H.
  pose proof (Z.mod_pos_bound (a + b - 1) b). nia.
Qed.

(** ** Finite runs of a transition relation *)
Inductive steps {S} (R : S -> S -> Prop) : S -> S -> Prop :=
  | steps_refl s : steps R s s
  | steps_step s1 s2 s3 : R s1 s2 -> steps R s2 s3 -> steps R s1 s3.

Lemma steps_trans {S} (R : S -> S -> Prop) a b c : steps R a b -> steps R b c -> steps R a c.
Proof. induction 1; eauto using steps. Qed.

Lemma steps_one {S} (R : S -> S -> Prop) a b : R a b -> steps R a b.
Proof. eauto using steps. Qed.

Lemma steps_invariant {S} (R : S -> S -> Prop) (P : S -> Prop) a b :
  (forall x y, P x -> R x y -> P y) -> steps R a b -> P a -> P b.
Proof. intros HP. induction 1; eauto. Qed.

(** [list(range(1, n + 1))] *)
Definition range1 (n : Z) : list Z := map Z.of_nat (seq 1 (Z.to_nat n)).

Definition z_list_eqb (l k : list Z) : bool := bool_decide (l = k).

(** [min(xs)] of a non-empty list of integers given as head and tail. *)
Definition min_list (x : Z) (l : list Z) : Z := foldl Z.min x l.

Definition is_some {A} (o : option A) : bool := match o with Some _ => true | None => false end.

(** [e or d] where [e] is an optional integer: zero is falsy. *)
Definition or_zero (o : option Z) : Z := match o with Some z => z | None => 0 end.

Definition opt_str_or (o : option string) (d : string) : string :=
  match o with Some EmptyString | None => d | Some s => s end.

(** [any(p(x) for x in l)] when evaluating [p] may raise: stops at the first true. *)
Fixpoint anyM {A} (p : A -> result bool) (l : list A) : result bool :=
  match l with
  | [] => Ok false
  | x :: l => let* b := p x in if b then Ok true else anyM p l
  end.

Lemma anyM_false {A} (p : A -> result bool) l :
  anyM p l = Ok false <-> Forall (fun x => p x = Ok false) l.
Proof.
  induction l as [|x l IH]; cbn; [split; auto|].
  rewrite Forall_cons, <- IH. destruct (p x) as [[]|]; cbn; naive_solver.
Qed.

(** Microseconds in a second: datetimes are microseconds since the epoch, UTC. *)
Definition seconds (s : Z) : Z := s * 1000000.
