(* ===== verification/PyDict.v ===== *)
(** Python dictionaries with string keys.

    A [dict] keeps its entries in insertion order: assigning to a present key
    replaces the value in place, assigning to a new key appends.  The order is
    what [values()], [items()] and [for key in d] iterate over, so it is part of
    the model.  The file gives the operations the code uses, their laws, and
    the tactic [dict_simpl] that decides lookups after updates. *)
From S2P Require Import Prelude.

Definition dict (V : Type) : Type := list (string * V).

#[export] Instance dict_eq_dec `{EqDecision V} : EqDecision (dict V).
Proof. unfold dict. apply _. Defined.

Section dict.
Context {V : Type}.
Implicit Types (d : dict V) (k : string) (v : V).

(** [d.get(k)] *)
Fixpoint dict_get d k : option V :=
  match d with
  | [] => None
  | (k', v) :: d' => if String.eqb k k' then Some v else dict_get d' k
  end.

(** [d[k]] *)
Definition dict_item d k : result V :=
  match dict_get d k with Some v => Ok v | None => Err (KeyError k) end.

(** [d[k] = v] *)
Fixpoint dict_set d k v : dict V :=
  match d with
  | [] => [(k, v)]
  | (k', v') :: d' =>
      if String.eqb k k' then (k', v) :: d' else (k', v') :: dict_set d' k v
  end.

(** [k in d] *)
Definition dict_has d k : bool :=
  match dict_get d k with Some _ => true | None => false end.

(** [d.pop(k, None)] *)
Definition dict_pop d k : dict V := List.filter (fun e => negb (String.eqb e.1 k)) d.

(** [d.get(k, default)] *)
Definition dict_get_default d k v : V :=
  match dict_get d k with Some v' => v' | None => v end.

Definition dict_keys d : list string := map fst d.
Definition dict_values d : list V := map snd d.

(** [{k: v for k, v in l}] and [dict.update] *)
Definition dict_update d (l : list (string * V)) : dict V :=
  fold_left (fun d e => dict_set d e.1 e.2) l d.

Definition dict_of (l : list (string * V)) : dict V := dict_update [] l.

Definition dict_wf d : Prop := NoDup (dict_keys d).

Lemma dict_get_set_eq d k v : dict_get (dict_set d k v) k = Some v.
Proof.
  induction d as [|[k' v'] d IH]; cbn; [by rewrite String.eqb_refl|].
  destruct (String.eqb_spec k k') as [->|Hne]; cbn.
  - by rewrite String.eqb_refl.
  - by destruct (String.eqb_spec k k').
Qed.

Lemma dict_get_set_ne d k k' v : k <> k' -> dict_get (dict_set d k v) k' = dict_get d k'.
Proof.
  intros Hne. induction d as [|[k1 v1] d IH]; cbn.
  - by destruct (String.eqb_spec k' k).
  - destruct (String.eqb_spec k k1) as [->|]; cbn.
    + by destruct (String.eqb_spec k' k1).
    + by rewrite IH.
Qed.

Lemma dict_get_set d k k' v :
  dict_get (dict_set d k v) k' = if String.eqb k k' then Some v else dict_get d k'.
Proof.
  destruct (String.eqb_spec k k') as [->|Hne].
  - apply dict_get_set_eq.
  - by apply dict_get_set_ne.
Qed.

Lemma dict_get_in d k v : dict_get d k = Some v -> (k, v) ∈ d.
Proof.
  induction d as [|[k' v'] d IH]; cbn; [done|].
  destruct (String.eqb_spec k k') as [->|]; [intros [= ->]; by left|right; auto].
Qed.

Lemma dict_keys_in d k v : (k, v) ∈ d -> k ∈ dict_keys d.
Proof. unfold dict_keys. rewrite !list_elem_of_In. apply (in_map fst). Qed.

Lemma dict_get_some_iff d k v : dict_wf d -> dict_get d k = Some v <-> (k, v) ∈ d.
Proof.
  intros Hwf. split; [apply dict_get_in|].
  induction d as [|[k' v'] d IH]; [by intros ?%elem_of_nil|].
  apply NoDup_cons in Hwf as [Hnot Hwf]. cbn.
  intros [[= -> ->]|H]%elem_of_cons; [by rewrite String.eqb_refl|].
  destruct (String.eqb_spec k k') as [->|]; [|by apply IH].
  destruct Hnot. by eapply dict_keys_in.
Qed.

Lemma dict_get_none_iff d k : dict_get d k = None <-> k ∉ dict_keys d.
Proof.
  induction d as [|[k' v'] d IH]; cbn;
    [split; [intros _; apply not_elem_of_nil|done]|].
  rewrite not_elem_of_cons. destruct (String.eqb_spec k k'); naive_solver.
Qed.

Lemma dict_get_is_some_iff d k : is_Some (dict_get d k) <-> k ∈ dict_keys d.
Proof.
  destruct (dict_get d k) eqn:E.
  - split; [|eauto]. intros _. apply dict_get_in in E.
    by eapply dict_keys_in.
  - apply dict_get_none_iff in E. split; [by intros [? [=]]|done].
Qed.

Lemma dict_has_true d k : dict_has d k = true <-> k ∈ dict_keys d.
Proof.
  rewrite <- dict_get_is_some_iff. unfold dict_has.
  destruct (dict_get d k); [naive_solver|split; [done|by intros [? [=]]]].
Qed.

Lemma dict_keys_set d k v :
  dict_keys (dict_set d k v) = if dict_has d k then dict_keys d else dict_keys d ++ [k].
Proof.
  unfold dict_has. induction d as [|[k' v'] d IH]; cbn; [done|].
  destruct (String.eqb_spec k k') as [->|]; cbn; [done|].
  unfold dict_keys in IH. rewrite IH. by destruct (dict_get d k).
Qed.

Lemma dict_wf_set d k v : dict_wf d -> dict_wf (dict_set d k v).
Proof.
  unfold dict_wf. rewrite dict_keys_set. destruct (dict_has d k) eqn:E; [done|].
  intros H. apply NoDup_app. split; [done|]. split; [|apply NoDup_singleton].
  intros x Hx ->%list_elem_of_singleton. apply dict_has_true in Hx. congruence.
Qed.

Lemma dict_wf_update l d : dict_wf d -> dict_wf (dict_update d l).
Proof.
  unfold dict_update. revert d.
  induction l as [|e l IH]; intros d H; cbn; [done|]. by apply IH, dict_wf_set.
Qed.

Lemma dict_wf_of l : dict_wf (dict_of l).
Proof. apply dict_wf_update. constructor. Qed.

Lemma dict_keys_set_elem d k k' v :
  k' ∈ dict_keys (dict_set d k v) <-> k' = k \/ k' ∈ dict_keys d.
Proof.
  rewrite <- !dict_get_is_some_iff, dict_get_set.
  destruct (String.eqb_spec k k'); naive_solver.
Qed.

Lemma dict_set_new d k v : k ∉ dict_keys d -> dict_set d k v = d ++ [(k, v)].
Proof.
  induction d as [|[k' v'] d IH]; cbn; [done|]. rewrite not_elem_of_cons.
  intros [Hk Hd]. destruct (String.eqb_spec k k'); [done|]. by rewrite IH.
Qed.

Lemma dict_set_same d k v : dict_get d k = Some v -> dict_set d k v = d.
Proof.
  induction d as [|[k' v'] d IH]; cbn; [done|].
  destruct (String.eqb_spec k k') as [->|]; [intros [= ->]; done|].
  intros H. by rewrite IH.
Qed.

(** The entries of a dictionary after an assignment: the old ones and the new one. *)
Lemma dict_in_set d k v e : e ∈ dict_set d k v -> e = (k, v) \/ e ∈ d.
Proof.
  induction d as [|[k' v'] d IH]; cbn; [intros ->%list_elem_of_singleton; by left|].
  destruct (String.eqb_spec k k') as [->|]; rewrite elem_of_cons.
  - intros [->|?]; [by left|right; by right].
  - intros [->|H]; [right; by left|]. destruct (IH H) as [->|?]; [by left|right; by right].
Qed.

Lemma dict_update_in (l : list (string * V)) d x : x ∈ dict_update d l -> x ∈ d \/ x ∈ l.
Proof.
  unfold dict_update. revert d. induction l as [|[k v] l IH]; intros d; cbn; [by left|].
  intros [Hin|Hin]%IH; [|right; by right].
  apply dict_in_set in Hin as [->|Hin]; [right; by left|by left].
Qed.

Lemma dict_update_keys_elem (l : list (string * V)) d k :
  k ∈ dict_keys (dict_update d l) <-> k ∈ dict_keys d \/ k ∈ map fst l.
Proof.
  unfold dict_update. revert d. induction l as [|[i v] l IH]; intros d; cbn; [set_solver|].
  rewrite IH, dict_keys_set_elem. set_solver.
Qed.

Lemma dict_values_elem d v : v ∈ dict_values d <-> exists k, (k, v) ∈ d.
Proof.
  unfold dict_values. rewrite list_elem_of_fmap. split.
  - intros ([k w] & -> & H). eauto.
  - intros (k & H). by exists (k, v).
Qed.

Lemma dict_values_set_elem d k v w :
  w ∈ dict_values (dict_set d k v) -> w = v \/ w ∈ dict_values d.
Proof.
  rewrite !dict_values_elem. intros (k' & H).
  destruct (dict_in_set _ _ _ _ H) as [[= -> ->]|Hin]; [by left|right; eauto].
Qed.

Lemma dict_wf_values d v : dict_wf d -> v ∈ dict_values d <-> exists k, dict_get d k = Some v.
Proof.
  intros H. rewrite dict_values_elem.
  split; intros (k & Hk); exists k; by apply dict_get_some_iff.
Qed.

Lemma dict_get_pop d k k' :
  dict_get (dict_pop d k) k' = if String.eqb k k' then None else dict_get d k'.
Proof.
  unfold dict_pop. induction d as [|[k1 v1] d IH]; [by destruct (String.eqb k k')|].
  cbn. destruct (String.eqb_spec k1 k) as [->|Hne]; cbn; rewrite IH.
  - by destruct (String.eqb_spec k k'), (String.eqb_spec k' k); try congruence.
  - destruct (String.eqb_spec k' k1) as [->|]; [|done].
    by destruct (String.eqb_spec k k1); try congruence.
Qed.
End dict.

(** [{k: f(v) for k, v in d.items()}] *)
Definition dict_map {V W} (f : V -> W) (d : dict V) : dict W :=
  map (fun e => (e.1, f e.2)) d.

(** The same with a function that may raise, in iteration order. *)
Definition dict_mapM {V W} (f : string -> V -> result W) (d : dict V) : result (dict W) :=
  mapM (fun e => let* w := f e.1 e.2 in Ok (e.1, w)) d.

Section dict_map.
Context {V W : Type}.

Lemma dict_get_map (f : V -> W) (d : dict V) k :
  dict_get (dict_map f d) k = option_map f (dict_get d k).
Proof.
  induction d as [|[k' v] d IH]; cbn; [done|]. by destruct (String.eqb k k').
Qed.

Lemma dict_keys_map (f : V -> W) (d : dict V) : dict_keys (dict_map f d) = dict_keys d.
Proof. unfold dict_keys, dict_map. rewrite map_map. done. Qed.

Lemma dict_mapM_Forall2 (f : string -> V -> result W) d d' :
  dict_mapM f d = Ok d' <->
  Forall2 (fun e e' => e'.1 = e.1 /\ f e.1 e.2 = Ok e'.2) d d'.
Proof.
  etransitivity; [apply mapM_Forall2|].
  split; intros H; (eapply Forall2_impl; [exact H|]);
    intros [k v] [k' w]; cbn; destruct (f k v); cbn; naive_solver.
Qed.

Lemma dict_keys_mapM (f : string -> V -> result W) d d' :
  dict_mapM f d = Ok d' -> dict_keys d' = dict_keys d.
Proof.
  intros H%dict_mapM_Forall2. unfold dict_keys.
  induction H as [|[] [] ?? [? _]]; cbn in *; congruence.
Qed.

Lemma dict_get_mapM (f : string -> V -> result W) d d' k :
  dict_mapM f d = Ok d' ->
  match dict_get d k with
  | Some v => exists w, f k v = Ok w /\ dict_get d' k = Some w
  | None => dict_get d' k = None
  end.
Proof.
  intros H%dict_mapM_Forall2.
  induction H as [|[k1 v] [k2 w] ?? [Hk Hf]]; cbn in *; [done|]. subst.
  destruct (String.eqb_spec k k1) as [->|]; [eauto|done].
Qed.

Lemma dict_values_mapM (f : string -> V -> result W) d d' w :
  dict_mapM f d = Ok d' -> w ∈ dict_values d' ->
  exists k v, (k, v) ∈ d /\ f k v = Ok w.
Proof.
  intros H%dict_mapM_Forall2 (k & Hw)%dict_values_elem.
  apply list_elem_of_lookup in Hw as (i & Hi).
  destruct (Forall2_lookup_r _ _ _ _ _ H Hi) as ([k' v] & Hv & Hk & Hf). cbn in Hk, Hf. subst k'.
  exists k, v. split; [|done]. eapply list_elem_of_lookup_2, Hv.
Qed.

Lemma dict_wf_mapM (f : string -> V -> result W) d d' :
  dict_mapM f d = Ok d' -> dict_wf d -> dict_wf d'.
Proof. unfold dict_wf. by intros ->%dict_keys_mapM. Qed.
End dict_map.

(** ** Dictionaries that grow

    [dict_extends R x y]: every key of [x] is in [y], with a value [R]-related
    to the old one.  This is how the states of an event fold are compared. *)
Definition dict_extends {V} (R : V -> V -> Prop) (x y : dict V) : Prop :=
  forall k a, dict_get x k = Some a -> exists b, dict_get y k = Some b /\ R a b.

(** [dict_keyed f x]: no key twice, and every value is filed under its own key. *)
Definition dict_keyed {V} (f : V -> string) (x : dict V) : Prop :=
  dict_wf x /\ forall k a, dict_get x k = Some a -> f a = k.

Section extends.
Context {V : Type} (R : V -> V -> Prop) `{!PreOrder R}.

#[export] Instance dict_extends_preorder : PreOrder (dict_extends R).
Proof.
  split.
  - intros x k a Ha. exists a. by split.
  - intros x y z H1 H2 k a Ha. destruct (H1 _ _ Ha) as (b & Hb & Hab).
    destruct (H2 _ _ Hb) as (c & Hc & Hbc). exists c. split; [done|]. by transitivity b.
Qed.

Lemma dict_extends_set x k v :
  (forall a, dict_get x k = Some a -> R a v) -> dict_extends R x (dict_set x k v).
Proof.
  intros H k' a Ha. rewrite dict_get_set. destruct (String.eqb_spec k k') as [->|].
  - exists v. auto.
  - exists a. by split.
Qed.
End extends.

(** The sum of a quantity over the values, after an assignment. *)
Lemma sum_dict_set {V} (f : V -> Z) (d : dict V) k v :
  sum_z (map f (dict_values (dict_set d k v))) =
  sum_z (map f (dict_values d)) + f v - match dict_get d k with Some a => f a | None => 0 end.
Proof.
  induction d as [|[k' a] d IH]; [unfold sum_z; cbn; lia|].
  change (dict_set ((k', a) :: d) k v) with
    (if String.eqb k k' then (k', v) :: d else (k', a) :: dict_set d k v).
  change (dict_get ((k', a) :: d) k) with (if String.eqb k k' then Some a else dict_get d k).
  destruct (String.eqb k k'); unfold dict_values, sum_z in *; cbn in *; lia.
Qed.

Lemma dict_keyed_nil {V} (f : V -> string) : dict_keyed f [].
Proof. split; [constructor|done]. Qed.

Lemma dict_keyed_set {V} (f : V -> string) x k v :
  dict_keyed f x -> f v = k -> dict_keyed f (dict_set x k v).
Proof.
  intros [Hwf Hid] Hv. split; [by apply dict_wf_set|]. intros k' a. rewrite dict_get_set.
  destruct (String.eqb_spec k k'); naive_solver.
Qed.

Lemma dict_keyed_ids {V} (f : V -> string) (x : dict V) :
  dict_keyed f x -> map f (dict_values x) = dict_keys x.
Proof.
  intros [Hwf H]. unfold dict_values, dict_keys. rewrite map_map. apply map_ext_in.
  intros [k a] Hin%list_elem_of_In. cbn. apply (H k). by apply dict_get_some_iff.
Qed.

Lemma dict_keyed_distinct {V} (f : V -> string) (x : dict V) :
  dict_keyed f x -> NoDup (map f (dict_values x)).
Proof. intros H. rewrite dict_keyed_ids by done. apply H. Qed.

Lemma dict_keyed_elem {V} (f : V -> string) (x : dict V) v :
  dict_keyed f x -> v ∈ dict_values x <-> dict_get x (f v) = Some v.
Proof.
  intros [Hwf H]. rewrite dict_wf_values by done. split; [|eauto].
  intros (k & Hk). by rewrite (H _ _ Hk).
Qed.

#[global] Arguments dict_get : simpl nomatch.
#[global] Arguments dict_set : simpl nomatch.

Create HintDb dict discriminated.
Create Rewrite HintDb dict.
#[export] Hint Resolve dict_keyed_nil dict_keyed_set dict_extends_set : dict.
#[export] Hint Resolve dict_wf_set dict_wf_update dict_wf_of dict_wf_mapM : dict.
#[export] Hint Rewrite @dict_get_set_eq @dict_keys_map : dict.

(** Decide lookups of a key in an updated dictionary. *)
Ltac dict_simpl :=
  repeat match goal with
  | H : context [dict_get (dict_set _ ?k _) ?k'] |- _ =>
      rewrite dict_get_set in H; destruct (String.eqb_spec k k'); simplify_eq
  | |- context [dict_get (dict_set _ ?k _) ?k'] =>
      rewrite dict_get_set; destruct (String.eqb_spec k k'); simplify_eq
  end.
