(* ===== verification/Float64.v ===== *)
(** Python floats.

    A float is a binary64 number of [Floats.SpecFloat]: 53 bits of precision,
    exponents up to 1024, round half to even.  The file gives the conversions
    the admission arithmetic uses ([int(x)], [math.ceil(x)], an integer as a
    float), with the exceptions they raise, bounds for the two truncations,
    and [repr(x)], the text [json.dumps] writes. *)
From Stdlib Require Import Floats.SpecFloat.
From S2P Require Import Prelude.

#[global] Open Scope Z_scope.

Definition float_prec : Z := 53.
Definition float_emax : Z := 1024.

Definition float_add (x y : spec_float) : spec_float := SFadd float_prec float_emax x y.
Definition float_sub (x y : spec_float) : spec_float := SFsub float_prec float_emax x y.
Definition float_mul (x y : spec_float) : spec_float := SFmul float_prec float_emax x y.

(** [x <= y], [x < y]; both are false when an operand is NaN. *)
Definition float_leb (x y : spec_float) : bool := SFleb x y.
Definition float_ltb (x y : spec_float) : bool := SFltb x y.

Definition float_zero : spec_float := S754_zero false.

Definition float_is_finite (x : spec_float) : bool :=
  match x with S754_zero _ | S754_finite _ _ _ => true | _ => false end.

(** The exact magnitude [m * 2^e], as an integer quotient rounded down and up. *)
Definition scaled_floor (m e : Z) : Z := if 0 <=? e then m * 2 ^ e else m / 2 ^ (- e).
Definition scaled_ceil (m e : Z) : Z := if 0 <=? e then m * 2 ^ e else - ((- m) / 2 ^ (- e)).

(** [int(x)]: truncation towards zero. *)
Definition float_int (x : spec_float) : result Z :=
  match x with
  | S754_zero _ => Ok 0
  | S754_finite s m e =>
      let a := scaled_floor (Zpos m) e in Ok (if s then - a else a)
  | S754_infinity _ => Err OverflowError
  | S754_nan => Err (ValueError "cannot convert float NaN to integer")
  end.

(** [math.ceil(x)] *)
Definition float_ceil (x : spec_float) : result Z :=
  match x with
  | S754_zero _ => Ok 0
  | S754_finite false m e => Ok (scaled_ceil (Zpos m) e)
  | S754_finite true m e => Ok (- scaled_floor (Zpos m) e)
  | S754_infinity _ => Err OverflowError
  | S754_nan => Err (ValueError "cannot convert float NaN to integer")
  end.

(** The float nearest to an integer. *)
Definition float_of_int (z : Z) : result spec_float :=
  match binary_normalize float_prec float_emax z 0 false with
  | S754_infinity _ => Err OverflowError
  | x => Ok x
  end.

(** The float nearest to [a / b] for a positive [b]. *)
Definition float_of_ratio (a : Z) (b : positive) : result spec_float :=
  match a with
  | Z0 => Ok float_zero
  | Zpos p => match SFdiv float_prec float_emax (S754_finite false p 0) (S754_finite false b 0) with
              | S754_infinity _ => Err OverflowError | x => Ok x end
  | Zneg p => match SFdiv float_prec float_emax (S754_finite true p 0) (S754_finite false b 0) with
              | S754_infinity _ => Err OverflowError | x => Ok x end
  end.

(** An integer operand of a float operation. *)
Definition float_mul_int (z : Z) (x : spec_float) : result spec_float :=
  let* y := float_of_int z in Ok (float_mul y x).

(** ** [repr(x)]

    The shortest decimal that reads back as the same float, the closest one
    when there are several. *)

#[export] Instance spec_float_eq_dec : EqDecision spec_float.
Proof. solve_decision. Defined.

(** The number of decimal digits of a positive integer. *)
Fixpoint digits_go (fuel : nat) (z : Z) : Z :=
  match fuel with
  | O => 0
  | S fuel => if z <=? 0 then 0 else 1 + digits_go fuel (z / 10)
  end.
Definition decimal_digits (z : Z) : Z := digits_go (S (Z.to_nat (Z.log2 z))) z.

(** The exponent [d] with [10^(d-1) <= num/den < 10^d]. *)
Fixpoint decimal_point_below (fuel : nat) (num den : Z) (d : Z) : Z :=
  match fuel with
  | O => d
  | S fuel => if den <=? num * 10 then d else decimal_point_below fuel (num * 10) den (d - 1)
  end.
Definition decimal_point (num den : Z) : Z :=
  if den <=? num then decimal_digits (num / den) else decimal_point_below 400 num den 0.

(** The float nearest to [c * 10^p]. *)
Definition float_of_scientific (c p : Z) : result spec_float :=
  if 0 <=? p then float_of_ratio (c * 10 ^ p) 1 else float_of_ratio c (Z.to_pos (10 ^ (- p))).

(** The decimals with [n] digits next to [num/den], the nearest first. *)
Definition decimal_candidates (num den d n : Z) : list Z :=
  let p := n - d in
  let '(a, b) := if 0 <=? p then (num * 10 ^ p, den) else (num, den * 10 ^ (- p)) in
  let q := a / b in
  if 2 * (a mod b) <=? b then [q; q + 1] else [q + 1; q].

(** Rounding up may carry into a new digit; the zero it leaves is dropped. *)
Fixpoint strip_zeros (fuel : nat) (c p : Z) : Z * Z :=
  match fuel with
  | O => (c, p)
  | S fuel => if (c mod 10 =? 0) && (0 <? c) then strip_zeros fuel (c / 10) (p + 1) else (c, p)
  end.

Fixpoint shortest_digits (fuel : nat) (x : spec_float) (num den d n : Z) : Z * Z :=
  match List.filter (fun c => bool_decide (float_of_scientific c (d - n) = Ok x))
          (decimal_candidates num den d n) with
  | c :: _ => strip_zeros 17 c (d - n)
  | [] =>
      match fuel with
      | O => (num / den, 0)
      | S fuel => shortest_digits fuel x num den d (n + 1)
      end
  end.

(** [0000123] *)
Fixpoint zeros (n : nat) : string := match n with O => "" | S n => "0" +:+ zeros n end.

Definition signed_exponent (z : Z) : string :=
  let a := pretty (Z.abs z) in
  (if z <? 0 then "-" else "+") +:+ (if (String.length a <? 2)%nat then "0" +:+ a else a).

(** [digits], with the decimal point after the first [d] of them. *)
Definition format_repr (digits : string) (d : Z) : string :=
  let n := Z.of_nat (String.length digits) in
  if (16 <? d) || (d <=? -4) then
    String.substring 0 1 digits +:+
    (if n =? 1 then "" else "." +:+ String.substring 1 (String.length digits - 1) digits) +:+
    "e" +:+ signed_exponent (d - 1)
  else if d <=? 0 then "0." +:+ zeros (Z.to_nat (- d)) +:+ digits
  else if n <=? d then digits +:+ zeros (Z.to_nat (d - n)) +:+ ".0"
  else String.substring 0 (Z.to_nat d) digits +:+ "." +:+
       String.substring (Z.to_nat d) (String.length digits - Z.to_nat d) digits.

Definition float_repr (x : spec_float) : string :=
  match x with
  | S754_zero s => if s then "-0.0" else "0.0"
  | S754_infinity s => if s then "-Infinity" else "Infinity"
  | S754_nan => "NaN"
  | S754_finite s m e =>
      let '(num, den) := if 0 <=? e then (Zpos m * 2 ^ e, 1) else (Zpos m, 2 ^ (- e)) in
      let '(c, p) := shortest_digits 17 (S754_finite false m e) num den (decimal_point num den) 1 in
      (if s then "-" else "") +:+ format_repr (pretty c) (decimal_digits c + p)
  end.

Definition repr_of (r : result spec_float) : option string :=
  match r with Ok x => Some (float_repr x) | Err _ => None end.

Example float_repr_examples :
  map (fun '(c, p) => repr_of (float_of_scientific c p))
    [(1, -1); (60, 0); (125, -2); (1, -7); (5, -324); (1, 22); (1, 16); (1, -4); (314159265358979, -14);
     (9007199254740993, 0); (123456789012345680, 0); (1, -5); (1234, -8); (123, 20)] =
  map Some ["0.1"; "60.0"; "1.25"; "1e-07"; "5e-324"; "1e+22"; "1e+16"; "0.0001"; "3.14159265358979";
            "9007199254740992.0"; "1.2345678901234568e+17"; "1e-05"; "1.234e-05"; "1.23e+22"].
Proof. vm_compute. reflexivity. Qed.

Example float_of_ratio_95 : float_of_ratio 95 100 = Ok (S754_finite false 8556839292003942 (-53)).
Proof. vm_compute. reflexivity. Qed.

(** [x] lies in the unit interval that its truncation starts. *)
Lemma scaled_floor_bounds m e :
  0 <= m ->
  0 <= scaled_floor m e /\
  (if 0 <=? e then scaled_floor m e = m * 2 ^ e
   else scaled_floor m e * 2 ^ (- e) <= m < (scaled_floor m e + 1) * 2 ^ (- e)).
Proof.
  intros Hm. unfold scaled_floor. destruct (Z.leb_spec 0 e); [split; [lia|done]|].
  assert (0 < 2 ^ (- e)) by (apply Z.pow_pos_nonneg; lia).
  pose proof (Z.div_mod m (2 ^ (- e))). pose proof (Z.mod_pos_bound m (2 ^ (- e))).
  split; [apply Z.div_pos; lia|nia].
Qed.

Lemma scaled_ceil_bounds m e :
  0 <= m ->
  if 0 <=? e then scaled_ceil m e = m * 2 ^ e
  else (scaled_ceil m e - 1) * 2 ^ (- e) < m <= scaled_ceil m e * 2 ^ (- e).
Proof.
  intros Hm. unfold scaled_ceil. destruct (Z.leb_spec 0 e); [done|].
  assert (0 < 2 ^ (- e)) by (apply Z.pow_pos_nonneg; lia).
  pose proof (Z.div_mod (- m) (2 ^ (- e))). pose proof (Z.mod_pos_bound (- m) (2 ^ (- e))).
  nia.
Qed.
