(* ===== verification/Sha256.v ===== *)
(** SHA-256 ([hashlib.sha256]) on byte strings, executable.

    The program derives every identity it makes (event identifiers, action
    keys, run, shard and trial identifiers, claim paths) and the retry jitter
    from this digest, so it is modelled in full: 32-bit words are [N], sums are
    reduced modulo 2^32. *)
From S2P Require Import Prelude.
From Stdlib Require Import NArith.

Module Sha256.
Open Scope N_scope.

Definition word_mask : N := 0xFFFFFFFF.
Definition w32 (x : N) : N := N.land x word_mask.
Definition add32 (x y : N) : N := w32 (x + y).
Definition rotr (n x : N) : N := N.lor (N.shiftr x n) (w32 (N.shiftl x (32 - n))).
Definition not32 (x : N) : N := N.lxor x word_mask.

Definition big_sigma0 x := N.lxor (rotr 2 x) (N.lxor (rotr 13 x) (rotr 22 x)).
Definition big_sigma1 x := N.lxor (rotr 6 x) (N.lxor (rotr 11 x) (rotr 25 x)).
Definition small_sigma0 x := N.lxor (rotr 7 x) (N.lxor (rotr 18 x) (N.shiftr x 3)).
Definition small_sigma1 x := N.lxor (rotr 17 x) (N.lxor (rotr 19 x) (N.shiftr x 10)).
Definition choose x y z := N.lxor (N.land x y) (N.land (not32 x) z).
Definition majority x y z := N.lxor (N.land x y) (N.lxor (N.land x z) (N.land y z)).

(** The constants of FIPS 180-4: the first 32 bits of the fractional parts of
    the cube roots of the first 64 primes, and of the square roots of the first 8. *)
Fixpoint divides_some (fuel : nat) (d n : N) : bool :=
  match fuel with
  | O => false
  | S fuel => (d * d <=? n) && ((n mod d =? 0) || divides_some fuel (d + 1) n)
  end.

Definition primes_below (bound : nat) : list N :=
  List.filter (fun n => negb (divides_some bound 2 n)) (map N.of_nat (seq 2 (bound - 2))).

(** [cube_root_from b r n] adds to [r] the bits below [b] of the integer cube root of [n]. *)
Fixpoint cube_root_from (b : nat) (r n : N) : N :=
  match b with
  | O => r
  | S b =>
      let next := r + 2 ^ N.of_nat b in
      cube_root_from b (if next * next * next <=? n then next else r) n
  end.

Definition round_constants : list N :=
  Eval vm_compute in
  map (fun p => w32 (cube_root_from 40 0 (p * 2 ^ 96))) (take 64 (primes_below 312)).

Definition initial_state : list N :=
  Eval vm_compute in map (fun p => w32 (N.sqrt (p * 2 ^ 64))) (take 8 (primes_below 20)).

(** The message schedule, kept newest word first. *)
Fixpoint extend_schedule (n : nat) (rev_w : list N) : list N :=
  match n with
  | O => rev_w
  | S n =>
      let at_ i := nth i rev_w 0 in
      extend_schedule n
        (w32 (small_sigma1 (at_ 1%nat) + at_ 6%nat + small_sigma0 (at_ 14%nat) + at_ 15%nat) :: rev_w)
  end.

Fixpoint rounds (kw : list (N * N)) (st : list N) : list N :=
  match kw with
  | [] => st
  | (k, w) :: kw =>
      match st with
      | [a; b; c; d; e; f; g; h] =>
          let t1 := h + big_sigma1 e + choose e f g + k + w in
          let t2 := big_sigma0 a + majority a b c in
          rounds kw [w32 (t1 + t2); a; b; c; w32 (d + t1); e; f; g]
      | _ => st
      end
  end.

Definition compress (st block : list N) : list N :=
  let schedule := rev (extend_schedule 48 (rev block)) in
  zip_with add32 st (rounds (zip round_constants schedule) st).

Fixpoint words_of_bytes (l : list N) : list N :=
  match l with
  | a :: b :: c :: d :: l => (((a * 256 + b) * 256 + c) * 256 + d) :: words_of_bytes l
  | _ => []
  end.

Fixpoint bytes_of_nat_be (n : nat) (x : N) : list N :=
  match n with
  | O => []
  | S n => N.land (N.shiftr x (8 * N.of_nat n)) 255 :: bytes_of_nat_be n x
  end.

(** Append 0x80, zeros up to 56 modulo 64, and the bit length in eight bytes. *)
Definition pad (bytes : list N) : list N :=
  let n := N.of_nat (length bytes) in
  bytes ++ 128 :: repeat 0 (N.to_nat ((119 - n mod 64) mod 64)) ++ bytes_of_nat_be 8 (8 * n).

Definition blocks (bytes : list N) : list (list N) :=
  chunks_go (length bytes) 16 (words_of_bytes bytes).

(** [hashlib.sha256(data).digest()] *)
Definition digest (bytes : list N) : list N :=
  concat (map (bytes_of_nat_be 4) (fold_left compress (blocks (pad bytes)) initial_state)).

(** [s.encode()]: characters are code points below 256, written in UTF-8. *)
Fixpoint encode (s : string) : list N :=
  match s with
  | EmptyString => []
  | String c s =>
      let x := Ascii.N_of_ascii c in
      if x <? 128 then x :: encode s
      else (192 + x / 64) :: (128 + x mod 64) :: encode s
  end.

Definition hex_digit (x : N) : Ascii.ascii :=
  Ascii.ascii_of_N (if x <? 10 then 48 + x else 87 + x).

Fixpoint hex_of_bytes (l : list N) : string :=
  match l with
  | [] => EmptyString
  | x :: l => String (hex_digit (x / 16)) (String (hex_digit (x mod 16)) (hex_of_bytes l))
  end.

(** [hashlib.sha256(s.encode()).hexdigest()] *)
Definition hexdigest (s : string) : string := hex_of_bytes (digest (encode s)).

(** The vectors of FIPS 180-4 for one and two blocks. *)
Example hexdigest_abc :
  hexdigest "abc" = "ba7816bf8f01cfea414140de5dae2223b00361a396177a9cb410ff61f20015ad".
Proof. vm_compute. reflexivity. Qed.

Example hexdigest_two_blocks :
  hexdigest "abcdbcdecdefdefgefghfghighijhijkijkljklmklmnlmnomnopnopq" =
  "248d6a61d20638b8e5c026930c3e6039a33ce45964ff2167f6ecedd419db06c1".
Proof. vm_compute. reflexivity. Qed.

(** Every byte of a digest is below 256; a digest has 32 bytes. *)
Lemma bytes_of_nat_be_bounds n x b : b ∈ bytes_of_nat_be n x -> b < 256.
Proof.
  induction n as [|n IH]; cbn; [by intros ?%elem_of_nil|].
  intros [->|?]%elem_of_cons; [|auto].
  change 255 with (N.ones 8). rewrite N.land_ones. by apply N.mod_lt.
Qed.

Lemma digest_bounds l b : b ∈ digest l -> b < 256.
Proof.
  unfold digest. intros H%list_elem_of_In. apply in_concat in H as (w & Hw & Hb).
  apply in_map_iff in Hw as (x & <- & _).
  apply list_elem_of_In in Hb. by eapply bytes_of_nat_be_bounds.
Qed.

Lemma bytes_of_nat_be_length n x : length (bytes_of_nat_be n x) = n.
Proof. induction n; cbn; congruence. Qed.

Lemma rounds_length kw st : length st = 8%nat -> length (rounds kw st) = 8%nat.
Proof.
  revert st; induction kw as [|[k w] kw IH]; intros st Hst; cbn; [done|].
  do 8 (destruct st as [|? st]; [done|]). destruct st; [|done]. by apply IH.
Qed.

Lemma compress_length st b : length st = 8%nat -> length (compress st b) = 8%nat.
Proof.
  intros H. unfold compress. rewrite length_zip_with, rounds_length; [|done].
  rewrite H. done.
Qed.

Lemma digest_length l : length (digest l) = 32%nat.
Proof.
  unfold digest. assert (forall bs st, length st = 8%nat ->
    length (fold_left compress bs st) = 8%nat) as H.
  { induction bs as [|b bs IH]; intros st Hst; cbn; [done|]. by apply IH, compress_length. }
  specialize (H (blocks (pad l)) initial_state eq_refl).
  generalize dependent (fold_left compress (blocks (pad l)) initial_state).
  intros st H. do 8 (destruct st as [|? st]; [done|]). by destruct st.
Qed.

Lemma hexdigest_length s : String.length (hexdigest s) = 64%nat.
Proof.
  unfold hexdigest. pose proof (digest_length (encode s)) as H.
  generalize dependent (digest (encode s)). intros l Hl.
  assert (forall m, String.length (hex_of_bytes m) = (2 * length m)%nat) as E.
  { induction m; cbn; lia. }
  rewrite E, Hl. done.
Qed.

End Sha256.
#[global] Arguments Sha256.digest : simpl never.
#[global] Arguments Sha256.hexdigest : simpl never.

(** [hashlib.sha256(s.encode()).hexdigest()] and its first [n] characters. *)
Definition sha256_hex (s : string) : string := Sha256.hexdigest s.
Definition sha256_hex_prefix (n : nat) (s : string) : string := str_take n (sha256_hex s).
#[global] Arguments sha256_hex : simpl never.
#[global] Arguments sha256_hex_prefix : simpl never.

(** The first byte of the digest, [hashlib.sha256(s.encode()).digest()[0]]. *)
Definition sha256_first_byte (s : string) : Z :=
  Z.of_N (nth 0 (Sha256.digest (Sha256.encode s)) 0%N).

Lemma sha256_first_byte_bounds s : 0 <= sha256_first_byte s <= 255.
Proof.
  unfold sha256_first_byte. split; [lia|].
  assert (nth 0 (Sha256.digest (Sha256.encode s)) 0%N < 256)%N; [|lia].
  eapply Sha256.digest_bounds, list_elem_of_In, nth_In.
  rewrite Sha256.digest_length. lia.
Qed.

(** A prefix of a digest is what [re.fullmatch(r"[0-9a-f]{n}", s)] accepts. *)
Definition is_hex_char (c : Ascii.ascii) : bool :=
  char_between "0"%char "9"%char c || char_between "a"%char "f"%char c.

Lemma hex_digit_char x : (x < 16)%N -> is_hex_char (Sha256.hex_digit x) = true.
Proof.
  intros H. destruct x as [|p]; [reflexivity|].
  do 4 (destruct p as [p|p|]; try (vm_compute; reflexivity)); exfalso; lia.
Qed.

Lemma str_take_cons n c s : str_take (S n) (String c s) = String c (str_take n s).
Proof. reflexivity. Qed.

Lemma str_forall_take p n s : str_forall p s = true -> str_forall p (str_take n s) = true.
Proof.
  revert n. induction s as [|c s IH]; intros [|n] H; try reflexivity.
  rewrite str_take_cons. cbn in H |- *. apply andb_true_iff in H as [-> H]. by apply IH.
Qed.

Lemma str_take_length n s : (n <= String.length s)%nat -> String.length (str_take n s) = n.
Proof.
  revert n. induction s as [|c s IH]; intros [|n] H; cbn in H; try done; [lia|].
  rewrite str_take_cons. cbn. f_equal. apply IH. lia.
Qed.

Lemma sha256_hex_prefix_fullmatch n s :
  (n <= 64)%nat -> hex_fullmatch (Z.of_nat n) (sha256_hex_prefix n s) = true.
Proof.
  intros Hn. unfold hex_fullmatch, sha256_hex_prefix, sha256_hex.
  rewrite str_take_length by (by rewrite Sha256.hexdigest_length). rewrite Z.eqb_refl, andb_true_r.
  apply str_forall_take. unfold Sha256.hexdigest.
  assert (H : Forall (fun b => (b < 256)%N) (Sha256.digest (Sha256.encode s)))
    by (apply Forall_forall; apply Sha256.digest_bounds).
  induction H as [|b l Hb _ IH]; [reflexivity|]. cbn [Sha256.hex_of_bytes str_forall].
  rewrite IH. fold (is_hex_char (Sha256.hex_digit (b / 16))).
  fold (is_hex_char (Sha256.hex_digit (b mod 16))).
  rewrite !hex_digit_char; [reflexivity|by apply N.mod_lt|].
  apply N.Div0.div_lt_upper_bound. lia.
Qed.

Lemma str_take_all s : str_take (String.length s) s = s.
Proof. induction s as [|c s IH]; [done|]. cbn [String.length]. by rewrite str_take_cons, IH. Qed.

(** A full digest is its own prefix of 64 characters. *)
Lemma sha256_hex_take s : str_take 64 (sha256_hex s) = sha256_hex s.
Proof.
  unfold sha256_hex. rewrite <- (Sha256.hexdigest_length s) at 1. apply str_take_all.
Qed.

(** [(p + s).removeprefix(p)] *)
Lemma removeprefix_app p s : str_removeprefix p (p +:+ s) = s.
Proof.
  unfold str_removeprefix.
  assert (Hp : String.prefix p (p +:+ s) = true).
  { induction p as [|c p IH]; [by destruct s|]. change (String c p +:+ s) with (String c (p +:+ s)).
    cbn. destruct (Ascii.ascii_dec c c); [exact IH|congruence]. }
  rewrite Hp. clear Hp.
  assert (Hlen : String.length (p +:+ s) = (String.length p + String.length s)%nat).
  { induction p as [|c p IH]; [done|]. change (String c p +:+ s) with (String c (p +:+ s)). cbn. by rewrite IH. }
  rewrite Hlen, Nat.add_comm, Nat.add_sub. clear Hlen.
  induction p as [|c p IH]; [apply (str_take_all s)|exact IH].
Qed.

Lemma sha256_hex_chars s : str_forall is_hex_char (sha256_hex s) = true /\ String.length (sha256_hex s) = 64%nat.
Proof.
  pose proof (sha256_hex_prefix_fullmatch 64 s ltac:(lia)) as H.
  unfold hex_fullmatch, sha256_hex_prefix in H. rewrite sha256_hex_take in H.
  apply andb_true_iff in H as [H1 H2]. split; [done|]. apply Z.eqb_eq in H2. lia.
Qed.
