(* ===== verification/Paths.v ===== *)
(** Repository paths.

    A path of the repository is a list of components joined by slashes;
    [split_slash] recovers them, and an identifier that the program lets into a
    path has no slash.  Two record paths are told apart by their components. *)
From S2P Require Import Prelude.
From S2P Require Import Sha256.

(** [path.split("/")] *)
Fixpoint split_slash (s : string) : list string :=
  match s with
  | EmptyString => [EmptyString]
  | String c s =>
      if Ascii.eqb c "/"%char then EmptyString :: split_slash s
      else match split_slash s with
           | [] => [String c EmptyString]
           | h :: t => String c h :: t
           end
  end.

Definition no_slash (s : string) : bool := str_forall (fun c => negb (Ascii.eqb c "/"%char)) s.

Lemma split_slash_not_nil s : split_slash s <> [].
Proof. induction s as [|c s IH]; cbn; [done|]. destruct (Ascii.eqb c _); [done|]. by destruct (split_slash s). Qed.

Lemma split_slash_single s : no_slash s = true -> split_slash s = [s].
Proof.
  induction s as [|c s IH]; [done|]. cbn. intros [H1 H2]%andb_true_iff.
  apply negb_true_iff in H1. by rewrite H1, IH.
Qed.

Lemma split_slash_cons a b : no_slash a = true -> split_slash (a +:+ "/" +:+ b) = a :: split_slash b.
Proof.
  induction a as [|c a IH]; [done|]. intros [H1 H2]%andb_true_iff.
  apply negb_true_iff in H1. change (String c a +:+ "/" +:+ b) with (String c (a +:+ "/" +:+ b)).
  cbn [split_slash]. by rewrite H1, (IH H2).
Qed.

(** ["/".join(parts)], which undoes the split. *)
Fixpoint join_slash (l : list string) : string :=
  match l with
  | [] => EmptyString
  | [s] => s
  | s :: l => s +:+ "/" +:+ join_slash l
  end.

Lemma join_split s : join_slash (split_slash s) = s.
Proof.
  induction s as [|c s IH]; [done|]. cbn [split_slash].
  pose proof (split_slash_not_nil s) as Hn. destruct (Ascii.eqb_spec c "/"%char) as [->|_].
  - destruct (split_slash s) as [|h t]; [done|]. cbn [join_slash] in IH |- *. by rewrite IH.
  - destruct (split_slash s) as [|h [|h2 t]]; [done| |]; cbn [join_slash] in IH |- *; by rewrite <- IH.
Qed.

Lemma split_slash_inj a b : split_slash a = split_slash b -> a = b.
Proof. intros H. by rewrite <- (join_split a), H, join_split. Qed.

Lemma no_slash_app a b : no_slash (a +:+ b) = no_slash a && no_slash b.
Proof.
  unfold no_slash. induction a as [|c a IH]; [done|].
  change (String c a +:+ b) with (String c (a +:+ b)). cbn [str_forall]. by rewrite IH, andb_assoc.
Qed.

Lemma str_forall_impl (p q : Ascii.ascii -> bool) s :
  (forall c, p c = true -> q c = true) -> str_forall p s = true -> str_forall q s = true.
Proof.
  intros H. induction s as [|c s IH]; [done|]. cbn. intros [Hc Hs]%andb_true_iff.
  rewrite H by done. by apply IH.
Qed.

Lemma alnum_not_slash c : is_alnum c = true -> Ascii.eqb c "/"%char = false.
Proof. destruct (Ascii.eqb_spec c "/"%char) as [->|]; [discriminate|done]. Qed.

(** What the identity patterns accept has no slash. *)
Lemma safe_component_no_slash n s : safe_component n s = true -> no_slash s = true.
Proof.
  destruct s as [|c s]; [done|]. cbn [safe_component]. intros [[Hc Hs]%andb_true_iff _]%andb_true_iff.
  unfold no_slash. cbn. rewrite (alnum_not_slash _ Hc). cbn.
  revert Hs. apply str_forall_impl. intros d Hd. apply negb_true_iff.
  destruct (Ascii.eqb_spec d "/"%char) as [->|]; [discriminate|done].
Qed.

Lemma hex_no_slash n s : hex_fullmatch n s = true -> no_slash s = true.
Proof.
  intros [H _]%andb_true_iff. revert H. apply str_forall_impl. intros d Hd. apply negb_true_iff.
  destruct (Ascii.eqb_spec d "/"%char) as [->|]; [discriminate|done].
Qed.

Lemma sha256_hex_no_slash s : no_slash (sha256_hex s) = true.
Proof.
  apply (hex_no_slash 64). pose proof (sha256_hex_prefix_fullmatch 64 s ltac:(lia)) as H.
  unfold sha256_hex_prefix in H. by rewrite sha256_hex_take in H.
Qed.

Lemma pretty_char_no_slash x : Ascii.eqb (pretty_N_char x) "/"%char = false.
Proof. unfold pretty_N_char. by repeat case_match. Qed.

Lemma pretty_go_no_slash x s : no_slash s = true -> no_slash (pretty_N_go x s) = true.
Proof.
  revert s. induction (N.lt_wf_0 x) as [x _ IH]; intros s Hs.
  destruct (decide (0 < x)%N) as [Hx|Hx].
  - rewrite pretty_N_go_step by done. apply IH; [by apply N.div_lt|].
    cbn. by rewrite pretty_char_no_slash.
  - replace x with 0%N by lia. by rewrite pretty_N_go_0.
Qed.

Lemma pretty_no_slash (n : Z) : no_slash (pretty n) = true.
Proof.
  assert (H : forall x : N, no_slash (pretty x) = true).
  { intros x. unfold pretty, pretty_N. case_decide; [done|]. by apply pretty_go_no_slash. }
  destruct n as [|p|p]; [done|apply (H (N.pos p))|].
  change (pretty (Z.neg p)) with ("-" +:+ pretty (N.pos p)). rewrite no_slash_app. apply H.
Qed.

(** A suffix does not identify two prefixes. *)
Lemma append_cons c a b : String c a +:+ b = String c (a +:+ b).
Proof. reflexivity. Qed.

Lemma length_append a b : String.length (a +:+ b) = (String.length a + String.length b)%nat.
Proof. induction a as [|c a IH]; [done|]. rewrite append_cons. cbn. by rewrite IH. Qed.

Lemma app_suffix_inj s a b : a +:+ s = b +:+ s -> a = b.
Proof.
  assert (Hlen : forall c d, s <> String c d +:+ s).
  { intros c d H. apply (f_equal String.length) in H. rewrite length_append in H. cbn in H. lia. }
  revert b. induction a as [|c a IH]; intros [|d b] H; [done| | |].
  - by destruct (Hlen d b).
  - by destruct (Hlen c a).
  - rewrite !append_cons in H. injection H as -> H. by rewrite (IH b).
Qed.

Create HintDb paths.
#[export] Hint Resolve safe_component_no_slash sha256_hex_no_slash pretty_no_slash : paths.
