(* ===== verification/Json.v ===== *)
(** JSON values and their serialization ([json.dumps]).

    Objects are association lists; two Python dictionaries are equal whatever
    the order of their keys, so every object of the model is kept sorted by
    key ([jobj]) and structural equality is dictionary equality.  [dumps] is
    [json.dumps(value, sort_keys=True, separators=(",", ":"))] with
    [ensure_ascii], the canonical text every digest is taken of. *)
From Stdlib Require Import Floats.SpecFloat.
From S2P Require Import Prelude.
From S2P Require Import PyDict.
From S2P Require Import Float64.

#[local] Set Warnings "-register-all".

Inductive json : Type :=
  | JNull
  | JBool (b : bool)
  | JInt (z : Z)
  | JFloat (x : spec_float)
  | JStr (s : string)
  | JArr (l : list json)
  | JObj (o : list (string * json)).

(** Structural induction through the nested lists. *)
Section json_ind.
Variable P : json -> Prop.
Hypothesis Pnull : P JNull.
Hypothesis Pbool : forall b, P (JBool b).
Hypothesis Pint : forall z, P (JInt z).
Hypothesis Pfloat : forall x, P (JFloat x).
Hypothesis Pstr : forall s, P (JStr s).
Hypothesis Parr : forall l, Forall P l -> P (JArr l).
Hypothesis Pobj : forall o, Forall (fun e => P e.2) o -> P (JObj o).

Fixpoint json_nested_ind (j : json) : P j :=
  match j with
  | JNull => Pnull
  | JBool b => Pbool b
  | JInt z => Pint z
  | JFloat x => Pfloat x
  | JStr s => Pstr s
  | JArr l => Parr l ((fix go l : Forall P l := match l with
      | [] => Forall_nil_2 P
      | x :: l => Forall_cons_2 _ _ _ (json_nested_ind x) (go l) end) l)
  | JObj o => Pobj o ((fix go o : Forall (fun e => P e.2) o := match o with
      | [] => Forall_nil_2 _
      | e :: o => Forall_cons_2 (fun e => P e.2) _ _ (json_nested_ind e.2) (go o) end) o)
  end.
End json_ind.

Fixpoint json_eqb (x y : json) : bool :=
  match x, y with
  | JNull, JNull => true
  | JBool a, JBool b => Bool.eqb a b
  | JInt a, JInt b => a =? b
  | JFloat a, JFloat b => bool_decide (a = b)
  | JStr a, JStr b => String.eqb a b
  | JArr a, JArr b =>
      (fix go a b := match a, b with
       | [], [] => true
       | x :: a, y :: b => json_eqb x y && go a b
       | _, _ => false end) a b
  | JObj a, JObj b =>
      (fix go a b := match a, b with
       | [], [] => true
       | (k, x) :: a, (l, y) :: b => String.eqb k l && json_eqb x y && go a b
       | _, _ => false end) a b
  | _, _ => false
  end.

Lemma json_eqb_eq x y : json_eqb x y = true <-> x = y.
Proof.
  revert y. induction x as [| | | | |l IH|o IH] using json_nested_ind; intros [| | | | |m|p]; cbn;
    try (split; [done|congruence]).
  - rewrite Bool.eqb_true_iff. naive_solver.
  - rewrite Z.eqb_eq. naive_solver.
  - rewrite bool_decide_eq_true. naive_solver.
  - rewrite String.eqb_eq. naive_solver.
  - revert m. induction IH as [|x l Hx _ IH']; intros [|y m]; try (split; [done|congruence]).
    rewrite andb_true_iff, Hx, IH'. naive_solver.
  - revert p. induction IH as [|[k x] o Hx _ IH']; intros [|[k' y] p];
      try (split; [done|congruence]).
    cbn in Hx. rewrite !andb_true_iff, String.eqb_eq, Hx, IH'. naive_solver.
Qed.

#[export] Instance json_eq_dec : EqDecision json.
Proof.
  intros x y. destruct (json_eqb x y) eqn:E.
  - left. by apply json_eqb_eq.
  - right. intros H%json_eqb_eq. congruence.
Defined.

(** A JSON object from its fields: the key-sorted normal form of the dictionary. *)
Definition key_leb {A} (x y : string * A) : bool := str_leb x.1 y.1.
Definition jobj (fields : list (string * json)) : json :=
  JObj (sort_by key_leb (dict_of fields)).

Definition jopt {A} (f : A -> json) (o : option A) : json :=
  match o with Some a => f a | None => JNull end.
Definition jstrs (l : list string) : json := JArr (map JStr l).
Definition jdict {A} (f : A -> json) (d : dict A) : json := jobj (dict_map f d).

(** [value.get(key)] when [value] is an object. *)
Definition json_get (j : json) (k : string) : option json :=
  match j with JObj o => dict_get o k | _ => None end.

(** [value.pop(key, None)] *)
Definition json_pop (j : json) (k : string) : json :=
  match j with JObj o => JObj (dict_pop o k) | _ => j end.

Definition json_is_object (j : json) : bool := match j with JObj _ => true | _ => false end.

(** The text of a JSON string with [ensure_ascii]: a text is its UTF-8 bytes, and
    every character beyond ASCII is escaped by its code point, as one UTF-16 unit
    or as a surrogate pair. *)
Definition hex_digit (n : N) : Ascii.ascii := Ascii.ascii_of_N (if (n <? 10)%N then 48 + n else 87 + n)%N.

Definition escape_unit (x : N) : string :=
  let d n := hex_digit (n mod 16)%N in
  "\u" +:+ String (d (x / 4096)%N) (String (d (x / 256)%N) (String (d (x / 16)%N) (String (d x) EmptyString))).

Definition escape_point (x : N) : string :=
  if (x <? 65536)%N then escape_unit x
  else escape_unit (55296 + (x - 65536) / 1024)%N +:+ escape_unit (56320 + (x - 65536) mod 1024)%N.

Definition escape_char (c : Ascii.ascii) : string :=
  let x := Ascii.N_of_ascii c in
  if (x =? 34)%N then String "\" (String c EmptyString)
  else if (x =? 92)%N then "\\"
  else if (x =? 10)%N then "\n"
  else if (x =? 13)%N then "\r"
  else if (x =? 9)%N then "\t"
  else if (x =? 8)%N then "\b"
  else if (x =? 12)%N then "\f"
  else if ((x <? 32) || (126 <? x))%N then escape_point x
  else String c EmptyString.

(** The bits of a continuation byte. *)
Definition utf8_tail (c : Ascii.ascii) : N := (Ascii.N_of_ascii c mod 64)%N.

Fixpoint escape (s : string) : string :=
  match s with
  | EmptyString => EmptyString
  | String c s =>
      let x := Ascii.N_of_ascii c in
      if (x <? 128)%N then escape_char c +:+ escape s
      else
        match s with
        | EmptyString => escape_char c
        | String c1 s =>
            if (x <? 224)%N then escape_point (x mod 32 * 64 + utf8_tail c1)%N +:+ escape s
            else
              match s with
              | EmptyString => escape_char c +:+ escape_char c1
              | String c2 s =>
                  if (x <? 240)%N
                  then escape_point ((x mod 16 * 64 + utf8_tail c1) * 64 + utf8_tail c2)%N +:+ escape s
                  else
                    match s with
                    | EmptyString => escape_char c +:+ escape_char c1 +:+ escape_char c2
                    | String c3 s =>
                        escape_point
                          (((x mod 8 * 64 + utf8_tail c1) * 64 + utf8_tail c2) * 64 + utf8_tail c3)%N +:+ escape s
                    end
              end
        end
  end.

(** e-acute, the euro sign and an emoji, which is a surrogate pair. *)
Example escape_examples :
  map (fun l => escape (String.string_of_list_ascii (map Ascii.ascii_of_N l)))
    [[65; 10]; [195; 169]; [226; 130; 172]; [240; 159; 152; 128]]%N =
  ["A\n"; "\u00e9"; "\u20ac"; "\ud83d\ude00"].
Proof. reflexivity. Qed.

(** The escapes that remain without [ensure_ascii]. *)
Fixpoint escape_unicode (s : string) : string :=
  match s with
  | EmptyString => EmptyString
  | String c s =>
      (if (126 <? Ascii.N_of_ascii c)%N then String c EmptyString else escape_char c) +:+ escape_unicode s
  end.

Definition quote_char : string := String (Ascii.ascii_of_N 34) EmptyString.
Definition quote (s : string) : string := quote_char +:+ escape s +:+ quote_char.

Fixpoint dumps (j : json) : string :=
  match j with
  | JNull => "null"
  | JBool true => "true"
  | JBool false => "false"
  | JInt z => pretty z
  | JFloat x => float_repr x
  | JStr s => quote s
  | JArr l => "[" +:+ str_join "," (map dumps l) +:+ "]"
  | JObj o =>
      "{" +:+
      str_join "," (map (fun e => quote e.1 +:+ ":" +:+ e.2)
        (sort_by key_leb (map (fun e => (e.1, dumps e.2)) o))) +:+
      "}"
  end.

(** [json.dumps(value, sort_keys=True, separators=(",", ":"), ensure_ascii=False)] *)
Definition quote_unicode (s : string) : string := quote_char +:+ escape_unicode s +:+ quote_char.

Fixpoint dumps_unicode (j : json) : string :=
  match j with
  | JStr s => quote_unicode s
  | JArr l => "[" +:+ str_join "," (map dumps_unicode l) +:+ "]"
  | JObj o =>
      "{" +:+
      str_join "," (map (fun e => quote_unicode e.1 +:+ ":" +:+ e.2)
        (sort_by key_leb (map (fun e => (e.1, dumps_unicode e.2)) o))) +:+
      "}"
  | _ => dumps j
  end.

Example dumps_example :
  dumps (jobj [("b", JArr [JInt (-3); JNull]); ("a", JStr "x")]) =
  "{" +:+ quote "a" +:+ ":" +:+ quote "x" +:+ "," +:+ quote "b" +:+ ":[-3,null]}".
Proof. vm_compute. reflexivity. Qed.

(** ** Serialization

    [model_dump(mode="json")] and [model_validate] are Pydantic's.  The laws say
    what its documentation does: a dump is an object, a valid record survives
    the round trip, and [model_validate] only returns valid records. *)
Class PydanticModel (A : Type) := {
  model_dump : A -> json;
  model_validate : json -> result A;
}.

Class PydanticLaws (A : Type) `{PydanticModel A} (valid : A -> bool) := {
  model_dump_object x : json_is_object (model_dump x) = true;
  model_validate_dump x : valid x = true -> model_validate (model_dump x) = Ok x;
  model_validate_valid j x : model_validate j = Ok x -> valid x = true;
}.
