(* ===== verification/Patterns.v ===== *)
(** Text the manifest validators look at: anchored patterns, task selectors
    (task_selection.py) and secret-like keys (evidence.py).

    A string is a sequence of characters below U+0100; a Pydantic [pattern]
    and a [re.fullmatch] are boolean functions. *)
From S2P Require Import Prelude.
From S2P Require Import Json.
From S2P Require Import Paths.

Notation char := Ascii.ascii (only parsing).

Definition is_upper (c : char) : bool := char_between "A"%char "Z"%char c.
Definition is_lower (c : char) : bool := char_between "a"%char "z"%char c.
Definition is_digit (c : char) : bool := char_between "0"%char "9"%char c.

(** [c in "abc"] *)
Fixpoint char_mem (c : char) (s : string) : bool :=
  match s with EmptyString => false | String d s => Ascii.eqb c d || char_mem c s end.

Definition str_contains (c : char) (s : string) : bool := char_mem c s.

(** [min_length=1] *)
Definition nonempty (s : string) : bool := negb (String.eqb s "").

(** [^H R{0,max}$] for a first character of the class [head] and the rest in [rest]. *)
Definition head_rest (head rest : char -> bool) (max : Z) (s : string) : bool :=
  match s with
  | EmptyString => false
  | String c s => head c && str_forall rest s && (Z.of_nat (String.length s) <=? max)
  end.

(** [ProfileId], [EndpointName]: [^[a-z0-9][a-z0-9-]{0,62}$] *)
Definition is_profile_id (s : string) : bool :=
  let low c := is_lower c || is_digit c in
  head_rest low (fun c => low c || Ascii.eqb c "-"%char) 62 s.

(** [EvaluationId] *)
Definition is_evaluation_id (s : string) : bool := safe_component 127 s.

(** [ContentDigest], [_SHA256_DIGEST] *)
Definition is_content_digest (s : string) : bool :=
  str_startswith "sha256:" s && hex_fullmatch 64 (str_removeprefix "sha256:" s).

(** [.partition(sep)] and [.rpartition(sep)] on one character *)
Fixpoint str_partition (sep : char) (s : string) : option (string * string) :=
  match s with
  | EmptyString => None
  | String c s =>
      if Ascii.eqb c sep then Some (EmptyString, s)
      else match str_partition sep s with
           | Some (a, b) => Some (String c a, b)
           | None => None
           end
  end.

Fixpoint str_rpartition (sep : char) (s : string) : option (string * string) :=
  match s with
  | EmptyString => None
  | String c s =>
      match str_rpartition sep s with
      | Some (a, b) => Some (String c a, b)
      | None => if Ascii.eqb c sep then Some (EmptyString, s) else None
      end
  end.

(** [GitHubRepository] *)
Definition is_github_repository (s : string) : bool :=
  match str_partition "/"%char (str_removeprefix "https://github.com/" s) with
  | Some (owner, name) =>
      head_rest is_alnum (fun c => is_alnum c || Ascii.eqb c "-"%char) 38 owner &&
      nonempty name && str_forall (fun c => is_alnum c || char_mem c "_.-") name
  | None => false
  end.

(** [_HARBOR_PACKAGE_NAME]: two safe names joined by a slash *)
Definition is_package_name (s : string) : bool :=
  match str_partition "/"%char s with
  | Some (org, name) =>
      let component := head_rest is_alnum (fun c => is_alnum c || char_mem c "._-") in
      component (Z.of_nat (String.length org)) org && component (Z.of_nat (String.length name)) name
  | None => false
  end.

(** [".." in s] *)
Fixpoint has_dot_dot (s : string) : bool :=
  match s with
  | String "." ((String "." _) as rest) => true
  | String _ rest => has_dot_dot rest
  | EmptyString => false
  end.

(** [.+@sha256:[0-9a-f]{64}], fullmatch *)
Definition is_pinned_image (s : string) : bool :=
  match str_rpartition "@"%char s with
  | Some (name, digest) =>
      nonempty name && str_forall (fun c => negb (Ascii.eqb c "010"%char)) name && is_content_digest digest
  | None => false
  end.

(** The characters [str.isspace] and the class [\s] accept. *)
Definition is_space (c : char) : bool :=
  let x := Ascii.N_of_ascii c in
  ((9 <=? x) && (x <=? 13) || (28 <=? x) && (x <=? 32) || (x =? 133) || (x =? 160))%N.

(** [^hf://buckets/[^\s]+$] *)
Definition is_bucket_uri (s : string) : bool :=
  str_startswith "hf://buckets/" s &&
  (let rest := str_removeprefix "hf://buckets/" s in
   nonempty rest && str_forall (fun c => negb (is_space c)) rest).

(** [s.strip()] leaves the text as it is. *)
Fixpoint last_char (c : char) (s : string) : char :=
  match s with EmptyString => c | String c' s' => last_char c' s' end.

Definition is_stripped (s : string) : bool :=
  match s with
  | EmptyString => true
  | String c s => negb (is_space c) && negb (is_space (last_char c s))
  end.

(** ** Task selectors *)

(** The members of a bracket expression: single characters and ranges. *)
Fixpoint bracket_members (fuel : nat) (s : string) : list (char * char) :=
  match fuel with
  | O => []
  | S fuel =>
      match s with
      | EmptyString => []
      | String lo (String "-" (String hi s)) => (lo, hi) :: bracket_members fuel s
      | String c s => (c, c) :: bracket_members fuel s
      end
  end.

Definition in_bracket (body : string) (c : char) : bool :=
  let test s := existsb (fun '(lo, hi) => char_between lo hi c) (bracket_members (String.length s) s) in
  match body with
  | String "!" body => negb (test body)
  | _ => test body
  end.

(** The text up to the closing bracket, which may not be the first character. *)
Fixpoint bracket_end (s : string) : option (string * string) :=
  match s with
  | EmptyString => None
  | String c s =>
      if Ascii.eqb c "]"%char then Some (EmptyString, s)
      else match bracket_end s with
           | Some (a, b) => Some (String c a, b)
           | None => None
           end
  end.

Definition bracket_split (s : string) : option (string * string) :=
  let keep p r := match r with Some (a, b) => Some (p +:+ a, b) | None => None end in
  match s with
  | String "!" (String "]" s) => keep "!]" (bracket_end s)
  | String "!" s => keep "!" (bracket_end s)
  | String "]" s => keep "]" (bracket_end s)
  | s => bracket_end s
  end.

(** [fnmatch(name, pattern)], with one step of fuel per character of both. *)
Fixpoint fnmatch_go (fuel : nat) (name pattern : string) : bool :=
  match fuel with
  | O => false
  | S fuel =>
      match pattern with
      | EmptyString => String.eqb name ""
      | String "*" rest =>
          fnmatch_go fuel name rest ||
          match name with String _ name => fnmatch_go fuel name pattern | EmptyString => false end
      | String "?" rest =>
          match name with String _ name => fnmatch_go fuel name rest | EmptyString => false end
      | String "[" rest =>
          match bracket_split rest with
          | Some (body, rest') =>
              match name with
              | String c name => in_bracket body c && fnmatch_go fuel name rest'
              | EmptyString => false
              end
          | None =>
              match name with
              | String c name => Ascii.eqb c "["%char && fnmatch_go fuel name rest
              | EmptyString => false
              end
          end
      | String p rest =>
          match name with
          | String c name => Ascii.eqb c p && fnmatch_go fuel name rest
          | EmptyString => false
          end
      end
  end.

Definition fnmatch (name pattern : string) : bool :=
  fnmatch_go (S (String.length name + String.length pattern)) name pattern.

(** [task_matches_selector] *)
Definition task_matches_selector (task selector : string) (available_tasks : list string) : bool :=
  if str_mem selector available_tasks then String.eqb task selector else fnmatch task selector.

(** [is_task_pattern] (planner.py) *)
Definition is_task_pattern (task : string) : bool :=
  char_mem "*"%char task || char_mem "?"%char task || char_mem "["%char task.

Example fnmatch_examples :
  map (fun '(n, p) => fnmatch n p)
    [("task-1", "task-*"); ("task-1", "*"); ("a/b", "a?b"); ("x", "[a-c]"); ("b", "[a-c]"); ("b", "[!a-c]");
     ("[", "["); ("]", "[]]"); ("-", "[a-]"); ("abc", "ab"); ("", "*"); ("b", "[c-a]"); ("a.b", "a[!]]b")] =
  [true; true; true; false; true; false; true; true; true; false; true; false; true].
Proof. vm_compute. reflexivity. Qed.

(** ** Secret-like keys *)

(** [re.sub(r"(.)([A-Z][a-z]+)", r"\1_\2", s)] *)
Fixpoint take_lower (s : string) : string * string :=
  match s with
  | String c rest => if is_lower c then let '(a, b) := take_lower rest in (String c a, b) else (EmptyString, s)
  | EmptyString => (EmptyString, EmptyString)
  end.

Fixpoint split_words (fuel : nat) (s : string) : string :=
  match fuel with
  | O => s
  | S fuel =>
      match s with
      | String c ((String u rest) as tail) =>
          let '(word, after) := take_lower rest in
          if negb (Ascii.eqb c "010"%char) && is_upper u && nonempty word
          then String c (String "_" (String u word)) +:+ split_words fuel after
          else String c (split_words fuel tail)
      | _ => s
      end
  end.

(** [re.sub(r"([a-z0-9])([A-Z])", r"\1_\2", s)] *)
Fixpoint split_case (fuel : nat) (s : string) : string :=
  match fuel with
  | O => s
  | S fuel =>
      match s with
      | String c ((String u rest) as tail) =>
          if (is_lower c || is_digit c) && is_upper u
          then String c (String "_" (String u (split_case fuel rest)))
          else String c (split_case fuel tail)
      | _ => s
      end
  end.

(** [needle in s] *)
Fixpoint str_in (needle s : string) : bool :=
  String.prefix needle s || match s with EmptyString => false | String _ s => str_in needle s end.

Definition lower_char (c : char) : char :=
  let x := Ascii.N_of_ascii c in
  if (is_upper c || ((192 <=? x) && (x <=? 222) && negb (x =? 215)))%N
  then Ascii.ascii_of_N (x + 32) else c.

Fixpoint str_map (f : char -> char) (s : string) : string :=
  match s with EmptyString => EmptyString | String c s => String (f c) (str_map f s) end.
Fixpoint str_filter (p : char -> bool) (s : string) : string :=
  match s with
  | EmptyString => EmptyString
  | String c s => if p c then String c (str_filter p s) else str_filter p s
  end.

Definition _SENSITIVE_KEYS : list string :=
  ["authorization"; "credential"; "credentials"; "api_key"; "access_key"; "password"; "password_value";
   "private_key"; "secret"; "secrets"; "token"].
Definition _SENSITIVE_SUFFIXES : list string :=
  ["_access_key"; "_ai_key"; "_api_key"; "_credential"; "_password"; "_private_key"; "_secret";
   "_secret_key"; "_token"].

(** [is_sensitive_key] *)
Definition normalized_key (key : string) : string :=
  let words := split_words (String.length key) key in
  str_map lower_char (str_replace "-"%char "_"%char (split_case (String.length words) words)).

Definition is_sensitive_key (key : string) : bool :=
  let normalized := normalized_key key in
  let collapsed := str_filter (fun c => negb (Ascii.eqb c "_"%char)) normalized in
  str_mem normalized _SENSITIVE_KEYS || existsb (fun s => str_endswith s normalized) _SENSITIVE_SUFFIXES ||
  String.eqb normalized "pat" || str_endswith "_pat" normalized ||
  str_endswith "apikey" collapsed || str_endswith "secretkey" collapsed.

Example is_sensitive_key_examples :
  map is_sensitive_key ["apiKey"; "OPENAI_API_KEY"; "hfToken"; "HFToken"; "path"; "github-pat"; "max_tokens";
                        "secretKey"; "MyAPIKey"; "tokenizer"] =
  [true; true; true; true; false; true; false; true; true; false].
Proof. vm_compute. reflexivity. Qed.

(** [_reject_sensitive_parameters] (models.py), [_validate_parameters]
    (provider_models.py): no object of the value has a secret-like key. *)
Fixpoint has_sensitive_key (value : json) : bool :=
  match value with
  | JObj o => existsb (fun e => is_sensitive_key e.1 || has_sensitive_key e.2) o
  | JArr l => existsb has_sensitive_key l
  | _ => false
  end.

Definition _reject_sensitive_parameters (value : json) (owner : string) : result unit :=
  raise_if has_sensitive_key value
    with ValidationError (owner +:+ " parameters must not contain secret-like keys");;
  Ok tt.

(** The pure path of [PurePosixPath] (one leading slash at most matters here). *)
Definition posix_parts (value : string) : list string :=
  List.filter (fun part => nonempty part && negb (String.eqb part ".")) (split_slash value).

(** [path_is_safely_relative] *)
Definition path_is_safely_relative (value : string) : bool :=
  negb (str_startswith "/" value) && negb (char_mem "\"%char value) && negb (char_mem "000"%char value) &&
  negb (str_mem ".." (posix_parts value)) && String.eqb (join_slash (posix_parts value)) value &&
  nonempty value && negb (String.eqb value ".").
