(* ===== verification/PyText.v ===== *)
(** Python's texts, pure paths, dates and times. *)
From S2P Require Import Prelude.
From S2P Require Import PyDict.
From S2P Require Import Float64.
From S2P Require Import Sha256.
From S2P Require Import Paths.
From S2P Require Import Json.
From S2P Require Import Patterns.

(** ** Pure POSIX paths ([pathlib.PurePosixPath]): a root of at most two slashes
    and the components, without empty ones and without dots. *)
Record PurePosixPath := { path_root : string; path_tail : list string }.

#[export] Instance PurePosixPath_eq_dec : EqDecision PurePosixPath.
Proof. solve_decision. Defined.

(** Exactly two leading slashes are a root of their own. *)
Definition posix_root (value : string) : string :=
  if str_startswith "//" value && negb (str_startswith "///" value) then "//"
  else if str_startswith "/" value then "/" else "".

Definition posix_path (value : string) : PurePosixPath :=
  {| path_root := posix_root value; path_tail := posix_parts value |}.

(** [p.parts], [p.name], [p.parent], [str(p)] *)
Definition path_parts (p : PurePosixPath) : list string :=
  (if nonempty (path_root p) then [path_root p] else []) ++ path_tail p.

Definition path_name (p : PurePosixPath) : string := List.last (path_tail p) "".

Definition path_parent (p : PurePosixPath) : PurePosixPath :=
  {| path_root := path_root p; path_tail := removelast (path_tail p) |}.

Definition path_str (p : PurePosixPath) : string :=
  if nonempty (path_root p) then path_root p +:+ join_slash (path_tail p)
  else match path_tail p with [] => "." | tail => join_slash tail end.

(** [p.is_absolute()] *)
Definition path_is_absolute (p : PurePosixPath) : bool := nonempty (path_root p).

(** [str(PurePosixPath(value).parent)] *)
Definition parent_of (value : string) : string := path_str (path_parent (posix_path value)).
Definition name_of (value : string) : string := path_name (posix_path value).
Definition parts_of (value : string) : list string := path_parts (posix_path value).

Example posix_path_examples :
  (parts_of "waves/w1/wave.lock.json", parent_of "waves//./w1/wave.lock.json", name_of "/", parent_of "a",
   parts_of "//host/a", parent_of "/a") =
  (["waves"; "w1"; "wave.lock.json"], "waves/w1", "", ".", ["//"; "host"; "a"], "/").
Proof. vm_compute. reflexivity. Qed.

(** ** Bytes and text of Python values: digests and lines of bytes, the truth of
    a JSON value, and the text [str] and [repr] give it. Bytes are strings
    whose characters are the bytes. *)
(** [hashlib.sha256(content).hexdigest()] *)
Fixpoint byte_values (s : string) : list N :=
  match s with EmptyString => [] | String c s => Ascii.N_of_ascii c :: byte_values s end.

Definition sha256_bytes (content : string) : string :=
  Sha256.hex_of_bytes (Sha256.digest (byte_values content)).

(** What Python's strict UTF-8 decoder accepts: no overlong form, no surrogate,
    nothing above U+10FFFF. *)
Definition byte_in (low high b : N) : bool := N.leb low b && N.leb b high.

Fixpoint utf8_accepts (l : list N) : bool :=
  match l with
  | [] => true
  | b0 :: l =>
      if byte_in 0 127 b0 then utf8_accepts l
      else
        match l with
        | [] => false
        | b1 :: l =>
            if byte_in 194 223 b0 then byte_in 128 191 b1 && utf8_accepts l
            else
              match l with
              | [] => false
              | b2 :: l =>
                  if byte_in 224 239 b0 then
                    byte_in (if N.eqb b0 224 then 160 else 128) (if N.eqb b0 237 then 159 else 191) b1 &&
                    byte_in 128 191 b2 && utf8_accepts l
                  else
                    match l with
                    | [] => false
                    | b3 :: l =>
                        byte_in 240 244 b0 &&
                        byte_in (if N.eqb b0 240 then 144 else 128) (if N.eqb b0 244 then 143 else 191) b1 &&
                        byte_in 128 191 b2 && byte_in 128 191 b3 && utf8_accepts l
                    end
              end
        end
  end.

(** The error of [json.loads(path.read_text(encoding='utf-8'))] on bytes that are
    no JSON text, where the program turns [json.JSONDecodeError] into [invalid]. *)
Definition undecoded (content : string) (invalid : exn) : exn :=
  if utf8_accepts (byte_values content) then invalid else UnicodeDecodeError.

Example utf8_examples :
  map utf8_accepts [[65]; [195; 169]; [192; 128]; [237; 160; 128]; [240; 159; 146; 150]; [255]]%N =
  [true; true; false; false; true; false].
Proof. vm_compute. reflexivity. Qed.

(** Text and its UTF-8 bytes have one digest. *)
Example sha256_bytes_ascii : sha256_bytes "abc" = sha256_hex "abc".
Proof. vm_compute. reflexivity. Qed.

(** [value.splitlines()] on bytes: lines end in \n, \r or \r\n. *)
Definition char_lf : Ascii.ascii := "010"%char.
Definition char_cr : Ascii.ascii := "013"%char.

Fixpoint splitlines_go (line s : string) : list string :=
  match s with
  | EmptyString => if nonempty line then [line] else []
  | String c rest =>
      if Ascii.eqb c char_lf then line :: splitlines_go "" rest
      else if Ascii.eqb c char_cr then
        match rest with
        | String d rest' => if Ascii.eqb d char_lf then line :: splitlines_go "" rest'
                            else line :: splitlines_go "" rest
        | EmptyString => [line]
        end
      else splitlines_go (line +:+ String c EmptyString) rest
  end.

Definition splitlines (s : string) : list string := splitlines_go "" s.

(** [line.strip()] on bytes is empty. *)
Definition is_byte_space (c : Ascii.ascii) : bool :=
  let x := Ascii.N_of_ascii c in ((x =? 32) || ((9 <=? x) && (x <=? 13)))%N.
Definition is_blank (s : string) : bool := str_forall is_byte_space s.

Example splitlines_example :
  splitlines ("a" +:+ String char_cr (String char_lf ("b" +:+ String char_lf (String char_cr "c")))) =
  ["a"; "b"; ""; "c"].
Proof. vm_compute. reflexivity. Qed.

(** [json.dumps(value, indent=2, sort_keys=True)] *)
Definition newline_text : string := String char_lf EmptyString.

Fixpoint dumps_indented (margin : string) (j : json) : string :=
  let inner := margin +:+ "  " in
  let block opening items closing :=
    opening +:+ newline_text +:+ inner +:+ str_join ("," +:+ newline_text +:+ inner) items +:+
    newline_text +:+ margin +:+ closing in
  match j with
  | JArr [] => "[]"
  | JObj [] => "{}"
  | JArr l => block "[" (map (dumps_indented inner) l) "]"
  | JObj o =>
      block "{" (map (fun e => quote e.1 +:+ ": " +:+ e.2)
        (sort_by key_leb (map (fun e => (e.1, dumps_indented inner e.2)) o))) "}"
  | _ => dumps j
  end.

Example dumps_indented_example :
  dumps_indented "" (jobj [("b", JArr [JInt 1; JArr []]); ("a", JObj [])]) =
  str_join newline_text ["{"; "  " +:+ quote "a" +:+ ": {},"; "  " +:+ quote "b" +:+ ": [";
    "    1,"; "    []"; "  ]"; "}"].
Proof. vm_compute. reflexivity. Qed.

(** [bool(value)] *)
Definition json_truthy (j : json) : bool :=
  match j with
  | JNull => false
  | JBool b => b
  | JInt z => negb (z =? 0)
  | JFloat x => negb (float_leb x float_zero && float_leb float_zero x)
  | JStr s => nonempty s
  | JArr l => match l with [] => false | _ => true end
  | JObj o => match o with [] => false | _ => true end
  end.

(** [repr] of a text: single quotes unless it holds one and no double quote. *)
Definition repr_char (q c : Ascii.ascii) : string :=
  let x := Ascii.N_of_ascii c in
  if Ascii.eqb c q || Ascii.eqb c "\"%char then String "\" (String c EmptyString)
  else if (x =? 10)%N then "\n" else if (x =? 13)%N then "\r" else if (x =? 9)%N then "\t"
  else if ((x <? 32) || ((127 <=? x) && (x <=? 160)) || (x =? 173))%N
  then "\x" +:+ String (Sha256.hex_digit (x / 16)) (String (Sha256.hex_digit (x mod 16)) EmptyString)
  else String c EmptyString.

Fixpoint repr_chars (q : Ascii.ascii) (s : string) : string :=
  match s with EmptyString => EmptyString | String c s => repr_char q c +:+ repr_chars q s end.

Definition single_quote : Ascii.ascii := "039"%char.
Definition double_quote : Ascii.ascii := "034"%char.

Definition py_repr_str (s : string) : string :=
  let q := if char_mem single_quote s && negb (char_mem double_quote s) then double_quote else single_quote in
  String q (repr_chars q s +:+ String q EmptyString).

Fixpoint py_repr (j : json) : string :=
  match j with
  | JNull => "None"
  | JBool true => "True"
  | JBool false => "False"
  | JInt z => pretty z
  | JFloat x => float_repr x
  | JStr s => py_repr_str s
  | JArr l => "[" +:+ str_join ", " (map py_repr l) +:+ "]"
  | JObj o => "{" +:+ str_join ", " (map (fun e => py_repr_str e.1 +:+ ": " +:+ py_repr e.2) o) +:+ "}"
  end.

(** [str(value)] *)
Definition py_str (j : json) : string := match j with JStr s => s | _ => py_repr j end.

(** [s.lower()] *)
Definition str_lower (s : string) : string := str_map lower_char s.

(** [value or ""] in a formatted string *)
Definition py_str_or_empty (j : option json) : string :=
  match j with Some v => if json_truthy v then py_str v else "" | None => "" end.

Example py_repr_example :
  py_str (JArr [JStr "a"; JStr ("it" +:+ String single_quote "s"); JNull; JBool true; JInt 3]) =
  "['a', " +:+ String double_quote ("it" +:+ String single_quote ("s" +:+ String double_quote ", None, True, 3]")).
Proof. vm_compute. reflexivity. Qed.

(** ** Datetimes in UTC: microseconds since 1970-01-01, and the texts the program
    writes of them ([isoformat()], [strftime("%Y%m%dT%H%M%SZ")]). The
    calendar is the proleptic Gregorian one of [datetime]; [civil_of_days]
    is the date of a day number. *)
Record civil := { year : Z; month : Z; day : Z }.

(** 719468 days lie between 0000-03-01 and 1970-01-01; an era is 400 years. *)
Definition civil_of_era_day (era doe : Z) : civil :=
  let yoe := (doe - doe / 1460 + doe / 36524 - doe / 146096) / 365 in
  let doy := doe - (365 * yoe + yoe / 4 - yoe / 100) in
  let mp := (5 * doy + 2) / 153 in
  let m := if mp <? 10 then mp + 3 else mp - 9 in
  {| year := yoe + era * 400 + (if m <=? 2 then 1 else 0);
     month := m;
     day := doy - (153 * mp + 2) / 5 + 1 |}.

Definition civil_of_days (z : Z) : civil :=
  let z := z + 719468 in civil_of_era_day (z / 146097) (z mod 146097).

(** ** Texts *)
Definition pad (width : nat) (z : Z) : string :=
  let s := pretty z in
  Nat.iter (width - String.length s) (fun s => "0" +:+ s) s.

Record clock_time := { hour : Z; minute : Z; second : Z; microsecond : Z }.

Definition day_micros : Z := 86400000000.

Definition time_of (micros : Z) : clock_time := {|
  hour := micros / 3600000000;
  minute := micros / 60000000 mod 60;
  second := micros / 1000000 mod 60;
  microsecond := micros mod 1000000;
|}.

(** [t.isoformat()] of an aware datetime in UTC *)
Definition isoformat (t : Z) : string :=
  let c := civil_of_days (t / day_micros) in
  let k := time_of (t mod day_micros) in
  pad 4 (year c) +:+ "-" +:+ pad 2 (month c) +:+ "-" +:+ pad 2 (day c) +:+ "T" +:+
  pad 2 (hour k) +:+ ":" +:+ pad 2 (minute k) +:+ ":" +:+ pad 2 (second k) +:+
  (if microsecond k =? 0 then "" else "." +:+ pad 6 (microsecond k)) +:+ "+00:00".

(** The text Pydantic's JSON mode gives it. *)
Definition json_datetime (t : Z) : string := str_removesuffix "+00:00" (isoformat t) +:+ "Z".

(** [f"{t:%Y%m%dT%H%M%SZ}"] *)
Definition compact_format (t : Z) : string :=
  let c := civil_of_days (t / day_micros) in
  let k := time_of (t mod day_micros) in
  pad 4 (year c) +:+ pad 2 (month c) +:+ pad 2 (day c) +:+ "T" +:+
  pad 2 (hour k) +:+ pad 2 (minute k) +:+ pad 2 (second k) +:+ "Z".

Example isoformat_examples :
  map isoformat [0; 951782400000000; 1709209800123456; 1784246399000000; -1] =
  ["1970-01-01T00:00:00+00:00"; "2000-02-29T00:00:00+00:00"; "2024-02-29T12:30:00.123456+00:00";
   "2026-07-16T23:59:59+00:00"; "1969-12-31T23:59:59.999999+00:00"].
Proof. vm_compute. reflexivity. Qed.
