(* ===== verification/Campaigns.v ===== *)
(** Campaign plans and campaign locks (src/src/harbor_hf/campaigns.py).

    The immutable data a campaign is made of: the plan (runs, shards and
    trials identified by content digests), the lock that gives every one of
    them its durable identity, the recovery and controller policies, and the
    wave planning arithmetic.  The Pydantic validators are boolean functions
    ([*_valid]); a constructor call of the source is [validate] of the record. *)
From S2P Require Import Prelude.
From S2P Require Import PyDict.
From S2P Require Import Sha256.
From S2P Require Import Json.
From Stdlib Require Import Floats.SpecFloat.
From S2P Require Import Float64.

(** ** Decimals

    [decimal.Decimal] under the default context: a coefficient of at most 28
    digits and a power of ten; only non-negative values occur. *)
Record decimal := Decimal { dec_coefficient : Z; dec_exponent : Z }.

#[export] Instance decimal_eq_dec : EqDecision decimal.
Proof. solve_decision. Defined.

Definition decimal_precision : Z := 28.

Fixpoint num_digits_go (fuel : nat) (z : Z) : Z :=
  match fuel with
  | O => 0
  | S fuel => if z <=? 0 then 0 else 1 + num_digits_go fuel (z / 10)
  end.
Definition num_digits (z : Z) : Z := num_digits_go (S (Z.to_nat (Z.log2 z))) z.

(** Division by a positive power of ten, rounding half to even. *)
Definition round_half_even (c p : Z) : Z :=
  let q := c / p in let r := c mod p in
  if 2 * r <? p then q else if p <? 2 * r then q + 1 else if Z.even q then q else q + 1.

Definition dec_round (d : decimal) : decimal :=
  let excess := num_digits (dec_coefficient d) - decimal_precision in
  if excess <=? 0 then d
  else Decimal (round_half_even (dec_coefficient d) (10 ^ excess)) (dec_exponent d + excess).

Definition dec_mul (x y : decimal) : decimal :=
  dec_round (Decimal (dec_coefficient x * dec_coefficient y) (dec_exponent x + dec_exponent y)).

Definition dec_of_int (z : Z) : decimal := Decimal z 0.

(** [int(d.to_integral_value(rounding=ROUND_CEILING))] *)
Definition dec_ceiling (d : decimal) : Z :=
  if 0 <=? dec_exponent d then dec_coefficient d * 10 ^ dec_exponent d
  else - ((- dec_coefficient d) / 10 ^ (- dec_exponent d)).

(** [d >= Decimal("1.0")] *)
Definition dec_ge_one (d : decimal) : bool :=
  if 0 <=? dec_exponent d then 1 <=? dec_coefficient d * 10 ^ dec_exponent d
  else 10 ^ (- dec_exponent d) <=? dec_coefficient d.

(** [float(d)] of a decimal. *)
Definition float_of_decimal (d : decimal) : result spec_float :=
  if 0 <=? dec_exponent d then float_of_int (dec_coefficient d * 10 ^ dec_exponent d)
  else float_of_ratio (dec_coefficient d) (Z.to_pos (10 ^ (- dec_exponent d))).

Example float_of_decimal_1_25 : float_of_decimal (Decimal 125 (-2)) = Ok (S754_finite false 5629499534213120 (-52)).
Proof. vm_compute. reflexivity. Qed.

(** ** Data *)
Inductive PublicationRole := role_final | role_component | role_diagnostic.
Inductive ComponentKind := component_base | component_correction.

#[export] Instance PublicationRole_eq_dec : EqDecision PublicationRole.
Proof. solve_decision. Defined.
#[export] Instance ComponentKind_eq_dec : EqDecision ComponentKind.
Proof. solve_decision. Defined.

(** Benchmark sources that are resolved (models.py), and the lock that pins one
    (benchmark_source.py). *)
Record GitBenchmarkSource := {
  gs_repository : string;
  gs_revision : string;
  gs_path : string;
}.

Record BundleBenchmarkSource := {
  bn_content_digest : string;
  bn_manifest_sha256 : string;
}.

Record PackageBenchmarkSourceLock := { pk_reference : string }.

Inductive ResolvedBenchmarkSource :=
  | resolved_git (source : GitBenchmarkSource)
  | resolved_bundle (source : BundleBenchmarkSource)
  | resolved_package (source : PackageBenchmarkSourceLock).

Record BenchmarkSourceLock := { bl_source : ResolvedBenchmarkSource }.

#[export] Instance GitBenchmarkSource_eq_dec : EqDecision GitBenchmarkSource.
Proof. solve_decision. Defined.
#[export] Instance BundleBenchmarkSource_eq_dec : EqDecision BundleBenchmarkSource.
Proof. solve_decision. Defined.
#[export] Instance PackageBenchmarkSourceLock_eq_dec : EqDecision PackageBenchmarkSourceLock.
Proof. solve_decision. Defined.
#[export] Instance ResolvedBenchmarkSource_eq_dec : EqDecision ResolvedBenchmarkSource.
Proof. solve_decision. Defined.
#[export] Instance BenchmarkSourceLock_eq_dec : EqDecision BenchmarkSourceLock.
Proof. solve_decision. Defined.

(** src/src/harbor_hf/models.py *)
Record CampaignControllerSpec := {
  planning_trial_seconds : Z;
  headroom_factor : decimal;
  wave_reserve_seconds : Z;
  controller_reserve_seconds : Z;
  heartbeat_seconds : Z;
  stale_after_seconds : Z;
  max_attempts : Z;
}.

#[export] Instance CampaignControllerSpec_eq_dec : EqDecision CampaignControllerSpec.
Proof. solve_decision. Defined.

Definition CampaignControllerSpec_valid (p : CampaignControllerSpec) : bool :=
  (1 <=? planning_trial_seconds p) && dec_ge_one (headroom_factor p) &&
  (1 <=? wave_reserve_seconds p) && (600 <=? controller_reserve_seconds p) &&
  ((30 <=? heartbeat_seconds p) && (heartbeat_seconds p <=? 300)) &&
  (90 <=? stale_after_seconds p) &&
  ((1 <=? max_attempts p) && (max_attempts p <=? 10)) &&
  negb (stale_after_seconds p <? 3 * heartbeat_seconds p).

Record PlannedTrial := {
  pt_trial_digest : string;
  pt_task_name : string;
  pt_task_digest : string;
  pt_logical_attempt : Z;
}.

Record PlannedShard := {
  ps_shard_digest : string;
  ps_trials : list PlannedTrial;
}.

(** The fields a planned run and a locked run share. *)
Record RunAdmission := {
  ra_cell_digest : string;
  ra_deployment_digest : string;
  ra_model : string;
  ra_deployment : string;
  ra_agent : string;
  ra_provider : option string;
  ra_max_concurrent_requests : option Z;
  ra_spend_cap_microusd : option Z;
  ra_estimated_wave_cost_microusd : option Z;
}.

Record PlannedRun := {
  pr_admission :> RunAdmission;
  pr_shards : list PlannedShard;
}.

Record PlannedInitialWave := {
  pw_wave_index : Z;
  pw_deployment_digest : string;
  pw_shard_digests : list string;
  pw_trial_count : Z;
  pw_effective_concurrency : Z;
  pw_planned_duration_seconds : Z;
}.

Record LockedInitialWave := {
  lw_wave_index : Z;
  lw_deployment_digest : string;
  lw_shard_ids : list string;
  lw_trial_count : Z;
  lw_effective_concurrency : Z;
  lw_planned_duration_seconds : Z;
}.

Record CampaignRecoveryPolicy := {
  max_active_waves : Z;
  max_physical_executions_per_trial : Z;
  retry_base_seconds : Z;
  retry_max_seconds : Z;
  cancellation_grace_seconds : Z;
  policy_spend_cap_microusd : option Z;
}.

Definition opt_ge (bound : Z) (o : option Z) : bool :=
  match o with Some z => bound <=? z | None => true end.

(** Field bounds and [retry_backoff_is_bounded]. *)
Definition CampaignRecoveryPolicy_valid (p : CampaignRecoveryPolicy) : bool :=
  (1 <=? max_active_waves p) && (1 <=? max_physical_executions_per_trial p) &&
  (1 <=? retry_base_seconds p) && (1 <=? retry_max_seconds p) &&
  (0 <=? cancellation_grace_seconds p) && opt_ge 0 (policy_spend_cap_microusd p) &&
  negb (retry_max_seconds p <? retry_base_seconds p).

Definition default_recovery_policy : CampaignRecoveryPolicy := {|
  max_active_waves := 64;
  max_physical_executions_per_trial := 3;
  retry_base_seconds := 30;
  retry_max_seconds := 1800;
  cancellation_grace_seconds := 0;
  policy_spend_cap_microusd := None;
|}.

Record CampaignPlan := {
  plan_experiment : string;
  plan_evaluation_id : string;
  plan_publication_role : PublicationRole;
  plan_component_kind : option ComponentKind;
  plan_manifest_digest : string;
  plan_source_lock : BenchmarkSourceLock;
  plan_plan_digest : string;
  plan_run_count : Z;
  plan_shard_count : Z;
  plan_trial_count : Z;
  plan_max_shards_per_wave : Z;
  plan_recovery_policy : CampaignRecoveryPolicy;
  plan_controller_policy : option CampaignControllerSpec;
  plan_planned_campaign_duration_seconds : option Z;
  plan_initial_waves : list PlannedInitialWave;
  plan_runs : list PlannedRun;
}.

Record CampaignTrialLock := {
  tl_trial_id : string;
  tl_trial_digest : string;
  tl_task_name : string;
  tl_task_digest : string;
  tl_logical_attempt : Z;
}.

Record CampaignShardLock := {
  sl_shard_id : string;
  sl_shard_digest : string;
  sl_trials : list CampaignTrialLock;
}.

Record CampaignRunLock := {
  rl_admission :> RunAdmission;
  rl_run_id : string;
  rl_shards : list CampaignShardLock;
}.

Record CampaignLock := {
  campaign_id : string;
  created_at : Z;
  experiment : string;
  evaluation_id : string;
  publication_role : PublicationRole;
  component_kind : option ComponentKind;
  manifest_digest : string;
  source_lock : BenchmarkSourceLock;
  plan_digest : string;
  artifact_prefix : string;
  max_shards_per_wave : Z;
  recovery_policy : CampaignRecoveryPolicy;
  controller_policy : option CampaignControllerSpec;
  planned_campaign_duration_seconds : option Z;
  initial_waves : list LockedInitialWave;
  runs : list CampaignRunLock;
}.

#[export] Instance PlannedTrial_eq_dec : EqDecision PlannedTrial.
Proof. solve_decision. Defined.
#[export] Instance PlannedShard_eq_dec : EqDecision PlannedShard.
Proof. solve_decision. Defined.
#[export] Instance RunAdmission_eq_dec : EqDecision RunAdmission.
Proof. solve_decision. Defined.
#[export] Instance PlannedRun_eq_dec : EqDecision PlannedRun.
Proof. solve_decision. Defined.
#[export] Instance PlannedInitialWave_eq_dec : EqDecision PlannedInitialWave.
Proof. solve_decision. Defined.
#[export] Instance LockedInitialWave_eq_dec : EqDecision LockedInitialWave.
Proof. solve_decision. Defined.
#[export] Instance CampaignRecoveryPolicy_eq_dec : EqDecision CampaignRecoveryPolicy.
Proof. solve_decision. Defined.
#[export] Instance CampaignPlan_eq_dec : EqDecision CampaignPlan.
Proof. solve_decision. Defined.
#[export] Instance CampaignTrialLock_eq_dec : EqDecision CampaignTrialLock.
Proof. solve_decision. Defined.
#[export] Instance CampaignShardLock_eq_dec : EqDecision CampaignShardLock.
Proof. solve_decision. Defined.
#[export] Instance CampaignRunLock_eq_dec : EqDecision CampaignRunLock.
Proof. solve_decision. Defined.
#[export] Instance CampaignLock_eq_dec : EqDecision CampaignLock.
Proof. solve_decision. Defined.

(** [counts_match_contents] *)
Definition run_role_consistent (role : PublicationRole) (kind : option ComponentKind) : bool :=
  Bool.eqb (bool_decide (role = role_component)) (is_some kind).

Definition plan_shard_total (p : CampaignPlan) : Z :=
  sum_z (map (fun run => len (pr_shards run)) (plan_runs p)).

Definition plan_trial_total (p : CampaignPlan) : Z :=
  sum_z (concat (map (fun run => map (fun s => len (ps_trials s)) (pr_shards run)) (plan_runs p))).

Definition is_nil {A} (l : list A) : bool := match l with [] => true | _ => false end.

Definition counts_match_contents (p : CampaignPlan) : result CampaignPlan :=
  raise_if negb (run_role_consistent (plan_publication_role p) (plan_component_kind p))
    with ValidationError "component kind conflicts with publication role";;
  raise_if negb (Bool.eqb (is_some (plan_controller_policy p))
                          (is_some (plan_planned_campaign_duration_seconds p))) ||
           negb (Bool.eqb (negb (is_some (plan_controller_policy p)))
                          (is_nil (plan_initial_waves p)))
    with ValidationError "campaign controller planning fields are incomplete";;
  raise_if negb (z_list_eqb (map pw_wave_index (plan_initial_waves p))
                            (range1 (len (plan_initial_waves p))))
    with ValidationError "planned wave indexes must be contiguous";;
  raise_if negb ((plan_run_count p =? len (plan_runs p)) &&
                 (plan_shard_count p =? plan_shard_total p) &&
                 (plan_trial_count p =? plan_trial_total p))
    with ValidationError "campaign plan counts do not match its contents";;
  Ok p.

(** [publication_role_is_consistent] of [CampaignLock]. *)
Definition publication_role_is_consistent (l : CampaignLock) : result CampaignLock :=
  raise_if negb (run_role_consistent (publication_role l) (component_kind l))
    with ValidationError "component kind conflicts with publication role";;
  raise_if negb (Bool.eqb (is_some (controller_policy l))
                          (is_some (planned_campaign_duration_seconds l))) ||
           negb (Bool.eqb (negb (is_some (controller_policy l))) (is_nil (initial_waves l)))
    with ValidationError "campaign controller lock fields are incomplete";;
  raise_if negb (z_list_eqb (map lw_wave_index (initial_waves l)) (range1 (len (initial_waves l))))
    with ValidationError "locked wave indexes must be contiguous";;
  Ok l.

(** ** Digests and identities *)

(** [_digest] *)
Definition _digest (value : json) : string := "sha256:" +:+ sha256_hex (dumps value).

(** [_short_id] *)
Definition _short_id (prefix : string) (value : json) : string :=
  prefix +:+ "-" +:+ str_take 24 (str_removeprefix "sha256:" (_digest value)).

(** [_CAMPAIGN_ID.fullmatch] *)
Definition campaign_id_matches (s : string) : bool := safe_component 99 s.

(** [_usd_to_microusd]: [int(value * 1_000_000)], truncating. *)
Definition _usd_to_microusd (value : option decimal) : option Z :=
  match value with
  | None => None
  | Some d =>
      let m := dec_mul d (dec_of_int 1000000) in
      Some (if 0 <=? dec_exponent m then dec_coefficient m * 10 ^ dec_exponent m
            else dec_coefficient m / 10 ^ (- dec_exponent m))
  end.

(** [deterministic_wave_id] *)
Definition deterministic_wave_id (action_key : string) : result string :=
  raise_if negb (hex_fullmatch 24 action_key)
    with ValueError "wave action key must be a 24-character hexadecimal digest";;
  Ok ("wave-" +:+ action_key).

(** ** Wave planning *)

(** [estimated_partial_wave_cost] *)
Definition shard_sizes (lock : CampaignLock) (deployment_digest : string) : list (string * Z) :=
  sort_by (fun x y => str_leb x.1 y.1)
    (concat (map (fun run : CampaignRunLock =>
       if String.eqb (ra_deployment_digest run) deployment_digest
       then map (fun shard => (sl_shard_id shard, len (sl_trials shard))) (rl_shards run)
       else []) (runs lock))).

Definition estimated_partial_wave_cost (lock : CampaignLock) (deployment_digest : string)
    (estimated_wave_cost_microusd : option Z) (trial_count : Z) : result (option Z) :=
  match estimated_wave_cost_microusd with
  | None => Ok None
  | Some estimated =>
      let* cs := chunks (max_shards_per_wave lock) (shard_sizes lock deployment_digest) in
      let capacities := map (fun c => sum_z (map snd c)) cs in
      let capacity := max_default 0 capacities in
      raise_if (capacity <=? 0) || (trial_count <=? 0)
        with ValueError "partial wave cost requires a non-empty deployment wave";;
      Ok (Some (Z.max 1 ((estimated * trial_count + capacity - 1) / capacity)))
  end.

(** [planned_provider_wave_seconds] *)
Definition planned_provider_wave_seconds (policy : CampaignControllerSpec)
    (trial_count effective_concurrency : Z) : result Z :=
  raise_if (trial_count <? 1) || (effective_concurrency <? 1)
    with ValueError "planned provider waves require trials and concurrency";;
  let batches := (trial_count + effective_concurrency - 1) / effective_concurrency in
  let trial_work := dec_of_int (batches * planning_trial_seconds policy) in
  let planned_work := dec_ceiling (dec_mul trial_work (headroom_factor policy)) in
  Ok (planned_work + wave_reserve_seconds policy).

(** [locked_provider_action_concurrency]: the set of concurrencies has one element. *)
Definition locked_provider_action_concurrency (campaign : CampaignLock)
    (deployment_digest : string) : result Z :=
  match remove_dups (map lw_effective_concurrency
          (List.filter (fun wave => String.eqb (lw_deployment_digest wave) deployment_digest)
             (initial_waves campaign))) with
  | [c] => Ok c
  | _ => Err (ValueError "provider action has no locked concurrency")
  end.

(** [set(xs) == set(ys)] *)
Definition same_set (l k : list string) : bool :=
  forallb (fun x => str_mem x k) l && forallb (fun x => str_mem x l) k.

Inductive WaveActionKind := wave_submit | wave_retry.

(** [locked_provider_action_seconds] *)
Definition locked_provider_action_seconds (campaign : CampaignLock)
    (action_kind : WaveActionKind) (deployment_digest : string)
    (shard_ids : list string) (trial_count : Z) : result Z :=
  match controller_policy campaign with
  | None => Err (ValueError "provider action has no controller policy")
  | Some policy =>
      match action_kind with
      | wave_submit =>
          match List.filter (fun wave =>
                  String.eqb (lw_deployment_digest wave) deployment_digest &&
                  same_set (lw_shard_ids wave) shard_ids) (initial_waves campaign) with
          | [wave] => Ok (lw_planned_duration_seconds wave)
          | _ => Err (ValueError "provider action does not match one locked initial wave")
          end
      | wave_retry =>
          let* concurrency := locked_provider_action_concurrency campaign deployment_digest in
          planned_provider_wave_seconds policy trial_count concurrency
      end
  end.

(** ** Building a campaign lock from a plan *)

(** The trial, shard and run locks of [build_campaign_lock]. *)
Definition lock_trial (run_id : string) (trial : PlannedTrial) : CampaignTrialLock := {|
  tl_trial_id := _short_id "trial"
    (jobj [("run_id", JStr run_id); ("trial_digest", JStr (pt_trial_digest trial))]);
  tl_trial_digest := pt_trial_digest trial;
  tl_task_name := pt_task_name trial;
  tl_task_digest := pt_task_digest trial;
  tl_logical_attempt := pt_logical_attempt trial;
|}.

Definition lock_shard (run_id : string) (shard : PlannedShard) : CampaignShardLock := {|
  sl_shard_id := _short_id "shard"
    (jobj [("run_id", JStr run_id); ("shard_digest", JStr (ps_shard_digest shard))]);
  sl_shard_digest := ps_shard_digest shard;
  sl_trials := map (lock_trial run_id) (ps_trials shard);
|}.

Definition lock_run (campaign_id : string) (planned_run : PlannedRun) : CampaignRunLock :=
  let run_id := _short_id "run"
    (jobj [("campaign_id", JStr campaign_id);
           ("cell_digest", JStr (ra_cell_digest planned_run))]) in {|
  rl_admission := pr_admission planned_run;
  rl_run_id := run_id;
  rl_shards := map (lock_shard run_id) (pr_shards planned_run);
|}.

(** Field bounds of [LockedInitialWave]. *)
Definition LockedInitialWave_valid (w : LockedInitialWave) : bool :=
  (1 <=? lw_wave_index w) && negb (is_nil (lw_shard_ids w)) && (1 <=? lw_trial_count w) &&
  (1 <=? lw_effective_concurrency w) && (1 <=? lw_planned_duration_seconds w).

(** [grouped]: the shards of every deployment, runs by identifier, shards by identifier. *)
Definition grouped_shards (run_locks : list CampaignRunLock) : dict (list CampaignShardLock) :=
  fold_left (fun grouped (run : CampaignRunLock) =>
      dict_set grouped (ra_deployment_digest run)
        (dict_get_default grouped (ra_deployment_digest run) [] ++
         sort_by (fun a b => str_leb (sl_shard_id a) (sl_shard_id b)) (rl_shards run)))
    (sort_by (fun a b => str_leb (rl_run_id a) (rl_run_id b)) run_locks) [].

(** One iteration of the inner loop of [_locked_initial_waves]. *)
Definition append_locked_wave (concurrency duration : dict Z) (deployment_key : string)
    (waves : list LockedInitialWave) (chunk : list CampaignShardLock)
    : result (list LockedInitialWave) :=
  let* effective := dict_item concurrency deployment_key in
  let* seconds := dict_item duration deployment_key in
  let wave := {|
    lw_wave_index := len waves + 1;
    lw_deployment_digest := deployment_key;
    lw_shard_ids := map sl_shard_id chunk;
    lw_trial_count := sum_z (map (fun shard => len (sl_trials shard)) chunk);
    lw_effective_concurrency := effective;
    lw_planned_duration_seconds := seconds;
  |} in
  raise_if negb (LockedInitialWave_valid wave) with ValidationError "LockedInitialWave";;
  Ok (waves ++ [wave]).

(** [_locked_initial_waves] *)
Definition _locked_initial_waves (plan : CampaignPlan) (run_locks : list CampaignRunLock)
    : result (list LockedInitialWave) :=
  match plan_controller_policy plan with
  | None => Ok []
  | Some _ =>
      let concurrency := dict_of (map (fun wave =>
        (pw_deployment_digest wave, pw_effective_concurrency wave)) (plan_initial_waves plan)) in
      let duration := dict_of (map (fun wave =>
        (pw_deployment_digest wave, pw_planned_duration_seconds wave)) (plan_initial_waves plan)) in
      let grouped := grouped_shards run_locks in
      foldM (fun waves deployment_key =>
          let* shards := dict_item grouped deployment_key in
          let* cs := chunks (plan_max_shards_per_wave plan) shards in
          foldM (append_locked_wave concurrency duration deployment_key) waves cs)
        [] (sort_by str_leb (dict_keys grouped))
  end.

(** [build_campaign_lock]; [now] is what the clock returns. *)
Definition build_campaign_lock (plan : CampaignPlan) (campaign_id : string) (now : Z)
    : result CampaignLock :=
  raise_if negb (campaign_id_matches campaign_id)
    with ValueError "campaign ID must be one safe path component";;
  let run_locks := map (lock_run campaign_id) (plan_runs plan) in
  let* waves := _locked_initial_waves plan run_locks in
  publication_role_is_consistent {|
    campaign_id := campaign_id;
    created_at := now;
    experiment := plan_experiment plan;
    evaluation_id := plan_evaluation_id plan;
    publication_role := plan_publication_role plan;
    component_kind := plan_component_kind plan;
    manifest_digest := plan_manifest_digest plan;
    source_lock := plan_source_lock plan;
    plan_digest := plan_plan_digest plan;
    artifact_prefix := "campaigns/" +:+ campaign_id;
    max_shards_per_wave := plan_max_shards_per_wave plan;
    recovery_policy := plan_recovery_policy plan;
    controller_policy := plan_controller_policy plan;
    planned_campaign_duration_seconds := plan_planned_campaign_duration_seconds plan;
    initial_waves := waves;
    runs := run_locks;
  |}.

(** ** Admissible wave actions *)

(** The structural interface [SubmitWaveAction] of the source. *)
Class SubmitWaveAction (A : Type) := {
  action_id_of : A -> string;
  action_key_of : A -> string;
  action_kind_of : A -> string;
  action_campaign_id_of : A -> string;
  action_deployment_digest_of : A -> string;
  action_shard_ids_of : A -> list string;
  action_trial_ids_of : A -> list string;
  action_estimated_cost_of : A -> option Z;
}.

Section wave_actions.
Context `{SubmitWaveAction A}.

(** [_validate_action_trials] *)
Definition _validate_action_trials (action : A) : result unit :=
  raise_if negb (str_unique (action_trial_ids_of action))
    with ValueError "wave action trial IDs must be unique";;
  raise_if String.eqb (action_kind_of action) "retry-shard" && is_nil (action_trial_ids_of action)
    with ValueError "retry-shard action must admit at least one trial";;
  raise_if String.eqb (action_kind_of action) "submit-wave" &&
           negb (is_nil (action_trial_ids_of action))
    with ValueError "submit-wave action cannot admit individual trials";;
  Ok tt.

(** [_validate_submit_wave_action] *)
Definition _validate_submit_wave_action (campaign : CampaignLock) (action : A) : result unit :=
  raise_if negb (str_mem (action_kind_of action) ["submit-wave"; "retry-shard"]) ||
           negb (String.eqb (action_campaign_id_of action) (campaign_id campaign))
    with ValueError "wave action does not target the campaign";;
  raise_if is_nil (action_shard_ids_of action)
    with ValueError "wave action must contain at least one shard";;
  raise_if negb (str_unique (action_shard_ids_of action))
    with ValueError "wave action shard IDs must be unique";;
  raise_if max_shards_per_wave campaign <? len (action_shard_ids_of action)
    with ValueError "wave action exceeds the campaign shard bound";;
  let* _ := _validate_action_trials action in
  raise_if negb (hex_fullmatch 24 (action_key_of action)) ||
           negb (String.eqb (action_id_of action) ("act-" +:+ action_key_of action))
    with ValueError "wave action identity does not match its immutable contents";;
  Ok tt.

(** [_selected_wave_shards] *)
Definition _selected_wave_shards (campaign : CampaignLock) (action : A)
    : result (list (CampaignRunLock * list CampaignShardLock)) :=
  let requested := action_shard_ids_of action in
  let* '(selected, found) := foldM (fun '(selected, found) (run : CampaignRunLock) =>
      let shards := List.filter (fun s => str_mem (sl_shard_id s) requested) (rl_shards run) in
      if is_nil shards then Ok (selected, found)
      else
        raise_if negb (String.eqb (ra_deployment_digest run) (action_deployment_digest_of action))
          with ValueError "wave action mixes incompatible deployment digests";;
        Ok (selected ++ [(run, shards)], found ++ map sl_shard_id shards))
    ([], []) (runs campaign) in
  raise_if existsb (fun s => negb (str_mem s found)) requested
    with ValueError "wave action references an unknown campaign shard";;
  Ok selected.
End wave_actions.
