(* ===== verification/Models.v ===== *)
(** The experiment manifest (src/src/harbor_hf/models.py, provider_models.py).

    The records of an [ExperimentSpec] with the fields of the source, and the
    value [model_dump(mode="json")] gives for each: [xn] is [exclude_none].
    Fields that hold one literal are written by the dump only.  The validators
    are in [Manifest]. *)
From Stdlib Require Import Floats.SpecFloat.
From S2P Require Import Prelude.
From S2P Require Import PyDict.
From S2P Require Import Float64.
From S2P Require Import Json.
From S2P Require Import Patterns.
From S2P Require Import Campaigns.

(** ** Dumping fields *)

(** A field, a field that may be [None], and one with [exclude_if] on [None]. *)
Definition fld (name : string) (value : json) : list (string * json) := [(name, value)].
Definition ofld (xn : bool) (name : string) (value : option json) : list (string * json) :=
  match value with
  | Some v => [(name, v)]
  | None => if xn then [] else [(name, JNull)]
  end.
Definition xfld (name : string) (value : option json) : list (string * json) :=
  match value with Some v => [(name, v)] | None => [] end.
Definition drop_if (drop : bool) (fields : list (string * json)) : list (string * json) :=
  if drop then [] else fields.

(** [str(value)] of a decimal *)
Definition dec_str (d : decimal) : string :=
  let digits := pretty (dec_coefficient d) in
  let n := Z.of_nat (String.length digits) in
  let left_digits := dec_exponent d + n in
  let dotplace := if (dec_exponent d <=? 0) && (-6 <? left_digits) then left_digits else 1 in
  (if dotplace <=? 0 then "0." +:+ zeros (Z.to_nat (- dotplace)) +:+ digits
   else if n <=? dotplace then digits +:+ zeros (Z.to_nat (dotplace - n))
   else String.substring 0 (Z.to_nat dotplace) digits +:+ "." +:+
        String.substring (Z.to_nat dotplace) (String.length digits - Z.to_nat dotplace) digits) +:+
  (if left_digits =? dotplace then ""
   else "E" +:+ (if 0 <=? left_digits - dotplace then "+" else "") +:+ pretty (left_digits - dotplace)).

Example dec_str_examples :
  map dec_str [Decimal 125 (-2); Decimal 10 (-1); Decimal 3 0; Decimal 5 (-3); Decimal 12 3; Decimal 1 (-7)] =
  ["1.25"; "1.0"; "3"; "0.005"; "1.2E+4"; "1E-7"].
Proof. vm_compute. reflexivity. Qed.

(** [x < y] *)
Definition dec_ltb (x y : decimal) : bool :=
  let e := Z.min (dec_exponent x) (dec_exponent y) in
  dec_coefficient x * 10 ^ (dec_exponent x - e) <? dec_coefficient y * 10 ^ (dec_exponent y - e).
Definition dec_zero : decimal := Decimal 0 0.

(** ** The benchmark *)
Record Metadata := {
  md_name : string;
  md_labels : dict string;
}.

Record DirectoryBenchmarkSource := { ds_path : string }.

Inductive BenchmarkSource :=
  | source_git (source : GitBenchmarkSource)
  | source_directory (source : DirectoryBenchmarkSource)
  | source_bundle (source : BundleBenchmarkSource).

(** The parts of a parsed [AnyHttpUrl] and its text. *)
Record AnyHttpUrl := {
  url_scheme : string;
  url_username : option string;
  url_password : option string;
  url_host : option string;
  url_port : option Z;
  url_path : option string;
  url_query : option string;
  url_fragment : option string;
  url_text : string;
}.

Record BenchmarkJudgeSpec := {
  bj_api_url : AnyHttpUrl;
  bj_model : string;
  bj_api_key_secret_name : string;
  bj_reasoning_effort : option string;
  bj_strip_temperature : bool;
  bj_task_names : list string;
  bj_exclude_task_names : list string;
}.

Record BenchmarkSpec := {
  bm_dataset : string;
  bm_dataset_digest : option string;
  bm_source : option BenchmarkSource;
  bm_judge : option BenchmarkJudgeSpec;
  bm_task_names : list string;
  bm_task_digests : dict string;
}.

(** ** The matrix *)
Record QuantizationSpec := {
  q_method : string;
  q_scheme : string;
}.

Record WeightsSpec := {
  ws_format : string;
  ws_quantization : option QuantizationSpec;
}.

Record ModelProfile := {
  mp_id : string;
  mp_repo : string;
  mp_revision : string;
  mp_weights : WeightsSpec;
}.

Record EngineSpec := {
  en_name : string;
  en_image : string;
  en_command : list string;
  en_arguments : list string;
  en_environment : dict string;
  en_secret_names : list string;
}.

Record EndpointRef := {
  er_namespace : string;
  er_name : string;
  er_served_model_name : string;
}.

Record DeploymentProfile := {
  dp_id : string;
  dp_hardware : string;
  dp_accelerator_count : Z;
  dp_region : string;
  dp_engine : EngineSpec;
  dp_endpoint : option EndpointRef;
  dp_parameters : dict json;
}.

(** provider_models.py *)
Inductive ProviderApi := api_chat_completions | api_responses.
Inductive RoutePolicy := policy_fastest | policy_cheapest | policy_preferred.
Inductive ProviderRoute :=
  | PolicyRoute (policy : RoutePolicy)
  | ExplicitProviderRoute (provider : string).

Record ProviderLimits := {
  pl_max_concurrent_requests : Z;
  pl_max_attempts : Z;
  pl_min_request_interval_seconds : spec_float;
  pl_max_spend_usd : option decimal;
  pl_estimated_wave_cost_usd : option decimal;
}.

Record ProviderTarget := {
  pv_id : string;
  pv_api : ProviderApi;
  pv_model : string;
  pv_routing : ProviderRoute;
  pv_timeout_seconds : spec_float;
  pv_limits : ProviderLimits;
  pv_parameters : dict json;
}.

Definition provider_service : string := "hf-inference-providers".

(** [DeploymentProfile | ProviderTarget] *)
Inductive DeploymentTarget :=
  | target_endpoint (profile : DeploymentProfile)
  | target_provider (profile : ProviderTarget).

Definition target_id (t : DeploymentTarget) : string :=
  match t with target_endpoint p => dp_id p | target_provider p => pv_id p end.

Inductive RevisionKind := revision_package | revision_git | revision_harbor_source.

Record AgentProfile := {
  ap_id : string;
  ap_name : string;
  ap_import_path : option string;
  ap_revision : string;
  ap_revision_kind : RevisionKind;
  ap_reported_version : option string;
  ap_parameters : dict json;
}.

Record MatrixRule := {
  mr_models : list string;
  mr_deployments : list string;
  mr_agents : list string;
}.

Record MatrixSpec := {
  mx_models : list ModelProfile;
  mx_deployments : list DeploymentTarget;
  mx_agents : list AgentProfile;
  mx_include : list MatrixRule;
  mx_exclude : list MatrixRule;
}.

(** ** Execution, artifacts, publishing *)
Record ServingProfileBinding := {
  sb_profile_id : string;
  sb_profile_sha256 : string;
  sb_artifact_uri : string;
  sb_concurrency : Z;
  sb_model_sha256 : string;
  sb_deployment_sha256 : string;
  sb_agent_sha256 : string;
  sb_benchmark_sha256 : string;
  sb_harbor_runtime_sha256 : string;
  sb_server_context_tokens : Z;
  sb_max_output_tokens : Z;
  sb_reasoning_required : bool;
  sb_sample_task_count : Z;
  sb_sample_task_names : list string;
  sb_sample_tasks_sha256 : string;
}.

Record ExecutionSpec := {
  ex_attempts : Z;
  ex_concurrent_trials : Z;
  ex_max_trials_per_shard : Z;
  ex_max_shards_per_wave : Z;
  ex_timeout_seconds : Z;
  ex_agent_setup_timeout_multiplier : option spec_float;
  ex_server_context_tokens : option Z;
  ex_max_output_tokens : option Z;
  ex_reasoning_required : bool;
  ex_serving_profile : option ServingProfileBinding;
  ex_controller : option CampaignControllerSpec;
}.

Record TrialEvidencePolicy := {
  te_workspace_max_nodes : Z;
  te_workspace_max_file_bytes : Z;
  te_workspace_max_total_bytes : Z;
  te_workspace_max_archive_bytes : Z;
  te_workspace_capture_timeout_seconds : Z;
  te_judge_max_request_bytes : Z;
  te_judge_max_response_bytes : Z;
  te_judge_timeout_seconds : Z;
  te_judge_max_calls_per_execution : Z;
}.

Record ArtifactStoreSpec := {
  as_bucket : string;
  as_trial_evidence : option TrialEvidencePolicy;
}.

Inductive PublicationVisibility := visibility_private | visibility_public.

Record PublishingSpec := {
  pb_dataset : string;
  pb_dataset_visibility : PublicationVisibility;
  pb_index_dataset : option string;
  pb_index_dataset_visibility : option PublicationVisibility;
  pb_evaluation_id : string;
  pb_role : PublicationRole;
  pb_component_kind : option ComponentKind;
}.

(** ** Remote execution *)
Record RemoteJobSpec := {
  job_namespace : string;
  job_image : string;
  job_flavor : string;
  job_timeout_seconds : Z;
  job_token_secret_name : string;
}.

Record SourcePin := {
  sp_repository : string;
  sp_revision : string;
}.

Record HarborRuntimeSpec := {
  hr_source : SourcePin;
  hr_sandbox_flavor : string;
  hr_sandbox_idle_timeout_seconds : Z;
}.

Record RemoteExecutionSpec := {
  remote_job : RemoteJobSpec;
  remote_worker : SourcePin;
  remote_harbor : HarborRuntimeSpec;
}.

Record ExperimentSpec := {
  spec_metadata : Metadata;
  spec_benchmark : BenchmarkSpec;
  spec_matrix : MatrixSpec;
  spec_execution : ExecutionSpec;
  spec_artifacts : ArtifactStoreSpec;
  spec_publishing : PublishingSpec;
  spec_remote : option RemoteExecutionSpec;
}.

(** [spec.benchmark.judge.api_key_secret_name] and [spec.artifacts.bucket] *)
Definition spec_judge_api_key_secret_name (spec : ExperimentSpec) : option string :=
  option_map bj_api_key_secret_name (bm_judge (spec_benchmark spec)).
Definition spec_artifacts_bucket (spec : ExperimentSpec) : string := as_bucket (spec_artifacts spec).

(** ** Decidable equality *)
#[export] Instance DirectoryBenchmarkSource_eq_dec : EqDecision DirectoryBenchmarkSource. Proof. solve_decision. Defined.
#[export] Instance BenchmarkSource_eq_dec : EqDecision BenchmarkSource. Proof. solve_decision. Defined.
#[export] Instance AnyHttpUrl_eq_dec : EqDecision AnyHttpUrl. Proof. solve_decision. Defined.
#[export] Instance EndpointRef_eq_dec : EqDecision EndpointRef. Proof. solve_decision. Defined.
#[export] Instance EngineSpec_eq_dec : EqDecision EngineSpec. Proof. solve_decision. Defined.
#[export] Instance DeploymentProfile_eq_dec : EqDecision DeploymentProfile. Proof. solve_decision. Defined.
#[export] Instance ProviderApi_eq_dec : EqDecision ProviderApi. Proof. solve_decision. Defined.
#[export] Instance RoutePolicy_eq_dec : EqDecision RoutePolicy. Proof. solve_decision. Defined.
#[export] Instance ProviderRoute_eq_dec : EqDecision ProviderRoute. Proof. solve_decision. Defined.
#[export] Instance ProviderLimits_eq_dec : EqDecision ProviderLimits. Proof. solve_decision. Defined.
#[export] Instance ProviderTarget_eq_dec : EqDecision ProviderTarget. Proof. solve_decision. Defined.
#[export] Instance DeploymentTarget_eq_dec : EqDecision DeploymentTarget. Proof. solve_decision. Defined.
#[export] Instance RevisionKind_eq_dec : EqDecision RevisionKind. Proof. solve_decision. Defined.

(** ** [model_dump(mode="json")] *)
Section dump.
Variable xn : bool.

Definition Metadata_dump (m : Metadata) : json :=
  jobj (fld "name" (JStr (md_name m)) ++ fld "labels" (jdict JStr (md_labels m))).

Definition GitBenchmarkSource_dump (s : GitBenchmarkSource) : json :=
  jobj (fld "type" (JStr "git") ++ fld "repository" (JStr (gs_repository s)) ++
        fld "revision" (JStr (gs_revision s)) ++ fld "path" (JStr (gs_path s))).

Definition BundleBenchmarkSource_dump (s : BundleBenchmarkSource) : json :=
  jobj (fld "type" (JStr "bundle") ++ fld "content_digest" (JStr (bn_content_digest s)) ++
        fld "manifest_sha256" (JStr (bn_manifest_sha256 s))).

Definition BenchmarkSource_dump (s : BenchmarkSource) : json :=
  match s with
  | source_git s => GitBenchmarkSource_dump s
  | source_directory s => jobj (fld "type" (JStr "directory") ++ fld "path" (JStr (ds_path s)))
  | source_bundle s => BundleBenchmarkSource_dump s
  end.

Definition BenchmarkJudgeSpec_dump (j : BenchmarkJudgeSpec) : json :=
  jobj (fld "protocol" (JStr "openai-compatible") ++ fld "api_url" (JStr (url_text (bj_api_url j))) ++
        fld "model" (JStr (bj_model j)) ++
        fld "api_key_secret_name" (JStr (bj_api_key_secret_name j)) ++
        xfld "reasoning_effort" (option_map JStr (bj_reasoning_effort j)) ++
        drop_if (negb (bj_strip_temperature j)) (fld "strip_temperature" (JBool (bj_strip_temperature j))) ++
        fld "task_names" (jstrs (bj_task_names j)) ++
        fld "exclude_task_names" (jstrs (bj_exclude_task_names j))).

Definition BenchmarkSpec_dump (b : BenchmarkSpec) : json :=
  jobj (fld "dataset" (JStr (bm_dataset b)) ++
        ofld xn "dataset_digest" (option_map JStr (bm_dataset_digest b)) ++
        xfld "source" (option_map BenchmarkSource_dump (bm_source b)) ++
        xfld "judge" (option_map BenchmarkJudgeSpec_dump (bm_judge b)) ++
        fld "task_names" (jstrs (bm_task_names b)) ++
        fld "task_digests" (jdict JStr (bm_task_digests b))).

Definition WeightsSpec_dump (w : WeightsSpec) : json :=
  jobj (fld "format" (JStr (ws_format w)) ++
        ofld xn "quantization" (option_map (fun q =>
          jobj (fld "method" (JStr (q_method q)) ++ fld "scheme" (JStr (q_scheme q)))) (ws_quantization w))).

(** The fields of a profile without its [id], which some digests exclude. *)
Definition ModelProfile_fields (m : ModelProfile) : list (string * json) :=
  fld "repo" (JStr (mp_repo m)) ++ fld "revision" (JStr (mp_revision m)) ++
  fld "weights" (WeightsSpec_dump (mp_weights m)).

Definition ModelProfile_dump (m : ModelProfile) : json :=
  jobj (fld "id" (JStr (mp_id m)) ++ ModelProfile_fields m).

Definition EngineSpec_dump (e : EngineSpec) : json :=
  jobj (fld "name" (JStr (en_name e)) ++ fld "image" (JStr (en_image e)) ++
        fld "command" (jstrs (en_command e)) ++ fld "arguments" (jstrs (en_arguments e)) ++
        fld "environment" (jdict JStr (en_environment e)) ++
        fld "secret_names" (jstrs (en_secret_names e))).

Definition EndpointRef_dump (r : EndpointRef) : json :=
  jobj (fld "namespace" (JStr (er_namespace r)) ++ fld "name" (JStr (er_name r)) ++
        fld "served_model_name" (JStr (er_served_model_name r))).

Definition DeploymentProfile_fields (d : DeploymentProfile) : list (string * json) :=
  fld "provider" (JStr "hf-inference-endpoints") ++ fld "hardware" (JStr (dp_hardware d)) ++
  fld "accelerator_count" (JInt (dp_accelerator_count d)) ++ fld "region" (JStr (dp_region d)) ++
  fld "engine" (EngineSpec_dump (dp_engine d)) ++
  fld "parameters" (jdict (fun j => j) (dp_parameters d)).

Definition ProviderApi_value (a : ProviderApi) : string :=
  match a with api_chat_completions => "chat-completions" | api_responses => "responses" end.

Definition ProviderRoute_dump (r : ProviderRoute) : json :=
  match r with
  | PolicyRoute p =>
      jobj (fld "kind" (JStr "policy") ++ fld "policy" (JStr (match p with
        | policy_fastest => "fastest" | policy_cheapest => "cheapest" | policy_preferred => "preferred" end)))
  | ExplicitProviderRoute p => jobj (fld "kind" (JStr "provider") ++ fld "provider" (JStr p))
  end.

Definition ProviderLimits_dump (l : ProviderLimits) : json :=
  jobj (fld "max_concurrent_requests" (JInt (pl_max_concurrent_requests l)) ++
        fld "max_attempts" (JInt (pl_max_attempts l)) ++
        drop_if (SFeqb (pl_min_request_interval_seconds l) float_zero)
          (fld "min_request_interval_seconds" (JFloat (pl_min_request_interval_seconds l))) ++
        ofld xn "max_spend_usd" (option_map (fun d => JStr (dec_str d)) (pl_max_spend_usd l)) ++
        ofld xn "estimated_wave_cost_usd"
          (option_map (fun d => JStr (dec_str d)) (pl_estimated_wave_cost_usd l))).

Definition ProviderTarget_fields (t : ProviderTarget) : list (string * json) :=
  fld "kind" (JStr "inference-provider") ++ fld "service" (JStr provider_service) ++
  drop_if (bool_decide (pv_api t = api_chat_completions)) (fld "api" (JStr (ProviderApi_value (pv_api t)))) ++
  fld "model" (JStr (pv_model t)) ++ fld "routing" (ProviderRoute_dump (pv_routing t)) ++
  fld "timeout_seconds" (JFloat (pv_timeout_seconds t)) ++
  fld "token_secret_name" (JStr "HF_TOKEN") ++ fld "limits" (ProviderLimits_dump (pv_limits t)) ++
  fld "parameters" (jdict (fun j => j) (pv_parameters t)).

Definition DeploymentTarget_dump (t : DeploymentTarget) : json :=
  match t with
  | target_endpoint d =>
      jobj (fld "id" (JStr (dp_id d)) ++ DeploymentProfile_fields d ++
            ofld xn "endpoint" (option_map EndpointRef_dump (dp_endpoint d)))
  | target_provider t => jobj (fld "id" (JStr (pv_id t)) ++ ProviderTarget_fields t)
  end.

Definition RevisionKind_value (k : RevisionKind) : string :=
  match k with
  | revision_package => "package" | revision_git => "git" | revision_harbor_source => "harbor-source"
  end.

Definition AgentProfile_dump (a : AgentProfile) : json :=
  jobj (fld "id" (JStr (ap_id a)) ++ fld "name" (JStr (ap_name a)) ++
        ofld xn "import_path" (option_map JStr (ap_import_path a)) ++
        fld "revision" (JStr (ap_revision a)) ++
        fld "revision_kind" (JStr (RevisionKind_value (ap_revision_kind a))) ++
        ofld xn "reported_version" (option_map JStr (ap_reported_version a)) ++
        fld "parameters" (jdict (fun j => j) (ap_parameters a))).

Definition MatrixRule_dump (r : MatrixRule) : json :=
  jobj (fld "models" (jstrs (mr_models r)) ++ fld "deployments" (jstrs (mr_deployments r)) ++
        fld "agents" (jstrs (mr_agents r))).

Definition MatrixSpec_fields (m : MatrixSpec) : list (string * json) :=
  fld "models" (JArr (map ModelProfile_dump (mx_models m))) ++
  fld "deployments" (JArr (map DeploymentTarget_dump (mx_deployments m))) ++
  fld "agents" (JArr (map AgentProfile_dump (mx_agents m))) ++
  fld "include" (JArr (map MatrixRule_dump (mx_include m))) ++
  fld "exclude" (JArr (map MatrixRule_dump (mx_exclude m))).

Definition ServingProfileBinding_dump (b : ServingProfileBinding) : json :=
  jobj (fld "profile_id" (JStr (sb_profile_id b)) ++ fld "profile_sha256" (JStr (sb_profile_sha256 b)) ++
        fld "artifact_uri" (JStr (sb_artifact_uri b)) ++ fld "concurrency" (JInt (sb_concurrency b)) ++
        fld "model_sha256" (JStr (sb_model_sha256 b)) ++
        fld "deployment_sha256" (JStr (sb_deployment_sha256 b)) ++
        fld "agent_sha256" (JStr (sb_agent_sha256 b)) ++
        fld "benchmark_sha256" (JStr (sb_benchmark_sha256 b)) ++
        fld "harbor_runtime_sha256" (JStr (sb_harbor_runtime_sha256 b)) ++
        fld "server_context_tokens" (JInt (sb_server_context_tokens b)) ++
        fld "max_output_tokens" (JInt (sb_max_output_tokens b)) ++
        fld "reasoning_required" (JBool (sb_reasoning_required b)) ++
        fld "sample_task_count" (JInt (sb_sample_task_count b)) ++
        fld "sample_task_names" (jstrs (sb_sample_task_names b)) ++
        fld "sample_tasks_sha256" (JStr (sb_sample_tasks_sha256 b))).

Definition CampaignControllerSpec_dump (c : CampaignControllerSpec) : json :=
  jobj (fld "planning_trial_seconds" (JInt (planning_trial_seconds c)) ++
        fld "headroom_factor" (JStr (dec_str (headroom_factor c))) ++
        fld "wave_reserve_seconds" (JInt (wave_reserve_seconds c)) ++
        fld "controller_reserve_seconds" (JInt (controller_reserve_seconds c)) ++
        fld "heartbeat_seconds" (JInt (heartbeat_seconds c)) ++
        fld "stale_after_seconds" (JInt (stale_after_seconds c)) ++
        fld "max_attempts" (JInt (max_attempts c))).

Definition ExecutionSpec_fields (e : ExecutionSpec) : list (string * json) :=
  fld "attempts" (JInt (ex_attempts e)) ++ fld "concurrent_trials" (JInt (ex_concurrent_trials e)) ++
  fld "max_trials_per_shard" (JInt (ex_max_trials_per_shard e)) ++
  fld "max_shards_per_wave" (JInt (ex_max_shards_per_wave e)) ++
  fld "timeout_seconds" (JInt (ex_timeout_seconds e)) ++
  xfld "agent_setup_timeout_multiplier" (option_map JFloat (ex_agent_setup_timeout_multiplier e)) ++
  xfld "server_context_tokens" (option_map JInt (ex_server_context_tokens e)) ++
  xfld "max_output_tokens" (option_map JInt (ex_max_output_tokens e)) ++
  drop_if (negb (ex_reasoning_required e)) (fld "reasoning_required" (JBool (ex_reasoning_required e))) ++
  xfld "serving_profile" (option_map ServingProfileBinding_dump (ex_serving_profile e)) ++
  xfld "controller" (option_map CampaignControllerSpec_dump (ex_controller e)).

Definition TrialEvidencePolicy_dump (t : TrialEvidencePolicy) : json :=
  jobj (fld "workspace_root" (JStr "/app") ++
        fld "workspace_max_nodes" (JInt (te_workspace_max_nodes t)) ++
        fld "workspace_max_file_bytes" (JInt (te_workspace_max_file_bytes t)) ++
        fld "workspace_max_total_bytes" (JInt (te_workspace_max_total_bytes t)) ++
        fld "workspace_max_archive_bytes" (JInt (te_workspace_max_archive_bytes t)) ++
        fld "workspace_capture_timeout_seconds" (JInt (te_workspace_capture_timeout_seconds t)) ++
        fld "judge_max_request_bytes" (JInt (te_judge_max_request_bytes t)) ++
        fld "judge_max_response_bytes" (JInt (te_judge_max_response_bytes t)) ++
        fld "judge_timeout_seconds" (JInt (te_judge_timeout_seconds t)) ++
        fld "judge_max_calls_per_execution" (JInt (te_judge_max_calls_per_execution t))).

Definition ArtifactStoreSpec_dump (a : ArtifactStoreSpec) : json :=
  jobj (fld "bucket" (JStr (as_bucket a)) ++
        xfld "trial_evidence" (option_map TrialEvidencePolicy_dump (as_trial_evidence a))).

Definition visibility_value (v : PublicationVisibility) : string :=
  match v with visibility_private => "private" | visibility_public => "public" end.
Definition role_value (r : PublicationRole) : string :=
  match r with role_final => "final" | role_component => "component" | role_diagnostic => "diagnostic" end.
Definition component_value (k : ComponentKind) : string :=
  match k with component_base => "base" | component_correction => "correction" end.

Definition PublishingSpec_dump (p : PublishingSpec) : json :=
  jobj (fld "dataset" (JStr (pb_dataset p)) ++
        fld "dataset_visibility" (JStr (visibility_value (pb_dataset_visibility p))) ++
        ofld xn "index_dataset" (option_map JStr (pb_index_dataset p)) ++
        ofld xn "index_dataset_visibility"
          (option_map (fun v => JStr (visibility_value v)) (pb_index_dataset_visibility p)) ++
        fld "evaluation_id" (JStr (pb_evaluation_id p)) ++ fld "role" (JStr (role_value (pb_role p))) ++
        ofld xn "component_kind" (option_map (fun k => JStr (component_value k)) (pb_component_kind p))).

Definition SourcePin_dump (s : SourcePin) : json :=
  jobj (fld "repository" (JStr (sp_repository s)) ++ fld "revision" (JStr (sp_revision s))).

Definition RemoteJobSpec_dump (j : RemoteJobSpec) : json :=
  jobj (fld "namespace" (JStr (job_namespace j)) ++ fld "image" (JStr (job_image j)) ++
        fld "flavor" (JStr (job_flavor j)) ++ fld "timeout_seconds" (JInt (job_timeout_seconds j)) ++
        fld "token_secret_name" (JStr (job_token_secret_name j))).

Definition HarborRuntimeSpec_dump (h : HarborRuntimeSpec) : json :=
  jobj (fld "source" (SourcePin_dump (hr_source h)) ++ fld "environment" (JStr "hf-sandbox") ++
        fld "sandbox_flavor" (JStr (hr_sandbox_flavor h)) ++
        fld "sandbox_idle_timeout_seconds" (JInt (hr_sandbox_idle_timeout_seconds h))).

Definition RemoteExecutionSpec_dump (r : RemoteExecutionSpec) : json :=
  jobj (fld "job" (RemoteJobSpec_dump (remote_job r)) ++ fld "worker" (SourcePin_dump (remote_worker r)) ++
        fld "harbor" (HarborRuntimeSpec_dump (remote_harbor r))).

(** [spec.model_dump(mode="json")], the matrix and execution given as they are
    to be written (a digest drops some of their fields). *)
Definition ExperimentSpec_dump_with (matrix execution : list (string * json)) (s : ExperimentSpec) : json :=
  jobj (fld "api_version" (JStr "harbor-hf/v1alpha1") ++ fld "kind" (JStr "Experiment") ++
        fld "metadata" (Metadata_dump (spec_metadata s)) ++
        fld "benchmark" (BenchmarkSpec_dump (spec_benchmark s)) ++
        fld "matrix" (jobj matrix) ++ fld "execution" (jobj execution) ++
        fld "artifacts" (ArtifactStoreSpec_dump (spec_artifacts s)) ++
        fld "publishing" (PublishingSpec_dump (spec_publishing s)) ++
        ofld xn "remote" (option_map RemoteExecutionSpec_dump (spec_remote s))).
End dump.
