(* ===== verification/Manifest.v ===== *)
(** Validation of an experiment manifest (models.py), the cells of its matrix
    (planner.py) and the agents providers accept (provider_agents.py).

    [validate_*] is what constructing the Pydantic model does to a record whose
    fields have their types: it raises, or returns the record with the fields
    the validators rewrite.  Nested models are validated first. *)
From Stdlib Require Import Floats.SpecFloat.
From S2P Require Import Prelude.
From S2P Require Import PyDict.
From S2P Require Import Float64.
From S2P Require Import Sha256.
From S2P Require Import Json.
From S2P Require Import Patterns.
From S2P Require Import Campaigns.
From S2P Require Import Models.

(** Field constraints and the first failing one. *)
Definition fields_ok (model : string) (ok : bool) : result unit :=
  if ok then Ok tt else Err (ValidationError model).

Definition all_distinct (l : list string) : bool := str_unique l.

(** ** Metadata and benchmark *)
Definition validate_Metadata (m : Metadata) : result Metadata :=
  let* _ := fields_ok "Metadata" (is_profile_id (md_name m)) in Ok m.

(** [canonicalize_repository], before the pattern is tested *)
Definition canonicalize_repository (value : string) : string :=
  str_removesuffix ".git" (str_removeprefix "https://github.com/" value).

Definition validate_GitBenchmarkSource (s : GitBenchmarkSource) : result GitBenchmarkSource :=
  let s := {| gs_repository := canonicalize_repository (gs_repository s);
              gs_revision := gs_revision s; gs_path := gs_path s |} in
  let* _ := fields_ok "GitBenchmarkSource"
    (is_github_repository (gs_repository s) && hex_fullmatch 40 (gs_revision s)) in
  raise_if negb (path_is_safely_relative (gs_path s))
    with ValidationError "Git benchmark path must be safely relative";;
  Ok s.

(** [path_is_literal] *)
Definition path_is_literal (value : string) : bool :=
  is_stripped value && negb (char_mem "000"%char value) && nonempty value && negb (String.eqb value ".").

Definition validate_BenchmarkSource (s : BenchmarkSource) : result BenchmarkSource :=
  match s with
  | source_git s => let* s := validate_GitBenchmarkSource s in Ok (source_git s)
  | source_directory s =>
      raise_if negb (path_is_literal (ds_path s))
        with ValidationError "benchmark directory path must be a literal directory";;
      Ok (source_directory s)
  | source_bundle s =>
      let* _ := fields_ok "BundleBenchmarkSource"
        (is_content_digest (bn_content_digest s) && hex_fullmatch 64 (bn_manifest_sha256 s)) in
      Ok (source_bundle s)
  end.

(** [git_benchmark_source_digest], [benchmark_source_digest] *)
Definition git_benchmark_source_digest (source : GitBenchmarkSource) : string :=
  "sha256:" +:+ sha256_hex (dumps (GitBenchmarkSource_dump source)).

Definition benchmark_source_digest (source : BenchmarkSource) : option string :=
  match source with
  | source_git s => Some (git_benchmark_source_digest s)
  | source_bundle s => Some (bn_content_digest s)
  | source_directory _ => None
  end.

(** The three chat-completions endpoints a judge may use. *)
Definition judge_endpoints : list (string * string * string) :=
  [("router.huggingface.co", "/v1/chat/completions", "HF_TOKEN");
   ("api.openai.com", "/v1/chat/completions", "OPENAI_API_KEY");
   ("generativelanguage.googleapis.com", "/v1beta/openai/chat/completions", "GEMINI_API_KEY")].

Definition opt_falsy (o : option string) : bool :=
  match o with Some s => String.eqb s "" | None => true end.

(** [api_url_is_secure] *)
Definition api_url_is_secure (value : AnyHttpUrl) : bool :=
  String.eqb (url_scheme value) "https" && negb (is_some (url_username value)) &&
  opt_falsy (url_password value) && negb (is_some (url_query value)) &&
  negb (is_some (url_fragment value)) && bool_decide (url_port value = Some 443) &&
  existsb (fun '(host, path, _) =>
    bool_decide (url_host value = Some host) && bool_decide (url_path value = Some path)) judge_endpoints.

Definition judge_secret_of (value : AnyHttpUrl) : option string :=
  option_map (fun e => e.2)
    (List.find (fun '(host, _, _) => bool_decide (url_host value = Some host)) judge_endpoints).

Definition reasoning_efforts : list string := ["none"; "minimal"; "low"; "medium"; "high"; "xhigh"; "max"].

Definition validate_BenchmarkJudgeSpec (j : BenchmarkJudgeSpec) : result BenchmarkJudgeSpec :=
  raise_if negb (api_url_is_secure (bj_api_url j))
    with ValidationError ("benchmark judge API URL must be an allowed credential-free HTTPS " +:+
                          "chat completions endpoint");;
  let* _ := fields_ok "BenchmarkJudgeSpec"
    (nonempty (bj_model j) &&
     str_mem (bj_api_key_secret_name j) ["HF_TOKEN"; "OPENAI_API_KEY"; "GEMINI_API_KEY"] &&
     match bj_reasoning_effort j with Some e => str_mem e reasoning_efforts | None => true end &&
     negb (is_nil (bj_task_names j)) && forallb nonempty (bj_task_names j) &&
     forallb nonempty (bj_exclude_task_names j)) in
  raise_if negb (is_stripped (bj_model j))
    with ValidationError "benchmark judge model cannot have surrounding whitespace";;
  raise_if negb (all_distinct (bj_task_names j))
    with ValidationError "benchmark judge task_names must be unique";;
  raise_if negb (all_distinct (bj_exclude_task_names j))
    with ValidationError "benchmark judge exclude_task_names must be unique";;
  raise_if negb (bool_decide (judge_secret_of (bj_api_url j) = Some (bj_api_key_secret_name j)))
    with ValidationError "benchmark judge API key secret must match the selected provider";;
  Ok j.

(** [_split_dataset_reference] *)
Definition _split_dataset_reference (dataset : string) : string * option string :=
  match str_rpartition "@"%char dataset with
  | Some (name, reference) => (name, Some reference)
  | None => (dataset, None)
  end.

Definition with_dataset_digest (b : BenchmarkSpec) (digest : option string) : BenchmarkSpec := {|
  bm_dataset := bm_dataset b;
  bm_dataset_digest := digest;
  bm_source := bm_source b;
  bm_judge := bm_judge b;
  bm_task_names := bm_task_names b;
  bm_task_digests := bm_task_digests b;
|}.

(** [_resolve_benchmark_source_digest] *)
Definition _resolve_benchmark_source_digest (b : BenchmarkSpec) (source : BenchmarkSource)
    : result BenchmarkSpec :=
  raise_if char_mem "@"%char (bm_dataset b)
    with ValidationError "source-backed benchmark dataset names cannot contain a reference";;
  match benchmark_source_digest source with
  | None =>
      raise_if is_some (bm_dataset_digest b)
        with ValidationError "directory benchmark digest is resolved from local contents";;
      Ok b
  | Some source_digest =>
      raise_if match bm_dataset_digest b with
               | Some d => negb (String.eqb d source_digest) | None => false end
        with ValidationError "benchmark dataset digest must match its immutable source";;
      Ok (with_dataset_digest b (Some source_digest))
  end.

(** [benchmark_contract_is_consistent] *)
Definition benchmark_contract_is_consistent (b : BenchmarkSpec) : result BenchmarkSpec :=
  raise_if negb (all_distinct (bm_task_names b))
    with ValidationError "benchmark task names must be unique";;
  match bm_source b with
  | Some source => _resolve_benchmark_source_digest b source
  | None =>
      match (_split_dataset_reference (bm_dataset b)).2 with
      | Some reference =>
          if str_startswith "sha256:" reference then
            raise_if negb (is_content_digest reference)
              with ValidationError "benchmark dataset content address must be a full sha256 digest";;
            raise_if match bm_dataset_digest b with
                     | Some d => negb (String.eqb reference d) | None => false end
              with ValidationError ("benchmark dataset digest must match its " +:+
                                    "content-addressed reference");;
            Ok (with_dataset_digest b (Some reference))
          else Ok b
      | None => Ok b
      end
  end.

Definition opt_valid {A} (p : A -> bool) (o : option A) : bool :=
  match o with Some a => p a | None => true end.

Definition opt_mapM {A B} (f : A -> result B) (o : option A) : result (option B) :=
  match o with Some a => let* b := f a in Ok (Some b) | None => Ok None end.

Definition validate_BenchmarkSpec (b : BenchmarkSpec) : result BenchmarkSpec :=
  let* source := opt_mapM validate_BenchmarkSource (bm_source b) in
  let* judge := opt_mapM validate_BenchmarkJudgeSpec (bm_judge b) in
  let* _ := fields_ok "BenchmarkSpec"
    (nonempty (bm_dataset b) && opt_valid is_content_digest (bm_dataset_digest b) &&
     negb (is_nil (bm_task_names b)) && forallb nonempty (bm_task_names b) &&
     forallb nonempty (dict_keys (bm_task_digests b)) &&
     forallb is_content_digest (dict_values (bm_task_digests b))) in
  benchmark_contract_is_consistent {|
    bm_dataset := bm_dataset b;
    bm_dataset_digest := bm_dataset_digest b;
    bm_source := source;
    bm_judge := judge;
    bm_task_names := bm_task_names b;
    bm_task_digests := bm_task_digests b;
  |}.

(** ** Profiles *)
Definition validate_ModelProfile (m : ModelProfile) : result ModelProfile :=
  let* _ := fields_ok "ModelProfile"
    (is_profile_id (mp_id m) && nonempty (mp_repo m) && nonempty (mp_revision m) &&
     nonempty (ws_format (mp_weights m)) &&
     opt_valid (fun q => nonempty (q_method q) && nonempty (q_scheme q)) (ws_quantization (mp_weights m))) in
  Ok m.

(** [environment_contains_no_inline_secrets] *)
Definition validate_EngineSpec (e : EngineSpec) : result EngineSpec :=
  let* _ := fields_ok "EngineSpec" (nonempty (en_name e) && nonempty (en_image e)) in
  raise_if existsb (fun key => str_mem key (en_secret_names e) || is_sensitive_key key)
             (dict_keys (en_environment e))
    with ValidationError "engine environment must not contain inline secret values: ";;
  Ok e.

Definition validate_DeploymentProfile (d : DeploymentProfile) : result DeploymentProfile :=
  let* _ := validate_EngineSpec (dp_engine d) in
  let* _ := fields_ok "DeploymentProfile"
    (is_profile_id (dp_id d) && nonempty (dp_hardware d) && (1 <=? dp_accelerator_count d) &&
     nonempty (dp_region d) &&
     opt_valid (fun r => nonempty (er_namespace r) && is_profile_id (er_name r) &&
                         nonempty (er_served_model_name r)) (dp_endpoint d)) in
  let* _ := _reject_sensitive_parameters (JObj (dp_parameters d)) "deployment" in
  Ok d.

(** The pattern [^[^\s:]+/[^\s:]+$] of a provider model. *)
Definition is_provider_model (s : string) : bool :=
  str_forall (fun c => negb (is_space c) && negb (Ascii.eqb c ":"%char)) s &&
  existsb (fun i => Ascii.eqb "/"%char match String.get i s with Some c => c | None => "000"%char end)
    (seq 1 (String.length s - 2)).

Definition is_route_provider (s : string) : bool :=
  let low c := is_lower c || is_digit c in
  head_rest low (fun c => low c || Ascii.eqb c "-"%char) (Z.of_nat (String.length s)) s.

(** [spend_cap_has_an_admission_estimate] *)
Definition validate_ProviderLimits (l : ProviderLimits) : result ProviderLimits :=
  let* _ := fields_ok "ProviderLimits"
    ((1 <=? pl_max_concurrent_requests l) && (1 <=? pl_max_attempts l) &&
     float_leb float_zero (pl_min_request_interval_seconds l) &&
     match float_of_int 300 with Ok m => float_leb (pl_min_request_interval_seconds l) m | Err _ => false end &&
     opt_valid (dec_ltb dec_zero) (pl_max_spend_usd l) &&
     opt_valid (dec_ltb dec_zero) (pl_estimated_wave_cost_usd l)) in
  raise_if negb (Bool.eqb (is_some (pl_max_spend_usd l)) (is_some (pl_estimated_wave_cost_usd l)))
    with ValidationError ("provider spend caps and estimated wave costs must be " +:+
                          "configured together");;
  raise_if match pl_max_spend_usd l, pl_estimated_wave_cost_usd l with
           | Some cap, Some estimate => dec_ltb cap estimate
           | _, _ => false
           end
    with ValidationError "estimated provider wave cost exceeds its spend cap";;
  Ok l.

Definition provider_reserved_parameters : list string :=
  ["input"; "messages"; "model"; "stream"; "stream_options"; "tools"].

(** [parameters_are_safe] *)
Definition validate_ProviderTarget (t : ProviderTarget) : result ProviderTarget :=
  let* _ := validate_ProviderLimits (pv_limits t) in
  let* _ := fields_ok "ProviderTarget"
    (is_profile_id (pv_id t) && is_provider_model (pv_model t) &&
     match pv_routing t with ExplicitProviderRoute p => is_route_provider p | PolicyRoute _ => true end &&
     float_ltb float_zero (pv_timeout_seconds t) &&
     match float_of_int 3600 with Ok m => float_leb (pv_timeout_seconds t) m | Err _ => false end) in
  raise_if existsb (fun k => dict_has (pv_parameters t) k) provider_reserved_parameters
    with ValidationError "provider target parameters contain reserved keys: ";;
  let* _ := _reject_sensitive_parameters (JObj (pv_parameters t)) "provider target" in
  Ok t.

Definition validate_DeploymentTarget (t : DeploymentTarget) : result DeploymentTarget :=
  match t with
  | target_endpoint d => let* d := validate_DeploymentProfile d in Ok (target_endpoint d)
  | target_provider t => let* t := validate_ProviderTarget t in Ok (target_provider t)
  end.

(** The import path pattern [a(.b)*:C]. *)
Definition is_identifier (s : string) : bool :=
  let start c := is_upper c || is_lower c || Ascii.eqb c "_"%char in
  head_rest start (fun c => start c || is_digit c) (Z.of_nat (String.length s)) s.

Fixpoint split_dot (s : string) : list string :=
  match s with
  | EmptyString => [EmptyString]
  | String c s =>
      if Ascii.eqb c "."%char then EmptyString :: split_dot s
      else match split_dot s with
           | [] => [String c EmptyString]
           | h :: t => String c h :: t
           end
  end.

Definition is_import_path (s : string) : bool :=
  match str_partition ":"%char s with
  | Some (modules, name) => forallb is_identifier (split_dot modules) && is_identifier name
  | None => false
  end.

(** [revision_metadata_is_consistent] *)
Definition validate_AgentProfile (a : AgentProfile) : result AgentProfile :=
  let harbor := bool_decide (ap_revision_kind a = revision_harbor_source) in
  let* _ := fields_ok "AgentProfile"
    (is_profile_id (ap_id a) && nonempty (ap_name a) && opt_valid is_import_path (ap_import_path a) &&
     nonempty (ap_revision a) && opt_valid nonempty (ap_reported_version a)) in
  raise_if negb harbor && is_some (ap_reported_version a)
    with ValidationError "package and Git agents report their locked revision";;
  raise_if harbor && negb (is_some (ap_reported_version a))
    with ValidationError "Harbor-source agents require reported_version";;
  raise_if harbor && is_some (ap_import_path a)
    with ValidationError "Harbor-source agents cannot use a custom import path";;
  raise_if existsb (fun key => negb (nonempty key) || negb (is_stripped key) || char_mem "="%char key)
             (dict_keys (ap_parameters a))
    with ValidationError ("agent parameter keys must not be empty, contain '=', or have " +:+
                          "surrounding whitespace");;
  let* _ := _reject_sensitive_parameters (JObj (ap_parameters a)) "agent" in
  Ok a.

(** ** The matrix *)

(** [selects_at_least_one_dimension] *)
Definition validate_MatrixRule (r : MatrixRule) : result MatrixRule :=
  let* _ := fields_ok "MatrixRule"
    (forallb is_profile_id (mr_models r) && forallb is_profile_id (mr_deployments r) &&
     forallb is_profile_id (mr_agents r)) in
  raise_if is_nil (mr_models r) && is_nil (mr_deployments r) && is_nil (mr_agents r)
    with ValidationError "matrix rules must select at least one dimension";;
  raise_if negb (all_distinct (mr_models r)) with ValidationError "matrix rule models must be unique";;
  raise_if negb (all_distinct (mr_deployments r))
    with ValidationError "matrix rule deployments must be unique";;
  raise_if negb (all_distinct (mr_agents r)) with ValidationError "matrix rule agents must be unique";;
  Ok r.

Definition model_ids (m : MatrixSpec) : list string := map mp_id (mx_models m).
Definition deployment_ids (m : MatrixSpec) : list string := map target_id (mx_deployments m).
Definition agent_ids (m : MatrixSpec) : list string := map ap_id (mx_agents m).

(** The identifiers a rule names that the dimension does not have. *)
Definition unknown_ids (named known : list string) : bool :=
  existsb (fun i => negb (str_mem i known)) named.

(** [profile_ids_are_unique] *)
Definition profile_ids_are_unique (m : MatrixSpec) : result MatrixSpec :=
  raise_if negb (all_distinct (model_ids m)) || negb (all_distinct (deployment_ids m)) ||
           negb (all_distinct (agent_ids m))
    with ValidationError "profile IDs must be unique within each matrix dimension";;
  raise_if existsb (fun rule => unknown_ids (mr_models rule) (model_ids m) ||
                                unknown_ids (mr_deployments rule) (deployment_ids m) ||
                                unknown_ids (mr_agents rule) (agent_ids m))
             (mx_include m ++ mx_exclude m)
    with ValidationError "matrix rule references unknown profiles";;
  Ok m.

Definition validate_MatrixSpec (m : MatrixSpec) : result MatrixSpec :=
  let* models := mapM validate_ModelProfile (mx_models m) in
  let* deployments := mapM validate_DeploymentTarget (mx_deployments m) in
  let* agents := mapM validate_AgentProfile (mx_agents m) in
  let* include := mapM validate_MatrixRule (mx_include m) in
  let* exclude := mapM validate_MatrixRule (mx_exclude m) in
  let* _ := fields_ok "MatrixSpec"
    (negb (is_nil models) && negb (is_nil deployments) && negb (is_nil agents)) in
  profile_ids_are_unique {|
    mx_models := models;
    mx_deployments := deployments;
    mx_agents := agents;
    mx_include := include;
    mx_exclude := exclude;
  |}.

Record RunCell := {
  cell_model : string;
  cell_deployment : string;
  cell_agent : string;
}.

#[export] Instance RunCell_eq_dec : EqDecision RunCell.
Proof. solve_decision. Defined.

(** [_rule_matches] *)
Definition _rule_matches (rule : MatrixRule) (cell : RunCell) : bool :=
  (is_nil (mr_models rule) || str_mem (cell_model cell) (mr_models rule)) &&
  (is_nil (mr_deployments rule) || str_mem (cell_deployment cell) (mr_deployments rule)) &&
  (is_nil (mr_agents rule) || str_mem (cell_agent cell) (mr_agents rule)).

(** The product of the three dimensions, each sorted by identifier. *)
Definition candidate_cells (m : MatrixSpec) : list RunCell :=
  concat (map (fun model => concat (map (fun deployment => map (fun agent =>
      {| cell_model := model; cell_deployment := deployment; cell_agent := agent |})
    (sort_by str_leb (agent_ids m))) (sort_by str_leb (deployment_ids m))))
    (sort_by str_leb (model_ids m))).

(** [resolved_cells] *)
Definition cell_selected (m : MatrixSpec) (cell : RunCell) : bool :=
  (is_nil (mx_include m) || existsb (fun rule => _rule_matches rule cell) (mx_include m)) &&
  negb (existsb (fun rule => _rule_matches rule cell) (mx_exclude m)).

Definition resolved_cells (m : MatrixSpec) : result (list RunCell) :=
  let cells := List.filter (cell_selected m) (candidate_cells m) in
  raise_if is_nil cells with ValueError "matrix rules exclude every run cell";;
  Ok cells.

(** ** Execution, artifacts, publishing, remote *)
Definition validate_ServingProfileBinding (b : ServingProfileBinding) : result ServingProfileBinding :=
  let* _ := fields_ok "ServingProfileBinding"
    (is_profile_id (sb_profile_id b) && is_content_digest (sb_profile_sha256 b) &&
     is_bucket_uri (sb_artifact_uri b) && (1 <=? sb_concurrency b) &&
     is_content_digest (sb_model_sha256 b) && is_content_digest (sb_deployment_sha256 b) &&
     is_content_digest (sb_agent_sha256 b) && is_content_digest (sb_benchmark_sha256 b) &&
     is_content_digest (sb_harbor_runtime_sha256 b) && (1 <=? sb_server_context_tokens b) &&
     (1 <=? sb_max_output_tokens b) && (1 <=? sb_sample_task_count b) &&
     negb (is_nil (sb_sample_task_names b)) && forallb nonempty (sb_sample_task_names b) &&
     is_content_digest (sb_sample_tasks_sha256 b)) in
  Ok b.

Definition validate_ExecutionSpec (e : ExecutionSpec) : result ExecutionSpec :=
  let* _ := opt_mapM validate_ServingProfileBinding (ex_serving_profile e) in
  let* _ := fields_ok "ExecutionSpec"
    ((1 <=? ex_attempts e) && (1 <=? ex_concurrent_trials e) && (1 <=? ex_max_trials_per_shard e) &&
     (1 <=? ex_max_shards_per_wave e) && (1 <=? ex_timeout_seconds e) &&
     opt_valid (float_ltb float_zero) (ex_agent_setup_timeout_multiplier e) &&
     opt_valid (Z.leb 1) (ex_server_context_tokens e) && opt_valid (Z.leb 1) (ex_max_output_tokens e) &&
     opt_valid CampaignControllerSpec_valid (ex_controller e)) in
  Ok e.

Definition between (lo hi z : Z) : bool := (lo <=? z) && (z <=? hi).

(** [limits_are_consistent] *)
Definition validate_TrialEvidencePolicy (t : TrialEvidencePolicy) : result TrialEvidencePolicy :=
  let* _ := fields_ok "TrialEvidencePolicy"
    (between 1 1000000 (te_workspace_max_nodes t) &&
     between 1 (8 * 1024 ^ 3) (te_workspace_max_file_bytes t) &&
     between 1 (32 * 1024 ^ 3) (te_workspace_max_total_bytes t) &&
     between 1 (32 * 1024 ^ 3) (te_workspace_max_archive_bytes t) &&
     between 1 3600 (te_workspace_capture_timeout_seconds t) &&
     between 1 (128 * 1024 ^ 2) (te_judge_max_request_bytes t) &&
     between 1 (128 * 1024 ^ 2) (te_judge_max_response_bytes t) &&
     between 1 1200 (te_judge_timeout_seconds t) && between 1 64 (te_judge_max_calls_per_execution t)) in
  raise_if te_workspace_max_total_bytes t <? te_workspace_max_file_bytes t
    with ValidationError "workspace file limit cannot exceed the total byte limit";;
  Ok t.

Definition validate_ArtifactStoreSpec (a : ArtifactStoreSpec) : result ArtifactStoreSpec :=
  let* _ := opt_mapM validate_TrialEvidencePolicy (as_trial_evidence a) in
  let* _ := fields_ok "ArtifactStoreSpec" (nonempty (as_bucket a)) in
  Ok a.

(** [datasets_are_consistent] *)
Definition validate_PublishingSpec (p : PublishingSpec) : result PublishingSpec :=
  let* _ := fields_ok "PublishingSpec" (nonempty (pb_dataset p) && is_evaluation_id (pb_evaluation_id p)) in
  raise_if bool_decide (pb_index_dataset p = Some (pb_dataset p))
    with ValidationError "publishing.index_dataset must differ from publishing.dataset";;
  raise_if negb (Bool.eqb (is_some (pb_index_dataset p)) (is_some (pb_index_dataset_visibility p)))
    with ValidationError ("publishing.index_dataset_visibility is required exactly when " +:+
                          "publishing.index_dataset is set");;
  raise_if negb (run_role_consistent (pb_role p) (pb_component_kind p))
    with ValidationError "publishing.component_kind is required only for component runs";;
  Ok p.

Definition SourcePin_valid (s : SourcePin) : bool :=
  is_github_repository (sp_repository s) && hex_fullmatch 40 (sp_revision s).

Definition validate_RemoteExecutionSpec (r : RemoteExecutionSpec) : result RemoteExecutionSpec :=
  let job := remote_job r in let harbor := remote_harbor r in
  let* _ := fields_ok "RemoteExecutionSpec"
    (nonempty (job_namespace job) && is_pinned_image (job_image job) && nonempty (job_flavor job) &&
     between 1 85800 (job_timeout_seconds job) && String.eqb (job_token_secret_name job) "HF_TOKEN" &&
     SourcePin_valid (remote_worker r) && SourcePin_valid (hr_source harbor) &&
     nonempty (hr_sandbox_flavor harbor) && between 1 86400 (hr_sandbox_idle_timeout_seconds harbor)) in
  Ok r.

(** ** Cross-field rules of the experiment *)

(** [_canonical_profile_digest] *)
Definition _canonical_profile_digest (value : json) : string := "sha256:" +:+ sha256_hex (dumps value).

(** [profile_deployment_digest]: without the endpoint resource. *)
Definition profile_deployment_digest (deployment : DeploymentTarget) : string :=
  _canonical_profile_digest (match deployment with
    | target_endpoint d => jobj (fld "id" (JStr (dp_id d)) ++ DeploymentProfile_fields d)
    | target_provider _ => DeploymentTarget_dump true deployment
    end).

(** [_validate_binding_sample]; the error messages name the failed comparison. *)
Definition _validate_binding_sample (spec : ExperimentSpec) (binding : ServingProfileBinding) : result unit :=
  let sampled_tasks := sb_sample_task_names binding in
  let digests := bm_task_digests (spec_benchmark spec) in
  raise_if negb (len sampled_tasks =? sb_sample_task_count binding)
    with ValidationError "serving profile sample count does not match its task names";;
  raise_if negb (all_distinct sampled_tasks)
    with ValidationError "serving profile sampled task names must be unique";;
  raise_if existsb (fun task => negb (dict_has digests task)) sampled_tasks
    with ValidationError "serving profile sample contains an unknown benchmark task";;
  let sample_digest := _canonical_profile_digest
    (jobj (map (fun task => (task, JStr (dict_get_default digests task ""))) sampled_tasks)) in
  raise_if negb (String.eqb (sb_sample_tasks_sha256 binding) sample_digest)
    with ValidationError "serving profile sampled workload does not match benchmark";;
  Ok tt.

(** [_validate_binding_identity] *)
Definition _validate_binding_identity (spec : ExperimentSpec) (binding : ServingProfileBinding)
    (model : ModelProfile) (deployment : DeploymentTarget) (agent : AgentProfile) : result unit :=
  match spec_remote spec with
  | None => Err (ValidationError "serving profile binding requires remote execution settings")
  | Some remote =>
      let* _ := mapM (fun '(field, bound, value) =>
          raise_if negb (String.eqb bound value)
            with ValidationError ("serving profile " +:+ field +:+ " does not match the experiment");;
          Ok tt)
        [("model_sha256", sb_model_sha256 binding, _canonical_profile_digest (ModelProfile_dump true model));
         ("deployment_sha256", sb_deployment_sha256 binding, profile_deployment_digest deployment);
         ("agent_sha256", sb_agent_sha256 binding, _canonical_profile_digest (AgentProfile_dump true agent));
         ("benchmark_sha256", sb_benchmark_sha256 binding,
            _canonical_profile_digest (BenchmarkSpec_dump true (spec_benchmark spec)));
         ("harbor_runtime_sha256", sb_harbor_runtime_sha256 binding,
            _canonical_profile_digest (HarborRuntimeSpec_dump (remote_harbor remote)))] in
      raise_if negb (Bool.eqb (sb_reasoning_required binding) (ex_reasoning_required (spec_execution spec)))
        with ValidationError "serving profile reasoning mode does not match execution";;
      _validate_binding_sample spec binding
  end.

(** [_validate_binding_token_limits] *)
Definition _validate_binding_token_limits (spec : ExperimentSpec) (binding : ServingProfileBinding)
    : result unit :=
  let* _ := mapM (fun '(key, value, bound) =>
      match value with
      | Some v =>
          raise_if v <? 1
            with ValidationError ("execution " +:+ key +:+ " must be a positive integer");;
          raise_if negb (bound =? v)
            with ValidationError ("serving profile " +:+ key +:+ " does not match execution");;
          Ok tt
      | None => Err (ValidationError ("execution " +:+ key +:+ " must be a positive integer"))
      end)
    [("server_context_tokens", ex_server_context_tokens (spec_execution spec), sb_server_context_tokens binding);
     ("max_output_tokens", ex_max_output_tokens (spec_execution spec), sb_max_output_tokens binding)] in
  Ok tt.

(** [next(profile for profile in profiles if profile.id == id)] *)
Definition next_by {A} (id_of : A -> string) (profiles : list A) (id : string) : result A :=
  match List.find (fun p => String.eqb (id_of p) id) profiles with
  | Some p => Ok p
  | None => Err StopIteration
  end.

(** [_validate_serving_profile_binding] *)
Definition _validate_serving_profile_binding (spec : ExperimentSpec) : result unit :=
  match ex_serving_profile (spec_execution spec) with
  | None => Ok tt
  | Some binding =>
      raise_if negb (is_some (spec_remote spec))
        with ValidationError "serving profile binding requires remote execution settings";;
      raise_if negb (ex_concurrent_trials (spec_execution spec) =? sb_concurrency binding)
        with ValidationError "execution concurrent_trials must match the selected serving profile";;
      let* cells := resolved_cells (spec_matrix spec) in
      match cells with
      | [cell] =>
          let* model := next_by mp_id (mx_models (spec_matrix spec)) (cell_model cell) in
          let* deployment := next_by target_id (mx_deployments (spec_matrix spec)) (cell_deployment cell) in
          let* agent := next_by ap_id (mx_agents (spec_matrix spec)) (cell_agent cell) in
          let* _ := _validate_binding_identity spec binding model deployment agent in
          _validate_binding_token_limits spec binding
      | _ => Err (ValidationError "serving profile binding requires one resolved matrix cell")
      end
  end.

(** [pinned_harbor_dataset_reference] *)
Definition pinned_harbor_dataset_reference (dataset : string) (dataset_digest : option string)
    : result string :=
  raise_if match dataset_digest with Some d => negb (is_content_digest d) | None => false end
    with ValueError "benchmark dataset digest must be a full sha256 digest";;
  let '(name, reference) := _split_dataset_reference dataset in
  raise_if negb (is_package_name name) || has_dot_dot name
    with ValueError "remote benchmark dataset must use a Harbor package name in org/name form";;
  match reference with
  | Some r =>
      if str_startswith "sha256:" r then
        raise_if negb (is_content_digest r)
          with ValueError "benchmark dataset content address must be a full sha256 digest";;
        raise_if match dataset_digest with Some d => negb (String.eqb r d) | None => false end
          with ValueError "benchmark dataset digest must match its content-addressed reference";;
        Ok dataset
      else
        match dataset_digest with
        | Some d => Ok (name +:+ "@" +:+ d)
        | None => Err (ValueError "remote benchmark dataset requires an immutable sha256 digest")
        end
  | None =>
      match dataset_digest with
      | Some d => Ok (name +:+ "@" +:+ d)
      | None => Err (ValueError "remote benchmark dataset requires an immutable sha256 digest")
      end
  end.

(** The selections that match no task, or tasks that no selection matches. *)
Definition task_selection_resolves (benchmark : BenchmarkSpec) : bool :=
  let tasks := dict_keys (bm_task_digests benchmark) in
  forallb (fun selection => existsb (fun task => task_matches_selector task selection tasks) tasks)
    (bm_task_names benchmark) &&
  forallb (fun task => existsb (fun selection => task_matches_selector task selection tasks)
                         (bm_task_names benchmark)) tasks.

(** [_validate_task_pins] *)
Definition _validate_task_pins (benchmark : BenchmarkSpec) : result unit :=
  raise_if is_nil (bm_task_digests benchmark)
    with ValidationError "remote benchmarks require resolved task digests";;
  raise_if negb (task_selection_resolves benchmark)
    with ValidationError "remote task digests must exactly resolve the task selection";;
  Ok tt.

(** [resolved_judge_required_tasks]; the sets are duplicate-free lists. *)
Definition judge_include (selected included : list string) (selector : string) : result (list string) :=
  let matched := List.filter (fun task => task_matches_selector task selector selected) selected in
  raise_if is_nil matched
    with ValueError ("benchmark judge selector matches no selected task: " +:+ selector);;
  Ok (included ++ List.filter (fun t => negb (str_mem t included)) matched).

Definition judge_exclude (selected included : list string) (selector : string) : result (list string) :=
  let matched := List.filter (fun task => task_matches_selector task selector selected) selected in
  raise_if is_nil matched
    with ValueError ("benchmark judge exclusion matches no selected task: " +:+ selector);;
  raise_if existsb (fun t => negb (str_mem t included)) matched
    with ValueError ("benchmark judge exclusion names a task outside the " +:+
                     "included judge set: " +:+ selector);;
  Ok (List.filter (fun t => negb (str_mem t matched)) included).

Definition resolved_judge_required_tasks (benchmark : BenchmarkSpec) : result (list string) :=
  match bm_judge benchmark with
  | None => Ok []
  | Some judge =>
      let selected := sort_by str_leb (dict_keys (bm_task_digests benchmark)) in
      raise_if is_nil selected
        with ValueError "judge task selection requires resolved task digests";;
      let* included := foldM (judge_include selected) [] (bj_task_names judge) in
      let* included := foldM (judge_exclude selected) included (bj_exclude_task_names judge) in
      Ok (sort_by str_leb included)
  end.

(** [v?[0-9]+(\.[0-9]+)*([-+][0-9A-Za-z.-]+)?]: a package version *)
Fixpoint take_while (p : Ascii.ascii -> bool) (s : string) : string * string :=
  match s with
  | String c rest => if p c then let '(a, b) := take_while p rest in (String c a, b) else (EmptyString, s)
  | EmptyString => (EmptyString, EmptyString)
  end.

Definition is_package_version (s : string) : bool :=
  let s := str_removeprefix "v" s in
  let '(numbers, suffix) := take_while (fun c => is_digit c || Ascii.eqb c "."%char) s in
  forallb (fun n => nonempty n && str_forall is_digit n) (split_dot numbers) &&
  match suffix with
  | EmptyString => true
  | String c rest =>
      char_mem c "-+" && nonempty rest &&
      str_forall (fun c => is_alnum c || char_mem c ".-") rest
  end.

(** [_is_immutable_agent_revision] *)
Definition _is_immutable_agent_revision (agent : AgentProfile) : bool :=
  match ap_revision_kind agent with
  | revision_git | revision_harbor_source => hex_fullmatch 40 (ap_revision agent)
  | revision_package => is_package_version (ap_revision agent)
  end.

(** [_validate_remote_input_pins] *)
Definition _validate_remote_input_pins (spec : ExperimentSpec) : result unit :=
  raise_if negb (is_some (as_trial_evidence (spec_artifacts spec)))
    with ValidationError "remote benchmark runs require an artifacts.trial_evidence policy";;
  let* _ :=
    match bm_source (spec_benchmark spec) with
    | None => let* _ := pinned_harbor_dataset_reference (bm_dataset (spec_benchmark spec))
                          (bm_dataset_digest (spec_benchmark spec)) in Ok tt
    | Some _ => Ok tt
    end in
  let* _ := _validate_task_pins (spec_benchmark spec) in
  let* _ := resolved_judge_required_tasks (spec_benchmark spec) in
  raise_if existsb (fun model => negb (hex_fullmatch 40 (mp_revision model))) (mx_models (spec_matrix spec))
    with ValidationError "remote model revisions must be full Git commit IDs";;
  raise_if existsb (fun target => match target with
             | target_endpoint d => negb (is_pinned_image (en_image (dp_engine d)))
             | target_provider _ => false end) (mx_deployments (spec_matrix spec))
    with ValidationError "remote serving images must be pinned by sha256 digest";;
  raise_if existsb (fun agent => negb (_is_immutable_agent_revision agent)) (mx_agents (spec_matrix spec))
    with ValidationError "remote agent revisions must be immutable";;
  Ok tt.

Definition _CONTROLLER_HEADROOM_SECONDS : Z := 4800.

(** [remote_job_has_lifecycle_headroom] *)
Definition remote_job_has_lifecycle_headroom (spec : ExperimentSpec) : result ExperimentSpec :=
  let* _ := _validate_serving_profile_binding spec in
  match spec_remote spec with
  | None => Ok spec
  | Some remote =>
      let* _ := _validate_remote_input_pins spec in
      raise_if job_timeout_seconds (remote_job remote) <?
               ex_timeout_seconds (spec_execution spec) + _CONTROLLER_HEADROOM_SECONDS
        with ValidationError ("remote Job timeout must exceed execution timeout by at least " +:+
                              pretty _CONTROLLER_HEADROOM_SECONDS +:+ " seconds");;
      raise_if job_timeout_seconds (remote_job remote) <?
               hr_sandbox_idle_timeout_seconds (remote_harbor remote)
        with ValidationError "HF Sandbox timeout must not exceed remote Job timeout";;
      Ok spec
  end.

Definition validate_ExperimentSpec (spec : ExperimentSpec) : result ExperimentSpec :=
  let* metadata := validate_Metadata (spec_metadata spec) in
  let* benchmark := validate_BenchmarkSpec (spec_benchmark spec) in
  let* matrix := validate_MatrixSpec (spec_matrix spec) in
  let* execution := validate_ExecutionSpec (spec_execution spec) in
  let* artifacts := validate_ArtifactStoreSpec (spec_artifacts spec) in
  let* publishing := validate_PublishingSpec (spec_publishing spec) in
  let* remote := opt_mapM validate_RemoteExecutionSpec (spec_remote spec) in
  remote_job_has_lifecycle_headroom {|
    spec_metadata := metadata;
    spec_benchmark := benchmark;
    spec_matrix := matrix;
    spec_execution := execution;
    spec_artifacts := artifacts;
    spec_publishing := publishing;
    spec_remote := remote;
  |}.

(** ** Agents that can run against a provider (provider_agents.py) *)
Record ProviderAgentDefinition := {
  pa_name : string;
  pa_import_path : string;
  pa_api : ProviderApi;
  pa_required_parameters : list string;
  pa_allowed_parameters : list string;
  pa_revision_kind : RevisionKind;
  pa_session_required : bool;
}.

Definition _OPENCLAW_PARAMETERS : list string :=
  ["failover_retries"; "openclaw_agent_id"; "openclaw_config"; "openclaw_node_version";
   "session_to_trajectory"; "thinking"; "timeout"].

Definition PROVIDER_AGENTS : dict ProviderAgentDefinition :=
  [("hermes", {| pa_name := "hermes"; pa_import_path := "harbor_hf_agents.hermes.agent:HermesAgent";
      pa_api := api_chat_completions; pa_required_parameters := []; pa_allowed_parameters := [];
      pa_revision_kind := revision_git; pa_session_required := true |});
   ("openclaw", {| pa_name := "openclaw"; pa_import_path := "harbor_hf_agents.openclaw.agent:OpenClawAgent";
      pa_api := api_chat_completions; pa_required_parameters := ["openclaw_config"];
      pa_allowed_parameters := _OPENCLAW_PARAMETERS;
      pa_revision_kind := revision_package; pa_session_required := true |});
   ("openclaw-codex", {| pa_name := "openclaw-codex";
      pa_import_path := "harbor_hf_agents.openclaw_codex.agent:OpenClawCodexAgent";
      pa_api := api_responses;
      pa_required_parameters := ["codex_plugin_version"; "codex_request_timeout_ms"; "model_context_window";
                                 "model_max_tokens"; "openclaw_node_version"];
      pa_allowed_parameters := _OPENCLAW_PARAMETERS ++
        ["codex_plugin_version"; "codex_request_timeout_ms"; "model_context_window"; "model_max_tokens"];
      pa_revision_kind := revision_package; pa_session_required := true |});
   ("pi", {| pa_name := "pi"; pa_import_path := "harbor_hf_agents.pi.agent:PiAgent";
      pa_api := api_chat_completions; pa_required_parameters := ["models_json"];
      pa_allowed_parameters := ["models_json"; "thinking"];
      pa_revision_kind := revision_package; pa_session_required := false |})].

(** [provider_agent_definition] *)
Definition provider_agent_definition (name : string) : result ProviderAgentDefinition :=
  match dict_get PROVIDER_AGENTS name with
  | Some d => Ok d
  | None => Err (ValueError ("Inference Provider targets require one of: " +:+
                             str_join ", " (sort_by str_leb (dict_keys PROVIDER_AGENTS))))
  end.

(** [validate_provider_agent] *)
Definition validate_provider_agent (agent : AgentProfile) (target : ProviderTarget)
    : result ProviderAgentDefinition :=
  let* definition := provider_agent_definition (ap_name agent) in
  let prefix := "provider agent " +:+ ap_name agent in
  raise_if negb (bool_decide (ap_import_path agent = Some (pa_import_path definition)))
    with ValueError (prefix +:+ " requires import_path " +:+ pa_import_path definition);;
  raise_if negb (bool_decide (pv_api target = pa_api definition))
    with ValueError (prefix +:+ " requires the " +:+ ProviderApi_value (pa_api definition) +:+ " API");;
  raise_if negb (bool_decide (ap_revision_kind agent = pa_revision_kind definition))
    with ValueError (prefix +:+ " requires revision_kind " +:+
                     RevisionKind_value (pa_revision_kind definition));;
  let keys := dict_keys (ap_parameters agent) in
  let missing := List.filter (fun k => negb (str_mem k keys)) (pa_required_parameters definition) in
  raise_if negb (is_nil missing)
    with ValueError (prefix +:+ " is missing parameters: " +:+ str_join ", " (sort_by str_leb missing));;
  let unexpected := List.filter (fun k => negb (str_mem k (pa_allowed_parameters definition))) keys in
  raise_if negb (is_nil unexpected)
    with ValueError (prefix +:+ " has unsupported parameters: " +:+ str_join ", " (sort_by str_leb unexpected));;
  Ok definition.

(** [effective_provider_agent_parameters] *)
Definition effective_provider_agent_parameters (agent : AgentProfile) (target : ProviderTarget)
    : result (dict json) :=
  let* _ := validate_provider_agent agent target in
  Ok (dict_set (ap_parameters agent) "provider_runtime"
        (jobj (fld "api" (JStr (ProviderApi_value (pv_api target))) ++
               fld "timeout_seconds" (JFloat (pv_timeout_seconds target)) ++
               fld "max_attempts" (JInt (pl_max_attempts (pv_limits target)))))).

(** [validate_provider_cell] (runs.py) *)
Definition validate_provider_cell (model : ModelProfile) (deployment : ProviderTarget) (agent : AgentProfile)
    : result unit :=
  raise_if negb (String.eqb (pv_model deployment) (mp_repo model))
    with ValueError "Inference Provider target model must match the selected model profile";;
  let* _ := validate_provider_agent agent deployment in
  Ok tt.
