(* ===== verification/ManifestFacts.v ===== *)
(** Facts of [Manifest]: validation changes nothing but the benchmark's
    canonical repository and digest, and accepts its own results. *)
From Stdlib Require Import Floats.SpecFloat.
From S2P Require Import Prelude.
From S2P Require Import PyDict.
From S2P Require Import Float64.
From S2P Require Import Sha256.
From S2P Require Import Json.
From S2P Require Import Patterns.
From S2P Require Import Campaigns.
From S2P Require Import Models.
From S2P Require Import Manifest.

Lemma fields_ok_true model ok : fields_ok model ok = Ok tt <-> ok = true.
Proof. unfold fields_ok. by destruct ok. Qed.

(** A validator that only accepts or rejects. *)
Definition checks {A} (f : A -> result A) : Prop := forall a b, f a = Ok b -> b = a.

Lemma checks_mapM {A} (f : A -> result A) : checks f -> checks (mapM f).
Proof.
  intros Hf l k H%mapM_Forall2. induction H as [|x y l k Hxy _ IH]; [done|]. by rewrite (Hf _ _ Hxy), IH.
Qed.

Lemma checks_opt {A} (f : A -> result A) : checks f -> checks (opt_mapM f).
Proof. intros Hf [a|] b; cbn; intros H; inv_ok; [f_equal; by apply Hf|done]. Qed.

Ltac solve_checks :=
  let a := fresh in let b := fresh in let E := fresh in
  intros a b E; unfold fields_ok in E; inv_ok;
  repeat match goal with
  | H : (if ?c then _ else Err _) = Ok _ |- _ => destruct c eqn:?; [|discriminate H]
  end; try congruence; by inv_ok.

Create HintDb checks.

Lemma Metadata_checks : checks validate_Metadata.
Proof. unfold validate_Metadata. solve_checks. Qed.
Lemma ModelProfile_checks : checks validate_ModelProfile.
Proof. unfold validate_ModelProfile. solve_checks. Qed.
Lemma EngineSpec_checks : checks validate_EngineSpec.
Proof. unfold validate_EngineSpec. solve_checks. Qed.
Lemma DeploymentProfile_checks : checks validate_DeploymentProfile.
Proof. unfold validate_DeploymentProfile. solve_checks. Qed.
Lemma ProviderLimits_checks : checks validate_ProviderLimits.
Proof. unfold validate_ProviderLimits. solve_checks. Qed.
Lemma ProviderTarget_checks : checks validate_ProviderTarget.
Proof. unfold validate_ProviderTarget. solve_checks. Qed.
Lemma AgentProfile_checks : checks validate_AgentProfile.
Proof. unfold validate_AgentProfile. solve_checks. Qed.
Lemma MatrixRule_checks : checks validate_MatrixRule.
Proof. unfold validate_MatrixRule. solve_checks. Qed.
Lemma ServingProfileBinding_checks : checks validate_ServingProfileBinding.
Proof. unfold validate_ServingProfileBinding. solve_checks. Qed.
Lemma ExecutionSpec_checks : checks validate_ExecutionSpec.
Proof. unfold validate_ExecutionSpec. solve_checks. Qed.
Lemma TrialEvidencePolicy_checks : checks validate_TrialEvidencePolicy.
Proof. unfold validate_TrialEvidencePolicy. solve_checks. Qed.
Lemma ArtifactStoreSpec_checks : checks validate_ArtifactStoreSpec.
Proof. unfold validate_ArtifactStoreSpec. solve_checks. Qed.
Lemma PublishingSpec_checks : checks validate_PublishingSpec.
Proof. unfold validate_PublishingSpec. solve_checks. Qed.
Lemma RemoteExecutionSpec_checks : checks validate_RemoteExecutionSpec.
Proof. unfold validate_RemoteExecutionSpec. solve_checks. Qed.
Lemma BenchmarkJudgeSpec_checks : checks validate_BenchmarkJudgeSpec.
Proof. unfold validate_BenchmarkJudgeSpec. solve_checks. Qed.
#[export] Hint Resolve Metadata_checks ModelProfile_checks EngineSpec_checks DeploymentProfile_checks
  ProviderLimits_checks ProviderTarget_checks AgentProfile_checks MatrixRule_checks
  ServingProfileBinding_checks ExecutionSpec_checks TrialEvidencePolicy_checks ArtifactStoreSpec_checks
  PublishingSpec_checks RemoteExecutionSpec_checks BenchmarkJudgeSpec_checks checks_mapM checks_opt : checks.

Lemma DeploymentTarget_checks : checks validate_DeploymentTarget.
Proof.
  intros [d|t] b E; cbn in E; inv_ok; f_equal; [by apply DeploymentProfile_checks|by apply ProviderTarget_checks].
Qed.
#[export] Hint Resolve DeploymentTarget_checks : checks.

(** [H : f a = Ok b] of an accepting validator becomes [b = a]. *)
Ltac use_checks :=
  repeat match goal with
  | H : ?f ?a = Ok ?b |- _ =>
      let E := fresh in
      assert (E : b = a) by (revert H; (assert (checks f) as HC by (auto with checks)); apply HC);
      lazymatch b with a => fail | _ => subst b end
  end.

Lemma profile_ids_are_unique_checks : checks profile_ids_are_unique.
Proof. intros a b E. unfold profile_ids_are_unique in E. by inv_ok. Qed.

Lemma MatrixSpec_checks : checks validate_MatrixSpec.
Proof.
  intros m b E. unfold validate_MatrixSpec in E. inv_ok.
  repeat match goal with
  | H : mapM ?f _ = Ok _ |- _ => apply (checks_mapM f) in H; [|auto with checks]
  end. subst. apply profile_ids_are_unique_checks in E. subst b. by destruct m.
Qed.
#[export] Hint Resolve MatrixSpec_checks : checks.

(** ** Benchmarks *)

(** A second normalisation of the repository changes nothing. *)
Definition source_is_canonical (s : option BenchmarkSource) : Prop :=
  match s with
  | Some (source_git g) => canonicalize_repository (gs_repository g) = gs_repository g
  | _ => True
  end.

Lemma validate_BenchmarkSource_again s s' :
  validate_BenchmarkSource s = Ok s' -> source_is_canonical (Some s') -> validate_BenchmarkSource s' = Ok s'.
Proof.
  destruct s as [g|d|b]; cbn; intros E Hc; inv_ok.
  - unfold validate_GitBenchmarkSource, fields_ok in Hv. inv_ok. cbn in Hc |- *.
    unfold validate_GitBenchmarkSource, fields_ok. cbn. rewrite !Hc.
    cbn in Hc0, Hc1. rewrite Hc0. cbn. by rewrite Hc1.
  - cbn. by rewrite Hc0.
  - unfold fields_ok in Hv. inv_ok. unfold validate_BenchmarkSource, fields_ok. by rewrite Hc0.
Qed.

Lemma content_digest_hash s : is_content_digest ("sha256:" +:+ sha256_hex s) = true.
Proof.
  unfold is_content_digest. rewrite removeprefix_app, andb_true_iff. split.
  - change ("sha256:" +:+ sha256_hex s) with (String "s" (String "h" (String "a" (String "2" (String "5"
      (String "6" (String ":" (sha256_hex s)))))))). by destruct (sha256_hex s).
  - destruct (sha256_hex_chars s) as [Hc Hl]. unfold hex_fullmatch. by rewrite Hl, andb_true_r.
Qed.

(** The digest of a source that validated is a content digest. *)
Lemma source_digest_valid s s' d :
  validate_BenchmarkSource s = Ok s' -> benchmark_source_digest s' = Some d -> is_content_digest d = true.
Proof.
  destruct s as [g|p|b]; cbn; intros E Ed; inv_ok; cbn in Ed; [|done|].
  - injection Ed as <-. unfold git_benchmark_source_digest. apply content_digest_hash.
  - injection Ed as <-. unfold fields_ok in Hv. inv_ok. by apply andb_true_iff in Hc as [-> _].
Qed.

(** What the contract accepts, with the digest it sets. *)
Lemma contract_ok b b' :
  benchmark_contract_is_consistent b = Ok b' -> exists digest, b' = with_dataset_digest b digest /\
    (digest = bm_dataset_digest b \/
     exists d, digest = Some d /\
       match bm_source b with
       | Some s => benchmark_source_digest s = Some d
       | None => is_content_digest d = true
       end) /\
    benchmark_contract_is_consistent b' = Ok b'.
Proof.
  assert (Hid : b = with_dataset_digest b (bm_dataset_digest b)) by (by destruct b).
  unfold benchmark_contract_is_consistent. intros E. inv_ok. destruct (bm_source b) as [s|] eqn:Es.
  - unfold _resolve_benchmark_source_digest in E. inv_ok. destruct (benchmark_source_digest s) as [d|] eqn:Ed.
    + inv_ok. exists (Some d). split_and!; [done|by eauto|].
      cbn [with_dataset_digest bm_task_names bm_source bm_dataset bm_dataset_digest].
      rewrite Hc, Es. unfold _resolve_benchmark_source_digest.
      cbn [with_dataset_digest bm_task_names bm_source bm_dataset bm_dataset_digest].
      by rewrite Hc0, Ed, String.eqb_refl.
    + inv_ok. exists (bm_dataset_digest b'). split_and!; [done|by left|].
      rewrite Hc, Es. unfold _resolve_benchmark_source_digest. by rewrite Hc0, Ed, Hc1.
  - destruct (_split_dataset_reference (bm_dataset b)).2 as [r|] eqn:Er.
    + destruct (str_startswith "sha256:" r) eqn:Ep; inv_ok.
      * exists (Some r). apply negb_false_iff in Hc0. split_and!; [done|right; by eauto|].
        cbn [with_dataset_digest bm_task_names bm_source bm_dataset bm_dataset_digest].
        by rewrite Hc, Es, Er, Ep, Hc0, String.eqb_refl.
      * exists (bm_dataset_digest b'). split_and!; [done|by left|]. by rewrite Hc, Es, Er, Ep.
    + inv_ok. exists (bm_dataset_digest b'). split_and!; [done|by left|]. by rewrite Hc, Es, Er.
Qed.

Lemma validate_BenchmarkSpec_ok b b' :
  validate_BenchmarkSpec b = Ok b' ->
  bm_dataset b' = bm_dataset b /\ bm_judge b' = bm_judge b /\ bm_task_names b' = bm_task_names b /\
  bm_task_digests b' = bm_task_digests b /\ opt_mapM validate_BenchmarkSource (bm_source b) = Ok (bm_source b') /\
  (source_is_canonical (bm_source b') -> validate_BenchmarkSpec b' = Ok b').
Proof.
  intros E. unfold validate_BenchmarkSpec in E. inv_ok. unfold fields_ok in Hv1. inv_ok.
  pose proof Hv0 as Hj. apply (checks_opt validate_BenchmarkJudgeSpec) in Hj; [|auto with checks]. subst v0.
  apply contract_ok in E as (digest & -> & Hdig & Hagain). cbn in Hdig, Hagain |- *.
  split_and!; try done. intros Hcan. unfold validate_BenchmarkSpec.
  cbn [with_dataset_digest bm_dataset bm_dataset_digest bm_source bm_judge bm_task_names bm_task_digests].
  assert (Hs : opt_mapM validate_BenchmarkSource v = Ok v).
  { destruct (bm_source b) as [s|]; cbn in Hv; inv_ok; [|done].
    match goal with H : validate_BenchmarkSource s = Ok ?x |- _ =>
      cbn; by rewrite (validate_BenchmarkSource_again s x H Hcan) end. }
  rewrite Hs, Hv0. unfold fields_ok. cbn [result_bind].
  assert (Hd : opt_valid is_content_digest digest = true).
  { destruct Hdig as [->|(d & -> & Hd)]; [rewrite !andb_true_iff in Hc; naive_solver|]. cbn.
    destruct v as [s'|]; [|done].
    destruct (bm_source b) as [s|]; cbn in Hv; inv_ok; [by eapply source_digest_valid|done]. }
  rewrite Hd. rewrite !andb_true_iff in Hc. destruct Hc as [[[[[-> _] ->] ->] ->] ->].
  cbn [andb result_bind]. exact Hagain.
Qed.

(** What validation makes of a source: of a Git source the repository is
    canonicalized, everything else is kept. *)
Definition source_canonicalized (s s' : option BenchmarkSource) : Prop :=
  match s with
  | Some (source_git g) => s' = Some (source_git {|
      gs_repository := canonicalize_repository (gs_repository g);
      gs_revision := gs_revision g; gs_path := gs_path g |})
  | _ => s' = s
  end.

Lemma source_validated s s' : opt_mapM validate_BenchmarkSource s = Ok s' -> source_canonicalized s s'.
Proof.
  destruct s as [[g|d|b]|]; cbn; intros E; inv_ok; try done.
  unfold validate_GitBenchmarkSource, fields_ok in Hv0. by inv_ok.
Qed.

(** The digest the contents of a benchmark determine: that of its immutable
    source, or the content address of its dataset. *)
Definition determined_digest (b : BenchmarkSpec) : option string :=
  match bm_source b with
  | Some s => benchmark_source_digest s
  | None =>
      match (_split_dataset_reference (bm_dataset b)).2 with
      | Some r => if str_startswith "sha256:" r then Some r else None
      | None => None
      end
  end.

Definition digest_determined (b b' : BenchmarkSpec) : Prop :=
  bm_dataset_digest b' =
    match determined_digest b' with Some d => Some d | None => bm_dataset_digest b end /\
  (forall d, bm_dataset_digest b = Some d -> bm_dataset_digest b' = Some d).

Lemma contract_digest b b' :
  benchmark_contract_is_consistent b = Ok b' -> digest_determined b b'.
Proof.
  unfold benchmark_contract_is_consistent, digest_determined, determined_digest. intros E. inv_ok.
  destruct (bm_source b) as [s|] eqn:Es.
  - unfold _resolve_benchmark_source_digest in E. inv_ok. destruct (benchmark_source_digest s) as [d|] eqn:Ed; inv_ok.
    + cbn. rewrite Es, Ed. split; [done|]. intros d' Hd'. rewrite Hd' in *.
      match goal with H : negb (String.eqb d' d) = false |- _ => by apply negb_false_iff, String.eqb_eq in H as -> end.
    + by rewrite Es, Ed.
  - destruct (_split_dataset_reference (bm_dataset b)).2 as [r|] eqn:Er; [|inv_ok; by rewrite Es, Er].
    destruct (str_startswith "sha256:" r) eqn:Ep; inv_ok; [|by rewrite Es, Er, Ep].
    cbn. rewrite Es, Er, Ep. split; [done|]. intros d' Hd'. rewrite Hd' in *.
    match goal with H : negb (String.eqb r d') = false |- _ => by apply negb_false_iff, String.eqb_eq in H as -> end.
Qed.

Lemma validated_digest b b' : validate_BenchmarkSpec b = Ok b' -> digest_determined b b'.
Proof.
  intros E. unfold validate_BenchmarkSpec in E. inv_ok. apply contract_digest in E.
  unfold digest_determined in *. exact E.
Qed.

(** ** The experiment *)
Definition same_but_benchmark (s s' : ExperimentSpec) : Prop :=
  spec_metadata s' = spec_metadata s /\ spec_matrix s' = spec_matrix s /\
  spec_execution s' = spec_execution s /\ spec_artifacts s' = spec_artifacts s /\
  spec_publishing s' = spec_publishing s /\ spec_remote s' = spec_remote s.

Lemma headroom_checks : checks remote_job_has_lifecycle_headroom.
Proof.
  intros s b E. unfold remote_job_has_lifecycle_headroom in E. inv_ok.
  destruct (spec_remote s); [|by injection E]. by inv_ok.
Qed.

Lemma validate_ExperimentSpec_ok s s' :
  validate_ExperimentSpec s = Ok s' ->
  same_but_benchmark s s' /\
  validate_BenchmarkSpec (spec_benchmark s) = Ok (spec_benchmark s') /\
  remote_job_has_lifecycle_headroom s' = Ok s' /\
  validate_MatrixSpec (spec_matrix s) = Ok (spec_matrix s) /\
  validate_ExecutionSpec (spec_execution s) = Ok (spec_execution s) /\
  (source_is_canonical (bm_source (spec_benchmark s')) -> validate_ExperimentSpec s' = Ok s').
Proof.
  intros E. unfold validate_ExperimentSpec in E. inv_ok.
  pose proof Hv as H1. apply Metadata_checks in H1. subst v.
  pose proof Hv1 as H1. apply MatrixSpec_checks in H1. subst v1.
  pose proof Hv2 as H1. apply ExecutionSpec_checks in H1. subst v2.
  pose proof Hv3 as H1. apply ArtifactStoreSpec_checks in H1. subst v3.
  pose proof Hv4 as H1. apply PublishingSpec_checks in H1. subst v4.
  pose proof Hv5 as H1. apply (checks_opt validate_RemoteExecutionSpec) in H1; [|auto with checks]. subst v5.
  pose proof E as H1. apply headroom_checks in H1. subst s'.
  split_and!; try done. cbn. intros Hc. unfold validate_ExperimentSpec. cbn.
  apply validate_BenchmarkSpec_ok in Hv0 as (_ & _ & _ & _ & _ & Ha).
  rewrite Hv, (Ha Hc), Hv1, Hv2, Hv3, Hv4, Hv5. cbn. exact E.
Qed.
