(* ===== verification/Planner.v ===== *)
(** Planning: plan records and the planner (planner.py, benchmark_source.py, [build_campaign_plan] of campaigns.py). *)
From Stdlib Require Import Floats.SpecFloat.
From S2P Require Import Prelude.
From S2P Require Import PyDict.
From S2P Require Import Float64.
From S2P Require Import Sha256.
From S2P Require Import Json.
From S2P Require Import Patterns.
From S2P Require Import Campaigns.
From S2P Require Import Models.
From S2P Require Import Manifest.

(** ** Planning of provider waves ([_controller_plan] and its helpers,
    src/src/harbor_hf/campaigns.py). Before a provider campaign is
    submitted, its shards are grouped by deployment, cut into waves, and
    every wave gets a duration bound from the locked per-trial bound; the
    campaign is refused when the bounds exceed the execution or Job
    timeouts. The experiment specification is represented by the settings
    these functions read. *)
(** The settings of [ExperimentSpec] that wave planning reads. *)
Record PlanningSettings := {
  set_concurrent_trials : Z;
  set_serving_profile_concurrency : option Z;
  set_max_shards_per_wave : Z;
  set_timeout_seconds : Z;
  set_controller : option CampaignControllerSpec;
  set_remote_timeout_seconds : option Z;
}.

(** [_provider_controller_policy] *)
Definition _provider_controller_policy (spec : PlanningSettings) (runs : list PlannedRun)
    : result (option CampaignControllerSpec) :=
  let provider_count := count_if (fun run : PlannedRun => is_some (ra_provider run)) runs in
  raise_if (0 <? provider_count) && (provider_count <? len runs)
    with ValueError "campaigns cannot mix inference providers and inference endpoints";;
  if provider_count =? 0 then
    raise_if is_some (set_controller spec)
      with ValueError "execution.controller is only valid for inference-provider campaigns";;
    Ok None
  else
    match set_controller spec with
    | None => Err (ValueError
        "inference-provider campaigns require execution.controller settings")
    | Some policy =>
        raise_if negb (is_some (set_remote_timeout_seconds spec))
          with ValueError "provider campaign controllers require remote execution";;
        Ok (Some policy)
    end.

(** One iteration of the loop of [_provider_wave_groups]. *)
Definition wave_group_step (spec : PlanningSettings)
    (acc : dict (list PlannedShard) * dict Z) (run : PlannedRun)
    : result (dict (list PlannedShard) * dict Z) :=
  let '(grouped, concurrency) := acc in
  let profile_limit := match set_serving_profile_concurrency spec with
                       | Some limit => limit | None => set_concurrent_trials spec end in
  match ra_max_concurrent_requests run with
  | None => Err (ValueError "provider campaign run has no request concurrency limit")
  | Some provider_limit =>
      let effective := Z.min (set_concurrent_trials spec) (Z.min provider_limit profile_limit) in
      let deployment := ra_deployment_digest run in
      let previous := dict_get_default concurrency deployment effective in
      raise_if negb (previous =? effective)
        with ValueError "provider deployment has inconsistent concurrency limits";;
      Ok (dict_set grouped deployment (dict_get_default grouped deployment [] ++ pr_shards run),
          dict_set concurrency deployment previous)
  end.

(** [_provider_wave_groups] *)
Definition _provider_wave_groups (spec : PlanningSettings) (runs : list PlannedRun)
    : result (dict (list PlannedShard) * dict Z) :=
  foldM (wave_group_step spec) ([], []) runs.

Definition PlannedInitialWave_valid (w : PlannedInitialWave) : bool :=
  (1 <=? pw_wave_index w) && negb (is_nil (pw_shard_digests w)) && (1 <=? pw_trial_count w) &&
  (1 <=? pw_effective_concurrency w) && (1 <=? pw_planned_duration_seconds w).

Definition shard_trial_total (chunk : list PlannedShard) : Z :=
  sum_z (map (fun shard => len (ps_trials shard)) chunk).

(** One chunk of [_build_planned_initial_waves]. *)
Definition append_planned_wave (spec : PlanningSettings) (policy : CampaignControllerSpec)
    (concurrency : dict Z) (deployment_key : string) (waves : list PlannedInitialWave)
    (chunk : list PlannedShard) : result (list PlannedInitialWave) :=
  let trial_count := shard_trial_total chunk in
  let* effective := dict_item concurrency deployment_key in
  let* duration := planned_provider_wave_seconds policy trial_count effective in
  raise_if set_timeout_seconds spec <? duration
    with ValueError "planned provider wave duration exceeds execution.timeout_seconds";;
  let wave := {|
    pw_wave_index := len waves + 1;
    pw_deployment_digest := deployment_key;
    pw_shard_digests := map ps_shard_digest chunk;
    pw_trial_count := trial_count;
    pw_effective_concurrency := effective;
    pw_planned_duration_seconds := duration;
  |} in
  raise_if negb (PlannedInitialWave_valid wave) with ValidationError "PlannedInitialWave";;
  Ok (waves ++ [wave]).

(** The durations of the waves of one deployment, and their maximum. *)
Definition deployment_durations (waves : list PlannedInitialWave) (deployment_key : string)
    : list Z :=
  map pw_planned_duration_seconds
    (List.filter (fun w => String.eqb (pw_deployment_digest w) deployment_key) waves).

Definition wave_with_duration (w : PlannedInitialWave) (duration : Z) : PlannedInitialWave := {|
  pw_wave_index := pw_wave_index w;
  pw_deployment_digest := pw_deployment_digest w;
  pw_shard_digests := pw_shard_digests w;
  pw_trial_count := pw_trial_count w;
  pw_effective_concurrency := pw_effective_concurrency w;
  pw_planned_duration_seconds := duration;
|}.

(** [_build_planned_initial_waves]; the [max] of a deployment without waves raises. *)
Definition _build_planned_initial_waves (spec : PlanningSettings)
    (policy : CampaignControllerSpec) (grouped_shards : dict (list PlannedShard))
    (concurrency : dict Z) : result (list PlannedInitialWave) :=
  let* waves := foldM (fun waves deployment_key =>
      let* shards := dict_item grouped_shards deployment_key in
      let* cs := chunks (set_max_shards_per_wave spec) shards in
      foldM (append_planned_wave spec policy concurrency deployment_key) waves cs)
    [] (sort_by str_leb (dict_keys grouped_shards)) in
  let* maximum_by_deployment := mapM (fun deployment_key =>
      match deployment_durations waves deployment_key with
      | [] => Err (ValueError "max() iterable argument is empty")
      | d :: ds => Ok (deployment_key, foldl Z.max d ds)
      end) (dict_keys grouped_shards) in
  mapM (fun wave =>
    let* maximum := dict_item maximum_by_deployment (pw_deployment_digest wave) in
    Ok (wave_with_duration wave maximum)) waves.

(** [_controller_plan] *)
Definition _controller_plan (spec : PlanningSettings) (runs : list PlannedRun)
    : result (option CampaignControllerSpec * list PlannedInitialWave * option Z) :=
  let* policy := _provider_controller_policy spec runs in
  match policy with
  | None => Ok (None, [], None)
  | Some policy =>
      let* '(grouped, concurrency) := _provider_wave_groups spec runs in
      let* waves := _build_planned_initial_waves spec policy grouped concurrency in
      let total := sum_z (map pw_planned_duration_seconds waves) + controller_reserve_seconds policy in
      match set_remote_timeout_seconds spec with
      | Some timeout =>
          raise_if timeout <? total
            with ValueError "planned provider campaign duration exceeds remote.job.timeout_seconds";;
          Ok (Some policy, waves, Some total)
      | None => Err (ValueError
          "planned provider campaign duration exceeds remote.job.timeout_seconds")
      end
  end.

(** ** Planning an experiment (planner.py, benchmark_source.py and
    [build_campaign_plan] of campaigns.py). The manifest is resolved
    against a benchmark source lock, its matrix is expanded into run
    cells, every cell gets the trials of the benchmark cut into shards,
    and everything is identified by content digests. *)
(** ** The experiment plan (planner.py) *)
Record ExperimentPlan := {
  ep_experiment : string;
  ep_spec_digest : string;
  ep_run_count : Z;
  ep_logical_trial_count : option Z;
  ep_cells : list RunCell;
}.

Definition fields_pop_if (name : string) (drop : json -> bool) (fields : list (string * json))
    : list (string * json) :=
  List.filter (fun e => negb (String.eqb e.1 name && drop e.2)) fields.

(** [_remove_default_execution_fields] *)
Definition _remove_default_execution_fields (execution : list (string * json)) : list (string * json) :=
  fields_pop_if "max_trials_per_shard" (fun v => json_eqb v (JInt 64))
    (fields_pop_if "max_shards_per_wave" (fun v => json_eqb v (JInt 8))
      (fields_pop_if "server_context_tokens" (fun v => json_eqb v JNull)
        (fields_pop_if "max_output_tokens" (fun v => json_eqb v JNull)
          (fields_pop_if "reasoning_required" (fun v => json_eqb v (JBool false)) execution)))).

(** [experiment_digest] *)
Definition experiment_digest (spec : ExperimentSpec) : string :=
  let matrix := fields_pop_if "include" (fun v => json_eqb v (JArr []))
    (fields_pop_if "exclude" (fun v => json_eqb v (JArr [])) (MatrixSpec_fields true (spec_matrix spec))) in
  let execution := _remove_default_execution_fields (ExecutionSpec_fields (spec_execution spec)) in
  "sha256:" +:+ sha256_hex (dumps (ExperimentSpec_dump_with true matrix execution spec)).

(** [build_plan] *)
Definition selected_task_count (benchmark : BenchmarkSpec) : Z :=
  let tasks := dict_keys (bm_task_digests benchmark) in
  count_if (fun task => existsb (fun selection => task_matches_selector task selection tasks)
                          (bm_task_names benchmark)) tasks.

Definition plan_task_count (benchmark : BenchmarkSpec) : option Z :=
  let n := selected_task_count benchmark in
  if negb (n =? 0) then Some n
  else if existsb is_task_pattern (bm_task_names benchmark) then None
  else Some (len (bm_task_names benchmark)).

Definition build_plan (spec : ExperimentSpec) : result ExperimentPlan :=
  let* cells := resolved_cells (spec_matrix spec) in
  Ok {|
    ep_experiment := md_name (spec_metadata spec);
    ep_spec_digest := experiment_digest spec;
    ep_run_count := len cells;
    ep_logical_trial_count :=
      option_map (fun task_count => len cells * task_count * ex_attempts (spec_execution spec))
        (plan_task_count (spec_benchmark spec));
    ep_cells := cells;
  |}.

(** ** Benchmark source locks (benchmark_source.py) *)
Definition ResolvedBenchmarkSource_dump (s : ResolvedBenchmarkSource) : json :=
  match s with
  | resolved_git s => GitBenchmarkSource_dump s
  | resolved_bundle s => BundleBenchmarkSource_dump s
  | resolved_package s =>
      jobj (fld "type" (JStr "package") ++ fld "reference" (JStr (pk_reference s)))
  end.

Definition _SOURCE_LOCK_SCHEMA : string := "harbor-hf/benchmark-source-lock/v1alpha1".

Definition BenchmarkSourceLock_dump (lock : BenchmarkSourceLock) : json :=
  jobj (fld "schema_version" (JStr _SOURCE_LOCK_SCHEMA) ++
        fld "source" (ResolvedBenchmarkSource_dump (bl_source lock))).

(** [source_lock_bytes] ends in a newline; [ensure_ascii] is off. *)
Definition source_lock_bytes (lock : BenchmarkSourceLock) : string :=
  dumps_unicode (BenchmarkSourceLock_dump lock) +:+ String "010" EmptyString.

Definition source_lock_digest (lock : BenchmarkSourceLock) : string :=
  "sha256:" +:+ sha256_hex (source_lock_bytes lock).

(** The pattern of [PackageBenchmarkSourceLock]. *)
Definition is_package_reference (s : string) : bool :=
  match str_rpartition "@"%char s with
  | Some (name, digest) => is_package_name name && is_content_digest digest
  | None => false
  end.

Definition validate_package (reference : string) : result PackageBenchmarkSourceLock :=
  let* _ := fields_ok "PackageBenchmarkSourceLock" (is_package_reference reference) in
  Ok {| pk_reference := reference |}.

(** [source_lock_from_spec] *)
Definition source_lock_from_spec (spec : ExperimentSpec) : result BenchmarkSourceLock :=
  match bm_source (spec_benchmark spec) with
  | None =>
      let* reference := pinned_harbor_dataset_reference (bm_dataset (spec_benchmark spec))
                          (bm_dataset_digest (spec_benchmark spec)) in
      let* package := validate_package reference in
      Ok {| bl_source := resolved_package package |}
  | Some (source_directory _) =>
      Err (ValueError "directory benchmark source must be resolved before planning")
  | Some (source_git s) => Ok {| bl_source := resolved_git s |}
  | Some (source_bundle s) => Ok {| bl_source := resolved_bundle s |}
  end.

(** [_validate_source_resolution] *)
Definition _validate_source_resolution (spec : ExperimentSpec) (requested : option BenchmarkSource)
    (resolved : ResolvedBenchmarkSource) : result unit :=
  match requested with
  | None =>
      match resolved with
      | resolved_package package =>
          let* expected := pinned_harbor_dataset_reference (bm_dataset (spec_benchmark spec))
                             (bm_dataset_digest (spec_benchmark spec)) in
          raise_if negb (String.eqb (pk_reference package) expected)
            with ValueError "package benchmark source lock changed its reference";;
          Ok tt
      | _ => Err (ValueError "package benchmark resolved to a different source type")
      end
  | Some (source_git s) =>
      raise_if negb (bool_decide (resolved = resolved_git s))
        with ValueError "benchmark source lock changed the request";;
      Ok tt
  | Some (source_bundle s) =>
      raise_if negb (bool_decide (resolved = resolved_bundle s))
        with ValueError "benchmark source lock changed the request";;
      Ok tt
  | Some (source_directory _) =>
      match resolved with
      | resolved_bundle _ => Ok tt
      | _ => Err (ValueError "directory benchmark did not resolve to a bundle")
      end
  end.

Definition with_benchmark (spec : ExperimentSpec) (benchmark : BenchmarkSpec) : ExperimentSpec := {|
  spec_metadata := spec_metadata spec;
  spec_benchmark := benchmark;
  spec_matrix := spec_matrix spec;
  spec_execution := spec_execution spec;
  spec_artifacts := spec_artifacts spec;
  spec_publishing := spec_publishing spec;
  spec_remote := spec_remote spec;
|}.

(** [resolved_experiment]: a directory is replaced by the bundle it resolved to,
    and the manifest is validated again. *)
Definition resolved_experiment (spec : ExperimentSpec) (lock : BenchmarkSourceLock)
    : result ExperimentSpec :=
  let requested := bm_source (spec_benchmark spec) in
  let* _ := _validate_source_resolution spec requested (bl_source lock) in
  match requested, bl_source lock with
  | Some (source_directory _), resolved_bundle bundle =>
      let benchmark := spec_benchmark spec in
      let* benchmark := validate_BenchmarkSpec {|
        bm_dataset := bm_dataset benchmark;
        bm_dataset_digest := Some (bn_content_digest bundle);
        bm_source := Some (source_bundle bundle);
        bm_judge := bm_judge benchmark;
        bm_task_names := bm_task_names benchmark;
        bm_task_digests := bm_task_digests benchmark;
      |} in
      validate_ExperimentSpec (with_benchmark spec benchmark)
  | Some (source_directory _), _ => Err AssertionError
  | _, _ => Ok spec
  end.

(** ** The campaign plan (campaigns.py) *)

(** [deployment_digest] (endpoints.py): profiles without identifiers and endpoint *)
Definition deployment_digest (model : ModelProfile) (deployment : DeploymentTarget) : string :=
  _digest (jobj (
    fld "model" (jobj (ModelProfile_fields true model)) ++
    fld "deployment" (jobj (match deployment with
      | target_endpoint d => DeploymentProfile_fields d
      | target_provider t => ProviderTarget_fields true t
      end)))).

(** [_resolved_tasks] *)
Definition _resolved_tasks (spec : ExperimentSpec) : result (list (string * string)) :=
  let digests := bm_task_digests (spec_benchmark spec) in
  raise_if is_nil digests with ValueError "campaign planning requires resolved task digests";;
  raise_if negb (task_selection_resolves (spec_benchmark spec))
    with ValueError "campaign task digests must exactly resolve task selections";;
  Ok (sort_by key_leb digests).

(** [_target_admission] *)
Definition _target_admission (target : DeploymentTarget)
    : option string * option Z * option Z * option Z :=
  match target with
  | target_provider t =>
      (Some provider_service, Some (pl_max_concurrent_requests (pv_limits t)),
       _usd_to_microusd (pl_max_spend_usd (pv_limits t)),
       _usd_to_microusd (pl_estimated_wave_cost_usd (pv_limits t)))
  | target_endpoint _ => (None, None, None, None)
  end.

(** The three dictionaries of profiles by identifier. *)
Record profile_tables := {
  table_models : dict ModelProfile;
  table_deployments : dict DeploymentTarget;
  table_agents : dict AgentProfile;
}.

Definition profiles_of (m : MatrixSpec) : profile_tables := {|
  table_models := dict_of (map (fun p => (mp_id p, p)) (mx_models m));
  table_deployments := dict_of (map (fun p => (target_id p, p)) (mx_deployments m));
  table_agents := dict_of (map (fun p => (ap_id p, p)) (mx_agents m));
|}.

(** One iteration of [_validate_campaign_cells]. *)
Definition validate_cell (profiles : profile_tables) (pairs : dict (string * string)) (cell : RunCell)
    : result (dict (string * string)) :=
  let* model := dict_item (table_models profiles) (cell_model cell) in
  let* deployment := dict_item (table_deployments profiles) (cell_deployment cell) in
  let* _ :=
    match deployment with
    | target_provider t =>
        let* agent := dict_item (table_agents profiles) (cell_agent cell) in
        validate_provider_cell model t agent
    | target_endpoint _ => Ok tt
    end in
  let digest := deployment_digest model deployment in
  let pair := (cell_model cell, cell_deployment cell) in
  match dict_get pairs digest with
  | None => Ok (dict_set pairs digest pair)
  | Some previous =>
      raise_if negb (bool_decide (previous = pair))
        with ValueError ("campaign deployment digest must resolve to one model and " +:+
                         "deployment profile pair");;
      Ok pairs
  end.

(** [_validate_campaign_cells] *)
Definition _validate_campaign_cells (cells : list RunCell) (profiles : profile_tables) : result unit :=
  let* _ := foldM (validate_cell profiles) [] cells in Ok tt.

Definition PlannedTrial_dump (t : PlannedTrial) : json :=
  jobj (fld "trial_digest" (JStr (pt_trial_digest t)) ++ fld "task_name" (JStr (pt_task_name t)) ++
        fld "task_digest" (JStr (pt_task_digest t)) ++
        fld "logical_attempt" (JInt (pt_logical_attempt t))).

Definition PlannedShard_dump (s : PlannedShard) : json :=
  jobj (fld "shard_digest" (JStr (ps_shard_digest s)) ++
        fld "trials" (JArr (map PlannedTrial_dump (ps_trials s)))).

Definition PlannedRun_dump (r : PlannedRun) : json :=
  jobj (fld "cell_digest" (JStr (ra_cell_digest r)) ++
        fld "deployment_digest" (JStr (ra_deployment_digest r)) ++ fld "model" (JStr (ra_model r)) ++
        fld "deployment" (JStr (ra_deployment r)) ++ fld "agent" (JStr (ra_agent r)) ++
        xfld "provider" (option_map JStr (ra_provider r)) ++
        xfld "max_concurrent_requests" (option_map JInt (ra_max_concurrent_requests r)) ++
        xfld "spend_cap_microusd" (option_map JInt (ra_spend_cap_microusd r)) ++
        xfld "estimated_wave_cost_microusd" (option_map JInt (ra_estimated_wave_cost_microusd r)) ++
        fld "shards" (JArr (map PlannedShard_dump (pr_shards r)))).

Definition PlannedInitialWave_dump (w : PlannedInitialWave) : json :=
  jobj (fld "wave_index" (JInt (pw_wave_index w)) ++
        fld "deployment_digest" (JStr (pw_deployment_digest w)) ++
        fld "shard_digests" (jstrs (pw_shard_digests w)) ++ fld "trial_count" (JInt (pw_trial_count w)) ++
        fld "effective_concurrency" (JInt (pw_effective_concurrency w)) ++
        fld "planned_duration_seconds" (JInt (pw_planned_duration_seconds w))).

Definition CampaignRecoveryPolicy_dump (p : CampaignRecoveryPolicy) : json :=
  jobj (fld "max_active_waves" (JInt (max_active_waves p)) ++
        fld "max_physical_executions_per_trial" (JInt (max_physical_executions_per_trial p)) ++
        fld "retry_base_seconds" (JInt (retry_base_seconds p)) ++
        fld "retry_max_seconds" (JInt (retry_max_seconds p)) ++
        fld "cancellation_grace_seconds" (JInt (cancellation_grace_seconds p)) ++
        ofld false "spend_cap_microusd" (option_map JInt (policy_spend_cap_microusd p))).

(** The trials of every cell: every attempt of every task. *)
Definition plan_trial (source_identity : string) (logical_attempt : Z) (task : string * string)
    : PlannedTrial := {|
  pt_trial_digest := _digest (jobj (
    fld "task_name" (JStr task.1) ++ fld "task_digest" (JStr task.2) ++
    fld "logical_attempt" (JInt logical_attempt) ++
    fld "source_lock_digest" (JStr source_identity)));
  pt_task_name := task.1;
  pt_task_digest := task.2;
  pt_logical_attempt := logical_attempt;
|}.

Definition plan_trials (source_identity : string) (attempts : Z) (tasks : list (string * string))
    : list PlannedTrial :=
  concat (map (fun attempt => map (plan_trial source_identity attempt) tasks) (range1 attempts)).

Definition plan_shard (cell_digest : string) (chunk : list PlannedTrial) : PlannedShard := {|
  ps_shard_digest := _digest (jobj (
    fld "cell_digest" (JStr cell_digest) ++ fld "trials" (JArr (map PlannedTrial_dump chunk))));
  ps_trials := chunk;
|}.

(** [_plan_run]; [_dump_profile] is the dump without [None] fields. *)
Definition _plan_run (spec : ExperimentSpec) (trials : list PlannedTrial) (profiles : profile_tables)
    (source_identity : string) (cell : RunCell) : result PlannedRun :=
  let* model := dict_item (table_models profiles) (cell_model cell) in
  let* deployment := dict_item (table_deployments profiles) (cell_deployment cell) in
  let* agent := dict_item (table_agents profiles) (cell_agent cell) in
  let cell_digest := _digest (jobj (
    fld "model" (ModelProfile_dump true model) ++ fld "deployment" (DeploymentTarget_dump true deployment) ++
    fld "agent" (AgentProfile_dump true agent) ++ fld "source_lock_digest" (JStr source_identity))) in
  let* cs := chunks (ex_max_trials_per_shard (spec_execution spec)) trials in
  let '(provider, concurrent, cap, estimate) := _target_admission deployment in
  let admission := {|
    ra_cell_digest := cell_digest;
    ra_deployment_digest := deployment_digest model deployment;
    ra_model := cell_model cell;
    ra_deployment := cell_deployment cell;
    ra_agent := cell_agent cell;
    ra_provider := provider;
    ra_max_concurrent_requests := concurrent;
    ra_spend_cap_microusd := cap;
    ra_estimated_wave_cost_microusd := estimate;
  |} in
  let* _ := fields_ok "PlannedRun" (opt_valid (Z.leb 1) concurrent && opt_valid (Z.leb 0) cap &&
                                    opt_valid (Z.leb 0) estimate) in
  Ok {| pr_admission := admission; pr_shards := map (plan_shard cell_digest) cs |}.

(** The settings of the manifest that wave planning reads. *)
Definition planning_settings (spec : ExperimentSpec) : PlanningSettings := {|
  set_concurrent_trials := ex_concurrent_trials (spec_execution spec);
  set_serving_profile_concurrency := option_map sb_concurrency (ex_serving_profile (spec_execution spec));
  set_max_shards_per_wave := ex_max_shards_per_wave (spec_execution spec);
  set_timeout_seconds := ex_timeout_seconds (spec_execution spec);
  set_controller := ex_controller (spec_execution spec);
  set_remote_timeout_seconds :=
    option_map (fun r => job_timeout_seconds (remote_job r)) (spec_remote spec);
|}.

(** The payload whose digest identifies the plan. *)
Definition plan_payload (spec : ExperimentSpec) (source_lock : BenchmarkSourceLock)
    (recovery_policy : CampaignRecoveryPolicy) (runs : list PlannedRun)
    (controller_policy : option CampaignControllerSpec) (initial_waves : list PlannedInitialWave)
    (planned_seconds : option Z) : json :=
  jobj (
    fld "schema_version" (JStr "harbor-hf/campaign-plan/v1alpha1") ++
    fld "experiment" (Metadata_dump (spec_metadata spec)) ++
    fld "benchmark_dataset" (JStr (bm_dataset (spec_benchmark spec))) ++
    fld "benchmark_dataset_digest" (jopt JStr (bm_dataset_digest (spec_benchmark spec))) ++
    fld "source_lock" (BenchmarkSourceLock_dump source_lock) ++
    fld "execution" (jobj (ExecutionSpec_fields (spec_execution spec))) ++
    fld "recovery_policy" (CampaignRecoveryPolicy_dump recovery_policy) ++
    fld "artifacts" (ArtifactStoreSpec_dump (spec_artifacts spec)) ++
    fld "publishing" (PublishingSpec_dump false (spec_publishing spec)) ++
    fld "remote" (jopt RemoteExecutionSpec_dump (spec_remote spec)) ++
    fld "runs" (JArr (map PlannedRun_dump runs)) ++
    match controller_policy with
    | Some policy =>
        fld "controller_policy" (CampaignControllerSpec_dump policy) ++
        fld "planned_campaign_duration_seconds" (jopt JInt planned_seconds) ++
        fld "initial_waves" (JArr (map PlannedInitialWave_dump initial_waves))
    | None => []
    end ++
    xfld "benchmark_judge" (option_map BenchmarkJudgeSpec_dump (bm_judge (spec_benchmark spec)))).

(** The constructor of [CampaignPlan]: field constraints, then its validator. *)
Definition validate_CampaignPlan (p : CampaignPlan) : result CampaignPlan :=
  let* _ := fields_ok "CampaignPlan"
    (is_evaluation_id (plan_evaluation_id p) &&
     opt_valid (Z.leb 1) (plan_planned_campaign_duration_seconds p)) in
  counts_match_contents p.

(** [build_campaign_plan] *)
Definition build_campaign_plan (spec : ExperimentSpec) (source_lock : option BenchmarkSourceLock)
    (recovery_policy : option CampaignRecoveryPolicy) : result CampaignPlan :=
  let* selected_source_lock :=
    match source_lock with Some lock => Ok lock | None => source_lock_from_spec spec end in
  let* resolved_spec := resolved_experiment spec selected_source_lock in
  let selected_recovery_policy :=
    match recovery_policy with Some p => p | None => default_recovery_policy end in
  let source_identity := source_lock_digest selected_source_lock in
  let* tasks := _resolved_tasks resolved_spec in
  let trials := plan_trials source_identity (ex_attempts (spec_execution resolved_spec)) tasks in
  let profiles := profiles_of (spec_matrix resolved_spec) in
  let* cells := resolved_cells (spec_matrix resolved_spec) in
  let* _ := _validate_campaign_cells cells profiles in
  let* runs := mapM (_plan_run resolved_spec trials profiles source_identity) cells in
  let* '(controller_policy, initial_waves, planned_seconds) :=
    _controller_plan (planning_settings resolved_spec) runs in
  validate_CampaignPlan {|
    plan_experiment := md_name (spec_metadata resolved_spec);
    plan_evaluation_id := pb_evaluation_id (spec_publishing resolved_spec);
    plan_publication_role := pb_role (spec_publishing resolved_spec);
    plan_component_kind := pb_component_kind (spec_publishing resolved_spec);
    plan_manifest_digest := experiment_digest spec;
    plan_source_lock := selected_source_lock;
    plan_plan_digest := _digest (plan_payload resolved_spec selected_source_lock selected_recovery_policy
                                   runs controller_policy initial_waves planned_seconds);
    plan_run_count := len runs;
    plan_shard_count := sum_z (map (fun run => len (pr_shards run)) runs);
    plan_trial_count := sum_z (concat (map (fun run => map (fun s => len (ps_trials s)) (pr_shards run)) runs));
    plan_max_shards_per_wave := ex_max_shards_per_wave (spec_execution resolved_spec);
    plan_recovery_policy := selected_recovery_policy;
    plan_controller_policy := controller_policy;
    plan_planned_campaign_duration_seconds := planned_seconds;
    plan_initial_waves := initial_waves;
    plan_runs := runs;
  |}.
