(* ===== verification/PlannerFacts.v ===== *)
(** Facts of [Planner]: the cells of a matrix, the trials and shards of a run,
    and what a campaign plan is built of. *)
From Stdlib Require Import Floats.SpecFloat.
From S2P Require Import Prelude.
From S2P Require Import PyDict.
From S2P Require Import Float64.
From S2P Require Import Sha256.
From S2P Require Import Json.
From S2P Require Import Patterns.
From S2P Require Import Campaigns.
From S2P Require Import Models.
From S2P Require Import Manifest.
From S2P Require Import ManifestFacts.
From S2P Require Import Planner.

(** ** Cells *)
Lemma elem_of_concat_map {A B} (f : A -> list B) l y : y ∈ concat (map f l) <-> exists x, x ∈ l /\ y ∈ f x.
Proof.
  induction l as [|x l IH]; cbn.
  - split; [by intros ?%elem_of_nil|by intros (? & ?%elem_of_nil & _)].
  - rewrite elem_of_app, IH. setoid_rewrite elem_of_cons. naive_solver.
Qed.

Lemma NoDup_concat_map {A B} (f : A -> list B) l :
  NoDup l -> (forall x, x ∈ l -> NoDup (f x)) ->
  (forall x x' y, x ∈ l -> x' ∈ l -> y ∈ f x -> y ∈ f x' -> x = x') -> NoDup (concat (map f l)).
Proof.
  induction 1 as [|x l Hx Hl IH]; cbn; [constructor|]. intros Hf Hi. apply NoDup_app. split_and!.
  - apply Hf. by left.
  - intros y Hy (x' & Hx' & Hy')%elem_of_concat_map. apply Hx.
    rewrite (Hi x x' y); [done|by left|by right|done|done].
  - apply IH; [intros; apply Hf; by right|]. intros a b y Ha Hb. by apply Hi; right.
Qed.

Lemma elem_of_map {A B} (f : A -> B) l y : y ∈ map f l <-> exists x, y = f x /\ x ∈ l.
Proof. apply list_elem_of_fmap. Qed.

Lemma candidate_cells_elem m c :
  c ∈ candidate_cells m <->
  cell_model c ∈ model_ids m /\ cell_deployment c ∈ deployment_ids m /\ cell_agent c ∈ agent_ids m.
Proof.
  unfold candidate_cells. generalize (model_ids m) (deployment_ids m) (agent_ids m). intros ms ds ags.
  rewrite elem_of_concat_map. setoid_rewrite elem_of_concat_map.
  setoid_rewrite elem_of_map. setoid_rewrite sort_by_elem_of. split.
  - intros (a & Ha & b & Hb & d & -> & Hd). done.
  - intros (Ha & Hb & Hd). eexists. split; [exact Ha|]. eexists. split; [exact Hb|]. eexists.
    split; [|exact Hd]. by destruct c.
Qed.

Lemma candidate_cells_NoDup m :
  NoDup (model_ids m) -> NoDup (deployment_ids m) -> NoDup (agent_ids m) -> NoDup (candidate_cells m).
Proof.
  intros Hm Hd Ha.
  assert (Hs : forall l, NoDup l -> NoDup (sort_by str_leb l)) by (intros l Hl; by rewrite sort_by_perm).
  unfold candidate_cells. apply NoDup_concat_map; [auto| |].
  - intros x _. apply NoDup_concat_map; [auto| |].
    + intros y _. apply NoDup_fmap_2_strong; [|auto]. by intros ? ? _ _ [= ->].
    + intros y y' c _ _ (? & -> & _)%elem_of_map (? & E & _)%elem_of_map. by injection E.
  - intros x x' c _ _ (y & _ & (? & -> & _)%elem_of_map)%elem_of_concat_map
      (y' & _ & (? & E & _)%elem_of_map)%elem_of_concat_map. by injection E.
Qed.

Lemma resolved_cells_ok m cells :
  resolved_cells m = Ok cells -> cells = List.filter (cell_selected m) (candidate_cells m) /\ cells <> [].
Proof. unfold resolved_cells. intros E. inv_ok. split; [done|]. by intros Hn; rewrite Hn in Hc. Qed.

(** A valid matrix has distinct identifiers. *)
Lemma matrix_ids_distinct m :
  validate_MatrixSpec m = Ok m ->
  NoDup (model_ids m) /\ NoDup (deployment_ids m) /\ NoDup (agent_ids m).
Proof.
  intros E. unfold validate_MatrixSpec in E. inv_ok.
  unfold profile_ids_are_unique in E. inv_ok. rewrite !orb_false_iff, !negb_false_iff in Hc.
  destruct Hc as [[H1 H2] H3]. unfold all_distinct in *.
  split_and!; by apply str_unique_NoDup.
Qed.

(** ** Resolving a manifest *)
Lemma resolved_experiment_ok spec lock r :
  resolved_experiment spec lock = Ok r ->
  same_but_benchmark spec r /\
  bm_task_names (spec_benchmark r) = bm_task_names (spec_benchmark spec) /\
  bm_task_digests (spec_benchmark r) = bm_task_digests (spec_benchmark spec) /\
  bm_judge (spec_benchmark r) = bm_judge (spec_benchmark spec) /\
  ((exists d, bm_source (spec_benchmark spec) = Some (source_directory d)) \/ r = spec).
Proof.
  unfold resolved_experiment. intros E. inv_ok.
  destruct (bm_source (spec_benchmark spec)) as [[g|d|b]|] eqn:Es;
    [injection E as <-; by split_and!; try right| |injection E as <-; by split_and!; try right
    |injection E as <-; by split_and!; try right].
  destruct (bl_source lock); try done. inv_ok.
  apply validate_BenchmarkSpec_ok in Hv0 as (H1 & H2 & H3 & H4 & _). cbn in *.
  apply validate_ExperimentSpec_ok in E as (Hs & Hb & _). cbn in Hs, Hb.
  apply validate_BenchmarkSpec_ok in Hb as (H5 & H6 & H7 & H8 & _). split_and!; try congruence; [exact Hs|eauto].
Qed.

(** ** Trials, shards, runs *)
Lemma plan_trials_length ident attempts tasks :
  0 <= attempts -> len (plan_trials ident attempts tasks) = attempts * len tasks.
Proof.
  intros Ha. unfold plan_trials, len, range1. rewrite length_concat, !map_map.
  setoid_rewrite length_map.
  assert (H : forall k, list_sum (map (fun _ => length tasks) (seq 1 k)) = (k * length tasks)%nat).
  { intros k. generalize 1%nat. induction k as [|k IH]; intros s; cbn; [done|]. by rewrite IH. }
  rewrite H. rewrite Nat2Z.inj_mul, Z2Nat.id by done. done.
Qed.

Lemma plan_trial_elem ident attempts tasks t :
  t ∈ plan_trials ident attempts tasks <->
  exists attempt task, 1 <= attempt <= attempts /\ task ∈ tasks /\ t = plan_trial ident attempt task.
Proof.
  unfold plan_trials, range1. rewrite elem_of_concat_map. setoid_rewrite elem_of_map. split.
  - intros (a & (n & -> & Hn) & task & -> & Ht). rewrite list_elem_of_In, in_seq in Hn.
    exists (Z.of_nat n), task. split; [lia|done].
  - intros (a & task & Ha & Ht & ->). exists a. split; [|eauto]. exists (Z.to_nat a).
    split; [lia|]. apply list_elem_of_In, in_seq. lia.
Qed.

(** The trials of a plan are told apart by task and attempt. *)
Definition trial_key (t : PlannedTrial) : string * Z := (pt_task_name t, pt_logical_attempt t).

Lemma plan_trials_NoDup ident attempts tasks :
  NoDup (map fst tasks) -> NoDup (map trial_key (plan_trials ident attempts tasks)).
Proof.
  intros Hn. unfold plan_trials. rewrite concat_map, map_map. apply NoDup_concat_map.
  - unfold range1. apply NoDup_fmap_2; [intros ? ? ?; lia|]. apply NoDup_ListNoDup, seq_NoDup.
  - intros a _. rewrite map_map. unfold trial_key, plan_trial. cbn.
    clear - Hn. induction tasks as [|x l IH]; cbn in *; [constructor|].
    apply NoDup_cons in Hn as [Hx Hl]. apply NoDup_cons. split; [|auto].
    intros (y & [= Hy] & Hin)%elem_of_map. apply Hx. rewrite Hy. apply elem_of_map. eauto.
  - intros a a' k _ _ (t & -> & Ht)%elem_of_map (t' & E & Ht')%elem_of_map.
    apply elem_of_map in Ht as (? & -> & _). apply elem_of_map in Ht' as (? & -> & _).
    by injection E.
Qed.

Lemma plan_run_ok spec trials profiles ident cell r :
  0 < ex_max_trials_per_shard (spec_execution spec) ->
  _plan_run spec trials profiles ident cell = Ok r ->
  ra_model r = cell_model cell /\ ra_deployment r = cell_deployment cell /\ ra_agent r = cell_agent cell /\
  concat (map ps_trials (pr_shards r)) = trials /\
  (forall s, s ∈ pr_shards r ->
     ps_trials s <> [] /\ len (ps_trials s) <= ex_max_trials_per_shard (spec_execution spec)) /\
  exists model deployment, dict_item (table_models profiles) (cell_model cell) = Ok model /\
    dict_item (table_deployments profiles) (cell_deployment cell) = Ok deployment /\
    ra_deployment_digest r = deployment_digest model deployment /\
    (ra_provider r, ra_max_concurrent_requests r, ra_spend_cap_microusd r, ra_estimated_wave_cost_microusd r) =
    _target_admission deployment.
Proof.
  intros Hn E. unfold _plan_run in E. inv_ok.
  destruct (_target_admission v0) as [[[provider concurrent] cap] estimate] eqn:Et. inv_ok. cbn.
  split_and!; [done|done|done| | |exists v, v0; by rewrite Hv, Hv0, Et].
  - rewrite map_map. cbn. rewrite map_id. by eapply chunks_concat.
  - intros s (c & -> & Hc)%elem_of_map. cbn. by eapply chunks_bounds.
Qed.

(** ** The plan *)
Record plan_parts (spec : ExperimentSpec) (lock : BenchmarkSourceLock) (policy : CampaignRecoveryPolicy)
    (p : CampaignPlan) : Type := {
  pp_spec : ExperimentSpec;
  pp_tasks : list (string * string);
  pp_cells : list RunCell;
  pp_controller : option CampaignControllerSpec * list PlannedInitialWave * option Z;
  pp_resolved : resolved_experiment spec lock = Ok pp_spec;
  pp_tasks_ok : _resolved_tasks pp_spec = Ok pp_tasks;
  pp_cells_ok : resolved_cells (spec_matrix pp_spec) = Ok pp_cells;
  pp_valid_cells : _validate_campaign_cells pp_cells (profiles_of (spec_matrix pp_spec)) = Ok tt;
  pp_runs : mapM (_plan_run pp_spec (plan_trials (source_lock_digest lock)
                   (ex_attempts (spec_execution pp_spec)) pp_tasks) (profiles_of (spec_matrix pp_spec))
                   (source_lock_digest lock)) pp_cells = Ok (plan_runs p);
  pp_controller_ok : _controller_plan (planning_settings pp_spec) (plan_runs p) = Ok pp_controller;
  pp_source_lock : plan_source_lock p = lock;
  pp_policy : plan_recovery_policy p = policy;
  pp_max_shards : plan_max_shards_per_wave p = ex_max_shards_per_wave (spec_execution pp_spec);
  pp_waves : (plan_controller_policy p, plan_initial_waves p, plan_planned_campaign_duration_seconds p) =
             pp_controller;
  pp_counts : counts_match_contents p = Ok p;
}.

Lemma counts_checks : checks counts_match_contents.
Proof. intros a b E. unfold counts_match_contents in E. by inv_ok. Qed.

Lemma build_campaign_plan_ok spec lock policy p :
  build_campaign_plan spec (Some lock) (Some policy) = Ok p -> plan_parts spec lock policy p.
Proof.
  intros E. unfold build_campaign_plan in E. cbn [result_bind] in E.
  destruct (resolved_experiment spec lock) as [r|] eqn:Er; [|discriminate E]. cbn [result_bind] in E.
  destruct (_resolved_tasks r) as [tasks|] eqn:Et; [|discriminate E]. cbn [result_bind] in E.
  destruct (resolved_cells (spec_matrix r)) as [cells|] eqn:Ec; [|discriminate E]. cbn [result_bind] in E.
  destruct (_validate_campaign_cells cells _) as [[]|] eqn:Ev; [|discriminate E]. cbn [result_bind] in E.
  destruct (mapM _ cells) as [runs|] eqn:Eruns; [|discriminate E]. cbn [result_bind] in E.
  destruct (_controller_plan _ runs) as [[[cp iw] secs]|] eqn:Ecp; [|discriminate E].
  cbn [result_bind] in E. unfold validate_CampaignPlan in E.
  match type of E with result_bind ?f _ = _ => destruct f; [|discriminate E] end. cbn [result_bind] in E.
  pose proof (counts_checks _ _ E) as Hp. rewrite <- Hp in E. subst p.
  eapply (Build_plan_parts spec lock policy _ r tasks cells (cp, iw, secs)); try done.
Qed.

(** The defaults of the keyword arguments. *)
Lemma build_campaign_plan_default spec lock policy p :
  build_campaign_plan spec lock policy = Ok p ->
  build_campaign_plan spec (Some (plan_source_lock p)) (Some (plan_recovery_policy p)) = Ok p.
Proof.
  intros E. pose proof E as E'. unfold build_campaign_plan in E'.
  destruct (match lock with Some l => Ok l | None => source_lock_from_spec spec end) as [l|] eqn:El;
    [|discriminate E'].
  assert (Hl : build_campaign_plan spec (Some l)
                 (Some (match policy with Some q => q | None => default_recovery_policy end)) = Ok p) by exact E'.
  destruct (build_campaign_plan_ok _ _ _ _ Hl) as [r tasks cells ctl Hres Htk Hce Hval Hru Hco Hsl Hpo Hms Hw Hcnt].
  by rewrite Hsl, Hpo.
Qed.

Lemma sum_z_concat l : sum_z (concat l) = sum_z (map sum_z l).
Proof. induction l as [|x l IH]; [done|]. cbn. by rewrite sum_z_app, sum_z_cons, IH. Qed.

Lemma len_concat {A} (l : list (list A)) : len (concat l) = sum_z (map len l).
Proof. induction l as [|x l IH]; [done|]. cbn. by rewrite len_app, sum_z_cons, IH. Qed.

Lemma sum_z_const l c : Forall (fun x => x = c) l -> sum_z l = len l * c.
Proof.
  induction 1 as [|x l -> _ IH]; [done|]. rewrite sum_z_cons, IH, len_cons. lia.
Qed.

Lemma resolved_tasks_ok spec tasks :
  _resolved_tasks spec = Ok tasks -> dict_wf (bm_task_digests (spec_benchmark spec)) ->
  NoDup (map fst tasks) /\ len tasks = len (bm_task_digests (spec_benchmark spec)) /\
  forall name digest, (name, digest) ∈ tasks <->
    dict_get (bm_task_digests (spec_benchmark spec)) name = Some digest.
Proof.
  unfold _resolved_tasks. intros E Hwf. inv_ok. split_and!.
  - by rewrite sort_by_perm.
  - unfold len. by rewrite sort_by_length.
  - intros name digest. rewrite sort_by_elem_of. symmetry. by apply dict_get_some_iff.
Qed.

Definition cell_of (run : PlannedRun) : RunCell :=
  {| cell_model := ra_model run; cell_deployment := ra_deployment run; cell_agent := ra_agent run |}.

Definition run_trials (run : PlannedRun) : list PlannedTrial := concat (map ps_trials (pr_shards run)).

(** The runs of a plan are planned one by one from the cells. *)
Lemma plan_runs_ok spec trials profiles ident cells runs :
  0 < ex_max_trials_per_shard (spec_execution spec) ->
  mapM (_plan_run spec trials profiles ident) cells = Ok runs ->
  map cell_of runs = cells /\ forall run, run ∈ runs ->
    run_trials run = trials /\
    (forall s, s ∈ pr_shards run ->
       ps_trials s <> [] /\ len (ps_trials s) <= ex_max_trials_per_shard (spec_execution spec)).
Proof.
  intros Hn H%mapM_Forall2. induction H as [|c r cells runs Hr _ IH].
  - split; [done|]. by intros ? ?%elem_of_nil.
  - apply plan_run_ok in Hr as (H1 & H2 & H3 & H4 & H5 & _); [|done]. destruct IH as [IH1 IH2]. split.
    + cbn. rewrite IH1. unfold cell_of. rewrite H1, H2, H3. by destruct c.
    + intros run [->|Hrun]%elem_of_cons; [by split|auto].
Qed.

Lemma plan_trial_total_runs p k :
  (forall run, run ∈ plan_runs p -> len (run_trials run) = k) -> plan_trial_total p = len (plan_runs p) * k.
Proof.
  intros H. unfold plan_trial_total. rewrite sum_z_concat, map_map.
  rewrite (sum_z_const _ k).
  - by unfold len; rewrite length_map.
  - apply Forall_forall. intros x (run & -> & Hrun)%elem_of_map.
    rewrite <- (H run Hrun). unfold run_trials. by rewrite len_concat, map_map.
Qed.

Lemma counts_ok p :
  counts_match_contents p = Ok p ->
  plan_run_count p = len (plan_runs p) /\ plan_trial_count p = plan_trial_total p.
Proof.
  unfold counts_match_contents. intros E. inv_ok.
  apply negb_false_iff in Hc2. rewrite !andb_true_iff, !Z.eqb_eq in Hc2. naive_solver.
Qed.
