(* ===== verification/Control.v ===== *)
(** Campaign events and the campaign state machine (src/src/harbor_hf/control.py).

    A campaign is an append-only set of events.  [ordered_events] removes
    duplicate deliveries and sorts; [project_campaign] folds the ordered
    events into the campaign status and the table of reserved actions.  The
    event kinds, payload classes and statuses are inductive types; the
    [kind_*] tests are the string prefixes of the source, as
    [kind_prefix_spec] shows. *)
From S2P Require Import Prelude.
From S2P Require Import PyDict.
From S2P Require Import Json.
From S2P Require Import Campaigns.

(** ** Data *)
Inductive SubjectType :=
  | subject_campaign | subject_run | subject_shard | subject_trial
  | subject_execution | subject_wave.

Inductive Producer :=
  | producer_cli | producer_reconciler | producer_wave_controller
  | producer_watchdog | producer_publisher.

Inductive RetryCategory :=
  | category_lost | category_transient | category_quota | category_rate_limit
  | category_ambiguous | category_agent | category_benchmark
  | category_configuration | category_authentication | category_cleanup
  | category_evidence.

Inductive EventKind :=
  | campaign_submitted
  | campaign_cancel_requested
  | campaign_shard_retry_requested
  | campaign_draining
  | campaign_manual_intervention_required
  | campaign_manual_intervention_resolved
  | campaign_completed
  | campaign_partial
  | campaign_failed
  | campaign_cancelled
  | run_queued | run_active | run_verifying | run_publishing | run_complete
  | run_invalid | run_failed_infrastructure | run_cancelled
  | shard_queued | shard_active | shard_verifying | shard_publishing
  | shard_complete | shard_invalid | shard_failed_infrastructure | shard_cancelled
  | trial_complete | trial_invalid | trial_failed_infrastructure | trial_cancelled
  | execution_started | execution_completed | execution_failed | execution_cancelled
  | wave_acquiring | wave_provisioning | wave_ready | wave_active
  | wave_draining | wave_cleaning | wave_closed | wave_cleanup_failed
  | spend_recorded
  | action_reserved | action_succeeded | action_failed | action_ambiguous.

Inductive ActionKind :=
  | submit_wave | retry_shard | cancel_execution | cancel_wave | drain_wave
  | cleanup_wave | exhaust_trials | publish_results | publish_summary
  | manual_intervention_action.

#[export] Instance SubjectType_eq_dec : EqDecision SubjectType.
Proof. solve_decision. Defined.
#[export] Instance Producer_eq_dec : EqDecision Producer.
Proof. solve_decision. Defined.
#[export] Instance RetryCategory_eq_dec : EqDecision RetryCategory.
Proof. solve_decision. Defined.
#[export] Instance EventKind_eq_dec : EqDecision EventKind.
Proof. solve_decision. Defined.
#[export] Instance ActionKind_eq_dec : EqDecision ActionKind.
Proof. solve_decision. Defined.

(** The literals of the source. *)
Definition subject_name (s : SubjectType) : string :=
  match s with
  | subject_campaign => "campaign" | subject_run => "run" | subject_shard => "shard"
  | subject_trial => "trial" | subject_execution => "execution" | subject_wave => "wave"
  end.

Definition producer_name (p : Producer) : string :=
  match p with
  | producer_cli => "cli" | producer_reconciler => "reconciler"
  | producer_wave_controller => "wave-controller" | producer_watchdog => "watchdog"
  | producer_publisher => "publisher"
  end.

Definition category_name (c : RetryCategory) : string :=
  match c with
  | category_lost => "lost" | category_transient => "transient"
  | category_quota => "quota" | category_rate_limit => "rate-limit"
  | category_ambiguous => "ambiguous" | category_agent => "agent"
  | category_benchmark => "benchmark" | category_configuration => "configuration"
  | category_authentication => "authentication" | category_cleanup => "cleanup"
  | category_evidence => "evidence"
  end.

Definition kind_name (k : EventKind) : string :=
  match k with
  | campaign_submitted => "campaign.submitted"
  | campaign_cancel_requested => "campaign.cancel-requested"
  | campaign_shard_retry_requested => "campaign.shard-retry-requested"
  | campaign_draining => "campaign.draining"
  | campaign_manual_intervention_required => "campaign.manual-intervention-required"
  | campaign_manual_intervention_resolved => "campaign.manual-intervention-resolved"
  | campaign_completed => "campaign.completed"
  | campaign_partial => "campaign.partial"
  | campaign_failed => "campaign.failed"
  | campaign_cancelled => "campaign.cancelled"
  | run_queued => "run.queued" | run_active => "run.active"
  | run_verifying => "run.verifying" | run_publishing => "run.publishing"
  | run_complete => "run.complete" | run_invalid => "run.invalid"
  | run_failed_infrastructure => "run.failed-infrastructure"
  | run_cancelled => "run.cancelled"
  | shard_queued => "shard.queued" | shard_active => "shard.active"
  | shard_verifying => "shard.verifying" | shard_publishing => "shard.publishing"
  | shard_complete => "shard.complete" | shard_invalid => "shard.invalid"
  | shard_failed_infrastructure => "shard.failed-infrastructure"
  | shard_cancelled => "shard.cancelled"
  | trial_complete => "trial.complete" | trial_invalid => "trial.invalid"
  | trial_failed_infrastructure => "trial.failed-infrastructure"
  | trial_cancelled => "trial.cancelled"
  | execution_started => "execution.started" | execution_completed => "execution.completed"
  | execution_failed => "execution.failed" | execution_cancelled => "execution.cancelled"
  | wave_acquiring => "wave.acquiring" | wave_provisioning => "wave.provisioning"
  | wave_ready => "wave.ready" | wave_active => "wave.active"
  | wave_draining => "wave.draining" | wave_cleaning => "wave.cleaning"
  | wave_closed => "wave.closed" | wave_cleanup_failed => "wave.cleanup-failed"
  | spend_recorded => "spend.recorded"
  | action_reserved => "action.reserved" | action_succeeded => "action.succeeded"
  | action_failed => "action.failed" | action_ambiguous => "action.ambiguous"
  end.

Definition action_kind_name (k : ActionKind) : string :=
  match k with
  | submit_wave => "submit-wave" | retry_shard => "retry-shard"
  | cancel_execution => "cancel-execution" | cancel_wave => "cancel-wave"
  | drain_wave => "drain-wave" | cleanup_wave => "cleanup-wave"
  | exhaust_trials => "exhaust-trials" | publish_results => "publish-results"
  | publish_summary => "publish-summary"
  | manual_intervention_action => "manual-intervention"
  end.

(** [kind.split(".", maxsplit=1)[0]] *)
Definition kind_prefix (k : EventKind) : string :=
  match k with
  | campaign_submitted | campaign_cancel_requested | campaign_shard_retry_requested
  | campaign_draining | campaign_manual_intervention_required
  | campaign_manual_intervention_resolved | campaign_completed | campaign_partial
  | campaign_failed | campaign_cancelled => "campaign"
  | run_queued | run_active | run_verifying | run_publishing | run_complete
  | run_invalid | run_failed_infrastructure | run_cancelled => "run"
  | shard_queued | shard_active | shard_verifying | shard_publishing
  | shard_complete | shard_invalid | shard_failed_infrastructure | shard_cancelled => "shard"
  | trial_complete | trial_invalid | trial_failed_infrastructure | trial_cancelled => "trial"
  | execution_started | execution_completed | execution_failed | execution_cancelled => "execution"
  | wave_acquiring | wave_provisioning | wave_ready | wave_active
  | wave_draining | wave_cleaning | wave_closed | wave_cleanup_failed => "wave"
  | spend_recorded => "spend"
  | action_reserved | action_succeeded | action_failed | action_ambiguous => "action"
  end.

(** [kind.startswith(prefix + ".")] *)
Definition kind_startswith (prefix : string) (k : EventKind) : bool :=
  String.eqb (kind_prefix k) prefix.

Lemma kind_prefix_spec prefix k :
  prefix ∈ ["campaign"; "run"; "shard"; "trial"; "execution"; "wave"; "spend"; "action"] ->
  kind_startswith prefix k = str_startswith (prefix +:+ ".") (kind_name k).
Proof.
  intros H. repeat (apply elem_of_cons in H as [->|H]; [by destruct k|]).
  by apply elem_of_nil in H.
Qed.

Record CampaignSubmittedPayload := { csp_plan_digest : string }.
Record CancellationPayload := { cp_reason : string }.
Record ShardRetryPayload := {
  sr_shard_id : string;
  sr_reason : string;
  sr_trial_generations : dict Z;
}.
Record TerminalPayload := {
  tp_summary_path : option string;
  tp_summary_sha256 : option string;
  tp_message : option string;
}.
Record LifecyclePayload := {
  lp_parent_id : option string;
  lp_message : option string;
}.
Record ManualInterventionResolutionPayload := {
  mr_wave_ids : list string;
  mr_message : option string;
}.
Record WaveLifecyclePayload := {
  wl_deployment_digest : string;
  wl_provider : string;
  wl_shard_ids : list string;
  wl_estimated_cost_microusd : Z;
}.
Record ExecutionStartedPayload := {
  es_trial_id : string;
  es_shard_id : string;
  es_physical_attempt : Z;
  es_wave_id : option string;
  es_estimated_cost_microusd : Z;
}.
Record ExecutionOutcomePayload := {
  eo_trial_id : string;
  eo_physical_attempt : Z;
  eo_category : option RetryCategory;
  eo_spend_microusd : Z;
  eo_retry_after_seconds : option Z;
  eo_message : option string;
}.
Record SpendRecordedPayload := {
  sp_amount_microusd : Z;
  sp_source_execution_id : option string;
}.
Record ActionReservedPayload := {
  ar_action_id : string;
  ar_action_key : string;
  ar_action_kind : ActionKind;
  ar_target_ids : list string;
}.
Record ActionOutcomePayload := {
  ao_action_id : string;
  ao_message : option string;
  ao_remote_id : option string;
}.

#[export] Instance CampaignSubmittedPayload_eq_dec : EqDecision CampaignSubmittedPayload.
Proof. solve_decision. Defined.
#[export] Instance CancellationPayload_eq_dec : EqDecision CancellationPayload.
Proof. solve_decision. Defined.
#[export] Instance ShardRetryPayload_eq_dec : EqDecision ShardRetryPayload.
Proof. solve_decision. Defined.
#[export] Instance TerminalPayload_eq_dec : EqDecision TerminalPayload.
Proof. solve_decision. Defined.
#[export] Instance LifecyclePayload_eq_dec : EqDecision LifecyclePayload.
Proof. solve_decision. Defined.
#[export] Instance ManualInterventionResolutionPayload_eq_dec : EqDecision ManualInterventionResolutionPayload.
Proof. solve_decision. Defined.
#[export] Instance WaveLifecyclePayload_eq_dec : EqDecision WaveLifecyclePayload.
Proof. solve_decision. Defined.
#[export] Instance ExecutionStartedPayload_eq_dec : EqDecision ExecutionStartedPayload.
Proof. solve_decision. Defined.
#[export] Instance ExecutionOutcomePayload_eq_dec : EqDecision ExecutionOutcomePayload.
Proof. solve_decision. Defined.
#[export] Instance SpendRecordedPayload_eq_dec : EqDecision SpendRecordedPayload.
Proof. solve_decision. Defined.
#[export] Instance ActionReservedPayload_eq_dec : EqDecision ActionReservedPayload.
Proof. solve_decision. Defined.
#[export] Instance ActionOutcomePayload_eq_dec : EqDecision ActionOutcomePayload.
Proof. solve_decision. Defined.

Inductive EventPayload :=
  | payload_submitted (p : CampaignSubmittedPayload)
  | payload_cancellation (p : CancellationPayload)
  | payload_shard_retry (p : ShardRetryPayload)
  | payload_terminal (p : TerminalPayload)
  | payload_lifecycle (p : LifecyclePayload)
  | payload_resolution (p : ManualInterventionResolutionPayload)
  | payload_wave (p : WaveLifecyclePayload)
  | payload_execution_started (p : ExecutionStartedPayload)
  | payload_execution_outcome (p : ExecutionOutcomePayload)
  | payload_spend (p : SpendRecordedPayload)
  | payload_action_reserved (p : ActionReservedPayload)
  | payload_action_outcome (p : ActionOutcomePayload).

#[export] Instance EventPayload_eq_dec : EqDecision EventPayload.
Proof. solve_decision. Defined.

Record CampaignEvent := {
  event_id : string;
  subject_type : SubjectType;
  subject_id : string;
  kind : EventKind;
  observed_at : Z;
  producer : Producer;
  payload : EventPayload;
}.

#[export] Instance CampaignEvent_eq_dec : EqDecision CampaignEvent.
Proof. solve_decision. Defined.

(** The payload classes. *)
Inductive PayloadType :=
  | CampaignSubmittedPayload_t | CancellationPayload_t | ShardRetryPayload_t
  | TerminalPayload_t | LifecyclePayload_t | ManualInterventionResolutionPayload_t
  | WaveLifecyclePayload_t | ExecutionStartedPayload_t | ExecutionOutcomePayload_t
  | SpendRecordedPayload_t | ActionReservedPayload_t | ActionOutcomePayload_t.

#[export] Instance PayloadType_eq_dec : EqDecision PayloadType.
Proof. solve_decision. Defined.

Definition type_of_payload (p : EventPayload) : PayloadType :=
  match p with
  | payload_submitted _ => CampaignSubmittedPayload_t
  | payload_cancellation _ => CancellationPayload_t
  | payload_shard_retry _ => ShardRetryPayload_t
  | payload_terminal _ => TerminalPayload_t
  | payload_lifecycle _ => LifecyclePayload_t
  | payload_resolution _ => ManualInterventionResolutionPayload_t
  | payload_wave _ => WaveLifecyclePayload_t
  | payload_execution_started _ => ExecutionStartedPayload_t
  | payload_execution_outcome _ => ExecutionOutcomePayload_t
  | payload_spend _ => SpendRecordedPayload_t
  | payload_action_reserved _ => ActionReservedPayload_t
  | payload_action_outcome _ => ActionOutcomePayload_t
  end.

(** [_EXACT_PAYLOAD_TYPES] *)
Definition exact_payload_type (k : EventKind) : option PayloadType :=
  match k with
  | campaign_submitted => Some CampaignSubmittedPayload_t
  | campaign_cancel_requested => Some CancellationPayload_t
  | campaign_shard_retry_requested => Some ShardRetryPayload_t
  | campaign_manual_intervention_resolved => Some ManualInterventionResolutionPayload_t
  | execution_started => Some ExecutionStartedPayload_t
  | spend_recorded => Some SpendRecordedPayload_t
  | action_reserved => Some ActionReservedPayload_t
  | _ => None
  end.

Definition is_campaign_terminal_kind (k : EventKind) : bool :=
  match k with
  | campaign_completed | campaign_partial | campaign_failed | campaign_cancelled => true
  | _ => false
  end.

Definition is_execution_outcome_kind (k : EventKind) : bool :=
  match k with
  | execution_completed | execution_failed | execution_cancelled => true
  | _ => false
  end.

(** [_payload_type] *)
Definition _payload_type (k : EventKind) : PayloadType :=
  match exact_payload_type k with
  | Some exact => exact
  | None =>
      if is_campaign_terminal_kind k then TerminalPayload_t
      else if is_execution_outcome_kind k then ExecutionOutcomePayload_t
      else if kind_startswith "wave" k then WaveLifecyclePayload_t
      else if kind_startswith "action" k then ActionOutcomePayload_t
      else LifecyclePayload_t
  end.

(** [payload_matches_kind] *)
Definition payload_matches_kind (e : CampaignEvent) : bool :=
  bool_decide (type_of_payload (payload e) = _payload_type (kind e)) &&
  (if str_mem (kind_prefix (kind e)) ["campaign"; "run"; "shard"; "trial"; "execution"; "wave"]
   then String.eqb (subject_name (subject_type e)) (kind_prefix (kind e))
   else negb (kind_startswith "action" (kind e) &&
              negb (bool_decide (subject_type e = subject_campaign)))).

(** The field constraints of the payload classes. *)
Definition payload_fields_valid (p : EventPayload) : bool :=
  match p with
  | payload_cancellation p => negb (String.eqb (cp_reason p) "")
  | payload_shard_retry p => negb (String.eqb (sr_shard_id p) "") && negb (String.eqb (sr_reason p) "")
  | payload_resolution p => negb (is_nil (mr_wave_ids p))
  | payload_wave p => negb (String.eqb (wl_provider p) "") && (0 <=? wl_estimated_cost_microusd p)
  | payload_execution_started p =>
      (1 <=? es_physical_attempt p) && (0 <=? es_estimated_cost_microusd p)
  | payload_execution_outcome p =>
      (1 <=? eo_physical_attempt p) && (0 <=? eo_spend_microusd p) &&
      opt_ge 0 (eo_retry_after_seconds p)
  | payload_spend p => 0 <=? sp_amount_microusd p
  | _ => true
  end.

(** A [CampaignEvent] that Pydantic accepts. *)
Definition event_valid (e : CampaignEvent) : bool :=
  str_startswith "evt-" (event_id e) && hex_fullmatch 32 (str_removeprefix "evt-" (event_id e)) &&
  negb (String.eqb (subject_id e) "") && payload_fields_valid (payload e) &&
  payload_matches_kind e.

(** [new_event]; [now] and [identifier] are what the clock and the factory return. *)
Definition new_event (st : SubjectType) (sid : string) (k : EventKind) (prod : Producer)
    (p : EventPayload) (now : Z) (identifier : string) : result CampaignEvent :=
  let e := {|
    event_id := "evt-" +:+ identifier;
    subject_type := st;
    subject_id := sid;
    kind := k;
    observed_at := now;
    producer := prod;
    payload := p;
  |} in
  raise_if negb (event_valid e) with ValidationError "CampaignEvent";;
  Ok e.

(** ** Projections *)
Inductive ActionStatus := status_reserved | status_succeeded | status_failed | status_ambiguous.

Inductive CampaignStatus :=
  | campaign_status_queued
  | campaign_status_active
  | campaign_status_cancel_requested
  | campaign_status_draining
  | campaign_status_manual_intervention
  | campaign_status_completed
  | campaign_status_partial
  | campaign_status_failed
  | campaign_status_cancelled.

#[export] Instance ActionStatus_eq_dec : EqDecision ActionStatus.
Proof. solve_decision. Defined.
#[export] Instance CampaignStatus_eq_dec : EqDecision CampaignStatus.
Proof. solve_decision. Defined.

Definition action_status_name (s : ActionStatus) : string :=
  match s with
  | status_reserved => "reserved" | status_succeeded => "succeeded"
  | status_failed => "failed" | status_ambiguous => "ambiguous"
  end.

Definition campaign_status_name (s : CampaignStatus) : string :=
  match s with
  | campaign_status_queued => "queued"
  | campaign_status_active => "active"
  | campaign_status_cancel_requested => "cancel_requested"
  | campaign_status_draining => "draining"
  | campaign_status_manual_intervention => "manual_intervention"
  | campaign_status_completed => "completed"
  | campaign_status_partial => "partial"
  | campaign_status_failed => "failed"
  | campaign_status_cancelled => "cancelled"
  end.

Record ActionProjection := {
  ap_action_id : string;
  ap_action_key : string;
  ap_action_kind : ActionKind;
  ap_target_ids : list string;
  ap_status : ActionStatus;
  ap_remote_id : option string;
  ap_message : option string;
}.

Record CampaignProjection := {
  proj_campaign_id : string;
  proj_plan_digest : string;
  proj_status : CampaignStatus;
  proj_event_count : Z;
  proj_last_observed_at : Z;
  proj_actions : dict ActionProjection;
}.

Definition campaign_status_is_terminal (s : CampaignStatus) : bool :=
  match s with
  | campaign_status_completed | campaign_status_partial
  | campaign_status_failed | campaign_status_cancelled => true
  | _ => false
  end.

(** The key [(event.observed_at, event.event_id)]. *)
Definition event_leb (x y : CampaignEvent) : bool :=
  lex_leb Z.eqb Z.leb str_leb (observed_at x, event_id x) (observed_at y, event_id y).

(** One iteration of the loop of [ordered_events]. *)
Definition add_unique_event (unique : dict CampaignEvent) (event : CampaignEvent)
    : result (dict CampaignEvent) :=
  match dict_get unique (event_id event) with
  | Some previous =>
      raise_if negb (bool_decide (previous = event))
        with ControlError "event ID has conflicting records";;
      Ok (dict_set unique (event_id event) event)
  | None => Ok (dict_set unique (event_id event) event)
  end.

(** [ordered_events] *)
Definition ordered_events (events : list CampaignEvent) : result (list CampaignEvent) :=
  let* unique := foldM add_unique_event [] events in
  Ok (sort_by event_leb (dict_values unique)).

(** [_update_manual_requirements]; the set keeps its elements without repetition. *)
Definition set_add (x : string) (s : list string) : list string :=
  if str_mem x s then s else x :: s.
Definition set_difference (s t : list string) : list string :=
  List.filter (fun x => negb (str_mem x t)) s.

Definition _update_manual_requirements (event : CampaignEvent) (requirements : list string)
    : result (list string) :=
  match kind event with
  | campaign_manual_intervention_required =>
      match payload event with
      | payload_lifecycle p => Ok (set_add (opt_str_or (lp_parent_id p) (event_id event)) requirements)
      | _ => Err AttributeError
      end
  | campaign_manual_intervention_resolved =>
      match payload event with
      | payload_resolution p => Ok (set_difference requirements (mr_wave_ids p))
      | _ => Err AttributeError
      end
  | _ => Ok requirements
  end.

(** [_manual_intervention_fully_resolved] *)
Definition _manual_intervention_fully_resolved (event : CampaignEvent)
    (requirements : list string) : bool :=
  bool_decide (kind event = campaign_manual_intervention_resolved) && is_nil requirements.

(** [_manual_return_status] *)
Definition _manual_return_status (event : CampaignEvent) (status : CampaignStatus)
    (previous : option CampaignStatus) : option CampaignStatus :=
  if bool_decide (kind event = campaign_manual_intervention_required) &&
     negb (bool_decide (status = campaign_status_manual_intervention))
  then Some status
  else if bool_decide (kind event = campaign_cancel_requested) &&
          bool_decide (status = campaign_status_manual_intervention) &&
          negb (bool_decide (previous = Some campaign_status_draining))
  then Some campaign_status_cancel_requested
  else if bool_decide (kind event = campaign_draining) &&
          bool_decide (status = campaign_status_manual_intervention)
  then Some campaign_status_draining
  else previous.

(** [_apply_operator_request] *)
Definition _apply_operator_request (event : CampaignEvent) (status : CampaignStatus)
    : CampaignStatus :=
  if bool_decide (kind event = campaign_shard_retry_requested)
  then if bool_decide (status = campaign_status_queued) then campaign_status_active else status
  else if bool_decide (status = campaign_status_draining) ||
          bool_decide (status = campaign_status_manual_intervention)
  then status
  else campaign_status_cancel_requested.

(** [_resolve_manual_intervention] *)
Definition _resolve_manual_intervention (status : CampaignStatus)
    (previous : option CampaignStatus) : result CampaignStatus :=
  raise_if negb (bool_decide (status = campaign_status_manual_intervention))
    with ControlError "manual intervention can only be resolved while required";;
  match previous with
  | Some campaign_status_cancel_requested => Ok campaign_status_cancel_requested
  | Some campaign_status_draining => Ok campaign_status_draining
  | _ => Ok campaign_status_active
  end.

(** [_apply_manual_lifecycle_event] *)
Definition _apply_manual_lifecycle_event (event : CampaignEvent) (status : CampaignStatus)
    (previous : option CampaignStatus) (manual_intervention_remaining : bool)
    : result CampaignStatus :=
  if bool_decide (kind event = campaign_draining)
  then Ok (if bool_decide (status = campaign_status_manual_intervention)
           then campaign_status_manual_intervention else campaign_status_draining)
  else if bool_decide (kind event = campaign_manual_intervention_required)
  then Ok campaign_status_manual_intervention
  else if manual_intervention_remaining then Ok campaign_status_manual_intervention
  else _resolve_manual_intervention status previous.

(** [kind.removeprefix("action.")] *)
Definition action_outcome_of_kind (k : EventKind) : option ActionStatus :=
  match k with
  | action_succeeded => Some status_succeeded
  | action_failed => Some status_failed
  | action_ambiguous => Some status_ambiguous
  | _ => None
  end.

(** [_apply_action_event]; [AttributeError] is what Python raises when the
    payload is not of the class the kind announces. *)
Definition _apply_action_event (event : CampaignEvent) (actions : dict ActionProjection)
    : result (dict ActionProjection) :=
  if bool_decide (kind event = action_reserved) then
    match payload event with
    | payload_action_reserved p =>
        raise_if dict_has actions (ar_action_id p)
          with ControlError "action was reserved more than once";;
        Ok (dict_set actions (ar_action_id p) {|
          ap_action_id := ar_action_id p;
          ap_action_key := ar_action_key p;
          ap_action_kind := ar_action_kind p;
          ap_target_ids := ar_target_ids p;
          ap_status := status_reserved;
          ap_remote_id := None;
          ap_message := None;
        |})
    | _ => Err AttributeError
    end
  else
    match payload event, action_outcome_of_kind (kind event) with
    | payload_action_outcome p, Some outcome =>
        match dict_get actions (ao_action_id p) with
        | None => Err (ControlError "action outcome has no reservation")
        | Some action =>
            raise_if negb (bool_decide (ap_status action = status_reserved) ||
                           bool_decide (ap_status action = status_ambiguous))
              with ControlError "action has multiple outcomes";;
            if bool_decide (ap_status action = status_ambiguous) &&
               bool_decide (outcome = status_ambiguous)
            then
              raise_if is_some (ap_remote_id action) && is_some (ao_remote_id p) &&
                       negb (bool_decide (ap_remote_id action = ao_remote_id p))
                with ControlError "ambiguous action changed remote identity";;
              Ok (dict_set actions (ao_action_id p) {|
                ap_action_id := ap_action_id action;
                ap_action_key := ap_action_key action;
                ap_action_kind := ap_action_kind action;
                ap_target_ids := ap_target_ids action;
                ap_status := ap_status action;
                ap_remote_id := if is_some (ao_remote_id p) then ao_remote_id p
                                else ap_remote_id action;
                ap_message := ao_message p;
              |})
            else
              Ok (dict_set actions (ao_action_id p) {|
                ap_action_id := ap_action_id action;
                ap_action_key := ap_action_key action;
                ap_action_kind := ap_action_kind action;
                ap_target_ids := ap_target_ids action;
                ap_status := outcome;
                ap_remote_id := ao_remote_id p;
                ap_message := ao_message p;
              |})
        end
    | _, _ => Err AttributeError
    end.

(** [kind.removeprefix("campaign.")] of the four terminal kinds. *)
Definition campaign_status_of_kind (k : EventKind) : option CampaignStatus :=
  match k with
  | campaign_completed => Some campaign_status_completed
  | campaign_partial => Some campaign_status_partial
  | campaign_failed => Some campaign_status_failed
  | campaign_cancelled => Some campaign_status_cancelled
  | _ => None
  end.

(** [_apply_event]: the new status and action table. *)
Definition _apply_event (lock : CampaignLock) (event : CampaignEvent) (status : CampaignStatus)
    (actions : dict ActionProjection) (status_before_manual_intervention : option CampaignStatus)
    (manual_intervention_remaining : bool)
    : result (CampaignStatus * dict ActionProjection) :=
  raise_if negb (bool_decide (subject_type event = subject_campaign)) ||
           negb (String.eqb (subject_id event) (campaign_id lock))
    with ControlError "campaign event has the wrong subject";;
  match kind event with
  | campaign_submitted => Err (ControlError "campaign has multiple submission events")
  | campaign_cancel_requested | campaign_shard_retry_requested =>
      Ok (_apply_operator_request event status, actions)
  | campaign_draining | campaign_manual_intervention_required
  | campaign_manual_intervention_resolved =>
      let* status' := _apply_manual_lifecycle_event event status
                        status_before_manual_intervention manual_intervention_remaining in
      Ok (status', actions)
  | k =>
      match campaign_status_of_kind k with
      | Some status' => Ok (status', actions)
      | None =>
          let* actions' := _apply_action_event event actions in
          Ok (if bool_decide (status = campaign_status_queued)
              then campaign_status_active else status, actions')
      end
  end.

(** The loop variables of [project_campaign]. *)
Record campaign_loop := {
  loop_status : CampaignStatus;
  loop_before_manual : option CampaignStatus;
  loop_requirements : list string;
  loop_actions : dict ActionProjection;
}.

Definition campaign_loop_init : campaign_loop := {|
  loop_status := campaign_status_queued;
  loop_before_manual := None;
  loop_requirements := [];
  loop_actions := [];
|}.

(** The body of the loop of [project_campaign]. *)
Definition campaign_loop_step (lock : CampaignLock) (st : campaign_loop) (event : CampaignEvent)
    : result campaign_loop :=
  raise_if campaign_status_is_terminal (loop_status st)
    with ControlError "campaign has events after a terminal transition";;
  if negb (bool_decide (subject_type event = subject_campaign)) then Ok st
  else
    let before := _manual_return_status event (loop_status st) (loop_before_manual st) in
    let* requirements := _update_manual_requirements event (loop_requirements st) in
    let* '(status, actions) := _apply_event lock event (loop_status st) (loop_actions st)
                                 before (negb (is_nil requirements)) in
    Ok {|
      loop_status := status;
      loop_before_manual :=
        if _manual_intervention_fully_resolved event requirements then None else before;
      loop_requirements := requirements;
      loop_actions := actions;
    |}.

(** The test [project_campaign] makes on the first event. *)
Definition submission_matches (lock : CampaignLock) (first : CampaignEvent) : bool :=
  bool_decide (kind first = campaign_submitted) &&
  bool_decide (subject_type first = subject_campaign) &&
  String.eqb (subject_id first) (campaign_id lock) &&
  match payload first with
  | payload_submitted p => String.eqb (csp_plan_digest p) (plan_digest lock)
  | _ => false
  end.

(** [project_campaign] *)
Definition project_campaign (lock : CampaignLock) (events : list CampaignEvent)
    : result CampaignProjection :=
  let* ordered := ordered_events events in
  match ordered with
  | [] => Err (ControlError "campaign has no submission event")
  | first :: rest =>
      raise_if negb (submission_matches lock first)
        with ControlError "campaign submission event does not match its lock";;
      let* st := foldM (campaign_loop_step lock) campaign_loop_init rest in
      Ok {|
        proj_campaign_id := campaign_id lock;
        proj_plan_digest := plan_digest lock;
        proj_status := loop_status st;
        proj_event_count := len ordered;
        proj_last_observed_at := observed_at (List.last ordered first);
        proj_actions := loop_actions st;
      |}
  end.
