(* ===== verification/Recovery.v ===== *)
(** Recovery projection (src/src/harbor_hf/recovery.py).

    Folds the ordered events of a campaign into the state of its runs, shards,
    logical trials, physical executions and waves, derives the status of every
    trial from its executions, aggregates shards and runs, and decides when the
    campaign has terminated. *)
From S2P Require Import Prelude.
From S2P Require Import PyDict.
From S2P Require Import Sha256.
From S2P Require Import Json.
From S2P Require Import Campaigns.
From S2P Require Import Control.

(** ** Statuses *)
Inductive RunStatus :=
  | run_s_planned | run_s_queued | run_s_active | run_s_verifying | run_s_publishing
  | run_s_complete | run_s_invalid | run_s_failed_infrastructure | run_s_cancelled.

Inductive ShardStatus :=
  | shard_s_planned | shard_s_queued | shard_s_active | shard_s_verifying
  | shard_s_publishing | shard_s_retry_wait | shard_s_complete | shard_s_invalid
  | shard_s_failed_infrastructure | shard_s_cancelled.

Inductive TrialStatus :=
  | trial_s_planned | trial_s_active | trial_s_retry_wait | trial_s_complete
  | trial_s_invalid | trial_s_failed_infrastructure | trial_s_cancelled.

Inductive TaskOutcome :=
  | outcome_scored | outcome_agent_failed | outcome_benchmark_failed
  | outcome_infrastructure_exhausted.

Inductive ExecutionStatus :=
  | exec_s_active | exec_s_completed | exec_s_failed | exec_s_cancelled.

Inductive WaveStatus :=
  | wave_s_acquiring | wave_s_provisioning | wave_s_ready | wave_s_active
  | wave_s_draining | wave_s_cleaning | wave_s_closed | wave_s_cleanup_failed.

Inductive TerminalStatus :=
  | terminal_completed | terminal_partial | terminal_failed | terminal_cancelled.

#[export] Instance RunStatus_eq_dec : EqDecision RunStatus.
Proof. solve_decision. Defined.
#[export] Instance ShardStatus_eq_dec : EqDecision ShardStatus.
Proof. solve_decision. Defined.
#[export] Instance TrialStatus_eq_dec : EqDecision TrialStatus.
Proof. solve_decision. Defined.
#[export] Instance TaskOutcome_eq_dec : EqDecision TaskOutcome.
Proof. solve_decision. Defined.
#[export] Instance ExecutionStatus_eq_dec : EqDecision ExecutionStatus.
Proof. solve_decision. Defined.
#[export] Instance WaveStatus_eq_dec : EqDecision WaveStatus.
Proof. solve_decision. Defined.
#[export] Instance TerminalStatus_eq_dec : EqDecision TerminalStatus.
Proof. solve_decision. Defined.

(** The three status types share the literals the aggregation tests. *)
Class StatusName (A : Type) := status_name : A -> string.

#[export] Instance run_status_name : StatusName RunStatus := fun s =>
  match s with
  | run_s_planned => "planned" | run_s_queued => "queued" | run_s_active => "active"
  | run_s_verifying => "verifying" | run_s_publishing => "publishing"
  | run_s_complete => "complete" | run_s_invalid => "invalid"
  | run_s_failed_infrastructure => "failed_infrastructure" | run_s_cancelled => "cancelled"
  end.

#[export] Instance shard_status_name : StatusName ShardStatus := fun s =>
  match s with
  | shard_s_planned => "planned" | shard_s_queued => "queued" | shard_s_active => "active"
  | shard_s_verifying => "verifying" | shard_s_publishing => "publishing"
  | shard_s_retry_wait => "retry_wait" | shard_s_complete => "complete"
  | shard_s_invalid => "invalid"
  | shard_s_failed_infrastructure => "failed_infrastructure"
  | shard_s_cancelled => "cancelled"
  end.

#[export] Instance trial_status_name : StatusName TrialStatus := fun s =>
  match s with
  | trial_s_planned => "planned" | trial_s_active => "active"
  | trial_s_retry_wait => "retry_wait" | trial_s_complete => "complete"
  | trial_s_invalid => "invalid"
  | trial_s_failed_infrastructure => "failed_infrastructure"
  | trial_s_cancelled => "cancelled"
  end.

(** [_TERMINAL_STATUSES] and [_SCORED_TERMINAL_STATUSES] *)
Definition _TERMINAL_STATUSES : list string :=
  ["complete"; "invalid"; "failed_infrastructure"; "cancelled"].
Definition _SCORED_TERMINAL_STATUSES : list string :=
  ["complete"; "invalid"; "failed_infrastructure"].

Definition is_terminal `{StatusName A} (s : A) : bool := str_mem (status_name s) _TERMINAL_STATUSES.
Definition is_scored `{StatusName A} (s : A) : bool :=
  str_mem (status_name s) _SCORED_TERMINAL_STATUSES.
Definition is_named `{StatusName A} (name : string) (s : A) : bool :=
  String.eqb (status_name s) name.

(** [_RETRYABLE_CATEGORIES] *)
Definition is_retryable_category (c : RetryCategory) : bool :=
  match c with
  | category_lost | category_transient | category_quota | category_rate_limit
  | category_ambiguous | category_evidence => true
  | _ => false
  end.

(** ** Projections *)
Record ExecutionProjection := {
  ep_execution_id : string;
  ep_trial_id : string;
  ep_shard_id : string;
  ep_wave_id : option string;
  ep_physical_attempt : Z;
  ep_status : ExecutionStatus;
  ep_category : option RetryCategory;
  ep_observed_at : Z;
  ep_retry_after_seconds : option Z;
  ep_estimated_cost_microusd : Z;
  ep_spend_microusd : Z;
  ep_message : option string;
}.

Record TrialProjection := {
  tr_trial_id : string;
  tr_shard_id : string;
  tr_logical_attempt : Z;
  tr_status : TrialStatus;
  tr_executions : dict ExecutionProjection;
  tr_retry_not_before : option Z;
  tr_outcome : option TaskOutcome;
}.

Record ShardProjection := {
  sh_shard_id : string;
  sh_run_id : string;
  sh_status : ShardStatus;
  sh_trial_ids : list string;
  sh_observed_status : option ShardStatus;
}.

Record RunProjection := {
  rn_run_id : string;
  rn_deployment_digest : string;
  rn_status : RunStatus;
  rn_shard_ids : list string;
  rn_observed_status : option RunStatus;
}.

Record WaveProjection := {
  wv_wave_id : string;
  wv_deployment_digest : string;
  wv_provider : string;
  wv_shard_ids : list string;
  wv_estimated_cost_microusd : Z;
  wv_status : WaveStatus;
}.

Record ProjectionCounts := {
  pc_planned : Z;
  pc_active : Z;
  pc_retrying : Z;
  pc_complete : Z;
  pc_invalid : Z;
  pc_failed : Z;
  pc_cancelled : Z;
  pc_physical_retries : Z;
}.

Record TerminalDecision := {
  td_status : TerminalStatus;
  td_marker : string;
  td_summary_path : string;
  td_marker_path : string;
  td_reason : string;
  td_counts : ProjectionCounts;
}.

Record RecoveryProjection := {
  rp_campaign : CampaignProjection;
  rp_runs : dict RunProjection;
  rp_shards : dict ShardProjection;
  rp_trials : dict TrialProjection;
  rp_executions : dict ExecutionProjection;
  rp_waves : dict WaveProjection;
  rp_spend_microusd : Z;
  rp_counts : ProjectionCounts;
  rp_cancel_requested_at : option Z;
  rp_terminal_decision : option TerminalDecision;
}.

(** [model_copy(update=...)] of the frozen models. *)
Definition run_with_observed (r : RunProjection) (s : RunStatus) : RunProjection := {|
  rn_run_id := rn_run_id r; rn_deployment_digest := rn_deployment_digest r;
  rn_status := rn_status r; rn_shard_ids := rn_shard_ids r; rn_observed_status := Some s |}.
Definition run_with_status (r : RunProjection) (s : RunStatus) : RunProjection := {|
  rn_run_id := rn_run_id r; rn_deployment_digest := rn_deployment_digest r;
  rn_status := s; rn_shard_ids := rn_shard_ids r;
  rn_observed_status := rn_observed_status r |}.
Definition shard_with_observed (s : ShardProjection) (st : ShardStatus) : ShardProjection := {|
  sh_shard_id := sh_shard_id s; sh_run_id := sh_run_id s; sh_status := sh_status s;
  sh_trial_ids := sh_trial_ids s; sh_observed_status := Some st |}.
Definition shard_with_status (s : ShardProjection) (st : ShardStatus) : ShardProjection := {|
  sh_shard_id := sh_shard_id s; sh_run_id := sh_run_id s; sh_status := st;
  sh_trial_ids := sh_trial_ids s; sh_observed_status := sh_observed_status s |}.
Definition trial_with (t : TrialProjection) (st : TrialStatus)
    (execs : dict ExecutionProjection) (retry_at : option Z) (o : option TaskOutcome)
    : TrialProjection := {|
  tr_trial_id := tr_trial_id t; tr_shard_id := tr_shard_id t;
  tr_logical_attempt := tr_logical_attempt t; tr_status := st; tr_executions := execs;
  tr_retry_not_before := retry_at; tr_outcome := o |}.
Definition wave_with_status (w : WaveProjection) (st : WaveStatus) : WaveProjection := {|
  wv_wave_id := wv_wave_id w; wv_deployment_digest := wv_deployment_digest w;
  wv_provider := wv_provider w; wv_shard_ids := wv_shard_ids w;
  wv_estimated_cost_microusd := wv_estimated_cost_microusd w; wv_status := st |}.
Definition campaign_with_status (c : CampaignProjection) (st : CampaignStatus)
    : CampaignProjection := {|
  proj_campaign_id := proj_campaign_id c; proj_plan_digest := proj_plan_digest c;
  proj_status := st; proj_event_count := proj_event_count c;
  proj_last_observed_at := proj_last_observed_at c; proj_actions := proj_actions c |}.

(** The dictionaries [project_recovery] threads through the events. *)
Record recovery_state := {
  rs_runs : dict RunProjection;
  rs_shards : dict ShardProjection;
  rs_trials : dict TrialProjection;
  rs_executions : dict ExecutionProjection;
  rs_waves : dict WaveProjection;
}.

(** [_initial_projections] *)
Definition initial_trial (shard_id : string) (trial : CampaignTrialLock) : TrialProjection := {|
  tr_trial_id := tl_trial_id trial; tr_shard_id := shard_id;
  tr_logical_attempt := tl_logical_attempt trial; tr_status := trial_s_planned;
  tr_executions := []; tr_retry_not_before := None; tr_outcome := None |}.

Definition initial_shard (run_id : string) (shard : CampaignShardLock) : ShardProjection := {|
  sh_shard_id := sl_shard_id shard; sh_run_id := run_id; sh_status := shard_s_planned;
  sh_trial_ids := map tl_trial_id (sl_trials shard); sh_observed_status := None |}.

Definition initial_run (run : CampaignRunLock) : RunProjection := {|
  rn_run_id := rl_run_id run; rn_deployment_digest := ra_deployment_digest run;
  rn_status := run_s_planned; rn_shard_ids := map sl_shard_id (rl_shards run);
  rn_observed_status := None |}.

Definition _initial_projections (lock : CampaignLock)
    : dict RunProjection * dict ShardProjection * dict TrialProjection :=
  (dict_of (map (fun run => (rl_run_id run, initial_run run)) (runs lock)),
   dict_of (concat (map (fun run =>
     map (fun shard => (sl_shard_id shard, initial_shard (rl_run_id run) shard))
       (rl_shards run)) (runs lock))),
   dict_of (concat (map (fun run => concat (map (fun shard =>
     map (fun trial => (tl_trial_id trial, initial_trial (sl_shard_id shard) trial))
       (sl_trials shard)) (rl_shards run))) (runs lock)))).

Definition initial_state (lock : CampaignLock) : recovery_state :=
  let '(runs, shards, trials) := _initial_projections lock in {|
  rs_runs := runs; rs_shards := shards; rs_trials := trials;
  rs_executions := []; rs_waves := [] |}.

(** [kind.removeprefix("run.").replace("-", "_")] and its siblings. *)
Definition run_status_of_kind (k : EventKind) : option RunStatus :=
  match k with
  | run_queued => Some run_s_queued | run_active => Some run_s_active
  | run_verifying => Some run_s_verifying | run_publishing => Some run_s_publishing
  | run_complete => Some run_s_complete | run_invalid => Some run_s_invalid
  | run_failed_infrastructure => Some run_s_failed_infrastructure
  | run_cancelled => Some run_s_cancelled | _ => None
  end.
Definition shard_status_of_kind (k : EventKind) : option ShardStatus :=
  match k with
  | shard_queued => Some shard_s_queued | shard_active => Some shard_s_active
  | shard_verifying => Some shard_s_verifying | shard_publishing => Some shard_s_publishing
  | shard_complete => Some shard_s_complete | shard_invalid => Some shard_s_invalid
  | shard_failed_infrastructure => Some shard_s_failed_infrastructure
  | shard_cancelled => Some shard_s_cancelled | _ => None
  end.
Definition trial_status_of_kind (k : EventKind) : option TrialStatus :=
  match k with
  | trial_complete => Some trial_s_complete | trial_invalid => Some trial_s_invalid
  | trial_failed_infrastructure => Some trial_s_failed_infrastructure
  | trial_cancelled => Some trial_s_cancelled | _ => None
  end.
Definition execution_status_of_kind (k : EventKind) : option ExecutionStatus :=
  match k with
  | execution_completed => Some exec_s_completed | execution_failed => Some exec_s_failed
  | execution_cancelled => Some exec_s_cancelled | _ => None
  end.
Definition wave_status_of_kind (k : EventKind) : option WaveStatus :=
  match k with
  | wave_acquiring => Some wave_s_acquiring | wave_provisioning => Some wave_s_provisioning
  | wave_ready => Some wave_s_ready | wave_active => Some wave_s_active
  | wave_draining => Some wave_s_draining | wave_cleaning => Some wave_s_cleaning
  | wave_closed => Some wave_s_closed | wave_cleanup_failed => Some wave_s_cleanup_failed
  | _ => None
  end.

(** The literals agree with the string manipulation of the source. *)
Lemma status_of_kind_names k :
  (forall s, run_status_of_kind k = Some s ->
     status_name s = str_replace "-"%char "_"%char (str_removeprefix "run." (kind_name k))) /\
  (forall s, shard_status_of_kind k = Some s ->
     status_name s = str_replace "-"%char "_"%char (str_removeprefix "shard." (kind_name k))) /\
  (forall s, trial_status_of_kind k = Some s ->
     status_name s = str_replace "-"%char "_"%char (str_removeprefix "trial." (kind_name k))).
Proof. destruct k; split_and!; intros s [=]; subst; vm_compute; reflexivity. Qed.

(** ** Applying one event *)

(** [_record_run_status], [_record_shard_status], [_record_trial_status] *)
Definition _record_run_status (event : CampaignEvent) (status : RunStatus)
    (runs : dict RunProjection) : result (dict RunProjection) :=
  match dict_get runs (subject_id event) with
  | None => Err (ValueError ("event references unknown run: " +:+ subject_id event))
  | Some run => Ok (dict_set runs (subject_id event) (run_with_observed run status))
  end.

Definition _record_shard_status (event : CampaignEvent) (status : ShardStatus)
    (shards : dict ShardProjection) : result (dict ShardProjection) :=
  match dict_get shards (subject_id event) with
  | None => Err (ValueError ("event references unknown shard: " +:+ subject_id event))
  | Some shard => Ok (dict_set shards (subject_id event) (shard_with_observed shard status))
  end.

Definition _record_trial_status (event : CampaignEvent) (status : TrialStatus)
    (trials : dict TrialProjection) : result (dict TrialProjection) :=
  match dict_get trials (subject_id event) with
  | None => Err (ValueError ("event references unknown trial: " +:+ subject_id event))
  | Some trial =>
      Ok (dict_set trials (subject_id event)
            (trial_with trial status (tr_executions trial) (tr_retry_not_before trial)
               (tr_outcome trial)))
  end.

(** [_start_execution] *)
Definition _start_execution (event : CampaignEvent) (trials : dict TrialProjection)
    (executions : dict ExecutionProjection) : result (dict ExecutionProjection) :=
  match payload event with
  | payload_execution_started p =>
      let known := match dict_get trials (es_trial_id p) with
                   | Some trial => String.eqb (tr_shard_id trial) (es_shard_id p)
                   | None => false end in
      raise_if negb known with ValueError "execution references an unknown trial or shard";;
      raise_if dict_has executions (subject_id event)
        with ValueError ("execution started more than once: " +:+ subject_id event);;
      raise_if existsb (fun execution =>
                 String.eqb (ep_trial_id execution) (es_trial_id p) &&
                 (ep_physical_attempt execution =? es_physical_attempt p))
               (dict_values executions)
        with ValueError "trial has duplicate physical execution numbers";;
      Ok (dict_set executions (subject_id event) {|
        ep_execution_id := subject_id event;
        ep_trial_id := es_trial_id p;
        ep_shard_id := es_shard_id p;
        ep_wave_id := es_wave_id p;
        ep_physical_attempt := es_physical_attempt p;
        ep_status := exec_s_active;
        ep_category := None;
        ep_observed_at := observed_at event;
        ep_retry_after_seconds := None;
        ep_estimated_cost_microusd := es_estimated_cost_microusd p;
        ep_spend_microusd := 0;
        ep_message := None;
      |})
  | _ => Err AttributeError
  end.

(** [_is_reconciler_lost_sentinel] *)
Definition _is_reconciler_lost_sentinel (event : CampaignEvent) : result bool :=
  if negb (bool_decide (producer event = producer_reconciler)) ||
     negb (bool_decide (kind event = execution_failed))
  then Ok false
  else
    match payload event with
    | payload_execution_outcome p =>
        Ok (bool_decide (eo_category p = Some category_lost) &&
            match eo_message p with
            | Some message => str_startswith "HF Job " message &&
                              str_endswith " without terminal execution evidence" message
            | None => false
            end)
    | _ => Err AttributeError
    end.

(** [_finish_execution]: the new executions and the spend. *)
Definition _finish_execution (event : CampaignEvent) (executions : dict ExecutionProjection)
    : result (dict ExecutionProjection * Z) :=
  match dict_get executions (subject_id event) with
  | None => Err (ValueError ("execution outcome has no start: " +:+ subject_id event))
  | Some execution =>
      if negb (bool_decide (ep_status execution = exec_s_active)) then
        let* sentinel := _is_reconciler_lost_sentinel event in
        if sentinel then Ok (executions, 0)
        else Err (ValueError ("execution has multiple outcomes: " +:+ subject_id event))
      else
        match payload event, execution_status_of_kind (kind event) with
        | payload_execution_outcome p, Some status =>
            raise_if negb (String.eqb (eo_trial_id p) (ep_trial_id execution)) ||
                     negb (eo_physical_attempt p =? ep_physical_attempt execution)
              with ValueError "execution outcome identity does not match its start";;
            raise_if bool_decide (kind event = execution_completed) && is_some (eo_category p)
              with ValueError "completed execution cannot have a failure category";;
            raise_if bool_decide (kind event = execution_failed) && negb (is_some (eo_category p))
              with ValueError "failed execution requires a failure category";;
            Ok (dict_set executions (subject_id event) {|
                  ep_execution_id := ep_execution_id execution;
                  ep_trial_id := ep_trial_id execution;
                  ep_shard_id := ep_shard_id execution;
                  ep_wave_id := ep_wave_id execution;
                  ep_physical_attempt := ep_physical_attempt execution;
                  ep_status := status;
                  ep_category := eo_category p;
                  ep_observed_at := observed_at event;
                  ep_retry_after_seconds := eo_retry_after_seconds p;
                  ep_estimated_cost_microusd := ep_estimated_cost_microusd execution;
                  ep_spend_microusd := eo_spend_microusd p;
                  ep_message := eo_message p;
                |}, eo_spend_microusd p)
        | _, _ => Err AttributeError
        end
  end.

(** [_validate_wave_transition] *)
Definition allowed_wave_transitions (previous : WaveStatus) : list WaveStatus :=
  match previous with
  | wave_s_acquiring => [wave_s_provisioning; wave_s_draining; wave_s_cleaning; wave_s_cleanup_failed]
  | wave_s_provisioning => [wave_s_ready; wave_s_draining; wave_s_cleaning; wave_s_cleanup_failed]
  | wave_s_ready => [wave_s_active; wave_s_draining; wave_s_cleaning; wave_s_cleanup_failed]
  | wave_s_active => [wave_s_draining; wave_s_cleaning; wave_s_cleanup_failed]
  | wave_s_draining => [wave_s_cleaning; wave_s_closed; wave_s_cleanup_failed]
  | wave_s_cleaning => [wave_s_closed; wave_s_cleanup_failed]
  | wave_s_cleanup_failed => [wave_s_cleaning; wave_s_closed]
  | wave_s_closed => []
  end.

Definition _validate_wave_transition (previous current : WaveStatus) : result unit :=
  raise_if negb (bool_decide (current = previous)) &&
           negb (bool_decide (current ∈ allowed_wave_transitions previous))
    with ValueError "invalid wave transition";;
  Ok tt.

(** [_record_wave_status] *)
Definition stale_reconciler_transition (event : CampaignEvent) (previous status : WaveStatus) : bool :=
  bool_decide (producer event = producer_reconciler) &&
  ((bool_decide (previous = wave_s_closed) &&
    (bool_decide (status = wave_s_draining) || bool_decide (status = wave_s_cleaning))) ||
   (bool_decide (previous = wave_s_cleanup_failed) && bool_decide (status = wave_s_draining))).

Definition wave_identity_matches (wave : WaveProjection) (p : WaveLifecyclePayload) : bool :=
  String.eqb (wv_deployment_digest wave) (wl_deployment_digest p) &&
  String.eqb (wv_provider wave) (wl_provider p) &&
  bool_decide (wv_shard_ids wave = wl_shard_ids p) &&
  (wv_estimated_cost_microusd wave =? wl_estimated_cost_microusd p).

Definition _record_wave_status (event : CampaignEvent) (shards : dict ShardProjection)
    (waves : dict WaveProjection) : result (dict WaveProjection) :=
  match payload event, wave_status_of_kind (kind event) with
  | payload_wave p, Some status =>
      let unknown := List.filter (fun s => negb (dict_has shards s)) (wl_shard_ids p) in
      raise_if negb (is_nil unknown)
        with ValueError ("wave references unknown shards: " +:+ str_join ", " (sorted_set unknown));;
      let wave := {|
        wv_wave_id := subject_id event;
        wv_deployment_digest := wl_deployment_digest p;
        wv_provider := wl_provider p;
        wv_shard_ids := wl_shard_ids p;
        wv_estimated_cost_microusd := wl_estimated_cost_microusd p;
        wv_status := status;
      |} in
      match dict_get waves (subject_id event) with
      | Some previous =>
          raise_if negb (wave_identity_matches previous p)
            with ValueError "wave lifecycle identity changed";;
          if stale_reconciler_transition event (wv_status previous) status then Ok waves
          else
            let* _ := _validate_wave_transition (wv_status previous) status in
            Ok (dict_set waves (subject_id event) wave)
      | None => Ok (dict_set waves (subject_id event) wave)
      end
  | _, _ => Err AttributeError
  end.

(** [_apply_recovery_event]: the new state and the recorded spend. *)
Definition _apply_recovery_event (event : CampaignEvent) (st : recovery_state)
    : result (recovery_state * Z) :=
  if kind_startswith "run" (kind event) then
    match run_status_of_kind (kind event) with
    | Some status =>
        let* runs := _record_run_status event status (rs_runs st) in
        Ok ({| rs_runs := runs; rs_shards := rs_shards st; rs_trials := rs_trials st;
               rs_executions := rs_executions st; rs_waves := rs_waves st |}, 0)
    | None => Err AttributeError
    end
  else if kind_startswith "shard" (kind event) then
    match shard_status_of_kind (kind event) with
    | Some status =>
        let* shards := _record_shard_status event status (rs_shards st) in
        Ok ({| rs_runs := rs_runs st; rs_shards := shards; rs_trials := rs_trials st;
               rs_executions := rs_executions st; rs_waves := rs_waves st |}, 0)
    | None => Err AttributeError
    end
  else if kind_startswith "trial" (kind event) then
    match trial_status_of_kind (kind event) with
    | Some status =>
        let* trials := _record_trial_status event status (rs_trials st) in
        Ok ({| rs_runs := rs_runs st; rs_shards := rs_shards st; rs_trials := trials;
               rs_executions := rs_executions st; rs_waves := rs_waves st |}, 0)
    | None => Err AttributeError
    end
  else if bool_decide (kind event = execution_started) then
    let* executions := _start_execution event (rs_trials st) (rs_executions st) in
    Ok ({| rs_runs := rs_runs st; rs_shards := rs_shards st; rs_trials := rs_trials st;
           rs_executions := executions; rs_waves := rs_waves st |}, 0)
  else if kind_startswith "execution" (kind event) then
    let* '(executions, spend) := _finish_execution event (rs_executions st) in
    Ok ({| rs_runs := rs_runs st; rs_shards := rs_shards st; rs_trials := rs_trials st;
           rs_executions := executions; rs_waves := rs_waves st |}, spend)
  else if kind_startswith "wave" (kind event) then
    let* waves := _record_wave_status event (rs_shards st) (rs_waves st) in
    Ok ({| rs_runs := rs_runs st; rs_shards := rs_shards st; rs_trials := rs_trials st;
           rs_executions := rs_executions st; rs_waves := waves |}, 0)
  else if bool_decide (kind event = spend_recorded) then
    match payload event with
    | payload_spend p => Ok (st, sp_amount_microusd p)
    | _ => Err AttributeError
    end
  else Ok (st, 0).

(** [_apply_campaign_recovery_event] *)
Definition resolve_wave (waves : dict WaveProjection) (wave_id : string)
    : result (dict WaveProjection) :=
  match dict_get waves wave_id with
  | Some wave =>
      raise_if negb (bool_decide (wv_status wave = wave_s_cleanup_failed) ||
                     bool_decide (wv_status wave = wave_s_closed))
        with ValueError "manual recovery does not reference a failed cleanup wave";;
      if bool_decide (wv_status wave = wave_s_cleanup_failed)
      then Ok (dict_set waves (wv_wave_id wave) (wave_with_status wave wave_s_closed))
      else Ok waves
  | None => Err (ValueError "manual recovery does not reference a failed cleanup wave")
  end.

Definition _apply_campaign_recovery_event (event : CampaignEvent) (waves : dict WaveProjection)
    : result (dict WaveProjection) :=
  if negb (bool_decide (kind event = campaign_manual_intervention_resolved)) then Ok waves
  else
    match payload event with
    | payload_resolution p => foldM resolve_wave waves (mr_wave_ids p)
    | _ => Err AttributeError
    end.

(** One iteration of the event loop of [project_recovery]. *)
Definition recovery_step (acc : recovery_state * Z) (event : CampaignEvent)
    : result (recovery_state * Z) :=
  let '(st, spend) := acc in
  let* waves := _apply_campaign_recovery_event event (rs_waves st) in
  let* '(st', amount) := _apply_recovery_event event
    {| rs_runs := rs_runs st; rs_shards := rs_shards st; rs_trials := rs_trials st;
       rs_executions := rs_executions st; rs_waves := waves |} in
  Ok (st', spend + amount).

(** ** Deriving trials, shards and runs *)

(** [retry_delay_seconds] *)
Definition retry_jitter (execution_id : string) (category : RetryCategory) (physical_attempt : Z) : Z :=
  75 + sha256_first_byte (execution_id +:+ ":" +:+ category_name category +:+ ":" +:+
                          pretty physical_attempt) * 50 / 255.

Definition retry_raw_seconds (policy : CampaignRecoveryPolicy) (category : RetryCategory)
    (physical_attempt : Z) : Z :=
  let exponent := Z.min (physical_attempt - 1) 30 in
  let multiplier := match category with category_quota | category_rate_limit => 2 | _ => 1 end in
  retry_base_seconds policy * 2 ^ exponent * multiplier.

Definition retry_delay_seconds (lock : CampaignLock) (category : RetryCategory)
    (physical_attempt : Z) (execution_id : string) (retry_after_seconds : option Z) : result Z :=
  raise_if negb (is_retryable_category category)
    with ValueError ("retry category is terminal: " +:+ category_name category);;
  let policy := recovery_policy lock in
  let raw := retry_raw_seconds policy category physical_attempt in
  let jittered := raw * retry_jitter execution_id category physical_attempt / 100 in
  let requested := or_zero retry_after_seconds in
  Ok (Z.min (retry_max_seconds policy) (Z.max 1 (Z.max jittered requested))).

(** [retry_is_ready] *)
Definition retry_is_ready (trial : TrialProjection) (now : Z) : bool :=
  bool_decide (tr_status trial = trial_s_retry_wait) &&
  match tr_retry_not_before trial with Some t => t <=? now | None => false end.

(** [_task_outcome] *)
Definition _task_outcome (status : TrialStatus) (executions : list ExecutionProjection)
    : option TaskOutcome :=
  if bool_decide (status = trial_s_complete) then Some outcome_scored
  else if negb (bool_decide (status = trial_s_invalid) ||
                bool_decide (status = trial_s_failed_infrastructure)) then None
  else
    match last executions with
    | None => None
    | Some latest =>
        if negb (bool_decide (ep_status latest = exec_s_failed)) then None
        else match ep_category latest with
             | Some category_agent => Some outcome_agent_failed
             | Some category_benchmark => Some outcome_benchmark_failed
             | _ => Some outcome_infrastructure_exhausted
             end
    end.

(** [_failed_trial_state] *)
Definition _failed_trial_state (lock : CampaignLock) (execution : ExecutionProjection)
    (execution_count : Z) : result (TrialStatus * option Z) :=
  match ep_category execution with
  | Some category_agent | Some category_benchmark => Ok (trial_s_invalid, None)
  | None => Ok (trial_s_failed_infrastructure, None)
  | Some category =>
      if negb (is_retryable_category category) then Ok (trial_s_failed_infrastructure, None)
      else if max_physical_executions_per_trial (recovery_policy lock) <=? execution_count
      then Ok (trial_s_failed_infrastructure, None)
      else
        let* delay := retry_delay_seconds lock category (ep_physical_attempt execution)
                        (ep_execution_id execution) (ep_retry_after_seconds execution) in
        Ok (trial_s_retry_wait, Some (ep_observed_at execution + seconds delay))
  end.

(** [_derive_trial] *)
Definition is_completed (execution : ExecutionProjection) : bool :=
  bool_decide (ep_status execution = exec_s_completed).

(** The index of the last completed execution, [completed[-1]]. *)
Fixpoint last_completed (index : Z) (l : list ExecutionProjection) : option Z :=
  match l with
  | [] => None
  | e :: l =>
      match last_completed (index + 1) l with
      | Some i => Some i
      | None => if is_completed e then Some index else None
      end
  end.

Definition sort_by_attempt (executions : list ExecutionProjection) : list ExecutionProjection :=
  sort_by (fun x y => ep_physical_attempt x <=? ep_physical_attempt y) executions.

Definition _derive_trial (lock : CampaignLock) (trial : TrialProjection)
    (executions : list ExecutionProjection) : result TrialProjection :=
  let ordered := sort_by_attempt executions in
  raise_if negb (z_list_eqb (map ep_physical_attempt ordered) (range1 (len ordered)))
    with ValueError "physical execution attempts must be contiguous";;
  raise_if match last_completed 0 ordered with
           | Some i => negb (i =? len ordered - 1)
           | None => false end
    with ValueError "a completed logical trial was physically re-executed";;
  let execution_map := dict_of (map (fun e => (ep_execution_id e, e)) ordered) in
  if is_terminal (tr_status trial) then
    Ok (trial_with trial (tr_status trial) execution_map (tr_retry_not_before trial)
          (_task_outcome (tr_status trial) ordered))
  else
    match last ordered with
    | None => Ok trial
    | Some latest =>
        if existsb is_completed ordered then
          Ok (trial_with trial trial_s_complete execution_map (tr_retry_not_before trial)
                (Some outcome_scored))
        else
          let* '(status, retry_at) :=
            match ep_status latest with
            | exec_s_active => Ok (trial_s_active, None)
            | exec_s_cancelled => Ok (trial_s_cancelled, None)
            | _ => _failed_trial_state lock latest (len ordered)
            end in
          Ok (trial_with trial status execution_map retry_at (_task_outcome status ordered))
    end.

(** [_derive_trials]; an execution of an unknown trial would be a [KeyError]. *)
Definition _derive_trials (lock : CampaignLock) (trials : dict TrialProjection)
    (executions : dict ExecutionProjection) : result (dict TrialProjection) :=
  let* _ := mapM (fun e => dict_item trials (ep_trial_id e)) (dict_values executions) in
  dict_mapM (fun trial_id trial =>
    _derive_trial lock trial
      (List.filter (fun e => String.eqb (ep_trial_id e) trial_id) (dict_values executions))) trials.

(** [_scored_terminal_status] *)
Inductive ScoredStatus := scored_complete | scored_invalid | scored_failed_infrastructure.

Definition _scored_terminal_status `{StatusName A} (statuses : list A) : option ScoredStatus :=
  if negb (forallb is_scored statuses) then None
  else if existsb (is_named "complete") statuses then Some scored_complete
  else if existsb (is_named "failed_infrastructure") statuses
  then Some scored_failed_infrastructure
  else Some scored_invalid.

Definition shard_status_of_scored (s : ScoredStatus) : ShardStatus :=
  match s with
  | scored_complete => shard_s_complete | scored_invalid => shard_s_invalid
  | scored_failed_infrastructure => shard_s_failed_infrastructure
  end.
Definition run_status_of_scored (s : ScoredStatus) : RunStatus :=
  match s with
  | scored_complete => run_s_complete | scored_invalid => run_s_invalid
  | scored_failed_infrastructure => run_s_failed_infrastructure
  end.

(** [_validate_observed_terminal] *)
Definition _validate_observed_terminal `{StatusName A, StatusName B} (observed : option A)
    (child_statuses : list B) (subject : string) : result unit :=
  match observed with
  | None => Ok tt
  | Some observed =>
      if negb (is_terminal observed) then Ok tt
      else
        raise_if negb (forallb is_terminal child_statuses)
          with ValueError (subject +:+ " became terminal before its children");;
        raise_if is_named "complete" observed &&
                 (negb (forallb is_scored child_statuses) ||
                  negb (existsb (is_named "complete") child_statuses))
          with ValueError (subject +:+ " completed with non-complete children");;
        Ok tt
  end.

(** [_aggregate_shard] and [_derive_shards] *)
Definition _aggregate_shard (shard : ShardProjection) (trials : dict TrialProjection)
    : result ShardStatus :=
  let* statuses := mapM (fun trial_id =>
    let* t := dict_item trials trial_id in Ok (tr_status t)) (sh_trial_ids shard) in
  let* _ := _validate_observed_terminal (sh_observed_status shard) statuses "shard" in
  match _scored_terminal_status statuses with
  | Some scored => Ok (shard_status_of_scored scored)
  | None =>
      if forallb is_terminal statuses then Ok shard_s_cancelled
      else if existsb (is_named "active") statuses then Ok shard_s_active
      else if existsb (is_named "retry_wait") statuses then Ok shard_s_retry_wait
      else Ok match sh_observed_status shard with Some s => s | None => shard_s_planned end
  end.

Definition _derive_shards (shards : dict ShardProjection) (trials : dict TrialProjection)
    : result (dict ShardProjection) :=
  dict_mapM (fun _ shard =>
    let* status := _aggregate_shard shard trials in Ok (shard_with_status shard status)) shards.

(** [_aggregate_run] and [_derive_runs] *)
Definition _aggregate_run (run : RunProjection) (shards : dict ShardProjection)
    : result RunStatus :=
  let* statuses := mapM (fun shard_id =>
    let* s := dict_item shards shard_id in Ok (sh_status s)) (rn_shard_ids run) in
  let* _ := _validate_observed_terminal (rn_observed_status run) statuses "run" in
  match _scored_terminal_status statuses with
  | Some scored => Ok (run_status_of_scored scored)
  | None =>
      if forallb is_terminal statuses then Ok run_s_cancelled
      else if existsb (fun s => is_named "active" s || is_named "retry_wait" s) statuses
      then Ok run_s_active
      else Ok match rn_observed_status run with Some s => s | None => run_s_planned end
  end.

Definition _derive_runs (runs : dict RunProjection) (shards : dict ShardProjection)
    : result (dict RunProjection) :=
  dict_mapM (fun _ run =>
    let* status := _aggregate_run run shards in Ok (run_with_status run status)) runs.

(** [_counts] *)
Definition trial_has_status (s : TrialStatus) (t : TrialProjection) : bool :=
  bool_decide (tr_status t = s).

Definition _counts (trials : dict TrialProjection) : ProjectionCounts :=
  let values := dict_values trials in
  let executions := sum_z (map (fun t => len (tr_executions t)) values) in {|
    pc_planned := count_if (trial_has_status trial_s_planned) values;
    pc_active := count_if (trial_has_status trial_s_active) values;
    pc_retrying := count_if (trial_has_status trial_s_retry_wait) values;
    pc_complete := count_if (trial_has_status trial_s_complete) values;
    pc_invalid := count_if (trial_has_status trial_s_invalid) values;
    pc_failed := count_if (trial_has_status trial_s_failed_infrastructure) values;
    pc_cancelled := count_if (trial_has_status trial_s_cancelled) values;
    pc_physical_retries :=
      Z.max 0 (executions - count_if (fun t => negb (is_nil (tr_executions t))) values);
  |}.

(** ** Termination *)

(** [_terminal_counts] *)
Definition _terminal_counts (campaign : CampaignProjection) (counts : ProjectionCounts)
    : ProjectionCounts :=
  match proj_status campaign with
  | campaign_status_cancel_requested | campaign_status_draining
  | campaign_status_cancelled | campaign_status_partial => {|
      pc_planned := 0;
      pc_active := pc_active counts;
      pc_retrying := 0;
      pc_complete := pc_complete counts;
      pc_invalid := pc_invalid counts;
      pc_failed := pc_failed counts;
      pc_cancelled := pc_cancelled counts + pc_planned counts + pc_retrying counts;
      pc_physical_retries := pc_physical_retries counts;
    |}
  | _ => counts
  end.

(** [_cleanup_is_complete] *)
Definition is_wave_action_kind (k : ActionKind) : bool :=
  match k with submit_wave | retry_shard => true | _ => false end.

Definition wave_is_closed (wave : WaveProjection) : bool :=
  bool_decide (wv_status wave = wave_s_closed).

Definition _cleanup_is_complete (campaign : CampaignProjection) (waves : dict WaveProjection) : bool :=
  forallb (fun action =>
    negb (is_wave_action_kind (ap_action_kind action) &&
          negb (bool_decide (ap_status action = status_failed)) &&
          match dict_get waves ("wave-" +:+ ap_action_key action) with
          | Some wave => negb (wave_is_closed wave)
          | None => true
          end)) (dict_values (proj_actions campaign)) &&
  forallb wave_is_closed (dict_values waves).

(** [_decision] *)
Definition terminal_marker (status : TerminalStatus) : string :=
  match status with
  | terminal_completed => "_SUCCESS" | terminal_partial => "_PARTIAL"
  | terminal_failed => "_FAILED" | terminal_cancelled => "_CANCELLED"
  end.

Definition _decision (lock : CampaignLock) (status : TerminalStatus) (counts : ProjectionCounts)
    (reason : string) : TerminalDecision := {|
  td_status := status;
  td_marker := terminal_marker status;
  td_summary_path := artifact_prefix lock +:+ "/campaign-summary.json";
  td_marker_path := artifact_prefix lock +:+ "/" +:+ terminal_marker status;
  td_reason := reason;
  td_counts := counts;
|}.

(** The campaign statuses of [_CAMPAIGN_TERMINAL], as terminal statuses. *)
Definition terminal_status_of_campaign (s : CampaignStatus) : option TerminalStatus :=
  match s with
  | campaign_status_completed => Some terminal_completed
  | campaign_status_partial => Some terminal_partial
  | campaign_status_failed => Some terminal_failed
  | campaign_status_cancelled => Some terminal_cancelled
  | _ => None
  end.

Definition campaign_is_cancelling (s : CampaignStatus) : bool :=
  match s with campaign_status_cancel_requested | campaign_status_draining => true | _ => false end.

(** [_terminal_decision] *)
Definition _terminal_decision (lock : CampaignLock) (campaign : CampaignProjection)
    (runs : dict RunProjection) (trials : dict TrialProjection) (waves : dict WaveProjection)
    (counts : ProjectionCounts) : option TerminalDecision :=
  match terminal_status_of_campaign (proj_status campaign) with
  | Some status => Some (_decision lock status (_terminal_counts campaign counts) "recorded")
  | None =>
      if negb (_cleanup_is_complete campaign waves) then None
      else
        let decision_counts := _terminal_counts campaign counts in
        let cancelling := campaign_is_cancelling (proj_status campaign) in
        if negb (forallb (fun trial =>
             is_terminal (tr_status trial) ||
             (cancelling && (trial_has_status trial_s_planned trial ||
                             trial_has_status trial_s_retry_wait trial))) (dict_values trials))
        then None
        else
          let run_statuses := map rn_status (dict_values runs) in
          if negb (is_nil run_statuses) && forallb (is_named "complete") run_statuses
          then Some (_decision lock terminal_completed decision_counts
                       "all logical trials reached a scored terminal outcome")
          else if cancelling && negb (pc_complete decision_counts =? 0)
          then Some (_decision lock terminal_partial decision_counts
                       "cancellation preserved some scored trial outcomes")
          else if existsb (is_named "complete") run_statuses
          then Some (_decision lock terminal_partial decision_counts
                       "some runs reached a scored outcome")
          else if cancelling || negb (pc_cancelled decision_counts =? 0)
          then Some (_decision lock terminal_cancelled decision_counts
                       "cancellation drained and cleaned")
          else Some (_decision lock terminal_failed decision_counts
                       "no valid logical trial completed")
  end.

(** ** Operator retry requests *)

(** [requested_at], keyed by trial and generation, in insertion order. *)
Definition retry_requests : Type := list ((string * Z) * Z).

Fixpoint request_time (key : string * Z) (m : retry_requests) : option Z :=
  match m with
  | [] => None
  | (k, t) :: m => if bool_decide (key = k) then Some t else request_time key m
  end.

Fixpoint request_set (key : string * Z) (t : Z) (m : retry_requests) : retry_requests :=
  match m with
  | [] => [(key, t)]
  | (k, t') :: m => if bool_decide (key = k) then (k, t) :: m else (k, t') :: request_set key t m
  end.

(** [requested_at[key] = max(requested_at.get(key, t), t)] *)
Definition request_max (t : Z) (m : retry_requests) (key : string * Z) : retry_requests :=
  request_set key (Z.max match request_time key m with Some t' => t' | None => t end t) m.

(** [_validated_retry_generations] *)
Definition lock_shard_trial_ids (lock : CampaignLock) : dict (list string) :=
  dict_of (concat (map (fun run => map (fun shard =>
    (sl_shard_id shard, map tl_trial_id (sl_trials shard))) (rl_shards run)) (runs lock))).

Definition _validated_retry_generations (lock : CampaignLock) (p : ShardRetryPayload)
    (trials : dict TrialProjection) : result (dict Z) :=
  match dict_get (lock_shard_trial_ids lock) (sr_shard_id p) with
  | None => Err (ValueError "retry request references an unknown shard")
  | Some allowed =>
      let* bad := anyM (fun '(trial_id, generation) =>
        if negb (str_mem trial_id allowed) || (generation <? 1) then Ok true
        else
          let* trial := dict_item trials trial_id in
          Ok (len (tr_executions trial) <? generation)) (sr_trial_generations p) in
      raise_if bad
        with ValueError "retry request generations do not match the requested shard state";;
      Ok (sr_trial_generations p)
  end.

(** [_legacy_retry_generations]: one forward pass; the loop variables are the
    recovery state, the execution identifiers of every trial in start order,
    and the generations bound so far. *)
Record legacy_state := {
  lg_state : recovery_state;
  lg_execution_ids : dict (list string);
  lg_generations : dict (dict Z);
}.

Definition legacy_bind_trial (lock : CampaignLock) (st : legacy_state) (acc : dict Z)
    (trial_id : string) : result (dict Z) :=
  let* trial := dict_item (rs_trials (lg_state st)) trial_id in
  let* execution_ids := dict_item (lg_execution_ids st) trial_id in
  let* execs := mapM (dict_item (rs_executions (lg_state st))) execution_ids in
  let* current := _derive_trial lock trial execs in
  Ok (if trial_has_status trial_s_retry_wait current
      then dict_set acc trial_id (len (tr_executions current)) else acc).

Definition legacy_bind (lock : CampaignLock) (st : legacy_state) (event : CampaignEvent)
    : result (dict (dict Z)) :=
  if negb (bool_decide (kind event = campaign_shard_retry_requested))
  then Ok (lg_generations st)
  else
    match payload event with
    | payload_shard_retry p =>
        match dict_get (rs_shards (lg_state st)) (sr_shard_id p) with
        | None => Err (ValueError "retry request references an unknown shard")
        | Some shard =>
            let* event_generations := foldM (legacy_bind_trial lock st) [] (sh_trial_ids shard) in
            Ok (dict_set (lg_generations st) (event_id event) event_generations)
        end
    | _ => Err AttributeError
    end.

Definition legacy_step (lock : CampaignLock) (st : legacy_state) (event : CampaignEvent)
    : result legacy_state :=
  let* generations := legacy_bind lock st event in
  let* '(state, _) := recovery_step (lg_state st, 0) event in
  let* execution_ids :=
    if bool_decide (kind event = execution_started) then
      match payload event with
      | payload_execution_started p =>
          let* ids := dict_item (lg_execution_ids st) (es_trial_id p) in
          Ok (dict_set (lg_execution_ids st) (es_trial_id p) (ids ++ [subject_id event]))
      | _ => Err AttributeError
      end
    else Ok (lg_execution_ids st) in
  Ok {| lg_state := state; lg_execution_ids := execution_ids; lg_generations := generations |}.

Definition _legacy_retry_generations (lock : CampaignLock) (events : list CampaignEvent)
    : result (dict (dict Z)) :=
  let init := initial_state lock in
  let* st := foldM (legacy_step lock) {|
    lg_state := init;
    lg_execution_ids := dict_map (fun _ => []) (rs_trials init);
    lg_generations := [] |} events in
  Ok (lg_generations st).

(** [_apply_retry_requests] *)
Definition is_legacy_retry (event : CampaignEvent) : result bool :=
  if negb (bool_decide (kind event = campaign_shard_retry_requested)) then Ok false
  else match payload event with
       | payload_shard_retry p => Ok (is_nil (sr_trial_generations p))
       | _ => Err AttributeError
       end.

Definition collect_retry_request (lock : CampaignLock) (trials : dict TrialProjection)
    (legacy_generations : dict (dict Z)) (requested_at : retry_requests) (event : CampaignEvent)
    : result retry_requests :=
  if negb (bool_decide (kind event = campaign_shard_retry_requested)) then Ok requested_at
  else
    match payload event with
    | payload_shard_retry p =>
        let* generations :=
          if negb (is_nil (sr_trial_generations p)) then _validated_retry_generations lock p trials
          else dict_item legacy_generations (event_id event) in
        Ok (fold_left (request_max (observed_at event)) generations requested_at)
    | _ => Err AttributeError
    end.

Definition requested_generations (requested_at : retry_requests) (trial_id : string) : list Z :=
  map (fun r => r.1.2) (List.filter (fun r => String.eqb r.1.1 trial_id) requested_at).

Definition apply_retry_request (lock : CampaignLock) (requested_at : retry_requests)
    (trial_id : string) (trial : TrialProjection) : result TrialProjection :=
  match requested_generations requested_at trial_id with
  | [] => Ok trial
  | g :: gs =>
      let generation := max_default g (g :: gs) in
      let current_generation := len (tr_executions trial) in
      raise_if current_generation <? generation
        with ValueError "retry request generation exceeds physical execution state";;
      let cleared := trial_with trial trial_s_planned (tr_executions trial) None None in
      let* derived := _derive_trial lock cleared (dict_values (tr_executions trial)) in
      if (generation =? current_generation) && trial_has_status trial_s_retry_wait derived
      then Ok (trial_with derived (tr_status derived) (tr_executions derived)
                 (request_time (trial_id, generation) requested_at) (tr_outcome derived))
      else Ok derived
  end.

Definition _apply_retry_requests (lock : CampaignLock) (events : list CampaignEvent)
    (trials : dict TrialProjection) : result (dict TrialProjection) :=
  let* ordered := ordered_events events in
  let* has_legacy := anyM is_legacy_retry ordered in
  let* legacy_generations :=
    if has_legacy then _legacy_retry_generations lock ordered else Ok [] in
  let* requested_at :=
    foldM (collect_retry_request lock trials legacy_generations) [] ordered in
  dict_mapM (apply_retry_request lock requested_at) trials.

(** ** The projection *)

(** The first cancellation request, as [next(...)] finds it. *)
Definition find_cancel_requested_at (ordered : list CampaignEvent) : option Z :=
  option_map observed_at
    (List.find (fun e => bool_decide (kind e = campaign_cancel_requested)) ordered).

(** [project_recovery] *)
Definition project_recovery (lock : CampaignLock) (events : list CampaignEvent)
    : result RecoveryProjection :=
  let* campaign := project_campaign lock events in
  let* ordered := ordered_events events in
  let* '(st, spend) := foldM recovery_step (initial_state lock, 0) ordered in
  let campaign :=
    if negb (campaign_status_is_terminal (proj_status campaign)) &&
       existsb (fun w => bool_decide (wv_status w = wave_s_cleanup_failed))
         (dict_values (rs_waves st))
    then campaign_with_status campaign campaign_status_manual_intervention else campaign in
  let* trials := _derive_trials lock (rs_trials st) (rs_executions st) in
  let* trials := _apply_retry_requests lock events trials in
  let* shards := _derive_shards (rs_shards st) trials in
  let* runs := _derive_runs (rs_runs st) shards in
  let counts := _counts trials in
  let campaign :=
    if bool_decide (proj_status campaign = campaign_status_queued) &&
       (negb (is_nil (rs_executions st)) || negb (is_nil (rs_waves st)))
    then campaign_with_status campaign campaign_status_active else campaign in
  Ok {|
    rp_campaign := campaign;
    rp_runs := runs;
    rp_shards := shards;
    rp_trials := trials;
    rp_executions := rs_executions st;
    rp_waves := rs_waves st;
    rp_spend_microusd := spend;
    rp_counts := counts;
    rp_cancel_requested_at := find_cancel_requested_at ordered;
    rp_terminal_decision :=
      _terminal_decision lock campaign runs trials (rs_waves st) counts;
  |}.

(** ** Sealing a partial campaign *)

(** [_seal_retry_wait_trial]; [max(.., key=physical_attempt)] keeps the first maximum. *)
Fixpoint max_by_attempt (best : ExecutionProjection) (l : list ExecutionProjection)
    : ExecutionProjection :=
  match l with
  | [] => best
  | e :: l =>
      max_by_attempt (if ep_physical_attempt best <? ep_physical_attempt e then e else best) l
  end.

Definition _seal_retry_wait_trial (trial : TrialProjection) : result TrialProjection :=
  match dict_values (tr_executions trial) with
  | [] => Err (ValueError ("partial trial cannot be sealed: " +:+ tr_trial_id trial))
  | e :: es =>
      raise_if negb (trial_has_status trial_s_retry_wait trial)
        with ValueError ("partial trial cannot be sealed: " +:+ tr_trial_id trial);;
      let latest := max_by_attempt e es in
      match ep_category latest with
      | None => Err (ValueError ("partial trial has no failed execution: " +:+ tr_trial_id trial))
      | Some category =>
          raise_if negb (bool_decide (ep_status latest = exec_s_failed))
            with ValueError ("partial trial has no failed execution: " +:+ tr_trial_id trial);;
          let status := match category with
                        | category_agent | category_benchmark => trial_s_invalid
                        | _ => trial_s_failed_infrastructure end in
          let outcome := match category with
                         | category_agent => outcome_agent_failed
                         | category_benchmark => outcome_benchmark_failed
                         | _ => outcome_infrastructure_exhausted end in
          Ok (trial_with trial status (tr_executions trial) None (Some outcome))
      end
  end.

(** [seal_partial_projection] *)
Definition seal_partial_projection (p : RecoveryProjection) : result RecoveryProjection :=
  match rp_terminal_decision p with
  | None => Err (ValueError "only a recorded partial campaign can be sealed")
  | Some decision =>
      raise_if negb (bool_decide (proj_status (rp_campaign p) = campaign_status_partial))
        with ValueError "only a recorded partial campaign can be sealed";;
      raise_if negb (bool_decide (td_status decision = terminal_partial))
        with ValueError "only a recorded partial campaign can be sealed";;
      raise_if existsb (fun w => negb (wave_is_closed w)) (dict_values (rp_waves p))
        with ValueError "partial campaign cleanup is not complete";;
      let* trials := dict_mapM (fun _ trial =>
        if is_scored (tr_status trial) then Ok trial else _seal_retry_wait_trial trial)
        (rp_trials p) in
      let* shards := _derive_shards (rp_shards p) trials in
      let* runs := _derive_runs (rp_runs p) shards in
      raise_if existsb (fun r => negb (bool_decide (rn_status r = run_s_complete)))
                 (dict_values runs)
        with ValueError "a sealed run requires at least one scored trial";;
      Ok {|
        rp_campaign := rp_campaign p;
        rp_runs := runs;
        rp_shards := shards;
        rp_trials := trials;
        rp_executions := rp_executions p;
        rp_waves := rp_waves p;
        rp_spend_microusd := rp_spend_microusd p;
        rp_counts := _counts trials;
        rp_cancel_requested_at := rp_cancel_requested_at p;
        rp_terminal_decision := rp_terminal_decision p;
      |}
  end.

(** ** Durable operator events

    The flag says whether the event is new ([True]) or the one already recorded. *)

(** [_cancellation_identifier] *)
Definition _cancellation_identifier (lock : CampaignLock) : string :=
  sha256_hex_prefix 32 (campaign_id lock +:+ ":cancel").

(** [durable_cancellation_event]; [identifier] is [None] when no factory is given. *)
Definition durable_cancellation_event (lock : CampaignLock) (events : list CampaignEvent)
    (reason : string) (now : Z) (identifier : option string)
    : result (CampaignEvent * bool) :=
  let* ordered := ordered_events events in
  match List.find (fun e => bool_decide (kind e = campaign_cancel_requested)) ordered with
  | Some event => Ok (event, false)
  | None =>
      let* event := new_event subject_campaign (campaign_id lock) campaign_cancel_requested
        producer_cli (payload_cancellation {| cp_reason := reason |}) now
        match identifier with Some i => i | None => _cancellation_identifier lock end in
      Ok (event, true)
  end.

(** [_manual_recovery_requirements] *)
Definition resolved_wave_ids (ordered : list CampaignEvent) : list string :=
  concat (map (fun e => match kind e, payload e with
    | campaign_manual_intervention_resolved, payload_resolution p => mr_wave_ids p
    | _, _ => [] end) ordered).

Definition event_parent_id (e : CampaignEvent) : option string :=
  match payload e with payload_lifecycle p => lp_parent_id p | _ => None end.

Definition _manual_recovery_requirements (events : list CampaignEvent)
    : result (list CampaignEvent * list string) :=
  let* ordered := ordered_events events in
  let resolved := resolved_wave_ids ordered in
  let required := List.filter (fun e =>
    bool_decide (kind e = campaign_manual_intervention_required) &&
    negb match event_parent_id e with Some p => str_mem p resolved | None => false end) ordered in
  raise_if is_nil required
    with ValueError "manual intervention requirement has not been recorded";;
  let wave_ids := sorted_set (omap event_parent_id required) in
  raise_if is_nil wave_ids
    with ValueError "manual intervention does not reference recoverable cleanup";;
  Ok (required, wave_ids).

(** [_validate_manual_recovery_waves] *)
Definition _validate_manual_recovery_waves (p : RecoveryProjection) (wave_ids : list string)
    : result unit :=
  raise_if negb (forallb (fun wave_id =>
      match dict_get (rp_waves p) wave_id with
      | Some wave => bool_decide (wv_status wave = wave_s_cleanup_failed) || wave_is_closed wave
      | None => false
      end) wave_ids)
    with ValueError "manual intervention does not reference recoverable cleanup";;
  Ok tt.

(** [durable_manual_intervention_resolution_event] *)
Definition durable_manual_intervention_resolution_event (lock : CampaignLock)
    (events : list CampaignEvent) (reason : string) (cleanup_verified : bool) (now : Z)
    : result (CampaignEvent * bool) :=
  raise_if negb cleanup_verified
    with ValueError "manual recovery requires verified endpoint cleanup";;
  let* ordered := ordered_events events in
  let* projection := project_recovery lock events in
  if negb (bool_decide (proj_status (rp_campaign projection) = campaign_status_manual_intervention))
  then
    match List.find (fun e => bool_decide (kind e = campaign_manual_intervention_resolved))
            (rev ordered) with
    | Some resolved => Ok (resolved, false)
    | None => Err (ValueError "campaign does not require manual intervention")
    end
  else
    let* '(required, required_wave_ids) := _manual_recovery_requirements events in
    let wave_ids := sorted_set (required_wave_ids ++
      map wv_wave_id (List.filter (fun w => bool_decide (wv_status w = wave_s_cleanup_failed))
        (dict_values (rp_waves projection)))) in
    let identity := campaign_id lock +:+ ":" +:+ str_join "," (map event_id required) +:+ ":" +:+
                    str_join "," wave_ids in
    let identifier := sha256_hex_prefix 32 (identity +:+ ":resolved") in
    match List.find (fun e => String.eqb (event_id e) ("evt-" +:+ identifier)) ordered with
    | Some event =>
        raise_if negb (bool_decide (kind event = campaign_manual_intervention_resolved))
          with ValueError "manual recovery event identity conflicts";;
        Ok (event, false)
    | None =>
        let* _ := _validate_manual_recovery_waves projection wave_ids in
        let observed := Z.max now (max_default 0 (map observed_at ordered) + 1) in
        let* event := new_event subject_campaign (campaign_id lock)
          campaign_manual_intervention_resolved producer_cli
          (payload_resolution {| mr_wave_ids := wave_ids; mr_message := Some reason |})
          observed identifier in
        Ok (event, true)
    end.

(** [durable_shard_retry_event] *)
Definition trial_is_retryable (t : TrialProjection) : bool :=
  trial_has_status trial_s_retry_wait t || trial_has_status trial_s_failed_infrastructure t.

Definition durable_shard_retry_event (lock : CampaignLock) (events : list CampaignEvent)
    (shard_id reason : string) (now : Z) : result (CampaignEvent * bool) :=
  let* projection := project_recovery lock events in
  raise_if campaign_status_is_terminal (proj_status (rp_campaign projection))
    with ValueError "a terminal campaign cannot be retried";;
  raise_if campaign_is_cancelling (proj_status (rp_campaign projection))
    with ValueError "a cancelling campaign cannot be retried";;
  match dict_get (rp_shards projection) shard_id with
  | None => Err (ValueError ("unknown campaign shard: " +:+ shard_id))
  | Some shard =>
      let* trials := mapM (dict_item (rp_trials projection)) (sh_trial_ids shard) in
      let eligible := List.filter trial_is_retryable trials in
      raise_if is_nil eligible with ValueError "shard has no retryable logical trials";;
      let generation := str_join "," (map (fun t =>
        tr_trial_id t +:+ ":" +:+ pretty (len (tr_executions t))) eligible) in
      let identifier := sha256_hex_prefix 32
        (campaign_id lock +:+ ":" +:+ shard_id +:+ ":" +:+ generation) in
      let* ordered := ordered_events events in
      match List.find (fun e => String.eqb (event_id e) ("evt-" +:+ identifier)) ordered with
      | Some event =>
          raise_if negb (bool_decide (kind event = campaign_shard_retry_requested))
            with ValueError "retry event identity conflicts";;
          Ok (event, false)
      | None =>
          let* event := new_event subject_campaign (campaign_id lock)
            campaign_shard_retry_requested producer_cli
            (payload_shard_retry {|
               sr_shard_id := shard_id;
               sr_reason := reason;
               sr_trial_generations :=
                 sort_by key_leb (dict_of (map (fun t =>
                   (tr_trial_id t, len (tr_executions t))) eligible)) |}) now identifier in
          Ok (event, true)
      end
  end.
