(* ===== verification/Reconciler.v ===== *)
(** Planning of reconciliation actions (src/src/harbor_hf/reconciler.py).

    A pure function of the lock, the events, the admission limits and the
    clock: it lists candidate actions (cleanup first, then retries, new waves
    and publication), orders them, and admits them against the wave, campaign
    and spend budgets. *)
From S2P Require Import Prelude.
From S2P Require Import PyDict.
From S2P Require Import Sha256.
From S2P Require Import Json.
From S2P Require Import Campaigns.
From S2P Require Import Control.
From S2P Require Import Recovery.

(** ** Data *)
Definition _UNBOUNDED : Z := 2 ^ 31 - 1.

(** [_BILLABLE_ACTIONS] *)
Definition is_billable (k : ActionKind) : bool := is_wave_action_kind k.

Definition _PRIORITY (k : ActionKind) : Z :=
  match k with
  | cancel_execution => 0
  | cancel_wave => 1
  | drain_wave => 2
  | cleanup_wave => 3
  | exhaust_trials => 4
  | manual_intervention_action => 5
  | publish_summary => 6
  | publish_results => 7
  | retry_shard => 8
  | submit_wave => 9
  end.

Record DeploymentAdmission := {
  da_provider : option string;
  da_estimated_wave_cost_microusd : option Z;
}.

Record AdmissionLimits := {
  action_limit : Z;
  global_active_waves : Z;
  deployment_active_waves : Z;
  provider_active_waves : Z;
  campaign_active_waves : Z;
}.

Definition default_limits : AdmissionLimits := {|
  action_limit := 64;
  global_active_waves := _UNBOUNDED;
  deployment_active_waves := 1;
  provider_active_waves := _UNBOUNDED;
  campaign_active_waves := _UNBOUNDED;
|}.

Record AdmissionUsage := {
  used_global_active_waves : Z;
  used_deployment_active_waves : dict Z;
  used_provider_active_waves : dict Z;
  used_campaign_active_waves : dict Z;
  used_campaign_spend_microusd : dict Z;
}.

Definition default_usage : AdmissionUsage := {|
  used_global_active_waves := 0;
  used_deployment_active_waves := [];
  used_provider_active_waves := [];
  used_campaign_active_waves := [];
  used_campaign_spend_microusd := [];
|}.

Record ReconcileContext := {
  limits : AdmissionLimits;
  usage : AdmissionUsage;
  deployments : dict DeploymentAdmission;
}.

Definition default_context : ReconcileContext :=
  {| limits := default_limits; usage := default_usage; deployments := [] |}.

Record ReconcileAction := {
  ra_action_id : string;
  ra_action_key : string;
  act_kind : ActionKind;
  act_campaign_id : string;
  act_deployment_digest : string;
  act_provider : string;
  act_wave_id : option string;
  act_shard_ids : list string;
  act_trial_ids : list string;
  act_target_ids : list string;
  act_estimated_cost_microusd : option Z;
  act_spend_cap_microusd : option Z;
}.

#[export] Instance ReconcileAction_SubmitWaveAction : SubmitWaveAction ReconcileAction := {|
  action_id_of := ra_action_id;
  action_key_of := ra_action_key;
  action_kind_of := fun a => action_kind_name (act_kind a);
  action_campaign_id_of := act_campaign_id;
  action_deployment_digest_of := act_deployment_digest;
  action_shard_ids_of := act_shard_ids;
  action_trial_ids_of := act_trial_ids;
  action_estimated_cost_of := act_estimated_cost_microusd;
|}.

Inductive BlockReason :=
  | block_global_budget | block_deployment_budget | block_provider_budget
  | block_campaign_budget | block_spend_cap | block_spend_estimate_missing
  | block_backoff.

#[export] Instance BlockReason_eq_dec : EqDecision BlockReason.
Proof. solve_decision. Defined.

Record BlockedAction := {
  ba_kind : ActionKind;
  ba_deployment_digest : string;
  ba_shard_ids : list string;
  ba_reason : BlockReason;
}.

Record ReconcilePlan := {
  rpl_campaign_id : string;
  rpl_status : CampaignStatus;
  rpl_action_count : Z;
  rpl_actions : list ReconcileAction;
  rpl_blocked : list BlockedAction;
  rpl_terminal_decision : option TerminalDecision;
}.

Record _Candidate := {
  cd_kind : ActionKind;
  cd_deployment_digest : string;
  cd_provider : string;
  cd_wave_id : option string;
  cd_shard_ids : list string;
  cd_trial_ids : list string;
  cd_target_ids : list string;
  cd_estimated_cost_microusd : option Z;
  cd_spend_cap_microusd : option Z;
}.

(** [candidate.model_dump(mode="json")]; the absent spend cap is excluded. *)
Definition candidate_fields (c : _Candidate) : list (string * json) :=
  [("kind", JStr (action_kind_name (cd_kind c)));
   ("deployment_digest", JStr (cd_deployment_digest c));
   ("provider", JStr (cd_provider c));
   ("wave_id", jopt JStr (cd_wave_id c));
   ("shard_ids", jstrs (cd_shard_ids c));
   ("trial_ids", jstrs (cd_trial_ids c));
   ("target_ids", jstrs (cd_target_ids c));
   ("estimated_cost_microusd", jopt JInt (cd_estimated_cost_microusd c))] ++
  match cd_spend_cap_microusd c with
  | Some cap => [("spend_cap_microusd", JInt cap)]
  | None => []
  end.

(** ** Usage counters, [_MutableUsage] *)
Record _MutableUsage := {
  mu_global_waves : Z;
  mu_deployments : dict Z;
  mu_providers : dict Z;
  mu_campaigns : dict Z;
  mu_spend : dict Z;
}.

(** [d[k] = d.get(k, 0) + n] *)
Definition dict_add (d : dict Z) (k : string) (n : Z) : dict Z :=
  dict_set d k (dict_get_default d k 0 + n).

Definition wave_is_open (w : WaveProjection) : bool := negb (wave_is_closed w).

Definition durable_spend (p : RecoveryProjection) : Z :=
  rp_spend_microusd p + sum_z (map wv_estimated_cost_microusd (dict_values (rp_waves p))).

Definition initial_usage (context : ReconcileContext) (p : RecoveryProjection) : _MutableUsage :=
  let campaign := proj_campaign_id (rp_campaign p) in
  let open_waves := List.filter wave_is_open (dict_values (rp_waves p)) in {|
    mu_global_waves := used_global_active_waves (usage context) +
      count_if wave_is_open (dict_values (rp_waves p));
    mu_deployments := fold_left (fun d w => dict_add d (wv_deployment_digest w) 1) open_waves
      (used_deployment_active_waves (usage context));
    mu_providers := fold_left (fun d w => dict_add d (wv_provider w) 1) open_waves
      (used_provider_active_waves (usage context));
    mu_campaigns := fold_left (fun d _ => dict_add d campaign 1) open_waves
      (used_campaign_active_waves (usage context));
    mu_spend := dict_add (used_campaign_spend_microusd (usage context)) campaign (durable_spend p);
  |}.

(** [_MutableUsage.admit] *)
Definition usage_admit (u : _MutableUsage) (c : _Candidate) (campaign : string) : _MutableUsage := {|
  mu_global_waves := mu_global_waves u + 1;
  mu_deployments := dict_add (mu_deployments u) (cd_deployment_digest c) 1;
  mu_providers := dict_add (mu_providers u) (cd_provider c) 1;
  mu_campaigns := dict_add (mu_campaigns u) campaign 1;
  mu_spend := dict_add (mu_spend u) campaign (or_zero (cd_estimated_cost_microusd c));
|}.

(** ** Lookups in the lock *)

(** [_run_admission] *)
Definition run_admission_identity (r : CampaignRunLock)
    : option string * option Z * option Z * option Z :=
  (ra_provider r, ra_max_concurrent_requests r, ra_spend_cap_microusd r,
   ra_estimated_wave_cost_microusd r).

Definition _run_admission (lock : CampaignLock) (deployment_digest : string)
    : result CampaignRunLock :=
  match List.filter (fun run : CampaignRunLock =>
          String.eqb (ra_deployment_digest run) deployment_digest) (runs lock) with
  | [] => Err (ValueError "unknown deployment admission target")
  | first :: rest =>
      raise_if existsb (fun run =>
          negb (bool_decide (run_admission_identity run = run_admission_identity first))) rest
        with ValueError "deployment admission fields are inconsistent";;
      Ok first
  end.

(** [_deployment] *)
Definition _deployment (lock : CampaignLock) (context : ReconcileContext)
    (deployment_digest : string) : result DeploymentAdmission :=
  let* locked := _run_admission lock deployment_digest in
  match dict_get (deployments context) deployment_digest with
  | None => Ok {|
      da_provider := Some (opt_str_or (ra_provider locked) "hf-inference-endpoints");
      da_estimated_wave_cost_microusd := ra_estimated_wave_cost_microusd locked |}
  | Some observed => Ok {|
      da_provider := Some (opt_str_or (da_provider observed)
        (opt_str_or (ra_provider locked) "hf-inference-endpoints"));
      da_estimated_wave_cost_microusd :=
        match da_estimated_wave_cost_microusd observed with
        | Some cost => Some cost
        | None => ra_estimated_wave_cost_microusd locked
        end |}
  end.

(** [_admission_provider] *)
Definition _admission_provider (admission : DeploymentAdmission) : result string :=
  match da_provider admission with
  | None => Err (ValueError "deployment admission has no provider")
  | Some p => Ok p
  end.

(** [_deployment_for_shards]: the deployments of the runs that own the shards. *)
Definition _deployment_for_shards (lock : CampaignLock) (shard_ids : list string) : result string :=
  match remove_dups (map (fun run : CampaignRunLock => ra_deployment_digest run)
          (List.filter (fun run =>
             existsb (fun shard => str_mem (sl_shard_id shard) shard_ids) (rl_shards run))
             (runs lock))) with
  | [d] => Ok d
  | _ => Err (ValueError "action shards must belong to one deployment")
  end.

(** [_action_shard_ids] *)
Definition _action_shard_ids (lock : CampaignLock) (k : ActionKind) (target_ids : list string)
    : list string :=
  match k with
  | submit_wave => target_ids
  | retry_shard =>
      sort_by str_leb (concat (map (fun run =>
        map sl_shard_id (List.filter (fun shard =>
          existsb (fun trial => str_mem (tl_trial_id trial) target_ids) (sl_trials shard))
          (rl_shards run))) (runs lock)))
  | _ => []
  end.

(** [_action_is_spent] *)
Definition _action_is_spent (p : RecoveryProjection) (action : ActionProjection) : bool :=
  bool_decide (ap_status action = status_failed) ||
  match dict_get (rp_waves p) ("wave-" +:+ ap_action_key action) with
  | Some wave => wave_is_closed wave
  | None => false
  end.

(** [_shard_has_execution_evidence] *)
Definition trial_has_evidence (t : TrialProjection) : bool :=
  negb (is_nil (tr_executions t)) || negb (trial_has_status trial_s_planned t).

Definition _shard_has_execution_evidence (p : RecoveryProjection) (shard_id : string) : result bool :=
  let* shard := dict_item (rp_shards p) shard_id in
  anyM (fun trial_id =>
    let* t := dict_item (rp_trials p) trial_id in Ok (trial_has_evidence t)) (sh_trial_ids shard).

(** [_trial_was_skipped_in_closed_wave] *)
Definition _trial_was_skipped_in_closed_wave (p : RecoveryProjection) (shard_id : string)
    : result bool :=
  let* evidence := _shard_has_execution_evidence p shard_id in
  Ok (evidence && existsb (fun w => wave_is_closed w && str_mem shard_id (wv_shard_ids w))
                    (dict_values (rp_waves p))).

(** [_retry_queue] *)
Inductive retry_queue := queue_ready | queue_waiting.

Definition _retry_queue (p : RecoveryProjection) (trial : TrialProjection) (now : Z)
    : result (option retry_queue) :=
  let* skipped :=
    if trial_has_status trial_s_planned trial
    then _trial_was_skipped_in_closed_wave p (tr_shard_id trial) else Ok false in
  if skipped then Ok (Some queue_ready)
  else if negb (trial_has_status trial_s_retry_wait trial) then Ok None
  else Ok (Some (if retry_is_ready trial now then queue_ready else queue_waiting)).

(** [_assigned_shards] *)
Definition filterM {A} (f : A -> result bool) (l : list A) : result (list A) :=
  foldM (fun acc x => let* b := f x in Ok (if b then acc ++ [x] else acc)) [] l.

Definition _assigned_shards (lock : CampaignLock) (p : RecoveryProjection) : result (list string) :=
  let* by_wave := mapM (fun wave =>
    if wave_is_open wave then Ok (wv_shard_ids wave)
    else filterM (_shard_has_execution_evidence p) (wv_shard_ids wave))
    (dict_values (rp_waves p)) in
  let by_execution := map ep_shard_id (dict_values (rp_executions p)) in
  let by_action := map (fun action => _action_shard_ids lock (ap_action_kind action) (ap_target_ids action))
    (List.filter (fun action =>
       is_wave_action_kind (ap_action_kind action) && negb (_action_is_spent p action))
       (dict_values (proj_actions (rp_campaign p)))) in
  Ok (concat by_wave ++ by_execution ++ concat by_action).

(** ** Cleanup candidates *)

(** The statuses in which no new work starts. *)
Definition campaign_is_stopping (s : CampaignStatus) : bool :=
  match s with
  | campaign_status_cancel_requested | campaign_status_draining
  | campaign_status_manual_intervention => true
  | _ => false
  end.

(** [_cancellation_grace_elapsed] *)
Definition _cancellation_grace_elapsed (lock : CampaignLock) (p : RecoveryProjection) (now : Z) : bool :=
  match rp_cancel_requested_at p with
  | None => false
  | Some requested_at =>
      requested_at + seconds (cancellation_grace_seconds (recovery_policy lock)) <=? now
  end.

(** [_execution_cancellations] *)
Definition _execution_cancellations (p : RecoveryProjection) : list _Candidate :=
  map (fun execution => {|
      cd_kind := cancel_execution;
      cd_deployment_digest := "";
      cd_provider := "";
      cd_wave_id := ep_wave_id execution;
      cd_shard_ids := [ep_shard_id execution];
      cd_trial_ids := [ep_trial_id execution];
      cd_target_ids := [ep_execution_id execution];
      cd_estimated_cost_microusd := None;
      cd_spend_cap_microusd := None;
    |})
    (List.filter (fun execution => bool_decide (ep_status execution = exec_s_active))
       (dict_values (rp_executions p))).

(** The local function [candidate] of [_wave_cleanup]. *)
Definition wave_candidate (observed : WaveProjection) (k : ActionKind) : _Candidate := {|
  cd_kind := k;
  cd_deployment_digest := wv_deployment_digest observed;
  cd_provider := wv_provider observed;
  cd_wave_id := Some (wv_wave_id observed);
  cd_shard_ids := wv_shard_ids observed;
  cd_trial_ids := [];
  cd_target_ids := [wv_wave_id observed];
  cd_estimated_cost_microusd := None;
  cd_spend_cap_microusd := None;
|}.

Definition wave_is_winding_down (w : WaveProjection) : bool :=
  bool_decide (wv_status w = wave_s_draining) || bool_decide (wv_status w = wave_s_cleaning).

(** [_cancellation_wave_actions] *)
Definition _cancellation_wave_actions (observed : WaveProjection) (p : RecoveryProjection)
    (force_cancel : bool) : list _Candidate :=
  let active_execution := existsb (fun execution =>
    bool_decide (ep_wave_id execution = Some (wv_wave_id observed)) &&
    bool_decide (ep_status execution = exec_s_active)) (dict_values (rp_executions p)) in
  if force_cancel then [wave_candidate observed cancel_wave; wave_candidate observed cleanup_wave]
  else if active_execution then [wave_candidate observed drain_wave]
  else if wave_is_winding_down observed then [wave_candidate observed cleanup_wave]
  else [wave_candidate observed drain_wave].

(** [_wave_cleanup] *)
Definition _wave_cleanup (observed : WaveProjection) (p : RecoveryProjection)
    (cancelling force_cancel : bool) : result (list _Candidate) :=
  if wave_is_closed observed then Ok []
  else if bool_decide (wv_status observed = wave_s_cleanup_failed)
  then Ok [wave_candidate observed manual_intervention_action]
  else if cancelling then Ok (_cancellation_wave_actions observed p force_cancel)
  else
    let* unfinished := anyM (fun shard_id =>
      let* shard := dict_item (rp_shards p) shard_id in
      Ok (negb (is_terminal (sh_status shard)))) (wv_shard_ids observed) in
    if negb unfinished && negb (wave_is_winding_down observed)
    then Ok [wave_candidate observed drain_wave]
    else if wave_is_winding_down observed then Ok [wave_candidate observed cleanup_wave]
    else Ok [].

(** [_unobserved_wave_cancellations] *)
Definition _unobserved_wave_cancellations (lock : CampaignLock) (p : RecoveryProjection)
    (known_wave_ids : list string) (force_cancel : bool) : result (list _Candidate) :=
  let* candidates := mapM (fun action =>
    if negb (is_wave_action_kind (ap_action_kind action)) ||
       bool_decide (ap_status action = status_failed) then Ok []
    else
      let wave_id := "wave-" +:+ ap_action_key action in
      if str_mem wave_id known_wave_ids then Ok []
      else
        let shard_ids := _action_shard_ids lock (ap_action_kind action) (ap_target_ids action) in
        let* deployment := _deployment_for_shards lock shard_ids in
        Ok (map (fun k => {|
              cd_kind := k;
              cd_deployment_digest := deployment;
              cd_provider := "";
              cd_wave_id := Some wave_id;
              cd_shard_ids := shard_ids;
              cd_trial_ids := [];
              cd_target_ids := [ap_action_id action];
              cd_estimated_cost_microusd := None;
              cd_spend_cap_microusd := None;
            |}) (if force_cancel then [cancel_wave; cleanup_wave] else [drain_wave])))
    (dict_values (proj_actions (rp_campaign p))) in
  Ok (concat candidates).

(** [_cleanup_candidates] *)
Definition _cleanup_candidates (lock : CampaignLock) (p : RecoveryProjection) (now : Z)
    : result (list _Candidate) :=
  let cancelling := campaign_is_stopping (proj_status (rp_campaign p)) in
  let force_cancel := _cancellation_grace_elapsed lock p now in
  let executions := if cancelling && force_cancel then _execution_cancellations p else [] in
  let* waves := mapM (fun wave => _wave_cleanup wave p cancelling force_cancel)
                  (dict_values (rp_waves p)) in
  let* unobserved :=
    if cancelling
    then _unobserved_wave_cancellations lock p (map wv_wave_id (dict_values (rp_waves p))) force_cancel
    else Ok [] in
  Ok (executions ++ concat waves ++ unobserved).

(** ** Retry and new-wave candidates *)

(** [d[k].append(x)] of a [defaultdict(list)]. *)
Definition dict_append (d : dict (list string)) (k x : string) : dict (list string) :=
  dict_set d k (dict_get_default d k [] ++ [x]).

Definition run_spend_cap (lock : CampaignLock) (deployment : string) : result (option Z) :=
  let* run := _run_admission lock deployment in Ok (ra_spend_cap_microusd run).

(** The trials queued for a retry, by shard: ready and waiting. *)
Definition retry_queues (p : RecoveryProjection) (reserved_trial_ids : list string) (now : Z)
    : result (dict (list string) * dict (list string)) :=
  foldM (fun '(ready, waiting) trial =>
      let* queue := _retry_queue p trial now in
      if str_mem (tr_trial_id trial) reserved_trial_ids then Ok (ready, waiting)
      else match queue with
           | None => Ok (ready, waiting)
           | Some queue_ready => Ok (dict_append ready (tr_shard_id trial) (tr_trial_id trial), waiting)
           | Some queue_waiting => Ok (ready, dict_append waiting (tr_shard_id trial) (tr_trial_id trial))
           end)
    ([], []) (dict_values (rp_trials p)).

Definition reserved_retry_trials (p : RecoveryProjection) : list string :=
  concat (map ap_target_ids (List.filter (fun action =>
    bool_decide (ap_action_kind action = retry_shard) && negb (_action_is_spent p action))
    (dict_values (proj_actions (rp_campaign p))))).

(** Shards in sorted order, grouped by deployment. *)
Definition group_by_deployment (lock : CampaignLock) (shard_ids : list string)
    : result (dict (list string)) :=
  foldM (fun groups shard_id =>
      let* deployment := _deployment_for_shards lock [shard_id] in
      Ok (dict_append groups deployment shard_id)) [] shard_ids.

(** One chunk of shards as a retry candidate. *)
Definition retry_candidate (lock : CampaignLock) (ready : dict (list string)) (deployment : string)
    (admission : DeploymentAdmission) (chunk : list string) : result _Candidate :=
  let* trials := mapM (dict_item ready) chunk in
  let trial_ids := sort_by str_leb (concat trials) in
  let* provider := _admission_provider admission in
  let* cost := estimated_partial_wave_cost lock deployment
                 (da_estimated_wave_cost_microusd admission) (len trial_ids) in
  let* cap := run_spend_cap lock deployment in
  Ok {|
    cd_kind := retry_shard;
    cd_deployment_digest := deployment;
    cd_provider := provider;
    cd_wave_id := None;
    cd_shard_ids := chunk;
    cd_trial_ids := trial_ids;
    cd_target_ids := trial_ids;
    cd_estimated_cost_microusd := cost;
    cd_spend_cap_microusd := cap;
  |}.

(** Candidates of every deployment in sorted order, chunked to the wave bound. *)
Definition wave_candidates (lock : CampaignLock) (context : ReconcileContext)
    (groups : dict (list string))
    (make : string -> DeploymentAdmission -> list string -> result _Candidate)
    : result (list _Candidate) :=
  let* per_deployment := mapM (fun deployment =>
      let* admission := _deployment lock context deployment in
      let* shard_ids := dict_item groups deployment in
      let* cs := chunks (max_shards_per_wave lock) shard_ids in
      mapM (make deployment admission) cs) (sort_by str_leb (dict_keys groups)) in
  Ok (concat per_deployment).

(** [_retry_candidates] *)
Definition _retry_candidates (lock : CampaignLock) (p : RecoveryProjection)
    (context : ReconcileContext) (now : Z) : result (list _Candidate * list BlockedAction) :=
  let* '(ready, waiting) := retry_queues p (reserved_retry_trials p) now in
  let* groups := group_by_deployment lock (sort_by str_leb (dict_keys ready)) in
  let* candidates := wave_candidates lock context groups (retry_candidate lock ready) in
  let* blocked := mapM (fun shard_id =>
      let* deployment := _deployment_for_shards lock [shard_id] in
      Ok {| ba_kind := retry_shard; ba_deployment_digest := deployment;
            ba_shard_ids := [shard_id]; ba_reason := block_backoff |})
    (sort_by str_leb (dict_keys waiting)) in
  Ok (candidates, blocked).

(** [_new_wave_candidates] *)
Definition new_wave_candidate (lock : CampaignLock) (deployment : string)
    (admission : DeploymentAdmission) (chunk : list string) : result _Candidate :=
  let* provider := _admission_provider admission in
  let* cap := run_spend_cap lock deployment in
  Ok {|
    cd_kind := submit_wave;
    cd_deployment_digest := deployment;
    cd_provider := provider;
    cd_wave_id := None;
    cd_shard_ids := chunk;
    cd_trial_ids := [];
    cd_target_ids := chunk;
    cd_estimated_cost_microusd := da_estimated_wave_cost_microusd admission;
    cd_spend_cap_microusd := cap;
  |}.

Definition shard_is_startable (s : ShardStatus) : bool :=
  match s with shard_s_planned | shard_s_queued => true | _ => false end.

Definition unassigned_groups (lock : CampaignLock) (p : RecoveryProjection) (assigned : list string)
    : result (dict (list string)) :=
  foldM (fun groups run =>
    foldM (fun groups shard =>
      let* s := dict_item (rp_shards p) (sl_shard_id shard) in
      Ok (if negb (str_mem (sl_shard_id shard) assigned) && shard_is_startable (sh_status s)
          then dict_append groups (ra_deployment_digest (rl_admission run)) (sl_shard_id shard)
          else groups))
      groups (sort_by (fun a b => str_leb (sl_shard_id a) (sl_shard_id b)) (rl_shards run)))
    [] (sort_by (fun a b => str_leb (rl_run_id a) (rl_run_id b)) (runs lock)).

Definition _new_wave_candidates (lock : CampaignLock) (p : RecoveryProjection)
    (context : ReconcileContext) : result (list _Candidate) :=
  let* assigned := _assigned_shards lock p in
  let* groups := unassigned_groups lock p assigned in
  wave_candidates lock context groups (new_wave_candidate lock).

(** [_candidate_key]: priority, deployment, wave and targets, compared in turn. *)
Definition _candidate_key (c : _Candidate) : Z * (string * (string * string)) :=
  (_PRIORITY (cd_kind c),
   (cd_deployment_digest c, (opt_str_or (cd_wave_id c) "", str_join "," (cd_target_ids c)))).

Definition candidate_key_leb (x y : Z * (string * (string * string))) : bool :=
  lex_leb Z.eqb Z.leb
    (lex_leb String.eqb str_leb (lex_leb String.eqb str_leb str_leb)) x y.

Definition candidate_leb (x y : _Candidate) : bool :=
  candidate_key_leb (_candidate_key x) (_candidate_key y).

(** [_candidates] *)
Definition publish_summary_candidate (d : TerminalDecision) : _Candidate := {|
  cd_kind := publish_summary;
  cd_deployment_digest := "";
  cd_provider := "";
  cd_wave_id := None;
  cd_shard_ids := [];
  cd_trial_ids := [];
  cd_target_ids := [td_summary_path d];
  cd_estimated_cost_microusd := None;
  cd_spend_cap_microusd := None;
|}.

Definition _candidates (lock : CampaignLock) (p : RecoveryProjection) (context : ReconcileContext)
    (now : Z) : result (list _Candidate * list BlockedAction) :=
  let* cleanup := _cleanup_candidates lock p now in
  let* '(work, blocked) :=
    if campaign_is_stopping (proj_status (rp_campaign p)) then Ok ([], [])
    else
      let* '(retry, retry_blocked) := _retry_candidates lock p context now in
      let* new_waves := _new_wave_candidates lock p context in
      Ok (retry ++ new_waves, retry_blocked) in
  let publish := match rp_terminal_decision p with
                 | Some d => [publish_summary_candidate d] | None => [] end in
  Ok (sort_by candidate_leb (cleanup ++ work ++ publish), blocked).

(** ** Admission *)

(** [_materialize] *)
Definition materialize_retries (p : RecoveryProjection) (c : _Candidate) : Z :=
  count_if (fun action =>
    bool_decide (ap_action_kind action = cd_kind c) &&
    bool_decide (ap_target_ids action = cd_target_ids c) && _action_is_spent p action)
    (dict_values (proj_actions (rp_campaign p))).

Definition candidate_action_key (lock : CampaignLock) (c : _Candidate) (retries : Z) : string :=
  sha256_hex_prefix 24 (dumps (jobj (candidate_fields c ++
    [("campaign_id", JStr (campaign_id lock)); ("action_retry", JInt retries)]))).

Definition _materialize (lock : CampaignLock) (p : RecoveryProjection) (c : _Candidate)
    : option ReconcileAction :=
  let action_key := candidate_action_key lock c (materialize_retries p c) in
  if existsb (fun action => String.eqb (ap_action_key action) action_key &&
                            negb (_action_is_spent p action))
       (dict_values (proj_actions (rp_campaign p)))
  then None
  else Some {|
    ra_action_id := "act-" +:+ action_key;
    ra_action_key := action_key;
    act_kind := cd_kind c;
    act_campaign_id := campaign_id lock;
    act_deployment_digest := cd_deployment_digest c;
    act_provider := cd_provider c;
    act_wave_id :=
      match cd_wave_id c with
      | Some EmptyString | None =>
          if is_wave_action_kind (cd_kind c) then Some ("wave-" +:+ action_key) else None
      | Some wave_id => Some wave_id
      end;
    act_shard_ids := cd_shard_ids c;
    act_trial_ids := cd_trial_ids c;
    act_target_ids := cd_target_ids c;
    act_estimated_cost_microusd := cd_estimated_cost_microusd c;
    act_spend_cap_microusd := cd_spend_cap_microusd c;
  |}.

(** [min(caps)] over the caps that are set. *)
Definition min_cap (lock : CampaignLock) (c : _Candidate) : option Z :=
  match omap id [policy_spend_cap_microusd (recovery_policy lock); cd_spend_cap_microusd c] with
  | [] => None
  | cap :: caps => Some (min_list cap caps)
  end.

(** [_budget_reason] *)
Definition _budget_reason (lock : CampaignLock) (c : _Candidate) (context : ReconcileContext)
    (u : _MutableUsage) : option BlockReason :=
  let l := limits context in
  if global_active_waves l <=? mu_global_waves u then Some block_global_budget
  else if deployment_active_waves l <=?
          dict_get_default (mu_deployments u) (cd_deployment_digest c) 0
  then Some block_deployment_budget
  else if provider_active_waves l <=? dict_get_default (mu_providers u) (cd_provider c) 0
  then Some block_provider_budget
  else
    let campaign_limit := Z.min (campaign_active_waves l) (max_active_waves (recovery_policy lock)) in
    if campaign_limit <=? dict_get_default (mu_campaigns u) (campaign_id lock) 0
    then Some block_campaign_budget
    else
      match min_cap lock c with
      | None => None
      | Some cap =>
          match cd_estimated_cost_microusd c with
          | None => Some block_spend_estimate_missing
          | Some cost =>
              if cap <? dict_get_default (mu_spend u) (campaign_id lock) 0 + cost
              then Some block_spend_cap else None
          end
      end.

(** [_durable_spend_cap_blocks_retry] *)
Definition _durable_spend_cap_blocks_retry (lock : CampaignLock) (p : RecoveryProjection)
    (c : _Candidate) : result bool :=
  let* run := _run_admission lock (cd_deployment_digest c) in
  match min_cap lock c, ra_estimated_wave_cost_microusd run with
  | Some cap, Some locked_estimate => Ok (cap <? durable_spend p + locked_estimate)
  | _, _ => Ok false
  end.

(** [_denied_billable_action] *)
Definition _denied_billable_action (lock : CampaignLock) (p : RecoveryProjection) (c : _Candidate)
    (reason : BlockReason) (exhaust_retry : bool) : option ReconcileAction * list BlockedAction :=
  if bool_decide (cd_kind c = retry_shard) && bool_decide (reason = block_spend_cap) && exhaust_retry
  then (_materialize lock p {|
          cd_kind := exhaust_trials;
          cd_deployment_digest := cd_deployment_digest c;
          cd_provider := "";
          cd_wave_id := None;
          cd_shard_ids := cd_shard_ids c;
          cd_trial_ids := cd_trial_ids c;
          cd_target_ids := cd_trial_ids c;
          cd_estimated_cost_microusd := None;
          cd_spend_cap_microusd := None;
        |}, [])
  else (None, [{| ba_kind := cd_kind c; ba_deployment_digest := cd_deployment_digest c;
                  ba_shard_ids := cd_shard_ids c; ba_reason := reason |}]).

(** The loop of [_admit]: the usage, the admitted actions, the blocked ones. *)
Record admit_state := {
  as_usage : _MutableUsage;
  as_actions : list ReconcileAction;
  as_blocked : list BlockedAction;
}.

(** One candidate: [None] when nothing is to be appended. *)
Definition admit_candidate (lock : CampaignLock) (p : RecoveryProjection)
    (context : ReconcileContext) (st : admit_state) (c : _Candidate)
    : result (admit_state * option ReconcileAction) :=
  match _materialize lock p c with
  | None => Ok (st, None)
  | Some action =>
      if negb (is_billable (cd_kind c)) then Ok (st, Some action)
      else
        match _budget_reason lock c context (as_usage st) with
        | Some reason =>
            let* exhaust := _durable_spend_cap_blocks_retry lock p c in
            let '(action', denied) := _denied_billable_action lock p c reason exhaust in
            Ok ({| as_usage := as_usage st; as_actions := as_actions st;
                   as_blocked := as_blocked st ++ denied |}, action')
        | None =>
            Ok ({| as_usage := usage_admit (as_usage st) c (campaign_id lock);
                   as_actions := as_actions st; as_blocked := as_blocked st |}, Some action)
        end
  end.

Fixpoint admit_loop (lock : CampaignLock) (p : RecoveryProjection) (context : ReconcileContext)
    (st : admit_state) (candidates : list _Candidate) : result admit_state :=
  match candidates with
  | [] => Ok st
  | c :: candidates =>
      let* '(st', action) := admit_candidate lock p context st c in
      match action with
      | None => admit_loop lock p context st' candidates
      | Some action =>
          if action_limit (limits context) <=? len (as_actions st') then Ok st'
          else admit_loop lock p context
                 {| as_usage := as_usage st'; as_actions := as_actions st' ++ [action];
                    as_blocked := as_blocked st' |} candidates
      end
  end.

(** [_admit] *)
Definition _admit (lock : CampaignLock) (p : RecoveryProjection) (candidates : list _Candidate)
    (context : ReconcileContext) (preblocked : list BlockedAction)
    : result (list ReconcileAction * list BlockedAction) :=
  let* st := admit_loop lock p context
    {| as_usage := initial_usage context p; as_actions := []; as_blocked := preblocked |}
    candidates in
  Ok (as_actions st, as_blocked st).

(** [_plan] and [plan_reconciliation] *)
Definition _plan (lock : CampaignLock) (p : RecoveryProjection) (actions : list ReconcileAction)
    (blocked : list BlockedAction) (terminal : option TerminalDecision) : ReconcilePlan := {|
  rpl_campaign_id := campaign_id lock;
  rpl_status := proj_status (rp_campaign p);
  rpl_action_count := len actions;
  rpl_actions := actions;
  rpl_blocked := blocked;
  rpl_terminal_decision := terminal;
|}.

Definition plan_reconciliation (lock : CampaignLock) (events : list CampaignEvent)
    (context : ReconcileContext) (now : Z) : result (RecoveryProjection * ReconcilePlan) :=
  let* projection := project_recovery lock events in
  let observed_now := Z.max now (proj_last_observed_at (rp_campaign projection)) in
  if campaign_status_is_terminal (proj_status (rp_campaign projection))
  then Ok (projection, _plan lock projection [] [] (rp_terminal_decision projection))
  else
    let* '(candidates, preblocked) := _candidates lock projection context observed_now in
    let* '(actions, blocked) := _admit lock projection candidates context preblocked in
    Ok (projection, _plan lock projection actions blocked (rp_terminal_decision projection)).
