(* ===== verification/Hub.v ===== *)
(** Computations over services, the Dataset client and the commit loop, and a logic of what a computation keeps. *)
From S2P Require Import Prelude.
From S2P Require Import Json.

(** ** The Hub repository as the stores use it. [huggingface_hub] is not part of
    the repository: its client is the class [HubApi], whose operations
    read immutable revisions and create commits that name their parent.
    [HubLaws] states the documented behaviour the stores rely on: a
    revision never changes, a commit succeeds only on top of the parent it
    names, and a 409/412 answer means it was not made. The [main] branch
    is the list of trees it went through, newest first; other clients may
    commit during any call, and the relation [R] says what they may do
    (rely) and what the operations of this development do (guarantee). *)
(** ** Files and commits *)

(** A file is the JSON value its text denotes, or other bytes. *)
Inductive document := DJson (value : json) | DBytes (bytes : string).

#[export] Instance document_eq_dec : EqDecision document.
Proof. solve_decision. Defined.

Abbreviation tree := (gmap string document).

Inductive commit_op :=
  | CommitOperationAdd (path_in_repo : string) (content : document)
  | CommitOperationDelete (path_in_repo : string).

Definition apply_op (t : tree) (op : commit_op) : tree :=
  match op with
  | CommitOperationAdd path content => <[path := content]> t
  | CommitOperationDelete path => delete path t
  end.

Definition apply_ops (t : tree) (ops : list commit_op) : tree := fold_left apply_op ops t.

(** ** Computations that call the Hub: a state and error monad over a world *)
Definition hub (W A : Type) : Type := W -> result A * W.

Definition hub_ret {W A} (a : A) : hub W A := fun w => (Ok a, w).
Definition hub_raise {W A} (e : exn) : hub W A := fun w => (Err e, w).
Definition hub_lift {W A} (r : result A) : hub W A := fun w => (r, w).
Definition hub_bind {W A B} (m : hub W A) (k : A -> hub W B) : hub W B :=
  fun w => match m w with
           | (Ok a, w') => k a w'
           | (Err e, w') => (Err e, w')
           end.

(** [try: m except HfHubHTTPError as error: handler] for a handler that may
    decline, in which case the exception propagates. *)
Definition hub_catch {W A} (m : hub W A) (handler : exn -> option (hub W A)) : hub W A :=
  fun w => match m w with
           | (Err e, w') => match handler e with Some h => h w' | None => (Err e, w') end
           | r => r
           end.

(** [finally]: the cleanup runs on either way out, and its own exception wins. *)
Definition hub_finally {W A} (m : hub W A) (cleanup : hub W unit) : hub W A :=
  fun w =>
    let '(outcome, w1) := m w in
    match cleanup w1 with
    | (Ok _, w2) => (outcome, w2)
    | (Err e, w2) => (Err e, w2)
    end.

(** The exception of [m] as a value. *)
Definition hub_try {W A} (m : hub W A) : hub W (result A) :=
  fun w => let (r, w') := m w in (Ok r, w').

Fixpoint hub_mapM {W A B} (f : A -> hub W B) (l : list A) : hub W (list B) :=
  match l with
  | [] => hub_ret []
  | x :: l => hub_bind (f x) (fun y => hub_bind (hub_mapM f l) (fun ys => hub_ret (y :: ys)))
  end.

Fixpoint hub_foldM {W A S} (f : S -> A -> hub W S) (s : S) (l : list A) : hub W S :=
  match l with
  | [] => hub_ret s
  | x :: l => hub_bind (f s x) (fun s' => hub_foldM f s' l)
  end.

Lemma hub_bind_inv {W A B} (m : hub W A) (k : A -> hub W B) w (res : result B) w' :
  hub_bind m k w = (res, w') ->
  exists r w1, m w = (r, w1) /\
    match r with Ok a => k a w1 = (res, w') | Err e => res = Err e /\ w' = w1 end.
Proof.
  unfold hub_bind. destruct (m w) as [[a|e] w1]; intros E; eexists _, w1; split; [done|done|done|].
  injection E as <- <-. by split.
Qed.

Lemma hub_bind_ok {W A B} (m : hub W A) (k : A -> hub W B) w b w' :
  hub_bind m k w = (Ok b, w') -> exists a w1, m w = (Ok a, w1) /\ k a w1 = (Ok b, w').
Proof. intros E. apply hub_bind_inv in E as ([a|e] & w1 & Em & E); [eauto|by destruct E]. Qed.

Declare Scope hub_scope.
Delimit Scope hub_scope with hub.
Notation "'do' x '<-' m ';;' k" := (hub_bind m (fun x => k))
  (at level 10, x name, m at level 99, k at level 200, only parsing) : hub_scope.
#[global] Open Scope hub_scope.

(** [getattr(error.response, "status_code") in {409, 412}] *)
Definition _is_parent_conflict (error : exn) : bool :=
  match error with
  | HfHubHTTPError status => (status =? 409) || (status =? 412)
  | _ => false
  end.

(** [_MAX_COMMIT_ATTEMPTS] *)
Definition _MAX_COMMIT_ATTEMPTS : nat := 8.

Class HubApi (W : Type) := {
  repo_info_sha : hub W (option string);
  get_paths_info : string -> string -> hub W bool;
  list_repo_files : string -> hub W (list string);
  list_repo_tree : string -> string -> hub W (list string);
  hf_hub_download : string -> string -> hub W document;
  create_commit : string -> list commit_op -> hub W (option string);
}.

(** ** What the client promises *)

(** [main] grew by commits of other clients, each one an [R] step. *)
Inductive extends (R : tree -> tree -> Prop) (l : list tree) : list tree -> Prop :=
  | extends_refl : extends R l l
  | extends_step t t' k : extends R l (t :: k) -> R t t' -> extends R l (t' :: t :: k).

Lemma extends_trans R l k m : extends R l k -> extends R k m -> extends R l m.
Proof. intros H. induction 1; eauto using extends. Qed.

Lemma extends_elem R l k t : extends R l k -> t ∈ l -> t ∈ k.
Proof. induction 1; [done|]. intros H'. right. auto. Qed.

(** The directories above the files of a tree, which a recursive listing names too. *)
Definition is_folder (t : tree) (path : string) : Prop :=
  exists file, is_Some (t !! file) /\ str_startswith (path +:+ "/") file = true.

Class HubLaws (W : Type) `{HubApi W} (R : tree -> tree -> Prop) := {
  tree_at : W -> string -> option tree;
  main : W -> list tree;
  grows (w w' : W) : Prop :=
    (forall r t, tree_at w r = Some t -> tree_at w' r = Some t) /\ extends R (main w) (main w');
  (** A commit made on top of revision [r], after commits of other clients. *)
  commits (w w' : W) (r : string) (ops : list commit_op) (oid : option string) : Prop :=
    (forall r t, tree_at w r = Some t -> tree_at w' r = Some t) /\
    exists t k, (forall t0, tree_at w r = Some t0 -> t0 = t) /\
      extends R (main w) (t :: k) /\ main w' = apply_ops t ops :: t :: k /\
      (forall r', oid = Some r' -> tree_at w' r' = Some (apply_ops t ops));
  repo_info_law w res w' : repo_info_sha w = (res, w') ->
    grows w w' /\ forall r, res = Ok (Some r) -> r <> "" ->
      exists t k, tree_at w' r = Some t /\ extends R (main w) (t :: k) /\ extends R (t :: k) (main w');
  get_paths_info_law path r w res w' : get_paths_info path r w = (res, w') ->
    grows w w' /\ forall b t, res = Ok b -> tree_at w r = Some t -> b = is_some (t !! path);
  list_repo_files_law r w res w' : list_repo_files r w = (res, w') ->
    grows w w' /\ forall l t, res = Ok l -> tree_at w r = Some t ->
      forall path, path ∈ l <-> is_Some (t !! path);
  list_repo_tree_law prefix r w res w' : list_repo_tree prefix r w = (res, w') ->
    grows w w' /\ forall t, tree_at w r = Some t ->
      match res with
      | Ok l => NoDup l /\ forall path,
          (path ∈ l -> str_startswith (prefix +:+ "/") path = true /\
             (is_Some (t !! path) \/ is_folder t path)) /\
          (str_startswith (prefix +:+ "/") path = true -> is_Some (t !! path) -> path ∈ l)
      | Err EntryNotFoundError => forall path,
          is_Some (t !! path) -> str_startswith (prefix +:+ "/") path = false
      | Err _ => True
      end;
  hf_hub_download_law path r w res w' : hf_hub_download path r w = (res, w') ->
    grows w w' /\ forall d t, res = Ok d -> tree_at w r = Some t -> t !! path = Some d;
  create_commit_law r ops w res w' : create_commit r ops w = (res, w') ->
    match res with
    | Ok oid => commits w w' r ops oid
    | Err e => grows w w' \/ (_is_parent_conflict e = false /\ commits w w' r ops None)
    end;
}.

Section hub.
Context {W : Type} `{L : HubLaws W R}.

Lemma grows_refl w : grows w w.
Proof. split; [done|constructor]. Qed.

Lemma grows_trans a b c : grows a b -> grows b c -> grows a c.
Proof. intros [H1 H2] [H3 H4]. split; [auto|by eapply extends_trans]. Qed.

Lemma commits_grows w w' r ops oid :
  commits w w' r ops oid -> (forall t, tree_at w r = Some t -> R t (apply_ops t ops)) ->
  is_Some (tree_at w r) -> grows w w'.
Proof.
  intros (Ht & t & k & Hr & Hext & Hmain & _) HR [t0 Ht0].
  specialize (Hr _ Ht0) as <-. split; [done|].
  rewrite Hmain. constructor; auto.
Qed.

(** ** The retry loop of every store operation

    [for _attempt in range(8)]: read the head, look at the records there, and
    return, raise, or commit on top of that head; a parent conflict retries. *)
Inductive decision (A : Type) := Return (a : A) | Commit (ops : list commit_op) (a : A).
#[global] Arguments Return {A} a.
#[global] Arguments Commit {A} ops a.

Fixpoint commit_loop {A} (attempts : nat) (contended : exn) (head : hub W string)
    (body : string -> hub W (decision A)) : hub W A :=
  match attempts with
  | O => hub_raise contended
  | S attempts =>
      do h <- head;;
      do d <- body h;;
      match d with
      | Return a => hub_ret a
      | Commit ops a =>
          hub_catch (do _ <- create_commit h ops;; hub_ret a)
            (fun e => if _is_parent_conflict e
                      then Some (commit_loop attempts contended head body) else None)
      end
  end.

(** [_head]: a missing or empty commit identity raises. *)
Definition hub_head (missing : exn) : hub W string :=
  do sha <- repo_info_sha;;
  match sha with
  | Some r => if String.eqb r "" then hub_raise missing else hub_ret r
  | None => hub_raise missing
  end.

Lemma hub_head_law missing w res w' :
  hub_head missing w = (res, w') ->
  grows w w' /\ forall r, res = Ok r ->
    exists t k, tree_at w' r = Some t /\ extends R (main w) (t :: k) /\ extends R (t :: k) (main w').
Proof.
  unfold hub_head, hub_bind. destruct (repo_info_sha w) as [r0 w1] eqn:E.
  destruct (repo_info_law _ _ _ E) as [Hg Hr]. destruct r0 as [[r|]|e].
  - destruct (String.eqb_spec r ""); intros [= <- <-]; (split; [done|]); [done|].
    intros ? [= <-]. by apply Hr.
  - intros [= <- <-]. by split.
  - intros [= <- <-]. by split.
Qed.

(** A step of a body only reads: the world grows, and the decision is right
    for the tree of the revision it read. *)
Definition reads {A} (body : hub W A) (r : string) (P : tree -> result A -> Prop) : Prop :=
  forall w res w' t, tree_at w r = Some t -> body w = (res, w') -> grows w w' /\ P t res.

Lemma reads_ret {A} r (x : A) (P : tree -> result A -> Prop) :
  (forall t, P t (Ok x)) -> reads (hub_ret x) r P.
Proof. intros HP w res w' t _ [= <- <-]. split; [apply grows_refl|done]. Qed.

Lemma reads_lift {A} r (x : result A) (P : tree -> result A -> Prop) :
  (forall t, P t x) -> reads (hub_lift x) r P.
Proof. intros HP w res w' t _ [= <- <-]. split; [apply grows_refl|done]. Qed.

Lemma reads_bind {A B} r (m : hub W A) (k : A -> hub W B)
    (P : tree -> result A -> Prop) (Q : tree -> result B -> Prop) :
  reads m r P ->
  (forall a, reads (k a) r (fun t res => P t (Ok a) -> Q t res)) ->
  (forall t e, P t (Err e) -> Q t (Err e)) ->
  reads (hub_bind m k) r Q.
Proof.
  intros Hm Hk He w res w' t Ht. unfold hub_bind.
  destruct (m w) as [[a|e] w1] eqn:E; destruct (Hm _ _ _ _ Ht E) as [Hg HP].
  - intros E2. assert (tree_at w1 r = Some t) as Ht1 by (apply Hg; done).
    destruct (Hk a _ _ _ _ Ht1 E2) as [Hg2 HQ]. split; [by eapply grows_trans|auto].
  - intros [= <- <-]. eauto.
Qed.

Lemma reads_mono {A} r (m : hub W A) (P Q : tree -> result A -> Prop) :
  reads m r P -> (forall t res, P t res -> Q t res) -> reads m r Q.
Proof. intros Hm HPQ w res w' t Ht E. destruct (Hm _ _ _ _ Ht E). auto. Qed.

(** The guarantee of a loop whose commits are [R] steps: [main] only grows by
    [R] steps, whatever the outcome.  The commits may rely on an invariant of
    the world that other clients keep, and on [main] having reached the tree
    they are made on. *)
Lemma commit_loop_grows {A} (Inv : W -> Prop) n contended missing
    (body : string -> hub W (decision A)) w res w' :
  (forall w w', Inv w -> grows w w' -> Inv w') ->
  (forall r w res w' t, Inv w -> tree_at w r = Some t -> body r w = (res, w') ->
     grows w w' /\ forall ops a k, res = Ok (Commit ops a) -> extends R (main w) (t :: k) ->
       R t (apply_ops t ops)) ->
  Inv w -> commit_loop n contended (hub_head missing) body w = (res, w') -> grows w w'.
Proof.
  intros Hstable Hbody. revert w. induction n as [|n IH]; intros w HI; cbn.
  { intros [= <- <-]. apply grows_refl. }
  unfold hub_bind at 1. destruct (hub_head missing w) as [h w1] eqn:E1.
  destruct (hub_head_law _ _ _ _ E1) as [Hg1 Hh].
  destruct h as [r|e]; [|intros [= <- <-]; done].
  destruct (Hh r eq_refl) as (t & k0 & Ht & _). unfold hub_bind at 1.
  destruct (body r w1) as [d w2] eqn:E2.
  destruct (Hbody r _ _ _ _ (Hstable _ _ HI Hg1) Ht E2) as [Hg2 HR].
  pose proof (grows_trans _ _ _ Hg1 Hg2) as Hg.
  destruct d as [[a|ops a]|e]; [by intros [= <- <-]| |by intros [= <- <-]].
  assert (tree_at w2 r = Some t) as Ht2 by (apply Hg2; done).
  unfold hub_catch, hub_bind. destruct (create_commit r ops w2) as [c w3] eqn:E3.
  pose proof (create_commit_law _ _ _ _ _ E3) as Hc.
  assert (forall oid, commits w2 w3 r ops oid -> grows w2 w3) as Hcg.
  { intros oid (Htree & t' & k & Ht' & Hext & Hmain & _). specialize (Ht' _ Ht2) as <-.
    split; [done|]. rewrite Hmain. constructor; [done|]. eapply HR; [done|].
    eapply extends_trans; [apply Hg2|exact Hext]. }
  destruct c as [oid|e].
  - intros [= <- <-]. eapply grows_trans; eauto.
  - assert (grows w2 w3) by (destruct Hc as [|[_ ?]]; eauto).
    assert (grows w w3) as Hg3 by (by eapply grows_trans).
    destruct (_is_parent_conflict e).
    + intros E4. eapply grows_trans; [exact Hg3|]. eapply IH; [|exact E4]. by eapply Hstable.
    + by intros [= <- <-].
Qed.

Lemma commit_loop_reads_grows {A} n contended missing (body : string -> hub W (decision A)) w res w' :
  (forall r, reads (body r) r (fun t res =>
     forall ops a, res = Ok (Commit ops a) -> R t (apply_ops t ops))) ->
  commit_loop n contended (hub_head missing) body w = (res, w') -> grows w w'.
Proof.
  intros Hbody. apply (commit_loop_grows (fun _ => True)); [done| |done].
  intros r v res' v' t _ Ht E. destruct (Hbody r _ _ _ _ Ht E). naive_solver.
Qed.

(** What a normal return means: at some tree of [main] the body decided to
    return, or decided to commit and that commit was made on that tree. *)
Lemma commit_loop_returns {A} n contended missing (body : string -> hub W (decision A))
    (P : tree -> result (decision A) -> Prop) w (a : A) w' :
  (forall r, reads (body r) r P) ->
  commit_loop n contended (hub_head missing) body w = (Ok a, w') ->
  (exists t k, extends R (t :: k) (main w') /\ P t (Ok (Return a))) \/
  (exists t ops k, P t (Ok (Commit ops a)) /\ main w' = apply_ops t ops :: t :: k).
Proof.
  intros Hbody. revert w. induction n as [|n IH]; intros w; cbn; [done|].
  unfold hub_bind at 1. destruct (hub_head missing w) as [h w1] eqn:E1.
  destruct (hub_head_law _ _ _ _ E1) as [Hg1 Hh].
  destruct h as [r|e]; [|done].
  destruct (Hh r eq_refl) as (t & k0 & Ht & _ & Hin). unfold hub_bind at 1.
  destruct (body r w1) as [d w2] eqn:E2.
  destruct (Hbody r _ _ _ _ Ht E2) as [Hg2 HP].
  destruct d as [[b|ops b]|e]; [| |done].
  - intros [= -> <-]. left. exists t, k0. split; [|done].
    destruct Hg2 as [_ Hext]. by eapply extends_trans.
  - assert (tree_at w2 r = Some t) as Ht2 by (apply Hg2; done).
    unfold hub_catch, hub_bind. destruct (create_commit r ops w2) as [c w3] eqn:E3.
    pose proof (create_commit_law _ _ _ _ _ E3) as Hc. destruct c as [oid|e].
    + intros [= -> <-]. right. destruct Hc as (_ & t' & k & Ht' & _ & Hmain & _).
      specialize (Ht' _ Ht2) as <-. eauto.
    + destruct (_is_parent_conflict e); [apply IH|done].
Qed.

Lemma commit_loop_ok {A} n contended missing (body : string -> hub W (decision A))
    (P : tree -> result (decision A) -> Prop) w (a : A) w' :
  (forall r, reads (body r) r P) ->
  commit_loop n contended (hub_head missing) body w = (Ok a, w') ->
  (exists t, t ∈ main w' /\ P t (Ok (Return a))) \/
  (exists t ops k, P t (Ok (Commit ops a)) /\ main w' = apply_ops t ops :: t :: k).
Proof.
  intros Hbody E. destruct (commit_loop_returns _ _ _ _ _ _ _ _ Hbody E) as [(t & k & Hext & Hr)|]; [|by right].
  left. exists t. split; [|done]. eapply extends_elem; [exact Hext|]. by left.
Qed.

(** Every end of the loop: it was contended, the head could not be read, or the
    body decided on the tree of the head it read, and what it decided was done. *)
Inductive loop_run {A} (contended missing : exn) (body : string -> hub W (decision A)) (w : W)
    : result A -> W -> Prop :=
  | loop_contended w' : grows w w' -> loop_run contended missing body w (Err contended) w'
  | loop_headless e w1 w' :
      grows w w1 -> hub_head missing w1 = (Err e, w') -> loop_run contended missing body w (Err e) w'
  | loop_decided r t k d w1 w2 res w' :
      grows w w1 -> tree_at w1 r = Some t -> extends R (main w) (t :: k) -> extends R (t :: k) (main w1) ->
      body r w1 = (d, w2) -> grows w1 w2 ->
      match d with
      | Err e => res = Err e /\ w' = w2
      | Ok (Return a) => res = Ok a /\ w' = w2
      | Ok (Commit ops a) => exists c, create_commit r ops w2 = (c, w') /\
          match c with Ok _ => res = Ok a | Err e => _is_parent_conflict e = false /\ res = Err e end
      end ->
      loop_run contended missing body w res w'.

Lemma loop_run_later {A} contended missing (body : string -> hub W (decision A)) w w1 res w' :
  grows w w1 -> loop_run contended missing body w1 res w' -> loop_run contended missing body w res w'.
Proof.
  intros Hg [v Hv|e v v' Hv He|r t k d v1 v2 res' v' Hv Ht He1 He2 Eb Hg' Hd].
  - constructor. by eapply grows_trans.
  - eapply loop_headless; [|exact He]. by eapply grows_trans.
  - eapply loop_decided; [|exact Ht| |exact He2|exact Eb|exact Hg'|exact Hd]; [by eapply grows_trans|].
    eapply extends_trans; [apply Hg|exact He1].
Qed.

Lemma commit_loop_run {A} n contended missing (body : string -> hub W (decision A)) w res w' :
  (forall r v d v' t, tree_at v r = Some t -> body r v = (d, v') -> grows v v') ->
  commit_loop n contended (hub_head missing) body w = (res, w') ->
  loop_run contended missing body w res w'.
Proof.
  intros Hbody. revert w. induction n as [|n IH]; intros w; cbn.
  { intros [= <- <-]. constructor. apply grows_refl. }
  unfold hub_bind at 1. destruct (hub_head missing w) as [h w1] eqn:E1.
  destruct (hub_head_law _ _ _ _ E1) as [Hg1 Hh].
  destruct h as [r|e].
  2: { intros [= <- <-]. eapply loop_headless; [apply grows_refl|exact E1]. }
  destruct (Hh r eq_refl) as (t & k & Ht & He1 & He2). unfold hub_bind at 1.
  destruct (body r w1) as [d w2] eqn:E2. pose proof (Hbody r _ _ _ _ Ht E2) as Hg2.
  destruct d as [[a|ops a]|e].
  - intros [= <- <-]. eapply loop_decided; [exact Hg1|done..|exact E2|exact Hg2|]. by split.
  - unfold hub_catch, hub_bind. destruct (create_commit r ops w2) as [c w3] eqn:E3.
    pose proof (create_commit_law _ _ _ _ _ E3) as Hc. destruct c as [oid|e].
    + intros [= <- <-]. eapply loop_decided; [exact Hg1|done..|exact E2|exact Hg2|]. by eexists.
    + destruct (_is_parent_conflict e) eqn:Ep.
      * destruct Hc as [Hg3|[Hp _]]; [|congruence]. intros E4%IH.
        eapply loop_run_later; [|exact E4]. eapply grows_trans; [exact Hg1|]. by eapply grows_trans.
      * intros [= <- <-]. eapply loop_decided; [exact Hg1|done..|exact E2|exact Hg2|]. by eexists.
  - intros [= <- <-]. eapply loop_decided; [exact Hg1|done..|exact E2|exact Hg2|]. by split.
Qed.

(** ** Hoare triples: from a world in [P] the computation only extends [main],
    and [Q] holds of what it returns or raises. *)
Definition triple {A} (P : W -> Prop) (m : hub W A) (Q : result A -> W -> Prop) : Prop :=
  forall w res w', P w -> m w = (res, w') -> grows w w' /\ Q res w'.

Lemma triple_lift {A} (P : W -> Prop) (x : result A) (Q : result A -> W -> Prop) :
  (forall w, P w -> Q x w) -> triple P (hub_lift x) Q.
Proof. intros HQ w res w' Hp [= <- <-]. split; [apply grows_refl|auto]. Qed.

Lemma triple_ret {A} (P : W -> Prop) (x : A) (Q : result A -> W -> Prop) :
  (forall w, P w -> Q (Ok x) w) -> triple P (hub_ret x) Q.
Proof. apply (triple_lift P (Ok x)). Qed.

Lemma triple_raise {A} (P : W -> Prop) e (Q : result A -> W -> Prop) :
  (forall w, P w -> Q (Err e) w) -> triple P (hub_raise e) Q.
Proof. apply (triple_lift P (Err e)). Qed.

Lemma triple_bind {A B} (P : W -> Prop) (m : hub W A) (k : A -> hub W B)
    (Q1 : result A -> W -> Prop) (Q : result B -> W -> Prop) :
  triple P m Q1 -> (forall a, triple (Q1 (Ok a)) (k a) Q) ->
  (forall e w, Q1 (Err e) w -> Q (Err e) w) -> triple P (hub_bind m k) Q.
Proof.
  intros Hm Hk He w res w' Hp E. apply hub_bind_inv in E as (r & w1 & Em & E).
  destruct (Hm _ _ _ Hp Em) as [Hg HQ]. destruct r as [a|e].
  - destruct (Hk a _ _ _ HQ E) as [Hg2 HQ2]. split; [by eapply grows_trans|done].
  - destruct E as [-> ->]. auto.
Qed.

Lemma triple_try {A} (P : W -> Prop) (m : hub W A) (Q : result A -> W -> Prop) :
  triple P m Q -> triple P (hub_try m) (fun res w => match res with Ok r => Q r w | Err _ => False end).
Proof.
  intros Hm w res w' Hp E. unfold hub_try in E. destruct (m w) as [r w1] eqn:Em.
  injection E as <- <-. by apply (Hm w).
Qed.

Lemma triple_weaken {A} (P P' : W -> Prop) (m : hub W A) (Q Q' : result A -> W -> Prop) :
  triple P m Q -> (forall w, P' w -> P w) -> (forall res w, Q res w -> Q' res w) -> triple P' m Q'.
Proof. intros Hm HP HQ w res w' Hp E. destruct (Hm _ _ _ (HP _ Hp) E). auto. Qed.

(** A fact that other clients cannot undo. *)
Definition stable (I : W -> Prop) : Prop := forall w w', I w -> grows w w' -> I w'.

Lemma triple_frame {A} (I P : W -> Prop) (m : hub W A) (Q : result A -> W -> Prop) :
  stable I -> triple P m Q -> triple (fun w => I w /\ P w) m (fun res w => I w /\ Q res w).
Proof.
  intros Hs Hm w res w' [Hi Hp] E. destruct (Hm _ _ _ Hp E) as [Hg HQ].
  split; [done|]. split; [by eapply Hs|done].
Qed.

Lemma triple_grows {A} (P : W -> Prop) (m : hub W A) :
  (forall w res w', P w -> m w = (res, w') -> grows w w') -> triple P m (fun _ _ => True).
Proof. intros Hm w res w' Hp E. split; [by eapply Hm|done]. Qed.

(** Reading a path at a revision. *)
Lemma reads_exists path r :
  reads (get_paths_info path r) r (fun t res => forall b, res = Ok b -> b = is_some (t !! path)).
Proof.
  intros w res w' t Ht E. destruct (get_paths_info_law _ _ _ _ _ E) as [Hg Hb]. eauto.
Qed.

Lemma reads_download path r :
  reads (hf_hub_download path r) r (fun t res => forall d, res = Ok d -> t !! path = Some d).
Proof.
  intros w res w' t Ht E. destruct (hf_hub_download_law _ _ _ _ _ E) as [Hg Hb]. eauto.
Qed.
End hub.

(** ** A logic of the computations over a world: relations between the world a
    computation finds and the one it leaves, whatever way it ends, with
    one rule per construct, and what a normal return of a sequence means. *)
(** ** Relations that computations keep *)
Section keeps.
Context {W : Type} (R : W -> W -> Prop) `{!PreOrder R}.

(** Whatever way [m] ends, the world it leaves is related to the one it found. *)
Definition keeps {A} (m : hub W A) : Prop := forall w, R w (m w).2.

Lemma keeps_run {A} (m : hub W A) w r w' : keeps m -> m w = (r, w') -> R w w'.
Proof. intros Hm E. specialize (Hm w). by rewrite E in Hm. Qed.

Lemma keeps_ret {A} (a : A) : keeps (hub_ret a).
Proof. intros w. reflexivity. Qed.
Lemma keeps_raise {A} e : keeps (@hub_raise W A e).
Proof. intros w. reflexivity. Qed.
Lemma keeps_lift {A} (r : result A) : keeps (hub_lift r).
Proof. intros w. reflexivity. Qed.

Lemma keeps_bind {A B} (m : hub W A) (k : A -> hub W B) :
  keeps m -> (forall a, keeps (k a)) -> keeps (hub_bind m k).
Proof.
  intros Hm Hk w. unfold hub_bind. specialize (Hm w). destruct (m w) as [[a|e] w1]; [|exact Hm].
  etransitivity; [exact Hm|apply Hk].
Qed.

Lemma keeps_bind_lift {A B} (r : result A) (k : A -> hub W B) :
  (forall a, r = Ok a -> keeps (k a)) -> keeps (hub_bind (hub_lift r) k).
Proof. intros Hk w. unfold hub_bind, hub_lift. destruct r as [a|e]; [by apply Hk|]. cbn. reflexivity. Qed.

Lemma keeps_catch {A} (m : hub W A) h :
  keeps m -> (forall e k, h e = Some k -> keeps k) -> keeps (hub_catch m h).
Proof.
  intros Hm Hh w. unfold hub_catch. specialize (Hm w). destruct (m w) as [[a|e] w1]; [exact Hm|].
  destruct (h e) as [k|] eqn:E; [|exact Hm]. etransitivity; [exact Hm|by apply (Hh e)].
Qed.

Lemma keeps_try {A} (m : hub W A) : keeps m -> keeps (hub_try m).
Proof. intros Hm w. unfold hub_try. specialize (Hm w). by destruct (m w). Qed.

Lemma keeps_finally {A} (m : hub W A) cleanup : keeps m -> keeps cleanup -> keeps (hub_finally m cleanup).
Proof.
  intros Hm Hc w. unfold hub_finally. specialize (Hm w). destruct (m w) as [r w1].
  specialize (Hc w1). destruct (cleanup w1) as [[u|e] w2]; by etransitivity.
Qed.

Lemma keeps_mapM {A B} (f : A -> hub W B) l : (forall a, keeps (f a)) -> keeps (hub_mapM f l).
Proof.
  intros Hf. induction l as [|a l IH]; cbn; [apply keeps_ret|].
  apply keeps_bind; [done|]. intros b. apply keeps_bind; [done|]. intros bs. apply keeps_ret.
Qed.

Lemma keeps_foldM {A S} (f : S -> A -> hub W S) s l : (forall s a, keeps (f s a)) -> keeps (hub_foldM f s l).
Proof.
  intros Hf. revert s. induction l as [|a l IH]; intros s; cbn; [apply keeps_ret|].
  apply keeps_bind; [done|]. intros s'. apply IH.
Qed.
End keeps.

Create HintDb keeps discriminated.
#[export] Hint Constants Opaque : keeps.
#[export] Hint Resolve keeps_ret keeps_raise keeps_lift keeps_try keeps_finally keeps_mapM keeps_foldM : keeps.
#[export] Hint Extern 1 (PreOrder _) => apply _ : keeps.

(** One step of a computation: a bind, a handler, a case, or a known leaf. *)
Ltac keeps_step :=
  lazymatch goal with
  | |- keeps _ (hub_bind (hub_lift _) _) => apply keeps_bind_lift; [apply _|intros ? ?]
  | |- keeps _ (hub_bind _ _) => apply keeps_bind; [apply _| |intros ?]
  | |- keeps _ (hub_catch _ _) => apply keeps_catch; [apply _| |intros ? ? ?]
  | |- keeps _ (match ?x with _ => _ end) => destruct x eqn:?
  | |- keeps _ (let '(_, _) := ?x in _) => destruct x
  | |- keeps _ _ => eauto with keeps
  end.

(** ** Sequences *)

(** A returned [hub_mapM] returned for every element, in worlds between. *)
Lemma hub_mapM_inv {W A B} (R : W -> W -> Prop) `{!PreOrder R} (f : A -> hub W B) l w ys w' :
  (forall a, a ∈ l -> keeps R (f a)) ->
  hub_mapM f l w = (Ok ys, w') ->
  R w w' /\ Forall2 (fun a b => exists w1 w2, R w w1 /\ f a w1 = (Ok b, w2) /\ R w2 w') l ys.
Proof.
  revert w ys. induction l as [|a l IH]; intros w ys Hk; cbn [hub_mapM].
  { intros [= <- <-]. split; [reflexivity|constructor]. }
  unfold hub_bind. destruct (f a w) as [[b|e] w1] eqn:Ea; [|done].
  destruct (hub_mapM f l w1) as [[bs|e] w2] eqn:El; [|done]. intros [= <- <-].
  assert (Hw : R w w1) by (pose proof (Hk a ltac:(by left) w) as K; by rewrite Ea in K).
  apply IH in El as [Hr HF]; [|intros x Hx; apply Hk; by right].
  split; [by etransitivity|]. constructor; [by exists w, w1|].
  eapply Forall2_impl; [exact HF|]. intros x y (w3 & w4 & H3 & E & H4).
  exists w3, w4. split_and!; [by etransitivity|done|done].
Qed.

(** Inversion of a returned sequence: [x] is what its first step returned. *)
Tactic Notation "ok_bind" hyp(H) "as" ident(x) ident(E) :=
  let w := fresh "w" in
  apply hub_bind_inv in H as (x & w & E & H); destruct x as [x|]; [|by destruct H].

(** ... and one that begins with a pure step. *)
Tactic Notation "ok_lift" hyp(H) "as" ident(x) ident(E) :=
  let w := fresh "w" in
  apply hub_bind_inv in H as (x & w & E & H); destruct x as [x|]; [|by destruct H];
  unfold hub_lift in E; injection E as E <-.
