(* ===== verification/Endpoints.v ===== *)
(** Managed inference endpoints (src/src/harbor_hf/endpoints.py).

    The configuration of an endpoint and its deterministic identity, the exact
    comparison of a desired with an observed configuration, and
    [EndpointProvisioner], which creates or adopts, pauses and deletes an
    endpoint through a provider it does not trust: a failed call may have taken
    effect, and only a later inspection tells.

    The provider, [time.sleep] and [time.monotonic] are the class
    [EndpointProvisioningPort]; time is in microseconds.  Polling loops carry
    the fuel [polls], which [EndpointFacts] proves to be enough. *)
From Stdlib Require Import Floats.SpecFloat.
From S2P Require Import Prelude.
From S2P Require Import PyDict.
From S2P Require Import Float64.
From S2P Require Import Sha256.
From S2P Require Import Json.
From S2P Require Import Patterns.
From S2P Require Import Campaigns.
From S2P Require Import Models.
From S2P Require Import Manifest.
From S2P Require Import Planner.
From S2P Require Import Hub.

Definition ENDPOINT_PAUSE_TIMEOUT_SECONDS : Z := 300.
Definition _MANAGED_TAG : string := "harbor-hf-managed".

(** ** Configuration *)
Inductive ScalingMetric := metric_pending_requests | metric_hardware_usage.
Inductive AccessType := access_public | access_authenticated | access_private.

Record EndpointScaling := {
  sc_min_replicas : Z;
  sc_max_replicas : Z;
  sc_scale_to_zero_timeout : option Z;
  sc_metric : option ScalingMetric;
  sc_threshold : option spec_float;
}.

Record EndpointCompute := {
  ec_accelerator : string;
  ec_instance_size : string;
  ec_instance_type : string;
  ec_scaling : EndpointScaling;
}.

Record EndpointProvider := {
  ev_vendor : string;
  ev_region : string;
  ev_account_id : option string;
}.

Record EndpointImage := {
  ei_url : string;
  ei_health_route : string;
  ei_port : option Z;
}.

Record EndpointModel := {
  em_repository : string;
  em_revision : string;
  em_framework : string;
  em_task : string;
  em_image : EndpointImage;
  em_command : list string;
  em_arguments : list string;
  em_environment : dict string;
  em_secret_names : list string;
}.

Record EndpointRoute := {
  rt_domain : option string;
  rt_path : option string;
}.

Record EndpointConfiguration := {
  cf_model : EndpointModel;
  cf_compute : EndpointCompute;
  cf_provider : EndpointProvider;
  cf_access_type : AccessType;
  cf_route : EndpointRoute;
  cf_cache_http_responses : bool;
  cf_tags : list string;
}.

(** ** Identity, status, snapshots *)
Record ManagedEndpointIdentity := {
  mi_namespace : string;
  mi_name : string;
  mi_campaign_id : string;
  mi_deployment_digest : string;
  mi_tags : list string;
}.

Record DesiredEndpoint := {
  de_identity : ManagedEndpointIdentity;
  de_configuration : EndpointConfiguration;
}.

Record EndpointStatus := {
  st_state : string;
  st_ready_replicas : Z;
  st_target_replicas : Z;
  st_url : option string;
}.

Record EndpointSnapshot := {
  sn_namespace : string;
  sn_name : string;
  sn_configuration : EndpointConfiguration;
  sn_status : EndpointStatus;
}.

Record ConfigurationMismatch := {
  mm_path : string;
  mm_expected : string;
  mm_observed : string;
}.

Inductive ProvisioningAction := endpoint_created | endpoint_adopted.

Record ProvisioningResult := {
  pr_action : ProvisioningAction;
  pr_snapshot : EndpointSnapshot;
}.

(** [EndpointSettings]: what the deployment parameters of a manifest may set. *)
Record EndpointSettings := {
  se_accelerator : string;
  se_instance_type : option string;
  se_min_replicas : Z;
  se_max_replicas : Z;
  se_scale_to_zero_timeout : option Z;
  se_scaling_metric : option ScalingMetric;
  se_scaling_threshold : option spec_float;
  se_framework : string;
  se_task : string;
  se_health_route : string;
  se_port : option Z;
  se_endpoint_type : AccessType;
  se_account_id : option string;
  se_domain : option string;
  se_path : option string;
  se_cache_http_responses : bool;
  se_tags : list string;
}.

(** ** Validators *)

(** [^/[^?#]*$] *)
Definition is_route (s : string) : bool :=
  match s with
  | EmptyString => false
  | String c s => Ascii.eqb c "/"%char && str_forall (fun c => negb (char_mem c "?#")) s
  end.

(** [scaling_is_consistent] *)
Definition validate_EndpointScaling (s : EndpointScaling) : result EndpointScaling :=
  let* _ := fields_ok "EndpointScaling"
    ((0 <=? sc_min_replicas s) && (1 <=? sc_max_replicas s) &&
     opt_valid (Z.leb 0) (sc_scale_to_zero_timeout s) &&
     opt_valid (float_ltb float_zero) (sc_threshold s)) in
  raise_if sc_max_replicas s <? sc_min_replicas s
    with ValidationError "maximum replicas must be at least minimum replicas";;
  raise_if negb (Bool.eqb (is_some (sc_metric s)) (is_some (sc_threshold s)))
    with ValidationError "scaling metric and threshold must be configured together";;
  Ok s.

(** [secret_names_are_canonical], [tags_are_canonical] *)
Definition canonical_names (what : string) (value : list string) : result (list string) :=
  raise_if negb (forallb nonempty value) with ValidationError (what +:+ " must not be empty");;
  raise_if negb (str_unique value) with ValidationError (what +:+ " must be unique");;
  Ok (sort_by str_leb value).

Definition validate_EndpointModel (m : EndpointModel) : result EndpointModel :=
  let* _ := fields_ok "EndpointModel"
    (nonempty (ei_url (em_image m)) && is_route (ei_health_route (em_image m)) &&
     opt_valid (between 1 65535) (ei_port (em_image m)) &&
     nonempty (em_repository m) && hex_fullmatch 40 (em_revision m) && nonempty (em_framework m) &&
     nonempty (em_task m)) in
  let* secret_names := canonical_names "secret names" (em_secret_names m) in
  Ok {|
    em_repository := em_repository m;
    em_revision := em_revision m;
    em_framework := em_framework m;
    em_task := em_task m;
    em_image := em_image m;
    em_command := em_command m;
    em_arguments := em_arguments m;
    em_environment := em_environment m;
    em_secret_names := secret_names;
  |}.

Definition validate_EndpointConfiguration (c : EndpointConfiguration) : result EndpointConfiguration :=
  let* model := validate_EndpointModel (cf_model c) in
  let* _ := validate_EndpointScaling (ec_scaling (cf_compute c)) in
  let* _ := fields_ok "EndpointConfiguration"
    (nonempty (ec_accelerator (cf_compute c)) && nonempty (ec_instance_size (cf_compute c)) &&
     nonempty (ec_instance_type (cf_compute c)) && nonempty (ev_vendor (cf_provider c)) &&
     nonempty (ev_region (cf_provider c)) && opt_valid nonempty (ev_account_id (cf_provider c)) &&
     opt_valid nonempty (rt_domain (cf_route c)) && opt_valid is_route (rt_path (cf_route c))) in
  let* tags := canonical_names "endpoint tags" (cf_tags c) in
  Ok {|
    cf_model := model;
    cf_compute := cf_compute c;
    cf_provider := cf_provider c;
    cf_access_type := cf_access_type c;
    cf_route := cf_route c;
    cf_cache_http_responses := cf_cache_http_responses c;
    cf_tags := tags;
  |}.

(** ** Managed identities *)

(** [_managed_identity_values] *)
Definition _managed_identity_values (namespace campaign_id deployment_digest : string)
    : string * list string :=
  let identity_hash := str_removeprefix "sha256:" (_digest (jobj (
    fld "namespace" (JStr namespace) ++ fld "campaign_id" (JStr campaign_id) ++
    fld "deployment_digest" (JStr deployment_digest)))) in
  let digest_hash := str_removeprefix "sha256:" deployment_digest in
  let campaign_hash := sha256_hex campaign_id in
  ("harbor-hf-" +:+ str_take 40 identity_hash,
   sort_by str_leb [_MANAGED_TAG; "harbor-hf-campaign-" +:+ str_take 24 campaign_hash;
                    "harbor-hf-deployment-" +:+ str_take 24 digest_hash]).

(** [managed_tags_are_canonical], [identity_is_deterministic] *)
Definition validate_identity (i : ManagedEndpointIdentity) : result ManagedEndpointIdentity :=
  let i := {| mi_namespace := mi_namespace i; mi_name := mi_name i; mi_campaign_id := mi_campaign_id i;
              mi_deployment_digest := mi_deployment_digest i; mi_tags := sort_by str_leb (mi_tags i) |} in
  let* _ := fields_ok "ManagedEndpointIdentity"
    (nonempty (mi_namespace i) && is_profile_id (mi_name i) && safe_component 99 (mi_campaign_id i) &&
     is_content_digest (mi_deployment_digest i)) in
  let '(expected_name, expected_tags) :=
    _managed_identity_values (mi_namespace i) (mi_campaign_id i) (mi_deployment_digest i) in
  raise_if negb (String.eqb (mi_name i) expected_name) || negb (bool_decide (mi_tags i = expected_tags))
    with ValidationError "managed endpoint identity is not deterministic";;
  Ok i.

(** [managed_endpoint_identity] *)
Definition managed_endpoint_identity (namespace campaign_id deployment_digest : string)
    : result ManagedEndpointIdentity :=
  let '(name, tags) := _managed_identity_values namespace campaign_id deployment_digest in
  validate_identity {|
    mi_namespace := namespace;
    mi_name := name;
    mi_campaign_id := campaign_id;
    mi_deployment_digest := deployment_digest;
    mi_tags := tags;
  |}.

(** [set(l) <= set(k)] *)
Definition subset_of (l k : list string) : bool := forallb (fun x => str_mem x k) l.

(** [configuration_has_managed_tags] *)
Definition validate_DesiredEndpoint (d : DesiredEndpoint) : result DesiredEndpoint :=
  raise_if negb (subset_of (mi_tags (de_identity d)) (cf_tags (de_configuration d)))
    with ValidationError "endpoint configuration is missing managed identity tags";;
  Ok d.

(** [served_model_name]: the value after the first of the options, if not empty *)
Definition served_options : list string := ["--served-model-name"; "--alias"; "-a"; "--model"].

Fixpoint argument_after (option_name : string) (arguments : list string) : option string :=
  match arguments with
  | [] => None
  | a :: rest =>
      if String.eqb a option_name then
        match rest with value :: _ => if nonempty value then Some value else None | [] => None end
      else argument_after option_name rest
  end.

Definition served_model_name (deployment : DeploymentProfile) (model : ModelProfile) : string :=
  match omap (fun o => argument_after o (en_arguments (dp_engine deployment))) served_options with
  | value :: _ => value
  | [] => mp_repo model
  end.

Section desired.
Context `{PydanticModel EndpointSettings}.

(** [EndpointSettings.model_validate] and its validator *)
Definition parse_settings (parameters : dict json) : result EndpointSettings :=
  let* s := model_validate (A := EndpointSettings) (JObj parameters) in
  let* _ := validate_EndpointScaling {|
    sc_min_replicas := se_min_replicas s;
    sc_max_replicas := se_max_replicas s;
    sc_scale_to_zero_timeout := se_scale_to_zero_timeout s;
    sc_metric := se_scaling_metric s;
    sc_threshold := se_scaling_threshold s;
  |} in
  Ok s.

(** [build_desired_endpoint] *)
Definition build_desired_endpoint (namespace campaign_id : string) (model : ModelProfile)
    (deployment : DeploymentProfile) : result DesiredEndpoint :=
  let digest := deployment_digest model (target_endpoint deployment) in
  let* identity := managed_endpoint_identity namespace campaign_id digest in
  let* settings := parse_settings (dp_parameters deployment) in
  match str_partition "-"%char (dp_region deployment) with
  | None => Err (ValueError "deployment region must use vendor-region form")
  | Some (vendor, region) =>
      raise_if negb (nonempty region) with ValueError "deployment region must use vendor-region form";;
      let engine := dp_engine deployment in
      let* configuration := validate_EndpointConfiguration {|
        cf_model := {|
          em_repository := mp_repo model;
          em_revision := mp_revision model;
          em_framework := se_framework settings;
          em_task := se_task settings;
          em_image := {| ei_url := en_image engine; ei_health_route := se_health_route settings;
                         ei_port := se_port settings |};
          em_command := en_command engine;
          em_arguments := en_arguments engine;
          em_environment := en_environment engine;
          em_secret_names := en_secret_names engine;
        |};
        cf_compute := {|
          ec_accelerator := se_accelerator settings;
          ec_instance_size := "x" +:+ pretty (dp_accelerator_count deployment);
          ec_instance_type := opt_str_or (se_instance_type settings) ("nvidia-" +:+ dp_hardware deployment);
          ec_scaling := {|
            sc_min_replicas := se_min_replicas settings;
            sc_max_replicas := se_max_replicas settings;
            sc_scale_to_zero_timeout := se_scale_to_zero_timeout settings;
            sc_metric := se_scaling_metric settings;
            sc_threshold := se_scaling_threshold settings;
          |};
        |};
        cf_provider := {| ev_vendor := vendor; ev_region := region; ev_account_id := se_account_id settings |};
        cf_access_type := se_endpoint_type settings;
        cf_route := {| rt_domain := se_domain settings; rt_path := se_path settings |};
        cf_cache_http_responses := se_cache_http_responses settings;
        cf_tags := sort_by str_leb (se_tags settings ++ mi_tags identity);
      |} in
      validate_DesiredEndpoint {| de_identity := identity; de_configuration := configuration |}
  end.
End desired.

(** [endpoint_ref_for] *)
Definition endpoint_ref_for (desired : DesiredEndpoint) (deployment : DeploymentProfile)
    (model : ModelProfile) : EndpointRef := {|
  er_namespace := mi_namespace (de_identity desired);
  er_name := mi_name (de_identity desired);
  er_served_model_name := served_model_name deployment model;
|}.

(** [profile.model_copy(update={"endpoint": endpoint})] *)
Definition with_endpoint (d : DeploymentProfile) (endpoint : EndpointRef) : DeploymentProfile := {|
  dp_id := dp_id d;
  dp_hardware := dp_hardware d;
  dp_accelerator_count := dp_accelerator_count d;
  dp_region := dp_region d;
  dp_engine := dp_engine d;
  dp_endpoint := Some endpoint;
  dp_parameters := dp_parameters d;
|}.

Definition with_deployments (spec : ExperimentSpec) (deployments : list DeploymentTarget)
    : ExperimentSpec := {|
  spec_metadata := spec_metadata spec;
  spec_benchmark := spec_benchmark spec;
  spec_matrix := {|
    mx_models := mx_models (spec_matrix spec);
    mx_deployments := deployments;
    mx_agents := mx_agents (spec_matrix spec);
    mx_include := mx_include (spec_matrix spec);
    mx_exclude := mx_exclude (spec_matrix spec);
  |};
  spec_execution := spec_execution spec;
  spec_artifacts := spec_artifacts spec;
  spec_publishing := spec_publishing spec;
  spec_remote := spec_remote spec;
|}.

(** [bind_endpoint] *)
Definition bind_endpoint (spec : ExperimentSpec) (deployment_id : string) (endpoint : EndpointRef)
    : result ExperimentSpec :=
  let* deployments := mapM (fun profile =>
      if negb (String.eqb (target_id profile) deployment_id) then Ok profile
      else match profile with
           | target_endpoint d => Ok (target_endpoint (with_endpoint d endpoint))
           | target_provider _ => Err (ValueError "inference provider deployments cannot bind endpoints")
           end) (mx_deployments (spec_matrix spec)) in
  Ok (with_deployments spec deployments).

(** ** Comparing configurations *)
Definition metric_value (m : ScalingMetric) : string :=
  match m with metric_pending_requests => "pendingRequests" | metric_hardware_usage => "hardwareUsage" end.
Definition access_value (a : AccessType) : string :=
  match a with
  | access_public => "public" | access_authenticated => "authenticated" | access_private => "private"
  end.

(** [configuration.model_dump(mode="json")] *)
Definition EndpointScaling_dump (s : EndpointScaling) : json :=
  jobj [("min_replicas", JInt (sc_min_replicas s)); ("max_replicas", JInt (sc_max_replicas s));
        ("scale_to_zero_timeout", jopt JInt (sc_scale_to_zero_timeout s));
        ("metric", jopt (fun m => JStr (metric_value m)) (sc_metric s));
        ("threshold", jopt JFloat (sc_threshold s))].

Definition EndpointImage_dump (i : EndpointImage) : json :=
  jobj [("url", JStr (ei_url i)); ("health_route", JStr (ei_health_route i)); ("port", jopt JInt (ei_port i))].

Definition EndpointModel_dump (m : EndpointModel) : json :=
  jobj [("repository", JStr (em_repository m)); ("revision", JStr (em_revision m));
        ("framework", JStr (em_framework m)); ("task", JStr (em_task m));
        ("image", EndpointImage_dump (em_image m)); ("command", jstrs (em_command m));
        ("arguments", jstrs (em_arguments m)); ("environment", jdict JStr (em_environment m));
        ("secret_names", jstrs (em_secret_names m))].

Definition EndpointCompute_dump (c : EndpointCompute) : json :=
  jobj [("accelerator", JStr (ec_accelerator c)); ("instance_size", JStr (ec_instance_size c));
        ("instance_type", JStr (ec_instance_type c)); ("scaling", EndpointScaling_dump (ec_scaling c))].

Definition EndpointProvider_dump (p : EndpointProvider) : json :=
  jobj [("vendor", JStr (ev_vendor p)); ("region", JStr (ev_region p));
        ("account_id", jopt JStr (ev_account_id p))].

Definition EndpointRoute_dump (r : EndpointRoute) : json :=
  jobj [("domain", jopt JStr (rt_domain r)); ("path", jopt JStr (rt_path r))].

Definition EndpointConfiguration_dump (c : EndpointConfiguration) : json :=
  jobj [("model", EndpointModel_dump (cf_model c)); ("compute", EndpointCompute_dump (cf_compute c));
        ("provider", EndpointProvider_dump (cf_provider c));
        ("access_type", JStr (access_value (cf_access_type c))); ("route", EndpointRoute_dump (cf_route c));
        ("cache_http_responses", JBool (cf_cache_http_responses c)); ("tags", jstrs (cf_tags c))].

(** [_canonical_display] *)
Definition _canonical_display (value : json) : string := dumps value.

Definition value_mismatch (expected observed : json) (path : string) : list ConfigurationMismatch :=
  if json_eqb expected observed then []
  else [{| mm_path := path; mm_expected := _canonical_display expected;
           mm_observed := _canonical_display observed |}].

Definition get_or_null (o : list (string * json)) (key : string) : json :=
  match dict_get o key with Some v => v | None => JNull end.

(** [_compare_values]: the mismatches of the keys of two mappings in the order
    of the keys; a key that one side lacks counts as [None]. *)
Fixpoint _compare_values (expected observed : json) (path : string) : list ConfigurationMismatch :=
  match expected, observed with
  | JObj e, JObj o =>
      concat (map snd (sort_by key_leb (
        map (fun kv => (kv.1, _compare_values kv.2 (get_or_null o kv.1) (path +:+ "." +:+ kv.1))) e ++
        map (fun kv => (kv.1, value_mismatch JNull kv.2 (path +:+ "." +:+ kv.1)))
          (List.filter (fun kv => negb (dict_has e kv.1)) o))))
  | _, _ => value_mismatch expected observed path
  end.

(** [effective_configuration_mismatches] *)
Definition effective_configuration_mismatches (expected observed : EndpointConfiguration)
    : list ConfigurationMismatch :=
  _compare_values (EndpointConfiguration_dump expected) (EndpointConfiguration_dump observed) "configuration".

(** [verify_exact_endpoint] *)
Definition verify_exact_endpoint (desired : DesiredEndpoint) (snapshot : EndpointSnapshot) : result unit :=
  raise_if negb (String.eqb (sn_namespace snapshot) (mi_namespace (de_identity desired))) ||
           negb (String.eqb (sn_name snapshot) (mi_name (de_identity desired))) ||
           negb (subset_of (mi_tags (de_identity desired)) (cf_tags (sn_configuration snapshot)))
    with EndpointIdentityMismatch "endpoint does not have the expected deterministic managed identity";;
  let mismatches := effective_configuration_mismatches (de_configuration desired) (sn_configuration snapshot) in
  raise_if negb (is_nil mismatches)
    with EndpointConfigurationMismatch ("endpoint effective configuration mismatch: " +:+
                                        str_join ", " (map mm_path mismatches));;
  Ok tt.

(** [_is_paused_zero_ready], [require_paused_zero_ready]; [{x!r}] of the state
    is its text in quotes. *)
Definition _is_paused_zero_ready (snapshot : EndpointSnapshot) : bool :=
  String.eqb (st_state (sn_status snapshot)) "paused" && (st_ready_replicas (sn_status snapshot) =? 0).

Definition status_text (status : EndpointStatus) : string :=
  "state='" +:+ st_state status +:+ "', readyReplica=" +:+ pretty (st_ready_replicas status) +:+
  ", targetReplica=" +:+ pretty (st_target_replicas status).

Definition require_paused_zero_ready (snapshot : EndpointSnapshot) : result unit :=
  raise_if negb (_is_paused_zero_ready snapshot)
    with EndpointNotPaused ("endpoint must report state=paused and readyReplica=0; observed " +:+
                            status_text (sn_status snapshot));;
  Ok tt.

(** ** The provisioner *)

(** The provider, and the clock the provisioner is given. *)
Class EndpointProvisioningPort (W : Type) := {
  port_create : DesiredEndpoint -> hub W EndpointSnapshot;
  port_inspect : ManagedEndpointIdentity -> hub W (option EndpointSnapshot);
  port_pause : ManagedEndpointIdentity -> hub W EndpointSnapshot;
  port_delete : ManagedEndpointIdentity -> hub W unit;
  clock_sleep : Z -> hub W unit;
  clock_monotonic : hub W Z;
}.

(** [isinstance(error, EndpointProvisioningError)] *)
Definition is_provisioning_error (e : exn) : bool :=
  match e with
  | EndpointProvisioningError _ | EndpointNotFound _ | EndpointProviderError _
  | AmbiguousEndpointCreate _ | AmbiguousEndpointPause _ | AmbiguousEndpointDelete _
  | EndpointVerificationTimeout _ | EndpointConfigurationMismatch _ | EndpointIdentityMismatch _
  | EndpointNotPaused _ => true
  | _ => false
  end.

Definition is_mismatch (e : exn) : bool :=
  match e with EndpointIdentityMismatch _ | EndpointConfigurationMismatch _ => true | _ => false end.

Section provisioner.
Context {W : Type} `{PORT : EndpointProvisioningPort W}.

(** [inspect] *)
Definition endpoint_inspect (desired : DesiredEndpoint) : hub W (option EndpointSnapshot) :=
  do snapshot <- port_inspect (de_identity desired);;
  match snapshot with
  | None => hub_ret None
  | Some s => do _u <- hub_lift (verify_exact_endpoint desired s);; hub_ret (Some s)
  end.

(** [_validated_deadline] *)
Definition _validated_deadline (timeout poll : Z) : hub W Z :=
  if (timeout <=? 0) || (poll <=? 0)
  then hub_raise (ValueError "endpoint timeouts and poll intervals must be positive")
  else do t <- clock_monotonic;; hub_ret (t + timeout).

(** [_sleep_before_deadline] *)
Definition _sleep_before_deadline (deadline poll : Z) : hub W bool :=
  do t <- clock_monotonic;;
  let remaining := deadline - t in
  if remaining <=? 0 then hub_ret false
  else do _u <- clock_sleep (Z.min poll remaining);; hub_ret true.

(** The [while True] loops: an attempt ends the loop, or gives the exception to
    raise when the deadline has passed. *)
Fixpoint poll_until {A} (fuel : nat) (attempt : hub W (A + exn)) (deadline poll : Z) : hub W A :=
  match fuel with
  | O => hub_raise OutOfFuel
  | S fuel =>
      do outcome <- attempt;;
      match outcome with
      | inl a => hub_ret a
      | inr timed_out =>
          do slept <- _sleep_before_deadline deadline poll;;
          if slept then poll_until fuel attempt deadline poll else hub_raise timed_out
      end
  end.

Definition polls (timeout poll : Z) : nat := S (S (Z.to_nat (timeout / poll))).

Definition wait_for {A} (attempt : hub W (A + exn)) (timeout poll : Z) : hub W A :=
  do deadline <- _validated_deadline timeout poll;;
  poll_until (polls timeout poll) attempt deadline poll.

(** [_wait_until_present] *)
Definition present_attempt (desired : DesiredEndpoint) : hub W (EndpointSnapshot + exn) :=
  do snapshot <- endpoint_inspect desired;;
  hub_ret (match snapshot with
           | Some s => inl s
           | None => inr (EndpointVerificationTimeout
               "ambiguous endpoint create could not be adopted before timeout")
           end).

Definition _wait_until_present (desired : DesiredEndpoint) (timeout poll : Z) : hub W EndpointSnapshot :=
  wait_for (present_attempt desired) timeout poll.

(** [_wait_until_paused] *)
Definition paused_attempt (desired : DesiredEndpoint) : hub W (EndpointSnapshot + exn) :=
  do snapshot <- endpoint_inspect desired;;
  match snapshot with
  | None => hub_raise (EndpointNotFound "managed endpoint disappeared while pausing")
  | Some s =>
      hub_ret (if _is_paused_zero_ready s then inl s
               else inr (EndpointVerificationTimeout
                 ("endpoint pause did not reach state=paused and readyReplica=0; " +:+
                  status_text (sn_status s))))
  end.

Definition _wait_until_paused (desired : DesiredEndpoint) (timeout poll : Z) : hub W EndpointSnapshot :=
  wait_for (paused_attempt desired) timeout poll.

(** [with suppress(AmbiguousEndpointPause): self.port.pause(identity)] *)
Definition request_pause (identity : ManagedEndpointIdentity) : hub W unit :=
  hub_catch (do _u <- port_pause identity;; hub_ret tt)
    (fun e => match e with AmbiguousEndpointPause _ => Some (hub_ret tt) | _ => None end).

Definition request_delete (identity : ManagedEndpointIdentity) : hub W unit :=
  hub_catch (port_delete identity)
    (fun e => match e with AmbiguousEndpointDelete _ => Some (hub_ret tt) | _ => None end).

(** [_pause_created_identity] *)
Definition cleanup_attempt (identity : ManagedEndpointIdentity) : hub W (EndpointSnapshot + exn) :=
  do snapshot <- port_inspect identity;;
  match snapshot with
  | None => hub_raise (EndpointNotFound "created endpoint disappeared during cleanup")
  | Some s =>
      hub_ret (if _is_paused_zero_ready s then inl s
               else inr (EndpointVerificationTimeout
                 "created endpoint configuration was invalid and cleanup was not verified"))
  end.

Definition _pause_created_identity (identity : ManagedEndpointIdentity) (timeout poll : Z)
    : hub W EndpointSnapshot :=
  do _u <- request_pause identity;;
  wait_for (cleanup_attempt identity) timeout poll.

(** [_wait_until_deleted] *)
Definition deleted_attempt (identity : ManagedEndpointIdentity) : hub W (unit + exn) :=
  do snapshot <- port_inspect identity;;
  hub_ret (match snapshot with
           | None => inl tt
           | Some _ => inr (EndpointVerificationTimeout "endpoint deletion was not verified before timeout")
           end).

Definition _wait_until_deleted (identity : ManagedEndpointIdentity) (timeout poll : Z) : hub W unit :=
  wait_for (deleted_attempt identity) timeout poll.

(** [pause_and_verify] *)
Definition pause_and_verify (desired : DesiredEndpoint) (timeout poll : Z) : hub W EndpointSnapshot :=
  do current <- endpoint_inspect desired;;
  match current with
  | None => hub_raise (EndpointNotFound "managed endpoint does not exist")
  | Some s =>
      if _is_paused_zero_ready s then hub_ret s
      else
        do _u <- request_pause (de_identity desired);;
        _wait_until_paused desired timeout poll
  end.

(** [try: m except EndpointProvisioningError: raise AmbiguousEndpointPause(...)] *)
Definition ambiguous_cleanup {A} (m : hub W A) : hub W A :=
  hub_catch m (fun e =>
    if is_provisioning_error e
    then Some (hub_raise (AmbiguousEndpointPause
           "created endpoint cleanup is not verified and must be retried"))
    else None).

(** The last two [try] blocks of [create_or_adopt]: pausing what was created. *)
Definition pause_created (desired : DesiredEndpoint) (timeout poll : Z) : hub W EndpointSnapshot :=
  hub_catch (pause_and_verify desired timeout poll) (fun e =>
    if is_mismatch e then Some (
      do _u <- ambiguous_cleanup (_pause_created_identity (de_identity desired) timeout poll);;
      hub_raise e)
    else if is_provisioning_error e then Some (
      ambiguous_cleanup (
        do paused <- _pause_created_identity (de_identity desired) timeout poll;;
        do _u <- hub_lift (verify_exact_endpoint desired paused);;
        hub_ret paused))
    else None).

(** Creating, or adopting when the creation is ambiguous. *)
Definition create_endpoint (desired : DesiredEndpoint) (timeout poll : Z)
    : hub W (ProvisioningAction * EndpointSnapshot) :=
  hub_catch (do snapshot <- port_create desired;; hub_ret (endpoint_created, snapshot)) (fun e =>
    match e with
    | AmbiguousEndpointCreate _ => Some (
        do snapshot <- _wait_until_present desired timeout poll;;
        hub_ret (endpoint_adopted, snapshot))
    | _ => None
    end).

(** [create_or_adopt] *)
Definition create_or_adopt (desired : DesiredEndpoint) (timeout poll : Z) : hub W ProvisioningResult :=
  do existing <- endpoint_inspect desired;;
  match existing with
  | Some s =>
      do _u <- hub_lift (require_paused_zero_ready s);;
      hub_ret {| pr_action := endpoint_adopted; pr_snapshot := s |}
  | None =>
      do created <- create_endpoint desired timeout poll;;
      do _u <- hub_catch (hub_lift (verify_exact_endpoint desired created.2)) (fun e =>
        if is_mismatch e then Some (
          do _p <- _pause_created_identity (de_identity desired) timeout poll;;
          hub_raise e)
        else None);;
      do paused <- pause_created desired timeout poll;;
      hub_ret {| pr_action := created.1; pr_snapshot := paused |}
  end.

(** [delete] *)
Definition endpoint_delete (desired : DesiredEndpoint) (timeout poll : Z) : hub W bool :=
  do current <- endpoint_inspect desired;;
  match current with
  | None => hub_ret false
  | Some s =>
      do _u <- hub_lift (require_paused_zero_ready s);;
      do _v <- request_delete (de_identity desired);;
      do _w <- _wait_until_deleted (de_identity desired) timeout poll;;
      hub_ret true
  end.
End provisioner.
