(* ===== verification/Waves.v ===== *)
(** Run locks (runs.py) and wave locks (campaigns.py).

    A reserved wave action is turned into a wave lock: the campaign lock is
    rebuilt from the manifest and compared, the shards of the action are
    selected, every run they belong to gets a run lock on the manifest bound to
    the endpoint of the wave, and the bounds of the wave are taken from the
    campaign lock.  A constructor call of the source is [validate_*]. *)
From Stdlib Require Import Floats.SpecFloat.
From S2P Require Import Prelude.
From S2P Require Import PyDict.
From S2P Require Import Float64.
From S2P Require Import Sha256.
From S2P Require Import Json.
From S2P Require Import Patterns.
From S2P Require Import PyText.
From S2P Require Import Campaigns.
From S2P Require Import Models.
From S2P Require Import Manifest.
From S2P Require Import Planner.
From S2P Require Import Endpoints.

(** ** Run locks (runs.py) *)
Inductive RunLockVersion := run_lock_v1alpha1 | run_lock_v1alpha2.

Record RunLock := {
  rn_schema_version : RunLockVersion;
  rn_run_id : string;
  rn_created_at : Z;
  rn_experiment : string;
  rn_evaluation_id : string;
  rn_publication_role : PublicationRole;
  rn_component_kind : option ComponentKind;
  rn_spec_digest : string;
  rn_benchmark_dataset : string;
  rn_benchmark_dataset_digest : string;
  rn_benchmark_source : option BenchmarkSource;
  rn_benchmark_judge : option BenchmarkJudgeSpec;
  rn_judge_required_tasks : option (list string);
  rn_trial_evidence : option TrialEvidencePolicy;
  rn_benchmark_tasks : list string;
  rn_benchmark_task_digests : dict string;
  rn_model : ModelProfile;
  rn_deployment : DeploymentTarget;
  rn_agent : AgentProfile;
  rn_attempts : Z;
  rn_concurrent_trials : Z;
  rn_serving_profile : option ServingProfileBinding;
  rn_timeout_seconds : Z;
  rn_agent_setup_timeout_multiplier : option spec_float;
  rn_artifact_bucket : string;
  rn_artifact_prefix : string;
  rn_remote : RemoteExecutionSpec;
}.

(** [judge_required_for] *)
Definition judge_required_for (lock : RunLock) (task_name : string) : bool :=
  match rn_judge_required_tasks lock with Some tasks => str_mem task_name tasks | None => false end.

(** Field constraints and [version_matches_fields] *)
Definition validate_RunLock (lock : RunLock) : result RunLock :=
  let* _ := fields_ok "RunLock"
    (is_evaluation_id (rn_evaluation_id lock) &&
     match rn_benchmark_source lock with Some (source_directory _) => false | _ => true end &&
     opt_valid (float_ltb float_zero) (rn_agent_setup_timeout_multiplier lock)) in
  raise_if match rn_schema_version lock with run_lock_v1alpha1 => true | run_lock_v1alpha2 => false end &&
           (is_some (rn_benchmark_source lock) || is_some (rn_benchmark_judge lock))
    with ValidationError "run-lock/v1alpha1 cannot contain source or judge fields";;
  raise_if negb (Bool.eqb (negb (is_some (rn_benchmark_judge lock)))
                          (negb (is_some (rn_judge_required_tasks lock))))
    with ValidationError ("run lock judge configuration requires its resolved " +:+
                          "judge-required task names");;
  raise_if match rn_judge_required_tasks lock with
           | Some tasks =>
               negb (bool_decide (tasks = sorted_set tasks)) ||
               existsb (fun task => negb (dict_has (rn_benchmark_task_digests lock) task)) tasks
           | None => false
           end
    with ValidationError ("run lock judge-required tasks must be sorted, unique, and " +:+
                          "part of the locked task set");;
  Ok lock.

(** [_select] *)
Definition _select {A} (id_of : A -> string) (profiles : list A) (profile_id : option string)
    (dimension : string) : result A :=
  match profile_id with
  | Some id =>
      match List.find (fun p => String.eqb (id_of p) id) profiles with
      | Some p => Ok p
      | None => Err (ValueError ("unknown " +:+ dimension +:+ " profile: " +:+ id))
      end
  | None =>
      match profiles with
      | [p] => Ok p
      | _ => Err (ValueError ("submit requires --" +:+ dimension +:+ " when the matrix has " +:+
                              pretty (len profiles) +:+ " " +:+ dimension +:+ " profiles"))
      end
  end.

(** [_validate_deployment_target] *)
Definition _validate_deployment_target (model : ModelProfile) (deployment : DeploymentTarget)
    (agent : AgentProfile) (remote : RemoteExecutionSpec) (allow_provider : bool) : result unit :=
  match deployment with
  | target_provider t =>
      raise_if negb allow_provider
        with ValueError "Inference Provider targets require campaign execution";;
      validate_provider_cell model t agent
  | target_endpoint d =>
      match dp_endpoint d with
      | None =>
          if allow_provider
          then Err (ValueError ("deployment wave requires a pre-existing endpoint binding; " +:+
                                "endpoint provisioning is outside this slice"))
          else Err (ValueError ("deployment profile " +:+ dp_id d +:+ " requires an endpoint binding"))
      | Some endpoint =>
          raise_if negb (String.eqb (er_namespace endpoint) (job_namespace (remote_job remote)))
            with ValueError "controller Job namespace must match the endpoint namespace for leasing";;
          Ok tt
      end
  end.

(** [_new_run_id]; [json.dumps] with the default separators *)
Definition _new_run_id (name digest : string) (created_at : Z) : string :=
  let identity := "{" +:+ quote "created_at" +:+ ": " +:+ quote (isoformat created_at) +:+ ", " +:+
    quote "digest" +:+ ": " +:+ quote digest +:+ ", " +:+ quote "name" +:+ ": " +:+ quote name +:+ "}" in
  compact_format created_at +:+ "-" +:+ sha256_hex_prefix 10 identity.

(** [build_run_lock]; the manifest is validated again. *)
Definition build_run_lock (spec : ExperimentSpec) (model_id deployment_id agent_id run_id : option string)
    (allow_provider : bool) (created_at : Z) (manifest_digest : option string) : result RunLock :=
  let* spec := validate_ExperimentSpec spec in
  match spec_remote spec with
  | None => Err (ValueError "submit requires a remote configuration")
  | Some remote =>
      let* model := _select mp_id (mx_models (spec_matrix spec)) model_id "model" in
      let* deployment := _select target_id (mx_deployments (spec_matrix spec)) deployment_id "deployment" in
      let* agent := _select ap_id (mx_agents (spec_matrix spec)) agent_id "agent" in
      let selected := {| cell_model := mp_id model; cell_deployment := target_id deployment;
                         cell_agent := ap_id agent |} in
      let* cells := resolved_cells (spec_matrix spec) in
      raise_if negb (bool_decide (selected ∈ cells))
        with ValueError "selected run cell is excluded by matrix rules";;
      raise_if dict_has (ap_parameters agent) "version"
        with ValueError "agent parameter 'version' is reserved by the run lock";;
      raise_if bool_decide (ap_revision_kind agent = revision_harbor_source) &&
               negb (String.eqb (ap_revision agent) (sp_revision (hr_source (remote_harbor remote))))
        with ValueError "Harbor-source agent revision must match the Harbor source";;
      let* _ := _validate_deployment_target model deployment agent remote allow_provider in
      let digest := match manifest_digest with
                    | Some d => if nonempty d then d else experiment_digest spec
                    | None => experiment_digest spec
                    end in
      raise_if match run_id with Some id => negb (campaign_id_matches id) | None => false end
        with ValueError ("run ID must be one safe path component containing only letters, " +:+
                         "digits, dots, underscores, or hyphens, with at most 100 characters");;
      let resolved_id := match run_id with
                         | Some id => id
                         | None => _new_run_id (md_name (spec_metadata spec)) digest created_at
                         end in
      let benchmark := spec_benchmark spec in
      let* judge_tasks :=
        match bm_judge benchmark with
        | Some _ => let* tasks := resolved_judge_required_tasks benchmark in Ok (Some tasks)
        | None => Ok None
        end in
      validate_RunLock {|
        rn_schema_version :=
          if is_some (bm_source benchmark) || is_some (bm_judge benchmark)
          then run_lock_v1alpha2 else run_lock_v1alpha1;
        rn_run_id := resolved_id;
        rn_created_at := created_at;
        rn_experiment := md_name (spec_metadata spec);
        rn_evaluation_id := pb_evaluation_id (spec_publishing spec);
        rn_publication_role := pb_role (spec_publishing spec);
        rn_component_kind := pb_component_kind (spec_publishing spec);
        rn_spec_digest := digest;
        rn_benchmark_dataset := bm_dataset benchmark;
        rn_benchmark_dataset_digest :=
          match bm_dataset_digest benchmark with Some d => d | None => "None" end;
        rn_benchmark_source := bm_source benchmark;
        rn_benchmark_judge := bm_judge benchmark;
        rn_judge_required_tasks := judge_tasks;
        rn_trial_evidence := as_trial_evidence (spec_artifacts spec);
        rn_benchmark_tasks := bm_task_names benchmark;
        rn_benchmark_task_digests := bm_task_digests benchmark;
        rn_model := model;
        rn_deployment := deployment;
        rn_agent := agent;
        rn_attempts := ex_attempts (spec_execution spec);
        rn_concurrent_trials := ex_concurrent_trials (spec_execution spec);
        rn_serving_profile := ex_serving_profile (spec_execution spec);
        rn_timeout_seconds := ex_timeout_seconds (spec_execution spec);
        rn_agent_setup_timeout_multiplier := ex_agent_setup_timeout_multiplier (spec_execution spec);
        rn_artifact_bucket := as_bucket (spec_artifacts spec);
        rn_artifact_prefix := "runs/" +:+ md_name (spec_metadata spec) +:+ "/" +:+ resolved_id;
        rn_remote := remote;
      |}
  end.

(** [new_campaign_id]; [random] is what the identifier factory returns. *)
Definition new_campaign_id (plan : CampaignPlan) (created_at : Z) (random : string) : string :=
  compact_format created_at +:+ "-" +:+ str_take 10 (str_removeprefix "sha256:" (plan_plan_digest plan)) +:+
  "-" +:+ str_take 10 random.

(** ** Wave locks (campaigns.py) *)
Record WaveShardLock := {
  ws_artifact_prefix : string;
  ws_run_id : string;
  ws_shard : CampaignShardLock;
}.

Record WaveRunLock := {
  wr_artifact_prefix : string;
  wr_configuration : RunLock;
  wr_shards : list WaveShardLock;
}.

Inductive WaveDeploymentTarget :=
  | EndpointWaveTarget (endpoint : EndpointRef)
  | ProviderWaveTarget (provider : ProviderTarget).

#[export] Instance WaveDeploymentTarget_eq_dec : EqDecision WaveDeploymentTarget.
Proof. solve_decision. Defined.

Record WaveLock := {
  wl_wave_id : string;
  wl_action_id : string;
  wl_action_key : string;
  wl_action_kind : WaveActionKind;
  wl_campaign_id : string;
  wl_created_at : Z;
  wl_manifest_digest : string;
  wl_plan_digest : string;
  wl_deployment_digest : string;
  wl_target : WaveDeploymentTarget;
  wl_artifact_bucket : string;
  wl_artifact_prefix : string;
  wl_max_shards : Z;
  wl_max_concurrent_shards : Z;
  wl_spend_cap_microusd : option Z;
  wl_estimated_cost_microusd : Z;
  wl_duration_seconds : Z;
  wl_remote : RemoteExecutionSpec;
  wl_recovery_parent_worker_revision : option string;
  wl_shard_ids : list string;
  wl_trial_ids : list string;
  wl_runs : list WaveRunLock;
}.

(** [endpoint], [provider_target] *)
Definition wave_endpoint (lock : WaveLock) : option EndpointRef :=
  match wl_target lock with EndpointWaveTarget e => Some e | ProviderWaveTarget _ => None end.
Definition wave_provider_target (lock : WaveLock) : option ProviderTarget :=
  match wl_target lock with ProviderWaveTarget p => Some p | EndpointWaveTarget _ => None end.

Definition wave_shards (lock : WaveLock) : list CampaignShardLock :=
  concat (map (fun run => map ws_shard (wr_shards run)) (wl_runs lock)).

Definition is_retry (k : WaveActionKind) : bool := match k with wave_retry => true | wave_submit => false end.

(** [bounds_match_contents] *)
Definition bounds_match_contents (lock : WaveLock) : result unit :=
  let shard_count := sum_z (map (fun run => len (wr_shards run)) (wl_runs lock)) in
  raise_if (shard_count <? 1) || (wl_max_shards lock <? shard_count)
    with ValidationError "wave shard count exceeds its locked bound";;
  let observed_ids := map sl_shard_id (wave_shards lock) in
  raise_if negb (len observed_ids =? len (wl_shard_ids lock)) || negb (str_unique (wl_shard_ids lock)) ||
           negb (same_set observed_ids (wl_shard_ids lock))
    with ValidationError "wave shard IDs do not match its locked contents";;
  let locked_trial_ids := concat (map (fun shard => map tl_trial_id (sl_trials shard)) (wave_shards lock)) in
  raise_if negb (str_unique (wl_trial_ids lock)) ||
           existsb (fun t => negb (str_mem t locked_trial_ids)) (wl_trial_ids lock)
    with ValidationError "wave trial IDs do not match its locked contents";;
  raise_if is_retry (wl_action_kind lock) && is_nil (wl_trial_ids lock)
    with ValidationError "retry wave requires at least one trial ID";;
  raise_if negb (is_retry (wl_action_kind lock)) && negb (is_nil (wl_trial_ids lock))
    with ValidationError "submit wave must not select individual trials";;
  raise_if wl_max_concurrent_shards lock <? 1 with ValidationError "wave concurrency must be positive";;
  raise_if wl_duration_seconds lock <? 1 with ValidationError "wave duration must be positive";;
  Ok tt.

(** Field constraints, [bounds_match_contents], [recovery_worker_is_only_for_retries] *)
Definition validate_WaveLock (lock : WaveLock) : result WaveLock :=
  let* _ := fields_ok "WaveLock"
    (opt_valid (Z.leb 0) (wl_spend_cap_microusd lock) && (0 <=? wl_estimated_cost_microusd lock) &&
     opt_valid (hex_fullmatch 40) (wl_recovery_parent_worker_revision lock)) in
  let* _ := bounds_match_contents lock in
  raise_if is_some (wl_recovery_parent_worker_revision lock) && negb (is_retry (wl_action_kind lock))
    with ValidationError "only retry waves can pin a recovery worker revision";;
  Ok lock.

(** [_wave_target] *)
Definition _wave_target (target : DeploymentTarget) : result WaveDeploymentTarget :=
  match target with
  | target_provider t => Ok (ProviderWaveTarget t)
  | target_endpoint d =>
      match dp_endpoint d with
      | Some endpoint => Ok (EndpointWaveTarget endpoint)
      | None => Err (ValueError ("deployment wave requires a pre-existing endpoint binding; " +:+
                                 "endpoint provisioning is outside this slice"))
      end
  end.

(** [managed_wave_endpoint] *)
Definition managed_wave_endpoint (campaign : CampaignLock) (spec : ExperimentSpec) (deployment : string)
    : result EndpointRef :=
  match spec_remote spec with
  | None => Err (ValueError "managed deployment waves require remote execution")
  | Some remote =>
      let matches := List.filter (fun run : CampaignRunLock =>
        String.eqb (ra_deployment_digest run) deployment) (runs campaign) in
      raise_if is_nil matches with ValueError "campaign does not contain the deployment digest";;
      match remove_dups (map (fun run : CampaignRunLock => (ra_model run, ra_deployment run)) matches) with
      | [(model_id, deployment_id)] =>
          let* model := next_by mp_id (mx_models (spec_matrix spec)) model_id in
          let* target := next_by target_id (mx_deployments (spec_matrix spec)) deployment_id in
          match target with
          | target_provider _ => Err (ValueError "inference provider deployments have no managed endpoint")
          | target_endpoint profile =>
              raise_if negb (String.eqb (deployment_digest model target) deployment)
                with ValueError "manifest deployment does not match the campaign lock";;
              let* identity := managed_endpoint_identity (job_namespace (remote_job remote))
                                 (campaign_id campaign) deployment in
              Ok {| er_namespace := mi_namespace identity; er_name := mi_name identity;
                    er_served_model_name := served_model_name profile model |}
          end
      | _ => Err (ValueError "deployment digest resolves to conflicting profiles")
      end
  end.

(** [_bound_wave_spec] *)
Definition _bound_wave_spec (campaign : CampaignLock) (spec : ExperimentSpec) (run : CampaignRunLock)
    (requested_endpoint : option EndpointRef) : result ExperimentSpec :=
  let* profile := next_by target_id (mx_deployments (spec_matrix spec)) (ra_deployment run) in
  match profile with
  | target_provider _ =>
      raise_if is_some requested_endpoint
        with ValueError "provider waves cannot have an endpoint binding";;
      Ok spec
  | target_endpoint d =>
      match match requested_endpoint with Some e => Some e | None => dp_endpoint d end with
      | None => Err (ValueError ("deployment wave requires a pre-existing endpoint binding or " +:+
                                 "a managed endpoint binding"))
      | Some resolved_endpoint =>
          let* managed_endpoint := managed_wave_endpoint campaign spec (ra_deployment_digest run) in
          raise_if negb (bool_decide (dp_endpoint d = Some resolved_endpoint)) &&
                   negb (bool_decide (resolved_endpoint = managed_endpoint))
            with ValueError "deployment wave endpoint identity is not allowed";;
          bind_endpoint spec (ra_deployment run) resolved_endpoint
      end
  end.

(** One iteration of the loop of [build_wave_lock] over the selected runs. *)
Definition wave_run_lock (campaign : CampaignLock) (run : CampaignRunLock) (configuration : RunLock)
    (shards : list CampaignShardLock) : WaveRunLock :=
  let prefix := artifact_prefix campaign +:+ "/runs/" +:+ rl_run_id run in {|
  wr_artifact_prefix := prefix;
  wr_configuration := configuration;
  wr_shards := map (fun shard => {|
    ws_artifact_prefix := prefix +:+ "/shards/" +:+ sl_shard_id shard;
    ws_run_id := rl_run_id run;
    ws_shard := shard;
  |}) shards;
|}.

Definition add_wave_run (campaign : CampaignLock) (spec : ExperimentSpec) (endpoint : option EndpointRef)
    (acc : option WaveDeploymentTarget * list WaveRunLock)
    (selected : CampaignRunLock * list CampaignShardLock)
    : result (option WaveDeploymentTarget * list WaveRunLock) :=
  let '(target, run_locks) := acc in
  let '(run, shards) := selected in
  let* bound_spec := _bound_wave_spec campaign spec run endpoint in
  let* configuration := build_run_lock bound_spec (Some (ra_model run)) (Some (ra_deployment run))
    (Some (ra_agent run)) (Some (rl_run_id run)) true (created_at campaign)
    (Some (manifest_digest campaign)) in
  let* observed_target := _wave_target (rn_deployment configuration) in
  raise_if match target with Some t => negb (bool_decide (t = observed_target)) | None => false end
    with ValueError "compatible wave shards must use one exact target";;
  Ok (Some observed_target, run_locks ++ [wave_run_lock campaign run configuration shards]).

Section wave_lock.
Context {A : Type} `{SubmitWaveAction A}.

Definition wave_kind_of (action : A) : WaveActionKind :=
  if String.eqb (action_kind_of action) "retry-shard" then wave_retry else wave_submit.

(** [_wave_duration_seconds] *)
Definition _wave_duration_seconds (campaign : CampaignLock) (spec : ExperimentSpec) (action : A)
    (provider_target : option ProviderTarget) : result Z :=
  match provider_target with
  | None => Ok (ex_timeout_seconds (spec_execution spec))
  | Some _ =>
      match controller_policy campaign with
      | None => Err (ValueError "provider wave has no controller policy")
      | Some policy =>
          let* planned_seconds := locked_provider_action_seconds campaign (wave_kind_of action)
            (action_deployment_digest_of action) (action_shard_ids_of action)
            (len (action_trial_ids_of action)) in
          Ok (planned_seconds - wave_reserve_seconds policy)
      end
  end.

(** The campaign lock that the manifest gives for the identity of [campaign]. *)
Definition expected_campaign (campaign : CampaignLock) (spec : ExperimentSpec) : result CampaignLock :=
  let* plan := build_campaign_plan spec (Some (source_lock campaign)) (Some (recovery_policy campaign)) in
  build_campaign_lock plan (campaign_id campaign) (created_at campaign).

Definition selected_trial_ids (selected : list (CampaignRunLock * list CampaignShardLock)) : list string :=
  concat (map (fun e => concat (map (fun shard => map tl_trial_id (sl_trials shard)) e.2)) selected).

(** [build_wave_lock] *)
Definition build_wave_lock (campaign : CampaignLock) (spec : ExperimentSpec) (action : A)
    (endpoint : option EndpointRef) : result WaveLock :=
  let* expected := expected_campaign campaign spec in
  raise_if negb (bool_decide (campaign = expected))
    with ValueError "campaign lock does not match the resolved manifest";;
  let* _ := _validate_submit_wave_action campaign action in
  let* resolved_spec := resolved_experiment spec (source_lock campaign) in
  let* selected := _selected_wave_shards campaign action in
  raise_if existsb (fun t => negb (str_mem t (selected_trial_ids selected))) (action_trial_ids_of action)
    with ValueError "retry-shard action references trials outside its shards";;
  let* locked_wave_estimate :=
    match remove_dups (map (fun e : CampaignRunLock * list CampaignShardLock =>
            ra_estimated_wave_cost_microusd e.1) selected) with
    | [estimate] => Ok (or_zero estimate)
    | _ => Err (ValueError "compatible wave shards must use one spend estimate")
    end in
  let* '(target, run_locks) := foldM (add_wave_run campaign resolved_spec endpoint) (None, []) selected in
  match target, spec_remote resolved_spec with
  | Some target, Some remote =>
      let provider_target := match target with ProviderWaveTarget p => Some p | _ => None end in
      let* duration_seconds := _wave_duration_seconds campaign resolved_spec action provider_target in
      let* wave_id := deterministic_wave_id (action_key_of action) in
      let* max_concurrent_shards :=
        match provider_target with
        | Some _ => locked_provider_action_concurrency campaign (action_deployment_digest_of action)
        | None => Ok (ex_concurrent_trials (spec_execution resolved_spec))
        end in
      validate_WaveLock {|
        wl_wave_id := wave_id;
        wl_action_id := action_id_of action;
        wl_action_key := action_key_of action;
        wl_action_kind := wave_kind_of action;
        wl_campaign_id := campaign_id campaign;
        wl_created_at := created_at campaign;
        wl_manifest_digest := manifest_digest campaign;
        wl_plan_digest := plan_digest campaign;
        wl_deployment_digest := action_deployment_digest_of action;
        wl_target := target;
        wl_artifact_bucket := as_bucket (spec_artifacts resolved_spec);
        wl_artifact_prefix := artifact_prefix campaign +:+ "/waves/" +:+ wave_id;
        wl_max_shards := max_shards_per_wave campaign;
        wl_max_concurrent_shards := max_concurrent_shards;
        wl_spend_cap_microusd :=
          match provider_target with
          | Some p => _usd_to_microusd (pl_max_spend_usd (pv_limits p))
          | None => None
          end;
        wl_estimated_cost_microusd := locked_wave_estimate;
        wl_duration_seconds := duration_seconds;
        wl_remote := remote;
        wl_recovery_parent_worker_revision := None;
        wl_shard_ids := action_shard_ids_of action;
        wl_trial_ids := action_trial_ids_of action;
        wl_runs := run_locks;
      |}
  | _, _ => Err (ValueError "deployment wave requires remote execution")
  end.
End wave_lock.
