(* ===== verification/WaveFacts.v ===== *)
(** Lemmas on run locks, endpoint bindings and wave locks. *)
From S2P Require Import Prelude.
From S2P Require Import PyDict.
From S2P Require Import Campaigns.
From S2P Require Import Models.
From S2P Require Import Manifest.
From S2P Require Import ManifestFacts.
From S2P Require Import Planner.
From S2P Require Import PlannerFacts.
From S2P Require Import Endpoints.
From S2P Require Import Waves.

Lemma Forall2_elem_right {A B} (P : A -> B -> Prop) l k y :
  Forall2 P l k -> y ∈ k -> exists x, x ∈ l /\ P x y.
Proof.
  induction 1 as [|x z l k Hx _ IH]; [by intros ?%elem_of_nil|].
  intros [->|Hy]%elem_of_cons; [exists x; split; [by left|done]|].
  destruct (IH Hy) as (x' & ? & ?). exists x'. split; [by right|done].
Qed.

(** ** Choosing profiles *)
Lemma next_by_ok {A} (id_of : A -> string) l id x : next_by id_of l id = Ok x -> x ∈ l /\ id_of x = id.
Proof.
  unfold next_by. intros E. destruct (List.find _ l) as [p|] eqn:Ef; [|discriminate E].
  injection E as <-. apply List.find_some in Ef as [Hin Hid]. apply String.eqb_eq in Hid.
  split; [by apply list_elem_of_In|done].
Qed.

Lemma _select_ok {A} (id_of : A -> string) l id dimension x :
  _select id_of l (Some id) dimension = Ok x ->
  List.find (fun p => String.eqb (id_of p) id) l = Some x /\ x ∈ l /\ id_of x = id.
Proof.
  unfold _select. intros E. destruct (List.find _ l) as [p|] eqn:Ef; [|discriminate E].
  injection E as <-. split; [done|]. apply List.find_some in Ef as [Hin Hid].
  apply String.eqb_eq in Hid. split; [by apply list_elem_of_In|done].
Qed.

Lemma validate_RunLock_checks : checks validate_RunLock.
Proof. unfold validate_RunLock. solve_checks. Qed.
Lemma validate_WaveLock_checks : checks validate_WaveLock.
Proof. unfold validate_WaveLock. solve_checks. Qed.

(** ** Campaign locks *)
Lemma build_campaign_lock_ids p id now campaign :
  build_campaign_lock p id now = Ok campaign ->
  campaign_id campaign = id /\ created_at campaign = now /\ source_lock campaign = plan_source_lock p /\
  recovery_policy campaign = plan_recovery_policy p.
Proof.
  unfold build_campaign_lock, publication_role_is_consistent. intros E. inv_ok. by split_and!.
Qed.

(** ** Run locks *)
Lemma build_run_lock_ok spec m d a id allow now dig rl :
  build_run_lock spec (Some m) (Some d) (Some a) (Some id) allow now dig = Ok rl ->
  rn_run_id rl = id /\ rn_created_at rl = now /\ mp_id (rn_model rl) = m /\
  target_id (rn_deployment rl) = d /\ ap_id (rn_agent rl) = a /\
  exists valid, validate_ExperimentSpec spec = Ok valid /\
    rn_model rl ∈ mx_models (spec_matrix valid) /\ rn_agent rl ∈ mx_agents (spec_matrix valid) /\
    List.find (fun t => String.eqb (target_id t) d) (mx_deployments (spec_matrix valid)) =
      Some (rn_deployment rl).
Proof.
  unfold build_run_lock. intros E.
  destruct (validate_ExperimentSpec spec) as [valid|] eqn:Ev; [|discriminate E]. cbn [result_bind] in E.
  destruct (spec_remote valid) as [remote|]; [|discriminate E].
  destruct (_select mp_id _ _ _) as [model|] eqn:Em; [|discriminate E]. cbn [result_bind] in E.
  destruct (_select target_id _ _ _) as [deployment|] eqn:Ed; [|discriminate E]. cbn [result_bind] in E.
  destruct (_select ap_id _ _ _) as [agent|] eqn:Ea; [|discriminate E]. cbn [result_bind] in E.
  apply _select_ok in Em as (_ & Hm & Hmi), Ed as (Hd & _ & Hdi), Ea as (_ & Ha & Hai).
  inv_ok. apply validate_RunLock_checks in E. subst rl. cbn.
  split_and!; [done..|]. exists valid. by split_and!.
Qed.

(** ** Endpoint bindings *)
Lemma find_bound l l' id endpoint x :
  mapM (fun profile =>
      if negb (String.eqb (target_id profile) id) then Ok profile
      else match profile with
           | target_endpoint d => Ok (target_endpoint (with_endpoint d endpoint))
           | target_provider _ => Err (ValueError "inference provider deployments cannot bind endpoints")
           end) l = Ok l' ->
  List.find (fun t => String.eqb (target_id t) id) l' = Some x ->
  exists d, x = target_endpoint (with_endpoint d endpoint).
Proof.
  intros H%mapM_Forall2. induction H as [|p p' l l' Hp _ IH]; cbn [List.find]; [done|].
  destruct (String.eqb_spec (target_id p) id) as [Hid|Hid]; cbn [negb] in Hp.
  - destruct p as [d|t]; [|discriminate Hp]. injection Hp as <-. cbn [target_id dp_id with_endpoint] in *.
    rewrite Hid, String.eqb_refl. intros [= <-]. by exists d.
  - injection Hp as <-. apply String.eqb_neq in Hid. by rewrite Hid.
Qed.

Lemma bind_endpoint_ok spec id endpoint spec' :
  bind_endpoint spec id endpoint = Ok spec' ->
  exists deployments, spec' = with_deployments spec deployments /\
    forall x, List.find (fun t => String.eqb (target_id t) id) deployments = Some x ->
      exists d, x = target_endpoint (with_endpoint d endpoint).
Proof.
  unfold bind_endpoint. intros E. inv_ok. eexists; split; [done|]. intros x. by eapply find_bound.
Qed.

(** The endpoint a wave may use for a run: the one the manifest declares, or
    the one managed for the deployment of the campaign. *)
Definition endpoint_allowed (campaign : CampaignLock) (spec : ExperimentSpec) (run : CampaignRunLock)
    (endpoint : EndpointRef) : Prop :=
  exists d, target_endpoint d ∈ mx_deployments (spec_matrix spec) /\ dp_id d = ra_deployment run /\
    (dp_endpoint d = Some endpoint \/
     managed_wave_endpoint campaign spec (ra_deployment_digest run) = Ok endpoint).

Lemma same_matrix spec spec' :
  validate_ExperimentSpec spec = Ok spec' -> spec_matrix spec' = spec_matrix spec.
Proof. intros ((_ & H & _) & _)%validate_ExperimentSpec_ok. exact H. Qed.

(** The target of a run of a wave is declared in the manifest, or is a
    deployment bound to an allowed endpoint. *)
Lemma bound_run_target campaign spec run requested bound m a id now dig rl :
  _bound_wave_spec campaign spec run requested = Ok bound ->
  build_run_lock bound m (Some (ra_deployment run)) a id true now dig = Ok rl ->
  forall target, _wave_target (rn_deployment rl) = Ok target ->
  match target with
  | ProviderWaveTarget t => target_provider t ∈ mx_deployments (spec_matrix spec)
  | EndpointWaveTarget e => endpoint_allowed campaign spec run e
  end.
Proof.
  intros Eb El target Et. unfold _bound_wave_spec in Eb.
  destruct (next_by target_id _ _) as [profile|] eqn:Ep; [|discriminate Eb]. cbn [result_bind] in Eb.
  unfold build_run_lock in El.
  destruct (validate_ExperimentSpec bound) as [valid|] eqn:Ev; [|discriminate El]. cbn [result_bind] in El.
  apply same_matrix in Ev.
  destruct (spec_remote valid) as [remote|]; [|discriminate El].
  destruct (_select mp_id _ _ _) as [model|]; [|discriminate El]. cbn [result_bind] in El.
  destruct (_select target_id _ _ _) as [deployment|] eqn:Ed; [|discriminate El]. cbn [result_bind] in El.
  destruct (_select ap_id _ _ _) as [agent|]; [|discriminate El]. cbn [result_bind] in El.
  inv_ok. apply validate_RunLock_checks in El. subst rl. cbn [rn_deployment] in Et.
  apply _select_ok in Ed as (Hf & _ & _). rewrite Ev in Hf. pose proof (next_by_ok _ _ _ _ Ep) as [Hin Hid].
  destruct profile as [d|t].
  - destruct (match requested with Some e => Some e | None => dp_endpoint d end) as [e|]; [|discriminate Eb].
    destruct (managed_wave_endpoint _ _ _) as [e'|] eqn:Em; [|discriminate Eb]. cbn [result_bind] in Eb.
    destruct (_ && _) eqn:Eok in Eb; [discriminate Eb|].
    apply bind_endpoint_ok in Eb as (ds & -> & Hds). cbn in Hf. apply Hds in Hf as (d' & ->).
    cbn in Et. injection Et as <-. exists d. split_and!; [done..|].
    apply andb_false_iff in Eok as [E|E]; apply negb_false_iff, bool_decide_eq_true in E; [by left|].
    right. by rewrite Em, <- E.
  - inv_ok. unfold next_by in Ep. rewrite Hf in Ep. injection Ep as ->. cbn in Et. by injection Et as <-.
Qed.

(** ** Selecting the shards *)
Section wave.
Context {A : Type} `{SubmitWaveAction A}.

(** A shard of the campaign that the action names. *)
Definition admitted_shard (campaign : CampaignLock) (action : A) (shard : CampaignShardLock) : Prop :=
  exists run, run ∈ runs campaign /\ shard ∈ rl_shards run /\ sl_shard_id shard ∈ action_shard_ids_of action.

Lemma selected_wave_shards_sound campaign (action : A) selected :
  _selected_wave_shards campaign action = Ok selected ->
  (forall (run : CampaignRunLock) shards, (run, shards) ∈ selected ->
     run ∈ runs campaign /\ ra_deployment_digest run = action_deployment_digest_of action) /\
  (forall shard, admitted_shard campaign action shard <->
     exists run shards, (run, shards) ∈ selected /\ shard ∈ shards).
Proof.
  unfold _selected_wave_shards. intros E. apply result_bind_Ok in E as ([sel found] & Hf & E).
  cbn beta iota in E. destruct (existsb _ _) in E; [discriminate E|]. injection E as <-.
  pose (P := fun (read : list CampaignRunLock) (st : list (CampaignRunLock * list CampaignShardLock) * list string) =>
    (forall (run : CampaignRunLock) shards, (run, shards) ∈ st.1 ->
       run ∈ read /\ ra_deployment_digest run = action_deployment_digest_of action) /\
    (forall shard, (exists run, run ∈ read /\ shard ∈ rl_shards run /\
                      sl_shard_id shard ∈ action_shard_ids_of action) <->
       exists run shards, (run, shards) ∈ st.1 /\ shard ∈ shards)).
  cut (P (runs campaign) (sel, found)); [done|].
  revert Hf. apply foldM_prefix_invariant.
  { split; [by intros ? ? ?%elem_of_nil|]. intros s. split.
    - by intros (? & ?%elem_of_nil & _).
    - by intros (? & ? & ?%elem_of_nil & _). }
  intros l1 run l2 [s f] st' _ [H1 H2] Est. cbn zeta in Est. cbn [fst] in *.
  set (shards := List.filter _ (rl_shards run)) in Est.
  assert (Hsh : forall x, x ∈ shards <-> x ∈ rl_shards run /\ sl_shard_id x ∈ action_shard_ids_of action).
  { intros x. unfold shards. by rewrite filter_elem_of, str_mem_true. }
  assert (Hread : forall shard, (exists r, r ∈ l1 ++ [run] /\ shard ∈ rl_shards r /\
                      sl_shard_id shard ∈ action_shard_ids_of action) <->
                   (exists r, r ∈ l1 /\ shard ∈ rl_shards r /\ sl_shard_id shard ∈ action_shard_ids_of action) \/
                   shard ∈ shards).
  { intros x. rewrite Hsh. setoid_rewrite elem_of_app. setoid_rewrite list_elem_of_singleton. naive_solver. }
  destruct (is_nil shards) eqn:En.
  - injection Est as <-. split; cbn [fst].
    + intros r sh Hin. apply H1 in Hin as [? ?]. split; [apply elem_of_app; by left|done].
    + intros x. rewrite Hread, <- H2. destruct shards; [|done]. set_solver.
  - inv_ok. apply negb_false_iff, String.eqb_eq in Hc. split; cbn [fst].
    + intros r sh [Hin|[= -> ->]%list_elem_of_singleton]%elem_of_app.
      * apply H1 in Hin as [? ?]. split; [apply elem_of_app; by left|done].
      * split; [apply elem_of_app; right; by left|done].
    + intros x. rewrite Hread, H2. setoid_rewrite elem_of_app. setoid_rewrite list_elem_of_singleton.
      naive_solver.
Qed.

(** ** The runs of a wave *)
Lemma add_wave_runs_ok campaign spec endpoint selected target locks :
  foldM (add_wave_run campaign spec endpoint) (None, []) selected = Ok (target, locks) ->
  Forall2 (fun (e : CampaignRunLock * list CampaignShardLock) wr =>
    exists bound configuration,
      _bound_wave_spec campaign spec e.1 endpoint = Ok bound /\
      build_run_lock bound (Some (ra_model e.1)) (Some (ra_deployment e.1)) (Some (ra_agent e.1))
        (Some (rl_run_id e.1)) true (created_at campaign) (Some (manifest_digest campaign)) = Ok configuration /\
      wr = wave_run_lock campaign e.1 configuration e.2 /\
      exists t, target = Some t /\ _wave_target (rn_deployment configuration) = Ok t) selected locks.
Proof.
  pose (P := fun (read : list (CampaignRunLock * list CampaignShardLock))
                 (st : option WaveDeploymentTarget * list WaveRunLock) =>
    Forall2 (fun (e : CampaignRunLock * list CampaignShardLock) wr =>
    exists bound configuration,
      _bound_wave_spec campaign spec e.1 endpoint = Ok bound /\
      build_run_lock bound (Some (ra_model e.1)) (Some (ra_deployment e.1)) (Some (ra_agent e.1))
        (Some (rl_run_id e.1)) true (created_at campaign) (Some (manifest_digest campaign)) = Ok configuration /\
      wr = wave_run_lock campaign e.1 configuration e.2 /\
      exists t, st.1 = Some t /\ _wave_target (rn_deployment configuration) = Ok t) read st.2).
  intros Hf. cut (P selected (target, locks)); [done|].
  revert Hf. apply foldM_prefix_invariant; [constructor|].
  intros l1 [run shards] l2 [t ls] st' _ HP Est. unfold P in HP |- *. unfold add_wave_run in Est. cbn [fst snd] in *.
  apply result_bind_Ok in Est as (bound & Hb & Est). cbn beta iota in Est.
  apply result_bind_Ok in Est as (conf & Hconf & Est).
  apply result_bind_Ok in Est as (observed & Hobs & Est). inv_ok. cbn [fst snd].
  apply Forall2_app.
  - eapply Forall2_impl; [exact HP|]. intros e wr (b & c & H1 & H2 & H3 & t' & -> & H4).
    exists b, c. split_and!; [done..|]. exists observed. split; [done|].
    apply negb_false_iff, bool_decide_eq_true in Hc. by subst t'.
  - constructor; [|constructor]. exists bound, conf. split_and!; [done..|]. by exists observed.
Qed.

Lemma wave_shards_of_selected (selected : list (CampaignRunLock * list CampaignShardLock)) wl :
  Forall2 (fun e wr => map ws_shard (wr_shards wr) = e.2) selected (wl_runs wl) ->
  wave_shards wl = concat (map snd selected).
Proof.
  unfold wave_shards. generalize (wl_runs wl). induction 1 as [|e wr s l He _ IH]; [done|].
  cbn. by rewrite He, IH.
Qed.

(** ** The wave lock *)
Lemma validate_submit_wave_action_ok campaign (action : A) :
  _validate_submit_wave_action campaign action = Ok tt ->
  action_campaign_id_of action = campaign_id campaign /\ NoDup (action_shard_ids_of action) /\
  1 <= len (action_shard_ids_of action) <= max_shards_per_wave campaign /\
  action_id_of action = "act-" +:+ action_key_of action.
Proof.
  unfold _validate_submit_wave_action, _validate_action_trials. intros E. inv_ok.
  apply orb_false_iff in Hc as [_ Hc], Hc3 as [_ Hc3].
  apply negb_false_iff in Hc, Hc1, Hc3. apply String.eqb_eq in Hc, Hc3. apply str_unique_NoDup in Hc1.
  apply Z.ltb_ge in Hc2. split_and!; try done.
  destruct (action_shard_ids_of action); [done|]. rewrite len_cons. pose proof (len_nonneg l). lia.
Qed.

Lemma wave_bounds_ok wl :
  bounds_match_contents wl = Ok tt ->
  1 <= len (wave_shards wl) <= wl_max_shards wl /\ NoDup (map sl_shard_id (wave_shards wl)) /\
  (forall id, id ∈ map sl_shard_id (wave_shards wl) <-> id ∈ wl_shard_ids wl) /\
  (forall id, id ∈ wl_trial_ids wl ->
     exists shard trial, shard ∈ wave_shards wl /\ trial ∈ sl_trials shard /\ tl_trial_id trial = id).
Proof.
  unfold bounds_match_contents. intros E. inv_ok. clear E Hc2 Hc3 Hc4 Hc5.
  apply orb_false_iff in Hc as [H1 H2], Hc0 as [Hc0 Hs], Hc1 as [_ Ht]. apply orb_false_iff in Hc0 as [Hl Hu].
  apply negb_false_iff in Hl, Hu, Hs. apply Z.eqb_eq in Hl. apply str_unique_NoDup in Hu.
  assert (Hsame : forall id, id ∈ map sl_shard_id (wave_shards wl) <-> id ∈ wl_shard_ids wl).
  { apply andb_true_iff in Hs as [Ha Hb]. rewrite forallb_forall in Ha, Hb. intros id.
    rewrite !list_elem_of_In. split; intros Hin; [apply Ha in Hin|apply Hb in Hin];
      by apply list_elem_of_In, str_mem_true. }
  assert (Hlen : sum_z (map (fun run => len (wr_shards run)) (wl_runs wl)) = len (wave_shards wl)).
  { unfold wave_shards. generalize (wl_runs wl). induction l as [|r l IH]; [done|]. cbn.
    rewrite sum_z_cons, IH, len_app. f_equal. unfold len. by rewrite length_map. }
  rewrite Hlen in *. split_and!; try done.
  - by apply Z.ltb_ge in H1.
  - by apply Z.ltb_ge in H2.
  - apply NoDup_ListNoDup. apply (List.NoDup_incl_NoDup (l := wl_shard_ids wl)).
    + by apply NoDup_ListNoDup.
    + unfold len in Hl. lia.
    + intros id Hin. apply list_elem_of_In, Hsame. by apply list_elem_of_In.
  - intros id Hin. destruct (str_mem id (concat (map (fun shard => map tl_trial_id (sl_trials shard)) (wave_shards wl))))
      eqn:E.
    + apply str_mem_true, elem_of_concat_map in E as (shard & Hsh & (trial & -> & Htr)%elem_of_map). eauto.
    + rewrite <- not_true_iff_false, existsb_exists in Ht. exfalso. apply Ht. exists id.
      split; [by apply list_elem_of_In|by rewrite E].
Qed.

Record wave_parts (campaign : CampaignLock) (rspec : ExperimentSpec) (spec : ExperimentSpec) (action : A)
    (endpoint : option EndpointRef) (selected : list (CampaignRunLock * list CampaignShardLock))
    (wl : WaveLock) : Prop := {
  wp_expected : expected_campaign campaign spec = Ok campaign;
  wp_action : _validate_submit_wave_action campaign action = Ok tt;
  wp_resolved : resolved_experiment spec (source_lock campaign) = Ok rspec;
  wp_selected : _selected_wave_shards campaign action = Ok selected;
  wp_runs : Forall2 (fun (e : CampaignRunLock * list CampaignShardLock) wr =>
    exists bound configuration,
      _bound_wave_spec campaign rspec e.1 endpoint = Ok bound /\
      build_run_lock bound (Some (ra_model e.1)) (Some (ra_deployment e.1)) (Some (ra_agent e.1))
        (Some (rl_run_id e.1)) true (created_at campaign) (Some (manifest_digest campaign)) = Ok configuration /\
      wr = wave_run_lock campaign e.1 configuration e.2 /\
      exists t, Some (wl_target wl) = Some t /\ _wave_target (rn_deployment configuration) = Ok t)
    selected (wl_runs wl);
  wp_ids : (wl_campaign_id wl, wl_action_id wl, wl_action_key wl, wl_deployment_digest wl) =
    (campaign_id campaign, action_id_of action, action_key_of action, action_deployment_digest_of action);
  wp_shards : wl_shard_ids wl = action_shard_ids_of action;
  wp_trials : wl_trial_ids wl = action_trial_ids_of action;
  wp_max : wl_max_shards wl = max_shards_per_wave campaign;
  wp_bounds : bounds_match_contents wl = Ok tt;
}.

Lemma build_wave_lock_ok campaign spec (action : A) endpoint wl :
  build_wave_lock campaign spec action endpoint = Ok wl ->
  exists selected rspec, wave_parts campaign rspec spec action endpoint selected wl.
Proof.
  unfold build_wave_lock. intros E.
  apply result_bind_Ok in E as (expected & Hexp & E).
  destruct (bool_decide (campaign = expected)) eqn:Hce; [|discriminate E]. cbn [negb] in E.
  apply bool_decide_eq_true in Hce. subst expected.
  apply result_bind_Ok in E as ([] & Hact & E).
  apply result_bind_Ok in E as (rspec & Hres & E).
  apply result_bind_Ok in E as (selected & Hsel & E).
  destruct (existsb _ _) in E; [discriminate E|].
  apply result_bind_Ok in E as (estimate & _ & E).
  apply result_bind_Ok in E as ([target locks] & Hfold & E).
  apply add_wave_runs_ok in Hfold. cbn beta iota in E.
  destruct target as [target|]; [|discriminate E].
  destruct (spec_remote rspec) as [remote|]; [|discriminate E].
  apply result_bind_Ok in E as (seconds & _ & E).
  apply result_bind_Ok in E as (wave_id & _ & E).
  apply result_bind_Ok in E as (concurrency & _ & E).
  pose proof (validate_WaveLock_checks _ _ E) as Hwl. unfold validate_WaveLock in E.
  apply result_bind_Ok in E as (_ & _ & E). apply result_bind_Ok in E as ([] & Hb & _).
  exists selected, rspec. subst wl. by constructor.
Qed.
End wave.
