(* ===== verification/EndpointFacts.v ===== *)
(** Facts of [Endpoints]: when a comparison finds nothing, what the operations
    of the provisioner guarantee about the last inspection, and how far a clock
    that sleeping advances bounds the polling loops. *)
From Stdlib Require Import Floats.SpecFloat.
From S2P Require Import Prelude.
From S2P Require Import PyDict.
From S2P Require Import Float64.
From S2P Require Import Json.
From S2P Require Import Campaigns.
From S2P Require Import Models.
From S2P Require Import Manifest.
From S2P Require Import Planner.
From S2P Require Import Hub.
From S2P Require Import Endpoints.

(** ** Comparing *)
Lemma app_nil_split {A} (l k : list A) : l ++ k = [] <-> l = [] /\ k = [].
Proof. destruct l, k; naive_solver. Qed.

Lemma concat_nil_iff {A} (l : list (list A)) : concat l = [] <-> forall x, x ∈ l -> x = [].
Proof.
  induction l as [|y l IH]; cbn; [split; [by intros _ x ?%elem_of_nil|done]|].
  rewrite app_nil_split, IH. setoid_rewrite elem_of_cons. naive_solver.
Qed.

Lemma value_mismatch_nil x y p : value_mismatch x y p = [] <-> x = y.
Proof.
  unfold value_mismatch. destruct (json_eqb x y) eqn:E.
  - split; [by intros _; apply json_eqb_eq|done].
  - split; [done|]. intros ->. by rewrite (proj2 (json_eqb_eq y y) eq_refl) in E.
Qed.

(** Two objects compare equal when they do key by key. *)
Lemma compare_objects e o p :
  dict_wf e -> dict_wf o ->
  _compare_values (JObj e) (JObj o) p = [] <->
  forall k, match dict_get e k with
            | Some x => _compare_values x (get_or_null o k) (p +:+ "." +:+ k) = []
            | None => get_or_null o k = JNull
            end.
Proof.
  intros He Ho. cbn [_compare_values]. rewrite concat_nil_iff.
  split.
  - intros H k. destruct (dict_get e k) as [x|] eqn:Ek.
    + apply H. rewrite list_elem_of_fmap. eexists (k, _). split; [reflexivity|].
      rewrite sort_by_elem_of, elem_of_app. left. rewrite list_elem_of_fmap.
      exists (k, x). split; [done|]. by apply dict_get_in.
    + unfold get_or_null. destruct (dict_get o k) as [v|] eqn:Eo; [|done].
      symmetry. apply (value_mismatch_nil _ _ (p +:+ "." +:+ k)), H. rewrite list_elem_of_fmap.
      eexists (k, _). split; [reflexivity|]. rewrite sort_by_elem_of, elem_of_app. right.
      rewrite list_elem_of_fmap. exists (k, v). split; [done|]. apply filter_elem_of.
      split; [by apply dict_get_in|]. cbn. unfold dict_has. by rewrite Ek.
  - intros H x Hx. rewrite list_elem_of_fmap in Hx. destruct Hx as ([k y] & -> & Hx).
    rewrite sort_by_elem_of, elem_of_app, !list_elem_of_fmap in Hx.
    destruct Hx as [([k' v] & [= -> ->] & Hin)|([k' v] & [= -> ->] & Hin)]; cbn [fst snd].
    + specialize (H k'). by rewrite (proj2 (dict_get_some_iff e k' v He) Hin) in H.
    + apply filter_elem_of in Hin as [Hin Hk]. cbn in Hk, Hin.
      specialize (H k'). unfold dict_has in Hk. destruct (dict_get e k'); [done|].
      unfold get_or_null in H. rewrite (proj2 (dict_get_some_iff o k' v Ho) Hin) in H.
      by apply value_mismatch_nil.
Qed.

Lemma dict_wf_perm {V} (d d' : dict V) : d ≡ₚ d' -> dict_wf d -> dict_wf d'.
Proof. unfold dict_wf, dict_keys. by intros ->. Qed.

Lemma dict_get_perm {V} (d d' : dict V) k : dict_wf d -> d ≡ₚ d' -> dict_get d' k = dict_get d k.
Proof.
  intros Hwf Hp. pose proof (dict_wf_perm _ _ Hp Hwf) as Hwf'.
  destruct (dict_get d k) as [v|] eqn:E.
  - apply dict_get_some_iff in E; [|done]. apply dict_get_some_iff; [done|]. by rewrite <- Hp.
  - apply dict_get_none_iff in E. apply dict_get_none_iff. unfold dict_keys in *. by rewrite <- Hp.
Qed.

Lemma dict_update_new {V} (l d : dict V) :
  NoDup (dict_keys d ++ dict_keys l) -> dict_update d l = d ++ l.
Proof.
  unfold dict_update. revert d. induction l as [|[k v] l IH]; intros d Hn; cbn; [by rewrite app_nil_r|].
  cbn in Hn. apply NoDup_app in Hn as (Hd & Hdl & Hl).
  assert (Hk : k ∉ dict_keys d) by (intros Hk; by apply (Hdl k Hk), elem_of_cons; left).
  rewrite dict_set_new by done. rewrite IH.
  - by rewrite <- (assoc_L (++)).
  - unfold dict_keys in *. rewrite map_app. cbn. rewrite <- (assoc_L (++)). cbn.
    apply NoDup_app. split; [done|]. split; [|done]. intros x Hx.
    apply Hdl, Hx.
Qed.

Lemma dict_of_wf {V} (d : dict V) : dict_wf d -> dict_of d = d.
Proof. intros H. unfold dict_of. by rewrite dict_update_new. Qed.

(** Environments compare equal when they bind the same values. *)
Lemma compare_environments (e o : dict string) p :
  dict_wf e -> dict_wf o ->
  _compare_values (jdict JStr e) (jdict JStr o) p = [] <-> forall k, dict_get e k = dict_get o k.
Proof.
  intros He Ho. unfold jdict, jobj.
  assert (Hwf : forall d : dict string, dict_wf d -> dict_wf (dict_map JStr d)).
  { intros d Hd. unfold dict_wf. by rewrite dict_keys_map. }
  assert (Hsort : forall d : dict string, dict_wf d ->
            dict_wf (sort_by key_leb (dict_of (dict_map JStr d)))).
  { intros d Hd. eapply dict_wf_perm; [symmetry; apply sort_by_perm|apply dict_wf_of]. }
  assert (Hget : forall (d : dict string) k, dict_wf d ->
            dict_get (sort_by key_leb (dict_of (dict_map JStr d))) k = option_map JStr (dict_get d k)).
  { intros d k Hd. rewrite <- dict_get_map, (dict_of_wf (dict_map JStr d)) by auto.
    apply dict_get_perm; [auto|symmetry; apply sort_by_perm]. }
  rewrite compare_objects by auto. unfold get_or_null.
  split; intros H k; specialize (H k).
  - rewrite !Hget in H by done. destruct (dict_get e k) as [x|], (dict_get o k) as [y|]; cbn in H; try done.
      apply value_mismatch_nil in H. by injection H as ->.
  - rewrite !Hget by done. rewrite H. destruct (dict_get o k); cbn; [by apply value_mismatch_nil|done].
Qed.

(** Every value but an object compares by equality. *)
Definition is_leaf (j : json) : bool := negb (json_is_object j).

Lemma compare_leaf x y p : is_leaf x = true -> _compare_values x y p = [] <-> x = y.
Proof. destruct x; try done; intros _; apply value_mismatch_nil. Qed.

Lemma jopt_inj {A} (f : A -> json) x y :
  (forall a, f a <> JNull) -> (forall a b, f a = f b -> a = b) -> jopt f x = jopt f y -> x = y.
Proof. intros Hn Hi. destruct x, y; cbn; intros E; [f_equal; auto|by apply Hn in E|by symmetry in E; apply Hn in E|done]. Qed.

Lemma jstrs_inj l k : jstrs l = jstrs k -> l = k.
Proof.
  intros [= E]. revert k E. induction l as [|x l IH]; intros [|y k]; cbn; try done.
  intros [= -> E]. f_equal. auto.
Qed.

Lemma jopt_str_inj (x y : option string) : jopt JStr x = jopt JStr y -> x = y.
Proof. apply jopt_inj; [done|by intros ? ? [= ->]]. Qed.
Lemma jopt_int_inj (x y : option Z) : jopt JInt x = jopt JInt y -> x = y.
Proof. apply jopt_inj; [done|by intros ? ? [= ->]]. Qed.
Lemma jopt_float_inj (x y : option spec_float) : jopt JFloat x = jopt JFloat y -> x = y.
Proof. apply jopt_inj; [done|by intros ? ? [= ->]]. Qed.
Lemma jopt_metric_inj (x y : option ScalingMetric) :
  jopt (fun m => JStr (metric_value m)) x = jopt (fun m => JStr (metric_value m)) y -> x = y.
Proof. apply jopt_inj; [done|]. by intros [] []. Qed.

Lemma is_leaf_jopt {A} (f : A -> json) x : (forall a, is_leaf (f a) = true) -> is_leaf (jopt f x) = true.
Proof. intros H. destruct x; cbn; auto. Qed.

(** Objects with the same keys in the same order compare field by field. *)
Lemma compare_same_keys (e o : list (string * json)) p :
  dict_keys e = dict_keys o -> dict_wf e ->
  _compare_values (JObj e) (JObj o) p = [] <->
  Forall2 (fun x y => _compare_values x.2 y.2 (p +:+ "." +:+ x.1) = []) e o.
Proof.
  intros Hk He. assert (Ho : dict_wf o) by (unfold dict_wf in *; by rewrite <- Hk).
  rewrite compare_objects by done. unfold get_or_null. rewrite Forall2_same_length_lookup.
  assert (Hlen : length e = length o).
  { unfold dict_keys in Hk. by rewrite <- (length_map fst e), Hk, length_map. }
  assert (Hkey : forall i x y, e !! i = Some x -> o !! i = Some y -> x.1 = y.1).
  { intros i x y Hx Hy. unfold dict_keys in Hk.
    assert ((fst <$> e) !! i = Some x.1) as E1 by (by rewrite list_lookup_fmap, Hx).
    change (fst <$> e) with (map fst e) in E1. rewrite Hk in E1. change (map fst o) with (fst <$> o) in E1.
    rewrite list_lookup_fmap, Hy in E1. by injection E1. }
  split.
  - intros H. split; [done|]. intros i [k x] [k' y] Hx Hy. specialize (Hkey _ _ _ Hx Hy). cbn in Hkey. subst k'.
    specialize (H k). rewrite (proj2 (dict_get_some_iff e k x He) (list_elem_of_lookup_2 _ _ _ Hx)) in H.
    by rewrite (proj2 (dict_get_some_iff o k y Ho) (list_elem_of_lookup_2 _ _ _ Hy)) in H.
  - intros [_ H] k. destruct (dict_get e k) as [x|] eqn:Ee.
    + apply dict_get_in, list_elem_of_lookup in Ee as [i Hi].
      destruct (lookup_lt_is_Some_2 o i) as [[k' y] Hy]; [rewrite <- Hlen; by eapply lookup_lt_Some|].
      specialize (Hkey _ _ _ Hi Hy). cbn in Hkey. subst k'.
      rewrite (proj2 (dict_get_some_iff o k y Ho) (list_elem_of_lookup_2 _ _ _ Hy)).
      apply (H _ _ _ Hi Hy).
    + apply dict_get_none_iff in Ee. rewrite Hk in Ee. apply dict_get_none_iff in Ee. by rewrite Ee.
Qed.

Lemma Forall2_cons_split {A B} (R : A -> B -> Prop) x y l k :
  Forall2 R (x :: l) (y :: k) <-> R x y /\ Forall2 R l k.
Proof. split; [by inversion 1|intros []; by constructor]. Qed.

Lemma Forall2_nil_split {A B} (R : A -> B -> Prop) : Forall2 R [] [] <-> True.
Proof. split; constructor. Qed.

(** The normal form of a dump with known keys is found by evaluation. *)
Ltac compare_fields :=
  match goal with
  | |- _compare_values ?x ?y _ = [] <-> _ =>
      let e := eval cbv beta iota zeta delta [jobj dict_of dict_update fold_left dict_set sort_by insert_by
                 foldr key_leb str_leb fst snd String.eqb Ascii.eqb Bool.eqb EndpointScaling_dump
                 EndpointImage_dump EndpointModel_dump EndpointCompute_dump EndpointProvider_dump
                 EndpointRoute_dump EndpointConfiguration_dump negb andb orb
                 Ascii.N_of_ascii Ascii.N_of_digits N.ltb N.leb N.compare N.add N.mul Pos.compare
                 Pos.compare_cont Pos.add Pos.mul Pos.succ Pos.add_carry] in x in
      let o := eval cbv beta iota zeta delta [jobj dict_of dict_update fold_left dict_set sort_by insert_by
                 foldr key_leb str_leb fst snd String.eqb Ascii.eqb Bool.eqb EndpointScaling_dump
                 EndpointImage_dump EndpointModel_dump EndpointCompute_dump EndpointProvider_dump
                 EndpointRoute_dump EndpointConfiguration_dump negb andb orb
                 Ascii.N_of_ascii Ascii.N_of_digits N.ltb N.leb N.compare N.add N.mul Pos.compare
                 Pos.compare_cont Pos.add Pos.mul Pos.succ Pos.add_carry] in y in
      change x with e; change y with o
  end;
  rewrite compare_same_keys; [|reflexivity|by apply (bool_decide_unpack _)];
  rewrite ?Forall2_cons_split, Forall2_nil_split; cbn [fst snd].

Lemma jstr_inj a b : JStr a = JStr b -> a = b.
Proof. by intros [= ->]. Qed.
Lemma jint_inj a b : JInt a = JInt b -> a = b.
Proof. by intros [= ->]. Qed.
Lemma jbool_inj a b : JBool a = JBool b -> a = b.
Proof. by intros [= ->]. Qed.
Lemma access_inj a b : JStr (access_value a) = JStr (access_value b) -> a = b.
Proof. by destruct a, b. Qed.

Create HintDb dump_inj.
#[export] Hint Resolve jstr_inj jint_inj jbool_inj access_inj jstrs_inj jopt_str_inj jopt_int_inj
  jopt_float_inj jopt_metric_inj : dump_inj.

Ltac compare_leaves :=
  repeat (rewrite compare_leaf by (try apply is_leaf_jopt; reflexivity)).

(** Leaves are equal; parts that are records themselves compare by their lemma. *)
Ltac solve_fields :=
  split; [intros; repeat match goal with H : _ /\ _ |- _ => destruct H end;
          match goal with |- ?x = ?y => destruct x, y; cbn in * end; f_equal; by eauto with dump_inj
         |by intros ->; split_and!].

Lemma compare_scaling x y p :
  _compare_values (EndpointScaling_dump x) (EndpointScaling_dump y) p = [] <-> x = y.
Proof. compare_fields. compare_leaves. solve_fields. Qed.

Lemma compare_image x y p :
  _compare_values (EndpointImage_dump x) (EndpointImage_dump y) p = [] <-> x = y.
Proof. compare_fields. compare_leaves. solve_fields. Qed.

Lemma compare_provider x y p :
  _compare_values (EndpointProvider_dump x) (EndpointProvider_dump y) p = [] <-> x = y.
Proof. compare_fields. compare_leaves. solve_fields. Qed.

Lemma compare_route x y p :
  _compare_values (EndpointRoute_dump x) (EndpointRoute_dump y) p = [] <-> x = y.
Proof. compare_fields. compare_leaves. solve_fields. Qed.

Lemma compare_compute x y p :
  _compare_values (EndpointCompute_dump x) (EndpointCompute_dump y) p = [] <-> x = y.
Proof.
  unfold EndpointCompute_dump. generalize (compare_scaling (ec_scaling x) (ec_scaling y)).
  generalize (EndpointScaling_dump (ec_scaling x)) (EndpointScaling_dump (ec_scaling y)). intros jx jy Hs.
  compare_fields. rewrite Hs. compare_leaves. solve_fields.
Qed.

(** Two models that differ in the order of their environments at most. *)
Definition same_model (x y : EndpointModel) : Prop :=
  (forall k, dict_get (em_environment x) k = dict_get (em_environment y) k) /\
  em_repository x = em_repository y /\ em_revision x = em_revision y /\ em_framework x = em_framework y /\
  em_task x = em_task y /\ em_image x = em_image y /\ em_command x = em_command y /\
  em_arguments x = em_arguments y /\ em_secret_names x = em_secret_names y.

Definition same_configuration (x y : EndpointConfiguration) : Prop :=
  same_model (cf_model x) (cf_model y) /\ cf_compute x = cf_compute y /\ cf_provider x = cf_provider y /\
  cf_access_type x = cf_access_type y /\ cf_route x = cf_route y /\
  cf_cache_http_responses x = cf_cache_http_responses y /\ cf_tags x = cf_tags y.

Definition configuration_wf (c : EndpointConfiguration) : Prop := dict_wf (em_environment (cf_model c)).

Lemma compare_model x y p :
  dict_wf (em_environment x) -> dict_wf (em_environment y) ->
  _compare_values (EndpointModel_dump x) (EndpointModel_dump y) p = [] <-> same_model x y.
Proof.
  intros Hx Hy. unfold EndpointModel_dump, same_model.
  pose proof (fun p => compare_environments _ _ p Hx Hy) as He. revert He.
  generalize (jdict JStr (em_environment x)) (jdict JStr (em_environment y)). intros ex ey He.
  generalize (compare_image (em_image x) (em_image y)).
  generalize (EndpointImage_dump (em_image x)) (EndpointImage_dump (em_image y)). intros ix iy Hi.
  compare_fields. rewrite He, Hi. compare_leaves. split.
  - intros Hs. destruct_and!. split_and!; auto with dump_inj.
  - intros Hs. destruct_and!. split_and!; (done || congruence).
Qed.

(** Nothing differs exactly when the configurations are the same. *)
Lemma no_mismatch_iff x y :
  configuration_wf x -> configuration_wf y ->
  effective_configuration_mismatches x y = [] <-> same_configuration x y.
Proof.
  intros Hx Hy. unfold effective_configuration_mismatches, EndpointConfiguration_dump, same_configuration.
  pose proof (fun p => compare_model _ _ p Hx Hy) as Hm. revert Hm.
  generalize (EndpointModel_dump (cf_model x)) (EndpointModel_dump (cf_model y)). intros mx my Hm.
  generalize (compare_compute (cf_compute x) (cf_compute y)).
  generalize (EndpointCompute_dump (cf_compute x)) (EndpointCompute_dump (cf_compute y)). intros cx cy Hc.
  generalize (compare_provider (cf_provider x) (cf_provider y)).
  generalize (EndpointProvider_dump (cf_provider x)) (EndpointProvider_dump (cf_provider y)). intros px py Hp.
  generalize (compare_route (cf_route x) (cf_route y)).
  generalize (EndpointRoute_dump (cf_route x)) (EndpointRoute_dump (cf_route y)). intros rx ry Hr.
  compare_fields. rewrite Hm, Hc, Hp, Hr. compare_leaves. split.
  - intros Hs. destruct_and!. split_and!; auto with dump_inj.
  - intros Hs. destruct_and!. split_and!; (done || congruence).
Qed.

(** ** Outcomes of the operations *)
Lemma hub_bind_err {W A B} (m : hub W A) (k : A -> hub W B) w e w' :
  hub_bind m k w = (Err e, w') ->
  m w = (Err e, w') \/ exists a w1, m w = (Ok a, w1) /\ k a w1 = (Err e, w').
Proof.
  intros E. apply hub_bind_inv in E as ([a|e'] & w1 & Em & E); [eauto|].
  destruct E as [[= ->] ->]. by left.
Qed.

Lemma hub_catch_inv {W A} (m : hub W A) h w (res : result A) w' :
  hub_catch m h w = (res, w') ->
  (exists a, m w = (Ok a, w') /\ res = Ok a) \/
  exists e w1, m w = (Err e, w1) /\
    match h e with Some k => k w1 = (res, w') | None => res = Err e /\ w' = w1 end.
Proof.
  unfold hub_catch. destruct (m w) as [[a|e] w1]; intros E; [left; injection E as <- <-; eauto|].
  right. exists e, w1. split; [done|]. destruct (h e); [done|]. by injection E as <- <-.
Qed.

Section outcomes.
Context {W : Type} `{PORT : EndpointProvisioningPort W}.

(** An inspection that ended in [w] saw the endpoint paused with no replica. *)
Definition seen_paused (identity : ManagedEndpointIdentity) (s : EndpointSnapshot) (w : W) : Prop :=
  _is_paused_zero_ready s = true /\ exists w0, port_inspect identity w0 = (Ok (Some s), w).

Definition verified (desired : DesiredEndpoint) (s : EndpointSnapshot) : Prop :=
  verify_exact_endpoint desired s = Ok tt.

Lemma endpoint_inspect_ok desired w s w' :
  endpoint_inspect desired w = (Ok (Some s), w') ->
  verified desired s /\ port_inspect (de_identity desired) w = (Ok (Some s), w').
Proof.
  intros E. apply hub_bind_ok in E as ([s'|] & w1 & E1 & E); [|done].
  apply hub_bind_ok in E as ([] & w2 & E2 & E). injection E2 as E2 <-. injection E as -> <-. done.
Qed.

(** What a wait returns, an attempt gave. *)
Lemma poll_until_ok {A} fuel (attempt : hub W (A + exn)) deadline poll w a w' :
  poll_until fuel attempt deadline poll w = (Ok a, w') -> exists w0, attempt w0 = (Ok (inl a), w').
Proof.
  revert w. induction fuel as [|fuel IH]; intros w; cbn; [done|]. intros E.
  apply hub_bind_ok in E as ([b|e] & w1 & E1 & E); [injection E as -> ->; eauto|].
  apply hub_bind_ok in E as ([] & w2 & E2 & E); [eauto|done].
Qed.

Lemma wait_for_ok {A} (attempt : hub W (A + exn)) timeout poll w a w' :
  wait_for attempt timeout poll w = (Ok a, w') -> exists w0, attempt w0 = (Ok (inl a), w').
Proof. intros E. apply hub_bind_ok in E as (d & w1 & E1 & E). by eapply poll_until_ok. Qed.

Lemma pause_and_verify_ok desired timeout poll w s w' :
  pause_and_verify desired timeout poll w = (Ok s, w') ->
  verified desired s /\ seen_paused (de_identity desired) s w'.
Proof.
  intros E. apply hub_bind_ok in E as ([c|] & w1 & E1 & E); [|done].
  destruct (_is_paused_zero_ready c) eqn:Ep.
  - injection E as -> <-. apply endpoint_inspect_ok in E1 as [Hv Hi]. split; [done|]. split; eauto.
  - apply hub_bind_ok in E as ([] & w2 & E2 & E). apply wait_for_ok in E as (w0 & E).
    apply hub_bind_ok in E as ([t|] & w3 & E3 & E); [|done]. injection E as E <-.
    destruct (_is_paused_zero_ready t) eqn:Et; [|done]. injection E as ->.
    apply endpoint_inspect_ok in E3 as [Hv Hi]. split; [done|]. split; eauto.
Qed.

Lemma pause_created_identity_ok identity timeout poll w s w' :
  _pause_created_identity identity timeout poll w = (Ok s, w') -> seen_paused identity s w'.
Proof.
  intros E. apply hub_bind_ok in E as ([] & w1 & E1 & E). apply wait_for_ok in E as (w0 & E).
  apply hub_bind_ok in E as ([t|] & w2 & E2 & E); [|done]. injection E as E <-.
  destruct (_is_paused_zero_ready t) eqn:Et; [|done]. injection E as ->. split; eauto.
Qed.

(** Cleaning up turns every provisioning error into an ambiguous pause. *)
Lemma ambiguous_cleanup_err {A} (m : hub W A) w e w' :
  ambiguous_cleanup m w = (Err e, w') ->
  (exists msg, e = AmbiguousEndpointPause msg) \/ is_provisioning_error e = false.
Proof.
  intros E. apply hub_catch_inv in E as [(a & _ & ?)|(e1 & w1 & _ & E)]; [done|].
  destruct (is_provisioning_error e1) eqn:Ee; [injection E as <- <-; eauto|]. destruct E as [[= ->] ->]. by right.
Qed.

Lemma ambiguous_cleanup_ok {A} (m : hub W A) w a w' :
  ambiguous_cleanup m w = (Ok a, w') -> m w = (Ok a, w').
Proof.
  intros E. apply hub_catch_inv in E as [(b & E & [= ->])|(e1 & w1 & _ & E)]; [done|].
  destruct (is_provisioning_error e1); [done|]. by destruct E.
Qed.

Lemma pause_created_ok desired timeout poll w s w' :
  pause_created desired timeout poll w = (Ok s, w') ->
  verified desired s /\ seen_paused (de_identity desired) s w'.
Proof.
  intros E. apply hub_catch_inv in E as [(b & E & [= ->])|(e1 & w1 & E1 & E)]; [by eapply pause_and_verify_ok|].
  destruct (is_mismatch e1); [apply hub_bind_ok in E as (? & ? & _ & ?); done|].
  destruct (is_provisioning_error e1); [|by destruct E].
  apply ambiguous_cleanup_ok in E. apply hub_bind_ok in E as (t & w2 & E2 & E).
  apply hub_bind_ok in E as ([] & w3 & E3 & E). injection E3 as E3 <-. injection E as -> <-.
  split; [done|]. by eapply pause_created_identity_ok.
Qed.

(** How pausing what was created can fail: it stays unknown whether the endpoint
    runs, which the error says, or it was seen paused. *)
Lemma pause_created_err desired timeout poll w e w' :
  pause_created desired timeout poll w = (Err e, w') -> is_provisioning_error e = true ->
  (exists msg, e = AmbiguousEndpointPause msg) \/
  is_mismatch e = true /\ exists s, seen_paused (de_identity desired) s w'.
Proof.
  intros E Hp. apply hub_catch_inv in E as [(b & _ & ?)|(e1 & w1 & E1 & E)]; [done|].
  destruct (is_mismatch e1) eqn:Em.
  - apply hub_bind_err in E as [E|(s & w2 & E2 & E)].
    + apply ambiguous_cleanup_err in E as [?|E]; [by left|congruence].
    + injection E as <- <-. right. split; [done|]. apply ambiguous_cleanup_ok in E2.
      exists s. by eapply pause_created_identity_ok.
  - destruct (is_provisioning_error e1) eqn:Ee; [|destruct E as [[= ->] ->]; congruence].
    apply ambiguous_cleanup_err in E as [?|E]; [by left|congruence].
Qed.
End outcomes.

(** ** Termination of the polling loops *)

(** A clock that never turns back and that sleeping advances; the provider takes
    time too, and never reports the loops' own marker. *)
Class ClockLaws (W : Type) `{EndpointProvisioningPort W} (now : W -> Z) := {
  clock_monotonic_law w r w' :
    clock_monotonic w = (r, w') -> now w <= now w' /\ exists t, r = Ok t /\ now w <= t <= now w';
  clock_sleep_law d w r w' :
    clock_sleep d w = (r, w') -> r = Ok tt /\ now w + Z.max 0 d <= now w';
  port_create_law d w r w' : port_create d w = (r, w') -> now w <= now w' /\ r <> Err OutOfFuel;
  port_inspect_law i w r w' : port_inspect i w = (r, w') -> now w <= now w' /\ r <> Err OutOfFuel;
  port_pause_law i w r w' : port_pause i w = (r, w') -> now w <= now w' /\ r <> Err OutOfFuel;
  port_delete_law i w r w' : port_delete i w = (r, w') -> now w <= now w' /\ r <> Err OutOfFuel;
}.

Section termination.
Context {W : Type} {PORT : EndpointProvisioningPort W} (now : W -> Z) {CLOCK : ClockLaws W now}.

(** A computation that takes time and does not run out of fuel. *)
Definition timely {A} (m : hub W A) : Prop :=
  forall w res w', m w = (res, w') -> now w <= now w' /\ res <> Err OutOfFuel.

Lemma timely_ret {A} (a : A) : timely (hub_ret a).
Proof. intros w res w' [= <- <-]. split; [lia|done]. Qed.

Lemma timely_lift {A} (r : result A) : r <> Err OutOfFuel -> timely (hub_lift r).
Proof. intros Hr w res w' [= <- <-]. split; [lia|done]. Qed.

Lemma timely_raise {A} e : e <> OutOfFuel -> timely (hub_raise (A := A) e).
Proof. intros He w res w' [= <- <-]. split; [lia|by intros [= ->]]. Qed.

Lemma timely_bind {A B} (m : hub W A) (k : A -> hub W B) :
  timely m -> (forall a, timely (k a)) -> timely (hub_bind m k).
Proof.
  intros Hm Hk w res w' E. apply hub_bind_inv in E as (r & w1 & Em & E).
  destruct (Hm _ _ _ Em) as [H1 H2]. destruct r as [a|e].
  - destruct (Hk a _ _ _ E). split; [lia|done].
  - destruct E as [-> ->]. split; [done|]. intros [= ->]. done.
Qed.

(** The handler only sees exceptions other than the marker. *)
Lemma timely_catch {A} (m : hub W A) h :
  timely m -> (forall e k, e <> OutOfFuel -> h e = Some k -> timely k) -> timely (hub_catch m h).
Proof.
  intros Hm Hh w res w' E. apply hub_catch_inv in E as [(a & E & ->)|(e & w1 & Em & E)].
  - destruct (Hm _ _ _ E). split; [lia|done].
  - destruct (Hm _ _ _ Em) as [H1 H2]. assert (Hne : e <> OutOfFuel) by congruence.
    destruct (h e) as [k|] eqn:Eh.
    + destruct (Hh _ _ Hne Eh _ _ _ E). split; [lia|done].
    + destruct E as [-> ->]. split; [done|congruence].
Qed.

Lemma timely_inspect identity : timely (port_inspect identity).
Proof. intros w res w' E. by apply (port_inspect_law identity). Qed.
Lemma timely_create desired : timely (port_create desired).
Proof. intros w res w' E. by apply (port_create_law desired). Qed.
Lemma timely_pause identity : timely (port_pause identity).
Proof. intros w res w' E. by apply (port_pause_law identity). Qed.
Lemma timely_delete identity : timely (port_delete identity).
Proof. intros w res w' E. by apply (port_delete_law identity). Qed.

Create HintDb timely.
#[local] Hint Resolve timely_ret timely_inspect timely_create timely_pause timely_delete : timely.

(** [k + 1] steps are enough when [k] polls fill the time that is left. *)
Lemma poll_until_timely {A} (attempt : hub W (A + exn)) deadline poll k :
  timely attempt -> (forall w e w', attempt w = (Ok (inr e), w') -> e <> OutOfFuel) -> 0 < poll ->
  forall w res w', deadline - now w <= Z.of_nat k * poll ->
  poll_until (S k) attempt deadline poll w = (res, w') -> now w <= now w' /\ res <> Err OutOfFuel.
Proof.
  intros Ha Hne Hpoll. induction k as [|k IH]; intros w res w' Hk E;
    cbn [poll_until] in E; apply hub_bind_inv in E as (r & w1 & E1 & E);
    destruct (Ha _ _ _ E1) as [H1 Hr]; (destruct r as [[a|e]|e];
      [injection E as <- <-; by split| |destruct E as [-> ->]; split; [done|congruence]]);
    specialize (Hne _ _ _ E1); apply hub_bind_inv in E as (r & w2 & E2 & E);
    apply hub_bind_inv in E2 as (r2 & w3 & E3 & E2);
    destruct (clock_monotonic_law _ _ _ E3) as (H3 & t & -> & Ht); cbv zeta in E2;
    destruct (Z.leb_spec (deadline - t) 0) as [Hle|Hgt].
  1,3: injection E2 as <- <-; injection E as <- <-; split; [lia|congruence].
  all: apply hub_bind_inv in E2 as (r3 & w4 & E4 & E2);
    destruct (clock_sleep_law _ _ _ _ E4) as [-> H4]; injection E2 as <- <-.
  - lia.
  - destruct (IH w4 res w') as [H5 H6]; [lia|done|]. split; [lia|done].
Qed.

Lemma wait_for_timely {A} (attempt : hub W (A + exn)) timeout poll :
  timely attempt -> (forall w e w', attempt w = (Ok (inr e), w') -> e <> OutOfFuel) ->
  timely (wait_for attempt timeout poll).
Proof.
  intros Ha Hne w res w' E. apply hub_bind_inv in E as (r & w1 & E1 & E). unfold _validated_deadline in E1.
  destruct (Z.leb_spec timeout 0); [cbn in E1; injection E1 as <- <-; destruct E as [-> ->]; split; [lia|done]|].
  destruct (Z.leb_spec poll 0); [cbn in E1; injection E1 as <- <-; destruct E as [-> ->]; split; [lia|done]|].
  cbn [orb] in E1. apply hub_bind_inv in E1 as (r1 & w2 & E2 & E1).
  destruct (clock_monotonic_law _ _ _ E2) as (H2 & t & -> & Ht). injection E1 as <- <-.
  destruct (poll_until_timely attempt (t + timeout) poll (S (Z.to_nat (timeout / poll))) Ha Hne ltac:(lia)
              w2 res w') as [H3 H4]; [|exact E|split; [lia|done]].
  pose proof (Z.mul_succ_div_gt timeout poll ltac:(lia)) as Hd.
  pose proof (Z.div_pos timeout poll ltac:(lia) ltac:(lia)). nia.
Qed.

Lemma verify_not_fuel desired s : verify_exact_endpoint desired s <> Err OutOfFuel.
Proof. unfold verify_exact_endpoint. by repeat case_match. Qed.
Lemma require_not_fuel s : require_paused_zero_ready s <> Err OutOfFuel.
Proof. unfold require_paused_zero_ready. by case_match. Qed.

Lemma endpoint_inspect_timely desired : timely (endpoint_inspect desired).
Proof.
  apply timely_bind; [auto with timely|]. intros [s|]; [|auto with timely].
  apply timely_bind; [apply timely_lift, verify_not_fuel|auto with timely].
Qed.

Lemma request_pause_timely identity : timely (request_pause identity).
Proof.
  apply timely_catch; [apply timely_bind; auto with timely|].
  intros e k _ Hk. destruct e; try done. injection Hk as <-. auto with timely.
Qed.

(** The attempts never time out with the marker. *)
Ltac attempt_error :=
  intros ? ? ? E; apply hub_bind_ok in E as ([?|] & ? & _ & E);
  repeat match type of E with context [if ?b then _ else _] => destruct b end;
  try done; by injection E as <- <-.

Lemma pause_created_identity_timely identity timeout poll :
  timely (_pause_created_identity identity timeout poll).
Proof.
  apply timely_bind; [apply request_pause_timely|]. intros _. apply wait_for_timely; [|attempt_error].
  apply timely_bind; [auto with timely|]. intros [s|]; [auto with timely|by apply timely_raise].
Qed.

Lemma pause_and_verify_timely desired timeout poll : timely (pause_and_verify desired timeout poll).
Proof.
  apply timely_bind; [apply endpoint_inspect_timely|]. intros [s|]; [|by apply timely_raise].
  destruct (_is_paused_zero_ready s); [auto with timely|].
  apply timely_bind; [apply request_pause_timely|]. intros _. apply wait_for_timely; [|attempt_error].
  apply timely_bind; [apply endpoint_inspect_timely|]. intros [t|]; [auto with timely|by apply timely_raise].
Qed.

Lemma ambiguous_cleanup_timely {A} (m : hub W A) : timely m -> timely (ambiguous_cleanup m).
Proof.
  intros Hm. apply timely_catch; [done|]. intros e k _. destruct (is_provisioning_error e); [|done].
  intros [= <-]. by apply timely_raise.
Qed.

Lemma pause_created_timely desired timeout poll : timely (pause_created desired timeout poll).
Proof.
  apply timely_catch; [apply pause_and_verify_timely|]. intros e k He.
  destruct (is_mismatch e); [|destruct (is_provisioning_error e); [|done]]; intros [= <-].
  - apply timely_bind; [apply ambiguous_cleanup_timely, pause_created_identity_timely|].
    intros _. by apply timely_raise.
  - apply ambiguous_cleanup_timely, timely_bind; [apply pause_created_identity_timely|]. intros s.
    apply timely_bind; [apply timely_lift, verify_not_fuel|auto with timely].
Qed.

Lemma create_endpoint_timely desired timeout poll : timely (create_endpoint desired timeout poll).
Proof.
  apply timely_catch; [apply timely_bind; auto with timely|]. intros e k _ Hk.
  destruct e; try done. injection Hk as <-. apply timely_bind; [|auto with timely].
  apply wait_for_timely; [|attempt_error].
  apply timely_bind; [apply endpoint_inspect_timely|auto with timely].
Qed.

Lemma create_or_adopt_timely desired timeout poll : timely (create_or_adopt desired timeout poll).
Proof.
  apply timely_bind; [apply endpoint_inspect_timely|]. intros [s|].
  - apply timely_bind; [apply timely_lift, require_not_fuel|auto with timely].
  - apply timely_bind; [apply create_endpoint_timely|]. intros c. apply timely_bind.
    + apply timely_catch; [apply timely_lift, verify_not_fuel|]. intros e k He.
      destruct (is_mismatch e); [|done]. intros [= <-].
      apply timely_bind; [apply pause_created_identity_timely|]. intros _. by apply timely_raise.
    + intros _. apply timely_bind; [apply pause_created_timely|auto with timely].
Qed.

Lemma endpoint_delete_timely desired timeout poll : timely (endpoint_delete desired timeout poll).
Proof.
  apply timely_bind; [apply endpoint_inspect_timely|]. intros [s|]; [|auto with timely].
  apply timely_bind; [apply timely_lift, require_not_fuel|]. intros _. apply timely_bind.
  - apply timely_catch; [auto with timely|]. intros e k _ Hk. destruct e; try done.
    injection Hk as <-. auto with timely.
  - intros _. apply timely_bind; [|auto with timely]. apply wait_for_timely; [|attempt_error].
    apply timely_bind; auto with timely.
Qed.
End termination.
