(* ===== verification/ControllerStatus.v ===== *)
(** The controller records of the coordination Dataset (src/src/harbor_hf/controller_status.py).

    The Pydantic records with their validators, the paths they live at, and
    [HubControllerStateStore]: ownership claims with leases, status reports,
    launch claims, the shared provider capacity, and write-once receipts.
    Datetimes are microseconds UTC (the validators refuse any other offset);
    floats are binary64 numbers. *)
From Stdlib Require Import Floats.SpecFloat.
From S2P Require Import Prelude.
From S2P Require Import Float64.
From S2P Require Import Json.
From S2P Require Import PyText.

From S2P Require Import Sha256.
From S2P Require Import Hub.
From S2P Require Import Patterns.

(** [x >= 0] of a float: false for NaN. *)
Definition float_nonneg (x : spec_float) : bool := SFleb (S754_zero false) x.

(** [value and value == value.strip()] *)
Definition is_canonical (s : string) : bool :=
  match s with
  | EmptyString => false
  | String c s' => negb (is_space c) && negb (is_space (last_char c s'))
  end.

(** [Field(default=None, min_length=1)] *)
Definition opt_nonempty (o : option string) : bool :=
  match o with Some s => negb (String.eqb s "") | None => true end.

(** [_SAFE_ID.fullmatch(value)] *)
Definition safe_id (value : string) : bool := safe_component 127 value.

(** ** Records *)
Record ControllerClaim := {
  cc_campaign_id : string;
  cc_job_id : string;
  cc_plan_digest : string;
  cc_attempt : Z;
  cc_acquired_at : Z;
  cc_heartbeat_at : Z;
  cc_expires_at : Z;
}.

Definition ControllerClaim_valid (c : ControllerClaim) : bool :=
  (1 <=? cc_attempt c) && safe_id (cc_campaign_id c) && safe_id (cc_job_id c) &&
  ((cc_acquired_at c <=? cc_heartbeat_at c) && (cc_heartbeat_at c <? cc_expires_at c)).

Record ControllerCapacityEvidence := {
  ce_completed_trial_count : Z;
  ce_elapsed_seconds : Z;
  ce_observed_effective_concurrency : Z;
  ce_p50_trial_seconds : spec_float;
  ce_p95_trial_seconds : spec_float;
  ce_maximum_trial_seconds : spec_float;
  ce_remaining_trials : Z;
  ce_projected_remaining_seconds : Z;
  ce_available_seconds : Z;
  ce_assumptions_valid : bool;
}.

Definition ControllerCapacityEvidence_valid (e : ControllerCapacityEvidence) : bool :=
  (1 <=? ce_completed_trial_count e) && (0 <=? ce_elapsed_seconds e) &&
  (1 <=? ce_observed_effective_concurrency e) && float_nonneg (ce_p50_trial_seconds e) &&
  float_nonneg (ce_p95_trial_seconds e) && float_nonneg (ce_maximum_trial_seconds e) &&
  (0 <=? ce_remaining_trials e) && (0 <=? ce_projected_remaining_seconds e) &&
  (0 <=? ce_available_seconds e).

Record ControllerProjectionCounts := {
  pc_logical_trials : Z;
  pc_terminal_trials : Z;
  pc_active_trials : Z;
  pc_physical_executions : Z;
}.

Definition ControllerProjectionCounts_valid (p : ControllerProjectionCounts) : bool :=
  (0 <=? pc_logical_trials p) && (0 <=? pc_terminal_trials p) && (0 <=? pc_active_trials p) &&
  (0 <=? pc_physical_executions p) &&
  negb (pc_logical_trials p <? pc_terminal_trials p + pc_active_trials p).

Inductive ControllerState :=
  | controller_starting
  | controller_running
  | controller_waiting_retry
  | controller_finalizing
  | controller_completed
  | controller_paused_capacity
  | controller_paused_policy
  | controller_failed_infrastructure
  | controller_failed_deterministic.

Record ControllerStatus := {
  cs_campaign_id : string;
  cs_plan_digest : string;
  cs_job_id : string;
  cs_attempt : Z;
  cs_state : ControllerState;
  cs_heartbeat_at : Z;
  cs_lease_expires_at : Z;
  cs_physical_deadline : Z;
  cs_remaining_seconds : Z;
  cs_projection : ControllerProjectionCounts;
  cs_current_action : option string;
  cs_current_wave : option string;
  cs_spend_reserved_microusd : Z;
  cs_block_reason : option string;
  cs_event_revision : option string;
  cs_evidence_revision : option string;
  cs_capacity : option ControllerCapacityEvidence;
}.

Definition ControllerStatus_valid (s : ControllerStatus) : bool :=
  (1 <=? cs_attempt s) && (0 <=? cs_remaining_seconds s) &&
  ControllerProjectionCounts_valid (cs_projection s) &&
  opt_nonempty (cs_current_action s) && opt_nonempty (cs_current_wave s) &&
  (0 <=? cs_spend_reserved_microusd s) && opt_nonempty (cs_block_reason s) &&
  opt_nonempty (cs_event_revision s) && opt_nonempty (cs_evidence_revision s) &&
  match cs_capacity s with Some e => ControllerCapacityEvidence_valid e | None => true end &&
  safe_id (cs_campaign_id s) && safe_id (cs_job_id s) &&
  negb (cs_lease_expires_at s <=? cs_heartbeat_at s).

Record ProviderCapacityClaim := {
  pcc_provider : string;
  pcc_campaign_id : string;
  pcc_plan_digest : string;
  pcc_job_id : string;
  pcc_attempt : Z;
  pcc_action_id : string;
  pcc_acquired_at : Z;
}.

Definition ProviderCapacityClaim_valid (c : ProviderCapacityClaim) : bool :=
  negb (String.eqb (pcc_provider c) "") && (1 <=? pcc_attempt c) &&
  negb (String.eqb (pcc_action_id c) "") &&
  safe_id (pcc_campaign_id c) && safe_id (pcc_job_id c).

Record ControllerLaunchClaim := {
  lc_campaign_id : string;
  lc_plan_digest : string;
  lc_attempt : Z;
  lc_launcher_id : string;
  lc_acquired_at : Z;
  lc_expires_at : Z;
}.

Definition ControllerLaunchClaim_valid (c : ControllerLaunchClaim) : bool :=
  (1 <=? lc_attempt c) && safe_id (lc_campaign_id c) && safe_id (lc_launcher_id c) &&
  negb (lc_expires_at c <=? lc_acquired_at c).

Record ControllerLaunchReceipt := {
  lr_campaign_id : string;
  lr_plan_digest : string;
  lr_input_digest : string;
  lr_attempt : Z;
  lr_job_id : string;
}.

Definition ControllerLaunchReceipt_valid (r : ControllerLaunchReceipt) : bool :=
  (1 <=? lr_attempt r) && hex_fullmatch 24 (lr_job_id r) && safe_id (lr_campaign_id r).

Record ControllerStartedReceipt := {
  st_campaign_id : string;
  st_plan_digest : string;
  st_input_digest : string;
  st_worker_revision : string;
  st_job_id : string;
  st_attempt : Z;
  st_started_at : Z;
}.

Definition ControllerStartedReceipt_valid (r : ControllerStartedReceipt) : bool :=
  1 <=? st_attempt r.

Record ControllerEndedReceipt := {
  en_campaign_id : string;
  en_plan_digest : string;
  en_job_id : string;
  en_attempt : Z;
  en_state : ControllerState;
  en_ended_at : Z;
  en_message : option string;
}.

Definition ControllerEndedReceipt_valid (r : ControllerEndedReceipt) : bool :=
  (1 <=? en_attempt r) && opt_nonempty (en_message r).

Record ControllerAttemptReservation := {
  at_campaign_id : string;
  at_plan_digest : string;
  at_input_digest : string;
  at_input_uri : string;
  at_output_uri : string;
  at_worker_revision : string;
  at_attempt : Z;
  at_reserved_at : Z;
}.

Definition ControllerAttemptReservation_valid (r : ControllerAttemptReservation) : bool :=
  is_bucket_uri (at_input_uri r) && is_bucket_uri (at_output_uri r) &&
  hex_fullmatch 40 (at_worker_revision r) && (1 <=? at_attempt r).

Inductive RecoveryCategory :=
  | recovery_lost | recovery_transient | recovery_quota | recovery_rate_limit
  | recovery_ambiguous.

Record ControllerRecoveryDecision := {
  rd_campaign_id : string;
  rd_plan_digest : string;
  rd_prior_job_id : string;
  rd_prior_attempt : Z;
  rd_replacement_attempt : Z;
  rd_checkpoint_revision : string;
  rd_category : RecoveryCategory;
  rd_decided_at : Z;
}.

Definition ControllerRecoveryDecision_valid (d : ControllerRecoveryDecision) : bool :=
  (1 <=? rd_prior_attempt d) && (2 <=? rd_replacement_attempt d) &&
  (rd_replacement_attempt d =? rd_prior_attempt d + 1).

#[export] Instance ControllerClaim_eq_dec : EqDecision ControllerClaim.
Proof. solve_decision. Defined.
#[export] Instance ControllerState_eq_dec : EqDecision ControllerState.
Proof. solve_decision. Defined.
#[export] Instance ControllerCapacityEvidence_eq_dec : EqDecision ControllerCapacityEvidence.
Proof. solve_decision. Defined.
#[export] Instance ControllerProjectionCounts_eq_dec : EqDecision ControllerProjectionCounts.
Proof. solve_decision. Defined.
#[export] Instance ControllerStatus_eq_dec : EqDecision ControllerStatus.
Proof. solve_decision. Defined.
#[export] Instance ProviderCapacityClaim_eq_dec : EqDecision ProviderCapacityClaim.
Proof. solve_decision. Defined.
#[export] Instance ControllerLaunchClaim_eq_dec : EqDecision ControllerLaunchClaim.
Proof. solve_decision. Defined.

(** ** Paths *)
Definition _require_safe_id (value : string) : result unit :=
  if safe_id value then Ok tt
  else Err (ValueError "controller identity must be a safe path component").

Definition controller_claim_path (campaign_id : string) : result string :=
  let* _ := _require_safe_id campaign_id in
  Ok ("claims/campaign-controllers/" +:+ campaign_id +:+ ".json").

Definition controller_status_path (campaign_id : string) : result string :=
  let* _ := _require_safe_id campaign_id in
  Ok ("campaigns/" +:+ campaign_id +:+ "/controller-status.json").

Definition controller_launch_claim_path (campaign_id : string) (attempt : Z) : result string :=
  let* _ := _require_safe_id campaign_id in
  raise_if attempt <? 1 with ValueError "controller launch attempt must be positive";;
  Ok ("claims/controller-launches/" +:+ campaign_id +:+ "/" +:+ pretty attempt +:+ ".json").

Definition controller_launch_receipt_path (campaign_id : string) (attempt : Z) : result string :=
  let* _ := _require_safe_id campaign_id in
  raise_if attempt <? 1 with ValueError "controller launch attempt must be positive";;
  Ok ("campaigns/" +:+ campaign_id +:+ "/controller-launches/" +:+ pretty attempt +:+ ".json").

Definition provider_capacity_claim_path (provider : string) : result string :=
  raise_if negb (is_canonical provider)
    with ValueError "provider capacity identity must be non-empty and canonical";;
  Ok ("claims/provider-capacity/" +:+ sha256_hex provider +:+ ".json").

Definition controller_started_path (receipt : ControllerStartedReceipt) : result string :=
  let* _ := _require_safe_id (st_campaign_id receipt) in
  let* _ := _require_safe_id (st_job_id receipt) in
  Ok ("campaigns/" +:+ st_campaign_id receipt +:+ "/controllers/" +:+ st_job_id receipt
      +:+ "/started.json").

Definition controller_ended_path (receipt : ControllerEndedReceipt) : result string :=
  let* _ := _require_safe_id (en_campaign_id receipt) in
  let* _ := _require_safe_id (en_job_id receipt) in
  Ok ("campaigns/" +:+ en_campaign_id receipt +:+ "/controllers/" +:+ en_job_id receipt
      +:+ "/ended.json").

Definition controller_attempt_path (campaign_id : string) (attempt : Z) : result string :=
  let* _ := _require_safe_id campaign_id in
  raise_if attempt <? 1 with ValueError "controller attempt must be positive";;
  Ok ("campaigns/" +:+ campaign_id +:+ "/controller-attempts/" +:+ pretty attempt +:+ ".json").

Definition controller_recovery_path (campaign_id : string) (replacement_attempt : Z)
    : result string :=
  let* _ := _require_safe_id campaign_id in
  raise_if replacement_attempt <? 2
    with ValueError "controller recovery attempt must be at least two";;
  Ok ("campaigns/" +:+ campaign_id +:+ "/controller-recoveries/" +:+ pretty replacement_attempt
      +:+ ".json").

(** ** Equality of status reports

    Pydantic models are equal when their fields are; floats compare with [==],
    for which the two zeros are equal. *)
Definition ControllerCapacityEvidence_eqb (a b : ControllerCapacityEvidence) : bool :=
  (ce_completed_trial_count a =? ce_completed_trial_count b) &&
  (ce_elapsed_seconds a =? ce_elapsed_seconds b) &&
  (ce_observed_effective_concurrency a =? ce_observed_effective_concurrency b) &&
  SFeqb (ce_p50_trial_seconds a) (ce_p50_trial_seconds b) &&
  SFeqb (ce_p95_trial_seconds a) (ce_p95_trial_seconds b) &&
  SFeqb (ce_maximum_trial_seconds a) (ce_maximum_trial_seconds b) &&
  (ce_remaining_trials a =? ce_remaining_trials b) &&
  (ce_projected_remaining_seconds a =? ce_projected_remaining_seconds b) &&
  (ce_available_seconds a =? ce_available_seconds b) &&
  Bool.eqb (ce_assumptions_valid a) (ce_assumptions_valid b).

Definition ControllerStatus_eqb (a b : ControllerStatus) : bool :=
  String.eqb (cs_campaign_id a) (cs_campaign_id b) &&
  String.eqb (cs_plan_digest a) (cs_plan_digest b) &&
  String.eqb (cs_job_id a) (cs_job_id b) &&
  (cs_attempt a =? cs_attempt b) &&
  bool_decide (cs_state a = cs_state b) &&
  (cs_heartbeat_at a =? cs_heartbeat_at b) &&
  (cs_lease_expires_at a =? cs_lease_expires_at b) &&
  (cs_physical_deadline a =? cs_physical_deadline b) &&
  (cs_remaining_seconds a =? cs_remaining_seconds b) &&
  bool_decide (cs_projection a = cs_projection b) &&
  bool_decide (cs_current_action a = cs_current_action b) &&
  bool_decide (cs_current_wave a = cs_current_wave b) &&
  (cs_spend_reserved_microusd a =? cs_spend_reserved_microusd b) &&
  bool_decide (cs_block_reason a = cs_block_reason b) &&
  bool_decide (cs_event_revision a = cs_event_revision b) &&
  bool_decide (cs_evidence_revision a = cs_evidence_revision b) &&
  match cs_capacity a, cs_capacity b with
  | None, None => true
  | Some x, Some y => ControllerCapacityEvidence_eqb x y
  | _, _ => false
  end.

(** ** [HubControllerStateStore] *)
Section store.
Context {W : Type} `{HubApi W}.

(** [_head] *)
Definition _head : hub W string :=
  hub_head (ControllerStatusError "coordination repository has no commit identity").

(** [_exists] *)
Definition _exists (path revision : string) : hub W bool := get_paths_info path revision.

(** [_read_json_optional]: [None] when the path does not exist. *)
Definition _read_json_optional (path revision : string) : hub W (option json) :=
  do exists_ <- _exists path revision;;
  if negb exists_ then hub_ret None
  else
    do local <- hf_hub_download path revision;;
    match local with
    | DBytes content => hub_raise (undecoded content (ControllerStatusError "controller record cannot be read"))
    | DJson value =>
        if json_is_object value then hub_ret (Some value)
        else hub_raise (ControllerStatusError "controller record must be an object")
    end.

(** [_read_optional] *)
Definition _read_optional (A : Type) `{PydanticModel A} (path revision : string)
    : hub W (option A) :=
  do value <- _read_json_optional path revision;;
  match value with
  | None => hub_ret None
  | Some j => hub_lift (let* x := model_validate j in Ok (Some x))
  end.

(** [_add]: canonical JSON text. *)
Definition _add {A} `{PydanticModel A} (path : string) (value : A) : commit_op :=
  CommitOperationAdd path (DJson (model_dump value)).

(** The [for] loop of every operation. *)
Definition _commit_loop {A} (message : string) (body : string -> hub W (decision A)) : hub W A :=
  commit_loop _MAX_COMMIT_ATTEMPTS (ControllerStatusError message) _head body.

(** The body of [acquire]: what is decided on the tree at [head]. *)
Definition acquire_body `{PydanticModel ControllerClaim} (path : string)
    (claim : ControllerClaim) (prior_job_terminal : bool) (head : string)
    : hub W (decision unit) :=
  do observed <- _read_optional ControllerClaim path head;;
  match observed with
  | None => hub_ret (Commit [_add path claim] tt)
  | Some observed =>
      if bool_decide (observed = claim) then hub_ret (Return tt)
      else
        let expired := cc_expires_at observed <=? cc_acquired_at claim in
        if negb expired || negb prior_job_terminal
        then hub_raise (ControllerOwnershipConflict
               "another physical Job owns the campaign controller")
        else if negb (cc_attempt claim =? cc_attempt observed + 1)
        then hub_raise (ControllerStatusError
               "replacement controller attempt is not sequential")
        else hub_ret (Commit [_add path claim] tt)
  end.

(** [acquire] *)
Definition acquire `{PydanticModel ControllerClaim} (claim : ControllerClaim)
    (prior_job_terminal : bool) : hub W unit :=
  do path <- hub_lift (controller_claim_path (cc_campaign_id claim));;
  _commit_loop "controller claim remained contended"
    (acquire_body path claim prior_job_terminal).

(** The body of [_replace_exact]. *)
Definition replace_exact_body {A} `{PydanticModel A} (path : string) (previous replacement : A)
    (head : string) : hub W (decision unit) :=
  do observed <- _read_json_optional path head;;
  if negb (bool_decide (observed = Some (model_dump previous)))
  then hub_raise (ControllerStatusError "controller record changed concurrently")
  else hub_ret (Commit [_add path replacement] tt).

(** [_replace_exact] *)
Definition _replace_exact {A} `{PydanticModel A} (path : string) (previous replacement : A)
    : hub W unit :=
  _commit_loop "controller repository remained contended"
    (replace_exact_body path previous replacement).

(** The identity test of [heartbeat]. *)
Definition heartbeat_valid (previous renewed : ControllerClaim) : bool :=
  String.eqb (cc_campaign_id previous) (cc_campaign_id renewed) &&
  String.eqb (cc_job_id previous) (cc_job_id renewed) &&
  String.eqb (cc_plan_digest previous) (cc_plan_digest renewed) &&
  (cc_attempt previous =? cc_attempt renewed) &&
  (cc_acquired_at previous =? cc_acquired_at renewed) &&
  negb (cc_heartbeat_at renewed <=? cc_heartbeat_at previous).

(** [heartbeat] *)
Definition heartbeat `{PydanticModel ControllerClaim} (previous renewed : ControllerClaim)
    : hub W unit :=
  if negb (heartbeat_valid previous renewed)
  then hub_raise (ControllerStatusError "controller heartbeat identity is invalid")
  else
    do path <- hub_lift (controller_claim_path (cc_campaign_id previous));;
    _replace_exact path previous renewed.

(** The body the three release operations share: a missing record is a
    success, another record is an error. *)
Definition release_body {A} `{PydanticModel A, EqDecision A} (message path : string) (claim : A)
    (head : string) : hub W (decision unit) :=
  do observed <- _read_optional A path head;;
  match observed with
  | None => hub_ret (Return tt)
  | Some observed =>
      if negb (bool_decide (observed = claim))
      then hub_raise (ControllerStatusError message)
      else hub_ret (Commit [CommitOperationDelete path] tt)
  end.

(** [release] *)
Definition release `{PydanticModel ControllerClaim} (claim : ControllerClaim) : hub W unit :=
  do path <- hub_lift (controller_claim_path (cc_campaign_id claim));;
  _commit_loop "controller claim remained contended"
    (release_body "controller claim ownership cannot be verified" path claim).

(** [read_claim], [read_status] *)
Definition read_claim `{PydanticModel ControllerClaim} (campaign_id : string)
    : hub W (option ControllerClaim) :=
  do head <- _head;;
  do path <- hub_lift (controller_claim_path campaign_id);;
  _read_optional ControllerClaim path head.

Definition read_status `{PydanticModel ControllerStatus} (campaign_id : string)
    : hub W (option ControllerStatus) :=
  do head <- _head;;
  do path <- hub_lift (controller_status_path campaign_id);;
  _read_optional ControllerStatus path head.

(** The test of [write_status] on the recorded status. *)
Definition status_moved_backwards (observed status : ControllerStatus) : bool :=
  negb (String.eqb (cs_campaign_id observed) (cs_campaign_id status)) ||
  negb (String.eqb (cs_plan_digest observed) (cs_plan_digest status)) ||
  (cs_attempt status <? cs_attempt observed) ||
  ((cs_attempt status =? cs_attempt observed) &&
   negb (String.eqb (cs_job_id observed) (cs_job_id status))) ||
  (cs_heartbeat_at status <? cs_heartbeat_at observed).

Definition write_status_body `{PydanticModel ControllerStatus} (path : string)
    (status : ControllerStatus) (head : string) : hub W (decision unit) :=
  do observed <- _read_optional ControllerStatus path head;;
  match observed with
  | None => hub_ret (Commit [_add path status] tt)
  | Some observed =>
      if ControllerStatus_eqb observed status then hub_ret (Return tt)
      else if status_moved_backwards observed status
      then hub_raise (ControllerStatusError "controller status moved backwards")
      else hub_ret (Commit [_add path status] tt)
  end.

(** [write_status] *)
Definition write_status `{PydanticModel ControllerStatus} (status : ControllerStatus)
    : hub W unit :=
  do path <- hub_lift (controller_status_path (cs_campaign_id status));;
  _commit_loop "controller status remained contended" (write_status_body path status).

Definition acquire_launch_body `{PydanticModel ControllerLaunchClaim} (path : string)
    (claim : ControllerLaunchClaim) (head : string) : hub W (decision unit) :=
  do observed <- _read_optional ControllerLaunchClaim path head;;
  match observed with
  | None => hub_ret (Commit [_add path claim] tt)
  | Some observed =>
      if bool_decide (observed = claim) then hub_ret (Return tt)
      else if lc_acquired_at claim <? lc_expires_at observed
      then hub_raise (ControllerLaunchUnavailable
             "controller attempt launch is already in progress")
      else hub_ret (Commit [_add path claim] tt)
  end.

(** [acquire_launch], [release_launch], [read_launch_claim] *)
Definition acquire_launch `{PydanticModel ControllerLaunchClaim} (claim : ControllerLaunchClaim)
    : hub W unit :=
  do path <- hub_lift (controller_launch_claim_path (lc_campaign_id claim) (lc_attempt claim));;
  _commit_loop "controller launch claim remained contended" (acquire_launch_body path claim).

Definition release_launch `{PydanticModel ControllerLaunchClaim} (claim : ControllerLaunchClaim)
    : hub W unit :=
  do path <- hub_lift (controller_launch_claim_path (lc_campaign_id claim) (lc_attempt claim));;
  _commit_loop "controller launch release remained contended"
    (release_body "controller launch claim ownership cannot be verified" path claim).

Definition read_launch_claim `{PydanticModel ControllerLaunchClaim} (campaign_id : string)
    (attempt : Z) : hub W (option ControllerLaunchClaim) :=
  do head <- _head;;
  do path <- hub_lift (controller_launch_claim_path campaign_id attempt);;
  _read_optional ControllerLaunchClaim path head.

(** The body of [_write_immutable]. *)
Definition write_immutable_body {A} `{PydanticModel A} (path : string) (value : A)
    (head : string) : hub W (decision unit) :=
  do observed <- _read_json_optional path head;;
  match observed with
  | Some observed =>
      if negb (bool_decide (observed = model_dump value))
      then hub_raise (ControllerStatusError
             ("immutable controller record conflicts: " +:+ path))
      else hub_ret (Return tt)
  | None => hub_ret (Commit [_add path value] tt)
  end.

(** [_write_immutable] *)
Definition _write_immutable {A} `{PydanticModel A} (path : string) (value : A) : hub W unit :=
  _commit_loop "controller repository remained contended" (write_immutable_body path value).

(** [write_launch], [read_launch] *)
Definition write_launch `{PydanticModel ControllerLaunchReceipt}
    (receipt : ControllerLaunchReceipt) : hub W unit :=
  do path <- hub_lift (controller_launch_receipt_path (lr_campaign_id receipt) (lr_attempt receipt));;
  _write_immutable path receipt.

Definition read_launch `{PydanticModel ControllerLaunchReceipt} (campaign_id : string)
    (attempt : Z) : hub W (option ControllerLaunchReceipt) :=
  do head <- _head;;
  do path <- hub_lift (controller_launch_receipt_path campaign_id attempt);;
  _read_optional ControllerLaunchReceipt path head.

Definition acquire_provider_capacity_body `{PydanticModel ProviderCapacityClaim} (path : string)
    (claim : ProviderCapacityClaim) (head : string) : hub W (decision unit) :=
  do observed <- _read_optional ProviderCapacityClaim path head;;
  match observed with
  | None => hub_ret (Commit [_add path claim] tt)
  | Some observed =>
      if bool_decide (observed = claim) then hub_ret (Return tt)
      else hub_raise (ProviderCapacityUnavailable
             ("shared provider capacity is occupied: " +:+ pcc_provider claim))
  end.

(** [acquire_provider_capacity] *)
Definition acquire_provider_capacity `{PydanticModel ProviderCapacityClaim}
    (claim : ProviderCapacityClaim) : hub W unit :=
  do path <- hub_lift (provider_capacity_claim_path (pcc_provider claim));;
  _commit_loop "provider capacity claim remained contended"
    (acquire_provider_capacity_body path claim).

(** [release_provider_capacity] *)
Definition release_provider_capacity `{PydanticModel ProviderCapacityClaim}
    (claim : ProviderCapacityClaim) : hub W unit :=
  do path <- hub_lift (provider_capacity_claim_path (pcc_provider claim));;
  _commit_loop "provider capacity release remained contended"
    (release_body "provider capacity claim ownership cannot be verified" path claim).

Definition recover_provider_capacity_body `{PydanticModel ProviderCapacityClaim} (path : string)
    (replacement : ControllerClaim) (prior_job_terminal : bool) (head : string)
    : hub W (decision unit) :=
  do observed <- _read_optional ProviderCapacityClaim path head;;
  match observed with
  | None => hub_ret (Return tt)
  | Some observed =>
      if String.eqb (pcc_job_id observed) (cc_job_id replacement) then hub_ret (Return tt)
      else if negb (String.eqb (pcc_campaign_id observed) (cc_campaign_id replacement))
      then hub_ret (Return tt)
      else if negb prior_job_terminal || (cc_attempt replacement <=? pcc_attempt observed)
      then hub_raise (ControllerStatusError
             "abandoned provider capacity cannot be recovered safely")
      else hub_ret (Commit [CommitOperationDelete path] tt)
  end.

(** [recover_provider_capacity] *)
Definition recover_provider_capacity `{PydanticModel ProviderCapacityClaim} (provider : string)
    (replacement : ControllerClaim) (prior_job_terminal : bool) : hub W unit :=
  do path <- hub_lift (provider_capacity_claim_path provider);;
  _commit_loop "provider capacity recovery remained contended"
    (recover_provider_capacity_body path replacement prior_job_terminal).

(** [read_provider_capacity] *)
Definition read_provider_capacity `{PydanticModel ProviderCapacityClaim} (provider : string)
    : hub W (option ProviderCapacityClaim) :=
  do head <- _head;;
  do path <- hub_lift (provider_capacity_claim_path provider);;
  _read_optional ProviderCapacityClaim path head.

(** [write_started], [write_ended] *)
Definition write_started `{PydanticModel ControllerStartedReceipt}
    (receipt : ControllerStartedReceipt) : hub W unit :=
  do path <- hub_lift (controller_started_path receipt);;
  _write_immutable path receipt.

Definition write_ended `{PydanticModel ControllerEndedReceipt}
    (receipt : ControllerEndedReceipt) : hub W unit :=
  do path <- hub_lift (controller_ended_path receipt);;
  _write_immutable path receipt.

(** [read_attempt] *)
Definition read_attempt `{PydanticModel ControllerAttemptReservation} (campaign_id : string)
    (attempt : Z) : hub W (option ControllerAttemptReservation) :=
  if attempt <? 1 then hub_ret None
  else
    do head <- _head;;
    do path <- hub_lift (controller_attempt_path campaign_id attempt);;
    _read_optional ControllerAttemptReservation path head.

(** [reserve_attempt] *)
Definition reserve_attempt `{PydanticModel ControllerAttemptReservation}
    (reservation : ControllerAttemptReservation) : hub W unit :=
  do previous <- read_attempt (at_campaign_id reservation) (at_attempt reservation - 1);;
  if (1 <? at_attempt reservation) && negb (is_some previous)
  then hub_raise (ControllerStatusError "controller attempt reservation has no predecessor")
  else
    do path <- hub_lift (controller_attempt_path (at_campaign_id reservation)
                           (at_attempt reservation));;
    _write_immutable path reservation.

(** [write_recovery], [read_recovery] *)
Definition write_recovery `{PydanticModel ControllerRecoveryDecision}
    (decided : ControllerRecoveryDecision) : hub W unit :=
  do path <- hub_lift (controller_recovery_path (rd_campaign_id decided)
                         (rd_replacement_attempt decided));;
  _write_immutable path decided.

Definition read_recovery `{PydanticModel ControllerRecoveryDecision} (campaign_id : string)
    (replacement_attempt : Z) : hub W (option ControllerRecoveryDecision) :=
  do head <- _head;;
  do path <- hub_lift (controller_recovery_path campaign_id replacement_attempt);;
  _read_optional ControllerRecoveryDecision path head.
End store.
