(* ===== verification/ControllerProtocol.v ===== *)
(** The protocol of the controller records: an abstract specification of
    [ControllerStatus].

    [location] names the places of the records; [record_at] reads one from a
    tree.  [controller_step] says how the repository may change: who may put,
    replace or delete a record, and when.  It is both what the operations of
    the store guarantee and what they expect of other clients, so that the
    invariants proved of it hold in every interleaving. *)
From S2P Require Import Prelude.
From S2P Require Import Paths.
From S2P Require Import Sha256.
From S2P Require Import Json.
From S2P Require Import Hub.
From S2P Require Import ControllerStatus.

(** ** Locations *)
Inductive location :=
  | LClaim (campaign : string)
  | LStatus (campaign : string)
  | LLaunchClaim (campaign : string) (attempt : Z)
  | LLaunchReceipt (campaign : string) (attempt : Z)
  | LCapacity (provider : string)
  | LStarted (campaign job : string)
  | LEnded (campaign job : string)
  | LAttempt (campaign : string) (attempt : Z)
  | LRecovery (campaign : string) (attempt : Z).

Definition location_path (l : location) : string :=
  match l with
  | LClaim c => "claims/campaign-controllers/" +:+ c +:+ ".json"
  | LStatus c => "campaigns/" +:+ c +:+ "/controller-status.json"
  | LLaunchClaim c n => "claims/controller-launches/" +:+ c +:+ "/" +:+ pretty n +:+ ".json"
  | LLaunchReceipt c n => "campaigns/" +:+ c +:+ "/controller-launches/" +:+ pretty n +:+ ".json"
  | LCapacity p => "claims/provider-capacity/" +:+ sha256_hex p +:+ ".json"
  | LStarted c j => "campaigns/" +:+ c +:+ "/controllers/" +:+ j +:+ "/started.json"
  | LEnded c j => "campaigns/" +:+ c +:+ "/controllers/" +:+ j +:+ "/ended.json"
  | LAttempt c n => "campaigns/" +:+ c +:+ "/controller-attempts/" +:+ pretty n +:+ ".json"
  | LRecovery c n => "campaigns/" +:+ c +:+ "/controller-recoveries/" +:+ pretty n +:+ ".json"
  end.

(** The locations the path functions of the source produce. *)
Definition location_ok (l : location) : bool :=
  match l with
  | LClaim c | LStatus c => safe_id c
  | LLaunchClaim c n | LLaunchReceipt c n | LAttempt c n => safe_id c && (1 <=? n)
  | LRecovery c n => safe_id c && (2 <=? n)
  | LCapacity p => is_canonical p
  | LStarted c j | LEnded c j => safe_id c && safe_id j
  end.

(** The components of a path. *)
Definition location_components (l : location) : list string :=
  match l with
  | LClaim c => ["claims"; "campaign-controllers"; c +:+ ".json"]
  | LStatus c => ["campaigns"; c; "controller-status.json"]
  | LLaunchClaim c n => ["claims"; "controller-launches"; c; pretty n +:+ ".json"]
  | LLaunchReceipt c n => ["campaigns"; c; "controller-launches"; pretty n +:+ ".json"]
  | LCapacity p => ["claims"; "provider-capacity"; sha256_hex p +:+ ".json"]
  | LStarted c j => ["campaigns"; c; "controllers"; j; "started.json"]
  | LEnded c j => ["campaigns"; c; "controllers"; j; "ended.json"]
  | LAttempt c n => ["campaigns"; c; "controller-attempts"; pretty n +:+ ".json"]
  | LRecovery c n => ["campaigns"; c; "controller-recoveries"; pretty n +:+ ".json"]
  end.

(** The same location: two providers with one digest share a record. *)
Definition same_location (l k : location) : Prop :=
  match l, k with
  | LCapacity p, LCapacity q => sha256_hex p = sha256_hex q
  | _, _ => l = k
  end.

Lemma safe_id_no_slash s : safe_id s = true -> no_slash s = true.
Proof. apply safe_component_no_slash. Qed.
#[export] Hint Resolve safe_id_no_slash : paths.

Lemma json_name_no_slash s : no_slash s = true -> no_slash (s +:+ ".json") = true.
Proof. intros H. by rewrite no_slash_app, H. Qed.
#[export] Hint Resolve json_name_no_slash : paths.

Lemma split_claims s : split_slash ("claims/" +:+ s) = "claims" :: split_slash s.
Proof. by apply (split_slash_cons "claims"). Qed.
Lemma split_campaigns s : split_slash ("campaigns/" +:+ s) = "campaigns" :: split_slash s.
Proof. by apply (split_slash_cons "campaigns"). Qed.

Lemma append_assoc a b c : (a +:+ b) +:+ c = a +:+ (b +:+ c).
Proof. induction a as [|x a IH]; [done|]. by rewrite !append_cons, IH. Qed.

Lemma split_location l : location_ok l = true -> split_slash (location_path l) = location_components l.
Proof.
  assert (Hc : forall a b s, no_slash a = true -> split_slash s = b -> split_slash (a +:+ "/" +:+ s) = a :: b)
    by (intros a b s Ha <-; by apply split_slash_cons).
  destruct l as [c|c|c n|c n|p|c j|c j|c n|c n]; cbn [location_ok location_path location_components];
    rewrite ?andb_true_iff; intros H.
  - apply (Hc "claims"), (Hc "campaign-controllers"); [done..|]. apply split_slash_single. eauto with paths.
  - apply (Hc "campaigns"); [done|]. apply (Hc c); [eauto with paths|done].
  - destruct H as [H _]. apply (Hc "claims"), (Hc "controller-launches"); [done..|].
    apply Hc; [eauto with paths|]. apply split_slash_single. eauto with paths.
  - destruct H as [H _]. apply (Hc "campaigns"); [done|]. apply (Hc c); [eauto with paths|].
    apply (Hc "controller-launches"); [done|]. apply split_slash_single. eauto with paths.
  - apply (Hc "claims"), (Hc "provider-capacity"); [done..|]. apply split_slash_single. eauto with paths.
  - destruct H as [H1 H2]. apply (Hc "campaigns"); [done|]. apply (Hc c); [eauto with paths|].
    apply (Hc "controllers"); [done|]. apply (Hc j); [eauto with paths|done].
  - destruct H as [H1 H2]. apply (Hc "campaigns"); [done|]. apply (Hc c); [eauto with paths|].
    apply (Hc "controllers"); [done|]. apply (Hc j); [eauto with paths|done].
  - destruct H as [H _]. apply (Hc "campaigns"); [done|]. apply (Hc c); [eauto with paths|].
    apply (Hc "controller-attempts"); [done|]. apply split_slash_single. eauto with paths.
  - destruct H as [H _]. apply (Hc "campaigns"); [done|]. apply (Hc c); [eauto with paths|].
    apply (Hc "controller-recoveries"); [done|]. apply split_slash_single. eauto with paths.
Qed.

(** Distinct locations have distinct paths. *)
Lemma location_path_inj l k :
  location_ok l = true -> location_ok k = true -> location_path l = location_path k ->
  same_location l k.
Proof.
  intros Hl Hk H. apply (f_equal split_slash) in H. rewrite !split_location in H by done.
  destruct l, k; cbn in H |- *; try discriminate H; injection H; intros; subst;
    repeat match goal with
    | H : _ +:+ ".json" = _ +:+ ".json" |- _ => apply app_suffix_inj in H
    | H : pretty _ = pretty _ |- _ => apply (inj pretty) in H
    end; try (f_equal; congruence); congruence.
Qed.

(** ** Records *)

(** The record of type [A] a tree holds at a path. *)
Definition record_at (A : Type) `{PydanticModel A} (t : tree) (path : string) : option A :=
  match t !! path with
  | Some (DJson j) =>
      if json_is_object j then match model_validate j with Ok x => Some x | Err _ => None end else None
  | _ => None
  end.

Definition record_doc {A} `{PydanticModel A} (x : A) : document := DJson (model_dump x).

(** The records that are written once. *)
Definition is_write_once (l : location) : bool :=
  match l with
  | LLaunchReceipt _ _ | LStarted _ _ | LEnded _ _ | LAttempt _ _ | LRecovery _ _ => true
  | _ => false
  end.

(** An attempt after the first is only reserved on top of its predecessor. *)
Definition predecessor_present (t : tree) (l : location) : Prop :=
  match l with
  | LAttempt c n => 1 < n -> is_Some (t !! location_path (LAttempt c (n - 1)))
  | _ => True
  end.

Section protocol.
Context {MC : PydanticModel ControllerClaim} {PC : PydanticLaws ControllerClaim ControllerClaim_valid}
  {MS : PydanticModel ControllerStatus} {PS : PydanticLaws ControllerStatus ControllerStatus_valid}
  {ML : PydanticModel ControllerLaunchClaim}
  {PL : PydanticLaws ControllerLaunchClaim ControllerLaunchClaim_valid}
  {MP : PydanticModel ProviderCapacityClaim}
  {PP : PydanticLaws ProviderCapacityClaim ProviderCapacityClaim_valid}.

(** The content a location may be given, [None] for its deletion, on a tree. *)
Inductive change (t : tree) : location -> option document -> Prop :=
  | change_claim_new c :
      ControllerClaim_valid c = true -> t !! location_path (LClaim (cc_campaign_id c)) = None ->
      change t (LClaim (cc_campaign_id c)) (Some (record_doc c))
  | change_claim_takeover c0 c :
      ControllerClaim_valid c = true ->
      record_at ControllerClaim t (location_path (LClaim (cc_campaign_id c))) = Some c0 ->
      cc_expires_at c0 <= cc_acquired_at c -> cc_attempt c = cc_attempt c0 + 1 ->
      change t (LClaim (cc_campaign_id c)) (Some (record_doc c))
  | change_claim_renew c0 c :
      ControllerClaim_valid c0 = true -> ControllerClaim_valid c = true ->
      t !! location_path (LClaim (cc_campaign_id c0)) = Some (record_doc c0) ->
      heartbeat_valid c0 c = true ->
      change t (LClaim (cc_campaign_id c0)) (Some (record_doc c))
  | change_claim_release c :
      record_at ControllerClaim t (location_path (LClaim (cc_campaign_id c))) = Some c ->
      change t (LClaim (cc_campaign_id c)) None
  | change_status_new s :
      ControllerStatus_valid s = true -> t !! location_path (LStatus (cs_campaign_id s)) = None ->
      change t (LStatus (cs_campaign_id s)) (Some (record_doc s))
  | change_status_next s0 s :
      ControllerStatus_valid s = true ->
      record_at ControllerStatus t (location_path (LStatus (cs_campaign_id s))) = Some s0 ->
      status_moved_backwards s0 s = false ->
      change t (LStatus (cs_campaign_id s)) (Some (record_doc s))
  | change_launch_new c :
      ControllerLaunchClaim_valid c = true ->
      t !! location_path (LLaunchClaim (lc_campaign_id c) (lc_attempt c)) = None ->
      change t (LLaunchClaim (lc_campaign_id c) (lc_attempt c)) (Some (record_doc c))
  | change_launch_takeover c0 c :
      ControllerLaunchClaim_valid c = true ->
      record_at ControllerLaunchClaim t (location_path (LLaunchClaim (lc_campaign_id c) (lc_attempt c))) = Some c0 ->
      lc_expires_at c0 <= lc_acquired_at c ->
      change t (LLaunchClaim (lc_campaign_id c) (lc_attempt c)) (Some (record_doc c))
  | change_launch_release c :
      record_at ControllerLaunchClaim t (location_path (LLaunchClaim (lc_campaign_id c) (lc_attempt c))) = Some c ->
      change t (LLaunchClaim (lc_campaign_id c) (lc_attempt c)) None
  | change_capacity_new c :
      ProviderCapacityClaim_valid c = true -> t !! location_path (LCapacity (pcc_provider c)) = None ->
      change t (LCapacity (pcc_provider c)) (Some (record_doc c))
  | change_capacity_release c :
      record_at ProviderCapacityClaim t (location_path (LCapacity (pcc_provider c))) = Some c ->
      change t (LCapacity (pcc_provider c)) None
  | change_capacity_recover p c (by_claim : ControllerClaim) :
      record_at ProviderCapacityClaim t (location_path (LCapacity p)) = Some c ->
      pcc_campaign_id c = cc_campaign_id by_claim -> pcc_attempt c < cc_attempt by_claim ->
      change t (LCapacity p) None
  | change_write_once l j :
      is_write_once l = true -> t !! location_path l = None -> predecessor_present t l ->
      change t l (Some (DJson j)).

Definition set_file (path : string) (d : option document) (t : tree) : tree :=
  match d with Some d => <[path := d]> t | None => delete path t end.

(** One commit of the repository: a change of one controller record, or a
    commit that touches none of them. *)
Inductive controller_step (t : tree) : tree -> Prop :=
  | step_change l d : location_ok l = true -> change t l d ->
      controller_step t (set_file (location_path l) d t)
  | step_elsewhere t' :
      (forall l, location_ok l = true -> t' !! location_path l = t !! location_path l) ->
      controller_step t t'.

Lemma set_file_lookup path d t path' :
  set_file path d t !! path' = if decide (path = path') then d else t !! path'.
Proof.
  destruct d; cbn; case_decide as E; subst.
  - by rewrite lookup_insert_eq.
  - by rewrite lookup_insert_ne.
  - by rewrite lookup_delete_eq.
  - by rewrite lookup_delete_ne.
Qed.

(** What one step may do to a location. *)
Lemma step_lookup t t' k :
  controller_step t t' -> location_ok k = true ->
  t' !! location_path k = t !! location_path k \/
  exists l, same_location l k /\ location_path l = location_path k /\
    change t l (t' !! location_path k).
Proof.
  intros [l d Hl Hc|t1 He] Hk; [|left; by apply He].
  rewrite set_file_lookup. case_decide as E; [|by left].
  right. exists l. split_and!; [by apply location_path_inj|done..].
Qed.

Lemma record_at_doc {A} `{PydanticModel A, !PydanticLaws A valid} t path (x : A) :
  valid x = true -> t !! path = Some (record_doc x) -> record_at A t path = Some x.
Proof.
  intros Hv Hx. unfold record_at, record_doc in *. rewrite Hx, model_dump_object.
  by rewrite (model_validate_dump (valid := valid)).
Qed.

Lemma record_at_valid {A} `{PydanticModel A, !PydanticLaws A valid} t path (x : A) :
  record_at A t path = Some x -> valid x = true.
Proof.
  unfold record_at. intros Hx. destruct (t !! path) as [[j|]|]; [|done..].
  destruct (json_is_object j); [|done]. destruct (model_validate j) as [y|] eqn:E; [|done].
  injection Hx as <-. by eapply model_validate_valid.
Qed.

Lemma record_at_present {A} `{PydanticModel A} t path (x : A) :
  record_at A t path = Some x -> is_Some (t !! path).
Proof. unfold record_at. destruct (t !! path); [eauto|done]. Qed.

(** Reads back the record a change has just written. *)
Ltac read_back :=
  match goal with
  | E : Some (record_doc ?x) = _ |- exists _, _ =>
      exists x; split; [eapply record_at_doc; [eassumption|symmetry; exact E]|]
  end.

(** ** Invariants of a step *)
Lemma write_once_step t t' k d :
  controller_step t t' -> location_ok k = true -> is_write_once k = true ->
  t !! location_path k = Some d -> t' !! location_path k = Some d.
Proof.
  intros Hs Hk Hw Hd. destruct (step_lookup _ _ _ Hs Hk) as [->|(l & Hsame & Hp & Hc)]; [done|].
  destruct k; try discriminate Hw; destruct l; try discriminate Hsame; inversion Hc; subst; congruence.
Qed.

(** Along a status a controller never goes back in attempt or heartbeat time. *)
Definition status_order (a b : ControllerStatus) : Prop :=
  cs_plan_digest a = cs_plan_digest b /\ cs_attempt a <= cs_attempt b /\
  (cs_attempt a = cs_attempt b -> cs_job_id a = cs_job_id b) /\
  cs_heartbeat_at a <= cs_heartbeat_at b.

#[export] Instance status_order_preorder : PreOrder status_order.
Proof.
  split; [intros a; unfold status_order; split_and!; done|].
  intros a b c (H1 & H2 & H3 & H4) (H5 & H6 & H7 & H8). unfold status_order.
  split_and!; [congruence|lia| |lia]. intros Hac.
  rewrite H3 by lia. apply H7. lia.
Qed.

Lemma status_forwards a b : status_moved_backwards a b = false -> status_order a b.
Proof.
  unfold status_moved_backwards. rewrite !orb_false_iff, !negb_false_iff, andb_false_iff, negb_false_iff.
  intros ((((_ & H1) & H2) & H3) & H4). apply String.eqb_eq in H1. unfold status_order.
  split_and!; [done|lia| |lia]. intros Heq. destruct H3 as [H3|H3]; [lia|].
  by apply String.eqb_eq in H3.
Qed.

Lemma status_step t t' c s :
  controller_step t t' -> safe_id c = true ->
  record_at ControllerStatus t (location_path (LStatus c)) = Some s ->
  exists s', record_at ControllerStatus t' (location_path (LStatus c)) = Some s' /\ status_order s s'.
Proof.
  intros Hs Hc Hr.
  destruct (step_lookup _ _ (LStatus c) Hs Hc) as [He|(l & Hsame & _ & Hch)].
  - exists s. split; [|done]. unfold record_at in *. by rewrite He.
  - destruct l; cbn in Hsame; simplify_eq. inversion Hch; subst.
    + apply record_at_present in Hr as [? Hr]. congruence.
    + match goal with H : record_at ControllerStatus t _ = Some _ |- _ => rewrite Hr in H; injection H as <- end.
      read_back.
      by apply status_forwards.
    + done.
Qed.

(** How the lease of a campaign passes on: it is renewed by its owner, taken
    over by the next attempt once it has expired, or released. *)
Definition claim_succeeds (a b : ControllerClaim) : Prop :=
  heartbeat_valid a b = true \/ (cc_expires_at a <= cc_acquired_at b /\ cc_attempt b = cc_attempt a + 1).

Lemma claim_step t t' c a :
  controller_step t t' -> safe_id c = true ->
  record_at ControllerClaim t (location_path (LClaim c)) = Some a ->
  t' !! location_path (LClaim c) = None \/
  exists b, record_at ControllerClaim t' (location_path (LClaim c)) = Some b /\
    (b = a \/ claim_succeeds a b).
Proof.
  intros Hs Hc Hr.
  destruct (step_lookup _ _ (LClaim c) Hs Hc) as [He|(l & Hsame & _ & Hch)].
  - right. exists a. split; [|by left]. unfold record_at in *. by rewrite He.
  - destruct l; cbn in Hsame; simplify_eq. inversion Hch; subst; [| | |by left|done].
    + apply record_at_present in Hr as [? Hr]. congruence.
    + right. match goal with H : record_at ControllerClaim t _ = Some _ |- _ => rewrite Hr in H; injection H as <- end.
      read_back.
      right; right. by split.
    + right. read_back.
      right; left. enough (c0 = a) by congruence.
      pose proof (record_at_doc (valid := ControllerClaim_valid) t _ c0 ltac:(done) ltac:(done)).
      congruence.
Qed.

(** The lease of a launch is replaced only after it expired. *)
Lemma launch_step t t' c n a :
  controller_step t t' -> location_ok (LLaunchClaim c n) = true ->
  record_at ControllerLaunchClaim t (location_path (LLaunchClaim c n)) = Some a ->
  t' !! location_path (LLaunchClaim c n) = None \/
  exists b, record_at ControllerLaunchClaim t' (location_path (LLaunchClaim c n)) = Some b /\
    (b = a \/ lc_expires_at a <= lc_acquired_at b).
Proof.
  intros Hs Hc Hr.
  destruct (step_lookup _ _ _ Hs Hc) as [He|(l & Hsame & _ & Hch)].
  - right. exists a. split; [|by left]. unfold record_at in *. by rewrite He.
  - destruct l; cbn in Hsame; simplify_eq. inversion Hch; subst; [| |by left|done].
    + apply record_at_present in Hr as [? Hr]. congruence.
    + right.
      match goal with E : record_at ControllerLaunchClaim t _ = Some _ |- _ => rewrite Hr in E; injection E as <- end.
      read_back. by right.
Qed.

(** Shared provider capacity never passes directly from one holder to another. *)
Lemma capacity_step t t' p d :
  controller_step t t' -> is_canonical p = true -> t !! location_path (LCapacity p) = Some d ->
  t' !! location_path (LCapacity p) = Some d \/ t' !! location_path (LCapacity p) = None.
Proof.
  intros Hs Hc Hd.
  destruct (step_lookup _ _ (LCapacity p) Hs Hc) as [->|(l & Hsame & Hp & Hch)]; [by left|].
  destruct l; try discriminate Hsame. right. rewrite <- Hp in Hd. clear Hsame.
  inversion Hch; subst; try done; by match goal with E : t !! _ = None |- _ => rewrite E in Hd end.
Qed.

(** Reserved attempts are contiguous. *)
Definition attempts_contiguous (t : tree) : Prop :=
  forall c n, safe_id c = true -> 1 < n -> is_Some (t !! location_path (LAttempt c n)) ->
    is_Some (t !! location_path (LAttempt c (n - 1))).

Lemma attempts_step t t' : controller_step t t' -> attempts_contiguous t -> attempts_contiguous t'.
Proof.
  intros Hs Ht c n Hc Hn Hp.
  assert (Hok : location_ok (LAttempt c n) = true) by (cbn; rewrite Hc; lia).
  assert (Hok' : location_ok (LAttempt c (n - 1)) = true) by (cbn; rewrite Hc; lia).
  assert (Hpred : is_Some (t !! location_path (LAttempt c (n - 1)))).
  { destruct (step_lookup _ _ _ Hs Hok) as [He|(l & Hsame & _ & Hch)].
    - rewrite He in Hp. by apply Ht.
    - destruct l; cbn in Hsame; simplify_eq. inversion Hch; subst. auto. }
  destruct Hpred as [d Hd]. exists d. by eapply write_once_step.
Qed.
End protocol.

(** The newest tree of an extended history is reached by steps. *)
Lemma extends_rtc R t l k : extends R (t :: l) k -> exists t' k', k = t' :: k' /\ rtc R t t'.
Proof.
  intros H. remember (t :: l) as l0 eqn:E. induction H as [|t1 t' k H IH HR]; subst.
  - by exists t, l.
  - destruct IH as (t2 & k2 & E & Hr). injection E as <- <-. exists t', (t1 :: k). split; [done|].
    by eapply rtc_r.
Qed.

(** The trees added to a history keep what every step keeps. *)
Lemma extends_later (R : tree -> tree -> Prop) t k l (Q keep : tree -> Prop) :
  extends R (t :: k) l -> Q t -> (forall t t', R t t' -> Q t -> keep t' -> Q t') ->
  exists later, l = later ++ t :: k /\ (Forall keep later -> Forall Q later).
Proof.
  intros H HQ Hstep. induction H as [|t1 t' k1 H IH HR]; [by exists []|].
  destruct IH as (later & Hl & IH). exists (t' :: later). rewrite Hl. split; [done|].
  intros [Hk Hks]%Forall_cons. specialize (IH Hks). constructor; [|done].
  apply (Hstep t1); [done| |done].
  destruct later as [|t2 later]; injection Hl as -> ->; [done|]. by inversion IH.
Qed.
