(* ===== verification/ControllerStoreFacts.v ===== *)
(** The operations of [HubControllerStateStore] follow the protocol of
    [ControllerProtocol]: whatever an operation returns or raises, the commits it
    made are steps of the protocol. *)
From S2P Require Import Prelude.
From S2P Require Import Paths.
From S2P Require Import Sha256.
From S2P Require Import Json.
From S2P Require Import PyText.
From S2P Require Import Hub.
From S2P Require Import ControllerStatus.
From S2P Require Import ControllerProtocol.

(** ** Paths *)
Lemma claim_path_ok c p :
  controller_claim_path c = Ok p -> location_ok (LClaim c) = true /\ p = location_path (LClaim c).
Proof.
  unfold controller_claim_path, _require_safe_id. destruct (safe_id c) eqn:E; [|done].
  intros [= <-]. by split.
Qed.

Lemma status_path_ok c p :
  controller_status_path c = Ok p -> location_ok (LStatus c) = true /\ p = location_path (LStatus c).
Proof.
  unfold controller_status_path, _require_safe_id. destruct (safe_id c) eqn:E; [|done].
  intros [= <-]. by split.
Qed.

Lemma launch_claim_path_ok c n p :
  controller_launch_claim_path c n = Ok p ->
  location_ok (LLaunchClaim c n) = true /\ p = location_path (LLaunchClaim c n).
Proof.
  unfold controller_launch_claim_path, _require_safe_id. destruct (safe_id c) eqn:E; [|done]. cbn.
  destruct (Z.ltb_spec n 1); [done|]. intros [= <-]. rewrite E. split; [lia|done].
Qed.

Lemma launch_receipt_path_ok c n p :
  controller_launch_receipt_path c n = Ok p ->
  location_ok (LLaunchReceipt c n) = true /\ p = location_path (LLaunchReceipt c n).
Proof.
  unfold controller_launch_receipt_path, _require_safe_id. destruct (safe_id c) eqn:E; [|done]. cbn.
  destruct (Z.ltb_spec n 1); [done|]. intros [= <-]. rewrite E. split; [lia|done].
Qed.

Lemma capacity_path_ok q p :
  provider_capacity_claim_path q = Ok p ->
  location_ok (LCapacity q) = true /\ p = location_path (LCapacity q).
Proof.
  unfold provider_capacity_claim_path. cbn. destruct (is_canonical q) eqn:E; [|done].
  intros [= <-]. done.
Qed.

Lemma started_path_ok r p :
  controller_started_path r = Ok p ->
  location_ok (LStarted (st_campaign_id r) (st_job_id r)) = true /\
  p = location_path (LStarted (st_campaign_id r) (st_job_id r)).
Proof.
  unfold controller_started_path, _require_safe_id.
  destruct (safe_id (st_campaign_id r)) eqn:E; [|done]. cbn.
  destruct (safe_id (st_job_id r)) eqn:E2; [|done]. intros [= <-]. cbn. by rewrite ?E, ?E2.
Qed.

Lemma ended_path_ok r p :
  controller_ended_path r = Ok p ->
  location_ok (LEnded (en_campaign_id r) (en_job_id r)) = true /\
  p = location_path (LEnded (en_campaign_id r) (en_job_id r)).
Proof.
  unfold controller_ended_path, _require_safe_id.
  destruct (safe_id (en_campaign_id r)) eqn:E; [|done]. cbn.
  destruct (safe_id (en_job_id r)) eqn:E2; [|done]. intros [= <-]. cbn. by rewrite ?E, ?E2.
Qed.

Lemma attempt_path_ok c n p :
  controller_attempt_path c n = Ok p ->
  location_ok (LAttempt c n) = true /\ p = location_path (LAttempt c n).
Proof.
  unfold controller_attempt_path, _require_safe_id. destruct (safe_id c) eqn:E; [|done]. cbn.
  destruct (Z.ltb_spec n 1); [done|]. intros [= <-]. rewrite E. split; [lia|done].
Qed.

Lemma recovery_path_ok c n p :
  controller_recovery_path c n = Ok p ->
  location_ok (LRecovery c n) = true /\ p = location_path (LRecovery c n).
Proof.
  unfold controller_recovery_path, _require_safe_id. destruct (safe_id c) eqn:E; [|done]. cbn.
  destruct (Z.ltb_spec n 2); [done|]. intros [= <-]. rewrite E. split; [lia|done].
Qed.

Section store_facts.
Context {MC : PydanticModel ControllerClaim} {PC : PydanticLaws ControllerClaim ControllerClaim_valid}
  {MS : PydanticModel ControllerStatus} {PS : PydanticLaws ControllerStatus ControllerStatus_valid}
  {ML : PydanticModel ControllerLaunchClaim}
  {PL : PydanticLaws ControllerLaunchClaim ControllerLaunchClaim_valid}
  {MP : PydanticModel ProviderCapacityClaim}
  {PP : PydanticLaws ProviderCapacityClaim ProviderCapacityClaim_valid}.
Context {W : Type} {API : HubApi W} {LAWS : HubLaws W controller_step}.

(** ** Reading a record *)
Definition read_json_spec (path : string) (t : tree) (res : result (option json)) : Prop :=
  match res with
  | Ok None => t !! path = None
  | Ok (Some j) => t !! path = Some (DJson j) /\ json_is_object j = true
  | Err _ => True
  end.

Lemma reads_pure {A} r (m : hub W A) (x : result A) (P : tree -> result A -> Prop) :
  m = hub_lift x -> (forall t, P t x) -> reads m r P.
Proof. intros -> HP. by apply reads_lift. Qed.

Lemma reads_json_optional path r : reads (_read_json_optional path r) r (read_json_spec path).
Proof.
  unfold _read_json_optional, _exists.
  eapply (reads_bind _ _ _ (fun t res => forall b, res = Ok b -> b = is_some (t !! path)));
    [apply reads_exists| |done].
  intros b. destruct b; cbn.
  2: { apply (reads_pure _ _ (Ok None)); [done|].
  intros t Hb. specialize (Hb _ eq_refl). cbn.
       by destruct (t !! path). }
  apply reads_mono with (P := read_json_spec path); [|by intros t res HP _].
  eapply (reads_bind _ _ _ (fun t res => forall d, res = Ok d -> t !! path = Some d));
    [apply reads_download| |done].
  intros [j|bytes].
  - destruct (json_is_object j) eqn:Ej.
  + apply (reads_pure _ _ (Ok (Some j))); [done|].
  intros t Hd. split; [by apply Hd|done].
  + by apply (reads_pure _ _ (Err (ControllerStatusError "controller record must be an object"))).
  - by apply (reads_pure _ _ (Err (undecoded bytes (ControllerStatusError "controller record cannot be read")))).
Qed.

Definition read_spec (A : Type) `{PydanticModel A} (path : string) (t : tree)
    (res : result (option A)) : Prop :=
  match res with
  | Ok None => t !! path = None
  | Ok (Some x) => record_at A t path = Some x
  | Err _ => True
  end.

Lemma reads_optional (A : Type) `{PydanticModel A} path r :
  reads (_read_optional A path r) r (read_spec A path).
Proof.
  unfold _read_optional. eapply reads_bind; [apply reads_json_optional| |done].
  intros [j|].
  - apply reads_lift. intros t [Hd Hj]. unfold read_spec, record_at. rewrite Hd, Hj.
    destruct (model_validate j); done.
  - by apply (reads_pure _ _ (Ok None)).
Qed.

(** ** What a body decides *)

(** Every commit a body decides on a tree is a change of one location. *)
Definition decides (l : location) {A} (t : tree) (res : result (decision A)) : Prop :=
  forall ops a, res = Ok (Commit ops a) ->
    exists d, change t l d /\ apply_ops t ops = set_file (location_path l) d t.

Lemma decides_loop {A} (l : location) message (body : string -> hub W (decision A)) w res w' :
  location_ok l = true -> (forall r, reads (body r) r (decides l)) ->
  _commit_loop message body w = (res, w') -> grows w w'.
Proof.
  intros Hl Hb. unfold _commit_loop, _head. apply commit_loop_reads_grows.
  intros r. eapply reads_mono; [apply Hb|].
  intros t d Hd ops a Hc.
  destruct (Hd _ _ Hc) as (x & Hx & ->). by constructor.
Qed.

(** A body that only raises or returns without a commit. *)
Lemma decides_none {A} l t (x : result (decision A)) :
  (forall ops a, x <> Ok (Commit ops a)) -> decides l t x.
Proof. intros H ops a E. by destruct (H ops a). Qed.

(** The shape of all bodies: read a record, then decide without reading more. *)
Lemma reads_then {A B} r (m : hub W A) (k : A -> hub W (decision B))
    (P : tree -> result A -> Prop) (l : location) :
  reads m r P ->
  (forall t a, P t (Ok a) -> exists x, k a = hub_lift x /\ decides l t x) ->
  reads (hub_bind m k) r (decides l).
Proof.
  intros Hm Hk w res w' t Ht E. unfold hub_bind in E.
  destruct (m w) as [[a|e] w1] eqn:Em; destruct (Hm _ _ _ _ Ht Em) as [Hg HP].
  - destruct (Hk t a HP) as (x & Hx & Hd). rewrite Hx in E. injection E as <- <-. by split.
  - injection E as <- <-. split; [done|]. by apply decides_none.
Qed.

Lemma decides_put {A} `{PydanticModel A} {B} l path (x : A) (b : B) t :
  path = location_path l -> change t l (Some (record_doc x)) ->
  decides l t (Ok (Commit [_add path x] b)).
Proof. intros -> Hc ops a [= <- <-]. by exists (Some (record_doc x)). Qed.

Lemma decides_delete {B} l path (b : B) t :
  path = location_path l -> change t l None ->
  decides l t (Ok (Commit [CommitOperationDelete path] b)).
Proof. intros -> Hc ops a [= <- <-]. by exists None. Qed.

(** ** The operations *)
(** Follows the tests of a body; what is left is where it commits. *)
Ltac decide_body :=
  repeat match goal with
    | |- exists x, (if ?c then _ else _) = _ /\ _ => let E := fresh "Hif" in destruct c eqn:E
    end;
  eexists; (split; [reflexivity|]); try (apply decides_none; discriminate).

Lemma acquire_decides path c terminal r :
  path = location_path (LClaim (cc_campaign_id c)) -> ControllerClaim_valid c = true ->
  reads (acquire_body path c terminal r) r (decides (LClaim (cc_campaign_id c))).
Proof.
  intros Hp Hv. unfold acquire_body.
  eapply reads_then; [apply reads_optional|].
  intros t [o|] Hr; cbn in Hr; subst path; decide_body.
  + apply orb_false_iff in Hif0 as [Hexp _]. apply decides_put; [done|].
      apply negb_false_iff, Z.leb_le in Hexp. apply negb_false_iff, Z.eqb_eq in Hif1.
      by eapply change_claim_takeover.
  + apply decides_put; [done|]. by constructor.
Qed.

Lemma replace_claim_decides path c0 c r :
  path = location_path (LClaim (cc_campaign_id c0)) -> ControllerClaim_valid c0 = true ->
  ControllerClaim_valid c = true -> heartbeat_valid c0 c = true ->
  reads (replace_exact_body path c0 c r) r (decides (LClaim (cc_campaign_id c0))).
Proof.
  intros Hp Hv0 Hv Hh. unfold replace_exact_body.
  eapply reads_then; [apply reads_json_optional|].
  intros t o Hr. subst path. decide_body.
  apply negb_false_iff, bool_decide_eq_true in Hif as ->.
  destruct Hr as [Hr _]. apply decides_put; [done|]. by constructor.
Qed.

Lemma release_decides {A} `{PydanticModel A, EqDecision A} message path (x : A) l r :
  path = location_path l -> (forall t, record_at A t path = Some x -> change t l None) ->
  reads (release_body message path x r) r (decides l).
Proof.
  intros Hp Hc. unfold release_body.
  eapply reads_then; [apply reads_optional|].
  intros t [o|] Hr; cbn in Hr; decide_body.
  apply negb_false_iff, bool_decide_eq_true in Hif as ->. apply decides_delete; auto.
Qed.

Lemma write_status_decides path s r :
  path = location_path (LStatus (cs_campaign_id s)) -> ControllerStatus_valid s = true ->
  reads (write_status_body path s r) r (decides (LStatus (cs_campaign_id s))).
Proof.
  intros Hp Hv. unfold write_status_body.
  eapply reads_then; [apply reads_optional|].
  intros t [o|] Hr; cbn in Hr; subst path; decide_body; (apply decides_put; [done|]).
  + by eapply change_status_next.
  + by constructor.
Qed.

Lemma acquire_launch_decides path c r :
  path = location_path (LLaunchClaim (lc_campaign_id c) (lc_attempt c)) ->
  ControllerLaunchClaim_valid c = true ->
  reads (acquire_launch_body path c r) r (decides (LLaunchClaim (lc_campaign_id c) (lc_attempt c))).
Proof.
  intros Hp Hv. unfold acquire_launch_body.
  eapply reads_then; [apply reads_optional|].
  intros t [o|] Hr; cbn in Hr; subst path; decide_body; (apply decides_put; [done|]).
  + eapply change_launch_takeover; [done..|]. apply Z.ltb_ge in Hif0. lia.
  + by constructor.
Qed.

Lemma write_immutable_decides {A} `{PydanticModel A} path (x : A) l r :
  path = location_path l -> is_write_once l = true -> (forall t, predecessor_present t l) ->
  reads (write_immutable_body path x r) r (decides l).
Proof.
  intros Hp Hw Hpred. unfold write_immutable_body.
  eapply reads_then; [apply reads_json_optional|].
  intros t [o|] Hr; decide_body. cbn in Hr. subst path. apply decides_put; [done|].
    by apply change_write_once.
Qed.

Lemma acquire_capacity_decides path c r :
  path = location_path (LCapacity (pcc_provider c)) -> ProviderCapacityClaim_valid c = true ->
  reads (acquire_provider_capacity_body path c r) r (decides (LCapacity (pcc_provider c))).
Proof.
  intros Hp Hv. unfold acquire_provider_capacity_body.
  eapply reads_then; [apply reads_optional|].
  intros t [o|] Hr; cbn in Hr; subst path; decide_body.
  apply decides_put; [done|]. by constructor.
Qed.

Lemma recover_capacity_decides path p c terminal r :
  path = location_path (LCapacity p) ->
  reads (recover_provider_capacity_body path c terminal r) r (decides (LCapacity p)).
Proof.
  intros Hp. unfold recover_provider_capacity_body.
  eapply reads_then; [apply reads_optional|].
  intros t [o|] Hr; cbn in Hr; subst path; decide_body.
  apply decides_delete; [done|].
  apply negb_false_iff, String.eqb_eq in Hif0. apply orb_false_iff in Hif1 as [_ Hlt].
  apply Z.leb_gt in Hlt. by eapply change_capacity_recover.
Qed.

(** ** Every operation follows the protocol *)
Context {MLR : PydanticModel ControllerLaunchReceipt} {MST : PydanticModel ControllerStartedReceipt}
  {MEN : PydanticModel ControllerEndedReceipt} {MAT : PydanticModel ControllerAttemptReservation}
  {MRD : PydanticModel ControllerRecoveryDecision}.

(** The operations that may write, with their arguments. *)
Inductive controller_op :=
  | OpAcquire (claim : ControllerClaim) (prior_job_terminal : bool)
  | OpHeartbeat (previous renewed : ControllerClaim)
  | OpRelease (claim : ControllerClaim)
  | OpWriteStatus (status : ControllerStatus)
  | OpAcquireLaunch (claim : ControllerLaunchClaim)
  | OpReleaseLaunch (claim : ControllerLaunchClaim)
  | OpWriteLaunch (receipt : ControllerLaunchReceipt)
  | OpAcquireCapacity (claim : ProviderCapacityClaim)
  | OpReleaseCapacity (claim : ProviderCapacityClaim)
  | OpRecoverCapacity (provider : string) (replacement : ControllerClaim) (prior_job_terminal : bool)
  | OpWriteStarted (receipt : ControllerStartedReceipt)
  | OpWriteEnded (receipt : ControllerEndedReceipt)
  | OpReserveAttempt (reservation : ControllerAttemptReservation)
  | OpWriteRecovery (decided : ControllerRecoveryDecision).

Definition run_op (op : controller_op) : hub W unit :=
  match op with
  | OpAcquire c terminal => acquire c terminal
  | OpHeartbeat c0 c => heartbeat c0 c
  | OpRelease c => release c
  | OpWriteStatus s => write_status s
  | OpAcquireLaunch c => acquire_launch c
  | OpReleaseLaunch c => release_launch c
  | OpWriteLaunch r => write_launch r
  | OpAcquireCapacity c => acquire_provider_capacity c
  | OpReleaseCapacity c => release_provider_capacity c
  | OpRecoverCapacity p c terminal => recover_provider_capacity p c terminal
  | OpWriteStarted r => write_started r
  | OpWriteEnded r => write_ended r
  | OpReserveAttempt r => reserve_attempt r
  | OpWriteRecovery d => write_recovery d
  end.

(** The records a caller passes were validated when they were made. *)
Definition op_valid (op : controller_op) : bool :=
  match op with
  | OpAcquire c _ => ControllerClaim_valid c
  | OpHeartbeat c0 c => ControllerClaim_valid c0 && ControllerClaim_valid c
  | OpWriteStatus s => ControllerStatus_valid s
  | OpAcquireLaunch c => ControllerLaunchClaim_valid c
  | OpAcquireCapacity c => ProviderCapacityClaim_valid c
  | _ => true
  end.

Lemma lift_path_grows {A} (path : result string) (k : string -> hub W A) w res w' :
  (forall p, path = Ok p -> k p w = (res, w') -> grows w w') ->
  hub_bind (hub_lift path) k w = (res, w') -> grows w w'.
Proof.
  intros Hk. unfold hub_bind, hub_lift. destruct path as [p|e]; [by apply Hk|].
  intros [= <- <-]. apply grows_refl.
Qed.

Lemma write_immutable_grows {A} `{PydanticModel A} l (x : A) w res w' :
  location_ok l = true -> is_write_once l = true -> (forall t, predecessor_present t l) ->
  _write_immutable (location_path l) x w = (res, w') -> grows w w'.
Proof.
  intros Hl Hw Hp. unfold _write_immutable. apply (decides_loop l); [done|].
  intros r. by apply write_immutable_decides.
Qed.

(** [main] holds the predecessor of an attempt. *)
Definition has_predecessor (c : string) (n : Z) (w : W) : Prop :=
  exists t k, main w = t :: k /\ is_Some (t !! location_path (LAttempt c (n - 1))).

Lemma steps_keep t t' l d :
  rtc controller_step t t' -> location_ok l = true -> is_write_once l = true ->
  t !! location_path l = Some d -> t' !! location_path l = Some d.
Proof.
  intros Hs Hl Hw. induction Hs as [|t t1 t2 Hs _ IH]; [done|]. intros Hd.
  apply IH. by eapply write_once_step.
Qed.

Lemma has_predecessor_grows c n w w' :
  location_ok (LAttempt c (n - 1)) = true -> has_predecessor c n w -> grows w w' ->
  has_predecessor c n w'.
Proof.
  intros Hok (t & k & Hm & [d Hd]) [_ Hext]. rewrite Hm in Hext.
  destruct (extends_rtc _ _ _ _ Hext) as (t' & k' & Hm' & Hr). exists t', k'. split; [done|].
  exists d. by eapply steps_keep.
Qed.

(** A later attempt is written on trees that hold its predecessor. *)
Lemma write_attempt_grows (r : ControllerAttemptReservation) w res w' :
  let l := LAttempt (at_campaign_id r) (at_attempt r) in
  location_ok l = true -> 1 < at_attempt r ->
  has_predecessor (at_campaign_id r) (at_attempt r) w ->
  _write_immutable (location_path l) r w = (res, w') -> grows w w'.
Proof.
  intros l Hl Hn Hpred. unfold _write_immutable, _commit_loop, _head.
  assert (Hok : location_ok (LAttempt (at_campaign_id r) (at_attempt r - 1)) = true).
  { cbn in Hl |- *. apply andb_true_iff in Hl as [-> _]. lia. }
  apply (commit_loop_grows (has_predecessor (at_campaign_id r) (at_attempt r))); [|clear w res w' Hpred|done].
  { intros v v'. by apply has_predecessor_grows. }
  intros h w res w' t Hpred Ht E. unfold write_immutable_body, hub_bind in E.
  destruct (_read_json_optional (location_path l) h w) as [o w1] eqn:Er.
  destruct (reads_json_optional _ _ _ _ _ _ Ht Er) as [Hg Hr]. destruct o as [[j|]|e].
  - destruct (negb _); injection E as <- <-; by split.
  - injection E as <- <-. split; [done|]. intros ops a k [= <- <-] Hext. cbn in Hr.
    apply (step_change t l (Some (record_doc r))); [done|]. apply change_write_once; [done..|].
    intros _. destruct Hpred as (t0 & k0 & Hm & [d Hd]). rewrite Hm in Hext.
    destruct (extends_rtc _ _ _ _ Hext) as (t' & k' & [= <- <-] & Hrtc).
    exists d. by eapply steps_keep.
  - injection E as <- <-. by split.
Qed.

(** What the read of the predecessor tells about [main]. *)
Lemma read_attempt_grows c n w o w' :
  read_attempt c n w = (o, w') ->
  grows w w' /\ forall x, o = Ok (Some x) ->
    location_ok (LAttempt c n) = true /\
    exists t k, main w' = t :: k /\ is_Some (t !! location_path (LAttempt c n)).
Proof.
  unfold read_attempt. destruct (n <? 1).
  { intros [= <- <-]. split; [apply grows_refl|done]. }
  intros (h & w1 & Eh & E)%hub_bind_inv.
  destruct (hub_head_law _ _ _ _ Eh) as [Hg1 Hh]. destruct h as [h|e]; [|by destruct E as [-> ->]].
  destruct (Hh h eq_refl) as (t & k & Ht & _ & Hext).
  apply hub_bind_inv in E as (p & w2 & Ep & E). unfold hub_lift in Ep. injection Ep as <- <-.
  destruct (controller_attempt_path c n) as [p|e] eqn:Ep; [|by destruct E as [-> ->]].
  apply attempt_path_ok in Ep as [Hok ->].
  destruct (reads_optional _ _ _ _ _ _ _ Ht E) as [Hg2 Hr]. split; [by eapply grows_trans|].
  intros x ->. split; [done|]. apply record_at_present in Hr as [d Hd].
  destruct Hg2 as [_ Hext2].
  destruct (extends_rtc _ _ _ _ (extends_trans _ _ _ _ Hext Hext2)) as (t' & k' & Hm & Hs).
  exists t', k'. split; [done|]. exists d. by eapply steps_keep.
Qed.

Lemma reserve_attempt_grows r w res w' : reserve_attempt r w = (res, w') -> grows w w'.
Proof.
  unfold reserve_attempt. intros (o & w1 & Er & E)%hub_bind_inv.
  destruct (read_attempt_grows _ _ _ _ _ Er) as [Hg Hpred].
  destruct o as [o|e]; [|by destruct E as [_ ->]]. eapply grows_trans; [exact Hg|]. clear Hg Er.
  destruct (_ && _) eqn:Ec; [injection E as <- <-; apply grows_refl|].
  revert E. apply lift_path_grows. intros p [Hl ->]%attempt_path_ok.
  destruct (Z.ltb_spec 1 (at_attempt r)) as [Hn|Hn].
  - destruct o as [x|]; [|done]. apply write_attempt_grows; [done|done|].
    destruct (Hpred x eq_refl) as [_ Hp]. exact Hp.
  - apply write_immutable_grows; [done|done|]. intros t Hlt. lia.
Qed.

(** The simulation: whatever its result, an operation only extends [main] by
    protocol steps, its own and those of other clients. *)
Lemma run_op_grows op w res w' :
  op_valid op = true -> run_op op w = (res, w') -> grows w w'.
Proof.
  destruct op; cbn [op_valid run_op]; intros Hv.
  - apply lift_path_grows. intros p [Hl ->]%claim_path_ok.
    apply (decides_loop _ _ _ _ _ _ Hl). intros r. by apply acquire_decides.
  - apply andb_true_iff in Hv as [Hv0 Hv]. unfold heartbeat.
    destruct (heartbeat_valid previous renewed) eqn:Eh; cbn [negb];
      [|intros [= <- <-]; apply grows_refl].
    apply lift_path_grows. intros p [Hl ->]%claim_path_ok.
    apply (decides_loop _ _ _ _ _ _ Hl). intros r. by apply replace_claim_decides.
  - apply lift_path_grows. intros p [Hl ->]%claim_path_ok.
    apply (decides_loop _ _ _ _ _ _ Hl). intros r. apply release_decides; [done|].
    intros t. by constructor.
  - apply lift_path_grows. intros p [Hl ->]%status_path_ok.
    apply (decides_loop _ _ _ _ _ _ Hl). intros r. by apply write_status_decides.
  - apply lift_path_grows. intros p [Hl ->]%launch_claim_path_ok.
    apply (decides_loop _ _ _ _ _ _ Hl). intros r. by apply acquire_launch_decides.
  - apply lift_path_grows. intros p [Hl ->]%launch_claim_path_ok.
    apply (decides_loop _ _ _ _ _ _ Hl). intros r. apply release_decides; [done|].
    intros t. by constructor.
  - apply lift_path_grows. intros p [Hl ->]%launch_receipt_path_ok. by apply write_immutable_grows.
  - apply lift_path_grows. intros p [Hl ->]%capacity_path_ok.
    apply (decides_loop _ _ _ _ _ _ Hl). intros r. by apply acquire_capacity_decides.
  - apply lift_path_grows. intros p [Hl ->]%capacity_path_ok.
    apply (decides_loop _ _ _ _ _ _ Hl). intros r. apply release_decides; [done|].
    intros t. by constructor.
  - apply lift_path_grows. intros p [Hl ->]%capacity_path_ok.
    apply (decides_loop _ _ _ _ _ _ Hl). intros r. by apply recover_capacity_decides.
  - apply lift_path_grows. intros p [Hl ->]%started_path_ok. by apply write_immutable_grows.
  - apply lift_path_grows. intros p [Hl ->]%ended_path_ok. by apply write_immutable_grows.
  - apply reserve_attempt_grows.
  - apply lift_path_grows. intros p [Hl ->]%recovery_path_ok. by apply write_immutable_grows.
Qed.

(** A client running one operation after the other, whatever they return. *)
Fixpoint run_ops (ops : list controller_op) (w : W) : W :=
  match ops with
  | [] => w
  | op :: ops => run_ops ops (run_op op w).2
  end.

Lemma run_ops_grows ops w : forallb op_valid ops = true -> grows w (run_ops ops w).
Proof.
  revert w. induction ops as [|op ops IH]; intros w; cbn; [intros _; apply grows_refl|].
  intros [Hop Hops]%andb_true_iff. destruct (run_op op w) as [res w'] eqn:E.
  eapply grows_trans; [|by apply IH]. by eapply run_op_grows.
Qed.

(** An invariant of the steps holds of every tree [main] goes through, as long
    as the trees are ones it is kept on. *)
Lemma run_ops_later ops w t k (Q keep : tree -> Prop) :
  forallb op_valid ops = true -> main w = t :: k -> Q t ->
  (forall t t', controller_step t t' -> Q t -> keep t' -> Q t') ->
  exists later, main (run_ops ops w) = later ++ t :: k /\ (Forall keep later -> Forall Q later).
Proof.
  intros Hops Hm HQ Hstep. destruct (run_ops_grows ops w Hops) as [_ Hext]. rewrite Hm in Hext.
  by eapply extends_later.
Qed.
End store_facts.
