(* ===== verification/Coordination.v ===== *)
(** Distributed claims of the coordination repository (src/src/harbor_hf/coordination.py).

    A claim is one file whose content names its owner.  [acquire] creates it
    unless an unexpired claim is there, [release] removes exactly the caller's
    own claim. *)
From S2P Require Import Prelude.
From S2P Require Import PyDict.
From S2P Require Import Json.
From S2P Require Import Sha256.
From S2P Require Import PyText.
From S2P Require Import Hub.

Definition _REPOSITORY_NAME : string := "harbor-hf-coordination".

(** [coordination_repository] *)
Definition coordination_repository (namespace : string) : string :=
  namespace +:+ "/" +:+ _REPOSITORY_NAME.

(** ** Claim paths *)
Definition endpoint_claim_path (namespace name : string) : string :=
  "endpoint-leases/" +:+ sha256_hex_prefix 32 (namespace +:+ "/" +:+ name) +:+ ".json".

Definition bucket_id (bucket : string) : string :=
  str_removeprefix "buckets/" (str_removeprefix "hf://buckets/" bucket).

Definition run_claim_path (artifact_bucket artifact_prefix : string) : string :=
  let target := bucket_id artifact_bucket +:+ "/" +:+ artifact_prefix in
  "run-reservations/" +:+ sha256_hex target +:+ ".json".

Definition action_claim_path (campaign_id action_id : string) : string :=
  "action-leases/" +:+ sha256_hex (campaign_id +:+ "/" +:+ action_id) +:+ ".json".

Definition bucket_evidence_claim_path (bucket path : string) : string :=
  "bucket-evidence-leases/" +:+ sha256_hex (bucket_id bucket +:+ "/" +:+ path) +:+ ".json".

Definition wave_worker_claim_path (campaign_id wave_id : string) : string :=
  "wave-worker-leases/" +:+ sha256_hex (campaign_id +:+ "/" +:+ wave_id) +:+ ".json".

(** [_owner_payload] *)
Definition _owner_payload (owner : dict string) : json := jdict JStr owner.

(** The protocol [ClaimStore]. *)
Class ClaimStore (W : Type) := {
  claim_acquire : string -> dict string -> hub W unit;
  claim_release : string -> dict string -> hub W unit;
}.

(** ** [HubClaimStore] *)
Section store.
Context {W : Type} `{HubApi W}.

(** [datetime.fromisoformat]: [None] when it raises, [Some None] for a naive
    datetime, and otherwise the instant.  [clock] is the store's clock. *)
Variable fromisoformat : string -> option (option Z).
Variable clock : hub W Z.

(** [_claim_expired] *)
Definition _claim_expired (owner : json) (now : Z) : bool :=
  match json_get owner "expires_at" with
  | Some (JStr value) =>
      match fromisoformat value with
      | Some (Some expires_at) => expires_at <=? now
      | _ => false
      end
  | _ => false
  end.

Definition claim_head : hub W string :=
  hub_head (CoordinationError "coordination repository has no commit identity").

Definition claim_exists (path revision : string) : hub W bool := get_paths_info path revision.

(** [_read_owner] *)
Definition _read_owner (path revision : string) : hub W json :=
  do exists_ <- claim_exists path revision;;
  if negb exists_ then hub_raise (CoordinationError "claim no longer exists")
  else
    do local <- hf_hub_download path revision;;
    match local with
    | DBytes content => hub_raise (undecoded content (CoordinationError "claim owner cannot be read"))
    | DJson value =>
        if json_is_object value then hub_ret value
        else hub_raise (CoordinationError "claim owner is invalid")
    end.

(** The body of [acquire]. *)
Definition acquire_claim_body (path : string) (owner : dict string) (head : string)
    : hub W (decision unit) :=
  let payload := DJson (_owner_payload owner) in
  do exists_ <- claim_exists path head;;
  if exists_ then
    do observed <- _read_owner path head;;
    do now <- clock;;
    if negb (_claim_expired observed now)
    then hub_raise (ClaimConflict ("claim is already held: " +:+ path))
    else hub_ret (Commit [CommitOperationAdd path payload] tt)
  else hub_ret (Commit [CommitOperationAdd path payload] tt).

(** [HubClaimStore.acquire] *)
Definition acquire_claim (path : string) (owner : dict string) : hub W unit :=
  commit_loop _MAX_COMMIT_ATTEMPTS
    (CoordinationError "coordination repository remained contended")
    claim_head (acquire_claim_body path owner).

(** The body of [release]. *)
Definition release_claim_body (path : string) (owner : dict string) (head : string)
    : hub W (decision unit) :=
  do observed <- _read_owner path head;;
  if negb (bool_decide (observed = _owner_payload owner))
  then hub_raise (CoordinationError "claim ownership cannot be verified")
  else hub_ret (Commit [CommitOperationDelete path] tt).

(** [HubClaimStore.release] *)
Definition release_claim (path : string) (owner : dict string) : hub W unit :=
  commit_loop _MAX_COMMIT_ATTEMPTS
    (CoordinationError "coordination repository remained contended")
    claim_head (release_claim_body path owner).
End store.
