(* ===== verification/ControlStore.v ===== *)
(** The campaign store (class [HubCampaignStore] of src/src/harbor_hf/control.py).

    A campaign is a directory of the coordination Dataset: its lock, its
    request, one file per event, one file per reserved action, and a marker
    once it is cancelled.  Every operation reads one revision and commits on
    top of it, and retries when another client committed in between. *)
From S2P Require Import Prelude.
From S2P Require Import PyDict.
From S2P Require Import Json.
From S2P Require Import Sha256.
From S2P Require Import Campaigns.
From S2P Require Import Control.
From S2P Require Import Hub.

Definition _MAX_EVENT_BATCH_OPERATIONS : Z := 50.

(** [_CAMPAIGN_ID.fullmatch(value)] *)
Definition campaign_id_safe (value : string) : bool := safe_component 99 value.

(** ** Paths *)
Definition _campaign_request_path (campaign_id : string) : string :=
  "campaigns/" +:+ campaign_id +:+ "/request.yaml".

Definition _campaign_cancellation_path (campaign_id : string) : string :=
  "campaigns/" +:+ campaign_id +:+ "/cancellation.json".

Definition _campaign_lock_path (campaign_id : string) : string :=
  "campaigns/" +:+ campaign_id +:+ "/campaign.lock.json".

Definition _campaign_reservation_path (campaign_id : string) : string :=
  "campaign-reservations/" +:+ sha256_hex campaign_id +:+ ".json".

Definition _event_path (campaign_id event_id : string) : string :=
  "campaigns/" +:+ campaign_id +:+ "/events/" +:+ event_id +:+ ".json".

Definition _action_reservation_path (campaign_id action_id : string) : string :=
  "campaigns/" +:+ campaign_id +:+ "/reservations/" +:+ action_id +:+ ".json".

(** [_validate_event_scope] *)
Definition _validate_event_scope (campaign_id : string) (event : CampaignEvent) : result unit :=
  raise_if negb (campaign_id_safe campaign_id)
    with ValueError "event campaign scope is invalid";;
  raise_if bool_decide (subject_type event = subject_campaign) &&
           negb (String.eqb (subject_id event) campaign_id)
    with ValueError "campaign event subject does not match its scope";;
  Ok tt.

(** [_RECONCILER_DURABLE_EVENT_KINDS] *)
Definition _RECONCILER_DURABLE_EVENT_KINDS : list string :=
  ["campaign.draining"; "campaign.manual-intervention-required";
   "campaign.manual-intervention-resolved"; "execution.failed"; "execution.cancelled";
   "trial.invalid"; "trial.failed-infrastructure"; "wave.draining"; "wave.cleaning";
   "wave.closed"].

(** [_same_event_request] *)
Definition _same_event_request (observed expected : json) : bool :=
  if negb (json_is_object observed) then false
  else if bool_decide (observed = expected) then true
  else if negb (bool_decide (json_get expected "producer" = Some (JStr "reconciler"))) ||
          negb (match json_get expected "kind" with
                | Some (JStr k) => str_mem k _RECONCILER_DURABLE_EVENT_KINDS
                | _ => false
                end)
  then false
  else bool_decide (json_pop observed "observed_at" = json_pop expected "observed_at").

(** [_cleanup_failed_wave_ids] *)
Definition cleanup_failed_step (states : dict EventKind) (event : CampaignEvent)
    : result (dict EventKind) :=
  if kind_startswith "wave" (kind event) then Ok (dict_set states (subject_id event) (kind event))
  else if bool_decide (kind event = campaign_manual_intervention_resolved) then
    match payload event with
    | payload_resolution p =>
        Ok (fold_left (fun states wave_id =>
              if bool_decide (dict_get states wave_id = Some wave_cleanup_failed)
              then dict_set states wave_id wave_closed else states) (mr_wave_ids p) states)
    | _ => Err AttributeError
    end
  else Ok states.

Definition _cleanup_failed_wave_ids (events : list CampaignEvent) : result (list string) :=
  let* ordered := ordered_events events in
  let* states := foldM cleanup_failed_step [] ordered in
  Ok (dict_keys (List.filter (fun e => bool_decide (e.2 = wave_cleanup_failed)) states)).

(** [_validate_manual_resolution_basis] *)
Definition _validate_manual_resolution_basis (resolution : CampaignEvent)
    (events : list CampaignEvent) : result unit :=
  let* failed := _cleanup_failed_wave_ids events in
  match payload resolution with
  | payload_resolution p =>
      let missing := set_difference failed (mr_wave_ids p) in
      raise_if negb (is_nil missing)
        with CampaignConflict ("cleanup state changed; verify these waves before resuming: " +:+
               str_join ", " (sort_by str_leb missing));;
      Ok tt
  | _ => Err AttributeError
  end.

(** ** The JSON of an event ([model_dump(mode="json")]) *)
Section events.
(** How Pydantic prints a datetime. *)
Variable datetime_json : Z -> string.

Definition payload_dump (p : EventPayload) : json :=
  match p with
  | payload_submitted p => jobj [("plan_digest", JStr (csp_plan_digest p))]
  | payload_cancellation p => jobj [("reason", JStr (cp_reason p))]
  | payload_shard_retry p =>
      jobj [("shard_id", JStr (sr_shard_id p)); ("reason", JStr (sr_reason p));
            ("trial_generations", jdict JInt (sr_trial_generations p))]
  | payload_terminal p =>
      jobj [("summary_path", jopt JStr (tp_summary_path p));
            ("summary_sha256", jopt JStr (tp_summary_sha256 p));
            ("message", jopt JStr (tp_message p))]
  | payload_lifecycle p =>
      jobj [("parent_id", jopt JStr (lp_parent_id p)); ("message", jopt JStr (lp_message p))]
  | payload_resolution p =>
      jobj [("wave_ids", jstrs (mr_wave_ids p)); ("message", jopt JStr (mr_message p))]
  | payload_wave p =>
      jobj [("deployment_digest", JStr (wl_deployment_digest p));
            ("provider", JStr (wl_provider p)); ("shard_ids", jstrs (wl_shard_ids p));
            ("estimated_cost_microusd", JInt (wl_estimated_cost_microusd p))]
  | payload_execution_started p =>
      jobj [("trial_id", JStr (es_trial_id p)); ("shard_id", JStr (es_shard_id p));
            ("physical_attempt", JInt (es_physical_attempt p));
            ("wave_id", jopt JStr (es_wave_id p));
            ("estimated_cost_microusd", JInt (es_estimated_cost_microusd p))]
  | payload_execution_outcome p =>
      jobj [("trial_id", JStr (eo_trial_id p)); ("physical_attempt", JInt (eo_physical_attempt p));
            ("category", jopt (fun c => JStr (category_name c)) (eo_category p));
            ("spend_microusd", JInt (eo_spend_microusd p));
            ("retry_after_seconds", jopt JInt (eo_retry_after_seconds p));
            ("message", jopt JStr (eo_message p))]
  | payload_spend p =>
      jobj [("amount_microusd", JInt (sp_amount_microusd p));
            ("source_execution_id", jopt JStr (sp_source_execution_id p))]
  | payload_action_reserved p =>
      jobj [("action_id", JStr (ar_action_id p)); ("action_key", JStr (ar_action_key p));
            ("action_kind", JStr (action_kind_name (ar_action_kind p)));
            ("target_ids", jstrs (ar_target_ids p))]
  | payload_action_outcome p =>
      jobj [("action_id", JStr (ao_action_id p)); ("message", jopt JStr (ao_message p));
            ("remote_id", jopt JStr (ao_remote_id p))]
  end.

Definition event_dump (e : CampaignEvent) : json :=
  jobj [("schema_version", JStr "harbor-hf/event/v1alpha1");
        ("event_id", JStr (event_id e));
        ("subject_type", JStr (subject_name (subject_type e)));
        ("subject_id", JStr (subject_id e));
        ("kind", JStr (kind_name (kind e)));
        ("observed_at", JStr (datetime_json (observed_at e)));
        ("producer", JStr (producer_name (producer e)));
        ("payload", payload_dump (payload e))].

(** [same_event_request] *)
Definition same_event_request (observed expected : CampaignEvent) : bool :=
  _same_event_request (event_dump observed) (event_dump expected).

(** The dictionary [{_event_path(...): event.model_dump(...)}]. *)
Definition expected_by_path (campaign_id : string) (events : list CampaignEvent) : dict json :=
  dict_of (map (fun e => (_event_path campaign_id (event_id e), event_dump e)) events).

(** [_event_payloads] *)
Definition _event_payloads (campaign_id : string) (events : list CampaignEvent)
    : result (dict json) :=
  raise_if is_nil events with ValueError "event commit requires at least one event";;
  let* _ := mapM (fun e =>
    let* _ := _validate_event_scope campaign_id e in
    raise_if bool_decide (kind e = campaign_cancel_requested) ||
             bool_decide (kind e = campaign_manual_intervention_resolved)
      with ValueError (kind_name (kind e) +:+ " requires its dedicated atomic operation");;
    Ok tt) events in
  let expected := expected_by_path campaign_id events in
  raise_if negb (len expected =? len events)
    with CampaignConflict "events contain duplicate identities";;
  Ok expected.

(** [_guarded_event_payloads] *)
Definition _guarded_event_payloads (campaign_id : string) (events : list CampaignEvent)
    : result (dict json) :=
  raise_if is_nil events with ValueError "guarded event commit requires at least one event";;
  let* _ := mapM (fun e =>
    let* _ := _validate_event_scope campaign_id e in
    raise_if negb (bool_decide (subject_type e = subject_trial)) ||
             negb (bool_decide (kind e = trial_invalid) ||
                   bool_decide (kind e = trial_failed_infrastructure))
      with ValueError "guarded batches require terminal trial events";;
    Ok tt) events in
  let expected := expected_by_path campaign_id events in
  raise_if negb (len expected =? len events)
    with CampaignConflict "guarded events contain duplicate identities";;
  Ok expected.
End events.

Record CampaignSnapshot := {
  snap_lock : CampaignLock;
  snap_events : list CampaignEvent;
  snap_request : document;
  snap_control_commit : string;
}.

(** ** [HubCampaignStore] *)
Section store.
Context {W : Type} `{HubApi W} `{PydanticModel CampaignLock}.
Variable datetime_json : Z -> string.
(** [CampaignEvent.model_validate] *)
Variable event_validate : json -> result CampaignEvent.

Abbreviation dump := (event_dump datetime_json).
Abbreviation contended := (ControlError "control repository remained contended").

(** [_head], [_exists] *)
Definition control_head : hub W string :=
  hub_head (ControlError "control repository has no commit identity").

Definition control_exists (path revision : string) : hub W bool := get_paths_info path revision.

(** [_read_bytes]: the exceptions of the Hub client are [OSError]s. *)
Definition _read_bytes (path revision : string) : hub W document :=
  hub_catch (hf_hub_download path revision)
    (fun e => match e with
              | HfHubHTTPError _ | EntryNotFoundError =>
                  Some (hub_raise (ControlError ("control record cannot be read: " +:+ path)))
              | _ => None
              end).

(** [_read_json] *)
Definition _read_json (path revision : string) : hub W json :=
  do local <- _read_bytes path revision;;
  match local with
  | DJson value => hub_ret value
  | DBytes _ => hub_raise (ControlError ("control record cannot be read: " +:+ path))
  end.

Definition control_loop {A} (body : string -> hub W (decision A)) : hub W A :=
  commit_loop _MAX_COMMIT_ATTEMPTS contended control_head body.

(** [_create_absent] *)
Definition create_absent_body (path : string) (operations : list commit_op) (conflict : string)
    (head : string) : hub W (decision unit) :=
  do exists_ <- control_exists path head;;
  if exists_ then hub_raise (CampaignConflict conflict)
  else hub_ret (Commit operations tt).

Definition _create_absent (path : string) (operations : list commit_op) (conflict : string)
    : hub W unit :=
  control_loop (create_absent_body path operations conflict).

(** The four files of a new campaign. *)
Definition campaign_operations (lock : CampaignLock) (request : document)
    (event : CampaignEvent) : list commit_op :=
  [CommitOperationAdd (_campaign_request_path (campaign_id lock)) request;
   CommitOperationAdd (_campaign_lock_path (campaign_id lock)) (DJson (model_dump lock));
   CommitOperationAdd (_event_path (campaign_id lock) (event_id event)) (DJson (dump event));
   CommitOperationAdd (_campaign_reservation_path (campaign_id lock))
     (DJson (jobj [("campaign_id", JStr (campaign_id lock));
                   ("plan_digest", JStr (plan_digest lock))]))].

(** [create_campaign] *)
Definition create_campaign (lock : CampaignLock) (request : document) (event : CampaignEvent)
    : hub W unit :=
  if negb (bool_decide (kind event = campaign_submitted)) ||
     negb (String.eqb (subject_id event) (campaign_id lock))
  then hub_raise (ValueError "campaign creation requires its submission event")
  else _create_absent (_campaign_lock_path (campaign_id lock))
         (campaign_operations lock request event)
         ("campaign already exists: " +:+ campaign_id lock).

(** [_paths_under] of a prefix that ends in a slash, given without it. *)
Definition _paths_under (prefix revision : string) : hub W (list string) :=
  do entries <- hub_catch (list_repo_tree prefix revision)
                  (fun e => match e with EntryNotFoundError => Some (hub_ret []) | _ => None end);;
  hub_ret (sort_by str_leb (List.filter (str_startswith (prefix +:+ "/")) entries)).

(** [_load_events_at] *)
Definition load_event (revision path : string) : hub W CampaignEvent :=
  do value <- _read_json path revision;; hub_lift (event_validate value).

Definition _load_events_at (campaign_id revision : string) : hub W (list CampaignEvent) :=
  do under <- _paths_under ("campaigns/" +:+ campaign_id +:+ "/events") revision;;
  let paths := List.filter (str_endswith ".json") under in
  hub_mapM (load_event revision) paths.

(** [load_snapshot], [load_campaign], [load_request] *)
Definition load_snapshot (campaign_id : string) : hub W CampaignSnapshot :=
  do head <- control_head;;
  do value <- _read_json (_campaign_lock_path campaign_id) head;;
  do lock <- hub_lift (model_validate value);;
  do events <- _load_events_at campaign_id head;;
  do request <- _read_bytes (_campaign_request_path campaign_id) head;;
  hub_ret {|
    snap_lock := lock;
    snap_events := events;
    snap_request := request;
    snap_control_commit := head;
  |}.

Definition load_campaign (campaign_id : string) : hub W (CampaignLock * list CampaignEvent) :=
  do snapshot <- load_snapshot campaign_id;;
  hub_ret (snap_lock snapshot, snap_events snapshot).

Definition load_request (campaign_id : string) : hub W document :=
  do head <- control_head;;
  _read_bytes (_campaign_request_path campaign_id) head.

(** [list_campaigns] *)
Definition campaign_id_of_path (path : string) : string :=
  str_removesuffix "/campaign.lock.json" (str_removeprefix "campaigns/" path).

Definition is_campaign_lock_path (path : string) : bool :=
  str_startswith "campaigns/" path && str_endswith "/campaign.lock.json" path &&
  campaign_id_safe (campaign_id_of_path path).

Definition list_campaigns : hub W (list string) :=
  do head <- control_head;;
  do files <- list_repo_files head;;
  hub_ret (sorted_set (map campaign_id_of_path (List.filter is_campaign_lock_path files))).

(** [load_action_reservations] *)
Definition load_reservation (revision path : string) : hub W json :=
  do value <- _read_json path revision;;
  if json_is_object value then hub_ret value
  else hub_raise (ControlError ("action reservation must be an object: " +:+ path)).

Definition load_action_reservations (campaign_id : string) : hub W (list json) :=
  do head <- control_head;;
  do under <- _paths_under ("campaigns/" +:+ campaign_id +:+ "/reservations") head;;
  hub_mapM (load_reservation head) (List.filter (str_endswith ".json") under).

(** [append_event] *)
Definition append_event (campaign_id : string) (event : CampaignEvent) : hub W unit :=
  do _ <- hub_lift (_validate_event_scope campaign_id event);;
  if bool_decide (kind event = campaign_cancel_requested)
  then hub_raise (ValueError "cancellation events require an atomic marker")
  else
    let path := _event_path campaign_id (event_id event) in
    _create_absent path [CommitOperationAdd path (DJson (dump event))]
      ("event already exists: " +:+ event_id event).

(** The body of [ensure_event] for an ordinary event. *)
Definition ensure_event_body (path : string) (event : CampaignEvent) (head : string)
    : hub W (decision bool) :=
  do exists_ <- control_exists path head;;
  if exists_ then
    do observed <- _read_json path head;;
    if negb (_same_event_request observed (dump event))
    then hub_raise (CampaignConflict ("event conflicts: " +:+ event_id event))
    else hub_ret (Return false)
  else hub_ret (Commit [CommitOperationAdd path (DJson (dump event))] true).

(** [_ensure_manual_resolution_event] *)
Definition manual_resolution_body (campaign_id path : string) (event : CampaignEvent)
    (head : string) : hub W (decision bool) :=
  do exists_ <- control_exists path head;;
  if exists_ then
    do observed <- _read_json path head;;
    if negb (_same_event_request observed (dump event))
    then hub_raise (CampaignConflict ("event conflicts: " +:+ event_id event))
    else hub_ret (Return false)
  else
    do events <- _load_events_at campaign_id head;;
    do _ <- hub_lift (_validate_manual_resolution_basis event events);;
    hub_ret (Commit [CommitOperationAdd path (DJson (dump event))] true).

Definition _ensure_manual_resolution_event (campaign_id : string) (event : CampaignEvent)
    : hub W bool :=
  control_loop
    (manual_resolution_body campaign_id (_event_path campaign_id (event_id event)) event).

(** [_ensure_cancellation_event] *)
Definition cancellation_marker (campaign_id : string) (event : CampaignEvent) : json :=
  jobj [("campaign_id", JStr campaign_id); ("event_id", JStr (event_id event))].

Definition cancellation_body (campaign_id : string) (event : CampaignEvent) (head : string)
    : hub W (decision bool) :=
  let event_path := _event_path campaign_id (event_id event) in
  let marker_path := _campaign_cancellation_path campaign_id in
  let marker := cancellation_marker campaign_id event in
  do event_exists <- control_exists event_path head;;
  do marker_exists <- control_exists marker_path head;;
  if negb (Bool.eqb event_exists marker_exists)
  then hub_raise (ControlError "campaign cancellation state is incomplete")
  else if event_exists then
    do observed <- _read_json event_path head;;
    do observed_marker <- _read_json marker_path head;;
    if negb (_same_event_request observed (dump event))
    then hub_raise (CampaignConflict ("event conflicts: " +:+ event_id event))
    else if negb (bool_decide (observed_marker = marker))
    then hub_raise (CampaignConflict "campaign cancellation marker conflicts")
    else hub_ret (Return false)
  else hub_ret (Commit [CommitOperationAdd event_path (DJson (dump event));
                        CommitOperationAdd marker_path (DJson marker)] true).

Definition _ensure_cancellation_event (campaign_id : string) (event : CampaignEvent)
    : hub W bool :=
  control_loop (cancellation_body campaign_id event).

(** [ensure_event] *)
Definition ensure_event (campaign_id : string) (event : CampaignEvent) : hub W bool :=
  do _ <- hub_lift (_validate_event_scope campaign_id event);;
  if bool_decide (kind event = campaign_cancel_requested)
  then _ensure_cancellation_event campaign_id event
  else if bool_decide (kind event = campaign_manual_intervention_resolved)
  then _ensure_manual_resolution_event campaign_id event
  else control_loop (ensure_event_body (_event_path campaign_id (event_id event)) event).

(** [_missing_events] and [_missing_events_from_listing] differ in how they
    learn whether a path exists. *)
Definition missing_event_step (exists_in : string -> hub W bool) (head : string)
    (missing : dict json) (entry : string * json) : hub W (dict json) :=
  do exists_ <- exists_in entry.1;;
  if negb exists_ then hub_ret (dict_set missing entry.1 entry.2)
  else
    do observed <- _read_json entry.1 head;;
    if negb (_same_event_request observed entry.2)
    then hub_raise (CampaignConflict ("event conflicts: " +:+ entry.1))
    else hub_ret missing.

Definition _missing_events (expected : dict json) (head : string) : hub W (dict json) :=
  hub_foldM (missing_event_step (fun path => control_exists path head) head) [] expected.

Definition _missing_events_from_listing (expected : dict json) (head : string)
    : hub W (dict json) :=
  do existing <- list_repo_files head;;
  hub_foldM (missing_event_step (fun path => hub_ret (str_mem path existing)) head) [] expected.

Definition add_operations (entries : list (string * json)) : list commit_op :=
  map (fun e => CommitOperationAdd e.1 (DJson e.2)) entries.

(** The [try] block of [ensure_events]: one commit per batch, each on top of
    the previous one; the flag says whether anything was committed. *)
Fixpoint commit_batches (head : string) (batches : list (list (string * json)))
    (changed : bool) : hub W (result unit * bool) :=
  match batches with
  | [] => hub_ret (Ok tt, changed)
  | batch :: batches =>
      do oid <- hub_try (create_commit head (add_operations batch));;
      match oid with
      | Err e => hub_ret (Err e, changed)
      | Ok (Some head) => commit_batches head batches true
      | Ok None =>
          do head <- hub_try control_head;;
          match head with
          | Err e => hub_ret (Err e, changed)
          | Ok head => commit_batches head batches true
          end
      end
  end.

Fixpoint ensure_events_loop (attempts : nat) (expected : dict json) (changed : bool)
    : hub W bool :=
  match attempts with
  | O => hub_raise contended
  | S attempts =>
      do head <- control_head;;
      do missing <- _missing_events_from_listing expected head;;
      if is_nil missing then hub_ret changed
      else
        do batches <- hub_lift (chunks _MAX_EVENT_BATCH_OPERATIONS missing);;
        do outcome <- commit_batches head batches changed;;
        match outcome with
        | (Ok _, changed) => hub_ret changed
        | (Err e, changed) =>
            if _is_parent_conflict e then ensure_events_loop attempts expected changed
            else hub_raise e
        end
  end.

(** [ensure_events] *)
Definition ensure_events (campaign_id : string) (events : list CampaignEvent) : hub W bool :=
  do expected <- hub_lift (_event_payloads datetime_json campaign_id events);;
  ensure_events_loop _MAX_COMMIT_ATTEMPTS expected false.

(** [_cancellation_requested] *)
Definition _cancellation_requested (campaign_id head : string) : hub W bool :=
  control_exists (_campaign_cancellation_path campaign_id) head.

Definition guarded_events_body (campaign_id : string) (expected : dict json) (head : string)
    : hub W (decision bool) :=
  do missing <- _missing_events expected head;;
  if is_nil missing then hub_ret (Return false)
  else
    do cancelled <- _cancellation_requested campaign_id head;;
    if cancelled
    then hub_raise (CampaignCancellationWon
           "campaign cancellation superseded guarded terminal events")
    else hub_ret (Commit (add_operations missing) true).

(** [ensure_events_unless_cancelled] *)
Definition ensure_events_unless_cancelled (campaign_id : string) (events : list CampaignEvent)
    : hub W bool :=
  do expected <- hub_lift (_guarded_event_payloads datetime_json campaign_id events);;
  control_loop (guarded_events_body campaign_id expected).

(** [event.payload.action_id] *)
Definition payload_action_id (p : EventPayload) : result string :=
  match p with
  | payload_action_reserved p => Ok (ar_action_id p)
  | payload_action_outcome p => Ok (ao_action_id p)
  | _ => Err AttributeError
  end.

Definition reserve_action_body (campaign_id path : string) (action : dict json)
    (event : CampaignEvent) (head : string) : hub W (decision bool) :=
  do exists_ <- control_exists path head;;
  if exists_ then
    do observed <- _read_json path head;;
    if negb (bool_decide (observed = jobj action))
    then hub_raise (CampaignConflict "action reservation content conflicts")
    else hub_ret (Return false)
  else hub_ret (Commit [CommitOperationAdd path (DJson (jobj action));
                        CommitOperationAdd (_event_path campaign_id (event_id event))
                          (DJson (dump event))] true).

(** [reserve_action] *)
Definition reserve_action (campaign_id : string) (action : dict json) (event : CampaignEvent)
    : hub W bool :=
  if negb (bool_decide (kind event = action_reserved)) ||
     negb (String.eqb (subject_id event) campaign_id)
  then hub_raise (ValueError "action reservation requires its reservation event")
  else
    do action_id <- hub_lift (payload_action_id (payload event));;
    control_loop (reserve_action_body campaign_id
      (_action_reservation_path campaign_id action_id) action event).
End store.
