(* ===== verification/Launch.v ===== *)
(** Launching campaign controllers (the controller part of src/src/harbor_hf/submission.py).

    The command that starts a controller Job, the secrets it is given, and the
    protocol that starts one Job per attempt: look for a receipt or a running
    Job, take the launch lease, look again, start, record, give the lease back.

    The Jobs service and the command line of the Hub are not part of the
    repository: they are the class [JobsApi]. *)
From S2P Require Import Prelude.
From S2P Require Import PyDict.
From S2P Require Import Json.
From S2P Require Import Sha256.
From S2P Require Import Campaigns.
From S2P Require Import Models.
From S2P Require Import Hub.
From S2P Require Import ControllerStatus.
From S2P Require Import Coordination.

Definition PROVIDER_RECORDER_PORT : Z := 8000.
Definition JUDGE_RECORDER_PORT : Z := 8001.

(** ** Secrets *)
Definition _PROHIBITED_GIT_SECRET_NAMES : list string :=
  ["GITHUB_TOKEN"; "GH_TOKEN"; "GIT_ASKPASS"; "SSH_ASKPASS"; "SSH_AUTH_SOCK"; "GIT_SSH";
   "GIT_SSH_COMMAND"].

Definition _REMOTE_SECRET_SOURCES : dict string :=
  [("HF_TOKEN", "HARBOR_HF_JOB_TOKEN"); ("OPENAI_API_KEY", "HARBOR_HF_JOB_OPENAI_API_KEY");
   ("GEMINI_API_KEY", "HARBOR_HF_JOB_GEMINI_API_KEY")].

(** The process environment, and the local configuration and token store that
    [configured_job_hf_token] reads. *)
Record LocalSettings := {
  environ : dict string;
  hf_job_token_name : option string;
  stored_job_hf_tokens : dict string;
}.

(** [configured_job_hf_token] (credentials.py) *)
Definition configured_job_hf_token (local : LocalSettings) : result (option string) :=
  let explicit := dict_get_default (environ local) "HARBOR_HF_JOB_TOKEN" "" in
  if negb (String.eqb explicit "") then Ok (Some explicit)
  else
    match hf_job_token_name local with
    | None => Ok None
    | Some token_name =>
        match dict_get (stored_job_hf_tokens local) token_name with
        | None => Err (ValueError ("configured Harbor HF Job token '" +:+ token_name +:+
                         "' is no longer saved; run `harbor-hf auth add-job-token TOKEN_NAME` or select another token"))
        | Some token => Ok (Some token)
        end
    end.

(** [reject_git_secret_names] *)
Definition reject_git_secret_names (names : list string) : result unit :=
  let prohibited := sorted_set (List.filter (fun n => str_mem n _PROHIBITED_GIT_SECRET_NAMES) names) in
  raise_if negb (is_nil prohibited)
    with ValueError ("Git credential secret names cannot be forwarded to remote Jobs: " +:+
                     str_join ", " prohibited);;
  Ok tt.

Definition secret_source (name : string) : string :=
  dict_get_default _REMOTE_SECRET_SOURCES name ("HARBOR_HF_JOB_" +:+ name).

(** [remote_job_secret_values] *)
Definition remote_job_secret_values (local : LocalSettings) (names : list string)
    : result (dict string) :=
  let* _ := reject_git_secret_names names in
  let source_names := dict_of (map (fun n => (n, secret_source n)) names) in
  let* values := dict_mapM (fun name source_name =>
    if String.eqb name "HF_TOKEN" then
      let* token := configured_job_hf_token local in
      Ok (match token with Some t => t | None => "" end)
    else Ok (dict_get_default (environ local) source_name "")) source_names in
  let missing := map (fun e => dict_get_default source_names e.1 "")
                   (List.filter (fun e => String.eqb e.2 "") values) in
  raise_if negb (is_nil missing)
    with ValueError ("required purpose-scoped Job secret sources are unavailable: " +:+
      str_join ", " (sort_by str_leb missing) +:+
      (if str_mem "HARBOR_HF_JOB_TOKEN" missing
       then "; set HARBOR_HF_JOB_TOKEN or run `harbor-hf auth add-job-token TOKEN_NAME`" else ""));;
  Ok values.

(** The loop of [_materialized_named_job_secrets]: drops [--secrets NAME] pairs. *)
Fixpoint render_secrets (values : dict string) (command : list string) : list string :=
  match command with
  | [] => []
  | argument :: rest =>
      match rest with
      | name :: rest' =>
          if String.eqb argument "--secrets" && dict_has values name
          then render_secrets values rest'
          else argument :: render_secrets values rest
      | [] => [argument]
      end
  end.

(** [rendered[option_end:option_end] = ["--secrets-file", path]] *)
Fixpoint insert_secrets_file (path : string) (rendered : list string) : result (list string) :=
  match rendered with
  | [] => Err (ValueError "'--' is not in list")
  | argument :: rest =>
      if String.eqb argument "--" then Ok ("--secrets-file" :: path :: argument :: rest)
      else let* rest := insert_secrets_file path rest in Ok (argument :: rest)
  end.

Definition is_line_break (c : Ascii.ascii) : bool :=
  Ascii.eqb c "010"%char || Ascii.eqb c "013"%char.

(** [_materialized_named_job_secrets], given the path of the temporary file *)
Definition _materialized_named_job_secrets (local : LocalSettings) (path : string)
    (names command : list string) : result (list string) :=
  let* values := remote_job_secret_values local names in
  raise_if existsb (fun v => negb (str_forall (fun c => negb (is_line_break c)) v)) (dict_values values)
    with ValueError "Job secrets must be single-line values";;
  insert_secrets_file path (render_secrets values command).

(** [campaign_job_secret_names] *)
Definition campaign_job_secret_names (spec : ExperimentSpec) : result (list string) :=
  match spec_remote spec with
  | None => Err (ValueError "campaign controller requires remote execution")
  | Some remote =>
      let token_name := job_token_secret_name (remote_job remote) in
      let names := token_name :: match spec_judge_api_key_secret_name spec with
                                 | Some n => [n] | None => [] end in
      Ok (token_name :: sorted_set (List.filter (fun n => negb (String.eqb n token_name)) names))
  end.

(** ** The command *)

(** [bucket_uri] *)
Definition bucket_uri (bucket : string) : string :=
  if str_startswith "hf://buckets/" bucket then bucket
  else "hf://buckets/" +:+ str_removeprefix "buckets/" bucket.

(** The characters of a GitHub owner or repository name. *)
Definition is_github_char (c : Ascii.ascii) : bool :=
  is_alnum c || Ascii.eqb c "_"%char || Ascii.eqb c "."%char || Ascii.eqb c "-"%char.

Definition is_github_name (s : string) : bool := negb (String.eqb s "") && str_forall is_github_char s.

(** The text before the first slash and after it. *)
Fixpoint cut_slash (s : string) : option (string * string) :=
  match s with
  | EmptyString => None
  | String c s =>
      if Ascii.eqb c "/"%char then Some (EmptyString, s)
      else match cut_slash s with Some (a, b) => Some (String c a, b) | None => None end
  end.

(** [github_repository]: the pattern [_GITHUB_REPOSITORY], whose name is the
    shortest text that leaves an optional ".git" and an optional slash. *)
Definition github_repository (repository : string) : result string :=
  let invalid := Err (ValueError "source repository must be a GitHub owner/name or HTTPS URL") in
  match cut_slash (str_removeprefix "https://github.com/" repository) with
  | None => invalid
  | Some (owner, rest) =>
      let rest := str_removesuffix "/" rest in
      let name := if String.eqb rest ".git" then rest else str_removesuffix ".git" rest in
      if is_github_name owner && is_github_name name
      then Ok ("https://github.com/" +:+ owner +:+ "/" +:+ name) else invalid
  end.

Definition quote_mark : string := String "034" EmptyString.
Definition newline : string := String "010" EmptyString.

(** [shlex.quote] *)
Definition is_shell_safe (c : Ascii.ascii) : bool :=
  is_alnum c || str_mem (String c EmptyString) ["_"; "@"; "%"; "+"; "="; ":"; ","; "."; "/"; "-"].

Fixpoint escape_single (s : string) : string :=
  match s with
  | EmptyString => EmptyString
  | String c s =>
      (if Ascii.eqb c "'"%char then "'" +:+ quote_mark +:+ "'" +:+ quote_mark +:+ "'"
       else String c EmptyString) +:+ escape_single s
  end.

Definition shlex_quote (s : string) : string :=
  if String.eqb s "" then "''"
  else if str_forall is_shell_safe s then s
  else "'" +:+ escape_single s +:+ "'".

(** [locked_source_command] *)
Definition quoted (s : string) : string := quote_mark +:+ s +:+ quote_mark.

Definition locked_source_script (repository revision : string) : string :=
  str_join newline [
    "set -euo pipefail";
    "export HARBOR_HF_JOB_STARTED_AT=" +:+ quoted "$(date -u +%Y-%m-%dT%H:%M:%SZ)";
    "unset GITHUB_TOKEN GH_TOKEN SSH_AUTH_SOCK GIT_SSH GIT_SSH_COMMAND GIT_CONFIG_COUNT GIT_CONFIG_PARAMETERS GIT_CONFIG_SYSTEM";
    "export GIT_TERMINAL_PROMPT=0 GIT_CONFIG_NOSYSTEM=1 GIT_CONFIG_GLOBAL=/dev/null GIT_ASKPASS=/bin/false SSH_ASKPASS=/bin/false";
    "repo_dir=$(mktemp -d)";
    "git_home=$(mktemp -d)";
    "HOME=" +:+ quoted "$git_home" +:+ " XDG_CONFIG_HOME=" +:+ quoted "$git_home" +:+
      " git -c credential.helper= clone --filter=blob:none --no-checkout " +:+ repository +:+ " " +:+
      quoted "$repo_dir";
    "HOME=" +:+ quoted "$git_home" +:+ " XDG_CONFIG_HOME=" +:+ quoted "$git_home" +:+
      " git -C " +:+ quoted "$repo_dir" +:+ " -c credential.helper= fetch --depth 1 origin " +:+ revision;
    "HOME=" +:+ quoted "$git_home" +:+ " XDG_CONFIG_HOME=" +:+ quoted "$git_home" +:+
      " git -C " +:+ quoted "$repo_dir" +:+ " -c credential.helper= checkout --detach " +:+ revision;
    "test ! -f " +:+ quoted "$repo_dir/.gitmodules";
    "exec uv run --project " +:+ quoted "$repo_dir" +:+ " --locked --no-dev " +:+ quoted "$@";
    ""].

Definition locked_source_command (source : SourcePin) (arguments : list string)
    : result (list string) :=
  let* repository := github_repository (sp_repository source) in
  Ok (["bash"; "-lc"; locked_source_script (shlex_quote repository) (shlex_quote (sp_revision source));
       "locked-source"] ++ arguments).

(** [bundle_uri] (benchmark_source.py) *)
Definition bundle_uri (namespace content_digest : string) : string :=
  "hf://buckets/" +:+ namespace +:+ "/jobs-artifacts/benchmark-bundles/sha256/" +:+
  str_removeprefix "sha256:" content_digest.

(** [_benchmark_bundle_volume] *)
Definition _benchmark_bundle_volume (source_lock : BenchmarkSourceLock) (namespace : string)
    : list string :=
  match bl_source source_lock with
  | resolved_bundle source =>
      ["--volume"; bundle_uri namespace (bn_content_digest source) +:+ ":/benchmark-source:ro"]
  | _ => []
  end.

(** [lock.plan_digest.removeprefix("sha256:")[:16]] *)
Definition plan_label (lock : CampaignLock) : string :=
  str_take 16 (str_removeprefix "sha256:" (plan_digest lock)).

(** [build_submit_campaign_controller_command] *)
Definition build_submit_campaign_controller_command (lock : CampaignLock) (spec : ExperimentSpec)
    (input_dir bucket : string) (attempt : Z) : result (list string) :=
  match spec_remote spec, controller_policy lock with
  | Some remote, Some policy =>
      raise_if (attempt <? 1) || (max_attempts policy <? attempt)
        with ValueError "campaign controller attempt is outside its locked limit";;
      let job := remote_job remote in
      let* secret_names := campaign_job_secret_names spec in
      let* source_command := locked_source_command (remote_worker remote)
        (["harbor-hf"; "campaign-controller"; "/input/manifest.yaml"; "/input/campaign.lock.json";
          "--attempt"; pretty attempt] ++
         (if 1 <? attempt then ["--prior-job-terminal"] else []) ++
         ["--output-root"; "/output"]) in
      Ok (["hf"; "jobs"; "run"; "--detach"; "--namespace"; job_namespace job;
           "--flavor"; job_flavor job; "--timeout"; pretty (job_timeout_seconds job) +:+ "s";
           "--expose"; pretty PROVIDER_RECORDER_PORT] ++
          (if is_some (spec_judge_api_key_secret_name spec)
           then ["--expose"; pretty JUDGE_RECORDER_PORT] else []) ++
          concat (map (fun name => ["--secrets"; name]) secret_names) ++
          ["--label"; "harbor-hf-role=campaign-controller";
           "--label"; "harbor-hf-campaign=" +:+ campaign_id lock;
           "--label"; "harbor-hf-plan=" +:+ plan_label lock;
           "--label"; "harbor-hf-controller-attempt=" +:+ pretty attempt;
           "--volume"; input_dir +:+ ":/input:ro"] ++
          _benchmark_bundle_volume (source_lock lock) (job_namespace job) ++
          ["--volume"; bucket_uri bucket +:+ ":/output:rw"; "--"; job_image job] ++
          source_command)
  | _, _ => Err (ValueError "campaign controller submission requires provider settings")
  end.

(** ** The Jobs service *)

(** A Job as the service lists it; a missing field is [None]. *)
Record JobResource := {
  res_id : option string;
  res_labels : option (dict string);
  res_stage : option string;
}.

Class JobsApi (W : Type) := {
  list_jobs : dict string -> string -> hub W (list JobResource);
  run_text : list string -> hub W string;
  temporary_file : hub W string;
  utc_now : hub W Z;
  new_identifier : hub W string;
}.

(** [_JOB_ID.search(output)]: the first maximal run of hexadecimal digits that
    has exactly 24 of them. *)
Definition is_hex_digit (c : Ascii.ascii) : bool :=
  char_between "0"%char "9"%char c || char_between "a"%char "f"%char c.

Fixpoint take_hex (s : string) : string :=
  match s with
  | String c s => if is_hex_digit c then String c (take_hex s) else EmptyString
  | EmptyString => EmptyString
  end.

(** [in_run]: the character before [s] is a hexadecimal digit. *)
Fixpoint search_job_id (in_run : bool) (s : string) : option string :=
  match s with
  | EmptyString => None
  | String c s' =>
      if is_hex_digit c then
        if negb in_run && Nat.eqb (String.length (take_hex s)) 24 then Some (take_hex s)
        else search_job_id true s'
      else search_job_id false s'
  end.

Definition _JOB_ID_search (output : string) : option string := search_job_id false output.

(** [any(labels.get(key) != value for key, value in expected.items())] *)
Definition labels_differ (observed expected : dict string) : bool :=
  existsb (fun e => negb (bool_decide (dict_get observed e.1 = Some e.2))) expected.

(** [_controller_labels] *)
Definition _controller_labels (lock : CampaignLock) (attempt : Z) : dict string :=
  [("harbor-hf-role", "campaign-controller");
   ("harbor-hf-campaign", campaign_id lock);
   ("harbor-hf-plan", plan_label lock);
   ("harbor-hf-controller-attempt", pretty attempt)].

Definition controller_job_id (labels : dict string) (resource : JobResource) : result string :=
  match res_id resource with
  | Some identifier =>
      if hex_fullmatch 24 identifier then
        match res_labels resource with
        | Some observed =>
            if labels_differ observed labels
            then Err (ValueError "HF Job response has the wrong controller labels")
            else Ok identifier
        | None => Err (ValueError "HF Job response has the wrong controller labels")
        end
      else Err (ValueError "HF Job response has no valid controller ID")
  | None => Err (ValueError "HF Job response has no valid controller ID")
  end.

(** [_validated_launch_receipt] *)
Definition _validated_launch_receipt (receipt : ControllerLaunchReceipt)
    (reservation : ControllerAttemptReservation) : result string :=
  if String.eqb (lr_campaign_id receipt) (at_campaign_id reservation) &&
     String.eqb (lr_plan_digest receipt) (at_plan_digest reservation) &&
     String.eqb (lr_input_digest receipt) (at_input_digest reservation) &&
     (lr_attempt receipt =? at_attempt reservation)
  then Ok (lr_job_id receipt)
  else Err (ValueError "controller launch receipt changed the launch contract").

(** [_CONTROLLER_LAUNCH_LEASE] *)
Definition _CONTROLLER_LAUNCH_LEASE : Z := seconds (30 * 60).

Definition launch_receipt_of (reservation : ControllerAttemptReservation) (job_id : string)
    : ControllerLaunchReceipt := {|
  lr_campaign_id := at_campaign_id reservation;
  lr_plan_digest := at_plan_digest reservation;
  lr_input_digest := at_input_digest reservation;
  lr_attempt := at_attempt reservation;
  lr_job_id := job_id;
|}.

Definition launch_claim_of (reservation : ControllerAttemptReservation) (launcher : string)
    (acquired_at : Z) : ControllerLaunchClaim := {|
  lc_campaign_id := at_campaign_id reservation;
  lc_plan_digest := at_plan_digest reservation;
  lc_attempt := at_attempt reservation;
  lc_launcher_id := launcher;
  lc_acquired_at := acquired_at;
  lc_expires_at := acquired_at + _CONTROLLER_LAUNCH_LEASE;
|}.

(** Without the digest of the source lock, which is a function of it, and the
    bundle receipt, which is [None] here. *)
Record CampaignControllerSubmission := {
  sub_campaign_id : string;
  sub_plan_digest : string;
  sub_input_digest : string;
  sub_input_uri : string;
  sub_job_id : option string;
  sub_attempt : Z;
  sub_launch_receipt : string;
  sub_source_lock : BenchmarkSourceLock;
  sub_secret_names : list string;
  sub_command : list string;
}.

(** ** The launch *)
Section launch.
Context {W : Type} `{HubApi W} `{JobsApi W}.
Context `{PydanticModel ControllerLaunchClaim} `{PydanticModel ControllerLaunchReceipt}
  `{PydanticModel ControllerAttemptReservation}.
Variable local : LocalSettings.

(** [_find_controller_jobs] *)
Definition _find_controller_jobs (namespace : string) (labels : dict string)
    : hub W (list string) :=
  do resources <- list_jobs labels namespace;;
  do identifiers <- hub_lift (mapM (controller_job_id labels) resources);;
  if 1 <? len identifiers
  then hub_raise (ValueError "multiple HF Jobs have one controller attempt identity")
  else hub_ret identifiers.

(** [_record_controller_launch] *)
Definition _record_controller_launch (reservation : ControllerAttemptReservation) (job_id : string)
    : hub W string :=
  do receipt <- hub_lift (if ControllerLaunchReceipt_valid (launch_receipt_of reservation job_id)
                          then Ok (launch_receipt_of reservation job_id)
                          else Err (ValidationError "ControllerLaunchReceipt"));;
  do _ <- write_launch receipt;;
  hub_ret job_id.

(** [_existing_controller_launch] *)
Definition _existing_controller_launch (reservation : ControllerAttemptReservation)
    (namespace : string) (labels : dict string) : hub W (option string) :=
  do recorded <- read_launch (at_campaign_id reservation) (at_attempt reservation);;
  match recorded with
  | Some recorded =>
      do job_id <- hub_lift (_validated_launch_receipt recorded reservation);;
      hub_ret (Some job_id)
  | None =>
      do existing <- _find_controller_jobs namespace labels;;
      match existing with
      | [] => hub_ret None
      | job_id :: _ => do job_id <- _record_controller_launch reservation job_id;; hub_ret (Some job_id)
      end
  end.

(** The [try] block of [_run_controller_launch]: the output, or [None] after a
    [ProcessError]. *)
Definition start_controller_job (command secret_names : list string) : hub W (result string) :=
  do path <- temporary_file;;
  do runtime_command <- hub_lift (_materialized_named_job_secrets local path secret_names command);;
  do output <- hub_try (run_text runtime_command);;
  match output with
  | Err (ProcessError message) => hub_ret (Err (ProcessError message))
  | Err e => hub_raise e
  | Ok output => hub_ret (Ok output)
  end.

(** [_run_controller_launch] *)
Definition _run_controller_launch (reservation : ControllerAttemptReservation) (namespace : string)
    (labels : dict string) (command secret_names : list string) : hub W string :=
  do output <- start_controller_job command secret_names;;
  let adopt (error : exn) : hub W string :=
    do adopted <- _find_controller_jobs namespace labels;;
    match adopted with
    | [] => hub_raise error
    | job_id :: _ => _record_controller_launch reservation job_id
    end in
  match output with
  | Err error => adopt error
  | Ok output =>
      match _JOB_ID_search output with
      | Some job_id => _record_controller_launch reservation job_id
      | None => adopt (ValueError "HF Jobs controller submission did not return a job ID")
      end
  end.

(** [_launch_or_adopt_controller] *)
Definition _launch_or_adopt_controller (namespace : string) (labels : dict string)
    (command secret_names : list string) (reservation : ControllerAttemptReservation)
    : hub W string :=
  do adopted <- _existing_controller_launch reservation namespace labels;;
  match adopted with
  | Some job_id => hub_ret job_id
  | None =>
      do acquired_at <- utc_now;;
      do launcher <- new_identifier;;
      let claim := launch_claim_of reservation launcher acquired_at in
      do _ <- hub_lift (if ControllerLaunchClaim_valid claim then Ok tt
                        else Err (ValidationError "ControllerLaunchClaim"));;
      do acquired <- hub_try (acquire_launch claim);;
      match acquired with
      | Err (ControllerLaunchUnavailable message) =>
          do adopted <- _existing_controller_launch reservation namespace labels;;
          match adopted with
          | Some job_id => hub_ret job_id
          | None => hub_raise (ControllerLaunchUnavailable message)
          end
      | Err e => hub_raise e
      | Ok _ =>
          do adopted <- _existing_controller_launch reservation namespace labels;;
          do job_id <- match adopted with
                       | Some job_id => hub_ret job_id
                       | None => _run_controller_launch reservation namespace labels command secret_names
                       end;;
          do _ <- release_launch claim;;
          hub_ret job_id
      end
  end.

(** [launch_reserved_campaign_controller] *)
Definition launch_reserved_campaign_controller (lock : CampaignLock) (spec : ExperimentSpec)
    (reservation : ControllerAttemptReservation) : hub W CampaignControllerSubmission :=
  match spec_remote spec with
  | None => hub_raise (ValueError "campaign controller requires remote execution")
  | Some remote =>
      do secret_names <- hub_lift (campaign_job_secret_names spec);;
      do _ <- hub_lift (remote_job_secret_values local secret_names);;
      if negb (String.eqb (at_campaign_id reservation) (campaign_id lock)) ||
         negb (String.eqb (at_plan_digest reservation) (plan_digest lock)) ||
         negb (String.eqb (at_worker_revision reservation) (sp_revision (remote_worker remote)))
      then hub_raise (ValueError "controller attempt reservation changed the launch contract")
      else
        do command <- hub_lift (build_submit_campaign_controller_command lock spec
          (at_input_uri reservation) (at_output_uri reservation) (at_attempt reservation));;
        do job_id <- _launch_or_adopt_controller (job_namespace (remote_job remote))
          (_controller_labels lock (at_attempt reservation)) command secret_names reservation;;
        do receipt_path <- hub_lift (controller_launch_receipt_path (campaign_id lock)
          (at_attempt reservation));;
        hub_ret {|
          sub_campaign_id := campaign_id lock;
          sub_plan_digest := plan_digest lock;
          sub_input_digest := at_input_digest reservation;
          sub_input_uri := at_input_uri reservation;
          sub_job_id := Some job_id;
          sub_attempt := at_attempt reservation;
          sub_launch_receipt := receipt_path;
          sub_source_lock := source_lock lock;
          sub_secret_names := secret_names;
          sub_command := command;
        |}
  end.
End launch.
