(* ===== verification/Watchdog.v ===== *)
(** The controller watchdog (src/src/harbor_hf/campaign_watchdog.py).

    It looks at the Jobs of a campaign's controller, its claim and its last
    status, gives back the provider capacity of Jobs that are gone, and starts
    the next attempt when the controller was lost. *)
From S2P Require Import Prelude.
From S2P Require Import PyDict.
From S2P Require Import Json.
From S2P Require Import Campaigns.
From S2P Require Import Models.
From S2P Require Import Control.
From S2P Require Import Recovery.
From S2P Require Import Hub.
From S2P Require Import ControllerStatus.
From S2P Require Import ControlStore.
From S2P Require Import Launch.

(** [s.upper()] of ASCII text. *)
Definition upper_char (c : Ascii.ascii) : Ascii.ascii :=
  if char_between "a"%char "z"%char c then Ascii.ascii_of_N (Ascii.N_of_ascii c - 32) else c.

Fixpoint str_upper (s : string) : string :=
  match s with EmptyString => EmptyString | String c s => String (upper_char c) (str_upper s) end.

(** [s.isdigit()] and [int(s)] of ASCII text. *)
Definition digit_value (c : Ascii.ascii) : Z := Z.of_N (Ascii.N_of_ascii c) - 48.

Fixpoint decimal_value (acc : Z) (s : string) : Z :=
  match s with EmptyString => acc | String c s => decimal_value (acc * 10 + digit_value c) s end.

Definition str_isdigit (s : string) : bool :=
  negb (String.eqb s "") && str_forall (char_between "0"%char "9"%char) s.

Definition _TERMINAL_JOB_STAGES : list string :=
  ["COMPLETED"; "CANCELED"; "CANCELLED"; "ERROR"; "DELETED"].

Record ControllerJob := {
  cj_job_id : string;
  cj_stage : string;
  cj_attempt : Z;
}.

(** [ControllerJob.terminal] *)
Definition job_terminal (job : ControllerJob) : bool :=
  str_mem (str_upper (cj_stage job)) _TERMINAL_JOB_STAGES.

Inductive WatchdogAction := watchdog_none | watchdog_recover | watchdog_operator.

#[export] Instance WatchdogAction_eq_dec : EqDecision WatchdogAction.
Proof. solve_decision. Defined.

Record WatchdogDecision := {
  wd_action : WatchdogAction;
  wd_reason : string;
  wd_replacement_attempt : option Z;
}.

Definition decide_action (action : WatchdogAction) (reason : string) : WatchdogDecision :=
  {| wd_action := action; wd_reason := reason; wd_replacement_attempt := None |}.

(** The values of [ControllerState]. *)
Definition controller_state_value (s : ControllerState) : string :=
  match s with
  | controller_starting => "starting"
  | controller_running => "running"
  | controller_waiting_retry => "waiting-retry"
  | controller_finalizing => "finalizing"
  | controller_completed => "completed"
  | controller_paused_capacity => "paused-capacity"
  | controller_paused_policy => "paused-policy"
  | controller_failed_infrastructure => "failed-infrastructure"
  | controller_failed_deterministic => "failed-deterministic"
  end.

(** [_status_recovery_decision]; [WatchdogDecision] refuses a replacement
    attempt below 2. *)
Definition _status_recovery_decision (policy : CampaignControllerSpec)
    (status : option ControllerStatus) : result WatchdogDecision :=
  match status with
  | None => Ok (decide_action watchdog_operator "controller has no durable status")
  | Some status =>
      match cs_state status with
      | controller_paused_capacity | controller_paused_policy | controller_failed_deterministic =>
          Ok (decide_action watchdog_operator
                ("controller state requires approval: " +:+ controller_state_value (cs_state status)))
      | state =>
          if max_attempts policy <=? cs_attempt status
          then Ok (decide_action watchdog_operator "controller attempt limit is exhausted")
          else
            match state with
            | controller_starting | controller_running | controller_waiting_retry
            | controller_finalizing | controller_failed_infrastructure =>
                raise_if cs_attempt status + 1 <? 2 with ValidationError "WatchdogDecision";;
                Ok {| wd_action := watchdog_recover;
                      wd_reason := "prior controller is terminal or absent and its claim is stale";
                      wd_replacement_attempt := Some (cs_attempt status + 1) |}
            | _ => Ok (decide_action watchdog_operator
                         "controller outcome is not retryable infrastructure")
            end
      end
  end.

(** [plan_controller_watchdog] *)
Definition plan_controller_watchdog (lock : CampaignLock) (status : option ControllerStatus)
    (claim : option ControllerClaim) (jobs : list ControllerJob) (campaign_terminal : bool) (now : Z)
    : result WatchdogDecision :=
  match controller_policy lock with
  | None => Ok (decide_action watchdog_none "campaign uses no controller")
  | Some policy =>
      if campaign_terminal ||
         match status with Some s => bool_decide (cs_state s = controller_completed) | None => false end
      then Ok (decide_action watchdog_none "campaign is terminal")
      else if negb (is_nil (List.filter (fun job => negb (job_terminal job)) jobs))
      then Ok (decide_action watchdog_none "controller Job is active")
      else if match claim with Some c => now <? cc_expires_at c | None => false end
      then Ok (decide_action watchdog_none "controller claim is still valid")
      else _status_recovery_decision policy status
  end.

(** [_controller_job] *)
Definition _controller_job (value : JobResource) (expected : dict string) : result ControllerJob :=
  match res_id value with
  | None => Err (CampaignWatchdogError "controller Job has no ID")
  | Some identifier =>
      raise_if String.eqb identifier "" with CampaignWatchdogError "controller Job has no ID";;
      match res_labels value with
      | None => Err (CampaignWatchdogError "controller Job labels do not match the campaign")
      | Some labels =>
          raise_if labels_differ labels expected
            with CampaignWatchdogError "controller Job labels do not match the campaign";;
          match dict_get labels "harbor-hf-controller-attempt" with
          | None => Err (CampaignWatchdogError "controller Job has no valid attempt label")
          | Some attempt_value =>
              raise_if negb (str_isdigit attempt_value)
                with CampaignWatchdogError "controller Job has no valid attempt label";;
              match res_stage value with
              | None => Err (CampaignWatchdogError "controller Job has no stage")
              | Some stage =>
                  raise_if String.eqb stage "" with CampaignWatchdogError "controller Job has no stage";;
                  let attempt := decimal_value 0 attempt_value in
                  raise_if attempt <? 1 with ValidationError "ControllerJob";;
                  Ok {| cj_job_id := identifier; cj_stage := stage; cj_attempt := attempt |}
              end
          end
      end
  end.

(** The loop of [_controller_jobs]: one Job per attempt. *)
Definition collect_controller_job (labels : dict string) (jobs : list ControllerJob)
    (resource : JobResource) : result (list ControllerJob) :=
  let* job := _controller_job resource labels in
  raise_if existsb (fun j => cj_attempt j =? cj_attempt job) jobs
    with CampaignWatchdogError "multiple controller Jobs have one physical attempt identity";;
  Ok (jobs ++ [job]).

Definition watchdog_labels (lock : CampaignLock) : dict string :=
  [("harbor-hf-role", "campaign-controller"); ("harbor-hf-campaign", campaign_id lock);
   ("harbor-hf-plan", plan_label lock)].

(** [_capacity_is_abandoned] *)
Definition _capacity_is_abandoned (claim : option ProviderCapacityClaim) (campaign_id : string)
    (active_job_ids : list string) : bool :=
  match claim with
  | None => false
  | Some claim =>
      String.eqb (pcc_campaign_id claim) campaign_id && negb (str_mem (pcc_job_id claim) active_job_ids)
  end.

(** [{run.provider for run in lock.runs if run.provider is not None}], sorted. *)
Definition lock_providers (lock : CampaignLock) : list string :=
  sorted_set (concat (map (fun run => match ra_provider (rl_admission run) with
                                      | Some p => [p] | None => [] end) (runs lock))).

Record WatchdogResult := {
  wr_campaign_id : string;
  wr_decision : WatchdogDecision;
  wr_submission : option CampaignControllerSubmission;
}.

(** The reservation of the next attempt: the prior one with its attempt and time
    replaced. *)
Definition replacement_reservation (prior : ControllerAttemptReservation) (attempt recorded_at : Z)
    : ControllerAttemptReservation := {|
  at_campaign_id := at_campaign_id prior;
  at_plan_digest := at_plan_digest prior;
  at_input_digest := at_input_digest prior;
  at_input_uri := at_input_uri prior;
  at_output_uri := at_output_uri prior;
  at_worker_revision := at_worker_revision prior;
  at_attempt := attempt;
  at_reserved_at := recorded_at;
|}.

Definition recovery_decision (campaign : string) (lock : CampaignLock) (status : ControllerStatus)
    (attempt : Z) (checkpoint : string) (recorded_at : Z) : ControllerRecoveryDecision := {|
  rd_campaign_id := campaign;
  rd_plan_digest := plan_digest lock;
  rd_prior_job_id := cs_job_id status;
  rd_prior_attempt := cs_attempt status;
  rd_replacement_attempt := attempt;
  rd_checkpoint_revision := checkpoint;
  rd_category := recovery_lost;
  rd_decided_at := recorded_at;
|}.

#[export] Instance ControllerAttemptReservation_eq_dec : EqDecision ControllerAttemptReservation.
Proof. solve_decision. Defined.
#[export] Instance RecoveryCategory_eq_dec : EqDecision RecoveryCategory.
Proof. solve_decision. Defined.
#[export] Instance ControllerRecoveryDecision_eq_dec : EqDecision ControllerRecoveryDecision.
Proof. solve_decision. Defined.

(** [projection.status in {"completed", "partial", "failed", "cancelled"}] *)
Definition watchdog_terminal (p : RecoveryProjection) : bool :=
  match proj_status (rp_campaign p) with
  | campaign_status_completed | campaign_status_partial | campaign_status_failed
  | campaign_status_cancelled => true
  | _ => false
  end.

(** ** The watchdog *)
Section watchdog.
Context {W : Type} `{HubApi W} `{JobsApi W}.
Context `{PydanticModel CampaignLock} `{PydanticModel ControllerClaim} `{PydanticModel ControllerStatus}
  `{PydanticModel ControllerLaunchClaim} `{PydanticModel ControllerLaunchReceipt}
  `{PydanticModel ProviderCapacityClaim} `{PydanticModel ControllerAttemptReservation}
  `{PydanticModel ControllerRecoveryDecision}.
Variable event_validate : json -> result CampaignEvent.
(** [load_experiment_bytes]: YAML and the Pydantic model of the manifest. *)
Variable load_experiment : document -> result ExperimentSpec.
Variable local : LocalSettings.

(** [_controller_jobs] *)
Definition _controller_jobs (lock : CampaignLock) (namespace : string) : hub W (list ControllerJob) :=
  if String.eqb namespace ""
  then hub_raise (CampaignWatchdogError "campaign watchdog requires remote settings")
  else
    do resources <- list_jobs (watchdog_labels lock) namespace;;
    do jobs <- hub_lift (foldM (collect_controller_job (watchdog_labels lock)) [] resources);;
    hub_ret (sort_by (fun a b => cj_attempt a <=? cj_attempt b) jobs).

(** [_release_abandoned_provider_capacity] *)
Definition release_abandoned (lock : CampaignLock) (active_job_ids : list string) (u : unit)
    (provider : string) : hub W unit :=
  do claim <- read_provider_capacity provider;;
  if _capacity_is_abandoned claim (campaign_id lock) active_job_ids then
    match claim with
    | Some claim => release_provider_capacity claim
    | None => hub_raise AssertionError
    end
  else hub_ret tt.

Definition _release_abandoned_provider_capacity (lock : CampaignLock) (jobs : list ControllerJob)
    : hub W unit :=
  let active_job_ids := map cj_job_id (List.filter (fun job => negb (job_terminal job)) jobs) in
  hub_foldM (release_abandoned lock active_job_ids) tt (lock_providers lock).

(** The part of [run_campaign_watchdog] that starts the next attempt. *)
Definition recover_controller (campaign : string) (snapshot : CampaignSnapshot) (spec : ExperimentSpec)
    (status : ControllerStatus) (replacement_attempt : Z) : hub W CampaignControllerSubmission :=
  let lock := snap_lock snapshot in
  do prior <- read_attempt campaign (cs_attempt status);;
  match prior with
  | None => hub_raise (CampaignWatchdogError "watchdog recovery has no immutable launch contract")
  | Some prior =>
      do existing_recovery <- read_recovery campaign replacement_attempt;;
      do existing_replacement <- read_attempt campaign replacement_attempt;;
      do recorded_at <- match existing_recovery, existing_replacement with
                        | Some r, _ => hub_ret (rd_decided_at r)
                        | None, Some r => hub_ret (at_reserved_at r)
                        | None, None => utc_now
                        end;;
      let replacement := replacement_reservation prior replacement_attempt recorded_at in
      do _ <- hub_lift (if ControllerAttemptReservation_valid replacement then Ok tt
                        else Err (ValidationError "ControllerAttemptReservation"));;
      let recovery := recovery_decision campaign lock status replacement_attempt
        (match existing_recovery with Some r => rd_checkpoint_revision r
                                    | None => snap_control_commit snapshot end) recorded_at in
      do _ <- hub_lift (if ControllerRecoveryDecision_valid recovery then Ok tt
                        else Err (ValidationError "ControllerRecoveryDecision"));;
      if match existing_recovery with Some r => negb (bool_decide (r = recovery)) | None => false end
      then hub_raise (CampaignWatchdogError
             "watchdog recovery decision conflicts with the campaign state")
      else if match existing_replacement with Some r => negb (bool_decide (r = replacement)) | None => false end
      then hub_raise (CampaignWatchdogError
             "watchdog replacement attempt conflicts with the launch contract")
      else
        do _ <- write_recovery recovery;;
        do _ <- reserve_attempt replacement;;
        launch_reserved_campaign_controller local lock spec replacement
  end.

(** [run_campaign_watchdog] *)
Definition run_campaign_watchdog (campaign : string) (dry_run : bool) : hub W WatchdogResult :=
  do snapshot <- load_snapshot event_validate campaign;;
  do spec <- hub_lift (load_experiment (snap_request snapshot));;
  do projection <- hub_lift (project_recovery (snap_lock snapshot) (snap_events snapshot));;
  do status <- read_status campaign;;
  do claim <- read_claim campaign;;
  do jobs <- _controller_jobs (snap_lock snapshot)
               (match spec_remote spec with Some r => job_namespace (remote_job r) | None => "" end);;
  do _ <- (if dry_run then hub_ret tt
           else _release_abandoned_provider_capacity (snap_lock snapshot) jobs);;
  do now <- utc_now;;
  do decided <- hub_lift (plan_controller_watchdog (snap_lock snapshot) status claim jobs
                            (watchdog_terminal projection) now);;
  if negb (bool_decide (wd_action decided = watchdog_recover)) || dry_run
  then hub_ret {| wr_campaign_id := campaign; wr_decision := decided; wr_submission := None |}
  else
    match status, wd_replacement_attempt decided with
    | Some status, Some replacement_attempt =>
        do submission <- recover_controller campaign snapshot spec status replacement_attempt;;
        hub_ret {| wr_campaign_id := campaign; wr_decision := decided;
                   wr_submission := Some submission |}
    | _, _ => hub_raise (CampaignWatchdogError "watchdog recovery has no prior controller status")
    end.
End watchdog.
