(* ===== verification/Observer.v ===== *)
(** Observation of evidence (src/src/harbor_hf/campaign_observer.py).

    Waves and executions leave terminal units of files in a bucket; the observer
    checks their digests and derives deterministic control events from them.
    The reader of the bucket, Pydantic and the parsers of JSON and timestamps
    are parameters. *)
From S2P Require Import Prelude.
From S2P Require Import PyDict.
From S2P Require Import Json.
From S2P Require Import Sha256.
From S2P Require Import Patterns.
From S2P Require Import PyText.
From S2P Require Import Campaigns.
From S2P Require Import Models.
From S2P Require Import Hub.
From S2P Require Import Waves.
From S2P Require Import Control.

(** [EvidenceReader] (results.py), with the optional [prefetch_files] and [refresh] *)
Class EvidenceReader (W : Type) := {
  list_files : string -> string -> hub W (list string);
  read_bytes : string -> string -> string -> hub W string;
  prefetch_files : option (string -> string -> list string -> hub W unit);
  reader_refresh : option (hub W unit);
}.

(** [ExecutionLock] (wave_worker.py) *)
Record ExecutionLock := {
  xl_execution_id : string;
  xl_created_at : Z;
  xl_campaign_id : string;
  xl_wave_id : string;
  xl_run_id : string;
  xl_shard_id : string;
  xl_trial_id : string;
  xl_task_name : string;
  xl_task_digest : string;
  xl_logical_attempt : Z;
  xl_physical_attempt : Z;
  xl_remote_job_id : option string;
}.

(** The parsers: [model_validate_json] and [model_validate] of the locks,
    [TypeAdapter(dict[str, object]).validate_json], [json.loads], and
    [datetime.fromisoformat] ([None] when it raises, [Some None] for a naive
    datetime). *)
Class EvidenceParsers := {
  wave_lock_validate_json : string -> result WaveLock;
  wave_lock_validate : dict json -> result WaveLock;
  execution_lock_validate_json : string -> result ExecutionLock;
  json_object_validate : string -> result (dict json);
  json_loads : string -> result json;
  fromisoformat : string -> option (option Z);
}.

Definition _TERMINAL_MARKERS : list string := ["_SUCCESS"; "_FAILED"; "_CANCELLED"].
Definition _OBSERVATION_FILES : list string := [
  "_FAILED"; "checksums.json"; "events.jsonl"; "execution.lock.json"; "failure.json";
  "verification.json"; "wave-summary.json"; "wave.lock.json"].

(** ** Paths *)

(** [_wave_lock_paths], [_execution_lock_paths] *)
Definition is_wave_lock_path (path : string) : bool :=
  match parts_of path with
  | [a; _; _] => String.eqb a "waves" && String.eqb (name_of path) "wave.lock.json"
  | _ => false
  end.
Definition _wave_lock_paths (paths : list string) : list string :=
  sort_by str_leb (List.filter is_wave_lock_path paths).

Definition is_execution_lock_path (path : string) : bool :=
  String.eqb (name_of path) "execution.lock.json" && str_mem "executions" (parts_of path).
Definition _execution_lock_paths (paths : list string) : list string :=
  sort_by str_leb (List.filter is_execution_lock_path paths).

(** [_terminal_marker] *)
Definition _terminal_marker (paths : list string) (prefix : string) : result (option string) :=
  match remove_dups (map name_of (List.filter (fun path =>
          String.eqb (parent_of path) prefix && str_mem (name_of path) _TERMINAL_MARKERS) paths)) with
  | [] => Ok None
  | [marker] => Ok (Some marker)
  | _ => Err (CampaignObservationError "terminal evidence has conflicting markers")
  end.

(** ** Records *)
Definition validation_as (message : string) {A} (r : result A) : result A :=
  match r with Err (ValidationError _) => Err (CampaignObservationError message) | r => r end.

Section records.
Context `{EvidenceParsers}.

(** [_json_lines] *)
Definition _json_lines (value : string) : result (list (dict json)) :=
  let* records := validation_as "lifecycle event log is invalid"
    (mapM json_object_validate (List.filter (fun line => negb (is_blank line)) (splitlines value))) in
  match records with
  | [] => Err (CampaignObservationError "lifecycle event log is empty")
  | _ => Ok records
  end.

(** [record.get("event")] is one of the names. *)
Definition event_named (names : list string) (record : dict json) : bool :=
  match dict_get record "event" with Some (JStr name) => str_mem name names | _ => false end.

Definition omits (names : list string) : exn :=
  CampaignObservationError ("lifecycle event log omits required events: " +:+ str_join ", " names).

(** [_event_time]: the first record of the names decides. *)
Definition _event_time (records : list (dict json)) (names : list string) : result Z :=
  match find (event_named names) records with
  | None => Err (omits names)
  | Some record =>
      match dict_get record "at" with
      | Some (JStr value) =>
          match fromisoformat value with
          | None => Err (CampaignObservationError "lifecycle event timestamp is invalid")
          | Some None => Err (CampaignObservationError "lifecycle event timestamp has no timezone")
          | Some (Some observed) => Ok observed
          end
      | _ => Err (omits names)
      end
  end.

(** [_optional_event_time] *)
Definition _optional_event_time (records : list (dict json)) (name : string) : result (option Z) :=
  match _event_time records [name] with
  | Ok observed => Ok (Some observed)
  | Err (CampaignObservationError _) => Ok None
  | Err e => Err e
  end.

(** [record.get("event") in {...}]: a list or an object cannot be hashed. *)
Definition cleanup_incomplete_record (record : dict json) : result bool :=
  match dict_get record "event" with
  | Some (JStr name) => Ok (str_mem name ["endpoint_cleanup_failed"; "endpoint_cleanup_skipped"])
  | Some (JArr _) | Some (JObj _) => Err TypeError
  | _ => Ok false
  end.

(** ** Events *)

(** [_event] *)
Definition observed_event (campaign : CampaignLock) (st : SubjectType) (sid : string) (k : EventKind)
    (p : EventPayload) (observed : Z) (identity : string) : result CampaignEvent :=
  new_event st sid k producer_wave_controller p observed
    (sha256_hex_prefix 32 (campaign_id campaign +:+ ":" +:+ identity)).

(** A payload is validated when it is made. *)
Definition checked_payload (p : EventPayload) : result EventPayload :=
  raise_if negb (payload_fields_valid p) with ValidationError "payload";; Ok p.

(** [_wave_events] *)
Definition observed_wave_payload (campaign : CampaignLock) (wave : WaveLock) : result EventPayload :=
  let* provider :=
    match List.filter (fun run : CampaignRunLock =>
            String.eqb (ra_deployment_digest run) (Waves.wl_deployment_digest wave)) (runs campaign) with
    | [] => Err StopIteration
    | run :: _ => Ok (opt_str_or (ra_provider run) "hf-inference-endpoints")
    end in
  let* estimated_cost :=
    if is_retry (wl_action_kind wave) then
      let* cost := estimated_partial_wave_cost campaign (Waves.wl_deployment_digest wave)
        (Some (Waves.wl_estimated_cost_microusd wave)) (len (wl_trial_ids wave)) in
      match cost with Some cost => Ok cost | None => Err AssertionError end
    else Ok (Waves.wl_estimated_cost_microusd wave) in
  checked_payload (payload_wave {|
    Control.wl_deployment_digest := Waves.wl_deployment_digest wave;
    Control.wl_provider := provider;
    Control.wl_shard_ids := Waves.wl_shard_ids wave;
    Control.wl_estimated_cost_microusd := estimated_cost |}).

Definition _wave_events (campaign : CampaignLock) (wave : WaveLock) (marker : string)
    (records : list (dict json)) : result (list CampaignEvent) :=
  let* payload := observed_wave_payload campaign wave in
  let* active := _event_time records ["wave_started"] in
  let* finished := _event_time records ["wave_succeeded"; "wave_failed"] in
  let event k observed suffix :=
    observed_event campaign subject_wave (wl_wave_id wave) k payload observed (wl_wave_id wave +:+ suffix) in
  let* started := event wave_active active ":active" in
  let* incomplete := anyM cleanup_incomplete_record records in
  if incomplete then
    let* failed := event wave_cleanup_failed finished ":cleanup-failed" in
    Ok [started; failed]
  else
    let* requested := _optional_event_time records "endpoint_pause_requested" in
    let cleaning := match requested with Some t => t | None => finished end in
    let closed := Z.max cleaning finished + 1 in
    let* cleaning_event := event wave_cleaning cleaning ":cleaning" in
    let* closed_event := event wave_closed closed (":closed:" +:+ marker) in
    Ok [started; cleaning_event; closed_event].

(** [_execution_control_events] *)
Definition outcome_of_marker (marker : string) (failure_category : option RetryCategory)
    : result (EventKind * option RetryCategory) :=
  if String.eqb marker "_SUCCESS" then Ok (execution_completed, None)
  else if String.eqb marker "_CANCELLED" then Ok (execution_cancelled, None)
  else match failure_category with
       | None => Err (CampaignObservationError "execution failure evidence has no retry category")
       | Some category => Ok (execution_failed, Some category)
       end.

Definition _execution_control_events (campaign : CampaignLock) (execution : ExecutionLock)
    (marker : string) (records : list (dict json)) (message : option string)
    (failure_category : option RetryCategory) : result (list CampaignEvent) :=
  let* started := _event_time records ["execution_started"] in
  let* finished := _event_time records ["execution_succeeded"; "execution_failed"; "execution_cancelled"] in
  let* started_payload := checked_payload (payload_execution_started {|
    es_trial_id := xl_trial_id execution; es_shard_id := xl_shard_id execution;
    es_physical_attempt := xl_physical_attempt execution; es_wave_id := Some (xl_wave_id execution);
    es_estimated_cost_microusd := 0 |}) in
  let* start := observed_event campaign subject_execution (xl_execution_id execution) execution_started
    started_payload started (xl_execution_id execution +:+ ":started") in
  let* '(k, category) := outcome_of_marker marker failure_category in
  let* outcome_payload := checked_payload (payload_execution_outcome {|
    eo_trial_id := xl_trial_id execution; eo_physical_attempt := xl_physical_attempt execution;
    eo_category := category; eo_spend_microusd := 0; eo_retry_after_seconds := None; eo_message := message |}) in
  let* outcome := observed_event campaign subject_execution (xl_execution_id execution) k
    outcome_payload finished (xl_execution_id execution +:+ ":" +:+ kind_name k) in
  Ok [start; outcome].

(** ** Failures *)

(** [_legacy_failure_category] *)
Definition _legacy_failure_category (error_type message : option json) : RetryCategory :=
  let value := str_lower (py_str_or_empty error_type +:+ " " +:+ py_str_or_empty message) in
  let any items := existsb (fun item => str_in item value) items in
  if any ["authentication"; "unauthorized"; "forbidden"] then category_authentication
  else if any ["ratelimit"; "rate_limit"; "status=429"] then category_rate_limit
  else if any ["quota"] then category_quota
  else if any ["timeout"; "connection"; "status=5"] then category_transient
  else if any ["configuration"; "badrequest"; "notfound"] then category_configuration
  else category_benchmark.

(** [TypeAdapter(RetryCategory).validate_python] *)
Definition all_categories : list RetryCategory := [
  category_transient; category_rate_limit; category_quota; category_lost;
  category_ambiguous; category_agent; category_benchmark; category_configuration;
  category_authentication; category_cleanup; category_evidence].
Definition category_validate (value : json) : result RetryCategory :=
  match value with
  | JStr name =>
      match find (fun c => String.eqb (category_name c) name) all_categories with
      | Some c => Ok c
      | None => Err (ValidationError "RetryCategory")
      end
  | _ => Err (ValidationError "RetryCategory")
  end.

(** What [_failure_details] reads off the failure record. *)
Definition failure_of (value : dict json) : result (option string * option RetryCategory) :=
  let message := dict_get value "message" in
  let* category :=
    match dict_get value "category" with
    | None | Some JNull => Ok (_legacy_failure_category (dict_get value "error_type") message)
    | Some raw => validation_as "execution failure evidence has an invalid retry category" (category_validate raw)
    end in
  Ok (match message with Some (JStr m) => Some m | _ => None end, Some category).

(** [_validate_execution_identity] *)
Definition execution_matches (campaign : CampaignLock) (execution : ExecutionLock) (path : string)
    (run : CampaignRunLock) (shard : CampaignShardLock) (trial : CampaignTrialLock) : bool :=
  String.eqb (rl_run_id run) (xl_run_id execution) &&
  String.eqb (sl_shard_id shard) (xl_shard_id execution) &&
  String.eqb (tl_trial_id trial) (xl_trial_id execution) &&
  String.eqb (xl_campaign_id execution) (campaign_id campaign) &&
  String.eqb (xl_task_name execution) (tl_task_name trial) &&
  String.eqb (xl_task_digest execution) (tl_task_digest trial) &&
  (xl_logical_attempt execution =? tl_logical_attempt trial) &&
  String.eqb path ("runs/" +:+ rl_run_id run +:+ "/trials/" +:+ tl_trial_id trial +:+ "/executions/" +:+
                   xl_execution_id execution +:+ "/execution.lock.json").

Definition _validate_execution_identity (campaign : CampaignLock) (execution : ExecutionLock)
    (path : string) : result unit :=
  raise_if negb (existsb (fun run => existsb (fun shard => existsb (fun trial =>
      execution_matches campaign execution path run shard trial) (sl_trials shard)) (rl_shards run))
    (runs campaign))
    with CampaignObservationError "execution evidence does not match campaign lock";;
  Ok tt.

(** ** [BucketCampaignObserver] *)
Section observer.
Context {W : Type} `{EvidenceReader W} (spec : ExperimentSpec) (lock : CampaignLock).

(** [_read] *)
Definition read_evidence (path : string) : hub W string :=
  read_bytes (as_bucket (spec_artifacts spec)) (artifact_prefix lock) path.

(** [_legacy_retry_trial_ids] *)
Definition _legacy_retry_trial_ids (paths : list string) (wave_id : string) : hub W (list string) :=
  do executions <- hub_mapM (fun path =>
      do content <- read_evidence path;; hub_lift (execution_lock_validate_json content))
    (_execution_lock_paths paths);;
  hub_ret (sorted_set (map xl_trial_id
    (List.filter (fun execution => String.eqb (xl_wave_id execution) wave_id) executions))).

(** [_load_wave_lock]: a legacy retry lock lacks its trials. *)
Definition wave_invalid : exn := CampaignObservationError "wave lock evidence is invalid".

Definition json_is_text (value : option json) (text : string) : bool :=
  match value with Some (JStr s) => String.eqb s text | _ => false end.

Definition _load_wave_lock (paths : list string) (path : string) : hub W WaveLock :=
  do content <- read_evidence path;;
  match wave_lock_validate_json content with
  | Err (ValidationError _) =>
      do raw <- hub_lift (json_object_validate content);;
      if negb (json_is_text (dict_get raw "action_kind") "retry-shard") ||
         match dict_get raw "trial_ids" with Some ids => json_truthy ids | None => false end
      then hub_raise wave_invalid
      else
        match dict_get raw "wave_id" with
        | Some (JStr wave_id) =>
            do trial_ids <- _legacy_retry_trial_ids paths wave_id;;
            match trial_ids with
            | [] => hub_raise (CampaignObservationError "legacy retry wave has no matching execution evidence")
            | _ => hub_lift (validation_as "wave lock evidence is invalid"
                     (wave_lock_validate (dict_set raw "trial_ids" (jstrs trial_ids))))
            end
        | _ => hub_raise wave_invalid
        end
  | r => hub_lift r
  end.

(** [_verify_critical_unit] *)
Definition manifest_invalid : exn := CampaignObservationError "terminal checksum manifest is invalid".

Definition is_sha256_text (value : json) : bool :=
  match value with JStr digest => str_startswith "sha256:" digest | _ => false end.

Definition checksum_manifest (content : string) : result (dict json) :=
  match json_loads content with
  | Err (ValueError _) | Err UnicodeDecodeError => Err manifest_invalid
  | Err e => Err e
  | Ok (JObj manifest) => Ok manifest
  | Ok _ => Err AttributeError
  end.

Definition verify_critical_file (prefix : string) (manifest : dict json) (relative : string) : hub W unit :=
  do content <- read_evidence (prefix +:+ "/" +:+ relative);;
  do expected <- hub_lift (dict_item manifest relative);;
  if bool_decide (expected = JStr ("sha256:" +:+ sha256_bytes content)) then hub_ret tt
  else hub_raise (CampaignObservationError
         ("terminal evidence checksum mismatch: " +:+ prefix +:+ "/" +:+ relative)).

Definition _verify_critical_unit (paths : list string) (prefix : string) (critical : list string)
    : hub W unit :=
  let manifest_path := prefix +:+ "/checksums.json" in
  if negb (str_mem manifest_path paths)
  then hub_raise (CampaignObservationError "terminal evidence has no checksum manifest")
  else
    do content <- read_evidence manifest_path;;
    do manifest <- hub_lift (checksum_manifest content);;
    if negb (forallb (fun e => is_sha256_text e.2) manifest) then hub_raise manifest_invalid
    else if negb (forallb (dict_has manifest) critical)
    then hub_raise (CampaignObservationError "terminal checksum manifest is incomplete")
    else
      do _us <- hub_mapM (verify_critical_file prefix manifest) (sorted_set critical);;
      hub_ret tt.

(** [_failure_details] *)
Definition _failure_details (paths : list string) (prefix marker : string)
    : hub W (option string * option RetryCategory) :=
  if negb (String.eqb marker "_FAILED") then hub_ret (None, None)
  else
    let details_path := if str_mem (prefix +:+ "/failure.json") paths
                        then prefix +:+ "/failure.json" else prefix +:+ "/_FAILED" in
    do content <- read_evidence details_path;;
    do value <- hub_lift (json_object_validate content);;
    hub_lift (failure_of value).

(** One wave, one execution: nothing before their terminal marker. *)
Definition observe_wave (paths : list string) (path : string) : hub W (list CampaignEvent) :=
  let wave_prefix := parent_of path in
  do marker <- hub_lift (_terminal_marker paths wave_prefix);;
  match marker with
  | None => hub_ret []
  | Some marker =>
      do wave <- _load_wave_lock paths path;;
      if negb (String.eqb (Waves.wl_campaign_id wave) (campaign_id lock))
      then hub_raise (CampaignObservationError "wave evidence belongs to another campaign")
      else
        do _v <- _verify_critical_unit paths wave_prefix ["wave.lock.json"; "events.jsonl"; "wave-summary.json"];;
        do content <- read_evidence (wave_prefix +:+ "/events.jsonl");;
        do records <- hub_lift (_json_lines content);;
        hub_lift (_wave_events lock wave marker records)
  end.

Definition critical_files (paths : list string) (prefix marker : string) : list string :=
  ["execution.lock.json"; "events.jsonl"] ++
  (if String.eqb marker "_SUCCESS" then ["verification.json"]
   else if String.eqb marker "_FAILED" && str_mem (prefix +:+ "/failure.json") paths then ["failure.json"]
   else []).

Definition observe_execution (paths : list string) (path : string) : hub W (list CampaignEvent) :=
  let prefix := parent_of path in
  do marker <- hub_lift (_terminal_marker paths prefix);;
  match marker with
  | None => hub_ret []
  | Some marker =>
      do _v <- _verify_critical_unit paths prefix (critical_files paths prefix marker);;
      do content <- read_evidence path;;
      do execution <- hub_lift (execution_lock_validate_json content);;
      do _i <- hub_lift (_validate_execution_identity lock execution path);;
      do log <- read_evidence (prefix +:+ "/events.jsonl");;
      do records <- hub_lift (_json_lines log);;
      do failure <- _failure_details paths prefix marker;;
      hub_lift (_execution_control_events lock execution marker records failure.1 failure.2)
  end.

(** [_execution_events], [observe] *)
Definition _execution_events (paths : list string) : hub W (list CampaignEvent) :=
  do events <- hub_mapM (observe_execution paths) (_execution_lock_paths paths);;
  hub_ret (concat events).

Definition observe_campaign : hub W (list CampaignEvent) :=
  do paths <- list_files (as_bucket (spec_artifacts spec)) (artifact_prefix lock);;
  do _p <- match prefetch_files with
           | Some prefetch => prefetch (as_bucket (spec_artifacts spec)) (artifact_prefix lock)
               (List.filter (fun path => str_mem (name_of path) _OBSERVATION_FILES) paths)
           | None => hub_ret tt
           end;;
  do waves <- hub_mapM (observe_wave paths) (_wave_lock_paths paths);;
  do executions <- _execution_events paths;;
  hub_ret (sort_by event_leb (concat waves ++ executions)).

(** [refresh] *)
Definition refresh_reader : hub W unit :=
  match reader_refresh with Some refresh => refresh | None => hub_ret tt end.
End observer.
End records.
