(* ===== verification/BucketEvidence.v ===== *)
(** Evidence in Hub buckets (src/src/harbor_hf/bucket_evidence.py).

    The reader lists a prefix once and keeps the objects it downloaded in a
    local cache until it is refreshed; the writer creates objects that are never
    overwritten, under a distributed claim when it has a claim store.  The
    bucket client of [huggingface_hub] is the class [BucketApi]. *)
From S2P Require Import Prelude.
From S2P Require Import PyDict.
From S2P Require Import Json.
From S2P Require Import Sha256.
From S2P Require Import Patterns.
From S2P Require Import PyText.
From S2P Require Import Hub.
From S2P Require Import Coordination.
From S2P Require Import Observer.

Definition _DOWNLOAD_BATCH_SIZE : Z := 1024.

(** An item of a listing: [item.type] and [item.path] when they are texts. *)
Record BucketItem := { bi_type : option string; bi_path : option string }.

(** The client ([BucketEvidenceApi], [BucketEvidenceWriterApi]); a download
    returns the contents of the objects in their order, or raises when one is
    missing. *)
Class BucketApi (W : Type) := {
  list_bucket_tree : string -> string -> hub W (list BucketItem);
  get_bucket_paths_info : string -> list string -> hub W (list BucketItem);
  download_bucket_files : string -> list BucketItem -> hub W (list string);
  batch_bucket_files : string -> list (string * string) -> hub W unit;
}.

(** [prefix.rstrip("/")] *)
Fixpoint rstrip_slash (s : string) : string :=
  match s with
  | EmptyString => EmptyString
  | String c s =>
      match rstrip_slash s with
      | EmptyString => if Ascii.eqb c "/"%char then EmptyString else String c EmptyString
      | rest => String c rest
      end
  end.

(** ** [HubBucketEvidenceReader] *)

(** The attributes [_listings] and [_prefetched] and the files of [cache_root],
    by their names. *)
Record reader (W : Type) := {
  rd_world : W;
  rd_listings : list ((string * string) * dict BucketItem);
  rd_prefetched : list (string * string);
  rd_cache : dict string;
}.
Arguments rd_world {W}.
Arguments rd_listings {W}.
Arguments rd_prefetched {W}.
Arguments rd_cache {W}.

Definition with_world {W} (w : W) (s : reader W) : reader W := {|
  rd_world := w; rd_listings := rd_listings s; rd_prefetched := rd_prefetched s; rd_cache := rd_cache s |}.

Section reader.
Context {W : Type} `{BucketApi W}.

Definition on_api {A} (m : hub W A) : hub (reader W) A :=
  fun s => let '(r, w) := m (rd_world s) in (r, with_world w s).

(** [_cache_path] *)
Definition _cache_path (bucket prefix path : string) : string :=
  sha256_hex (bucket +:+ "/" +:+ prefix +:+ "/" +:+ path).

(** The loop of [_listing]. *)
Definition add_listed (remote_prefix : string) (listing : dict BucketItem) (item : BucketItem)
    : result (dict BucketItem) :=
  if negb (bool_decide (bi_type item = Some "file")) then Ok listing
  else
    match bi_path item with
    | Some remote_path =>
        raise_if negb (str_startswith remote_prefix remote_path)
          with BucketEvidenceError "Bucket listing escaped its evidence prefix";;
        let relative := str_removeprefix remote_prefix remote_path in
        raise_if negb (nonempty relative) || dict_has listing relative
          with BucketEvidenceError "Bucket listing contains invalid file paths";;
        Ok (dict_set listing relative item)
    | None => Err (BucketEvidenceError "Bucket listing escaped its evidence prefix")
    end.

Definition cached_listing (listings : list ((string * string) * dict BucketItem)) (key : string * string)
    : option (dict BucketItem) :=
  match find (fun e : (string * string) * dict BucketItem => bool_decide (e.1 = key)) listings with
  | Some e => Some e.2
  | None => None
  end.

(** [_listing] *)
Definition _listing (bucket prefix : string) : hub (reader W) (dict BucketItem) := fun s =>
  match cached_listing (rd_listings s) (bucket, prefix) with
  | Some listing => (Ok listing, s)
  | None =>
      (do items <- on_api (list_bucket_tree bucket prefix);;
       do listing <- hub_lift (foldM (add_listed (prefix +:+ "/")) [] items);;
       fun s => (Ok listing, {| rd_world := rd_world s;
                                rd_listings := ((bucket, prefix), listing) :: rd_listings s;
                                rd_prefetched := rd_prefetched s; rd_cache := rd_cache s |})) s
  end.

(** One batch of [_download_missing]: the temporary files replace their
    destinations after the whole batch arrived. *)
Definition download_batch (bucket : string) (batch : list (string * BucketItem)) : hub (reader W) unit :=
  do contents <- on_api (download_bucket_files bucket (map snd batch));;
  fun s => (Ok tt, {| rd_world := rd_world s; rd_listings := rd_listings s; rd_prefetched := rd_prefetched s;
                      rd_cache := dict_update (rd_cache s) (combine (map fst batch) contents) |}).

(** [_download_missing] *)
Definition missing_downloads (bucket prefix : string) (cache : dict string) (listing : dict BucketItem)
    : list (string * BucketItem) :=
  List.filter (fun e : string * BucketItem => negb (dict_has cache e.1))
    (map (fun e : string * BucketItem => (_cache_path bucket prefix e.1, e.2))
      (sort_by key_leb listing)).

Definition _download_missing (bucket prefix : string) (listing : dict BucketItem)
    : hub (reader W) unit := fun s =>
  (do batches <- hub_lift (chunks _DOWNLOAD_BATCH_SIZE
     (missing_downloads bucket prefix (rd_cache s) listing));;
   do _us <- hub_mapM (download_batch bucket) batches;;
   hub_ret tt) s.

(** [_prefetch] *)
Definition _prefetch (bucket prefix : string) (listing : dict BucketItem) : hub (reader W) unit := fun s =>
  if bool_decide ((bucket, prefix) ∈ rd_prefetched s) then (Ok tt, s)
  else
    (do _u <- _download_missing bucket prefix listing;;
     fun s => (Ok tt, {| rd_world := rd_world s; rd_listings := rd_listings s;
                         rd_prefetched := (bucket, prefix) :: rd_prefetched s; rd_cache := rd_cache s |})) s.

(** [list_files], [read_bytes], [prefetch_files], [refresh] *)
Definition bucket_list_files (bucket prefix : string) : hub (reader W) (list string) :=
  do listing <- _listing (bucket_id bucket) (rstrip_slash prefix);;
  hub_ret (sort_by str_leb (dict_keys listing)).

Definition object_missing (path : string) : exn :=
  BucketEvidenceError ("Bucket evidence object is missing: " +:+ path).

Definition read_cached (bucket prefix path : string) : hub (reader W) string := fun s =>
  match dict_get (rd_cache s) (_cache_path bucket prefix path) with
  | Some content => (Ok content, s)
  | None => (Err (BucketEvidenceError ("Bucket evidence object cannot be read: " +:+ path)), s)
  end.

Definition bucket_read_bytes (bucket prefix path : string) : hub (reader W) string :=
  let normalized_bucket := bucket_id bucket in
  let normalized_prefix := rstrip_slash prefix in
  do listing <- _listing normalized_bucket normalized_prefix;;
  match dict_get listing path with
  | None => hub_raise (object_missing path)
  | Some _ =>
      do _p <- (fun s =>
        if dict_has (rd_cache s) (_cache_path normalized_bucket normalized_prefix path) then (Ok tt, s)
        else _prefetch normalized_bucket normalized_prefix listing s);;
      read_cached normalized_bucket normalized_prefix path
  end.

Definition bucket_prefetch_files (bucket prefix : string) (paths : list string) : hub (reader W) unit :=
  let normalized_bucket := bucket_id bucket in
  let normalized_prefix := rstrip_slash prefix in
  do listing <- _listing normalized_bucket normalized_prefix;;
  do selected <- hub_lift (foldM (fun selected path =>
      match dict_get listing path with
      | None => Err (object_missing path)
      | Some remote => Ok (dict_set selected path remote)
      end) [] paths);;
  _download_missing normalized_bucket normalized_prefix selected.

Definition bucket_refresh : hub (reader W) unit := fun s =>
  (Ok tt, {| rd_world := rd_world s; rd_listings := []; rd_prefetched := []; rd_cache := [] |}).

Definition HubBucketEvidenceReader : EvidenceReader (reader W) := {|
  list_files := bucket_list_files;
  read_bytes := bucket_read_bytes;
  prefetch_files := Some bucket_prefetch_files;
  reader_refresh := Some bucket_refresh;
|}.
End reader.

(** ** [HubBucketEvidenceWriter] *)
Section writer.
Context {W : Type} `{BucketApi W}.

(** [_write_locked] *)
Definition ambiguous_lookup : exn := BucketEvidenceError "Bucket immutable-path lookup is ambiguous".

Definition _write_locked (bucket path content : string) : hub W bool :=
  do observed <- get_bucket_paths_info bucket [path];;
  match observed with
  | [] => do _b <- batch_bucket_files bucket [(content, path)];; hub_ret true
  | [item] =>
      if negb (bool_decide (bi_path item = Some path)) then hub_raise ambiguous_lookup
      else
        do existing <- download_bucket_files bucket [item];;
        match existing with
        | [existing] =>
            if String.eqb existing content then hub_ret false
            else hub_raise (BucketEvidenceError ("Bucket immutable evidence conflicts: " +:+ path))
        | _ => hub_raise (BucketEvidenceError ("Bucket evidence object cannot be read: " +:+ path))
        end
  | _ => hub_raise ambiguous_lookup
  end.

(** [write_immutable]; [uuid.uuid4().hex] and [datetime.now] are parameters, and
    [finally: with suppress(Exception)] releases the claim. *)
Definition one_hour : Z := seconds 3600.

Definition write_owner (bucket path writer_id : string) (now : Z) : dict string :=
  [("bucket", bucket); ("path", path); ("writer_id", writer_id); ("expires_at", isoformat (now + one_hour))].

Definition write_immutable (claims : option (ClaimStore W)) (uuid_hex : hub W string) (now : hub W Z)
    (bucket path content : string) : hub W bool :=
  let normalized := bucket_id bucket in
  match claims with
  | None => _write_locked normalized path content
  | Some store =>
      let claim_path := bucket_evidence_claim_path normalized path in
      do writer_id <- uuid_hex;;
      do instant <- now;;
      let owner := write_owner normalized path writer_id instant in
      do _a <- hub_catch (claim_acquire claim_path owner)
        (fun e => match e with
                  | ClaimConflict _ => Some (hub_raise (BucketEvidenceError
                      ("Bucket immutable evidence is being published: " +:+ path)))
                  | _ => None
                  end);;
      fun w =>
        let '(outcome, w1) := _write_locked normalized path content w in
        (outcome, (claim_release claim_path owner w1).2)
  end.
End writer.
