(* ===== verification/Envelope.v ===== *)
(** Publication envelopes (src/src/harbor_hf/publication_envelope.py).

    The envelope of a run refers to its immutable objects, profiles and physical
    executions.  Strict frozen models: [validate_*] is the construction of one,
    [*_dump] is [model_dump(mode="json")]. *)
From S2P Require Import Prelude.
From S2P Require Import PyDict.
From S2P Require Import Sha256.
From S2P Require Import Json.
From S2P Require Import Patterns.
From S2P Require Import PyText.
From S2P Require Import Campaigns.
From S2P Require Import Models.
From S2P Require Import Manifest.
From S2P Require Import Control.

Definition PUBLICATION_ENVELOPE_PATH : string := "publication-envelope.v1.json".
Definition PROJECTION_VERSION : string := "harbor-hf/results-projection/v1".
Definition SANITIZER_VERSION : string := "harbor-hf/public-results/v1".

(** A validator that raises [ValueError] makes its model raise [ValidationError]. *)
Definition in_validator {A} (r : result A) : result A :=
  match r with Err (ValueError m) => Err (ValidationError m) | _ => r end.

(** ** Digests *)
Definition canonical_json_bytes (value : json) : string := dumps value +:+ String char_lf EmptyString.
Definition content_digest (content : string) : string := "sha256:" +:+ sha256_bytes content.
Definition canonical_digest (value : json) : string := content_digest (canonical_json_bytes value).

(** ** Paths *)
Definition _relative_path (value : string) : result PurePosixPath :=
  let path := posix_path value in
  raise_if negb (nonempty value) || negb (String.eqb value (path_str path)) || path_is_absolute path ||
           existsb (fun part => str_mem part [""; "."; ".."]) (path_parts path)
    with ValueError "publication path must be canonical and relative";;
  Ok path.

(** ** Models *)
Record ObjectReference := {
  or_path : string;
  or_digest : string;
  or_size_bytes : Z;
}.

Definition validate_ObjectReference (r : ObjectReference) : result ObjectReference :=
  let* _ := fields_ok "ObjectReference"
    (nonempty (or_path r) && is_content_digest (or_digest r) && (0 <=? or_size_bytes r)) in
  let* _ := in_validator (_relative_path (or_path r)) in
  Ok r.

Record ProfileDigests := {
  pg_experiment : string;
  pg_model : string;
  pg_deployment : string;
  pg_agent : string;
}.

Definition validate_ProfileDigests (p : ProfileDigests) : result ProfileDigests :=
  let* _ := fields_ok "ProfileDigests"
    (is_content_digest (pg_experiment p) && is_content_digest (pg_model p) &&
     is_content_digest (pg_deployment p) && is_content_digest (pg_agent p)) in
  Ok p.

Inductive RuntimeKind := runtime_endpoint | runtime_provider.

Definition RuntimeKind_value (k : RuntimeKind) : string :=
  match k with runtime_endpoint => "endpoint" | runtime_provider => "provider" end.

Record RuntimeIdentity := {
  ri_kind : RuntimeKind;
  ri_provider : string;
  ri_region : string;
  ri_hardware : string;
  ri_accelerator_count : Z;
}.

Definition validate_RuntimeIdentity (r : RuntimeIdentity) : result RuntimeIdentity :=
  let* _ := fields_ok "RuntimeIdentity"
    (nonempty (ri_provider r) && nonempty (ri_region r) && nonempty (ri_hardware r) &&
     (0 <=? ri_accelerator_count r)) in
  Ok r.

Record HarborBundleReference := {
  hb_manifest : ObjectReference;
  hb_archive : ObjectReference;
  hb_harbor_revision : string;
  hb_harbor_version : string;
  hb_compatibility_schema : string;
  hb_request_digest : string;
  hb_document_count : Z;
}.

Definition validate_HarborBundleReference (b : HarborBundleReference) : result HarborBundleReference :=
  let* _ := fields_ok "HarborBundleReference"
    (hex_fullmatch 40 (hb_harbor_revision b) && nonempty (hb_harbor_version b) &&
     nonempty (hb_compatibility_schema b) && is_content_digest (hb_request_digest b) &&
     (1 <=? hb_document_count b)) in
  Ok b.

Record SourceTrialSelection := {
  ss_task_name : string;
  ss_logical_attempt : Z;
}.

#[export] Instance SourceTrialSelection_eq_dec : EqDecision SourceTrialSelection.
Proof. solve_decision. Defined.

Inductive SourceRole := source_base | source_correction.

Definition SourceRole_value (r : SourceRole) : string :=
  match r with source_base => "base" | source_correction => "correction" end.

Record SourcePublicationReference := {
  sr_role : SourceRole;
  sr_publication_id : string;
  sr_run_id : string;
  sr_result_dataset : string;
  sr_result_revision : string;
  sr_source_checksum : string;
  sr_selected_trials : list SourceTrialSelection;
}.

(** [^[0-9a-f]{40,64}$] *)
Definition is_revision (s : string) : bool :=
  str_forall (fun c => char_between "0"%char "9"%char c || char_between "a"%char "f"%char c) s &&
  (40 <=? Z.of_nat (String.length s)) && (Z.of_nat (String.length s) <=? 64).

Definition trial_selection_valid (t : SourceTrialSelection) : bool :=
  nonempty (ss_task_name t) && (1 <=? ss_logical_attempt t).

Definition validate_SourcePublicationReference (s : SourcePublicationReference)
    : result SourcePublicationReference :=
  let* _ := fields_ok "SourcePublicationReference"
    (nonempty (sr_publication_id s) && nonempty (sr_run_id s) && nonempty (sr_result_dataset s) &&
     is_revision (sr_result_revision s) && is_content_digest (sr_source_checksum s) &&
     negb (is_nil (sr_selected_trials s))) in
  raise_if negb (bool_decide (NoDup (sr_selected_trials s)))
    with ValidationError "source publication has duplicate selected trials";;
  Ok s.

Inductive PhysicalStatus := physical_succeeded | physical_failed | physical_cancelled.
Inductive BundleStatus := bundle_verified | bundle_not_available | bundle_source_publication.

#[export] Instance RuntimeKind_eq_dec : EqDecision RuntimeKind.
Proof. solve_decision. Defined.
#[export] Instance SourceRole_eq_dec : EqDecision SourceRole.
Proof. solve_decision. Defined.
#[export] Instance PhysicalStatus_eq_dec : EqDecision PhysicalStatus.
Proof. solve_decision. Defined.
#[export] Instance BundleStatus_eq_dec : EqDecision BundleStatus.
Proof. solve_decision. Defined.
#[export] Instance ObjectReference_eq_dec : EqDecision ObjectReference.
Proof. solve_decision. Defined.
#[export] Instance HarborBundleReference_eq_dec : EqDecision HarborBundleReference.
Proof. solve_decision. Defined.

Definition PhysicalStatus_value (s : PhysicalStatus) : string :=
  match s with
  | physical_succeeded => "succeeded" | physical_failed => "failed" | physical_cancelled => "cancelled"
  end.

Definition BundleStatus_value (s : BundleStatus) : string :=
  match s with
  | bundle_verified => "verified" | bundle_not_available => "not_available"
  | bundle_source_publication => "source_publication"
  end.

Record PhysicalExecutionReference := {
  px_execution_id : string;
  px_trial_id : string;
  px_physical_attempt : Z;
  px_status : PhysicalStatus;
  px_failure_category : option RetryCategory;
  px_started_at : Z;
  px_completed_at : Z;
  px_retry_reason : option string;
  px_remote_job_id : option string;
  px_bundle_status : BundleStatus;
  px_harbor_bundle : option HarborBundleReference;
}.

Definition validate_PhysicalExecutionReference (x : PhysicalExecutionReference)
    : result PhysicalExecutionReference :=
  let* _ := fields_ok "PhysicalExecutionReference"
    (nonempty (px_execution_id x) && nonempty (px_trial_id x) && (1 <=? px_physical_attempt x)) in
  raise_if px_completed_at x <? px_started_at x
    with ValidationError "physical execution completion precedes start";;
  raise_if bool_decide (px_bundle_status x = bundle_verified) && negb (is_some (px_harbor_bundle x))
    with ValidationError "verified Harbor bundle is missing";;
  raise_if negb (bool_decide (px_bundle_status x = bundle_verified)) && is_some (px_harbor_bundle x)
    with ValidationError "unavailable Harbor bundle is present";;
  raise_if bool_decide (px_status x = physical_succeeded) &&
           bool_decide (px_bundle_status x = bundle_not_available)
    with ValidationError "successful execution requires a verified Harbor bundle";;
  raise_if negb (Bool.eqb (bool_decide (px_status x = physical_failed)) (is_some (px_failure_category x)))
    with ValidationError "physical execution failure category conflicts with status";;
  Ok x.

Inductive CleanupOutcome := cleanup_outcome_verified | cleanup_outcome_not_applicable.

Definition CleanupOutcome_value (c : CleanupOutcome) : string :=
  match c with
  | cleanup_outcome_verified => "verified" | cleanup_outcome_not_applicable => "not_applicable"
  end.

Record PublicationEnvelope := {
  pe_run_id : string;
  pe_campaign_id : string;
  pe_created_at : Z;
  pe_completed_at : Z;
  pe_evidence_bucket : string;
  pe_evidence_prefix : string;
  pe_run_lock : ObjectReference;
  pe_profiles : ProfileDigests;
  pe_runtime : RuntimeIdentity;
  pe_cleanup_outcome : CleanupOutcome;
  pe_executions : list PhysicalExecutionReference;
  pe_sources : list SourcePublicationReference;
}.

Definition validate_PublicationEnvelope (e : PublicationEnvelope) : result PublicationEnvelope :=
  let* _ := fields_ok "PublicationEnvelope"
    (nonempty (pe_run_id e) && nonempty (pe_campaign_id e) && nonempty (pe_evidence_bucket e) &&
     nonempty (pe_evidence_prefix e)) in
  raise_if pe_completed_at e <? pe_created_at e
    with ValidationError "publication completion precedes creation";;
  raise_if negb (str_unique (map px_execution_id (pe_executions e)))
    with ValidationError "publication envelope has duplicate executions";;
  raise_if negb (existsb (fun x => bool_decide (px_status x = physical_succeeded)) (pe_executions e))
    with ValidationError "publication envelope has no successful execution";;
  raise_if negb (str_unique (map sr_publication_id (pe_sources e)))
    with ValidationError "publication envelope has duplicate source publications";;
  raise_if negb (Bool.eqb
      (existsb (fun x => bool_decide (px_bundle_status x = bundle_source_publication)) (pe_executions e))
      (negb (is_nil (pe_sources e))))
    with ValidationError "source-backed executions conflict with publication sources";;
  let* _ := in_validator (_relative_path (pe_evidence_prefix e)) in
  Ok e.

(** [object_reference], [profile_digest] of a model that is dumped without its
    absent fields *)
Definition object_reference (path content : string) : result ObjectReference :=
  validate_ObjectReference {|
    or_path := path; or_digest := content_digest content; or_size_bytes := Z.of_nat (String.length content) |}.

Definition profile_digest (dumped : json) : string := canonical_digest dumped.

(** ** [model_dump(mode="json")] *)
Definition ObjectReference_dump (r : ObjectReference) : json :=
  jobj (fld "path" (JStr (or_path r)) ++ fld "digest" (JStr (or_digest r)) ++
        fld "size_bytes" (JInt (or_size_bytes r))).

Definition ProfileDigests_dump (p : ProfileDigests) : json :=
  jobj (fld "experiment" (JStr (pg_experiment p)) ++ fld "model" (JStr (pg_model p)) ++
        fld "deployment" (JStr (pg_deployment p)) ++ fld "agent" (JStr (pg_agent p))).

Definition RuntimeIdentity_dump (r : RuntimeIdentity) : json :=
  jobj (fld "kind" (JStr (RuntimeKind_value (ri_kind r))) ++ fld "provider" (JStr (ri_provider r)) ++
        fld "region" (JStr (ri_region r)) ++ fld "hardware" (JStr (ri_hardware r)) ++
        fld "accelerator_count" (JInt (ri_accelerator_count r))).

Definition HarborBundleReference_dump (b : HarborBundleReference) : json :=
  jobj (fld "manifest" (ObjectReference_dump (hb_manifest b)) ++
        fld "archive" (ObjectReference_dump (hb_archive b)) ++
        fld "harbor_revision" (JStr (hb_harbor_revision b)) ++
        fld "harbor_version" (JStr (hb_harbor_version b)) ++
        fld "compatibility_schema" (JStr (hb_compatibility_schema b)) ++
        fld "request_digest" (JStr (hb_request_digest b)) ++
        fld "document_count" (JInt (hb_document_count b))).

Definition SourceTrialSelection_dump (t : SourceTrialSelection) : json :=
  jobj (fld "task_name" (JStr (ss_task_name t)) ++ fld "logical_attempt" (JInt (ss_logical_attempt t))).

Definition SourcePublicationReference_dump (s : SourcePublicationReference) : json :=
  jobj (fld "role" (JStr (SourceRole_value (sr_role s))) ++
        fld "publication_id" (JStr (sr_publication_id s)) ++ fld "run_id" (JStr (sr_run_id s)) ++
        fld "result_dataset" (JStr (sr_result_dataset s)) ++
        fld "result_revision" (JStr (sr_result_revision s)) ++
        fld "source_checksum" (JStr (sr_source_checksum s)) ++
        fld "selected_trials" (JArr (map SourceTrialSelection_dump (sr_selected_trials s)))).

Definition PhysicalExecutionReference_dump (x : PhysicalExecutionReference) : json :=
  jobj (fld "execution_id" (JStr (px_execution_id x)) ++ fld "trial_id" (JStr (px_trial_id x)) ++
        fld "physical_attempt" (JInt (px_physical_attempt x)) ++
        fld "status" (JStr (PhysicalStatus_value (px_status x))) ++
        fld "failure_category" (jopt (fun c => JStr (category_name c)) (px_failure_category x)) ++
        fld "started_at" (JStr (json_datetime (px_started_at x))) ++
        fld "completed_at" (JStr (json_datetime (px_completed_at x))) ++
        fld "retry_reason" (jopt JStr (px_retry_reason x)) ++
        fld "remote_job_id" (jopt JStr (px_remote_job_id x)) ++
        fld "bundle_status" (JStr (BundleStatus_value (px_bundle_status x))) ++
        fld "harbor_bundle" (jopt HarborBundleReference_dump (px_harbor_bundle x))).

Definition PublicationEnvelope_dump (e : PublicationEnvelope) : json :=
  jobj (fld "schema_version" (JStr "harbor-hf/publication-envelope/v1") ++
        fld "run_id" (JStr (pe_run_id e)) ++ fld "campaign_id" (JStr (pe_campaign_id e)) ++
        fld "created_at" (JStr (json_datetime (pe_created_at e))) ++
        fld "completed_at" (JStr (json_datetime (pe_completed_at e))) ++
        fld "evidence_bucket" (JStr (pe_evidence_bucket e)) ++
        fld "evidence_prefix" (JStr (pe_evidence_prefix e)) ++
        fld "run_lock" (ObjectReference_dump (pe_run_lock e)) ++
        fld "profiles" (ProfileDigests_dump (pe_profiles e)) ++
        fld "runtime" (RuntimeIdentity_dump (pe_runtime e)) ++
        fld "sanitizer_version" (JStr SANITIZER_VERSION) ++
        fld "projection_version" (JStr PROJECTION_VERSION) ++
        fld "cleanup_outcome" (JStr (CleanupOutcome_value (pe_cleanup_outcome e))) ++
        fld "executions" (JArr (map PhysicalExecutionReference_dump (pe_executions e))) ++
        fld "sources" (JArr (map SourcePublicationReference_dump (pe_sources e)))).

(** [execution_profile_digest]: profiles without their names, budgets and
    endpoint placement *)
Definition _profile_value (dumped : json) : json := json_pop dumped "id".

Definition deployment_item (key : string) (item : json) : json :=
  match item with
  | JObj fields =>
      if String.eqb key "endpoint"
      then JObj (List.filter (fun e : string * json => String.eqb e.1 "served_model_name") fields)
      else if String.eqb key "limits"
      then JObj (List.filter (fun e : string * json =>
             negb (str_mem e.1 ["max_spend_usd"; "estimated_wave_cost_usd"])) fields)
      else item
  | _ => item
  end.

Definition _deployment_profile_value (t : DeploymentTarget) : json :=
  match _profile_value (DeploymentTarget_dump true t) with
  | JObj profile => JObj (map (fun e : string * json => (e.1, deployment_item e.1 e.2)) profile)
  | profile => profile
  end.

Definition execution_profile_digest (model : ModelProfile) (deployment : DeploymentTarget)
    (agent : AgentProfile) : string :=
  canonical_digest (jobj [
    ("model", _profile_value (ModelProfile_dump true model));
    ("deployment", _deployment_profile_value deployment);
    ("agent", _profile_value (AgentProfile_dump true agent))]).
