(* ===== verification/NativeBundle.v ===== *)
(** Harbor-native bundles (src/src/harbor_hf/harbor_native_bundle.py) and the
    compatibility export they package (harbor_adapter/models.py).

    A bundle names the Harbor-owned documents below a directory with their
    digests.  The directory is a [FileTree] that nobody changes while a bundle is
    built; a path is the list of its components below the root. *)
From Stdlib Require Import Floats.SpecFloat.
From S2P Require Import Prelude.
From S2P Require Import PyDict.
From S2P Require Import Float64.
From S2P Require Import Sha256.
From S2P Require Import Json.
From S2P Require Import Patterns.
From S2P Require Import PyText.
From S2P Require Import Campaigns.
From S2P Require Import Models.
From S2P Require Import Manifest.
From S2P Require Import Envelope.

(** ** The compatibility export *)
Inductive ArtifactEntryKind :=
  | entry_agent_log | entry_configuration | entry_execution_log | entry_lock | entry_other
  | entry_result | entry_runtime | entry_session | entry_trajectory | entry_verifier.

Record HarborArtifactEntry := {
  hae_path : string;
  hae_size : Z;
  hae_digest : string;
  hae_kind : ArtifactEntryKind;
}.

Record HarborTimingSummary := {
  hts_started_at : option string;
  hts_finished_at : option string;
}.

Record HarborStepTiming := {
  hst_step_name : string;
  hst_agent_execution : option HarborTimingSummary;
  hst_verifier : option HarborTimingSummary;
}.

Record HarborTrialTiming := {
  htt_trial : HarborTimingSummary;
  htt_environment_setup : option HarborTimingSummary;
  htt_agent_setup : option HarborTimingSummary;
  htt_agent_execution : option HarborTimingSummary;
  htt_verifier : option HarborTimingSummary;
  htt_steps : list HarborStepTiming;
}.

Record HarborUsageSummary := {
  hus_input_tokens : option Z;
  hus_cache_tokens : option Z;
  hus_output_tokens : option Z;
  hus_cost_usd : option spec_float;
}.

(** [exception_message in model_fields_set] is that the outer option is there. *)
Record HarborStepException := {
  hse_step_name : string;
  hse_exception_type : string;
  hse_exception_message : option (option string);
}.

Record HarborCompatibilityTrial := {
  hct_path : string;
  hct_trial_id : string;
  hct_trial_name : string;
  hct_lock_digest : string;
  hct_result_digest : string;
  hct_task_name : string;
  hct_task_digest : string;
  hct_agent_name : string;
  hct_agent_version : string;
  hct_model_provider : option string;
  hct_model_name : option string;
  hct_exception_type : option string;
  hct_exception_message : option (option string);
  hct_step_exceptions : list HarborStepException;
  hct_rewards : option (dict json);
  hct_timing : HarborTrialTiming;
  hct_usage : HarborUsageSummary;
  hct_artifacts : list HarborArtifactEntry;
}.

Record HarborCompatibilityJob := {
  hcj_path : string;
  hcj_lock_digest : string;
  hcj_result_digest : string;
  hcj_total_trials : Z;
  hcj_completed_trials : Z;
  hcj_errored_trials : Z;
}.

Inductive CompatibilityVersion := compatibility_v1alpha2 | compatibility_v1alpha3.

#[export] Instance CompatibilityVersion_eq_dec : EqDecision CompatibilityVersion.
Proof. solve_decision. Defined.

Definition CompatibilityVersion_value (v : CompatibilityVersion) : string :=
  match v with
  | compatibility_v1alpha2 => "harbor-hf/harbor-compatibility/v1alpha2"
  | compatibility_v1alpha3 => "harbor-hf/harbor-compatibility/v1alpha3"
  end.

Record HarborCompatibilityBundle := {
  hcb_schema_version : CompatibilityVersion;
  hcb_harbor_revision : string;
  hcb_harbor_version : string;
  hcb_request_digest : string;
  hcb_jobs : list HarborCompatibilityJob;
  hcb_trials : list HarborCompatibilityTrial;
}.

Definition HarborArtifactEntry_valid (a : HarborArtifactEntry) : bool :=
  nonempty (hae_path a) && (0 <=? hae_size a) && is_content_digest (hae_digest a).

Definition HarborUsageSummary_valid (u : HarborUsageSummary) : bool :=
  opt_valid (fun n => 0 <=? n) (hus_input_tokens u) && opt_valid (fun n => 0 <=? n) (hus_cache_tokens u) &&
  opt_valid (fun n => 0 <=? n) (hus_output_tokens u) && opt_valid (float_leb float_zero) (hus_cost_usd u).

Definition HarborCompatibilityTrial_valid (t : HarborCompatibilityTrial) : bool :=
  nonempty (hct_path t) && nonempty (hct_trial_id t) && nonempty (hct_trial_name t) &&
  is_content_digest (hct_lock_digest t) && is_content_digest (hct_result_digest t) &&
  nonempty (hct_task_name t) && is_content_digest (hct_task_digest t) &&
  nonempty (hct_agent_name t) && nonempty (hct_agent_version t) &&
  HarborUsageSummary_valid (hct_usage t) && forallb HarborArtifactEntry_valid (hct_artifacts t).

Definition HarborCompatibilityJob_valid (j : HarborCompatibilityJob) : bool :=
  nonempty (hcj_path j) && is_content_digest (hcj_lock_digest j) && is_content_digest (hcj_result_digest j) &&
  (0 <=? hcj_total_trials j) && (0 <=? hcj_completed_trials j) && (0 <=? hcj_errored_trials j).

(** Field constraints and [version_matches_trial_fields] *)
Definition validate_HarborCompatibilityBundle (b : HarborCompatibilityBundle)
    : result HarborCompatibilityBundle :=
  let* _ := fields_ok "HarborCompatibilityBundle"
    (hex_fullmatch 40 (hcb_harbor_revision b) && nonempty (hcb_harbor_version b) &&
     is_content_digest (hcb_request_digest b) && forallb HarborCompatibilityJob_valid (hcb_jobs b) &&
     forallb HarborCompatibilityTrial_valid (hcb_trials b)) in
  raise_if bool_decide (hcb_schema_version b = compatibility_v1alpha2) &&
           existsb (fun trial => is_some (hct_exception_message trial) ||
             existsb (fun step => is_some (hse_exception_message step)) (hct_step_exceptions trial))
             (hcb_trials b)
    with ValidationError "harbor-compatibility/v1alpha2 cannot contain exception messages";;
  Ok b.

(** ** Bundles *)
Definition HARBOR_NATIVE_BUNDLE_PATH : string := "harbor-native-bundle.json".

(** [_relative_path] has its own message here. *)
Definition bundle_relative_path (value : string) : result PurePosixPath :=
  match _relative_path value with
  | Ok path => Ok path
  | Err _ => Err (ValueError "native bundle path must be canonical and relative")
  end.

Record BundleObject := {
  bo_path : string;
  bo_digest : string;
  bo_size_bytes : Z;
  bo_media_type : string;
}.

Definition validate_BundleObject (o : BundleObject) : result BundleObject :=
  let* _ := fields_ok "BundleObject"
    (nonempty (bo_path o) && is_content_digest (bo_digest o) && (0 <=? bo_size_bytes o) &&
     nonempty (bo_media_type o)) in
  let* _ := in_validator (bundle_relative_path (bo_path o)) in
  Ok o.

Inductive DocumentKind := document_job_lock | document_job_result | document_trial_lock | document_trial_result.

Definition DocumentKind_value (k : DocumentKind) : string :=
  match k with
  | document_job_lock => "job_lock" | document_job_result => "job_result"
  | document_trial_lock => "trial_lock" | document_trial_result => "trial_result"
  end.

Record NativeDocument := {
  nd_kind : DocumentKind;
  nd_path : string;
  nd_digest : string;
}.

Definition validate_NativeDocument (d : NativeDocument) : result NativeDocument :=
  let* _ := fields_ok "NativeDocument" (nonempty (nd_path d) && is_content_digest (nd_digest d)) in
  let* _ := in_validator (bundle_relative_path (nd_path d)) in
  Ok d.

Record HarborNativeBundle := {
  hn_harbor_revision : string;
  hn_harbor_version : string;
  hn_request_digest : string;
  hn_compatibility_schema : string;
  hn_archive : BundleObject;
  hn_compatibility : BundleObject;
  hn_documents : list NativeDocument;
}.

Definition document_key (d : NativeDocument) : string * string := (DocumentKind_value (nd_kind d), nd_path d).

(** Field constraints and [documents_are_unique] *)
Definition validate_HarborNativeBundle (b : HarborNativeBundle) : result HarborNativeBundle :=
  let* _ := fields_ok "HarborNativeBundle"
    (hex_fullmatch 40 (hn_harbor_revision b) && nonempty (hn_harbor_version b) &&
     is_content_digest (hn_request_digest b) && nonempty (hn_compatibility_schema b)) in
  raise_if negb (bool_decide (NoDup (map document_key (hn_documents b))))
    with ValidationError "native bundle contains duplicate documents";;
  raise_if is_nil (hn_documents b)
    with ValidationError "native bundle contains no Harbor documents";;
  Ok b.

Definition BundleObject_dump (o : BundleObject) : json :=
  jobj (fld "path" (JStr (bo_path o)) ++ fld "digest" (JStr (bo_digest o)) ++
        fld "size_bytes" (JInt (bo_size_bytes o)) ++ fld "media_type" (JStr (bo_media_type o))).

Definition NativeDocument_dump (d : NativeDocument) : json :=
  jobj (fld "kind" (JStr (DocumentKind_value (nd_kind d))) ++ fld "path" (JStr (nd_path d)) ++
        fld "digest" (JStr (nd_digest d))).

Definition HarborNativeBundle_dump (b : HarborNativeBundle) : json :=
  jobj (fld "schema_version" (JStr "harbor-hf/harbor-native-bundle/v1alpha1") ++
        fld "contract_status" (JStr "compatibility") ++
        fld "harbor_revision" (JStr (hn_harbor_revision b)) ++
        fld "harbor_version" (JStr (hn_harbor_version b)) ++
        fld "request_digest" (JStr (hn_request_digest b)) ++
        fld "compatibility_schema" (JStr (hn_compatibility_schema b)) ++
        fld "archive" (BundleObject_dump (hn_archive b)) ++
        fld "compatibility" (BundleObject_dump (hn_compatibility b)) ++
        fld "documents" (JArr (map NativeDocument_dump (hn_documents b)))).

(** ** Building a bundle *)

(** The retained directory, below its root. *)
Record FileTree := {
  is_symlink : list string -> bool;
  is_directory : list string -> bool;
  is_file : list string -> bool;
  file_bytes : list string -> result string;
}.

(** The parsers of the two documents. *)
Class BundleParsers := {
  compatibility_validate_json : string -> result HarborCompatibilityBundle;
  native_bundle_validate_json : string -> result HarborNativeBundle;
}.

Section build.
Context `{BundleParsers} (root : FileTree).

(** The prefixes of a path, the path itself last. *)
Fixpoint path_prefixes (above parts : list string) : list (list string) :=
  match parts with
  | [] => []
  | part :: parts => (above ++ [part]) :: path_prefixes (above ++ [part]) parts
  end.

Definition _regular_file (relative : string) : result (list string) :=
  let* path := bundle_relative_path relative in
  let parts := path_parts path in
  raise_if existsb (is_symlink root) (path_prefixes [] parts)
    with NativeBundleError ("native bundle path is a symlink: " +:+ relative);;
  raise_if negb (is_file root parts)
    with NativeBundleError ("native bundle path is not a file: " +:+ relative);;
  Ok parts.

Definition _document (relative : string) (k : DocumentKind) (expected_digest : string)
    : result NativeDocument :=
  let* path := _regular_file relative in
  let* content := file_bytes root path in
  let observed := content_digest content in
  raise_if negb (String.eqb observed expected_digest)
    with NativeBundleError ("native Harbor document digest differs: " +:+ relative);;
  validate_NativeDocument {| nd_kind := k; nd_path := relative; nd_digest := observed |}.

(** [PurePosixPath("harbor-jobs", directory, name).as_posix()] *)
Definition job_document (directory : PurePosixPath) (name : string) : string :=
  path_str {| path_root := ""; path_tail := "harbor-jobs" :: path_tail directory ++ [name] |}.

Definition _document_pair (relative_directory : string) (lock_kind result_kind : DocumentKind)
    (lock_digest result_digest : string) : result (list NativeDocument) :=
  let* directory := bundle_relative_path relative_directory in
  let* lock := _document (job_document directory "lock.json") lock_kind lock_digest in
  let* result := _document (job_document directory "result.json") result_kind result_digest in
  Ok [lock; result].

Definition _object (path : list string) (media_type : string) : result BundleObject :=
  let* content := file_bytes root path in
  validate_BundleObject {|
    bo_path := path_str {| path_root := ""; path_tail := path |};
    bo_digest := content_digest content;
    bo_size_bytes := Z.of_nat (String.length content);
    bo_media_type := media_type |}.

Definition document_leb (x y : NativeDocument) : bool :=
  lex_leb String.eqb str_leb str_leb (nd_path x, DocumentKind_value (nd_kind x))
    (nd_path y, DocumentKind_value (nd_kind y)).

Definition compatibility_documents (compatibility : HarborCompatibilityBundle)
    : result (list NativeDocument) :=
  let* jobs := mapM (fun job => _document_pair (hcj_path job) document_job_lock document_job_result
    (hcj_lock_digest job) (hcj_result_digest job)) (hcb_jobs compatibility) in
  let* trials := mapM (fun trial => _document_pair (hct_path trial) document_trial_lock
    document_trial_result (hct_lock_digest trial) (hct_result_digest trial)) (hcb_trials compatibility) in
  Ok (concat jobs ++ concat trials).

Definition build_harbor_native_bundle : result HarborNativeBundle :=
  let* compatibility_path := _regular_file "harbor-compatibility.json" in
  let* archive_path := _regular_file "artifacts.tar.gz" in
  raise_if is_symlink root ["harbor-jobs"] || negb (is_directory root ["harbor-jobs"])
    with NativeBundleError "retained Harbor jobs root is not a directory";;
  let* compatibility :=
    match (let* content := file_bytes root compatibility_path in compatibility_validate_json content) with
    | Ok compatibility => Ok compatibility
    | Err _ => Err (NativeBundleError "Harbor compatibility export is invalid")
    end in
  let* documents := compatibility_documents compatibility in
  match
    (let* archive := _object archive_path "application/gzip" in
     let* exported := _object compatibility_path "application/json" in
     validate_HarborNativeBundle {|
       hn_harbor_revision := hcb_harbor_revision compatibility;
       hn_harbor_version := hcb_harbor_version compatibility;
       hn_request_digest := hcb_request_digest compatibility;
       hn_compatibility_schema := CompatibilityVersion_value (hcb_schema_version compatibility);
       hn_archive := archive;
       hn_compatibility := exported;
       hn_documents := sort_by document_leb documents |})
  with
  | Err e => if is_value_error e then Err (NativeBundleError "Harbor native bundle is invalid") else Err e
  | bundle => bundle
  end.

(** [write_harbor_native_bundle]: the bundle and the bytes it is written as. *)
Definition bundle_bytes (bundle : HarborNativeBundle) : string :=
  dumps (HarborNativeBundle_dump bundle) +:+ String char_lf EmptyString.

Definition write_harbor_native_bundle (required : bool) : result (option (HarborNativeBundle * string)) :=
  match build_harbor_native_bundle with
  | Ok bundle => Ok (Some (bundle, bundle_bytes bundle))
  | Err e =>
      match e with
      | NativeBundleError _ => if required then Err e else Ok None
      | _ => if is_value_error e
             then if required then Err (NativeBundleError "Harbor native bundle is invalid") else Ok None
             else Err e
      end
  end.

(** [load_harbor_native_bundle] *)
Definition load_harbor_native_bundle (content : string) : result HarborNativeBundle :=
  match native_bundle_validate_json content with
  | Ok bundle => Ok bundle
  | Err _ => Err (NativeBundleError "Harbor native bundle manifest is invalid")
  end.
End build.
