(* ===== verification/ResultModels.v ===== *)
(** Result evidence (the evidence models of src/src/harbor_hf/results.py).

    What a sealed run says about itself: its identity, its trials, physical
    executions, metrics and artifacts, with the references between them. *)
From Stdlib Require Import Floats.SpecFloat.
From S2P Require Import Prelude.
From S2P Require Import PyDict.
From S2P Require Import Float64.
From S2P Require Import Json.
From S2P Require Import Patterns.
From S2P Require Import PyText.
From S2P Require Import Campaigns.
From S2P Require Import Models.
From S2P Require Import Manifest.
From S2P Require Import Control.
From S2P Require Import Envelope.

Inductive OwnerType := owner_run | owner_trial | owner_execution.
Inductive RunQuality := quality_clean | quality_degraded.
Inductive ResultKind := result_ordinary | result_composed.
Inductive ResultOutcome :=
  | task_scored | task_agent_failed | task_benchmark_failed | task_infrastructure_exhausted
  | task_unsupported.
Inductive ArtifactKind :=
  | artifact_run_lock | artifact_verification | artifact_runtime_environment
  | artifact_endpoint_snapshot | artifact_composition.

#[export] Instance OwnerType_eq_dec : EqDecision OwnerType. Proof. solve_decision. Defined.
#[export] Instance RunQuality_eq_dec : EqDecision RunQuality. Proof. solve_decision. Defined.
#[export] Instance ResultKind_eq_dec : EqDecision ResultKind. Proof. solve_decision. Defined.
#[export] Instance ResultOutcome_eq_dec : EqDecision ResultOutcome. Proof. solve_decision. Defined.
#[export] Instance ArtifactKind_eq_dec : EqDecision ArtifactKind. Proof. solve_decision. Defined.

Definition OwnerType_value (o : OwnerType) : string :=
  match o with owner_run => "run" | owner_trial => "trial" | owner_execution => "execution" end.
Definition RunQuality_value (q : RunQuality) : string :=
  match q with quality_clean => "clean" | quality_degraded => "degraded" end.
Definition ResultKind_value (k : ResultKind) : string :=
  match k with result_ordinary => "ordinary" | result_composed => "composed" end.
Definition ResultOutcome_value (o : ResultOutcome) : string :=
  match o with
  | task_scored => "scored" | task_agent_failed => "agent_failed"
  | task_benchmark_failed => "benchmark_failed"
  | task_infrastructure_exhausted => "infrastructure_exhausted" | task_unsupported => "unsupported"
  end.
Definition ArtifactKind_value (k : ArtifactKind) : string :=
  match k with
  | artifact_run_lock => "run_lock" | artifact_verification => "verification"
  | artifact_runtime_environment => "runtime_environment"
  | artifact_endpoint_snapshot => "endpoint_snapshot" | artifact_composition => "composition"
  end.

(** [EntityId], [Digest] *)
Definition is_entity_id (s : string) : bool := safe_component 127 s.

Definition _SUMMARY_PATH : string := "run-summary.json".
Definition _CHECKSUMS_PATH : string := "checksums.json".
Definition _RESULT_MARKERS : list string := ["_SUCCESS"; "_PARTIAL"; "_FAILED"; "_CANCELLED"].
Definition _FORBIDDEN_ARTIFACT_PARTS : list string := [
  "artifacts.tar.gz"; "harbor-jobs"; "harbor.log"; "manifest.yaml"; "session"; "sessions";
  "task-source"; "trajectory"; "trajectories"].
Definition _ARTIFACT_PATHS (k : ArtifactKind) : string :=
  match k with
  | artifact_run_lock => "run.lock.json" | artifact_verification => "verification.json"
  | artifact_runtime_environment => "runtime-environment.json"
  | artifact_endpoint_snapshot => "endpoint.snapshot.json" | artifact_composition => "composition.json"
  end.
Definition _TASK_OUTCOMES : list ResultOutcome :=
  [task_scored; task_agent_failed; task_benchmark_failed; task_infrastructure_exhausted; task_unsupported].

Definition _validate_relative_path (value : string) : result PurePosixPath :=
  let path := posix_path value in
  raise_if negb (nonempty value) || str_startswith "/" value || char_mem "\"%char value ||
           negb (String.eqb (path_str path) value) ||
           existsb (fun part => str_mem part [""; "."; ".."]) (path_parts path)
    with ValueError "evidence paths must be canonical relative POSIX paths";;
  Ok path.

(** ** Evidence models *)
Record EvidenceSource := {
  src_bucket : string;
  src_prefix : string;
  src_run_lock_path : string;
  src_summary_path : string;
}.

Definition validate_EvidenceSource (s : EvidenceSource) : result EvidenceSource :=
  let* _ := fields_ok "EvidenceSource"
    (nonempty (src_bucket s) && nonempty (src_prefix s) && String.eqb (src_summary_path s) _SUMMARY_PATH) in
  let* _ := in_validator (_validate_relative_path (src_prefix s)) in
  let* _ := in_validator (_validate_relative_path (src_run_lock_path s)) in
  Ok s.

Record RunEvidence := {
  re_run_id : string;
  re_campaign_id : string;
  re_experiment : string;
  re_evaluation_id : string;
  re_publication_role : PublicationRole;
  re_component_kind : option ComponentKind;
  re_benchmark : string;
  re_benchmark_revision : string;
  re_result_kind : ResultKind;
  re_quality : RunQuality;
  re_created_at : Z;
  re_completed_at : Z;
  re_model_id : string;
  re_model_repo : string;
  re_model_revision : string;
  re_deployment_id : string;
  re_provider : string;
  re_region : string;
  re_hardware : string;
  re_accelerator_count : Z;
  re_agent_id : string;
  re_agent_name : string;
  re_agent_revision : string;
}.

Definition RunEvidence_fields_valid (r : RunEvidence) : bool :=
  is_entity_id (re_run_id r) && is_entity_id (re_campaign_id r) && nonempty (re_experiment r) &&
  is_evaluation_id (re_evaluation_id r) && nonempty (re_benchmark r) &&
  nonempty (re_benchmark_revision r) && is_entity_id (re_model_id r) && nonempty (re_model_repo r) &&
  nonempty (re_model_revision r) && is_entity_id (re_deployment_id r) && nonempty (re_provider r) &&
  nonempty (re_region r) && nonempty (re_hardware r) && (0 <=? re_accelerator_count r) &&
  is_entity_id (re_agent_id r) && nonempty (re_agent_name r) && nonempty (re_agent_revision r).

Definition validate_RunEvidence (r : RunEvidence) : result RunEvidence :=
  let* _ := fields_ok "RunEvidence" (RunEvidence_fields_valid r) in
  raise_if re_completed_at r <? re_created_at r
    with ValidationError "run completion precedes creation";;
  raise_if negb (run_role_consistent (re_publication_role r) (re_component_kind r))
    with ValidationError "run component kind conflicts with publication role";;
  Ok r.

Record TrialEvidence := {
  te_trial_id : string;
  te_task_name : string;
  te_task_digest : string;
  te_logical_attempt : Z;
  te_selected_execution_id : option string;
  te_outcome : ResultOutcome;
}.

Definition validate_TrialEvidence (t : TrialEvidence) : result TrialEvidence :=
  let* _ := fields_ok "TrialEvidence"
    (is_entity_id (te_trial_id t) && nonempty (te_task_name t) && is_content_digest (te_task_digest t) &&
     (1 <=? te_logical_attempt t) && opt_valid is_entity_id (te_selected_execution_id t)) in
  Ok t.

Record ExecutionEvidence := {
  xe_execution_id : string;
  xe_trial_id : string;
  xe_physical_attempt : Z;
  xe_runtime_kind : RuntimeKind;
  xe_status : PhysicalStatus;
  xe_failure_category : option RetryCategory;
  xe_started_at : Z;
  xe_completed_at : Z;
  xe_retry_reason : option string;
  xe_remote_job_id : option string;
}.

Definition validate_ExecutionEvidence (x : ExecutionEvidence) : result ExecutionEvidence :=
  let* _ := fields_ok "ExecutionEvidence"
    (is_entity_id (xe_execution_id x) && is_entity_id (xe_trial_id x) && (1 <=? xe_physical_attempt x)) in
  raise_if xe_completed_at x <? xe_started_at x
    with ValidationError "execution completion precedes start";;
  raise_if (xe_physical_attempt x =? 1) && is_some (xe_retry_reason x)
    with ValidationError "first execution cannot have a retry reason";;
  raise_if negb (Bool.eqb (bool_decide (xe_status x = physical_failed)) (is_some (xe_failure_category x)))
    with ValidationError "execution failure category conflicts with its status";;
  Ok x.

Definition task_outcome_matches_execution (outcome : ResultOutcome) (status : PhysicalStatus)
    (failure_category : option RetryCategory) : bool :=
  match outcome with
  | task_unsupported => false
  | task_scored => bool_decide (status = physical_succeeded) && negb (is_some failure_category)
  | _ =>
      match status, failure_category with
      | physical_failed, Some category =>
          match outcome with
          | task_agent_failed => bool_decide (category = category_agent)
          | task_benchmark_failed => bool_decide (category = category_benchmark)
          | _ => negb (bool_decide (category = category_agent)) &&
                 negb (bool_decide (category = category_benchmark))
          end
      | _, _ => false
      end
  end.

Definition _validate_trial_execution_reference (trial : TrialEvidence)
    (executions : dict ExecutionEvidence) : result unit :=
  if bool_decide (te_outcome trial = task_unsupported) then
    raise_if is_some (te_selected_execution_id trial)
      with ValueError "unsupported trial has a selected execution";;
    raise_if existsb (fun x => String.eqb (xe_trial_id x) (te_trial_id trial)) (dict_values executions)
      with ValueError "unsupported trial has a physical execution";;
    Ok tt
  else
    match (match te_selected_execution_id trial with
           | Some id => dict_get executions id | None => None end) with
    | Some selected =>
        raise_if negb (String.eqb (xe_trial_id selected) (te_trial_id trial)) ||
                 negb (task_outcome_matches_execution (te_outcome trial) (xe_status selected)
                         (xe_failure_category selected))
          with ValueError "trial selected execution conflicts with its outcome";;
        Ok tt
    | None => Err (ValueError "trial selected execution conflicts with its outcome")
    end.

Record MetricEvidence := {
  me_owner_type : OwnerType;
  me_owner_id : string;
  me_name : string;
  me_value : spec_float;
  me_unit : string;
  me_aggregation : option string;
}.

Definition validate_MetricEvidence (m : MetricEvidence) : result MetricEvidence :=
  let* _ := fields_ok "MetricEvidence"
    (is_entity_id (me_owner_id m) && nonempty (me_name m) && nonempty (me_unit m)) in
  raise_if negb (float_is_finite (me_value m)) with ValidationError "metric value must be finite";;
  Ok m.

Record ArtifactEvidence := {
  ae_owner_type : OwnerType;
  ae_owner_id : string;
  ae_kind : ArtifactKind;
  ae_path : string;
  ae_sha256 : string;
  ae_media_type : string;
  ae_size_bytes : Z;
}.

Definition validate_ArtifactEvidence (a : ArtifactEvidence) : result ArtifactEvidence :=
  let* _ := fields_ok "ArtifactEvidence"
    (is_entity_id (ae_owner_id a) && is_content_digest (ae_sha256 a) && nonempty (ae_media_type a) &&
     (0 <=? ae_size_bytes a)) in
  let* path := in_validator (_validate_relative_path (ae_path a)) in
  raise_if existsb (fun part => str_mem (str_lower part) _FORBIDDEN_ARTIFACT_PARTS) (path_parts path)
    with ValidationError "raw sessions, task contents, and logs are not publishable";;
  raise_if negb (String.eqb (ae_path a) (_ARTIFACT_PATHS (ae_kind a)))
    with ValidationError "publishable artifact kind has a noncanonical path";;
  Ok a.

Record ResultEvidence := {
  rv_run : RunEvidence;
  rv_trials : list TrialEvidence;
  rv_executions : list ExecutionEvidence;
  rv_metrics : list MetricEvidence;
  rv_artifacts : list ArtifactEvidence;
}.

(** [_measurement_key], [_artifact_key]: tuples of texts, compared from the left *)
Definition _measurement_key (m : MetricEvidence) : list string :=
  [OwnerType_value (me_owner_type m); me_owner_id m; me_name m; me_unit m;
   match me_aggregation m with Some a => a | None => "" end].
Definition _artifact_key (a : ArtifactEvidence) : list string :=
  [OwnerType_value (ae_owner_type a); ae_owner_id a; ArtifactKind_value (ae_kind a); ae_path a; ae_sha256 a].

Fixpoint strs_leb (x y : list string) : bool :=
  match x, y with
  | [], _ => true
  | _ :: _, [] => false
  | a :: x, b :: y => if String.eqb a b then strs_leb x y else str_leb a b
  end.

Definition _unique_by_id {A} (id_of : A -> string) (label : string) (records : list A) : result (dict A) :=
  let indexed := dict_of (map (fun r => (id_of r, r)) records) in
  raise_if negb (len indexed =? len records)
    with ValueError ("result evidence contains a duplicate " +:+ label);;
  Ok indexed.

Definition _require_unique_measurements (records : list MetricEvidence) : result unit :=
  raise_if negb (bool_decide (NoDup (map _measurement_key records)))
    with ValueError "result evidence contains a duplicate metric";;
  Ok tt.

Definition _require_unique_artifacts (records : list ArtifactEvidence) : result unit :=
  raise_if negb (bool_decide (NoDup (map _artifact_key records)))
    with ValueError "result evidence contains a duplicate artifact";;
  Ok tt.

(** The owners a metric or an artifact may name. *)
Definition owner_known (run_id : string) (trials : dict TrialEvidence)
    (executions : dict ExecutionEvidence) (owner_type : OwnerType) (owner_id : string) : bool :=
  match owner_type with
  | owner_run => String.eqb owner_id run_id
  | owner_trial => dict_has trials owner_id
  | owner_execution => dict_has executions owner_id
  end.

(** [references_are_consistent] *)
Definition references_are_consistent (e : ResultEvidence) : result unit :=
  let* trials := _unique_by_id te_trial_id "trial" (rv_trials e) in
  let* executions := _unique_by_id xe_execution_id "execution" (rv_executions e) in
  let* _ := mapM (fun trial => _validate_trial_execution_reference trial executions) (rv_trials e) in
  raise_if existsb (fun x => negb (dict_has trials (xe_trial_id x))) (rv_executions e)
    with ValueError "execution references an unknown trial";;
  let known := owner_known (re_run_id (rv_run e)) trials executions in
  raise_if existsb (fun m => negb (known (me_owner_type m) (me_owner_id m))) (rv_metrics e) ||
           existsb (fun a => negb (known (ae_owner_type a) (ae_owner_id a))) (rv_artifacts e)
    with ValueError "result evidence references an unknown owner";;
  let* _ := _require_unique_measurements (rv_metrics e) in
  let* _ := _require_unique_artifacts (rv_artifacts e) in
  let degraded := existsb (fun trial => negb (bool_decide (te_outcome trial = task_scored))) (rv_trials e) in
  raise_if negb (Bool.eqb (bool_decide (re_quality (rv_run e) = quality_degraded)) degraded)
    with ValueError "run quality conflicts with its trial outcomes";;
  Ok tt.

Definition validate_ResultEvidence (e : ResultEvidence) : result ResultEvidence :=
  let* _ := in_validator (references_are_consistent e) in Ok e.

(** ** [model_dump(mode="json")] *)
Definition RunEvidence_dump (r : RunEvidence) : json :=
  jobj (fld "run_id" (JStr (re_run_id r)) ++ fld "campaign_id" (JStr (re_campaign_id r)) ++
        fld "experiment" (JStr (re_experiment r)) ++ fld "evaluation_id" (JStr (re_evaluation_id r)) ++
        fld "publication_role" (JStr (role_value (re_publication_role r))) ++
        fld "component_kind" (jopt (fun k => JStr (component_value k)) (re_component_kind r)) ++
        fld "benchmark" (JStr (re_benchmark r)) ++
        fld "benchmark_revision" (JStr (re_benchmark_revision r)) ++
        fld "result_kind" (JStr (ResultKind_value (re_result_kind r))) ++ fld "outcome" (JStr "complete") ++
        fld "quality" (JStr (RunQuality_value (re_quality r))) ++
        fld "created_at" (JStr (json_datetime (re_created_at r))) ++
        fld "completed_at" (JStr (json_datetime (re_completed_at r))) ++
        fld "model_id" (JStr (re_model_id r)) ++ fld "model_repo" (JStr (re_model_repo r)) ++
        fld "model_revision" (JStr (re_model_revision r)) ++
        fld "deployment_id" (JStr (re_deployment_id r)) ++ fld "provider" (JStr (re_provider r)) ++
        fld "region" (JStr (re_region r)) ++ fld "hardware" (JStr (re_hardware r)) ++
        fld "accelerator_count" (JInt (re_accelerator_count r)) ++ fld "agent_id" (JStr (re_agent_id r)) ++
        fld "agent_name" (JStr (re_agent_name r)) ++ fld "agent_revision" (JStr (re_agent_revision r))).

Definition TrialEvidence_dump (t : TrialEvidence) : json :=
  jobj (fld "trial_id" (JStr (te_trial_id t)) ++ fld "task_name" (JStr (te_task_name t)) ++
        fld "task_digest" (JStr (te_task_digest t)) ++
        fld "logical_attempt" (JInt (te_logical_attempt t)) ++
        fld "selected_execution_id" (jopt JStr (te_selected_execution_id t)) ++
        fld "outcome" (JStr (ResultOutcome_value (te_outcome t)))).

Definition ExecutionEvidence_dump (x : ExecutionEvidence) : json :=
  jobj (fld "execution_id" (JStr (xe_execution_id x)) ++ fld "trial_id" (JStr (xe_trial_id x)) ++
        fld "physical_attempt" (JInt (xe_physical_attempt x)) ++
        fld "runtime_kind" (JStr (RuntimeKind_value (xe_runtime_kind x))) ++
        fld "status" (JStr (PhysicalStatus_value (xe_status x))) ++
        fld "failure_category" (jopt (fun c => JStr (category_name c)) (xe_failure_category x)) ++
        fld "started_at" (JStr (json_datetime (xe_started_at x))) ++
        fld "completed_at" (JStr (json_datetime (xe_completed_at x))) ++
        fld "retry_reason" (jopt JStr (xe_retry_reason x)) ++
        fld "remote_job_id" (jopt JStr (xe_remote_job_id x))).

Definition MetricEvidence_fields (m : MetricEvidence) : list (string * json) :=
  fld "owner_type" (JStr (OwnerType_value (me_owner_type m))) ++ fld "owner_id" (JStr (me_owner_id m)) ++
  fld "name" (JStr (me_name m)) ++ fld "value" (JFloat (me_value m)) ++ fld "unit" (JStr (me_unit m)) ++
  fld "aggregation" (jopt JStr (me_aggregation m)).

Definition ArtifactEvidence_dump (a : ArtifactEvidence) : json :=
  jobj (fld "owner_type" (JStr (OwnerType_value (ae_owner_type a))) ++ fld "owner_id" (JStr (ae_owner_id a)) ++
        fld "kind" (JStr (ArtifactKind_value (ae_kind a))) ++ fld "path" (JStr (ae_path a)) ++
        fld "sha256" (JStr (ae_sha256 a)) ++ fld "media_type" (JStr (ae_media_type a)) ++
        fld "size_bytes" (JInt (ae_size_bytes a))).

Definition ResultEvidence_dump (e : ResultEvidence) : json :=
  jobj (fld "schema_version" (JStr "harbor-hf/result-evidence/v1") ++ fld "sanitized" (JBool true) ++
        fld "run" (RunEvidence_dump (rv_run e)) ++
        fld "trials" (JArr (map TrialEvidence_dump (rv_trials e))) ++
        fld "executions" (JArr (map ExecutionEvidence_dump (rv_executions e))) ++
        fld "metrics" (JArr (map (fun m => jobj (MetricEvidence_fields m)) (rv_metrics e))) ++
        fld "artifacts" (JArr (map ArtifactEvidence_dump (rv_artifacts e)))).
