(* ===== verification/Finalizer.v ===== *)
(** Finalization of campaigns (src/src/harbor_hf/campaign_finalizer.py).

    The finalizer reads the evidence of a run, checks it, writes its records
    (verification, summary, publication envelope), a checksum manifest over
    exactly the files of the run, and last its terminal marker.  All writes are
    immutable.  A trial whose finalization was interrupted is completed first;
    what is staged for it is read back before the bucket shows it. *)
From Stdlib Require Import Floats.SpecFloat.
From S2P Require Import Prelude.
From S2P Require Import PyDict.
From S2P Require Import Float64.
From S2P Require Import Json.
From S2P Require Import Patterns.
From S2P Require Import PyText.
From S2P Require Import Campaigns.
From S2P Require Import Models.
From S2P Require Import Hub.
From S2P Require Import Control.
From S2P Require Import Recovery.
From S2P Require Import Waves.
From S2P Require Import Observer.
From S2P Require Import Envelope.
From S2P Require Import NativeBundle.
From S2P Require Import ResultModels.

(** [ImmutableEvidenceWriter] *)
Class ImmutableEvidenceWriter (W : Type) := {
  evidence_write_immutable : string -> string -> string -> hub W bool;
}.

(** [RunLock.model_validate_json] *)
Class RunLockParser := { run_lock_validate_json : string -> result RunLock }.

Record _FinalizedRun := { fr_manifest_checksum : string; fr_source_checksum : string }.

Record _ExecutionRecord := {
  xr_evidence : ExecutionEvidence;
  xr_physical_execution : PhysicalExecutionReference;
}.

Record _TrialRecords := {
  trs_trial : TrialEvidence;
  trs_executions : list ExecutionEvidence;
  trs_physical_executions : list PhysicalExecutionReference;
  trs_metrics : list MetricEvidence;
  trs_verification_trials : list json;
  trs_completed_at : Z;
}.

Definition finalization_error {A} (message : string) : result A := Err (CampaignFinalizationError message).

(** [except Exception as error: raise CampaignFinalizationError(message)] *)
Definition or_finalization_error {A} (message : string) (r : result A) : result A :=
  match r with Ok a => Ok a | Err _ => finalization_error message end.

(** ** Functions of the module *)
Definition _json_bytes (value : json) : string := dumps_indented "" value +:+ newline_text.

Definition _under (paths : list string) (prefix : string) : list string :=
  let root := prefix +:+ "/" in
  sort_by str_leb (map (str_removeprefix root) (List.filter (str_startswith root) paths)).

Definition _marker (paths : list string) (prefix : string) : result string :=
  match remove_dups (map name_of (List.filter (fun path =>
          String.eqb (parent_of path) prefix && str_mem (name_of path) _TERMINAL_MARKERS) paths)) with
  | [marker] => Ok marker
  | _ => finalization_error "execution has no exclusive terminal marker"
  end.

Section parsing.
Context `{EvidenceParsers}.

(** [_json_lines], [_event_time] *)
Definition final_json_lines (value : string) : result (list (dict json)) :=
  or_finalization_error "execution event log is invalid"
    (mapM json_object_validate (List.filter (fun line => negb (is_blank line)) (splitlines value))).

Definition final_event_time (records : list (dict json)) (names : list string) : result Z :=
  let omitted := finalization_error "execution event log omits a required timestamp" in
  match find (event_named names) records with
  | None => omitted
  | Some record =>
      match dict_get record "at" with
      | Some (JStr value) =>
          match fromisoformat value with
          | None => Err (ValueError "Invalid isoformat string")
          | Some None => omitted
          | Some (Some observed) => Ok observed
          end
      | _ => omitted
      end
  end.
End parsing.

Definition _artifact (run_id : string) (k : ArtifactKind) (path content : string) : result ArtifactEvidence :=
  validate_ArtifactEvidence {|
    ae_owner_type := owner_run; ae_owner_id := run_id; ae_kind := k; ae_path := path;
    ae_sha256 := content_digest content; ae_media_type := "application/json";
    ae_size_bytes := Z.of_nat (String.length content) |}.

Definition score_metric (trial_id name : string) (value : spec_float) : result MetricEvidence :=
  validate_MetricEvidence {|
    me_owner_type := owner_trial; me_owner_id := trial_id; me_name := name; me_value := value;
    me_unit := "score"; me_aggregation := None |}.

(** [_reward_metrics]: integers and floats, but no booleans *)
Definition reward_metric (trial_id : string) (reward : string * json) : result MetricEvidence :=
  let* value := match reward.2 with
                | JInt z => float_of_int z
                | JFloat x => Ok x
                | _ => finalization_error "trial reward evidence is invalid"
                end in
  score_metric trial_id reward.1 value.

Definition _reward_metrics (trial_id : string) (verifier : dict json) : result (list MetricEvidence) :=
  match dict_get verifier "rewards" with
  | Some (JObj rewards) => mapM (reward_metric trial_id) (sort_by key_leb rewards)
  | _ => finalization_error "trial verification has no rewards"
  end.

Definition _selected_verifier (value : dict json) : result (dict json) :=
  match dict_get value "trials" with
  | Some (JArr [JObj verifier]) => Ok verifier
  | Some (JArr [_]) => finalization_error "trial verification record is invalid"
  | _ => finalization_error "trial verification evidence is invalid"
  end.

Definition _require_scored_outcome (outcome : option TaskOutcome) (trial_id : string) : result unit :=
  raise_if negb (bool_decide (outcome = Some outcome_scored))
    with CampaignFinalizationError ("complete trial has no scored outcome: " +:+ trial_id);;
  Ok tt.

Definition _validate_native_bundle_paths (manifest : HarborNativeBundle) : result unit :=
  raise_if negb (String.eqb (bo_path (hn_archive manifest)) "artifacts.tar.gz") ||
           negb (String.eqb (bo_path (hn_compatibility manifest)) "harbor-compatibility.json")
    with CampaignFinalizationError "execution Harbor native bundle uses noncanonical paths";;
  Ok tt.

(** [_run_evidence] *)
Definition locked_agent_revision (agent : AgentProfile) : result string :=
  match ap_revision_kind agent with
  | revision_harbor_source =>
      match ap_reported_version agent with Some v => Ok v | None => Err (ValidationError "RunEvidence") end
  | _ => Ok (ap_revision agent)
  end.

Definition _run_evidence (campaign : CampaignLock) (lock : RunLock) (completed_at : Z) (quality : RunQuality)
    : result RunEvidence :=
  let '(provider, region, hardware, accelerators, revision) :=
    match rn_deployment lock with
    | target_endpoint d => ("hf-inference-endpoints", dp_region d, dp_hardware d,
                            dp_accelerator_count d, mp_revision (rn_model lock))
    | target_provider _ => (provider_service, "not_reported", "not_reported", 0, "not_observed")
    end in
  let* agent_revision := locked_agent_revision (rn_agent lock) in
  validate_RunEvidence {|
    re_run_id := Waves.rn_run_id lock;
    re_campaign_id := campaign_id campaign;
    re_experiment := rn_experiment lock;
    re_evaluation_id := rn_evaluation_id lock;
    re_publication_role := rn_publication_role lock;
    re_component_kind := rn_component_kind lock;
    re_benchmark := rn_benchmark_dataset lock;
    re_benchmark_revision := rn_benchmark_dataset_digest lock;
    re_result_kind := result_ordinary;
    re_quality := quality;
    re_created_at := rn_created_at lock;
    re_completed_at := completed_at;
    re_model_id := mp_id (rn_model lock);
    re_model_repo := mp_repo (rn_model lock);
    re_model_revision := revision;
    re_deployment_id := target_id (rn_deployment lock);
    re_provider := provider;
    re_region := region;
    re_hardware := hardware;
    re_accelerator_count := accelerators;
    re_agent_id := ap_id (rn_agent lock);
    re_agent_name := ap_name (rn_agent lock);
    re_agent_revision := agent_revision |}.

Definition _validate_run_identity (campaign : CampaignLock) (expected : CampaignRunLock)
    (observed : RunLock) : result unit :=
  raise_if negb (bool_decide (
      (Waves.rn_run_id observed, mp_id (rn_model observed), target_id (rn_deployment observed),
       ap_id (rn_agent observed)) =
      (rl_run_id expected, ra_model expected, ra_deployment expected, ra_agent expected))) ||
    negb (bool_decide (
      (rn_evaluation_id observed, rn_publication_role observed, rn_component_kind observed) =
      (evaluation_id campaign, publication_role campaign, component_kind campaign))) ||
    negb (rn_created_at observed =? created_at campaign)
    with CampaignFinalizationError "run evidence does not match campaign lock";;
  Ok tt.

(** [trial.model_dump(mode="json")] *)
Definition CampaignTrialLock_dump (trial : CampaignTrialLock) : json :=
  jobj [("trial_id", JStr (tl_trial_id trial)); ("trial_digest", JStr (tl_trial_digest trial));
        ("task_name", JStr (tl_task_name trial)); ("task_digest", JStr (tl_task_digest trial));
        ("logical_attempt", JInt (tl_logical_attempt trial))].

Definition ProjectionCounts_dump (c : ProjectionCounts) : json :=
  jobj [("planned", JInt (pc_planned c)); ("active", JInt (pc_active c)); ("retrying", JInt (pc_retrying c));
        ("complete", JInt (pc_complete c)); ("invalid", JInt (pc_invalid c)); ("failed", JInt (pc_failed c));
        ("cancelled", JInt (pc_cancelled c)); ("physical_retries", JInt (pc_physical_retries c))].

Definition terminal_status_value (s : TerminalStatus) : string :=
  match s with
  | terminal_completed => "completed" | terminal_partial => "partial"
  | terminal_failed => "failed" | terminal_cancelled => "cancelled"
  end.

(** ** [BucketCampaignFinalizer] *)

(** The services, the attribute [_staged], and the list of the files of the run
    at hand, which staging extends. *)
Record finalizer (W : Type) := {
  fz_services : W;
  fz_staged : list ((string * string * string) * string);
  fz_run_paths : list string;
}.
Arguments fz_services {W}.
Arguments fz_staged {W}.
Arguments fz_run_paths {W}.

Section finalizer.
Context {W : Type} `{EvidenceReader W} `{ImmutableEvidenceWriter W} `{EvidenceParsers} `{BundleParsers}
  `{RunLockParser}.
Context (spec : ExperimentSpec) (campaign : CampaignLock).

Definition evidence_bucket_of : string := as_bucket (spec_artifacts spec).

Definition on_services {A} (m : hub W A) : hub (finalizer W) A := fun s =>
  let '(r, w) := m (fz_services s) in
  (r, {| fz_services := w; fz_staged := fz_staged s; fz_run_paths := fz_run_paths s |}).

Definition get_run_paths : hub (finalizer W) (list string) := fun s => (Ok (fz_run_paths s), s).
Definition set_run_paths (paths : list string) : hub (finalizer W) unit := fun s =>
  (Ok tt, {| fz_services := fz_services s; fz_staged := fz_staged s; fz_run_paths := paths |}).
Definition clear_staged : hub (finalizer W) unit := fun s =>
  (Ok tt, {| fz_services := fz_services s; fz_staged := []; fz_run_paths := fz_run_paths s |}).

Definition staged_at (staged : list ((string * string * string) * string)) (path : string) : option string :=
  match find (fun e : (string * string * string) * string =>
          bool_decide (e.1 = (evidence_bucket_of, artifact_prefix campaign, path))) staged with
  | Some e => Some e.2
  | None => None
  end.

(** [_read] *)
Definition read_staged (path : string) : hub (finalizer W) string := fun s =>
  match staged_at (fz_staged s) path with
  | Some content => (Ok content, s)
  | None => on_services (read_bytes evidence_bucket_of (artifact_prefix campaign) path) s
  end.

Definition write_evidence (path content : string) : hub (finalizer W) unit :=
  do _created <- on_services (evidence_write_immutable evidence_bucket_of path content);;
  hub_ret tt.

(** [_stage_immutable], [_stage_trial_file] *)
Definition _stage_immutable (path content : string) : hub (finalizer W) unit := fun s =>
  let full_path := artifact_prefix campaign +:+ "/" +:+ path in
  let conflict := match staged_at (fz_staged s) path with
                  | Some previous => negb (String.eqb previous content)
                  | None => false
                  end in
  if conflict
  then (finalization_error ("immutable evidence conflicts during finalization: " +:+ full_path), s)
  else
    (do _w <- write_evidence full_path content;;
     fun s => (Ok tt, {| fz_services := fz_services s;
                         fz_staged := ((evidence_bucket_of, artifact_prefix campaign, path), content) :: fz_staged s;
                         fz_run_paths := fz_run_paths s |})) s.

Definition _stage_trial_file (run_prefix path content : string) : hub (finalizer W) unit :=
  do _s <- _stage_immutable (run_prefix +:+ "/" +:+ path) content;;
  do run_paths <- get_run_paths;;
  if str_mem path run_paths then hub_ret tt else set_run_paths (run_paths ++ [path]).

(** *** Checksums *)

(** [str(PurePosixPath(parent, relative))] *)
Definition posix_join (parent relative : string) : string :=
  path_str (posix_path (if str_startswith "/" relative then relative else parent +:+ "/" +:+ relative)).

(** One entry of a child manifest, one manifest, [_child_checksums]. *)
Definition add_child (parent : string) (covered : dict string) (entry : string * json) : result (dict string) :=
  match entry.2 with
  | JStr digest =>
      let key := posix_join parent entry.1 in
      match dict_get covered key with
      | None => Ok (dict_set covered key digest)
      | Some previous =>
          raise_if negb (String.eqb previous digest)
            with CampaignFinalizationError "child checksums conflict";;
          Ok covered
      end
  | _ => finalization_error "child checksum manifest is invalid"
  end.

Definition add_child_manifest (run_prefix : string) (covered : dict string) (path : string)
    : hub (finalizer W) (dict string) :=
  do content <- read_staged (run_prefix +:+ "/" +:+ path);;
  do manifest <- hub_lift (json_loads content);;
  match manifest with
  | JObj entries => hub_lift (foldM (add_child (parent_of path)) covered entries)
  | _ => hub_lift (finalization_error "child checksum manifest is invalid")
  end.

Definition _child_checksums (run_prefix : string) (run_paths : list string)
    : hub (finalizer W) (dict string) :=
  hub_foldM (add_child_manifest run_prefix) []
    (List.filter (str_endswith "/checksums.json") (sort_by str_leb run_paths)).

(** The content of an addition, or of a file of the run. *)
Definition content_of (run_prefix : string) (additions : dict string) (path : string)
    : hub (finalizer W) string :=
  match dict_get additions path with
  | Some content => hub_ret content
  | None => read_staged (run_prefix +:+ "/" +:+ path)
  end.

Definition cover_path (run_prefix : string) (additions : dict string) (covered : dict string) (path : string)
    : hub (finalizer W) (dict string) :=
  do content <- content_of run_prefix additions path;;
  hub_ret (dict_set covered path (content_digest content)).

Definition check_covered (run_prefix : string) (additions : dict string) (entry : string * string)
    : hub (finalizer W) unit :=
  do content <- content_of run_prefix additions entry.1;;
  if String.eqb (content_digest content) entry.2 then hub_ret tt
  else hub_lift (finalization_error ("child checksum does not match evidence: " +:+ entry.1)).

(** The files a manifest covers: all but itself and the terminal markers. *)
Definition expected_paths (run_paths : list string) (additions : dict string) : list string :=
  List.filter (fun path => negb (String.eqb path "checksums.json") && negb (str_mem path _TERMINAL_MARKERS))
    (sorted_set (run_paths ++ dict_keys additions)).

(** [_aggregate_checksums] *)
Definition _aggregate_checksums (run_prefix : string) (run_paths : list string) (additions : dict string)
    : hub (finalizer W) (dict string) :=
  do children <- _child_checksums run_prefix run_paths;;
  let expected := expected_paths run_paths additions in
  do covered <- hub_foldM (cover_path run_prefix additions) children
    (List.filter (fun path => negb (dict_has children path)) expected);;
  if negb (same_set (dict_keys covered) expected)
  then hub_lift (finalization_error "run checksums do not cover exact evidence")
  else
    do _us <- hub_mapM (check_covered run_prefix additions) (sort_by key_leb covered);;
    hub_ret (sort_by key_leb covered).

Definition checksums_json (checksums : dict string) : json := jdict JStr checksums.

(** *** Executions *)
Definition _execution_failure_category (run_paths : list string)
    (execution_prefix absolute_prefix marker : string) : hub (finalizer W) (option RetryCategory) :=
  if negb (String.eqb marker "_FAILED") then hub_ret None
  else if negb (str_mem (execution_prefix +:+ "/failure.json") run_paths)
  then hub_lift (finalization_error "failed execution has no typed failure evidence")
  else
    do content <- read_staged (absolute_prefix +:+ "/failure.json");;
    do value <- hub_lift (json_object_validate content);;
    do category <- hub_lift (or_finalization_error "failed execution has an invalid failure category"
      (category_validate (match dict_get value "category" with Some c => c | None => JNull end)));;
    hub_ret (Some category).

(** The loop of [_verify_bundle_documents]. *)
Definition verify_document (run_paths : list string) (execution_prefix absolute_prefix : string)
    (document : NativeDocument) : hub (finalizer W) unit :=
  if negb (str_mem (execution_prefix +:+ "/" +:+ nd_path document) run_paths)
  then hub_lift (finalization_error "execution Harbor native document is missing")
  else
    do content <- read_staged (absolute_prefix +:+ "/" +:+ nd_path document);;
    if String.eqb (content_digest content) (nd_digest document) then hub_ret tt
    else hub_lift (finalization_error "execution Harbor native document conflicts with its bundle").

Definition _verify_bundle_documents (run_paths : list string) (execution_prefix absolute_prefix : string)
    (manifest : HarborNativeBundle) : hub (finalizer W) unit :=
  do _us <- hub_mapM (verify_document run_paths execution_prefix absolute_prefix) (hn_documents manifest);;
  hub_ret tt.

Definition _verified_bundle_object (run_paths : list string) (execution_prefix absolute_prefix : string)
    (reference : BundleObject) (label : string) : hub (finalizer W) ObjectReference :=
  let relative := execution_prefix +:+ "/" +:+ bo_path reference in
  if negb (str_mem relative run_paths)
  then hub_lift (finalization_error ("execution Harbor " +:+ label +:+ " is missing"))
  else
    do content <- read_staged (absolute_prefix +:+ "/" +:+ bo_path reference);;
    do observed <- hub_lift (object_reference relative content);;
    if negb (String.eqb (or_digest observed) (bo_digest reference)) ||
       negb (or_size_bytes observed =? bo_size_bytes reference)
    then hub_lift (finalization_error
           ("execution Harbor " +:+ label +:+ " conflicts with its bundle manifest"))
    else hub_ret observed.

Definition _execution_bundle_reference (run_paths : list string) (execution_prefix absolute_prefix : string)
    : hub (finalizer W) (option HarborBundleReference) :=
  let relative_manifest := execution_prefix +:+ "/" +:+ HARBOR_NATIVE_BUNDLE_PATH in
  if negb (str_mem relative_manifest run_paths) then hub_ret None
  else
    do manifest_bytes <- read_staged (absolute_prefix +:+ "/" +:+ HARBOR_NATIVE_BUNDLE_PATH);;
    do manifest <- hub_lift (or_finalization_error "execution Harbor native bundle is invalid"
      (load_harbor_native_bundle manifest_bytes));;
    do _v <- hub_lift (_validate_native_bundle_paths manifest);;
    do _d <- _verify_bundle_documents run_paths execution_prefix absolute_prefix manifest;;
    do archive <- _verified_bundle_object run_paths execution_prefix absolute_prefix
      (hn_archive manifest) "archive";;
    do _c <- _verified_bundle_object run_paths execution_prefix absolute_prefix
      (hn_compatibility manifest) "compatibility export";;
    do reference <- hub_lift (object_reference relative_manifest manifest_bytes);;
    do bundle <- hub_lift (validate_HarborBundleReference {|
      hb_manifest := reference; hb_archive := archive;
      hb_harbor_revision := hn_harbor_revision manifest; hb_harbor_version := hn_harbor_version manifest;
      hb_compatibility_schema := hn_compatibility_schema manifest;
      hb_request_digest := hn_request_digest manifest; hb_document_count := len (hn_documents manifest) |});;
    hub_ret (Some bundle).

Definition status_of_marker (marker : string) : result PhysicalStatus :=
  if String.eqb marker "_SUCCESS" then Ok physical_succeeded
  else if String.eqb marker "_FAILED" then Ok physical_failed
  else if String.eqb marker "_CANCELLED" then Ok physical_cancelled
  else Err (KeyError marker).

(** The records of an execution, from its evidence. *)
Definition physical_reference (x : ExecutionEvidence) (bundle : option HarborBundleReference)
    : PhysicalExecutionReference := {|
  px_execution_id := xe_execution_id x; px_trial_id := xe_trial_id x;
  px_physical_attempt := xe_physical_attempt x; px_status := xe_status x;
  px_failure_category := xe_failure_category x; px_started_at := xe_started_at x;
  px_completed_at := xe_completed_at x; px_retry_reason := xe_retry_reason x;
  px_remote_job_id := xe_remote_job_id x;
  px_bundle_status := if is_some bundle then bundle_verified else bundle_not_available;
  px_harbor_bundle := bundle |}.

Definition _execution_record (run_paths : list string) (execution_prefix absolute_prefix : string)
    (k : RuntimeKind) : hub (finalizer W) _ExecutionRecord :=
  do content <- read_staged (absolute_prefix +:+ "/execution.lock.json");;
  do execution <- hub_lift (execution_lock_validate_json content);;
  do marker <- hub_lift (_marker run_paths execution_prefix);;
  do log <- read_staged (absolute_prefix +:+ "/events.jsonl");;
  do raw_events <- hub_lift (final_json_lines log);;
  do started <- hub_lift (final_event_time raw_events ["execution_started"]);;
  do finished <- hub_lift (final_event_time raw_events
    ["execution_succeeded"; "execution_failed"; "execution_cancelled"]);;
  do status <- hub_lift (status_of_marker marker);;
  do failure_category <- _execution_failure_category run_paths execution_prefix absolute_prefix marker;;
  do evidence <- hub_lift (validate_ExecutionEvidence {|
    xe_execution_id := xl_execution_id execution; xe_trial_id := xl_trial_id execution;
    xe_physical_attempt := xl_physical_attempt execution; xe_runtime_kind := k; xe_status := status;
    xe_failure_category := failure_category; xe_started_at := started; xe_completed_at := finished;
    xe_retry_reason := if 1 <? xl_physical_attempt execution then Some "infrastructure_retry" else None;
    xe_remote_job_id := xl_remote_job_id execution |});;
  do bundle <- _execution_bundle_reference run_paths execution_prefix absolute_prefix;;
  if bool_decide (xe_status evidence = physical_succeeded) && negb (is_some bundle)
  then hub_lift (finalization_error "successful execution has no verified Harbor native bundle")
  else
    do physical <- hub_lift (validate_PhysicalExecutionReference (physical_reference evidence bundle));;
    hub_ret {| xr_evidence := evidence; xr_physical_execution := physical |}.

(** *** Trials *)

(** The execution locks of a trial among the files of its run. *)
Definition execution_lock_paths (run_paths : list string) (relative_prefix : string) : list string :=
  sort_by str_leb (List.filter (fun path =>
    str_startswith (relative_prefix +:+ "/executions/") path && str_endswith "/execution.lock.json" path)
    run_paths).

Definition _execution_checksum (run_prefix trial_id execution_id : string) : hub (finalizer W) string :=
  do content <- read_staged (run_prefix +:+ "/trials/" +:+ trial_id +:+ "/executions/" +:+ execution_id +:+
    "/checksums.json");;
  hub_ret (content_digest content).

(** The identity a successful execution must have, in [_successful_execution_ids]. *)
Definition execution_is_of (run_id shard_id : string) (trial : CampaignTrialLock) (name : string)
    (execution : ExecutionLock) : bool :=
  String.eqb (xl_campaign_id execution) (campaign_id campaign) &&
  String.eqb (xl_run_id execution) run_id && String.eqb (xl_shard_id execution) shard_id &&
  String.eqb (xl_trial_id execution) (tl_trial_id trial) &&
  String.eqb (xl_task_name execution) (tl_task_name trial) &&
  String.eqb (xl_task_digest execution) (tl_task_digest trial) &&
  (xl_logical_attempt execution =? tl_logical_attempt trial) &&
  String.eqb (xl_execution_id execution) name.

Definition trial_shard_ids (run_id : string) (trial : CampaignTrialLock) : list string :=
  flat_map (fun run => if String.eqb (rl_run_id run) run_id
    then map sl_shard_id (List.filter (fun shard =>
           existsb (fun candidate => String.eqb (tl_trial_id candidate) (tl_trial_id trial)) (sl_trials shard))
           (rl_shards run))
    else []) (runs campaign).

Definition successful_execution (run_prefix shard_id : string) (run_paths : list string)
    (trial : CampaignTrialLock) (k : RuntimeKind) (successful : list string) (path : string)
    : hub (finalizer W) (list string) :=
  let execution_prefix := parent_of path in
  do marker <- hub_lift (_marker run_paths execution_prefix);;
  do _r <- _execution_record run_paths execution_prefix (run_prefix +:+ "/" +:+ execution_prefix) k;;
  do content <- read_staged (run_prefix +:+ "/" +:+ path);;
  do execution <- hub_lift (execution_lock_validate_json content);;
  if negb (execution_is_of (str_removeprefix "runs/" run_prefix) shard_id trial
             (name_of execution_prefix) execution)
  then hub_lift (finalization_error "successful execution identity does not match its trial")
  else hub_ret (if String.eqb marker "_SUCCESS" then successful ++ [xl_execution_id execution] else successful).

Definition _successful_execution_ids (run_prefix : string) (run_paths : list string)
    (trial : CampaignTrialLock) (k : RuntimeKind) : hub (finalizer W) (list string) :=
  match trial_shard_ids (str_removeprefix "runs/" run_prefix) trial with
  | [shard_id] =>
      hub_foldM (successful_execution run_prefix shard_id run_paths trial k) []
        (execution_lock_paths run_paths ("trials/" +:+ tl_trial_id trial))
  | _ => hub_lift (finalization_error "successful execution trial has no unique locked shard")
  end.

Definition _trial_lock_missing (run_prefix : string) (run_paths : list string)
    (lock_path checksums_path lock_content : string) : hub (finalizer W) bool :=
  if negb (str_mem lock_path run_paths) then
    if str_mem checksums_path run_paths
    then hub_lift (finalization_error "interrupted trial checksum manifest has no trial lock")
    else hub_ret true
  else
    do content <- read_staged (run_prefix +:+ "/" +:+ lock_path);;
    if String.eqb content lock_content then hub_ret false
    else hub_lift (finalization_error "interrupted trial lock does not match its campaign").

Definition _validate_trial_checksums (run_prefix : string) (run_paths : list string)
    (prefix checksums_path : string) : hub (finalizer W) unit :=
  do observed <- read_staged (run_prefix +:+ "/" +:+ checksums_path);;
  do expected <- _aggregate_checksums (run_prefix +:+ "/" +:+ prefix) (_under run_paths prefix) [];;
  if String.eqb (_json_bytes (checksums_json expected)) observed then hub_ret tt
  else hub_lift (finalization_error "interrupted trial checksum manifest is not canonical").

Definition _complete_marker_only_trial (run_prefix : string) (run_paths : list string)
    (prefix checksums_path : string) (lock_missing summary_missing : bool) : hub (finalizer W) unit :=
  if lock_missing || summary_missing
  then hub_lift (finalization_error "interrupted trial checksum manifest omits finalization evidence")
  else _validate_trial_checksums run_prefix run_paths prefix checksums_path.

Definition recovery_record (trial : CampaignTrialLock) (selected_id execution_checksum : string) : json :=
  jobj [("schema_version", JStr "harbor-hf/trial-finalization-recovery/v1alpha1");
        ("reason", JStr "interrupted_trial_finalization"); ("trial_id", JStr (tl_trial_id trial));
        ("selected_execution_id", JStr selected_id);
        ("selected_execution_checksum", JStr execution_checksum)].

Definition _stage_trial_envelope (run_prefix : string) (trial : CampaignTrialLock)
    (selected_id execution_checksum : string) (summary : option string) : hub (finalizer W) unit :=
  let prefix := "trials/" +:+ tl_trial_id trial in
  let lock_path := prefix +:+ "/trial.lock.json" in
  let checksums_path := prefix +:+ "/checksums.json" in
  let lock_content := _json_bytes (CampaignTrialLock_dump trial) in
  do run_paths <- get_run_paths;;
  do lock_missing <- _trial_lock_missing run_prefix run_paths lock_path checksums_path lock_content;;
  do _u <-
    (if str_mem checksums_path run_paths then
       _complete_marker_only_trial run_prefix run_paths prefix checksums_path lock_missing (is_some summary)
     else
       do _us <- hub_mapM (fun f : string * string => _stage_trial_file run_prefix f.1 f.2)
         ([(prefix +:+ "/trial-finalization-recovery.json",
            _json_bytes (recovery_record trial selected_id execution_checksum))] ++
          (if lock_missing then [(lock_path, lock_content)] else []) ++
          match summary with Some content => [(prefix +:+ "/trial-summary.json", content)] | None => [] end);;
       do run_paths <- get_run_paths;;
       do checksums <- _aggregate_checksums (run_prefix +:+ "/" +:+ prefix) (_under run_paths prefix) [];;
       _stage_trial_file run_prefix checksums_path (_json_bytes (checksums_json checksums)));;
  _stage_trial_file run_prefix (prefix +:+ "/_SUCCESS") newline_text.

Definition ambiguous_execution : exn :=
  CampaignFinalizationError "interrupted trial finalization has an ambiguous successful execution".

Definition _finish_interrupted_trial (run_prefix : string) (run_paths : list string)
    (trial : CampaignTrialLock) (k : RuntimeKind) (selected_id : string) (summary : dict json)
    : hub (finalizer W) unit :=
  do successful <- _successful_execution_ids run_prefix run_paths trial k;;
  if negb (bool_decide (successful = [selected_id])) then hub_raise ambiguous_execution
  else
    do execution_checksum <- _execution_checksum run_prefix (tl_trial_id trial) selected_id;;
    if negb (json_is_text (dict_get summary "trial_id") (tl_trial_id trial)) ||
       negb (json_is_text (dict_get summary "execution_checksum") execution_checksum)
    then hub_lift (finalization_error "interrupted trial summary does not match its execution")
    else _stage_trial_envelope run_prefix trial selected_id execution_checksum None.

Definition _complete_trial_selection (run_prefix : string) (trial : CampaignTrialLock) (k : RuntimeKind)
    : hub (finalizer W) string :=
  let relative_prefix := "trials/" +:+ tl_trial_id trial in
  let summary_path := relative_prefix +:+ "/trial-summary.json" in
  do run_paths <- get_run_paths;;
  let has_summary := str_mem summary_path run_paths in
  let has_marker := str_mem (relative_prefix +:+ "/_SUCCESS") run_paths in
  if has_marker && negb has_summary
  then hub_lift (finalization_error
         ("complete trial has a success marker but no summary: " +:+ tl_trial_id trial))
  else if has_summary then
    do content <- read_staged (run_prefix +:+ "/" +:+ summary_path);;
    do summary <- hub_lift (json_object_validate content);;
    match dict_get summary "execution_id" with
    | Some (JStr selected_id) =>
        do _f <- (if has_marker then hub_ret tt
                  else _finish_interrupted_trial run_prefix run_paths trial k selected_id summary);;
        hub_ret selected_id
    | _ => hub_lift (finalization_error "trial summary has no selected execution")
    end
  else
    do successful <- _successful_execution_ids run_prefix run_paths trial k;;
    match successful with
    | [selected_id] =>
        do execution_checksum <- _execution_checksum run_prefix (tl_trial_id trial) selected_id;;
        do _s <- _stage_trial_envelope run_prefix trial selected_id execution_checksum
          (Some (_json_bytes (jobj [("trial_id", JStr (tl_trial_id trial)); ("execution_id", JStr selected_id);
                                    ("execution_checksum", JStr execution_checksum)])));;
        hub_ret selected_id
    | _ => hub_raise ambiguous_execution
    end.

(** The loops of [_trial_records] and [_failed_trial_records]. *)
Definition execution_record_at (run_prefix : string) (run_paths : list string) (k : RuntimeKind)
    (relative : string) : hub (finalizer W) _ExecutionRecord :=
  _execution_record run_paths (parent_of relative) (run_prefix +:+ "/" +:+ parent_of relative) k.

Definition selected_state : Type := list _ExecutionRecord * option (dict json * Z).

Definition record_selected (run_prefix : string) (run_paths : list string) (k : RuntimeKind)
    (selected_id : string) (state : selected_state) (relative : string) : hub (finalizer W) selected_state :=
  let '(records, selected) := state in
  do record <- execution_record_at run_prefix run_paths k relative;;
  if negb (String.eqb (xe_execution_id (xr_evidence record)) selected_id)
  then hub_ret (records ++ [record], selected)
  else if negb (bool_decide (xe_status (xr_evidence record) = physical_succeeded))
  then hub_lift (finalization_error "trial selected execution is not successful")
  else
    do content <- read_staged (run_prefix +:+ "/" +:+ parent_of relative +:+ "/verification.json");;
    do value <- hub_lift (json_object_validate content);;
    hub_ret (records ++ [record], Some (value, xe_completed_at (xr_evidence record))).

Definition trial_evidence_of (trial : CampaignTrialLock) (selected_id : string) (outcome : ResultOutcome)
    : result TrialEvidence :=
  validate_TrialEvidence {|
    te_trial_id := tl_trial_id trial; te_task_name := tl_task_name trial;
    te_task_digest := tl_task_digest trial; te_logical_attempt := tl_logical_attempt trial;
    te_selected_execution_id := Some selected_id; te_outcome := outcome |}.

(** The outcomes a failed trial may have. *)
Definition failed_outcome (outcome : option TaskOutcome) : option ResultOutcome :=
  match outcome with
  | Some outcome_agent_failed => Some task_agent_failed
  | Some outcome_benchmark_failed => Some task_benchmark_failed
  | Some outcome_infrastructure_exhausted => Some task_infrastructure_exhausted
  | _ => None
  end.

(** [max(records, key=lambda record: record.physical_attempt)] *)
Definition last_attempt (records : list _ExecutionRecord) : option _ExecutionRecord :=
  match records with
  | [] => None
  | record :: records => Some (fold_left (fun best r =>
      if xe_physical_attempt (xr_evidence best) <? xe_physical_attempt (xr_evidence r) then r else best)
      records record)
  end.

Definition _failed_trial_records (run_prefix : string) (trial : CampaignTrialLock) (k : RuntimeKind)
    (status : TrialStatus) (outcome : option TaskOutcome) : hub (finalizer W) _TrialRecords :=
  if negb (bool_decide (status = trial_s_invalid) || bool_decide (status = trial_s_failed_infrastructure))
  then hub_lift (finalization_error ("scored run contains a nonterminal trial: " +:+ tl_trial_id trial))
  else
    match failed_outcome outcome with
    | None => hub_lift (finalization_error ("failed trial has no terminal task outcome: " +:+ tl_trial_id trial))
    | Some outcome =>
        do run_paths <- get_run_paths;;
        do records <-
          match execution_lock_paths run_paths ("trials/" +:+ tl_trial_id trial) with
          | [] => hub_lift (finalization_error
                    ("failed trial has no execution evidence: " +:+ tl_trial_id trial))
          | paths => hub_mapM (execution_record_at run_prefix run_paths k) paths
          end;;
        match last_attempt records with
        | None => hub_lift (Err (ValueError "max() iterable argument is empty"))
        | Some selected =>
            if negb (bool_decide (xe_status (xr_evidence selected) = physical_failed))
            then hub_lift (finalization_error "failed trial selected execution is not a recorded failure")
            else
              do evidence <- hub_lift (trial_evidence_of trial (xe_execution_id (xr_evidence selected)) outcome);;
              do metric <- hub_lift (score_metric (tl_trial_id trial) "reward" float_zero);;
              hub_ret {|
                trs_trial := evidence;
                trs_executions := map xr_evidence records;
                trs_physical_executions := map xr_physical_execution records;
                trs_metrics := [metric];
                trs_verification_trials := [jobj [
                  ("task_name", JStr (tl_task_name trial)); ("outcome", JStr "failed");
                  ("rewards", jobj [("reward", JFloat float_zero)])]];
                trs_completed_at := xe_completed_at (xr_evidence selected) |}
        end
    end.

Definition _trial_records (run_prefix : string) (trial : CampaignTrialLock) (k : RuntimeKind)
    (status : TrialStatus) (outcome : option TaskOutcome) : hub (finalizer W) _TrialRecords :=
  if negb (bool_decide (status = trial_s_complete))
  then _failed_trial_records run_prefix trial k status outcome
  else
    do _o <- hub_lift (_require_scored_outcome outcome (tl_trial_id trial));;
    do selected_id <- _complete_trial_selection run_prefix trial k;;
    do run_paths <- get_run_paths;;
    do state <- hub_foldM (record_selected run_prefix run_paths k selected_id) ([], None)
      (execution_lock_paths run_paths ("trials/" +:+ tl_trial_id trial));;
    match state.2 with
    | None => hub_lift (finalization_error "trial selected execution is missing")
    | Some (value, completed_at) =>
        do verifier <- hub_lift (_selected_verifier value);;
        do evidence <- hub_lift (trial_evidence_of trial selected_id task_scored);;
        do metrics <- hub_lift (_reward_metrics (tl_trial_id trial) verifier);;
        hub_ret {|
          trs_trial := evidence;
          trs_executions := map xr_evidence state.1;
          trs_physical_executions := map xr_physical_execution state.1;
          trs_metrics := metrics;
          trs_verification_trials := [JObj verifier];
          trs_completed_at := completed_at |}
    end.

(** *** Runs *)
Definition runtime_kind_of (configuration : RunLock) : RuntimeKind :=
  match rn_deployment configuration with
  | target_provider _ => runtime_provider
  | target_endpoint _ => runtime_endpoint
  end.

Definition run_trials (run : CampaignRunLock) : list CampaignTrialLock := flat_map sl_trials (rl_shards run).

Definition run_trial_records (run_prefix : string) (projection : RecoveryProjection) (k : RuntimeKind)
    (trial : CampaignTrialLock) : hub (finalizer W) _TrialRecords :=
  do observed <- hub_lift (dict_item (rp_trials projection) (tl_trial_id trial));;
  _trial_records run_prefix trial k (tr_status observed) (tr_outcome observed).

(** [max(completion_times)] *)
Definition latest (times : list Z) : result Z :=
  match times with
  | [] => Err (ValueError "max() iterable argument is empty")
  | t :: times => Ok (fold_left Z.max times t)
  end.

Definition verification_json (records : list _TrialRecords) : json :=
  let trials := flat_map trs_verification_trials records in
  jobj [("trial_count", JInt (len trials)); ("trials", JArr trials)].

(** The summary of a run. *)
Definition result_evidence_of (run_id : string) (configuration : RunLock) (run_lock_bytes verification : string)
    (records : list _TrialRecords) (completed_at : Z) : result ResultEvidence :=
  let trials := map trs_trial records in
  let* run_lock_artifact := _artifact run_id artifact_run_lock "run.lock.json" run_lock_bytes in
  let* verification_artifact := _artifact run_id artifact_verification "verification.json" verification in
  let quality := if existsb (fun trial => negb (bool_decide (te_outcome trial = task_scored))) trials
                 then quality_degraded else quality_clean in
  let* run := _run_evidence campaign configuration completed_at quality in
  validate_ResultEvidence {|
    rv_run := run; rv_trials := trials; rv_executions := flat_map trs_executions records;
    rv_metrics := flat_map trs_metrics records; rv_artifacts := [run_lock_artifact; verification_artifact] |}.

(** The envelope of a run. *)
Definition envelope_of (run_id prefix : string) (configuration : RunLock) (run_lock_bytes : string)
    (records : list _TrialRecords) (completed_at : Z) (evidence : ResultEvidence)
    : result PublicationEnvelope :=
  let run := rv_run evidence in
  let k := runtime_kind_of configuration in
  let* run_lock := object_reference "run.lock.json" run_lock_bytes in
  let* profiles := validate_ProfileDigests {|
    pg_experiment := rn_spec_digest configuration;
    pg_model := profile_digest (ModelProfile_dump true (rn_model configuration));
    pg_deployment := profile_digest (DeploymentTarget_dump true (rn_deployment configuration));
    pg_agent := profile_digest (AgentProfile_dump true (rn_agent configuration)) |} in
  let* runtime := validate_RuntimeIdentity {|
    ri_kind := k; ri_provider := re_provider run; ri_region := re_region run;
    ri_hardware := re_hardware run; ri_accelerator_count := re_accelerator_count run |} in
  validate_PublicationEnvelope {|
    pe_run_id := run_id; pe_campaign_id := campaign_id campaign;
    pe_created_at := rn_created_at configuration; pe_completed_at := completed_at;
    pe_evidence_bucket := evidence_bucket_of;
    pe_evidence_prefix := artifact_prefix campaign +:+ "/" +:+ prefix;
    pe_run_lock := run_lock; pe_profiles := profiles; pe_runtime := runtime;
    pe_cleanup_outcome := match k with runtime_provider => cleanup_outcome_not_applicable
                                     | runtime_endpoint => cleanup_outcome_verified end;
    pe_executions := flat_map trs_physical_executions records; pe_sources := [] |}.

(** The end of [_finalize_run]: the manifest, then the marker. *)
Definition seal_run (prefix : string) (additions : dict string) : hub (finalizer W) _FinalizedRun :=
  do run_paths <- get_run_paths;;
  do checksums <- _aggregate_checksums prefix run_paths additions;;
  let checksum_bytes := _json_bytes (checksums_json checksums) in
  do _c <- write_evidence (artifact_prefix campaign +:+ "/" +:+ prefix +:+ "/checksums.json") checksum_bytes;;
  do _m <- write_evidence (artifact_prefix campaign +:+ "/" +:+ prefix +:+ "/_SUCCESS") newline_text;;
  hub_ret {| fr_manifest_checksum := content_digest checksum_bytes;
             fr_source_checksum := canonical_digest (checksums_json checksums) |}.

Definition _finalize_run (run : CampaignRunLock) (campaign_paths : list string)
    (projection : RecoveryProjection) : hub (finalizer W) _FinalizedRun :=
  let prefix := "runs/" +:+ rl_run_id run in
  let published path := artifact_prefix campaign +:+ "/" +:+ prefix +:+ "/" +:+ path in
  do _p <- set_run_paths (_under campaign_paths prefix);;
  do run_lock_bytes <- read_staged (prefix +:+ "/run.lock.json");;
  do configuration <- hub_lift (run_lock_validate_json run_lock_bytes);;
  do _i <- hub_lift (_validate_run_identity campaign run configuration);;
  do records <- hub_mapM (run_trial_records prefix projection (runtime_kind_of configuration)) (run_trials run);;
  let verification := _json_bytes (verification_json records) in
  do _v <- write_evidence (published "verification.json") verification;;
  do completed_at <- hub_lift (latest (map trs_completed_at records));;
  do evidence <- hub_lift (result_evidence_of (rl_run_id run) configuration run_lock_bytes verification
    records completed_at);;
  let summary := _json_bytes (ResultEvidence_dump evidence) in
  do _s <- write_evidence (published "run-summary.json") summary;;
  do envelope <- hub_lift (envelope_of (rl_run_id run) prefix configuration run_lock_bytes records
    completed_at evidence);;
  let envelope_bytes := canonical_json_bytes (PublicationEnvelope_dump envelope) in
  do _e <- write_evidence (published PUBLICATION_ENVELOPE_PATH) envelope_bytes;;
  seal_run prefix [("verification.json", verification); ("run-summary.json", summary);
                   (PUBLICATION_ENVELOPE_PATH, envelope_bytes)].

(** [finalize] *)
Definition finalize_complete_run (campaign_paths : list string) (projection : RecoveryProjection)
    (run_checksums : dict string) (run : CampaignRunLock) : hub (finalizer W) (dict string) :=
  do observed <- hub_lift (dict_item (rp_runs projection) (rl_run_id run));;
  if negb (bool_decide (Recovery.rn_status observed = run_s_complete)) then hub_ret run_checksums
  else
    do finalized <- _finalize_run run campaign_paths projection;;
    hub_ret (dict_set run_checksums (rl_run_id run) (fr_manifest_checksum finalized)).

Definition campaign_summary (decision : TerminalDecision) (run_checksums : dict string) : json :=
  jobj [("schema_version", JStr "harbor-hf/campaign-summary/v1alpha1");
        ("campaign_id", JStr (campaign_id campaign));
        ("status", JStr (terminal_status_value (td_status decision)));
        ("reason", JStr (td_reason decision)); ("counts", ProjectionCounts_dump (td_counts decision));
        ("run_checksums", jdict JStr run_checksums)].

Definition finalize_evidence (projection : RecoveryProjection) (decision : TerminalDecision)
    : hub (finalizer W) unit :=
  do _c <- clear_staged;;
  do paths <- on_services (list_files evidence_bucket_of (artifact_prefix campaign));;
  do run_checksums <- hub_foldM (finalize_complete_run paths projection) [] (runs campaign);;
  if bool_decide (td_status decision = terminal_completed) && negb (len run_checksums =? len (runs campaign))
  then hub_lift (finalization_error "completed campaign does not have complete run evidence")
  else
    do _s <- write_evidence (td_summary_path decision)
      (_json_bytes (campaign_summary decision run_checksums));;
    write_evidence (td_marker_path decision) newline_text.

(** [seal_runs] *)
Definition seal_one (campaign_paths : list string) (projection : RecoveryProjection)
    (sealed : dict string) (run : CampaignRunLock) : hub (finalizer W) (dict string) :=
  do finalized <- _finalize_run run campaign_paths projection;;
  hub_ret (dict_set sealed (rl_run_id run) (fr_source_checksum finalized)).

Definition seal_runs (projection : RecoveryProjection) : hub (finalizer W) (dict string) :=
  do _c <- clear_staged;;
  if existsb (fun run => negb (bool_decide (Recovery.rn_status run = run_s_complete)))
       (dict_values (rp_runs projection))
  then hub_lift (finalization_error "sealed projection has an incomplete run")
  else
    do paths <- on_services (list_files evidence_bucket_of (artifact_prefix campaign));;
    hub_foldM (seal_one paths projection) [] (runs campaign).
End finalizer.

(** ** [ValidatingEvidenceWriter]: what the finalizer would write must be there
    already; nothing is written. *)
Record validating (W : Type) := {
  vw_reader : W;
  vw_staged : dict string;
}.
Arguments vw_reader {W}.
Arguments vw_staged {W}.

Definition validation_conflict (path : string) : exn :=
  CampaignFinalizationError ("immutable evidence conflicts during validation: " +:+ path).

(** [bucket], [prefix] and [paths] are the attributes of the writer. *)
Definition validating_write {W} `{EvidenceReader W} (own_bucket own_prefix : string) (paths : list string)
    (bucket path content : string) : hub (validating W) bool := fun s =>
  let root := own_prefix +:+ "/" in
  if negb (String.eqb bucket own_bucket) || negb (str_startswith root path)
  then (finalization_error "immutable write escaped campaign evidence", s)
  else
    let relative := str_removeprefix root path in
    if negb (nonempty relative) then (finalization_error "immutable write has no evidence path", s)
    else if match dict_get (vw_staged s) relative with
            | Some staged => negb (String.eqb staged content) | None => false end
    then (Err (validation_conflict path), s)
    else
      let checked :=
        if str_mem relative paths then
          let '(existing, w) := read_bytes bucket own_prefix relative (vw_reader s) in
          (let* existing := existing in
           raise_if negb (String.eqb existing content) with validation_conflict path;; Ok tt,
           {| vw_reader := w; vw_staged := vw_staged s |})
        else (Ok tt, s) in
      match checked with
      | (Ok _, s) => (Ok (negb (str_mem relative paths)),
                      {| vw_reader := vw_reader s; vw_staged := dict_set (vw_staged s) relative content |})
      | (Err e, s) => (Err e, s)
      end.
