(* ===== verification/ResultTables.v ===== *)
(** The rows of published results (the table models of src/src/harbor_hf/results.py).

    Every row carries the trace of its publication.  [*_valid] are the
    validators of a model; a constructor call is [validate_*]. *)
From Stdlib Require Import Floats.SpecFloat.
From S2P Require Import Prelude.
From S2P Require Import PyDict.
From S2P Require Import Float64.
From S2P Require Import Paths.
From S2P Require Import Json.
From S2P Require Import Patterns.
From S2P Require Import PyText.
From S2P Require Import Campaigns.
From S2P Require Import Models.
From S2P Require Import Manifest.
From S2P Require Import Control.
From S2P Require Import Envelope.
From S2P Require Import ResultModels.

(** [TraceValues], and the fields of [TraceRow] *)
Record TraceValues := {
  tc_publication_id : string;
  tc_run_id : string;
  tc_source_bucket : string;
  tc_source_prefix : string;
  tc_source_checksum : string;
  tc_run_lock_path : string;
  tc_run_lock_sha256 : string;
  tc_control_commit : string;
}.

Definition TraceRow_valid (t : TraceValues) : bool :=
  is_entity_id (tc_publication_id t) && is_entity_id (tc_run_id t) && nonempty (tc_source_bucket t) &&
  nonempty (tc_source_prefix t) && is_content_digest (tc_source_checksum t) &&
  nonempty (tc_run_lock_path t) && is_content_digest (tc_run_lock_sha256 t) &&
  is_revision (tc_control_commit t).

Record RunRow := {
  rw_trace : TraceValues;
  rw_campaign_id : string;
  rw_experiment : string;
  rw_evaluation_id : string;
  rw_publication_role : PublicationRole;
  rw_component_kind : option ComponentKind;
  rw_source_publication_ids : list string;
  rw_benchmark : string;
  rw_benchmark_revision : string;
  rw_result_kind : ResultKind;
  rw_quality : RunQuality;
  rw_created_at : Z;
  rw_completed_at : Z;
  rw_model_id : string;
  rw_model_repo : string;
  rw_model_revision : string;
  rw_deployment_id : string;
  rw_provider : string;
  rw_region : string;
  rw_hardware : string;
  rw_accelerator_count : Z;
  rw_agent_id : string;
  rw_agent_name : string;
  rw_agent_revision : string;
  rw_planned_trial_count : Z;
  rw_scored_trial_count : Z;
  rw_agent_failed_count : Z;
  rw_benchmark_failed_count : Z;
  rw_infrastructure_exhausted_count : Z;
  rw_unsupported_count : Z;
  rw_execution_count : Z;
}.

Definition RunRow_fields_valid (r : RunRow) : bool :=
  TraceRow_valid (rw_trace r) && is_entity_id (rw_campaign_id r) && nonempty (rw_experiment r) &&
  is_evaluation_id (rw_evaluation_id r) && forallb is_entity_id (rw_source_publication_ids r) &&
  nonempty (rw_benchmark r) && nonempty (rw_benchmark_revision r) && is_entity_id (rw_model_id r) &&
  nonempty (rw_model_repo r) && nonempty (rw_model_revision r) && is_entity_id (rw_deployment_id r) &&
  nonempty (rw_provider r) && nonempty (rw_region r) && nonempty (rw_hardware r) &&
  (0 <=? rw_accelerator_count r) && is_entity_id (rw_agent_id r) && nonempty (rw_agent_name r) &&
  nonempty (rw_agent_revision r) && (0 <=? rw_planned_trial_count r) && (0 <=? rw_scored_trial_count r) &&
  (0 <=? rw_agent_failed_count r) && (0 <=? rw_benchmark_failed_count r) &&
  (0 <=? rw_infrastructure_exhausted_count r) && (0 <=? rw_unsupported_count r) &&
  (0 <=? rw_execution_count r).

Definition rw_outcome_count (r : RunRow) : Z :=
  rw_scored_trial_count r + rw_agent_failed_count r + rw_benchmark_failed_count r +
  rw_infrastructure_exhausted_count r + rw_unsupported_count r.

Definition validate_RunRow (r : RunRow) : result RunRow :=
  let* _ := fields_ok "RunRow" (RunRow_fields_valid r) in
  raise_if rw_completed_at r <? rw_created_at r with ValidationError "run completion precedes creation";;
  raise_if negb (rw_outcome_count r =? rw_planned_trial_count r)
    with ValidationError "run task outcome counts do not match trial count";;
  raise_if negb (Bool.eqb (bool_decide (rw_quality r = quality_degraded))
                          (rw_scored_trial_count r <? rw_planned_trial_count r))
    with ValidationError "run quality conflicts with task outcome counts";;
  raise_if negb (run_role_consistent (rw_publication_role r) (rw_component_kind r))
    with ValidationError "run component kind conflicts with publication role";;
  raise_if bool_decide (rw_publication_role r = role_final) && bool_decide (rw_result_kind r = result_composed) &&
           is_nil (rw_source_publication_ids r)
    with ValidationError "composed final result requires source publications";;
  raise_if negb (bool_decide (rw_publication_role r = role_final) &&
                 bool_decide (rw_result_kind r = result_composed)) &&
           negb (is_nil (rw_source_publication_ids r))
    with ValidationError "only composed final results may reference publications";;
  Ok r.

Record TrialRow := {
  tw_trace : TraceValues;
  tw_trial_id : string;
  tw_task_name : string;
  tw_task_digest : string;
  tw_logical_attempt : Z;
  tw_selected_execution_id : option string;
  tw_outcome : ResultOutcome;
}.

Definition validate_TrialRow (t : TrialRow) : result TrialRow :=
  let* _ := fields_ok "TrialRow"
    (TraceRow_valid (tw_trace t) && is_entity_id (tw_trial_id t) && nonempty (tw_task_name t) &&
     is_content_digest (tw_task_digest t) && (1 <=? tw_logical_attempt t) &&
     opt_valid is_entity_id (tw_selected_execution_id t)) in
  Ok t.

Record ExecutionRow := {
  xw_trace : TraceValues;
  xw_execution_id : string;
  xw_trial_id : string;
  xw_physical_attempt : Z;
  xw_runtime_kind : RuntimeKind;
  xw_status : PhysicalStatus;
  xw_failure_category : option RetryCategory;
  xw_started_at : Z;
  xw_completed_at : Z;
  xw_retry_reason : option string;
  xw_remote_job_id : option string;
}.

Definition validate_ExecutionRow (x : ExecutionRow) : result ExecutionRow :=
  let* _ := fields_ok "ExecutionRow"
    (TraceRow_valid (xw_trace x) && is_entity_id (xw_execution_id x) && is_entity_id (xw_trial_id x) &&
     (1 <=? xw_physical_attempt x)) in
  raise_if xw_completed_at x <? xw_started_at x with ValidationError "execution completion precedes start";;
  raise_if (xw_physical_attempt x =? 1) && is_some (xw_retry_reason x)
    with ValidationError "first execution cannot have a retry reason";;
  raise_if negb (Bool.eqb (bool_decide (xw_status x = physical_failed)) (is_some (xw_failure_category x)))
    with ValidationError "execution failure category conflicts with its status";;
  Ok x.

Record MetricRow := {
  mw_trace : TraceValues;
  mw_metric_id : string;
  mw_owner_type : OwnerType;
  mw_owner_id : string;
  mw_name : string;
  mw_value : spec_float;
  mw_unit : string;
  mw_aggregation : option string;
}.

Definition validate_MetricRow (m : MetricRow) : result MetricRow :=
  let* _ := fields_ok "MetricRow"
    (TraceRow_valid (mw_trace m) && is_entity_id (mw_metric_id m) && is_entity_id (mw_owner_id m) &&
     nonempty (mw_name m) && float_is_finite (mw_value m) && nonempty (mw_unit m)) in
  Ok m.

Record ArtifactRow := {
  aw_trace : TraceValues;
  aw_artifact_id : string;
  aw_owner_type : OwnerType;
  aw_owner_id : string;
  aw_kind : ArtifactKind;
  aw_path : string;
  aw_sha256 : string;
  aw_media_type : string;
  aw_size_bytes : Z;
}.

Definition validate_ArtifactRow (a : ArtifactRow) : result ArtifactRow :=
  let* _ := fields_ok "ArtifactRow"
    (TraceRow_valid (aw_trace a) && is_entity_id (aw_artifact_id a) && is_entity_id (aw_owner_id a) &&
     nonempty (aw_path a) && is_content_digest (aw_sha256 a) && nonempty (aw_media_type a) &&
     (0 <=? aw_size_bytes a)) in
  Ok a.

Record PublicationProvenance := {
  pp_envelope_sha256 : string;
  pp_projection_version : string;
  pp_sanitizer_version : string;
  pp_execution_profile_sha256 : string;
  pp_harbor_bundle_manifest_sha256s : list string;
  pp_harbor_archive_sha256s : list string;
}.

Definition provenance_fields_valid (p : PublicationProvenance) : bool :=
  is_content_digest (pp_envelope_sha256 p) && nonempty (pp_projection_version p) &&
  nonempty (pp_sanitizer_version p) && is_content_digest (pp_execution_profile_sha256 p) &&
  forallb is_content_digest (pp_harbor_bundle_manifest_sha256s p) &&
  forallb is_content_digest (pp_harbor_archive_sha256s p).

Definition validate_PublicationProvenance (p : PublicationProvenance) : result PublicationProvenance :=
  let* _ := fields_ok "PublicationProvenance" (provenance_fields_valid p) in
  raise_if negb (len (pp_harbor_bundle_manifest_sha256s p) =? len (pp_harbor_archive_sha256s p))
    with ValidationError "Harbor bundle and archive references are not paired";;
  Ok p.

Record ResultTables := {
  rt_publication_id : string;
  rt_runs : list RunRow;
  rt_trials : list TrialRow;
  rt_executions : list ExecutionRow;
  rt_metrics : list MetricRow;
  rt_artifacts : list ArtifactRow;
  rt_provenance : PublicationProvenance;
}.

(** The traces of the rows, in the order [has_one_consistent_run] looks at them. *)
Definition row_traces (t : ResultTables) : list TraceValues :=
  map rw_trace (rt_runs t) ++ map tw_trace (rt_trials t) ++ map xw_trace (rt_executions t) ++
  map mw_trace (rt_metrics t) ++ map aw_trace (rt_artifacts t).

Definition validate_ResultTables (t : ResultTables) : result ResultTables :=
  raise_if negb (len (rt_runs t) =? 1)
    with ValidationError "a publication must contain exactly one run row";;
  raise_if existsb (fun trace => negb (String.eqb (tc_publication_id trace) (rt_publication_id t))) (row_traces t)
    with ValidationError "publication rows have conflicting identities";;
  Ok t.

(** [tables.runs[0]] *)
Definition first_run (t : ResultTables) : result RunRow :=
  match rt_runs t with run :: _ => Ok run | [] => Err IndexError end.

Record GlobalIndexRow := {
  gi_publication_id : string;
  gi_run_id : string;
  gi_campaign_id : string;
  gi_evaluation_id : string;
  gi_publication_role : PublicationRole;
  gi_component_kind : option ComponentKind;
  gi_benchmark : string;
  gi_result_kind : ResultKind;
  gi_quality : RunQuality;
  gi_completed_at : Z;
  gi_model_repo : string;
  gi_model_revision : string;
  gi_agent_name : string;
  gi_agent_revision : string;
  gi_result_dataset : string;
  gi_result_revision : string;
  gi_source_checksum : string;
  gi_control_commit : string;
}.

(** [DatasetId]: [^[A-Za-z0-9][A-Za-z0-9._-]*/[A-Za-z0-9][A-Za-z0-9._-]*$] *)
Definition is_dataset_part (s : string) : bool :=
  match s with
  | EmptyString => false
  | String c s => is_alnum c && str_forall (fun c => is_alnum c || char_mem c "._-") s
  end.

Definition is_dataset_id (s : string) : bool :=
  match split_slash s with [owner; name] => is_dataset_part owner && is_dataset_part name | _ => false end.

Definition validate_GlobalIndexRow (r : GlobalIndexRow) : result GlobalIndexRow :=
  let* _ := fields_ok "GlobalIndexRow"
    (is_entity_id (gi_publication_id r) && is_entity_id (gi_run_id r) && is_entity_id (gi_campaign_id r) &&
     is_evaluation_id (gi_evaluation_id r) && nonempty (gi_benchmark r) && nonempty (gi_model_repo r) &&
     nonempty (gi_model_revision r) && nonempty (gi_agent_name r) && nonempty (gi_agent_revision r) &&
     is_dataset_id (gi_result_dataset r) && is_revision (gi_result_revision r) &&
     is_content_digest (gi_source_checksum r) && is_revision (gi_control_commit r)) in
  Ok r.

Record CatalogRow := {
  cw_publication_id : string;
  cw_run_id : string;
  cw_campaign_id : string;
  cw_evaluation_id : string;
  cw_publication_role : PublicationRole;
  cw_component_kind : option ComponentKind;
  cw_source_publication_ids : list string;
  cw_benchmark : string;
  cw_benchmark_revision : string;
  cw_result_kind : ResultKind;
  cw_quality : RunQuality;
  cw_created_at : Z;
  cw_completed_at : Z;
  cw_model_repo : string;
  cw_model_revision : string;
  cw_agent_name : string;
  cw_agent_revision : string;
  cw_provider : string;
  cw_region : string;
  cw_hardware : string;
  cw_accelerator_count : Z;
  cw_score : spec_float;
  cw_passed_trials : Z;
  cw_planned_trial_count : Z;
  cw_scored_trial_count : Z;
  cw_agent_failed_count : Z;
  cw_benchmark_failed_count : Z;
  cw_infrastructure_exhausted_count : Z;
  cw_unsupported_count : Z;
  cw_execution_count : Z;
  cw_failed_executions : Z;
  cw_duration_seconds : spec_float;
  cw_result_dataset : string;
  cw_result_revision : string;
  cw_source_checksum : string;
  cw_control_commit : string;
  cw_projection_path : string;
  cw_projection_sha256 : string;
  cw_envelope_sha256 : string;
  cw_harbor_bundle_count : Z;
}.

Definition CatalogRow_fields_valid (r : CatalogRow) : bool :=
  is_entity_id (cw_publication_id r) && is_entity_id (cw_run_id r) && is_entity_id (cw_campaign_id r) &&
  is_evaluation_id (cw_evaluation_id r) && forallb is_entity_id (cw_source_publication_ids r) &&
  nonempty (cw_benchmark r) && nonempty (cw_benchmark_revision r) && nonempty (cw_model_repo r) &&
  nonempty (cw_model_revision r) && nonempty (cw_agent_name r) && nonempty (cw_agent_revision r) &&
  nonempty (cw_provider r) && nonempty (cw_region r) && nonempty (cw_hardware r) &&
  (0 <=? cw_accelerator_count r) && float_is_finite (cw_score r) && (0 <=? cw_passed_trials r) &&
  (0 <=? cw_planned_trial_count r) && (0 <=? cw_scored_trial_count r) && (0 <=? cw_agent_failed_count r) &&
  (0 <=? cw_benchmark_failed_count r) && (0 <=? cw_infrastructure_exhausted_count r) &&
  (0 <=? cw_unsupported_count r) && (0 <=? cw_execution_count r) && (0 <=? cw_failed_executions r) &&
  float_leb float_zero (cw_duration_seconds r) && is_dataset_id (cw_result_dataset r) &&
  is_revision (cw_result_revision r) && is_content_digest (cw_source_checksum r) &&
  is_revision (cw_control_commit r) && nonempty (cw_projection_path r) &&
  is_content_digest (cw_projection_sha256 r) && is_content_digest (cw_envelope_sha256 r) &&
  (1 <=? cw_harbor_bundle_count r).

Definition cw_outcome_count (r : CatalogRow) : Z :=
  cw_scored_trial_count r + cw_agent_failed_count r + cw_benchmark_failed_count r +
  cw_infrastructure_exhausted_count r + cw_unsupported_count r.

Definition validate_CatalogRow (r : CatalogRow) : result CatalogRow :=
  let* _ := fields_ok "CatalogRow" (CatalogRow_fields_valid r) in
  raise_if negb (float_is_finite (cw_score r)) with ValidationError "catalog score must be finite";;
  raise_if cw_planned_trial_count r <? cw_passed_trials r
    with ValidationError "catalog passed trials exceed trial count";;
  raise_if negb (cw_outcome_count r =? cw_planned_trial_count r)
    with ValidationError "catalog task outcome counts do not match trial count";;
  raise_if negb (Bool.eqb (bool_decide (cw_quality r = quality_degraded))
                          (cw_scored_trial_count r <? cw_planned_trial_count r))
    with ValidationError "catalog quality conflicts with task outcome counts";;
  raise_if cw_completed_at r <? cw_created_at r with ValidationError "catalog completion precedes creation";;
  let* _ := in_validator (_validate_relative_path (cw_projection_path r)) in
  Ok r.

Record DatasetFile := { df_path : string; df_content : string }.

Record ResultPublication := {
  rb_tables : ResultTables;
  rb_files : list DatasetFile;
  rb_receipt_path : string;
  rb_receipt : string;
}.

Record UnsupportedTask := {
  ut_task_name : string;
  ut_task_digest : string;
  ut_logical_attempt : Z;
}.

Definition UnsupportedTask_valid (t : UnsupportedTask) : bool :=
  nonempty (ut_task_name t) && is_content_digest (ut_task_digest t) && (1 <=? ut_logical_attempt t).

Record ResultCompositionManifest := {
  cm_run_id : string;
  cm_campaign_id : string;
  cm_experiment : string;
  cm_created_at : Z;
  cm_completed_at : Z;
  cm_evidence_bucket : string;
  cm_evidence_prefix : string;
  cm_sources : list SourcePublicationReference;
  cm_unsupported_tasks : list UnsupportedTask;
}.

(** The tasks of a manifest by name and logical attempt. *)
Definition selected_tasks (m : ResultCompositionManifest) : list (string * Z) :=
  flat_map (fun source => map (fun t => (ss_task_name t, ss_logical_attempt t)) (sr_selected_trials source))
    (cm_sources m).
Definition unsupported_keys (m : ResultCompositionManifest) : list (string * Z) :=
  map (fun t => (ut_task_name t, ut_logical_attempt t)) (cm_unsupported_tasks m).

Definition validate_ResultCompositionManifest (m : ResultCompositionManifest)
    : result ResultCompositionManifest :=
  let* _ := fields_ok "ResultCompositionManifest"
    (is_entity_id (cm_run_id m) && is_entity_id (cm_campaign_id m) && nonempty (cm_experiment m) &&
     nonempty (cm_evidence_bucket m) && nonempty (cm_evidence_prefix m) && negb (is_nil (cm_sources m)) &&
     forallb UnsupportedTask_valid (cm_unsupported_tasks m)) in
  raise_if cm_completed_at m <? cm_created_at m
    with ValidationError "composition completion precedes creation";;
  raise_if negb (count_if (fun source => bool_decide (sr_role source = source_base)) (cm_sources m) =? 1)
    with ValidationError "composition requires exactly one base publication";;
  raise_if negb (bool_decide (NoDup (selected_tasks m)))
    with ValidationError "composition selects a task from multiple publications";;
  raise_if negb (bool_decide (NoDup (unsupported_keys m)))
    with ValidationError "composition has duplicate unsupported tasks";;
  raise_if existsb (fun key => bool_decide (key ∈ unsupported_keys m)) (selected_tasks m)
    with ValidationError "unsupported task is also selected from a publication";;
  let* _ := in_validator (_validate_relative_path (cm_evidence_prefix m)) in
  Ok m.

Record ComposedResult := {
  cr_manifest : ResultCompositionManifest;
  cr_envelope : PublicationEnvelope;
  cr_tables : ResultTables;
  cr_evidence_files : list DatasetFile;
}.

(** [TableName], [_table_names] *)
Inductive TableName := table_runs | table_trials | table_executions | table_metrics | table_artifacts.
Definition TableName_value (t : TableName) : string :=
  match t with
  | table_runs => "runs" | table_trials => "trials" | table_executions => "executions"
  | table_metrics => "metrics" | table_artifacts => "artifacts"
  end.
Definition _table_names : list TableName :=
  [table_runs; table_trials; table_executions; table_metrics; table_artifacts].

Record ProjectionFileReference := {
  pf_path : string;
  pf_sha256 : string;
  pf_row_count : Z;
}.

Definition validate_ProjectionFileReference (p : ProjectionFileReference) : result ProjectionFileReference :=
  let* _ := fields_ok "ProjectionFileReference"
    (nonempty (pf_path p) && is_content_digest (pf_sha256 p) && (0 <=? pf_row_count p)) in
  let* _ := in_validator (_validate_relative_path (pf_path p)) in
  Ok p.

(** The fields from [envelope_path] to [harbor_archive_sha256s] are those of the
    provenance. *)
Record ResultProjection := {
  rj_publication_id : string;
  rj_run_id : string;
  rj_source_bucket : string;
  rj_source_prefix : string;
  rj_source_checksum : string;
  rj_control_commit : string;
  rj_provenance : PublicationProvenance;
  rj_tables : list (TableName * ProjectionFileReference);
}.

Definition validate_ResultProjection (p : ResultProjection) : result ResultProjection :=
  let* _ := fields_ok "ResultProjection"
    (is_entity_id (rj_publication_id p) && is_entity_id (rj_run_id p) && nonempty (rj_source_bucket p) &&
     nonempty (rj_source_prefix p) && is_content_digest (rj_source_checksum p) &&
     is_revision (rj_control_commit p) && provenance_fields_valid (rj_provenance p)) in
  raise_if negb (same_set (map (fun e => TableName_value e.1) (rj_tables p)) (map TableName_value _table_names))
    with ValidationError "projection does not reference every query table";;
  Ok p.

Record RebuildRequest := { rq_source : EvidenceSource; rq_control_commit : string }.

Record AuditReport := {
  ar_publication_id : string;
  ar_source_checksum : string;
  ar_row_counts : list (TableName * Z);
}.

(** [CatalogDecision] *)
Inductive CatalogDecisionAction := decision_promote | decision_withdraw.

Record CatalogDecision := {
  dn_decision_id : string;
  dn_publication_id : string;
  dn_action : CatalogDecisionAction;
  dn_actor : string;
  dn_reason : string;
  dn_created_at : Z;
}.

Definition validate_CatalogDecision (d : CatalogDecision) : result CatalogDecision :=
  let* _ := fields_ok "CatalogDecision"
    (is_entity_id (dn_decision_id d) && is_entity_id (dn_publication_id d) && nonempty (dn_actor d) &&
     nonempty (dn_reason d)) in
  Ok d.

#[export] Instance TraceValues_eq_dec : EqDecision TraceValues. Proof. solve_decision. Defined.
#[export] Instance RunRow_eq_dec : EqDecision RunRow. Proof. solve_decision. Defined.
#[export] Instance TrialRow_eq_dec : EqDecision TrialRow. Proof. solve_decision. Defined.
#[export] Instance ExecutionRow_eq_dec : EqDecision ExecutionRow. Proof. solve_decision. Defined.
#[export] Instance MetricRow_eq_dec : EqDecision MetricRow. Proof. solve_decision. Defined.
#[export] Instance ArtifactRow_eq_dec : EqDecision ArtifactRow. Proof. solve_decision. Defined.
#[export] Instance PublicationProvenance_eq_dec : EqDecision PublicationProvenance. Proof. solve_decision. Defined.
#[export] Instance GlobalIndexRow_eq_dec : EqDecision GlobalIndexRow. Proof. solve_decision. Defined.
#[export] Instance CatalogRow_eq_dec : EqDecision CatalogRow. Proof. solve_decision. Defined.

(** [==] of rows: the two zeros of a float are equal. *)
Definition metric_key (m : MetricRow) : TraceValues * string * OwnerType * string * string * string * option string :=
  (mw_trace m, mw_metric_id m, mw_owner_type m, mw_owner_id m, mw_name m, mw_unit m, mw_aggregation m).

Definition MetricRow_eqb (a b : MetricRow) : bool :=
  bool_decide (metric_key a = metric_key b) && SFeqb (mw_value a) (mw_value b).

Fixpoint list_eqb {A} (eqb : A -> A -> bool) (a b : list A) : bool :=
  match a, b with
  | [], [] => true
  | x :: a, y :: b => eqb x y && list_eqb eqb a b
  | _, _ => false
  end.

Definition ResultTables_eqb (a b : ResultTables) : bool :=
  String.eqb (rt_publication_id a) (rt_publication_id b) && bool_decide (rt_runs a = rt_runs b) &&
  bool_decide (rt_trials a = rt_trials b) && bool_decide (rt_executions a = rt_executions b) &&
  list_eqb MetricRow_eqb (rt_metrics a) (rt_metrics b) && bool_decide (rt_artifacts a = rt_artifacts b) &&
  bool_decide (rt_provenance a = rt_provenance b).
