(* ===== verification/Results.v ===== *)
(** Results of sealed runs (src/src/harbor_hf/results.py).

    A publication is rebuilt from evidence: the exact listing, the checksums of
    every object, the summary, the run lock and the envelope must agree before a
    row is made.  Composition replaces tasks of a base publication by those of
    corrections.  Parquet is pyarrow's, and the parsers are Pydantic's. *)
From Stdlib Require Import Floats.SpecFloat.
From S2P Require Import Prelude.
From S2P Require Import PyDict.
From S2P Require Import Float64.
From S2P Require Import Sha256.
From S2P Require Import Json.
From S2P Require Import Patterns.
From S2P Require Import PyText.
From S2P Require Import Campaigns.
From S2P Require Import Models.
From S2P Require Import Manifest.
From S2P Require Import Hub.
From S2P Require Import Control.
From S2P Require Import Observer.
From S2P Require Import BucketEvidence.
From S2P Require Import Envelope.
From S2P Require Import ResultModels.
From S2P Require Import ResultTables.

(** [model_validate_json] and [model_validate] of the evidence of a run *)
Class ResultParsers := {
  result_evidence_validate_json : string -> result ResultEvidence;
  publication_envelope_validate_json : string -> result PublicationEnvelope;
  checksum_map_validate_json : string -> result (dict string);
  lock_validate_json : string -> result (dict json);
  model_profile_validate : json -> result ModelProfile;
  deployment_target_validate : json -> result DeploymentTarget;
  agent_profile_validate : json -> result AgentProfile;
}.

Definition publication_error {A} (message : string) : result A := Err (ResultPublicationError message).

(** A dictionary from its items: the last of a key stays. *)
Definition map_of {K} `{Countable K} {A} (items : list (K * A)) : gmap K A :=
  fold_left (fun m (e : K * A) => <[e.1 := e.2]> m) items ∅.

(** ** Identities *)
Definition _is_commit (value : string) : bool := hex_fullmatch 40 value || hex_fullmatch 64 value.

Definition short_digest (value : json) : string :=
  str_take 32 (str_removeprefix "sha256:" (canonical_digest value)).

Definition RESULT_PUBLICATION_CONTRACT : string := "harbor-hf/result-publication/v1".

Definition _publication_id (run_id : string) (source : EvidenceSource)
    (source_checksum lock_checksum execution_profile_sha256 : string) : string :=
  "pub-" +:+ short_digest (jobj [
    ("publication_contract", JStr RESULT_PUBLICATION_CONTRACT); ("run_id", JStr run_id);
    ("source_bucket", JStr (src_bucket source)); ("source_prefix", JStr (src_prefix source));
    ("source_checksum", JStr source_checksum); ("run_lock_sha256", JStr lock_checksum);
    ("execution_profile_sha256", JStr execution_profile_sha256)]).

Definition _metric_id (run_id : string) (record : MetricEvidence) : string :=
  "metric-" +:+ short_digest (jobj (("run_id", JStr run_id) :: MetricEvidence_fields record)).

Definition _artifact_id (run_id : string) (record : ArtifactEvidence) : string :=
  "artifact-" +:+ short_digest (jobj [
    ("run_id", JStr run_id); ("owner_type", JStr (OwnerType_value (ae_owner_type record)));
    ("owner_id", JStr (ae_owner_id record)); ("path", JStr (ae_path record));
    ("sha256", JStr (ae_sha256 record))]).

Definition _composition_entity_id (kind : string) (parts : list string) : string :=
  kind +:+ "-" +:+ sha256_hex_prefix 24 (str_join ":" parts).

(** ** Verified evidence *)
Section verify.
Context {W : Type} `{EvidenceReader W} `{ResultParsers}.
Context (source : EvidenceSource).

Definition read_source (path : string) : hub W string := read_bytes (src_bucket source) (src_prefix source) path.

(** [except Exception as error: raise ResultPublicationError(message)] *)
Definition or_publication_error {A} (message : string) (m : hub W A) : hub W A :=
  hub_catch m (fun _ => Some (hub_raise (ResultPublicationError message))).

Definition _verified_listing : hub W (list string) :=
  do paths <- list_files (src_bucket source) (src_prefix source);;
  if negb (str_unique paths) then hub_lift (publication_error "evidence listing contains duplicate paths")
  else
    do _v <- hub_lift (mapM _validate_relative_path paths);;
    if negb (same_set (List.filter (fun marker => str_mem marker paths) _RESULT_MARKERS) ["_SUCCESS"])
    then hub_lift (publication_error "evidence is not an exclusively successful run")
    else if negb (str_mem _CHECKSUMS_PATH paths)
    then hub_lift (publication_error "evidence has no checksum manifest")
    else hub_ret paths.

Definition _load_checksums : hub W (dict string) :=
  or_publication_error "evidence checksum manifest is invalid"
    (do content <- read_source _CHECKSUMS_PATH;; hub_lift (checksum_map_validate_json content)).

(** One step of [_verify_object_checksums]. *)
Definition verify_object (entry : string * string) : hub W unit :=
  do content <- read_source entry.1;;
  if String.eqb (content_digest content) entry.2 then hub_ret tt
  else hub_lift (publication_error ("evidence checksum mismatch: " +:+ entry.1)).

Definition _verify_object_checksums (checksums : dict string) : hub W unit :=
  do _us <- hub_mapM verify_object (sort_by key_leb checksums);; hub_ret tt.

Definition _load_summary_and_lock : hub W (ResultEvidence * dict json) :=
  or_publication_error "evidence summary or run lock is invalid"
    (do content <- read_source (src_summary_path source);;
     do summary <- hub_lift (result_evidence_validate_json content);;
     do content <- read_source (src_run_lock_path source);;
     do lock <- hub_lift (lock_validate_json content);;
     hub_ret (summary, lock)).

(** The integer an attempt count is; a boolean is an integer. *)
Definition json_int (value : option json) : option Z :=
  match value with
  | Some (JInt z) => Some z
  | Some (JBool b) => Some (if b then 1 else 0)
  | _ => None
  end.

Definition json_text (e : string * json) : option (string * string) :=
  match e.2 with JStr s => Some (e.1, s) | _ => None end.

Definition locked_tasks (lock : dict json) : option (list (string * string) * Z) :=
  match dict_get lock "benchmark_task_digests", json_int (dict_get lock "attempts") with
  | Some (JObj locked), Some attempts =>
      match mapM (fun e => match json_text e with Some t => Ok t | None => Err TypeError end) locked with
      | Ok locked => if attempts <? 1 then None else Some (locked, attempts)
      | Err _ => None
      end
  | _, _ => None
  end.

Definition expected_tasks (locked : list (string * string)) (attempts : Z) : gmap (string * Z) string :=
  map_of (flat_map (fun task : string * string =>
    map (fun attempt => ((task.1, attempt), task.2)) (range1 attempts)) locked).

Definition observed_tasks (trials : list TrialEvidence) : gmap (string * Z) string :=
  map_of (map (fun t => ((te_task_name t, te_logical_attempt t), te_task_digest t)) trials).

Definition _validate_summary_tasks_against_lock (summary : ResultEvidence) (lock : dict json) : result unit :=
  match locked_tasks lock with
  | None => publication_error "run lock omits its planned task identities"
  | Some (locked, attempts) =>
      let observed := observed_tasks (rv_trials summary) in
      raise_if negb (Z.of_nat (size observed) =? len (rv_trials summary)) ||
               negb (bool_decide (observed = expected_tasks locked attempts))
        with ResultPublicationError "evidence tasks do not match its run lock";;
      Ok tt
  end.

(** [lock.get(key) != value] *)
Definition lock_says (lock : dict json) (key : string) (value : option string) : bool :=
  match dict_get lock key, value with
  | Some (JStr observed), Some expected => String.eqb observed expected
  | (None | Some JNull), None => true
  | _, _ => false
  end.

(** One step of [_verify_artifact_evidence]. *)
Definition verify_artifact (checksums : dict string) (artifact : ArtifactEvidence) : hub W unit :=
  if negb (bool_decide (dict_get checksums (ae_path artifact) = Some (ae_sha256 artifact)))
  then hub_lift (publication_error "artifact row is not backed by its checksum")
  else
    do content <- read_source (ae_path artifact);;
    if negb (Z.of_nat (String.length content) =? ae_size_bytes artifact)
    then hub_lift (publication_error "artifact row has the wrong evidence size")
    else hub_ret tt.

Definition _verify_artifact_evidence (checksums : dict string) (artifacts : list ArtifactEvidence) : hub W unit :=
  do _us <- hub_mapM (verify_artifact checksums) artifacts;; hub_ret tt.

(** What [_verify_evidence] returns. *)
Record verified := {
  vd_summary : ResultEvidence;
  vd_lock : dict json;
  vd_source_checksum : string;
  vd_lock_checksum : string;
  vd_checksums : dict string;
}.

Definition _verify_evidence : hub W verified :=
  do paths <- _verified_listing;;
  do checksums <- _load_checksums;;
  let expected_paths := List.filter (fun path => negb (str_mem path ["_SUCCESS"; _CHECKSUMS_PATH])) paths in
  if negb (same_set (dict_keys checksums) expected_paths)
  then hub_lift (publication_error "evidence checksum manifest is incomplete")
  else
    do _o <- _verify_object_checksums checksums;;
    if negb (dict_has checksums (src_summary_path source)) || negb (dict_has checksums (src_run_lock_path source))
    then hub_lift (publication_error "evidence omits its summary or immutable run lock")
    else
      do loaded <- _load_summary_and_lock;;
      let summary := loaded.1 in
      let lock := loaded.2 in
      let run := rv_run summary in
      if negb (lock_says lock "run_id" (Some (re_run_id run)))
      then hub_lift (publication_error "evidence summary does not match its run lock")
      else if negb (lock_says lock "evaluation_id" (Some (re_evaluation_id run))) ||
              negb (lock_says lock "publication_role" (Some (role_value (re_publication_role run)))) ||
              negb (lock_says lock "component_kind" (option_map component_value (re_component_kind run)))
      then hub_lift (publication_error "evidence publication role does not match its run lock")
      else
        do _t <- hub_lift (_validate_summary_tasks_against_lock summary lock);;
        do _a <- _verify_artifact_evidence checksums (rv_artifacts summary);;
        do lock_checksum <- hub_lift (dict_item checksums (src_run_lock_path source));;
        hub_ret {| vd_summary := summary; vd_lock := lock;
                   vd_source_checksum := canonical_digest (jdict JStr checksums);
                   vd_lock_checksum := lock_checksum; vd_checksums := checksums |}.

(** ** Provenance *)
Definition _execution_profile_from_lock (lock : dict json) : result string :=
  let get key := match dict_get lock key with Some value => value | None => JNull end in
  match
    (let* model := model_profile_validate (get "model") in
     let* deployment := deployment_target_validate (get "deployment") in
     let* agent := agent_profile_validate (get "agent") in
     Ok (model, deployment, agent))
  with
  | Ok (model, deployment, agent) => Ok (execution_profile_digest model deployment agent)
  | Err _ => publication_error "run lock omits a valid execution profile"
  end.

Definition _validate_envelope_identity (envelope : PublicationEnvelope) (summary : ResultEvidence)
    (checksums : dict string) : result unit :=
  let run := rv_run summary in
  raise_if negb (String.eqb (pe_run_id envelope) (re_run_id run)) ||
           negb (String.eqb (pe_campaign_id envelope) (re_campaign_id run)) ||
           negb (String.eqb (pe_evidence_bucket envelope) (src_bucket source)) ||
           negb (String.eqb (pe_evidence_prefix envelope) (rstrip_slash (src_prefix source))) ||
           negb (String.eqb (or_path (pe_run_lock envelope)) (src_run_lock_path source)) ||
           negb (bool_decide (dict_get checksums (src_run_lock_path source) = Some (or_digest (pe_run_lock envelope))))
    with ResultPublicationError "publication envelope identity conflicts";;
  let runtime := pe_runtime envelope in
  raise_if negb (String.eqb (ri_provider runtime) (re_provider run)) ||
           negb (String.eqb (ri_region runtime) (re_region run)) ||
           negb (String.eqb (ri_hardware runtime) (re_hardware run)) ||
           negb (ri_accelerator_count runtime =? re_accelerator_count run)
    with ResultPublicationError "publication envelope runtime conflicts";;
  Ok tt.

(** What an execution says in both records. *)
Definition execution_facts : Type :=
  string * Z * PhysicalStatus * option RetryCategory * Z * Z * option string * option string.
Definition evidence_facts (x : ExecutionEvidence) : string * execution_facts :=
  (xe_execution_id x, (xe_trial_id x, xe_physical_attempt x, xe_status x, xe_failure_category x, xe_started_at x,
   xe_completed_at x, xe_retry_reason x, xe_remote_job_id x)).
Definition reference_facts (x : PhysicalExecutionReference) : string * execution_facts :=
  (px_execution_id x, (px_trial_id x, px_physical_attempt x, px_status x, px_failure_category x, px_started_at x,
   px_completed_at x, px_retry_reason x, px_remote_job_id x)).

Definition _validate_envelope_executions (envelope : PublicationEnvelope) (summary : ResultEvidence) : result unit :=
  raise_if negb (bool_decide (map_of (map reference_facts (pe_executions envelope)) =
                              map_of (map evidence_facts (rv_executions summary))))
    with ResultPublicationError "publication envelope executions conflict with normalized evidence";;
  Ok tt.

(** One step of the loop of [_load_publication_provenance]. *)
Definition add_bundle (checksums : dict string) (bundles : list (string * string))
    (execution : PhysicalExecutionReference) : result (list (string * string)) :=
  match px_harbor_bundle execution with
  | None => Ok bundles
  | Some bundle =>
      raise_if negb (bool_decide (dict_get checksums (or_path (hb_manifest bundle)) = Some (or_digest (hb_manifest bundle))))
        with ResultPublicationError "publication envelope has an unverified Harbor bundle";;
      raise_if negb (bool_decide (dict_get checksums (or_path (hb_archive bundle)) = Some (or_digest (hb_archive bundle))))
        with ResultPublicationError "publication envelope has an unverified Harbor archive";;
      Ok (bundles ++ [(or_digest (hb_manifest bundle), or_digest (hb_archive bundle))])
  end.

Definition _load_publication_provenance (summary : ResultEvidence) (lock : dict json) (checksums : dict string)
    : hub W PublicationProvenance :=
  match dict_get checksums PUBLICATION_ENVELOPE_PATH with
  | None => hub_lift (publication_error "evidence has no canonical publication envelope")
  | Some envelope_digest =>
      do envelope <- or_publication_error "publication envelope is invalid"
        (do content <- read_source PUBLICATION_ENVELOPE_PATH;;
         hub_lift (publication_envelope_validate_json content));;
      do _i <- hub_lift (_validate_envelope_identity envelope summary checksums);;
      do _x <- hub_lift (_validate_envelope_executions envelope summary);;
      do bundles <- hub_lift (foldM (add_bundle checksums) [] (pe_executions envelope));;
      do profile <- hub_lift (_execution_profile_from_lock lock);;
      hub_lift (validate_PublicationProvenance {|
        pp_envelope_sha256 := envelope_digest;
        pp_projection_version := PROJECTION_VERSION;
        pp_sanitizer_version := SANITIZER_VERSION;
        pp_execution_profile_sha256 := profile;
        pp_harbor_bundle_manifest_sha256s := map fst bundles;
        pp_harbor_archive_sha256s := map snd bundles |})
  end.

(** ** Rows *)
Definition trace_of (control_commit : string) (evidence : verified) (provenance : PublicationProvenance) : TraceValues :=
  let run_id := re_run_id (rv_run (vd_summary evidence)) in {|
    tc_publication_id := _publication_id run_id source (vd_source_checksum evidence) (vd_lock_checksum evidence)
      (pp_execution_profile_sha256 provenance);
    tc_run_id := run_id; tc_source_bucket := src_bucket source; tc_source_prefix := src_prefix source;
    tc_source_checksum := vd_source_checksum evidence; tc_run_lock_path := src_run_lock_path source;
    tc_run_lock_sha256 := vd_lock_checksum evidence; tc_control_commit := control_commit |}.
End verify.

(** [sum(trial.outcome == outcome for trial in trials)] *)
Definition outcome_count {A} (outcome_of : A -> ResultOutcome) (trials : list A) (outcome : ResultOutcome) : Z :=
  count_if (fun trial => bool_decide (outcome_of trial = outcome)) trials.

Definition run_row (trace : TraceValues) (summary : ResultEvidence) : result RunRow :=
  let run := rv_run summary in
  let count := outcome_count te_outcome (rv_trials summary) in
  validate_RunRow {|
    rw_trace := trace; rw_campaign_id := re_campaign_id run; rw_experiment := re_experiment run;
    rw_evaluation_id := re_evaluation_id run; rw_publication_role := re_publication_role run;
    rw_component_kind := re_component_kind run; rw_source_publication_ids := [];
    rw_benchmark := re_benchmark run; rw_benchmark_revision := re_benchmark_revision run;
    rw_result_kind := re_result_kind run; rw_quality := re_quality run; rw_created_at := re_created_at run;
    rw_completed_at := re_completed_at run; rw_model_id := re_model_id run; rw_model_repo := re_model_repo run;
    rw_model_revision := re_model_revision run; rw_deployment_id := re_deployment_id run;
    rw_provider := re_provider run; rw_region := re_region run; rw_hardware := re_hardware run;
    rw_accelerator_count := re_accelerator_count run; rw_agent_id := re_agent_id run;
    rw_agent_name := re_agent_name run; rw_agent_revision := re_agent_revision run;
    rw_planned_trial_count := len (rv_trials summary);
    rw_scored_trial_count := count task_scored;
    rw_agent_failed_count := count task_agent_failed;
    rw_benchmark_failed_count := count task_benchmark_failed;
    rw_infrastructure_exhausted_count := count task_infrastructure_exhausted;
    rw_unsupported_count := count task_unsupported;
    rw_execution_count := len (rv_executions summary) |}.

Definition trial_row (trace : TraceValues) (t : TrialEvidence) : result TrialRow :=
  validate_TrialRow {|
    tw_trace := trace; tw_trial_id := te_trial_id t; tw_task_name := te_task_name t;
    tw_task_digest := te_task_digest t; tw_logical_attempt := te_logical_attempt t;
    tw_selected_execution_id := te_selected_execution_id t; tw_outcome := te_outcome t |}.

Definition execution_row (trace : TraceValues) (x : ExecutionEvidence) : result ExecutionRow :=
  validate_ExecutionRow {|
    xw_trace := trace; xw_execution_id := xe_execution_id x; xw_trial_id := xe_trial_id x;
    xw_physical_attempt := xe_physical_attempt x; xw_runtime_kind := xe_runtime_kind x;
    xw_status := xe_status x; xw_failure_category := xe_failure_category x; xw_started_at := xe_started_at x;
    xw_completed_at := xe_completed_at x; xw_retry_reason := xe_retry_reason x;
    xw_remote_job_id := xe_remote_job_id x |}.

Definition metric_row (trace : TraceValues) (run_id : string) (m : MetricEvidence) : result MetricRow :=
  validate_MetricRow {|
    mw_trace := trace; mw_metric_id := _metric_id run_id m; mw_owner_type := me_owner_type m;
    mw_owner_id := me_owner_id m; mw_name := me_name m; mw_value := me_value m; mw_unit := me_unit m;
    mw_aggregation := me_aggregation m |}.

Definition artifact_row (trace : TraceValues) (run_id : string) (a : ArtifactEvidence) : result ArtifactRow :=
  validate_ArtifactRow {|
    aw_trace := trace; aw_artifact_id := _artifact_id run_id a; aw_owner_type := ae_owner_type a;
    aw_owner_id := ae_owner_id a; aw_kind := ae_kind a; aw_path := ae_path a; aw_sha256 := ae_sha256 a;
    aw_media_type := ae_media_type a; aw_size_bytes := ae_size_bytes a |}.

(** [sorted(records, key=key)] for a key of texts *)
Definition sorted_on {A} (key : A -> string) (records : list A) : list A :=
  sort_by (fun x y => str_leb (key x) (key y)) records.
Definition sorted_on_texts {A} (key : A -> list string) (records : list A) : list A :=
  sort_by (fun x y => strs_leb (key x) (key y)) records.

(** The rows of verified evidence, in the order [build_result_tables] makes them. *)
Definition result_tables_of (trace : TraceValues) (summary : ResultEvidence) (provenance : PublicationProvenance)
    : result ResultTables :=
  let run_id := re_run_id (rv_run summary) in
  let* run := run_row trace summary in
  let* trials := mapM (trial_row trace) (sorted_on te_trial_id (rv_trials summary)) in
  let* executions := mapM (execution_row trace) (sorted_on xe_execution_id (rv_executions summary)) in
  let* metrics := mapM (metric_row trace run_id) (sorted_on_texts _measurement_key (rv_metrics summary)) in
  let* artifacts := mapM (artifact_row trace run_id) (sorted_on_texts _artifact_key (rv_artifacts summary)) in
  validate_ResultTables {|
    rt_publication_id := tc_publication_id trace; rt_runs := [run]; rt_trials := trials;
    rt_executions := executions; rt_metrics := metrics; rt_artifacts := artifacts;
    rt_provenance := provenance |}.

Section build.
Context {W : Type} `{EvidenceReader W} `{ResultParsers}.

Definition build_result_tables (source : EvidenceSource) (control_commit : string) : hub W ResultTables :=
  if negb (_is_commit control_commit)
  then hub_raise (ValueError "control commit must be a 40- or 64-character hex digest")
  else
    do evidence <- _verify_evidence source;;
    do provenance <- _load_publication_provenance source (vd_summary evidence) (vd_lock evidence)
      (vd_checksums evidence);;
    hub_lift (result_tables_of (trace_of source control_commit evidence provenance) (vd_summary evidence) provenance).

Definition request_key (request : RebuildRequest) : list string :=
  [src_bucket (rq_source request); src_prefix (rq_source request); rq_control_commit request].

Definition rebuild_result_tables (requests : list RebuildRequest) : hub W (list ResultTables) :=
  do rebuilt <- hub_mapM (fun request => build_result_tables (rq_source request) (rq_control_commit request))
    (sorted_on_texts request_key requests);;
  if negb (str_unique (map rt_publication_id rebuilt))
  then hub_lift (publication_error "rebuild contains a duplicate publication")
  else hub_ret rebuilt.

Definition table_counts (t : ResultTables) : list (TableName * Z) :=
  [(table_runs, len (rt_runs t)); (table_trials, len (rt_trials t)); (table_executions, len (rt_executions t));
   (table_metrics, len (rt_metrics t)); (table_artifacts, len (rt_artifacts t))].

Definition audit_result_tables (source : EvidenceSource) (control_commit : string) (observed : ResultTables)
    : hub W AuditReport :=
  do expected <- build_result_tables source control_commit;;
  if negb (ResultTables_eqb observed expected)
  then hub_lift (publication_error "published rows differ from canonical evidence")
  else
    do run <- hub_lift (first_run expected);;
    hub_ret {| ar_publication_id := rt_publication_id expected;
               ar_source_checksum := tc_source_checksum (rw_trace run);
               ar_row_counts := table_counts expected |}.
End build.
