(* ===== verification/Composition.v ===== *)
(** Composed results (the composition of src/src/harbor_hf/results.py).

    A composition takes every task of a base publication from exactly one
    source: the base itself or a correction of the task.  Tasks that cannot run
    are added as unsupported.  The rows keep their identities and get the trace of
    the composed publication. *)
From Stdlib Require Import Floats.SpecFloat.
From S2P Require Import Prelude.
From S2P Require Import PyDict.
From S2P Require Import Float64.
From S2P Require Import Sha256.
From S2P Require Import Json.
From S2P Require Import PyText.
From S2P Require Import Campaigns.
From S2P Require Import Models.
From S2P Require Import Manifest.
From S2P Require Import Control.
From S2P Require Import Envelope.
From S2P Require Import ResultModels.
From S2P Require Import ResultTables.
From S2P Require Import Results.

(** [model_dump(mode="json")] of a manifest *)
Definition UnsupportedTask_dump (t : UnsupportedTask) : json :=
  jobj (fld "task_name" (JStr (ut_task_name t)) ++ fld "task_digest" (JStr (ut_task_digest t)) ++
        fld "logical_attempt" (JInt (ut_logical_attempt t))).

Definition ResultCompositionManifest_dump (m : ResultCompositionManifest) : json :=
  jobj (fld "schema_version" (JStr "harbor-hf/result-composition/v1") ++
        fld "run_id" (JStr (cm_run_id m)) ++ fld "campaign_id" (JStr (cm_campaign_id m)) ++
        fld "experiment" (JStr (cm_experiment m)) ++
        fld "created_at" (JStr (json_datetime (cm_created_at m))) ++
        fld "completed_at" (JStr (json_datetime (cm_completed_at m))) ++
        fld "evidence_bucket" (JStr (cm_evidence_bucket m)) ++
        fld "evidence_prefix" (JStr (cm_evidence_prefix m)) ++
        fld "sources" (JArr (map SourcePublicationReference_dump (cm_sources m))) ++
        fld "unsupported_tasks" (JArr (map UnsupportedTask_dump (cm_unsupported_tasks m)))).

(** [row.model_copy(update={**trace})]: no validation *)
Definition trial_with (trace : TraceValues) (t : TrialRow) : TrialRow := {|
  tw_trace := trace; tw_trial_id := tw_trial_id t; tw_task_name := tw_task_name t;
  tw_task_digest := tw_task_digest t; tw_logical_attempt := tw_logical_attempt t;
  tw_selected_execution_id := tw_selected_execution_id t; tw_outcome := tw_outcome t |}.

Definition execution_with (trace : TraceValues) (x : ExecutionRow) : ExecutionRow := {|
  xw_trace := trace; xw_execution_id := xw_execution_id x; xw_trial_id := xw_trial_id x;
  xw_physical_attempt := xw_physical_attempt x; xw_runtime_kind := xw_runtime_kind x; xw_status := xw_status x;
  xw_failure_category := xw_failure_category x; xw_started_at := xw_started_at x;
  xw_completed_at := xw_completed_at x; xw_retry_reason := xw_retry_reason x;
  xw_remote_job_id := xw_remote_job_id x |}.

Definition metric_with (trace : TraceValues) (m : MetricRow) : MetricRow := {|
  mw_trace := trace; mw_metric_id := mw_metric_id m; mw_owner_type := mw_owner_type m;
  mw_owner_id := mw_owner_id m; mw_name := mw_name m; mw_value := mw_value m; mw_unit := mw_unit m;
  mw_aggregation := mw_aggregation m |}.

(** ** Sources *)
Definition task_key : Type := string * Z.
Definition _trial_key (trial : TrialRow) : task_key := (tw_task_name trial, tw_logical_attempt trial).

(** One step of the loop of [_validate_composition_sources]. *)
Definition check_source (sources : dict ResultTables) (source : SourcePublicationReference) : result unit :=
  let* tables := dict_item sources (sr_publication_id source) in
  let* run := first_run tables in
  raise_if negb (String.eqb (rt_publication_id tables) (sr_publication_id source)) ||
           negb (String.eqb (tc_run_id (rw_trace run)) (sr_run_id source)) ||
           negb (String.eqb (tc_source_checksum (rw_trace run)) (sr_source_checksum source))
    with ResultPublicationError "composition source identity conflicts";;
  Ok tt.

Definition _validate_composition_sources (manifest : ResultCompositionManifest)
    (sources : dict ResultTables) : result unit :=
  raise_if negb (same_set (dict_keys sources) (map sr_publication_id (cm_sources manifest)))
    with ResultPublicationError "composition sources do not match its manifest";;
  let* _ := mapM (check_source sources) (cm_sources manifest) in
  Ok tt.

(** The fields that must agree between a source and the base. *)
Definition run_identity (run : RunRow) : string * string * string * string * string * string * Z * string * string :=
  (rw_benchmark_revision run, rw_model_repo run, rw_model_revision run, rw_provider run, rw_region run,
   rw_hardware run, rw_accelerator_count run, rw_agent_name run, rw_agent_revision run).

(** [run.component_kind != reference.role]: a component kind and a role are texts. *)
Definition component_is (k : option ComponentKind) (role : SourceRole) : bool :=
  match k with Some k => String.eqb (component_value k) (SourceRole_value role) | None => false end.

Definition source_compatible (base : RunRow) (sources : dict ResultTables)
    (reference : SourcePublicationReference) : result unit :=
  let* tables := dict_item sources (sr_publication_id reference) in
  let* run := first_run tables in
  raise_if negb (bool_decide (rw_result_kind run = result_ordinary)) ||
           negb (String.eqb (rw_evaluation_id run) (rw_evaluation_id base)) ||
           negb (bool_decide (rw_publication_role run = role_component)) ||
           negb (component_is (rw_component_kind run) (sr_role reference)) ||
           negb (bool_decide (run_identity run = run_identity base))
    with ResultPublicationError "composition sources are incompatible";;
  Ok tt.

Definition runtime_kinds (sources : dict ResultTables) : list RuntimeKind :=
  remove_dups (flat_map (fun tables => map xw_runtime_kind (rt_executions tables)) (dict_values sources)).

Definition _validate_composition_compatibility (manifest : ResultCompositionManifest)
    (sources : dict ResultTables) (base : RunRow) : result unit :=
  let profiles := map (fun tables => pp_execution_profile_sha256 (rt_provenance tables)) (dict_values sources) in
  raise_if negb (len (remove_dups profiles) =? 1)
    with ResultPublicationError "composition sources are incompatible";;
  let* _ := mapM (source_compatible base sources) (cm_sources manifest) in
  raise_if is_nil (runtime_kinds sources)
    with ResultPublicationError "composition sources contain no executions";;
  raise_if negb (len (runtime_kinds sources) =? 1)
    with ResultPublicationError "composition sources use mixed runtime kinds";;
  Ok tt.

(** ** Selection *)
Definition trials_by_key (trials : list TrialRow) : gmap task_key TrialRow :=
  map_of (map (fun trial => (_trial_key trial, trial)) trials).

Definition _validate_correction_trial (source : SourcePublicationReference) (trial : TrialRow)
    (base_trials : gmap task_key TrialRow) : result unit :=
  if negb (bool_decide (sr_role source = source_correction)) then Ok tt
  else
    match base_trials !! _trial_key trial with
    | Some base_trial =>
        raise_if negb (String.eqb (tw_task_digest base_trial) (tw_task_digest trial))
          with ResultPublicationError "correction task conflicts with the base publication";;
        Ok tt
    | None => publication_error "correction task conflicts with the base publication"
    end.

Definition selected_row : Type := TrialRow * ResultTables.

Definition select_trial (base_trials : gmap task_key TrialRow) (source : SourcePublicationReference)
    (tables : ResultTables) (by_key : gmap task_key TrialRow) (selection : SourceTrialSelection)
    : result selected_row :=
  match by_key !! (ss_task_name selection, ss_logical_attempt selection) with
  | None => publication_error "composition selects an unknown source task"
  | Some trial =>
      let* _ := _validate_correction_trial source trial base_trials in
      Ok (trial, tables)
  end.

Definition select_source (sources : dict ResultTables) (base_trials : gmap task_key TrialRow)
    (source : SourcePublicationReference) : result (list selected_row) :=
  let* tables := dict_item sources (sr_publication_id source) in
  let by_key := trials_by_key (rt_trials tables) in
  raise_if negb (Z.of_nat (size by_key) =? len (rt_trials tables))
    with ResultPublicationError "composition source has duplicate trials";;
  mapM (select_trial base_trials source tables by_key) (sr_selected_trials source).

Definition _select_composition_rows (manifest : ResultCompositionManifest) (sources : dict ResultTables)
    (base : ResultTables) : result (list selected_row) :=
  let base_trials := trials_by_key (rt_trials base) in
  let* selected := mapM (select_source sources base_trials) (cm_sources manifest) in
  let selected_rows := concat selected in
  raise_if negb (bool_decide (dom base_trials = list_to_set (map (fun r => _trial_key r.1) selected_rows) :> gset task_key))
    with ResultPublicationError "composition does not resolve every task in the base publication";;
  Ok selected_rows.

(** ** Rows of a composition *)
Definition _composition_trace (manifest : ResultCompositionManifest)
    (manifest_digest execution_profile_sha256 control_commit : string) : result TraceValues :=
  let* source := validate_EvidenceSource {|
    src_bucket := cm_evidence_bucket manifest; src_prefix := cm_evidence_prefix manifest;
    src_run_lock_path := "composition.json"; src_summary_path := _SUMMARY_PATH |} in
  Ok {| tc_publication_id := _publication_id (cm_run_id manifest) source manifest_digest manifest_digest
          execution_profile_sha256;
        tc_run_id := cm_run_id manifest; tc_source_bucket := cm_evidence_bucket manifest;
        tc_source_prefix := cm_evidence_prefix manifest; tc_source_checksum := manifest_digest;
        tc_run_lock_path := "composition.json"; tc_run_lock_sha256 := manifest_digest;
        tc_control_commit := control_commit |}.

Definition _copy_selected_metrics (trial : TrialRow) (executions : list ExecutionRow) (tables : ResultTables)
    (trace : TraceValues) : list MetricRow :=
  let execution_ids := map xw_execution_id executions in
  map (metric_with trace) (List.filter (fun metric =>
    (bool_decide (mw_owner_type metric = owner_trial) && String.eqb (mw_owner_id metric) (tw_trial_id trial)) ||
    (bool_decide (mw_owner_type metric = owner_execution) && str_mem (mw_owner_id metric) execution_ids))
    (rt_metrics tables)).

Definition unsupported_trial_id (run_id : string) (unsupported : UnsupportedTask) : string :=
  _composition_entity_id "trial" [run_id; ut_task_name unsupported; pretty (ut_logical_attempt unsupported); "unsupported"].

Definition _unsupported_rows (run_id : string) (unsupported : UnsupportedTask) (trace : TraceValues)
    : result (TrialRow * MetricRow) :=
  let trial_id := unsupported_trial_id run_id unsupported in
  let* trial := validate_TrialRow {|
    tw_trace := trace; tw_trial_id := trial_id; tw_task_name := ut_task_name unsupported;
    tw_task_digest := ut_task_digest unsupported; tw_logical_attempt := ut_logical_attempt unsupported;
    tw_selected_execution_id := None; tw_outcome := task_unsupported |} in
  let* metric := validate_MetricEvidence {|
    me_owner_type := owner_trial; me_owner_id := trial_id; me_name := "reward"; me_value := float_zero;
    me_unit := "score"; me_aggregation := None |} in
  let* reward := metric_row trace run_id metric in
  Ok (trial, reward).

Definition trial_executions (row : selected_row) : list ExecutionRow :=
  List.filter (fun execution => String.eqb (xw_trial_id execution) (tw_trial_id row.1)) (rt_executions row.2).

Definition composed_rows : Type := list TrialRow * list ExecutionRow * list MetricRow.

Definition _compose_child_rows (manifest : ResultCompositionManifest) (selected_rows : list selected_row)
    (trace : TraceValues) : result composed_rows :=
  let* unsupported := mapM (fun task => _unsupported_rows (cm_run_id manifest) task trace)
    (cm_unsupported_tasks manifest) in
  Ok (map (fun row => trial_with trace row.1) selected_rows ++ map fst unsupported,
      flat_map (fun row => map (execution_with trace) (trial_executions row)) selected_rows,
      flat_map (fun row => _copy_selected_metrics row.1 (trial_executions row) row.2 trace) selected_rows ++
        map snd unsupported).

Definition duplicate_identities {A} (k : string) : result A :=
  publication_error ("composition has duplicate " +:+ k +:+ " identities").

Definition _require_unique_composed_rows (rows : composed_rows) : result unit :=
  let '(trials, executions, metrics) := rows in
  if negb (str_unique (map tw_trial_id trials)) then duplicate_identities "trial"
  else if negb (str_unique (map xw_execution_id executions)) then duplicate_identities "execution"
  else if negb (str_unique (map mw_metric_id metrics)) then duplicate_identities "metric"
  else Ok tt.

Definition _build_composed_run (manifest : ResultCompositionManifest) (base : RunRow) (trace : TraceValues)
    (trials : list TrialRow) (executions : list ExecutionRow) : result RunRow :=
  let count := outcome_count tw_outcome trials in
  validate_RunRow {|
    rw_trace := trace; rw_campaign_id := cm_campaign_id manifest; rw_experiment := cm_experiment manifest;
    rw_evaluation_id := rw_evaluation_id base; rw_publication_role := role_final; rw_component_kind := None;
    rw_source_publication_ids := sort_by str_leb (map sr_publication_id (cm_sources manifest));
    rw_benchmark := rw_benchmark base; rw_benchmark_revision := rw_benchmark_revision base;
    rw_result_kind := result_composed;
    rw_quality := if count task_scored <? len trials then quality_degraded else quality_clean;
    rw_created_at := cm_created_at manifest; rw_completed_at := cm_completed_at manifest;
    rw_model_id := rw_model_id base; rw_model_repo := rw_model_repo base;
    rw_model_revision := rw_model_revision base; rw_deployment_id := rw_deployment_id base;
    rw_provider := rw_provider base; rw_region := rw_region base; rw_hardware := rw_hardware base;
    rw_accelerator_count := rw_accelerator_count base; rw_agent_id := rw_agent_id base;
    rw_agent_name := rw_agent_name base; rw_agent_revision := rw_agent_revision base;
    rw_planned_trial_count := len trials;
    rw_scored_trial_count := count task_scored;
    rw_agent_failed_count := count task_agent_failed;
    rw_benchmark_failed_count := count task_benchmark_failed;
    rw_infrastructure_exhausted_count := count task_infrastructure_exhausted;
    rw_unsupported_count := count task_unsupported;
    rw_execution_count := len executions |}.

(** ** Envelope *)
Definition composed_execution (x : ExecutionRow) : result PhysicalExecutionReference :=
  validate_PhysicalExecutionReference {|
    px_execution_id := xw_execution_id x; px_trial_id := xw_trial_id x;
    px_physical_attempt := xw_physical_attempt x; px_status := xw_status x;
    px_failure_category := xw_failure_category x; px_started_at := xw_started_at x;
    px_completed_at := xw_completed_at x; px_retry_reason := xw_retry_reason x;
    px_remote_job_id := xw_remote_job_id x; px_bundle_status := bundle_source_publication;
    px_harbor_bundle := None |}.

Definition composition_profiles (manifest : ResultCompositionManifest) (base : RunRow) : result ProfileDigests :=
  validate_ProfileDigests {|
    pg_experiment := canonical_digest (jobj [
      ("experiment", JStr (cm_experiment manifest));
      ("sources", JArr (map SourcePublicationReference_dump (cm_sources manifest)))]);
    pg_model := canonical_digest (jobj [
      ("repo", JStr (rw_model_repo base)); ("revision", JStr (rw_model_revision base))]);
    pg_deployment := canonical_digest (jobj [
      ("deployment_id", JStr (rw_deployment_id base)); ("provider", JStr (rw_provider base));
      ("region", JStr (rw_region base)); ("hardware", JStr (rw_hardware base));
      ("accelerator_count", JInt (rw_accelerator_count base))]);
    pg_agent := canonical_digest (jobj [
      ("name", JStr (rw_agent_name base)); ("revision", JStr (rw_agent_revision base))]) |}.

Definition _build_composition_envelope (manifest : ResultCompositionManifest) (manifest_bytes : string)
    (base : RunRow) (executions : list ExecutionRow) : result PublicationEnvelope :=
  let* physical_executions := mapM composed_execution executions in
  let* run_lock := object_reference "composition.json" manifest_bytes in
  let* profiles := composition_profiles manifest base in
  match executions with
  | [] => Err IndexError
  | execution :: _ =>
      let* runtime := validate_RuntimeIdentity {|
        ri_kind := xw_runtime_kind execution; ri_provider := rw_provider base; ri_region := rw_region base;
        ri_hardware := rw_hardware base; ri_accelerator_count := rw_accelerator_count base |} in
      validate_PublicationEnvelope {|
        pe_run_id := cm_run_id manifest; pe_campaign_id := cm_campaign_id manifest;
        pe_created_at := cm_created_at manifest; pe_completed_at := cm_completed_at manifest;
        pe_evidence_bucket := cm_evidence_bucket manifest; pe_evidence_prefix := cm_evidence_prefix manifest;
        pe_run_lock := run_lock; pe_profiles := profiles; pe_runtime := runtime;
        pe_cleanup_outcome := match xw_runtime_kind execution with
                              | runtime_provider => cleanup_outcome_not_applicable
                              | runtime_endpoint => cleanup_outcome_verified end;
        pe_executions := physical_executions; pe_sources := cm_sources manifest |}
  end.

(** ** [compose_result_tables] *)

(** [zip(manifests, archives, strict=True)] of a source *)
Fixpoint zip_strict {A B} (xs : list A) (ys : list B) : result (list (A * B)) :=
  match xs, ys with
  | [], [] => Ok []
  | x :: xs, y :: ys => let* rest := zip_strict xs ys in Ok ((x, y) :: rest)
  | _, _ => Err (ValueError "zip() argument 2 has a different length")
  end.

Definition bundle_pairs (tables : ResultTables) : result (list (string * string)) :=
  zip_strict (pp_harbor_bundle_manifest_sha256s (rt_provenance tables))
             (pp_harbor_archive_sha256s (rt_provenance tables)).

Definition pair_leb (x y : string * string) : bool := strs_leb [x.1; x.2] [y.1; y.2].

(** [sorted({pair for tables in sources.values() for pair in ...})] *)
Definition source_pairs (sources : dict ResultTables) : result (list (string * string)) :=
  let* pairs := mapM bundle_pairs (dict_values sources) in
  Ok (sort_by pair_leb (remove_dups (concat pairs))).

Definition base_reference (manifest : ResultCompositionManifest) : result SourcePublicationReference :=
  match find (fun source => bool_decide (sr_role source = source_base)) (cm_sources manifest) with
  | Some source => Ok source
  | None => Err StopIteration
  end.

Definition composition_artifact (manifest : ResultCompositionManifest) (trace : TraceValues)
    (manifest_bytes : string) : result ArtifactRow :=
  validate_ArtifactRow {|
    aw_trace := trace; aw_artifact_id := _composition_entity_id "artifact" [cm_run_id manifest; "composition.json"];
    aw_owner_type := owner_run; aw_owner_id := cm_run_id manifest; aw_kind := artifact_composition;
    aw_path := "composition.json"; aw_sha256 := content_digest manifest_bytes;
    aw_media_type := "application/json"; aw_size_bytes := Z.of_nat (String.length manifest_bytes) |}.

Definition compose_result_tables (manifest : ResultCompositionManifest) (sources : dict ResultTables)
    (control_commit : string) : result ComposedResult :=
  raise_if negb (_is_commit control_commit)
    with ValueError "control commit must be a 40- or 64-character hex digest";;
  let* _ := _validate_composition_sources manifest sources in
  let* reference := base_reference manifest in
  let* base := dict_item sources (sr_publication_id reference) in
  let* base_run := first_run base in
  let* _ := _validate_composition_compatibility manifest sources base_run in
  let* selected_rows := _select_composition_rows manifest sources base in
  let profile := pp_execution_profile_sha256 (rt_provenance base) in
  let manifest_bytes := canonical_json_bytes (ResultCompositionManifest_dump manifest) in
  let* trace := _composition_trace manifest (content_digest manifest_bytes) profile control_commit in
  let* rows := _compose_child_rows manifest selected_rows trace in
  let* _ := _require_unique_composed_rows rows in
  let '(trials, executions, metrics) := rows in
  let* run := _build_composed_run manifest base_run trace trials executions in
  let* pairs := source_pairs sources in
  let* envelope := _build_composition_envelope manifest manifest_bytes base_run executions in
  let envelope_bytes := canonical_json_bytes (PublicationEnvelope_dump envelope) in
  let* artifact := composition_artifact manifest trace manifest_bytes in
  let* provenance := validate_PublicationProvenance {|
    pp_envelope_sha256 := content_digest envelope_bytes; pp_projection_version := PROJECTION_VERSION;
    pp_sanitizer_version := SANITIZER_VERSION; pp_execution_profile_sha256 := profile;
    pp_harbor_bundle_manifest_sha256s := map fst pairs; pp_harbor_archive_sha256s := map snd pairs |} in
  let* tables := validate_ResultTables {|
    rt_publication_id := tc_publication_id trace; rt_runs := [run];
    rt_trials := sorted_on tw_trial_id trials; rt_executions := sorted_on xw_execution_id executions;
    rt_metrics := sorted_on mw_metric_id metrics; rt_artifacts := [artifact];
    rt_provenance := provenance |} in
  Ok {| cr_manifest := manifest; cr_envelope := envelope; cr_tables := tables;
        cr_evidence_files := [
          {| df_path := "composition.json"; df_content := manifest_bytes |};
          {| df_path := PUBLICATION_ENVELOPE_PATH; df_content := envelope_bytes |}] |}.
