(* ===== verification/ResultFiles.v ===== *)
(** Files of a publication (the writers of src/src/harbor_hf/results.py).

    The tables become Parquet files under stable paths, a projection that names
    each of them, and a receipt with the digest of every file; the catalog and
    the index get rows of their own.  Parquet is pyarrow's: [ParquetFormat]. *)
From Stdlib Require Import Floats.SpecFloat.
From S2P Require Import Prelude.
From S2P Require Import PyDict.
From S2P Require Import Float64.
From S2P Require Import Sha256.
From S2P Require Import Json.
From S2P Require Import PyText.
From S2P Require Import Patterns.
From S2P Require Import Campaigns.
From S2P Require Import Models.
From S2P Require Import Manifest.
From S2P Require Import Control.
From S2P Require Import Envelope.
From S2P Require Import ResultModels.
From S2P Require Import ResultTables.
From S2P Require Import Results.
From S2P Require Import Composition.

(** [_parquet_bytes] for the schema of a table, [pq.read_table] ([None] is an
    [ArrowException] or an [OSError]) and [model_validate] of what it reads *)
Class ParquetFormat := {
  table_bytes : ResultTables -> TableName -> result string;
  index_bytes : list GlobalIndexRow -> result string;
  catalog_bytes : list CatalogRow -> result string;
  read_catalog_table : string -> option (list json);
  read_index_table : string -> option (list json);
  catalog_row_validate : json -> result CatalogRow;
  index_row_validate : json -> result GlobalIndexRow;
}.

(** ** Scores *)

(** [sum(values)] of floats: the first is added to the integer zero, then with
    the compensation of the interpreter. *)
Definition float_abs_leb (x y : spec_float) : bool := SFleb (SFabs x) (SFabs y).

Definition sum_step (state : spec_float * spec_float) (x : spec_float) : spec_float * spec_float :=
  let '(total, c) := state in
  let t := float_add total x in
  let lost := if float_abs_leb x total then float_add (float_sub total t) x
              else float_add (float_sub x t) total in
  (t, float_add c lost).

Definition sum_floats (values : list spec_float) : spec_float :=
  match values with
  | [] => float_zero
  | x :: values =>
      let '(total, c) := fold_left sum_step values (float_add float_zero x, float_zero) in
      if negb (SFeqb c float_zero) && float_is_finite c then float_add total c else total
  end.

(** [sum(values) / len(values)] *)
Definition mean (values : list spec_float) : result spec_float :=
  let* count := float_of_int (len values) in
  Ok (SFdiv float_prec float_emax (sum_floats values) count).

(** [str.casefold], as far as the texts compared with it can tell: the letters
    of ASCII, and the characters that fold to such letters. *)
Definition folded_characters : list (string * string) := [
  (String "197"%char (String "191"%char ""), "s");
  (String "195"%char (String "159"%char ""), "ss");
  (String "225"%char (String "186"%char (String "158"%char "")), "ss");
  (String "226"%char (String "132"%char (String "170"%char "")), "k");
  (String "239"%char (String "172"%char (String "128"%char "")), "ff");
  (String "239"%char (String "172"%char (String "129"%char "")), "fi");
  (String "239"%char (String "172"%char (String "130"%char "")), "fl");
  (String "239"%char (String "172"%char (String "131"%char "")), "ffi");
  (String "239"%char (String "172"%char (String "132"%char "")), "ffl");
  (String "239"%char (String "172"%char (String "133"%char "")), "st");
  (String "239"%char (String "172"%char (String "134"%char "")), "st")].

Fixpoint fold_go (fuel : nat) (s : string) : string :=
  match fuel, s with
  | S fuel, String c rest =>
      match find (fun e : string * string => str_startswith e.1 s) folded_characters with
      | Some (character, image) => image +:+ fold_go fuel (str_removeprefix character s)
      | None => String (lower_char c) (fold_go fuel rest)
      end
  | _, _ => EmptyString
  end.
Definition str_casefold (s : string) : string := fold_go (String.length s) s.

(** [term in text] *)
Fixpoint str_has (term text : string) : bool :=
  str_startswith term text || match text with String _ text => str_has term text | EmptyString => false end.

Definition folded_name (metric : MetricRow) : string := str_casefold (mw_name metric).

Definition _select_reward_score (candidates : list MetricRow) : result (option spec_float) :=
  match candidates with
  | [] => Ok None
  | _ =>
      let named name := List.filter (fun metric => String.eqb (folded_name metric) name) candidates in
      match named "reward" ++ named "score" ++ named "verifier_reward" with
      | preferred :: _ => Ok (Some (mw_value preferred))
      | [] =>
          let named_scores := List.filter (fun metric =>
            existsb (fun term => str_has term (folded_name metric)) ["reward"; "score"; "verifier"]) candidates in
          let selected := if is_nil named_scores then candidates else named_scores in
          let* score := mean (map mw_value selected) in
          Ok (Some score)
      end
  end.

Definition score_metrics_of (metrics : list MetricRow) (trial_id : string) : list MetricRow :=
  List.filter (fun metric => bool_decide (mw_owner_type metric = owner_trial) &&
    String.eqb (mw_owner_id metric) trial_id && String.eqb (mw_unit metric) "score") metrics.

Definition trial_reward_score (metrics : list MetricRow) (trial_id : string) : result (option spec_float) :=
  _select_reward_score (score_metrics_of metrics trial_id).

(** [by_trial] collects the same metrics, in the same order. *)
Definition _trial_reward_scores (tables : ResultTables) : result (list spec_float) :=
  let* scores := mapM (fun trial => _select_reward_score (score_metrics_of (rt_metrics tables) (tw_trial_id trial)))
    (rt_trials tables) in
  raise_if existsb (fun score => negb (is_some score)) scores
    with ResultPublicationError "trial has no score metric";;
  Ok (flat_map (fun score => match score with Some value => [value] | None => [] end) scores).

Section files.
Context `{ParquetFormat}.

Definition _table_row_count (tables : ResultTables) (table : TableName) : Z :=
  match table with
  | table_runs => len (rt_runs tables) | table_trials => len (rt_trials tables)
  | table_executions => len (rt_executions tables) | table_metrics => len (rt_metrics tables)
  | table_artifacts => len (rt_artifacts tables)
  end.

(** ** Publication *)
Definition table_path (campaign_id publication_id : string) (table : TableName) : string :=
  "data/" +:+ TableName_value table +:+ "/schema=v1/campaign=" +:+ campaign_id +:+ "/" +:+ publication_id +:+ ".parquet".

Definition table_file (tables : ResultTables) (campaign_id : string) (table : TableName) : result DatasetFile :=
  let* content := table_bytes tables table in
  Ok {| df_path := table_path campaign_id (rt_publication_id tables) table; df_content := content |}.

Definition projection_reference (tables : ResultTables) (table_files : list DatasetFile) (table : TableName)
    : result (TableName * ProjectionFileReference) :=
  match find (fun item => str_startswith ("data/" +:+ TableName_value table +:+ "/") (df_path item)) table_files with
  | None => Err StopIteration
  | Some item =>
      let* reference := validate_ProjectionFileReference {|
        pf_path := df_path item; pf_sha256 := content_digest (df_content item);
        pf_row_count := _table_row_count tables table |} in
      Ok (table, reference)
  end.

Definition ResultProjection_dump (p : ResultProjection) : json :=
  let provenance := rj_provenance p in
  jobj [("schema_version", JStr "harbor-hf/result-projection/v1");
        ("publication_id", JStr (rj_publication_id p)); ("run_id", JStr (rj_run_id p));
        ("source_bucket", JStr (rj_source_bucket p)); ("source_prefix", JStr (rj_source_prefix p));
        ("source_checksum", JStr (rj_source_checksum p)); ("control_commit", JStr (rj_control_commit p));
        ("envelope_path", JStr PUBLICATION_ENVELOPE_PATH); ("envelope_sha256", JStr (pp_envelope_sha256 provenance));
        ("projection_version", JStr (pp_projection_version provenance));
        ("sanitizer_version", JStr (pp_sanitizer_version provenance));
        ("execution_profile_sha256", JStr (pp_execution_profile_sha256 provenance));
        ("harbor_bundle_manifest_sha256s", JArr (map JStr (pp_harbor_bundle_manifest_sha256s provenance)));
        ("harbor_archive_sha256s", JArr (map JStr (pp_harbor_archive_sha256s provenance)));
        ("tables", jobj (map (fun e : TableName * ProjectionFileReference =>
           (TableName_value e.1, jobj [("path", JStr (pf_path e.2)); ("sha256", JStr (pf_sha256 e.2));
                                       ("row_count", JInt (pf_row_count e.2))])) (rj_tables p)))].

Definition projection_path (publication_id : string) : string :=
  "projections/schema=v1/" +:+ publication_id +:+ ".json".

Definition _build_projection_file (tables : ResultTables) (table_files : list DatasetFile) : result DatasetFile :=
  let* run := first_run tables in
  let* references := mapM (projection_reference tables table_files) _table_names in
  let* projection := validate_ResultProjection {|
    rj_publication_id := rt_publication_id tables; rj_run_id := tc_run_id (rw_trace run);
    rj_source_bucket := tc_source_bucket (rw_trace run); rj_source_prefix := tc_source_prefix (rw_trace run);
    rj_source_checksum := tc_source_checksum (rw_trace run); rj_control_commit := tc_control_commit (rw_trace run);
    rj_provenance := rt_provenance tables; rj_tables := references |} in
  Ok {| df_path := projection_path (rt_publication_id tables);
        df_content := canonical_json_bytes (ResultProjection_dump projection) |}.

(** The digest of every file by its path. *)
Definition files_json (files : list DatasetFile) : json :=
  jdict JStr (dict_of (map (fun item => (df_path item, content_digest (df_content item))) files)).

Definition receipt_json (tables : ResultTables) (run : RunRow) (files : list DatasetFile) : json :=
  jobj [("schema_version", JStr "harbor-hf/result-publication/v1");
        ("publication_id", JStr (rt_publication_id tables)); ("run_id", JStr (tc_run_id (rw_trace run)));
        ("source_checksum", JStr (tc_source_checksum (rw_trace run))); ("files", files_json files)].

Definition build_result_publication (tables : ResultTables) (extra_files : list DatasetFile)
    : result ResultPublication :=
  let* run := first_run tables in
  let* table_files := mapM (table_file tables (rw_campaign_id run)) _table_names in
  let* projection := _build_projection_file tables table_files in
  let files := table_files ++ [projection] ++ extra_files in
  Ok {| rb_tables := tables; rb_files := files;
        rb_receipt_path := "publications/" +:+ rt_publication_id tables +:+ ".json";
        rb_receipt := canonical_json_bytes (receipt_json tables run files) |}.

Definition build_composed_result_publication (composed : ComposedResult) : result ResultPublication :=
  build_result_publication (cr_tables composed) [{|
    df_path := "compositions/" +:+ rt_publication_id (cr_tables composed) +:+ ".json";
    df_content := canonical_json_bytes (ResultCompositionManifest_dump (cr_manifest composed)) |}].

(** ** Index *)
Definition build_global_index_row (tables : ResultTables) (result_dataset result_revision : string)
    : result GlobalIndexRow :=
  let* run := first_run tables in
  validate_GlobalIndexRow {|
    gi_publication_id := rt_publication_id tables; gi_run_id := tc_run_id (rw_trace run);
    gi_campaign_id := rw_campaign_id run; gi_evaluation_id := rw_evaluation_id run;
    gi_publication_role := rw_publication_role run; gi_component_kind := rw_component_kind run;
    gi_benchmark := rw_benchmark run; gi_result_kind := rw_result_kind run; gi_quality := rw_quality run;
    gi_completed_at := rw_completed_at run; gi_model_repo := rw_model_repo run;
    gi_model_revision := rw_model_revision run; gi_agent_name := rw_agent_name run;
    gi_agent_revision := rw_agent_revision run; gi_result_dataset := result_dataset;
    gi_result_revision := result_revision; gi_source_checksum := tc_source_checksum (rw_trace run);
    gi_control_commit := tc_control_commit (rw_trace run) |}.

Definition file_of (path : string) (content : result string) : result DatasetFile :=
  let* content := content in Ok {| df_path := path; df_content := content |}.

Definition build_index_file (row : GlobalIndexRow) : result DatasetFile :=
  file_of ("data/index/schema=v1/" +:+ gi_publication_id row +:+ ".parquet") (index_bytes [row]).

Definition build_index_window_file (rows : list GlobalIndexRow) (size : Z) : result DatasetFile :=
  raise_if size <? 1 with ValueError "index window size must be positive";;
  file_of ("data/index/schema=v1/windows/" +:+ pad 4 size +:+ ".parquet") (index_bytes (firstn (Z.to_nat size) rows)).

(** ** Catalog *)

(** [(end - start).total_seconds()] *)
Definition total_seconds (micros : Z) : result spec_float := float_of_ratio micros 1000000.

Definition build_catalog_row (tables : ResultTables) (result_dataset result_revision : string)
    (projection : DatasetFile) : result CatalogRow :=
  let* run := first_run tables in
  let* rewards := _trial_reward_scores tables in
  let* score := if is_nil rewards then Ok float_zero else mean rewards in
  let* duration := total_seconds (rw_completed_at run - rw_created_at run) in
  let* one := float_of_int 1 in
  validate_CatalogRow {|
    cw_publication_id := rt_publication_id tables; cw_run_id := tc_run_id (rw_trace run);
    cw_campaign_id := rw_campaign_id run; cw_evaluation_id := rw_evaluation_id run;
    cw_publication_role := rw_publication_role run; cw_component_kind := rw_component_kind run;
    cw_source_publication_ids := rw_source_publication_ids run; cw_benchmark := rw_benchmark run;
    cw_benchmark_revision := rw_benchmark_revision run; cw_result_kind := rw_result_kind run;
    cw_quality := rw_quality run; cw_created_at := rw_created_at run; cw_completed_at := rw_completed_at run;
    cw_model_repo := rw_model_repo run; cw_model_revision := rw_model_revision run;
    cw_agent_name := rw_agent_name run; cw_agent_revision := rw_agent_revision run;
    cw_provider := rw_provider run; cw_region := rw_region run; cw_hardware := rw_hardware run;
    cw_accelerator_count := rw_accelerator_count run; cw_score := score;
    cw_passed_trials := count_if (fun value => float_leb one value) rewards;
    cw_planned_trial_count := rw_planned_trial_count run; cw_scored_trial_count := rw_scored_trial_count run;
    cw_agent_failed_count := rw_agent_failed_count run; cw_benchmark_failed_count := rw_benchmark_failed_count run;
    cw_infrastructure_exhausted_count := rw_infrastructure_exhausted_count run;
    cw_unsupported_count := rw_unsupported_count run; cw_execution_count := rw_execution_count run;
    cw_failed_executions := count_if (fun x => bool_decide (xw_status x = physical_failed)) (rt_executions tables);
    cw_duration_seconds := duration; cw_result_dataset := result_dataset; cw_result_revision := result_revision;
    cw_source_checksum := tc_source_checksum (rw_trace run); cw_control_commit := tc_control_commit (rw_trace run);
    cw_projection_path := df_path projection; cw_projection_sha256 := content_digest (df_content projection);
    cw_envelope_sha256 := pp_envelope_sha256 (rt_provenance tables);
    cw_harbor_bundle_count := len (pp_harbor_archive_sha256s (rt_provenance tables)) |}.

Inductive CatalogScope := scope_primary | scope_audit.
Definition CatalogScope_value (s : CatalogScope) : string :=
  match s with scope_primary => "primary" | scope_audit => "audit" end.

Definition build_catalog_window_file (rows : list CatalogRow) (size : Z) (scope : CatalogScope) : result DatasetFile :=
  raise_if size <? 1 with ValueError "catalog window size must be positive";;
  file_of ("data/catalog/schema=v1/" +:+ CatalogScope_value scope +:+ "/windows/" +:+ pad 4 size +:+ ".parquet")
    (catalog_bytes (firstn (Z.to_nat size) rows)).

Definition catalog_lookup_path (run_id : string) : string :=
  "data/catalog/schema=v1/runs/" +:+ sha256_hex run_id +:+ ".parquet".
Definition catalog_publication_lookup_path (publication_id : string) : string :=
  "data/catalog/schema=v1/publications/" +:+ sha256_hex publication_id +:+ ".parquet".

Definition build_catalog_lookup_file (row : CatalogRow) : result DatasetFile :=
  file_of (catalog_lookup_path (cw_run_id row)) (catalog_bytes [row]).
Definition build_catalog_publication_lookup_file (row : CatalogRow) : result DatasetFile :=
  file_of (catalog_publication_lookup_path (cw_publication_id row)) (catalog_bytes [row]).

Definition read_catalog_file (content : string) : result (list CatalogRow) :=
  match read_catalog_table content with
  | None => Err (ValueError "result catalog Parquet is invalid")
  | Some values => mapM catalog_row_validate values
  end.

Definition read_index_file (content : string) : result (list GlobalIndexRow) :=
  match read_index_table content with
  | None => Err (ValueError "global index Parquet is invalid")
  | Some values => mapM index_row_validate values
  end.
End files.
