(* ===== verification/Apply.v ===== *)
(** Applying a campaign plan (src/src/harbor_hf/campaign_apply.py).

    One pass of the reconciler: observe, plan, reserve what the plan proposes,
    and apply the reserved actions one after the other under a claim, each with
    a durable outcome event.  This file holds the functions on projections and
    reservations, the interfaces of the services a pass works with, and the
    adapter of Hub Jobs; the pass itself is in CampaignPass.v. *)
From S2P Require Import Prelude.
From S2P Require Import PyDict.
From S2P Require Import Json.
From S2P Require Import Sha256.
From S2P Require Import Patterns.
From S2P Require Import PyText.
From S2P Require Import Campaigns.
From S2P Require Import Models.
From S2P Require Import Planner.
From S2P Require Import Hub.
From S2P Require Import Endpoints.
From S2P Require Import Waves.
From S2P Require Import Coordination.
From S2P Require Import Control.
From S2P Require Import ControlStore.
From S2P Require Import Launch.
From S2P Require Import Recovery.
From S2P Require Import Reconciler.

(** ** Records *)
Definition _TERMINAL_JOB_STAGES : list string := ["CANCELED"; "COMPLETED"; "DELETED"; "ERROR"].

Inductive TargetLabelKey := label_endpoint | label_provider.

#[export] Instance TargetLabelKey_eq_dec : EqDecision TargetLabelKey.
Proof. solve_decision. Defined.

Definition target_label_name (k : TargetLabelKey) : string :=
  match k with label_endpoint => "harbor-hf-endpoint" | label_provider => "harbor-hf-provider" end.

Record RemoteWaveJob := {
  rj_job_id : string;
  rj_wave_id : string;
  rj_endpoint_label : string;
  rj_stage : string;
  rj_target_label_key : TargetLabelKey;
}.

(** [RemoteWaveJob.terminal] *)
Definition job_is_terminal (job : RemoteWaveJob) : bool := str_mem (rj_stage job) _TERMINAL_JOB_STAGES.

Inductive OutcomeStatus := outcome_succeeded | outcome_failed | outcome_ambiguous.

#[export] Instance OutcomeStatus_eq_dec : EqDecision OutcomeStatus.
Proof. solve_decision. Defined.

(** [_OUTCOME_KINDS] *)
Definition _OUTCOME_KINDS (s : OutcomeStatus) : EventKind :=
  match s with
  | outcome_succeeded => action_succeeded
  | outcome_failed => action_failed
  | outcome_ambiguous => action_ambiguous
  end.

Record AppliedAction := {
  aa_action_id : string;
  aa_kind : ActionKind;
  aa_status : OutcomeStatus;
  aa_remote_id : option string;
  aa_message : option string;
}.

Record CampaignApplyResult := {
  cr_campaign_id : string;
  cr_plan : ReconcilePlan;
  cr_applied : list AppliedAction;
}.

(** [error_type] and [message] are read off the exception. *)
Record CampaignApplyFailure := {
  cf_campaign_id : string;
  cf_error : exn;
}.

(** [_ACTION_PRIORITY] *)
Definition _ACTION_PRIORITY (k : ActionKind) : Z :=
  match k with
  | cancel_execution => 0 | cancel_wave => 1 | drain_wave => 2 | cleanup_wave => 3
  | exhaust_trials => 4 | manual_intervention_action => 5 | publish_summary => 6
  | publish_results => 7 | retry_shard => 8 | submit_wave => 9
  end.

(** Two hours, in microseconds. *)
Definition _ACTION_LEASE_DURATION : Z := seconds 7200.

(** [action.wave_id or f"wave-{action.action_key}"] *)
Definition action_wave_id (action : ReconcileAction) : string :=
  opt_str_or (act_wave_id action) ("wave-" +:+ ra_action_key action).

(** ** Reservations *)

(** [action.model_dump(mode="json")] *)
Definition ReconcileAction_dump (a : ReconcileAction) : dict json :=
  [("action_id", JStr (ra_action_id a)); ("action_key", JStr (ra_action_key a));
   ("kind", JStr (action_kind_name (act_kind a))); ("campaign_id", JStr (act_campaign_id a));
   ("deployment_digest", JStr (act_deployment_digest a)); ("provider", JStr (act_provider a));
   ("wave_id", jopt JStr (act_wave_id a)); ("shard_ids", jstrs (act_shard_ids a));
   ("trial_ids", jstrs (act_trial_ids a)); ("target_ids", jstrs (act_target_ids a));
   ("estimated_cost_microusd", jopt JInt (act_estimated_cost_microusd a))] ++
  match act_spend_cap_microusd a with
  | Some cap => [("spend_cap_microusd", JInt cap)]
  | None => []
  end.

(** [_validated_reservations]; [model_validate] is Pydantic's. *)
Definition _validated_reservations (action_validate : json -> result ReconcileAction)
    (values : list json) (campaign_id : string) : result (dict ReconcileAction) :=
  foldM (fun reservations value =>
    let* action :=
      match action_validate value with
      | Err (ValidationError _) => Err (CampaignApplyError "action reservation is malformed")
      | r => r
      end in
    raise_if negb (String.eqb (act_campaign_id action) campaign_id) ||
             negb (String.eqb (ra_action_id action) ("act-" +:+ ra_action_key action))
      with CampaignApplyError "action reservation identity is malformed";;
    raise_if dict_has reservations (ra_action_id action)
      with CampaignApplyError "action reservation ID is duplicated";;
    Ok (dict_set reservations (ra_action_id action) action)) [] values.

(** [sorted(d.items())]: the keys are unique. *)
Definition sorted_items {V} (d : dict V) : list (string * V) :=
  sort_by (fun x y => str_leb x.1 y.1) d.

Definition no_reservation (action_id : string) : exn :=
  CampaignApplyError ("action event has no reservation record: " +:+ action_id).

(** [_pending_actions] *)
Definition pending_action (reservations : dict ReconcileAction) (pending : list ReconcileAction)
    (entry : string * ActionProjection) : result (list ReconcileAction) :=
  let '(action_id, projection) := entry in
  if negb (bool_decide (ap_status projection = status_reserved) ||
           bool_decide (ap_status projection = status_ambiguous))
  then Ok pending
  else
    match dict_get reservations action_id with
    | None => Err (no_reservation action_id)
    | Some reserved =>
        raise_if negb (String.eqb (ra_action_key reserved) (ap_action_key projection)) ||
                 negb (bool_decide (act_kind reserved = ap_action_kind projection)) ||
                 negb (bool_decide (act_target_ids reserved = ap_target_ids projection))
          with CampaignApplyError ("action reservation does not match its event: " +:+ action_id);;
        Ok (pending ++ [reserved])
    end.

Definition _pending_actions (actions : dict ActionProjection) (reservations : dict ReconcileAction)
    : result (list ReconcileAction) :=
  foldM (pending_action reservations) [] (sorted_items actions).

(** [_summary_action_succeeded] *)
Definition _summary_action_succeeded (projection : RecoveryProjection) : bool :=
  existsb (fun action => bool_decide (ap_action_kind action = publish_summary) &&
                         bool_decide (ap_status action = status_succeeded))
    (dict_values (proj_actions (rp_campaign projection))).

(** ** Admission usage across campaigns *)

(** wave, deployment, provider, estimate *)
Abbreviation admission := (string * (string * string * Z))%type.

(** [_active_action_admissions] *)
Definition active_action_admission (projection : RecoveryProjection)
    (reservations : dict ReconcileAction) (admissions : list admission)
    (entry : string * ActionProjection) : result (list admission) :=
  let '(action_id, state) := entry in
  if negb (is_wave_action_kind (ap_action_kind state)) ||
     bool_decide (ap_status state = status_failed)
  then Ok admissions
  else
    match dict_get reservations action_id with
    | None => Err (no_reservation action_id)
    | Some action =>
        let wave_id := action_wave_id action in
        Ok (match dict_get (rp_waves projection) wave_id with
            | Some observed => if wave_is_closed observed then admissions else
                admissions ++ [(wave_id, (act_deployment_digest action, act_provider action,
                                          or_zero (act_estimated_cost_microusd action)))]
            | None =>
                admissions ++ [(wave_id, (act_deployment_digest action, act_provider action,
                                          or_zero (act_estimated_cost_microusd action)))]
            end)
    end.

Definition _active_action_admissions (projection : RecoveryProjection)
    (reservations : dict ReconcileAction) : result (list admission) :=
  foldM (active_action_admission projection reservations) []
    (proj_actions (rp_campaign projection)).

(** [_usage_from_admissions] *)
Definition count_admission (counts : dict Z) (key : string) : dict Z :=
  dict_set counts key (dict_get_default counts key 0 + 1).

Definition _usage_from_admissions (campaign_id : string) (recorded_spend : Z)
    (admissions : list admission) : AdmissionUsage :=
  let unique := dict_values (dict_of admissions) in
  let active := len unique in
  let spend := recorded_spend + sum_z (map snd unique) in {|
    used_global_active_waves := active;
    used_deployment_active_waves := fold_left (fun d e => count_admission d e.1.1) unique [];
    used_provider_active_waves := fold_left (fun d e => count_admission d e.1.2) unique [];
    used_campaign_active_waves := if active =? 0 then [] else [(campaign_id, active)];
    used_campaign_spend_microusd := if spend =? 0 then [] else [(campaign_id, spend)];
  |}.

(** [_combined_usage] *)
Definition merge_counts (target source : dict Z) : dict Z :=
  fold_left (fun target e => dict_set target e.1 (dict_get_default target e.1 0 + e.2)) source target.

Definition add_usage (baseline contribution : AdmissionUsage) : AdmissionUsage := {|
  used_global_active_waves :=
    used_global_active_waves baseline + used_global_active_waves contribution;
  used_deployment_active_waves :=
    merge_counts (used_deployment_active_waves baseline) (used_deployment_active_waves contribution);
  used_provider_active_waves :=
    merge_counts (used_provider_active_waves baseline) (used_provider_active_waves contribution);
  used_campaign_active_waves :=
    merge_counts (used_campaign_active_waves baseline) (used_campaign_active_waves contribution);
  used_campaign_spend_microusd :=
    merge_counts (used_campaign_spend_microusd baseline) (used_campaign_spend_microusd contribution);
|}.

Definition _combined_usage (baseline : AdmissionUsage) (contributions : list AdmissionUsage)
    : AdmissionUsage := fold_left add_usage contributions baseline.

(** [_build_admission_usage] *)
Definition _build_admission_usage (campaign_id : string) (projection : RecoveryProjection)
    (reservations : dict ReconcileAction) : result AdmissionUsage :=
  let waves := dict_values (rp_waves projection) in
  let open_waves := map (fun wave => (wv_wave_id wave,
      (wv_deployment_digest wave, wv_provider wave, wv_estimated_cost_microusd wave)))
    (List.filter wave_is_open waves) in
  let* admissions := _active_action_admissions projection reservations in
  let closed_estimates :=
    sum_z (map wv_estimated_cost_microusd (List.filter wave_is_closed waves)) in
  Ok (_usage_from_admissions campaign_id (rp_spend_microusd projection + closed_estimates)
        (open_waves ++ admissions)).

Definition with_usage (context : ReconcileContext) (u : AdmissionUsage) : ReconcileContext :=
  {| limits := limits context; usage := u; deployments := deployments context |}.

(** [context or ReconcileContext()] *)
Definition context_or_default (context : option ReconcileContext) : ReconcileContext :=
  match context with Some c => c | None => default_context end.

(** [_context_with_unobserved_actions] *)
Definition _context_with_unobserved_actions (lock : CampaignLock) (events : list CampaignEvent)
    (reservations : dict ReconcileAction) (context : option ReconcileContext)
    : result ReconcileContext :=
  let baseline := context_or_default context in
  let* projection := project_recovery lock events in
  let* admissions := _active_action_admissions projection reservations in
  let unobserved := List.filter (fun a : admission => negb (dict_has (rp_waves projection) a.1)) admissions in
  if is_nil unobserved then Ok baseline
  else
    let u := _usage_from_admissions (campaign_id lock) 0 unobserved in
    Ok (with_usage baseline (_combined_usage (usage baseline) [u])).

(** ** The deployment of an action *)
Definition deployment_runs (lock : CampaignLock) (deployment_digest : string) : list CampaignRunLock :=
  List.filter (fun run : CampaignRunLock => String.eqb (ra_deployment_digest run) deployment_digest)
    (runs lock).

(** [_profiles_for_deployment] *)
Definition _profiles_for_deployment (lock : CampaignLock) (spec : ExperimentSpec)
    (deployment_digest : string) : result (ModelProfile * DeploymentProfile) :=
  match remove_dups (map (fun run : CampaignRunLock => (ra_model run, ra_deployment run))
          (deployment_runs lock deployment_digest)) with
  | [(model_id, deployment_id)] =>
      let* model := Manifest.next_by mp_id (mx_models (spec_matrix spec)) model_id in
      let* deployment := Manifest.next_by target_id (mx_deployments (spec_matrix spec)) deployment_id in
      match deployment with
      | target_endpoint d => Ok (model, d)
      | target_provider _ =>
          Err (ActionExecutionError "endpoint action targets an inference provider deployment")
      end
  | _ => Err (ActionExecutionError "action deployment does not resolve to one model and deployment")
  end.

(** [_wave_provider] *)
Definition _wave_provider (lock : CampaignLock) (deployment_digest : string) : string :=
  match deployment_runs lock deployment_digest with
  | run :: _ => opt_str_or (ra_provider run) "hf-inference-endpoints"
  | [] => "hf-inference-endpoints"
  end.

(** [_deployment_target] *)
Definition _deployment_target (lock : CampaignLock) (spec : ExperimentSpec) (deployment_digest : string)
    : result DeploymentTarget :=
  match remove_dups (map (fun run : CampaignRunLock => ra_deployment run)
          (deployment_runs lock deployment_digest)) with
  | [deployment_id] => Manifest.next_by target_id (mx_deployments (spec_matrix spec)) deployment_id
  | _ => Err (ActionExecutionError "action deployment does not resolve to one deployment target")
  end.

(** [_remote_namespace] *)
Definition _remote_namespace (spec : ExperimentSpec) : result string :=
  match spec_remote spec with
  | None => Err (ActionExecutionError "campaign manifest has no remote execution")
  | Some remote => Ok (job_namespace (remote_job remote))
  end.

(** [endpoint_lease_label_for] (submission.py), and the label of a provider *)
Definition endpoint_lease_label_for (namespace name : string) : string :=
  sha256_hex_prefix 32 (namespace +:+ "/" +:+ name).
Definition provider_label : string := sha256_hex_prefix 32 provider_service.

(** [_terminal_wave_needs_drain] *)
Definition wave_is_draining (wave : WaveProjection) : bool :=
  match wv_status wave with
  | wave_s_draining | wave_s_cleaning | wave_s_cleanup_failed => true
  | _ => false
  end.

Definition _terminal_wave_needs_drain (wave : option WaveProjection) : bool :=
  match wave with
  | None => true
  | Some wave => negb (wave_is_draining wave || wave_is_closed wave)
  end.

(** [_action_targets_deployment] *)
Definition _action_targets_deployment (lock : CampaignLock) (action : ActionProjection)
    (deployment_digest : string) : bool :=
  let targets := ap_target_ids action in
  existsb (fun run : CampaignRunLock =>
    (bool_decide (ap_action_kind action = submit_wave) &&
     existsb (fun shard => str_mem (sl_shard_id shard) targets) (rl_shards run)) ||
    (bool_decide (ap_action_kind action = retry_shard) &&
     existsb (fun shard => existsb (fun trial => str_mem (tl_trial_id trial) targets)
       (sl_trials shard)) (rl_shards run)))
    (deployment_runs lock deployment_digest).

(** [_can_recover_orphaned_endpoint] *)
Definition is_provenance (lock : CampaignLock) (action : ReconcileAction) (endpoint_name : string)
    (state : ActionProjection) : bool :=
  (bool_decide (ap_status state = status_ambiguous) || bool_decide (ap_status state = status_failed)) &&
  bool_decide (ap_remote_id state = Some endpoint_name) &&
  _action_targets_deployment lock state (act_deployment_digest action).

Definition blocks_recovery (lock : CampaignLock) (action : ReconcileAction) (exempt : list string)
    (waves : dict WaveProjection) (state : ActionProjection) : bool :=
  negb (String.eqb (ap_action_id state) (ra_action_id action)) &&
  negb (str_mem (ap_action_id state) exempt) &&
  negb (bool_decide (ap_status state = status_failed)) &&
  _action_targets_deployment lock state (act_deployment_digest action) &&
  match dict_get waves ("wave-" +:+ ap_action_key state) with
  | None => true
  | Some wave => negb (wave_is_closed wave)
  end.

Definition _can_recover_orphaned_endpoint (lock : CampaignLock) (action : ReconcileAction)
    (desired : DesiredEndpoint) (projection : RecoveryProjection) : bool :=
  let states := dict_values (proj_actions (rp_campaign projection)) in
  let provenance := map ap_action_id
    (List.filter (is_provenance lock action (mi_name (de_identity desired))) states) in
  if is_nil provenance then false
  else
    let exempt := ra_action_id action :: map ap_action_id
      (List.filter (fun state => str_mem (ap_action_id state) provenance &&
                                 bool_decide (ap_status state = status_failed)) states) in
    if existsb (fun wave => String.eqb (wv_deployment_digest wave) (act_deployment_digest action) &&
                            negb (wave_is_closed wave)) (dict_values (rp_waves projection))
    then false
    else negb (existsb (blocks_recovery lock action exempt (rp_waves projection)) states).

(** [_desired_endpoint]; the Pydantic settings of an endpoint are a parameter. *)
Definition _desired_endpoint `{PydanticModel EndpointSettings} (lock : CampaignLock)
    (spec : ExperimentSpec) (action : ReconcileAction) : result DesiredEndpoint :=
  let* '(model, deployment) := _profiles_for_deployment lock spec (act_deployment_digest action) in
  let* namespace := _remote_namespace spec in
  build_desired_endpoint namespace (campaign_id lock) model deployment.

(** [_failed_endpoint_remote_id] *)
Definition _failed_endpoint_remote_id `{PydanticModel EndpointSettings} (lock : CampaignLock)
    (spec : ExperimentSpec) (action : ReconcileAction) (projection : RecoveryProjection) (error : exn)
    : result (option string) :=
  if negb (is_provisioning_error error) || negb (is_wave_action_kind (act_kind action)) then Ok None
  else
    let* target := _deployment_target lock spec (act_deployment_digest action) in
    match target with
    | target_provider _ => Ok None
    | target_endpoint _ =>
        let* desired := _desired_endpoint lock spec action in
        Ok (if _can_recover_orphaned_endpoint lock action desired projection
            then Some (mi_name (de_identity desired)) else None)
    end.

(** [_validate_spend_exhaustion_targets] *)
Definition _validate_spend_exhaustion_targets (lock : CampaignLock) (action : ReconcileAction)
    : result unit :=
  raise_if is_nil (act_trial_ids action)
    with ActionExecutionError "spend exhaustion action has no trials";;
  raise_if negb (bool_decide (act_trial_ids action = act_target_ids action)) ||
           negb (str_unique (act_trial_ids action))
    with ActionExecutionError "spend exhaustion trial identity is malformed";;
  let matched := List.filter (fun shard => str_mem (sl_shard_id shard) (act_shard_ids action))
    (concat (map rl_shards (deployment_runs lock (act_deployment_digest action)))) in
  let allowed_trials := concat (map (fun shard => map tl_trial_id (sl_trials shard)) matched) in
  raise_if negb (same_set (map sl_shard_id matched) (act_shard_ids action)) ||
           negb (subset_of (act_trial_ids action) allowed_trials)
    with ActionExecutionError "spend exhaustion targets the wrong deployment";;
  Ok tt.

(** ** Observed events *)

(** [_missing_observed_events] *)
Definition _missing_observed_events (datetime_json : Z -> string)
    (durable_events observed_events : list CampaignEvent) : result (list CampaignEvent) :=
  let durable_by_id := dict_of (map (fun e => (event_id e, e)) durable_events) in
  foldM (fun missing event =>
    match dict_get durable_by_id (event_id event) with
    | None => Ok (missing ++ [event])
    | Some durable =>
        raise_if negb (same_event_request datetime_json durable event)
          with CampaignConflict ("event conflicts: " +:+ event_id event);;
        Ok missing
    end) [] observed_events.

(** ** The services of a pass *)

(** The protocol [CampaignStore]; that of claims is in Coordination.v. *)
Class CampaignStore (W : Type) := {
  store_load_campaign : string -> hub W (CampaignLock * list CampaignEvent);
  store_load_request : string -> hub W document;
  store_list_campaigns : hub W (list string);
  store_append_event : string -> CampaignEvent -> hub W unit;
  store_ensure_event : string -> CampaignEvent -> hub W bool;
  store_ensure_events : string -> list CampaignEvent -> hub W bool;
  store_ensure_events_unless_cancelled : string -> list CampaignEvent -> hub W bool;
  store_reserve_action : string -> dict json -> CampaignEvent -> hub W bool;
  store_load_action_reservations : string -> hub W (list json);
}.

(** [EndpointApplicationPort], [WaveJobPort] *)
Class EndpointApplicationPort (W : Type) := {
  endpoints_inspect : DesiredEndpoint -> hub W (option EndpointSnapshot);
  endpoints_create_or_adopt : DesiredEndpoint -> hub W ProvisioningResult;
  endpoints_pause_and_verify : DesiredEndpoint -> hub W EndpointSnapshot;
}.

Class WaveJobPort (W : Type) := {
  jobs_find_wave : string -> string -> TargetLabelKey -> string -> hub W (option RemoteWaveJob);
  jobs_submit : WaveLock -> document -> CampaignLock -> hub W RemoteWaveJob;
  jobs_cancel : RemoteWaveJob -> string -> hub W unit;
}.

(** The production stores and provisioner. *)
Section production.
Context {W : Type} `{HubApi W} `{PydanticModel CampaignLock} `{EndpointProvisioningPort W}.
Variable datetime_json : Z -> string.
Variable event_validate : json -> result CampaignEvent.
Variable fromisoformat : string -> option (option Z).
Variable clock : hub W Z.

Definition HubCampaignStore : CampaignStore W := {|
  store_load_campaign := load_campaign event_validate;
  store_load_request := load_request;
  store_list_campaigns := list_campaigns;
  store_append_event := append_event datetime_json;
  store_ensure_event := ensure_event datetime_json event_validate;
  store_ensure_events := ensure_events datetime_json;
  store_ensure_events_unless_cancelled := ensure_events_unless_cancelled datetime_json;
  store_reserve_action := reserve_action datetime_json;
  store_load_action_reservations := load_action_reservations;
|}.

Definition HubClaimStore : ClaimStore W := {|
  claim_acquire := acquire_claim fromisoformat clock;
  claim_release := release_claim;
|}.

(** [EndpointProvisioner(adapter)] with its default timeout and interval. *)
Definition ProductionEndpoints : EndpointApplicationPort W := {|
  endpoints_inspect := endpoint_inspect;
  endpoints_create_or_adopt := fun desired => create_or_adopt desired 300000000 5000000;
  endpoints_pause_and_verify := fun desired => pause_and_verify desired 300000000 5000000;
|}.
End production.

(** ** Wave Jobs of the Hub ([HuggingFaceWaveJobAdapter]) *)

(** The Jobs client, the submission of a wave (submission.py), which returns
    the job ID if the output named one, and the test
    ["did not return a job ID" in str(error)]. *)
Class HfJobsApi (W : Type) := {
  hf_list_jobs : dict string -> string -> hub W (list JobResource);
  hf_cancel_job : string -> string -> hub W unit;
  hf_submit_wave : WaveLock -> document -> CampaignLock -> hub W (option string);
}.

Section wave_jobs.
Context {W : Type} `{HfJobsApi W}.

(** [_validated_remote_job] *)
Definition _validated_remote_job (value : JobResource) (wave_id : string) (key : TargetLabelKey)
    (label : string) : result RemoteWaveJob :=
  match res_id value with
  | Some identifier =>
      if String.eqb identifier "" then Err (ActionExecutionError "HF Job response has no valid ID")
      else
        match res_labels value with
        | None => Err (ActionExecutionError "HF Job response has invalid labels")
        | Some observed =>
            raise_if negb (bool_decide (dict_get observed "harbor-hf-wave" = Some wave_id)) ||
                     negb (bool_decide (dict_get observed (target_label_name key) = Some label))
              with ActionExecutionError "HF Job response has the wrong managed labels";;
            match res_stage value with
            | Some stage =>
                raise_if String.eqb stage ""
                  with ActionExecutionError "HF Job response has no valid stage";;
                Ok {| rj_job_id := identifier; rj_wave_id := wave_id; rj_endpoint_label := label;
                      rj_stage := stage; rj_target_label_key := key |}
            | None => Err (ActionExecutionError "HF Job response has no valid stage")
            end
        end
  | None => Err (ActionExecutionError "HF Job response has no valid ID")
  end.

(** The choice among several Jobs with the identity of one wave. *)
Definition choose_wave_job (wave_id : string) (jobs : list RemoteWaveJob)
    : result (option RemoteWaveJob) :=
  match jobs with
  | [] => Ok None
  | [job] => Ok (Some job)
  | _ =>
      let active := List.filter (fun job => negb (job_is_terminal job)) jobs in
      let completed := List.filter (fun job => String.eqb (rj_stage job) "COMPLETED") jobs in
      match active, completed with
      | [job], _ => Ok (Some job)
      | [], [job] => Ok (Some job)
      | _, _ => Err (ActionExecutionError ("multiple HF Jobs have the managed wave identity: " +:+ wave_id))
      end
  end.

(** [find_wave] *)
Definition find_wave (namespace wave_id : string) (key : TargetLabelKey) (label : string)
    : hub W (option RemoteWaveJob) :=
  do jobs <- hub_catch
    (do resources <- hf_list_jobs [("harbor-hf-wave", wave_id); (target_label_name key, label)] namespace;;
     hub_lift (mapM (fun value => _validated_remote_job value wave_id key label) resources))
    (fun e => match e with
              | HfHubHTTPError _ | EntryNotFoundError | TransportError =>
                  Some (hub_raise (AmbiguousActionOutcome "HF Jobs inspection failed"))
              | _ => None
              end);;
  hub_lift (choose_wave_job wave_id jobs).

(** [_require_standalone_endpoint_wave] *)
Definition _require_standalone_endpoint_wave (lock : WaveLock) : result EndpointRef :=
  match Waves.wl_target lock with
  | EndpointWaveTarget e => Ok e
  | ProviderWaveTarget _ =>
      Err (ActionExecutionError "provider wave locks must run inside their owning campaign controller")
  end.

(** [submit]: the staged copies of the locks are files of the process. *)
Definition submit (lock : WaveLock) (request : document) (campaign : CampaignLock)
    : hub W RemoteWaveJob :=
  do endpoint <- hub_lift (_require_standalone_endpoint_wave lock);;
  do job_id <- hub_catch (hf_submit_wave lock request campaign)
    (fun e => match e with
              | ProcessError _ => Some (hub_raise (AmbiguousActionOutcome
                  "HF Jobs submission ended without a definitive outcome"))
              | ValueError m | ValidationError m | ManifestError m =>
                  Some (hub_raise (if str_in "did not return a job ID" m
                                   then AmbiguousActionOutcome m else ActionExecutionError m))
              | HfHubHTTPError _ | EntryNotFoundError =>
                  Some (hub_raise (ActionExecutionError "HF Jobs submission preflight failed"))
              | _ => None
              end);;
  match job_id with
  | None => hub_raise (AmbiguousActionOutcome "HF Jobs submission returned no job ID")
  | Some job_id => hub_ret {|
      rj_job_id := job_id;
      rj_wave_id := Waves.wl_wave_id lock;
      rj_endpoint_label := endpoint_lease_label_for (er_namespace endpoint) (er_name endpoint);
      rj_stage := "SCHEDULING";
      rj_target_label_key := label_endpoint |}
  end.

(** [cancel] *)
Definition cancel (job : RemoteWaveJob) (namespace : string) : hub W unit :=
  if job_is_terminal job then hub_ret tt
  else
    hub_catch (hf_cancel_job (rj_job_id job) namespace)
      (fun e => match e with
                | EntryNotFoundError => Some (hub_ret tt)
                | HfHubHTTPError status => Some (
                    if status =? 404 then hub_ret tt
                    else if (status =? 409) || (500 <=? status)
                    then hub_raise (AmbiguousActionOutcome
                      ("HF Job cancellation outcome is ambiguous: HTTP " +:+ pretty status))
                    else hub_raise (ActionExecutionError
                      ("HF Job cancellation failed: HTTP " +:+ pretty status)))
                | TransportError => Some (hub_raise (AmbiguousActionOutcome
                    "HF Job cancellation outcome is ambiguous before a response"))
                | _ => None
                end).

Definition HuggingFaceWaveJobAdapter : WaveJobPort W :=
  {| jobs_find_wave := find_wave; jobs_submit := submit; jobs_cancel := cancel |}.
End wave_jobs.
