(* ===== verification/CampaignPass.v ===== *)
(** The reconciliation pass (class [CampaignReconciler] of
    src/src/harbor_hf/campaign_apply.py).

    The pass is a computation over the world of its services and the attribute
    [_last_observed_at], which makes the instants of the events it records
    increase. *)
From S2P Require Import Prelude.
From S2P Require Import PyDict.
From S2P Require Import Json.
From S2P Require Import Sha256.
From S2P Require Import PyText.
From S2P Require Import Campaigns.
From S2P Require Import Models.
From S2P Require Import Planner.
From S2P Require Import Hub.
From S2P Require Import Endpoints.
From S2P Require Import Waves.
From S2P Require Import Coordination.
From S2P Require Import Control.
From S2P Require Import ControlStore.
From S2P Require Import Launch.
From S2P Require Import Recovery.
From S2P Require Import Reconciler.
From S2P Require Import Apply.

(** ** [CampaignReconciler] *)

(** What the reconciler is constructed with, beyond its ports: the optional
    observer, finalizer and publisher, the clock and the identifier factory,
    the YAML loader of manifests, and the texts Pydantic and Python print. *)
Class ReconcilerServices (W : Type) := {
  observer : option (hub W unit * (CampaignLock -> ExperimentSpec -> hub W (list CampaignEvent)));
  finalizer : option (CampaignLock -> ExperimentSpec -> RecoveryProjection -> TerminalDecision -> hub W unit);
  result_publisher : option (string -> hub W unit);
  pass_clock : hub W Z;
  pass_identifier : hub W string;
  load_experiment_bytes : document -> result ExperimentSpec;
  action_validate : json -> result ReconcileAction;
  datetime_json : Z -> string;
  error_text : exn -> string;
}.

(** The world, and the attribute [_last_observed_at]. *)
Record pass (W : Type) := { pass_world : W; last_observed_at : option Z }.
Arguments pass_world {W}.
Arguments last_observed_at {W}.

Section reconciler.
Context {W : Type} `{CampaignStore W} `{ClaimStore W} `{EndpointApplicationPort W} `{WaveJobPort W}
  `{ReconcilerServices W} `{PydanticModel EndpointSettings}.

Definition on_world {A} (m : hub W A) : hub (pass W) A :=
  fun s => let '(r, w) := m (pass_world s) in
           (r, {| pass_world := w; last_observed_at := last_observed_at s |}).

Definition set_last_observed (t : Z) : hub (pass W) unit :=
  fun s => (Ok tt, {| pass_world := pass_world s; last_observed_at := Some t |}).

(** [max(event.observed_at for event in events)] *)
Definition latest_observed (events : list CampaignEvent) : result Z :=
  match map observed_at events with
  | [] => Err (ValueError "max() iterable argument is empty")
  | t :: l => Ok (fold_left Z.max l t)
  end.

(** [_next_observed] *)
Definition next_instant (last : option Z) (now : Z) : Z :=
  match last with
  | Some last => if now <=? last then last + 1 else now
  | None => now
  end.

Definition _next_observed : hub (pass W) Z :=
  do now <- on_world pass_clock;;
  fun s =>
    let observed := next_instant (last_observed_at s) now in
    (Ok observed, {| pass_world := pass_world s; last_observed_at := Some observed |}).

(** [_event], [_record_outcome] *)
Definition _event (lock : CampaignLock) (k : EventKind) (p : EventPayload) : hub (pass W) CampaignEvent :=
  do observed <- _next_observed;;
  do identifier <- on_world pass_identifier;;
  hub_lift (new_event subject_campaign (campaign_id lock) k producer_reconciler p observed identifier).

Definition _record_outcome (lock : CampaignLock) (action : ReconcileAction) (status : OutcomeStatus)
    (message remote_id : option string) : hub (pass W) AppliedAction :=
  do event <- _event lock (_OUTCOME_KINDS status)
    (payload_action_outcome {| ao_action_id := ra_action_id action; ao_message := message;
                               ao_remote_id := remote_id |});;
  do _u <- on_world (store_append_event (campaign_id lock) event);;
  hub_ret {| aa_action_id := ra_action_id action; aa_kind := act_kind action; aa_status := status;
             aa_remote_id := remote_id; aa_message := message |}.

(** [_ensure_durable_event] *)
Definition _ensure_durable_event (lock : CampaignLock) (event : CampaignEvent) : hub (pass W) unit :=
  do created <- on_world (store_ensure_event (campaign_id lock) event);;
  if created then hub_ret tt
  else
    do loaded <- on_world (store_load_campaign (campaign_id lock));;
    set_last_observed (fold_left Z.max (map observed_at loaded.2) (observed_at event)).

(** [_record_durable_event]; the identity is hashed with the campaign. *)
Definition durable_event (lock : CampaignLock) (st : SubjectType) (sid : string) (k : EventKind)
    (p : EventPayload) (identity : string) : hub (pass W) CampaignEvent :=
  do observed <- _next_observed;;
  hub_lift (new_event st sid k producer_reconciler p observed
    (sha256_hex_prefix 32 (campaign_id lock +:+ ":" +:+ identity))).

Definition _record_durable_event (lock : CampaignLock) (st : SubjectType) (sid : string)
    (k : EventKind) (p : EventPayload) (identity : string) : hub (pass W) unit :=
  do event <- durable_event lock st sid k p identity;;
  _ensure_durable_event lock event.

(** [_record_terminal] *)
Definition terminal_kind (s : TerminalStatus) : EventKind :=
  match s with
  | terminal_completed => campaign_completed | terminal_partial => campaign_partial
  | terminal_failed => campaign_failed | terminal_cancelled => campaign_cancelled
  end.
Definition terminal_name (s : TerminalStatus) : string :=
  match s with
  | terminal_completed => "completed" | terminal_partial => "partial"
  | terminal_failed => "failed" | terminal_cancelled => "cancelled"
  end.

Definition _record_terminal (lock : CampaignLock) (decision : TerminalDecision) : hub (pass W) unit :=
  do observed <- _next_observed;;
  do event <- hub_lift (new_event subject_campaign (campaign_id lock) (terminal_kind (td_status decision))
    producer_publisher
    (payload_terminal {| tp_summary_path := Some (td_summary_path decision); tp_summary_sha256 := None;
                         tp_message := Some (td_reason decision) |})
    observed
    (sha256_hex_prefix 32 (campaign_id lock +:+ ":" +:+ terminal_name (td_status decision) +:+ ":" +:+
                           td_summary_path decision)));;
  do _b <- on_world (store_ensure_event (campaign_id lock) event);;
  hub_ret tt.

(** [_find_wave], [_managed_wave_job] *)
Definition _find_wave (spec : ExperimentSpec) (action : ReconcileAction) (key : TargetLabelKey)
    (label : string) : hub (pass W) (option RemoteWaveJob) :=
  do namespace <- hub_lift (_remote_namespace spec);;
  on_world (jobs_find_wave namespace (action_wave_id action) key label).

Definition _managed_wave_job (lock : CampaignLock) (spec : ExperimentSpec) (action : ReconcileAction)
    : hub (pass W) (option RemoteWaveJob) :=
  do target <- hub_lift (_deployment_target lock spec (act_deployment_digest action));;
  match target with
  | target_provider _ => _find_wave spec action label_provider provider_label
  | target_endpoint _ =>
      do endpoint <- hub_lift (managed_wave_endpoint lock spec (act_deployment_digest action));;
      _find_wave spec action label_endpoint
        (endpoint_lease_label_for (er_namespace endpoint) (er_name endpoint))
  end.

(** [_wave_payload]: of the observed wave, or of the action that names it. *)
Definition wave_payload (lock : CampaignLock) (action : ReconcileAction) (wave : option WaveProjection)
    : EventPayload :=
  payload_wave
    match wave with
    | None => {|
        Control.wl_deployment_digest := act_deployment_digest action;
        Control.wl_provider := _wave_provider lock (act_deployment_digest action);
        Control.wl_shard_ids := act_shard_ids action;
        Control.wl_estimated_cost_microusd := or_zero (act_estimated_cost_microusd action) |}
    | Some wave => {|
        Control.wl_deployment_digest := wv_deployment_digest wave;
        Control.wl_provider := wv_provider wave;
        Control.wl_shard_ids := wv_shard_ids wave;
        Control.wl_estimated_cost_microusd := wv_estimated_cost_microusd wave |}
    end.

(** [_drain_wave] *)
Definition _drain_wave (lock : CampaignLock) (action : ReconcileAction) (projection : RecoveryProjection)
    : hub (pass W) string :=
  let wave_id := action_wave_id action in
  do _u <- _record_durable_event lock subject_wave wave_id wave_draining
    (wave_payload lock action (dict_get (rp_waves projection) wave_id))
    (wave_id +:+ ":draining:reconciler");;
  do _v <- (if bool_decide (proj_status (rp_campaign projection) = campaign_status_cancel_requested)
            then _record_durable_event lock subject_campaign (campaign_id lock) campaign_draining
              (payload_lifecycle {| lp_parent_id := None;
                                    lp_message := Some "campaign cancellation is draining" |})
              (campaign_id lock +:+ ":draining:reconciler")
            else hub_ret tt);;
  hub_ret wave_id.

(** [_manual_intervention] *)
Definition _manual_intervention (lock : CampaignLock) (action : ReconcileAction) : hub (pass W) string :=
  let wave_id := action_wave_id action in
  do _u <- _record_durable_event lock subject_campaign (campaign_id lock)
    campaign_manual_intervention_required
    (payload_lifecycle {| lp_parent_id := Some wave_id;
       lp_message := Some "deployment wave cleanup requires manual intervention" |})
    (campaign_id lock +:+ ":" +:+ wave_id +:+ ":manual-intervention");;
  hub_ret wave_id.

(** [_record_wave_closed] *)
Definition closing_kinds (observed : option WaveProjection) : list EventKind :=
  match observed with
  | Some wave => if wave_is_draining wave then [wave_closed] else [wave_cleaning; wave_closed]
  | None => [wave_closed]
  end.

Definition _record_wave_closed (lock : CampaignLock) (action : ReconcileAction)
    (projection : RecoveryProjection) : hub (pass W) unit :=
  let wave_id := action_wave_id action in
  let observed := dict_get (rp_waves projection) wave_id in
  if match observed with Some wave => wave_is_closed wave | None => false end then hub_ret tt
  else
    do _us <- hub_mapM (fun k =>
      _record_durable_event lock subject_wave wave_id k (wave_payload lock action observed)
        (wave_id +:+ ":" +:+ kind_name k +:+ ":reconciler")) (closing_kinds observed);;
    hub_ret tt.

(** [_cancel_wave] *)
Definition _cancel_wave (lock : CampaignLock) (spec : ExperimentSpec) (action : ReconcileAction)
    : hub (pass W) (option string) :=
  do job <- _managed_wave_job lock spec action;;
  match job with
  | None => hub_ret None
  | Some job =>
      do namespace <- hub_lift (_remote_namespace spec);;
      do _u <- on_world (jobs_cancel job namespace);;
      hub_ret (Some (rj_job_id job))
  end.

(** [action.model_copy(update=...)] of [_cancel_execution] *)
Definition cancellation_of (action : ReconcileAction) (wave : WaveProjection) : ReconcileAction := {|
  ra_action_id := ra_action_id action; ra_action_key := ra_action_key action;
  act_kind := act_kind action; act_campaign_id := act_campaign_id action;
  act_deployment_digest := wv_deployment_digest wave; act_provider := act_provider action;
  act_wave_id := Some (wv_wave_id wave); act_shard_ids := wv_shard_ids wave;
  act_trial_ids := act_trial_ids action; act_target_ids := act_target_ids action;
  act_estimated_cost_microusd := act_estimated_cost_microusd action;
  act_spend_cap_microusd := act_spend_cap_microusd action;
|}.

(** The execution and the wave that [_cancel_execution] addresses. *)
Definition cancelled_execution (action : ReconcileAction) (projection : RecoveryProjection)
    : result (string * ExecutionProjection * WaveProjection) :=
  match act_target_ids action with
  | [execution_id] =>
      match dict_get (rp_executions projection) execution_id with
      | Some execution =>
          raise_if negb (bool_decide (ep_status execution = exec_s_active))
            with ActionExecutionError ("execution cancellation target is not active: " +:+ execution_id);;
          match ep_wave_id execution with
          | None => Err (ActionExecutionError ("execution cancellation target has no wave: " +:+ execution_id))
          | Some wave_id =>
              match dict_get (rp_waves projection) wave_id with
              | None => Err (ActionExecutionError ("execution cancellation wave is not observed: " +:+ wave_id))
              | Some wave => Ok (execution_id, execution, wave)
              end
          end
      | None => Err (ActionExecutionError ("execution cancellation target is not active: " +:+ execution_id))
      end
  | _ => Err (ActionExecutionError "execution cancellation must target exactly one execution")
  end.

(** [_cancel_execution] *)
Definition _cancel_execution (lock : CampaignLock) (spec : ExperimentSpec) (action : ReconcileAction)
    (projection : RecoveryProjection) : hub (pass W) string :=
  do target <- hub_lift (cancelled_execution action projection);;
  let '(execution_id, execution, wave) := target in
  let cancellation := cancellation_of action wave in
  do job <- _managed_wave_job lock spec cancellation;;
  do _t <- match job with
           | Some job =>
               if job_is_terminal job
               then hub_raise (AmbiguousActionOutcome
                 ("HF Job " +:+ rj_job_id job +:+ " became terminal; awaiting evidence observation"))
               else hub_ret tt
           | None => hub_ret tt
           end;;
  do remote_id <- _cancel_wave lock spec cancellation;;
  do _u <- _record_durable_event lock subject_execution execution_id execution_cancelled
    (payload_execution_outcome {|
       eo_trial_id := ep_trial_id execution; eo_physical_attempt := ep_physical_attempt execution;
       eo_category := None; eo_spend_microusd := 0; eo_retry_after_seconds := None;
       eo_message := Some "cancelled by campaign reconciliation" |})
    (execution_id +:+ ":cancelled:reconciler");;
  hub_ret (opt_str_or remote_id execution_id).

(** [_cleanup_wave] *)
Definition _cleanup_wave (lock : CampaignLock) (spec : ExperimentSpec) (action : ReconcileAction)
    (projection : RecoveryProjection) : hub (pass W) string :=
  do job <- _managed_wave_job lock spec action;;
  do _t <- match job with
           | Some job =>
               if job_is_terminal job then hub_ret tt
               else hub_raise (AmbiguousActionOutcome
                 ("HF Job " +:+ rj_job_id job +:+ " is still " +:+ rj_stage job +:+
                  "; awaiting terminal cleanup"))
           | None => hub_ret tt
           end;;
  do target <- hub_lift (_deployment_target lock spec (act_deployment_digest action));;
  do remote_id <-
    match target with
    | target_provider _ => hub_ret (action_wave_id action)
    | target_endpoint _ =>
        do desired <- hub_lift (_desired_endpoint lock spec action);;
        do existing <- on_world (endpoints_inspect desired);;
        do _p <- (if is_some existing
                  then do _s <- on_world (endpoints_pause_and_verify desired);; hub_ret tt
                  else hub_ret tt);;
        hub_ret (mi_name (de_identity desired))
    end;;
  do _c <- _record_wave_closed lock action projection;;
  hub_ret remote_id.

(** [_submit_provider_wave] *)
Definition superseded {A} : hub (pass W) A :=
  hub_raise (ActionExecutionError "campaign cancellation superseded the unsubmitted wave action").

Definition _submit_provider_wave (lock : CampaignLock) (spec : ExperimentSpec) (request : document)
    (action : ReconcileAction) (allow_submission : bool) : hub (pass W) string :=
  do job <- _find_wave spec action label_provider provider_label;;
  match job with
  | Some job => hub_ret (rj_job_id job)
  | None =>
      if negb allow_submission then superseded
      else
        do wave <- hub_lift (build_wave_lock lock spec action None);;
        do job <- on_world (jobs_submit wave request lock);;
        hub_ret (rj_job_id job)
  end.

(** [_submit_wave] *)
Definition _submit_wave (lock : CampaignLock) (spec : ExperimentSpec) (request : document)
    (action : ReconcileAction) (projection : RecoveryProjection) (allow_submission : bool)
    : hub (pass W) string :=
  do target <- hub_lift (_deployment_target lock spec (act_deployment_digest action));;
  match target with
  | target_provider _ => _submit_provider_wave lock spec request action allow_submission
  | target_endpoint _ =>
      do desired <- hub_lift (_desired_endpoint lock spec action);;
      do endpoint <- hub_lift (managed_wave_endpoint lock spec (act_deployment_digest action));;
      do job <- _find_wave spec action label_endpoint
        (endpoint_lease_label_for (er_namespace endpoint) (er_name endpoint));;
      match job with
      | Some job =>
          do existing <- on_world (endpoints_inspect desired);;
          if is_some existing then hub_ret (rj_job_id job)
          else hub_raise (ActionExecutionError "managed wave Job exists without its managed endpoint")
      | None =>
          if negb allow_submission then superseded
          else
            do _r <- (if _can_recover_orphaned_endpoint lock action desired projection then
                        do existing <- on_world (endpoints_inspect desired);;
                        if is_some existing
                        then do _s <- on_world (endpoints_pause_and_verify desired);; hub_ret tt
                        else hub_ret tt
                      else hub_ret tt);;
            do _c <- on_world (endpoints_create_or_adopt desired);;
            do wave <- hub_lift (build_wave_lock lock spec action (Some endpoint));;
            do job <- on_world (jobs_submit wave request lock);;
            hub_ret (rj_job_id job)
      end
  end.

(** [_exhaust_trials] *)
Definition trial_may_be_exhausted (projection : RecoveryProjection) (trial_id : string) : bool :=
  match dict_get (rp_trials projection) trial_id with
  | Some trial =>
      match tr_status trial with
      | trial_s_retry_wait | trial_s_invalid | trial_s_failed_infrastructure => true
      | _ => false
      end
  | None => false
  end.

Definition exhaustion_kind (latest : ExecutionProjection) : EventKind :=
  match ep_category latest with
  | Some category_agent | Some category_benchmark => trial_invalid
  | _ => trial_failed_infrastructure
  end.

Definition latest_execution (trial : TrialProjection) : result ExecutionProjection :=
  match dict_values (tr_executions trial) with
  | [] => Err (ValueError "max() iterable argument is empty")
  | e :: es => Ok (max_by_attempt e es)
  end.

Definition exhaustion_event (lock : CampaignLock) (projection : RecoveryProjection) (trial_id : string)
    : hub (pass W) CampaignEvent :=
  do trial <- hub_lift (dict_item (rp_trials projection) trial_id);;
  do latest <- hub_lift (latest_execution trial);;
  durable_event lock subject_trial trial_id (exhaustion_kind latest)
    (payload_lifecycle {| lp_parent_id := Some (tr_shard_id trial);
                          lp_message := Some "retry spend cap exhausted" |})
    (trial_id +:+ ":spend-cap-exhausted").

Definition _exhaust_trials (lock : CampaignLock) (action : ReconcileAction)
    (projection : RecoveryProjection) : hub (pass W) string :=
  if is_some (rp_cancel_requested_at projection)
  then hub_raise (ActionExecutionError "campaign cancellation superseded retry exhaustion")
  else
    do _v <- hub_lift (_validate_spend_exhaustion_targets lock action);;
    do _t <- hub_lift (mapM (fun trial_id =>
        raise_if negb (trial_may_be_exhausted projection trial_id)
          with ActionExecutionError ("spend exhaustion target is not retryable: " +:+ trial_id);;
        Ok tt) (act_trial_ids action));;
    do events <- hub_mapM (exhaustion_event lock projection) (act_trial_ids action);;
    do _e <- hub_catch (on_world (store_ensure_events_unless_cancelled (campaign_id lock) events))
      (fun e => match e with
                | CampaignCancellationWon _ => Some (hub_raise (ActionExecutionError (error_text e)))
                | _ => None
                end);;
    hub_ret (ra_action_id action).

(** [self.result_publisher.publish(...)] and its [except] clause *)
Definition publish_results_of (lock : CampaignLock) : hub (pass W) unit :=
  match result_publisher with
  | None => hub_raise (ActionExecutionError "automatic result publication is not configured")
  | Some publish =>
      hub_catch (on_world (publish (campaign_id lock)))
        (fun e => if is_os_error e || is_runtime_error e || is_value_error e
                  then Some (hub_raise (ActionExecutionError
                    ("campaign result publication failed: " +:+ error_text e)))
                  else None)
  end.

(** [_publish_results], [_publish_summary] *)
Definition _publish_results (lock : CampaignLock) : hub (pass W) string :=
  do _u <- publish_results_of lock;; hub_ret (campaign_id lock).

Definition _publish_summary (lock : CampaignLock) (spec : ExperimentSpec)
    (projection : RecoveryProjection) (decision : option TerminalDecision) : hub (pass W) string :=
  match decision, finalizer with
  | Some decision, Some finalize =>
      do _f <- hub_catch (on_world (finalize lock spec projection decision))
        (fun e => match e with
                  | CampaignFinalizationError m => Some (hub_raise (ActionExecutionError m))
                  | _ => None
                  end);;
      if negb (bool_decide (td_status decision = terminal_completed))
      then hub_ret (td_summary_path decision)
      else do _p <- publish_results_of lock;; hub_ret (td_summary_path decision)
  | _, _ => hub_raise (ActionExecutionError "campaign summary finalization is not configured")
  end.

(** [_execute] and [_execute_lifecycle_action] *)
Definition some_id (m : hub (pass W) string) : hub (pass W) (option string) :=
  do remote_id <- m;; hub_ret (Some remote_id).

Definition _execute_lifecycle_action (lock : CampaignLock) (spec : ExperimentSpec)
    (action : ReconcileAction) (projection : RecoveryProjection)
    (terminal_decision : option TerminalDecision) : hub (pass W) (option string) :=
  match act_kind action with
  | cancel_wave => _cancel_wave lock spec action
  | cancel_execution => some_id (_cancel_execution lock spec action projection)
  | drain_wave => some_id (_drain_wave lock action projection)
  | cleanup_wave => some_id (_cleanup_wave lock spec action projection)
  | manual_intervention_action => some_id (_manual_intervention lock action)
  | publish_results => some_id (_publish_results lock)
  | publish_summary => some_id (_publish_summary lock spec projection terminal_decision)
  | k => hub_raise (ActionExecutionError
           ("action execution is not supported by configured adapters: " +:+ action_kind_name k))
  end.

Definition _execute (lock : CampaignLock) (spec : ExperimentSpec) (request : document)
    (action : ReconcileAction) (projection : RecoveryProjection)
    (terminal_decision : option TerminalDecision) (allow_billable : bool)
    : hub (pass W) (option string) :=
  match act_kind action with
  | submit_wave | retry_shard =>
      some_id (_submit_wave lock spec request action projection allow_billable)
  | exhaust_trials => some_id (_exhaust_trials lock action projection)
  | _ => _execute_lifecycle_action lock spec action projection terminal_decision
  end.

(** [_AMBIGUOUS_ENDPOINT_ERRORS] *)
Definition _AMBIGUOUS_ENDPOINT_ERRORS (e : exn) : bool :=
  match e with
  | AmbiguousEndpointCreate _ | AmbiguousEndpointPause _ | AmbiguousEndpointDelete _
  | EndpointVerificationTimeout _ => true
  | _ => false
  end.

(** The three [except] clauses of [_apply_action], in their order. *)
Definition record_exception (lock : CampaignLock) (spec : ExperimentSpec) (action : ReconcileAction)
    (projection : RecoveryProjection) (error : exn) : option (hub (pass W) AppliedAction) :=
  match error with
  | AmbiguousActionOutcome _ =>
      Some (_record_outcome lock action outcome_ambiguous (Some (error_text error)) None)
  | _ =>
      if _AMBIGUOUS_ENDPOINT_ERRORS error then Some (
        do remote_id <-
          (if is_wave_action_kind (act_kind action) then
             do target <- hub_lift (_deployment_target lock spec (act_deployment_digest action));;
             match target with
             | target_provider _ => hub_ret None
             | target_endpoint _ =>
                 do desired <- hub_lift (_desired_endpoint lock spec action);;
                 hub_ret (Some (mi_name (de_identity desired)))
             end
           else hub_ret None);;
        _record_outcome lock action outcome_ambiguous (Some (error_text error)) remote_id)
      else if match error with ActionExecutionError _ => true | _ => false end ||
              is_provisioning_error error || is_value_error error then Some (
        do remote_id <- hub_lift (_failed_endpoint_remote_id lock spec action projection error);;
        _record_outcome lock action outcome_failed (Some (error_text error)) remote_id)
      else None
  end.

(** [_apply_action] *)
Definition _apply_action (lock : CampaignLock) (spec : ExperimentSpec) (request : document)
    (action : ReconcileAction) (projection : RecoveryProjection)
    (terminal_decision : option TerminalDecision) (allow_billable : bool)
    : hub (pass W) AppliedAction :=
  do executed <- hub_catch
    (do remote_id <- _execute lock spec request action projection terminal_decision allow_billable;;
     hub_ret (inl remote_id))
    (fun error => match record_exception lock spec action projection error with
                  | Some record => Some (do applied <- record;; hub_ret (inr applied))
                  | None => None
                  end);;
  match executed with
  | inr applied => hub_ret applied
  | inl remote_id =>
      do outcome <- _record_outcome lock action outcome_succeeded None remote_id;;
      if bool_decide (act_kind action = publish_summary) then
        match terminal_decision with
        | None => hub_raise (CampaignApplyError "summary action has no terminal decision")
        | Some decision => do _u <- _record_terminal lock decision;; hub_ret outcome
        end
      else hub_ret outcome
  end.

(** [_action_claim_owner] *)
Definition _action_claim_owner (lock : CampaignLock) (action : ReconcileAction)
    : hub (pass W) (dict string) :=
  do now <- on_world pass_clock;;
  do identifier <- on_world pass_identifier;;
  hub_ret [("campaign_id", campaign_id lock); ("action_id", ra_action_id action);
           ("reconciler_id", identifier); ("expires_at", isoformat (now + _ACTION_LEASE_DURATION))].

(** [with suppress(CoordinationError): self.action_claims.release(path, owner)] *)
Definition release_action_claim (path : string) (owner : dict string) : hub (pass W) unit :=
  hub_catch (on_world (claim_release path owner))
    (fun e => match e with CoordinationError _ | ClaimConflict _ => Some (hub_ret tt) | _ => None end).

(** The loop of [_apply_selected] stops after an ambiguous outcome and after a
    published summary; an action whose claim is held is skipped. *)
Definition pass_ends (action : ReconcileAction) (outcome : AppliedAction) : bool :=
  bool_decide (aa_status outcome = outcome_ambiguous) ||
  (bool_decide (act_kind action = publish_summary) &&
   bool_decide (aa_status outcome = outcome_succeeded)).

Fixpoint _apply_selected (lock : CampaignLock) (spec : ExperimentSpec) (request : document)
    (selected : list ReconcileAction) (projection : RecoveryProjection)
    (terminal_decision : option TerminalDecision) (allow_billable : bool)
    : hub (pass W) (list AppliedAction) :=
  match selected with
  | [] => hub_ret []
  | action :: selected =>
      do owner <- _action_claim_owner lock action;;
      let path := action_claim_path (campaign_id lock) (ra_action_id action) in
      do claimed <- hub_catch (do _a <- on_world (claim_acquire path owner);; hub_ret true)
        (fun e => match e with ClaimConflict _ => Some (hub_ret false) | _ => None end);;
      if negb claimed
      then _apply_selected lock spec request selected projection terminal_decision allow_billable
      else
        do outcome <- hub_finally
          (_apply_action lock spec request action projection terminal_decision allow_billable)
          (release_action_claim path owner);;
        if pass_ends action outcome then hub_ret [outcome]
        else
          do rest <- _apply_selected lock spec request selected projection terminal_decision allow_billable;;
          hub_ret (outcome :: rest)
  end.

(** [_reserve_new] *)
Definition reserve_one (lock : CampaignLock) (reserved : list ReconcileAction) (action : ReconcileAction)
    : hub (pass W) (list ReconcileAction) :=
  do event <- _event lock action_reserved
    (payload_action_reserved {|
       ar_action_id := ra_action_id action; ar_action_key := ra_action_key action;
       ar_action_kind := act_kind action; ar_target_ids := act_target_ids action |});;
  do created <- on_world (store_reserve_action (campaign_id lock) (ReconcileAction_dump action) event);;
  hub_ret (if created then reserved ++ [action] else reserved).

Definition _reserve_new (lock : CampaignLock) (actions : list ReconcileAction)
    : hub (pass W) (list ReconcileAction) := hub_foldM (reserve_one lock) [] actions.

(** [_recover_lost_executions] *)
Definition is_lost (wave_id : string) (execution : ExecutionProjection) : bool :=
  bool_decide (ep_wave_id execution = Some wave_id) && bool_decide (ep_status execution = exec_s_active).

Definition record_lost (lock : CampaignLock) (job : RemoteWaveJob) (execution : ExecutionProjection)
    : hub (pass W) unit :=
  _record_durable_event lock subject_execution (ep_execution_id execution) execution_failed
    (payload_execution_outcome {|
       eo_trial_id := ep_trial_id execution; eo_physical_attempt := ep_physical_attempt execution;
       eo_category := Some category_lost; eo_spend_microusd := 0; eo_retry_after_seconds := None;
       eo_message := Some ("HF Job " +:+ rj_job_id job +:+ " reached " +:+ rj_stage job +:+
                           " without terminal execution evidence") |})
    (ep_execution_id execution +:+ ":lost:" +:+ rj_job_id job).

Definition _recover_lost_executions (lock : CampaignLock) (projection : RecoveryProjection)
    (wave_id : string) (job : RemoteWaveJob) : hub (pass W) bool :=
  let lost := List.filter (is_lost wave_id) (dict_values (rp_executions projection)) in
  do _us <- hub_mapM (record_lost lock job) lost;;
  hub_ret (negb (is_nil lost)).

(** [_recover_terminal_jobs] *)
Definition recover_terminal_job (lock : CampaignLock) (spec : ExperimentSpec)
    (projection : RecoveryProjection) (reservations : dict ReconcileAction) (changed : bool)
    (entry : string * ActionProjection) : hub (pass W) bool :=
  let '(action_id, state) := entry in
  if negb (is_wave_action_kind (ap_action_kind state)) then hub_ret changed
  else
    match dict_get reservations action_id with
    | None => hub_raise (no_reservation action_id)
    | Some action =>
        let wave_id := action_wave_id action in
        let wave := dict_get (rp_waves projection) wave_id in
        if match wave with Some wave => wave_is_closed wave | None => false end then hub_ret changed
        else
          do job <- _managed_wave_job lock spec action;;
          match job with
          | Some job =>
              if negb (job_is_terminal job) then hub_ret changed
              else
                do lost <- _recover_lost_executions lock projection wave_id job;;
                if _terminal_wave_needs_drain wave
                then do _d <- _drain_wave lock action projection;; hub_ret true
                else hub_ret (lost || changed)
          | None => hub_ret changed
          end
    end.

Definition _recover_terminal_jobs (lock : CampaignLock) (spec : ExperimentSpec)
    (projection : RecoveryProjection) (reservations : dict ReconcileAction) : hub (pass W) bool :=
  hub_foldM (recover_terminal_job lock spec projection reservations) false
    (sorted_items (proj_actions (rp_campaign projection))).

(** [_validated_request] *)
Definition _validated_request (lock : CampaignLock) (request : document) : result ExperimentSpec :=
  let* spec :=
    match load_experiment_bytes request with
    | Err (ManifestError _) => Err (CampaignApplyError "campaign request is not a valid manifest")
    | r => r
    end in
  let* expected :=
    match expected_campaign lock spec with
    | Err e => Err (if is_value_error e
                    then CampaignApplyError "campaign request cannot reproduce its immutable lock" else e)
    | r => r
    end in
  raise_if negb (bool_decide (expected = lock))
    with CampaignApplyError "campaign request does not match its immutable lock";;
  Ok spec.

(** [refresh_observation] *)
Definition campaign_has_ended (events : list CampaignEvent) : bool :=
  existsb (fun e => is_campaign_terminal_kind (kind e)) events.

Definition refresh_observation (campaign : string)
    : hub (pass W) (CampaignLock * list CampaignEvent * document * ExperimentSpec) :=
  do loaded <- on_world (store_load_campaign campaign);;
  let '(lock, events) := loaded in
  do request <- on_world (store_load_request campaign);;
  do spec <- hub_lift (_validated_request lock request);;
  match observer with
  | None => hub_ret (lock, events, request, spec)
  | Some (refresh, observe) =>
      do _r <- on_world refresh;;
      if campaign_has_ended events then hub_ret (lock, events, request, spec)
      else
        do observed <- on_world (observe lock spec);;
        do missing <- hub_lift (_missing_observed_events datetime_json events observed);;
        do changed <- (if is_nil missing then hub_ret false
                       else on_world (store_ensure_events campaign missing));;
        if changed then
          do reloaded <- on_world (store_load_campaign campaign);;
          hub_ret (reloaded.1, reloaded.2, request, spec)
        else hub_ret (lock, events, request, spec)
  end.

(** The planning step, which [apply_campaign] repeats after it recorded events. *)
Definition planned (lock : CampaignLock) (events : list CampaignEvent)
    (reservations : dict ReconcileAction) (context : option ReconcileContext)
    : hub (pass W) (ReconcileContext * RecoveryProjection * ReconcilePlan) :=
  do effective <- hub_lift (_context_with_unobserved_actions lock events reservations context);;
  do now <- on_world pass_clock;;
  do plan <- hub_lift (plan_reconciliation lock events effective now);;
  hub_ret (effective, plan.1, plan.2).

(** Sorted by priority, then by identifier. *)
Definition action_leb (x y : ReconcileAction) : bool :=
  lex_leb Z.eqb Z.leb str_leb (_ACTION_PRIORITY (act_kind x), ra_action_id x)
    (_ACTION_PRIORITY (act_kind y), ra_action_id y).

(** [selected[:limit]]: a negative limit drops from the end. *)
Definition bounded (limit : Z) (selected : list ReconcileAction) : list ReconcileAction :=
  take (Z.to_nat (if limit <? 0 then len selected + limit else limit)) selected.

(** The end of [apply_campaign], from the pending actions on. *)
Definition select_and_apply (lock : CampaignLock) (spec : ExperimentSpec) (request : document)
    (reservations : dict ReconcileAction) (effective : ReconcileContext)
    (projection : RecoveryProjection) (plan : ReconcilePlan) (expected_action_id : option string)
    : hub (pass W) (list AppliedAction) :=
  do pending <- hub_lift (_pending_actions (proj_actions (rp_campaign projection)) reservations);;
  do reserved <- _reserve_new lock (rpl_actions plan);;
  let selected := bounded (action_limit (limits effective))
                    (sort_by action_leb (pending ++ reserved)) in
  match expected_action_id, selected with
  | Some expected, action :: _ =>
      if negb (String.eqb (ra_action_id action) expected)
      then hub_raise (ActionExecutionError "reconciler action changed after controller admission")
      else _apply_selected lock spec request selected projection (rpl_terminal_decision plan)
             (bool_decide (proj_status (rp_campaign projection) = campaign_status_queued) ||
              bool_decide (proj_status (rp_campaign projection) = campaign_status_active))
  | _, _ =>
      _apply_selected lock spec request selected projection (rpl_terminal_decision plan)
        (bool_decide (proj_status (rp_campaign projection) = campaign_status_queued) ||
         bool_decide (proj_status (rp_campaign projection) = campaign_status_active))
  end.

(** [apply_campaign] *)
Definition apply_campaign (campaign : string) (context : option ReconcileContext)
    (expected_action_id : option string) : hub (pass W) CampaignApplyResult :=
  do refreshed <- refresh_observation campaign;;
  let '(lock, events, request, spec) := refreshed in
  do latest <- hub_lift (latest_observed events);;
  do _s <- set_last_observed latest;;
  do values <- on_world (store_load_action_reservations campaign);;
  do reservations <- hub_lift (_validated_reservations action_validate values campaign);;
  do first <- planned lock events reservations context;;
  let '(effective, projection, plan) := first in
  if campaign_status_is_terminal (proj_status (rp_campaign projection))
  then hub_ret {| cr_campaign_id := campaign; cr_plan := plan; cr_applied := [] |}
  else
    do changed <- _recover_terminal_jobs lock spec projection reservations;;
    do replanned <-
      (if changed then
         do loaded <- on_world (store_load_campaign campaign);;
         let '(lock, events) := loaded in
         do latest <- hub_lift (latest_observed events);;
         do _s <- set_last_observed latest;;
         do again <- planned lock events reservations context;;
         hub_ret (lock, again)
       else hub_ret (lock, (effective, projection, plan)));;
    let '(lock, (effective, projection, plan)) := replanned in
    match rpl_terminal_decision plan with
    | Some decision =>
        if negb (campaign_status_is_terminal (proj_status (rp_campaign projection))) &&
           _summary_action_succeeded projection
        then
          do _t <- _record_terminal lock decision;;
          do loaded <- on_world (store_load_campaign campaign);;
          do final <- planned loaded.1 loaded.2 reservations context;;
          hub_ret {| cr_campaign_id := campaign; cr_plan := final.2; cr_applied := [] |}
        else
          do applied <- select_and_apply lock spec request reservations effective projection plan
            expected_action_id;;
          hub_ret {| cr_campaign_id := campaign; cr_plan := plan; cr_applied := applied |}
    | None =>
        do applied <- select_and_apply lock spec request reservations effective projection plan
          expected_action_id;;
        hub_ret {| cr_campaign_id := campaign; cr_plan := plan; cr_applied := applied |}
    end.

(** [_admission_usage] *)
Definition _admission_usage (campaign : string) : hub (pass W) AdmissionUsage :=
  do loaded <- on_world (store_load_campaign campaign);;
  do projection <- hub_lift (project_recovery loaded.1 loaded.2);;
  do values <- on_world (store_load_action_reservations campaign);;
  do reservations <- hub_lift (_validated_reservations action_validate values campaign);;
  hub_lift (_build_admission_usage campaign projection reservations).

(** [apply_all]: the usage every campaign contributes, then one pass each. *)
Definition observe_usage (acc : dict AdmissionUsage * bool) (campaign : string)
    : hub (pass W) (dict AdmissionUsage * bool) :=
  do r <- hub_try (_admission_usage campaign);;
  hub_ret (match r with
           | Ok u => (dict_set acc.1 campaign u, acc.2)
           | Err _ => (dict_set acc.1 campaign default_usage, true)
           end).

(** When a usage is unknown, no new wave is admitted. *)
Definition conservative_baseline (baseline : ReconcileContext) : ReconcileContext :=
  let u := usage baseline in
  with_usage baseline {|
    used_global_active_waves :=
      Z.max (used_global_active_waves u) (global_active_waves (limits baseline));
    used_deployment_active_waves := used_deployment_active_waves u;
    used_provider_active_waves := used_provider_active_waves u;
    used_campaign_active_waves := used_campaign_active_waves u;
    used_campaign_spend_microusd := used_campaign_spend_microusd u;
  |}.

(** The usage of the other campaigns. *)
Definition others_usage (observed : dict AdmissionUsage) (campaign : string) : list AdmissionUsage :=
  dict_values (List.filter (fun e : string * AdmissionUsage => negb (String.eqb e.1 campaign)) observed).

Definition apply_one (baseline : ReconcileContext)
    (acc : list (CampaignApplyResult + CampaignApplyFailure) * dict AdmissionUsage) (campaign : string)
    : hub (pass W) (list (CampaignApplyResult + CampaignApplyFailure) * dict AdmissionUsage) :=
  let '(results, observed) := acc in
  let campaign_context := with_usage baseline
    (_combined_usage (usage baseline) (others_usage observed campaign)) in
  do r <- hub_try (apply_campaign campaign (Some campaign_context) None);;
  match r with
  | Err e => hub_ret (results ++ [inr {| cf_campaign_id := campaign; cf_error := e |}], observed)
  | Ok result =>
      do u <- hub_try (_admission_usage campaign);;
      hub_ret (match u with
               | Ok u => (results ++ [inl result], dict_set observed campaign u)
               | Err e => (results ++ [inl result] ++
                           [inr {| cf_campaign_id := campaign; cf_error := e |}], observed)
               end)
  end.

Definition apply_all (context : option ReconcileContext) (campaign_ids : option (list string))
    : hub (pass W) (list (CampaignApplyResult + CampaignApplyFailure)) :=
  do selected <- match campaign_ids with
                 | Some ids => hub_ret (rev (remove_dups (rev ids)))
                 | None => on_world store_list_campaigns
                 end;;
  do usages <- hub_foldM observe_usage ([], false) selected;;
  let baseline := context_or_default context in
  let baseline := if usages.2 then conservative_baseline baseline else baseline in
  do outcome <- hub_foldM (apply_one baseline) ([], usages.1) selected;;
  hub_ret outcome.1.
End reconciler.
