(* ===== verification/CampaignProtocol.v ===== *)
(** The protocol of the campaign records: an abstract specification of
    [HubCampaignStore].

    [campaign_file] names the files of a campaign; [campaign_step] says which
    commits may be made: a new campaign, events that are not there, a
    cancellation with its marker, an action with its reservation.  Commits of
    the controller store are elsewhere. *)
From S2P Require Import Prelude.
From S2P Require Import PyDict.
From S2P Require Import Paths.
From S2P Require Import Sha256.
From S2P Require Import Json.
From S2P Require Import Campaigns.
From S2P Require Import Control.
From S2P Require Import Hub.
From S2P Require Import ControllerStatus.
From S2P Require Import ControllerProtocol.
From S2P Require Import ControlStore.

(** ** Files *)
Inductive campaign_file :=
  | FRequest (campaign : string)
  | FLock (campaign : string)
  | FCancellation (campaign : string)
  | FReservation (campaign : string)
  | FEvent (campaign event : string)
  | FAction (campaign action : string).

Definition file_path (f : campaign_file) : string :=
  match f with
  | FRequest c => _campaign_request_path c
  | FLock c => _campaign_lock_path c
  | FCancellation c => _campaign_cancellation_path c
  | FReservation c => _campaign_reservation_path c
  | FEvent c e => _event_path c e
  | FAction c a => _action_reservation_path c a
  end.

Definition file_campaign (f : campaign_file) : string :=
  match f with
  | FRequest c | FLock c | FCancellation c | FReservation c | FEvent c _ | FAction c _ => c
  end.

Definition file_ok (f : campaign_file) : bool := campaign_id_safe (file_campaign f).

Definition file_components (f : campaign_file) : list string :=
  match f with
  | FRequest c => ["campaigns"; c; "request.yaml"]
  | FLock c => ["campaigns"; c; "campaign.lock.json"]
  | FCancellation c => ["campaigns"; c; "cancellation.json"]
  | FReservation c => ["campaign-reservations"; sha256_hex c +:+ ".json"]
  | FEvent c e => "campaigns" :: c :: "events" :: split_slash (e +:+ ".json")
  | FAction c a => "campaigns" :: c :: "reservations" :: split_slash (a +:+ ".json")
  end.

(** Two campaigns with one digest share their reservation. *)
Definition same_file (f g : campaign_file) : Prop :=
  match f, g with
  | FReservation c, FReservation d => sha256_hex c = sha256_hex d
  | _, _ => f = g
  end.

Lemma campaign_id_no_slash c : campaign_id_safe c = true -> no_slash c = true.
Proof. apply safe_component_no_slash. Qed.
#[export] Hint Resolve campaign_id_no_slash : paths.

Lemma split_file f : file_ok f = true -> split_slash (file_path f) = file_components f.
Proof.
  assert (Hc : forall a b s, no_slash a = true -> split_slash s = b -> split_slash (a +:+ "/" +:+ s) = a :: b)
    by (intros a b s Ha <-; by apply split_slash_cons).
  destruct f as [c|c|c|c|c e|c a]; cbn [file_path file_components]; unfold file_ok; cbn [file_campaign]; intros H.
  1-3: apply (Hc "campaigns"); [done|]; apply (Hc c); [eauto with paths|done].
  - apply (Hc "campaign-reservations"); [done|]. apply split_slash_single. eauto with paths.
  - apply (Hc "campaigns"); [done|]. apply (Hc c); [eauto with paths|]. by apply (Hc "events").
  - apply (Hc "campaigns"); [done|]. apply (Hc c); [eauto with paths|]. by apply (Hc "reservations").
Qed.

(** Distinct files have distinct paths. *)
Lemma file_path_inj f g :
  file_ok f = true -> file_ok g = true -> file_path f = file_path g -> same_file f g.
Proof.
  intros Hf Hg E. pose proof E as H. apply (f_equal split_slash) in H. rewrite !split_file in H by done.
  destruct f, g; cbn in H |- *; try discriminate H; injection H; intros; subst;
    try done; repeat match goal with
    | H : _ +:+ ".json" = _ +:+ ".json" |- _ => apply app_suffix_inj in H
    | H : split_slash _ = split_slash _ |- _ => apply split_slash_inj in H
    end; try done; f_equal; congruence.
Qed.

(** No campaign file is a record of the controllers. *)
Lemma file_not_location f l :
  file_ok f = true -> location_ok l = true -> file_path f <> location_path l.
Proof.
  intros Hf Hl E. apply (f_equal split_slash) in E. rewrite split_file, split_location in E by done.
  destruct f, l; cbn in E; discriminate E.
Qed.

(** The files that are never written again. *)
Definition is_permanent (f : campaign_file) : bool :=
  match f with FLock _ | FCancellation _ | FAction _ _ => true | _ => false end.

Section protocol.
Context {ML : PydanticModel CampaignLock}.
(** How Pydantic prints a datetime. *)
Variable datetime_json : Z -> string.

(** The commits of the campaign store on a tree. *)
Inductive campaign_change (t : tree) : list commit_op -> Prop :=
  | change_campaign lock request event :
      campaign_id_safe (campaign_id lock) = true ->
      kind event = campaign_submitted -> subject_id event = campaign_id lock ->
      t !! file_path (FLock (campaign_id lock)) = None ->
      campaign_change t (campaign_operations datetime_json lock request event)
  | change_events c entries :
      campaign_id_safe c = true ->
      Forall (fun x => t !! x.1 = None /\ exists e, x.1 = file_path (FEvent c e)) entries ->
      campaign_change t (add_operations entries)
  | change_cancelled c event :
      campaign_id_safe c = true -> kind event = campaign_cancel_requested ->
      t !! file_path (FEvent c (event_id event)) = None ->
      t !! file_path (FCancellation c) = None ->
      campaign_change t
        [CommitOperationAdd (file_path (FEvent c (event_id event))) (DJson (event_dump datetime_json event));
         CommitOperationAdd (file_path (FCancellation c)) (DJson (cancellation_marker c event))]
  | change_action c a action event :
      campaign_id_safe c = true -> kind event = action_reserved -> subject_id event = c ->
      payload_action_id (payload event) = Ok a ->
      t !! file_path (FAction c a) = None ->
      campaign_change t
        [CommitOperationAdd (file_path (FAction c a)) (DJson (jobj action));
         CommitOperationAdd (file_path (FEvent c (event_id event))) (DJson (event_dump datetime_json event))].

(** One commit of the repository: a campaign change, or a commit that touches
    no file of a campaign. *)
Inductive campaign_step (t : tree) : tree -> Prop :=
  | campaign_step_change ops : campaign_change t ops -> campaign_step t (apply_ops t ops)
  | campaign_step_elsewhere t' :
      (forall f, file_ok f = true -> t' !! file_path f = t !! file_path f) -> campaign_step t t'.
End protocol.

(** ** Lookups after a commit *)
Definition op_path (op : commit_op) : string :=
  match op with CommitOperationAdd path _ | CommitOperationDelete path => path end.

Lemma apply_ops_other ops t p : p ∉ map op_path ops -> apply_ops t ops !! p = t !! p.
Proof.
  unfold apply_ops. revert t. induction ops as [|op ops IH]; intros t; cbn [map fold_left]; [done|].
  rewrite not_elem_of_cons. intros [Hne Hp]. rewrite IH by done.
  destruct op; cbn in *; [by rewrite lookup_insert_ne|by rewrite lookup_delete_ne].
Qed.

Lemma op_path_additions entries : map op_path (add_operations entries) = map fst entries.
Proof. unfold add_operations. rewrite map_map. done. Qed.

Lemma lookup_additions t entries p j :
  NoDup (map fst entries) -> (p, j) ∈ entries -> apply_ops t (add_operations entries) !! p = Some (DJson j).
Proof.
  revert t. induction entries as [|[q i] entries IH]; intros t; cbn [map fst].
  { by intros _ ?%elem_of_nil. }
  intros [Hq Hn]%NoDup_cons [[= -> ->]|Hin]%elem_of_cons.
  - change (apply_ops t (add_operations ((q, i) :: entries)))
      with (apply_ops (<[q := DJson i]> t) (add_operations entries)).
    rewrite apply_ops_other by (by rewrite op_path_additions). by rewrite lookup_insert_eq.
  - by apply IH.
Qed.

(** Additions never remove a file. *)
Definition is_addition (op : commit_op) : bool :=
  match op with CommitOperationAdd _ _ => true | CommitOperationDelete _ => false end.

Lemma lookup_additions_some ops t p :
  forallb is_addition ops = true -> is_Some (t !! p) -> is_Some (apply_ops t ops !! p).
Proof.
  unfold apply_ops. revert t. induction ops as [|[q d|q] ops IH]; intros t; cbn; [done| |done].
  intros Ho Hp. apply IH; [done|].
  destruct (decide (q = p)) as [->|]; [by rewrite lookup_insert_eq|by rewrite lookup_insert_ne].
Qed.

(** ** What a step may do *)
Section steps.
Context {ML : PydanticModel CampaignLock}.
Variable datetime_json : Z -> string.
Notation campaign_change := (campaign_change datetime_json).
Notation campaign_step := (campaign_step datetime_json).

Lemma change_additions t ops : campaign_change t ops -> forallb is_addition ops = true.
Proof.
  intros [|c entries _ _| |]; try done. unfold add_operations.
  induction entries as [|x entries IH]; [done|exact IH].
Qed.

(** Every file of a change is a campaign file. *)
Lemma change_files t ops p :
  campaign_change t ops -> p ∈ map op_path ops -> exists f, file_ok f = true /\ p = file_path f.
Proof.
  intros [lock request event Hc _ _ _|c entries Hc He|c event Hc _ _ _|c a action event Hc _ _ _ _].
  - cbn. rewrite !elem_of_cons, elem_of_nil.
    intros [-> | [-> | [-> | [-> | []]]]];
      [by exists (FRequest (campaign_id lock))|by exists (FLock (campaign_id lock))
      |by exists (FEvent (campaign_id lock) (event_id event))|by exists (FReservation (campaign_id lock))].
  - rewrite op_path_additions, list_elem_of_fmap. intros (x & -> & Hx).
    rewrite Forall_forall in He. destruct (He x Hx) as [_ [e He']]. by exists (FEvent c e).
  - cbn. rewrite !elem_of_cons, elem_of_nil.
    intros [-> | [-> | []]]; [by exists (FEvent c (event_id event))|by exists (FCancellation c)].
  - cbn. rewrite !elem_of_cons, elem_of_nil.
    intros [-> | [-> | []]]; [by exists (FAction c a)|by exists (FEvent c (event_id event))].
Qed.

(** A file that is there is only written again by a change that may. *)
Lemma change_permanent t ops f :
  campaign_change t ops -> file_ok f = true -> is_permanent f = true -> is_Some (t !! file_path f) ->
  file_path f ∉ map op_path ops.
Proof.
  intros Hch Hf Hp Hd.
  assert (Hne : forall g, file_ok g = true -> f <> g -> file_path f <> file_path g).
  { intros g Hg Hfg E. apply file_path_inj in E; [|done..]. by destruct f, g. }
  assert (Habs : forall g, t !! file_path g = None -> f <> g).
  { intros g Hg ->. rewrite Hg in Hd. by destruct Hd. }
  destruct Hch as [lock request event Hc _ _ Ha|c entries Hc He|c event Hc _ _ Ha|c a action event Hc _ _ _ Ha].
  - cbn. rewrite !not_elem_of_cons.
    split_and!; [apply (Hne (FRequest _))|apply (Hne (FLock _))|apply (Hne (FEvent _ _))
                |apply (Hne (FReservation _))|apply not_elem_of_nil]; auto; intros ->; done.
  - rewrite op_path_additions, list_elem_of_fmap. intros (x & Hx & Hin).
    rewrite Forall_forall in He. destruct (He x Hin) as [Hn _]. rewrite <- Hx in Hn.
    by apply (Habs f).
  - cbn. rewrite !not_elem_of_cons.
    split_and!; [apply (Hne (FEvent _ _))|apply (Hne (FCancellation _))|apply not_elem_of_nil]; auto;
      intros ->; done.
  - cbn. rewrite !not_elem_of_cons.
    split_and!; [apply (Hne (FAction _ _))|apply (Hne (FEvent _ _))|apply not_elem_of_nil]; auto;
      intros ->; done.
Qed.

Lemma permanent_step t t' f d :
  campaign_step t t' -> file_ok f = true -> is_permanent f = true ->
  t !! file_path f = Some d -> t' !! file_path f = Some d.
Proof.
  intros [ops Hch|t1 He] Hf Hp Hd; [|by rewrite He].
  rewrite apply_ops_other; [done|]. eapply change_permanent; [done..|]. by exists d.
Qed.

(** Nothing of a campaign is ever removed. *)
Lemma present_step t t' f :
  campaign_step t t' -> file_ok f = true -> is_Some (t !! file_path f) -> is_Some (t' !! file_path f).
Proof.
  intros [ops Hch|t1 He] Hf Hd; [|by rewrite He].
  apply lookup_additions_some; [|done]. by eapply change_additions.
Qed.

(** A cancellation marker names an event that is recorded. *)
Definition cancellation_consistent (t : tree) : Prop :=
  forall c d, campaign_id_safe c = true -> t !! file_path (FCancellation c) = Some d ->
    exists event, d = DJson (cancellation_marker c event) /\
      is_Some (t !! file_path (FEvent c (event_id event))).

Lemma cancellation_step t t' :
  campaign_step t t' -> cancellation_consistent t -> cancellation_consistent t'.
Proof.
  intros Hs Ht c d Hc Hd.
  destruct (t !! file_path (FCancellation c)) as [d0|] eqn:E0.
  - pose proof (permanent_step _ _ (FCancellation c) _ Hs Hc eq_refl E0) as Hd'.
    rewrite Hd in Hd'. injection Hd' as ->.
    destruct (Ht c d0 Hc E0) as (event & -> & He). exists event. split; [done|].
    by apply (present_step _ _ (FEvent c (event_id event)) Hs).
  - destruct Hs as [ops Hch|t1 He]; [|rewrite (He (FCancellation c) Hc) in Hd; congruence].
    assert (Hin : file_path (FCancellation c) ∈ map op_path ops).
    { destruct (decide (file_path (FCancellation c) ∈ map op_path ops)) as [|Hn]; [done|].
      rewrite apply_ops_other in Hd by done. congruence. }
    assert (Hne : forall g, file_ok g = true -> file_path (FCancellation c) = file_path g ->
                  g = FCancellation c).
    { intros g Hg E. apply file_path_inj in E; [|done..]. by destruct g. }
    destruct Hch as [lock request event Hc' _ _ _|c' entries Hc' Hen|c' event Hc' _ _ Ha
                    |c' a action event Hc' _ _ _ _].
    + cbn in Hin. rewrite !elem_of_cons, elem_of_nil in Hin.
      destruct Hin as [E|[E|[E|[E|[]]]]];
        [apply (Hne (FRequest _)) in E|apply (Hne (FLock _)) in E|apply (Hne (FEvent _ _)) in E
        |apply (Hne (FReservation _)) in E]; done.
    + rewrite op_path_additions, list_elem_of_fmap in Hin. destruct Hin as (x & Hx & Hin).
      rewrite Forall_forall in Hen. destruct (Hen x Hin) as [_ [e He]]. rewrite He in Hx.
      by apply (Hne (FEvent _ _)) in Hx.
    + cbn in Hin. rewrite !elem_of_cons, elem_of_nil in Hin.
      destruct Hin as [E|[E|[]]]; [by apply (Hne (FEvent _ _)) in E|].
      apply (Hne (FCancellation _)) in E; [|done]. injection E as ->. exists event.
      cbn in Hd. rewrite lookup_insert_eq in Hd. injection Hd as <-. split; [done|].
      cbn. rewrite lookup_insert_ne, lookup_insert_eq; [done|].
      intros E. by apply (Hne (FEvent _ _)) in E.
    + cbn in Hin. rewrite !elem_of_cons, elem_of_nil in Hin.
      destruct Hin as [E|[E|[]]]; [apply (Hne (FAction _ _)) in E|apply (Hne (FEvent _ _)) in E]; done.
Qed.

(** ** The two protocols share one repository *)

(** A commit of the campaign store leaves every controller record alone. *)
Lemma campaign_change_controllers t ops l :
  campaign_change t ops -> location_ok l = true ->
  apply_ops t ops !! location_path l = t !! location_path l.
Proof.
  intros Hch Hl. apply apply_ops_other. intros Hin.
  destruct (change_files _ _ _ Hch Hin) as (f & Hf & E). symmetry in E.
  by apply (file_not_location f l).
Qed.
End steps.

Section shared.
Context {MC : PydanticModel ControllerClaim} {MS : PydanticModel ControllerStatus}
  {MK : PydanticModel ControllerLaunchClaim} {MP : PydanticModel ProviderCapacityClaim}
  {ML : PydanticModel CampaignLock}.
Variable datetime_json : Z -> string.

(** One commit of either store. *)
Inductive shared_step (t : tree) : tree -> Prop :=
  | shared_controller l d : location_ok l = true -> change t l d ->
      shared_step t (set_file (location_path l) d t)
  | shared_campaign ops : campaign_change datetime_json t ops -> shared_step t (apply_ops t ops).

(** What one store does is elsewhere for the other. *)
Lemma shared_step_controller t t' : shared_step t t' -> controller_step t t'.
Proof.
  intros [l d Hl Hc|ops Hch]; [by constructor|]. apply step_elsewhere.
  intros l Hl. by eapply campaign_change_controllers.
Qed.

Lemma shared_step_campaign t t' : shared_step t t' -> campaign_step datetime_json t t'.
Proof.
  intros [l d Hl Hc|ops Hch]; [|by constructor]. apply campaign_step_elsewhere.
  intros f Hf. rewrite set_file_lookup. case_decide as E; [|done].
  symmetry in E. by apply file_not_location in E.
Qed.
End shared.
