(* ===== verification/CampaignStoreFacts.v ===== *)
(** The operations of [HubCampaignStore] follow the protocol of
    [CampaignProtocol]. *)
From S2P Require Import Prelude.
From S2P Require Import PyDict.
From S2P Require Import Paths.
From S2P Require Import Sha256.
From S2P Require Import Json.
From S2P Require Import Campaigns.
From S2P Require Import Control.
From S2P Require Import Hub.
From S2P Require Import ControllerProtocol.
From S2P Require Import ControlStore.
From S2P Require Import CampaignProtocol.

(** ** Reading *)
Section reading.
Context {W : Type} {API : HubApi W} {R : tree -> tree -> Prop} {LAWS : HubLaws W R}.

Lemma reads_value {A} r (x : A) (P : tree -> result A -> Prop) :
  (forall t, P t (Ok x)) -> reads (hub_lift (Ok x)) r P.
Proof. intros HP. by apply reads_lift. Qed.

Lemma reads_error {A} r e (P : tree -> result A -> Prop) :
  (forall t, P t (Err e)) -> reads (hub_lift (Err e)) r P.
Proof. intros HP. by apply reads_lift. Qed.

(** The sequence of two reads, when only the value of the first matters. *)
Lemma reads_then_value {A B} r (m : hub W A) (k : A -> hub W B) (P : tree -> A -> Prop)
    (Q : tree -> result B -> Prop) :
  reads m r (fun t res => forall a, res = Ok a -> P t a) ->
  (forall t e, Q t (Err e)) ->
  (forall a, reads (k a) r (fun t res => P t a -> Q t res)) ->
  reads (hub_bind m k) r Q.
Proof.
  intros Hm He Hk. eapply reads_bind; [exact Hm| |auto].
  intros a. eapply reads_mono; [apply Hk|]. auto.
Qed.

Lemma reads_catch_raise {A} r (m : hub W A) (h : exn -> option (hub W A)) (P : tree -> A -> Prop) :
  reads m r (fun t res => forall a, res = Ok a -> P t a) ->
  (forall e k, h e = Some k -> exists e', k = hub_raise e') ->
  reads (hub_catch m h) r (fun t res => forall a, res = Ok a -> P t a).
Proof.
  intros Hm Hh w res w' t Ht E. unfold hub_catch in E.
  destruct (m w) as [[a|e] w1] eqn:Em; destruct (Hm _ _ _ _ Ht Em) as [Hg HP].
  - injection E as <- <-. by split.
  - destruct (h e) as [k|] eqn:Ek.
    + destruct (Hh _ _ Ek) as [e' ->]. injection E as <- <-. by split.
    + injection E as <- <-. by split.
Qed.

Lemma reads_control_exists path r :
  reads (control_exists path r) r (fun t res => forall b, res = Ok b -> b = is_some (t !! path)).
Proof. apply reads_exists. Qed.

Lemma reads_bytes path r :
  reads (_read_bytes path r) r (fun t res => forall d, res = Ok d -> t !! path = Some d).
Proof.
  unfold _read_bytes. apply (reads_catch_raise r _ _ (fun t d => t !! path = Some d));
    [apply reads_download|].
  intros [] k; try discriminate; intros [= <-]; by eexists.
Qed.

Lemma reads_json path r :
  reads (_read_json path r) r (fun t res => forall j, res = Ok j -> t !! path = Some (DJson j)).
Proof.
  unfold _read_json. apply (reads_then_value _ _ _ (fun t d => t !! path = Some d));
    [apply reads_bytes|done|].
  intros [j|b]; [apply reads_value|apply reads_error]; [|done]. by intros t Hd ? [= <-].
Qed.

(** Reading more only extends the world. *)
Definition any_result {A} (t : tree) (res : result A) : Prop := True.

Lemma reads_any {A} r (m : hub W A) P : reads m r P -> reads m r any_result.
Proof. intros Hm. by eapply reads_mono. Qed.

Lemma reads_bind_any {A B} r (m : hub W A) (k : A -> hub W B) :
  reads m r any_result -> (forall a, reads (k a) r any_result) -> reads (hub_bind m k) r any_result.
Proof.
  intros Hm Hk. eapply reads_bind; [exact Hm| |done].
  intros a. eapply reads_mono; [apply Hk|done].
Qed.

Lemma reads_mapM_any {A B} r (f : A -> hub W B) l :
  (forall x, reads (f x) r any_result) -> reads (hub_mapM f l) r any_result.
Proof.
  intros Hf. induction l as [|x l IH]; cbn; [by apply reads_value|].
  apply reads_bind_any; [done|]. intros y. apply reads_bind_any; [done|].
  intros ys. by apply reads_value.
Qed.

Lemma reads_tree prefix r : reads (list_repo_tree prefix r) r any_result.
Proof. intros w res w' t Ht E. by destruct (list_repo_tree_law _ _ _ _ _ E). Qed.

Lemma reads_load_events event_validate c r : reads (_load_events_at event_validate c r) r any_result.
Proof.
  unfold _load_events_at, _paths_under. apply reads_bind_any.
  - apply reads_bind_any; [|intros; by apply reads_value].
    intros w res w' t Ht E. unfold hub_catch in E.
    destruct (list_repo_tree _ r w) as [[a|e] w1] eqn:Em; destruct (reads_tree _ _ _ _ _ _ Ht Em) as [Hg _].
    + by injection E as <- <-.
    + destruct e; injection E as <- <-; by split.
  - intros under. apply reads_mapM_any. intros p. unfold load_event.
    apply reads_bind_any; [eapply reads_any, reads_json|]. intros j. by apply reads_lift.
Qed.

(** The files of a revision. *)
Lemma reads_listing r :
  reads (list_repo_files r) r (fun t res => forall l, res = Ok l ->
    forall path, path ∈ l <-> is_Some (t !! path)).
Proof. intros w res w' t Ht E. destruct (list_repo_files_law _ _ _ _ E). eauto. Qed.

(** ** The events that are missing *)

(** What the fold over the expected events has found on a tree. *)
Definition missing_spec (t : tree) (seen : list (string * json)) (missing : dict json) : Prop :=
  dict_wf missing /\
  (forall p j, (p, j) ∈ missing -> (p, j) ∈ seen /\ t !! p = None) /\
  (forall p j, (p, j) ∈ seen -> p ∈ dict_keys missing \/
     exists o, t !! p = Some (DJson o) /\ _same_event_request o j = true).

(** How a fold learns whether a path exists may rely on the tree. *)
Definition tells (G : tree -> Prop) (r : string) (exists_in : string -> hub W bool) : Prop :=
  forall p, reads (exists_in p) r (fun t res => forall b, res = Ok b -> G t -> b = is_some (t !! p)).

Lemma reads_missing_step G exists_in r seen missing p j :
  tells G r exists_in ->
  reads (missing_event_step exists_in r missing (p, j)) r
    (fun t res => G t -> missing_spec t seen missing ->
       forall m, res = Ok m -> missing_spec t (seen ++ [(p, j)]) m).
Proof.
  intros Hex. unfold missing_event_step. cbn [fst snd].
  apply (reads_then_value _ _ _ (fun t b => G t -> b = is_some (t !! p))); [apply Hex|done|].
  intros [|]; cbn [negb].
  - apply (reads_then_value _ _ _ (fun t o => t !! p = Some (DJson o))); [apply reads_json|done|].
    intros o. destruct (_same_event_request o j) eqn:Eo; cbn [negb]; [|by apply reads_error].
    apply reads_value. intros t Hp _ _ (Hwf & H1 & H2) m [= <-]. split_and!; [done| |].
    + intros q i Hin. destruct (H1 _ _ Hin). split; [apply elem_of_app; by left|done].
    + intros q i [Hin|[= -> ->]%list_elem_of_singleton]%elem_of_app; [auto|]. right. eauto.
  - apply reads_value. intros t Hp HG (Hwf & H1 & H2) m [= <-]. specialize (Hp HG).
    assert (Hnone : t !! p = None) by (destruct (t !! p); [discriminate Hp|done]).
    split_and!; [by apply dict_wf_set| |].
    + intros q i [[= -> ->]|Hin]%dict_in_set; [split; [apply elem_of_app; right; by apply list_elem_of_singleton|done]|].
      destruct (H1 _ _ Hin). split; [apply elem_of_app; by left|done].
    + intros q i [Hin|[= -> ->]%list_elem_of_singleton]%elem_of_app.
      * destruct (H2 _ _ Hin) as [Hk|]; [left|by right]. apply dict_keys_set_elem. by right.
      * left. apply dict_keys_set_elem. by left.
Qed.

Lemma missing_nil t : missing_spec t [] [].
Proof. split_and!; [constructor| |]; intros p j Hin; by apply elem_of_nil in Hin. Qed.

Lemma reads_missing_fold G exists_in r entries :
  tells G r exists_in ->
  reads (hub_foldM (missing_event_step exists_in r) [] entries) r
    (fun t res => forall m, res = Ok m -> G t -> missing_spec t entries m).
Proof.
  intros Hex.
  assert (Hgen : forall seen missing,
    reads (hub_foldM (missing_event_step exists_in r) missing entries) r
      (fun t res => G t -> missing_spec t seen missing ->
         forall m, res = Ok m -> missing_spec t (seen ++ entries) m)).
  { induction entries as [|[p j] entries IH]; intros seen missing; cbn [hub_foldM].
    - apply reads_value. intros t _ Hs m [= <-]. by rewrite app_nil_r.
    - eapply reads_bind; [by apply (reads_missing_step G _ _ seen)| |].
      + intros m1. eapply reads_mono; [apply (IH (seen ++ [(p, j)]))|].
        intros t res HIH H1 HG Hs m Hm. rewrite <- app_assoc in HIH. apply HIH; [done|by apply H1|done].
      + intros t e _ _ _ m Hm. discriminate Hm. }
  eapply reads_mono; [apply (Hgen [] [])|]. intros t res Hres m Hm HG.
  apply Hres; [done|apply missing_nil|done].
Qed.

Lemma reads_missing expected r :
  reads (_missing_events expected r) r (fun t res => forall m, res = Ok m -> missing_spec t expected m).
Proof.
  unfold _missing_events. eapply reads_mono.
  - apply (reads_missing_fold (fun _ => True)). intros p. eapply reads_mono; [apply reads_control_exists|].
    naive_solver.
  - intros t res Hres m Hm. by apply Hres.
Qed.

(** The listing of a revision answers like the repository. *)
Lemma reads_missing_listing expected r :
  reads (_missing_events_from_listing expected r) r
    (fun t res => forall m, res = Ok m -> missing_spec t expected m).
Proof.
  unfold _missing_events_from_listing.
  apply (reads_then_value _ _ _ (fun t l => forall path, path ∈ l <-> is_Some (t !! path)));
    [apply reads_listing|done|].
  intros l. eapply reads_mono;
    [apply (reads_missing_fold (fun t => forall path, path ∈ l <-> is_Some (t !! path)))|].
  - intros p. apply reads_value. intros t b [= <-] Hl. specialize (Hl p).
    destruct (str_mem p l) eqn:Ep.
    + apply str_mem_true, Hl in Ep as [d ->]. done.
    + apply str_mem_false in Ep. destruct (t !! p) eqn:Et; [|done]. destruct Ep. apply Hl. by eexists.
  - intros t res Hres Hl m Hm. by apply Hres.
Qed.
End reading.

Section store_facts.
Context {W : Type} {API : HubApi W} {ML : PydanticModel CampaignLock}.
Variable datetime_json : Z -> string.
Variable event_validate : json -> result CampaignEvent.
Context {LAWS : HubLaws W (campaign_step datetime_json)}.

Notation campaign_change := (campaign_change datetime_json).
Notation dump := (event_dump datetime_json).

(** ** What the bodies decide *)

(** Adding one event: it is there and says the same, or it is added. *)
Definition ensure_spec (path : string) (event : CampaignEvent) (t : tree)
    (res : result (decision bool)) : Prop :=
  match res with
  | Ok (Return b) => b = false /\
      exists o, t !! path = Some (DJson o) /\ _same_event_request o (dump event) = true
  | Ok (Commit ops b) => b = true /\ t !! path = None /\
      ops = [CommitOperationAdd path (DJson (dump event))]
  | Err _ => True
  end.

Lemma reads_same path event r :
  reads (hub_bind (_read_json path r) (fun observed =>
      if negb (_same_event_request observed (dump event))
      then hub_raise (CampaignConflict ("event conflicts: " +:+ event_id event))
      else hub_ret (Return false))) r (ensure_spec path event).
Proof.
  apply (reads_then_value _ _ _ (fun t o => t !! path = Some (DJson o))); [apply reads_json|done|].
  intros o. destruct (_same_event_request _ _) eqn:E; cbn [negb]; [|by apply reads_error].
  apply reads_value. intros t Ho. split; [done|]. by exists o.
Qed.

Lemma none_of_is_some {A} (o : option A) : false = is_some o -> o = None.
Proof. by destruct o. Qed.

Lemma ensure_body_spec path event r :
  reads (ensure_event_body datetime_json path event r) r (ensure_spec path event).
Proof.
  unfold ensure_event_body.
  apply (reads_then_value _ _ _ (fun t b => b = is_some (t !! path))); [apply reads_control_exists|done|].
  intros [|].
  - eapply reads_mono; [apply reads_same|done].
  - apply reads_value. intros t Hp. split_and!; [done| |done]. by apply none_of_is_some.
Qed.

Lemma resolution_body_spec c path event r :
  reads (manual_resolution_body datetime_json event_validate c path event r) r (ensure_spec path event).
Proof.
  unfold manual_resolution_body.
  apply (reads_then_value _ _ _ (fun t b => b = is_some (t !! path))); [apply reads_control_exists|done|].
  intros [|].
  - eapply reads_mono; [apply reads_same|done].
  - eapply reads_bind; [apply reads_load_events| |done]. intros events.
    eapply (reads_bind _ _ _ (fun _ _ => True)); [by apply reads_lift| |done]. intros u.
    apply reads_value. intros t _ _ Hp. split_and!; [done| |done]. by apply none_of_is_some.
Qed.

(** A cancellation: the event and its marker together. *)
Definition cancellation_spec (c : string) (event : CampaignEvent) (t : tree)
    (res : result (decision bool)) : Prop :=
  let p := file_path (FEvent c (event_id event)) in
  let q := file_path (FCancellation c) in
  match res with
  | Ok (Return b) => b = false /\
      (exists o, t !! p = Some (DJson o) /\ _same_event_request o (dump event) = true) /\
      t !! q = Some (DJson (cancellation_marker c event))
  | Ok (Commit ops b) => b = true /\ t !! p = None /\ t !! q = None /\
      ops = [CommitOperationAdd p (DJson (dump event));
             CommitOperationAdd q (DJson (cancellation_marker c event))]
  | Err _ => True
  end.

Lemma cancellation_body_spec c event r :
  reads (cancellation_body datetime_json c event r) r (cancellation_spec c event).
Proof.
  unfold cancellation_body.
  apply (reads_then_value _ _ _ (fun t b => b = is_some (t !! file_path (FEvent c (event_id event)))));
    [apply reads_control_exists|done|]. intros b1.
  apply (reads_then_value _ _ _ (fun t b => b = is_some (t !! file_path (FCancellation c))));
    [apply reads_control_exists|done|]. intros b2.
  destruct (Bool.eqb b1 b2) eqn:Eb; cbn [negb]; [|by apply reads_error].
  apply eqb_prop in Eb as ->. destruct b2.
  - apply (reads_then_value _ _ _ (fun t o => t !! file_path (FEvent c (event_id event)) = Some (DJson o)));
      [apply reads_json|done|]. intros o.
    apply (reads_then_value _ _ _ (fun t o => t !! file_path (FCancellation c) = Some (DJson o)));
      [apply reads_json|done|]. intros m.
    destruct (_same_event_request o (dump event)) eqn:Eo; cbn [negb]; [|by apply reads_error].
    case_bool_decide as Em; cbn [negb]; [|by apply reads_error].
    apply reads_value. intros t Hq Hp _ _. subst m. split_and!; [done|by exists o|done].
  - apply reads_value. intros t Hq Hp. split_and!; [done|by apply none_of_is_some..|done].
Qed.

(** Guarded events: nothing is committed on top of a cancellation marker. *)
Definition guarded_spec (c : string) (expected : dict json) (t : tree)
    (res : result (decision bool)) : Prop :=
  match res with
  | Ok (Return b) => b = false /\ missing_spec t expected []
  | Ok (Commit ops b) => b = true /\ t !! file_path (FCancellation c) = None /\
      exists missing, ops = add_operations missing /\ missing_spec t expected missing
  | Err _ => True
  end.

Lemma guarded_body_spec c expected r :
  reads (guarded_events_body c expected r) r (guarded_spec c expected).
Proof.
  unfold guarded_events_body.
  apply (reads_then_value _ _ _ (fun t m => missing_spec t expected m)); [apply reads_missing|done|].
  intros missing. destruct missing as [|x missing]; cbn [is_nil]; [by apply reads_value|].
  apply (reads_then_value _ _ _ (fun t b => b = is_some (t !! file_path (FCancellation c))));
    [apply reads_control_exists|done|]. intros [|]; [by apply reads_error|].
  apply reads_value. intros t Hq Hm. split_and!; [done|by apply none_of_is_some|]. by exists (x :: missing).
Qed.

(** An action: its reservation and the event of it together. *)
Definition reserve_spec (c path : string) (action : dict json) (event : CampaignEvent) (t : tree)
    (res : result (decision bool)) : Prop :=
  match res with
  | Ok (Return b) => b = false /\ t !! path = Some (DJson (jobj action))
  | Ok (Commit ops b) => b = true /\ t !! path = None /\
      ops = [CommitOperationAdd path (DJson (jobj action));
             CommitOperationAdd (file_path (FEvent c (event_id event))) (DJson (dump event))]
  | Err _ => True
  end.

Lemma reserve_body_spec c path action event r :
  reads (reserve_action_body datetime_json c path action event r) r (reserve_spec c path action event).
Proof.
  unfold reserve_action_body.
  apply (reads_then_value _ _ _ (fun t b => b = is_some (t !! path))); [apply reads_control_exists|done|].
  intros [|].
  - apply (reads_then_value _ _ _ (fun t o => t !! path = Some (DJson o))); [apply reads_json|done|].
    intros o. case_bool_decide as Eo; cbn [negb]; [|by apply reads_error].
    apply reads_value. intros t Hp _. by subst o.
  - apply reads_value. intros t Hp. split_and!; [done|by apply none_of_is_some|done].
Qed.

Lemma create_body_spec path ops message r :
  reads (create_absent_body path ops message r) r
    (fun t res => forall x, res = Ok x -> x = Commit ops tt /\ t !! path = None).
Proof.
  unfold create_absent_body.
  apply (reads_then_value _ _ _ (fun t b => b = is_some (t !! path))); [apply reads_control_exists|done|].
  intros [|]; [by apply reads_error|].
  apply reads_value. intros t Hp x [= <-]. split; [done|by apply none_of_is_some].
Qed.

(** ** Every operation follows the protocol *)
Lemma control_loop_grows {A} (body : string -> hub W (decision A)) (P : tree -> result (decision A) -> Prop)
    w res w' :
  (forall r, reads (body r) r P) ->
  (forall t ops a, P t (Ok (Commit ops a)) -> campaign_change t ops) ->
  control_loop body w = (res, w') -> grows w w'.
Proof.
  intros Hb HP. unfold control_loop, control_head. apply commit_loop_reads_grows.
  intros r. eapply reads_mono; [apply Hb|]. intros t d Hd ops a ->. constructor. by eapply HP.
Qed.

(** An operation that validates its arguments and then runs. *)
Lemma lift_grows {A B} (x : result A) (k : A -> hub W B) w res w' :
  (forall a, x = Ok a -> k a w = (res, w') -> grows w w') ->
  hub_bind (hub_lift x) k w = (res, w') -> grows w w'.
Proof.
  intros Hk. unfold hub_bind, hub_lift. destruct x as [a|e]; [by apply Hk|].
  intros [= <- <-]. apply grows_refl.
Qed.

Lemma raise_grows {A} e w (res : result A) w' : hub_raise e w = (res, w') -> grows w w'.
Proof. intros [= <- <-]. apply grows_refl. Qed.

Lemma scope_safe c event u : _validate_event_scope c event = Ok u -> campaign_id_safe c = true.
Proof. unfold _validate_event_scope. by destruct (campaign_id_safe c). Qed.

Lemma change_one_event c event t :
  campaign_id_safe c = true -> t !! file_path (FEvent c (event_id event)) = None ->
  campaign_change t [CommitOperationAdd (file_path (FEvent c (event_id event))) (DJson (dump event))].
Proof.
  intros Hc Ht. apply (change_events _ _ c [(file_path (FEvent c (event_id event)), dump event)]); [done|].
  apply Forall_singleton. split; [done|by exists (event_id event)].
Qed.

(** The expected events are files of their campaign. *)
Lemma expected_paths c events x :
  x ∈ expected_by_path datetime_json c events ->
  exists event, event ∈ events /\ x = (file_path (FEvent c (event_id event)), dump event).
Proof.
  unfold expected_by_path, dict_of. intros [Hin%elem_of_nil|Hin]%dict_update_in; [done|].
  apply list_elem_of_fmap in Hin as (event & -> & Hin). by exists event.
Qed.

Definition event_entries (c : string) (t : tree) (entries : list (string * json)) : Prop :=
  Forall (fun x => t !! x.1 = None /\ exists e, x.1 = file_path (FEvent c e)) entries.

Lemma missing_entries c events t missing :
  missing_spec t (expected_by_path datetime_json c events) missing -> event_entries c t missing.
Proof.
  intros (_ & Hm & _). apply Forall_forall. intros [p j] Hin. destruct (Hm p j Hin) as [He Hn].
  split; [done|]. destruct (expected_paths _ _ _ He) as (event & _ & [= -> _]). by exists (event_id event).
Qed.

(** Batch after batch, each on top of the one before. *)
Hypothesis commit_oid : forall r ops w oid w', create_commit r ops w = (Ok oid, w') -> is_Some oid.

Lemma commit_batches_grows c batches head changed w res w' t :
  campaign_id_safe c = true -> tree_at w head = Some t ->
  NoDup (map fst (concat batches)) -> event_entries c t (concat batches) ->
  commit_batches head batches changed w = (res, w') -> grows w w'.
Proof.
  intros Hc. revert head changed w t. induction batches as [|batch batches IH]; intros head changed w t Ht Hnd He.
  { intros [= <- <-]. apply grows_refl. }
  cbn [concat] in Hnd, He. rewrite map_app in Hnd.
  apply NoDup_app in Hnd as (Hnd1 & Hdis & Hnd2). apply Forall_app in He as [He1 He2].
  cbn [commit_batches]. intros (o & w1 & Eo & E)%hub_bind_inv.
  unfold hub_try in Eo. destruct (create_commit head (add_operations batch) w) as [oid w2] eqn:Ec.
  injection Eo as <- <-. pose proof (create_commit_law _ _ _ _ _ Ec) as Hlaw.
  assert (Hch : campaign_step datetime_json t (apply_ops t (add_operations batch))).
  { constructor. by apply (change_events _ _ c). }
  assert (Hgrow : forall oid, commits w w2 head (add_operations batch) oid -> grows w w2).
  { intros oid' Hcom. eapply commits_grows; [exact Hcom| |by eexists].
    intros t' Ht'. by simplify_eq. }
  destruct oid as [oid|e].
  - destruct (commit_oid _ _ _ _ _ Ec) as [h ->].
    eapply grows_trans; [by eapply Hgrow|].
    destruct Hlaw as (_ & t' & k & Ht' & _ & _ & Hoid).
    specialize (Ht' _ Ht) as <-. specialize (Hoid h eq_refl).
    eapply IH; [exact Hoid|done| |exact E].
    apply Forall_forall. intros x Hx. rewrite Forall_forall in He2. destruct (He2 x Hx) as [Hn Hp].
    split; [|done]. rewrite apply_ops_other; [done|]. rewrite op_path_additions.
    intros Hin. apply (Hdis x.1 Hin). apply list_elem_of_fmap. by exists x.
  - injection E as <- <-. destruct Hlaw as [|[_ Hcom]]; [done|by eapply Hgrow].
Qed.

Lemma ensure_events_loop_grows c events n changed w res w' :
  campaign_id_safe c = true ->
  ensure_events_loop n (expected_by_path datetime_json c events) changed w = (res, w') -> grows w w'.
Proof.
  intros Hc. revert changed w. induction n as [|n IH]; intros changed w; cbn [ensure_events_loop].
  { apply raise_grows. }
  intros (h & w1 & Eh & E)%hub_bind_inv. destruct (hub_head_law _ _ _ _ Eh) as [Hg1 Hh].
  destruct h as [h|e]; [|destruct E as [_ ->]; done]. destruct (Hh h eq_refl) as (t & k & Ht & _).
  apply hub_bind_inv in E as (m & w2 & Em & E).
  pose proof (reads_missing_listing _ _ _ _ _ _ Ht Em) as Hm.
  destruct Hm as [Hg2 Hm]. assert (Hg : grows w w2) by (by eapply grows_trans).
  destruct m as [m|e]; [|destruct E as [_ ->]; done]. specialize (Hm m eq_refl).
  destruct (is_nil m); [injection E as <- <-; done|].
  apply hub_bind_inv in E as (cs & w3 & Ecs & E). unfold hub_lift in Ecs. injection Ecs as <- <-.
  destruct (chunks _MAX_EVENT_BATCH_OPERATIONS m) as [cs|e] eqn:Ecs; [|destruct E as [_ ->]; done].
  apply chunks_concat in Ecs; [|done].
  apply hub_bind_inv in E as (out & w4 & Eout & E).
  assert (Hg4 : grows w2 w4).
  { eapply commit_batches_grows; [done|by apply Hg2| | |exact Eout]; rewrite Ecs;
      [by destruct Hm|by eapply missing_entries]. }
  assert (Hg5 : grows w w4) by (by eapply grows_trans).
  destruct out as [[[u|e] b]|e]; [by injection E as <- <-| |by destruct E as [_ ->]].
  destruct (_is_parent_conflict e); [|by injection E as <- <-].
  eapply grows_trans; [exact Hg5|]. by eapply IH.
Qed.

(** The operations that may write, with their arguments. *)
Inductive campaign_op :=
  | OpCreateCampaign (lock : CampaignLock) (request : document) (event : CampaignEvent)
  | OpAppendEvent (campaign : string) (event : CampaignEvent)
  | OpEnsureEvent (campaign : string) (event : CampaignEvent)
  | OpEnsureEvents (campaign : string) (events : list CampaignEvent)
  | OpEnsureEventsUnlessCancelled (campaign : string) (events : list CampaignEvent)
  | OpReserveAction (campaign : string) (action : dict json) (event : CampaignEvent).

Definition unit_of {A} (m : hub W A) : hub W unit := hub_bind m (fun _ => hub_ret tt).

Definition run_campaign_op (op : campaign_op) : hub W unit :=
  match op with
  | OpCreateCampaign lock request event => create_campaign datetime_json lock request event
  | OpAppendEvent c event => append_event datetime_json c event
  | OpEnsureEvent c event => unit_of (ensure_event datetime_json event_validate c event)
  | OpEnsureEvents c events => unit_of (ensure_events datetime_json c events)
  | OpEnsureEventsUnlessCancelled c events =>
      unit_of (ensure_events_unless_cancelled datetime_json c events)
  | OpReserveAction c action event => unit_of (reserve_action datetime_json c action event)
  end.

(** The locks and scopes a caller passes were validated when they were made. *)
Definition campaign_op_valid (op : campaign_op) : bool :=
  match op with
  | OpCreateCampaign lock _ _ => campaign_id_safe (campaign_id lock)
  | OpReserveAction c _ _ => campaign_id_safe c
  | _ => true
  end.

Lemma unit_grows {A} (m : hub W A) w res w' :
  (forall r w1, m w = (r, w1) -> grows w w1) -> unit_of m w = (res, w') -> grows w w'.
Proof.
  intros Hm (r & w1 & E & E')%hub_bind_inv. specialize (Hm _ _ E).
  destruct r; [by injection E' as <- <-|by destruct E' as [_ ->]].
Qed.

Lemma ensure_grows c event (body : string -> hub W (decision bool)) w res w' :
  campaign_id_safe c = true ->
  (forall r, reads (body r) r (ensure_spec (file_path (FEvent c (event_id event))) event)) ->
  control_loop body w = (res, w') -> grows w w'.
Proof.
  intros Hc Hb. apply (control_loop_grows _ _ _ _ _ Hb).
  intros t ops a (_ & Hn & ->). by apply change_one_event.
Qed.

Lemma ensure_event_grows c event w res w' :
  ensure_event datetime_json event_validate c event w = (res, w') -> grows w w'.
Proof.
  unfold ensure_event. apply lift_grows. intros u Hc%scope_safe. case_bool_decide as Hk.
  - unfold _ensure_cancellation_event.
    apply (control_loop_grows _ (cancellation_spec c event)); [apply cancellation_body_spec|].
    intros t ops a (_ & Hp & Hq & ->). by apply change_cancelled.
  - case_bool_decide.
    + apply (ensure_grows c event); [done|]. intros r. apply resolution_body_spec.
    + apply (ensure_grows c event); [done|]. intros r. apply ensure_body_spec.
Qed.

Lemma append_event_grows c event w res w' :
  append_event datetime_json c event w = (res, w') -> grows w w'.
Proof.
  unfold append_event. apply lift_grows. intros u Hc%scope_safe. case_bool_decide; [apply raise_grows|].
  unfold _create_absent. eapply control_loop_grows; [intros r; apply create_body_spec|].
  intros t ops a Hx. destruct (Hx _ eq_refl) as [[= -> _] Hn]. by apply change_one_event.
Qed.

Lemma scopes_safe c events (f : CampaignEvent -> result unit) us :
  events <> [] ->
  mapM (fun e => let* _ := _validate_event_scope c e in f e) events = Ok us -> campaign_id_safe c = true.
Proof.
  destruct events as [|e events]; [done|]. intros _. cbn.
  destruct (_validate_event_scope c e) as [u|] eqn:E; [|done]. intros _. by eapply scope_safe.
Qed.

Lemma ensure_events_grows c events w res w' :
  ensure_events datetime_json c events w = (res, w') -> grows w w'.
Proof.
  unfold ensure_events. apply lift_grows. intros expected He. unfold _event_payloads in He.
  destruct events as [|e0 events0] eqn:Eev; [done|]. rewrite <- Eev in *.
  replace (is_nil events) with false in He by (by rewrite Eev).
  apply result_bind_Ok in He as (us & Hus & He).
  apply scopes_safe in Hus; [|by rewrite Eev].
  destruct (negb _); [done|]. injection He as <-. by apply ensure_events_loop_grows.
Qed.

Lemma ensure_unless_cancelled_grows c events w res w' :
  ensure_events_unless_cancelled datetime_json c events w = (res, w') -> grows w w'.
Proof.
  unfold ensure_events_unless_cancelled. apply lift_grows. intros expected He.
  unfold _guarded_event_payloads in He.
  destruct events as [|e0 events0] eqn:Eev; [done|]. rewrite <- Eev in *.
  replace (is_nil events) with false in He by (by rewrite Eev).
  apply result_bind_Ok in He as (us & Hus & He).
  apply scopes_safe in Hus; [|by rewrite Eev].
  destruct (negb _); [done|]. injection He as <-.
  apply (control_loop_grows _ (guarded_spec c (expected_by_path datetime_json c events)));
    [apply guarded_body_spec|].
  intros t ops a (_ & _ & missing & -> & Hm). apply (change_events _ _ c); [done|].
  by eapply missing_entries.
Qed.

Lemma reserve_action_grows c action event w res w' :
  campaign_id_safe c = true ->
  reserve_action datetime_json c action event w = (res, w') -> grows w w'.
Proof.
  intros Hc. unfold reserve_action. destruct (_ || _) eqn:E; [apply raise_grows|].
  apply orb_false_iff in E as [E1 E2]. apply negb_false_iff, bool_decide_eq_true in E1.
  apply negb_false_iff, String.eqb_eq in E2.
  apply lift_grows. intros a Ha.
  apply (control_loop_grows _ (reserve_spec c (file_path (FAction c a)) action event));
    [intros r; apply reserve_body_spec|].
  intros t ops b (_ & Hn & ->). by apply change_action.
Qed.

Lemma create_campaign_grows lock request event w res w' :
  campaign_id_safe (campaign_id lock) = true ->
  create_campaign datetime_json lock request event w = (res, w') -> grows w w'.
Proof.
  intros Hc. unfold create_campaign. destruct (_ || _) eqn:E; [apply raise_grows|].
  apply orb_false_iff in E as [E1 E2]. apply negb_false_iff, bool_decide_eq_true in E1.
  apply negb_false_iff, String.eqb_eq in E2.
  unfold _create_absent. eapply control_loop_grows; [intros r; apply create_body_spec|].
  intros t ops a Hx. destruct (Hx _ eq_refl) as [[= -> _] Hn]. by apply change_campaign.
Qed.

(** The simulation: whatever its result, an operation only extends [main] by
    steps of the protocol. *)
Lemma run_campaign_op_grows op w res w' :
  campaign_op_valid op = true -> run_campaign_op op w = (res, w') -> grows w w'.
Proof.
  destruct op; cbn [campaign_op_valid run_campaign_op]; intros Hv.
  - by apply create_campaign_grows.
  - apply append_event_grows.
  - apply unit_grows. apply ensure_event_grows.
  - apply unit_grows. apply ensure_events_grows.
  - apply unit_grows. apply ensure_unless_cancelled_grows.
  - apply unit_grows. intros r w1. by apply reserve_action_grows.
Qed.

(** A client running one operation after the other. *)
Fixpoint run_campaign_ops (ops : list campaign_op) (w : W) : W :=
  match ops with
  | [] => w
  | op :: ops => run_campaign_ops ops (run_campaign_op op w).2
  end.

Lemma run_campaign_ops_grows ops w :
  forallb campaign_op_valid ops = true -> grows w (run_campaign_ops ops w).
Proof.
  revert w. induction ops as [|op ops IH]; intros w; cbn; [intros _; apply grows_refl|].
  intros [Hop Hops]%andb_true_iff. destruct (run_campaign_op op w) as [res w'] eqn:E.
  eapply grows_trans; [|by apply IH]. by eapply run_campaign_op_grows.
Qed.

Lemma run_campaign_ops_later ops w t k (Q : tree -> Prop) :
  forallb campaign_op_valid ops = true -> main w = t :: k -> Q t ->
  (forall t t', campaign_step datetime_json t t' -> Q t -> Q t') ->
  exists later, main (run_campaign_ops ops w) = later ++ t :: k /\ Forall Q later.
Proof.
  intros Hops Hm HQ Hstep. destruct (run_campaign_ops_grows ops w Hops) as [_ Hext]. rewrite Hm in Hext.
  destruct (extends_later _ _ _ _ Q (fun _ => True) Hext HQ) as (later & Hl & HF); [eauto|].
  exists later. split; [done|]. by apply HF, Forall_true.
Qed.
End store_facts.
