(* ===== verification/PassFacts.v ===== *)
(** Lemmas on the reconciliation pass: what a computation keeps, whatever way it
    ends, and what a normal return of its steps means. *)
From S2P Require Import Prelude.
From S2P Require Import PyDict.
From S2P Require Import Json.
From S2P Require Import Campaigns.
From S2P Require Import Models.
From S2P Require Import Hub.
From S2P Require Import Endpoints.
From S2P Require Import Waves.
From S2P Require Import Coordination.
From S2P Require Import Control.
From S2P Require Import ControlStore.
From S2P Require Import Recovery.
From S2P Require Import Reconciler.
From S2P Require Import EndpointFacts.
From S2P Require Import WaveFacts.
From S2P Require Import Apply.
From S2P Require Import CampaignPass.

(** ** The ports of a pass *)

(** The relation on passes: that of their worlds. *)
Definition of_world {W} (R : W -> W -> Prop) (s s' : pass W) : Prop := R (pass_world s) (pass_world s').

#[export] Instance of_world_preorder {W} (R : W -> W -> Prop) `{!PreOrder R} : PreOrder (of_world R).
Proof. split; [intros s; unfold of_world; reflexivity|intros a b c; unfold of_world; by etransitivity]. Qed.

Section pass.
Context {W : Type} `{CampaignStore W} `{ClaimStore W} `{EndpointApplicationPort W} `{WaveJobPort W}
  `{ReconcilerServices W} `{PydanticModel EndpointSettings}.

(** Every operation of the ports keeps [R], those of the store for the campaign
    of the pass; the two that start billable work only have to when [billable]
    is set, and a submission only for the actions that may [submit]. *)
Record ports_keep (R : W -> W -> Prop) (billable : bool) (may_submit : string -> Prop) (c : string)
    : Prop := {
  pk_load : keeps R (store_load_campaign c);
  pk_append e : keeps R (store_append_event c e);
  pk_ensure e : keeps R (store_ensure_event c e);
  pk_ensure_guarded es : keeps R (store_ensure_events_unless_cancelled c es);
  pk_reserve a e : keeps R (store_reserve_action c a e);
  pk_acquire p o : keeps R (claim_acquire p o);
  pk_release p o : keeps R (claim_release p o);
  pk_inspect d : keeps R (endpoints_inspect d);
  pk_pause d : keeps R (endpoints_pause_and_verify d);
  pk_find n w k l : keeps R (jobs_find_wave n w k l);
  pk_cancel j n : keeps R (jobs_cancel j n);
  pk_clock : keeps R pass_clock;
  pk_identifier : keeps R pass_identifier;
  pk_finalize f l s p d : finalizer = Some f -> keeps R (f l s p d);
  pk_publish f : result_publisher = Some f -> keeps R (f c);
  pk_create d : billable = true -> keeps R (endpoints_create_or_adopt d);
  pk_submit l r k : billable = true -> may_submit (Waves.wl_action_id l) -> keeps R (jobs_submit l r k);
}.

Lemma ports_keep_weaken R b submits c : ports_keep R true (fun _ => True) c -> ports_keep R b submits c.
Proof. intros [ ]. split; auto. Qed.

Section keeps.
Context (R : W -> W -> Prop) `{!PreOrder R} (billable : bool) (may_submit : string -> Prop)
  (lock : CampaignLock) (P : ports_keep R billable may_submit (campaign_id lock)).

Lemma keeps_on_world {A} (m : hub W A) : keeps R m -> keeps (of_world R) (on_world m).
Proof.
  intros Hm s. unfold on_world, of_world. specialize (Hm (pass_world s)).
  by destruct (m (pass_world s)).
Qed.

Lemma keeps_set_last t : keeps (of_world R) (set_last_observed t).
Proof. intros s. unfold of_world. cbn. reflexivity. Qed.

Lemma keeps_next_observed : keeps (of_world R) _next_observed.
Proof.
  unfold _next_observed. apply keeps_bind; [apply _|apply keeps_on_world, P|].
  intros now s. unfold of_world. cbn. reflexivity.
Qed.

#[local] Hint Resolve keeps_on_world keeps_set_last keeps_next_observed : keeps.
#[local] Hint Resolve pk_load pk_append pk_ensure pk_ensure_guarded pk_reserve pk_acquire
  pk_release pk_inspect pk_pause pk_find pk_cancel pk_clock pk_identifier : keeps.

Ltac keeps_auto := repeat keeps_step.

Lemma keeps_event k p : keeps (of_world R) (_event lock k p).
Proof. unfold _event. keeps_auto. Qed.
#[local] Hint Resolve keeps_event : keeps.

Lemma keeps_record_outcome a st m r : keeps (of_world R) (_record_outcome lock a st m r).
Proof. unfold _record_outcome. keeps_auto. Qed.

Lemma keeps_durable_event st sid k p i : keeps (of_world R) (durable_event lock st sid k p i).
Proof. unfold durable_event. keeps_auto. Qed.
#[local] Hint Resolve keeps_record_outcome keeps_durable_event : keeps.

Lemma keeps_record_durable st sid k p i : keeps (of_world R) (_record_durable_event lock st sid k p i).
Proof. unfold _record_durable_event, _ensure_durable_event. keeps_auto. Qed.

Lemma keeps_record_terminal d : keeps (of_world R) (_record_terminal lock d).
Proof. unfold _record_terminal. keeps_auto. Qed.

Lemma keeps_find_wave spec a k l : keeps (of_world R) (_find_wave spec a k l).
Proof. unfold _find_wave. keeps_auto. Qed.
#[local] Hint Resolve keeps_record_durable keeps_record_terminal keeps_find_wave : keeps.

Lemma keeps_managed_job spec a : keeps (of_world R) (_managed_wave_job lock spec a).
Proof. unfold _managed_wave_job. keeps_auto. Qed.
#[local] Hint Resolve keeps_managed_job : keeps.

Lemma keeps_drain a p : keeps (of_world R) (_drain_wave lock a p).
Proof. unfold _drain_wave. keeps_auto. Qed.

Lemma keeps_cancel_wave spec a : keeps (of_world R) (_cancel_wave lock spec a).
Proof. unfold _cancel_wave. keeps_auto. Qed.
#[local] Hint Resolve keeps_drain keeps_cancel_wave : keeps.

Lemma keeps_cancel_execution spec a p : keeps (of_world R) (_cancel_execution lock spec a p).
Proof. unfold _cancel_execution. keeps_auto. Qed.

Lemma keeps_cleanup spec a p : keeps (of_world R) (_cleanup_wave lock spec a p).
Proof. unfold _cleanup_wave, _record_wave_closed. keeps_auto. Qed.

Lemma keeps_manual a : keeps (of_world R) (_manual_intervention lock a).
Proof. unfold _manual_intervention. keeps_auto. Qed.

Lemma keeps_create d : negb billable = false -> keeps (of_world R) (on_world (endpoints_create_or_adopt d)).
Proof. intros Hb%negb_false_iff. by apply keeps_on_world, (pk_create _ _ _ _ P). Qed.

Lemma keeps_submit spec a e l r c :
  negb billable = false -> (billable = true -> may_submit (ra_action_id a)) ->
  build_wave_lock lock spec a e = Ok l -> keeps (of_world R) (on_world (jobs_submit l r c)).
Proof.
  intros Hb%negb_false_iff Ha (selected & rspec & Hw)%build_wave_lock_ok.
  apply keeps_on_world, (pk_submit _ _ _ _ P); [done|].
  pose proof (wp_ids _ _ _ _ _ _ _ Hw) as [= _ -> _ _]. by apply Ha.
Qed.
#[local] Hint Resolve keeps_create keeps_submit : keeps.

(** Without permission to submit, nothing billable is started. *)
Lemma keeps_submit_wave spec request a p :
  (billable = true -> may_submit (ra_action_id a)) ->
  keeps (of_world R) (_submit_wave lock spec request a p billable).
Proof. intros Ha. unfold _submit_wave, _submit_provider_wave, superseded. keeps_auto. Qed.

Lemma keeps_exhaust a p : keeps (of_world R) (_exhaust_trials lock a p).
Proof.
  unfold _exhaust_trials. keeps_step; [keeps_auto|]. keeps_step. keeps_step.
  keeps_step; [apply keeps_mapM; [apply _|]; intros t; unfold exhaustion_event; keeps_auto|].
  keeps_step; [|keeps_auto]. keeps_step; [keeps_auto|].
  match goal with E : match ?x with _ => _ end = Some _ |- _ => destruct x; try discriminate E end.
  match goal with E : Some _ = Some _ |- _ => injection E as <- end. keeps_auto.
Qed.

Lemma keeps_publish : keeps (of_world R) (publish_results_of lock).
Proof.
  unfold publish_results_of. destruct result_publisher as [f|] eqn:Ef; [|keeps_auto].
  keeps_step; [by apply keeps_on_world, (pk_publish _ _ _ _ P)|].
  match goal with E : (if ?b then _ else _) = Some _ |- _ => destruct b; [|discriminate E] end.
  match goal with E : Some _ = Some _ |- _ => injection E as <- end. keeps_auto.
Qed.
#[local] Hint Resolve keeps_cancel_execution keeps_cleanup keeps_manual keeps_submit_wave keeps_exhaust
  keeps_publish : keeps.

Lemma keeps_publish_summary spec p d : keeps (of_world R) (_publish_summary lock spec p d).
Proof.
  unfold _publish_summary. destruct d as [d|]; [|keeps_auto].
  destruct finalizer as [f|] eqn:Ef; [|keeps_auto]. keeps_step; [|keeps_auto].
  keeps_step; [by apply keeps_on_world, (pk_finalize _ _ _ _ P)|].
  match goal with E : match ?x with _ => _ end = Some _ |- _ => destruct x; try discriminate E end.
  match goal with E : Some _ = Some _ |- _ => injection E as <- end. keeps_auto.
Qed.
#[local] Hint Resolve keeps_publish_summary : keeps.

Lemma keeps_execute spec request a p d :
  (billable = true -> may_submit (ra_action_id a)) ->
  keeps (of_world R) (_execute lock spec request a p d billable).
Proof. intros Ha. unfold _execute, _execute_lifecycle_action, some_id, _publish_results. keeps_auto. Qed.
#[local] Hint Resolve keeps_execute : keeps.

Lemma keeps_record_exception spec a p e m :
  record_exception lock spec a p e = Some m -> keeps (of_world R) m.
Proof.
  unfold record_exception. intros E.
  assert (Hlater : (if _AMBIGUOUS_ENDPOINT_ERRORS e then Some (
        do remote_id <-
          (if is_wave_action_kind (act_kind a) then
             do target <- hub_lift (_deployment_target lock spec (act_deployment_digest a));;
             match target with
             | target_provider _ => hub_ret None
             | target_endpoint _ =>
                 do desired <- hub_lift (_desired_endpoint lock spec a);;
                 hub_ret (Some (mi_name (de_identity desired)))
             end
           else hub_ret None);;
        _record_outcome lock a outcome_ambiguous (Some (error_text e)) remote_id)
      else if match e with ActionExecutionError _ => true | _ => false end ||
              is_provisioning_error e || is_value_error e then Some (
        do remote_id <- hub_lift (_failed_endpoint_remote_id lock spec a p e);;
        _record_outcome lock a outcome_failed (Some (error_text e)) remote_id)
      else None) = Some m \/ m = _record_outcome lock a outcome_ambiguous (Some (error_text e)) None).
  { destruct e; auto. right. by injection E as <-. }
  destruct Hlater as [E'| ->]; [|keeps_auto]. clear E.
  destruct (_AMBIGUOUS_ENDPOINT_ERRORS e); [injection E' as <-; keeps_auto|].
  destruct (_ || _); [injection E' as <-; keeps_auto|discriminate E'].
Qed.

Lemma keeps_apply_action spec request a p d :
  (billable = true -> may_submit (ra_action_id a)) ->
  keeps (of_world R) (_apply_action lock spec request a p d billable).
Proof.
  intros Ha. unfold _apply_action. keeps_step; [|keeps_auto]. keeps_step; [keeps_auto|].
  destruct (record_exception lock spec a p _) as [m|] eqn:E; [|discriminate].
  match goal with E : Some _ = Some _ |- _ => injection E as <- end.
  keeps_step; [by eapply keeps_record_exception|keeps_auto].
Qed.

Lemma keeps_release path owner : keeps (of_world R) (release_action_claim path owner).
Proof.
  unfold release_action_claim. keeps_step; [keeps_auto|].
  match goal with E : match ?x with _ => _ end = Some _ |- _ => destruct x; try discriminate E end;
  match goal with E : Some _ = Some _ |- _ => injection E as <- end; keeps_auto.
Qed.
#[local] Hint Resolve keeps_apply_action keeps_release : keeps.

Lemma keeps_owner a : keeps (of_world R) (_action_claim_owner lock a).
Proof. unfold _action_claim_owner. keeps_auto. Qed.
#[local] Hint Resolve keeps_owner : keeps.

Lemma keeps_claim path owner :
  keeps (of_world R) (hub_catch (do _a <- on_world (claim_acquire path owner);; hub_ret true)
    (fun e => match e with ClaimConflict _ => Some (hub_ret false) | _ => None end)).
Proof.
  keeps_step; [keeps_auto|].
  match goal with E : match ?x with _ => _ end = Some _ |- _ => destruct x; try discriminate E end;
  match goal with E : Some _ = Some _ |- _ => injection E as <- end; keeps_auto.
Qed.
#[local] Hint Resolve keeps_claim : keeps.

Lemma keeps_apply_selected spec request selected p d :
  (billable = true -> Forall (fun a => may_submit (ra_action_id a)) selected) ->
  keeps (of_world R) (_apply_selected lock spec request selected p d billable).
Proof.
  induction selected as [|a selected IH]; cbn [_apply_selected]; [intros _; keeps_auto|].
  intros Hs. assert (Ha : billable = true -> may_submit (ra_action_id a)) by (intros Hb; by apply Hs in Hb; inv Hb).
  assert (IH' : keeps (of_world R) (_apply_selected lock spec request selected p d billable))
    by (apply IH; intros Hb; apply Hs in Hb; by inv Hb). clear IH Hs.
  keeps_step; [keeps_auto|]. keeps_step; [apply keeps_claim|]. keeps_auto.
Qed.

Lemma keeps_reserve_one acc a : keeps (of_world R) (reserve_one lock acc a).
Proof. unfold reserve_one. keeps_auto. Qed.

Lemma keeps_reserve_new actions : keeps (of_world R) (_reserve_new lock actions).
Proof. apply keeps_foldM; [apply _|]. apply keeps_reserve_one. Qed.
End keeps.
End pass.

(** Every operation keeps [R]. *)
Abbreviation ports_all_keep R c := (ports_keep R true (fun _ => True) c).

(** ** What a campaign store promises

    [later] relates a world to those it can become; what is recorded or
    reserved stays so.  A returned [append_event] recorded its event, and
    [reserve_action] answers [true] when it reserved the action together with
    its reservation event. *)
Class CampaignStoreLaws (W : Type) `{CampaignStore W} (later : W -> W -> Prop) := {
  later_preorder :: PreOrder later;
  recorded : W -> string -> CampaignEvent -> Prop;
  reserved : W -> string -> string -> dict json -> Prop;
  recorded_later w w' c e : later w w' -> recorded w c e -> recorded w' c e;
  reserved_later w w' c a r : later w w' -> reserved w c a r -> reserved w' c a r;
  load_campaign_keeps c : keeps later (store_load_campaign c);
  append_event_keeps c e : keeps later (store_append_event c e);
  ensure_event_keeps c e : keeps later (store_ensure_event c e);
  ensure_guarded_keeps c es : keeps later (store_ensure_events_unless_cancelled c es);
  reserve_action_keeps c a e : campaign_id_safe c = true -> keeps later (store_reserve_action c a e);
  append_event_law c e w u w' : store_append_event c e w = (Ok u, w') -> recorded w' c e;
  reserve_action_law c r e w w' : campaign_id_safe c = true -> store_reserve_action c r e w = (Ok true, w') ->
    recorded w' c e /\ exists a, payload_action_id (payload e) = Ok a /\ reserved w' c a r;
}.

Section write_ahead.
Context {W : Type} `{SL : CampaignStoreLaws W later} `{ClaimStore W} `{EndpointApplicationPort W}
  `{WaveJobPort W} `{ReconcilerServices W} `{PydanticModel EndpointSettings}.

(** The outcome of an action is on record. *)
Definition outcome_recorded (w : W) (c : string) (aa : AppliedAction) : Prop :=
  exists e, recorded w c e /\ kind e = _OUTCOME_KINDS (aa_status aa) /\ subject_id e = c /\
    payload e = payload_action_outcome {|
      ao_action_id := aa_action_id aa; ao_message := aa_message aa; ao_remote_id := aa_remote_id aa |}.

(** The action is reserved, with its reservation event. *)
Definition action_reserved_in (w : W) (c : string) (a : ReconcileAction) : Prop :=
  reserved w c (ra_action_id a) (ReconcileAction_dump a) /\
  exists e, recorded w c e /\ kind e = action_reserved /\ subject_id e = c /\
    payload e = payload_action_reserved {|
      ar_action_id := ra_action_id a; ar_action_key := ra_action_key a;
      ar_action_kind := act_kind a; ar_target_ids := act_target_ids a |}.

Lemma outcome_recorded_later w w' c aa : later w w' -> outcome_recorded w c aa -> outcome_recorded w' c aa.
Proof. intros Hl (e & He & H'). exists e. split; [by eapply recorded_later|done]. Qed.

Lemma action_reserved_later w w' c a : later w w' -> action_reserved_in w c a -> action_reserved_in w' c a.
Proof.
  intros Hl [Hr (e & He & H')]. split; [by eapply reserved_later|].
  exists e. split; [by eapply recorded_later|done].
Qed.

Lemma on_world_inv {A} (m : hub W A) s (r : result A) s' :
  on_world m s = (r, s') -> m (pass_world s) = (r, pass_world s').
Proof. unfold on_world. destruct (m (pass_world s)) as [r0 w]. by intros [= -> <-]. Qed.

Lemma event_inv lock k p s e s' :
  _event lock k p s = (Ok e, s') ->
  kind e = k /\ subject_id e = campaign_id lock /\ payload e = p /\ event_valid e = true /\
  last_observed_at s' = Some (observed_at e) /\
  (forall t, last_observed_at s = Some t -> t < observed_at e).
Proof.
  unfold _event. intros (observed & s1 & E1 & E)%hub_bind_inv. destruct observed as [observed|]; [|by destruct E].
  apply hub_bind_inv in E as (identifier & s2 & E2 & E). destruct identifier as [identifier|]; [|by destruct E].
  unfold hub_lift, new_event in E.
  destruct (negb _) eqn:Ev in E; [by injection E|]. injection E as <- <-. cbn.
  apply negb_false_iff in Ev. split_and!; try done.
  - unfold _next_observed in E1. apply hub_bind_inv in E1 as ([now|] & s3 & E3 & E1); [|by destruct E1].
    injection E1 as <- <-. unfold on_world in E2. destruct (pass_identifier _) as [r w].
    by injection E2 as _ <-.
  - intros t Ht. unfold _next_observed in E1. apply hub_bind_inv in E1 as ([now|] & s3 & E3 & E1);
      [|by destruct E1].
    assert (Hl : last_observed_at s3 = Some t).
    { unfold on_world in E3. destruct (pass_clock _) as [r w]. by injection E3 as _ <-. }
    injection E1 as <- _. rewrite Hl. unfold next_instant.
    destruct (Z.leb_spec now t); lia.
Qed.

Lemma record_outcome_inv lock a st m r s aa s' :
  _record_outcome lock a st m r s = (Ok aa, s') ->
  aa = {| aa_action_id := ra_action_id a; aa_kind := act_kind a; aa_status := st;
          aa_remote_id := r; aa_message := m |} /\
  outcome_recorded (pass_world s') (campaign_id lock) aa.
Proof.
  unfold _record_outcome. intros (e & s1 & E1 & E)%hub_bind_inv. destruct e as [e|]; [|by destruct E].
  apply event_inv in E1 as (Hk & Hs & Hp & _).
  apply hub_bind_inv in E as (u & s2 & E2 & E). destruct u as [u|]; [|by destruct E].
  injection E as <- <-. apply on_world_inv in E2. split; [done|].
  exists e. cbn. split; [by eapply append_event_law|done].
Qed.

Context (lock : CampaignLock) (P : ports_all_keep later (campaign_id lock))
  (Hsafe : campaign_id_safe (campaign_id lock) = true).

Lemma kept_world {A} (m : hub (pass W) A) s r s' :
  keeps (of_world later) m -> m s = (r, s') -> later (pass_world s) (pass_world s').
Proof. intros Hm E. specialize (Hm s). by rewrite E in Hm. Qed.

(** The handlers of [_apply_action] end with a recorded outcome. *)
Lemma record_exception_records spec a p e m :
  record_exception lock spec a p e = Some m ->
  exists st B (n : hub (pass W) B) f,
    m = hub_bind n (fun b => _record_outcome lock a st (Some (error_text e)) (f b)).
Proof.
  unfold record_exception. intros E.
  destruct e; cbn in E; try discriminate E; injection E as <-;
    solve [ eexists _, (option string), _, id; reflexivity
          | exists outcome_ambiguous, unit, (hub_ret tt), (fun _ => None); reflexivity ].
Qed.

Lemma bind_outcome_inv {B} (n : hub (pass W) B) a st m f s aa s' :
  hub_bind n (fun b => _record_outcome lock a st m (f b)) s = (Ok aa, s') ->
  aa_action_id aa = ra_action_id a /\ aa_kind aa = act_kind a /\
  outcome_recorded (pass_world s') (campaign_id lock) aa.
Proof.
  intros (b & s1 & _ & E)%hub_bind_inv. destruct b as [b|]; [|by destruct E].
  apply record_outcome_inv in E as [-> ?]. done.
Qed.

(** A normal return of [_apply_action] has its outcome on record. *)
Lemma apply_action_inv spec request a p d allow s aa s' :
  _apply_action lock spec request a p d allow s = (Ok aa, s') ->
  aa_action_id aa = ra_action_id a /\ aa_kind aa = act_kind a /\
  outcome_recorded (pass_world s') (campaign_id lock) aa.
Proof.
  unfold _apply_action. intros (executed & s1 & E1 & E)%hub_bind_inv.
  destruct executed as [[remote_id|applied]|]; [| |by destruct E].
  - clear E1. apply hub_bind_inv in E as (outcome & s2 & E2 & E). destruct outcome as [outcome|]; [|by destruct E].
    apply record_outcome_inv in E2 as [-> Hrec].
    case_bool_decide; [|by injection E as <- <-].
    destruct d as [d|]; [|by injection E].
    apply hub_bind_inv in E as (u & s3 & E3 & E). destruct u as [u|]; [|by destruct E].
    injection E as <- <-. split_and!; [done|done|].
    eapply outcome_recorded_later; [|exact Hrec].
    eapply kept_world; [|exact E3]. apply (keeps_record_terminal later _ _ lock P).
  - injection E as <- <-. apply hub_catch_inv in E1 as [(x & E1 & [= <-])|(e & w1 & E1 & E2)].
    + apply hub_bind_inv in E1 as (r & s2 & _ & E1). destruct r; [by injection E1|by destruct E1].
    + destruct (record_exception lock spec a p e) as [m|] eqn:Er; [|by destruct E2].
      apply record_exception_records in Er as (st & B & n & f & ->).
      apply hub_bind_inv in E2 as (x & s2 & E2 & E3). destruct x as [x|]; [|by destruct E3].
      injection E3 as <- <-. by eapply bind_outcome_inv.
Qed.

Lemma finally_inv {A} (m : hub (pass W) A) cleanup s (a : A) s' :
  hub_finally m cleanup s = (Ok a, s') -> exists s1 u, m s = (Ok a, s1) /\ cleanup s1 = (Ok u, s').
Proof.
  unfold hub_finally. destruct (m s) as [r s1]. destruct (cleanup s1) as [[u|e] s2] eqn:E; [|done].
  intros [= -> <-]. eauto.
Qed.

(** What a pass does with the selected actions, in their order: for each it
    asks for the claim, and skips it when the claim is refused; otherwise the
    action has an outcome on record before the next one is taken, unless the
    outcome ends the pass. *)
Definition outcome_of (w : W) (a : ReconcileAction) (aa : AppliedAction) : Prop :=
  aa_action_id aa = ra_action_id a /\ aa_kind aa = act_kind a /\ outcome_recorded w (campaign_id lock) aa.

(** The pass asked for the claim of [a] in the world [w]. *)
Definition claim_asked (a : ReconcileAction) (w : W) (r : result unit) (w' : W) : Prop :=
  exists owner, dict_get owner "campaign_id" = Some (campaign_id lock) /\
    dict_get owner "action_id" = Some (ra_action_id a) /\
    claim_acquire (action_claim_path (campaign_id lock) (ra_action_id a)) owner w = (r, w').

Definition claim_refused (a : ReconcileAction) (w w' : W) : Prop :=
  exists m, claim_asked a w (Err (ClaimConflict m)) w'.

Inductive pass_outcomes : W -> W -> list ReconcileAction -> list AppliedAction -> Prop :=
  | pass_finished w : pass_outcomes w w [] []
  | pass_skips w w' w1 w2 a selected applied :
      later w w1 -> claim_refused a w1 w2 -> later w1 w2 -> pass_outcomes w2 w' selected applied ->
      pass_outcomes w w' (a :: selected) applied
  | pass_stops w w' w1 w2 w3 a selected aa :
      later w w1 -> claim_asked a w1 (Ok tt) w2 -> later w1 w2 -> later w2 w3 ->
      outcome_of w3 a aa -> later w3 w' -> pass_ends a aa = true ->
      pass_outcomes w w' (a :: selected) [aa]
  | pass_continues w w' w1 w2 w3 a selected aa applied :
      later w w1 -> claim_asked a w1 (Ok tt) w2 -> later w1 w2 -> later w2 w3 ->
      outcome_of w3 a aa -> pass_ends a aa = false -> pass_outcomes w3 w' selected applied ->
      pass_outcomes w w' (a :: selected) (aa :: applied).

Lemma outcome_of_later w w' a aa : later w w' -> outcome_of w a aa -> outcome_of w' a aa.
Proof. intros Hl (? & ? & ?). split_and!; [done|done|]. by eapply outcome_recorded_later. Qed.

Lemma claim_owner_inv a s owner s' :
  _action_claim_owner lock a s = (Ok owner, s') ->
  dict_get owner "campaign_id" = Some (campaign_id lock) /\ dict_get owner "action_id" = Some (ra_action_id a).
Proof.
  unfold _action_claim_owner. intros (now & s1 & _ & E)%hub_bind_inv. destruct now as [now|]; [|by destruct E].
  apply hub_bind_inv in E as (i & s2 & _ & E). destruct i as [i|]; [|by destruct E]. by injection E as <- _.
Qed.

(** What asking for a claim came to. *)
Lemma claim_inv a owner s claimed s' :
  hub_catch (do _a <- on_world (claim_acquire (action_claim_path (campaign_id lock) (ra_action_id a)) owner);;
             hub_ret true)
    (fun e => match e with ClaimConflict _ => Some (hub_ret false) | _ => None end) s = (Ok claimed, s') ->
  exists r, claim_acquire (action_claim_path (campaign_id lock) (ra_action_id a)) owner (pass_world s) =
    (r, pass_world s') /\ if claimed then r = Ok tt else exists m, r = Err (ClaimConflict m).
Proof.
  intros [(x & Ec & [= ->])|(e & w1 & Ec & Eh)]%hub_catch_inv; apply hub_bind_inv in Ec as (r & s3 & Ec & Er);
    apply on_world_inv in Ec; (destruct r as [[]|]; [|by destruct Er]) || destruct r as [[]|].
  - injection Er as <- <-. by exists (Ok tt).
  - by injection Er.
  - destruct Er as [[= <-] <-]. destruct e; try (by destruct Eh). injection Eh as <- <-.
    eexists. split; [exact Ec|]. by eexists.
Qed.

Lemma apply_selected_inv spec request selected p d allow s applied s' :
  _apply_selected lock spec request selected p d allow s = (Ok applied, s') ->
  pass_outcomes (pass_world s) (pass_world s') selected applied.
Proof.
  revert s applied. induction selected as [|a selected IH]; intros s applied; cbn [_apply_selected].
  { intros [= <- <-]. constructor. }
  intros (owner & s1 & Eo1 & E)%hub_bind_inv. destruct owner as [owner|]; [|by destruct E].
  pose proof (kept_world _ _ _ _ (keeps_owner later _ _ lock P a) Eo1) as Hl1.
  apply claim_owner_inv in Eo1 as [Hcid Haid].
  cbn zeta in E. apply hub_bind_inv in E as (claimed & s2 & Ec & E). destruct claimed as [claimed|]; [|by destruct E].
  apply claim_inv in Ec as (r & Ec & Hr).
  assert (Hl2 : later (pass_world s1) (pass_world s2)).
  { pose proof (pk_acquire _ _ _ _ P (action_claim_path (campaign_id lock) (ra_action_id a)) owner
      (pass_world s1)) as K. by rewrite Ec in K. }
  destruct claimed; cbn [negb] in E.
  2: { apply IH in E. destruct Hr as [m ->]. eapply pass_skips; [exact Hl1| |exact Hl2|exact E].
       exists m. by exists owner. }
  subst r. apply hub_bind_inv in E as (outcome & s3 & Eo & E). destruct outcome as [outcome|]; [|by destruct E].
  apply finally_inv in Eo as (s4 & u & Ea & Er).
  pose proof (kept_world _ _ _ _ (keeps_apply_action later allow (fun _ => True) lock
    (ports_keep_weaken _ _ _ _ P) spec request a p d ltac:(done)) Ea) as Hl3.
  apply apply_action_inv in Ea as (Hi & Hk & Hrec).
  assert (Hl4 : later (pass_world s4) (pass_world s3)).
  { eapply kept_world; [|exact Er]. apply (keeps_release later _ _ lock P). }
  assert (Ho : outcome_of (pass_world s3) a outcome) by (eapply outcome_of_later; [exact Hl4|by split_and!]).
  assert (Hc : claim_asked a (pass_world s1) (Ok tt) (pass_world s2)) by (by exists owner).
  assert (Hl : later (pass_world s2) (pass_world s3)) by (by etransitivity).
  destruct (pass_ends a outcome) eqn:He.
  { injection E as <- <-. eapply pass_stops; [exact Hl1|exact Hc|exact Hl2|exact Hl|exact Ho|reflexivity|exact He]. }
  apply hub_bind_inv in E as (rest & s5 & E5 & E). destruct rest as [rest|]; [|by destruct E].
  injection E as <- <-.
  eapply pass_continues; [exact Hl1|exact Hc|exact Hl2|exact Hl|exact Ho|exact He|by eapply IH].
Qed.

(** Reserving: what [_reserve_new] returns is reserved. *)
Lemma reserve_new_inv actions s reserved_actions s' :
  _reserve_new lock actions s = (Ok reserved_actions, s') ->
  Forall (fun a => a ∈ actions /\ action_reserved_in (pass_world s') (campaign_id lock) a) reserved_actions.
Proof.
  unfold _reserve_new. intros E.
  cut (forall acc s, hub_foldM (reserve_one lock) acc actions s = (Ok reserved_actions, s') ->
    forall Q : ReconcileAction -> Prop,
    Forall (fun a => Q a /\ action_reserved_in (pass_world s) (campaign_id lock) a) acc ->
    Forall (fun a => (Q a \/ a ∈ actions) /\ action_reserved_in (pass_world s') (campaign_id lock) a) reserved_actions).
  { intros Hcut. specialize (Hcut _ _ E (fun _ => False) (List.Forall_nil _)).
    eapply Forall_impl; [exact Hcut|]. intros a [[[]|?] ?]. done. }
  clear E s. induction actions as [|a actions IH]; intros acc s; cbn [hub_foldM].
  { intros [= <- <-] Q HQ. eapply Forall_impl; [exact HQ|]. intros x [? ?]. split; [by left|done]. }
  intros (acc' & s1 & E1 & E)%hub_bind_inv Q HQ. destruct acc' as [acc'|]; [|by destruct E].
  assert (Hl : later (pass_world s) (pass_world s1)).
  { eapply kept_world; [|exact E1]. apply (keeps_reserve_one later _ _ lock P). }
  unfold reserve_one in E1. apply hub_bind_inv in E1 as (e & s2 & E2 & E1). destruct e as [e|]; [|by destruct E1].
  apply event_inv in E2 as (Hk & Hsub & Hp & _).
  apply hub_bind_inv in E1 as (created & s3 & E3 & E1). destruct created as [created|]; [|by destruct E1].
  injection E1 as <- <-. apply on_world_inv in E3.
  specialize (IH _ _ E (fun x => Q x \/ x = a)).
  assert (Hacc : Forall (fun x => (Q x \/ x = a) /\ action_reserved_in (pass_world s3) (campaign_id lock) x)
            (if created then acc ++ [a] else acc)).
  { assert (Hold : Forall (fun x => (Q x \/ x = a) /\ action_reserved_in (pass_world s3) (campaign_id lock) x) acc).
    { eapply Forall_impl; [exact HQ|]. intros x [? ?]. split; [by left|by eapply action_reserved_later]. }
    destruct created; [|done]. apply Forall_app. split; [done|]. apply Forall_singleton.
    split; [by right|]. split.
    - apply (reserve_action_law _ _ _ _ _ Hsafe) in E3 as (_ & i & Hi & Hres). rewrite Hp in Hi. cbn in Hi. by injection Hi as <-.
    - apply (reserve_action_law _ _ _ _ _ Hsafe) in E3 as (Hrec & _). by exists e. }
  specialize (IH Hacc). eapply Forall_impl; [exact IH|]. intros x [[[?| ->]|?] ?]; (split; [|done]);
    [by left|right; by left|right; by right].
Qed.
(** It leaves out only the actions the store answers to be reserved already. *)
Definition reserved_before (a : ReconcileAction) (w w' : W) : Prop :=
  exists e w1 w2, later w w1 /\ later w2 w' /\
    store_reserve_action (campaign_id lock) (ReconcileAction_dump a) e w1 = (Ok false, w2).

Lemma reserved_before_wider a v w w' v' : later v w -> later w' v' -> reserved_before a w w' -> reserved_before a v v'.
Proof.
  intros Hv Hw (e & w1 & w2 & L1 & L2 & E). exists e, w1, w2. split_and!; [|..|done]; by etransitivity.
Qed.

Lemma reserve_new_covers actions s reserved_actions s' :
  _reserve_new lock actions s = (Ok reserved_actions, s') ->
  forall a, a ∈ actions -> a ∈ reserved_actions \/ reserved_before a (pass_world s) (pass_world s').
Proof.
  unfold _reserve_new. intros E a Ha.
  cut (forall acc s, hub_foldM (reserve_one lock) acc actions s = (Ok reserved_actions, s') ->
    (forall x, x ∈ acc -> x ∈ reserved_actions) /\
    (forall x, x ∈ actions -> x ∈ reserved_actions \/ reserved_before x (pass_world s) (pass_world s'))).
  { intros Hcut. by apply (Hcut _ _ E). }
  clear E s Ha a. induction actions as [|a actions IH]; intros acc s; cbn [hub_foldM].
  { intros [= <- <-]. split; [done|]. by intros x ?%elem_of_nil. }
  intros (acc' & s1 & E1 & E)%hub_bind_inv. destruct acc' as [acc'|]; [|by destruct E].
  destruct (IH _ _ E) as [Hacc Hrest].
  pose proof (kept_world _ _ _ _ (keeps_reserve_one later _ _ lock P acc a) E1) as Hl.
  assert (Hl' : later (pass_world s1) (pass_world s')).
  { eapply kept_world; [|exact E]. apply keeps_foldM; [apply _|]. apply (keeps_reserve_one later _ _ lock P). }
  unfold reserve_one in E1. apply hub_bind_inv in E1 as (e & s2 & E2 & E1). destruct e as [e|]; [|by destruct E1].
  pose proof (kept_world _ _ _ _ (keeps_event later _ _ lock P _ _) E2) as Hl2.
  apply hub_bind_inv in E1 as (created & s3 & E3 & E1). destruct created as [created|]; [|by destruct E1].
  injection E1 as <- <-. apply on_world_inv in E3. split.
  - intros x Hx. apply Hacc. destruct created; [apply elem_of_app; by left|done].
  - intros x [->|Hx]%elem_of_cons.
    + destruct created; [left; apply Hacc, elem_of_app; right; by left|right].
      by exists e, (pass_world s2), (pass_world s3).
    + destruct (Hrest _ Hx) as [?|Hb]; [by left|right]. by eapply reserved_before_wider; [exact Hl|reflexivity|].
Qed.
End write_ahead.

(** ** The end of [apply_campaign] *)

(** A campaign that takes new work. *)
Definition takes_work (p : RecoveryProjection) : bool :=
  bool_decide (proj_status (rp_campaign p) = campaign_status_queued) ||
  bool_decide (proj_status (rp_campaign p) = campaign_status_active).

(** What a pass applies: the pending and the newly reserved actions by priority,
    as many as the limit admits. *)
Definition pass_selection (effective : ReconcileContext) (pending reserved : list ReconcileAction)
    : list ReconcileAction :=
  bounded (action_limit (limits effective)) (sort_by action_leb (pending ++ reserved)).

Lemma pass_selection_split effective pending reserved :
  exists rest, pass_selection effective pending reserved ++ rest = sort_by action_leb (pending ++ reserved).
Proof. unfold pass_selection, bounded. eexists. apply take_drop. Qed.

Lemma pass_selection_elem effective pending reserved a :
  a ∈ pass_selection effective pending reserved -> a ∈ pending \/ a ∈ reserved.
Proof.
  destruct (pass_selection_split effective pending reserved) as [rest Hr]. intros Ha.
  apply elem_of_app, (sort_by_elem_of action_leb). rewrite <- Hr. apply elem_of_app. by left.
Qed.

Lemma pass_selection_length effective pending reserved :
  0 <= action_limit (limits effective) ->
  len (pass_selection effective pending reserved) =
    Z.min (action_limit (limits effective)) (len (pending ++ reserved)).
Proof.
  intros Hl. unfold pass_selection, bounded, len. destruct (Z.ltb_spec (action_limit (limits effective)) 0); [lia|].
  rewrite length_take, sort_by_length. lia.
Qed.

Lemma pass_selection_complete effective pending reserved a :
  0 <= action_limit (limits effective) -> a ∈ pending ++ reserved ->
  a ∈ pass_selection effective pending reserved \/
  len (pass_selection effective pending reserved) = action_limit (limits effective).
Proof.
  intros Hl Ha. pose proof (pass_selection_length effective pending reserved Hl) as Hlen.
  destruct (pass_selection_split effective pending reserved) as [rest Hr].
  apply (sort_by_elem_of action_leb) in Ha. rewrite <- Hr in Ha.
  apply elem_of_app in Ha as [Ha|Ha]; [by left|right].
  apply (f_equal len) in Hr. unfold len in *. rewrite length_app, sort_by_length in Hr.
  destruct rest as [|x rest]; [by apply elem_of_nil in Ha|]. cbn in Hr. lia.
Qed.

(** The order in which a pass takes its actions: what winds down first, then what
    records a failure, then what publishes, and new work last. *)
Definition handling_order : list ActionKind := [
  cancel_execution; cancel_wave; drain_wave; cleanup_wave; exhaust_trials;
  manual_intervention_action; publish_summary; publish_results; retry_shard; submit_wave].

(** [x] is taken before [y]: its kind is earlier, or the same with no greater identifier. *)
Definition taken_before (x y : ReconcileAction) : Prop :=
  (exists i j, handling_order !! i = Some (act_kind x) /\ handling_order !! j = Some (act_kind y) /\ (i < j)%nat) \/
  act_kind x = act_kind y /\ str_leb (ra_action_id x) (ra_action_id y) = true.

Lemma handling_order_priority k : handling_order !! Z.to_nat (_ACTION_PRIORITY k) = Some k.
Proof. by destruct k. Qed.

Lemma action_priority_inj k k' : _ACTION_PRIORITY k = _ACTION_PRIORITY k' -> k = k'.
Proof. by destruct k, k'. Qed.

Lemma action_priority_nonneg k : 0 <= _ACTION_PRIORITY k.
Proof. by destruct k. Qed.

Lemma action_leb_before x y : action_leb x y = true -> taken_before x y.
Proof.
  unfold action_leb, lex_leb. cbn.
  destruct (Z.eqb_spec (_ACTION_PRIORITY (act_kind x)) (_ACTION_PRIORITY (act_kind y))) as [E|E].
  - intros Hid. right. split; [by apply action_priority_inj|done].
  - intros Hle%Z.leb_le. left. do 2 eexists. split_and!; [apply handling_order_priority..|].
    pose proof (action_priority_nonneg (act_kind x)). lia.
Qed.

Lemma sorted_app_elem {A} (R : A -> A -> Prop) l l' x y :
  StronglySorted R (l ++ l') -> x ∈ l -> y ∈ l' -> R x y.
Proof.
  induction l as [|z l IH]; cbn; intros Hs Hx Hy; [by apply elem_of_nil in Hx|].
  inversion Hs as [|? ? Hs' Hz]; subst. apply elem_of_cons in Hx as [->|Hx]; [|by apply IH].
  rewrite Forall_forall in Hz. apply Hz, elem_of_app. by right.
Qed.

(** The selection is the first part of the pending and reserved actions in that order. *)
Lemma pass_selection_sorted effective pending reserved :
  exists rest, pass_selection effective pending reserved ++ rest ≡ₚ pending ++ reserved /\
    StronglySorted taken_before (pass_selection effective pending reserved ++ rest).
Proof.
  destruct (pass_selection_split effective pending reserved) as [rest Hr]. exists rest. rewrite Hr.
  split; [apply sort_by_perm|].
  assert (Hs : StronglySorted (fun x y => action_leb x y = true) (sort_by action_leb (pending ++ reserved))).
  { apply sort_by_sorted; unfold action_leb.
    - intros x y. apply lex_leb_total; auto using str_leb_total; intros *; [apply Z.eqb_eq|rewrite !Z.leb_le; lia].
    - intros x y z. apply lex_leb_trans; intros *;
        [apply Z.eqb_eq|rewrite !Z.leb_le; lia..|apply str_leb_trans]. }
  clear Hr. induction Hs as [|x l Hs IH Hx]; constructor; [done|].
  eapply Forall_impl; [exact Hx|]. intros y. apply action_leb_before.
Qed.

Section selection.
Context {W : Type} `{CampaignStore W} `{ClaimStore W} `{EndpointApplicationPort W} `{WaveJobPort W}
  `{ReconcilerServices W} `{PydanticModel EndpointSettings}.

(** A run of it stops before the reservations, during them, after them because
    the controller expected another action, or applies the selection. *)
Variant selection_run (lock : CampaignLock) (spec : ExperimentSpec) (request : document)
    (reservations : dict ReconcileAction) (effective : ReconcileContext) (projection : RecoveryProjection)
    (plan : ReconcilePlan) (s : pass W) : result (list AppliedAction) -> pass W -> Prop :=
  | stops_at_start e : selection_run lock spec request reservations effective projection plan s (Err e) s
  | stops_reserving e s' :
      _reserve_new lock (rpl_actions plan) s = (Err e, s') ->
      selection_run lock spec request reservations effective projection plan s (Err e) s'
  | stops_reserved reserved e s' :
      _reserve_new lock (rpl_actions plan) s = (Ok reserved, s') ->
      selection_run lock spec request reservations effective projection plan s (Err e) s'
  | applies pending reserved s1 r s' :
      _pending_actions (proj_actions (rp_campaign projection)) reservations = Ok pending ->
      _reserve_new lock (rpl_actions plan) s = (Ok reserved, s1) ->
      _apply_selected lock spec request (pass_selection effective pending reserved) projection
        (rpl_terminal_decision plan) (takes_work projection) s1 = (r, s') ->
      selection_run lock spec request reservations effective projection plan s r s'.

Lemma select_and_apply_inv lock spec request reservations effective projection plan expected s r s' :
  select_and_apply lock spec request reservations effective projection plan expected s = (r, s') ->
  selection_run lock spec request reservations effective projection plan s r s'.
Proof.
  unfold select_and_apply. intros (p & s1 & Ep & E)%hub_bind_inv. injection Ep as Ep <-.
  destruct p as [pending|e]; [|destruct E as [-> ->]; constructor].
  apply hub_bind_inv in E as (reserved & s1 & Er & E).
  destruct reserved as [reserved|e]; [|destruct E as [-> ->]; by constructor].
  cbn zeta in E. fold (pass_selection effective pending reserved) in E. fold (takes_work projection) in E.
  destruct expected as [id|]; [|by eapply applies].
  destruct (pass_selection effective pending reserved) as [|a l] eqn:Es; [eapply applies; by rewrite ?Es|].
  destruct (negb _); [|eapply applies; by rewrite ?Es].
  injection E as <- <-. by eapply stops_reserved.
Qed.
End selection.

(** ** Jobs that start for an action *)
Section started.
Context {W : Type} `{SL : CampaignStoreLaws W later} `{ClaimStore W} `{EndpointApplicationPort W}
  `{WaveJobPort W} `{ReconcilerServices W} `{PydanticModel EndpointSettings}.
Context (started : W -> string -> Prop).

(** The world grows, and no Job starts but for the actions of [ids]. *)
Definition starts_only (ids : string -> Prop) (w w' : W) : Prop :=
  later w w' /\ forall i, started w' i -> started w i \/ ids i.

#[export] Instance starts_only_preorder ids : PreOrder (starts_only ids).
Proof.
  split; [intros w; split; [reflexivity|auto]|].
  intros a b c [H1' H2'] [G1 G2]. split; [by etransitivity|]. intros i [Hi|Hi]%G2; auto.
Qed.

(** Only a submission starts a Job, that of the action it is for. *)
Definition jobs_start (c : string) : Prop :=
  ports_keep (starts_only (fun _ => False)) true (fun _ => False) c /\
  forall l r k, keeps (starts_only (eq (Waves.wl_action_id l))) (jobs_submit l r k).

Lemma keeps_starts_only (ids ids' : string -> Prop) {A} (m : hub W A) :
  (forall i, ids i -> ids' i) -> keeps (starts_only ids) m -> keeps (starts_only ids') m.
Proof. intros Hi Hm w. destruct (Hm w) as [? Hs]. split; [done|]. intros i [?|?]%Hs; auto. Qed.

Lemma jobs_start_keep c ids : jobs_start c -> ports_keep (starts_only ids) true ids c.
Proof.
  intros [P S]. split; intros; try (eapply keeps_starts_only; [|by apply P]; done).
  eapply keeps_starts_only; [|apply S]. by intros i <-.
Qed.

Lemma jobs_start_later c : jobs_start c -> ports_all_keep later c.
Proof.
  intros [P S]. assert (Hk : forall ids A (m : hub W A), keeps (starts_only ids) m -> keeps later m)
    by (intros ids A m Hm w; apply Hm).
  split; intros; try (eapply Hk; by apply P). eapply Hk, S.
Qed.
End started.
Arguments starts_only {W} later started ids w w' : rename.
Arguments jobs_start {W _} later {_ _ _ _} started c.

(** ** Unfinished actions *)
Definition unfinished (status : ActionStatus) : bool :=
  bool_decide (status = status_reserved) || bool_decide (status = status_ambiguous).

(** The reservation agrees with what its event says of the action. *)
Definition reservation_matches (a : ReconcileAction) (st : ActionProjection) : Prop :=
  ra_action_key a = ap_action_key st /\ act_kind a = ap_action_kind st /\ act_target_ids a = ap_target_ids st.

Lemma pending_action_ok reservations pending id st pending' :
  pending_action reservations pending (id, st) = Ok pending' ->
  if unfinished (ap_status st)
  then exists a, dict_get reservations id = Some a /\ reservation_matches a st /\ pending' = pending ++ [a]
  else pending' = pending.
Proof.
  unfold pending_action, unfinished. destruct (_ || _); cbn [negb]; [|by intros [= <-]].
  destruct (dict_get reservations id) as [a|]; [|done]. intros E. inv_ok.
  rewrite !orb_false_iff, !negb_false_iff, String.eqb_eq, !bool_decide_eq_true in Hc.
  destruct Hc as [[? ?] ?]. exists a. by split_and!.
Qed.

(** The pending actions are the reservations of the unfinished actions. *)
Lemma pending_actions_spec actions reservations pending :
  _pending_actions actions reservations = Ok pending ->
  forall a, a ∈ pending <-> exists id st, (id, st) ∈ actions /\ unfinished (ap_status st) = true /\
    dict_get reservations id = Some a /\ reservation_matches a st.
Proof.
  unfold _pending_actions, sorted_items. intros E.
  assert (Hgen : forall l acc, foldM (pending_action reservations) acc l = Ok pending ->
    forall a, a ∈ pending <-> a ∈ acc \/ exists id st, (id, st) ∈ l /\ unfinished (ap_status st) = true /\
      dict_get reservations id = Some a /\ reservation_matches a st).
  { clear E. induction l as [|[id st] l IH]; intros acc E; cbn in E; inv_ok.
    - intros a. split; [by left|]. intros [?|(? & ? & []%elem_of_nil & _)]. done.
    - intros a. rewrite (IH _ E). apply pending_action_ok in Hv. split.
      + intros [Ha|(i & x & Hi & Hx)]; [|right; exists i, x; split; [by right|done]].
        destruct (unfinished (ap_status st)) eqn:Hu; [|left; congruence].
        destruct Hv as (b & Hb & Hm & ->). apply elem_of_app in Ha as [?| ->%list_elem_of_singleton]; [by left|].
        right. exists id, st. split_and!; [by left|done..].
      + intros [Ha|(i & x & [[= -> ->]|Hi]%elem_of_cons & Hu & Hr & Hm)].
        * left. destruct (unfinished _); [|by rewrite Hv]. destruct Hv as (b & _ & _ & ->). apply elem_of_app. by left.
        * left. rewrite Hu in Hv. destruct Hv as (b & Hb & _ & ->). rewrite Hb in Hr. injection Hr as ->.
          apply elem_of_app. right. by left.
        * right. by exists i, x. }
  intros a. rewrite (Hgen _ _ E). split.
  - intros [[]%elem_of_nil|(id & st & Hi%sort_by_elem_of & ?)]. by exists id, st.
  - intros (id & st & Hi & ?). right. exists id, st. split; [by apply sort_by_elem_of|done].
Qed.

Lemma pending_actions_complete actions reservations pending id st :
  _pending_actions actions reservations = Ok pending ->
  (id, st) ∈ actions -> unfinished (ap_status st) = true ->
  exists a, dict_get reservations id = Some a /\ reservation_matches a st /\ a ∈ pending.
Proof.
  intros E Hi Hu.
  assert (Hgen : forall l acc, foldM (pending_action reservations) acc l = Ok pending -> (id, st) ∈ l ->
    exists a, dict_get reservations id = Some a /\ reservation_matches a st).
  { induction l as [|[i x] l IH]; intros acc El Hl; [by apply elem_of_nil in Hl|]. cbn in El. inv_ok.
    apply elem_of_cons in Hl as [[= <- <-]|Hl]; [|by eapply IH].
    apply pending_action_ok in Hv. rewrite Hu in Hv. destruct Hv as (a & Ha & Hm & _). by exists a. }
  destruct (Hgen _ _ E) as (a & Ha & Hm); [by apply sort_by_elem_of|]. exists a. split_and!; [done..|].
  apply (pending_actions_spec _ _ _ E). by exists id, st.
Qed.

(** Every selected action has its outcome or was refused its claim, unless an
    outcome ends the pass. *)
Section progress.
Context {W : Type} `{SL : CampaignStoreLaws W later} `{ClaimStore W} (lock : CampaignLock).

Definition pass_ended (w : W) (applied : list AppliedAction) : Prop :=
  exists a aa, last applied = Some aa /\ outcome_of lock w a aa /\ pass_ends a aa = true.

(** Another holder of the claim kept it from the pass between [w] and [w']. *)
Definition claim_kept_from (w w' : W) (a : ReconcileAction) : Prop :=
  exists w1 w2, later w w1 /\ claim_refused lock a w1 w2 /\ later w2 w'.

Lemma pass_outcomes_later w w' selected applied :
  pass_outcomes (later := later) lock w w' selected applied -> later w w'.
Proof. induction 1; repeat (etransitivity; [eassumption|]); reflexivity. Qed.

Lemma pass_outcomes_progress w w' selected applied :
  pass_outcomes (later := later) lock w w' selected applied ->
  pass_ended w' applied \/
  forall a, a ∈ selected -> (exists aa, aa ∈ applied /\ outcome_of lock w' a aa) \/ claim_kept_from w w' a.
Proof.
  induction 1 as [w|w w' w1 w2 b selected applied L1 Hc L2 E IH|w w' w1 w2 w3 b selected aa L1 Hc L2 L3 Ho L4 He
    |w w' w1 w2 w3 b selected aa applied L1 Hc L2 L3 Ho He E IH].
  - right. by intros a ?%elem_of_nil.
  - destruct IH as [IH|IH]; [by left|right]. intros a [->|Ha]%elem_of_cons.
    + right. exists w1, w2. split_and!; [done|done|]. by eapply pass_outcomes_later.
    + destruct (IH _ Ha) as [?|(v1 & v2 & V1 & Hv & V2)]; [by left|right].
      exists v1, v2. split_and!; [|done|done]. by do 2 (etransitivity; [eassumption|]).
  - left. exists b, aa. split_and!; [done| |done]. by eapply outcome_of_later.
  - destruct IH as [(c & cc & Hlast & Hcc)|IH]; [left|right].
    { exists c, cc. split; [|done]. by destruct applied. }
    intros a [->|Ha]%elem_of_cons.
    + left. exists aa. split; [by left|]. eapply outcome_of_later; [|exact Ho]. by eapply pass_outcomes_later.
    + destruct (IH _ Ha) as [(bb & Hb & Hbo)|(v1 & v2 & V1 & Hv & V2)].
      * left. exists bb. split; [by right|done].
      * right. exists v1, v2. split_and!; [|done|done]. by do 3 (etransitivity; [eassumption|]).
Qed.
End progress.
