(* ===== verification/HubStoreLaws.v ===== *)
(** The campaign store of the Hub keeps the promises the reconciliation pass is
    proved against ([CampaignStoreLaws]): [main] only grows, a returned
    [append_event] has its event in a tree of [main], and an action that
    [reserve_action] answers [true] for is there with its reservation event. *)
From S2P Require Import Prelude.
From S2P Require Import PyDict.
From S2P Require Import Json.
From S2P Require Import Campaigns.
From S2P Require Import Control.
From S2P Require Import ControlStore.
From S2P Require Import Hub.
From S2P Require Import CampaignProtocol.
From S2P Require Import CampaignStoreFacts.
From S2P Require Import Apply.
From S2P Require Import PassFacts.

Section laws.
Context {W : Type} {API : HubApi W} {ML : PydanticModel CampaignLock}.
Variable datetime_json : Z -> string.
Variable event_validate : json -> result CampaignEvent.
Context {LAWS : HubLaws W (campaign_step datetime_json)}.

#[local] Instance store : CampaignStore W := HubCampaignStore datetime_json event_validate.

Lemma keeps_grows {A} (m : hub W A) :
  (forall w res w', m w = (res, w') -> grows w w') -> keeps grows m.
Proof. intros Hm w. destruct (m w) as [r w'] eqn:E. by eapply Hm. Qed.

#[local] Instance grows_preorder : PreOrder (grows (W := W)).
Proof. split; [intros w; apply grows_refl|intros a b c; apply grows_trans]. Qed.

(** Reading a snapshot: the head, then files of that revision. *)
Lemma load_snapshot_grows c w res w' : load_snapshot event_validate c w = (res, w') -> grows w w'.
Proof.
  unfold load_snapshot. intros (h & w1 & Eh & E)%hub_bind_inv.
  destruct (hub_head_law _ _ _ _ Eh) as [Hg Hh]. destruct h as [r|e]; [|by destruct E as [_ ->]].
  destruct (Hh r eq_refl) as (t & k & Ht & _). etransitivity; [exact Hg|].
  revert E. match goal with |- ?m w1 = _ -> _ => assert (Hr : reads m r any_result) end.
  { apply reads_bind_any; [eapply reads_any, reads_json|intros value].
    apply reads_bind_any; [by apply reads_lift|intros lock].
    apply reads_bind_any; [apply reads_load_events|intros events].
    apply reads_bind_any; [eapply reads_any, reads_bytes|intros request]. by apply reads_ret. }
  intros E. by apply (Hr _ _ _ _ Ht E).
Qed.

Lemma load_campaign_grows c w res w' : load_campaign event_validate c w = (res, w') -> grows w w'.
Proof.
  unfold load_campaign. intros (s & w1 & Es & E)%hub_bind_inv.
  apply load_snapshot_grows in Es. destruct s; [by injection E as _ <-|by destruct E as [_ ->]].
Qed.

Definition event_on_main (w : W) (c : string) (e : CampaignEvent) : Prop :=
  exists t, t ∈ main w /\ t !! file_path (FEvent c (event_id e)) = Some (DJson (event_dump datetime_json e)).

Definition reservation_on_main (w : W) (c a : string) (r : dict json) : Prop :=
  exists t, t ∈ main w /\ t !! file_path (FAction c a) = Some (DJson (jobj r)).

Lemma append_event_recorded c e w u w' :
  append_event datetime_json c e w = (Ok u, w') -> event_on_main w' c e.
Proof.
  unfold append_event. intros (s & w1 & Es & E)%hub_bind_inv. unfold hub_lift in Es. injection Es as <- <-.
  destruct (_validate_event_scope c e); [|by destruct E]. case_bool_decide; [by injection E|].
  unfold _create_absent, control_loop in E.
  apply commit_loop_ok with (P := fun t res => forall x, res = Ok x ->
    x = Commit [CommitOperationAdd (_event_path c (event_id e)) (DJson (event_dump datetime_json e))] tt /\
    t !! _event_path c (event_id e) = None) in E; [|intros r; apply create_body_spec].
  destruct E as [(t & _ & Hp)|(t & ops & k & Hp & Hm)]; destruct (Hp _ eq_refl) as [[= -> ?] _].
  eexists. rewrite Hm. split; [by left|]. cbn. apply lookup_insert_eq.
Qed.

Lemma reserve_action_recorded c r e w w' :
  campaign_id_safe c = true ->
  reserve_action datetime_json c r e w = (Ok true, w') ->
  event_on_main w' c e /\
  exists a, payload_action_id (payload e) = Ok a /\ reservation_on_main w' c a r.
Proof.
  intros Hc. unfold reserve_action. destruct (_ || _); [by intros [=]|].
  intros (a & w1 & Ea & E)%hub_bind_inv. unfold hub_lift in Ea. injection Ea as <- <-.
  destruct (payload_action_id (payload e)) as [a|]; [|by destruct E].
  apply (commit_loop_ok _ _ _ _ (reserve_spec datetime_json c (file_path (FAction c a)) r e)) in E;
    [|intros h; apply reserve_body_spec].
  destruct E as [(t & _ & [=] & _)|(t & ops & k & (_ & _ & ->) & Hm)].
  assert (Hne : file_path (FAction c a) <> file_path (FEvent c (event_id e))).
  { intros Heq. by apply file_path_inj in Heq. }
  split; [|exists a; split; [done|]]; eexists; rewrite Hm; (split; [by left|]); cbn.
  - apply lookup_insert_eq.
  - rewrite lookup_insert_ne by done. apply lookup_insert_eq.
Qed.

#[export] Instance HubCampaignStoreLaws : CampaignStoreLaws W (grows (W := W)).
Proof.
  refine (Build_CampaignStoreLaws W store grows _ event_on_main reservation_on_main _ _ _ _ _ _ _ _ _).
  - intros w w' c e [_ Hg] (t & Ht & He). exists t. split; [by eapply extends_elem|done].
  - intros w w' c a r [_ Hg] (t & Ht & He). exists t. split; [by eapply extends_elem|done].
  - intros c. apply keeps_grows. intros w res w'. apply load_campaign_grows.
  - intros c e. apply keeps_grows. intros w res w'. apply append_event_grows.
  - intros c e. apply keeps_grows. intros w res w'. apply ensure_event_grows.
  - intros c es. apply keeps_grows. intros w res w'. apply ensure_unless_cancelled_grows.
  - intros c a e Hc. apply keeps_grows. intros w res w'. by apply reserve_action_grows.
  - intros c e w u w'. apply append_event_recorded.
  - intros c r e w w'. apply reserve_action_recorded.
Defined.
End laws.
