(* ===== verification/LaunchFacts.v ===== *)
(** Facts of the launch of a controller and of the watchdog. *)
From S2P Require Import Prelude.
From S2P Require Import PyDict.
From S2P Require Import Json.
From S2P Require Import Campaigns.
From S2P Require Import Models.
From S2P Require Import Control.
From S2P Require Import Recovery.
From S2P Require Import Hub.
From S2P Require Import ControllerStatus.
From S2P Require Import ControllerProtocol.
From S2P Require Import ControllerStoreFacts.
From S2P Require Import ControlStore.
From S2P Require Import Launch.
From S2P Require Import Watchdog.
From S2P Require Import CampaignStoreFacts.

(** ** Facts about launching controllers: what the newest tree of the repository
    records after each step of the launch protocol. *)
(** The Jobs service, the clock and the names do not touch the repository. *)
Class JobsLaws (W : Type) {API : HubApi W} {R : tree -> tree -> Prop} {LAWS : HubLaws W R}
    {JOBS : JobsApi W} := {
  list_jobs_law labels namespace w res w' : list_jobs labels namespace w = (res, w') -> grows w w';
  run_text_law command w res w' : run_text command w = (res, w') -> grows w w';
  temporary_file_law w res w' : temporary_file w = (res, w') -> grows w w';
  utc_now_law w res w' : utc_now w = (res, w') -> grows w w';
  new_identifier_law w res w' : new_identifier w = (res, w') -> grows w w';
}.

Section facts.
Context {MC : PydanticModel ControllerClaim} {PC : PydanticLaws ControllerClaim ControllerClaim_valid}
  {MS : PydanticModel ControllerStatus} {PS : PydanticLaws ControllerStatus ControllerStatus_valid}
  {ML : PydanticModel ControllerLaunchClaim}
  {PL : PydanticLaws ControllerLaunchClaim ControllerLaunchClaim_valid}
  {MP : PydanticModel ProviderCapacityClaim}
  {PP : PydanticLaws ProviderCapacityClaim ProviderCapacityClaim_valid}
  {MR : PydanticModel ControllerLaunchReceipt}
  {PR : PydanticLaws ControllerLaunchReceipt ControllerLaunchReceipt_valid}
  {MST : PydanticModel ControllerStartedReceipt} {MEN : PydanticModel ControllerEndedReceipt}
  {MAT : PydanticModel ControllerAttemptReservation} {MRD : PydanticModel ControllerRecoveryDecision}.
Context {W : Type} {API : HubApi W} {LAWS : HubLaws W controller_step} {JOBS : JobsApi W}
  {JLAWS : JobsLaws W}.

(** ** The newest tree *)
Definition latest (P : tree -> Prop) (w : W) : Prop := exists t k, main w = t :: k /\ P t.

Lemma latest_reached (P : tree -> Prop) t k w :
  (forall t t', controller_step t t' -> P t -> P t') ->
  extends controller_step (t :: k) (main w) -> P t -> latest P w.
Proof.
  intros Hstep Hext HP. destruct (extends_rtc _ _ _ _ Hext) as (t' & k' & Hm & Hs).
  exists t', k'. split; [done|]. clear Hm Hext.
  induction Hs as [|a b c Hab _ IH]; [done|]. eauto.
Qed.

Lemma latest_stable (P : tree -> Prop) :
  (forall t t', controller_step t t' -> P t -> P t') -> stable (latest P).
Proof.
  intros Hstep w w' (t & k & Hm & HP) [_ Hext]. rewrite Hm in Hext. by eapply latest_reached.
Qed.

(** A record that is written once. *)
Definition recorded {A} `{PydanticModel A} (l : location) (x : A) (t : tree) : Prop :=
  record_at A t (location_path l) = Some x.

Lemma recorded_step {A} `{PydanticModel A} l (x : A) t t' :
  location_ok l = true -> is_write_once l = true ->
  controller_step t t' -> recorded l x t -> recorded l x t'.
Proof.
  intros Hl Hw Hs Hr. unfold recorded, record_at in *.
  destruct (t !! location_path l) as [d|] eqn:Ed; [|done].
  by rewrite (write_once_step _ _ l d Hs Hl Hw Ed).
Qed.

Lemma recorded_stable {A} `{PydanticModel A} l (x : A) :
  location_ok l = true -> is_write_once l = true -> stable (latest (recorded l x)).
Proof. intros Hl Hw. apply latest_stable. intros t t'. by apply recorded_step. Qed.

(** Reading a record that is written once tells what the newest tree records. *)
Lemma read_record_triple (A : Type) `{PydanticModel A} l (path : result string) :
  is_write_once l = true ->
  (forall p, path = Ok p -> location_ok l = true /\ p = location_path l) ->
  triple (fun _ => True)
    (do head <- _head;; do p <- hub_lift path;; _read_optional A p head)
    (fun res w => forall x, res = Ok (Some x) -> location_ok l = true /\ latest (recorded l x) w).
Proof.
  intros Hw Hp w res w' _ E. apply hub_bind_inv in E as (h & w1 & Eh & E).
  destruct (hub_head_law _ _ _ _ Eh) as [Hg1 Hh]. destruct h as [h|e]; [|by destruct E as [-> ->]].
  destruct (Hh h eq_refl) as (t & k & Ht & _ & Hext).
  apply hub_bind_inv in E as (p & w2 & Ep & E). unfold hub_lift in Ep. injection Ep as <- <-.
  destruct path as [p|e]; [|by destruct E as [-> ->]].
  destruct (Hp p eq_refl) as [Hok ->].
  destruct (reads_optional _ _ _ _ _ _ _ Ht E) as [Hg2 Hr]. split; [by eapply grows_trans|].
  intros x ->. split; [done|]. destruct Hg2 as [_ Hext2].
  apply (latest_reached _ t k); [intros; by eapply recorded_step|by eapply extends_trans|exact Hr].
Qed.

(** Writing such a record. *)
Lemma write_record_triple {A} `{PydanticModel A, !PydanticLaws A valid} l (x : A) (P : W -> Prop) :
  location_ok l = true -> is_write_once l = true -> valid x = true ->
  (forall w res w', P w -> _write_immutable (location_path l) x w = (res, w') -> grows w w') ->
  triple P (_write_immutable (location_path l) x)
    (fun res w => res = Ok tt -> latest (recorded l x) w).
Proof.
  intros Hl Hw Hv Hg w res w' Hp E. split; [by eapply Hg|]. intros ->.
  assert (Hread : forall t, t !! location_path l = Some (record_doc x) -> recorded l x t).
  { intros t Ht. by apply (record_at_doc (valid := valid)). }
  set (P0 := fun (t : tree) (r : result (decision unit)) => forall d, r = Ok d ->
    match d with
    | Return _ => t !! location_path l = Some (record_doc x)
    | Commit ops _ => ops = [_add (location_path l) x]
    end).
  assert (Hbody : forall r, reads (write_immutable_body (location_path l) x r) r P0).
  { intros r. unfold write_immutable_body. eapply reads_bind; [apply reads_json_optional| |done].
    intros [j|].
    - case_bool_decide as Hj; cbn [negb].
      + apply (reads_lift r (Ok (Return tt))). intros t [Ht _] d [= <-]. by subst j.
      + apply (reads_lift r (Err _)). intros t _ d [=].
    - apply (reads_lift r (Ok (Commit [_add (location_path l) x] tt))). by intros t _ d [= <-]. }
  destruct (commit_loop_returns _ _ _ _ _ _ _ _ Hbody E) as [(t & k & Hext & Hr)|(t & ops & k & Hc & Hm)].
  - apply (latest_reached _ t k); [intros; by eapply recorded_step|done|]. apply Hread. by apply (Hr _ eq_refl).
  - specialize (Hc _ eq_refl). cbn in Hc. subst ops. eexists _, _. split; [exact Hm|].
    apply Hread.
    change (apply_ops t [_add (location_path l) x]) with (<[location_path l := record_doc x]> t).
    by rewrite lookup_insert_eq.
Qed.

(** ** The launch protocol *)

(** A computation that only extends [main]. *)
Definition quiet {A} (m : hub W A) : Prop := forall w res w', m w = (res, w') -> grows w w'.

Lemma quiet_lift {A} (x : result A) : quiet (hub_lift x).
Proof. intros w res w' [= <- <-]. apply grows_refl. Qed.

Lemma quiet_bind {A B} (m : hub W A) (k : A -> hub W B) :
  quiet m -> (forall a, quiet (k a)) -> quiet (hub_bind m k).
Proof.
  intros Hm Hk w res w' (r & w1 & E1 & E2)%hub_bind_inv. specialize (Hm _ _ _ E1).
  destruct r as [a|e]; [|destruct E2 as [_ ->]; done]. eapply grows_trans; [done|by eapply Hk].
Qed.

Lemma quiet_triple {A} (I : W -> Prop) (m : hub W A) :
  stable I -> quiet m -> triple I m (fun _ => I).
Proof. intros Hs Hm w res w' Hi E. specialize (Hm _ _ _ E). split; [done|by eapply Hs]. Qed.

Lemma triple_any {A} (P : W -> Prop) (m : hub W A) Q : triple (fun _ => True) m Q -> triple P m Q.
Proof. intros Hm. eapply triple_weaken; [exact Hm|done|done]. Qed.

Lemma triple_quiet {A} (m : hub W A) Q : triple (fun _ => True) m Q -> quiet m.
Proof. intros Hm w res w' E. by apply (Hm w res w' I). Qed.

Notation receipt_location r := (LLaunchReceipt (at_campaign_id r) (at_attempt r)).

(** The newest tree records that [job] is the Job of the reserved attempt. *)
Definition launched (r : ControllerAttemptReservation) (job : string) (w : W) : Prop :=
  location_ok (receipt_location r) = true /\
  latest (recorded (receipt_location r) (launch_receipt_of r job)) w.

Lemma launched_stable r job : stable (launched r job).
Proof. intros w w' [Hok Hl] Hg. split; [done|]. by eapply recorded_stable. Qed.

(** What a launch returns is recorded. *)
Definition launches (r : ControllerAttemptReservation) (res : result string) (w : W) : Prop :=
  forall job, res = Ok job -> launched r job w.

Lemma validated_receipt x r job : _validated_launch_receipt x r = Ok job -> x = launch_receipt_of r job.
Proof.
  unfold _validated_launch_receipt, launch_receipt_of. destruct (_ && _) eqn:E; [|done]. intros [= <-].
  rewrite !andb_true_iff, !String.eqb_eq, Z.eqb_eq in E. destruct x; cbn in *. naive_solver.
Qed.

Lemma find_jobs_quiet namespace labels : quiet (_find_controller_jobs namespace labels).
Proof.
  apply quiet_bind; [intros w res w'; apply list_jobs_law|]. intros resources.
  apply quiet_bind; [apply quiet_lift|]. intros ids. destruct (1 <? len ids); apply quiet_lift.
Qed.

Lemma record_launch_triple r job :
  triple (fun _ => True) (_record_controller_launch r job) (launches r).
Proof.
  unfold _record_controller_launch.
  eapply (triple_bind _ _ _ (fun res _ => forall x, res = Ok x ->
    x = launch_receipt_of r job /\ ControllerLaunchReceipt_valid x = true)).
  - apply triple_lift. intros w _ x. destruct (ControllerLaunchReceipt_valid _) eqn:E; [|done].
    by intros [= <-].
  - intros x. eapply (triple_bind _ _ _ (fun res w => res = Ok tt -> launched r job w)).
    + intros w res w' Hx E. destruct (Hx x eq_refl) as [-> Hv].
      pose proof (run_op_grows (OpWriteLaunch (launch_receipt_of r job)) w res w' eq_refl E) as Hg.
      split; [exact Hg|]. intros ->. unfold write_launch in E.
      apply hub_bind_inv in E as (p & w1 & Ep & E). unfold hub_lift in Ep. injection Ep as <- <-.
      destruct (controller_launch_receipt_path _ _) as [p|e] eqn:Ep; [|by destruct E].
      apply launch_receipt_path_ok in Ep as [Hok ->]. split; [exact Hok|].
      refine (proj2 (write_record_triple (receipt_location r) (launch_receipt_of r job)
        (fun _ => True) Hok eq_refl Hv _ w (Ok tt) w' I E) eq_refl).
      intros v res v' _ Ev. exact (write_immutable_grows (receipt_location r) _ v res v' Hok eq_refl (fun _ => I) Ev).
    + intros []. apply triple_ret. intros w Hl j [= <-]. by apply Hl.
    + done.
  - done.
Qed.

Lemma existing_launch_triple r namespace labels :
  triple (fun _ => True) (_existing_controller_launch r namespace labels)
    (fun res w => forall job, res = Ok (Some job) -> launched r job w).
Proof.
  unfold _existing_controller_launch.
  eapply triple_bind; [apply (read_record_triple ControllerLaunchReceipt (receipt_location r)); [done|]| |done].
  { intros p Hp. by apply launch_receipt_path_ok in Hp. }
  intros [x|].
  - destruct (_validated_launch_receipt x r) as [job|e] eqn:Ex.
    + apply validated_receipt in Ex as ->. intros w res w' Hx [= <- <-]. split; [apply grows_refl|].
      intros j [= <-]. destruct (Hx _ eq_refl) as [Hok Hl]. by split.
    + intros w res w' Hx [= <- <-]. split; [apply grows_refl|done].
  - apply triple_any.
    eapply (triple_bind _ _ _ (fun _ _ => True)); [apply quiet_triple; [done|apply find_jobs_quiet]| |done].
    intros [|job jobs]; [by apply triple_ret|]. apply triple_any.
    eapply triple_bind; [apply record_launch_triple| |done].
    intros j. apply triple_ret. intros w Hj job' [= <-]. by apply Hj.
Qed.

Lemma start_job_quiet local command names : quiet (start_controller_job local command names).
Proof.
  apply quiet_bind; [intros w res w'; apply temporary_file_law|]. intros path.
  apply quiet_bind; [apply quiet_lift|]. intros runtime.
  apply quiet_bind.
  - intros w res w' E. unfold hub_try in E. destruct (run_text runtime w) as [x w1] eqn:Er.
    injection E as <- <-. by eapply run_text_law.
  - intros [o|[]]; apply quiet_lift.
Qed.

Lemma run_launch_triple local r namespace labels command names :
  triple (fun _ => True) (_run_controller_launch local r namespace labels command names) (launches r).
Proof.
  unfold _run_controller_launch.
  assert (Hadopt : forall e, triple (fun _ => True)
    (do adopted <- _find_controller_jobs namespace labels;;
     match adopted with [] => hub_raise e | job_id :: _ => _record_controller_launch r job_id end)
    (launches r)).
  { intros e. eapply (triple_bind _ _ _ (fun _ _ => True));
      [apply quiet_triple; [done|apply find_jobs_quiet]| |done].
    intros [|job jobs]; [by apply triple_raise|]. apply record_launch_triple. }
  eapply (triple_bind _ _ _ (fun _ _ => True)); [apply quiet_triple; [done|apply start_job_quiet]| |done].
  intros [output|e]; [|apply Hadopt].
  destruct (_JOB_ID_search output); [apply record_launch_triple|apply Hadopt].
Qed.

(** Whatever way a launch returns, its Job is the recorded one. *)
Lemma launch_triple local namespace labels command names r :
  triple (fun _ => True) (_launch_or_adopt_controller local namespace labels command names r) (launches r).
Proof.
  unfold _launch_or_adopt_controller.
  eapply triple_bind; [apply existing_launch_triple| |done].
  intros [job|].
  { apply triple_ret. intros w Hl j [= <-]. by apply Hl. }
  apply triple_any.
  eapply (triple_bind _ _ _ (fun _ _ => True)); [apply quiet_triple; [done|intros w res w'; apply utc_now_law]| |done].
  intros now.
  eapply (triple_bind _ _ _ (fun _ _ => True));
    [apply quiet_triple; [done|intros w res w'; apply new_identifier_law]| |done].
  intros launcher. set (claim := launch_claim_of r launcher now).
  destruct (ControllerLaunchClaim_valid claim) eqn:Hv.
  2: { intros w res w' _ [= <- <-]. split; [apply grows_refl|done]. }
  eapply (triple_bind _ _ _ (fun _ _ => True)); [by apply triple_lift| |done]. intros [].
  eapply (triple_bind _ _ _ (fun _ _ => True)).
  { apply quiet_triple; [done|]. intros w res w' E. unfold hub_try in E.
    destruct (acquire_launch claim w) as [x w1] eqn:Ea. injection E as <- <-.
    by apply (run_op_grows (OpAcquireLaunch claim) w x w1). }
  2: done.
  intros [[]|e].
  - eapply triple_bind; [apply existing_launch_triple| |done].
    intros adopted.
    eapply (triple_bind _ _ _ (launches r)).
    + destruct adopted as [job|].
      * apply triple_ret. intros w Hl j [= <-]. by apply Hl.
      * apply triple_any, run_launch_triple.
    + intros job. eapply (triple_bind _ _ _ (fun _ => launched r job)).
      * apply (triple_weaken (launched r job) _ _ (fun _ => launched r job)); [|auto|auto].
        apply quiet_triple; [apply launched_stable|]. intros w res w' E.
        by apply (run_op_grows (OpReleaseLaunch claim) w res w').
      * intros []. apply triple_ret. intros w Hl j [= <-]. done.
      * done.
    + done.
  - destruct e; try (by apply triple_raise).
    eapply triple_bind; [apply existing_launch_triple| |done].
    intros [job|]; [|by apply triple_raise].
    apply triple_ret. intros w Hl j [= <-]. by apply Hl.
Qed.
End facts.

(** ** Facts about the watchdog: what it leaves alone, and what a recovery
    records. *)
Section facts.
Context {MC : PydanticModel ControllerClaim} {PC : PydanticLaws ControllerClaim ControllerClaim_valid}
  {MS : PydanticModel ControllerStatus} {PS : PydanticLaws ControllerStatus ControllerStatus_valid}
  {ML : PydanticModel ControllerLaunchClaim}
  {PL : PydanticLaws ControllerLaunchClaim ControllerLaunchClaim_valid}
  {MP : PydanticModel ProviderCapacityClaim}
  {PP : PydanticLaws ProviderCapacityClaim ProviderCapacityClaim_valid}
  {MR : PydanticModel ControllerLaunchReceipt}
  {PR : PydanticLaws ControllerLaunchReceipt ControllerLaunchReceipt_valid}
  {MAT : PydanticModel ControllerAttemptReservation}
  {PAT : PydanticLaws ControllerAttemptReservation ControllerAttemptReservation_valid}
  {MRD : PydanticModel ControllerRecoveryDecision}
  {PRD : PydanticLaws ControllerRecoveryDecision ControllerRecoveryDecision_valid}
  {MST : PydanticModel ControllerStartedReceipt} {MEN : PydanticModel ControllerEndedReceipt}
  {MCL : PydanticModel CampaignLock}.
Context {W : Type} {API : HubApi W} {LAWS : HubLaws W controller_step} {JOBS : JobsApi W}
  {JLAWS : JobsLaws W}.

(** ** Reading only *)
Lemma quiet_ret {A} (x : A) : quiet (hub_ret x).
Proof. apply (quiet_lift (Ok x)). Qed.

Lemma quiet_raise {A} e : quiet (hub_raise (A := A) e).
Proof. apply (quiet_lift (Err e)). Qed.

Lemma quiet_at_head {A} missing (k : string -> hub W A) :
  (forall r, reads (k r) r any_result) -> quiet (hub_bind (hub_head missing) k).
Proof.
  intros Hk w res w' (h & w1 & Eh & E)%hub_bind_inv. destruct (hub_head_law _ _ _ _ Eh) as [Hg Hh].
  destruct h as [h|e]; [|by destruct E as [_ ->]]. destruct (Hh h eq_refl) as (t & k0 & Ht & _).
  destruct (Hk h _ _ _ _ Ht E) as [Hg2 _]. by eapply grows_trans.
Qed.

Lemma reads_optional_any {A} `{PydanticModel A} (path : result string) r :
  reads (do p <- hub_lift path;; _read_optional A p r) r any_result.
Proof.
  apply reads_bind_any; [by apply reads_lift|]. intros p. eapply reads_any, reads_optional.
Qed.

Lemma read_provider_quiet p : quiet (read_provider_capacity p).
Proof. apply quiet_at_head. intros r. apply reads_optional_any. Qed.

Lemma read_status_quiet c : quiet (read_status c).
Proof. apply quiet_at_head. intros r. apply reads_optional_any. Qed.

Lemma read_claim_quiet c : quiet (read_claim c).
Proof. apply quiet_at_head. intros r. apply reads_optional_any. Qed.

Lemma load_snapshot_quiet event_validate c : quiet (load_snapshot event_validate c).
Proof.
  apply quiet_at_head. intros r. apply reads_bind_any; [eapply reads_any, reads_json|].
  intros j. apply reads_bind_any; [by apply reads_lift|]. intros lock.
  apply reads_bind_any; [apply reads_load_events|]. intros events.
  apply reads_bind_any; [eapply reads_any, reads_bytes|]. intros d. by apply reads_value.
Qed.

Lemma foldM_quiet {A S} (f : S -> A -> hub W S) l s : (forall s x, quiet (f s x)) -> quiet (hub_foldM f s l).
Proof.
  intros Hf. revert s. induction l as [|x l IH]; intros s; [apply quiet_ret|].
  apply quiet_bind; [apply Hf|apply IH].
Qed.

Lemma release_capacity_quiet lock jobs : quiet (_release_abandoned_provider_capacity lock jobs).
Proof.
  apply foldM_quiet. intros u provider. apply quiet_bind; [apply read_provider_quiet|].
  intros claim. destruct (_capacity_is_abandoned _ _ _); [|apply quiet_ret].
  destruct claim as [c|]; [|apply quiet_raise]. intros w res w' E.
  by apply (run_op_grows (OpReleaseCapacity c) w res w').
Qed.

Lemma controller_jobs_quiet lock namespace : quiet (_controller_jobs lock namespace).
Proof.
  unfold _controller_jobs. destruct (String.eqb namespace ""); [apply quiet_raise|].
  apply quiet_bind; [intros w res w'; apply list_jobs_law|]. intros resources.
  apply quiet_bind; [apply quiet_lift|]. intros jobs. apply quiet_ret.
Qed.

Lemma read_attempt_triple c n :
  triple (fun _ => True) (read_attempt c n)
    (fun res w => forall x, res = Ok (Some x) ->
       location_ok (LAttempt c n) = true /\ latest (recorded (LAttempt c n) x) w).
Proof.
  unfold read_attempt. destruct (n <? 1); [by apply triple_ret|].
  apply read_record_triple; [done|]. intros p. apply attempt_path_ok.
Qed.

Lemma read_recovery_quiet c n : quiet (read_recovery c n).
Proof. apply quiet_at_head. intros r. apply reads_optional_any. Qed.

(** ** What a recovery records *)
Lemma write_recovery_triple d :
  ControllerRecoveryDecision_valid d = true ->
  let l := LRecovery (rd_campaign_id d) (rd_replacement_attempt d) in
  triple (fun _ => True) (write_recovery d)
    (fun res w => res = Ok tt -> location_ok l = true /\ latest (recorded l d) w).
Proof.
  intros Hv l w res w' _ E.
  pose proof (run_op_grows (OpWriteRecovery d) w res w' eq_refl E) as Hg. split; [exact Hg|]. intros ->.
  unfold write_recovery in E. apply hub_bind_inv in E as (p & w1 & Ep & E). unfold hub_lift in Ep.
  injection Ep as <- <-. destruct (controller_recovery_path _ _) as [p|e] eqn:Ep; [|by destruct E].
  apply recovery_path_ok in Ep as [Hok ->]. split; [exact Hok|].
  refine (proj2 (write_record_triple l d (fun _ => True) Hok eq_refl Hv _ w (Ok tt) w' I E) eq_refl).
  intros v res v' _ Ev. exact (write_immutable_grows l _ v res v' Hok eq_refl (fun _ => I) Ev).
Qed.

Lemma reserve_attempt_triple r :
  ControllerAttemptReservation_valid r = true ->
  let l := LAttempt (at_campaign_id r) (at_attempt r) in
  triple (fun _ => True) (reserve_attempt r)
    (fun res w => res = Ok tt -> location_ok l = true /\ latest (recorded l r) w).
Proof.
  intros Hv l w res w' _ E.
  pose proof (reserve_attempt_grows _ _ _ _ E) as Hg. split; [exact Hg|]. intros ->.
  unfold reserve_attempt in E. apply hub_bind_inv in E as (o & w1 & Er & E).
  destruct (read_attempt_grows _ _ _ _ _ Er) as [_ Hpred]. destruct o as [o|e]; [|by destruct E].
  destruct (_ && _) eqn:Ec; [done|].
  apply hub_bind_inv in E as (p & w2 & Ep & E). unfold hub_lift in Ep.
  injection Ep as <- <-. destruct (controller_attempt_path _ (at_attempt r)) as [p|e] eqn:Ep; [|by destruct E].
  apply attempt_path_ok in Ep as [Hok ->]. split; [exact Hok|].
  destruct (Z.ltb_spec 1 (at_attempt r)) as [Hn|Hn].
  - destruct o as [x|]; [|done].
    refine (proj2 (write_record_triple l r (has_predecessor (at_campaign_id r) (at_attempt r))
      Hok eq_refl Hv _ w1 (Ok tt) w' _ E) eq_refl).
    + intros v res v' Hp Ev. exact (write_attempt_grows r v res v' Hok Hn Hp Ev).
    + destruct (Hpred x eq_refl) as [_ Hp]. exact Hp.
  - refine (proj2 (write_record_triple l r (fun _ => True) Hok eq_refl Hv _ w1 (Ok tt) w' I E) eq_refl).
    intros v res v' _ Ev. refine (write_immutable_grows l _ v res v' Hok eq_refl _ Ev).
    intros t Hlt. lia.
Qed.

(** A status that was read was that of the newest tree at some moment of the
    reading. *)
Lemma read_status_ok c w status w' :
  read_status c w = (Ok (Some status), w') ->
  exists t k, extends controller_step (main w) (t :: k) /\ extends controller_step (t :: k) (main w') /\
    recorded (LStatus c) status t.
Proof.
  intros (h & w1 & Eh & E)%hub_bind_inv. destruct (hub_head_law _ _ _ _ Eh) as [_ Hh].
  destruct h as [h|e]; [|by destruct E]. destruct (Hh h eq_refl) as (t & k & Ht & He1 & He2).
  apply hub_bind_inv in E as (p & w2 & Ep & E). unfold hub_lift in Ep. injection Ep as <- <-.
  destruct (controller_status_path c) as [p|e] eqn:Ep; [|by destruct E]. apply status_path_ok in Ep as [_ ->].
  destruct (reads_optional _ _ _ _ _ _ _ Ht E) as [Hg Hr]. exists t, k.
  split; [exact He1|]. split; [|exact Hr]. destruct Hg as [_ Hext]. by eapply extends_trans.
Qed.

(** Where the decision and the reservation of a recovery come from: the decision
    had been recorded by an earlier run of the watchdog, or it names the commit
    of the snapshot, and its time is that of a reservation that had been recorded,
    or was read off the clock. *)
Definition decision_origin (campaign : string) (snapshot : CampaignSnapshot) (n : Z)
    (recovery : ControllerRecoveryDecision) (replacement : ControllerAttemptReservation) (w w' : W) : Prop :=
  exists existing w1 w2, grows w w1 /\ read_recovery campaign n w1 = (Ok existing, w2) /\ grows w2 w' /\
    match existing with
    | Some r => r = recovery
    | None =>
        rd_checkpoint_revision recovery = snap_control_commit snapshot /\
        exists reserved w3, read_attempt campaign n w2 = (Ok reserved, w3) /\
          match reserved with
          | Some r => r = replacement
          | None => exists w4, utc_now w3 = (Ok (rd_decided_at recovery), w4)
          end
    end.

(** The newest tree records the decision, the next attempt and its Job; the next
    attempt has the launch contract that is recorded for the prior one. *)
Definition recovered (campaign : string) (snapshot : CampaignSnapshot) (status : ControllerStatus) (n : Z)
    (sub : CampaignControllerSubmission) (w w' : W) : Prop :=
  exists prior checkpoint recorded_at job,
    let recovery := recovery_decision campaign (snap_lock snapshot) status n checkpoint recorded_at in
    let replacement := replacement_reservation prior n recorded_at in
    latest (recorded (LAttempt campaign (cs_attempt status)) prior) w' /\
    decision_origin campaign snapshot n recovery replacement w w' /\
    latest (recorded (LRecovery campaign n) recovery) w' /\
    latest (recorded (LAttempt (at_campaign_id prior) n) replacement) w' /\
    launched replacement job w' /\ sub_job_id sub = Some job /\ sub_attempt sub = n.

(** A later step keeps what is already recorded. *)
Lemma triple_after {A} (I : W -> Prop) (m : hub W A) (Q : result A -> W -> Prop) :
  stable I -> triple (fun _ => True) m Q -> triple I m (fun res w => I w /\ Q res w).
Proof.
  intros Hs Hm. eapply triple_weaken; [by apply (triple_frame I)|by split|done].
Qed.

Lemma launch_reserved_triple local lock spec r :
  triple (fun _ => True) (launch_reserved_campaign_controller local lock spec r)
    (fun res w => forall sub, res = Ok sub ->
       exists job, launched r job w /\ sub_job_id sub = Some job /\ sub_attempt sub = at_attempt r).
Proof.
  unfold launch_reserved_campaign_controller. destruct (spec_remote spec) as [remote|]; [|by apply triple_raise].
  eapply (triple_bind _ _ _ (fun _ _ => True)); [by apply triple_lift| |done]. intros names.
  eapply (triple_bind _ _ _ (fun _ _ => True)); [by apply triple_lift| |done]. intros values.
  destruct (_ || _); [by apply triple_raise|].
  eapply (triple_bind _ _ _ (fun _ _ => True)); [by apply triple_lift| |done]. intros command.
  eapply triple_bind; [apply launch_triple| |done]. intros job.
  eapply (triple_bind _ _ _ (fun _ => launched r job)).
  - apply triple_lift. intros w Hl. by apply Hl.
  - intros path. apply triple_ret. intros w Hl sub [= <-]. by exists job.
  - done.
Qed.

(** The last steps of a recovery record what they are given. *)
Lemma record_recovery_triple local lock spec recovery replacement :
  ControllerRecoveryDecision_valid recovery = true -> ControllerAttemptReservation_valid replacement = true ->
  let lr := LRecovery (rd_campaign_id recovery) (rd_replacement_attempt recovery) in
  let la := LAttempt (at_campaign_id replacement) (at_attempt replacement) in
  triple (fun _ => True)
    (do _ <- write_recovery recovery;; do _ <- reserve_attempt replacement;;
     launch_reserved_campaign_controller local lock spec replacement)
    (fun res w => forall sub, res = Ok sub ->
       latest (recorded lr recovery) w /\ latest (recorded la replacement) w /\
       exists job, launched replacement job w /\ sub_job_id sub = Some job /\
         sub_attempt sub = at_attempt replacement).
Proof.
  intros Hv2 Hv1 lr la. eapply triple_bind; [apply (write_recovery_triple recovery Hv2)| |done]. intros [].
  set (I1 := fun w : W => location_ok lr = true /\ latest (recorded lr recovery) w).
  assert (Hs1 : stable I1).
  { intros w w' [Hok Hl] Hg. split; [done|]. by apply (recorded_stable lr recovery Hok eq_refl w). }
  eapply (triple_weaken I1); [|intros w Hw; by apply Hw|intros res w Hw; exact Hw].
  eapply triple_bind; [apply (triple_after I1 _ _ Hs1 (reserve_attempt_triple replacement Hv1))| |done].
  intros [].
  set (I2 := fun w : W => I1 w /\ location_ok la = true /\ latest (recorded la replacement) w).
  assert (Hs2 : stable I2).
  { intros w w' (F1 & Hok & Hl) Hg. split_and!; [by eapply Hs1|done|].
    by apply (recorded_stable la replacement Hok eq_refl w). }
  apply (triple_weaken I2 _ _ (fun res w => I2 w /\ forall sub, res = Ok sub ->
     exists job, launched replacement job w /\ sub_job_id sub = Some job /\
       sub_attempt sub = at_attempt replacement)).
  - apply (triple_after I2 _ _ Hs2 (launch_reserved_triple local lock spec replacement)).
  - intros w [F1 F2]. split; [done|]. by apply F2.
  - intros res w [[[_ F1] [_ F2]] F3] sub Hsub. split_and!; [done|done|by apply F3].
Qed.

Lemma read_recovery_grows c n w res w' : read_recovery c n w = (res, w') -> grows w w'.
Proof. apply read_recovery_quiet. Qed.

Lemma recover_controller_ok local campaign snapshot spec status n w sub w' :
  recover_controller local campaign snapshot spec status n w = (Ok sub, w') ->
  recovered campaign snapshot status n sub w w'.
Proof.
  unfold recover_controller. intros E. apply hub_bind_ok in E as (prior & w1 & E1 & E).
  destruct (read_attempt_triple _ _ _ _ _ I E1) as [G1 Hprior].
  destruct prior as [prior|]; [|done]. destruct (Hprior prior eq_refl) as [Hpok Hp].
  apply hub_bind_ok in E as (existing & w2 & E2 & E). pose proof (read_recovery_grows _ _ _ _ _ E2) as G2.
  apply hub_bind_ok in E as (reserved & w3 & E3 & E). destruct (read_attempt_triple _ _ _ _ _ I E3) as [G3 _].
  apply hub_bind_ok in E as (recorded_at & w4 & E4 & E). cbv zeta in E.
  assert (G4 : grows w3 w4).
  { destruct existing, reserved; [injection E4 as _ <-; apply grows_refl..|]. by eapply utc_now_law. }
  set (replacement := replacement_reservation prior n recorded_at) in E.
  destruct (ControllerAttemptReservation_valid replacement) eqn:Hv1; [|by apply hub_bind_ok in E as (? & ? & ? & _)].
  apply hub_bind_ok in E as (u1 & w5 & E5 & E). injection E5 as _ <-.
  set (checkpoint := match existing with Some r => rd_checkpoint_revision r
                                       | None => snap_control_commit snapshot end) in E.
  set (recovery := recovery_decision campaign (snap_lock snapshot) status n checkpoint recorded_at) in E.
  destruct (ControllerRecoveryDecision_valid recovery) eqn:Hv2; [|by apply hub_bind_ok in E as (? & ? & ? & _)].
  apply hub_bind_ok in E as (u2 & w6 & E6 & E). injection E6 as _ <-.
  match type of E with (if ?b then _ else _) _ = _ => destruct b eqn:Hc1; [done|] end.
  match type of E with (if ?b then _ else _) _ = _ => destruct b eqn:Hc2; [done|] end.
  destruct (record_recovery_triple _ _ _ _ _ Hv2 Hv1 _ _ _ I E) as [G5 Hrec].
  destruct (Hrec sub eq_refl) as (Hr & Ha & job & Hj & Hs1 & Hs2).
  assert (G35 : grows w2 w') by (do 2 (eapply grows_trans; [eassumption|]); done).
  exists prior, checkpoint, recorded_at, job. cbv zeta. split_and!; try done.
  - eapply (recorded_stable (LAttempt campaign (cs_attempt status)) prior Hpok eq_refl); [exact Hp|].
    by eapply grows_trans.
  - exists existing, w1, w2. split; [exact G1|]. split; [exact E2|]. split; [exact G35|].
    destruct existing as [r|].
    { by apply negb_false_iff, bool_decide_eq_true in Hc1. }
    split; [done|]. exists reserved, w3. split; [exact E3|]. destruct reserved as [r|].
    { by apply negb_false_iff, bool_decide_eq_true in Hc2. }
    by exists w4.
Qed.
End facts.
