(* ===== verification/Admission.v ===== *)
(** Time admission and the campaign controller's decisions
    (src/src/harbor_hf/controller_admission.py, campaign_controller.py).

    [decide_remaining_time] admits provider work only when it fits the physical
    deadline with the reserve; [assess_observed_capacity] checks the locked
    duration bound against observed throughput.  From campaign_controller.py
    the file has the decisions of one iteration: whether an action is admitted,
    what the status report says, the provider capacity claim, and how the
    iteration ends.  Clocks, timeouts and published durations are arguments. *)
From Stdlib Require Import Floats.SpecFloat.
From S2P Require Import Prelude.
From S2P Require Import PyDict.
From S2P Require Import Campaigns.
From S2P Require Import Control.
From S2P Require Import Recovery.
From S2P Require Import Reconciler.
From S2P Require Import Hub.
From S2P Require Import ControllerStatus.
From S2P Require Import Float64.

(** ** Remaining time *)
Inductive AdmissionDecision :=
  | decision_admit | decision_wait | decision_finalize
  | decision_pause_capacity | decision_pause_policy.

#[export] Instance AdmissionDecision_eq_dec : EqDecision AdmissionDecision.
Proof. solve_decision. Defined.

Record RemainingTimeInput := {
  rt_physical_started_monotonic : spec_float;
  rt_physical_timeout_seconds : Z;
  rt_monotonic_now : spec_float;
  rt_controller_reserve_seconds : Z;
  rt_planned_next_wave_seconds : option Z;
  rt_work_remaining : bool;
  rt_active_cleanup_required : bool;
  rt_capacity_assumptions_valid : bool;
  rt_policy_allows_work : bool;
}.

Definition RemainingTimeInput_valid (v : RemainingTimeInput) : bool :=
  float_nonneg (rt_physical_started_monotonic v) && (1 <=? rt_physical_timeout_seconds v) &&
  float_nonneg (rt_monotonic_now v) && (1 <=? rt_controller_reserve_seconds v) &&
  match rt_planned_next_wave_seconds v with Some s => 1 <=? s | None => true end &&
  negb (float_ltb (rt_monotonic_now v) (rt_physical_started_monotonic v)) &&
  Bool.eqb (rt_work_remaining v) (is_some (rt_planned_next_wave_seconds v)).

Record RemainingTimeAdmission := {
  rta_decision : AdmissionDecision;
  rta_elapsed_seconds : Z;
  rta_available_seconds : Z;
  rta_required_seconds : Z;
  rta_reason : string;
}.

(** [_decision] *)
Definition _time_decision (decision : AdmissionDecision) (elapsed available required : Z)
    (reason : string) : result RemainingTimeAdmission :=
  raise_if negb ((0 <=? elapsed) && (0 <=? available) && (0 <=? required))
    with ValidationError "RemainingTimeAdmission";;
  Ok {|
    rta_decision := decision;
    rta_elapsed_seconds := elapsed;
    rta_available_seconds := available;
    rta_required_seconds := required;
    rta_reason := reason;
  |}.

(** [decide_remaining_time] *)
Definition decide_remaining_time (value : RemainingTimeInput) : result RemainingTimeAdmission :=
  let* difference :=
    float_int (float_sub (rt_monotonic_now value) (rt_physical_started_monotonic value)) in
  let elapsed := Z.max 0 difference in
  let available := Z.max 0 (rt_physical_timeout_seconds value - elapsed) in
  let next_wave := or_zero (rt_planned_next_wave_seconds value) in
  let required := rt_controller_reserve_seconds value + next_wave in
  if negb (rt_policy_allows_work value)
  then _time_decision decision_pause_policy elapsed available required "policy block"
  else if negb (rt_capacity_assumptions_valid value)
  then _time_decision decision_pause_capacity elapsed available required
         "observed throughput invalidated the locked duration bound"
  else if rt_active_cleanup_required value
  then _time_decision decision_wait elapsed available (rt_controller_reserve_seconds value)
         "active cleanup must finish before new work"
  else if negb (rt_work_remaining value)
  then _time_decision decision_finalize elapsed available (rt_controller_reserve_seconds value)
         "no billable work remains"
  else if required <=? available
  then _time_decision decision_admit elapsed available required
         "next wave fits the physical deadline"
  else _time_decision decision_pause_capacity elapsed available required
         "next wave does not fit the physical deadline with reserve".

(** ** Observed capacity *)
Definition quantile_50 : spec_float := S754_finite false 4503599627370496 (-53).
Definition quantile_95 : spec_float := S754_finite false 8556839292003942 (-53).

(** [ordered[index]]: a negative index counts from the end. *)
Definition list_index {A} (l : list A) (index : Z) : result A :=
  let i := if index <? 0 then index + len l else index in
  match (if i <? 0 then None else nth_error l (Z.to_nat i)) with
  | Some x => Ok x
  | None => Err IndexError
  end.

(** [_nearest_rank] *)
Definition _nearest_rank (ordered : list spec_float) (quantile : spec_float) : result spec_float :=
  let* product := float_mul_int (len ordered) quantile in
  let* rank := float_ceil product in
  list_index ordered (Z.max 0 (rank - 1)).

(** [assess_observed_capacity] *)
Definition assess_observed_capacity (durations_seconds : list spec_float)
    (elapsed_seconds effective_concurrency remaining_trials remaining_waves available_seconds : Z)
    (policy : CampaignControllerSpec) : result (option ControllerCapacityEvidence) :=
  if is_nil durations_seconds then Ok None
  else
  raise_if existsb (fun d => float_ltb d float_zero || negb (float_is_finite d)) durations_seconds ||
           (effective_concurrency <? 1) || (remaining_trials <? 0) || (remaining_waves <? 0) ||
           (available_seconds <? 0)
    with ValueError "controller capacity evidence is invalid";;
  let ordered := sort_by float_leb durations_seconds in
  let* p50 := _nearest_rank ordered quantile_50 in
  let* p95 := _nearest_rank ordered quantile_95 in
  let* maximum := list_index ordered (-1) in
  let batches := if remaining_trials =? 0 then 0
                 else (remaining_trials + effective_concurrency - 1) / effective_concurrency in
  let* headroom := float_of_decimal (headroom_factor policy) in
  let* batch_seconds := float_mul_int batches p95 in
  let* projected_trial_seconds := float_ceil (float_mul batch_seconds headroom) in
  let projected := projected_trial_seconds + remaining_waves * wave_reserve_seconds policy +
                   controller_reserve_seconds policy in
  let* observed_bound := float_mul_int (planning_trial_seconds policy) headroom in
  let valid := float_leb p95 observed_bound && (projected <=? available_seconds) in
  let evidence := {|
    ce_completed_trial_count := len ordered;
    ce_elapsed_seconds := elapsed_seconds;
    ce_observed_effective_concurrency := effective_concurrency;
    ce_p50_trial_seconds := p50;
    ce_p95_trial_seconds := p95;
    ce_maximum_trial_seconds := maximum;
    ce_remaining_trials := remaining_trials;
    ce_projected_remaining_seconds := projected;
    ce_available_seconds := available_seconds;
    ce_assumptions_valid := valid;
  |} in
  raise_if negb (ControllerCapacityEvidence_valid evidence)
    with ValidationError "ControllerCapacityEvidence";;
  Ok (Some evidence).

(** ** The controller *)

(** [_published_execution_durations] reads events.jsonl files; this is the part
    that computes: the time from the first start to the last end, in seconds. *)
Definition _execution_duration (events : list (string * Z)) : result (option spec_float) :=
  let starts := map snd (List.filter (fun e => String.eqb e.1 "execution_started") events) in
  let ends := map snd (List.filter (fun e => str_mem e.1 ["execution_succeeded"; "execution_failed"])
                         events) in
  match starts, ends with
  | [], _ | _, [] => Ok None
  | start :: _, end0 :: rest =>
      let* duration := float_of_ratio (List.last rest end0 - start) 1000000 in
      raise_if float_ltb duration float_zero
        with ValueError "execution evidence time moved backwards";;
      Ok (Some duration)
  end.

Definition trial_is_done (t : TrialProjection) : bool :=
  match tr_status t with
  | trial_s_complete | trial_s_invalid | trial_s_failed_infrastructure | trial_s_cancelled => true
  | _ => false
  end.

(** [CampaignController._capacity_evidence]; [timeout] is the Job's timeout. *)
Definition _capacity_evidence (lock : CampaignLock) (projection : RecoveryProjection)
    (durations : list spec_float) (timeout : Z) (started_monotonic monotonic : spec_float)
    : result (option ControllerCapacityEvidence) :=
  match controller_policy lock, initial_waves lock with
  | None, _ | _, [] => Ok None
  | Some policy, wave :: waves =>
      let* difference := float_int (float_sub monotonic started_monotonic) in
      let elapsed := Z.max 0 difference in
      let remaining := count_if (fun t => negb (trial_is_done t)) (dict_values (rp_trials projection)) in
      let wave_capacity := foldl Z.max (lw_trial_count wave) (map lw_trial_count waves) in
      let remaining_waves := if remaining =? 0 then 0
                             else (remaining + wave_capacity - 1) / wave_capacity in
      assess_observed_capacity durations elapsed
        (min_list (lw_effective_concurrency wave) (map lw_effective_concurrency waves))
        remaining remaining_waves (Z.max 0 (timeout - elapsed)) policy
  end.

(** [_planned_action_seconds] *)
Definition _planned_action_seconds (lock : CampaignLock) (action : ReconcileAction) : result Z :=
  raise_if negb (is_billable (act_kind action))
    with CampaignControllerError "action is not billable provider work";;
  let action_kind := if bool_decide (act_kind action = submit_wave) then wave_submit else wave_retry in
  match locked_provider_action_seconds lock action_kind (act_deployment_digest action)
          (act_shard_ids action) (len (act_trial_ids action)) with
  | Err (ValueError message) => Err (CampaignControllerError message)
  | r => r
  end.

Inductive action_admission :=
  | action_admitted | action_waits | action_finalizes
  | action_paused_capacity | action_paused_policy.

(** [CampaignController._admit_action] *)
Definition _admit_action (lock : CampaignLock) (action : option ReconcileAction)
    (timeout : Z) (started_monotonic monotonic : spec_float)
    (capacity : option ControllerCapacityEvidence) : result action_admission :=
  match action with
  | None => Ok action_finalizes
  | Some action =>
      if negb (is_billable (act_kind action)) then Ok action_admitted
      else
      let* planned_seconds := _planned_action_seconds lock action in
      match controller_policy lock with
      | None => Err (CampaignControllerError "provider action has no controller policy")
      | Some policy =>
          let value := {|
            rt_physical_started_monotonic := started_monotonic;
            rt_physical_timeout_seconds := timeout;
            rt_monotonic_now := monotonic;
            rt_controller_reserve_seconds := controller_reserve_seconds policy;
            rt_planned_next_wave_seconds := Some planned_seconds;
            rt_work_remaining := true;
            rt_active_cleanup_required := false;
            rt_capacity_assumptions_valid :=
              match capacity with None => true | Some e => ce_assumptions_valid e end;
            rt_policy_allows_work := true;
          |} in
          raise_if negb (RemainingTimeInput_valid value) with ValidationError "RemainingTimeInput";;
          let* decision := decide_remaining_time value in
          Ok match rta_decision decision with
             | decision_pause_capacity => action_paused_capacity
             | decision_pause_policy => action_paused_policy
             | decision_admit => action_admitted
             | decision_wait => action_waits
             | decision_finalize => action_finalizes
             end
      end
  end.

(** [_projection_counts] *)
Definition _projection_counts (projection : RecoveryProjection) : result ControllerProjectionCounts :=
  let trials := dict_values (rp_trials projection) in
  let counts := {|
    pc_logical_trials := len trials;
    pc_terminal_trials := count_if trial_is_done trials;
    pc_active_trials := count_if (fun t => bool_decide (tr_status t = trial_s_active)) trials;
    pc_physical_executions := len (rp_executions projection);
  |} in
  raise_if negb (ControllerProjectionCounts_valid counts)
    with ValidationError "ControllerProjectionCounts";;
  Ok counts.

(** [_terminal_controller_state] *)
Definition _terminal_controller_state (projection : RecoveryProjection) : option ControllerState :=
  match proj_status (rp_campaign projection) with
  | campaign_status_completed | campaign_status_cancelled => Some controller_completed
  | campaign_status_partial | campaign_status_failed => Some controller_failed_deterministic
  | _ => None
  end.

(** [_action_state] *)
Definition _action_state (action : option ReconcileAction) : ControllerState :=
  match action with
  | None => controller_finalizing
  | Some action =>
      match act_kind action with
      | publish_results | publish_summary => controller_finalizing
      | _ => controller_running
      end
  end.

(** The status that [CampaignController._write_status] reports. *)
Definition _status_report (claim : ControllerClaim) (state : ControllerState)
    (projection : RecoveryProjection) (started_at now timeout : Z)
    (started_monotonic monotonic : spec_float) (action : option ReconcileAction)
    (block_reason : option string) (capacity : option ControllerCapacityEvidence)
    : result ControllerStatus :=
  let* difference := float_int (float_sub monotonic started_monotonic) in
  let elapsed := Z.max 0 difference in
  let* counts := _projection_counts projection in
  let status := {|
    cs_campaign_id := cc_campaign_id claim;
    cs_plan_digest := cc_plan_digest claim;
    cs_job_id := cc_job_id claim;
    cs_attempt := cc_attempt claim;
    cs_state := state;
    cs_heartbeat_at := Z.max now (cc_heartbeat_at claim);
    cs_lease_expires_at := Z.max (cc_expires_at claim) (now + seconds 1);
    cs_physical_deadline := started_at + seconds timeout;
    cs_remaining_seconds := Z.max 0 (timeout - elapsed);
    cs_projection := counts;
    cs_current_action := option_map ra_action_id action;
    cs_current_wave := match action with Some a => act_wave_id a | None => None end;
    cs_spend_reserved_microusd := rp_spend_microusd projection;
    cs_block_reason := block_reason;
    cs_event_revision := None;
    cs_evidence_revision := None;
    cs_capacity := capacity;
  |} in
  raise_if negb (ControllerStatus_valid status) with ValidationError "ControllerStatus";;
  Ok status.

(** [CampaignController._provider_capacity_claim] *)
Definition _provider_capacity_claim (owner : ControllerClaim) (action : option ReconcileAction)
    (now : Z) : result (option ProviderCapacityClaim) :=
  match action with
  | None => Ok None
  | Some action =>
      if negb (is_billable (act_kind action)) then Ok None
      else
      raise_if String.eqb (act_provider action) ""
        with CampaignControllerError "provider action has no capacity identity";;
      let claim := {|
        pcc_provider := act_provider action;
        pcc_campaign_id := cc_campaign_id owner;
        pcc_plan_digest := cc_plan_digest owner;
        pcc_job_id := cc_job_id owner;
        pcc_attempt := cc_attempt owner;
        pcc_action_id := ra_action_id action;
        pcc_acquired_at := now;
      |} in
      raise_if negb (ProviderCapacityClaim_valid claim) with ValidationError "ProviderCapacityClaim";;
      Ok (Some claim)
  end.

(** [_Heartbeat._run]: the claim one beat writes. *)
Definition _renewed_claim (previous : ControllerClaim) (now stale_after_seconds : Z)
    : ControllerClaim := {|
  cc_campaign_id := cc_campaign_id previous;
  cc_job_id := cc_job_id previous;
  cc_plan_digest := cc_plan_digest previous;
  cc_attempt := cc_attempt previous;
  cc_acquired_at := cc_acquired_at previous;
  cc_heartbeat_at := now;
  cc_expires_at := now + seconds stale_after_seconds;
|}.

(** The claim [CampaignController.run] acquires. *)
Definition _initial_claim (lock : CampaignLock) (policy : CampaignControllerSpec)
    (job_id : string) (attempt started_at : Z) : result ControllerClaim :=
  let claim := {|
    cc_campaign_id := campaign_id lock;
    cc_job_id := job_id;
    cc_plan_digest := plan_digest lock;
    cc_attempt := attempt;
    cc_acquired_at := started_at;
    cc_heartbeat_at := started_at;
    cc_expires_at := started_at + seconds (stale_after_seconds policy);
  |} in
  raise_if negb (ControllerClaim_valid claim) with ValidationError "ControllerClaim";;
  Ok claim.

Record _IterationResult := {
  it_state : ControllerState;
  it_finished : bool;
  it_message : option string;
}.

Definition block_reason_name (r : BlockReason) : string :=
  match r with
  | block_global_budget => "global-budget" | block_deployment_budget => "deployment-budget"
  | block_provider_budget => "provider-budget" | block_campaign_budget => "campaign-budget"
  | block_spend_cap => "spend-cap" | block_spend_estimate_missing => "spend-estimate-missing"
  | block_backoff => "backoff"
  end.

(** [_result_after_apply]; [applied] says whether an action was applied. *)
Definition _result_after_apply (applied : bool) (blocked : list BlockedAction)
    (state : ControllerState) : _IterationResult :=
  if applied then {| it_state := state; it_finished := false; it_message := None |}
  else
    let reasons := sorted_set (map (fun b => block_reason_name (ba_reason b)) blocked) in
    let policy_reasons := List.filter (fun r => negb (String.eqb r "backoff")) reasons in
    if negb (is_nil policy_reasons)
    then {| it_state := controller_paused_policy; it_finished := true;
            it_message := Some (str_join ", " policy_reasons) |}
    else {| it_state := controller_waiting_retry; it_finished := false; it_message := None |}.

(** [_run_iteration] after the observation was refreshed and the campaign was
    loaded: it finishes with a result, or goes on to apply the action.  The
    monotonic clock is read twice, for the capacity evidence and for admission. *)
Inductive iteration_plan :=
  | iteration_finishes (r : _IterationResult)
  | iteration_pauses (r : _IterationResult) (capacity : option ControllerCapacityEvidence)
  | iteration_applies (action : option ReconcileAction) (blocked : list BlockedAction)
      (capacity : option ControllerCapacityEvidence).

Definition iteration_context : ReconcileContext := {|
  limits := {|
    action_limit := 1;
    global_active_waves := global_active_waves default_limits;
    deployment_active_waves := deployment_active_waves default_limits;
    provider_active_waves := provider_active_waves default_limits;
    campaign_active_waves := campaign_active_waves default_limits;
  |};
  usage := default_usage;
  deployments := [];
|}.

Definition _plan_iteration (lock : CampaignLock) (events : list CampaignEvent)
    (stop_requested : bool) (durations : list spec_float) (now timeout : Z)
    (started_monotonic monotonic monotonic' : spec_float) : result iteration_plan :=
  let* '(projection, plan) := plan_reconciliation lock events iteration_context now in
  match _terminal_controller_state projection with
  | Some terminal => Ok (iteration_finishes {| it_state := terminal; it_finished := true;
                                               it_message := None |})
  | None =>
      if stop_requested
      then Ok (iteration_finishes {| it_state := controller_failed_infrastructure;
             it_finished := true; it_message := Some "controller received a termination signal" |})
      else
      let action := head (rpl_actions plan) in
      let* capacity := _capacity_evidence lock projection durations timeout started_monotonic monotonic in
      let* admission := _admit_action lock action timeout started_monotonic monotonic' capacity in
      let pause state := iteration_pauses {| it_state := state; it_finished := true;
        it_message := Some "controller admission stopped new work" |} capacity in
      Ok match admission with
         | action_paused_capacity => pause controller_paused_capacity
         | action_paused_policy => pause controller_paused_policy
         | _ => iteration_applies action (rpl_blocked plan) capacity
         end
  end.
