(* ===== verification/ControlFacts.v ===== *)
(** Facts about the campaign event log and the campaign state machine (Control.v).

    [ordered_events] is characterised completely: it depends on the set of
    events only, and returns that set in the order of observation.  The loop of
    [project_campaign] is then an invariant argument per property: terminal
    statuses absorb, cancellation is never undone, the manual-intervention
    status says exactly that a requirement is open, and a reserved action only
    moves forward. *)
From S2P Require Import Prelude.
From S2P Require Import PyDict.
From S2P Require Import Json.
From S2P Require Import Campaigns.
From S2P Require Import Control.

(** ** The order of events *)

(** No two different records share an identity. *)
Definition consistent (events : list CampaignEvent) : Prop :=
  forall x y, x ∈ events -> y ∈ events -> event_id x = event_id y -> x = y.

Lemma event_leb_total x y : event_leb x y = true \/ event_leb y x = true.
Proof.
  apply lex_leb_total; intros.
  - apply Z.eqb_eq.
  - rewrite !Z.leb_le. lia.
  - apply str_leb_total.
Qed.

Lemma event_leb_trans x y z :
  event_leb x y = true -> event_leb y z = true -> event_leb x z = true.
Proof.
  apply lex_leb_trans; intros *.
  - apply Z.eqb_eq.
  - rewrite !Z.leb_le. lia.
  - rewrite !Z.leb_le. lia.
  - apply str_leb_trans.
Qed.

Lemma event_leb_antisym x y :
  event_leb x y = true -> event_leb y x = true -> event_id x = event_id y.
Proof.
  intros H1 H2.
  enough ((observed_at x, event_id x) = (observed_at y, event_id y)) by congruence.
  revert H1 H2. apply lex_leb_antisym; intros *.
  - apply Z.eqb_eq.
  - rewrite !Z.leb_le. lia.
  - apply str_leb_antisym.
Qed.

(** The dictionary the loop builds: identities to events, all of them seen. *)
Definition unique_of (seen : list CampaignEvent) (unique : dict CampaignEvent) : Prop :=
  dict_wf unique /\ forall k e, dict_get unique k = Some e <-> (k = event_id e /\ e ∈ seen).

Lemma add_unique_event_ok seen unique e unique' :
  unique_of seen unique -> add_unique_event unique e = Ok unique' ->
  unique_of (seen ++ [e]) unique'.
Proof.
  intros [Hwf Hget] H. unfold add_unique_event in H.
  assert (unique' = dict_set unique (event_id e) e /\
          forall e', e' ∈ seen -> event_id e' = event_id e -> e' = e) as [-> Huniq].
  { destruct (dict_get unique (event_id e)) as [p|] eqn:E.
    - inv_ok. apply negb_false_iff, bool_decide_eq_true in Hc. subst p. split; [done|].
      intros e' He' Hid. assert (dict_get unique (event_id e') = Some e') by (by apply Hget).
      congruence.
    - inv_ok. split; [done|]. intros e' He' Hid.
      assert (dict_get unique (event_id e') = Some e') by (by apply Hget). congruence. }
  split; [by apply dict_wf_set|]. intros k e'. rewrite dict_get_set, elem_of_app, list_elem_of_singleton.
  destruct (String.eqb_spec (event_id e) k) as [<-|Hne]; rewrite ?Hget; naive_solver.
Qed.

Lemma add_unique_event_err seen unique e :
  unique_of seen unique ->
  match add_unique_event unique e with
  | Ok _ => True
  | Err x => x = ControlError "event ID has conflicting records" /\
             exists e', e' ∈ seen /\ event_id e' = event_id e /\ e' <> e
  end.
Proof.
  intros [Hwf Hget]. unfold add_unique_event.
  destruct (dict_get unique (event_id e)) as [p|] eqn:E; [|done].
  case_bool_decide as Hp; [done|]. cbn. split; [done|].
  apply Hget in E as [E1 E2]. eauto.
Qed.

Lemma unique_fold_ok l seen unique unique' :
  unique_of seen unique -> foldM add_unique_event unique l = Ok unique' ->
  unique_of (seen ++ l) unique'.
Proof.
  revert seen unique. induction l as [|e l IH]; intros seen unique H Hf; cbn in Hf; inv_ok.
  - by rewrite app_nil_r.
  - apply (IH (seen ++ [e])) in Hf; [by rewrite <- app_assoc in Hf|].
    by eapply add_unique_event_ok.
Qed.

Lemma unique_fold_err l seen unique x :
  unique_of seen unique -> foldM add_unique_event unique l = Err x ->
  x = ControlError "event ID has conflicting records" /\ ~ consistent (seen ++ l).
Proof.
  revert seen unique. induction l as [|e l IH]; intros seen unique H Hf; cbn in Hf; [done|].
  pose proof (add_unique_event_err seen unique e H) as He.
  destruct (add_unique_event unique e) as [u|y] eqn:E; cbn in Hf.
  - apply (IH (seen ++ [e])) in Hf; [|by eapply add_unique_event_ok].
    by rewrite <- app_assoc in Hf.
  - injection Hf as ->. destruct He as (-> & e' & He' & Hid & Hne). split; [done|].
    intros Hc. apply Hne, Hc; [set_solver..|done].
Qed.

Lemma unique_of_nil : unique_of [] [].
Proof. split; [constructor|]. intros k e. cbn. set_solver. Qed.

Lemma unique_of_consistent seen unique : unique_of seen unique -> consistent seen.
Proof.
  intros [_ H] x y Hx Hy Hid.
  assert (dict_get unique (event_id x) = Some x) by (by apply H).
  assert (dict_get unique (event_id y) = Some y) by (by apply H). congruence.
Qed.

(** An ordered event list: the set of [events] in order, each once. *)
Definition is_ordered (events l : list CampaignEvent) : Prop :=
  StronglySorted (fun x y => event_leb x y = true) l /\ NoDup (map event_id l) /\
  forall e, e ∈ l <-> e ∈ events.

Lemma is_ordered_values events unique :
  unique_of events unique -> is_ordered events (sort_by event_leb (dict_values unique)).
Proof.
  intros [Hwf Hget]. split_and!.
  - apply sort_by_sorted; [apply event_leb_total|apply event_leb_trans].
  - assert (map event_id (sort_by event_leb (dict_values unique)) ≡ₚ
            map event_id (dict_values unique)) as ->
      by (apply Permutation_map, sort_by_perm).
    apply dict_keyed_distinct. split; [done|]. intros k e. rewrite Hget. by intros [-> _].
  - intros e. rewrite sort_by_elem_of. rewrite dict_wf_values by done. split.
    + intros (k & Hk). by apply Hget in Hk as [_ ?].
    + intros He. exists (event_id e). by apply Hget.
Qed.

Lemma is_ordered_unique events l k : is_ordered events l -> is_ordered events k -> l = k.
Proof.
  intros (Hs & Hn & He) (Hs' & Hn' & He').
  eapply (sorted_unique event_leb).
  - intros x y Hx Hy H1 H2. eapply NoDup_map_inj; [exact Hn|done..|].
    by apply event_leb_antisym.
  - done.
  - done.
  - apply NoDup_Permutation; [by eapply NoDup_of_map..|]. intros e. by rewrite He, He'.
Qed.

Lemma ordered_events_ok events l : ordered_events events = Ok l -> is_ordered events l.
Proof.
  unfold ordered_events. intros H. inv_ok.
  apply is_ordered_values. apply (unique_fold_ok events [] []); [apply unique_of_nil|done].
Qed.

Lemma ordered_events_err events x :
  ordered_events events = Err x ->
  x = ControlError "event ID has conflicting records" /\ ~ consistent events.
Proof.
  unfold ordered_events. intros [H|(u & _ & [=])]%result_bind_Err.
  by apply (unique_fold_err events [] []) in H; [|apply unique_of_nil].
Qed.

Lemma is_ordered_consistent events l : is_ordered events l -> consistent events.
Proof.
  intros (_ & Hn & He) x y Hx Hy. apply (NoDup_map_inj event_id l); [done|by apply He..].
Qed.

Lemma ordered_events_iff events l : ordered_events events = Ok l <-> is_ordered events l.
Proof.
  split; [apply ordered_events_ok|]. intros H.
  destruct (ordered_events events) as [k|x] eqn:E.
  - apply ordered_events_ok in E. f_equal. by eapply is_ordered_unique.
  - apply ordered_events_err in E as [_ Hc]. destruct Hc. by eapply is_ordered_consistent.
Qed.

Lemma ordered_events_ext e1 e2 :
  (forall e, e ∈ e1 <-> e ∈ e2) -> ordered_events e1 = ordered_events e2.
Proof.
  intros Heq. destruct (ordered_events e1) as [l|x] eqn:E1.
  - apply ordered_events_iff in E1 as (Hs & Hn & He). symmetry. apply ordered_events_iff.
    split_and!; [done|done|]. intros e. by rewrite He.
  - apply ordered_events_err in E1 as [-> Hc].
    destruct (ordered_events e2) as [l|y] eqn:E2.
    + destruct Hc. apply ordered_events_ok, is_ordered_consistent in E2.
      intros x y Hx%Heq Hy%Heq. by apply E2.
    + by apply ordered_events_err in E2 as [-> _].
Qed.

Lemma ordered_events_elem events l e : ordered_events events = Ok l -> e ∈ l <-> e ∈ events.
Proof. intros (_ & _ & H)%ordered_events_ok. apply H. Qed.

(** Ordering an ordered list again changes nothing. *)
Lemma ordered_events_idemp events l : ordered_events events = Ok l -> ordered_events l = Ok l.
Proof.
  intros (Hs & Hn & He)%ordered_events_ok. apply ordered_events_iff. by split_and!.
Qed.

(** ** One step of the campaign loop *)
Lemma campaign_loop_step_inv lock st e st' :
  campaign_loop_step lock st e = Ok st' ->
  campaign_status_is_terminal (loop_status st) = false /\
  ((subject_type e <> subject_campaign /\ st' = st) \/
   (subject_type e = subject_campaign /\ subject_id e = campaign_id lock /\
    let before := _manual_return_status e (loop_status st) (loop_before_manual st) in
    let reqs := loop_requirements st' in
    _update_manual_requirements e (loop_requirements st) = Ok reqs /\
    _apply_event lock e (loop_status st) (loop_actions st) before (negb (is_nil reqs)) =
      Ok (loop_status st', loop_actions st') /\
    loop_before_manual st' =
      if _manual_intervention_fully_resolved e reqs then None else before)).
Proof.
  unfold campaign_loop_step. intros H. inv_ok. split; [done|].
  case_bool_decide as Hs; cbn in H; [|inv_ok; by left].
  right. inv_ok. destruct v0 as [s a]. inv_ok. cbn in *.
  split_and!; try done. revert Hv0. unfold _apply_event. rewrite (bool_decide_true _ Hs). cbn.
  destruct (String.eqb_spec (subject_id e) (campaign_id lock)); done.
Qed.

(** The kinds that reach the action table. *)
Definition is_action_like (k : EventKind) : bool :=
  match k with
  | campaign_submitted | campaign_cancel_requested | campaign_shard_retry_requested
  | campaign_draining | campaign_manual_intervention_required
  | campaign_manual_intervention_resolved | campaign_completed | campaign_partial
  | campaign_failed | campaign_cancelled => false
  | _ => true
  end.

Lemma apply_event_action lock e status actions before remaining :
  is_action_like (kind e) = true -> subject_type e = subject_campaign ->
  subject_id e = campaign_id lock ->
  _apply_event lock e status actions before remaining =
    let* actions' := _apply_action_event e actions in
    Ok (if bool_decide (status = campaign_status_queued) then campaign_status_active else status,
        actions').
Proof.
  intros Hk Hs Hi. unfold _apply_event. rewrite (bool_decide_true _ Hs), Hi, String.eqb_refl.
  cbn. by destruct (kind e).
Qed.

(** The new status of a step, by the kind of the event. *)
Definition next_status (k : EventKind) (status : CampaignStatus) (before : option CampaignStatus)
    (remaining : bool) : CampaignStatus :=
  match k with
  | campaign_cancel_requested =>
      match status with
      | campaign_status_draining | campaign_status_manual_intervention => status
      | _ => campaign_status_cancel_requested
      end
  | campaign_draining =>
      match status with
      | campaign_status_manual_intervention => status
      | _ => campaign_status_draining
      end
  | campaign_manual_intervention_required => campaign_status_manual_intervention
  | campaign_manual_intervention_resolved =>
      if remaining then campaign_status_manual_intervention
      else match before with
           | Some campaign_status_cancel_requested => campaign_status_cancel_requested
           | Some campaign_status_draining => campaign_status_draining
           | _ => campaign_status_active
           end
  | k =>
      match campaign_status_of_kind k with
      | Some terminal => terminal
      | None => match status with campaign_status_queued => campaign_status_active | s => s end
      end
  end.

Lemma apply_event_status lock e status actions before remaining status' actions' :
  _apply_event lock e status actions before remaining = Ok (status', actions') ->
  status' = next_status (kind e) status before remaining /\
  kind e <> campaign_submitted /\
  (kind e = campaign_manual_intervention_resolved -> remaining = false ->
   status = campaign_status_manual_intervention).
Proof.
  unfold _apply_event, _apply_operator_request, _apply_manual_lifecycle_event,
    _resolve_manual_intervention. intros H. inv_ok.
  destruct (kind e) eqn:Hk; bd_const; cbn in H; inv_ok; cbn in *; simplify_eq;
    try (split; [by destruct status|done]).
  destruct remaining; inv_ok; [done|].
  apply negb_false_iff, bool_decide_eq_true in Hc0. split; [|done].
  destruct before as [[]|]; inv_ok; done.
Qed.

(** *** The manual-intervention status *)
Definition manual_invariant (st : campaign_loop) : Prop :=
  campaign_status_is_terminal (loop_status st) = true \/
  (loop_status st = campaign_status_manual_intervention <-> loop_requirements st <> []).

Lemma set_add_not_nil x s : set_add x s <> [].
Proof. unfold set_add. destruct (str_mem x s) eqn:E; [|done]. by destruct s. Qed.

Lemma campaign_loop_step_manual lock st e st' :
  manual_invariant st -> campaign_loop_step lock st e = Ok st' -> manual_invariant st'.
Proof.
  intros [Hinv|Hinv] (Ht & [[Hs ->]|(Hs & Hi & Hr & Ha & Hb)])%campaign_loop_step_inv;
    try congruence; [by right|].
  apply apply_event_status in Ha as (Hst & _ & Hm).
  unfold manual_invariant. rewrite Hst. unfold _update_manual_requirements in Hr.
  destruct (kind e) eqn:Hk; cbn in *;
    try (left; reflexivity);
    try (injection Hr as <-); right;
    try (destruct (loop_status st); cbn in *; try done; intuition congruence).
  - destruct (payload e); try done. injection Hr as <-. split; [|done]. intros _. apply set_add_not_nil.
  - destruct (payload e); try done. injection Hr as Hr.
    destruct (loop_requirements st') as [|r reqs] eqn:Er; cbn.
    + split; [|done]. by destruct (_manual_return_status _ _ _) as [[]|].
    + done.
Qed.

Lemma manual_invariant_init : manual_invariant campaign_loop_init.
Proof. right. split; [done|]. by intros []. Qed.

(** The requirements after a list of events, as the loop accumulates them. *)
Definition requirement_step (reqs : list string) (e : CampaignEvent) : result (list string) :=
  if bool_decide (subject_type e = subject_campaign)
  then _update_manual_requirements e reqs else Ok reqs.

Lemma campaign_fold_requirements lock l st st' :
  foldM (campaign_loop_step lock) st l = Ok st' ->
  foldM requirement_step (loop_requirements st) l = Ok (loop_requirements st').
Proof.
  revert st. induction l as [|e l IH]; intros st H; cbn in *; inv_ok; [done|].
  unfold requirement_step at 1.
  apply campaign_loop_step_inv in Hv as (_ & [[Hs ->]|(Hs & _ & Hr & _)]).
  - rewrite bool_decide_false by done. cbn. auto.
  - rewrite bool_decide_true by done. rewrite Hr. cbn. auto.
Qed.

(** *** Cancellation is never undone *)
Definition cancelling_state (st : campaign_loop) : Prop :=
  match loop_status st with
  | campaign_status_queued | campaign_status_active => False
  | campaign_status_manual_intervention =>
      loop_before_manual st = Some campaign_status_cancel_requested \/
      loop_before_manual st = Some campaign_status_draining
  | _ => True
  end.

Definition cancel_like (e : CampaignEvent) : Prop :=
  subject_type e = subject_campaign /\
  (kind e = campaign_cancel_requested \/ kind e = campaign_draining).

(** A resolution that leaves requirements open is only possible in the manual state. *)
Lemma resolved_remaining st e reqs :
  manual_invariant st -> campaign_status_is_terminal (loop_status st) = false ->
  kind e = campaign_manual_intervention_resolved ->
  _update_manual_requirements e (loop_requirements st) = Ok reqs -> reqs <> [] ->
  loop_status st = campaign_status_manual_intervention.
Proof.
  intros [Ht|Hinv] Hnt Hk Hr Hne; [congruence|]. apply Hinv. intros Hnil.
  unfold _update_manual_requirements in Hr. rewrite Hk, Hnil in Hr.
  destruct (payload e); try done. cbn in Hr. congruence.
Qed.

Lemma campaign_loop_step_cancelling lock st e st' :
  manual_invariant st -> campaign_loop_step lock st e = Ok st' ->
  cancelling_state st \/ cancel_like e -> cancelling_state st'.
Proof.
  intros Hman (Ht & [[Hs ->]|(Hs & Hi & Hr & Ha & Hb)])%campaign_loop_step_inv.
  { intros [H|[H _]]; done. }
  apply apply_event_status in Ha as (Hst & _ & Hm).
  pose proof (fun Hk => resolved_remaining st e _ Hman Ht Hk Hr) as Hrem. clear Hman Hr.
  unfold cancelling_state, cancel_like. rewrite Hst, Hb, Hs.
  unfold _manual_intervention_fully_resolved, _manual_return_status in *.
  destruct (loop_requirements st') as [|r reqs] eqn:Er;
    destruct (loop_status st) eqn:Es; cbn in Ht; try done;
    destruct (kind e) eqn:Hk; bd_const; cbn; try tauto; try (intros; by intuition congruence);
    try (specialize (Hm eq_refl eq_refl); done); try (specialize (Hrem eq_refl); naive_solver);
    destruct (loop_before_manual st) as [[]|]; bd_const; cbn; intuition congruence.
Qed.

Lemma campaign_fold_cancelling lock l st st' :
  manual_invariant st -> foldM (campaign_loop_step lock) st l = Ok st' ->
  cancelling_state st \/ Exists cancel_like l -> cancelling_state st'.
Proof.
  revert st. induction l as [|e l IH]; intros st Hman H Hc; cbn in H; inv_ok.
  - destruct Hc as [Hc|Hc]; [done|by apply Exists_nil in Hc].
  - pose proof (campaign_loop_step_manual _ _ _ _ Hman Hv) as Hman'.
    apply (IH _ Hman' H). rewrite Exists_cons in Hc.
    destruct Hc as [Hc|[Hc|Hc]]; [left|left|by right];
      eapply (campaign_loop_step_cancelling _ st e); eauto.
Qed.

(** *** Terminal statuses absorb *)
Lemma campaign_fold_terminal lock l st st' :
  campaign_status_is_terminal (loop_status st) = true ->
  foldM (campaign_loop_step lock) st l = Ok st' -> l = [].
Proof.
  intros Ht. destruct l as [|e l]; [done|]. cbn. intros H. inv_ok.
  apply campaign_loop_step_inv in Hv as [Hf _]. congruence.
Qed.

Definition is_terminal_event (e : CampaignEvent) : bool :=
  bool_decide (subject_type e = subject_campaign) && is_campaign_terminal_kind (kind e).

Lemma campaign_loop_step_terminal lock st e st' :
  campaign_loop_step lock st e = Ok st' ->
  campaign_status_is_terminal (loop_status st') = is_terminal_event e /\
  (is_terminal_event e = true -> campaign_status_of_kind (kind e) = Some (loop_status st')).
Proof.
  intros (Ht & [[Hs ->]|(Hs & Hi & Hr & Ha & Hb)])%campaign_loop_step_inv;
    unfold is_terminal_event.
  { by rewrite bool_decide_false. }
  rewrite bool_decide_true by done. cbn.
  apply apply_event_status in Ha as (-> & Hk & _).
  destruct (kind e) eqn:E; cbn; try done; (split; [|done]); try by destruct (loop_status st).
  destruct (negb _); [done|]. by destruct (_manual_return_status _ _ _) as [[]|].
Qed.

Lemma campaign_fold_terminal_iff lock l st st' :
  campaign_status_is_terminal (loop_status st) = false ->
  foldM (campaign_loop_step lock) st l = Ok st' ->
  (campaign_status_is_terminal (loop_status st') = true <->
   exists l0 e, l = l0 ++ [e] /\ is_terminal_event e = true) /\
  (forall l0 e l1, l = l0 ++ e :: l1 -> is_terminal_event e = true ->
     l1 = [] /\ campaign_status_of_kind (kind e) = Some (loop_status st')).
Proof.
  revert st. induction l as [|e l IH]; intros st Ht H; cbn in H; inv_ok.
  { split; [|by intros [] ? ? ?]. split; [congruence|]. by intros ([] & ? & ? & _). }
  destruct (campaign_loop_step_terminal _ _ _ _ Hv) as [He Hk].
  destruct (is_terminal_event e) eqn:Ee.
  - pose proof (campaign_fold_terminal _ _ _ _ He H) as ->. cbn in H. inv_ok.
    split; [split; [|done]|].
    + intros _. exists [], e. done.
    + intros [|x l0] e' l1; cbn; [|by destruct l0]. intros [= -> ->] _. by rewrite Hk.
  - destruct (IH _ He H) as [IH1 IH2]. split.
    + rewrite IH1. split.
      * intros (l0 & x & -> & Hx). by exists (e :: l0), x.
      * intros ([|y l0] & x & [= -> ->] & Hx); [congruence|eauto].
    + intros [|y l0] x l1 [= -> ->] Hx; [congruence|eauto].
Qed.

(** *** Actions only move forward *)
Definition action_advances (a b : ActionProjection) : Prop :=
  ap_action_id a = ap_action_id b /\ ap_action_key a = ap_action_key b /\
  ap_action_kind a = ap_action_kind b /\ ap_target_ids a = ap_target_ids b /\
  match ap_status a with
  | status_reserved => True
  | status_ambiguous => ap_status b <> status_reserved
  | status_succeeded | status_failed => a = b
  end.

#[export] Instance action_advances_preorder : PreOrder action_advances.
Proof.
  split.
  - intros a. repeat split. by destruct (ap_status a) eqn:E; rewrite ?E.
  - intros a b c (H1 & H2 & H3 & H4 & H5) (G1 & G2 & G3 & G4 & G5).
    repeat split; try congruence.
    destruct (ap_status a) eqn:Ea; [done|by subst; rewrite Ea in G5|by subst; rewrite Ea in G5|].
    destruct (ap_status b) eqn:Eb; [done|congruence..|done].
Qed.

(** Tables grow by reservations and advance by outcomes; every action is filed
    under its identifier. *)
Abbreviation actions_extend := (dict_extends action_advances).
Abbreviation actions_wf := (dict_keyed ap_action_id).

Lemma apply_action_event_cases e actions actions' :
  _apply_action_event e actions = Ok actions' ->
  (exists p, kind e = action_reserved /\ payload e = payload_action_reserved p /\
     dict_get actions (ar_action_id p) = None /\
     actions' = dict_set actions (ar_action_id p) {|
       ap_action_id := ar_action_id p; ap_action_key := ar_action_key p;
       ap_action_kind := ar_action_kind p; ap_target_ids := ar_target_ids p;
       ap_status := status_reserved; ap_remote_id := None; ap_message := None |}) \/
  (exists p a b, kind e <> action_reserved /\ payload e = payload_action_outcome p /\
     dict_get actions (ao_action_id p) = Some a /\ action_advances a b /\
     (ap_status a = status_reserved \/ ap_status a = status_ambiguous) /\
     action_outcome_of_kind (kind e) = Some (ap_status b) /\
     actions' = dict_set actions (ao_action_id p) b).
Proof.
  unfold _apply_action_event. case_bool_decide as Hk.
  - destruct (payload e) eqn:Hp; try done. intros H. inv_ok. left. exists p.
    split_and!; try done. unfold dict_has in Hc. by destruct (dict_get actions (ar_action_id p)).
  - destruct (payload e) eqn:Hp; try done. destruct (action_outcome_of_kind (kind e)) as [o|] eqn:Ho;
      [|done]. destruct (dict_get actions (ao_action_id p)) as [a|] eqn:Ha; [|done].
    intros H. inv_ok. right.
    apply negb_false_iff, orb_true_iff in Hc. rewrite !bool_decide_eq_true in Hc.
    assert (o <> status_reserved) as Hno by (by destruct (kind e); cbn in Ho; simplify_eq).
    case_bool_decide as H1; case_bool_decide as H2; cbn in H; inv_ok;
      (eexists p, a, _; split_and!; [done|done|done| | | |reflexivity]);
      cbn; repeat split; try congruence; try done; destruct (ap_status a); naive_solver.
Qed.

Lemma apply_action_event_extend e actions actions' :
  _apply_action_event e actions = Ok actions' ->
  actions_extend actions actions' /\ (actions_wf actions -> actions_wf actions').
Proof.
  intros [(p & Hk & Hp & Hn & ->)|(p & a & b & Hk & Hp & Hg & Hab & _ & _ & ->)]
    %apply_action_event_cases; (split; [apply (dict_extends_set action_advances); intros x Hx; by simplify_eq|]);
    intros Hwf; apply dict_keyed_set; [done..|].
  destruct Hab as [<- _]. by apply Hwf.
Qed.

Lemma campaign_loop_step_actions lock st e st' :
  campaign_loop_step lock st e = Ok st' ->
  loop_actions st' = loop_actions st \/ _apply_action_event e (loop_actions st) = Ok (loop_actions st').
Proof.
  intros (Ht & [[Hs ->]|(Hs & Hi & Hr & Ha & Hb)])%campaign_loop_step_inv; [by left|].
  destruct (is_action_like (kind e)) eqn:Hk.
  - rewrite apply_event_action in Ha by done. inv_ok. right. by simplify_eq.
  - left. revert Ha. unfold _apply_event. intros Ha. inv_ok.
    destruct (kind e); cbn in *; inv_ok; by simplify_eq.
Qed.

Lemma campaign_fold_actions lock l st st' :
  foldM (campaign_loop_step lock) st l = Ok st' ->
  actions_extend (loop_actions st) (loop_actions st') /\
  (actions_wf (loop_actions st) -> actions_wf (loop_actions st')).
Proof.
  revert st. induction l as [|e l IH]; intros st H; cbn in H; inv_ok.
  { split; [reflexivity|done]. }
  destruct (IH _ H) as [IH1 IH2].
  assert (actions_extend (loop_actions st) (loop_actions v) /\
          (actions_wf (loop_actions st) -> actions_wf (loop_actions v))) as [H1 H2].
  { destruct (campaign_loop_step_actions _ _ _ _ Hv) as [->|Ha].
    - split; [reflexivity|done].
    - by eapply apply_action_event_extend. }
  split; [by etransitivity|auto].
Qed.

(** *** What an action of the table records *)
Definition reserves (e : CampaignEvent) (a : ActionProjection) : Prop :=
  subject_type e = subject_campaign /\ kind e = action_reserved /\
  payload e = payload_action_reserved {|
    ar_action_id := ap_action_id a; ar_action_key := ap_action_key a;
    ar_action_kind := ap_action_kind a; ar_target_ids := ap_target_ids a |}.

Lemma reserves_advances e a b : reserves e a -> action_advances a b -> reserves e b.
Proof. intros (Hs & Hk & Hp) (H1 & H2 & H3 & H4 & _).
  unfold reserves. rewrite <- H1, <- H2, <- H3, <- H4. by split_and!. Qed.

Lemma campaign_loop_step_reservation lock st e st' :
  campaign_loop_step lock st e = Ok st' ->
  (forall k a, dict_get (loop_actions st') k = Some a ->
     reserves e a \/ exists a', dict_get (loop_actions st) k = Some a' /\ action_advances a' a) /\
  (forall p, subject_type e = subject_campaign -> kind e = action_reserved ->
     payload e = payload_action_reserved p ->
     exists a, dict_get (loop_actions st') (ar_action_id p) = Some a /\ reserves e a).
Proof.
  intros H. pose proof (campaign_loop_step_actions _ _ _ _ H) as Ha.
  apply campaign_loop_step_inv in H as (_ & Hcase).
  assert (loop_actions st' = loop_actions st -> (subject_type e <> subject_campaign \/
            kind e <> action_reserved) ->
          (forall k a, dict_get (loop_actions st') k = Some a ->
            reserves e a \/ exists a', dict_get (loop_actions st) k = Some a' /\ action_advances a' a) /\
          (forall p, subject_type e = subject_campaign -> kind e = action_reserved ->
            payload e = payload_action_reserved p ->
            exists a, dict_get (loop_actions st') (ar_action_id p) = Some a /\ reserves e a)) as Hsame.
  { intros -> Hor. split; [|naive_solver].
    intros k a Hk. right. exists a. split; [done|reflexivity]. }
  destruct Hcase as [[Hs ->]|(Hs & Hi & _ & Hev & _)]; [apply Hsame; naive_solver|].
  destruct (decide (is_action_like (kind e) = true)) as [Hk|Hk].
  2: { destruct Ha as [Ha|Ha]; [apply Hsame; [done|right; intros E; by rewrite E in Hk]|].
       exfalso. revert Ha. unfold _apply_action_event. by destruct (kind e), (payload e). }
  rewrite apply_event_action in Hev by done. clear Ha Hsame.
  apply result_bind_Ok in Hev as (actions & Hv & Heq). injection Heq as _ Heq. subst actions.
  apply apply_action_event_cases in Hv as
    [(p & Hr & Hp & Hn & Heq)|(p & a & b & Hr & Hp & Hg & Hab & _ & _ & Heq)]; rewrite Heq.
  - split.
    + intros k x. rewrite dict_get_set. destruct (String.eqb_spec (ar_action_id p) k).
      * intros [= <-]. left. split_and!; [done|done|]. cbn. rewrite Hp. by destruct p.
      * intros Hx. right. exists x. split; [done|reflexivity].
    + intros q _ _ Hq. rewrite Hp in Hq. injection Hq as <-. rewrite dict_get_set_eq.
      eexists. split; [done|]. split_and!; [done|done|]. cbn. rewrite Hp. by destruct p.
  - split; [|done]. intros k x. rewrite dict_get_set.
    destruct (String.eqb_spec (ao_action_id p) k) as [<-|].
    + intros [= <-]. right. eauto.
    + intros Hx. right. exists x. split; [done|reflexivity].
Qed.

Lemma campaign_fold_reservations lock l st st' :
  foldM (campaign_loop_step lock) st l = Ok st' ->
  (forall k a, dict_get (loop_actions st') k = Some a ->
     (exists e, e ∈ l /\ reserves e a) \/
     exists a', dict_get (loop_actions st) k = Some a' /\ action_advances a' a) /\
  (forall e p, e ∈ l -> subject_type e = subject_campaign -> kind e = action_reserved ->
     payload e = payload_action_reserved p ->
     exists a, dict_get (loop_actions st') (ar_action_id p) = Some a /\ reserves e a).
Proof.
  revert st. induction l as [|e l IH]; intros st H; cbn in H; inv_ok.
  { split; [|by intros ? ? ?%elem_of_nil]. intros k a Ha. right. exists a.
    split; [done|reflexivity]. }
  destruct (IH _ H) as [IH1 IH2]. destruct (campaign_fold_actions _ _ _ _ H) as [Hext _].
  destruct (campaign_loop_step_reservation _ _ _ _ Hv) as [H1 H2]. split.
  - intros k a Ha. destruct (IH1 _ _ Ha) as [(x & Hx & Hr)|(a' & Ha' & Hadv)].
    { left. exists x. split; [by right|done]. }
    destruct (H1 _ _ Ha') as [Hr|(a'' & Ha'' & Hadv')].
    + left. exists e. split; [by left|by eapply reserves_advances].
    + right. exists a''. split; [done|by etransitivity].
  - intros x p [->|Hx]%elem_of_cons Hs Hk Hp; [|eauto].
    destruct (H2 _ Hs Hk Hp) as (a & Ha & Hr). destruct (Hext _ _ Ha) as (b & Hb & Hab).
    exists b. split; [done|by eapply reserves_advances].
Qed.

(** *** The projection as a fold *)
Lemma project_campaign_ok lock events p :
  project_campaign lock events = Ok p ->
  exists first rest st,
    ordered_events events = Ok (first :: rest) /\ submission_matches lock first = true /\
    foldM (campaign_loop_step lock) campaign_loop_init rest = Ok st /\
    proj_campaign_id p = campaign_id lock /\ proj_plan_digest p = plan_digest lock /\
    proj_status p = loop_status st /\ proj_actions p = loop_actions st /\
    proj_event_count p = len (first :: rest) /\
    proj_last_observed_at p = observed_at (List.last (first :: rest) first).
Proof.
  unfold project_campaign. intros H. inv_ok. destruct v as [|first rest]; [done|]. inv_ok.
  apply negb_false_iff in Hc. cbn. eauto 12.
Qed.

Lemma submission_matches_kind lock e :
  submission_matches lock e = true -> kind e = campaign_submitted.
Proof. unfold submission_matches. rewrite !andb_true_iff, !bool_decide_eq_true. tauto. Qed.

Lemma project_campaign_ext lock e1 e2 :
  (forall e, e ∈ e1 <-> e ∈ e2) -> project_campaign lock e1 = project_campaign lock e2.
Proof. intros H. unfold project_campaign. by rewrite (ordered_events_ext e1 e2 H). Qed.

(** The statuses of a campaign for which cancellation or draining was recorded. *)
Definition stopping_or_terminal (s : CampaignStatus) : bool :=
  match s with campaign_status_queued | campaign_status_active => false | _ => true end.

Lemma project_campaign_stopping lock events p e :
  project_campaign lock events = Ok p -> e ∈ events -> cancel_like e ->
  stopping_or_terminal (proj_status p) = true.
Proof.
  intros (first & rest & st & Ho & Hs & Hf & _ & _ & -> & _)%project_campaign_ok He Hc.
  assert (e ∈ rest) as Hin.
  { apply (ordered_events_elem _ _ _ Ho) in He as [->|He]%elem_of_cons; [|done].
    apply submission_matches_kind in Hs. destruct Hc as [_ [H|H]]; congruence. }
  assert (cancelling_state st) as Hst.
  { eapply campaign_fold_cancelling; [apply manual_invariant_init|exact Hf|].
    right. apply Exists_exists. eauto. }
  unfold cancelling_state in Hst. by destruct (loop_status st).
Qed.

(** The manual-intervention requirements the events after the submission leave open. *)
Definition open_requirements (events : list CampaignEvent) : result (list string) :=
  let* ordered := ordered_events events in foldM requirement_step [] (List.tl ordered).

(** A campaign that has not terminated is in manual intervention exactly while
    a requirement is open. *)
Lemma project_campaign_manual lock events p :
  project_campaign lock events = Ok p -> campaign_status_is_terminal (proj_status p) = false ->
  exists reqs, open_requirements events = Ok reqs /\
    (proj_status p = campaign_status_manual_intervention <-> reqs <> []).
Proof.
  intros (f & r & st & Ho & _ & Hf & _ & _ & Hs & _)%project_campaign_ok Ht.
  exists (loop_requirements st). split.
  - unfold open_requirements. rewrite Ho. exact (campaign_fold_requirements lock _ _ _ Hf).
  - rewrite Hs in *. assert (Hm : manual_invariant st).
    { refine (foldM_invariant manual_invariant _ _ _ _ _ manual_invariant_init Hf).
      intros s a s' _. apply campaign_loop_step_manual. }
    destruct Hm as [Hm|Hm]; [congruence|done].
Qed.

(** The log stops new work: the campaign was cancelled or is draining, or a
    required manual intervention is not resolved. *)
Definition work_is_stopped (events : list CampaignEvent) : Prop :=
  (exists e, e ∈ events /\ cancel_like e) \/
  (exists reqs, open_requirements events = Ok reqs /\ reqs <> []).

Lemma project_campaign_stopped lock events p :
  project_campaign lock events = Ok p -> work_is_stopped events ->
  stopping_or_terminal (proj_status p) = true.
Proof.
  intros Hp [(e & He & Hc)|(reqs & Hr & Hne)]; [by eapply project_campaign_stopping|].
  destruct (campaign_status_is_terminal (proj_status p)) eqn:Ht; [by destruct (proj_status p)|].
  destruct (project_campaign_manual _ _ _ Hp Ht) as (reqs' & Hr' & [_ Hm]).
  rewrite Hr in Hr'. injection Hr' as <-. by rewrite (Hm Hne).
Qed.

(** *** Errors of valid events *)
Lemma event_valid_payload e :
  event_valid e = true -> type_of_payload (payload e) = _payload_type (kind e).
Proof.
  unfold event_valid, payload_matches_kind. rewrite !andb_true_iff, bool_decide_eq_true. tauto.
Qed.

Lemma event_valid_campaign_kind e :
  event_valid e = true -> subject_type e = subject_campaign ->
  str_mem (kind_prefix (kind e)) ["run"; "shard"; "trial"; "execution"; "wave"] = false.
Proof.
  unfold event_valid, payload_matches_kind. rewrite !andb_true_iff. intros (_ & _ & H) Hs.
  rewrite Hs in H. revert H. by destruct (kind e).
Qed.

Definition is_control_error (e : exn) : Prop := exists message, e = ControlError message.

(** The one well-typed event the campaign projection cannot read. *)
Definition is_campaign_spend (e : CampaignEvent) : bool :=
  bool_decide (kind e = spend_recorded) && bool_decide (subject_type e = subject_campaign).

Lemma campaign_spend_kind e : is_campaign_spend e = true -> kind e = spend_recorded.
Proof. unfold is_campaign_spend. rewrite andb_true_iff, !bool_decide_eq_true. tauto. Qed.

(** It raises [AttributeError] where it is applied, and is applied to any
    campaign that has not ended, or is refused. *)
Lemma campaign_spend_raises lock st e :
  event_valid e = true -> is_campaign_spend e = true ->
  campaign_status_is_terminal (loop_status st) = false -> subject_id e = campaign_id lock ->
  campaign_loop_step lock st e = Err AttributeError.
Proof.
  intros Hv Hsp Ht Hi. pose proof (event_valid_payload _ Hv) as Hp.
  unfold is_campaign_spend in Hsp. apply andb_true_iff in Hsp as [Hk Hs]. apply bool_decide_eq_true in Hk, Hs.
  unfold campaign_loop_step, _apply_event, _update_manual_requirements, _apply_action_event.
  rewrite Ht, Hs, Hk, Hi, String.eqb_refl. cbn. rewrite Hk in Hp. cbn in Hp. by destruct (payload e).
Qed.

Lemma campaign_spend_step lock st e st' :
  event_valid e = true -> is_campaign_spend e = true -> campaign_loop_step lock st e = Ok st' -> False.
Proof.
  intros Hv Hsp E. pose proof E as (Ht & [[Hs _]|(_ & Hi & _)])%campaign_loop_step_inv.
  - unfold is_campaign_spend in Hsp. apply andb_true_iff in Hsp as [_ Hs']. by apply bool_decide_eq_true in Hs'.
  - by rewrite (campaign_spend_raises _ _ _ Hv Hsp Ht Hi) in E.
Qed.

Lemma apply_action_event_error e actions x :
  event_valid e = true -> subject_type e = subject_campaign -> is_campaign_spend e = false ->
  is_action_like (kind e) = true ->
  _apply_action_event e actions = Err x -> is_control_error x.
Proof.
  intros Hv Hs Hsp Hk. pose proof (event_valid_campaign_kind _ Hv Hs) as Hp.
  pose proof (event_valid_payload _ Hv) as Ht.
  unfold is_campaign_spend in Hsp. rewrite (bool_decide_true _ Hs), andb_true_r in Hsp.
  apply bool_decide_eq_false in Hsp.
  unfold _apply_action_event.
  destruct (kind e) eqn:E; try done; bd_const; cbn in Ht;
    destruct (payload e); try done; cbn;
    repeat case_match; intros [= <-]; eexists; reflexivity.
Qed.

Lemma campaign_loop_step_error lock st e x :
  event_valid e = true -> is_campaign_spend e = false ->
  campaign_loop_step lock st e = Err x -> is_control_error x.
Proof.
  intros Hv Hsp. unfold campaign_loop_step.
  destruct (campaign_status_is_terminal _); [intros [= <-]; eexists; reflexivity|].
  case_bool_decide as Hs; [|done]. cbn [negb].
  rewrite result_bind_Err. intros [H|(reqs & _ & H)].
  { unfold _update_manual_requirements in H. pose proof (event_valid_payload _ Hv) as Ht.
    by destruct (kind e), (payload e). }
  apply result_bind_Err in H as [H|([s a] & _ & [=])].
  destruct (decide (subject_id e = campaign_id lock)) as [Hi|Hi].
  2: { unfold _apply_event in H. rewrite (bool_decide_true _ Hs) in H.
       destruct (String.eqb_spec (subject_id e) (campaign_id lock)); [done|]. cbn in H.
       injection H as <-. eexists; reflexivity. }
  destruct (is_action_like (kind e)) eqn:Hk.
  - rewrite apply_event_action in H by done.
    apply result_bind_Err in H as [H|(a & _ & [=])]. by eapply apply_action_event_error.
  - unfold _apply_event in H. rewrite (bool_decide_true _ Hs), Hi, String.eqb_refl in H. cbn in H.
    unfold _apply_manual_lifecycle_event, _resolve_manual_intervention in H.
    destruct (kind e); try done; cbn in H; try (injection H as <-; eexists; reflexivity);
      apply result_bind_Err in H as [H|(b & _ & [=])]; bd_const; try done;
      repeat case_match; try done; injection H as <-; eexists; reflexivity.
Qed.

Lemma foldM_error {A S} (P : exn -> Prop) (f : S -> A -> result S) l s x :
  (forall s a x, a ∈ l -> f s a = Err x -> P x) -> foldM f s l = Err x -> P x.
Proof.
  revert s. induction l as [|a l IH]; intros s Hf H; cbn in H; [done|].
  apply result_bind_Err in H as [H|(s' & _ & H)].
  - eapply Hf; [by left|exact H].
  - eapply IH; [|exact H]. intros s0 b y Hb. apply Hf. by right.
Qed.

(** ** Growing logs *)
(** [events'] orders to the order of [events] followed by [later]: the log was
    extended by events no earlier than the ones it held. *)
Definition extends_log (events events' later : list CampaignEvent) : Prop :=
  exists l, ordered_events events = Ok l /\ ordered_events events' = Ok (l ++ later).

Lemma extends_log_project lock events events' later p p' :
  extends_log events events' later ->
  project_campaign lock events = Ok p -> project_campaign lock events' = Ok p' ->
  exists first rest st st', ordered_events events = Ok (first :: rest) /\
    ordered_events events' = Ok (first :: rest ++ later) /\
    foldM (campaign_loop_step lock) campaign_loop_init rest = Ok st /\
    foldM (campaign_loop_step lock) st later = Ok st' /\
    proj_status p = loop_status st /\ proj_actions p = loop_actions st /\
    proj_status p' = loop_status st' /\ proj_actions p' = loop_actions st'.
Proof.
  intros (l & Hl & Hl') (f & r & st & Ho & _ & Hf & _ & _ & Hs & Ha & _)%project_campaign_ok
    (f' & r' & st' & Ho' & _ & Hf' & _ & _ & Hs' & Ha' & _)%project_campaign_ok.
  rewrite Ho in Hl. injection Hl as <-. rewrite Ho' in Hl'. injection Hl' as -> ->.
  rewrite foldM_app, Hf in Hf'. simpl in Hf'.
  exists f, r, st, st'. by split_and!.
Qed.

(** ** Appending an event *)

(** An event later than all others, with an identifier of its own, goes last. *)
Lemma ordered_events_snoc events l e :
  ordered_events events = Ok l ->
  (forall x, x ∈ events -> observed_at x < observed_at e) ->
  event_id e ∉ map event_id events ->
  ordered_events (events ++ [e]) = Ok (l ++ [e]).
Proof.
  rewrite !ordered_events_iff. intros (Hs & Hn & Hin) Hlt Hid. split_and!.
  - apply ordered_snoc; [done|]. intros x Hx%Hin%Hlt. unfold event_leb, lex_leb. cbn.
    destruct (Z.leb_spec (observed_at x) (observed_at e)); [|lia].
    destruct (Z.eqb_spec (observed_at x) (observed_at e)); [lia|done].
  - rewrite map_app. apply NoDup_app. split_and!; [done| |apply NoDup_singleton].
    intros i (x & -> & Hx)%list_elem_of_fmap Hi%list_elem_of_singleton. apply Hid. rewrite <- Hi.
    apply list_elem_of_fmap. exists x. split; [done|]. by apply Hin.
  - intros x. rewrite !elem_of_app, Hin. done.
Qed.

(** An outcome event sets the outcome of its action and nothing else. *)
Lemma campaign_outcome_step lock st e p outcome a :
  campaign_status_is_terminal (loop_status st) = false ->
  subject_type e = subject_campaign -> subject_id e = campaign_id lock ->
  action_outcome_of_kind (kind e) = Some outcome -> payload e = payload_action_outcome p ->
  dict_get (loop_actions st) (ao_action_id p) = Some a ->
  ap_status a = status_reserved \/
    ap_status a = status_ambiguous /\
    (outcome = status_ambiguous -> forall x y, ap_remote_id a = Some x -> ao_remote_id p = Some y -> x = y) ->
  exists st' b, campaign_loop_step lock st e = Ok st' /\
    loop_status st' = (if bool_decide (loop_status st = campaign_status_queued)
                       then campaign_status_active else loop_status st) /\
    loop_actions st' = dict_set (loop_actions st) (ao_action_id p) b /\
    (ap_action_id b, ap_action_key b, ap_action_kind b, ap_target_ids b) =
      (ap_action_id a, ap_action_key a, ap_action_kind a, ap_target_ids a) /\
    ap_status b = outcome /\ ap_message b = ao_message p.
Proof.
  intros Ht Hs Hi Ho Hp Ha Hst.
  assert (Hk : is_action_like (kind e) = true /\ kind e <> action_reserved /\
               _update_manual_requirements e (loop_requirements st) = Ok (loop_requirements st)).
  { unfold _update_manual_requirements. by destruct (kind e). }
  destruct Hk as (Hk & Hr & Hm).
  assert (Hact : exists b, _apply_action_event e (loop_actions st) = Ok (dict_set (loop_actions st) (ao_action_id p) b) /\
    (ap_action_id b, ap_action_key b, ap_action_kind b, ap_target_ids b) =
      (ap_action_id a, ap_action_key a, ap_action_kind a, ap_target_ids a) /\
    ap_status b = outcome /\ ap_message b = ao_message p).
  { unfold _apply_action_event. rewrite (bool_decide_false _ Hr), Hp, Ho, Ha.
    destruct Hst as [E|[E Hsame]]; rewrite E; bd_const; cbn [orb andb negb]; [by eexists|].
    case_bool_decide as Hamb; [|by eexists]. destruct (is_some _ && _ && _) eqn:Hc; [exfalso|].
    - rewrite !andb_true_iff, negb_true_iff, bool_decide_eq_false in Hc. destruct Hc as [[H1 H2] H3].
      destruct (ap_remote_id a), (ao_remote_id p); try done. apply H3. f_equal. by apply Hsame.
    - by eexists. }
  destruct Hact as (b & Hb & Hid & Hob & Hmb).
  unfold campaign_loop_step. rewrite Ht, (bool_decide_true _ Hs), Hm. cbn [negb result_bind].
  rewrite apply_event_action by done. rewrite Hb. cbn [result_bind]. eexists _, b. split_and!; try done.
Qed.
