(* ===== verification/RecoveryFacts.v ===== *)
(** Facts about the recovery projection (Recovery.v).

    The event fold is inverted once ([recovery_step_views]) into what a step
    does to the executions, the waves, the trials and the spend; waves and
    executions are then shown to move along their life cycles only, and the
    spend to be the sum of what was recorded.  The derivation of trials, the
    retry delay, the aggregation of shards and runs and the terminal decision
    are characterised on every branch. *)
From S2P Require Import Prelude.
From S2P Require Import PyDict.
From S2P Require Import Sha256.
From S2P Require Import Campaigns.
From S2P Require Import Control.
From S2P Require Import Recovery.
From S2P Require Import ControlFacts.

(** ** What a step does *)

(** The amount a [spend.recorded] event adds. *)
Definition recorded_amount (e : CampaignEvent) : Z :=
  match kind e, payload e with spend_recorded, payload_spend p => sp_amount_microusd p | _, _ => 0 end.

Record step_views (e : CampaignEvent) (st : recovery_state) (spend : Z)
    (st' : recovery_state) (spend' : Z) : Prop := {
  view_executions :
    (kind e = execution_started /\
     _start_execution e (rs_trials st) (rs_executions st) = Ok (rs_executions st') /\
     spend' = spend) \/
    (is_execution_outcome_kind (kind e) = true /\ exists amount,
     _finish_execution e (rs_executions st) = Ok (rs_executions st', amount) /\
     spend' = spend + amount) \/
    (kind_startswith "execution" (kind e) = false /\ rs_executions st' = rs_executions st /\
     spend' = spend + recorded_amount e);
  view_waves : exists waves,
    _apply_campaign_recovery_event e (rs_waves st) = Ok waves /\
    if kind_startswith "wave" (kind e)
    then _record_wave_status e (rs_shards st) waves = Ok (rs_waves st')
    else rs_waves st' = waves;
  view_trials :
    (exists status, trial_status_of_kind (kind e) = Some status /\
       _record_trial_status e status (rs_trials st) = Ok (rs_trials st')) \/
    (kind_startswith "trial" (kind e) = false /\ rs_trials st' = rs_trials st);
  view_shards :
    (exists status, shard_status_of_kind (kind e) = Some status /\
       _record_shard_status e status (rs_shards st) = Ok (rs_shards st')) \/
    (kind_startswith "shard" (kind e) = false /\ rs_shards st' = rs_shards st);
  view_runs :
    (exists status, run_status_of_kind (kind e) = Some status /\
       _record_run_status e status (rs_runs st) = Ok (rs_runs st')) \/
    (kind_startswith "run" (kind e) = false /\ rs_runs st' = rs_runs st);
}.

Lemma recorded_amount_zero e : kind e <> spend_recorded -> recorded_amount e = 0.
Proof. unfold recorded_amount. by destruct (kind e). Qed.

Lemma status_of_kind_prefix k :
  (is_Some (trial_status_of_kind k) -> kind_prefix k = "trial") /\
  (is_Some (shard_status_of_kind k) -> kind_prefix k = "shard") /\
  (is_Some (run_status_of_kind k) -> kind_prefix k = "run") /\
  (is_execution_outcome_kind k = true <-> kind_prefix k = "execution" /\ k <> execution_started).
Proof. destruct k; cbn; split_and!; try done; try (by intros [? [=]]); intuition done. Qed.

(** Fields of [step_views] for a component the event does not touch. *)
Local Ltac untouched :=
  first [ right; split; [first [assumption|reflexivity]|reflexivity]
        | right; right; split; [first [assumption|reflexivity]|split; [reflexivity|]];
          rewrite recorded_amount_zero by assumption; lia ].

Lemma recovery_step_views e st spend st' spend' :
  recovery_step (st, spend) e = Ok (st', spend') -> step_views e st spend st' spend'.
Proof.
  unfold recovery_step. intros H. apply result_bind_Ok in H as (waves & Hw & H).
  apply result_bind_Ok in H as ([st1 amount] & He & H). injection H as <- <-.
  pose proof (status_of_kind_prefix (kind e)) as (Ht & Hs & Hr & Hx).
  assert (forall p q, kind_startswith p (kind e) = true -> p <> q ->
            kind_startswith q (kind e) = false) as Hq.
  { unfold kind_startswith. intros p q ->%String.eqb_eq Hpq. by apply String.eqb_neq. }
  assert (forall p, kind_startswith p (kind e) = true -> p <> "spend" -> kind e <> spend_recorded)
    as Hns by (intros p Hp Hne E; rewrite E in Hp; by apply String.eqb_eq in Hp).
  unfold _apply_recovery_event in He. cbn [rs_runs rs_shards rs_trials rs_executions rs_waves] in He.
  destruct (kind_startswith "run" (kind e)) eqn:E1.
  { destruct (run_status_of_kind (kind e)) as [status|] eqn:E; [|done]. inv_ok. simplify_eq.
    assert (kind e <> spend_recorded) by (by apply (Hns "run")). pose proof (fun q => Hq _ q E1) as Hq'.
    constructor; cbn; rewrite ?Hq' by done; try untouched; eauto. }
  destruct (kind_startswith "shard" (kind e)) eqn:E2.
  { destruct (shard_status_of_kind (kind e)) as [status|] eqn:E; [|done]. inv_ok. simplify_eq.
    assert (kind e <> spend_recorded) by (by apply (Hns "shard")). pose proof (fun q => Hq _ q E2) as Hq'.
    constructor; cbn; rewrite ?Hq' by done; try untouched; eauto. }
  destruct (kind_startswith "trial" (kind e)) eqn:E3.
  { destruct (trial_status_of_kind (kind e)) as [status|] eqn:E; [|done]. inv_ok. simplify_eq.
    assert (kind e <> spend_recorded) by (by apply (Hns "trial")). pose proof (fun q => Hq _ q E3) as Hq'.
    constructor; cbn; rewrite ?Hq' by done; try untouched; eauto. }
  case_bool_decide as E4.
  { inv_ok. simplify_eq. constructor; cbn; rewrite ?E4; cbn; try (right; split; reflexivity); eauto.
    left. split_and!; [done|done|lia]. }
  destruct (kind_startswith "execution" (kind e)) eqn:E5.
  { apply result_bind_Ok in He as ([executions spent] & Hf & He). inv_ok. simplify_eq.
    pose proof (fun q => Hq _ q E5) as Hq'. constructor; cbn; rewrite ?Hq' by done; try untouched; eauto.
    right; left. split; [apply Hx; split; [by apply String.eqb_eq|done]|eauto]. }
  destruct (kind_startswith "wave" (kind e)) eqn:E6.
  { inv_ok. simplify_eq. assert (kind e <> spend_recorded) by (by apply (Hns "wave")). pose proof (fun q => Hq _ q E6) as Hq'.
    constructor; cbn; rewrite ?E6; try untouched; eauto. }
  assert (st1 = {| rs_runs := rs_runs st; rs_shards := rs_shards st; rs_trials := rs_trials st;
                   rs_executions := rs_executions st; rs_waves := waves |} /\
          amount = recorded_amount e) as [-> ->].
  { unfold recorded_amount. case_bool_decide as E7; [rewrite E7|].
    - destruct (payload e); try done. by injection He as <- <-.
    - injection He as <- <-. split; [done|]. by destruct (kind e). }
  constructor; cbn; rewrite ?E6; try (right; split; [assumption|reflexivity]); eauto.
Qed.

(** ** Physical executions *)

(** An execution keeps its identity, and nothing of it changes once it is over. *)
Definition execution_advances (a b : ExecutionProjection) : Prop :=
  ep_execution_id a = ep_execution_id b /\ ep_trial_id a = ep_trial_id b /\
  ep_shard_id a = ep_shard_id b /\ ep_wave_id a = ep_wave_id b /\
  ep_physical_attempt a = ep_physical_attempt b /\
  ep_estimated_cost_microusd a = ep_estimated_cost_microusd b /\
  (ep_status a <> exec_s_active -> a = b).

#[export] Instance execution_advances_preorder : PreOrder execution_advances.
Proof.
  split.
  - intros a. by repeat split.
  - intros a b c (H1 & H2 & H3 & H4 & H5 & H6 & H7) (G1 & G2 & G3 & G4 & G5 & G6 & G7).
    repeat split; try congruence. intros Ha. specialize (H7 Ha) as <-. auto.
Qed.

(** The table of executions: filed by identifier, of known trials and shards,
    one per trial and attempt; an active one has spent nothing yet. *)
Record executions_ok (trials : dict TrialProjection) (x : dict ExecutionProjection) : Prop := {
  executions_keyed : dict_keyed ep_execution_id x;
  executions_known k a : dict_get x k = Some a ->
    exists t, dict_get trials (ep_trial_id a) = Some t /\ tr_shard_id t = ep_shard_id a;
  executions_distinct k k' a b : dict_get x k = Some a -> dict_get x k' = Some b ->
    ep_trial_id a = ep_trial_id b -> ep_physical_attempt a = ep_physical_attempt b -> k = k';
  executions_active k a : dict_get x k = Some a -> ep_status a = exec_s_active ->
    ep_spend_microusd a = 0;
}.

Lemma executions_ok_nil trials : executions_ok trials [].
Proof. split; try done. apply dict_keyed_nil. Qed.

Definition execution_spend (x : dict ExecutionProjection) : Z :=
  sum_z (map ep_spend_microusd (dict_values x)).

Lemma start_execution_cases e trials x x' :
  _start_execution e trials x = Ok x' ->
  exists p t, payload e = payload_execution_started p /\
    dict_get trials (es_trial_id p) = Some t /\ tr_shard_id t = es_shard_id p /\
    dict_get x (subject_id e) = None /\
    (forall k a, dict_get x k = Some a ->
       ~ (ep_trial_id a = es_trial_id p /\ ep_physical_attempt a = es_physical_attempt p)) /\
    x' = dict_set x (subject_id e) {|
      ep_execution_id := subject_id e; ep_trial_id := es_trial_id p;
      ep_shard_id := es_shard_id p; ep_wave_id := es_wave_id p;
      ep_physical_attempt := es_physical_attempt p; ep_status := exec_s_active;
      ep_category := None; ep_observed_at := observed_at e; ep_retry_after_seconds := None;
      ep_estimated_cost_microusd := es_estimated_cost_microusd p; ep_spend_microusd := 0;
      ep_message := None |}.
Proof.
  unfold _start_execution. destruct (payload e) as [| | | | | | |p| | | |]; try done.
  intros H. inv_ok. exists p.
  destruct (dict_get trials (es_trial_id p)) as [t|]; [|done].
  exists t. apply negb_false_iff, String.eqb_eq in Hc. split_and!; try done.
  - unfold dict_has in Hc0. by destruct (dict_get x (subject_id e)).
  - intros k a Ha [Ht Hp]. apply not_true_iff_false in Hc1. apply Hc1, existsb_exists.
    exists a. split.
    + apply list_elem_of_In, dict_values_elem. exists k. by apply dict_get_in.
    + by rewrite Ht, Hp, String.eqb_refl, Z.eqb_refl.
Qed.

Lemma start_execution_ok e trials x x' :
  executions_ok trials x -> _start_execution e trials x = Ok x' ->
  executions_ok trials x' /\ dict_extends execution_advances x x' /\
  execution_spend x' = execution_spend x.
Proof.
  intros [Hk Hn Hd Ha] (p & t & Hp & Ht & Hs & Hnone & Hnew & ->)%start_execution_cases.
  split_and!.
  - split.
    + by apply dict_keyed_set.
    + intros k a. rewrite dict_get_set. destruct (String.eqb_spec (subject_id e) k); [|by apply Hn].
      intros [= <-]. cbn. eauto.
    + intros k k' a b. rewrite !dict_get_set.
      destruct (String.eqb_spec (subject_id e) k) as [<-|], (String.eqb_spec (subject_id e) k') as [<-|];
        [done| | |by apply Hd].
      * intros [= <-] Hb H1 H2. destruct (Hnew _ _ Hb). by split.
      * intros Hb [= <-] H1 H2. destruct (Hnew _ _ Hb). by split.
    + intros k a. rewrite dict_get_set. destruct (String.eqb_spec (subject_id e) k); [|by apply Ha].
      by intros [= <-].
  - apply (dict_extends_set execution_advances). congruence.
  - unfold execution_spend. rewrite sum_dict_set, Hnone. cbn. lia.
Qed.

Lemma finish_execution_cases e x x' amount :
  _finish_execution e x = Ok (x', amount) ->
  exists a, dict_get x (subject_id e) = Some a /\
    ((ep_status a <> exec_s_active /\ x' = x /\ amount = 0 /\
      _is_reconciler_lost_sentinel e = Ok true) \/
     (ep_status a = exec_s_active /\ exists p status b,
        payload e = payload_execution_outcome p /\
        execution_status_of_kind (kind e) = Some status /\
        eo_trial_id p = ep_trial_id a /\ eo_physical_attempt p = ep_physical_attempt a /\
        execution_advances a b /\ ep_status b = status /\ ep_category b = eo_category p /\
        ep_spend_microusd b = eo_spend_microusd p /\ amount = eo_spend_microusd p /\
        (status = exec_s_failed -> is_Some (eo_category p)) /\
        (status = exec_s_completed -> eo_category p = None) /\
        x' = dict_set x (subject_id e) b)).
Proof.
  unfold _finish_execution. destruct (dict_get x (subject_id e)) as [a|]; [|done].
  intros H. exists a. split; [done|]. case_bool_decide as Hs; cbn [negb] in H.
  2: { left. apply result_bind_Ok in H as ([] & Hl & H); inv_ok. simplify_eq. done. }
  right. split; [done|]. destruct (payload e) as [| | | | | | | |p| | |]; try done.
  destruct (execution_status_of_kind (kind e)) as [status|] eqn:Ek; [|done]. inv_ok. simplify_eq.
  apply orb_false_iff in Hc as [Hi1%negb_false_iff%String.eqb_eq Hi2%negb_false_iff%Z.eqb_eq].
  eexists p, status, _. split_and!; cycle -1; [reflexivity|done..| | |].
  - by repeat split.
  - intros ->. destruct (kind e); try done. bd_const. cbn in Hc1.
    destruct (eo_category p); [eauto|done].
  - intros ->. destruct (kind e); try done. bd_const. cbn in Hc0.
    by destruct (eo_category p).
Qed.

Lemma finish_execution_ok e trials x x' amount :
  executions_ok trials x -> _finish_execution e x = Ok (x', amount) ->
  executions_ok trials x' /\ dict_extends execution_advances x x' /\
  execution_spend x' = execution_spend x + amount.
Proof.
  intros Hok (a & Hg & [(Hs & -> & -> & _)|(Hs & p & status & b & Hp & Hst & Ht & Hpa & Hab & Hb & _ & Hsp & -> & _ & _ & ->)])
    %finish_execution_cases.
  { split_and!; [done|reflexivity|lia]. }
  destruct Hok as [Hk Hn Hd Ha]. pose proof Hab as (H1 & H2 & H3 & H4 & H5 & H6 & _).
  split_and!.
  - split.
    + apply dict_keyed_set; [done|]. rewrite <- H1. by apply Hk.
    + intros k c. rewrite dict_get_set. destruct (String.eqb_spec (subject_id e) k) as [<-|];
        [|by apply Hn]. intros [= <-]. rewrite <- H2, <- H3. by eapply Hn.
    + intros k k' c d. rewrite !dict_get_set.
      destruct (String.eqb_spec (subject_id e) k) as [<-|], (String.eqb_spec (subject_id e) k') as [<-|];
        [done| | |by apply Hd].
      * intros [= <-] Hc. rewrite <- H2, <- H5. by eapply Hd.
      * intros Hc [= <-]. rewrite <- H2, <- H5. by eapply Hd.
    + intros k c. rewrite dict_get_set. destruct (String.eqb_spec (subject_id e) k) as [<-|];
        [|by apply Ha]. intros [= <-] Hc. exfalso. rewrite Hb in Hc. rewrite Hc in Hst.
      destruct (kind e); discriminate Hst.
  - apply (dict_extends_set execution_advances). intros c Hc. by simplify_eq.
  - unfold execution_spend. rewrite sum_dict_set, Hg, Hsp, (Ha _ _ Hg Hs). lia.
Qed.

(** ** Waves *)
Definition wave_transition (s t : WaveStatus) : Prop := t ∈ allowed_wave_transitions s.

(** A wave keeps its identity and moves along the allowed transitions. *)
Definition wave_advances (a b : WaveProjection) : Prop :=
  wv_wave_id a = wv_wave_id b /\ wv_deployment_digest a = wv_deployment_digest b /\
  wv_provider a = wv_provider b /\ wv_shard_ids a = wv_shard_ids b /\
  wv_estimated_cost_microusd a = wv_estimated_cost_microusd b /\
  rtc wave_transition (wv_status a) (wv_status b).

#[export] Instance wave_advances_preorder : PreOrder wave_advances.
Proof.
  split.
  - intros a. repeat split. reflexivity.
  - intros a b c (H1 & H2 & H3 & H4 & H5 & H6) (G1 & G2 & G3 & G4 & G5 & G6).
    repeat split; try congruence. by etransitivity.
Qed.

Lemma wave_closed_final s : rtc wave_transition wave_s_closed s -> s = wave_s_closed.
Proof. intros H. inversion H as [|? y ? Hy]; subst; [done|]. by apply elem_of_nil in Hy. Qed.

Lemma wave_closed_advances a b :
  wave_advances a b -> wv_status a = wave_s_closed -> wv_status b = wave_s_closed.
Proof. intros (_ & _ & _ & _ & _ & H) E. rewrite E in H. by apply wave_closed_final. Qed.

(** The table of waves: filed by identifier, over known shards. *)
Record waves_ok (shards : dict ShardProjection) (x : dict WaveProjection) : Prop := {
  waves_keyed : dict_keyed wv_wave_id x;
  waves_known k a s : dict_get x k = Some a -> s ∈ wv_shard_ids a -> s ∈ dict_keys shards;
}.

Lemma waves_ok_set shards x k v :
  waves_ok shards x -> wv_wave_id v = k ->
  (forall s, s ∈ wv_shard_ids v -> s ∈ dict_keys shards) -> waves_ok shards (dict_set x k v).
Proof.
  intros [Hk Hs] Hv Hv'. split; [by apply dict_keyed_set|].
  intros k' a s. rewrite dict_get_set. destruct (String.eqb_spec k k'); [|by apply Hs].
  intros [= <-]. apply Hv'.
Qed.

Lemma record_wave_status_cases e shards x x' :
  _record_wave_status e shards x = Ok x' ->
  exists p status, payload e = payload_wave p /\ wave_status_of_kind (kind e) = Some status /\
    (forall s, s ∈ wl_shard_ids p -> s ∈ dict_keys shards) /\
    let wave := {| wv_wave_id := subject_id e; wv_deployment_digest := wl_deployment_digest p;
      wv_provider := wl_provider p; wv_shard_ids := wl_shard_ids p;
      wv_estimated_cost_microusd := wl_estimated_cost_microusd p; wv_status := status |} in
    match dict_get x (subject_id e) with
    | None => x' = dict_set x (subject_id e) wave
    | Some previous => wave_identity_matches previous p = true /\
        ((stale_reconciler_transition e (wv_status previous) status = true /\ x' = x) \/
         (rtc wave_transition (wv_status previous) status /\ x' = dict_set x (subject_id e) wave))
    end.
Proof.
  unfold _record_wave_status.
  destruct (payload e) as [| | | | | |p| | | | |], (wave_status_of_kind (kind e)) as [status|];
    try done. intros H. inv_ok. exists p, status. split_and!; try done.
  { intros s Hs. apply dict_has_true. destruct (dict_has shards s) eqn:E; [done|].
    apply negb_false_iff in Hc.
    assert (s ∈ List.filter (fun s => negb (dict_has shards s)) (wl_shard_ids p)) as Hin.
    { apply list_elem_of_In, filter_In. split; [by apply list_elem_of_In|by rewrite E]. }
    by destruct (List.filter _ _); [apply elem_of_nil in Hin|]. }
  destruct (dict_get x (subject_id e)) as [previous|]; [|by injection H as <-]. inv_ok.
  apply negb_false_iff in Hc0. split; [done|].
  destruct (stale_reconciler_transition e (wv_status previous) status); [left; by inv_ok|right].
  inv_ok. split; [|done]. unfold _validate_wave_transition in Hv. inv_ok.
  apply andb_false_iff in Hc1 as [E|E]; apply negb_false_iff, bool_decide_eq_true in E.
  - by rewrite E.
  - by apply rtc_once.
Qed.

Lemma record_wave_status_ok e shards x x' :
  waves_ok shards x -> _record_wave_status e shards x = Ok x' ->
  waves_ok shards x' /\ dict_extends wave_advances x x'.
Proof.
  intros Hok (p & status & Hp & Hst & Hs & H)%record_wave_status_cases. cbn in H.
  destruct (dict_get x (subject_id e)) as [previous|] eqn:E.
  - destruct H as [Hid [[_ ->]|[Hr ->]]]; [by split|].
    split; [by apply waves_ok_set|]. apply (dict_extends_set wave_advances).
    intros a Ha. simplify_eq. unfold wave_identity_matches in Hid.
    rewrite !andb_true_iff, !String.eqb_eq, Z.eqb_eq, bool_decide_eq_true in Hid.
    destruct Hid as [[[H1 H2] H3] H4]. repeat split; try done.
    apply Hok in E. done.
  - subst x'. split; [by apply waves_ok_set|]. apply (dict_extends_set wave_advances). congruence.
Qed.

Lemma resolve_wave_ok shards x w x' :
  waves_ok shards x -> resolve_wave x w = Ok x' ->
  waves_ok shards x' /\ dict_extends wave_advances x x'.
Proof.
  intros Hok. unfold resolve_wave. destruct (dict_get x w) as [wave|] eqn:E; [|done].
  intros H. inv_ok. case_bool_decide as Hs; inv_ok; [|by split].
  pose proof (proj2 (waves_keyed _ _ Hok) _ _ E) as Hid. rewrite Hid. split.
  - apply waves_ok_set; [done|done|]. intros s. by apply (waves_known _ _ Hok w wave).
  - apply (dict_extends_set wave_advances). intros a Ha. simplify_eq. repeat split.
    apply rtc_once. unfold wave_transition. rewrite Hs. cbn. set_solver.
Qed.

Lemma campaign_recovery_event_ok e shards x x' :
  waves_ok shards x -> _apply_campaign_recovery_event e x = Ok x' ->
  waves_ok shards x' /\ dict_extends wave_advances x x'.
Proof.
  unfold _apply_campaign_recovery_event. case_bool_decide; cbn [negb]; [|intros ? [= <-]; by split].
  destruct (payload e) as [| | | | |p| | | | | |]; try done. intros Hok Hf.
  revert x Hok Hf. induction (mr_wave_ids p) as [|w ws IH]; intros x Hok Hf; cbn in Hf; inv_ok;
    [by split|].
  destruct (resolve_wave_ok _ _ _ _ Hok Hv) as [Hok' Hext]. destruct (IH _ Hok' Hf) as [H1 H2].
  split; [done|by etransitivity].
Qed.

(** ** Runs, shards and trials during the fold *)

(** The fold only records statuses: identities and structure stay. *)
Definition trial_recorded (a b : TrialProjection) : Prop :=
  tr_trial_id a = tr_trial_id b /\ tr_shard_id a = tr_shard_id b /\
  tr_logical_attempt a = tr_logical_attempt b /\ tr_executions a = tr_executions b /\
  tr_retry_not_before a = tr_retry_not_before b /\ tr_outcome a = tr_outcome b.

Definition shard_recorded (a b : ShardProjection) : Prop :=
  sh_shard_id a = sh_shard_id b /\ sh_run_id a = sh_run_id b /\ sh_trial_ids a = sh_trial_ids b /\
  sh_status a = sh_status b.

Definition run_recorded (a b : RunProjection) : Prop :=
  rn_run_id a = rn_run_id b /\ rn_deployment_digest a = rn_deployment_digest b /\
  rn_shard_ids a = rn_shard_ids b /\ rn_status a = rn_status b.

#[export] Instance trial_recorded_preorder : PreOrder trial_recorded.
Proof. split; [intros a; by repeat split|intros a b c (?&?&?&?&?&?) (?&?&?&?&?&?); repeat split; congruence]. Qed.
#[export] Instance shard_recorded_preorder : PreOrder shard_recorded.
Proof. split; [intros a; by repeat split|intros a b c (?&?&?&?) (?&?&?&?); repeat split; congruence]. Qed.
#[export] Instance run_recorded_preorder : PreOrder run_recorded.
Proof. split; [intros a; by repeat split|intros a b c (?&?&?&?) (?&?&?&?); repeat split; congruence]. Qed.

(** Two dictionaries with the same keys in the same order and related values. *)
Definition dict_same {V} (R : V -> V -> Prop) (x y : dict V) : Prop :=
  dict_keys x = dict_keys y /\ dict_extends R x y.

#[export] Instance dict_same_preorder {V} (R : V -> V -> Prop) `{!PreOrder R} :
  PreOrder (dict_same R).
Proof.
  split; [intros x; by split|].
  intros x y z [H1 H2] [H3 H4]. split; [congruence|by etransitivity].
Qed.

Lemma dict_same_set {V} (R : V -> V -> Prop) `{!PreOrder R} (x : dict V) k a v :
  dict_get x k = Some a -> R a v -> dict_same R x (dict_set x k v).
Proof.
  intros Ha Hr. split.
  - rewrite dict_keys_set. unfold dict_has. by rewrite Ha.
  - apply (dict_extends_set R). intros b Hb. by simplify_eq.
Qed.

Lemma dict_same_get {V} (R : V -> V -> Prop) (x y : dict V) k b :
  dict_same R x y -> dict_get y k = Some b -> exists a, dict_get x k = Some a /\ R a b.
Proof.
  intros [Hk He] Hb. assert (is_Some (dict_get x k)) as [a Ha].
  { apply dict_get_is_some_iff. rewrite Hk. apply dict_get_is_some_iff. eauto. }
  exists a. split; [done|]. destruct (He _ _ Ha) as (b' & Hb' & Hr). by simplify_eq.
Qed.

Record recovery_extends (st st' : recovery_state) : Prop := {
  extends_runs : dict_same run_recorded (rs_runs st) (rs_runs st');
  extends_shards : dict_same shard_recorded (rs_shards st) (rs_shards st');
  extends_trials : dict_same trial_recorded (rs_trials st) (rs_trials st');
  extends_executions : dict_extends execution_advances (rs_executions st) (rs_executions st');
  extends_waves : dict_extends wave_advances (rs_waves st) (rs_waves st');
}.

#[export] Instance recovery_extends_preorder : PreOrder recovery_extends.
Proof.
  split; [intros st; by split|].
  intros a b c [H1 H2 H3 H4 H5] [G1 G2 G3 G4 G5]. split; by etransitivity.
Qed.

(** A recorded trial: planned, or given a terminal status by a trial event; the
    derivation has not filled in its executions yet. *)
Definition trial_idle (t : TrialProjection) : Prop :=
  tr_executions t = [] /\ tr_retry_not_before t = None /\ tr_outcome t = None /\
  tr_status t <> trial_s_active /\ tr_status t <> trial_s_retry_wait.

Record recovery_ok (st : recovery_state) (spend : Z) : Prop := {
  ok_executions : executions_ok (rs_trials st) (rs_executions st);
  ok_waves : waves_ok (rs_shards st) (rs_waves st);
  ok_trials : dict_keyed tr_trial_id (rs_trials st);
  ok_idle k t : dict_get (rs_trials st) k = Some t -> trial_idle t;
}.

Lemma record_trial_status_ok e status trials trials' :
  trial_status_of_kind (kind e) = Some status ->
  _record_trial_status e status trials = Ok trials' ->
  dict_keyed tr_trial_id trials -> (forall k t, dict_get trials k = Some t -> trial_idle t) ->
  dict_keyed tr_trial_id trials' /\ (forall k t, dict_get trials' k = Some t -> trial_idle t).
Proof.
  intros Hst H Hk Hi. unfold _record_trial_status in H.
  destruct (dict_get trials (subject_id e)) as [t|] eqn:E; [|done]. injection H as <-. split.
  - apply dict_keyed_set; [done|]. exact (proj2 Hk _ _ E).
  - intros k t'. rewrite dict_get_set. destruct (String.eqb_spec (subject_id e) k); [|by apply Hi].
    intros [= <-]. destruct (Hi _ _ E) as (H1 & H2 & H3 & H4 & H5).
    repeat split; cbn; try done; destruct (kind e); cbn in Hst; congruence.
Qed.

Lemma executions_ok_trials trials trials' x :
  dict_same trial_recorded trials trials' -> executions_ok trials x -> executions_ok trials' x.
Proof.
  intros [_ Hs] [Hk Hn Hd Ha]. split; try done.
  intros k a Hg. destruct (Hn _ _ Hg) as (t & Ht & Hsh).
  destruct (Hs _ _ Ht) as (t' & Ht' & (_ & Hsh' & _)). exists t'. split; [done|congruence].
Qed.

Lemma waves_ok_shards shards shards' x :
  dict_same shard_recorded shards shards' -> waves_ok shards x -> waves_ok shards' x.
Proof. intros [Hk _] [H1 H2]. split; [done|]. intros k a s. rewrite <- Hk. apply H2. Qed.

Lemma recovery_step_ok st spend e st' spend' :
  recovery_ok st spend -> recovery_step (st, spend) e = Ok (st', spend') ->
  recovery_ok st' spend' /\ recovery_extends st st' /\
  spend' - execution_spend (rs_executions st') =
    spend - execution_spend (rs_executions st) + recorded_amount e.
Proof.
  intros [Hx Hw Hk Hi] [Vx (waves & Hwaves & Vw) Vt Vs Vr]%recovery_step_views.
  assert (dict_same run_recorded (rs_runs st) (rs_runs st')) as Er.
  { destruct Vr as [(s & _ & H)|[_ ->]]; [|reflexivity]. unfold _record_run_status in H.
    destruct (dict_get (rs_runs st) (subject_id e)) eqn:E; [|done]. injection H as <-.
    by apply (dict_same_set run_recorded _ _ _ _ E). }
  assert (dict_same shard_recorded (rs_shards st) (rs_shards st')) as Es.
  { destruct Vs as [(s & _ & H)|[_ ->]]; [|reflexivity]. unfold _record_shard_status in H.
    destruct (dict_get (rs_shards st) (subject_id e)) eqn:E; [|done]. injection H as <-.
    by apply (dict_same_set shard_recorded _ _ _ _ E). }
  assert (dict_same trial_recorded (rs_trials st) (rs_trials st')) as Et.
  { destruct Vt as [(s & _ & H)|[_ ->]]; [|reflexivity]. unfold _record_trial_status in H.
    destruct (dict_get (rs_trials st) (subject_id e)) eqn:E; [|done]. injection H as <-.
    by apply (dict_same_set trial_recorded _ _ _ _ E). }
  destruct (campaign_recovery_event_ok _ _ _ _ Hw Hwaves) as [Hw1 Ew1].
  assert (waves_ok (rs_shards st) (rs_waves st') /\ dict_extends wave_advances waves (rs_waves st'))
    as [Hw2 Ew2].
  { destruct (kind_startswith "wave" (kind e)); [by eapply record_wave_status_ok|]. by rewrite Vw. }
  assert (executions_ok (rs_trials st) (rs_executions st') /\
          dict_extends execution_advances (rs_executions st) (rs_executions st') /\
          spend' - execution_spend (rs_executions st') =
            spend - execution_spend (rs_executions st) + recorded_amount e) as (Hx2 & Ex & Hsum).
  { destruct Vx as [(Hkd & H & ->)|[(Hkd & amount & H & ->)|(Hkd & -> & ->)]].
    - destruct (start_execution_ok _ _ _ _ Hx H) as (? & ? & ->). split_and!; [done|done|].
      rewrite recorded_amount_zero by congruence. lia.
    - destruct (finish_execution_ok _ _ _ _ _ Hx H) as (? & ? & ->). split_and!; [done|done|].
      rewrite recorded_amount_zero by (intros E; by rewrite E in Hkd). lia.
    - split_and!; [done|reflexivity|lia]. }
  split_and!; [|split; try done; by etransitivity|done].
  assert (dict_keyed tr_trial_id (rs_trials st') /\
          (forall k t, dict_get (rs_trials st') k = Some t -> trial_idle t)) as [Hk' Hi'].
  { destruct Vt as [(s & Hs & H)|[_ ->]]; [|done]. by eapply record_trial_status_ok. }
  split; [by eapply executions_ok_trials|by eapply waves_ok_shards|done|done].
Qed.

Lemma recovery_fold_ok l st spend st' spend' :
  recovery_ok st spend -> foldM recovery_step (st, spend) l = Ok (st', spend') ->
  recovery_ok st' spend' /\ recovery_extends st st' /\
  spend' - execution_spend (rs_executions st') =
    spend - execution_spend (rs_executions st) + sum_z (map recorded_amount l).
Proof.
  revert st spend. induction l as [|e l IH]; intros st spend Hok H; cbn [foldM map] in *.
  { injection H as <- <-. split_and!; [done|reflexivity|]. unfold sum_z. cbn. lia. }
  apply result_bind_Ok in H as ([st1 spend1] & H1 & H).
  destruct (recovery_step_ok _ _ _ _ _ Hok H1) as (Hok1 & Hext1 & Hsum1).
  destruct (IH _ _ Hok1 H) as (Hok2 & Hext2 & Hsum2).
  split_and!; [done|by etransitivity|].
  change (sum_z (recorded_amount e :: map recorded_amount l))
    with (recorded_amount e + sum_z (map recorded_amount l)). lia.
Qed.

(** A dictionary comprehension files values under their own key when its pairs do. *)
Lemma dict_update_keyed {V} (f : V -> string) (l : list (string * V)) (d : dict V) :
  dict_keyed f d -> Forall (fun e => f e.2 = e.1) l -> dict_keyed f (dict_update d l).
Proof.
  unfold dict_update. revert d. induction l as [|[k v] l IH]; intros d Hd Hl; cbn; [done|].
  apply Forall_cons in Hl as [Hv Hl]. apply IH; [|done]. by apply dict_keyed_set.
Qed.

Lemma dict_update_values {V} (P : V -> Prop) (l : list (string * V)) (d : dict V) :
  (forall k v, dict_get d k = Some v -> P v) -> Forall (fun e => P e.2) l ->
  forall k v, dict_get (dict_update d l) k = Some v -> P v.
Proof.
  unfold dict_update. revert d. induction l as [|[k0 v0] l IH]; intros d Hd Hl; cbn; [done|].
  apply Forall_cons in Hl as [Hv Hl]. apply IH; [|done]. intros k v. rewrite dict_get_set.
  destruct (String.eqb k0 k); [by intros [= <-]|apply Hd].
Qed.

Lemma Forall_concat_map {A B} (P : B -> Prop) (f : A -> list B) l :
  (forall x, Forall P (f x)) -> Forall P (concat (map f l)).
Proof. intros H. induction l as [|x l IH]; cbn; [constructor|]. by apply Forall_app. Qed.

Lemma Forall_map_intro {A B} (P : B -> Prop) (f : A -> B) l :
  (forall x, P (f x)) -> Forall P (map f l).
Proof. intros H. induction l; cbn; constructor; auto. Qed.

Lemma recovery_ok_initial lock : recovery_ok (initial_state lock) 0.
Proof.
  split.
  - apply executions_ok_nil.
  - split; [apply dict_keyed_nil|done].
  - apply dict_update_keyed; [apply dict_keyed_nil|].
    apply Forall_concat_map. intros run. apply Forall_concat_map. intros shard.
    by apply Forall_map_intro.
  - apply (dict_update_values trial_idle); [done|].
    apply Forall_concat_map. intros run. apply Forall_concat_map. intros shard.
    apply Forall_map_intro. by repeat split.
Qed.

(** ** Retry delays *)
Lemma retry_jitter_bounds i c n : 75 <= retry_jitter i c n <= 125.
Proof.
  unfold retry_jitter. pose proof (sha256_first_byte_bounds (i +:+ ":" +:+ category_name c +:+ ":" +:+ pretty n)).
  generalize dependent (sha256_first_byte (i +:+ ":" +:+ category_name c +:+ ":" +:+ pretty n)).
  intros b Hb. assert (0 <= b * 50 / 255 <= 50); [|lia].
  split; [apply Z.div_pos; lia|]. apply Z.div_le_upper_bound; lia.
Qed.

Lemma retry_raw_bounds policy c n :
  1 <= retry_base_seconds policy -> 1 <= n ->
  retry_base_seconds policy <= retry_raw_seconds policy c n.
Proof.
  intros Hb Hn. unfold retry_raw_seconds.
  assert (1 <= 2 ^ Z.min (n - 1) 30).
  { change 1 with (2 ^ 0). apply Z.pow_le_mono_r; lia. }
  destruct c; nia.
Qed.

(** ** Deriving a trial *)
Lemma sort_by_attempt_elem e l : e ∈ sort_by_attempt l <-> e ∈ l.
Proof. apply sort_by_elem_of. Qed.

Lemma dict_update_nodup {V} (l : list (string * V)) (d : dict V) :
  NoDup (map fst l) -> (forall k, k ∈ map fst l -> k ∉ dict_keys d) -> dict_update d l = d ++ l.
Proof.
  unfold dict_update. revert d. induction l as [|[k v] l IH]; intros d Hn Hd; cbn in *;
    [by rewrite app_nil_r|].
  apply NoDup_cons in Hn as [Hk Hn].
  rewrite dict_set_new by (apply Hd; by left). rewrite IH; [by rewrite <- app_assoc|done|].
  intros k' Hk'. unfold dict_keys. rewrite map_app. cbn. rewrite elem_of_app, list_elem_of_singleton.
  intros [Hin| ->]; [|done]. eapply Hd; [by right|exact Hin].
Qed.

Lemma dict_of_nodup {V} (l : list (string * V)) : NoDup (map fst l) -> dict_of l = l.
Proof. intros H. unfold dict_of. rewrite dict_update_nodup; [done|done|]. set_solver. Qed.

Lemma last_completed_spec l index :
  match last_completed index l with
  | None => existsb is_completed l = false
  | Some i => exists l0 e l1, l = l0 ++ e :: l1 /\ is_completed e = true /\
      existsb is_completed l1 = false /\ i = index + len l0
  end.
Proof.
  revert index. induction l as [|e l IH]; intros index; cbn; [done|].
  specialize (IH (index + 1)). destruct (last_completed (index + 1) l) as [i|].
  - destruct IH as (l0 & x & l1 & -> & Hx & Hl1 & ->). exists (e :: l0), x, l1.
    split_and!; try done. rewrite len_cons. lia.
  - destruct (is_completed e) eqn:E; [|done].
    exists [], e, l. split_and!; try done. unfold len. cbn. lia.
Qed.

(** The executions of a derived trial: attempts 1, 2, .. in order; when one of
    them completed, so did the last. *)
Definition attempts_ok (l : list ExecutionProjection) : Prop :=
  map ep_physical_attempt l = range1 (len l) /\
  (existsb is_completed l = true -> exists e, last l = Some e /\ is_completed e = true).

(** What a trial waiting for a retry is entitled to. *)
Definition retry_pending (lock : CampaignLock) (t : TrialProjection) : Prop :=
  exists latest category,
    last (dict_values (tr_executions t)) = Some latest /\ ep_status latest = exec_s_failed /\
    ep_category latest = Some category /\ is_retryable_category category = true /\
    len (tr_executions t) < max_physical_executions_per_trial (recovery_policy lock) /\
    is_Some (tr_retry_not_before t).

Definition trial_derived (lock : CampaignLock) (t : TrialProjection) : Prop :=
  attempts_ok (dict_values (tr_executions t)) /\
  (tr_status t = trial_s_retry_wait -> retry_pending lock t) /\
  (tr_status t = trial_s_active ->
     exists latest, last (dict_values (tr_executions t)) = Some latest /\ ep_status latest = exec_s_active).

Lemma failed_trial_state_ok lock e n status at_ :
  _failed_trial_state lock e n = Ok (status, at_) ->
  (status = trial_s_retry_wait /\ exists c, ep_category e = Some c /\ is_retryable_category c = true /\
     n < max_physical_executions_per_trial (recovery_policy lock) /\
     exists delay, retry_delay_seconds lock c (ep_physical_attempt e) (ep_execution_id e)
        (ep_retry_after_seconds e) = Ok delay /\ at_ = Some (ep_observed_at e + seconds delay)) \/
  (at_ = None /\
   ((status = trial_s_invalid /\ (ep_category e = Some category_agent \/ ep_category e = Some category_benchmark)) \/
    (status = trial_s_failed_infrastructure /\
     (ep_category e = None \/ exists c, ep_category e = Some c /\
       (is_retryable_category c = false \/
        max_physical_executions_per_trial (recovery_policy lock) <= n))))).
Proof.
  unfold _failed_trial_state. destruct (ep_category e) as [c|] eqn:Ec.
  2: { intros [= <- <-]. naive_solver. }
  intros H.
  assert (is_retryable_category c = true ->
    (if max_physical_executions_per_trial (recovery_policy lock) <=? n
     then Ok (trial_s_failed_infrastructure, None)
     else let* delay := retry_delay_seconds lock c (ep_physical_attempt e)
                        (ep_execution_id e) (ep_retry_after_seconds e) in
          Ok (trial_s_retry_wait, Some (ep_observed_at e + seconds delay))) = Ok (status, at_)) as Hret
    by (intros Hr; destruct c; (exact H || discriminate Hr)).
  destruct (is_retryable_category c) eqn:Er.
  - specialize (Hret eq_refl). clear H.
    destruct (Z.leb_spec (max_physical_executions_per_trial (recovery_policy lock)) n).
    + injection Hret as <- <-. naive_solver.
    + apply result_bind_Ok in Hret as (d & Hd & Heq). injection Heq as <- <-.
      left. split; [done|]. eauto 10.
  - right. clear Hret. destruct c; try discriminate Er; injection H as <- <-; naive_solver.
Qed.

Lemma map_fst_pairs {A B} (f : A -> B) (l : list A) : map fst (map (fun x => (f x, x)) l) = map f l.
Proof. rewrite map_map. done. Qed.

Lemma map_snd_pairs {A B} (f : A -> B) (l : list A) : map snd (map (fun x => (f x, x)) l) = l.
Proof. rewrite map_map. apply map_id. Qed.

Lemma len_map {A B} (f : A -> B) l : len (map f l) = len l.
Proof. unfold len. by rewrite length_map. Qed.

Lemma len_values {V} (d : dict V) : len (dict_values d) = len d.
Proof. apply len_map. Qed.

(** The identities of the executions handed to [_derive_trial] are distinct. *)
Definition distinct_executions (l : list ExecutionProjection) : Prop := NoDup (map ep_execution_id l).

Lemma last_Some_app {A} (l : list A) x : last l = Some x <-> exists l0, l = l0 ++ [x].
Proof. apply last_Some. Qed.

Lemma completed_last l :
  match last_completed 0 l with Some i => negb (i =? len l - 1) | None => false end = false ->
  existsb is_completed l = true -> exists e, last l = Some e /\ is_completed e = true.
Proof.
  intros H Hex. pose proof (last_completed_spec l 0) as Hl.
  destruct (last_completed 0 l) as [i|]; [|congruence].
  destruct Hl as (m0 & x & m1 & -> & Hx & Hm1 & ->). apply negb_false_iff, Z.eqb_eq in H.
  rewrite len_app, len_cons in H. destruct m1 as [|y m1].
  - exists x. split; [apply last_snoc|done].
  - rewrite len_cons in H. pose proof (len_nonneg m1). lia.
Qed.

Lemma execution_map_of l :
  distinct_executions l ->
  let ordered := sort_by_attempt l in
  let execution_map := dict_of (map (fun e => (ep_execution_id e, e)) ordered) in
  execution_map = map (fun e => (ep_execution_id e, e)) ordered /\
  dict_values execution_map = ordered.
Proof.
  intros Hd ordered execution_map.
  assert (execution_map = map (fun e => (ep_execution_id e, e)) ordered) as ->.
  { apply dict_of_nodup. rewrite map_fst_pairs.
    assert (map ep_execution_id ordered ≡ₚ map ep_execution_id l) as ->; [|done].
    apply Permutation_map, sort_by_perm. }
  split; [done|apply map_snd_pairs].
Qed.

Lemma derive_trial_ok lock trial l t :
  (l = [] -> tr_executions trial = []) -> tr_status trial <> trial_s_active ->
  tr_status trial <> trial_s_retry_wait ->
  distinct_executions l -> _derive_trial lock trial l = Ok t ->
  trial_derived lock t /\ tr_trial_id t = tr_trial_id trial /\ tr_shard_id t = tr_shard_id trial /\
  tr_logical_attempt t = tr_logical_attempt trial /\
  tr_executions t = map (fun e => (ep_execution_id e, e)) (sort_by_attempt l).
Proof.
  intros Hx Hact Hret Hd. destruct (execution_map_of l Hd) as [Hmap Hval].
  unfold _derive_trial. set (ordered := sort_by_attempt l) in *.
  set (execution_map := dict_of _) in *. intros H. inv_ok.
  apply negb_false_iff, bool_decide_eq_true in Hc.
  assert (attempts_ok ordered) as Hok by (split; [done|by apply completed_last]).
  assert (len execution_map = len ordered) as Hlen by (by rewrite Hmap, len_map).
  destruct (is_terminal (tr_status trial)) eqn:Ht.
  { injection H as <-. cbn. split; [|by split_and!]. unfold trial_derived; cbn [tr_executions tr_status trial_with].
    rewrite Hval. split_and!; [done|congruence|congruence]. }
  destruct (last ordered) as [latest|] eqn:El.
  2: { injection H as <-. apply last_None in El. rewrite El in *. cbn in *.
       assert (l = []) as Hl.
       { apply Permutation_nil_r. rewrite <- (sort_by_perm (fun x y =>
           ep_physical_attempt x <=? ep_physical_attempt y) l). by apply Permutation_refl'. }
       specialize (Hx Hl). split; [|by split_and!]. unfold trial_derived. rewrite Hx. cbn.
       by split_and!. }
  destruct (existsb is_completed ordered) eqn:Ec.
  { injection H as <-. cbn. split; [|by split_and!]. unfold trial_derived; cbn [tr_executions tr_status trial_with]. by rewrite Hval. }
  apply result_bind_Ok in H as ([status at_] & Hst & H). injection H as <-. cbn.
  split; [|by split_and!]. unfold trial_derived; cbn [tr_executions tr_status trial_with]. rewrite Hval. split; [done|].
  assert (is_completed latest = false) as Hnc.
  { apply last_Some in El as (l0 & El). rewrite El, existsb_app in Ec.
    apply orb_false_iff in Ec as [_ Ec]. cbn in Ec. by apply orb_false_iff in Ec as [? _]. }
  unfold is_completed in Hnc. apply bool_decide_eq_false in Hnc.
  destruct (ep_status latest) eqn:Es; try done; try (injection Hst as <- <-; split; [done|]; intros ?; first [discriminate|eauto]).
  apply failed_trial_state_ok in Hst as
    [(-> & c & Hcat & Hr & Hlt & delay & _ & ->)|(_ & [[-> _]|[-> _]])]; split; try done.
  intros _. exists latest, c. cbn [tr_executions tr_status trial_with tr_retry_not_before]. rewrite Hval, Hlen. split_and!; eauto.
Qed.

(** ** The derived tables *)
Definition trial_executions (x : dict ExecutionProjection) (trial_id : string)
    : list ExecutionProjection :=
  List.filter (fun e => String.eqb (ep_trial_id e) trial_id) (dict_values x).

(** The trials of a projection: filed by identifier, of the recorded shard,
    holding exactly the executions recorded for them in attempt order. *)
Definition trials_derived (lock : CampaignLock) (recorded : dict TrialProjection)
    (x : dict ExecutionProjection) (d : dict TrialProjection) : Prop :=
  dict_keys d = dict_keys recorded /\
  forall k t, dict_get d k = Some t ->
    exists r, dict_get recorded k = Some r /\ tr_trial_id t = k /\ tr_shard_id t = tr_shard_id r /\
      tr_logical_attempt t = tr_logical_attempt r /\ trial_derived lock t /\
      tr_executions t = map (fun e => (ep_execution_id e, e)) (sort_by_attempt (trial_executions x k)).

Lemma dict_mapM_get {V V'} (f : string -> V -> result V') (d : dict V) (d' : dict V') k w :
  dict_mapM f d = Ok d' -> dict_get d' k = Some w ->
  exists v, dict_get d k = Some v /\ f k v = Ok w.
Proof.
  intros H Hw. pose proof (dict_get_mapM f d d' k H) as Hg.
  destruct (dict_get d k) as [v|]; [|congruence]. destruct Hg as (w' & Hf & Hw'). simplify_eq. eauto.
Qed.

Lemma trial_executions_distinct trials x k :
  executions_ok trials x -> distinct_executions (trial_executions x k).
Proof. intros [Hk _ _ _]. apply NoDup_map_filter. by apply dict_keyed_distinct. Qed.

Lemma derive_trials_ok lock trials x d :
  executions_ok trials x -> dict_keyed tr_trial_id trials ->
  (forall k t, dict_get trials k = Some t -> trial_idle t) ->
  _derive_trials lock trials x = Ok d -> trials_derived lock trials x d.
Proof.
  intros Hx Hk Hi H. unfold _derive_trials in H. inv_ok.
  split; [by eapply dict_keys_mapM|]. intros k t Ht.
  destruct (dict_mapM_get _ _ _ _ _ H Ht) as (r & Hr & Hd).
  destruct (Hi _ _ Hr) as (H1 & _ & _ & H4 & H5).
  apply derive_trial_ok in Hd as (G1 & G2 & G3 & G4 & G5);
    [|done|done|done|by eapply trial_executions_distinct].
  exists r. split_and!; try done. rewrite G2. by apply Hk.
Qed.

(** *** Retry requests change no execution *)
Lemma request_set_get key t m k :
  request_time k (request_set key t m) = if decide (k = key) then Some t else request_time k m.
Proof.
  induction m as [|[k' t'] m IH]; cbn.
  - by repeat case_bool_decide; case_decide.
  - case_bool_decide as E; cbn; [subst k'|].
    + by repeat case_bool_decide; case_decide.
    + rewrite IH. repeat case_bool_decide; case_decide; congruence.
Qed.

Lemma requested_generations_time requested_at trial_id g :
  g ∈ requested_generations requested_at trial_id -> is_Some (request_time (trial_id, g) requested_at).
Proof.
  unfold requested_generations. intros ([[t' g'] at_] & -> & Hin)%list_elem_of_fmap.
  apply filter_elem_of in Hin as [Hin Ht]. cbn in Ht. apply String.eqb_eq in Ht as ->. cbn.
  induction requested_at as [|[k t] m IH]; [by apply elem_of_nil in Hin|]. cbn.
  case_bool_decide as E; [eauto|]. apply elem_of_cons in Hin as [Hin|Hin]; [congruence|auto].
Qed.

Lemma max_default_elem d l : l <> [] -> max_default d l ∈ l.
Proof.
  destruct l as [|x l]; [done|]. intros _. cbn.
  destruct (foldl_max_spec l x) as (_ & _ & [->|H]); [by left|by right].
Qed.

Lemma range1_sorted n : StronglySorted Z.le (range1 n).
Proof.
  unfold range1. generalize (Z.to_nat n). intros m. generalize 1%nat.
  induction m as [|m IH]; intros k; cbn; constructor; [apply IH|].
  apply Forall_forall. intros z (i & -> & Hi)%list_elem_of_fmap.
  apply list_elem_of_In, in_seq in Hi. lia.
Qed.

Lemma sorted_by_key {A} (f : A -> Z) (l : list A) :
  StronglySorted Z.le (map f l) -> StronglySorted (fun x y => (f x <=? f y) = true) l.
Proof.
  induction l as [|x l IH]; cbn; intros H; constructor; inversion H as [|? ? Hl Hx]; subst;
    [by apply IH|].
  apply Forall_forall. intros y Hy. apply Z.leb_le.
  eapply Forall_forall in Hx; [exact Hx|]. apply list_elem_of_In, in_map. by apply list_elem_of_In.
Qed.

Lemma sort_by_attempt_id l : attempts_ok l -> sort_by_attempt l = l.
Proof.
  intros [H _]. apply sort_by_id. apply sorted_by_key. rewrite H. apply range1_sorted.
Qed.

Lemma apply_retry_request_ok lock requested_at k t t' :
  trial_derived lock t -> distinct_executions (dict_values (tr_executions t)) ->
  apply_retry_request lock requested_at k t = Ok t' ->
  (t' = t \/ exists derived, _derive_trial lock
     (trial_with t trial_s_planned (tr_executions t) None None) (dict_values (tr_executions t)) = Ok derived /\
     tr_status t' = tr_status derived /\ tr_executions t' = tr_executions derived /\
     tr_trial_id t' = tr_trial_id derived /\ tr_shard_id t' = tr_shard_id derived /\
     tr_logical_attempt t' = tr_logical_attempt derived /\
     (is_Some (tr_retry_not_before derived) -> is_Some (tr_retry_not_before t'))).
Proof.
  intros Ht Hd H. unfold apply_retry_request in H.
  destruct (requested_generations requested_at k) as [|g gs] eqn:Eg; [injection H as <-; by left|].
  right. inv_ok. set (generation := max_default g (g :: gs)) in *.
  destruct (_ && _) eqn:E; injection H as <-; eauto 10.
  exists v. cbn. split_and!; try done. intros _. apply requested_generations_time. rewrite Eg.
  by apply (max_default_elem g (g :: gs)).
Qed.

Lemma trial_derived_time lock t t' :
  trial_derived lock t -> tr_status t' = tr_status t -> tr_executions t' = tr_executions t ->
  (is_Some (tr_retry_not_before t) -> is_Some (tr_retry_not_before t')) -> trial_derived lock t'.
Proof.
  intros (H1 & H2 & H3) Hs He Hr. unfold trial_derived, retry_pending in *. rewrite Hs, He.
  split_and!; [done| |done]. intros Hw. destruct (H2 Hw) as (l & c & ? & ? & ? & ? & ? & ?).
  exists l, c. split_and!; auto.
Qed.

Lemma apply_retry_request_derived lock requested_at k t t' :
  trial_derived lock t -> distinct_executions (dict_values (tr_executions t)) ->
  (exists l, tr_executions t = map (fun e => (ep_execution_id e, e)) l) ->
  apply_retry_request lock requested_at k t = Ok t' ->
  trial_derived lock t' /\ tr_trial_id t' = tr_trial_id t /\ tr_shard_id t' = tr_shard_id t /\
  tr_logical_attempt t' = tr_logical_attempt t /\ tr_executions t' = tr_executions t.
Proof.
  intros Ht Hd (l & Hl) H.
  apply apply_retry_request_ok in H as [->|(derived & Hder & Hs & He & Hi & Hsh & Hla & Hr)];
    [by split_and!| |done|done].
  apply derive_trial_ok in Hder as (G1 & G2 & G3 & G4 & G5); [| |done|done|done].
  - rewrite Hi, Hsh, Hla, He, G2, G3, G4, G5. cbn. split_and!; try done.
    + by eapply trial_derived_time.
    + rewrite sort_by_attempt_id by apply Ht. rewrite Hl at 2. rewrite Hl. f_equal.
      apply map_snd_pairs.
  - cbn. rewrite Hl. intros Hn. unfold dict_values in Hn. rewrite map_snd_pairs in Hn. by rewrite Hn.
Qed.

Lemma apply_retry_requests_ok lock events recorded x trials d :
  executions_ok recorded x -> trials_derived lock recorded x trials ->
  _apply_retry_requests lock events trials = Ok d -> trials_derived lock recorded x d.
Proof.
  intros Hx [Hk Ht] H. unfold _apply_retry_requests in H. inv_ok.
  split; [rewrite <- Hk; by eapply dict_keys_mapM|]. intros k t' Hg.
  destruct (dict_mapM_get _ _ _ _ _ H Hg) as (t & Hg' & Ha).
  destruct (Ht _ _ Hg') as (r & Hr & H1 & H2 & H3 & H4 & H5).
  assert (dict_values (tr_executions t) = sort_by_attempt (trial_executions x k)) as Hval
    by (rewrite H5; apply map_snd_pairs).
  assert (distinct_executions (dict_values (tr_executions t))) as Hd.
  { rewrite Hval. unfold distinct_executions.
    assert (map ep_execution_id (sort_by_attempt (trial_executions x k)) ≡ₚ
            map ep_execution_id (trial_executions x k)) as -> by (apply Permutation_map, sort_by_perm).
    by eapply trial_executions_distinct. }
  apply apply_retry_request_derived in Ha as (G1 & G2 & G3 & G4 & G5); [|done|done|eauto].
  exists r. split_and!; congruence.
Qed.

(** *** Shards and runs *)

(** When a child list has a scored terminal status, and which one. *)
Lemma scored_terminal_status_spec `{StatusName A} (statuses : list A) :
  match _scored_terminal_status statuses with
  | None => forallb is_scored statuses = false
  | Some scored => forallb is_scored statuses = true /\
      (scored = scored_complete <-> existsb (is_named "complete") statuses = true)
  end.
Proof.
  unfold _scored_terminal_status. destruct (forallb is_scored statuses); [|done]. cbn.
  destruct (existsb (is_named "complete") statuses); [done|].
  destruct (existsb (is_named "failed_infrastructure") statuses); (split; [done|]); by split.
Qed.

Lemma scored_is_terminal `{StatusName A} (s : A) : is_scored s = true -> is_terminal s = true.
Proof.
  unfold is_scored, is_terminal. rewrite !str_mem_true. unfold _SCORED_TERMINAL_STATUSES, _TERMINAL_STATUSES.
  set_solver.
Qed.

Lemma forallb_impl {A} (p q : A -> bool) l :
  (forall x, p x = true -> q x = true) -> forallb p l = true -> forallb q l = true.
Proof. intros H. rewrite !forallb_forall. auto. Qed.

Lemma observed_terminal_ok `{StatusName A, StatusName B} (observed : option A) (statuses : list B)
    subject (o : A) :
  _validate_observed_terminal observed statuses subject = Ok tt -> observed = Some o ->
  forallb is_terminal statuses = false -> is_terminal o = false.
Proof.
  intros Hv -> Hs. unfold _validate_observed_terminal in Hv.
  destruct (is_terminal o); [|done]. cbn in Hv. by rewrite Hs in Hv.
Qed.

(** The statuses of the trials of a shard, and of the shards of a run. *)
Definition shard_trial_statuses (trials : dict TrialProjection) (s : ShardProjection)
    : result (list TrialStatus) :=
  mapM (fun trial_id => let* t := dict_item trials trial_id in Ok (tr_status t)) (sh_trial_ids s).

Definition run_shard_statuses (shards : dict ShardProjection) (r : RunProjection)
    : result (list ShardStatus) :=
  mapM (fun shard_id => let* s := dict_item shards shard_id in Ok (sh_status s)) (rn_shard_ids r).

Lemma aggregate_shard_spec shard trials status :
  _aggregate_shard shard trials = Ok status ->
  exists statuses, shard_trial_statuses trials shard = Ok statuses /\
    is_terminal status = forallb is_terminal statuses /\
    (status = shard_s_complete <->
     forallb is_scored statuses = true /\ existsb (is_named "complete") statuses = true) /\
    (is_scored status = true <-> forallb is_scored statuses = true).
Proof.
  unfold _aggregate_shard. intros H.
  apply result_bind_Ok in H as (statuses & Hs & H). apply result_bind_Ok in H as ([] & Hv & H).
  exists statuses. split; [exact Hs|].
  pose proof (scored_terminal_status_spec statuses) as Hsc.
  destruct (_scored_terminal_status statuses) as [scored|].
  - injection H as <-. destruct Hsc as [Hall Hc]. rewrite Hall.
    rewrite (forallb_impl _ _ _ scored_is_terminal Hall). destruct scored; cbn; naive_solver.
  - rewrite Hsc. destruct (forallb is_terminal statuses) eqn:Ht.
    { injection H as <-. cbn. naive_solver. }
    assert (is_terminal status = false) as Hnt.
    { destruct (existsb (is_named "active") statuses); [by injection H as <-|].
      destruct (existsb (is_named "retry_wait") statuses); [by injection H as <-|].
      injection H as <-. destruct (sh_observed_status shard) as [o|] eqn:Ho; [|done].
      by eapply (observed_terminal_ok _ _ _ o Hv). }
    split; [done|]. split.
    + split; [|naive_solver]. intros ->. discriminate Hnt.
    + split; [|done]. intros Hsc'. by rewrite (scored_is_terminal _ Hsc') in Hnt.
Qed.

Lemma aggregate_run_spec run shards status :
  _aggregate_run run shards = Ok status ->
  exists statuses, run_shard_statuses shards run = Ok statuses /\
    is_terminal status = forallb is_terminal statuses /\
    (status = run_s_complete <->
     forallb is_scored statuses = true /\ existsb (is_named "complete") statuses = true) /\
    (is_scored status = true <-> forallb is_scored statuses = true).
Proof.
  unfold _aggregate_run. intros H.
  apply result_bind_Ok in H as (statuses & Hs & H). apply result_bind_Ok in H as ([] & Hv & H).
  exists statuses. split; [exact Hs|].
  pose proof (scored_terminal_status_spec statuses) as Hsc.
  destruct (_scored_terminal_status statuses) as [scored|].
  - injection H as <-. destruct Hsc as [Hall Hc]. rewrite Hall.
    rewrite (forallb_impl _ _ _ scored_is_terminal Hall). destruct scored; cbn; naive_solver.
  - rewrite Hsc. destruct (forallb is_terminal statuses) eqn:Ht.
    { injection H as <-. cbn. naive_solver. }
    assert (is_terminal status = false) as Hnt.
    { destruct (existsb _ statuses); [by injection H as <-|].
      injection H as <-. destruct (rn_observed_status run) as [o|] eqn:Ho; [|done].
      by eapply (observed_terminal_ok _ _ _ o Hv). }
    split; [done|]. split.
    + split; [|naive_solver]. intros ->. discriminate Hnt.
    + split; [|done]. intros Hsc'. by rewrite (scored_is_terminal _ Hsc') in Hnt.
Qed.

(** The derived shards and runs: the recorded ones with the aggregated status. *)
Definition shards_derived (recorded d : dict ShardProjection) (trials : dict TrialProjection) : Prop :=
  dict_keys d = dict_keys recorded /\
  forall k s, dict_get d k = Some s -> exists r status, dict_get recorded k = Some r /\
    _aggregate_shard r trials = Ok status /\ s = shard_with_status r status.

Definition runs_derived (recorded d : dict RunProjection) (shards : dict ShardProjection) : Prop :=
  dict_keys d = dict_keys recorded /\
  forall k r', dict_get d k = Some r' -> exists r status, dict_get recorded k = Some r /\
    _aggregate_run r shards = Ok status /\ r' = run_with_status r status.

Lemma derive_shards_ok shards trials d :
  _derive_shards shards trials = Ok d -> shards_derived shards d trials.
Proof.
  intros H. split; [by eapply dict_keys_mapM|]. intros k s Hs.
  destruct (dict_mapM_get _ _ _ _ _ H Hs) as (r & Hr & Hd). cbn in Hd. inv_ok. eauto.
Qed.

Lemma derive_runs_ok runs shards d :
  _derive_runs runs shards = Ok d -> runs_derived runs d shards.
Proof.
  intros H. split; [by eapply dict_keys_mapM|]. intros k s Hs.
  destruct (dict_mapM_get _ _ _ _ _ H Hs) as (r & Hr & Hd). cbn in Hd. inv_ok. eauto.
Qed.

(** *** Counting *)
Definition counts_total (c : ProjectionCounts) : Z :=
  pc_planned c + pc_active c + pc_retrying c + pc_complete c + pc_invalid c + pc_failed c +
  pc_cancelled c.

Lemma counts_partition trials : counts_total (_counts trials) = len trials.
Proof.
  unfold counts_total, _counts. cbn. rewrite <- (len_values trials).
  induction (dict_values trials) as [|t l IH]; [done|].
  rewrite !count_if_cons, len_cons. unfold trial_has_status at 1 3 5 7 9 11 13.
  destruct (tr_status t); bd_const; lia.
Qed.

Lemma terminal_counts_total campaign c : counts_total (_terminal_counts campaign c) = counts_total c.
Proof. unfold counts_total, _terminal_counts. destruct (proj_status campaign); cbn; lia. Qed.

Lemma physical_retries_spec trials :
  pc_physical_retries (_counts trials) =
  sum_z (map (fun t => Z.max 0 (len (tr_executions t) - 1)) (dict_values trials)).
Proof.
  unfold _counts. cbn. assert (forall l : list TrialProjection,
    sum_z (map (fun t => len (tr_executions t)) l) -
    count_if (fun t => negb (is_nil (tr_executions t))) l =
    sum_z (map (fun t => Z.max 0 (len (tr_executions t) - 1)) l) /\
    0 <= sum_z (map (fun t => Z.max 0 (len (tr_executions t) - 1)) l)) as H.
  { induction l as [|t l [IH1 IH2]]; [done|]. rewrite count_if_cons.
    change (sum_z (map (fun t => len (tr_executions t)) (t :: l))) with
      (len (tr_executions t) + sum_z (map (fun t => len (tr_executions t)) l)).
    change (sum_z (map (fun t => Z.max 0 (len (tr_executions t) - 1)) (t :: l))) with
      (Z.max 0 (len (tr_executions t) - 1) +
       sum_z (map (fun t => Z.max 0 (len (tr_executions t) - 1)) l)).
    destruct (tr_executions t) as [|e es]; cbn [is_nil negb]; [unfold len at 1 3; cbn; lia|].
    rewrite len_cons. pose proof (len_nonneg es). lia. }
  destruct (H (dict_values trials)). lia.
Qed.

(** *** The decision *)
Lemma forallb_dict_values {V} (p : V -> bool) (d : dict V) k v :
  forallb p (dict_values d) = true -> dict_get d k = Some v -> p v = true.
Proof.
  intros H Hk. rewrite forallb_forall in H. apply H. apply list_elem_of_In, dict_values_elem.
  exists k. by apply dict_get_in.
Qed.

Record decision_sound (campaign : CampaignProjection) (runs : dict RunProjection)
    (trials : dict TrialProjection) (waves : dict WaveProjection) (d : TerminalDecision) : Prop := {
  sound_waves k w : dict_get waves k = Some w -> wv_status w = wave_s_closed;
  sound_actions a : a ∈ dict_values (proj_actions campaign) ->
    is_wave_action_kind (ap_action_kind a) = true -> ap_status a <> status_failed ->
    exists w, dict_get waves ("wave-" +:+ ap_action_key a) = Some w /\ wv_status w = wave_s_closed;
  sound_trials k t : dict_get trials k = Some t ->
    is_terminal (tr_status t) = true \/
    (campaign_is_cancelling (proj_status campaign) = true /\
     (tr_status t = trial_s_planned \/ tr_status t = trial_s_retry_wait));
  sound_completed : td_status d = terminal_completed <->
    dict_values runs <> [] /\ forall r, r ∈ dict_values runs -> rn_status r = run_s_complete;
}.

Lemma is_named_run_complete r : is_named "complete" r = true <-> r = run_s_complete.
Proof. by destruct r. Qed.

Lemma terminal_decision_sound lock campaign runs trials waves counts d :
  campaign_status_is_terminal (proj_status campaign) = false ->
  _terminal_decision lock campaign runs trials waves counts = Some d ->
  decision_sound campaign runs trials waves d /\
  td_counts d = _terminal_counts campaign counts.
Proof.
  intros Hnt. unfold _terminal_decision.
  assert (terminal_status_of_campaign (proj_status campaign) = None) as ->
    by (by destruct (proj_status campaign)).
  destruct (_cleanup_is_complete campaign waves) eqn:Ec; [|done]. cbn [negb].
  destruct (forallb _ (dict_values trials)) eqn:Et; [|done]. cbn [negb].
  set (run_statuses := map rn_status (dict_values runs)). intros H.
  assert ((td_status d = terminal_completed <->
           negb (is_nil run_statuses) && forallb (is_named "complete") run_statuses = true) /\
          td_counts d = _terminal_counts campaign counts) as [Hd Hcounts].
  { destruct (negb (is_nil run_statuses) && forallb (is_named "complete") run_statuses);
      [by injection H as <-|].
    repeat case_match; simplify_eq; by split. }
  split; [|done]. unfold _cleanup_is_complete in Ec. apply andb_true_iff in Ec as [Ea Ew]. split.
  - intros k w Hk. pose proof (forallb_dict_values _ _ _ _ Ew Hk) as Hw. by apply bool_decide_eq_true in Hw.
  - intros a Ha Hkind Hst. rewrite forallb_forall in Ea.
    specialize (Ea a). rewrite <- list_elem_of_In in Ea. specialize (Ea Ha).
    rewrite Hkind, bool_decide_false in Ea by done. cbn in Ea.
    destruct (dict_get waves _) as [w|]; [|done]. rewrite negb_involutive in Ea.
    exists w. split; [done|]. by apply bool_decide_eq_true in Ea.
  - intros k t Hk. pose proof (forallb_dict_values _ _ _ _ Et Hk) as Ht. cbn in Ht.
    apply orb_true_iff in Ht as [Ht|Ht]; [by left|right].
    apply andb_true_iff in Ht as [Hc Ht]. split; [done|].
    apply orb_true_iff in Ht. unfold trial_has_status in Ht. rewrite !bool_decide_eq_true in Ht. done.
  - rewrite Hd, andb_true_iff, forallb_forall. unfold run_statuses. split.
    + intros [H1 H2]. split; [by destruct (dict_values runs)|]. intros r Hr.
      apply is_named_run_complete, H2. apply in_map. by apply list_elem_of_In.
    + intros [H1 H2]. split; [by destruct (dict_values runs)|].
      intros s (r & <- & Hr)%in_map_iff. apply is_named_run_complete, H2. by apply list_elem_of_In.
Qed.

(** ** The whole projection *)
Record projection_parts (lock : CampaignLock) (events : list CampaignEvent)
    (p : RecoveryProjection) (c : CampaignProjection) (l : list CampaignEvent)
    (st : recovery_state) : Prop := {
  part_campaign : project_campaign lock events = Ok c;
  part_ordered : ordered_events events = Ok l;
  part_fold : foldM recovery_step (initial_state lock, 0) l = Ok (st, rp_spend_microusd p);
  part_ok : recovery_ok st (rp_spend_microusd p);
  part_extends : recovery_extends (initial_state lock) st;
  part_executions : rp_executions p = rs_executions st;
  part_waves : rp_waves p = rs_waves st;
  part_trials : trials_derived lock (rs_trials st) (rs_executions st) (rp_trials p);
  part_shards : shards_derived (rs_shards st) (rp_shards p) (rp_trials p);
  part_runs : runs_derived (rs_runs st) (rp_runs p) (rp_shards p);
  part_counts : rp_counts p = _counts (rp_trials p);
  part_status :
    proj_status (rp_campaign p) =
      let s := if negb (campaign_status_is_terminal (proj_status c)) &&
                  existsb (fun w => bool_decide (wv_status w = wave_s_cleanup_failed))
                    (dict_values (rp_waves p))
               then campaign_status_manual_intervention else proj_status c in
      if bool_decide (s = campaign_status_queued) &&
         (negb (is_nil (rp_executions p)) || negb (is_nil (rp_waves p)))
      then campaign_status_active else s;
  part_campaign_rest :
    proj_actions (rp_campaign p) = proj_actions c /\
    proj_campaign_id (rp_campaign p) = proj_campaign_id c /\
    proj_last_observed_at (rp_campaign p) = proj_last_observed_at c;
  part_decision : rp_terminal_decision p =
    _terminal_decision lock (rp_campaign p) (rp_runs p) (rp_trials p) (rp_waves p) (rp_counts p);
}.

Lemma project_recovery_ok lock events p :
  project_recovery lock events = Ok p -> exists c l st, projection_parts lock events p c l st.
Proof.
  unfold project_recovery. intros H.
  apply result_bind_Ok in H as (c & Hc & H). apply result_bind_Ok in H as (l & Hl & H).
  apply result_bind_Ok in H as ([st spend] & Hf & H).
  apply result_bind_Ok in H as (trials0 & Ht0 & H). apply result_bind_Ok in H as (trials & Ht & H).
  apply result_bind_Ok in H as (shards & Hs & H). apply result_bind_Ok in H as (runs & Hr & H).
  injection H as <-. exists c, l, st.
  destruct (recovery_fold_ok _ _ _ _ _ (recovery_ok_initial lock) Hf) as (Hok & Hext & _).
  split; cbn; try done.
  - eapply apply_retry_requests_ok; [apply Hok| |exact Ht].
    eapply derive_trials_ok; [apply Hok..|exact Ht0].
  - by apply derive_shards_ok.
  - by apply derive_runs_ok.
  - destruct (negb _ && _); cbn; by destruct (bool_decide _ && _).
  - destruct (negb _ && _); cbn; by destruct (bool_decide _ && _).
Qed.

Lemma project_recovery_ext lock e1 e2 :
  (forall e, e ∈ e1 <-> e ∈ e2) -> project_recovery lock e1 = project_recovery lock e2.
Proof.
  intros H. unfold project_recovery, _apply_retry_requests.
  by rewrite (project_campaign_ext lock e1 e2 H), (ordered_events_ext e1 e2 H).
Qed.

(** Cancellation seen by the recovery projection. *)
Lemma project_recovery_stopped lock events p :
  project_recovery lock events = Ok p -> work_is_stopped events ->
  stopping_or_terminal (proj_status (rp_campaign p)) = true.
Proof.
  intros (c & l & st & Hp)%project_recovery_ok Hw.
  pose proof (project_campaign_stopped _ _ _ (part_campaign _ _ _ _ _ _ Hp) Hw) as Hs.
  rewrite (part_status _ _ _ _ _ _ Hp). cbn. destruct (negb _ && _); [done|].
  by destruct (proj_status c).
Qed.

(** ** Sealing *)
Lemma max_by_attempt_elem best l : max_by_attempt best l = best \/ max_by_attempt best l ∈ l.
Proof.
  revert best. induction l as [|e l IH]; intros best; cbn; [by left|].
  destruct (IH (if ep_physical_attempt best <? ep_physical_attempt e then e else best)) as [->|H].
  - destruct (_ <? _); [right; by left|by left].
  - right. by right.
Qed.

Lemma max_by_attempt_max best l e :
  e = best \/ e ∈ l -> ep_physical_attempt e <= ep_physical_attempt (max_by_attempt best l).
Proof.
  revert best e. induction l as [|x l IH]; intros best e; cbn.
  { intros [->|H]; [lia|by apply elem_of_nil in H]. }
  intros H. destruct (Z.ltb_spec (ep_physical_attempt best) (ep_physical_attempt x)) as [Hlt|Hge].
  - destruct H as [->|[->|H]%elem_of_cons]; [|apply IH; by left|apply IH; by right].
    etransitivity; [|apply (IH x x); by left]. lia.
  - destruct H as [->|[->|H]%elem_of_cons]; [apply IH; by left| |apply IH; by right].
    etransitivity; [|apply (IH best best); by left]. lia.
Qed.

(** The trial a seal writes: an exhausted retry keeps its evidence and is scored
    by the category of its last failed execution. *)
Definition sealed_trial (t t' : TrialProjection) : Prop :=
  tr_status t = trial_s_retry_wait /\ tr_executions t' = tr_executions t /\
  tr_trial_id t' = tr_trial_id t /\ tr_shard_id t' = tr_shard_id t /\ tr_retry_not_before t' = None /\
  exists latest category, latest ∈ dict_values (tr_executions t) /\
    (forall e, e ∈ dict_values (tr_executions t) -> ep_physical_attempt e <= ep_physical_attempt latest) /\
    ep_status latest = exec_s_failed /\ ep_category latest = Some category /\
    (tr_status t', tr_outcome t') =
      match category with
      | category_agent => (trial_s_invalid, Some outcome_agent_failed)
      | category_benchmark => (trial_s_invalid, Some outcome_benchmark_failed)
      | _ => (trial_s_failed_infrastructure, Some outcome_infrastructure_exhausted)
      end.

Lemma seal_retry_wait_trial_ok t t' : _seal_retry_wait_trial t = Ok t' -> sealed_trial t t'.
Proof.
  unfold _seal_retry_wait_trial, sealed_trial.
  destruct (dict_values (tr_executions t)) as [|e es] eqn:E; [done|]. intros H. inv_ok.
  apply negb_false_iff, bool_decide_eq_true in Hc.
  destruct (ep_category (max_by_attempt e es)) as [c|] eqn:Ec; [|done]. inv_ok.
  apply negb_false_iff, bool_decide_eq_true in Hc0. cbn. split_and!; try done.
  exists (max_by_attempt e es), c. split_and!; try done.
  - destruct (max_by_attempt_elem e es) as [->|H]; [by left|by right].
  - intros x Hx. apply max_by_attempt_max. by apply elem_of_cons.
  - by destruct c.
Qed.

Lemma sealed_trial_scored t t' : sealed_trial t t' -> is_scored (tr_status t') = true.
Proof.
  intros (_ & _ & _ & _ & _ & latest & c & _ & _ & _ & _ & H). by destruct c; injection H as -> _.
Qed.
