(* ===== verification/ObserverFacts.v ===== *)
(** Lemmas on observation: what a reader of evidence promises, and what the
    events of a wave or an execution rest on. *)
From S2P Require Import Prelude.
From S2P Require Import PyDict.
From S2P Require Import Json.
From S2P Require Import Sha256.
From S2P Require Import PyText.
From S2P Require Import Campaigns.
From S2P Require Import Models.
From S2P Require Import Hub.
From S2P Require Import Waves.
From S2P Require Import Control.
From S2P Require Import ControlFacts.
From S2P Require Import Observer.

(** ** What a reader promises

    What was read stays the content of its path: [later] relates a world to
    those in which no refresh intervened. *)
Class EvidenceReaderLaws (W : Type) `{EvidenceReader W} (later : W -> W -> Prop) := {
  evidence_later_preorder :: PreOrder later;
  evidence : W -> string -> string -> string -> string -> Prop;
  evidence_later w w' b p x c : later w w' -> evidence w b p x c -> evidence w' b p x c;
  evidence_unique w b p x c c' : evidence w b p x c -> evidence w b p x c' -> c = c';
  list_files_keeps b p : keeps later (list_files b p);
  read_bytes_keeps b p x : keeps later (read_bytes b p x);
  prefetch_keeps f b p xs : prefetch_files = Some f -> keeps later (f b p xs);
  read_bytes_law b p x w c w' : read_bytes b p x w = (Ok c, w') -> evidence w' b p x c;
}.

(** An event made from evidence. *)
Lemma observed_event_ok campaign st sid k p t identity e :
  observed_event campaign st sid k p t identity = Ok e ->
  event_valid e = true /\ subject_type e = st /\ subject_id e = sid /\ kind e = k /\ payload e = p /\
  observed_at e = t /\ producer e = producer_wave_controller /\
  event_id e = "evt-" +:+ sha256_hex_prefix 32 (campaign_id campaign +:+ ":" +:+ identity).
Proof. unfold observed_event, new_event. intros E. inv_ok. apply negb_false_iff in Hc. by split_and!. Qed.

Lemma checked_payload_ok p q : checked_payload p = Ok q -> q = p.
Proof. unfold checked_payload. intros E. by inv_ok. Qed.

Section events.
Context `{EvidenceParsers}.

(** Of the terminal markers exactly [marker] lies in the directory [prefix]. *)
Definition sole_marker (paths : list string) (prefix marker : string) : Prop :=
  marker ∈ ["_SUCCESS"; "_FAILED"; "_CANCELLED"] /\
  forall m, m ∈ ["_SUCCESS"; "_FAILED"; "_CANCELLED"] ->
    ((exists path, path ∈ paths /\ parent_of path = prefix /\ name_of path = m) <-> m = marker).

Lemma terminal_marker_ok paths prefix marker :
  _terminal_marker paths prefix = Ok (Some marker) -> sole_marker paths prefix marker.
Proof.
  unfold _terminal_marker. set (markers := map name_of _).
  assert (Hm : forall m, m ∈ remove_dups markers <->
    m ∈ ["_SUCCESS"; "_FAILED"; "_CANCELLED"] /\ exists path, path ∈ paths /\ parent_of path = prefix /\ name_of path = m).
  { intros m. rewrite elem_of_remove_dups. unfold markers. rewrite list_elem_of_fmap. split.
    - intros (path & -> & [Hin [Hp Hn]%andb_true_iff]%filter_elem_of). apply String.eqb_eq in Hp.
      apply str_mem_true in Hn. split; [exact Hn|by exists path].
    - intros (Hn & path & Hin & Hp & <-). exists path. split; [done|]. apply filter_elem_of. split; [done|].
      apply andb_true_iff. split; [by apply String.eqb_eq|by apply str_mem_true]. }
  destruct (remove_dups markers) as [|m [|]] eqn:E; try done. intros [= ->].
  split; [by apply Hm; left|]. intros m' Hm'. split.
  - intros Hx. assert (Hin : m' ∈ [marker]) by (apply Hm; by split). by apply list_elem_of_singleton in Hin.
  - intros ->. by apply Hm; left.
Qed.

(** The lock of an execution names the campaign and one of its trials, and lies at
    the path of that trial. *)
Definition execution_of (campaign : CampaignLock) (execution : ExecutionLock) (path : string) : Prop :=
  exists run shard trial, run ∈ runs campaign /\ shard ∈ rl_shards run /\ trial ∈ sl_trials shard /\
    xl_campaign_id execution = campaign_id campaign /\ xl_run_id execution = rl_run_id run /\
    xl_shard_id execution = sl_shard_id shard /\ xl_trial_id execution = tl_trial_id trial /\
    xl_task_name execution = tl_task_name trial /\ xl_task_digest execution = tl_task_digest trial /\
    xl_logical_attempt execution = tl_logical_attempt trial /\
    path = "runs/" +:+ rl_run_id run +:+ "/trials/" +:+ tl_trial_id trial +:+ "/executions/" +:+
           xl_execution_id execution +:+ "/execution.lock.json".

(** The events of an execution: its start and the outcome its marker says. *)
Definition outcome_kind (marker : string) : EventKind :=
  if String.eqb marker "_SUCCESS" then execution_completed
  else if String.eqb marker "_CANCELLED" then execution_cancelled else execution_failed.

Definition is_execution_event (execution : ExecutionLock) (marker : string) (e : CampaignEvent) : Prop :=
  subject_type e = subject_execution /\ subject_id e = xl_execution_id execution /\
  ((kind e = execution_started /\ payload e = payload_execution_started {|
      es_trial_id := xl_trial_id execution; es_shard_id := xl_shard_id execution;
      es_physical_attempt := xl_physical_attempt execution; es_wave_id := Some (xl_wave_id execution);
      es_estimated_cost_microusd := 0 |}) \/
   (kind e = outcome_kind marker /\ exists category message,
      payload e = payload_execution_outcome {|
        eo_trial_id := xl_trial_id execution; eo_physical_attempt := xl_physical_attempt execution;
        eo_category := category; eo_spend_microusd := 0; eo_retry_after_seconds := None;
        eo_message := message |} /\
      (category = None <-> outcome_kind marker <> execution_failed))).

Lemma outcome_of_marker_ok marker failure k category :
  outcome_of_marker marker failure = Ok (k, category) ->
  k = outcome_kind marker /\ (category = None <-> outcome_kind marker <> execution_failed).
Proof.
  unfold outcome_of_marker, outcome_kind. destruct (String.eqb marker "_SUCCESS"); [by intros [= <- <-]|].
  destruct (String.eqb marker "_CANCELLED"); [by intros [= <- <-]|].
  destruct failure as [c|]; [|done]. intros [= <- <-]. split; [done|]. split; [done|]. by intros [].
Qed.

Lemma execution_control_events_ok campaign execution marker records message failure events :
  _execution_control_events campaign execution marker records message failure = Ok events ->
  Forall (fun e => is_execution_event execution marker e /\ event_valid e = true /\
                   producer e = producer_wave_controller) events.
Proof.
  unfold _execution_control_events. intros E.
  apply result_bind_Ok in E as (started & _ & E). apply result_bind_Ok in E as (finished & _ & E).
  apply result_bind_Ok in E as (p & ->%checked_payload_ok & E).
  apply result_bind_Ok in E as (start & Hs%observed_event_ok & E).
  apply result_bind_Ok in E as ([k category] & (-> & Hc)%outcome_of_marker_ok & E).
  apply result_bind_Ok in E as (q & ->%checked_payload_ok & E).
  apply result_bind_Ok in E as (outcome & Ho%observed_event_ok & E). injection E as <-.
  destruct Hs as (? & ? & ? & ? & ? & _ & ? & _), Ho as (? & ? & ? & ? & ? & _ & ? & _).
  apply Forall_cons. split; [|apply Forall_singleton]; unfold is_execution_event; split_and!; try done;
    [by left|right]. split; [done|]. by exists category, message.
Qed.

(** The events of a wave: started, and either a failed cleanup or its closing. *)
Definition is_wave_event (wave : WaveLock) (e : CampaignEvent) : Prop :=
  subject_type e = subject_wave /\ subject_id e = wl_wave_id wave /\
  kind e ∈ [wave_active; wave_cleanup_failed; wave_cleaning; wave_closed] /\
  exists p, payload e = payload_wave p /\ Control.wl_deployment_digest p = Waves.wl_deployment_digest wave /\
    Control.wl_shard_ids p = Waves.wl_shard_ids wave.

Lemma wave_events_ok campaign wave marker records events :
  _wave_events campaign wave marker records = Ok events ->
  Forall (fun e => is_wave_event wave e /\ event_valid e = true /\ producer e = producer_wave_controller) events.
Proof.
  unfold _wave_events. intros E. apply result_bind_Ok in E as (p & Ep & E).
  assert (Hp : exists q, p = payload_wave q /\ Control.wl_deployment_digest q = Waves.wl_deployment_digest wave /\
            Control.wl_shard_ids q = Waves.wl_shard_ids wave).
  { unfold observed_wave_payload in Ep. apply result_bind_Ok in Ep as (provider & _ & Ep).
    apply result_bind_Ok in Ep as (cost & _ & ->%checked_payload_ok). by eexists. }
  assert (Hev : forall k t suffix e, k ∈ [wave_active; wave_cleanup_failed; wave_cleaning; wave_closed] ->
            observed_event campaign subject_wave (wl_wave_id wave) k p t (wl_wave_id wave +:+ suffix) = Ok e ->
            is_wave_event wave e /\ event_valid e = true /\ producer e = producer_wave_controller).
  { intros k t suffix e Hk (Hv & ? & ? & He & Hpe & _ & ? & _)%observed_event_ok.
    unfold is_wave_event. rewrite He, Hpe. by split_and!. }
  clear Ep Hp. apply result_bind_Ok in E as (active & _ & E). apply result_bind_Ok in E as (finished & _ & E).
  apply result_bind_Ok in E as (started & Hs & E). apply result_bind_Ok in E as (incomplete & _ & E).
  apply Hev in Hs; [|set_solver]. destruct incomplete.
  - apply result_bind_Ok in E as (failed & Hf & E). injection E as <-. apply Hev in Hf; [|set_solver].
    by apply Forall_cons_2, Forall_singleton.
  - apply result_bind_Ok in E as (requested & _ & E). apply result_bind_Ok in E as (ce & Hce & E).
    apply result_bind_Ok in E as (cl & Hcl & E). injection E as <-.
    apply Hev in Hce; [|set_solver]. apply Hev in Hcl; [|set_solver].
    by apply Forall_cons_2, Forall_cons_2, Forall_singleton.
Qed.

Lemma validate_execution_identity_ok campaign execution path u :
  _validate_execution_identity campaign execution path = Ok u ->
  execution_of campaign execution path.
Proof.
  unfold _validate_execution_identity. intros E. inv_ok. apply negb_false_iff, existsb_exists in Hc.
  destruct Hc as (run & Hr & (shard & Hs & (trial & Ht & Hm)%existsb_exists)%existsb_exists).
  unfold execution_matches in Hm. rewrite !andb_true_iff, !String.eqb_eq, Z.eqb_eq in Hm.
  exists run, shard, trial. rewrite !list_elem_of_In. naive_solver.
Qed.
End events.

(** ** What the observer read *)
Section observer.
Context {W : Type} `{EL : EvidenceReaderLaws W later} `{EvidenceParsers}.
Context (spec : ExperimentSpec) (lock : CampaignLock).

(** The content of a path of the campaign's evidence. *)
Definition holds_file (w : W) (path content : string) : Prop :=
  evidence w (as_bucket (spec_artifacts spec)) (artifact_prefix lock) path content.

Lemma holds_file_later w w' path c : later w w' -> holds_file w path c -> holds_file w' path c.
Proof. apply evidence_later. Qed.

Lemma holds_file_unique w path c c' : holds_file w path c -> holds_file w path c' -> c = c'.
Proof. apply evidence_unique. Qed.

(** The critical files of a unit are those its checksum manifest names. *)
Definition verified_unit (w : W) (prefix : string) (critical : list string) : Prop :=
  exists content manifest, holds_file w (prefix +:+ "/checksums.json") content /\
    checksum_manifest content = Ok manifest /\
    forall relative, relative ∈ critical -> exists c, holds_file w (prefix +:+ "/" +:+ relative) c /\
      dict_get manifest relative = Some (JStr ("sha256:" +:+ sha256_bytes c)).

(** An execution whose evidence the observer accepts. *)
Record verified_execution (w : W) (paths : list string) (path marker : string) (execution : ExecutionLock)
    : Prop := {
  ve_path : path ∈ _execution_lock_paths paths;
  ve_marker : sole_marker paths (parent_of path) marker;
  ve_lock : exists content, holds_file w path content /\ execution_lock_validate_json content = Ok execution;
  ve_identity : execution_of lock execution path;
  ve_files : verified_unit w (parent_of path) (critical_files paths (parent_of path) marker);
}.

Lemma verified_unit_later w w' prefix critical :
  later w w' -> verified_unit w prefix critical -> verified_unit w' prefix critical.
Proof.
  intros Hl (content & manifest & Hc & Hm & Hf). exists content, manifest. split_and!; [|done|].
  - by eapply holds_file_later.
  - intros relative (c & Hc' & Hd)%Hf. exists c. split; [by eapply holds_file_later|done].
Qed.

Lemma verified_execution_later w w' paths path marker execution :
  later w w' -> verified_execution w paths path marker execution -> verified_execution w' paths path marker execution.
Proof.
  intros Hl [Hp Hm (c & Hc & Hx) Hi Hf]. split; try done.
  - exists c. split; [by eapply holds_file_later|done].
  - by eapply verified_unit_later.
Qed.

(** *** The reader is only read *)
#[local] Hint Resolve list_files_keeps read_bytes_keeps : keeps.

Lemma keeps_read path : keeps later (read_evidence spec lock path).
Proof. apply read_bytes_keeps. Qed.
#[local] Hint Resolve keeps_read : keeps.

Lemma keeps_verify_file prefix manifest relative : keeps later (verify_critical_file spec lock prefix manifest relative).
Proof. unfold verify_critical_file. repeat keeps_step. Qed.
#[local] Hint Resolve keeps_verify_file : keeps.

Lemma keeps_verify paths prefix critical : keeps later (_verify_critical_unit spec lock paths prefix critical).
Proof. unfold _verify_critical_unit. repeat keeps_step. Qed.

Lemma keeps_failure_details paths prefix marker : keeps later (_failure_details spec lock paths prefix marker).
Proof. unfold _failure_details. repeat keeps_step. Qed.

Lemma keeps_legacy_trials paths wave_id : keeps later (_legacy_retry_trial_ids spec lock paths wave_id).
Proof.
  unfold _legacy_retry_trial_ids. keeps_step; [|repeat keeps_step].
  apply keeps_mapM; [apply _|]. intros path. repeat keeps_step.
Qed.
#[local] Hint Resolve keeps_verify keeps_failure_details keeps_legacy_trials : keeps.

Lemma keeps_load_wave_lock paths path : keeps later (_load_wave_lock spec lock paths path).
Proof. unfold _load_wave_lock. repeat keeps_step. Qed.
#[local] Hint Resolve keeps_load_wave_lock : keeps.

Lemma keeps_observe_wave paths path : keeps later (observe_wave spec lock paths path).
Proof. unfold observe_wave. repeat keeps_step. Qed.

Lemma keeps_observe_execution paths path : keeps later (observe_execution spec lock paths path).
Proof. unfold observe_execution. repeat keeps_step. Qed.
#[local] Hint Resolve keeps_observe_wave keeps_observe_execution : keeps.

Lemma keeps_observe_campaign : keeps later (observe_campaign spec lock).
Proof.
  unfold observe_campaign, _execution_events. keeps_step; [keeps_step|]. keeps_step.
  { destruct prefetch_files as [f|] eqn:E; [by apply prefetch_keeps|apply keeps_ret; apply _]. }
  repeat keeps_step.
Qed.

(** *** What an accepted unit rests on *)
Lemma verify_critical_unit_ok paths prefix critical w u w' :
  _verify_critical_unit spec lock paths prefix critical w = (Ok u, w') -> verified_unit w' prefix critical.
Proof.
  unfold _verify_critical_unit. destruct (negb _); [by intros [=]|]. intros E.
  ok_bind E as content Ec. ok_lift E as manifest Em.
  destruct (negb (forallb _ manifest)); [by injection E|]. destruct (negb (forallb _ critical)); [by injection E|].
  ok_bind E as us Eu. injection E as _ <-.
  apply (hub_mapM_inv later) in Eu as [Hl HF]; [|intros; apply keeps_verify_file].
  exists content, manifest. split_and!.
  - eapply holds_file_later; [exact Hl|]. unfold read_evidence in Ec. by apply read_bytes_law in Ec.
  - done.
  - intros relative Hr%sorted_set_elem_of. apply list_elem_of_lookup in Hr as [i Hi].
    destruct (Forall2_lookup_l _ _ _ _ _ HF Hi) as ([] & _ & wa & wb & _ & Ef & Hl2).
    unfold verify_critical_file in Ef. ok_bind Ef as c Er. ok_lift Ef as expected Ex.
    case_bool_decide as Heq; [|by injection Ef]. injection Ef as <-. exists c. split.
    + eapply holds_file_later; [exact Hl2|]. unfold read_evidence in Er. by apply read_bytes_law in Er.
    + unfold dict_item in Ex. destruct (dict_get manifest relative); congruence.
Qed.

Lemma observe_execution_ok paths path w events w' :
  path ∈ _execution_lock_paths paths ->
  observe_execution spec lock paths path w = (Ok events, w') ->
  forall e, e ∈ events -> exists marker execution, verified_execution w' paths path marker execution /\
    is_execution_event execution marker e /\ event_valid e = true /\ producer e = producer_wave_controller.
Proof.
  unfold observe_execution. intros Hpath E e He. ok_lift E as marker Em.
  destruct marker as [marker|]; [|injection E as <- <-; by apply elem_of_nil in He].
  ok_bind E as u Ev. apply verify_critical_unit_ok in Ev as Hu.
  ok_bind E as content Ec. ok_lift E as execution Ex. ok_lift E as i Ei.
  ok_bind E as log El. ok_lift E as records Er. ok_bind E as failure Ef. unfold hub_lift in E. injection E as E <-.
  apply execution_control_events_ok in E. rewrite Forall_forall in E. destruct (E e He) as (Hk & Hval & Hprod).
  exists marker, execution. split; [|done].
  pose proof (keeps_run _ _ _ _ _ (keeps_read _) Ec) as L1.
  pose proof (keeps_run _ _ _ _ _ (keeps_read _) El) as L2.
  pose proof (keeps_run _ _ _ _ _ (keeps_failure_details _ _ _) Ef) as L3.
  apply terminal_marker_ok in Em. split; try done.
  - exists content. split; [|done]. eapply holds_file_later; [etransitivity; [exact L2|exact L3]|].
    unfold read_evidence in Ec. by apply read_bytes_law in Ec.
  - by eapply validate_execution_identity_ok.
  - eapply verified_unit_later; [|exact Hu]. etransitivity; [exact L1|]. etransitivity; [exact L2|exact L3].
Qed.

(** *** Waves *)

(** A wave lock read as it is, or a legacy one completed with the trials of its
    executions. *)
Definition loaded_wave (w : W) (path : string) (wave : WaveLock) : Prop :=
  exists content, holds_file w path content /\
    (wave_lock_validate_json content = Ok wave \/
     exists raw wave_id trial_ids, json_object_validate content = Ok raw /\
       dict_get raw "wave_id" = Some (JStr wave_id) /\ trial_ids <> [] /\
       wave_lock_validate (dict_set raw "trial_ids" (jstrs trial_ids)) = Ok wave /\
       forall id, id ∈ trial_ids -> exists x c execution, holds_file w x c /\
         execution_lock_validate_json c = Ok execution /\ xl_wave_id execution = wave_id /\
         xl_trial_id execution = id).

Record verified_wave (w : W) (paths : list string) (path marker : string) (wave : WaveLock) : Prop := {
  vw_path : path ∈ _wave_lock_paths paths;
  vw_marker : sole_marker paths (parent_of path) marker;
  vw_lock : loaded_wave w path wave;
  vw_campaign : Waves.wl_campaign_id wave = campaign_id lock;
  vw_files : verified_unit w (parent_of path) ["wave.lock.json"; "events.jsonl"; "wave-summary.json"];
}.

Lemma loaded_wave_later w w' path wave : later w w' -> loaded_wave w path wave -> loaded_wave w' path wave.
Proof.
  intros Hl (content & Hc & Hor). exists content. split; [by eapply holds_file_later|].
  destruct Hor as [?|(raw & wave_id & ids & ? & ? & ? & ? & Hids)]; [by left|right].
  exists raw, wave_id, ids. split_and!; try done. intros id (x & c & execution & Hx & ?)%Hids.
  exists x, c, execution. split; [by eapply holds_file_later|done].
Qed.

Lemma verified_wave_later w w' paths path marker wave :
  later w w' -> verified_wave w paths path marker wave -> verified_wave w' paths path marker wave.
Proof.
  intros Hl [Hp Hm Hw Hc Hf]. split; try done; [by eapply loaded_wave_later|by eapply verified_unit_later].
Qed.

Lemma legacy_trials_ok paths wave_id w ids w' :
  _legacy_retry_trial_ids spec lock paths wave_id w = (Ok ids, w') ->
  forall id, id ∈ ids -> exists x c execution, holds_file w' x c /\
    execution_lock_validate_json c = Ok execution /\ xl_wave_id execution = wave_id /\ xl_trial_id execution = id.
Proof.
  unfold _legacy_retry_trial_ids. intros E. ok_bind E as executions Ex. injection E as <- <-.
  apply (hub_mapM_inv later) in Ex as [_ HF]; [|intros path _; repeat keeps_step].
  intros id (execution & -> & [Hin Hw]%filter_elem_of)%sorted_set_elem_of%list_elem_of_fmap.
  apply list_elem_of_lookup in Hin as [i Hi].
  destruct (Forall2_lookup_r _ _ _ _ _ HF Hi) as (path & _ & wa & wb & _ & Ep & Hl).
  ok_bind Ep as c Ec. unfold hub_lift in Ep. injection Ep as Ep ->.
  exists path, c, execution. split_and!; [|done|by apply String.eqb_eq in Hw|done].
  eapply holds_file_later; [exact Hl|]. unfold read_evidence in Ec. by apply read_bytes_law in Ec.
Qed.

Lemma load_wave_lock_ok paths path w wave w' :
  _load_wave_lock spec lock paths path w = (Ok wave, w') -> loaded_wave w' path wave.
Proof.
  unfold _load_wave_lock. intros E. ok_bind E as content Ec.
  assert (Hc : holds_file w0 path content) by (unfold read_evidence in Ec; by apply read_bytes_law in Ec).
  destruct (wave_lock_validate_json content) as [wave'|e] eqn:Ev.
  { injection E as -> <-. exists content. split; [done|by left]. }
  destruct e; try discriminate E. ok_lift E as raw Er.
  destruct (_ || _); [by injection E|]. destruct (dict_get raw "wave_id") as [[| | | |wave_id| |]|] eqn:Ew;
    try by injection E. ok_bind E as ids Ei.
  pose proof (keeps_run _ _ _ _ _ (keeps_legacy_trials _ _) Ei) as Hl.
  pose proof (legacy_trials_ok _ _ _ _ _ Ei) as Hids. destruct ids as [|id ids]; [by injection E|].
  unfold hub_lift in E. injection E as E <-. exists content. split; [by eapply holds_file_later|right].
  exists raw, wave_id, (id :: ids). split_and!; try done.
  unfold validation_as in E. by destruct (wave_lock_validate _) as [?|[]]; simplify_eq.
Qed.

Lemma observe_wave_ok paths path w events w' :
  path ∈ _wave_lock_paths paths ->
  observe_wave spec lock paths path w = (Ok events, w') ->
  forall e, e ∈ events -> exists marker wave, verified_wave w' paths path marker wave /\
    is_wave_event wave e /\ event_valid e = true /\ producer e = producer_wave_controller.
Proof.
  unfold observe_wave. intros Hpath E e He. ok_lift E as marker Em.
  destruct marker as [marker|]; [|injection E as <- <-; by apply elem_of_nil in He].
  ok_bind E as wave Ew. apply load_wave_lock_ok in Ew as Hw.
  destruct (String.eqb_spec (Waves.wl_campaign_id wave) (campaign_id lock)) as [Hc|]; [|by injection E].
  cbn [negb] in E. ok_bind E as u Ev. apply verify_critical_unit_ok in Ev as Hu.
  pose proof (keeps_run _ _ _ _ _ (keeps_verify _ _ _) Ev) as L1.
  ok_bind E as log El. pose proof (keeps_run _ _ _ _ _ (keeps_read _) El) as L2.
  ok_lift E as records Er. unfold hub_lift in E. injection E as E <-.
  apply wave_events_ok in E. rewrite Forall_forall in E. destruct (E e He) as (Hk & Hval & Hprod).
  exists marker, wave. split; [|done]. apply terminal_marker_ok in Em. split; try done.
  - eapply loaded_wave_later; [|exact Hw]. etransitivity; [exact L1|exact L2].
  - by eapply verified_unit_later.
Qed.

(** *** The whole observation *)
Lemma observe_campaign_ok w events w' :
  observe_campaign spec lock w = (Ok events, w') ->
  StronglySorted (fun x y => event_leb x y = true) events /\
  exists paths w1, list_files (as_bucket (spec_artifacts spec)) (artifact_prefix lock) w = (Ok paths, w1) /\
    later w1 w' /\ forall e, e ∈ events ->
    event_valid e = true /\ producer e = producer_wave_controller /\
    ((exists path marker wave, verified_wave w' paths path marker wave /\ is_wave_event wave e) \/
     (exists path marker execution, verified_execution w' paths path marker execution /\
        is_execution_event execution marker e)).
Proof.
  unfold observe_campaign, _execution_events. intros E. ok_bind E as paths Ep. ok_bind E as u Eu.
  assert (Lp : keeps later (match prefetch_files with
    | Some prefetch => prefetch (as_bucket (spec_artifacts spec)) (artifact_prefix lock)
        (List.filter (fun path => str_mem (name_of path) _OBSERVATION_FILES) paths)
    | None => hub_ret tt end)).
  { destruct prefetch_files as [f|] eqn:Ef; [by apply prefetch_keeps|apply keeps_ret; apply _]. }
  apply (keeps_run _ _ _ _ _ Lp) in Eu.
  ok_bind E as waves Ew. ok_bind E as executions Ex. injection E as <- <-.
  ok_bind Ex as units Exx. injection Ex as <- ->.
  apply (hub_mapM_inv later) in Exx as [Lx HX]; [|intros; apply keeps_observe_execution].
  apply (hub_mapM_inv later) in Ew as [Lw HW]; [|intros; apply keeps_observe_wave].
  split; [apply sort_by_sorted; [apply event_leb_total|apply event_leb_trans]|].
  exists paths, w0. split; [done|]. split; [etransitivity; [exact Eu|]; by etransitivity|]. intros e He%sort_by_elem_of. apply elem_of_app in He as [He|He].
  - apply concat_elem in He as (l & Hl & He). apply list_elem_of_lookup in Hl as [i Hi].
    destruct (Forall2_lookup_r _ _ _ _ _ HW Hi) as (path & Hp & wa & wb & _ & E & Hlat).
    apply list_elem_of_lookup_2 in Hp. destruct (observe_wave_ok _ _ _ _ _ Hp E e He) as (marker & wave & Hv & Hk & ? & ?).
    split_and!; [done..|]. left. exists path, marker, wave. split; [|done].
    eapply verified_wave_later; [|exact Hv]. by etransitivity.
  - apply concat_elem in He as (l & Hl & He). apply list_elem_of_lookup in Hl as [i Hi].
    destruct (Forall2_lookup_r _ _ _ _ _ HX Hi) as (path & Hp & wa & wb & _ & E & Hlat).
    apply list_elem_of_lookup_2 in Hp. destruct (observe_execution_ok _ _ _ _ _ Hp E e He) as (marker & x & Hv & Hk & ? & ?).
    split_and!; [done..|]. right. exists path, marker, x. split; [|done]. by eapply verified_execution_later.
Qed.
End observer.
