(* ===== verification/BucketFacts.v ===== *)
(** Lemmas on bucket evidence: the reader never changes what it read until it
    is refreshed, and the writer never changes an object. *)
From S2P Require Import Prelude.
From S2P Require Import PyDict.
From S2P Require Import Json.
From S2P Require Import Hub.
From S2P Require Import Coordination.
From S2P Require Import Observer.
From S2P Require Import BucketEvidence.
From S2P Require Import ObserverFacts.

(** ** The reader *)
Section reader.
Context {W : Type} `{BucketApi W}.

(** No refresh lies between: cached files and listings are still there. *)
Definition reader_later (s s' : reader W) : Prop :=
  (forall k c, dict_get (rd_cache s) k = Some c -> dict_get (rd_cache s') k = Some c) /\
  (forall k l, cached_listing (rd_listings s) k = Some l -> cached_listing (rd_listings s') k = Some l).

#[export] Instance reader_later_preorder : PreOrder reader_later.
Proof. split; [by split|]. intros a b c [H1' H2'] [G1 G2]. split; auto. Qed.

#[local] Hint Extern 1 (reader_later _ _) => reflexivity : core.

Lemma keeps_on_api {A} (m : hub W A) : keeps reader_later (on_api m).
Proof. intros s. unfold on_api. destruct (m (rd_world s)) as [r w]. by split. Qed.

Lemma cached_listing_push listings k l k' l' :
  cached_listing listings k = None -> cached_listing listings k' = Some l' ->
  cached_listing ((k, l) :: listings) k' = Some l'.
Proof.
  unfold cached_listing. cbn [find fst]. intros Hk Hk'. case_bool_decide as E; [|done].
  cbn in E. subst k'. by rewrite Hk in Hk'.
Qed.

Lemma keeps_listing b p : keeps reader_later (_listing b p).
Proof.
  intros s. unfold _listing. destruct (cached_listing _ _) as [l|] eqn:E; [done|].
  unfold hub_bind. unfold on_api. destruct (list_bucket_tree b p (rd_world s)) as [[items|e] w]; [|by split].
  unfold hub_lift. destruct (foldM _ _ _) as [l|e]; [|by split].
  split; [done|]. cbn. intros k' l'. by apply cached_listing_push.
Qed.

Lemma listing_cached b p s l s' :
  _listing b p s = (Ok l, s') -> cached_listing (rd_listings s') (b, p) = Some l.
Proof.
  unfold _listing. destruct (cached_listing _ _) as [l'|] eqn:E; [by intros [= -> <-]|].
  intros Eb. ok_bind Eb as items Ei. ok_lift Eb as l0 El. injection Eb as <- <-. cbn.
  unfold cached_listing. cbn. by rewrite bool_decide_true.
Qed.

(** A batch only adds files that were missing. *)
Lemma dict_update_get_new (l : list (string * string)) (d : dict string) k :
  k ∉ map fst l -> dict_get (dict_update d l) k = dict_get d k.
Proof.
  unfold dict_update. revert d. induction l as [|[i v] l IH]; intros d; [done|]. cbn.
  intros Hk. rewrite not_elem_of_cons in Hk. destruct Hk as [Hi Hl]. rewrite IH by done.
  by apply dict_get_set_ne.
Qed.

Lemma download_batch_same b batch s k :
  k ∉ map fst batch -> dict_get (rd_cache (download_batch b batch s).2) k = dict_get (rd_cache s) k.
Proof.
  intros Hk. unfold download_batch, hub_bind, on_api.
  destruct (download_bucket_files b (map snd batch) (rd_world s)) as [[contents|e] w]; [|done]. cbn.
  apply dict_update_get_new. intros (e & -> & He)%list_elem_of_fmap. apply Hk.
  destruct e as [i v]. apply list_elem_of_In, in_combine_l, list_elem_of_In in He. done.
Qed.

Lemma download_batch_listings b batch s :
  rd_listings (download_batch b batch s).2 = rd_listings s.
Proof.
  unfold download_batch, hub_bind, on_api.
  by destruct (download_bucket_files b (map snd batch) (rd_world s)) as [[contents|e] w].
Qed.

Lemma download_batches_same b batches s :
  rd_listings (hub_mapM (download_batch b) batches s).2 = rd_listings s /\
  forall k, k ∉ map fst (concat batches) ->
    dict_get (rd_cache (hub_mapM (download_batch b) batches s).2) k = dict_get (rd_cache s) k.
Proof.
  revert s. induction batches as [|batch batches IH]; intros s; [done|]. cbn [hub_mapM concat].
  pose proof (download_batch_listings b batch s) as Hl. pose proof (download_batch_same b batch s) as Hs.
  unfold hub_bind. destruct (download_batch b batch s) as [[u|e] s1]; cbn [snd] in *.
  - destruct (IH s1) as [IH1 IH2]. assert (Hboth : rd_listings (hub_mapM (download_batch b) batches s1).2 = rd_listings s /\
      forall k, k ∉ map fst (batch ++ concat batches) ->
        dict_get (rd_cache (hub_mapM (download_batch b) batches s1).2) k = dict_get (rd_cache s) k).
    { split; [congruence|]. intros k Hk. rewrite map_app, not_elem_of_app in Hk. rewrite IH2, Hs; tauto. }
    by destruct (hub_mapM (download_batch b) batches s1) as [[us|e] s2].
  - split; [done|]. intros k Hk. rewrite map_app, not_elem_of_app in Hk. apply Hs. tauto.
Qed.

Lemma keeps_download_missing b p listing : keeps reader_later (_download_missing b p listing).
Proof.
  intros s. unfold _download_missing.
  assert (Hl : reader_later s (hub_bind (hub_lift (chunks _DOWNLOAD_BATCH_SIZE
    (missing_downloads b p (rd_cache s) listing))) (fun batches => hub_bind (hub_mapM (download_batch b) batches)
      (fun _ => hub_ret tt)) s).2); [|exact Hl].
  unfold hub_bind at 1. unfold hub_lift. destruct (chunks _ _) as [batches|e] eqn:Ec; [|done].
  apply chunks_concat in Ec; [|done]. destruct (download_batches_same b batches s) as [H1 H2].
  unfold hub_bind. rewrite Ec in H2.
  assert (Hlat : reader_later s (hub_mapM (download_batch b) batches s).2).
  { split; [|by rewrite H1]. intros k c Hk. rewrite H2; [done|].
    intros (e & -> & [He Hm]%filter_elem_of)%list_elem_of_fmap. unfold dict_has in Hm. by rewrite Hk in Hm. }
  by destruct (hub_mapM (download_batch b) batches s) as [[us|e] s2].
Qed.

Lemma keeps_prefetch b p listing : keeps reader_later (_prefetch b p listing).
Proof.
  intros s. unfold _prefetch. case_bool_decide; [done|].
  pose proof (keeps_download_missing b p listing s) as K. unfold hub_bind.
  destruct (_download_missing b p listing s) as [[u|e] s1]; [|done]. cbn in *. exact K.
Qed.

Lemma keeps_read_cached b p x : keeps reader_later (read_cached b p x).
Proof. intros s. unfold read_cached. by destruct (dict_get _ _). Qed.

#[export] Instance bucket_reader : EvidenceReader (reader W) := HubBucketEvidenceReader.

Lemma keeps_bucket_read b p x : keeps reader_later (bucket_read_bytes b p x).
Proof.
  unfold bucket_read_bytes. apply keeps_bind; [apply _|apply keeps_listing|]. intros listing.
  destruct (dict_get listing x); [|apply keeps_raise; apply _].
  apply keeps_bind; [apply _| |intros _; apply keeps_read_cached].
  intros s. destruct (dict_has _ _); [done|]. apply keeps_prefetch.
Qed.

(** What was read is in the cache. *)
Definition cached_evidence (s : reader W) (b p x c : string) : Prop :=
  dict_get (rd_cache s) (_cache_path (bucket_id b) (rstrip_slash p) x) = Some c.

Lemma bucket_read_cached b p x s c s' :
  bucket_read_bytes b p x s = (Ok c, s') ->
  cached_evidence s' b p x c /\
  exists listing, cached_listing (rd_listings s') (bucket_id b, rstrip_slash p) = Some listing /\
    is_Some (dict_get listing x).
Proof.
  unfold bucket_read_bytes. intros E. ok_bind E as listing El. apply listing_cached in El.
  destruct (dict_get listing x) as [item|] eqn:Ex; [|done].
  ok_bind E as u Eu. unfold read_cached in E. destruct (dict_get (rd_cache _) _) as [c'|] eqn:Ec; [|done].
  injection E as -> <-. split; [exact Ec|]. exists listing. split; [|by rewrite Ex].
  cbn beta in Eu. destruct (dict_has _ _) in Eu; [by injection Eu as _ <-|].
  pose proof (keeps_prefetch (bucket_id b) (rstrip_slash p) listing w) as [_ K]. rewrite Eu in K. by apply K.
Qed.

#[export] Instance bucket_reader_laws : EvidenceReaderLaws (reader W) reader_later.
Proof.
  refine (Build_EvidenceReaderLaws (reader W) bucket_reader reader_later _ cached_evidence _ _ _ _ _ _).
  - intros s s' b p x c [Hl _]. apply Hl.
  - unfold cached_evidence. intros s b p x c c'. congruence.
  - intros b p. apply keeps_bind; [apply _|apply keeps_listing|intros l; apply keeps_ret; apply _].
  - intros b p x. apply keeps_bucket_read.
  - intros f b p xs [= <-]. unfold bucket_prefetch_files.
    apply keeps_bind; [apply _|apply keeps_listing|]. intros l.
    apply keeps_bind_lift; [apply _|]. intros selected _. apply keeps_download_missing.
  - intros b p x s c s' E. by apply bucket_read_cached in E as [? _].
Defined.

(** Reading again gives the same content and changes nothing. *)
Lemma bucket_read_again b p x c s listing :
  cached_evidence s b p x c ->
  cached_listing (rd_listings s) (bucket_id b, rstrip_slash p) = Some listing -> is_Some (dict_get listing x) ->
  bucket_read_bytes b p x s = (Ok c, s).
Proof.
  unfold cached_evidence, bucket_read_bytes, hub_bind. intros Hc Hl [item Hx].
  unfold _listing. rewrite Hl, Hx. unfold dict_has. rewrite Hc. unfold read_cached. by rewrite Hc.
Qed.
End reader.

(** ** The writer *)

(** Objects by bucket and path. *)
Abbreviation objects_map := (gmap (string * string) string).

(** Others may create objects anywhere but at one place; nobody deletes or
    overwrites one. *)
Definition quiet (k : string * string) (o o' : objects_map) : Prop := o ⊆ o' /\ o' !! k = o !! k.

#[export] Instance quiet_preorder k : PreOrder (quiet k).
Proof.
  split; [by split|]. intros a b c [H1' H2'] [G1 G2]. split; [by etransitivity|congruence].
Qed.

(** The bucket client.  While a caller works on an object others are quiet at
    its place; a failed upload may have happened. *)
Class BucketLaws (W : Type) `{BucketApi W} := {
  objects : W -> objects_map;
  paths_info_law b p w res w' : get_bucket_paths_info b [p] w = (res, w') ->
    quiet (b, p) (objects w) (objects w') /\
    forall items, res = Ok items -> items = [] <-> objects w' !! (b, p) = None;
  download_law b p item w res w' : bi_path item = Some p -> download_bucket_files b [item] w = (res, w') ->
    quiet (b, p) (objects w) (objects w') /\ forall c, res = Ok [c] -> objects w' !! (b, p) = Some c;
  batch_law b p c w res w' : batch_bucket_files b [(c, p)] w = (res, w') ->
    exists o, quiet (b, p) (objects w) o /\
      (objects w' = <[(b, p) := c]> o \/ objects w' = o /\ exists e, res = Err e);
}.

Section writer.
Context {W : Type} `{BL : BucketLaws W}.

Definition quiet_at (b p : string) (w w' : W) : Prop := quiet (b, p) (objects w) (objects w').

#[export] Instance quiet_at_preorder b p : PreOrder (quiet_at b p).
Proof. split; [intros w; unfold quiet_at; reflexivity|intros x y z; unfold quiet_at; by etransitivity]. Qed.

(** How a write ends: the object is new, or it had this content already, or the
    write failed; and no object is ever changed. *)
Definition written_once (b p c : string) (w : W) (r : result bool) (w' : W) : Prop :=
  objects w ⊆ objects w' /\
  (objects w' !! (b, p) = objects w !! (b, p) \/
   objects w !! (b, p) = None /\ objects w' !! (b, p) = Some c) /\
  (r = Ok true -> objects w !! (b, p) = None /\ objects w' !! (b, p) = Some c) /\
  (r = Ok false -> objects w !! (b, p) = Some c /\ objects w' !! (b, p) = Some c).

Lemma written_once_quiet b p c w0 w w' w1 r :
  quiet_at b p w0 w -> written_once b p c w r w' -> quiet_at b p w' w1 -> written_once b p c w0 r w1.
Proof.
  intros [A1 A2] (B1 & B2 & B3 & B4) [C1 C2]. unfold written_once. rewrite C2, <- A2.
  split; [by etransitivity; [|etransitivity]|done].
Qed.

Lemma failed_quiet b p c w w' e : quiet_at b p w w' -> written_once b p c w (Err e) w'.
Proof. intros [A1 A2]. unfold written_once. split_and!; [done|by left|done|done]. Qed.

Lemma write_locked_once b p c w r w' :
  _write_locked b p c w = (r, w') -> written_once b p c w r w'.
Proof.
  unfold _write_locked. intros (items & w1 & E1 & E)%hub_bind_inv.
  apply paths_info_law in E1 as [Hq Hitems]. destruct items as [items|e]; [|destruct E as [-> ->]; by apply failed_quiet].
  specialize (Hitems items eq_refl). destruct items as [|item [|]].
  - apply hub_bind_inv in E as (u & w2 & E2 & E). apply batch_law in E2 as (o & [Ho1 Ho2] & Hcase).
    assert (Hnone : objects w1 !! (b, p) = None) by (by apply Hitems).
    destruct Hq as [Hq1 Hq2]. assert (Hsub : objects w ⊆ o) by (by etransitivity).
    assert (Hn : objects w !! (b, p) = None) by congruence.
    assert (Hon : o !! (b, p) = None) by congruence.
    destruct Hcase as [Hw|[Hw [e ->]]].
    + assert (Hs : objects w ⊆ objects w2) by (rewrite Hw; etransitivity; [exact Hsub|by apply insert_subseteq]).
      assert (Hc : objects w2 !! (b, p) = Some c) by (rewrite Hw; apply lookup_insert_eq).
      destruct u as [u|e]; [injection E as <- <-|destruct E as [-> ->]]; unfold written_once; split_and!; auto; done.
    + destruct E as [-> ->]. unfold written_once. rewrite Hw. split_and!; [done|left; congruence|done|done].
  - case_bool_decide as Hp; cbn [negb] in E; [|injection E as <- <-; by apply failed_quiet].
    apply hub_bind_inv in E as (contents & w2 & E2 & E). apply (download_law b p) in E2 as [Hq2 Hc]; [|done].
    assert (Hq' : quiet_at b p w w2) by (unfold quiet_at; by etransitivity).
    destruct contents as [[|existing [|]]|e]; try (injection E as <- <-; by apply failed_quiet);
      [|destruct E as [-> ->]; by apply failed_quiet].
    destruct (String.eqb_spec existing c) as [->|]; injection E as <- <-; [|by apply failed_quiet].
    specialize (Hc c eq_refl). destruct Hq' as [Q1 Q2]. unfold written_once. rewrite Hc in Q2 |- *.
    split_and!; [done|by left|done|done].
  - injection E as <- <-. by apply failed_quiet.
Qed.
End writer.
