(* ===== verification/FinalizerFacts.v ===== *)
(** Lemmas on finalization: what the finalizer keeps, what a checksum manifest
    covers, and what a returned record of a run, trial or execution rests on. *)
From S2P Require Import Prelude.
From S2P Require Import PyDict.
From S2P Require Import Json.
From S2P Require Import Patterns.
From S2P Require Import PyText.
From S2P Require Import Control.
From S2P Require Import Recovery.
From S2P Require Import Campaigns.
From S2P Require Import Models.
From S2P Require Import Manifest.
From S2P Require Import Hub.
From S2P Require Import Waves.
From S2P Require Import Observer.
From S2P Require Import ObserverFacts.
From S2P Require Import Envelope.
From S2P Require Import NativeBundle.
From S2P Require Import ResultModels.
From S2P Require Import Finalizer.

(** A returned loop: an invariant of what was read, the accumulator and the world. *)
Lemma hub_foldM_worlds {W A S} (I : list A -> S -> W -> Prop) (f : S -> A -> hub W S) l s w s' w' :
  (forall seen a s w s' w', I seen s w -> f s a w = (Ok s', w') -> I (seen ++ [a]) s' w') ->
  I [] s w -> hub_foldM f s l w = (Ok s', w') -> I l s' w'.
Proof.
  intros Hf. assert (Hgo : forall l seen s w, I seen s w -> hub_foldM f s l w = (Ok s', w') -> I (seen ++ l) s' w').
  { clear -Hf. induction l as [|a l IH]; intros seen s w Hi E; cbn [hub_foldM] in E.
    - injection E as <- <-. by rewrite app_nil_r.
    - ok_bind E as s1 E1. eapply (IH (seen ++ [a])) in E; [|by eapply Hf]. by rewrite <- app_assoc in E. }
  intros Hi E. by apply (Hgo l []) in E.
Qed.

Lemma same_set_iff l k : same_set l k = true -> forall x, x ∈ l <-> x ∈ k.
Proof.
  unfold same_set. intros E x. rewrite andb_true_iff, !forallb_forall in E. destruct E as [E1 E2].
  split; intros Hx; apply str_mem_true; [apply E1|apply E2]; by apply list_elem_of_In.
Qed.

(** ** Ends of texts *)
Lemma substring_split k s : (k <= String.length s)%nat ->
  s = String.substring 0 k s +:+ String.substring k (String.length s - k) s.
Proof.
  assert (Hall : forall s, s = String.substring 0 (String.length s) s)
    by (clear; induction s as [|d s IH]; cbn; congruence).
  revert s. induction k as [|k IH]; intros [|c s] Hk; cbn in *; [done| |lia|]; [exact (f_equal (String c) (Hall s))|].
  exact (f_equal (String c) (IH s ltac:(lia))).
Qed.

Lemma endswith_app p s : str_endswith p s = true -> exists a, s = a +:+ p.
Proof.
  unfold str_endswith. rewrite andb_true_iff, Nat.leb_le, String.eqb_eq. intros [Hl Hs].
  exists (String.substring 0 (String.length s - String.length p) s). rewrite <- Hs at 2.
  rewrite (substring_split (String.length s - String.length p) s) at 1 by lia.
  do 2 f_equal. lia.
Qed.

Lemma app_suffix (a p b q : string) :
  a +:+ p = b +:+ q -> (String.length q <= String.length p)%nat -> exists c, p = c +:+ q.
Proof.
  assert (Hlen : forall x y : string, String.length (x +:+ y) = (String.length x + String.length y)%nat).
  { induction x as [|c x IH]; intros y; [done|exact (f_equal S (IH y))]. }
  revert b. induction a as [|c a IH]; intros b E Hl; [by exists b|].
  destruct b as [|d b].
  - exfalso. apply (f_equal String.length) in E. rewrite !Hlen in E. cbn in E. lia.
  - injection E as _ E. by apply (IH b).
Qed.

(** ** What the writer promises

    [stored] says that the bucket has an object with this content, [shows] that
    it has an object which nobody but the caller makes: finalizing a campaign is
    an action under its claim.  A returned write is stored, and objects stay.
    Reading makes no such object and a write makes none elsewhere. *)
Class EvidenceShelf (W : Type) `{ER : EvidenceReader W} `{EW : ImmutableEvidenceWriter W}
    (later : W -> W -> Prop) `{EL : !EvidenceReaderLaws W later} := {
  stored : W -> string -> string -> string -> Prop;
  shows : W -> string -> string -> Prop;
  stored_later w w' b p c : later w w' -> stored w b p c -> stored w' b p c;
  write_keeps b p c : keeps later (evidence_write_immutable b p c);
  write_stored b p c w r w' : evidence_write_immutable b p c w = (Ok r, w') -> stored w' b p c;
  read_shows b p x w k y : shows (read_bytes b p x w).2 k y -> shows w k y;
  list_shows b p w k y : shows (list_files b p w).2 k y -> shows w k y;
  write_shows b p c w k y :
    shows (evidence_write_immutable b p c w).2 k y -> shows w k y \/ y = p;
}.

Section facts.
Context {W : Type} `{ER : EvidenceReader W} `{EW : ImmutableEvidenceWriter W} (later : W -> W -> Prop)
  `{EL : !EvidenceReaderLaws W later} `{SH : !EvidenceShelf W later}.
Context `{EvidenceParsers} `{BundleParsers} `{RunLockParser}.
Context (spec : ExperimentSpec) (campaign : CampaignLock).

Abbreviation bucket := (evidence_bucket_of spec).
Abbreviation folder := (artifact_prefix campaign).
Abbreviation state := (finalizer W).
Implicit Types s : state.

(** ** Contents *)

(** What reading a path gives: the staged content or that of the bucket. *)
Definition found s path c : Prop :=
  staged_at spec campaign (fz_staged s) path = Some c \/ evidence (fz_services s) bucket folder path c.

(** The content of a file of the campaign is in the bucket. *)
Definition on_shelf (w : W) path c : Prop :=
  stored w bucket (folder +:+ "/" +:+ path) c \/ evidence w bucket folder path c.

(** What is staged was written. *)
Definition staged_ok s : Prop :=
  forall path c, staged_at spec campaign (fz_staged s) path = Some c ->
    stored (fz_services s) bucket (folder +:+ "/" +:+ path) c.

Lemma found_on_shelf s path c : staged_ok s -> found s path c -> on_shelf (fz_services s) path c.
Proof. intros Hs [Hf|Hf]; [left; by apply Hs|by right]. Qed.

Lemma on_shelf_later w w' path c : later w w' -> on_shelf w path c -> on_shelf w' path c.
Proof. intros Hl [Hs|He]; [left; by eapply stored_later|right; by eapply evidence_later]. Qed.

(** ** Walks of the finalizer

    A relation between the states before and after that reading keeps, and one
    that staging the files of a trial keeps: every operation that does no more
    keeps it too. *)
Definition trial_files : list string :=
  ["trial-finalization-recovery.json"; "trial.lock.json"; "trial-summary.json"; "checksums.json"; "_SUCCESS"].

Definition trial_file (path : string) : Prop :=
  exists trial_id name, name ∈ trial_files /\ path = "trials/" +:+ trial_id +:+ "/" +:+ name.

Class Reads (R : relation state) := {
  reads_preorder :: PreOrder R;
  reads_keeps path : keeps R (read_staged spec campaign path);
}.

Class Stages (R : relation state) (run_prefix : string) :=
  stages_keeps path content : trial_file path -> keeps R (_stage_trial_file spec campaign run_prefix path content).

Section walks.
Context (R : relation state) `{RD : !Reads R}.
#[local] Hint Resolve reads_keeps : keeps.

Lemma keeps_get_paths : keeps R (@get_run_paths W).
Proof. intros s. reflexivity. Qed.
#[local] Hint Resolve keeps_get_paths : keeps.

(** *** Checksums *)
Lemma keeps_child_manifest run_prefix covered path :
  keeps R (add_child_manifest spec campaign run_prefix covered path).
Proof. unfold add_child_manifest. repeat keeps_step. Qed.

Lemma keeps_content_of run_prefix additions path : keeps R (content_of spec campaign run_prefix additions path).
Proof. unfold content_of. repeat keeps_step. Qed.
#[local] Hint Resolve keeps_child_manifest keeps_content_of : keeps.

Lemma keeps_cover_path run_prefix additions covered path :
  keeps R (cover_path spec campaign run_prefix additions covered path).
Proof. unfold cover_path. repeat keeps_step. Qed.

Lemma keeps_check_covered run_prefix additions entry :
  keeps R (check_covered spec campaign run_prefix additions entry).
Proof. unfold check_covered. repeat keeps_step. Qed.
#[local] Hint Resolve keeps_cover_path keeps_check_covered : keeps.

Lemma keeps_aggregate run_prefix run_paths additions :
  keeps R (_aggregate_checksums spec campaign run_prefix run_paths additions).
Proof. unfold _aggregate_checksums, _child_checksums. repeat keeps_step. Qed.
#[local] Hint Resolve keeps_aggregate : keeps.

(** *** Executions *)
Lemma keeps_failure_category run_paths ep ap marker :
  keeps R (_execution_failure_category spec campaign run_paths ep ap marker).
Proof. unfold _execution_failure_category. repeat keeps_step. Qed.

Lemma keeps_verify_document run_paths ep ap d : keeps R (verify_document spec campaign run_paths ep ap d).
Proof. unfold verify_document. repeat keeps_step. Qed.

Lemma keeps_bundle_object run_paths ep ap r l :
  keeps R (_verified_bundle_object spec campaign run_paths ep ap r l).
Proof. unfold _verified_bundle_object. repeat keeps_step. Qed.
#[local] Hint Resolve keeps_failure_category keeps_verify_document keeps_bundle_object : keeps.

Lemma keeps_bundle_reference run_paths ep ap :
  keeps R (_execution_bundle_reference spec campaign run_paths ep ap).
Proof. unfold _execution_bundle_reference, _verify_bundle_documents. repeat keeps_step. Qed.
#[local] Hint Resolve keeps_bundle_reference : keeps.

Lemma keeps_execution_record run_paths ep ap k :
  keeps R (_execution_record spec campaign run_paths ep ap k).
Proof. unfold _execution_record. repeat keeps_step. Qed.
#[local] Hint Resolve keeps_execution_record : keeps.

(** *** Trials *)
Section run.
Context (run_prefix : string).
Context `{SG : !Stages R run_prefix}.

Lemma keeps_successful_execution shard run_paths trial k ids path :
  keeps R (successful_execution spec campaign run_prefix shard run_paths trial k ids path).
Proof. unfold successful_execution. repeat keeps_step. Qed.
#[local] Hint Resolve keeps_successful_execution : keeps.

Lemma keeps_successful_ids run_paths trial k :
  keeps R (_successful_execution_ids spec campaign run_prefix run_paths trial k).
Proof. unfold _successful_execution_ids. repeat keeps_step. Qed.

Lemma keeps_execution_checksum trial_id execution_id :
  keeps R (_execution_checksum spec campaign run_prefix trial_id execution_id).
Proof. unfold _execution_checksum. repeat keeps_step. Qed.

Lemma keeps_lock_missing run_paths lock_path checksums_path content :
  keeps R (_trial_lock_missing spec campaign run_prefix run_paths lock_path checksums_path content).
Proof. unfold _trial_lock_missing. repeat keeps_step. Qed.

Lemma keeps_marker_only run_paths prefix checksums_path a b :
  keeps R (_complete_marker_only_trial spec campaign run_prefix run_paths prefix checksums_path a b).
Proof. unfold _complete_marker_only_trial, _validate_trial_checksums. repeat keeps_step. Qed.
#[local] Hint Resolve keeps_successful_ids keeps_execution_checksum keeps_lock_missing keeps_marker_only : keeps.

Lemma keeps_stage_trial_files (l : list (string * string)) : Forall (fun f => trial_file f.1) l ->
  keeps R (hub_mapM (fun f : string * string => _stage_trial_file spec campaign run_prefix f.1 f.2) l).
Proof.
  intros Hl. induction Hl as [|f l Hf Hl IH]; cbn [hub_mapM]; [apply keeps_ret, _|].
  apply keeps_bind; [apply _|by apply stages_keeps|]. intros b.
  apply keeps_bind; [apply _|done|]. intros bs. apply keeps_ret, _.
Qed.

Lemma keeps_trial_envelope trial selected checksum summary :
  keeps R (_stage_trial_envelope spec campaign run_prefix trial selected checksum summary).
Proof.
  assert (Ht : forall name, name ∈ trial_files -> trial_file (("trials/" +:+ tl_trial_id trial) +:+ "/" +:+ name))
    by (intros name Hn; by exists (tl_trial_id trial), name).
  assert (F1 := Ht "trial-finalization-recovery.json" ltac:(set_solver)).
  assert (F2 := Ht "trial.lock.json" ltac:(set_solver)).
  assert (F3 := Ht "trial-summary.json" ltac:(set_solver)).
  assert (F4 := Ht "checksums.json" ltac:(set_solver)). assert (F5 := Ht "_SUCCESS" ltac:(set_solver)).
  unfold _stage_trial_envelope. do 3 keeps_step; [|by apply stages_keeps].
  keeps_step; [auto with keeps|]. keeps_step.
  - apply keeps_stage_trial_files. rewrite !Forall_app.
    split_and!; [|case_match; [|constructor]|case_match; [|constructor]]; by apply Forall_singleton.
  - do 2 keeps_step; [auto with keeps|]. by apply stages_keeps.
Qed.
#[local] Hint Resolve keeps_trial_envelope : keeps.

Lemma keeps_interrupted run_paths trial k selected summary :
  keeps R (_finish_interrupted_trial spec campaign run_prefix run_paths trial k selected summary).
Proof. unfold _finish_interrupted_trial. repeat keeps_step. Qed.
#[local] Hint Resolve keeps_interrupted : keeps.

Lemma keeps_selection trial k : keeps R (_complete_trial_selection spec campaign run_prefix trial k).
Proof. unfold _complete_trial_selection. repeat keeps_step. Qed.
#[local] Hint Resolve keeps_selection : keeps.

Lemma keeps_record_at run_paths k path :
  keeps R (execution_record_at spec campaign run_prefix run_paths k path).
Proof. unfold execution_record_at. auto with keeps. Qed.
#[local] Hint Resolve keeps_record_at : keeps.

Lemma keeps_record_selected run_paths k selected st path :
  keeps R (record_selected spec campaign run_prefix run_paths k selected st path).
Proof. unfold record_selected. repeat keeps_step. Qed.
#[local] Hint Resolve keeps_record_selected : keeps.

Lemma keeps_failed_records trial k status outcome :
  keeps R (_failed_trial_records spec campaign run_prefix trial k status outcome).
Proof. unfold _failed_trial_records. repeat keeps_step. Qed.
#[local] Hint Resolve keeps_failed_records : keeps.

Lemma keeps_trial_records trial k status outcome :
  keeps R (_trial_records spec campaign run_prefix trial k status outcome).
Proof. unfold _trial_records. repeat keeps_step. Qed.
#[local] Hint Resolve keeps_trial_records : keeps.

Lemma keeps_run_trial_records projection k trial :
  keeps R (run_trial_records spec campaign run_prefix projection k trial).
Proof. unfold run_trial_records. repeat keeps_step. Qed.
End run.
End walks.

(** ** The states a finalizer goes through *)
Section advances.
Context (marked : string -> Prop).

(** Services go on, nothing staged is lost, the list of files grows, and none of
    the [marked] objects is made. *)
Record advances s s' : Prop := {
  adv_later : later (fz_services s) (fz_services s');
  adv_staged path c : staged_at spec campaign (fz_staged s) path = Some c ->
    staged_at spec campaign (fz_staged s') path = Some c;
  adv_ok : staged_ok s -> staged_ok s';
  adv_paths path : path ∈ fz_run_paths s -> path ∈ fz_run_paths s';
  adv_marked path : marked path -> shows (fz_services s') bucket path -> shows (fz_services s) bucket path;
}.

#[export] Instance advances_preorder : PreOrder advances.
Proof.
  split; [split; auto; reflexivity|]. intros a b c [] []. split; eauto. by etransitivity.
Qed.

Lemma found_advances s s' path c : advances s s' -> found s path c -> found s' path c.
Proof.
  intros Ha [Hf|Hf]; [left; by eapply adv_staged|right]. eapply evidence_later; [by apply Ha|done].
Qed.

(** *** Single operations *)
Lemma advances_services s w :
  later (fz_services s) w -> (forall y, shows w bucket y -> marked y -> shows (fz_services s) bucket y) ->
  advances s {| fz_services := w; fz_staged := fz_staged s; fz_run_paths := fz_run_paths s |}.
Proof.
  intros Hl Hm. split; cbn; auto. intros Hok path c Hc. eapply stored_later; [exact Hl|by apply Hok].
Qed.

Lemma keeps_read_staged path : keeps advances (read_staged spec campaign path).
Proof.
  intros s. unfold read_staged. destruct (staged_at _ _ _ _); [reflexivity|]. unfold on_services.
  pose proof (read_bytes_keeps (later := later) bucket folder path (fz_services s)) as Hl.
  pose proof (read_shows bucket folder path (fz_services s) bucket) as Hs.
  destruct (read_bytes _ _ _ _) as [r w]. apply advances_services; auto.
Qed.

Lemma keeps_list_files : keeps advances (on_services (list_files bucket folder)).
Proof.
  intros s. unfold on_services.
  pose proof (list_files_keeps (later := later) bucket folder (fz_services s)) as Hl.
  pose proof (list_shows bucket folder (fz_services s) bucket) as Hs.
  destruct (list_files _ _ _) as [r w]. apply advances_services; auto.
Qed.

Lemma keeps_write path content : ~ marked path -> keeps advances (write_evidence spec path content).
Proof.
  intros Hm s. unfold write_evidence, hub_bind, on_services.
  pose proof (write_keeps (later := later) bucket path content (fz_services s)) as Hl.
  pose proof (write_shows (later := later) bucket path content (fz_services s) bucket) as Hs.
  destruct (evidence_write_immutable _ _ _ _) as [[r|e] w]; (apply advances_services; [done|]);
    (intros y Hy Hmy; destruct (Hs y Hy) as [|]; congruence).
Qed.

Lemma write_evidence_ok path content s s' :
  write_evidence spec path content s = (Ok tt, s') -> stored (fz_services s') bucket path content.
Proof.
  unfold write_evidence, on_services. intros E. ok_bind E as r Er. injection E as <-.
  destruct (evidence_write_immutable _ _ _ _) as [r' w'] eqn:Ew. injection Er as -> <-.
  by apply write_stored in Ew.
Qed.

Lemma keeps_set_paths s paths : (forall p, p ∈ fz_run_paths s -> p ∈ paths) ->
  advances s (set_run_paths paths s).2.
Proof. intros Hp. split; cbn; auto. reflexivity. Qed.

Lemma read_staged_ok path s c s' : read_staged spec campaign path s = (Ok c, s') -> found s' path c.
Proof.
  unfold read_staged, found. destruct (staged_at _ _ _ _) as [c'|] eqn:E; [intros [= <- <-]; by left|].
  unfold on_services. destruct (read_bytes _ _ _ _) as [r w] eqn:Er. intros [= -> <-]. right.
  by apply read_bytes_law in Er.
Qed.

(** *** Staging *)
Lemma staged_at_push staged path c path' :
  staged_at spec campaign (((bucket, folder, path), c) :: staged) path' =
  if bool_decide (path = path') then Some c else staged_at spec campaign staged path'.
Proof.
  unfold staged_at. cbn [find fst]. case_bool_decide as E; cbn; (case_bool_decide as E'; [|congruence || done]);
    try done; congruence.
Qed.

Lemma keeps_stage path content :
  ~ marked (folder +:+ "/" +:+ path) -> keeps advances (_stage_immutable spec campaign path content).
Proof.
  intros Hm s. unfold _stage_immutable. cbn zeta.
  destruct (match staged_at _ _ _ _ with Some _ => _ | None => _ end) eqn:Hc; [reflexivity|].
  unfold hub_bind at 1. pose proof (keeps_write (folder +:+ "/" +:+ path) content Hm s) as K.
  destruct (write_evidence _ _ _ s) as [[[]|e] s1] eqn:Ew; [|exact K]. cbn in K |- *.
  apply write_evidence_ok in Ew. destruct K as [K1 K2 K3 K4 K5].
  assert (Hs : staged_at spec campaign (fz_staged s1) path = Some content \/
               staged_at spec campaign (fz_staged s) path = None).
  { destruct (staged_at _ _ (fz_staged s) path) as [previous|] eqn:Hp; [|by right]. left.
    apply negb_false_iff, String.eqb_eq in Hc as ->. auto. }
  split; cbn; auto.
  - intros path' c Hp'. rewrite staged_at_push. case_bool_decide as E; [|auto]. subst path'.
    destruct Hs as [Hs|Hs]; [|congruence]. apply K2 in Hp'. congruence.
  - intros Hok path' c Hp'. cbn [fz_staged] in Hp'. rewrite staged_at_push in Hp'. case_bool_decide as E; [|by apply K3].
    by injection Hp' as <-; subst.
Qed.

Lemma keeps_stage_trial_file run_prefix path content :
  ~ marked (folder +:+ "/" +:+ run_prefix +:+ "/" +:+ path) ->
  keeps advances (_stage_trial_file spec campaign run_prefix path content).
Proof.
  intros Hm. unfold _stage_trial_file. keeps_step; [by apply keeps_stage|].
  intros s. unfold hub_bind, get_run_paths. destruct (str_mem path (fz_run_paths s)); [reflexivity|].
  apply keeps_set_paths. intros p Hp. rewrite elem_of_app. by left.
Qed.
#[export] Instance advances_reads : Reads advances.
Proof. split; [apply _|apply keeps_read_staged]. Qed.

Lemma advances_stages run_prefix :
  (forall path, ~ marked (folder +:+ "/" +:+ run_prefix +:+ "/" +:+ String "t"%char path)) ->
  Stages advances run_prefix.
Proof. intros Hm path content (id & name & _ & ->). apply keeps_stage_trial_file, Hm. Qed.
End advances.

(** ** The files of the run at hand *)

(** Staged between two states. *)
Definition staged_during s s' (path : string) : Prop :=
  exists new, fz_staged s' = new ++ fz_staged s /\ (bucket, folder, path) ∈ map fst new.

(** The files of the run change exactly by what is staged for it. *)
Definition files_follow run_prefix s s' : Prop :=
  exists new, fz_staged s' = new ++ fz_staged s /\
    forall path, path ∈ fz_run_paths s' <->
      path ∈ fz_run_paths s \/ (bucket, folder, run_prefix +:+ "/" +:+ path) ∈ map fst new.

Lemma files_follow_during run_prefix s s' path : files_follow run_prefix s s' ->
  path ∈ fz_run_paths s' <-> path ∈ fz_run_paths s \/ staged_during s s' (run_prefix +:+ "/" +:+ path).
Proof.
  intros (new & En & Hp). rewrite Hp. split; (intros [Hl|Hr]; [by left|right]); [by exists new|].
  destruct Hr as (new' & En' & Hr). rewrite En in En'. by apply app_inv_tail in En' as <-.
Qed.

#[export] Instance files_follow_preorder run_prefix : PreOrder (files_follow run_prefix).
Proof.
  split; [intros s; exists []; split; [done|set_solver]|].
  intros a b c (n1 & E1 & H1') (n2 & E2 & H2'). exists (n2 ++ n1). rewrite E2, E1, app_assoc. split; [done|].
  intros path. rewrite H2', H1', map_app, elem_of_app. tauto.
Qed.

(** The files of the run stay, as while reading. *)
Definition same_files s s' : Prop := fz_staged s' = fz_staged s /\ fz_run_paths s' = fz_run_paths s.

#[export] Instance same_files_preorder : PreOrder same_files.
Proof. split; [done|]. intros a b c [E1 E2] [E3 E4]. split; congruence. Qed.

Lemma same_files_services {A} (m : hub W A) : keeps same_files (on_services m).
Proof. intros s. unfold on_services. destruct (m _). by split. Qed.

#[export] Instance same_files_reads : Reads same_files.
Proof.
  split; [apply _|]. intros path s. unfold read_staged.
  destruct (staged_at _ _ _ _); [by split|apply (same_files_services _)].
Qed.

Lemma same_files_write path content : keeps same_files (write_evidence spec path content).
Proof. unfold write_evidence. keeps_step; [apply same_files_services|auto with keeps]. Qed.

Lemma same_files_follow run_prefix s s' : same_files s s' -> files_follow run_prefix s s'.
Proof. intros [E1 E2]. exists []. split; [done|]. intros path. rewrite E2. set_solver. Qed.

#[export] Instance files_follow_reads run_prefix : Reads (files_follow run_prefix).
Proof. split; [apply _|]. intros path s. apply same_files_follow, reads_keeps. Qed.

(** A staged file joins the list, unless it was not written. *)
Lemma stage_trial_file_ends run_prefix path content s :
  let s' := (_stage_trial_file spec campaign run_prefix path content s).2 in
  same_files s s' \/
  fz_staged s' = [((bucket, folder, run_prefix +:+ "/" +:+ path), content)] ++ fz_staged s /\
  fz_run_paths s' = if str_mem path (fz_run_paths s) then fz_run_paths s else fz_run_paths s ++ [path].
Proof.
  cbv zeta. unfold _stage_trial_file, _stage_immutable, hub_bind, get_run_paths, set_run_paths, hub_ret. cbn zeta.
  destruct (match staged_at _ _ _ _ with Some _ => _ | None => _ end); [by left|].
  pose proof (same_files_write (folder +:+ "/" +:+ run_prefix +:+ "/" +:+ path) content s) as [Es Ep].
  destruct (write_evidence _ _ _ s) as [[[]|e] s1]; [|by left]. right. cbn in Es, Ep |- *. rewrite Es, Ep.
  unfold str_mem. by destruct (existsb _ _).
Qed.

#[export] Instance files_follow_stages run_prefix : Stages (files_follow run_prefix) run_prefix.
Proof.
  intros path content _ s. destruct (stage_trial_file_ends run_prefix path content s) as [Hs|[Es Ep]].
  { by apply same_files_follow. }
  eexists. split; [exact Es|]. intros path'. rewrite Ep. cbn [map fst]. rewrite list_elem_of_singleton.
  assert (Hi : (bucket, folder, run_prefix +:+ "/" +:+ path') = (bucket, folder, run_prefix +:+ "/" +:+ path)
    <-> path' = path).
  { split; [|by intros ->]. intros [= E]. by do 2 apply (inj (String.append _)) in E. }
  rewrite Hi. destruct (str_mem path _) eqn:Em.
  - apply str_mem_true in Em. split; [by left|intros [?| ->]; done].
  - by rewrite elem_of_app, list_elem_of_singleton.
Qed.

(** The execution locks of every trial stay. *)
Definition same_locks s s' : Prop := forall relative_prefix,
  execution_lock_paths (fz_run_paths s') relative_prefix = execution_lock_paths (fz_run_paths s) relative_prefix.

#[export] Instance same_locks_preorder : PreOrder same_locks.
Proof. split; [done|]. intros a b c E1 E2 p. by rewrite E2, E1. Qed.

Lemma same_files_locks s s' : same_files s s' -> same_locks s s'.
Proof. intros [_ E] p. by rewrite E. Qed.

#[export] Instance same_locks_reads : Reads same_locks.
Proof. split; [apply _|]. intros path s. apply same_files_locks, reads_keeps. Qed.

Lemma trial_file_no_lock path : trial_file path -> str_endswith "/execution.lock.json" path = false.
Proof.
  intros (id & name & Hn & ->). apply not_true_iff_false. intros [a E]%endswith_app.
  assert (E' : a +:+ "/execution.lock.json" = ("trials/" +:+ id) +:+ ("/" +:+ name)) by (by rewrite <- E).
  unfold trial_files in Hn. rewrite !elem_of_cons, elem_of_nil in Hn.
  destruct Hn as [-> |[-> |[-> |[-> |[-> |[]]]]]]; [symmetry in E'|..];
    (apply app_suffix in E' as [c Ec]; [|apply Nat.leb_le; reflexivity]); clear -Ec; cbn in Ec;
    repeat (destruct c as [|? c]; [discriminate Ec|first [discriminate Ec|injection Ec as _ Ec]]).
Qed.

#[export] Instance same_locks_stages run_prefix : Stages same_locks run_prefix.
Proof.
  intros path content Ht s. destruct (stage_trial_file_ends run_prefix path content s) as [Hs|[_ Ep]].
  { by apply same_files_locks. }
  intros relative_prefix. rewrite Ep. destruct (str_mem path _); [done|]. unfold execution_lock_paths. f_equal.
  rewrite List.filter_app. cbn [List.filter]. rewrite (trial_file_no_lock path Ht), andb_false_r. apply app_nil_r.
Qed.

(** ** Checksum manifests *)

(** What [content_of] gives. *)
Definition content_at s run_prefix (additions : dict string) path c : Prop :=
  dict_get additions path = Some c \/ dict_get additions path = None /\ found s (run_prefix +:+ "/" +:+ path) c.

Definition unmarked : string -> Prop := fun _ => False.
Abbreviation follows := (advances unmarked).

Lemma content_at_follows s s' run_prefix additions path c :
  follows s s' -> content_at s run_prefix additions path c -> content_at s' run_prefix additions path c.
Proof. intros Ha [Hc|[Hn Hc]]; [by left|right; split; [done|by eapply found_advances]]. Qed.

Lemma content_of_ok run_prefix additions path s c s' :
  content_of spec campaign run_prefix additions path s = (Ok c, s') -> content_at s' run_prefix additions path c.
Proof.
  unfold content_of, content_at. destruct (dict_get _ _) eqn:E; [intros [= <- <-]; by left|].
  intros Hr%read_staged_ok. by right.
Qed.

Lemma check_covered_ok run_prefix additions entry s u s' :
  check_covered spec campaign run_prefix additions entry s = (Ok u, s') ->
  exists c, entry.2 = content_digest c /\ content_at s' run_prefix additions entry.1 c.
Proof.
  unfold check_covered. intros E. ok_bind E as c Ec. apply content_of_ok in Ec.
  destruct (String.eqb _ _) eqn:Ed; [|done]. apply String.eqb_eq in Ed. injection E as _ <-. by exists c.
Qed.

Lemma add_child_wf parent covered entry covered' :
  add_child parent covered entry = Ok covered' -> dict_wf covered -> dict_wf covered'.
Proof.
  unfold add_child. intros E Hw. destruct entry.2; try done. destruct (dict_get _ _).
  - destruct (negb _); [done|]. by injection E as <-.
  - injection E as <-. by apply dict_wf_set.
Qed.

Lemma child_checksums_wf run_prefix run_paths s children s' :
  _child_checksums spec campaign run_prefix run_paths s = (Ok children, s') -> dict_wf children.
Proof.
  unfold _child_checksums. intros E.
  refine (hub_foldM_worlds (fun _ d _ => dict_wf d) _ _ _ _ _ _ _ _ E); [|constructor].
  clear. intros _ path d s d' s' Hd E. unfold add_child_manifest in E.
  ok_bind E as c Ec. ok_lift E as m Em. destruct m; try done. unfold hub_lift in E. injection E as E _.
  refine (foldM_invariant dict_wf _ _ _ _ _ Hd E). intros d1 x d2 _ H1 H2. by eapply add_child_wf.
Qed.

Lemma cover_wf run_prefix additions children paths s covered s' :
  dict_wf children ->
  hub_foldM (cover_path spec campaign run_prefix additions) children paths s = (Ok covered, s') -> dict_wf covered.
Proof.
  intros Hw E. refine (hub_foldM_worlds (fun _ d _ => dict_wf d) _ _ _ _ _ _ _ Hw E).
  clear. intros _ path d s d' s' Hd E. unfold cover_path in E. ok_bind E as c Ec. injection E as <- _.
  by apply dict_wf_set.
Qed.

(** A manifest that [_aggregate_checksums] returns names exactly the expected
    paths, each with the digest of its content. *)
Lemma aggregate_ok run_prefix run_paths additions s checksums s' :
  _aggregate_checksums spec campaign run_prefix run_paths additions s = (Ok checksums, s') ->
  follows s s' /\ dict_wf checksums /\
  (forall path, path ∈ dict_keys checksums <-> path ∈ expected_paths run_paths additions) /\
  (forall path digest, dict_get checksums path = Some digest ->
     exists c, digest = content_digest c /\ content_at s' run_prefix additions path c).
Proof.
  intros E. split; [exact (keeps_run _ _ _ _ _ (keeps_aggregate follows _ _ _) E)|].
  unfold _aggregate_checksums in E. ok_bind E as children Ec. ok_bind E as covered Ev.
  destruct (negb (same_set _ _)) eqn:Es; [done|]. apply negb_false_iff in Es.
  ok_bind E as us Eu. injection E as <- <-.
  assert (Hw : dict_wf covered) by (eapply cover_wf, Ev; by eapply child_checksums_wf).
  assert (Hp : sort_by key_leb covered ≡ₚ covered) by apply sort_by_perm.
  split_and!.
  - unfold dict_wf, dict_keys in *. by rewrite Hp.
  - intros path. unfold dict_keys. rewrite Hp. by apply same_set_iff.
  - intros path digest Hd. apply dict_get_in in Hd.
    apply (hub_mapM_inv follows) in Eu as [_ HF]; [|intros e _; apply (keeps_check_covered follows)].
    apply list_elem_of_lookup in Hd as [i Hi].
    destruct (Forall2_lookup_l _ _ _ _ _ HF Hi) as (u & _ & s1 & s2 & _ & E & Hs2).
    apply check_covered_ok in E as (c & Ed & Hc). exists c. split; [done|]. by eapply content_at_follows.
Qed.

(** ** Sealed runs *)

(** The manifest of a run is on the shelf, and names each of its files with the
    digest of a content that is there. *)
Definition sealed_with (w : W) run_prefix (named : string -> Prop) (checksums : dict string) : Prop :=
  stored w bucket (folder +:+ "/" +:+ run_prefix +:+ "/checksums.json") (_json_bytes (checksums_json checksums)) /\
  dict_wf checksums /\
  (forall path, path ∈ dict_keys checksums <-> named path) /\
  (forall path digest, dict_get checksums path = Some digest ->
     exists c, digest = content_digest c /\ on_shelf w (run_prefix +:+ "/" +:+ path) c).

Lemma sealed_with_later w w' run_prefix named checksums :
  later w w' -> sealed_with w run_prefix named checksums -> sealed_with w' run_prefix named checksums.
Proof.
  intros Hl (Hs & Hw & Hp & Hc). split_and!; [by eapply stored_later|done|done|].
  intros path digest Hd. destruct (Hc path digest Hd) as (c & Ec & Ho). exists c. split; [done|].
  by eapply on_shelf_later.
Qed.

(** The additions of a run were written. *)
Definition additions_stored s run_prefix (additions : dict string) : Prop :=
  forall path c, dict_get additions path = Some c ->
    stored (fz_services s) bucket (folder +:+ "/" +:+ run_prefix +:+ "/" +:+ path) c.

Lemma content_at_shelf s run_prefix additions path c :
  staged_ok s -> additions_stored s run_prefix additions ->
  content_at s run_prefix additions path c -> on_shelf (fz_services s) (run_prefix +:+ "/" +:+ path) c.
Proof. intros Hs Ha [Hc|[_ Hc]]; [left; by apply Ha|by apply found_on_shelf]. Qed.

Section seal.
Context (marked : string -> Prop) (run_prefix : string).
Abbreviation marker_path := (folder +:+ "/" +:+ run_prefix +:+ "/_SUCCESS").
Abbreviation manifest_path := (folder +:+ "/" +:+ run_prefix +:+ "/checksums.json").

Abbreviation others := (fun path => marked path /\ path <> marker_path).

Lemma advances_others s s' : advances marked s s' -> advances others s s'.
Proof. intros []. split; auto. intros path [Hm _]. auto. Qed.

(** Whatever way [seal_run] ends, it made no marker or the run is sealed. *)
Lemma seal_run_ok additions s r s' :
  ~ marked manifest_path -> staged_ok s -> additions_stored s run_prefix additions ->
  seal_run spec campaign run_prefix additions s = (r, s') ->
  advances others s s' /\
  (advances marked s s' /\ (exists e, r = Err e) \/
   exists checksums, sealed_with (fz_services s') run_prefix
       (fun path => path ∈ expected_paths (fz_run_paths s) additions) checksums /\
     forall f, r = Ok f ->
       fr_manifest_checksum f = content_digest (_json_bytes (checksums_json checksums)) /\
       fr_source_checksum f = canonical_digest (checksums_json checksums) /\
       stored (fz_services s') bucket marker_path newline_text).
Proof.
  intros Hm Hs Ha E. unfold seal_run in E.
  apply hub_bind_inv in E as (paths & s0 & E0 & E). injection E0 as <- <-.
  apply hub_bind_inv in E as (rc & s1 & E1 & E).
  pose proof (keeps_run _ _ _ _ _ (keeps_aggregate (advances marked) _ _ _) E1) as A1.
  destruct rc as [checksums|e]; [|destruct E as [-> ->]; split; [by apply advances_others|left; eauto]].
  apply aggregate_ok in E1 as (_ & Hw & Hp & Hc). cbn zeta in E.
  apply hub_bind_inv in E as (rm & s2 & E2 & E).
  pose proof (keeps_run _ _ _ _ _ (keeps_write marked _ _ Hm) E2) as A2.
  assert (A12 : advances marked s s2) by (by etransitivity).
  destruct rm as [[]|e]; [|destruct E as [-> ->]; split; [by apply advances_others|left; eauto]].
  apply write_evidence_ok in E2.
  apply hub_bind_inv in E as (rs & s3 & E3 & E).
  assert (A3 : advances others s2 s3) by (eapply keeps_run, E3; apply keeps_write; naive_solver).
  assert (s' = s3) as ->.
  { destruct rs; [by injection E as _ <-|by destruct E]. }
  split; [etransitivity; [by apply advances_others, A12|done]|]. right. exists checksums. split.
  - eapply sealed_with_later; [by apply A3|]. split_and!; [done|done|done|].
    intros path digest Hd. destruct (Hc path digest Hd) as (c & Ec & Ho). exists c. split; [done|].
    eapply on_shelf_later; [by apply A2|]. eapply content_at_shelf; [by apply A1| |exact Ho].
    intros p c' Hp'. eapply stored_later; [by apply A1|by apply Ha].
  - intros f ->. destruct rs as [[]|e]; [|by destruct E]. injection E as <-. apply write_evidence_ok in E3. done.
Qed.
End seal.

(** ** Runs *)
Section finalize_run.
Context (marked : string -> Prop) (run : CampaignRunLock).
Abbreviation run_prefix := ("runs/" +:+ rl_run_id run).
Abbreviation of_run := (fun path => folder +:+ "/" +:+ run_prefix +:+ "/" +:+ path).

(** What a run adds to its files. *)
Definition added_paths : list string := ["verification.json"; "run-summary.json"; PUBLICATION_ENVELOPE_PATH].

(** The files the manifest of a run names: those that were listed under its
    prefix, what was staged for its trials, and the records of the run, but
    neither the manifest itself nor a terminal marker of the run. *)
Definition run_named (campaign_paths : list string) (staged : string -> Prop) (path : string) : Prop :=
  (path ∈ _under campaign_paths run_prefix \/ staged (run_prefix +:+ "/" +:+ path) \/ path ∈ added_paths) /\
  path <> "checksums.json" /\ str_mem path _TERMINAL_MARKERS = false.

Definition run_sealed (w : W) (campaign_paths : list string) (staged : string -> Prop)
    (checksums : dict string) : Prop :=
  sealed_with w run_prefix (run_named campaign_paths staged) checksums.

Lemma run_sealed_later w w' campaign_paths staged checksums :
  later w w' -> run_sealed w campaign_paths staged checksums -> run_sealed w' campaign_paths staged checksums.
Proof. apply sealed_with_later. Qed.

Lemma expected_paths_elem run_paths additions path :
  path ∈ expected_paths run_paths additions <->
  (path ∈ run_paths \/ path ∈ dict_keys additions) /\ path <> "checksums.json" /\
  str_mem path _TERMINAL_MARKERS = false.
Proof.
  unfold expected_paths. rewrite list_elem_of_In, filter_In, <- list_elem_of_In, sorted_set_elem_of, elem_of_app.
  rewrite andb_true_iff, !negb_true_iff, String.eqb_neq. done.
Qed.

(** What a record of a finalized run says of its manifest. *)
Definition records_manifest (f : _FinalizedRun) (checksums : dict string) : Prop :=
  fr_manifest_checksum f = content_digest (_json_bytes (checksums_json checksums)) /\
  fr_source_checksum f = canonical_digest (checksums_json checksums).

(** How finalizing a run ends: it is sealed, or it failed and made no marker.
    Other marked objects are not made at all. *)
Definition run_ends s (r : result _FinalizedRun) s' campaign_paths : Prop :=
  later (fz_services s) (fz_services s') /\ staged_ok s' /\
  (forall path, marked path -> path <> of_run "_SUCCESS" ->
     shows (fz_services s') bucket path -> shows (fz_services s) bucket path) /\
  ((exists checksums, run_sealed (fz_services s') campaign_paths (staged_during s s') checksums /\
      forall f, r = Ok f -> records_manifest f checksums /\
        stored (fz_services s') bucket (of_run "_SUCCESS") newline_text) \/
   (exists e, r = Err e) /\
   (marked (of_run "_SUCCESS") -> shows (fz_services s') bucket (of_run "_SUCCESS") ->
      shows (fz_services s) bucket (of_run "_SUCCESS"))).

Lemma run_failed s e s' campaign_paths : staged_ok s -> advances marked s s' -> run_ends s (Err e) s' campaign_paths.
Proof. intros Hs []. split_and!; auto. right. split; [by eexists|auto]. Qed.

(** The states of a run that is being finalized. *)
Definition proceeds s s' : Prop := advances marked s s' /\ files_follow run_prefix s s'.

#[export] Instance proceeds_preorder : PreOrder proceeds.
Proof. split; [split; reflexivity|]. intros a b c [A1 F1] [A2 F2]. split; by etransitivity. Qed.

Lemma keeps_both {A} (m : hub state A) :
  keeps (advances marked) m -> keeps (files_follow run_prefix) m -> keeps proceeds m.
Proof. intros H1' H2' s. by split. Qed.

#[export] Instance proceeds_reads : Reads proceeds.
Proof. split; [apply _|]. intros path. apply keeps_both; apply reads_keeps. Qed.

Lemma proceeds_write path content :
  ~ marked path -> keeps proceeds (write_evidence spec path content).
Proof.
  intros Hm. apply keeps_both; [by apply keeps_write|]. intros s. apply same_files_follow, same_files_write.
Qed.

Lemma seal_run_files additions : keeps same_files (seal_run spec campaign run_prefix additions).
Proof.
  unfold seal_run. keeps_step; [apply keeps_get_paths, _|].
  keeps_step; [apply (keeps_aggregate same_files)|]. cbv zeta.
  do 2 (keeps_step; [apply same_files_write|]). apply keeps_ret, _.
Qed.

Lemma run_seal s s1 additions r s' campaign_paths :
  ~ marked (of_run "checksums.json") -> staged_ok s -> proceeds s s1 ->
  fz_run_paths s = _under campaign_paths run_prefix -> dict_keys additions = added_paths ->
  additions_stored s1 run_prefix additions -> seal_run spec campaign run_prefix additions s1 = (r, s') ->
  run_ends s r s' campaign_paths.
Proof.
  intros Hm Hs [A F] Hp Hk Ha E. pose proof (keeps_run _ _ _ _ _ (seal_run_files _) E) as [Sf _].
  apply (seal_run_ok marked) in E as [A' Hr]; [|done|by apply A|done].
  destruct A as [L1 S1 K1 P1 M1], A' as [L2 S2 K2 P2 M2].
  split; [by etransitivity|]. split; [auto|]. split; [naive_solver|].
  destruct Hr as [[[_ _ _ _ M3] He]|(checksums & (Hst & Hw & Hn & Hc) & Hf)]; [right; split; [done|auto]|left].
  exists checksums. split; [|intros f Er; by destruct (Hf f Er) as (? & ? & ?)].
  split_and!; [done|done| |done]. intros path. rewrite Hn, expected_paths_elem, Hk, (files_follow_during _ _ _ path F), Hp.
  unfold run_named, staged_during. rewrite Sf. tauto.
Qed.

(** One step of [_finalize_run]: the failures are those of [run_failed]. *)
Lemma run_step {A} (m : hub state A) (k : A -> hub state _FinalizedRun) s s1 r s' campaign_paths :
  staged_ok s -> proceeds s s1 -> hub_bind m k s1 = (r, s') -> keeps proceeds m ->
  (forall a s2, m s1 = (Ok a, s2) -> proceeds s s2 -> later (fz_services s1) (fz_services s2) -> k a s2 = (r, s') ->
     run_ends s r s' campaign_paths) ->
  run_ends s r s' campaign_paths.
Proof.
  intros Hs A1 E Hm Hk. apply hub_bind_inv in E as (ra & s2 & E1 & E).
  pose proof (keeps_run _ _ _ _ _ Hm E1) as A2. assert (A12 : proceeds s s2) by (by etransitivity).
  destruct ra as [a|e]; [eapply Hk; [done|done|apply A2|done]|].
  destruct E as [-> ->]. apply run_failed; [done|apply A12].
Qed.

Lemma finalize_run_ok campaign_paths projection s r s' :
  (forall path, marked (of_run path) -> path = "_SUCCESS") -> staged_ok s ->
  _finalize_run spec campaign run campaign_paths projection s = (r, s') ->
  run_ends s r s' campaign_paths.
Proof.
  intros Hm Hs E. assert (Hu : forall path, path <> "_SUCCESS" -> ~ marked (of_run path)) by naive_solver.
  unfold _finalize_run in E. apply hub_bind_inv in E as (u & s0 & E0 & E). injection E0 as <- <-.
  set (s0 := {| fz_run_paths := _ |}) in E.
  change (run_ends s0 r s' campaign_paths). assert (Hs0 : staged_ok s0) by done.
  assert (Hp : fz_run_paths s0 = _under campaign_paths run_prefix) by done. clearbody s0.
  assert (A0 : proceeds s0 s0) by reflexivity.
  eapply run_step; [done|exact A0|exact E|apply reads_keeps|clear A0 E; intros lock s1 _ A1 _ E].
  eapply run_step; [done|exact A1|exact E|apply keeps_lift, _|clear A1 E; intros conf s2 _ A2 _ E].
  eapply run_step; [done|exact A2|exact E|apply keeps_lift, _|clear A2 E; intros i s3 _ A3 _ E].
  eapply run_step; [done|exact A3|exact E| |clear A3 E; intros records s4 _ A4 _ E].
  { assert (Stages (advances marked) run_prefix) by (apply advances_stages; intros path; by apply Hu).
    apply keeps_mapM; [apply _|]. intros trial. apply keeps_both;
      [apply (keeps_run_trial_records (advances marked) run_prefix)|
       apply (keeps_run_trial_records (files_follow run_prefix) run_prefix)]. }
  cbn zeta in E. eapply run_step; [done|exact A4|exact E|by apply proceeds_write, Hu|].
  clear A4 E. intros [] s5 W5%write_evidence_ok A5 _ E.
  eapply run_step; [done|exact A5|exact E|apply keeps_lift, _|clear A5 E; intros completed s6 _ A6 B6 E].
  eapply run_step; [done|exact A6|exact E|apply keeps_lift, _|clear A6 E; intros evidence s7 _ A7 B7 E].
  eapply run_step; [done|exact A7|exact E|by apply proceeds_write, Hu|].
  clear A7 E. intros [] s8 W8%write_evidence_ok A8 B8 E.
  eapply run_step; [done|exact A8|exact E|apply keeps_lift, _|clear A8 E; intros envelope s9 _ A9 B9 E].
  eapply run_step; [done|exact A9|exact E|by apply proceeds_write, Hu|].
  clear A9 E. intros [] s10 W10%write_evidence_ok A10 B10 E.
  eapply run_seal; [by apply Hu|done|exact A10|done| | |exact E]; [done|].
  assert (L8 : later (fz_services s8) (fz_services s10)) by (by etransitivity).
  assert (L5 : later (fz_services s5) (fz_services s10)).
  { etransitivity; [|exact L8]. etransitivity; [exact B6|]. by etransitivity. }
  intros path c Hd%dict_get_in. rewrite !elem_of_cons, elem_of_nil in Hd.
  destruct Hd as [[= -> ->]|[[= -> ->]|[[= -> ->]|[]]]]; (eapply stored_later; [|done]);
    first [exact L5|exact L8|reflexivity].
Qed.
End finalize_run.

(** ** Campaigns *)
Section finalize.
Context (marked : string -> Prop).
Hypothesis marked_outside : forall path, ~ marked (folder +:+ "/runs/" +:+ path).

(** Services go on, what is staged is written, and no marked object is made. *)
Definition onward s s' : Prop := staged_ok s ->
  later (fz_services s) (fz_services s') /\ staged_ok s' /\
  forall path, marked path -> shows (fz_services s') bucket path -> shows (fz_services s) bucket path.

#[export] Instance onward_preorder : PreOrder onward.
Proof.
  split; [intros s Hs; split_and!; [reflexivity|done|done]|].
  intros a b c Hab Hbc Ha. destruct (Hab Ha) as (L1 & S1 & M1), (Hbc S1) as (L2 & S2 & M2).
  split_and!; [by etransitivity|done|auto].
Qed.

Lemma advances_onward s s' : advances marked s s' -> onward s s'.
Proof. intros [] Hs. split_and!; auto. Qed.

Lemma run_ends_onward run s r s' campaign_paths :
  run_ends marked run s r s' campaign_paths -> 
  later (fz_services s) (fz_services s') /\ staged_ok s' /\
  forall path, marked path -> shows (fz_services s') bucket path -> shows (fz_services s) bucket path.
Proof.
  intros (L & S & M & _). split_and!; [done|done|]. intros path Hm. apply M; [done|]. intros ->.
  by apply (marked_outside (rl_run_id run +:+ "/_SUCCESS")).
Qed.

Lemma finalize_run_of run campaign_paths projection s r s' :
  staged_ok s -> _finalize_run spec campaign run campaign_paths projection s = (r, s') ->
  run_ends marked run s r s' campaign_paths.
Proof.
  intros Hs E. eapply finalize_run_ok; [|done|exact E]. intros path Hm. exfalso.
  by apply (marked_outside (rl_run_id run +:+ "/" +:+ path)).
Qed.

Lemma keeps_finalize_run run campaign_paths projection :
  keeps onward (_finalize_run spec campaign run campaign_paths projection).
Proof.
  intros s Hs. destruct (_finalize_run _ _ _ _ _ s) as [r s'] eqn:E.
  eapply run_ends_onward, finalize_run_of, E. done.
Qed.

Lemma keeps_complete_run campaign_paths projection rc run :
  keeps onward (finalize_complete_run spec campaign campaign_paths projection rc run).
Proof.
  unfold finalize_complete_run. keeps_step. keeps_step; [auto with keeps|].
  keeps_step; [apply keeps_finalize_run|apply keeps_ret, _].
Qed.

(** The run is complete in a projection. *)
Definition run_complete (projection : RecoveryProjection) (run_id : string) : Prop :=
  exists observed, dict_get (rp_runs projection) run_id = Some observed /\
    Recovery.rn_status observed = run_s_complete.

(** A run was finalized between two worlds, from a state [s1] to a state [s2]:
    its manifest names the files that were listed or that were staged meanwhile. *)
Definition run_finalized (start w : W) campaign_paths (projection : RecoveryProjection)
    (run : CampaignRunLock) (digest : string) : Prop :=
  exists checksums f s1 s2,
    later start (fz_services s1) /\ later (fz_services s2) w /\
    _finalize_run spec campaign run campaign_paths projection s1 = (Ok f, s2) /\
    run_sealed run w campaign_paths (staged_during s1 s2) checksums /\ records_manifest f checksums /\
    digest = content_digest (_json_bytes (checksums_json checksums)).

(** A checksum of the summary is the digest of the manifest of a sealed run. *)
Definition run_checksum_ok (start w : W) campaign_paths (projection : RecoveryProjection)
    (runs : list CampaignRunLock) (entry : string * string) : Prop := exists run,
  run ∈ runs /\ rl_run_id run = entry.1 /\ run_complete projection entry.1 /\
  run_finalized start w campaign_paths projection run entry.2.

Definition runs_finalized (start : W) s campaign_paths projection (seen : list CampaignRunLock)
    (rc : dict string) : Prop :=
  dict_wf rc /\ Forall (run_checksum_ok start (fz_services s) campaign_paths projection seen) rc /\
  (forall run, run ∈ seen -> run_complete projection (rl_run_id run) -> rl_run_id run ∈ dict_keys rc).

Lemma run_checksum_later start w w' campaign_paths projection seen seen' entry :
  later w w' -> seen ⊆ seen' -> run_checksum_ok start w campaign_paths projection seen entry ->
  run_checksum_ok start w' campaign_paths projection seen' entry.
Proof.
  intros Hl Hs (run & Hin & Hi & Hc & checksums & f & s1 & s2 & L1 & L2 & E & Hr & Hrest). exists run.
  split_and!; [by apply Hs|done|done|]. exists checksums, f, s1, s2.
  split_and!; [done|by etransitivity|done|by eapply run_sealed_later|apply Hrest..].
Qed.

Lemma complete_run_ok start campaign_paths projection seen rc run s rc' s' :
  later start (fz_services s) -> staged_ok s -> runs_finalized start s campaign_paths projection seen rc ->
  finalize_complete_run spec campaign campaign_paths projection rc run s = (Ok rc', s') ->
  later start (fz_services s') /\ staged_ok s' /\
  runs_finalized start s' campaign_paths projection (seen ++ [run]) rc'.
Proof.
  intros Hst Hs (Hw & Hf & Hk) E. pose proof (keeps_run _ _ _ _ _ (keeps_complete_run _ _ _ _) E Hs) as (L & S & _).
  split; [by etransitivity|]. split; [done|]. unfold finalize_complete_run in E. ok_lift E as observed Eo.
  assert (Hold : Forall (run_checksum_ok start (fz_services s') campaign_paths projection (seen ++ [run])) rc).
  { eapply Forall_impl; [exact Hf|]. intros x. apply run_checksum_later; [done|set_solver]. }
  assert (Ho : dict_get (rp_runs projection) (rl_run_id run) = Some observed).
  { unfold dict_item in Eo. destruct (dict_get _ _); [by injection Eo as <-|done]. }
  destruct (negb _) eqn:Ec in E.
  - injection E as <- _. apply negb_true_iff, bool_decide_eq_false in Ec. split_and!; [done|done|].
    intros r [Hin| ->%list_elem_of_singleton]%elem_of_app (o & Eo' & Hc); [apply Hk; [done|by exists o]|].
    congruence.
  - apply negb_false_iff, bool_decide_eq_true in Ec. ok_bind E as f Ef. injection E as <- ->.
    pose proof Ef as Ef'. apply finalize_run_of in Ef as (_ & _ & _ & [(checksums & Hr & Hd)|[[e Hd] _]]); [|done|done].
    destruct (Hd f eq_refl) as [Hm _]. split_and!; [by apply dict_wf_set| |].
    + apply Forall_forall. intros x [-> |Hx]%dict_in_set; [|by rewrite Forall_forall in Hold; apply Hold].
      exists run. cbn. split_and!; [set_solver|done|by exists observed|].
      exists checksums, f. do 2 eexists. split_and!; [exact Hst|reflexivity|exact Ef'|done|done|apply Hm].
    + intros r [Hin| ->%list_elem_of_singleton]%elem_of_app Hc; apply dict_keys_set_elem; [right; by apply Hk|by left].
Qed.

(** As many checksums as runs: every run is complete. *)
Lemma all_complete start s campaign_paths projection seen rc :
  runs_finalized start s campaign_paths projection seen rc -> len rc = len seen ->
  forall run, run ∈ seen -> run_complete projection (rl_run_id run).
Proof.
  intros (Hw & Hf & _) Hl run Hin. rewrite Forall_forall in Hf.
  assert (Hp : dict_keys rc ≡ₚ map rl_run_id seen).
  { apply submseteq_length_Permutation; [apply NoDup_submseteq; [done|]|unfold len in Hl; unfold dict_keys; rewrite !length_map; lia].
    intros k (e & -> & He)%list_elem_of_fmap. destruct (Hf e He) as (r & Hr & Hi & _).
    apply list_elem_of_fmap. by exists r. }
  assert (He : rl_run_id run ∈ dict_keys rc) by (rewrite Hp; apply list_elem_of_fmap; by exists run).
  apply list_elem_of_fmap in He as (e & -> & He). by destruct (Hf e He) as (r & _ & _ & Hc & _).
Qed.

(** What the summary of a campaign says, and what it rests on. *)
Definition campaign_finalized (start : W) s (projection : RecoveryProjection) (decision : TerminalDecision) : Prop :=
  exists campaign_paths w1 rc,
    list_files bucket folder start = (Ok campaign_paths, w1) /\ later w1 (fz_services s) /\
    stored (fz_services s) bucket (td_summary_path decision) (_json_bytes (campaign_summary campaign decision rc)) /\
    runs_finalized w1 s campaign_paths projection (runs campaign) rc /\
    (td_status decision = terminal_completed ->
     forall run, run ∈ runs campaign -> run_complete projection (rl_run_id run)).

Lemma runs_finalized_later start s s' campaign_paths projection seen rc :
  later (fz_services s) (fz_services s') -> runs_finalized start s campaign_paths projection seen rc ->
  runs_finalized start s' campaign_paths projection seen rc.
Proof.
  intros Hl (Hw & Hf & Hk). split_and!; [done| |done]. eapply Forall_impl; [exact Hf|].
  intros e. by apply run_checksum_later.
Qed.
End finalize.

(** Whatever way [finalize] ends: it failed and did not make the marker of the
    campaign, or the campaign is finalized. *)
Lemma finalize_ok projection decision s r s' :
  (forall path, td_marker_path decision <> folder +:+ "/runs/" +:+ path) ->
  td_summary_path decision <> td_marker_path decision ->
  finalize_evidence spec campaign projection decision s = (r, s') ->
  (exists e, r = Err e) /\ (shows (fz_services s') bucket (td_marker_path decision) ->
     shows (fz_services s) bucket (td_marker_path decision)) \/
  campaign_finalized (fz_services s) s' projection decision /\
  (r = Ok tt -> stored (fz_services s') bucket (td_marker_path decision) newline_text).
Proof.
  set (marked := fun path => path = td_marker_path decision). intros Ho Hsm E.
  assert (Hout : forall path, ~ marked (folder +:+ "/runs/" +:+ path)) by (intros path Hm; by apply (Ho path)).
  unfold finalize_evidence in E. apply hub_bind_inv in E as (u & s0 & E0 & E). injection E0 as <- <-.
  set (s0 := {| fz_staged := [] |}) in E. assert (Hs0 : staged_ok s0) by done.
  change ((exists e, r = Err e) /\ (shows (fz_services s') bucket (td_marker_path decision) ->
      shows (fz_services s0) bucket (td_marker_path decision)) \/ campaign_finalized (fz_services s0) s' projection decision /\
    (r = Ok tt -> stored (fz_services s') bucket (td_marker_path decision) newline_text)).
  clearbody s0. clear s.
  apply hub_bind_inv in E as (paths & s1 & E1 & E).
  pose proof (advances_onward _ _ _ (keeps_run _ _ _ _ _ (keeps_list_files marked) E1) Hs0) as (L1 & S1 & M1).
  destruct paths as [paths|e]; [|destruct E as [-> ->]; left; split; [by eexists|by apply M1]].
  assert (E1' : list_files bucket folder (fz_services s0) = (Ok paths, fz_services s1)).
  { unfold on_services in E1. destruct (list_files _ _ _) as [r1 w1]. by injection E1 as -> <-. }
  apply hub_bind_inv in E as (rc & s2 & E2 & E).
  pose proof (keeps_run _ _ _ _ _ (keeps_foldM _ _ _ _ (keeps_complete_run marked Hout paths projection)) E2 S1)
    as (L2 & S2 & M2).
  destruct rc as [rc|e]; [|destruct E as [-> ->]; left; split; [by eexists|intros Hv; by apply M1, M2]].
  assert (R2 : runs_finalized (fz_services s1) s2 paths projection (runs campaign) rc).
  { apply (hub_foldM_worlds (fun seen rc s => later (fz_services s1) (fz_services s) /\ staged_ok s /\
      runs_finalized (fz_services s1) s paths projection seen rc)) in E2; [by destruct E2 as (_ & _ & ?)| |].
    - intros seen run s0' rc0 s3 rc1 (Hl3 & Hs3 & Hr) Er. by eapply (complete_run_ok marked).
    - split_and!; [reflexivity|done|]. split_and!; [constructor|constructor|set_solver]. }
  clear E1 E2. destruct (bool_decide _ && _) eqn:Ed in E; [injection E as <- <-; left; split; [by eexists|intros Hv; by apply M1, M2]|].
  apply hub_bind_inv in E as (rs & s3 & E3 & E).
  assert (Hns : ~ marked (td_summary_path decision)) by done.
  pose proof (keeps_run _ _ _ _ _ (keeps_write marked _ _ Hns) E3) as A3.
  destruct rs as [[]|e]; [|destruct E as [-> ->]; left; split; [by eexists|intros Hv; apply M1, M2; [done..|]; by apply A3]].
  apply write_evidence_ok in E3.
  pose proof (keeps_run _ _ _ _ _ (keeps_write unmarked _ _ (fun H => H)) E) as [L4 _ _ _ _].
  right. split; [|intros ->; by apply write_evidence_ok in E].
  exists paths, (fz_services s1), rc. split_and!; [done| |by eapply stored_later| |].
  - etransitivity; [exact L2|]. etransitivity; [apply A3|done].
  - eapply runs_finalized_later; [|exact R2]. etransitivity; [by apply A3|done].
  - intros Hd. eapply all_complete; [exact R2|].
    rewrite bool_decide_true in Ed by done. cbn in Ed. by apply negb_false_iff, Z.eqb_eq in Ed.
Qed.

(** ** Native bundles *)

(** A path of the campaign reads as content of this digest. *)
Definition reads_as s path digest : Prop := exists c, found s path c /\ content_digest c = digest.

Lemma reads_as_follows s s' path digest : follows s s' -> reads_as s path digest -> reads_as s' path digest.
Proof. intros Ha (c & Hf & Hd). exists c. split; [by eapply found_advances|done]. Qed.

(** The bundle an execution refers to: a manifest that is there, whose documents
    and archive are there with the digests it gives. *)
Definition bundle_verified_at s (ep ap : string) (b : HarborBundleReference) : Prop :=
  exists manifest_bytes manifest,
    found s (ap +:+ "/" +:+ HARBOR_NATIVE_BUNDLE_PATH) manifest_bytes /\
    load_harbor_native_bundle manifest_bytes = Ok manifest /\
    or_path (hb_manifest b) = ep +:+ "/" +:+ HARBOR_NATIVE_BUNDLE_PATH /\
    or_digest (hb_manifest b) = content_digest manifest_bytes /\
    or_path (hb_archive b) = ep +:+ "/" +:+ bo_path (hn_archive manifest) /\
    or_digest (hb_archive b) = bo_digest (hn_archive manifest) /\
    Forall (fun d => reads_as s (ap +:+ "/" +:+ nd_path d) (nd_digest d)) (hn_documents manifest) /\
    reads_as s (ap +:+ "/" +:+ bo_path (hn_archive manifest)) (bo_digest (hn_archive manifest)) /\
    reads_as s (ap +:+ "/" +:+ bo_path (hn_compatibility manifest)) (bo_digest (hn_compatibility manifest)).

Lemma object_reference_ok path content r :
  object_reference path content = Ok r -> or_path r = path /\ or_digest r = content_digest content.
Proof.
  unfold object_reference, validate_ObjectReference. cbn [or_path or_digest].
  destruct (fields_ok _ _); [|done]. cbn. destruct (in_validator _); [|done]. by intros [= <-].
Qed.

Lemma bundle_object_ok run_paths ep ap reference label s r s' :
  _verified_bundle_object spec campaign run_paths ep ap reference label s = (Ok r, s') ->
  or_path r = ep +:+ "/" +:+ bo_path reference /\ or_digest r = bo_digest reference /\
  reads_as s' (ap +:+ "/" +:+ bo_path reference) (bo_digest reference).
Proof.
  unfold _verified_bundle_object. cbn zeta. destruct (negb (str_mem _ _)); [done|]. intros E.
  ok_bind E as c Ec. apply read_staged_ok in Ec. ok_lift E as o Eo. apply object_reference_ok in Eo as [Ep Ed].
  destruct (_ || _) eqn:Hc; [done|]. injection E as <- <-.
  apply orb_false_iff in Hc as [Hc%negb_false_iff%String.eqb_eq _].
  split_and!; [done|done|]. exists c. split; [done|congruence].
Qed.

Lemma verify_document_ok run_paths ep ap d s u s' :
  verify_document spec campaign run_paths ep ap d s = (Ok u, s') -> reads_as s' (ap +:+ "/" +:+ nd_path d) (nd_digest d).
Proof.
  unfold verify_document. destruct (negb _); [done|]. intros E. ok_bind E as c Ec. apply read_staged_ok in Ec.
  destruct (String.eqb _ _) eqn:Hc; [|done]. injection E as _ <-. apply String.eqb_eq in Hc. by exists c.
Qed.

Lemma keeps_documents run_paths ep ap manifest :
  keeps follows (_verify_bundle_documents spec campaign run_paths ep ap manifest).
Proof.
  unfold _verify_bundle_documents. apply keeps_bind; [apply _| |intros ?; apply keeps_ret, _].
  apply keeps_mapM; [apply _|]. intros d. apply (keeps_verify_document follows).
Qed.

Lemma verify_documents_ok run_paths ep ap manifest s u s' :
  _verify_bundle_documents spec campaign run_paths ep ap manifest s = (Ok u, s') ->
  Forall (fun d => reads_as s' (ap +:+ "/" +:+ nd_path d) (nd_digest d)) (hn_documents manifest).
Proof.
  unfold _verify_bundle_documents. intros E. ok_bind E as us Eu. injection E as _ <-.
  apply (hub_mapM_inv follows) in Eu as [_ HF]; [|intros d _; apply (keeps_verify_document follows)].
  induction HF as [|d u' ds us' (s1 & s2 & _ & Ed & Hf) _ IH]; constructor; [|done].
  apply verify_document_ok in Ed. by eapply reads_as_follows.
Qed.

Lemma bundle_reference_ok run_paths ep ap s b s' :
  _execution_bundle_reference spec campaign run_paths ep ap s = (Ok (Some b), s') -> bundle_verified_at s' ep ap b.
Proof.
  unfold _execution_bundle_reference. cbn zeta. destruct (negb _); [done|]. intros E.
  ok_bind E as c Ec. apply read_staged_ok in Ec. ok_lift E as m Em.
  assert (Hm : load_harbor_native_bundle c = Ok m) by (by destruct (load_harbor_native_bundle c)). clear Em.
  ok_lift E as v Ev. ok_bind E as d Ed. ok_bind E as a Ea. ok_bind E as cp Ecp.
  ok_lift E as r Er. ok_lift E as b' Eb. injection E as <- <-.
  pose proof (keeps_run _ _ _ _ _ (keeps_documents _ _ _ _) Ed) as F1.
  pose proof (keeps_run _ _ _ _ _ (keeps_bundle_object follows _ _ _ _ _) Ea) as F2.
  pose proof (keeps_run _ _ _ _ _ (keeps_bundle_object follows _ _ _ _ _) Ecp) as F3.
  apply bundle_object_ok in Ea as (Pa & Da & Ra). apply bundle_object_ok in Ecp as (_ & _ & Rc).
  apply object_reference_ok in Er as [Pr Dr]. apply verify_documents_ok in Ed.
  unfold validate_HarborBundleReference in Eb. destruct (fields_ok _ _); [|done]. injection Eb as <-.
  exists c, m. cbn. split_and!; try done.
  - eapply found_advances; [|exact Ec]. do 2 (etransitivity; [done|]). done.
  - eapply Forall_impl; [exact Ed|]. intros x. apply reads_as_follows. by etransitivity.
  - by eapply reads_as_follows.
Qed.

Lemma bundle_verified_follows s s' ep ap b :
  follows s s' -> bundle_verified_at s ep ap b -> bundle_verified_at s' ep ap b.
Proof.
  intros Ha (c & m & Hf & Hm & P1 & D1 & P2 & D2 & Hd & Hr & Hc). exists c, m. split_and!; try done.
  - by eapply found_advances.
  - eapply Forall_impl; [exact Hd|]. intros d. by apply reads_as_follows.
  - by eapply reads_as_follows.
  - by eapply reads_as_follows.
Qed.

(** What a record of an execution rests on: its lock, its terminal marker and,
    when it succeeded, its verified bundle. *)
Definition execution_recorded s run_paths (ep ap : string) (x : _ExecutionRecord) : Prop :=
  let e := xr_evidence x in
  let p := xr_physical_execution x in
  (exists content lock, found s (ap +:+ "/execution.lock.json") content /\
     execution_lock_validate_json content = Ok lock /\ xe_execution_id e = xl_execution_id lock /\
     xe_trial_id e = xl_trial_id lock) /\
  (exists marker, _marker run_paths ep = Ok marker /\ status_of_marker marker = Ok (xe_status e)) /\
  px_execution_id p = xe_execution_id e /\ px_status p = xe_status e /\
  (xe_status e = physical_succeeded -> exists b, px_harbor_bundle p = Some b /\
     px_bundle_status p = bundle_verified /\ bundle_verified_at s ep ap b).

Lemma execution_recorded_follows s s' run_paths ep ap x :
  follows s s' -> execution_recorded s run_paths ep ap x -> execution_recorded s' run_paths ep ap x.
Proof.
  intros Ha ((c & l & Hf & Hl) & Hm & Hi & Hs & Hb). split_and!; [|done..|].
  - exists c, l. split; [by eapply found_advances|done].
  - intros Hok. destruct (Hb Hok) as (b & Eb & Es & Hv). exists b. split_and!; [done|done|].
    by eapply bundle_verified_follows.
Qed.

Lemma validate_evidence_id x y : validate_ExecutionEvidence x = Ok y -> y = x.
Proof.
  unfold validate_ExecutionEvidence. destruct (fields_ok _ _); [|done]. cbn [result_bind].
  repeat (case_match; try done). by intros [= ->].
Qed.

Lemma validate_physical_id x y : validate_PhysicalExecutionReference x = Ok y -> y = x.
Proof.
  unfold validate_PhysicalExecutionReference. destruct (fields_ok _ _); [|done]. cbn [result_bind].
  repeat (case_match; try done). by intros [= ->].
Qed.

Lemma execution_record_ok run_paths ep ap k s x s' :
  _execution_record spec campaign run_paths ep ap k s = (Ok x, s') -> execution_recorded s' run_paths ep ap x.
Proof.
  unfold _execution_record. intros E.
  ok_bind E as c Ec. apply read_staged_ok in Ec. ok_lift E as l El. ok_lift E as m Em.
  ok_bind E as log Elog. ok_lift E as ev Eev. ok_lift E as t0 Et0. ok_lift E as t1 Et1. ok_lift E as st Est.
  ok_bind E as cat Ecat. ok_lift E as e Ee. ok_bind E as b Eb.
  destruct (bool_decide _ && _) eqn:Hsb; [done|]. ok_lift E as p Ep. injection E as <- <-.
  pose proof (keeps_run _ _ _ _ _ (keeps_read_staged unmarked _) Elog) as F1.
  pose proof (keeps_run _ _ _ _ _ (keeps_failure_category follows _ _ _ _) Ecat) as F2.
  pose proof (keeps_run _ _ _ _ _ (keeps_bundle_reference follows _ _ _) Eb) as F3.
  apply validate_evidence_id in Ee as ->. apply validate_physical_id in Ep as ->.
  split_and!; cbn; [|by exists m|done|done|].
  - exists c, l. split_and!; [|done|done|done]. eapply found_advances; [|exact Ec].
    etransitivity; [exact F1|]. by etransitivity.
  - cbn in Hsb. intros Hok. rewrite bool_decide_true in Hsb by done. destruct b as [b|]; [|done].
    apply bundle_reference_ok in Eb. by exists b.
Qed.

(** ** Scored trials *)
Section trials.
Context (run_prefix : string).

(** The record of the execution whose lock is at a path of the run. *)
Definition recorded_at s run_paths (relative : string) (x : _ExecutionRecord) : Prop :=
  execution_recorded s run_paths (parent_of relative) (run_prefix +:+ "/" +:+ parent_of relative) x.

(** The state of the loop over the locks of a trial: the records are those of the
    locks, in order, and a selected one is among them. *)
Definition selection_ok run_paths selected_id (locks : list string) (st : selected_state) s : Prop :=
  Forall2 (recorded_at s run_paths) locks st.1 /\
  (is_Some st.2 -> exists x, x ∈ st.1 /\ xe_execution_id (xr_evidence x) = selected_id /\
     xe_status (xr_evidence x) = physical_succeeded).

Lemma record_selected_ok run_paths k selected_id locks st relative s st' s' :
  selection_ok run_paths selected_id locks st s ->
  record_selected spec campaign run_prefix run_paths k selected_id st relative s = (Ok st', s') ->
  selection_ok run_paths selected_id (locks ++ [relative]) st' s'.
Proof.
  intros (Hf & Hsel) E.
  pose proof (keeps_run _ _ _ _ _ (keeps_record_selected follows _ _ _ _ _ _) E) as F.
  destruct st as [records selected]. cbn [fst snd] in *. unfold record_selected in E.
  ok_bind E as x Ex. pose proof (execution_record_ok _ _ _ _ _ _ _ Ex) as Hx.
  assert (Hgrow : follows w s' -> Forall2 (recorded_at s' run_paths) (locks ++ [relative]) (records ++ [x])).
  { intros F'. apply Forall2_app; [|apply Forall2_cons; split; [by eapply execution_recorded_follows|constructor]].
    eapply Forall2_impl; [exact Hf|]. intros l y. by apply execution_recorded_follows. }
  destruct (negb _) eqn:Hid in E.
  - injection E as <- <-. split; [by apply Hgrow|]. cbn. intros Hs.
    destruct (Hsel Hs) as (y & Hy & Hrest). exists y. split; [set_solver|done].
  - destruct (negb _) eqn:Hok in E; [done|]. ok_bind E as c Ec. ok_lift E as v Ev. injection E as <- <-.
    split.
    + apply Hgrow. eapply keeps_run, Ec. apply reads_keeps.
    + intros _. exists x. apply negb_false_iff, String.eqb_eq in Hid.
      apply negb_false_iff, bool_decide_eq_true in Hok. split; [cbn; set_solver|done].
Qed.

(** The reference of an execution is that of the lock at a path of the run. *)
Definition referenced_at s (relative : string) (p : PhysicalExecutionReference) : Prop :=
  exists x, recorded_at s (fz_run_paths s) relative x /\ xr_physical_execution x = p.

(** A scored trial refers to every execution of the trial, each by its lock, and
    selects one that succeeded, with a verified bundle. *)
Definition trial_scored s (locks : list string) (t : _TrialRecords) : Prop :=
  te_outcome (trs_trial t) = task_scored /\
  Forall2 (referenced_at s) locks (trs_physical_executions t) /\
  exists selected_id i relative p b,
    te_selected_execution_id (trs_trial t) = Some selected_id /\
    locks !! i = Some relative /\ trs_physical_executions t !! i = Some p /\
    px_execution_id p = selected_id /\ px_status p = physical_succeeded /\
    px_harbor_bundle p = Some b /\ px_bundle_status p = bundle_verified /\
    bundle_verified_at s (parent_of relative) (run_prefix +:+ "/" +:+ parent_of relative) b.

Lemma trial_records_ok trial k outcome s t s' :
  _trial_records spec campaign run_prefix trial k trial_s_complete outcome s = (Ok t, s') ->
  outcome = Some outcome_scored /\ te_trial_id (trs_trial t) = tl_trial_id trial /\
  trial_scored s' (execution_lock_paths (fz_run_paths s) ("trials/" +:+ tl_trial_id trial)) t.
Proof.
  unfold _trial_records. rewrite bool_decide_true by done. cbn [negb]. intros E.
  ok_lift E as o Eo. ok_bind E as selected Esel. ok_bind E as run_paths Ep. ok_bind E as st Est.
  destruct st as [records [[value completed]|]]; [|done]. cbn [snd fst] in E.
  ok_lift E as v Ev. ok_lift E as e Ee. ok_lift E as ms Ems. injection E as <- <-.
  injection Ep as <- <-.
  assert (He : e = {| te_trial_id := tl_trial_id trial; te_task_name := tl_task_name trial;
    te_task_digest := tl_task_digest trial; te_logical_attempt := tl_logical_attempt trial;
    te_selected_execution_id := Some selected; te_outcome := task_scored |}).
  { unfold trial_evidence_of, validate_TrialEvidence in Ee. destruct (fields_ok _ _); [|done]. by injection Ee. }
  clear Ee. subst e. cbn. split; [|split; [done|]].
  { unfold _require_scored_outcome in Eo. destruct (negb _) eqn:Ho in Eo; [done|].
    by apply negb_false_iff, bool_decide_eq_true in Ho. }
  pose proof (keeps_run _ _ _ _ _ (keeps_selection same_locks run_prefix trial k) Esel) as Hlocks.
  rewrite <- (Hlocks ("trials/" +:+ tl_trial_id trial)).
  pose proof (keeps_run _ _ _ _ _ (keeps_foldM same_files _ _ _
    (fun st path => keeps_record_selected same_files run_prefix _ k selected st path)) Est) as [_ Hfiles].
  rewrite <- Hfiles in Est |- *.
  apply (hub_foldM_worlds (selection_ok (fz_run_paths w1) selected)) in Est as (Hf & Hs).
  - assert (Hf' : Forall2 (referenced_at w1) (execution_lock_paths (fz_run_paths w1)
      ("trials/" +:+ tl_trial_id trial)) (map xr_physical_execution records)).
    { apply Forall2_fmap_r. eapply Forall2_impl; [exact Hf|]. intros l x Hx. by exists x. }
    destruct (Hs ltac:(by eexists)) as (x & Hx & Hi & Hok). cbn [fst] in *.
    apply list_elem_of_lookup in Hx as [i Hi'].
    destruct (Forall2_lookup_r _ _ _ _ _ Hf Hi') as (relative & Hr & _ & _ & Hpi & Hps & Hb).
    destruct (Hb Hok) as (b & Eb & Esb & Hv).
    split_and!; [done|done|].
    exists selected, i, relative, (xr_physical_execution x), b. split_and!; try done; [|congruence..].
    cbn. by rewrite list_lookup_fmap, Hi'.
  - intros locks relative st s1 st' s2. apply record_selected_ok.
  - split; [constructor|]. by intros [? ?].
Qed.
End trials.
End facts.
