(* ===== verification/ShelfFacts.v ===== *)
(** The production services of the finalizer: the evidence reader over a bucket
    and the immutable writer keep what [EvidenceShelf] promises. *)
From S2P Require Import Prelude.
From S2P Require Import PyDict.
From S2P Require Import Hub.
From S2P Require Import Coordination.
From S2P Require Import Observer.
From S2P Require Import BucketEvidence.
From S2P Require Import ObserverFacts.
From S2P Require Import BucketFacts.
From S2P Require Import Finalizer.
From S2P Require Import FinalizerFacts.

(** ** Relations of the bucket under a reader *)
Section under.
Context {W : Type} `{BucketApi W} (R : W -> W -> Prop) `{!PreOrder R}.
Hypothesis list_keeps : forall b p, keeps R (list_bucket_tree b p).
Hypothesis download_keeps : forall b items, keeps R (download_bucket_files b items).

Definition under (s s' : reader W) : Prop := R (rd_world s) (rd_world s').

#[export] Instance under_preorder : PreOrder under.
Proof. split; [intros s; unfold under; reflexivity|intros a b c; unfold under; by etransitivity]. Qed.

Lemma keeps_api {A} (m : hub W A) : keeps R m -> keeps under (on_api m).
Proof. intros Hm s. unfold under, on_api. specialize (Hm (rd_world s)). by destruct (m (rd_world s)). Qed.

(** The reader's own bookkeeping does not touch the bucket. *)
Lemma keeps_bookkeeping {A} (f : reader W -> result A * reader W) :
  (forall s, rd_world (f s).2 = rd_world s) -> keeps under f.
Proof. intros Hf s. unfold under. rewrite Hf. reflexivity. Qed.

Lemma under_listing b p : keeps under (_listing b p).
Proof.
  intros s. unfold _listing. destruct (cached_listing _ _); [unfold under; reflexivity|]. revert s.
  apply keeps_bind; [apply _|by apply keeps_api|]. intros items.
  apply keeps_bind_lift; [apply _|]. intros l _. by apply keeps_bookkeeping.
Qed.

Lemma under_missing b p l : keeps under (_download_missing b p l).
Proof.
  intros s. unfold _download_missing. apply keeps_bind_lift; [apply _|]. intros batches _.
  apply keeps_bind; [apply _| |intros ?; apply keeps_ret, _]. apply keeps_mapM; [apply _|]. intros batch.
  unfold download_batch. apply keeps_bind; [apply _|by apply keeps_api|]. intros cs. by apply keeps_bookkeeping.
Qed.

Lemma under_list b p : keeps under (bucket_list_files b p).
Proof. apply keeps_bind; [apply _|apply under_listing|intros l; apply keeps_ret, _]. Qed.

Lemma under_prefetch b p l : keeps under (_prefetch b p l).
Proof.
  intros s. unfold _prefetch. destruct (bool_decide _); [unfold under; reflexivity|]. revert s.
  apply keeps_bind; [apply _|apply under_missing|]. intros u. by apply keeps_bookkeeping.
Qed.

Lemma under_read b p x : keeps under (bucket_read_bytes b p x).
Proof.
  unfold bucket_read_bytes. apply keeps_bind; [apply _|apply under_listing|]. intros l.
  destruct (dict_get l x); [|apply keeps_raise, _].
  apply keeps_bind; [apply _| |intros u; apply keeps_bookkeeping; intros s; unfold read_cached; by destruct (dict_get _ _)].
  intros s. destruct (dict_has _ _); [unfold under; reflexivity|]. apply under_prefetch.
Qed.

Lemma under_prefetch_files b p xs : keeps under (bucket_prefetch_files b p xs).
Proof.
  unfold bucket_prefetch_files. apply keeps_bind; [apply _|apply under_listing|]. intros l.
  apply keeps_bind_lift; [apply _|]. intros selected _. apply under_missing.
Qed.
End under.

(** ** A bucket in which some objects are made by nobody else *)
Section calm.
Context {W : Type} `{BL : BucketLaws W} (own : string -> string -> Prop).

(** Objects stay and no object of the owner is made; no object of the owner is
    made or changed but at one place. *)
Definition calm (w w' : W) : Prop :=
  objects w ⊆ objects w' /\ forall k y, own k y -> objects w' !! (k, y) = objects w !! (k, y).
Definition calm_at (b p : string) (w w' : W) : Prop :=
  forall k y, own k y -> (k, y) <> (b, p) -> objects w' !! (k, y) = objects w !! (k, y).
End calm.

Class OwnedBucket (W : Type) `{BL : BucketLaws W} (own : string -> string -> Prop) := {
  calm_list b p : keeps (calm own) (list_bucket_tree b p);
  calm_info b ps : keeps (calm own) (get_bucket_paths_info b ps);
  calm_download b items : keeps (calm own) (download_bucket_files b items);
  calm_batch b p c : keeps (calm_at own b p) (batch_bucket_files b [(c, p)]);
}.

Section shelf.
Context {W : Type} `{BL : BucketLaws W} (own : string -> string -> Prop) `{OB : !OwnedBucket W own}.
Context (claims : option (ClaimStore W)) (uuid_hex : hub W string) (now : hub W Z).
Hypothesis uuid_calm : keeps (calm own) uuid_hex.
Hypothesis now_calm : keeps (calm own) now.
Hypothesis claims_calm : forall store p o, claims = Some store ->
  keeps (calm own) (claim_acquire p o) /\ keeps (calm own) (claim_release p o).

#[export] Instance calm_preorder : PreOrder (calm own).
Proof.
  split; [split; [done|done]|]. intros a b c [A1 A2] [B1 B2]. split; [by etransitivity|].
  intros k y Hk. by rewrite B2, A2.
Qed.

#[export] Instance calm_at_preorder b p : PreOrder (calm_at own b p).
Proof.
  split; [done|]. intros x y z A B k q Hk Hn. by rewrite B, A.
Qed.

Lemma calm_is_calm_at b p w w' : calm own w w' -> calm_at own b p w w'.
Proof. intros [_ H2] k y Hk _. by apply H2. Qed.

Lemma keeps_calm_at {A} b p (m : hub W A) : keeps (calm own) m -> keeps (calm_at own b p) m.
Proof. intros Hm w. by apply calm_is_calm_at. Qed.

(** The writer touches one place. *)
Lemma write_locked_calm b p c : keeps (calm_at own b p) (_write_locked b p c).
Proof.
  unfold _write_locked. apply keeps_bind; [apply _|apply keeps_calm_at, calm_info|]. intros items.
  destruct items as [|item [|]]; [|destruct (negb _); [apply keeps_raise, _|]|apply keeps_raise, _].
  - apply keeps_bind; [apply _|apply calm_batch|intros u; apply keeps_ret, _].
  - apply keeps_bind; [apply _|apply keeps_calm_at, calm_download|]. intros cs.
    destruct cs as [|e [|]]; [apply keeps_raise, _| |apply keeps_raise, _].
    destruct (String.eqb _ _); [apply keeps_ret, _|apply keeps_raise, _].
Qed.

Lemma write_immutable_calm b p c :
  keeps (calm_at own (bucket_id b) p) (write_immutable claims uuid_hex now b p c).
Proof.
  unfold write_immutable. cbn zeta. destruct claims as [store|] eqn:Hc; [|apply write_locked_calm].
  apply keeps_bind; [apply _|by apply keeps_calm_at|]. intros id.
  apply keeps_bind; [apply _|by apply keeps_calm_at|]. intros t.
  apply keeps_bind; [apply _| |intros u].
  - apply keeps_catch; [apply _|by apply keeps_calm_at, claims_calm|].
    intros e k Hk. destruct e; try done. injection Hk as <-. apply keeps_raise, _.
  - intros w. pose proof (write_locked_calm (bucket_id b) p c w) as K.
    destruct (_write_locked _ _ _ w) as [r w1]. etransitivity; [exact K|].
    apply calm_is_calm_at. by apply claims_calm.
Qed.

Definition grows_to (w w' : W) : Prop := objects w ⊆ objects w'.

#[export] Instance grows_to_preorder : PreOrder grows_to.
Proof. split; [intros w; unfold grows_to; done|intros x y z; unfold grows_to; by etransitivity]. Qed.

Lemma shelf_keeps_grows {A} (m : hub W A) : keeps (calm own) m -> keeps grows_to m.
Proof. intros Hm w. apply Hm. Qed.

Lemma shelf_write_grows b p c : keeps grows_to (write_immutable claims uuid_hex now b p c).
Proof.
  assert (Hl : keeps grows_to (_write_locked (bucket_id b) p c)).
  { intros w. destruct (_write_locked _ _ _ w) as [r w'] eqn:E. by apply write_locked_once in E as [Hs _]. }
  unfold write_immutable. cbn zeta. destruct claims as [store|] eqn:Hc; [|exact Hl].
  apply keeps_bind; [apply _|by apply shelf_keeps_grows|]. intros id.
  apply keeps_bind; [apply _|by apply shelf_keeps_grows|]. intros t.
  apply keeps_bind; [apply _| |intros u].
  - apply keeps_catch; [apply _|by apply shelf_keeps_grows, claims_calm|].
    intros e k Hk. destruct e; try done. injection Hk as <-. apply keeps_raise, _.
  - intros w. specialize (Hl w). destruct (_write_locked _ _ _ w) as [r w1]. etransitivity; [exact Hl|].
    edestruct (claims_calm store) as [_ K]; [done|]. by apply K.
Qed.

(** *** The instance *)
#[local] Instance bucket_writer : ImmutableEvidenceWriter (reader W) := {|
  evidence_write_immutable := fun b p c => on_api (write_immutable claims uuid_hex now b p c);
|}.

(** The reader goes on and objects stay. *)
Definition shelf_later (s s' : reader W) : Prop :=
  reader_later s s' /\ under grows_to s s'.

#[export] Instance shelf_later_preorder : PreOrder shelf_later.
Proof.
  split; [split; reflexivity|]. intros a b c [A1 A2] [B1 B2]. split; by etransitivity.
Qed.

Lemma keeps_shelf_later {A} (m : hub (reader W) A) :
  keeps reader_later m -> keeps (under (calm own)) m -> keeps shelf_later m.
Proof. intros H1 H2 s. split; [apply H1|apply H2]. Qed.

#[local] Hint Resolve calm_list calm_download : core.

#[export] Instance shelf_reader_laws : EvidenceReaderLaws (reader W) shelf_later.
Proof.
  refine (Build_EvidenceReaderLaws (reader W) bucket_reader shelf_later _ cached_evidence _ _ _ _ _ _).
  - intros s s' b p x c [[Hl _] _]. apply Hl.
  - unfold cached_evidence. intros s b p x c c'. congruence.
  - intros b p. apply keeps_shelf_later; [apply list_files_keeps|apply (under_list (calm own)); auto].
  - intros b p x. apply keeps_shelf_later; [apply keeps_bucket_read|apply (under_read (calm own)); auto].
  - intros f b p xs Hf. apply keeps_shelf_later; [by eapply prefetch_keeps|].
    injection Hf as <-. apply (under_prefetch_files (calm own)); auto.
  - intros b p x s c s' E. by apply bucket_read_cached in E as [? _].
Defined.

Lemma write_locked_returned b p c w r w' :
  _write_locked b p c w = (Ok r, w') -> objects w' !! (b, p) = Some c.
Proof. intros (_ & _ & Ht & Hf)%write_locked_once. destruct r; [by apply Ht|by apply Hf]. Qed.

Lemma write_returned b p c w r w' :
  write_immutable claims uuid_hex now b p c w = (Ok r, w') -> objects w' !! (bucket_id b, p) = Some c.
Proof.
  unfold write_immutable. cbn zeta. destruct claims as [store|] eqn:Hc; [|apply write_locked_returned].
  intros E. ok_bind E as id Eid. ok_bind E as t Et. ok_bind E as u Eu.
  destruct (_write_locked _ _ _ _) as [r' w4] eqn:Ew. injection E as -> <-. apply write_locked_returned in Ew.
  destruct (claims_calm store (bucket_evidence_claim_path (bucket_id b) p)
    (write_owner (bucket_id b) p id t) eq_refl) as [_ K].
  destruct (K w4) as [Hsub _]. by eapply lookup_weaken.
Qed.

(** An object of the owner is there. *)
Definition own_shown (s : reader W) (b p : string) : Prop :=
  own (bucket_id b) p /\ is_Some (objects (rd_world s) !! (bucket_id b, p)).

Lemma shown_back {A} (m : hub (reader W) A) s k y :
  keeps (under (calm own)) m -> own_shown (m s).2 k y -> own_shown s k y.
Proof. intros Hm [Ho Hs]. split; [done|]. destruct (Hm s) as [_ K]. by rewrite K in Hs. Qed.

#[export] Instance production_shelf : EvidenceShelf (reader W) shelf_later.
Proof.
  refine {| stored := fun s b p c => objects (rd_world s) !! (bucket_id b, p) = Some c; shows := own_shown |}.
  - intros s s' b p c [_ Hl] Hs. by eapply lookup_weaken.
  - intros b p c s. split.
    + apply keeps_on_api.
    + refine (keeps_api grows_to _ _ s). apply shelf_write_grows.
  - intros b p c s r s' E. cbn in E. unfold on_api in E.
    destruct (write_immutable _ _ _ _ _ _ _) as [r' w'] eqn:Ew. injection E as -> <-. by apply write_returned in Ew.
  - intros b p x s k y. apply shown_back. apply (under_read (calm own)); auto.
  - intros b p s k y. apply shown_back. apply (under_list (calm own)); auto.
  - intros b p c s k y [Ho Hs]. cbn in Hs. unfold on_api in Hs.
    pose proof (write_immutable_calm b p c (rd_world s)) as K.
    destruct (write_immutable _ _ _ _ _ _ _) as [r w']. cbn in *.
    destruct (decide ((bucket_id k, y) = (bucket_id b, p))) as [[= _ Hy]|Hne]; [by right|left].
    split; [done|]. by rewrite <- K.
Defined.
End shelf.
