(* ===== verification/ResultFacts.v ===== *)
(** Lemmas on results: what verified evidence is, and what a composition takes. *)
From Stdlib Require Import Floats.SpecFloat.
From S2P Require Import Prelude.
From S2P Require Import PyDict.
From S2P Require Import Json.
From S2P Require Import Patterns.
From S2P Require Import PyText.
From S2P Require Import Campaigns.
From S2P Require Import Models.
From S2P Require Import Manifest.
From S2P Require Import ManifestFacts.
From S2P Require Import Hub.
From S2P Require Import Control.
From S2P Require Import Observer.
From S2P Require Import ObserverFacts.
From S2P Require Import Envelope.
From S2P Require Import ResultModels.
From S2P Require Import ResultTables.
From S2P Require Import Results.
From S2P Require Import Composition.

(** ** Dictionaries built from items *)
Section map_of.
Context {K : Type} `{Countable K} {A : Type}.
Implicit Types items : list (K * A).

Lemma map_of_snoc items e : map_of (items ++ [e]) = <[e.1 := e.2]> (map_of items).
Proof. unfold map_of. by rewrite fold_left_app. Qed.

Lemma map_of_in items k v : map_of items !! k = Some v -> (k, v) ∈ items.
Proof.
  induction items as [|e items IH] using rev_ind; [intros Hk; discriminate Hk|].
  rewrite map_of_snoc, elem_of_app. destruct e as [i x]. cbn.
  destruct (decide (i = k)) as [-> |Hne]; [rewrite lookup_insert_eq|rewrite lookup_insert_ne by done; auto].
  intros [= ->]. right. by left.
Qed.

Lemma map_of_dom items : dom (map_of items) = list_to_set (map fst items) :> gset K.
Proof.
  induction items as [|e items IH] using rev_ind; [apply dom_empty_L|].
  rewrite map_of_snoc, dom_insert_L, IH, map_app, list_to_set_app_L. cbn. set_solver.
Qed.

Lemma list_to_set_NoDup (l : list K) : size (list_to_set l : gset K) = length l -> NoDup l.
Proof.
  intros Hs. assert (Hp : elements (list_to_set l : gset K) ≡ₚ l).
  { apply submseteq_length_Permutation; [|by rewrite <- Hs].
    apply NoDup_submseteq; [apply NoDup_elements|]. intros x. rewrite elem_of_elements. set_solver. }
  rewrite <- Hp. apply NoDup_elements.
Qed.

Lemma map_of_NoDup items : Z.of_nat (size (map_of items)) =? len items = true -> NoDup (map fst items).
Proof.
  intros Hs%Z.eqb_eq. apply list_to_set_NoDup. rewrite <- map_of_dom, size_dom, length_map. unfold len in Hs. lia.
Qed.

Lemma items_functional items k v v' : NoDup (map fst items) -> (k, v) ∈ items -> (k, v') ∈ items -> v = v'.
Proof.
  induction items as [|[i x] items IH]; cbn; [by intros _ ?%elem_of_nil|]. intros [Hi Hn]%NoDup_cons.
  assert (Hfst : forall y, (i, y) ∈ items -> False) by (intros y Hy; apply Hi, list_elem_of_fmap; by exists (i, y)).
  rewrite !elem_of_cons. intros [E1|Hv] [E2|Hv']; simplify_eq; [done|by destruct (Hfst v')|by destruct (Hfst v)|].
  by apply IH.
Qed.

Lemma map_of_get items k v : NoDup (map fst items) -> map_of items !! k = Some v <-> (k, v) ∈ items.
Proof.
  intros Hn. split; [apply map_of_in|]. intros Hin.
  assert (Hk : k ∈ dom (map_of items)).
  { rewrite map_of_dom. apply elem_of_list_to_set, list_elem_of_fmap. by exists (k, v). }
  apply elem_of_dom in Hk as [v' Hv]. rewrite Hv. f_equal. apply map_of_in in Hv.
  by eapply items_functional.
Qed.
End map_of.

(** ** Verified evidence *)
Section verified.
Context {W : Type} `{EL : EvidenceReaderLaws W later} `{ResultParsers}.
Context (source : EvidenceSource).

Abbreviation reads w path c := (evidence w (src_bucket source) (src_prefix source) path c).

Lemma read_source_ok path w c w' : read_source source path w = (Ok c, w') -> reads w' path c.
Proof. apply read_bytes_law. Qed.

Lemma keeps_read_source path : keeps later (read_source source path).
Proof. apply read_bytes_keeps. Qed.
#[local] Hint Resolve keeps_read_source list_files_keeps : keeps.

Lemma or_publication_error_ok {A} message (m : hub W A) w a w' :
  or_publication_error message m w = (Ok a, w') -> m w = (Ok a, w').
Proof. unfold or_publication_error, hub_catch. by destruct (m w) as [[b|e] w1]. Qed.

Lemma keeps_or_publication_error {A} message (m : hub W A) : keeps later m -> keeps later (or_publication_error message m).
Proof. intros Hm. apply keeps_catch; [apply _|done|]. intros e k [= <-]. apply keeps_raise, _. Qed.

(** A listing of an exclusively successful run. *)
Definition successful_listing (paths : list string) : Prop :=
  NoDup paths /\ "_SUCCESS" ∈ paths /\ _CHECKSUMS_PATH ∈ paths /\
  (forall marker, marker ∈ _RESULT_MARKERS -> marker ∈ paths -> marker = "_SUCCESS") /\
  Forall (fun path => is_Some (match _validate_relative_path path with Ok p => Some p | Err _ => None end)) paths.

Lemma verified_listing_ok w paths w' :
  _verified_listing source w = (Ok paths, w') ->
  list_files (src_bucket source) (src_prefix source) w = (Ok paths, w') /\ successful_listing paths.
Proof.
  unfold _verified_listing. intros E. ok_bind E as ps Ep. destruct (negb (str_unique ps)) eqn:Hu; [done|].
  ok_lift E as vs Ev. destruct (negb (same_set _ _)) eqn:Hm; [done|].
  destruct (negb (str_mem _ _)) eqn:Hc; [done|]. injection E as <- <-.
  apply negb_false_iff in Hm, Hc, Hu. apply str_mem_true in Hc.
  assert (Hs : forall x, x ∈ List.filter (fun marker => str_mem marker ps) _RESULT_MARKERS <-> x ∈ ["_SUCCESS"]).
  { intros x. unfold same_set in Hm. rewrite andb_true_iff, !forallb_forall in Hm. destruct Hm as [M1 M2].
    split; intros Hx; apply str_mem_true; [apply M1|apply M2]; by apply list_elem_of_In. }
  assert (Hf : forall x, x ∈ _RESULT_MARKERS /\ x ∈ ps <-> x = "_SUCCESS").
  { intros x. rewrite <- (list_elem_of_singleton x "_SUCCESS"), <- Hs, !list_elem_of_In, filter_In, str_mem_true.
    by rewrite list_elem_of_In. }
  split; [done|]. split_and!; [by apply str_unique_NoDup|by apply (Hf "_SUCCESS")|done| |].
  - intros marker H1' H2'. by apply Hf.
  - clear -Ev. revert vs Ev. induction ps as [|p ps IH]; intros vs Ev; [constructor|]. cbn in Ev.
    destruct (_validate_relative_path p) as [v|] eqn:Ep; [|done]. cbn in Ev.
    destruct (mapM _ ps) as [vs'|]; [|done]. constructor; [by rewrite Ep|by eapply IH].
Qed.

(** What [_verify_evidence] returns rests on. *)
Record evidence_verified (w : W) (v : verified) : Prop := {
  ev_paths : exists paths, successful_listing paths /\
    (exists w0 w1, list_files (src_bucket source) (src_prefix source) w0 = (Ok paths, w1)) /\
    forall path, path ∈ dict_keys (vd_checksums v) <-> path ∈ paths /\ path <> "_SUCCESS" /\ path <> _CHECKSUMS_PATH;
  ev_manifest : exists c, reads w _CHECKSUMS_PATH c /\ checksum_map_validate_json c = Ok (vd_checksums v);
  ev_digests : forall path digest, (path, digest) ∈ vd_checksums v ->
    exists c, reads w path c /\ content_digest c = digest;
  ev_summary : exists c, reads w (src_summary_path source) c /\ result_evidence_validate_json c = Ok (vd_summary v);
  ev_lock : exists c, reads w (src_run_lock_path source) c /\ lock_validate_json c = Ok (vd_lock v);
  ev_covered : dict_has (vd_checksums v) (src_summary_path source) = true /\
    dict_get (vd_checksums v) (src_run_lock_path source) = Some (vd_lock_checksum v);
  ev_run : dict_get (vd_lock v) "run_id" = Some (JStr (re_run_id (rv_run (vd_summary v))));
  ev_tasks : exists locked attempts, locked_tasks (vd_lock v) = Some (locked, attempts) /\
    NoDup (map (fun t => (te_task_name t, te_logical_attempt t)) (rv_trials (vd_summary v))) /\
    observed_tasks (rv_trials (vd_summary v)) = expected_tasks locked attempts;
  ev_artifacts : Forall (fun a => dict_get (vd_checksums v) (ae_path a) = Some (ae_sha256 a) /\
    exists c, reads w (ae_path a) c /\ Z.of_nat (String.length c) = ae_size_bytes a) (rv_artifacts (vd_summary v));
  ev_checksum : vd_source_checksum v = canonical_digest (jdict JStr (vd_checksums v));
}.

Lemma keeps_verify_object e : keeps later (verify_object source e).
Proof. unfold verify_object. repeat keeps_step. Qed.
Lemma keeps_verify_artifact cs a : keeps later (verify_artifact source cs a).
Proof. unfold verify_artifact. repeat keeps_step. Qed.
Lemma keeps_load_summary : keeps later (_load_summary_and_lock source).
Proof. apply keeps_or_publication_error. repeat keeps_step. Qed.
#[local] Hint Resolve keeps_verify_object keeps_verify_artifact : keeps.

Lemma verify_objects_ok checksums w u w' :
  _verify_object_checksums source checksums w = (Ok u, w') ->
  later w w' /\ forall path digest, (path, digest) ∈ checksums -> exists c, reads w' path c /\ content_digest c = digest.
Proof.
  unfold _verify_object_checksums. intros E. ok_bind E as us Eu. injection E as _ <-.
  apply (hub_mapM_inv later) in Eu as [L HF]; [|intros e _; apply keeps_verify_object]. split; [done|].
  intros path digest Hin. apply (sort_by_elem_of key_leb), list_elem_of_lookup in Hin as [i Hi].
  destruct (Forall2_lookup_l _ _ _ _ _ HF Hi) as (y & _ & w1 & w2 & _ & E & L2).
  unfold verify_object in E. ok_bind E as c Ec. apply read_source_ok in Ec.
  destruct (String.eqb _ _) eqn:Hd; [|done]. injection E as _ <-. apply String.eqb_eq in Hd. cbn in *.
  exists c. split; [by eapply evidence_later|done].
Qed.

Lemma verify_artifacts_ok checksums artifacts w u w' :
  _verify_artifact_evidence source checksums artifacts w = (Ok u, w') ->
  later w w' /\ Forall (fun a => dict_get checksums (ae_path a) = Some (ae_sha256 a) /\
    exists c, reads w' (ae_path a) c /\ Z.of_nat (String.length c) = ae_size_bytes a) artifacts.
Proof.
  unfold _verify_artifact_evidence. intros E. ok_bind E as us Eu. injection E as _ <-.
  apply (hub_mapM_inv later) in Eu as [L HF]; [|intros e _; apply keeps_verify_artifact]. split; [done|].
  induction HF as [|a y l ys (w1 & w2 & _ & E & L2) _ IH]; constructor; [|done].
  unfold verify_artifact in E. case_bool_decide as Hd; [|done]. cbn [negb] in E. ok_bind E as c Ec.
  apply read_source_ok in Ec. destruct (negb _) eqn:Hz; [done|]. injection E as _ <-.
  apply negb_false_iff, Z.eqb_eq in Hz. split; [done|]. exists c. split; [by eapply evidence_later|done].
Qed.

Lemma load_summary_ok w v w' :
  _load_summary_and_lock source w = (Ok v, w') ->
  (exists c, reads w' (src_summary_path source) c /\ result_evidence_validate_json c = Ok v.1) /\
  exists c, reads w' (src_run_lock_path source) c /\ lock_validate_json c = Ok v.2.
Proof.
  intros E%or_publication_error_ok. ok_bind E as c Ec. apply read_source_ok in Ec. ok_lift E as e Ee.
  ok_bind E as c2 Ec2. pose proof (keeps_run _ _ _ _ _ (keeps_read_source _) Ec2) as L.
  apply read_source_ok in Ec2. ok_lift E as l El. injection E as <- <-. cbn. split; [|by exists c2].
  exists c. split; [by eapply evidence_later|done].
Qed.

Lemma summary_tasks_ok summary lock u :
  _validate_summary_tasks_against_lock summary lock = Ok u ->
  exists locked attempts, locked_tasks lock = Some (locked, attempts) /\
    NoDup (map (fun t => (te_task_name t, te_logical_attempt t)) (rv_trials summary)) /\
    observed_tasks (rv_trials summary) = expected_tasks locked attempts.
Proof.
  unfold _validate_summary_tasks_against_lock. destruct (locked_tasks lock) as [[locked attempts]|]; [|done].
  destruct (_ || _) eqn:Hc; [done|]. intros _. apply orb_false_iff in Hc as [H1'%negb_false_iff H2'%negb_false_iff].
  apply bool_decide_eq_true in H2'. exists locked, attempts. split_and!; [done| |done].
  unfold observed_tasks in H1'. replace (len (rv_trials summary)) with
    (len (map (fun t => ((te_task_name t, te_logical_attempt t), te_task_digest t)) (rv_trials summary))) in H1'
    by (unfold len; by rewrite length_map).
  apply map_of_NoDup in H1'. by rewrite map_map in H1'.
Qed.

Lemma lock_says_some lock key x : lock_says lock key (Some x) = true -> dict_get lock key = Some (JStr x).
Proof. unfold lock_says. repeat (case_match; try done). intros E%String.eqb_eq. by subst. Qed.

Lemma verify_evidence_ok w v w' : _verify_evidence source w = (Ok v, w') -> evidence_verified w' v.
Proof.
  unfold _verify_evidence. intros E. ok_bind E as paths Ep. apply verified_listing_ok in Ep as [Hl Hp].
  ok_bind E as checksums Ec. pose proof (or_publication_error_ok _ _ _ _ _ Ec) as Em. ok_bind Em as mc Emc.
  apply read_source_ok in Emc. unfold hub_lift in Em. injection Em as Ecs <-.
  cbn zeta in E. destruct (negb (same_set _ _)) eqn:Hsame; [done|]. ok_bind E as o Eo.
  destruct (_ || _) eqn:Hcov; [done|]. ok_bind E as loaded El. destruct loaded as [summary lock]. cbn [fst snd] in E.
  destruct (negb (lock_says lock "run_id" _)) eqn:Hrun; [done|]. destruct (_ || _ || _) eqn:Hrole; [done|].
  ok_lift E as t Et. ok_bind E as a Ea. ok_lift E as lc Elc. injection E as <- <-.
  pose proof (keeps_run _ _ _ _ _ keeps_load_summary El) as Ll.
  apply verify_objects_ok in Eo as [Lo Hd]. apply load_summary_ok in El as [Hsum Hlock].
  apply verify_artifacts_ok in Ea as [La Hart]. apply summary_tasks_ok in Et.
  apply negb_false_iff in Hsame, Hrun. apply lock_says_some in Hrun.
  apply orb_false_iff in Hcov as [Hc1%negb_false_iff _].
  split; cbn [vd_checksums vd_summary vd_lock vd_lock_checksum vd_source_checksum]; try done.
  - exists paths. split_and!; [done|by eexists _, _|]. intros path.
    assert (Hx : path ∈ dict_keys checksums <-> path ∈ List.filter (fun path => negb (str_mem path ["_SUCCESS"; _CHECKSUMS_PATH])) paths).
    { unfold same_set in Hsame. rewrite andb_true_iff, !forallb_forall in Hsame. destruct Hsame as [M1 M2].
      split; intros Hx; apply str_mem_true; [apply M1|apply M2]; by apply list_elem_of_In. }
    rewrite Hx, list_elem_of_In, filter_In, <- list_elem_of_In, negb_true_iff, str_mem_false, !not_elem_of_cons.
    pose proof (not_elem_of_nil path). tauto.
  - exists mc. split; [|done]. eapply evidence_later; [|exact Emc]. etransitivity; [exact Lo|]. by etransitivity.
  - intros path digest Hin. destruct (Hd path digest Hin) as (c & Hc & Hdg). exists c. split; [|done].
    eapply evidence_later; [|exact Hc]. by etransitivity.
  - destruct Hsum as (c & Hc & Hv). exists c. split; [by eapply evidence_later|done].
  - destruct Hlock as (c & Hc & Hv). exists c. split; [by eapply evidence_later|done].
  - split; [done|]. unfold dict_item in Elc. by destruct (dict_get checksums _) in Elc |- *; [injection Elc as <-|].
Qed.

Lemma evidence_verified_later w w' v : later w w' -> evidence_verified w v -> evidence_verified w' v.
Proof.
  intros L [A1 (c1 & B1 & B2) A3 (c2 & C1 & C2) (c3 & D1 & D2) A6 A7 A8 A9 A10].
  split; try done.
  - exists c1. split; [by eapply evidence_later|done].
  - intros path digest Hin. destruct (A3 path digest Hin) as (c & Hc & Hd). exists c. split; [by eapply evidence_later|done].
  - exists c2. split; [by eapply evidence_later|done].
  - exists c3. split; [by eapply evidence_later|done].
  - eapply Forall_impl; [exact A9|]. intros a (Ha & c & Hc & Hl). split; [done|]. exists c.
    split; [by eapply evidence_later|done].
Qed.

(** The bundles of a provenance are among the verified files. *)
Lemma provenance_ok summary lock checksums w p w' :
  _load_publication_provenance source summary lock checksums w = (Ok p, w') ->
  later w w' /\
  Forall (fun d => exists path, dict_get checksums path = Some d)
    (pp_harbor_bundle_manifest_sha256s p ++ pp_harbor_archive_sha256s p) /\
  exists digest, dict_get checksums PUBLICATION_ENVELOPE_PATH = Some digest /\ pp_envelope_sha256 p = digest.
Proof.
  unfold _load_publication_provenance. destruct (dict_get checksums _) as [digest|] eqn:Hd; [|done]. intros E.
  ok_bind E as envelope Ee. ok_lift E as i Ei. ok_lift E as x Ex. ok_lift E as bundles Eb. ok_lift E as profile Epr.
  unfold hub_lift in E. injection E as Ep <-.
  assert (L : later w w0).
  { eapply keeps_run, Ee. apply keeps_or_publication_error. repeat keeps_step. }
  assert (Hp : exists m, p = {| pp_envelope_sha256 := digest; pp_projection_version := PROJECTION_VERSION;
    pp_sanitizer_version := SANITIZER_VERSION; pp_execution_profile_sha256 := m;
    pp_harbor_bundle_manifest_sha256s := map fst bundles; pp_harbor_archive_sha256s := map snd bundles |}).
  { unfold validate_PublicationProvenance in Ep. destruct (fields_ok _ _); [|done]. cbn [result_bind] in Ep.
    destruct (negb _); [done|]. injection Ep as <-. by eexists. }
  destruct Hp as [m ->]. cbn. split_and!; [done| |by exists digest].
  assert (Hb : Forall (fun b : string * string => (exists path, dict_get checksums path = Some b.1) /\
    exists path, dict_get checksums path = Some b.2) bundles).
  { refine (foldM_invariant (Forall (fun b : string * string => (exists path, dict_get checksums path = Some b.1) /\
      exists path, dict_get checksums path = Some b.2)) _ _ _ _ _ _ Eb); [|constructor].
    intros bs execution bs' _ Hbs E. unfold add_bundle in E. destruct (px_harbor_bundle execution) as [b|];
      [|by injection E as <-].
    repeat case_bool_decide; cbn in E; try done. injection E as <-. apply Forall_app. split; [done|].
    apply Forall_singleton. cbn. split; by eexists. }
  apply Forall_app. split; apply Forall_fmap; eapply Forall_impl; try exact Hb; by intros b [? ?].
Qed.
End verified.

(** ** Rows *)
Lemma validate_RunRow_checks : checks validate_RunRow.
Proof. unfold validate_RunRow. solve_checks. Qed.
Lemma validate_TrialRow_checks : checks validate_TrialRow.
Proof. unfold validate_TrialRow. solve_checks. Qed.
Lemma validate_ExecutionRow_checks : checks validate_ExecutionRow.
Proof. unfold validate_ExecutionRow. solve_checks. Qed.
Lemma validate_MetricRow_checks : checks validate_MetricRow.
Proof. unfold validate_MetricRow. solve_checks. Qed.
Lemma validate_ArtifactRow_checks : checks validate_ArtifactRow.
Proof. unfold validate_ArtifactRow. solve_checks. Qed.
Lemma validate_ResultTables_checks : checks validate_ResultTables.
Proof. unfold validate_ResultTables. solve_checks. Qed.

(** The evidence of a row, without its trace. *)
Definition trial_of_row (r : TrialRow) : TrialEvidence := {|
  te_trial_id := tw_trial_id r; te_task_name := tw_task_name r; te_task_digest := tw_task_digest r;
  te_logical_attempt := tw_logical_attempt r; te_selected_execution_id := tw_selected_execution_id r;
  te_outcome := tw_outcome r |}.

Definition execution_of_row (r : ExecutionRow) : ExecutionEvidence := {|
  xe_execution_id := xw_execution_id r; xe_trial_id := xw_trial_id r; xe_physical_attempt := xw_physical_attempt r;
  xe_runtime_kind := xw_runtime_kind r; xe_status := xw_status r; xe_failure_category := xw_failure_category r;
  xe_started_at := xw_started_at r; xe_completed_at := xw_completed_at r; xe_retry_reason := xw_retry_reason r;
  xe_remote_job_id := xw_remote_job_id r |}.

Definition metric_of_row (r : MetricRow) : MetricEvidence := {|
  me_owner_type := mw_owner_type r; me_owner_id := mw_owner_id r; me_name := mw_name r; me_value := mw_value r;
  me_unit := mw_unit r; me_aggregation := mw_aggregation r |}.

Definition artifact_of_row (r : ArtifactRow) : ArtifactEvidence := {|
  ae_owner_type := aw_owner_type r; ae_owner_id := aw_owner_id r; ae_kind := aw_kind r; ae_path := aw_path r;
  ae_sha256 := aw_sha256 r; ae_media_type := aw_media_type r; ae_size_bytes := aw_size_bytes r |}.

(** Rows made of sorted evidence give it back. *)
Lemma rows_permutation {A B} (make : A -> result B) (back : B -> A) (P : B -> Prop) leb l rows :
  (forall a b, make a = Ok b -> back b = a /\ P b) -> mapM make (sort_by leb l) = Ok rows ->
  map back rows ≡ₚ l /\ Forall P rows.
Proof.
  intros Hm Hr%mapM_Forall2. assert (Hb : map back rows = sort_by leb l /\ Forall P rows).
  { induction Hr as [|a b l' rows' Hab _ [IH1 IH2]]; [by split|]. destruct (Hm a b Hab) as [Hb Hp]. cbn.
    split; [by rewrite Hb, IH1|by constructor]. }
  destruct Hb as [-> Hp]. split; [apply sort_by_perm|done].
Qed.

(** The tables of evidence: its records, each with the trace. *)
Definition tables_of (t : ResultTables) (trace : TraceValues) (summary : ResultEvidence)
    (provenance : PublicationProvenance) : Prop :=
  rt_publication_id t = tc_publication_id trace /\ rt_provenance t = provenance /\
  (exists run, rt_runs t = [run] /\ rw_campaign_id run = re_campaign_id (rv_run summary) /\
     rw_planned_trial_count run = len (rv_trials summary) /\
     rw_outcome_count run = rw_planned_trial_count run /\
     rw_scored_trial_count run = outcome_count te_outcome (rv_trials summary) task_scored /\
     rw_execution_count run = len (rv_executions summary)) /\
  map trial_of_row (rt_trials t) ≡ₚ rv_trials summary /\
  map execution_of_row (rt_executions t) ≡ₚ rv_executions summary /\
  map metric_of_row (rt_metrics t) ≡ₚ rv_metrics summary /\
  map artifact_of_row (rt_artifacts t) ≡ₚ rv_artifacts summary /\
  Forall (fun row => row = trace) (row_traces t).

Lemma run_row_ok trace summary run : run_row trace summary = Ok run ->
  rw_trace run = trace /\ rw_campaign_id run = re_campaign_id (rv_run summary) /\
  rw_planned_trial_count run = len (rv_trials summary) /\ rw_outcome_count run = rw_planned_trial_count run /\
  rw_scored_trial_count run = outcome_count te_outcome (rv_trials summary) task_scored /\
  rw_execution_count run = len (rv_executions summary).
Proof.
  unfold run_row. intros E. pose proof (validate_RunRow_checks _ _ E) as ->. cbn. split_and!; try done.
  unfold validate_RunRow in E. destruct (fields_ok _ _); [|done]. cbn [result_bind] in E.
  destruct (_ <? _); [done|]. destruct (negb (_ =? _)) eqn:Hc; [done|]. by apply negb_false_iff, Z.eqb_eq in Hc.
Qed.

Lemma result_tables_ok trace summary provenance t :
  result_tables_of trace summary provenance = Ok t -> tables_of t trace summary provenance.
Proof.
  unfold result_tables_of. cbn zeta. intros E.
  destruct (run_row _ _) as [run|] eqn:Er; [|done]. destruct (mapM (trial_row _) _) as [trials|] eqn:Et; [|done].
  destruct (mapM (execution_row _) _) as [xs|] eqn:Ex; [|done].
  destruct (mapM (metric_row _ _) _) as [ms|] eqn:Em; [|done].
  destruct (mapM (artifact_row _ _) _) as [arts|] eqn:Ea; [|done]. cbn [result_bind] in E.
  apply validate_ResultTables_checks in E. subst t. apply run_row_ok in Er as (Hrt & Hrest).
  apply (rows_permutation _ trial_of_row (fun r => tw_trace r = trace)) in Et as [Ht1 Ht2].
  2: { intros a b ->%validate_TrialRow_checks. by destruct a. }
  apply (rows_permutation _ execution_of_row (fun r => xw_trace r = trace)) in Ex as [Hx1 Hx2].
  2: { intros a b ->%validate_ExecutionRow_checks. by destruct a. }
  apply (rows_permutation _ metric_of_row (fun r => mw_trace r = trace)) in Em as [Hm1 Hm2].
  2: { intros a b ->%validate_MetricRow_checks. by destruct a. }
  apply (rows_permutation _ artifact_of_row (fun r => aw_trace r = trace)) in Ea as [Ha1 Ha2].
  2: { intros a b ->%validate_ArtifactRow_checks. by destruct a. }
  split_and!; try done; [by exists run|]. unfold row_traces. cbn [rt_runs rt_trials rt_executions rt_metrics rt_artifacts].
  rewrite !Forall_app, !Forall_fmap. split_and!; try done. by apply Forall_singleton.
Qed.

(** ** Compositions *)
Lemma trials_by_key_some trials key trial :
  trials_by_key trials !! key = Some trial -> trial ∈ trials /\ _trial_key trial = key.
Proof.
  intros Hk%map_of_in. apply list_elem_of_fmap in Hk as (t & [= -> ->] & Hin). done.
Qed.

Lemma trials_by_key_dom trials : dom (trials_by_key trials) = list_to_set (map _trial_key trials) :> gset task_key.
Proof. unfold trials_by_key. by rewrite map_of_dom, map_map. Qed.

Lemma trials_by_key_NoDup trials :
  Z.of_nat (size (trials_by_key trials)) =? len trials = true -> NoDup (map _trial_key trials).
Proof.
  unfold trials_by_key. intros Hs.
  assert (Hl : len trials = len (map (fun trial => (_trial_key trial, trial)) trials)) by (unfold len; by rewrite length_map).
  rewrite Hl in Hs. apply map_of_NoDup in Hs. by rewrite map_map in Hs.
Qed.

(** A selected row comes from the source that selects it; a correction replaces a
    task of the base of the same digest. *)
Definition selected_from (sources : dict ResultTables) (base : ResultTables) (source : SourcePublicationReference)
    (selection : SourceTrialSelection) (row : selected_row) : Prop :=
  dict_get sources (sr_publication_id source) = Some row.2 /\ row.1 ∈ rt_trials row.2 /\
  _trial_key row.1 = (ss_task_name selection, ss_logical_attempt selection) /\
  (sr_role source = source_correction -> exists trial, trial ∈ rt_trials base /\
     _trial_key trial = _trial_key row.1 /\ tw_task_digest trial = tw_task_digest row.1).

Definition selects (sources : dict ResultTables) (base : ResultTables) (source : SourcePublicationReference)
    (rows : list selected_row) : Prop :=
  (exists tables, dict_get sources (sr_publication_id source) = Some tables /\
     NoDup (map _trial_key (rt_trials tables))) /\
  Forall2 (selected_from sources base source) (sr_selected_trials source) rows.

Lemma select_source_ok sources base source rows :
  select_source sources (trials_by_key (rt_trials base)) source = Ok rows -> selects sources base source rows.
Proof.
  unfold select_source. destruct (dict_item _ _) as [tables|] eqn:Ed; [|done]. cbn [result_bind].
  destruct (negb _) eqn:Hn; [done|]. apply negb_false_iff, trials_by_key_NoDup in Hn.
  assert (Hg : dict_get sources (sr_publication_id source) = Some tables).
  { unfold dict_item in Ed. destruct (dict_get sources _) in Ed |- *; [by injection Ed as <-|done]. }
  intros Hm%mapM_Forall2. split; [by exists tables|]. eapply Forall2_impl; [exact Hm|]. intros selection row E. unfold select_trial in E.
  destruct (_ !! _) as [trial|] eqn:Et; [|done]. apply trials_by_key_some in Et as [Hin Hk].
  destruct (_validate_correction_trial _ _ _) as [u|] eqn:Ev; [|done]. injection E as <-.
  split_and!; [done|done|done|]. cbn. intros Hr. unfold _validate_correction_trial in Ev.
  rewrite bool_decide_true in Ev by done. cbn in Ev.
  destruct (trials_by_key (rt_trials base) !! _) as [b|] eqn:Eb; [|done].
  apply trials_by_key_some in Eb as [Hb Hbk]. destruct (negb _) eqn:Hd; [done|].
  apply negb_false_iff, String.eqb_eq in Hd. by exists b.
Qed.

Definition row_key (row : selected_row) : task_key := _trial_key row.1.

(** The keys a composition selects, in the order of its rows. *)
Lemma selects_keys sources base source rows :
  selects sources base source rows ->
  map row_key rows = map (fun t => (ss_task_name t, ss_logical_attempt t)) (sr_selected_trials source).
Proof.
  intros [_ HF]. induction HF as [|t row ts rows (_ & _ & Hk & _) _ IH]; cbn; [done|].
  unfold row_key at 1. by rewrite Hk, IH.
Qed.

Lemma selection_ok manifest sources base rows :
  _select_composition_rows manifest sources base = Ok rows ->
  (exists parts, rows = concat parts /\ Forall2 (selects sources base) (cm_sources manifest) parts) /\
  map row_key rows = selected_tasks manifest /\
  forall key, key ∈ selected_tasks manifest <-> key ∈ map _trial_key (rt_trials base).
Proof.
  unfold _select_composition_rows. cbn zeta. destruct (mapM _ _) as [parts|] eqn:Em; [|done]. cbn [result_bind].
  case_bool_decide as Hd; [|done]. cbn [negb]. intros [= <-].
  assert (HF : Forall2 (selects sources base) (cm_sources manifest) parts).
  { apply mapM_Forall2 in Em. eapply Forall2_impl; [exact Em|]. intros source rows. apply select_source_ok. }
  assert (Hk : map row_key (concat parts) = selected_tasks manifest).
  { unfold selected_tasks. clear -HF. induction HF as [|source part sources' parts Hs _ IH]; cbn; [done|].
    by rewrite map_app, (selects_keys _ _ _ _ Hs), IH. }
  split_and!; [by exists parts|done|]. intros key.
  assert (Hs : list_to_set (map _trial_key (rt_trials base)) = list_to_set (map row_key (concat parts)) :> gset task_key).
  { rewrite <- trials_by_key_dom. exact Hd. }
  assert (Hi : key ∈ (list_to_set (map _trial_key (rt_trials base)) : gset task_key) <->
               key ∈ (list_to_set (map row_key (concat parts)) : gset task_key)) by by rewrite Hs.
  rewrite !elem_of_list_to_set, Hk in Hi. by symmetry.
Qed.

(** The rows of a composition. *)
Lemma unsupported_rows_ok run_id trace task rows :
  _unsupported_rows run_id task trace = Ok rows ->
  _trial_key rows.1 = (ut_task_name task, ut_logical_attempt task) /\ tw_outcome rows.1 = task_unsupported /\
  tw_trace rows.1 = trace /\ mw_trace rows.2 = trace.
Proof.
  unfold _unsupported_rows. cbn zeta. intros E. inv_ok.
  match goal with Ht : validate_TrialRow _ = Ok ?t |- _ => apply validate_TrialRow_checks in Ht; subst t end.
  match goal with Hm : metric_row _ _ _ = Ok ?m |- _ => apply validate_MetricRow_checks in Hm; subst m end.
  done.
Qed.

Lemma child_rows_ok manifest selected trace trials executions metrics :
  _compose_child_rows manifest selected trace = Ok (trials, executions, metrics) ->
  map _trial_key trials = map row_key selected ++ unsupported_keys manifest /\
  (forall trial, trial ∈ trials ->
     (exists row, row ∈ selected /\ trial = trial_with trace row.1) \/
     tw_outcome trial = task_unsupported /\ tw_trace trial = trace /\ _trial_key trial ∈ unsupported_keys manifest) /\
  executions = flat_map (fun row => map (execution_with trace) (trial_executions row)) selected /\
  Forall (fun m => mw_trace m = trace) metrics.
Proof.
  unfold _compose_child_rows. destruct (mapM _ _) as [us|] eqn:Eu; [|done]. cbn [result_bind]. intros [= <- <- <-].
  apply mapM_Forall2 in Eu.
  assert (Hu : map _trial_key (map fst us) = unsupported_keys manifest /\
    Forall (fun u => tw_outcome u.1 = task_unsupported /\ tw_trace u.1 = trace /\ mw_trace u.2 = trace) us).
  { unfold unsupported_keys. clear -Eu. induction Eu as [|task u tasks us Hu _ [IH1 IH2]]; [done|].
    apply unsupported_rows_ok in Hu as (Hk & Ho & Ht & Hm). cbn. split; [by rewrite Hk, IH1|by constructor]. }
  destruct Hu as [Hk Hu]. rewrite Forall_forall in Hu. split_and!.
  - by rewrite map_app, map_map, Hk.
  - intros trial [Hin|Hin]%elem_of_app.
    + apply list_elem_of_fmap in Hin as (row & -> & Hr). left. by exists row.
    + right. assert (Hkey : _trial_key trial ∈ unsupported_keys manifest).
      { rewrite <- Hk. apply list_elem_of_fmap. by exists trial. }
      apply list_elem_of_fmap in Hin as (u & -> & Hin). by destruct (Hu u Hin) as (? & ? & ?).
  - done.
  - apply Forall_app. split.
    + apply Forall_forall. intros m Hm. apply list_elem_of_In, in_flat_map in Hm as (row & _ & Hm).
      unfold _copy_selected_metrics in Hm. apply in_map_iff in Hm as (x & <- & _). done.
    + apply Forall_fmap, Forall_forall. intros u Hin. by destruct (Hu u Hin) as (? & ? & ?).
Qed.

(** The manifest is consistent: no task is selected twice, added twice or both. *)
Lemma manifest_keys manifest :
  validate_ResultCompositionManifest manifest = Ok manifest ->
  NoDup (selected_tasks manifest ++ unsupported_keys manifest).
Proof.
  unfold validate_ResultCompositionManifest. destruct (fields_ok _ _); [|done]. cbn [result_bind].
  destruct (_ <? _); [done|]. destruct (negb (_ =? _)); [done|].
  destruct (negb (bool_decide (NoDup (selected_tasks _)))) eqn:H1'; [done|].
  destruct (negb (bool_decide (NoDup (unsupported_keys _)))) eqn:H2'; [done|].
  destruct (existsb _ _) eqn:H3'; [done|]. intros _.
  apply negb_false_iff, bool_decide_eq_true in H1', H2'. apply NoDup_app. split_and!; [done| |done].
  intros key Hk Hu. assert (Ht : existsb (fun key => bool_decide (key ∈ unsupported_keys manifest)) (selected_tasks manifest) = true).
  { apply existsb_exists. exists key. split; [by apply list_elem_of_In|by apply bool_decide_eq_true]. }
  congruence.
Qed.

(** A composed publication. *)
Record composed (manifest : ResultCompositionManifest) (sources : dict ResultTables) (commit : string)
    (t : ResultTables) (base : ResultTables) : Prop := {
  co_base : exists reference, reference ∈ cm_sources manifest /\ sr_role reference = source_base /\
    dict_get sources (sr_publication_id reference) = Some base;
  co_tasks : map _trial_key (rt_trials t) ≡ₚ map _trial_key (rt_trials base) ++ unsupported_keys manifest;
  co_once : NoDup (map _trial_key (rt_trials t));
  co_trials trial : trial ∈ rt_trials t ->
    (exists source selection row, source ∈ cm_sources manifest /\ selection ∈ sr_selected_trials source /\
       selected_from sources base source selection row /\ trial_of_row trial = trial_of_row row.1 /\
       forall x, x ∈ rt_executions row.2 -> xw_trial_id x = tw_trial_id row.1 ->
         exists x', x' ∈ rt_executions t /\ execution_of_row x' = execution_of_row x) \/
    tw_outcome trial = task_unsupported /\ _trial_key trial ∈ unsupported_keys manifest;
  co_ids : NoDup (map tw_trial_id (rt_trials t)) /\ NoDup (map xw_execution_id (rt_executions t)) /\
    NoDup (map mw_metric_id (rt_metrics t));
  co_trace : exists trace, tc_control_commit trace = commit /\ rt_publication_id t = tc_publication_id trace /\
    Forall (fun row => row = trace) (row_traces t);
}.

Lemma base_keys_ok manifest sources base parts reference :
  reference ∈ cm_sources manifest -> dict_get sources (sr_publication_id reference) = Some base ->
  Forall2 (selects sources base) (cm_sources manifest) parts -> NoDup (map _trial_key (rt_trials base)).
Proof.
  intros [i Hi]%list_elem_of_lookup Hb HF. destruct (Forall2_lookup_l _ _ _ _ _ HF Hi) as (part & _ & (ts & Ht & Hn) & _).
  congruence.
Qed.

Lemma selected_row_source manifest sources base parts row :
  Forall2 (selects sources base) (cm_sources manifest) parts -> row ∈ concat parts ->
  exists source selection, source ∈ cm_sources manifest /\ selection ∈ sr_selected_trials source /\
    selected_from sources base source selection row.
Proof.
  intros HF. induction HF as [|source part ss parts [_ Hs] _ IH]; cbn; [by intros ?%elem_of_nil|].
  intros [Hin|Hin]%elem_of_app.
  - apply list_elem_of_lookup in Hin as [i Hi]. destruct (Forall2_lookup_r _ _ _ _ _ Hs Hi) as (sel & Hsel & Hrow).
    exists source, sel. split_and!; [by left|by eapply list_elem_of_lookup_2|done].
  - destruct (IH Hin) as (s & sel & Hs' & Hrest). exists s, sel. split; [by right|done].
Qed.

Ltac bind_ok H x E :=
  match type of H with
  | result_bind ?m _ = Ok _ => destruct m as [x|] eqn:E; [|discriminate H]; cbn [result_bind] in H
  end.

Lemma unique_rows_ok trials executions metrics u :
  _require_unique_composed_rows (trials, executions, metrics) = Ok u ->
  NoDup (map tw_trial_id trials) /\ NoDup (map xw_execution_id executions) /\ NoDup (map mw_metric_id metrics).
Proof.
  unfold _require_unique_composed_rows. repeat (case_match; try done). intros _.
  repeat match goal with E : negb (str_unique _) = false |- _ => apply negb_false_iff, str_unique_NoDup in E end.
  done.
Qed.

Lemma sorted_on_perm {A} (key : A -> string) (l : list A) : sorted_on key l ≡ₚ l.
Proof. apply sort_by_perm. Qed.

Lemma composed_run_trace manifest base trace trials executions run :
  _build_composed_run manifest base trace trials executions = Ok run -> rw_trace run = trace.
Proof. by intros ->%validate_RunRow_checks. Qed.

Lemma composition_trace_commit manifest digest profile commit trace :
  _composition_trace manifest digest profile commit = Ok trace -> tc_control_commit trace = commit.
Proof. unfold _composition_trace. intros E. bind_ok E source Es. by injection E as <-. Qed.

Lemma compose_ok manifest sources commit r :
  compose_result_tables manifest sources commit = Ok r -> validate_ResultCompositionManifest manifest = Ok manifest ->
  exists base, composed manifest sources commit (cr_tables r) base.
Proof.
  unfold compose_result_tables. intros E Hv. destruct (negb _); [done|].
  bind_ok E u1 E1. bind_ok E reference Er. bind_ok E base Eb. bind_ok E base_run Ebr. bind_ok E u2 E2.
  bind_ok E selected Es. cbn zeta in E. bind_ok E trace Et. bind_ok E rows Erows. bind_ok E u3 Eu.
  destruct rows as [[trials executions] metrics]. bind_ok E run Erun. bind_ok E pairs Epairs.
  bind_ok E envelope Een. bind_ok E artifact Eart. bind_ok E provenance Epr. bind_ok E tables Etab.
  injection E as <-. cbn [cr_tables]. exists base. clear Epairs Een Epr E1 E2 Ebr.
  apply validate_ResultTables_checks in Etab. subst tables.
  apply selection_ok in Es as ((parts & -> & HF) & Hkeys & Hdom).
  apply child_rows_ok in Erows as (Htk & Htr & -> & Hmt). apply unique_rows_ok in Eu as (U1 & U2 & U3).
  apply composed_run_trace in Erun. apply composition_trace_commit in Et.
  apply validate_ArtifactRow_checks in Eart. subst artifact. apply manifest_keys in Hv.
  assert (Href : reference ∈ cm_sources manifest /\ sr_role reference = source_base).
  { unfold base_reference in Er. destruct (find _ _) as [s|] eqn:Ef; [|done]. injection Er as <-.
    apply find_some in Ef as [Hin Hrole]. split; [by apply list_elem_of_In|by apply bool_decide_eq_true in Hrole]. }
  destruct Href as [Hin Hrole].
  assert (Hbase : dict_get sources (sr_publication_id reference) = Some base).
  { unfold dict_item in Eb. destruct (dict_get sources _) in Eb |- *; [by injection Eb as <-|done]. }
  assert (Hperm : selected_tasks manifest ≡ₚ map _trial_key (rt_trials base)).
  { apply NoDup_Permutation; [by apply NoDup_app in Hv as [? _]|by eapply base_keys_ok|done]. }
  rewrite Hkeys in Htk.
  split; cbn [rt_trials rt_executions rt_metrics rt_artifacts rt_runs rt_publication_id].
  - by exists reference.
  - by rewrite sorted_on_perm, Htk, Hperm.
  - by rewrite sorted_on_perm, Htk.
  - intros trial Htrial. rewrite sorted_on_perm in Htrial. destruct (Htr trial Htrial) as [(row & Hrow & ->)|(Ho & _ & Hk)]; [left|by right].
    destruct (selected_row_source _ _ _ _ _ HF Hrow) as (source & sel & Hs & Hsel & Hfrom).
    exists source, sel, row. split_and!; [done|done|done|by destruct row as [[] ?]|].
    intros x Hx Hid. exists (execution_with trace x). split; [|by destruct x]. rewrite sorted_on_perm.
    apply list_elem_of_In, in_flat_map. exists row. split; [by apply list_elem_of_In|]. apply in_map.
    unfold trial_executions. apply filter_In. split; [by apply list_elem_of_In|by apply String.eqb_eq].
  - by rewrite !sorted_on_perm.
  - exists trace. split_and!; [done|done|]. unfold row_traces.
    cbn [rt_trials rt_executions rt_metrics rt_artifacts rt_runs]. rewrite !Forall_app, !Forall_fmap, !sorted_on_perm.
    split_and!; [by apply Forall_singleton| | |done|by apply Forall_singleton].
    + apply Forall_forall. intros trial Ht. by destruct (Htr trial Ht) as [(row & _ & ->)|(_ & ? & _)].
    + apply Forall_forall. intros x Hx. apply list_elem_of_In, in_flat_map in Hx as (row & _ & Hx).
      by apply in_map_iff in Hx as (y & <- & _).
Qed.
