(* ===== verification/ReconcilerFacts.v ===== *)
(** Facts about the planner of reconciliation actions (Reconciler.v).

    Candidates are characterised by how they are made (retries of ready trials,
    waves of unassigned shards, cleanup of what is open), and the admission
    loop by an invariant on its usage counters: an admitted action never
    exceeds a wave budget or the spend cap, and never repeats an action that is
    still open. *)
From S2P Require Import Prelude.
From S2P Require Import PyDict.
From S2P Require Import Json.
From S2P Require Import Campaigns.
From S2P Require Import Control.
From S2P Require Import Recovery.
From S2P Require Import Reconciler.
From S2P Require Import ControlFacts.
From S2P Require Import RecoveryFacts.

(** ** The usage counters *)
Lemma dict_get_default_add d k k' n :
  dict_get_default (dict_add d k n) k' 0 =
  dict_get_default d k' 0 + (if String.eqb k k' then n else 0).
Proof.
  unfold dict_add, dict_get_default. rewrite dict_get_set.
  destruct (String.eqb_spec k k') as [->|]; [done|]. lia.
Qed.

Lemma fold_dict_add {A} (key : A -> string) (l : list A) d k :
  dict_get_default (fold_left (fun d x => dict_add d (key x) 1) l d) k 0 =
  dict_get_default d k 0 + count_if (fun x => String.eqb (key x) k) l.
Proof.
  revert d. induction l as [|x l IH]; intros d; cbn [fold_left]; [unfold count_if, sum_z; cbn; lia|].
  rewrite IH, dict_get_default_add, count_if_cons. destruct (String.eqb (key x) k); lia.
Qed.

(** ** Materialized actions *)

(** An action that is recorded and still open. *)
Definition action_open (p : RecoveryProjection) (key : string) : Prop :=
  exists a, a ∈ dict_values (proj_actions (rp_campaign p)) /\ ap_action_key a = key /\
    _action_is_spent p a = false.

(** [action] was made from [c]. *)
Record made_from (lock : CampaignLock) (p : RecoveryProjection) (c : _Candidate)
    (action : ReconcileAction) : Prop := {
  made_kind : act_kind action = cd_kind c;
  made_deployment : act_deployment_digest action = cd_deployment_digest c;
  made_provider : act_provider action = cd_provider c;
  made_shards : act_shard_ids action = cd_shard_ids c;
  made_trials : act_trial_ids action = cd_trial_ids c;
  made_targets : act_target_ids action = cd_target_ids c;
  made_cost : act_estimated_cost_microusd action = cd_estimated_cost_microusd c;
  made_cap : act_spend_cap_microusd action = cd_spend_cap_microusd c;
  made_campaign : act_campaign_id action = campaign_id lock;
  made_id : ra_action_id action = "act-" +:+ ra_action_key action;
  made_key : ra_action_key action = candidate_action_key lock c (materialize_retries p c);
  made_new : ~ action_open p (ra_action_key action);
}.

Lemma materialize_made lock p c action :
  _materialize lock p c = Some action -> made_from lock p c action.
Proof.
  unfold _materialize. destruct (existsb _ _) eqn:E; [done|]. intros [= <-].
  split; cbn; try done. intros (a & Ha & Hk & Hs).
  apply not_true_iff_false in E. apply E, existsb_exists. exists a.
  split; [by apply list_elem_of_In|]. by rewrite Hk, Hs, String.eqb_refl.
Qed.

(** ** Admission *)

(** The bounds an admitted billable action respects, in terms of the usage before it. *)
Record within_budget (lock : CampaignLock) (context : ReconcileContext) (u : _MutableUsage)
    (deployment provider : string) (cost spend_cap : option Z) : Prop := {
  within_global : mu_global_waves u < global_active_waves (limits context);
  within_deployment :
    dict_get_default (mu_deployments u) deployment 0 < deployment_active_waves (limits context);
  within_provider :
    dict_get_default (mu_providers u) provider 0 < provider_active_waves (limits context);
  within_campaign :
    dict_get_default (mu_campaigns u) (campaign_id lock) 0 < campaign_active_waves (limits context) /\
    dict_get_default (mu_campaigns u) (campaign_id lock) 0 < max_active_waves (recovery_policy lock);
  within_spend cap :
    policy_spend_cap_microusd (recovery_policy lock) = Some cap \/ spend_cap = Some cap ->
    exists c, cost = Some c /\ dict_get_default (mu_spend u) (campaign_id lock) 0 + c <= cap;
}.

Lemma budget_reason_none lock c context u :
  _budget_reason lock c context u = None ->
  within_budget lock context u (cd_deployment_digest c) (cd_provider c)
    (cd_estimated_cost_microusd c) (cd_spend_cap_microusd c).
Proof.
  unfold _budget_reason. cbn. intros H.
  repeat match type of H with
  | (if ?a <=? ?b then _ else _) = None => destruct (Z.leb_spec a b); [discriminate H|]
  end.
  split; try lia. intros cap Hcap. unfold min_cap in H. cbn in H.
  destruct (policy_spend_cap_microusd (recovery_policy lock)) as [c1|], (cd_spend_cap_microusd c) as [c2|];
    cbn in H; try naive_solver;
    (destruct (cd_estimated_cost_microusd c) as [cost|]; [|discriminate H]);
    (exists cost; split; [done|]);
    match type of H with (if ?a <? ?b then _ else _) = None => destruct (Z.ltb_spec a b); [discriminate H|] end;
    unfold min_list in *; cbn in *; destruct Hcap; simplify_eq; lia.
Qed.

(** The usage after a sequence of admitted actions. *)
Definition usage_with (campaign : string) (u : _MutableUsage) (a : ReconcileAction) : _MutableUsage :=
  if is_billable (act_kind a) then {|
    mu_global_waves := mu_global_waves u + 1;
    mu_deployments := dict_add (mu_deployments u) (act_deployment_digest a) 1;
    mu_providers := dict_add (mu_providers u) (act_provider a) 1;
    mu_campaigns := dict_add (mu_campaigns u) campaign 1;
    mu_spend := dict_add (mu_spend u) campaign (or_zero (act_estimated_cost_microusd a));
  |} else u.

Definition usage_after (campaign : string) (u : _MutableUsage) (l : list ReconcileAction) : _MutableUsage :=
  fold_left (usage_with campaign) l u.

Lemma usage_with_candidate lock p c a u :
  made_from lock p c a -> is_billable (cd_kind c) = true ->
  usage_admit u c (campaign_id lock) = usage_with (campaign_id lock) u a.
Proof.
  intros [Hk Hd Hp _ _ _ Hc _ _ _ _] Hb. unfold usage_with, usage_admit.
  by rewrite Hk, Hb, Hd, Hp, Hc.
Qed.

Lemma usage_with_free campaign u a : is_billable (act_kind a) = false -> usage_with campaign u a = u.
Proof. unfold usage_with. by intros ->. Qed.

(** Each billable action of a plan fits the budgets left by the ones before it. *)
Definition plan_within_budget (lock : CampaignLock) (context : ReconcileContext)
    (u : _MutableUsage) (actions : list ReconcileAction) : Prop :=
  forall l a l', actions = l ++ a :: l' -> is_billable (act_kind a) = true ->
    within_budget lock context (usage_after (campaign_id lock) u l) (act_deployment_digest a)
      (act_provider a) (act_estimated_cost_microusd a) (act_spend_cap_microusd a).

Lemma plan_within_budget_snoc lock context u l a :
  plan_within_budget lock context u l ->
  (is_billable (act_kind a) = true ->
   within_budget lock context (usage_after (campaign_id lock) u l) (act_deployment_digest a)
     (act_provider a) (act_estimated_cost_microusd a) (act_spend_cap_microusd a)) ->
  plan_within_budget lock context u (l ++ [a]).
Proof.
  intros Hl Ha k b k' Heq Hb. destruct k' as [|x k'] using rev_ind.
  - apply app_inj_tail in Heq as [-> ->]. auto.
  - clear IHk'. rewrite app_comm_cons, app_assoc in Heq. apply app_inj_tail in Heq as [-> ->].
    by eapply Hl.
Qed.

(** Where the actions of a plan come from: a candidate, or the exhaustion of a
    retry whose trials the spend cap excludes for good. *)
Definition exhaust_candidate (c : _Candidate) : _Candidate := {|
  cd_kind := exhaust_trials; cd_deployment_digest := cd_deployment_digest c; cd_provider := "";
  cd_wave_id := None; cd_shard_ids := cd_shard_ids c; cd_trial_ids := cd_trial_ids c;
  cd_target_ids := cd_trial_ids c; cd_estimated_cost_microusd := None;
  cd_spend_cap_microusd := None |}.

Inductive action_source (lock : CampaignLock) (p : RecoveryProjection) (candidates : list _Candidate)
    (a : ReconcileAction) : Prop :=
  | source_candidate c : c ∈ candidates -> made_from lock p c a -> action_source lock p candidates a
  | source_exhaust c : c ∈ candidates -> cd_kind c = retry_shard ->
      _durable_spend_cap_blocks_retry lock p c = Ok true ->
      made_from lock p (exhaust_candidate c) a -> action_source lock p candidates a.

Lemma action_source_mono lock p cs cs' a :
  (forall c, c ∈ cs -> c ∈ cs') -> action_source lock p cs a -> action_source lock p cs' a.
Proof. intros H [c Hc Hm|c Hc Hk He Hm]; [eapply source_candidate|eapply source_exhaust]; eauto. Qed.

Lemma admit_candidate_ok lock p context st c st' action :
  admit_candidate lock p context st c = Ok (st', action) ->
  as_actions st' = as_actions st /\
  match action with
  | None => as_usage st' = as_usage st
  | Some a => action_source lock p [c] a /\
      as_usage st' = usage_with (campaign_id lock) (as_usage st) a /\
      (is_billable (act_kind a) = true ->
       within_budget lock context (as_usage st) (act_deployment_digest a) (act_provider a)
         (act_estimated_cost_microusd a) (act_spend_cap_microusd a))
  end.
Proof.
  unfold admit_candidate. destruct (_materialize lock p c) as [a|] eqn:Em.
  2: { intros [= <- <-]. done. }
  pose proof (materialize_made _ _ _ _ Em) as Hm.
  assert (act_spend_cap_microusd a = cd_spend_cap_microusd c) as Hcap.
  { unfold _materialize in Em. destruct (existsb _ _); [done|]. by injection Em as <-. }
  assert (action_source lock p [c] a) as Hsrc by (apply (source_candidate _ _ _ _ c); [by left|done]).
  destruct (is_billable (cd_kind c)) eqn:Eb; cbn [negb].
  2: { intros [= <- <-]. assert (is_billable (act_kind a) = false) as Hf
         by (by rewrite (made_kind _ _ _ _ Hm)).
       split; [done|]. split_and!; [done|by rewrite usage_with_free|congruence]. }
  destruct (_budget_reason lock c context (as_usage st)) as [reason|] eqn:Er.
  - intros H. apply result_bind_Ok in H as (exhaust & Hex & H).
    unfold _denied_billable_action in H.
    destruct (bool_decide (cd_kind c = retry_shard) && bool_decide (reason = block_spend_cap) && exhaust)
      eqn:Ed; injection H as <- <-; (split; [done|]); [|done].
    clear Em Hm Hcap Hsrc. destruct (_materialize lock p _) as [a'|] eqn:Em'; [|done].
    apply andb_true_iff in Ed as [[Ek%bool_decide_eq_true _]%andb_true_iff ->].
    pose proof (materialize_made _ _ _ _ Em') as Hm'.
    assert (is_billable (act_kind a') = false) as Hf by (rewrite (made_kind _ _ _ _ Hm'); reflexivity).
    split_and!; [|by rewrite usage_with_free|congruence].
    apply (source_exhaust _ _ _ _ c); [by left|done..].
  - intros [= <- <-]. split; [done|]. split_and!; [done|by apply (usage_with_candidate _ p)|].
    intros _. destruct Hm as [_ -> -> _ _ _ -> _ _ _ _]. rewrite Hcap. by apply budget_reason_none.
Qed.

Lemma admit_loop_ok lock p context u cs st st' :
  as_usage st = usage_after (campaign_id lock) u (as_actions st) ->
  plan_within_budget lock context u (as_actions st) ->
  admit_loop lock p context st cs = Ok st' ->
  plan_within_budget lock context u (as_actions st') /\
  (forall a, a ∈ as_actions st' -> a ∈ as_actions st \/ action_source lock p cs a) /\
  (len (as_actions st') <= Z.max (len (as_actions st)) (action_limit (limits context))).
Proof.
  revert st. induction cs as [|c cs IH]; intros st Hu Hp H; cbn [admit_loop] in H.
  { injection H as <-. split_and!; [done|by left|lia]. }
  apply result_bind_Ok in H as ([st1 action] & Hc & H).
  apply admit_candidate_ok in Hc as [Ha Hc].
  assert (forall a (l0 : list ReconcileAction), (forall x, x ∈ l0 -> x ∈ as_actions st \/ action_source lock p (c :: cs) x) ->
            a ∈ l0 \/ action_source lock p cs a ->
            a ∈ as_actions st \/ action_source lock p (c :: cs) a) as Hmono.
  { intros a l0 Hl0 [Hin|Hs]; [auto|]. right. eapply action_source_mono; [|exact Hs].
    intros x Hx. by right. }
  destruct action as [a|].
  2: { destruct (IH st1) as (H1 & H2 & H3); [by rewrite Ha, Hc|by rewrite Ha|done|].
       split_and!; [done| |by rewrite Ha in H3].
       intros a Hin. apply (Hmono a (as_actions st1)); [intros x; rewrite Ha; by left|auto]. }
  destruct Hc as (Hsrc & Husage & Hwithin).
  assert (action_source lock p (c :: cs) a) as Hsrc'.
  { eapply action_source_mono; [|exact Hsrc]. intros x ->%list_elem_of_singleton. by left. }
  destruct (Z.leb_spec (action_limit (limits context)) (len (as_actions st1))) as [Hlim|Hlim].
  { injection H as <-. rewrite Ha in *. split_and!; [done|by left|lia]. }
  apply IH in H as (H1 & H2 & H3); cbn [as_usage as_actions] in *.
  - split_and!; [done| |].
    + intros b Hb. eapply Hmono; [|by apply H2]. intros x.
      rewrite Ha, elem_of_app, list_elem_of_singleton. intros [Hx| ->]; [by left|by right].
    + rewrite len_app, len_cons in H3. change (len (@nil ReconcileAction)) with 0 in H3.
      rewrite Ha in *. lia.
  - rewrite Ha, Husage, Hu. unfold usage_after. by rewrite fold_left_app.
  - rewrite Ha. apply plan_within_budget_snoc; [done|]. by rewrite <- Hu.
Qed.

Lemma admit_ok lock p cs context preblocked actions blocked :
  _admit lock p cs context preblocked = Ok (actions, blocked) ->
  plan_within_budget lock context (initial_usage context p) actions /\
  (forall a, a ∈ actions -> action_source lock p cs a) /\
  len actions <= Z.max 0 (action_limit (limits context)).
Proof.
  unfold _admit. intros H. apply result_bind_Ok in H as (st & Hl & H). injection H as <- <-.
  apply (admit_loop_ok _ _ _ (initial_usage context p)) in Hl as (H1 & H2 & H3); cbn in *.
  - split_and!; [done| |done]. intros a Ha. destruct (H2 a Ha) as [Hin|Hs]; [|done].
    by apply elem_of_nil in Hin.
  - done.
  - intros l a l'. by destruct l.
Qed.

(** ** Candidates *)
Lemma foldM_pair_invariant {A S} (P : S -> Prop) (f : S -> A -> result S) l s s' :
  (forall s x s', x ∈ l -> P s -> f s x = Ok s' -> P s') -> P s -> foldM f s l = Ok s' -> P s'.
Proof. apply foldM_invariant. Qed.

Lemma mapM_elem {A B} (f : A -> result B) l ys y :
  mapM f l = Ok ys -> y ∈ ys -> exists x, x ∈ l /\ f x = Ok y.
Proof.
  intros H%mapM_Forall2 Hy. apply list_elem_of_lookup in Hy as (i & Hi).
  destruct (Forall2_lookup_r _ _ _ _ _ H Hi) as (x & Hx & Hf).
  exists x. split; [by eapply list_elem_of_lookup_2|done].
Qed.

Lemma mapM_elem_l {A B} (f : A -> result B) l ys x :
  mapM f l = Ok ys -> x ∈ l -> exists y, y ∈ ys /\ f x = Ok y.
Proof.
  intros H%mapM_Forall2 Hx. apply list_elem_of_lookup in Hx as (i & Hi).
  destruct (Forall2_lookup_l _ _ _ _ _ H Hi) as (y & Hy & Hf).
  exists y. split; [by eapply list_elem_of_lookup_2|done].
Qed.

(** A [defaultdict(list)] after an append. *)
Lemma dict_append_get d k k' x :
  dict_get_default (dict_append d k x) k' [] =
  dict_get_default d k' [] ++ (if String.eqb k k' then [x] else []).
Proof.
  unfold dict_append, dict_get_default. rewrite dict_get_set.
  destruct (String.eqb_spec k k') as [->|]; [done|]. by rewrite app_nil_r.
Qed.

(** Every list of a grouping satisfies [P key element], and none is empty. *)
Definition grouped (P : string -> string -> Prop) (d : dict (list string)) : Prop :=
  forall k l, dict_get d k = Some l -> l <> [] /\ Forall (P k) l.

Lemma grouped_append P d k x : grouped P d -> P k x -> grouped P (dict_append d k x).
Proof.
  intros Hd Hx k' l. unfold dict_append, dict_get_default. rewrite dict_get_set.
  destruct (String.eqb_spec k k') as [->|]; [|apply Hd]. intros [= <-].
  split; [by destruct (dict_get d k') as [[]|]|]. apply Forall_app. split; [|by constructor].
  destruct (dict_get d k') eqn:E; [by apply Hd in E as [_ ?]|constructor].
Qed.

(** No identifier is filed twice, in one list or in two. *)
Record partitioned (d : dict (list string)) : Prop := {
  partitioned_wf : dict_wf d;
  partitioned_nodup k l : dict_get d k = Some l -> NoDup l;
  partitioned_disjoint k k' l l' x :
    dict_get d k = Some l -> dict_get d k' = Some l' -> x ∈ l -> x ∈ l' -> k = k';
}.

(** The identifiers a grouping files are among [ids]. *)
Definition members_in (d : dict (list string)) (ids : list string) : Prop :=
  forall k l x, dict_get d k = Some l -> x ∈ l -> x ∈ ids.

Lemma partitioned_nil : partitioned [].
Proof. split; [constructor|done..]. Qed.

Lemma dict_append_cases d k x k' l :
  dict_get (dict_append d k x) k' = Some l ->
  (k = k' /\ l = dict_get_default d k [] ++ [x]) \/ (k <> k' /\ dict_get d k' = Some l).
Proof.
  unfold dict_append. rewrite dict_get_set. destruct (String.eqb_spec k k') as [->|]; [|by right].
  intros [= <-]. by left.
Qed.

Lemma dict_get_default_elem (d : dict (list string)) k x :
  x ∈ dict_get_default d k [] -> exists l, dict_get d k = Some l /\ x ∈ l.
Proof.
  unfold dict_get_default. destruct (dict_get d k) as [l|]; [eauto|by intros ?%elem_of_nil].
Qed.

Lemma partitioned_append d k x ids :
  partitioned d -> members_in d ids -> x ∉ ids -> partitioned (dict_append d k x).
Proof.
  intros [Hw Hn Hd] Hm Hx.
  assert (Hfresh : forall k l, dict_get d k = Some l -> x ∉ l) by (intros k' l Hl Hin; eauto).
  split.
  - by apply dict_wf_set.
  - intros k' l [[<- ->]|[_ Hl]]%dict_append_cases; [|eauto].
    apply NoDup_app. split_and!.
    + unfold dict_get_default. destruct (dict_get d k) eqn:E; [eauto|constructor].
    + intros y (l & Hl & Hy)%dict_get_default_elem ->%list_elem_of_singleton. by eapply Hfresh.
    + apply NoDup_singleton.
  - intros k1 k2 l1 l2 y [[<- ->]|[N1 H1]]%dict_append_cases [[<- ->]|[N2 H2]]%dict_append_cases Y1 Y2;
      [done| | |by eapply Hd].
    + apply elem_of_app in Y1 as [(l & Hl & Y1)%dict_get_default_elem|Y1%list_elem_of_singleton];
        [by eapply Hd|subst; by destruct (Hfresh _ _ H2)].
    + apply elem_of_app in Y2 as [(l & Hl & Y2)%dict_get_default_elem|Y2%list_elem_of_singleton];
        [by eapply Hd|subst; by destruct (Hfresh _ _ H1)].
Qed.

Lemma members_append d k x ids :
  members_in d ids -> members_in (dict_append d k x) (ids ++ [x]).
Proof.
  intros Hm k' l y [[<- ->]|[_ Hl]]%dict_append_cases Hy.
  - apply elem_of_app in Hy as [(l & Hl & Hy)%dict_get_default_elem|Hy]; set_solver.
  - apply elem_of_app. left. eauto.
Qed.

Lemma members_mono d ids ids' :
  members_in d ids -> (forall x, x ∈ ids -> x ∈ ids') -> members_in d ids'.
Proof. intros H Hi k l x Hl Hx. eauto. Qed.

(** The lists of distinct keys of a partition have no common identifier. *)
Lemma partitioned_concat d keys ls :
  partitioned d -> NoDup keys -> mapM (dict_item d) keys = Ok ls -> NoDup (concat ls).
Proof.
  intros Hd Hk. revert ls. induction Hk as [|k keys Hk _ IH]; intros ls H; cbn in H.
  - injection H as <-. constructor.
  - apply result_bind_Ok in H as (l & Hl & H). apply result_bind_Ok in H as (ls' & Hls & H).
    injection H as <-. simpl. unfold dict_item in Hl.
    destruct (dict_get d k) as [l'|] eqn:E; [|discriminate]. injection Hl as ->.
    apply NoDup_app. split_and!; [by eapply partitioned_nodup| |by apply IH].
    intros x Hx (l2 & Hl2 & Hx2)%concat_elem. apply Hk.
    destruct (mapM_elem _ _ _ _ Hls Hl2) as (k2 & Hk2 & Hi). unfold dict_item in Hi.
    destruct (dict_get d k2) as [l3|] eqn:E2; [|discriminate]. injection Hi as ->.
    by rewrite (partitioned_disjoint _ Hd _ _ _ _ _ E E2 Hx Hx2).
Qed.

(** The candidates of one deployment group, one per chunk. *)
Lemma wave_candidates_elem lock context groups make cs c :
  wave_candidates lock context groups make = Ok cs -> c ∈ cs ->
  exists deployment admission shard_ids chunk,
    _deployment lock context deployment = Ok admission /\
    dict_get groups deployment = Some shard_ids /\
    chunk <> [] /\ len chunk <= max_shards_per_wave lock /\
    (forall s, s ∈ chunk -> s ∈ shard_ids) /\ (NoDup shard_ids -> NoDup chunk) /\
    make deployment admission chunk = Ok c.
Proof.
  unfold wave_candidates. intros H Hc. apply result_bind_Ok in H as (per & Hper & H).
  injection H as <-. apply concat_elem in Hc as (l & Hl & Hc).
  destruct (mapM_elem _ _ _ _ Hper Hl) as (deployment & _ & Hd).
  apply result_bind_Ok in Hd as (admission & Ha & Hd).
  apply result_bind_Ok in Hd as (shard_ids & Hs & Hd).
  apply result_bind_Ok in Hd as (chunks_ & Hch & Hd).
  destruct (mapM_elem _ _ _ _ Hd Hc) as (chunk & Hin & Hm).
  exists deployment, admission, shard_ids, chunk. split; [done|].
  unfold dict_item in Hs. destruct (dict_get groups deployment); [|done]. injection Hs as ->.
  destruct (chunks_bounds _ _ _ _ Hch Hin) as [H1 H2]. split_and!; try done.
  - intros s. by apply (chunks_elem_of _ _ _ _ _ Hch Hin).
  - intros Hnd. by eapply chunks_nodup.
Qed.

(** *** Retries *)

(** What the planner knows of a trial it retries. *)
Definition retry_due (p : RecoveryProjection) (now : Z) (shard_id trial_id : string) : Prop :=
  exists t, t ∈ dict_values (rp_trials p) /\ tr_trial_id t = trial_id /\ tr_shard_id t = shard_id /\
    ((tr_status t = trial_s_retry_wait /\ exists at_, tr_retry_not_before t = Some at_ /\ at_ <= now) \/
     (tr_status t = trial_s_planned /\ _trial_was_skipped_in_closed_wave p shard_id = Ok true)) /\
    trial_id ∉ reserved_retry_trials p.

Lemma retry_queue_ready p t now :
  _retry_queue p t now = Ok (Some queue_ready) ->
  (tr_status t = trial_s_retry_wait /\ exists at_, tr_retry_not_before t = Some at_ /\ at_ <= now) \/
  (tr_status t = trial_s_planned /\ _trial_was_skipped_in_closed_wave p (tr_shard_id t) = Ok true).
Proof.
  unfold _retry_queue. intros H. apply result_bind_Ok in H as (skipped & Hs & H).
  destruct skipped.
  - right. unfold trial_has_status in Hs. case_bool_decide; [by split|discriminate Hs].
  - left. unfold trial_has_status, retry_is_ready in H. case_bool_decide as E; [|done].
    cbn in H. destruct (tr_retry_not_before t) as [at_|]; [|done].
    destruct (Z.leb_spec at_ now); [|done]. split; [done|]. eauto.
Qed.

Lemma retry_queues_ready p now ready waiting :
  retry_queues p (reserved_retry_trials p) now = Ok (ready, waiting) -> grouped (retry_due p now) ready.
Proof.
  unfold retry_queues. intros H.
  apply (foldM_invariant (fun acc => grouped (retry_due p now) acc.1)) in H; [done| |by intros k l].
  clear H. intros [r w] t [r' w'] Ht Hr H. cbn in *.
  apply result_bind_Ok in H as (queue & Hq & H).
  destruct (str_mem (tr_trial_id t) (reserved_retry_trials p)) eqn:Em; [by injection H as <- <-|].
  destruct queue as [[]|]; injection H as <- <-; try done.
  apply grouped_append; [done|]. exists t. split_and!; try done.
  - by apply retry_queue_ready.
  - by apply str_mem_false.
Qed.

Lemma retry_queues_partitioned p now ready waiting :
  NoDup (map tr_trial_id (dict_values (rp_trials p))) ->
  retry_queues p (reserved_retry_trials p) now = Ok (ready, waiting) -> partitioned ready.
Proof.
  unfold retry_queues. intros Hnd H.
  apply (foldM_prefix_invariant (fun seen acc => partitioned acc.1 /\
    members_in acc.1 (map tr_trial_id seen))) in H; [apply H|by split; [apply partitioned_nil|]|].
  clear H. intros l0 t l1 [r w] [r' w'] Hl [Hr Hm] H. cbn in Hr, Hm |- *.
  rewrite Hl, map_app in Hnd. cbn in Hnd. apply NoDup_app in Hnd as (_ & Hfresh & _).
  rewrite map_app. cbn.
  apply result_bind_Ok in H as (queue & _ & H).
  assert (Hsame : partitioned r /\ members_in r (map tr_trial_id l0 ++ [tr_trial_id t])).
  { split; [done|]. apply (members_mono _ _ _ Hm). set_solver. }
  destruct (str_mem (tr_trial_id t) (reserved_retry_trials p)); [by injection H as <- <-|].
  destruct queue as [[]|]; injection H as <- <-; try exact Hsame. split.
  - eapply partitioned_append; [done|done|]. intros Hin. apply (Hfresh _ Hin). by left.
  - by apply members_append.
Qed.

(** A shard of a deployment: some run with that digest owns it. *)
Definition shard_of_deployment (lock : CampaignLock) (deployment shard_id : string) : Prop :=
  exists run shard, run ∈ runs lock /\ ra_deployment_digest (rl_admission run) = deployment /\
    shard ∈ rl_shards run /\ sl_shard_id shard = shard_id.

Lemma deployment_for_shard lock s deployment :
  _deployment_for_shards lock [s] = Ok deployment -> shard_of_deployment lock deployment s.
Proof.
  unfold _deployment_for_shards. intros H.
  destruct (remove_dups _) as [|d [|]] eqn:E; try done. injection H as <-.
  assert (d ∈ [d]) as Hd by (by left). rewrite <- E, elem_of_remove_dups in Hd.
  apply list_elem_of_fmap in Hd as (run & -> & Hr). apply filter_elem_of in Hr as [Hr Hs].
  apply existsb_exists in Hs as (shard & Hin & Hm). apply str_mem_true in Hm.
  apply list_elem_of_singleton in Hm. exists run, shard. split_and!; try done.
  by apply list_elem_of_In.
Qed.

Lemma group_by_deployment_ok lock shard_ids groups (P : string -> Prop) :
  (forall s, s ∈ shard_ids -> P s) -> group_by_deployment lock shard_ids = Ok groups ->
  grouped (fun deployment s => shard_of_deployment lock deployment s /\ P s) groups.
Proof.
  intros HP H. unfold group_by_deployment in H.
  apply (foldM_invariant (grouped (fun deployment s => shard_of_deployment lock deployment s /\ P s))) in H;
    [done| |by intros k l].
  clear H. intros d s d' Hs Hd H. cbn in H. apply result_bind_Ok in H as (deployment & Hdep & H).
  injection H as <-. apply grouped_append; [done|]. split; [by apply deployment_for_shard|auto].
Qed.

Lemma group_by_deployment_partitioned lock shard_ids groups :
  NoDup shard_ids -> group_by_deployment lock shard_ids = Ok groups -> partitioned groups.
Proof.
  unfold group_by_deployment. intros Hnd H.
  apply (foldM_prefix_invariant (fun seen d => partitioned d /\ members_in d seen)) in H;
    [apply H|by split; [apply partitioned_nil|]|].
  clear H. intros l0 s l1 d d' Hl [Hd Hm] H. apply result_bind_Ok in H as (deployment & _ & H).
  injection H as <-. rewrite Hl in Hnd. apply NoDup_app in Hnd as (_ & Hfresh & _).
  split; [eapply partitioned_append; [done..|]|by apply members_append].
  intros Hin. apply (Hfresh _ Hin). by left.
Qed.

(** A retry candidate: shards of one deployment within the wave bound, and at
    least one trial, all of them due. *)
Record retry_candidate_ok (lock : CampaignLock) (p : RecoveryProjection) (now : Z)
    (c : _Candidate) : Prop := {
  retry_kind : cd_kind c = retry_shard;
  retry_shards : cd_shard_ids c <> [] /\ len (cd_shard_ids c) <= max_shards_per_wave lock;
  retry_deployment s : s ∈ cd_shard_ids c -> shard_of_deployment lock (cd_deployment_digest c) s;
  retry_trials : cd_trial_ids c <> [] /\ cd_target_ids c = cd_trial_ids c;
  retry_trials_due t : t ∈ cd_trial_ids c -> exists s, s ∈ cd_shard_ids c /\ retry_due p now s t;
  retry_distinct : NoDup (map tr_trial_id (dict_values (rp_trials p))) ->
    NoDup (cd_shard_ids c) /\ NoDup (cd_trial_ids c);
}.

Lemma retry_candidates_ok lock p context now cs blocked c :
  _retry_candidates lock p context now = Ok (cs, blocked) -> c ∈ cs -> retry_candidate_ok lock p now c.
Proof.
  unfold _retry_candidates. intros H Hc.
  apply result_bind_Ok in H as ([ready waiting] & Hq & H).
  apply result_bind_Ok in H as (groups & Hg & H).
  apply result_bind_Ok in H as (candidates & Hcs & H).
  apply result_bind_Ok in H as (bl & _ & H). injection H as <- <-.
  pose proof (fun Hnd => retry_queues_partitioned _ _ _ _ Hnd Hq) as Hparts.
  pose proof (fun Hnd => group_by_deployment_partitioned _ _ _ Hnd Hg) as Hgroups.
  apply retry_queues_ready in Hq.
  apply (group_by_deployment_ok _ _ _ (fun s => is_Some (dict_get ready s))) in Hg.
  2: { intros s Hs. apply dict_get_is_some_iff. by rewrite sort_by_elem_of in Hs. }
  destruct (wave_candidates_elem _ _ _ _ _ _ Hcs Hc) as
    (deployment & admission & shard_ids & chunk & _ & Hd & Hne & Hlen & Hin & Hnd & Hm).
  destruct (Hg _ _ Hd) as [_ Hall]. rewrite Forall_forall in Hall.
  unfold retry_candidate in Hm. apply result_bind_Ok in Hm as (trials & Ht & Hm).
  apply result_bind_Ok in Hm as (provider & _ & Hm). apply result_bind_Ok in Hm as (cost & _ & Hm).
  apply result_bind_Ok in Hm as (cap & _ & Hm). injection Hm as <-.
  split; cbn; [done|done| | | |].
  - intros s Hs. by apply Hall, Hin.
  - split; [|done]. destruct chunk as [|s chunk]; [done|]. cbn in Ht.
    apply result_bind_Ok in Ht as (l & Hl & Ht). apply result_bind_Ok in Ht as (ls & _ & Ht).
    injection Ht as <-. unfold dict_item in Hl. destruct (dict_get ready s) as [l'|] eqn:E; [|done].
    injection Hl as ->. destruct (Hq _ _ E) as [Hl _]. intros Hnil. apply Hl.
    destruct l as [|x l]; [done|]. exfalso.
    assert (x ∈ sort_by str_leb (concat ((x :: l) :: ls))) as Hx.
    { rewrite sort_by_elem_of. cbn. by left. }
    rewrite Hnil in Hx. by apply elem_of_nil in Hx.
  - intros t. rewrite sort_by_elem_of. intros (l & Hl & Htl)%concat_elem.
    destruct (mapM_elem _ _ _ _ Ht Hl) as (s & Hs & Hi). exists s. split; [done|].
    unfold dict_item in Hi. destruct (dict_get ready s) as [l'|] eqn:E; [|done]. injection Hi as ->.
    destruct (Hq _ _ E) as [_ Hf]. rewrite Forall_forall in Hf. auto.
  - intros Hids. specialize (Hparts Hids).
    assert (Hkeys : NoDup (sort_by str_leb (dict_keys ready)))
      by (rewrite sort_by_perm; apply (partitioned_wf _ Hparts)).
    assert (Hc' : NoDup chunk) by (eapply Hnd, partitioned_nodup; [by apply Hgroups|done]).
    split; [done|]. rewrite sort_by_perm. by eapply partitioned_concat.
Qed.

(** *** New waves *)
(** The shards of every run of the lock. *)
Definition lock_shard_ids (lock : CampaignLock) : list string :=
  concat (map (fun run => map sl_shard_id (rl_shards run)) (runs lock)).

Record new_wave_ok (lock : CampaignLock) (p : RecoveryProjection) (assigned : list string)
    (c : _Candidate) : Prop := {
  new_kind : cd_kind c = submit_wave;
  new_shards : cd_shard_ids c <> [] /\ len (cd_shard_ids c) <= max_shards_per_wave lock;
  new_targets : cd_target_ids c = cd_shard_ids c /\ cd_trial_ids c = [];
  new_deployment s : s ∈ cd_shard_ids c -> shard_of_deployment lock (cd_deployment_digest c) s;
  new_unassigned s : s ∈ cd_shard_ids c -> s ∉ assigned /\
    exists sh, dict_get (rp_shards p) s = Some sh /\ shard_is_startable (sh_status sh) = true;
  new_distinct : NoDup (lock_shard_ids lock) -> NoDup (cd_shard_ids c);
}.

Lemma unassigned_groups_ok lock p assigned groups :
  unassigned_groups lock p assigned = Ok groups ->
  grouped (fun deployment s => shard_of_deployment lock deployment s /\ s ∉ assigned /\
    exists sh, dict_get (rp_shards p) s = Some sh /\ shard_is_startable (sh_status sh) = true) groups.
Proof.
  unfold unassigned_groups. intros H.
  refine (foldM_invariant _ _ _ _ _ _ _ H); [|by intros k l].
  clear H. intros d run d' Hrun Hd H. rewrite sort_by_elem_of in Hrun.
  refine (foldM_invariant _ _ _ _ _ _ Hd H).
  clear H Hd. intros g shard g' Hshard Hg H. rewrite sort_by_elem_of in Hshard.
  apply result_bind_Ok in H as (sh & Hsh & H). injection H as <-.
  destruct (negb (str_mem (sl_shard_id shard) assigned) && shard_is_startable (sh_status sh)) eqn:E; [|done].
  apply andb_true_iff in E as [E1%negb_true_iff%str_mem_false E2].
  apply grouped_append; [done|]. split_and!; [by exists run, shard|done|].
  unfold dict_item in Hsh. destruct (dict_get (rp_shards p) (sl_shard_id shard)); [|done].
  injection Hsh as ->. eauto.
Qed.

Lemma unassigned_groups_partitioned lock p assigned groups :
  NoDup (lock_shard_ids lock) -> unassigned_groups lock p assigned = Ok groups -> partitioned groups.
Proof.
  unfold unassigned_groups. intros Hnd H.
  set (sorted_shards := fun run => sort_by (fun a b => str_leb (sl_shard_id a) (sl_shard_id b)) (rl_shards run)) in *.
  set (ids := fun run => map sl_shard_id (sorted_shards run)).
  set (sorted_runs := sort_by _ (runs lock)) in H.
  assert (Hnd' : NoDup (concat (map ids sorted_runs))).
  { eapply NoDup_Permutation_proper; [|exact Hnd]. apply concat_map_perm; [apply sort_by_perm|].
    intros run. unfold ids, sorted_shards. by rewrite sort_by_perm. }
  apply (foldM_prefix_invariant (fun seen d => partitioned d /\ members_in d (concat (map ids seen)))) in H;
    [apply H|by split; [apply partitioned_nil|]|].
  clear H. intros l0 run l1 d d' Hl [Hd Hm] H. fold (sorted_shards run) in H.
  rewrite Hl, map_app, concat_app in Hnd'. cbn in Hnd'. rewrite map_app, concat_app. cbn.
  rewrite app_nil_r.
  apply (foldM_prefix_invariant (fun seen d => partitioned d /\
    members_in d (concat (map ids l0) ++ map sl_shard_id seen))) in H; [done|by rewrite app_nil_r|].
  clear H. intros k0 shard k1 g g' Hk [Hg Hgm] H. apply result_bind_Ok in H as (sh & _ & H).
  injection H as <-. rewrite map_app, app_assoc. cbn.
  destruct (negb _ && _).
  - split; [eapply partitioned_append; [done..|]|by apply members_append].
    unfold ids in Hnd' at 2. rewrite Hk, map_app in Hnd'. cbn in Hnd'.
    rewrite <- app_assoc, app_assoc in Hnd'. apply NoDup_app in Hnd' as (_ & Hfresh & _).
    intros Hin. apply (Hfresh _ Hin). by left.
  - split; [done|]. apply (members_mono _ _ _ Hgm). set_solver.
Qed.

Lemma new_wave_candidates_ok lock p context cs c :
  _new_wave_candidates lock p context = Ok cs -> c ∈ cs ->
  exists assigned, _assigned_shards lock p = Ok assigned /\ new_wave_ok lock p assigned c.
Proof.
  unfold _new_wave_candidates. intros H Hc. apply result_bind_Ok in H as (assigned & Ha & H).
  apply result_bind_Ok in H as (groups & Hg & H). exists assigned. split; [done|].
  pose proof (fun Hl => unassigned_groups_partitioned _ _ _ _ Hl Hg) as Hparts.
  apply unassigned_groups_ok in Hg.
  destruct (wave_candidates_elem _ _ _ _ _ _ H Hc) as
    (deployment & admission & shard_ids & chunk & _ & Hd & Hne & Hlen & Hin & Hnd & Hm).
  destruct (Hg _ _ Hd) as [_ Hall]. rewrite Forall_forall in Hall.
  unfold new_wave_candidate in Hm. apply result_bind_Ok in Hm as (provider & _ & Hm).
  apply result_bind_Ok in Hm as (cap & _ & Hm). injection Hm as <-.
  split; cbn; try done; [intros s Hs; by apply Hall, Hin..|].
  intros Hl. eapply Hnd, partitioned_nodup; [by apply Hparts|done].
Qed.

(** What is assigned: the shards of open waves, of executions, and of open wave actions. *)
Lemma assigned_shards_elem lock p assigned s :
  _assigned_shards lock p = Ok assigned ->
  (exists w, w ∈ dict_values (rp_waves p) /\ wave_is_open w = true /\ s ∈ wv_shard_ids w) \/
  (exists e, e ∈ dict_values (rp_executions p) /\ ep_shard_id e = s) \/
  (exists a, a ∈ dict_values (proj_actions (rp_campaign p)) /\
     is_wave_action_kind (ap_action_kind a) = true /\ _action_is_spent p a = false /\
     s ∈ _action_shard_ids lock (ap_action_kind a) (ap_target_ids a)) ->
  s ∈ assigned.
Proof.
  unfold _assigned_shards. intros H. apply result_bind_Ok in H as (by_wave & Hw & H).
  injection H as <-. rewrite !elem_of_app. intros [(w & Hw1 & Hw2 & Hw3)|[(e & He & <-)|(a & Ha & Hk & Hs & Hin)]].
  - left. destruct (mapM_elem_l _ _ _ _ Hw Hw1) as (l & Hl & Heq). rewrite Hw2 in Heq.
    injection Heq as <-. by eapply concat_elem_2.
  - right; left. apply list_elem_of_fmap. eauto.
  - right; right. eapply concat_elem_2; [|exact Hin]. apply list_elem_of_fmap. exists a. split; [done|].
    apply filter_elem_of. by rewrite Hk, Hs.
Qed.

(** *** Cleanup and the whole candidate list *)
Definition is_cleanup_kind (k : ActionKind) : bool :=
  match k with
  | cancel_execution | cancel_wave | drain_wave | cleanup_wave | manual_intervention_action => true
  | _ => false
  end.

Lemma wave_cleanup_kind w p cancelling force cs c :
  _wave_cleanup w p cancelling force = Ok cs -> c ∈ cs ->
  is_cleanup_kind (cd_kind c) = true /\ wave_is_open w = true /\ cd_wave_id c = Some (wv_wave_id w).
Proof.
  unfold _wave_cleanup, wave_is_open. destruct (wave_is_closed w); [by intros [= <-] ?%elem_of_nil|].
  destruct (bool_decide (wv_status w = wave_s_cleanup_failed)).
  { intros [= <-] ->%list_elem_of_singleton. done. }
  destruct cancelling.
  { intros [= <-] Hc. unfold _cancellation_wave_actions in Hc.
    destruct force; [|destruct (existsb _ _); [|destruct (wave_is_winding_down w)]];
      repeat (apply elem_of_cons in Hc as [->|Hc]; [done|]); by apply elem_of_nil in Hc. }
  intros H Hc. apply result_bind_Ok in H as (unfinished & _ & H).
  destruct (negb unfinished && negb (wave_is_winding_down w)); [|destruct (wave_is_winding_down w)];
    injection H as <-;
    repeat (apply elem_of_cons in Hc as [->|Hc]; [done|]); by apply elem_of_nil in Hc.
Qed.

Lemma cleanup_candidates_kind lock p now cs c :
  _cleanup_candidates lock p now = Ok cs -> c ∈ cs -> is_cleanup_kind (cd_kind c) = true.
Proof.
  unfold _cleanup_candidates. intros H Hc. apply result_bind_Ok in H as (waves & Hw & H).
  apply result_bind_Ok in H as (unobserved & Hu & H). injection H as <-.
  rewrite !elem_of_app in Hc. destruct Hc as [Hc|[Hc|Hc]].
  - destruct (campaign_is_stopping _ && _); [|by apply elem_of_nil in Hc].
    by apply list_elem_of_fmap in Hc as (e & -> & _).
  - apply concat_elem in Hc as (l & Hl & Hc). destruct (mapM_elem _ _ _ _ Hw Hl) as (w & _ & Hwc).
    by eapply wave_cleanup_kind.
  - destruct (campaign_is_stopping _); [|injection Hu as <-; by apply elem_of_nil in Hc].
    unfold _unobserved_wave_cancellations in Hu. apply result_bind_Ok in Hu as (ls & Hls & Hu).
    injection Hu as <-. apply concat_elem in Hc as (l & Hl & Hc).
    destruct (mapM_elem _ _ _ _ Hls Hl) as (a & _ & Ha).
    destruct (_ || _); [injection Ha as <-; by apply elem_of_nil in Hc|].
    destruct (str_mem _ _); [injection Ha as <-; by apply elem_of_nil in Hc|].
    apply result_bind_Ok in Ha as (d & _ & Ha). injection Ha as <-.
    apply list_elem_of_fmap in Hc as (k & -> & Hk). cbn.
    destruct (_cancellation_grace_elapsed lock p now);
      repeat (apply elem_of_cons in Hk as [->|Hk]; [done|]); by apply elem_of_nil in Hk.
Qed.

(** Every candidate is one of these. *)
Inductive candidate_class (lock : CampaignLock) (p : RecoveryProjection) (now : Z)
    (c : _Candidate) : Prop :=
  | class_cleanup : is_cleanup_kind (cd_kind c) = true -> candidate_class lock p now c
  | class_publish d : rp_terminal_decision p = Some d -> c = publish_summary_candidate d ->
      candidate_class lock p now c
  | class_retry : campaign_is_stopping (proj_status (rp_campaign p)) = false ->
      retry_candidate_ok lock p now c -> candidate_class lock p now c
  | class_new assigned : campaign_is_stopping (proj_status (rp_campaign p)) = false ->
      _assigned_shards lock p = Ok assigned -> new_wave_ok lock p assigned c ->
      candidate_class lock p now c.

Lemma candidates_class lock p context now cs blocked c :
  _candidates lock p context now = Ok (cs, blocked) -> c ∈ cs -> candidate_class lock p now c.
Proof.
  unfold _candidates. intros H Hc. apply result_bind_Ok in H as (cleanup & Hcl & H).
  apply result_bind_Ok in H as ([work bl] & Hw & H). injection H as <- <-.
  rewrite sort_by_elem_of, !elem_of_app in Hc. destruct Hc as [Hc|[Hc|Hc]].
  - apply class_cleanup. by eapply cleanup_candidates_kind.
  - destruct (campaign_is_stopping (proj_status (rp_campaign p))) eqn:Es.
    { injection Hw as <- <-. by apply elem_of_nil in Hc. }
    apply result_bind_Ok in Hw as ([retry rbl] & Hr & Hw).
    apply result_bind_Ok in Hw as (new & Hn & Hw). injection Hw as <- <-.
    apply elem_of_app in Hc as [Hc|Hc].
    + apply class_retry; [done|]. by eapply retry_candidates_ok.
    + destruct (new_wave_candidates_ok _ _ _ _ _ Hn Hc) as (assigned & Ha & Hok).
      by eapply class_new.
  - destruct (rp_terminal_decision p) as [d|] eqn:E; [|by apply elem_of_nil in Hc].
    apply list_elem_of_singleton in Hc. by eapply class_publish.
Qed.

(** ** The plan *)
Record plan_parts (lock : CampaignLock) (events : list CampaignEvent) (context : ReconcileContext)
    (now : Z) (p : RecoveryProjection) (plan : ReconcilePlan) : Prop := {
  plan_projection : project_recovery lock events = Ok p;
  plan_status : rpl_status plan = proj_status (rp_campaign p);
  plan_count : rpl_action_count plan = len (rpl_actions plan);
  plan_terminal : campaign_status_is_terminal (proj_status (rp_campaign p)) = true ->
    rpl_actions plan = [] /\ rpl_blocked plan = [];
  plan_budget : plan_within_budget lock context (initial_usage context p) (rpl_actions plan);
  plan_limit : len (rpl_actions plan) <= Z.max 0 (action_limit (limits context));
  plan_source a : a ∈ rpl_actions plan ->
    exists cs, action_source lock p cs a /\ forall c, c ∈ cs ->
      candidate_class lock p (Z.max now (proj_last_observed_at (rp_campaign p))) c;
}.

Lemma plan_reconciliation_ok lock events context now p plan :
  plan_reconciliation lock events context now = Ok (p, plan) ->
  plan_parts lock events context now p plan.
Proof.
  unfold plan_reconciliation. intros H. apply result_bind_Ok in H as (q & Hq & H).
  destruct (campaign_status_is_terminal (proj_status (rp_campaign q))) eqn:Et.
  { injection H as <- <-. split; cbn; try done; try lia; try by intros [] ? ?.
    - unfold len. cbn. lia.
    - intros a Ha. by apply elem_of_nil in Ha. }
  apply result_bind_Ok in H as ([cs preblocked] & Hc & H).
  apply result_bind_Ok in H as ([actions blocked] & Ha & H). injection H as <- <-.
  apply admit_ok in Ha as (H1 & H2 & H3). split; cbn; try done; [congruence|].
  intros a Hin. exists cs. split; [auto|]. intros c. by eapply candidates_class.
Qed.
