(* ===== verification/SubmissionFacts.v ===== *)
(** The planner's wave actions are what the wave submission of [Campaigns]
    accepts: identity, shard and trial lists, and the shards they select. *)
From S2P Require Import Prelude.
From S2P Require Import PyDict.
From S2P Require Import Sha256.
From S2P Require Import Json.
From S2P Require Import Campaigns.
From S2P Require Import Control.
From S2P Require Import Recovery.
From S2P Require Import Reconciler.
From S2P Require Import ControlFacts.
From S2P Require Import RecoveryFacts.
From S2P Require Import ReconcilerFacts.

(** What the two kinds of wave candidates have in common. *)
Record wave_candidate_ok (lock : CampaignLock) (c : _Candidate) : Prop := {
  wave_kind : cd_kind c = submit_wave /\ cd_trial_ids c = [] \/
              cd_kind c = retry_shard /\ cd_trial_ids c <> [];
  wave_shards : cd_shard_ids c <> [] /\ len (cd_shard_ids c) <= max_shards_per_wave lock;
  wave_deployment s : s ∈ cd_shard_ids c -> shard_of_deployment lock (cd_deployment_digest c) s;
  wave_distinct : NoDup (cd_shard_ids c) /\ NoDup (cd_trial_ids c);
}.

Lemma projection_trials_distinct lock events p :
  project_recovery lock events = Ok p -> NoDup (map tr_trial_id (dict_values (rp_trials p))).
Proof.
  intros (c & l & st & P)%project_recovery_ok.
  destruct (part_trials _ _ _ _ _ _ P) as [Hk Hd].
  destruct (ok_trials _ _ (part_ok _ _ _ _ _ _ P)) as [Hwf _].
  apply dict_keyed_distinct. split; [unfold dict_wf; by rewrite Hk|].
  intros k t Ht. by destruct (Hd _ _ Ht) as (? & _ & ? & _).
Qed.

Lemma billable_candidate_ok lock p now c :
  NoDup (lock_shard_ids lock) -> NoDup (map tr_trial_id (dict_values (rp_trials p))) ->
  candidate_class lock p now c -> is_billable (cd_kind c) = true -> wave_candidate_ok lock c.
Proof.
  intros Hl Ht [Hk|d _ ->|_ H|assigned _ _ H] Hb.
  - by destruct (cd_kind c).
  - done.
  - destruct H as [Hk Hs Hd [Hne _] _ Hn]. split; auto.
  - destruct H as [Hk Hs [_ Hnil] Hd _ Hn]. split; auto. rewrite Hnil. split; [auto|constructor].
Qed.

(** A shard belongs to one run when the lock does not repeat shard identifiers. *)
Lemma shard_owner_unique lock run run' s s' :
  NoDup (lock_shard_ids lock) -> run ∈ runs lock -> run' ∈ runs lock ->
  s ∈ rl_shards run -> s' ∈ rl_shards run' -> sl_shard_id s = sl_shard_id s' -> run = run'.
Proof.
  unfold lock_shard_ids. intros Hnd Hr Hr' Hs Hs' Hid.
  assert (H : sl_shard_id s ∈ map sl_shard_id (rl_shards run) /\
              sl_shard_id s ∈ map sl_shard_id (rl_shards run')).
  { split; [|rewrite Hid]; apply list_elem_of_In, in_map; by apply list_elem_of_In. }
  destruct H as [H1 H2]. clear Hs Hs' Hid. revert Hnd Hr Hr'.
  induction (runs lock) as [|r l IH]; [by intros _ ?%elem_of_nil|].
  cbn. intros (_ & Hf & Hnd)%NoDup_app [->|Hr]%elem_of_cons [->|Hr']%elem_of_cons; auto.
  - exfalso. apply (Hf _ H1). apply concat_elem_2 with (map sl_shard_id (rl_shards run')); [|done].
    apply list_elem_of_In, (in_map (fun r => map sl_shard_id (rl_shards r))). by apply list_elem_of_In.
  - exfalso. apply (Hf _ H2). apply concat_elem_2 with (map sl_shard_id (rl_shards run)); [|done].
    apply list_elem_of_In, (in_map (fun r => map sl_shard_id (rl_shards r))). by apply list_elem_of_In.
Qed.

(** ** Selection of the shards of a wave *)
Definition selected_ids (selected : list (CampaignRunLock * list CampaignShardLock)) : list string :=
  concat (map (fun entry => map sl_shard_id entry.2) selected).

Section selection.
Context `{SubmitWaveAction A} (lock : CampaignLock) (action : A).

Let requested := action_shard_ids_of action.

(** Every run that owns a requested shard has the deployment of the action. *)
Definition one_deployment : Prop := forall (run : CampaignRunLock) shard,
  run ∈ runs lock -> shard ∈ rl_shards run -> sl_shard_id shard ∈ requested ->
  ra_deployment_digest run = action_deployment_digest_of action.

Lemma select_fold l st :
  (forall (run : CampaignRunLock), run ∈ l -> run ∈ runs lock) -> one_deployment ->
  st.2 = selected_ids st.1 ->
  exists st', foldM (fun '(selected, found) (run : CampaignRunLock) =>
      let shards := List.filter (fun s => str_mem (sl_shard_id s) requested) (rl_shards run) in
      if is_nil shards then Ok (selected, found)
      else
        raise_if negb (String.eqb (ra_deployment_digest run) (action_deployment_digest_of action))
          with ValueError "wave action mixes incompatible deployment digests";;
        Ok (selected ++ [(run, shards)], found ++ map sl_shard_id shards)) st l = Ok st' /\
    st'.2 = selected_ids st'.1 /\
    forall x, x ∈ st'.2 <-> x ∈ st.2 \/
      (x ∈ requested /\ exists run shard, run ∈ l /\ shard ∈ rl_shards run /\ sl_shard_id shard = x).
Proof.
  intros Hl Hone. revert st. induction l as [|run l IH]; intros [sel found] Hst; cbn in Hst.
  { exists (sel, found). split_and!; [done..|]. intros x. split; [by left|].
    intros [?|(_ & ? & ? & ?%elem_of_nil & _)]; done. }
  assert (Hl' : forall run, run ∈ l -> run ∈ runs lock) by (intros r Hr; apply Hl; by right).
  set (shards := List.filter (fun s => str_mem (sl_shard_id s) requested) (rl_shards run)).
  assert (Hsh : forall s, s ∈ shards <-> s ∈ rl_shards run /\ sl_shard_id s ∈ requested).
  { intros s. unfold shards. rewrite filter_elem_of, str_mem_true. done. }
  assert (Hstep : forall st1, st1.2 = selected_ids st1.1 ->
    (forall x, x ∈ st1.2 <-> x ∈ found \/ exists s, s ∈ shards /\ sl_shard_id s = x) ->
    exists st', foldM (fun '(selected, found) (run : CampaignRunLock) =>
      let shards := List.filter (fun s => str_mem (sl_shard_id s) requested) (rl_shards run) in
      if is_nil shards then Ok (selected, found)
      else
        raise_if negb (String.eqb (ra_deployment_digest run) (action_deployment_digest_of action))
          with ValueError "wave action mixes incompatible deployment digests";;
        Ok (selected ++ [(run, shards)], found ++ map sl_shard_id shards)) st1 l = Ok st' /\
    st'.2 = selected_ids st'.1 /\
    forall x, x ∈ st'.2 <-> x ∈ found \/ (x ∈ requested /\ exists r shard,
      r ∈ run :: l /\ shard ∈ rl_shards r /\ sl_shard_id shard = x)).
  { intros st1 H1 H2. destruct (IH Hl' st1 H1) as (st' & Hf & Hsel & Hx).
    exists st'. split_and!; [done..|]. intros x. rewrite Hx, H2. split.
    - intros [[?|(s & [? ?]%Hsh & <-)]|(? & r & s & ? & ? & <-)]; [by left|right..].
      + split; [done|]. exists run, s. split_and!; [by left|done..].
      + split; [done|]. exists r, s. split_and!; [by right|done..].
    - intros [?|(Hq & r & s & [->|Hr]%elem_of_cons & Hs & <-)]; [by left; left| |].
      + left; right. exists s. split; [by apply Hsh|done].
      + right. split; [done|]. exists r, s. split_and!; done. }
  cbn [foldM]. fold shards. destruct (is_nil shards) eqn:En.
  - cbn [result_bind]. apply Hstep; [done|]. cbn. intros x. split; [by left|].
    intros [?|(s & Hs & _)]; [done|]. destruct shards; [by apply elem_of_nil in Hs|done].
  - assert (Hdep : ra_deployment_digest run = action_deployment_digest_of action).
    { destruct shards as [|s shards'] eqn:E; [done|].
      assert (Hs : s ∈ s :: shards') by (by left). rewrite <- E in Hs.
      assert (Hs' : s ∈ rl_shards run /\ sl_shard_id s ∈ requested) by (apply Hsh; rewrite <- E; done).
      eapply Hone; [apply Hl; by left|apply Hs'|apply Hs']. }
    rewrite Hdep, String.eqb_refl. cbn [negb result_bind]. apply Hstep; cbn.
    + unfold selected_ids in *. rewrite map_app, concat_app, Hst. cbn. by rewrite app_nil_r.
    + intros x. rewrite elem_of_app. split; (intros [?|Hx]; [by left|right]).
      * apply list_elem_of_In, in_map_iff in Hx as (s & <- & Hs). exists s.
        split; [by apply list_elem_of_In|done].
      * destruct Hx as (s & Hs & <-). apply list_elem_of_In, in_map. by apply list_elem_of_In.
Qed.

(** Selecting succeeds with exactly the requested shards. *)
Lemma selected_wave_shards_ok :
  one_deployment ->
  (forall x, x ∈ requested -> exists run shard,
     run ∈ runs lock /\ shard ∈ rl_shards run /\ sl_shard_id shard = x) ->
  exists selected, _selected_wave_shards lock action = Ok selected /\
    forall x, x ∈ selected_ids selected <-> x ∈ requested.
Proof.
  intros Hone Hown. unfold _selected_wave_shards.
  destruct (select_fold (runs lock) ([], []) (fun _ H => H) Hone eq_refl)
    as ([sel found] & Hf & Hsel & Hx). unfold requested in *. cbv zeta in Hf |- *. rewrite Hf.
  cbn [result_bind]. cbn in Hsel, Hx.
  assert (Hall : forall x, x ∈ found <-> x ∈ requested).
  { intros x. rewrite Hx. split; [intros [?%elem_of_nil|[? _]]; done|]. intros Hr. right. auto. }
  match goal with |- context [existsb ?f ?l] => destruct (existsb f l) eqn:E end.
  - exfalso. apply existsb_exists in E as (x & Hin & Hm). apply list_elem_of_In in Hin.
    apply negb_true_iff, str_mem_false in Hm. by apply Hm, Hall.
  - exists sel. split; [done|]. intros x. unfold selected_ids. rewrite <- Hsel. apply Hall.
Qed.
End selection.

(** ** Actions of a plan *)
Lemma planned_action_valid lock events context now p plan a :
  NoDup (lock_shard_ids lock) -> plan_reconciliation lock events context now = Ok (p, plan) ->
  a ∈ rpl_actions plan -> is_billable (act_kind a) = true ->
  _validate_submit_wave_action lock a = Ok tt /\
  exists selected, _selected_wave_shards lock a = Ok selected /\
    forall x, x ∈ selected_ids selected <-> x ∈ act_shard_ids a.
Proof.
  intros Hnd H Ha Hb. pose proof (plan_reconciliation_ok _ _ _ _ _ _ H) as P.
  pose proof (projection_trials_distinct _ _ _ (plan_projection _ _ _ _ _ _ P)) as Hids.
  destruct (plan_source _ _ _ _ _ _ P _ Ha) as (cs & [c Hc Hm|c Hc _ _ Hm] & Hclass);
    [|by rewrite (made_kind _ _ _ _ Hm) in Hb].
  rewrite (made_kind _ _ _ _ Hm) in Hb.
  destruct (billable_candidate_ok _ _ _ _ Hnd Hids (Hclass _ Hc) Hb) as [Hk [Hne Hlen] Hd [Hn1 Hn2]].
  rewrite <- (made_shards _ _ _ _ Hm) in *. rewrite <- (made_trials _ _ _ _ Hm) in *.
  rewrite <- (made_kind _ _ _ _ Hm), <- (made_deployment _ _ _ _ Hm) in *. split.
  - unfold _validate_submit_wave_action, _validate_action_trials.
    cbn [action_id_of action_key_of action_kind_of action_campaign_id_of action_shard_ids_of
         action_trial_ids_of ReconcileAction_SubmitWaveAction].
    assert (str_mem (action_kind_name (act_kind a)) ["submit-wave"; "retry-shard"] = true) as ->
      by (by destruct (act_kind a)).
    rewrite (made_campaign _ _ _ _ Hm), String.eqb_refl. cbn [negb orb].
    destruct (is_nil (act_shard_ids a)) eqn:En; [by destruct (act_shard_ids a)|].
    rewrite (proj2 (str_unique_NoDup _) Hn1), (proj2 (str_unique_NoDup _) Hn2). cbn [negb].
    destruct (Z.ltb_spec (max_shards_per_wave lock) (len (act_shard_ids a))); [lia|].
    rewrite (made_id _ _ _ _ Hm), String.eqb_refl, (made_key _ _ _ _ Hm).
    unfold candidate_action_key. change 24 with (Z.of_nat 24).
    rewrite sha256_hex_prefix_fullmatch by lia.
    destruct Hk as [[-> ->]|[-> Ht]]; [done|]. by destruct (act_trial_ids a).
  - pose proof (selected_wave_shards_ok lock a) as Hsel. cbn in Hsel. apply Hsel; clear Hsel.
    + intros run shard Hr Hs Hreq. cbn in Hreq |- *.
      destruct (Hd _ Hreq) as (run' & shard' & Hr' & <- & Hs' & Hid).
      by rewrite (shard_owner_unique lock run run' shard shard').
    + intros x Hx. destruct (Hd _ Hx) as (run & shard & Hr & _ & Hs & Hid). eauto.
Qed.
