(* ===== verification/HubModel.v ===== *)
(** A concrete Hub: an in-memory repository with one client.

    It shows that the laws of [HubLaws] can hold, and it is what the concrete
    examples of the store theorems run on.  The world is the list of trees
    [main] went through, newest first; the revision of a tree is its position. *)
From S2P Require Import Prelude.
From S2P Require Import Json.
From S2P Require Import Hub.

Definition memory : Type := list tree.

Definition revision_of (n : nat) : string := pretty n.

Fixpoint memory_tree (w : memory) (r : string) : option tree :=
  match w with
  | [] => None
  | t :: w => if String.eqb r (revision_of (length w)) then Some t else memory_tree w r
  end.

Definition memory_head (w : memory) : option string :=
  match w with [] => None | _ :: w => Some (revision_of (length w)) end.

(** An operation at a revision that does not exist is a 404. *)
Definition at_revision {A} (r : string) (f : tree -> result A) : hub memory A := fun w =>
  (match memory_tree w r with Some t => f t | None => Err (HfHubHTTPError 404) end, w).

Definition has_prefix (prefix path : string) : bool := str_startswith (prefix +:+ "/") path.

#[export] Instance memory_api : HubApi memory := {|
  repo_info_sha := fun w => (Ok (memory_head w), w);
  get_paths_info := fun path r => at_revision r (fun t => Ok (is_some (t !! path)));
  list_repo_files := fun r => at_revision r (fun t => Ok (map fst (map_to_list t)));
  list_repo_tree := fun prefix r => at_revision r (fun t =>
    match List.filter (has_prefix prefix) (map fst (map_to_list t)) with
    | [] => Err EntryNotFoundError
    | files => Ok files
    end);
  hf_hub_download := fun path r => at_revision r (fun t =>
    match t !! path with Some d => Ok d | None => Err EntryNotFoundError end);
  create_commit := fun r ops w =>
    match w with
    | t :: _ => if bool_decide (memory_head w = Some r)
                then (Ok (Some (revision_of (length w))), apply_ops t ops :: w)
                else (Err (HfHubHTTPError 412), w)
    | [] => (Err (HfHubHTTPError 404), w)
    end;
|}.

Lemma memory_tree_bound w r t : memory_tree w r = Some t -> exists n, (n < length w)%nat /\ r = revision_of n.
Proof.
  induction w as [|t' w IH]; cbn; [done|]. destruct (String.eqb_spec r (revision_of (length w))).
  - intros _. exists (length w). split; [lia|done].
  - intros H. destruct (IH H) as (n' & Hn & Hr). exists n'. split; [lia|done].
Qed.

Lemma memory_tree_push w t' r t : memory_tree w r = Some t -> memory_tree (t' :: w) r = Some t.
Proof.
  intros H. cbn. destruct (memory_tree_bound _ _ _ H) as (n & Hn & ->).
  destruct (String.eqb_spec (revision_of n) (revision_of (length w))) as [E|]; [|done].
  apply (inj pretty) in E. lia.
Qed.

#[export] Instance memory_laws (R : tree -> tree -> Prop) : HubLaws memory R.
Proof.
  refine {| tree_at := memory_tree; main := fun w => w |}.
  - intros w res w' [= <- <-]. split; [split; [done|constructor]|].
    intros r [= Hr] _. destruct w as [|t w]; [done|]. injection Hr as <-. exists t, w. cbn.
    rewrite String.eqb_refl. split_and!; [done|constructor|constructor].
  - intros path r w res w' [= <- <-]. split; [split; [done|constructor]|].
    intros b t Hb Ht. rewrite Ht in Hb. by injection Hb as <-.
  - intros r w res w' [= <- <-]. split; [split; [done|constructor]|].
    intros l t Hl Ht path. rewrite Ht in Hl. injection Hl as <-. split.
    + intros ([k d] & -> & Hin%elem_of_map_to_list)%list_elem_of_fmap. eauto.
    + intros [d Hd]. apply list_elem_of_fmap. exists (path, d). split; [done|].
      by apply elem_of_map_to_list.
  - intros prefix r w res w' [= <- <-]. split; [split; [done|constructor]|].
    intros t Ht. rewrite Ht.
    set (files := List.filter (has_prefix prefix) (map fst (map_to_list t))).
    assert (forall path, path ∈ files <-> is_Some (t !! path) /\ has_prefix prefix path = true) as Hf.
    { intros path. unfold files. rewrite filter_elem_of, list_elem_of_fmap. split.
      - intros [([k d] & -> & Hin%elem_of_map_to_list) Hp]. eauto.
      - intros [[d Hd] Hp]. split; [|done]. exists (path, d). split; [done|].
        by apply elem_of_map_to_list. }
    assert (NoDup files) as Hn.
    { unfold files. rewrite <- (map_id (List.filter _ _)). apply NoDup_map_filter.
      rewrite map_id. apply NoDup_fst_map_to_list. }
    destruct files as [|f fs] eqn:Ef.
    + intros path Hp. apply not_true_iff_false. intros Hs.
      by assert (path ∈ []) as []%elem_of_nil by (apply Hf; by split).
    + split; [done|]. intros path. split.
      * intros [H1 H2]%Hf. split; [done|by left].
      * intros H1 H2. apply Hf. by split.
  - intros path r w res w' [= <- <-]. split; [split; [done|constructor]|].
    intros d t Hd Ht. rewrite Ht in Hd. destruct (t !! path); congruence.
  - intros r ops w res w' H. unfold create_commit, memory_api in H.
    destruct w as [|t w]; [injection H as <- <-; left; split; [done|constructor]|].
    case_bool_decide as Hr; injection H as <- <-.
    + injection Hr as <-. split; [intros r t0; apply memory_tree_push|].
      exists t, w. split_and!; [|constructor|done|].
      * intros t0. cbn. rewrite String.eqb_refl. congruence.
      * intros r' [= <-]. cbn. by rewrite String.eqb_refl.
    + left. split; [done|constructor].
Defined.
