(* ===== verification/Scenario.v ===== *)
(** Concrete data: a campaign and its events, a manifest, its locks and waves. *)
From Stdlib Require Import Floats.SpecFloat.
From S2P Require Import Prelude.
From S2P Require Import PyDict.
From S2P Require Import Float64.
From S2P Require Import Json.
From S2P Require Import Campaigns.
From S2P Require Import Models.
From S2P Require Import Manifest.
From S2P Require Import Planner.
From S2P Require Import Control.
From S2P Require Import Recovery.
From S2P Require Import Reconciler.
From S2P Require Import Waves.

(** ** A concrete campaign. One run of two shards and three trials on one
    deployment, and an event history that submits a wave, executes trials,
    fails one of them and retries it. The witnesses of the theorems
    evaluate the definitions on this data. *)
Definition demo_trial (id : string) (attempt : Z) : CampaignTrialLock := {|
  tl_trial_id := id;
  tl_trial_digest := "sha256:" +:+ id;
  tl_task_name := "task-" +:+ id;
  tl_task_digest := "sha256:task-" +:+ id;
  tl_logical_attempt := attempt;
|}.

Definition demo_shard_1 : CampaignShardLock := {|
  sl_shard_id := "shard-1";
  sl_shard_digest := "sha256:s1";
  sl_trials := [demo_trial "t1" 1; demo_trial "t2" 2];
|}.

Definition demo_shard_2 : CampaignShardLock := {|
  sl_shard_id := "shard-2";
  sl_shard_digest := "sha256:s2";
  sl_trials := [demo_trial "t3" 1];
|}.

Definition demo_run : CampaignRunLock := {|
  rl_admission := {|
    ra_cell_digest := "sha256:cell";
    ra_deployment_digest := "dep-a";
    ra_model := "model";
    ra_deployment := "deployment";
    ra_agent := "agent";
    ra_provider := Some "provider-a";
    ra_max_concurrent_requests := Some 4;
    ra_spend_cap_microusd := None;
    ra_estimated_wave_cost_microusd := Some 1000;
  |};
  rl_run_id := "run-1";
  rl_shards := [demo_shard_1; demo_shard_2];
|}.

Definition demo_recovery_policy : CampaignRecoveryPolicy := {|
  max_active_waves := 4;
  max_physical_executions_per_trial := 3;
  retry_base_seconds := 30;
  retry_max_seconds := 1800;
  cancellation_grace_seconds := 0;
  policy_spend_cap_microusd := Some 5000;
|}.

Definition demo_controller_policy : CampaignControllerSpec := {|
  planning_trial_seconds := 100;
  headroom_factor := Decimal 15 (-1);
  wave_reserve_seconds := 60;
  controller_reserve_seconds := 600;
  heartbeat_seconds := 30;
  stale_after_seconds := 90;
  max_attempts := 3;
|}.

Definition demo_lock : CampaignLock := {|
  campaign_id := "demo";
  created_at := 0;
  experiment := "experiment";
  evaluation_id := "evaluation";
  publication_role := role_final;
  component_kind := None;
  manifest_digest := "sha256:manifest";
  source_lock := {| bl_source := resolved_package {| pk_reference := "org/bench@sha256:" |} |};
  plan_digest := "sha256:plan";
  artifact_prefix := "campaigns/demo";
  max_shards_per_wave := 1;
  recovery_policy := demo_recovery_policy;
  controller_policy := Some demo_controller_policy;
  planned_campaign_duration_seconds := Some 2000;
  initial_waves := [
    {| lw_wave_index := 1; lw_deployment_digest := "dep-a"; lw_shard_ids := ["shard-1"];
       lw_trial_count := 2; lw_effective_concurrency := 1; lw_planned_duration_seconds := 360 |};
    {| lw_wave_index := 2; lw_deployment_digest := "dep-a"; lw_shard_ids := ["shard-2"];
       lw_trial_count := 1; lw_effective_concurrency := 1; lw_planned_duration_seconds := 360 |}];
  runs := [demo_run];
|}.

(** Event number [n]; its instant is [n] seconds. *)
Definition demo_id (n : Z) : string :=
  "evt-" +:+ str_take 31 "0000000000000000000000000000000" +:+ pretty (n mod 10).

Definition demo_event (n : Z) (st : SubjectType) (sid : string) (k : EventKind)
    (p : EventPayload) : CampaignEvent := {|
  event_id := demo_id n;
  subject_type := st;
  subject_id := sid;
  kind := k;
  observed_at := n * 1000000;
  producer := producer_wave_controller;
  payload := p;
|}.

Definition demo_key : string := "aaaaaaaaaaaaaaaaaaaaaaaa".
Definition demo_wave_id : string := "wave-" +:+ demo_key.

Definition demo_submitted : CampaignEvent :=
  demo_event 0 subject_campaign "demo" campaign_submitted
    (payload_submitted {| csp_plan_digest := "sha256:plan" |}).

Definition demo_reserved : CampaignEvent :=
  demo_event 1 subject_campaign "demo" action_reserved
    (payload_action_reserved {|
       ar_action_id := "act-" +:+ demo_key; ar_action_key := demo_key;
       ar_action_kind := submit_wave; ar_target_ids := ["shard-1"] |}).

Definition demo_succeeded : CampaignEvent :=
  demo_event 2 subject_campaign "demo" action_succeeded
    (payload_action_outcome {| ao_action_id := "act-" +:+ demo_key; ao_message := None;
                               ao_remote_id := Some "job-1" |}).

Definition demo_wave (n : Z) (k : EventKind) : CampaignEvent :=
  demo_event n subject_wave demo_wave_id k
    (payload_wave {| Control.wl_deployment_digest := "dep-a"; Control.wl_provider := "provider-a";
                     Control.wl_shard_ids := ["shard-1"]; Control.wl_estimated_cost_microusd := 1000 |}).

Definition demo_started (n : Z) (execution trial : string) (attempt : Z) : CampaignEvent :=
  demo_event n subject_execution execution execution_started
    (payload_execution_started {|
       es_trial_id := trial; es_shard_id := "shard-1"; es_physical_attempt := attempt;
       es_wave_id := Some demo_wave_id; es_estimated_cost_microusd := 10 |}).

Definition demo_outcome (n : Z) (execution trial : string) (attempt : Z) (k : EventKind)
    (category : option RetryCategory) (spend : Z) : CampaignEvent :=
  demo_event n subject_execution execution k
    (payload_execution_outcome {|
       eo_trial_id := trial; eo_physical_attempt := attempt; eo_category := category;
       eo_spend_microusd := spend; eo_retry_after_seconds := None; eo_message := None |}).

Definition demo_cancelled (n : Z) : CampaignEvent :=
  demo_event n subject_campaign "demo" campaign_cancel_requested
    (payload_cancellation {| cp_reason := "operator" |}).

(** The history of the first wave: [t1] fails for a transient reason, [t2]
    completes, and the wave is drained and closed. *)
Definition demo_events : list CampaignEvent := [
  demo_submitted; demo_reserved; demo_succeeded; demo_wave 3 wave_acquiring;
  demo_started 4 "x1" "t1" 1; demo_started 5 "x2" "t2" 1;
  demo_outcome 6 "x1" "t1" 1 execution_failed (Some category_transient) 100;
  demo_outcome 7 "x2" "t2" 1 execution_completed None 200;
  demo_wave 8 wave_draining; demo_wave 9 wave_closed].

(** [returns m P]: the computation returns a value, and [P] holds of it. *)
Definition returns {A} (m : result A) (P : A -> Prop) : Prop :=
  match m with Ok a => P a | Err _ => False end.

(** Evaluates the computation of a [returns] goal, keeping only its equation. *)
Ltac run_returns v E :=
  lazymatch goal with
  | |- returns ?m _ =>
      destruct m as [v|] eqn:E; [cbn [returns]; cbv beta|exfalso; vm_compute in E; discriminate E]
  end.

(** ** A concrete experiment: two agents against one inference provider, three
    tasks, a judge, remote execution. It is the input of the examples and
    witnesses of planning and launching. *)
(** A digest and a commit made of one repeated digit. *)
Fixpoint repeat_string (n : nat) (s : string) : string :=
  match n with O => "" | S n => s +:+ repeat_string n s end.
Definition digest_of (c : string) : string := "sha256:" +:+ repeat_string 64 c.
Definition commit_of (c : string) : string := repeat_string 40 c.

Definition demo_pin : SourcePin := {|
  sp_repository := "owner/harbor-hf.git";
  sp_revision := "0123456789012345678901234567890123456789";
|}.

Definition demo_remote : RemoteExecutionSpec := {|
  remote_job := {| job_namespace := "owner"; job_image := "image@" +:+ digest_of "0"; job_flavor := "cpu-basic";
                   job_timeout_seconds := 10800; job_token_secret_name := "HF_TOKEN" |};
  remote_worker := demo_pin;
  remote_harbor := {| hr_source := demo_pin; hr_sandbox_flavor := "cpu-basic";
                      hr_sandbox_idle_timeout_seconds := 3600 |};
|}.

Definition demo_judge : BenchmarkJudgeSpec := {|
  bj_api_url := {| url_scheme := "https"; url_username := None; url_password := None;
                   url_host := Some "api.openai.com"; url_port := Some 443;
                   url_path := Some "/v1/chat/completions"; url_query := None; url_fragment := None;
                   url_text := "https://api.openai.com/v1/chat/completions" |};
  bj_model := "judge-model";
  bj_api_key_secret_name := "OPENAI_API_KEY";
  bj_reasoning_effort := None;
  bj_strip_temperature := false;
  bj_task_names := ["task-*"];
  bj_exclude_task_names := ["task-c"];
|}.

Definition demo_benchmark : BenchmarkSpec := {|
  bm_dataset := "org/bench";
  bm_dataset_digest := Some (digest_of "d");
  bm_source := None;
  bm_judge := Some demo_judge;
  bm_task_names := ["task-*"];
  bm_task_digests := [("task-b", digest_of "b"); ("task-a", digest_of "a"); ("task-c", digest_of "c")];
|}.

Definition demo_model : ModelProfile := {|
  mp_id := "model";
  mp_repo := "org/model";
  mp_revision := commit_of "1";
  mp_weights := {| ws_format := "safetensors"; ws_quantization := None |};
|}.

Definition demo_provider_target : ProviderTarget := {|
  pv_id := "provider";
  pv_api := api_chat_completions;
  pv_model := "org/model";
  pv_routing := PolicyRoute policy_fastest;
  pv_timeout_seconds := S754_finite false 8444249301319680 (-47);
  pv_limits := {| pl_max_concurrent_requests := 4; pl_max_attempts := 1;
                  pl_min_request_interval_seconds := float_zero;
                  pl_max_spend_usd := Some (Decimal 5 0);
                  pl_estimated_wave_cost_usd := Some (Decimal 125 (-2)) |};
  pv_parameters := [];
|}.

Definition demo_agent (id name path : string) (kind : RevisionKind) (revision : string)
    (parameters : dict json) : AgentProfile := {|
  ap_id := id;
  ap_name := name;
  ap_import_path := Some path;
  ap_revision := revision;
  ap_revision_kind := kind;
  ap_reported_version := None;
  ap_parameters := parameters;
|}.

Definition demo_matrix : MatrixSpec := {|
  mx_models := [demo_model];
  mx_deployments := [target_provider demo_provider_target];
  mx_agents :=
    [demo_agent "pi" "pi" "harbor_hf_agents.pi.agent:PiAgent" revision_package "1.0.0"
       [("models_json", JStr "models.json")];
     demo_agent "hermes" "hermes" "harbor_hf_agents.hermes.agent:HermesAgent" revision_git (commit_of "2") []];
  mx_include := [];
  mx_exclude := [];
|}.

Definition demo_execution : ExecutionSpec := {|
  ex_attempts := 2;
  ex_concurrent_trials := 2;
  ex_max_trials_per_shard := 4;
  ex_max_shards_per_wave := 2;
  ex_timeout_seconds := 3600;
  ex_agent_setup_timeout_multiplier := None;
  ex_server_context_tokens := None;
  ex_max_output_tokens := None;
  ex_reasoning_required := false;
  ex_serving_profile := None;
  ex_controller := Some {|
    planning_trial_seconds := 300;
    headroom_factor := Decimal 125 (-2);
    wave_reserve_seconds := 300;
    controller_reserve_seconds := 600;
    heartbeat_seconds := 60;
    stale_after_seconds := 300;
    max_attempts := 3;
  |};
|}.

Definition demo_evidence : TrialEvidencePolicy := {|
  te_workspace_max_nodes := 1000;
  te_workspace_max_file_bytes := 1024;
  te_workspace_max_total_bytes := 4096;
  te_workspace_max_archive_bytes := 4096;
  te_workspace_capture_timeout_seconds := 60;
  te_judge_max_request_bytes := 1024;
  te_judge_max_response_bytes := 1024;
  te_judge_timeout_seconds := 60;
  te_judge_max_calls_per_execution := 4;
|}.

Definition demo_spec : ExperimentSpec := {|
  spec_metadata := {| md_name := "demo"; md_labels := [] |};
  spec_benchmark := demo_benchmark;
  spec_matrix := demo_matrix;
  spec_execution := demo_execution;
  spec_artifacts := {| as_bucket := "owner/artifacts"; as_trial_evidence := Some demo_evidence |};
  spec_publishing := {| pb_dataset := "owner/results"; pb_dataset_visibility := visibility_private;
                        pb_index_dataset := None; pb_index_dataset_visibility := None;
                        pb_evaluation_id := "evaluation"; pb_role := role_final; pb_component_kind := None |};
  spec_remote := Some demo_remote;
|}.

(** The manifest is accepted as it is. *)
Example demo_spec_valid : validate_ExperimentSpec demo_spec = Ok demo_spec.
Proof. vm_compute. reflexivity. Qed.

Example demo_judged_tasks : resolved_judge_required_tasks demo_benchmark = Ok ["task-a"; "task-b"].
Proof. vm_compute. reflexivity. Qed.

Example demo_dump_text :
  dumps (ModelProfile_dump true demo_model) =
  "{" +:+ str_join "," [
    quote "id" +:+ ":" +:+ quote "model"; quote "repo" +:+ ":" +:+ quote "org/model";
    quote "revision" +:+ ":" +:+ quote (commit_of "1");
    quote "weights" +:+ ":{" +:+ quote "format" +:+ ":" +:+ quote "safetensors" +:+ "}"] +:+ "}".
Proof. vm_compute. reflexivity. Qed.

(** Two interventions are required and one of them is resolved. *)
Definition demo_manual_events : list CampaignEvent := [
  demo_submitted;
  demo_event 1 subject_campaign "demo" campaign_manual_intervention_required
    (payload_lifecycle {| lp_parent_id := Some "wave-a"; lp_message := None |});
  demo_event 2 subject_campaign "demo" campaign_manual_intervention_required
    (payload_lifecycle {| lp_parent_id := Some "wave-b"; lp_message := None |});
  demo_event 3 subject_campaign "demo" campaign_manual_intervention_resolved
    (payload_resolution {| mr_wave_ids := ["wave-a"]; mr_message := None |})].

(** ** The demonstration experiment as a campaign: its plan, its lock, the action
    of its first wave and the history of a wave that closes before it
    reached its second shard. *)
Definition result_ok {A} (r : result A) : bool := match r with Ok _ => true | Err _ => false end.

(** A computation decided by a boolean test of its value. *)
Definition decides {A} (r : result A) (test : A -> bool) : bool :=
  match r with Ok a => test a | Err _ => false end.

Lemma decides_returns {A} (r : result A) (test : A -> bool) (P : A -> Prop) :
  decides r test = true -> (forall a, test a = true -> P a) -> returns r P.
Proof. destruct r as [a|]; cbn; [auto|discriminate]. Qed.

Lemma result_ok_exists {A} (r : result A) : result_ok r = true -> exists a, r = Ok a.
Proof. destruct r as [a|]; [by exists a|done]. Qed.

(** 2026-01-01T00:00:00Z in microseconds. *)
Definition demo_created_at : Z := 1767225600000000.

Definition demo_campaign_result : result CampaignLock :=
  let* plan := build_campaign_plan demo_spec None None in
  build_campaign_lock plan "demo-campaign" demo_created_at.

(** Its value, computed once. *)
Definition demo_campaign_value : result CampaignLock := Eval vm_compute in demo_campaign_result.

Lemma demo_campaign_computed : demo_campaign_result = demo_campaign_value.
Proof. vm_compute. reflexivity. Qed.

Lemma demo_campaign_ok : result_ok demo_campaign_result = true.
Proof. rewrite demo_campaign_computed. reflexivity. Qed.

Definition wave_shard_ids (campaign : CampaignLock) (n : nat) : list string :=
  match initial_waves campaign !! n with Some wave => lw_shard_ids wave | None => [] end.

(** The action of the [n]-th initial wave. *)
Definition wave_action (campaign : CampaignLock) (n : nat) : ReconcileAction := {|
  ra_action_id := "act-" +:+ demo_key;
  ra_action_key := demo_key;
  act_kind := submit_wave;
  act_campaign_id := campaign_id campaign;
  act_deployment_digest :=
    match initial_waves campaign !! n with Some wave => lw_deployment_digest wave | None => "" end;
  act_provider := "hf-inference-providers";
  act_wave_id := None;
  act_shard_ids := wave_shard_ids campaign n;
  act_trial_ids := [];
  act_target_ids := wave_shard_ids campaign n;
  act_estimated_cost_microusd := Some 1250000;
  act_spend_cap_microusd := Some 5000000;
|}.

Definition demo_wave_lock_result : result WaveLock :=
  let* campaign := demo_campaign_result in
  build_wave_lock campaign demo_spec (wave_action campaign 0) None.

Example demo_wave_lock_ok : result_ok demo_wave_lock_result = true.
Proof. unfold demo_wave_lock_result. rewrite demo_campaign_computed. vm_compute. reflexivity. Qed.

(** ** A wave that closes before its second shard *)
(** The events of wave [n] of a campaign. *)
Definition wave_event (campaign : CampaignLock) (w : nat) (n : Z) (k : EventKind) : CampaignEvent :=
  let action := wave_action campaign w in
  demo_event n subject_wave demo_wave_id k
    (payload_wave {| Control.wl_deployment_digest := act_deployment_digest action;
                     Control.wl_provider := act_provider action; Control.wl_shard_ids := act_shard_ids action;
                     Control.wl_estimated_cost_microusd := 1250000 |}).

Definition execution_event (n : Z) (execution : string) (k : EventKind) (shard : CampaignShardLock)
    (trial : CampaignTrialLock) : CampaignEvent :=
  demo_event n subject_execution execution k
    match k with
    | execution_started =>
        payload_execution_started {|
          es_trial_id := tl_trial_id trial; es_shard_id := sl_shard_id shard; es_physical_attempt := 1;
          es_wave_id := Some demo_wave_id; es_estimated_cost_microusd := 10 |}
    | _ =>
        payload_execution_outcome {|
          eo_trial_id := tl_trial_id trial; eo_physical_attempt := 1; eo_category := None;
          eo_spend_microusd := 100; eo_retry_after_seconds := None; eo_message := None |}
    end.

(** Event number [n] of a history has the identifier and the instant [n]. *)
Fixpoint numbered (n : nat) (events : list CampaignEvent) : list CampaignEvent :=
  match events with
  | [] => []
  | e :: l =>
      {| event_id := "evt-" +:+ repeat_string 30 "0" +:+ pretty (10 + Z.of_nat n);
         subject_type := subject_type e; subject_id := subject_id e; kind := kind e;
         observed_at := Z.of_nat n * 1000000; producer := producer e; payload := payload e |}
      :: numbered (S n) l
  end.

(** The last shard of the first run of the demonstration campaign. *)
Definition reached_shards (campaign : CampaignLock) : list CampaignShardLock :=
  match runs campaign with
  | run :: _ => match last (rl_shards run) with Some shard => [shard] | None => [] end
  | [] => []
  end.

(** The first wave is submitted; every trial of one of its two shards
    completes; the other shard is not started; the wave drains and closes. *)
Definition partial_wave_events (campaign : CampaignLock) : list CampaignEvent :=
  let action := wave_action campaign 0 in
  numbered 0 ([demo_event 0 subject_campaign (campaign_id campaign) campaign_submitted
     (payload_submitted {| csp_plan_digest := plan_digest campaign |});
   demo_event 1 subject_campaign (campaign_id campaign) action_reserved
     (payload_action_reserved {|
        ar_action_id := ra_action_id action; ar_action_key := ra_action_key action;
        ar_action_kind := submit_wave; ar_target_ids := act_target_ids action |});
   demo_event 2 subject_campaign (campaign_id campaign) action_succeeded
     (payload_action_outcome {| ao_action_id := ra_action_id action; ao_message := None;
                                ao_remote_id := Some "job-1" |});
   wave_event campaign 0 3 wave_acquiring] ++
  concat (map (fun shard : CampaignShardLock => concat (map (fun trial : CampaignTrialLock =>
    [execution_event 4 (tl_trial_id trial +:+ "-x") execution_started shard trial;
     execution_event 5 (tl_trial_id trial +:+ "-x") execution_completed shard trial]) (sl_trials shard)))
    (reached_shards campaign)) ++
  [wave_event campaign 0 8 wave_draining; wave_event campaign 0 9 wave_closed]).

(** ** Variations of the experiment *)
Definition with_agents (spec : ExperimentSpec) (agents : list AgentProfile) : ExperimentSpec := {|
  spec_metadata := spec_metadata spec;
  spec_benchmark := spec_benchmark spec;
  spec_matrix := {| mx_models := mx_models (spec_matrix spec); mx_deployments := mx_deployments (spec_matrix spec);
                    mx_agents := agents; mx_include := mx_include (spec_matrix spec);
                    mx_exclude := mx_exclude (spec_matrix spec) |};
  spec_execution := spec_execution spec;
  spec_artifacts := spec_artifacts spec;
  spec_publishing := spec_publishing spec;
  spec_remote := spec_remote spec;
|}.

Definition with_attempts (spec : ExperimentSpec) (attempts shards : Z) : ExperimentSpec :=
  let e := spec_execution spec in {|
  spec_metadata := spec_metadata spec;
  spec_benchmark := spec_benchmark spec;
  spec_matrix := spec_matrix spec;
  spec_execution := {|
    ex_attempts := attempts;
    ex_concurrent_trials := ex_concurrent_trials e;
    ex_max_trials_per_shard := ex_max_trials_per_shard e;
    ex_max_shards_per_wave := shards;
    ex_timeout_seconds := ex_timeout_seconds e;
    ex_agent_setup_timeout_multiplier := ex_agent_setup_timeout_multiplier e;
    ex_server_context_tokens := ex_server_context_tokens e;
    ex_max_output_tokens := ex_max_output_tokens e;
    ex_reasoning_required := ex_reasoning_required e;
    ex_serving_profile := ex_serving_profile e;
    ex_controller := ex_controller e |};
  spec_artifacts := spec_artifacts spec;
  spec_publishing := spec_publishing spec;
  spec_remote := spec_remote spec;
|}.

Definition hermes_agent (id : string) (parameters : dict json) : AgentProfile :=
  demo_agent id "hermes" "harbor_hf_agents.hermes.agent:HermesAgent" revision_git (commit_of "3") parameters.

(** Three agents, nine trials each in shards of 4, 4 and 1, waves of four shards. *)
Definition uneven_spec : ExperimentSpec :=
  with_attempts (with_agents demo_spec (mx_agents demo_matrix ++ [hermes_agent "hermes-2" []])) 3 4.

Definition uneven_campaign_result : result CampaignLock :=
  let* plan := build_campaign_plan uneven_spec None None in
  build_campaign_lock plan "c4" demo_created_at.
