(* ===== verification/ControllerScenario.v ===== *)
(** Concrete controller records.

    An encoding of the controller records as JSON objects, which shows that the
    laws of [PydanticLaws] can hold, and the records the examples of the
    controller store run on. *)
From Stdlib Require Import Floats.SpecFloat.
From S2P Require Import Prelude.
From S2P Require Import Float64.
From S2P Require Import Json.
From S2P Require Import Sha256.
From S2P Require Import Hub.
From S2P Require Import ControllerStatus.
From S2P Require Import HubModel.

(** ** An encoding *)
Section coded.
Context {A : Type} `{Countable A} (valid : A -> bool).

(** A record is the object with one field, its number. *)
Definition coded_dump (x : A) : json := JObj [("record", JInt (Zpos (encode x)))].

Definition coded_validate (j : json) : result A :=
  match j with
  | JObj [(_, JInt (Zpos n))] =>
      match decode n with
      | Some x => if valid x then Ok x else Err (ValueError "invalid record")
      | None => Err (ValueError "invalid record")
      end
  | _ => Err (ValueError "invalid record")
  end.

Definition coded_model : PydanticModel A :=
  {| model_dump := coded_dump; model_validate := coded_validate |}.

Lemma coded_laws : @PydanticLaws A coded_model valid.
Proof.
  split; cbn; [done| |].
  - intros x Hv. by rewrite decode_encode, Hv.
  - intros j x. destruct j as [| | | | | |[|[k [| |[|n|]| | | |]] [|]]]; try done. cbn.
    destruct (decode n) as [y|]; [|done]. destruct (valid y) eqn:E; [|done]. by intros [= <-].
Qed.
End coded.

#[export] Instance spec_float_countable : Countable spec_float.
Proof.
  apply (inj_countable'
    (fun x => match x with
      | S754_zero s => inl (inl s) | S754_infinity s => inl (inr s)
      | S754_nan => inr (inl tt) | S754_finite s m e => inr (inr (s, m, e)) end)
    (fun y => match y with
      | inl (inl s) => S754_zero s | inl (inr s) => S754_infinity s
      | inr (inl _) => S754_nan | inr (inr (s, m, e)) => S754_finite s m e end)).
  by intros [].
Defined.

#[export] Instance ControllerClaim_countable : Countable ControllerClaim.
Proof.
  apply (inj_countable'
    (fun x => (cc_campaign_id x, cc_job_id x, cc_plan_digest x, cc_attempt x, cc_acquired_at x,
               cc_heartbeat_at x, cc_expires_at x))
    (fun y => let '(a, b, c, d, e, f, g) := y in Build_ControllerClaim a b c d e f g)).
  by intros [].
Defined.

#[export] Instance ControllerLaunchClaim_countable : Countable ControllerLaunchClaim.
Proof.
  apply (inj_countable'
    (fun x => (lc_campaign_id x, lc_plan_digest x, lc_attempt x, lc_launcher_id x, lc_acquired_at x,
               lc_expires_at x))
    (fun y => let '(a, b, c, d, e, f) := y in Build_ControllerLaunchClaim a b c d e f)).
  by intros [].
Defined.

#[export] Instance ProviderCapacityClaim_countable : Countable ProviderCapacityClaim.
Proof.
  apply (inj_countable'
    (fun x => (pcc_provider x, pcc_campaign_id x, pcc_plan_digest x, pcc_job_id x, pcc_attempt x,
               pcc_action_id x, pcc_acquired_at x))
    (fun y => let '(a, b, c, d, e, f, g) := y in Build_ProviderCapacityClaim a b c d e f g)).
  by intros [].
Defined.

#[export] Instance ControllerState_countable : Countable ControllerState.
Proof.
  apply (inj_countable'
    (fun x => match x with
      | controller_starting => 0 | controller_running => 1 | controller_waiting_retry => 2
      | controller_finalizing => 3 | controller_completed => 4 | controller_paused_capacity => 5
      | controller_paused_policy => 6 | controller_failed_infrastructure => 7
      | controller_failed_deterministic => 8 end)
    (fun n => match n with
      | 0 => controller_starting | 1 => controller_running | 2 => controller_waiting_retry
      | 3 => controller_finalizing | 4 => controller_completed | 5 => controller_paused_capacity
      | 6 => controller_paused_policy | 7 => controller_failed_infrastructure
      | _ => controller_failed_deterministic end)).
  by intros [].
Defined.

#[export] Instance ControllerCapacityEvidence_countable : Countable ControllerCapacityEvidence.
Proof.
  apply (inj_countable'
    (fun x => (ce_completed_trial_count x, ce_elapsed_seconds x, ce_observed_effective_concurrency x,
               (ce_p50_trial_seconds x, ce_p95_trial_seconds x, ce_maximum_trial_seconds x),
               ce_remaining_trials x, ce_projected_remaining_seconds x, ce_available_seconds x,
               ce_assumptions_valid x))
    (fun y => let '(a, b, c, (d, e, f), g, h, i, j) := y in
              Build_ControllerCapacityEvidence a b c d e f g h i j)).
  by intros [].
Defined.

#[export] Instance ControllerProjectionCounts_countable : Countable ControllerProjectionCounts.
Proof.
  apply (inj_countable'
    (fun x => (pc_logical_trials x, pc_terminal_trials x, pc_active_trials x, pc_physical_executions x))
    (fun y => let '(a, b, c, d) := y in Build_ControllerProjectionCounts a b c d)).
  by intros [].
Defined.

#[export] Instance ControllerStatus_countable : Countable ControllerStatus.
Proof.
  apply (inj_countable'
    (fun x => ((cs_campaign_id x, cs_plan_digest x, cs_job_id x, cs_attempt x, cs_state x),
               (cs_heartbeat_at x, cs_lease_expires_at x, cs_physical_deadline x, cs_remaining_seconds x),
               (cs_projection x, cs_current_action x, cs_current_wave x, cs_spend_reserved_microusd x),
               (cs_block_reason x, cs_event_revision x, cs_evidence_revision x, cs_capacity x)))
    (fun y => let '((a, b, c, d, e), (f, g, h, i), (j, k, l, m), (n, o, p, q)) := y in
              Build_ControllerStatus a b c d e f g h i j k l m n o p q)).
  by intros [].
Defined.

#[export] Instance ControllerAttemptReservation_eq_dec : EqDecision ControllerAttemptReservation.
Proof. solve_decision. Defined.
#[export] Instance ControllerLaunchReceipt_eq_dec : EqDecision ControllerLaunchReceipt.
Proof. solve_decision. Defined.
#[export] Instance ControllerStartedReceipt_eq_dec : EqDecision ControllerStartedReceipt.
Proof. solve_decision. Defined.
#[export] Instance ControllerEndedReceipt_eq_dec : EqDecision ControllerEndedReceipt.
Proof. solve_decision. Defined.
#[export] Instance RecoveryCategory_eq_dec : EqDecision RecoveryCategory.
Proof. solve_decision. Defined.
#[export] Instance ControllerRecoveryDecision_eq_dec : EqDecision ControllerRecoveryDecision.
Proof. solve_decision. Defined.

#[export] Instance ControllerAttemptReservation_countable : Countable ControllerAttemptReservation.
Proof.
  apply (inj_countable'
    (fun x => (at_campaign_id x, at_plan_digest x, at_input_digest x, at_input_uri x, at_output_uri x,
               at_worker_revision x, at_attempt x, at_reserved_at x))
    (fun y => let '(a, b, c, d, e, f, g, h) := y in Build_ControllerAttemptReservation a b c d e f g h)).
  by intros [].
Defined.

#[export] Instance ControllerLaunchReceipt_countable : Countable ControllerLaunchReceipt.
Proof.
  apply (inj_countable'
    (fun x => (lr_campaign_id x, lr_plan_digest x, lr_input_digest x, lr_attempt x, lr_job_id x))
    (fun y => let '(a, b, c, d, e) := y in Build_ControllerLaunchReceipt a b c d e)).
  by intros [].
Defined.

#[export] Instance ControllerStartedReceipt_countable : Countable ControllerStartedReceipt.
Proof.
  apply (inj_countable'
    (fun x => (st_campaign_id x, st_plan_digest x, st_input_digest x, st_worker_revision x, st_job_id x,
               st_attempt x, st_started_at x))
    (fun y => let '(a, b, c, d, e, f, g) := y in Build_ControllerStartedReceipt a b c d e f g)).
  by intros [].
Defined.

#[export] Instance ControllerEndedReceipt_countable : Countable ControllerEndedReceipt.
Proof.
  apply (inj_countable'
    (fun x => (en_campaign_id x, en_plan_digest x, en_job_id x, en_attempt x, en_state x, en_ended_at x,
               en_message x))
    (fun y => let '(a, b, c, d, e, f, g) := y in Build_ControllerEndedReceipt a b c d e f g)).
  by intros [].
Defined.

#[export] Instance RecoveryCategory_countable : Countable RecoveryCategory.
Proof.
  apply (inj_countable'
    (fun x => match x with recovery_lost => 0 | recovery_transient => 1 | recovery_quota => 2
      | recovery_rate_limit => 3 | recovery_ambiguous => 4 end)
    (fun n => match n with 0 => recovery_lost | 1 => recovery_transient | 2 => recovery_quota
      | 3 => recovery_rate_limit | _ => recovery_ambiguous end)).
  by intros [].
Defined.

#[export] Instance ControllerRecoveryDecision_countable : Countable ControllerRecoveryDecision.
Proof.
  apply (inj_countable'
    (fun x => (rd_campaign_id x, rd_plan_digest x, rd_prior_job_id x, rd_prior_attempt x,
               rd_replacement_attempt x, rd_checkpoint_revision x, rd_category x, rd_decided_at x))
    (fun y => let '(a, b, c, d, e, f, g, h) := y in Build_ControllerRecoveryDecision a b c d e f g h)).
  by intros [].
Defined.

(** ** The models *)
#[export] Instance claim_model : PydanticModel ControllerClaim := coded_model ControllerClaim_valid.
#[export] Instance claim_laws : PydanticLaws ControllerClaim ControllerClaim_valid := coded_laws _.
#[export] Instance status_model : PydanticModel ControllerStatus := coded_model ControllerStatus_valid.
#[export] Instance status_laws : PydanticLaws ControllerStatus ControllerStatus_valid := coded_laws _.
#[export] Instance launch_claim_model : PydanticModel ControllerLaunchClaim :=
  coded_model ControllerLaunchClaim_valid.
#[export] Instance launch_claim_laws :
  PydanticLaws ControllerLaunchClaim ControllerLaunchClaim_valid := coded_laws _.
#[export] Instance capacity_model : PydanticModel ProviderCapacityClaim :=
  coded_model ProviderCapacityClaim_valid.
#[export] Instance capacity_laws :
  PydanticLaws ProviderCapacityClaim ProviderCapacityClaim_valid := coded_laws _.
#[export] Instance launch_receipt_model : PydanticModel ControllerLaunchReceipt :=
  coded_model ControllerLaunchReceipt_valid.
#[export] Instance started_model : PydanticModel ControllerStartedReceipt :=
  coded_model ControllerStartedReceipt_valid.
#[export] Instance ended_model : PydanticModel ControllerEndedReceipt :=
  coded_model ControllerEndedReceipt_valid.
#[export] Instance attempt_model : PydanticModel ControllerAttemptReservation :=
  coded_model ControllerAttemptReservation_valid.
#[export] Instance recovery_model : PydanticModel ControllerRecoveryDecision :=
  coded_model ControllerRecoveryDecision_valid.

(** ** Records of a campaign *)

(** The lease the Job [job] of attempt [n] holds at [t] seconds. *)
Definition demo_claim (job : string) (n acquired t : Z) : ControllerClaim := {|
  cc_campaign_id := "demo"; cc_job_id := job; cc_plan_digest := "sha256:plan"; cc_attempt := n;
  cc_acquired_at := acquired; cc_heartbeat_at := t; cc_expires_at := t + 90;
|}.

Definition demo_status (job : string) (n t : Z) : ControllerStatus := {|
  cs_campaign_id := "demo"; cs_plan_digest := "sha256:plan"; cs_job_id := job; cs_attempt := n;
  cs_state := controller_running; cs_heartbeat_at := t; cs_lease_expires_at := t + 90;
  cs_physical_deadline := 10000; cs_remaining_seconds := 500;
  cs_projection := {| pc_logical_trials := 3; pc_terminal_trials := 1; pc_active_trials := 1;
                      pc_physical_executions := 2 |};
  cs_current_action := None; cs_current_wave := Some "wave-1"; cs_spend_reserved_microusd := 1000;
  cs_block_reason := None; cs_event_revision := None; cs_evidence_revision := None;
  cs_capacity := None;
|}.

Definition demo_attempt (n : Z) : ControllerAttemptReservation := {|
  at_campaign_id := "demo"; at_plan_digest := "sha256:plan"; at_input_digest := "sha256:input";
  at_input_uri := "hf://buckets/demo/input"; at_output_uri := "hf://buckets/demo/output";
  at_worker_revision := "0123456789012345678901234567890123456789"; at_attempt := n;
  at_reserved_at := n * 100;
|}.

Definition demo_capacity (job : string) (n : Z) : ProviderCapacityClaim := {|
  pcc_provider := "provider-a"; pcc_campaign_id := "demo"; pcc_plan_digest := "sha256:plan";
  pcc_job_id := job; pcc_attempt := n; pcc_action_id := "act-1"; pcc_acquired_at := n * 100;
|}.

(** A repository with one empty commit. *)
Definition fresh_hub : memory := [∅].
