(* ===== verification/PassScenario.v ===== *)
(** An in-memory world for reconciliation passes: a campaign store that keeps
    its events and reservations in lists, claims, Jobs that only remember the
    actions they were started for, a clock and a counter.  It satisfies the laws
    the theorems on passes assume, and passes run on it. *)
From S2P Require Import Prelude.
From S2P Require Import PyDict.
From S2P Require Import Json.
From S2P Require Import Campaigns.
From S2P Require Import Models.
From S2P Require Import Hub.
From S2P Require Import Endpoints.
From S2P Require Import Coordination.
From S2P Require Import Control.
From S2P Require Import ControlStore.
From S2P Require Import Recovery.
From S2P Require Import Reconciler.
From S2P Require Import Waves.
From S2P Require Import Apply.
From S2P Require Import CampaignPass.
From S2P Require Import PassFacts.
From S2P Require Import Scenario.

Record office := {
  of_events : list (string * CampaignEvent);
  of_reserved : list (string * string * dict json);
  of_started : list string;
  of_ticks : Z;
}.

Definition empty_office : office :=
  {| of_events := []; of_reserved := []; of_started := []; of_ticks := 0 |}.

Definition office_events (c : string) (w : office) : list CampaignEvent :=
  map snd (List.filter (fun x : string * CampaignEvent => String.eqb x.1 c) (of_events w)).

Definition record_events (c : string) (es : list CampaignEvent) (w : office) : office := {|
  of_events := of_events w ++ map (pair c) es;
  of_reserved := of_reserved w; of_started := of_started w; of_ticks := of_ticks w |}.

Definition is_reserved (c a : string) (w : office) : bool :=
  existsb (fun x : string * string * dict json => String.eqb x.1.1 c && String.eqb x.1.2 a) (of_reserved w).

Definition record_reservation (c a : string) (r : dict json) (w : office) : office := {|
  of_events := of_events w; of_reserved := of_reserved w ++ [(c, a, r)];
  of_started := of_started w; of_ticks := of_ticks w |}.

Definition office_ensure (c : string) (es : list CampaignEvent) (w : office) : result bool * office :=
  let fresh := List.filter (fun e => negb (str_mem (event_id e) (map event_id (office_events c w)))) es in
  (Ok (negb (is_nil fresh)), record_events c fresh w).

Definition office_reserve (c : string) (r : dict json) (e : CampaignEvent) (w : office)
    : result bool * office :=
  match payload_action_id (payload e) with
  | Ok a => if is_reserved c a w then (Ok false, w)
            else (Ok true, record_reservation c a r (record_events c [e] w))
  | Err e => (Err e, w)
  end.

Definition office_tick : hub office Z := fun w =>
  (Ok (of_ticks w + 1), {| of_events := of_events w; of_reserved := of_reserved w;
                           of_started := of_started w; of_ticks := of_ticks w + 1 |}).

#[export] Instance office_store : CampaignStore office := {|
  store_load_campaign := fun c w => (Ok (demo_lock, office_events c w), w);
  store_load_request := fun c w => (Ok (DBytes "request"), w);
  store_list_campaigns := fun w => (Ok (map fst (of_events w)), w);
  store_append_event := fun c e w => (Ok tt, record_events c [e] w);
  store_ensure_event := fun c e => office_ensure c [e];
  store_ensure_events := office_ensure;
  store_ensure_events_unless_cancelled := office_ensure;
  store_reserve_action := office_reserve;
  store_load_action_reservations := fun c w =>
    (Ok (map (fun x : string * string * dict json => jobj x.2)
          (List.filter (fun x : string * string * dict json => String.eqb x.1.1 c) (of_reserved w))), w);
|}.

#[export] Instance office_claims : ClaimStore office := {|
  claim_acquire := fun p o w => (Ok tt, w);
  claim_release := fun p o w => (Ok tt, w);
|}.

Definition office_endpoint_error {A} : hub office A :=
  hub_raise (EndpointProvisioningError "no endpoints").

#[export] Instance office_endpoints : EndpointApplicationPort office := {|
  endpoints_inspect := fun _ => hub_ret None;
  endpoints_create_or_adopt := fun _ => office_endpoint_error;
  endpoints_pause_and_verify := fun _ => office_endpoint_error;
|}.

#[export] Instance office_jobs : WaveJobPort office := {|
  jobs_find_wave := fun _ _ _ _ => hub_ret None;
  jobs_submit := fun l _ _ w =>
    (Ok {| rj_job_id := "job-" +:+ wl_action_id l; rj_wave_id := wl_wave_id l;
           rj_endpoint_label := ""; rj_stage := "SCHEDULING"; rj_target_label_key := label_provider |},
     {| of_events := of_events w; of_reserved := of_reserved w;
        of_started := of_started w ++ [wl_action_id l]; of_ticks := of_ticks w |});
  jobs_cancel := fun _ _ => hub_ret tt;
|}.

(** Identifiers count in hexadecimal digits below ten; enough for a short pass. *)
#[export] Instance office_services : ReconcilerServices office := {|
  observer := None;
  finalizer := None;
  result_publisher := None;
  pass_clock := office_tick;
  pass_identifier :=
    (do n <- office_tick;; hub_ret (str_take 31 "0000000000000000000000000000000" +:+ pretty (n mod 10)));
  load_experiment_bytes := fun _ => Ok demo_spec;
  action_validate := fun _ => Err (ValidationError "not used");
  datetime_json := fun _ => "";
  error_text := fun _ => "error";
|}.

#[export] Instance office_settings : PydanticModel EndpointSettings :=
  {| model_dump := fun _ => JObj []; model_validate := fun _ => Err (ValidationError "not used") |}.

(** ** The laws *)
Definition office_later (w w' : office) : Prop :=
  of_events w `prefix_of` of_events w' /\ of_reserved w `prefix_of` of_reserved w'.

#[export] Instance office_later_preorder : PreOrder office_later.
Proof. split; [done|]. intros a b c [? ?] [? ?]. split; by etransitivity. Qed.

Ltac office := intros; intros ?; unfold office_later; cbn; split; auto using prefix_app_r.

#[export] Instance office_laws : CampaignStoreLaws office office_later.
Proof.
  refine (Build_CampaignStoreLaws office office_store office_later _
    (fun w c e => (c, e) ∈ of_events w) (fun w c a r => (c, a, r) ∈ of_reserved w) _ _ _ _ _ _ _ _ _).
  - intros w w' c e [[l ->] _] He. apply elem_of_app. by left.
  - intros w w' c a r [_ [l ->]] Hr. apply elem_of_app. by left.
  - office.
  - office.
  - office.
  - office.
  - intros c a e _ w. cbn. unfold office_reserve. destruct (payload_action_id _); [|done].
    destruct (is_reserved _ _ _); [done|]. split; cbn; auto using prefix_app_r.
  - intros c e w u w' [= _ <-]. cbn. apply elem_of_app. right. by left.
  - intros c r e w w' _. cbn. unfold office_reserve.
    destruct (payload_action_id _) as [a|]; [|done]. destruct (is_reserved _ _ _); [done|].
    intros [= <-]. cbn. split; [apply elem_of_app; right; by left|].
    exists a. split; [done|]. apply elem_of_app. right. by left.
Defined.

Definition office_started (w : office) (i : string) : Prop := i ∈ of_started w.

Lemma office_jobs_start c : jobs_start office_later office_started c.
Proof.
  split.
  - split; intros; try done; intros ?; cbn;
      try (unfold office_reserve; destruct (payload_action_id _); [destruct (is_reserved _ _ _)|]);
      (split; [|by left]); try done; split; cbn; auto using prefix_app_r.
  - intros l r k w. split; [done|]. intros i. unfold office_started. cbn.
    intros [?|Hi%list_elem_of_singleton]%elem_of_app; [by left|right; by subst].
Qed.

(** ** The first pass of the demonstration campaign *)
Definition demo_submission (campaign : CampaignLock) : CampaignEvent := {|
  event_id := demo_id 0;
  subject_type := subject_campaign;
  subject_id := campaign_id campaign;
  kind := campaign_submitted;
  observed_at := 0;
  producer := producer_wave_controller;
  payload := payload_submitted {| csp_plan_digest := plan_digest campaign |};
|}.

Definition first_pass : pass office := {| pass_world := empty_office; last_observed_at := Some 0 |}.

Record demo_run_of := {
  dr_campaign : CampaignLock;
  dr_projection : RecoveryProjection;
  dr_plan : ReconcilePlan;
  dr_applied : list AppliedAction;
  dr_end : pass office;
}.

(** The whole run of a pass on it after [events], when it returns. *)
Definition demo_pass (events : CampaignLock -> list CampaignEvent)
    (reservations : CampaignLock -> dict ReconcileAction) : result demo_run_of :=
  let* campaign := demo_campaign_result in
  let* planned := plan_reconciliation campaign (events campaign) default_context 20000000 in
  match select_and_apply campaign demo_spec (DBytes "request") (reservations campaign) default_context
          planned.1 planned.2 None first_pass with
  | (Ok applied, s') => Ok {| dr_campaign := campaign; dr_projection := planned.1;
      dr_plan := planned.2; dr_applied := applied; dr_end := s' |}
  | (Err e, _) => Err e
  end.

Lemma demo_pass_run events reservations d :
  demo_pass events reservations = Ok d ->
  select_and_apply (dr_campaign d) demo_spec (DBytes "request") (reservations (dr_campaign d)) default_context
    (dr_projection d) (dr_plan d) None first_pass = (Ok (dr_applied d), dr_end d).
Proof.
  unfold demo_pass. intros (campaign & _ & E)%result_bind_Ok.
  apply result_bind_Ok in E as (planned & _ & E).
  destruct (select_and_apply _ _ _ _ _ _ _ _ _) as [[applied|] s'] eqn:Er; [|discriminate E].
  by injection E as <-.
Qed.

Definition demo_first_pass : result demo_run_of :=
  demo_pass (fun campaign => [demo_submission campaign]) (fun _ => []).

(** It submits the one wave it plans. *)
Record submits_its_wave (d : demo_run_of) : Prop := {
  sw_safe : campaign_id_safe (campaign_id (dr_campaign d)) = true;
  sw_new : proj_actions (rp_campaign (dr_projection d)) = [];
  sw_started : of_started (pass_world (dr_end d)) = map ra_action_id (rpl_actions (dr_plan d));
  sw_single : length (rpl_actions (dr_plan d)) = 1%nat;
  sw_applied : map aa_status (dr_applied d) = [outcome_succeeded];
}.

Definition submits_its_wave_test (d : demo_run_of) : bool :=
  campaign_id_safe (campaign_id (dr_campaign d)) && is_nil (proj_actions (rp_campaign (dr_projection d))) &&
  bool_decide (of_started (pass_world (dr_end d)) = map ra_action_id (rpl_actions (dr_plan d))) &&
  bool_decide (length (rpl_actions (dr_plan d)) = 1%nat) &&
  bool_decide (map aa_status (dr_applied d) = [outcome_succeeded]).

Lemma demo_first_pass_submits : exists d, demo_first_pass = Ok d /\ submits_its_wave d.
Proof.
  enough (Hr : returns demo_first_pass submits_its_wave).
  { destruct demo_first_pass as [d|]; [|done]. by exists d. }
  apply (decides_returns demo_first_pass submits_its_wave_test);
    [unfold demo_first_pass, demo_pass; rewrite demo_campaign_computed; vm_compute; reflexivity|].
  intros d. unfold submits_its_wave_test. rewrite !andb_true_iff, !bool_decide_eq_true.
  intros ((((H1 & H2) & H3) & H4) & H5). split; try done.
  by destruct (proj_actions _).
Qed.

(** ** A pass after a crash: the submission of a wave is reserved, its outcome is
    not on record. *)
Definition crashed_reservations (campaign : CampaignLock) : dict ReconcileAction :=
  [("act-" +:+ demo_key, wave_action campaign 0)].

Definition demo_crashed_pass : result demo_run_of :=
  demo_pass (fun campaign => firstn 2 (partial_wave_events campaign)) crashed_reservations.

Definition resumes_test (d : demo_run_of) : bool :=
  campaign_id_safe (campaign_id (dr_campaign d)) &&
  match dict_get (proj_actions (rp_campaign (dr_projection d))) ("act-" +:+ demo_key) with
  | Some st => bool_decide (ap_status st = status_reserved)
  | None => false
  end && str_mem ("act-" +:+ demo_key) (map aa_action_id (dr_applied d)).

Record resumes (d : demo_run_of) : Prop := {
  rs_safe : campaign_id_safe (campaign_id (dr_campaign d)) = true;
  rs_pending : exists st, dict_get (proj_actions (rp_campaign (dr_projection d))) ("act-" +:+ demo_key) = Some st /\
    ap_status st = status_reserved;
  rs_applied : "act-" +:+ demo_key ∈ map aa_action_id (dr_applied d);
}.

Lemma demo_crashed_pass_resumes : exists d, demo_crashed_pass = Ok d /\ resumes d.
Proof.
  enough (Hr : returns demo_crashed_pass resumes).
  { destruct demo_crashed_pass as [d|]; [|done]. by exists d. }
  apply (decides_returns demo_crashed_pass resumes_test);
    [unfold demo_crashed_pass, demo_pass; rewrite demo_campaign_computed; vm_compute; reflexivity|].
  intros d. unfold resumes_test. rewrite !andb_true_iff. intros [[H1 H2] H3]. split; [done| |by apply str_mem_true].
  destruct (dict_get _ _) as [st|]; [|done]. exists st. by apply bool_decide_eq_true in H2.
Qed.

(** Nobody else asks for claims in the office. *)
Lemma office_claims_free lock w w' a : ~ claim_kept_from (W := office) (later := office_later) lock w w' a.
Proof. intros (w1 & w2 & _ & (m & o & _ & _ & E) & _). discriminate E. Qed.

(** The two runs. *)
Lemma demo_first_pass_run d :
  demo_first_pass = Ok d ->
  select_and_apply (dr_campaign d) demo_spec (DBytes "request") [] default_context (dr_projection d)
    (dr_plan d) None first_pass = (Ok (dr_applied d), dr_end d).
Proof. apply (demo_pass_run (fun campaign => [demo_submission campaign]) (fun _ => [])). Qed.

Lemma demo_crashed_pass_run d :
  demo_crashed_pass = Ok d ->
  select_and_apply (dr_campaign d) demo_spec (DBytes "request") (crashed_reservations (dr_campaign d))
    default_context (dr_projection d) (dr_plan d) None first_pass = (Ok (dr_applied d), dr_end d).
Proof. apply (demo_pass_run (fun campaign => firstn 2 (partial_wave_events campaign))). Qed.

#[global] Opaque demo_first_pass demo_crashed_pass.
