(* ===== verification/EvidenceScenario.v ===== *)
(** An in-memory bucket with the evidence of one execution, read through the
    production reader, and parsers that know its files. *)
From S2P Require Import Prelude.
From S2P Require Import PyDict.
From S2P Require Import Json.
From S2P Require Import PyText.
From S2P Require Import Campaigns.
From S2P Require Import Models.
From S2P Require Import Hub.
From S2P Require Import Waves.
From S2P Require Import Coordination.
From S2P Require Import Control.
From S2P Require Import Observer.
From S2P Require Import BucketEvidence.
From S2P Require Import BucketFacts.
From S2P Require Import Scenario.

Definition cellar : Type := objects_map.

Definition cellar_item (p : string) : BucketItem := {| bi_type := Some "file"; bi_path := Some p |}.

Definition cellar_content (b : string) (w : cellar) (item : BucketItem) : result string :=
  match bi_path item with
  | Some p => match w !! (b, p) with Some c => Ok c | None => Err EntryNotFoundError end
  | None => Err EntryNotFoundError
  end.

#[export] Instance cellar_api : BucketApi cellar := {|
  list_bucket_tree := fun b prefix w =>
    (Ok (map (fun e => cellar_item e.1.2)
          (List.filter (fun e : (string * string) * string => String.eqb e.1.1 b &&
             str_startswith (prefix +:+ "/") e.1.2) (map_to_list w))), w);
  get_bucket_paths_info := fun b paths w =>
    (Ok (map cellar_item (List.filter (fun p => bool_decide (is_Some (w !! (b, p)))) paths)), w);
  download_bucket_files := fun b items w => (mapM (cellar_content b w) items, w);
  batch_bucket_files := fun b files w =>
    (Ok tt, fold_left (fun w (f : string * string) => <[(b, f.2) := f.1]> w) files w);
|}.

#[export] Instance cellar_laws : BucketLaws cellar.
Proof.
  refine {| objects := fun w => w |}.
  - intros b p w res w' [= <- <-]. split; [reflexivity|]. intros items [= <-]. cbn.
    case_bool_decide as Hp; cbn; (split; [try done|]).
    + intros Hn. exfalso. eapply eq_None_not_Some; [exact Hn|exact Hp].
    + intros _. by apply eq_None_not_Some.
    + done.
  - intros b p item w res w' Hp E. cbn in E. injection E as <- <-. split; [reflexivity|].
    intros c. unfold cellar_content. rewrite Hp. intros Hc. change (w !! (b, p) = Some c).
    match type of Hc with context [match ?x with _ => _ end] => destruct x as [s|] eqn:Ex end; [|done].
    cbn in Hc. injection Hc as <-. exact Ex.
  - intros b p c w res w' [= <- <-]. exists w. split; [reflexivity|]. by left.
Defined.

(** ** One completed execution of the trial [t1] of [demo_lock] *)
Definition evidence_lock : ExecutionLock := {|
  xl_execution_id := "exec-1"; xl_created_at := 0; xl_campaign_id := "demo"; xl_wave_id := demo_wave_id;
  xl_run_id := "run-1"; xl_shard_id := "shard-1"; xl_trial_id := "t1";
  xl_task_name := "task-t1"; xl_task_digest := "sha256:task-t1";
  xl_logical_attempt := 1; xl_physical_attempt := 1; xl_remote_job_id := None |}.

Definition evidence_folder : string := "runs/run-1/trials/t1/executions/exec-1".
Definition evidence_log : string := "started" +:+ String char_lf "finished".

Definition evidence_sums : json := jobj [
  ("execution.lock.json", JStr ("sha256:" +:+ sha256_bytes "LOCK"));
  ("events.jsonl", JStr ("sha256:" +:+ sha256_bytes evidence_log));
  ("verification.json", JStr ("sha256:" +:+ sha256_bytes "VERIFIED"))].

#[export] Instance evidence_parsers : EvidenceParsers := {|
  wave_lock_validate_json := fun _ => Err (ValidationError "WaveLock");
  wave_lock_validate := fun _ => Err (ValidationError "WaveLock");
  execution_lock_validate_json := fun content =>
    if String.eqb content "LOCK" then Ok evidence_lock else Err (ValidationError "ExecutionLock");
  json_object_validate := fun line =>
    if String.eqb line "started" then Ok [("event", JStr "execution_started"); ("at", JStr "10")]
    else if String.eqb line "finished" then Ok [("event", JStr "execution_succeeded"); ("at", JStr "20")]
    else Err (ValidationError "object");
  json_loads := fun content => if String.eqb content "SUMS" then Ok evidence_sums else Err (ValueError "JSON");
  fromisoformat := fun value =>
    if String.eqb value "10" then Some (Some 10) else if String.eqb value "20" then Some (Some 20) else None;
|}.

Definition evidence_bucket : string := bucket_id (as_bucket (spec_artifacts demo_spec)).

Definition evidence_path (file : string) : string :=
  artifact_prefix demo_lock +:+ "/" +:+ evidence_folder +:+ "/" +:+ file.

Definition evidence_cellar : cellar := list_to_map [
  ((evidence_bucket, evidence_path "execution.lock.json"), "LOCK");
  ((evidence_bucket, evidence_path "events.jsonl"), evidence_log);
  ((evidence_bucket, evidence_path "verification.json"), "VERIFIED");
  ((evidence_bucket, evidence_path "checksums.json"), "SUMS");
  ((evidence_bucket, evidence_path "_SUCCESS"), "")].

Definition fresh_reader (w : cellar) : reader cellar :=
  {| rd_world := w; rd_listings := []; rd_prefetched := []; rd_cache := [] |}.

Definition evidence_observation : result (list CampaignEvent) * reader cellar :=
  observe_campaign demo_spec demo_lock (fresh_reader evidence_cellar).

(** It observes the start and the completion. *)
Example evidence_observation_kinds :
  decides evidence_observation.1 (fun events =>
    bool_decide (map kind events = [execution_started; execution_completed])) = true.
Proof. vm_compute. reflexivity. Qed.

(** A changed file is not believed. *)
Example tampered_evidence_is_refused :
  (observe_campaign demo_spec demo_lock
     (fresh_reader (<[(evidence_bucket, evidence_path "verification.json") := "FORGED"]> evidence_cellar))).1 =
  Err (CampaignObservationError ("terminal evidence checksum mismatch: " +:+ evidence_folder +:+ "/verification.json")).
Proof. vm_compute. reflexivity. Qed.
