(* ===== verification/FinalizerScenario.v ===== *)
(** Concrete data: a finalized run, its publication and a composition. *)
From Stdlib Require Import Floats.SpecFloat.
From S2P Require Import Prelude.
From S2P Require Import PyDict.
From S2P Require Import Float64.
From S2P Require Import Json.
From S2P Require Import PyText.
From S2P Require Import Campaigns.
From S2P Require Import Models.
From S2P Require Import Manifest.
From S2P Require Import Control.
From S2P Require Import Recovery.
From S2P Require Import Hub.
From S2P Require Import Waves.
From S2P Require Import Coordination.
From S2P Require Import Observer.
From S2P Require Import BucketEvidence.
From S2P Require Import Envelope.
From S2P Require Import NativeBundle.
From S2P Require Import ResultModels.
From S2P Require Import Finalizer.
From S2P Require Import ResultTables.
From S2P Require Import Results.
From S2P Require Import Composition.
From S2P Require Import ResultFiles.
From S2P Require Import ObserverFacts.
From S2P Require Import BucketFacts.
From S2P Require Import FinalizerFacts.
From S2P Require Import ShelfFacts.
From S2P Require Import Scenario.
From S2P Require Import EvidenceScenario.

(** ** A campaign of one trial whose evidence is in the in-memory bucket: the
    worker was interrupted before it finalized the trial. The finalizer
    completes the trial, seals the run and marks the campaign. *)
(** ** The campaign *)
Definition final_trial : CampaignTrialLock := {|
  tl_trial_id := "t1"; tl_trial_digest := digest_of "1"; tl_task_name := "task-a";
  tl_task_digest := digest_of "a"; tl_logical_attempt := 1 |}.

Definition final_run : CampaignRunLock := {|
  rl_admission := {|
    ra_cell_digest := "sha256:cell"; ra_deployment_digest := "dep-a"; ra_model := "model";
    ra_deployment := "provider"; ra_agent := "hermes"; ra_provider := Some "provider-a";
    ra_max_concurrent_requests := Some 4; ra_spend_cap_microusd := None;
    ra_estimated_wave_cost_microusd := Some 1000 |};
  rl_run_id := "run-1";
  rl_shards := [{| sl_shard_id := "shard-1"; sl_shard_digest := "sha256:s1"; sl_trials := [final_trial] |}] |}.

Definition final_lock : CampaignLock := {|
  campaign_id := "demo"; created_at := 0; experiment := "experiment"; evaluation_id := "evaluation";
  publication_role := role_final; component_kind := None; manifest_digest := "sha256:manifest";
  source_lock := source_lock demo_lock; plan_digest := "sha256:plan"; artifact_prefix := "campaigns/demo";
  max_shards_per_wave := 1; recovery_policy := demo_recovery_policy; controller_policy := None;
  planned_campaign_duration_seconds := None; initial_waves := []; runs := [final_run] |}.

Definition final_execution (k : EventKind) (n : Z) : CampaignEvent :=
  demo_event n subject_execution "exec-1" k
    match k with
    | execution_started => payload_execution_started {|
        es_trial_id := "t1"; es_shard_id := "shard-1"; es_physical_attempt := 1;
        es_wave_id := Some demo_wave_id; es_estimated_cost_microusd := 10 |}
    | _ => payload_execution_outcome {|
        eo_trial_id := "t1"; eo_physical_attempt := 1; eo_category := None; eo_spend_microusd := 10;
        eo_retry_after_seconds := None; eo_message := None |}
    end.

Definition final_events : list CampaignEvent := [
  demo_submitted; demo_reserved; demo_succeeded; demo_wave 3 wave_acquiring;
  final_execution execution_started 4; final_execution execution_completed 5;
  demo_wave 6 wave_draining; demo_wave 7 wave_closed].

Definition final_projection : result RecoveryProjection := project_recovery final_lock final_events.

Example final_projection_is_completed :
  decides final_projection (fun p => match rp_terminal_decision p with
    | Some d => bool_decide (td_status d = terminal_completed) | None => false end) = true.
Proof. vm_compute. reflexivity. Qed.

(** ** Its evidence *)
Definition final_configuration : RunLock := {|
  rn_schema_version := run_lock_v1alpha1; rn_run_id := "run-1"; rn_created_at := 0;
  rn_experiment := "experiment"; rn_evaluation_id := "evaluation"; rn_publication_role := role_final;
  rn_component_kind := None; rn_spec_digest := digest_of "e"; rn_benchmark_dataset := "org/bench";
  rn_benchmark_dataset_digest := digest_of "d"; rn_benchmark_source := None; rn_benchmark_judge := None;
  rn_judge_required_tasks := None; rn_trial_evidence := None; rn_benchmark_tasks := ["task-a"];
  rn_benchmark_task_digests := [("task-a", digest_of "a")]; rn_model := demo_model;
  rn_deployment := target_provider demo_provider_target;
  rn_agent := demo_agent "hermes" "hermes" "harbor_hf_agents.hermes.agent:HermesAgent" revision_git (commit_of "2") [];
  rn_attempts := 1; rn_concurrent_trials := 1; rn_serving_profile := None; rn_timeout_seconds := 3600;
  rn_agent_setup_timeout_multiplier := None; rn_artifact_bucket := "owner/artifacts";
  rn_artifact_prefix := "campaigns/demo"; rn_remote := demo_remote |}.

Definition final_execution_lock : ExecutionLock := {|
  xl_execution_id := "exec-1"; xl_created_at := 0; xl_campaign_id := "demo"; xl_wave_id := demo_wave_id;
  xl_run_id := "run-1"; xl_shard_id := "shard-1"; xl_trial_id := "t1"; xl_task_name := "task-a";
  xl_task_digest := digest_of "a"; xl_logical_attempt := 1; xl_physical_attempt := 1; xl_remote_job_id := None |}.

Definition final_bundle : HarborNativeBundle := {|
  hn_harbor_revision := commit_of "3"; hn_harbor_version := "0.1"; hn_request_digest := digest_of "f";
  hn_compatibility_schema := "harbor-compat/v1";
  hn_archive := {| bo_path := "artifacts.tar.gz"; bo_digest := content_digest "ARCHIVE"; bo_size_bytes := 7;
                   bo_media_type := "application/gzip" |};
  hn_compatibility := {| bo_path := "harbor-compatibility.json"; bo_digest := content_digest "COMPAT";
                         bo_size_bytes := 6; bo_media_type := "application/json" |};
  hn_documents := [{| nd_kind := document_job_result; nd_path := "job.json"; nd_digest := content_digest "JOB" |}] |}.

Definition float_one : spec_float := match float_of_int 1 with Ok x => x | Err _ => float_zero end.

Definition final_verification : dict json := [
  ("trials", JArr [jobj [("task_name", JStr "task-a"); ("rewards", jobj [("reward", JFloat float_one)])]])].

(** [json.loads] of an indented object of texts without escapes: on each of its
    lines the second and the fourth part between quotes. *)
Definition quote : Ascii.ascii := "034"%char.

Fixpoint split_quotes (part s : string) : list string :=
  match s with
  | EmptyString => [part]
  | String c s => if Ascii.eqb c quote then part :: split_quotes "" s
                  else split_quotes (part +:+ String c EmptyString) s
  end.

Definition flat_object (content : string) : json :=
  jobj (flat_map (fun line => match split_quotes "" line with
                              | [_; key; _; value; _] => [(key, JStr value)]
                              | _ => [] end) (splitlines content)).

#[export] Instance final_parsers : EvidenceParsers := {|
  wave_lock_validate_json := fun _ => Err (ValidationError "WaveLock");
  wave_lock_validate := fun _ => Err (ValidationError "WaveLock");
  execution_lock_validate_json := fun content =>
    if String.eqb content "LOCK" then Ok final_execution_lock else Err (ValidationError "ExecutionLock");
  json_object_validate := fun line =>
    if String.eqb line "started" then Ok [("event", JStr "execution_started"); ("at", JStr "10")]
    else if String.eqb line "finished" then Ok [("event", JStr "execution_succeeded"); ("at", JStr "20")]
    else if String.eqb line "VERIFIED" then Ok final_verification
    else Err (ValidationError "object");
  json_loads := fun content => Ok (flat_object content);
  fromisoformat := fun value =>
    if String.eqb value "10" then Some (Some 10) else if String.eqb value "20" then Some (Some 20) else None;
|}.

#[export] Instance final_bundle_parsers : BundleParsers := {|
  compatibility_validate_json := fun _ => Err (ValidationError "HarborCompatibilityBundle");
  native_bundle_validate_json := fun content =>
    if String.eqb content "BUNDLE" then Ok final_bundle else Err (ValidationError "HarborNativeBundle");
|}.

#[export] Instance final_run_parser : RunLockParser := {|
  run_lock_validate_json := fun content =>
    if String.eqb content "RUN LOCK" then Ok final_configuration else Err (ValidationError "RunLock") |}.

Definition execution_files : list (string * string) := [
  ("execution.lock.json", "LOCK"); ("events.jsonl", evidence_log); ("verification.json", "VERIFIED");
  ("harbor-native-bundle.json", "BUNDLE"); ("artifacts.tar.gz", "ARCHIVE");
  ("harbor-compatibility.json", "COMPAT"); ("job.json", "JOB")].

Definition execution_manifest : string :=
  _json_bytes (checksums_json (map (fun f : string * string => (f.1, content_digest f.2)) execution_files)).

Definition final_cellar : cellar := list_to_map (
  ((evidence_bucket, "campaigns/demo/runs/run-1/run.lock.json"), "RUN LOCK") ::
  map (fun f : string * string => ((evidence_bucket, evidence_path f.1), f.2))
    (execution_files ++ [("checksums.json", execution_manifest); ("_SUCCESS", newline_text)])).

(** ** The finalizer over the production reader and writer *)
#[export] Instance cellar_writer : ImmutableEvidenceWriter (reader cellar) :=
  bucket_writer None (hub_ret "writer") (hub_ret 0).

Definition final_start : finalizer (reader cellar) :=
  {| fz_services := fresh_reader final_cellar; fz_staged := []; fz_run_paths := [] |}.

(** The decision of the projection. *)
Definition final_decision (p : RecoveryProjection) : TerminalDecision :=
  _decision final_lock terminal_completed (rp_counts p) "all logical trials reached a scored terminal outcome".

Example final_decision_is_the_projected_one :
  match final_projection with Ok p => rp_terminal_decision p = Some (final_decision p) | Err _ => False end.
Proof. vm_compute. reflexivity. Qed.

Definition finalization : result unit * finalizer (reader cellar) :=
  match final_projection with
  | Ok p => finalize_evidence demo_spec final_lock p (final_decision p) final_start
  | Err e => (Err e, final_start)
  end.

(** Its outcome and what it leaves in the bucket, computed once. *)
Definition sealed (end_ : result unit * finalizer (reader cellar))
    : result unit * list ((string * string) * string) :=
  (end_.1, map_to_list (objects (rd_world (fz_services end_.2)))).

Lemma sealed_spec end_ outcome left_ :
  sealed end_ = (outcome, left_) ->
  end_.1 = outcome /\ rd_world (fz_services end_.2) = list_to_map left_.
Proof. intros [= <- <-]. split; [done|]. symmetry. apply list_to_map_to_list. Qed.

Definition sealed_objects : list ((string * string) * string) := Eval vm_compute in (sealed finalization).2.

Lemma finalization_sealed : sealed finalization = (Ok tt, sealed_objects).
Proof. vm_cast_no_check (eq_refl (Ok tt : result unit, sealed_objects)). Qed.

Lemma finalization_computed :
  finalization.1 = Ok tt /\ rd_world (fz_services finalization.2) = list_to_map sealed_objects.
Proof. exact (sealed_spec _ _ _ finalization_sealed). Qed.

Definition final_path (file : string) : string := artifact_prefix final_lock +:+ "/" +:+ file.

Definition finalized_object (file : string) : option string :=
  objects (rd_world (fz_services finalization.2)) !! (evidence_bucket, final_path file).

(** It returns, and every marker and manifest is there. *)
Example finalization_seals_the_campaign :
  result_ok finalization.1 = true /\
  forallb (fun file => is_some (finalized_object file))
    ["_SUCCESS"; "campaign-summary.json"; "runs/run-1/_SUCCESS"; "runs/run-1/checksums.json";
     "runs/run-1/run-summary.json"; "runs/run-1/publication-envelope.v1.json";
     "runs/run-1/trials/t1/_SUCCESS"; "runs/run-1/trials/t1/checksums.json";
     "runs/run-1/trials/t1/trial-finalization-recovery.json"] = true.
Proof.
  unfold finalized_object. destruct finalization_computed as [-> ->]. vm_compute. by split.
Qed.

(** An execution whose archive was changed is not finalized, and nothing is marked. *)
Definition forged_start : finalizer (reader cellar) := {|
  fz_services := fresh_reader (<[(evidence_bucket, evidence_path "artifacts.tar.gz") := "FORGED!"]> final_cellar);
  fz_staged := []; fz_run_paths := [] |}.

Definition forged_finalization : result unit * finalizer (reader cellar) :=
  match final_projection with
  | Ok p => finalize_evidence demo_spec final_lock p (final_decision p) forged_start
  | Err e => (Err e, forged_start)
  end.

Example forged_archive_is_refused :
  forged_finalization.1 =
    Err (CampaignFinalizationError "execution Harbor archive conflicts with its bundle manifest") /\
  objects (rd_world (fz_services forged_finalization.2)) !! (evidence_bucket, final_path "_SUCCESS") = None.
Proof. vm_compute. by split. Qed.

(** ** The bucket of the demonstration belongs to the finalizer. *)
#[export] Instance cellar_owned : OwnedBucket cellar (fun _ _ => True).
Proof.
  split.
  - intros b p w. by split.
  - intros b ps w. by split.
  - intros b items w. by split.
  - intros b p c w k y _ Hn. cbn. apply lookup_insert_ne. congruence.
Qed.

#[export] Instance final_shelf_laws : EvidenceReaderLaws (reader cellar) shelf_later :=
  shelf_reader_laws (fun _ _ => True).

#[export] Instance final_shelf : EvidenceShelf (reader cellar) shelf_later.
Proof.
  apply (production_shelf (fun _ _ => True) None (hub_ret "writer") (hub_ret 0)).
  - apply keeps_ret. apply calm_preorder.
  - apply keeps_ret. apply calm_preorder.
  - done.
Defined.

(** ** The publication of the finalized run, and a
    composition of two publications: the correction replaces a task the
    base failed on. *)
(** ** The finalized run *)
Definition final_source : EvidenceSource := {|
  src_bucket := "owner/artifacts"; src_prefix := "campaigns/demo/runs/run-1";
  src_run_lock_path := "run.lock.json"; src_summary_path := _SUMMARY_PATH |}.

Definition final_verification_file : string :=
  _json_bytes (jobj [("trial_count", JInt 1); ("trials", JArr [
    jobj [("task_name", JStr "task-a"); ("rewards", jobj [("reward", JFloat float_one)])]])]).

Definition final_evidence : ResultEvidence := {|
  rv_run := {|
    re_run_id := "run-1"; re_campaign_id := "demo"; re_experiment := "experiment"; re_evaluation_id := "evaluation";
    re_publication_role := role_final; re_component_kind := None; re_benchmark := "org/bench";
    re_benchmark_revision := digest_of "d"; re_result_kind := result_ordinary; re_quality := quality_clean;
    re_created_at := 0; re_completed_at := 20; re_model_id := "model"; re_model_repo := "org/model";
    re_model_revision := "not_observed"; re_deployment_id := "provider"; re_provider := "hf-inference-providers";
    re_region := "not_reported"; re_hardware := "not_reported"; re_accelerator_count := 0;
    re_agent_id := "hermes"; re_agent_name := "hermes"; re_agent_revision := commit_of "2" |};
  rv_trials := [{| te_trial_id := "t1"; te_task_name := "task-a"; te_task_digest := digest_of "a";
                   te_logical_attempt := 1; te_selected_execution_id := Some "exec-1"; te_outcome := task_scored |}];
  rv_executions := [{| xe_execution_id := "exec-1"; xe_trial_id := "t1"; xe_physical_attempt := 1;
                       xe_runtime_kind := runtime_provider; xe_status := physical_succeeded;
                       xe_failure_category := None; xe_started_at := 10; xe_completed_at := 20;
                       xe_retry_reason := None; xe_remote_job_id := None |}];
  rv_metrics := [{| me_owner_type := owner_trial; me_owner_id := "t1"; me_name := "reward"; me_value := float_one;
                    me_unit := "score"; me_aggregation := None |}];
  rv_artifacts := [
    {| ae_owner_type := owner_run; ae_owner_id := "run-1"; ae_kind := artifact_run_lock; ae_path := "run.lock.json";
       ae_sha256 := content_digest "RUN LOCK"; ae_media_type := "application/json"; ae_size_bytes := 8 |};
    {| ae_owner_type := owner_run; ae_owner_id := "run-1"; ae_kind := artifact_verification;
       ae_path := "verification.json"; ae_sha256 := content_digest final_verification_file;
       ae_media_type := "application/json"; ae_size_bytes := Z.of_nat (String.length final_verification_file) |}] |}.

(** The file of an execution, as a reference. *)
Definition final_object (file content : string) : ObjectReference := {|
  or_path := "trials/t1/executions/exec-1/" +:+ file; or_digest := content_digest content;
  or_size_bytes := Z.of_nat (String.length content) |}.

Definition final_envelope : PublicationEnvelope := {|
  pe_run_id := "run-1"; pe_campaign_id := "demo"; pe_created_at := 0; pe_completed_at := 20;
  pe_evidence_bucket := "owner/artifacts"; pe_evidence_prefix := "campaigns/demo/runs/run-1";
  pe_run_lock := {| or_path := "run.lock.json"; or_digest := content_digest "RUN LOCK"; or_size_bytes := 8 |};
  pe_profiles := {| pg_experiment := digest_of "e";
    pg_model := profile_digest (ModelProfile_dump true demo_model);
    pg_deployment := profile_digest (DeploymentTarget_dump true (target_provider demo_provider_target));
    pg_agent := profile_digest (AgentProfile_dump true (rn_agent final_configuration)) |};
  pe_runtime := {| ri_kind := runtime_provider; ri_provider := "hf-inference-providers"; ri_region := "not_reported";
                   ri_hardware := "not_reported"; ri_accelerator_count := 0 |};
  pe_cleanup_outcome := cleanup_outcome_not_applicable;
  pe_executions := [{| px_execution_id := "exec-1"; px_trial_id := "t1"; px_physical_attempt := 1;
    px_status := physical_succeeded; px_failure_category := None; px_started_at := 10; px_completed_at := 20;
    px_retry_reason := None; px_remote_job_id := None; px_bundle_status := bundle_verified;
    px_harbor_bundle := Some {|
      hb_manifest := final_object "harbor-native-bundle.json" "BUNDLE";
      hb_archive := final_object "artifacts.tar.gz" "ARCHIVE"; hb_harbor_revision := commit_of "3";
      hb_harbor_version := "0.1"; hb_compatibility_schema := "harbor-compat/v1";
      hb_request_digest := digest_of "f"; hb_document_count := 1 |} |}];
  pe_sources := [] |}.

Definition final_lock_json : dict json := [
  ("run_id", JStr "run-1"); ("evaluation_id", JStr "evaluation"); ("publication_role", JStr "final");
  ("component_kind", JNull); ("benchmark_task_digests", jobj [("task-a", JStr (digest_of "a"))]);
  ("attempts", JInt 1)].

(** The parsers know the files by what they were printed from. *)
Definition if_printed {A} (content printed : string) (value : A) : result A :=
  if String.eqb content printed then Ok value else Err (ValidationError "model").

#[export] Instance final_result_parsers : ResultParsers := {|
  result_evidence_validate_json := fun content =>
    if_printed content (_json_bytes (ResultEvidence_dump final_evidence)) final_evidence;
  publication_envelope_validate_json := fun content =>
    if_printed content (canonical_json_bytes (PublicationEnvelope_dump final_envelope)) final_envelope;
  checksum_map_validate_json := fun content =>
    match flat_object content with
    | JObj fields => mapM (fun e => match e.2 with JStr s => Ok (e.1, s) | _ => Err TypeError end) fields
    | _ => Err TypeError
    end;
  lock_validate_json := fun content => if_printed content "RUN LOCK" final_lock_json;
  model_profile_validate := fun _ => Ok demo_model;
  deployment_target_validate := fun _ => Ok (target_provider demo_provider_target);
  agent_profile_validate := fun _ => Ok (rn_agent final_configuration);
|}.

Definition published (objects : cellar) : result ResultTables * reader cellar :=
  build_result_tables final_source (commit_of "c") (fresh_reader objects).

Definition sealed_cellar : cellar := rd_world (fz_services finalization.2).

Lemma sealed_cellar_computed : sealed_cellar = list_to_map sealed_objects.
Proof. apply finalization_computed. Qed.

(** What was finalized is published; what was changed afterwards is not. *)
Example sealed_run_is_published :
  decides (published sealed_cellar).1 (fun t =>
    bool_decide (map tw_trial_id (rt_trials t) = ["t1"]) && (len (rt_metrics t) =? 1)) = true.
Proof. rewrite sealed_cellar_computed. vm_compute. reflexivity. Qed.

Example changed_evidence_is_not_published :
  (published (<[(evidence_bucket, final_path "runs/run-1/verification.json") := "FORGED"]> sealed_cellar)).1 =
  Err (ResultPublicationError "evidence checksum mismatch: verification.json").
Proof. rewrite sealed_cellar_computed. vm_compute. reflexivity. Qed.

Example added_evidence_is_not_published :
  (published (<[(evidence_bucket, final_path "runs/run-1/extra.json") := "EXTRA"]> sealed_cellar)).1 =
  Err (ResultPublicationError "evidence checksum manifest is incomplete").
Proof. rewrite sealed_cellar_computed. vm_compute. reflexivity. Qed.

(** ** A base, and a correction of its failed task *)
Definition source_trace (publication run : string) (checksum : string) : TraceValues := {|
  tc_publication_id := publication; tc_run_id := run; tc_source_bucket := "owner/artifacts";
  tc_source_prefix := "campaigns/" +:+ run; tc_source_checksum := checksum; tc_run_lock_path := "run.lock.json";
  tc_run_lock_sha256 := digest_of "b"; tc_control_commit := commit_of "c" |}.

Definition source_run (trace : TraceValues) (component : ComponentKind) (planned scored : Z) : RunRow := {|
  rw_trace := trace; rw_campaign_id := "demo"; rw_experiment := "experiment"; rw_evaluation_id := "evaluation";
  rw_publication_role := role_component; rw_component_kind := Some component; rw_source_publication_ids := [];
  rw_benchmark := "org/bench"; rw_benchmark_revision := digest_of "d"; rw_result_kind := result_ordinary;
  rw_quality := if scored <? planned then quality_degraded else quality_clean; rw_created_at := 0;
  rw_completed_at := 20; rw_model_id := "model"; rw_model_repo := "org/model"; rw_model_revision := "not_observed";
  rw_deployment_id := "provider"; rw_provider := "hf-inference-providers"; rw_region := "not_reported";
  rw_hardware := "not_reported"; rw_accelerator_count := 0; rw_agent_id := "hermes"; rw_agent_name := "hermes";
  rw_agent_revision := commit_of "2"; rw_planned_trial_count := planned; rw_scored_trial_count := scored;
  rw_agent_failed_count := planned - scored; rw_benchmark_failed_count := 0;
  rw_infrastructure_exhausted_count := 0; rw_unsupported_count := 0; rw_execution_count := planned |}.

Definition source_trial (trace : TraceValues) (id task : string) (outcome : ResultOutcome) : TrialRow := {|
  tw_trace := trace; tw_trial_id := id; tw_task_name := task; tw_task_digest := digest_of "a";
  tw_logical_attempt := 1; tw_selected_execution_id := Some (id +:+ "-exec"); tw_outcome := outcome |}.

Definition source_execution (trace : TraceValues) (trial : string) (status : PhysicalStatus) : ExecutionRow := {|
  xw_trace := trace; xw_execution_id := trial +:+ "-exec"; xw_trial_id := trial; xw_physical_attempt := 1;
  xw_runtime_kind := runtime_provider; xw_status := status;
  xw_failure_category := match status with physical_failed => Some category_agent | _ => None end;
  xw_started_at := 10; xw_completed_at := 20; xw_retry_reason := None; xw_remote_job_id := None |}.

Definition source_metric (trace : TraceValues) (trial : string) (value : spec_float) : MetricRow := {|
  mw_trace := trace; mw_metric_id := "metric-" +:+ trial; mw_owner_type := owner_trial; mw_owner_id := trial;
  mw_name := "reward"; mw_value := value; mw_unit := "score"; mw_aggregation := None |}.

Definition source_provenance (c : string) : PublicationProvenance := {|
  pp_envelope_sha256 := digest_of c; pp_projection_version := PROJECTION_VERSION;
  pp_sanitizer_version := SANITIZER_VERSION; pp_execution_profile_sha256 := digest_of "e";
  pp_harbor_bundle_manifest_sha256s := [digest_of c]; pp_harbor_archive_sha256s := [digest_of c] |}.

Definition base_trace := source_trace "pub-base" "run-base" (digest_of "1").
Definition fix_trace := source_trace "pub-fix" "run-fix" (digest_of "2").

Definition base_tables : ResultTables := {|
  rt_publication_id := "pub-base"; rt_runs := [source_run base_trace component_base 2 1];
  rt_trials := [source_trial base_trace "base-1" "task-a" task_scored;
                source_trial base_trace "base-2" "task-b" task_agent_failed];
  rt_executions := [source_execution base_trace "base-1" physical_succeeded;
                    source_execution base_trace "base-2" physical_failed];
  rt_metrics := [source_metric base_trace "base-1" float_one; source_metric base_trace "base-2" float_zero];
  rt_artifacts := []; rt_provenance := source_provenance "3" |}.

Definition fix_tables : ResultTables := {|
  rt_publication_id := "pub-fix"; rt_runs := [source_run fix_trace component_correction 1 1];
  rt_trials := [source_trial fix_trace "fix-2" "task-b" task_scored];
  rt_executions := [source_execution fix_trace "fix-2" physical_succeeded];
  rt_metrics := [source_metric fix_trace "fix-2" float_one];
  rt_artifacts := []; rt_provenance := source_provenance "4" |}.

Definition demo_sources : dict ResultTables := [("pub-base", base_tables); ("pub-fix", fix_tables)].

Definition demo_reference (role : SourceRole) (publication run checksum : string) (task : string)
    : SourcePublicationReference := {|
  sr_role := role; sr_publication_id := publication; sr_run_id := run; sr_result_dataset := "owner/results";
  sr_result_revision := commit_of "5"; sr_source_checksum := checksum;
  sr_selected_trials := [{| ss_task_name := task; ss_logical_attempt := 1 |}] |}.

Definition demo_manifest (corrected : string) : ResultCompositionManifest := {|
  cm_run_id := "composed"; cm_campaign_id := "demo"; cm_experiment := "experiment"; cm_created_at := 0;
  cm_completed_at := 30; cm_evidence_bucket := "owner/artifacts"; cm_evidence_prefix := "compositions/composed";
  cm_sources := [demo_reference source_base "pub-base" "run-base" (digest_of "1") "task-a";
                 demo_reference source_correction "pub-fix" "run-fix" (digest_of "2") corrected];
  cm_unsupported_tasks := [{| ut_task_name := "task-c"; ut_task_digest := digest_of "c"; ut_logical_attempt := 1 |}] |}.

Definition demo_composition : result ComposedResult :=
  compose_result_tables (demo_manifest "task-b") demo_sources (commit_of "c").

Example composition_takes_the_correction :
  decides demo_composition (fun r => bool_decide
    (map (fun t => (tw_task_name t, tw_outcome t)) (rt_trials (cr_tables r)) =
     [("task-a", task_scored); ("task-b", task_scored); ("task-c", task_unsupported)])) = true.
Proof. vm_compute. reflexivity. Qed.

(** A correction must be of a task its source has. *)
Example unknown_task_is_refused :
  compose_result_tables (demo_manifest "task-z") demo_sources (commit_of "c") =
  Err (ResultPublicationError "composition selects an unknown source task").
Proof. vm_compute. reflexivity. Qed.

(** ** Files: Parquet as a text of its own *)
#[export] Instance demo_parquet : ParquetFormat := {|
  table_bytes := fun t table => Ok ("PAR1 " +:+ TableName_value table +:+ " " +:+ rt_publication_id t);
  index_bytes := fun rows => Ok ("PAR1 " +:+ str_join "," (map gi_publication_id rows));
  catalog_bytes := fun rows => Ok ("PAR1 " +:+ str_join "," (map cw_publication_id rows));
  read_catalog_table := fun _ => None;
  read_index_table := fun _ => None;
  catalog_row_validate := fun _ => Err (ValidationError "CatalogRow");
  index_row_validate := fun _ => Err (ValidationError "GlobalIndexRow");
|}.

Definition demo_publication : result ResultPublication :=
  let* composition := demo_composition in build_composed_result_publication composition.

Example publication_files :
  decides demo_publication (fun p => len (rb_files p) =? 7) = true.
Proof. vm_compute. reflexivity. Qed.

(** The mean of the scores 1, 1 and 0 of the composed trials. *)
Example composed_catalog_row :
  decides (let* p := demo_publication in
           match rb_files p with
           | _ :: _ :: _ :: _ :: _ :: projection :: _ =>
               build_catalog_row (rb_tables p) "owner/results" (commit_of "6") projection
           | _ => Err AssertionError end)
    (fun row => (cw_passed_trials row =? 2) && (cw_planned_trial_count row =? 3) &&
                bool_decide (float_of_ratio 2 3 = Ok (cw_score row))) = true.
Proof. vm_compute. reflexivity. Qed.
