(* ===== verification/ControllerProperties.v ===== *)
(** Properties of the controller store: every operation follows the protocol of
    [ControllerProtocol], and what the protocol promises about leases, statuses,
    attempts, receipts and the shared provider capacity. *)
From S2P Require Import Prelude.
From S2P Require Import Json.
From S2P Require Import Sha256.
From S2P Require Import Hub.
From S2P Require Import ControllerStatus.
From S2P Require Import ControllerProtocol.
From S2P Require Import ControllerStoreFacts.
From S2P Require Import HubModel.
From S2P Require Import ControllerScenario.

(** How one lease follows another: a heartbeat of the same lease, or a later
    attempt that acquired it after the last heartbeat of the earlier one. *)
Definition lease_order (a b : ControllerClaim) : Prop :=
  (cc_campaign_id a = cc_campaign_id b /\ cc_job_id a = cc_job_id b /\
   cc_plan_digest a = cc_plan_digest b /\ cc_attempt a = cc_attempt b /\
   cc_acquired_at a = cc_acquired_at b /\ cc_heartbeat_at a <= cc_heartbeat_at b) \/
  (cc_attempt a < cc_attempt b /\ cc_heartbeat_at a < cc_acquired_at b).

Lemma claim_succeeds_order a b :
  ControllerClaim_valid a = true -> claim_succeeds a b -> lease_order a b.
Proof.
  unfold ControllerClaim_valid, claim_succeeds, heartbeat_valid, lease_order.
  rewrite !andb_true_iff, negb_true_iff, !String.eqb_eq. intros Hv [Hh|Hh]; [left|right]; [|lia].
  destruct Hh as [[[[[-> ->] ->] Ha] Hb] Hc]. split_and!; try done; lia.
Qed.

Lemma lease_order_trans a b c :
  ControllerClaim_valid b = true -> lease_order a b -> lease_order b c -> lease_order a c.
Proof.
  unfold ControllerClaim_valid, lease_order. rewrite !andb_true_iff.
  intros Hv [(? & ? & ? & Ha & Hb & Hc)|[Ha Hb]] [(? & ? & ? & Hd & He & Hf)|[Hd He]];
    [left; split_and!; congruence || lia|right; lia..].
Qed.

Section properties.
Context {MC : PydanticModel ControllerClaim} {PC : PydanticLaws ControllerClaim ControllerClaim_valid}
  {MS : PydanticModel ControllerStatus} {PS : PydanticLaws ControllerStatus ControllerStatus_valid}
  {ML : PydanticModel ControllerLaunchClaim}
  {PL : PydanticLaws ControllerLaunchClaim ControllerLaunchClaim_valid}
  {MP : PydanticModel ProviderCapacityClaim}
  {PP : PydanticLaws ProviderCapacityClaim ProviderCapacityClaim_valid}.
Context {MLR : PydanticModel ControllerLaunchReceipt} {MST : PydanticModel ControllerStartedReceipt}
  {MEN : PydanticModel ControllerEndedReceipt} {MAT : PydanticModel ControllerAttemptReservation}
  {MRD : PydanticModel ControllerRecoveryDecision}.
Context {W : Type} {API : HubApi W} {LAWS : HubLaws W controller_step}.

(** C4: the controller store implements its protocol.  Whatever operations a
    client runs, in whatever order, with whatever outcome (errors and conflicts
    with other clients included), the history of [main] is only extended, and
    each commit it is extended by is a step of the protocol. *)
Theorem controller_store_refines_protocol ops w :
  forallb op_valid ops = true -> extends controller_step (main w) (main (run_ops ops w)).
Proof. intros Hops. by apply run_ops_grows. Qed.

(** C8: a receipt, reservation or recovery decision that is recorded is never
    changed or deleted again, by no operation of any client. *)
Theorem receipts_are_written_once ops w t k l d :
  forallb op_valid ops = true -> main w = t :: k -> location_ok l = true -> is_write_once l = true ->
  t !! location_path l = Some d ->
  exists later, main (run_ops ops w) = later ++ t :: k /\
    Forall (fun t' => t' !! location_path l = Some d) later.
Proof.
  intros Hops Hm Hl Hw Hd.
  destruct (run_ops_later ops w t k (fun t' => t' !! location_path l = Some d) (fun _ => True))
    as (later & Hlater & HF); [done..| |exists later; split; [done|]; by apply HF, Forall_true].
  intros t0 t1 Hs H _. by eapply write_once_step.
Qed.

(** C6: the status of a campaign only moves forward: its plan digest never
    changes, its attempt and its heartbeat never decrease, and the Job of an
    attempt stays the same. *)
Theorem controller_status_is_monotone ops w t k c s :
  forallb op_valid ops = true -> main w = t :: k -> safe_id c = true ->
  record_at ControllerStatus t (location_path (LStatus c)) = Some s ->
  exists later, main (run_ops ops w) = later ++ t :: k /\
    Forall (fun t' => exists s', record_at ControllerStatus t' (location_path (LStatus c)) = Some s' /\
                                 status_order s s') later.
Proof.
  intros Hops Hm Hc Hs.
  destruct (run_ops_later ops w t k (fun t' => exists s', record_at ControllerStatus t'
      (location_path (LStatus c)) = Some s' /\ status_order s s') (fun _ => True))
    as (later & Hlater & HF); [done..|by exists s| |exists later; split; [done|]; by apply HF, Forall_true].
  intros t0 t1 H0 (s' & Hs' & Ho) _. destruct (status_step _ _ _ _ H0 Hc Hs') as (s2 & Hs2 & Ho2).
  exists s2. split; [done|by etrans].
Qed.

(** Attempts are reserved one after the other: if every reserved attempt
    has its predecessor, this stays so in every tree [main] goes through. *)
Theorem attempts_are_reserved_in_order ops w t k :
  forallb op_valid ops = true -> main w = t :: k -> attempts_contiguous t ->
  exists later, main (run_ops ops w) = later ++ t :: k /\ Forall attempts_contiguous later.
Proof.
  intros Hops Hm Ht.
  destruct (run_ops_later ops w t k attempts_contiguous (fun _ => True))
    as (later & Hlater & HF); [done..| |exists later; split; [done|]; by apply HF, Forall_true].
  intros t0 t1 Hs H _. by eapply attempts_step.
Qed.

(** C5: while the lease of a campaign is not released, it stays with its owner,
    who may only renew it, until a later attempt takes it over after the last
    heartbeat of the earlier one: two Jobs never own the controller at once. *)
Theorem lease_passes_on_only_after_expiry ops w t k c a :
  forallb op_valid ops = true -> main w = t :: k -> safe_id c = true ->
  record_at ControllerClaim t (location_path (LClaim c)) = Some a ->
  exists later, main (run_ops ops w) = later ++ t :: k /\
    (Forall (fun t' => is_Some (t' !! location_path (LClaim c))) later ->
     Forall (fun t' => exists b, record_at ControllerClaim t' (location_path (LClaim c)) = Some b /\
                                 lease_order a b) later).
Proof.
  intros Hops Hm Hc Ha. eapply run_ops_later; [done..| |].
  { exists a. split; [done|]. left. split_and!; done. }
  intros t0 t1 Hs (b & Hb & Ho) [d Hkeep].
  destruct (claim_step _ _ _ _ Hs Hc Hb) as [Hn|(b' & Hb' & [->|Hsucc])]; [congruence|by exists b|].
  exists b'. split; [done|]. pose proof (record_at_valid _ _ _ Hb) as Hv.
  eapply lease_order_trans; [done..|]. by apply claim_succeeds_order.
Qed.

(** C7: the shared capacity of a provider never passes from one holder to
    another directly: as long as it is not given back it is the same claim. *)
Theorem provider_capacity_is_exclusive ops w t k p d :
  forallb op_valid ops = true -> main w = t :: k -> is_canonical p = true ->
  t !! location_path (LCapacity p) = Some d ->
  exists later, main (run_ops ops w) = later ++ t :: k /\
    (Forall (fun t' => is_Some (t' !! location_path (LCapacity p))) later ->
     Forall (fun t' => t' !! location_path (LCapacity p) = Some d) later).
Proof.
  intros Hops Hm Hc Hd. eapply run_ops_later; [done..|].
  intros t0 t1 Hs H [d' Hkeep]. destruct (capacity_step _ _ _ _ Hs Hc H); congruence.
Qed.

(** What the body of [acquire] decides on a tree. *)
Definition acquire_spec (path : string) (claim : ControllerClaim) (terminal : bool) (t : tree)
    (res : result (decision unit)) : Prop :=
  match res with
  | Ok (Return _) => record_at ControllerClaim t path = Some claim
  | Ok (Commit ops _) => ops = [_add path claim] /\
      (t !! path = None \/
       exists c0, record_at ControllerClaim t path = Some c0 /\ cc_expires_at c0 <= cc_acquired_at claim /\
         terminal = true /\ cc_attempt claim = cc_attempt c0 + 1)
  | Err _ => True
  end.

Lemma acquire_body_spec path claim terminal r :
  reads (acquire_body path claim terminal r) r (acquire_spec path claim terminal).
Proof.
  unfold acquire_body. eapply reads_bind; [apply reads_optional| |done].
  intros [c0|].
  - case_bool_decide as Heq; [subst; apply reads_lift with (x := Ok (Return tt)); by intros t H|].
    destruct (negb _ || negb terminal) eqn:E1;
      [apply reads_lift with (x := Err (ControllerOwnershipConflict _)); done|].
    destruct (negb (_ =? _)) eqn:E2;
      [apply reads_lift with (x := Err (ControllerStatusError _)); done|].
    apply reads_lift with (x := Ok (Commit [_add path claim] tt)). intros t H. split; [done|]. right.
    exists c0. apply orb_false_iff in E1 as [E1 E3]. split_and!; [done|lia| |lia].
    by destruct terminal.
  - apply reads_lift with (x := Ok (Commit [_add path claim] tt)). intros t H. split; [done|by left].
Qed.

(** What a return of [acquire] means: the claim was already recorded in a
    tree of [main], or this call recorded it in its newest tree, on top of a tree
    without a claim or with one that had expired, of a terminal Job and of the
    previous attempt. *)
Theorem acquire_takes_free_lease claim terminal w w' :
  ControllerClaim_valid claim = true -> acquire claim terminal w = (Ok tt, w') ->
  let path := location_path (LClaim (cc_campaign_id claim)) in
  (exists t, t ∈ main w' /\ record_at ControllerClaim t path = Some claim) \/
  (exists t t0 k, main w' = t :: t0 :: k /\ record_at ControllerClaim t path = Some claim /\
     (t0 !! path = None \/
      exists c0, record_at ControllerClaim t0 path = Some c0 /\ cc_expires_at c0 <= cc_acquired_at claim /\
        terminal = true /\ cc_attempt claim = cc_attempt c0 + 1)).
Proof.
  intros Hv E path. unfold acquire in E. apply hub_bind_inv in E as (p & w1 & Ep & E).
  unfold hub_lift in Ep. injection Ep as <- <-.
  destruct (controller_claim_path _) as [p|e] eqn:Ep; [|by destruct E].
  apply claim_path_ok in Ep as [_ ->]. fold path in E.
  apply (commit_loop_ok _ _ _ _ (acquire_spec path claim terminal)) in E; [|apply acquire_body_spec].
  destruct E as [(t & Hin & Ht)|(t & ops & k & [-> Ht] & Hm)]; [by left; exists t|right].
  exists (<[path := record_doc claim]> t), t, k. split_and!; [done| |done].
  apply (record_at_doc (valid := ControllerClaim_valid)); [done|]. by rewrite lookup_insert_eq.
Qed.
End properties.

(** ** Examples *)

(** Two Jobs of a campaign on one repository: the first one takes the lease and
    the capacity, reports, renews and is lost; the second one takes over. *)
Definition demo_first : list controller_op := [
  OpReserveAttempt (demo_attempt 1);
  OpAcquire (demo_claim "job-1" 1 0 0) false;
  OpAcquireCapacity (demo_capacity "job-1" 1);
  OpWriteStatus (demo_status "job-1" 1 10)].

Definition demo_second : list controller_op := [
  OpHeartbeat (demo_claim "job-1" 1 0 0) (demo_claim "job-1" 1 0 60);
  OpAcquire (demo_claim "job-2" 2 100 100) true;
  OpReserveAttempt (demo_attempt 3);
  OpReserveAttempt (demo_attempt 2);
  OpAcquireCapacity (demo_capacity "job-2" 2);
  OpAcquire (demo_claim "job-2" 2 150 150) true;
  OpWriteStatus (demo_status "job-2" 2 150);
  OpWriteStatus (demo_status "job-1" 1 160);
  OpReserveAttempt {| at_campaign_id := "demo"; at_plan_digest := "other"; at_input_digest := "i";
    at_input_uri := "u"; at_output_uri := "o"; at_worker_revision := "r"; at_attempt := 1;
    at_reserved_at := 0 |}].

Definition demo_hub : memory := run_ops demo_first fresh_hub.
Definition demo_hub_end : memory := run_ops demo_second demo_hub.
Definition demo_tree : tree := match demo_hub with t :: _ => t | [] => ∅ end.
Definition demo_history : list tree := match demo_hub with _ :: k => k | [] => [] end.

(** What becomes of the records: five trees, then the renewal, the takeover,
    the second attempt and its status; the rest is refused. *)
Example demo_hub_runs :
  length demo_hub = 5%nat /\ length demo_hub_end = 9%nat /\
  record_at ControllerClaim demo_tree (location_path (LClaim "demo")) =
    Some (demo_claim "job-1" 1 0 0).
Proof. vm_compute. split_and!; reflexivity. Qed.

(** The trees [main] of the example repository went through, newest first. *)
#[local] Notation history := (main (HubLaws := memory_laws controller_step)).

Lemma demo_hub_shape : history demo_hub = demo_tree :: demo_history.
Proof.
  assert (length demo_hub = 5%nat) as H by (vm_compute; reflexivity). revert H. change (history demo_hub) with demo_hub.
  unfold demo_tree, demo_history. by destruct demo_hub.
Qed.

Lemma controller_store_refines_protocol_witness :
  length demo_hub_end = 9%nat /\ extends controller_step (history fresh_hub)
    (history (run_ops (demo_first ++ demo_second) fresh_hub)).
Proof.
  split; [vm_compute; reflexivity|].
  apply (controller_store_refines_protocol (LAWS := memory_laws _) (demo_first ++ demo_second) fresh_hub).
  vm_compute. reflexivity.
Defined.

Lemma receipts_are_written_once_witness :
  exists later, history (run_ops demo_second demo_hub) = later ++ demo_tree :: demo_history /\
    Forall (fun t => t !! location_path (LAttempt "demo" 1) = Some (record_doc (demo_attempt 1))) later.
Proof.
  apply (receipts_are_written_once (LAWS := memory_laws _) demo_second demo_hub demo_tree demo_history (LAttempt "demo" 1));
    (exact demo_hub_shape || (vm_compute; reflexivity)).
Defined.

Lemma controller_status_is_monotone_witness :
  exists later, history (run_ops demo_second demo_hub) = later ++ demo_tree :: demo_history /\
    Forall (fun t => exists s, record_at ControllerStatus t (location_path (LStatus "demo")) = Some s /\
                               status_order (demo_status "job-1" 1 10) s) later.
Proof.
  apply (controller_status_is_monotone (LAWS := memory_laws _) demo_second demo_hub demo_tree demo_history "demo");
    (exact demo_hub_shape || (vm_compute; reflexivity)).
Defined.

Lemma fresh_contiguous : attempts_contiguous ∅.
Proof. intros c n _ _ [d Hd]. by rewrite lookup_empty in Hd. Qed.

Lemma attempts_are_reserved_in_order_witness :
  exists later, history (run_ops (demo_first ++ demo_second) fresh_hub) = later ++ [∅] /\
    Forall attempts_contiguous later.
Proof.
  apply (attempts_are_reserved_in_order (LAWS := memory_laws _) (demo_first ++ demo_second) fresh_hub ∅ []);
    [vm_compute; reflexivity|reflexivity|apply fresh_contiguous].
Defined.

Lemma lease_passes_on_only_after_expiry_witness :
  exists later, history (run_ops demo_second demo_hub) = later ++ demo_tree :: demo_history /\
    (Forall (fun t => is_Some (t !! location_path (LClaim "demo"))) later ->
     Forall (fun t => exists b, record_at ControllerClaim t (location_path (LClaim "demo")) = Some b /\
                                lease_order (demo_claim "job-1" 1 0 0) b) later).
Proof.
  apply (lease_passes_on_only_after_expiry (LAWS := memory_laws _) demo_second demo_hub demo_tree demo_history "demo");
    (exact demo_hub_shape || (vm_compute; reflexivity)).
Defined.

Lemma provider_capacity_is_exclusive_witness :
  exists later, history (run_ops demo_second demo_hub) = later ++ demo_tree :: demo_history /\
    (Forall (fun t => is_Some (t !! location_path (LCapacity "provider-a"))) later ->
     Forall (fun t => t !! location_path (LCapacity "provider-a") =
                      Some (record_doc (demo_capacity "job-1" 1))) later).
Proof.
  apply (provider_capacity_is_exclusive (LAWS := memory_laws _) demo_second demo_hub demo_tree demo_history "provider-a");
    (exact demo_hub_shape || (vm_compute; reflexivity)).
Defined.

Lemma acquire_takes_free_lease_witness :
  let claim := demo_claim "job-2" 2 100 100 in
  let path := location_path (LClaim "demo") in
  let w := (acquire claim true demo_hub).2 in
  (exists t, t ∈ history w /\ record_at ControllerClaim t path = Some claim) \/
  (exists t t0 k, history w = t :: t0 :: k /\ record_at ControllerClaim t path = Some claim /\
     (t0 !! path = None \/
      exists c0, record_at ControllerClaim t0 path = Some c0 /\ cc_expires_at c0 <= cc_acquired_at claim /\
        true = true /\ cc_attempt claim = cc_attempt c0 + 1)).
Proof.
  intros claim path w.
  apply (acquire_takes_free_lease (LAWS := memory_laws _) claim true demo_hub w);
    [vm_compute; reflexivity|].
  rewrite (surjective_pairing (acquire claim true demo_hub)).
  f_equal; try (vm_compute; reflexivity).
Defined.
