(* ===== verification/CampaignStoreProperties.v ===== *)
(** Properties of the campaign store: what is recorded stays recorded, how the
    event operations end, who wins the race with a cancellation, and that the
    two stores of the coordination repository do not interfere. *)
From S2P Require Import Prelude.
From S2P Require Import PyDict.
From S2P Require Import Json.
From S2P Require Import Sha256.
From S2P Require Import Campaigns.
From S2P Require Import Control.
From S2P Require Import Hub.
From S2P Require Import ControllerStatus.
From S2P Require Import ControllerProtocol.
From S2P Require Import ControlStore.
From S2P Require Import CampaignProtocol.
From S2P Require Import CampaignStoreFacts.
From S2P Require Import HubModel.
From S2P Require Import Scenario.
From S2P Require Import ControllerScenario.

(** ** Auxiliary facts *)
Lemma length_dict_set {V} (d : dict V) k v :
  length (dict_set d k v) = if decide (k ∈ dict_keys d) then length d else S (length d).
Proof.
  pose proof (f_equal length (dict_keys_set d k v)) as H. unfold dict_keys in H at 1.
  rewrite length_map in H. rewrite H. destruct (dict_has d k) eqn:E.
  - apply dict_has_true in E. rewrite decide_True by done. unfold dict_keys. by rewrite length_map.
  - rewrite decide_False by (rewrite <- dict_has_true; congruence).
    unfold dict_keys. rewrite length_app, length_map. cbn. lia.
Qed.

Lemma length_dict_update {V} (l : list (string * V)) d :
  (length (dict_update d l) <= length d + length l)%nat.
Proof.
  unfold dict_update. revert d. induction l as [|[k v] l IH]; intros d; cbn; [lia|].
  specialize (IH (dict_set d k v)). rewrite length_dict_set in IH. destruct (decide _); lia.
Qed.

(** A dictionary as long as the list it is made of lost no entry. *)
Lemma dict_update_distinct {V} (l : list (string * V)) d :
  length (dict_update d l) = (length d + length l)%nat -> dict_update d l = d ++ l.
Proof.
  revert d. induction l as [|[k v] l IH]; intros d; [by rewrite app_nil_r|].
  change (dict_update d ((k, v) :: l)) with (dict_update (dict_set d k v) l). cbn [length].
  pose proof (length_dict_update l (dict_set d k v)) as Hle. rewrite length_dict_set in Hle.
  destruct (decide (k ∈ dict_keys d)) as [|Hk]; [lia|]. intros Hl.
  rewrite IH.
  - rewrite dict_set_new by done. by rewrite <- app_assoc.
  - rewrite length_dict_set, decide_False by done. lia.
Qed.

Lemma expected_distinct dt c events :
  len (expected_by_path dt c events) = len events ->
  expected_by_path dt c events =
    map (fun e => (file_path (FEvent c (event_id e)), event_dump dt e)) events.
Proof.
  unfold expected_by_path, dict_of, len. intros H. rewrite dict_update_distinct; [done|].
  rewrite length_map. cbn. lia.
Qed.

Lemma same_event_refl dt e : _same_event_request (event_dump dt e) (event_dump dt e) = true.
Proof. unfold _same_event_request. cbn [json_is_object event_dump jobj negb]. by rewrite bool_decide_true. Qed.

Section properties.
Context {W : Type} {API : HubApi W} {ML : PydanticModel CampaignLock}.
Variable datetime_json : Z -> string.
Variable event_validate : json -> result CampaignEvent.
Context {LAWS : HubLaws W (campaign_step datetime_json)}.

Notation dump := (event_dump datetime_json).
Notation event_path c e := (file_path (FEvent c (event_id e))).

(** [create_commit] names the commit it made. *)
Hypothesis commit_oid : forall r ops w oid w', create_commit r ops w = (Ok oid, w') -> is_Some oid.

(** C14: what the campaign store records is permanent.  Whatever operations
    clients run, with whatever outcome, the history of [main] is only extended;
    in every later tree the lock of a campaign, its cancellation and the
    reservations of its actions are what they were, and no file is removed. *)
Theorem campaign_records_are_permanent ops w t k f d :
  forallb campaign_op_valid ops = true -> main w = t :: k -> file_ok f = true ->
  t !! file_path f = Some d ->
  exists later, main (run_campaign_ops datetime_json event_validate ops w) = later ++ t :: k /\
    Forall (fun t' => is_Some (t' !! file_path f) /\
                      (is_permanent f = true -> t' !! file_path f = Some d)) later.
Proof.
  intros Hops Hm Hf Hd.
  eapply (run_campaign_ops_later datetime_json event_validate commit_oid); [done|done| |].
  - split; [by eexists|done].
  - intros t0 t1 Hs [H1 H2]. split; [by eapply present_step|]. intros Hp.
    by eapply permanent_step; eauto.
Qed.

(** C16: a cancellation is recorded as a whole: as long as every marker names an
    event that is recorded, this stays so in every tree [main] goes through. *)
Theorem cancellation_is_atomic ops w t k :
  forallb campaign_op_valid ops = true -> main w = t :: k -> cancellation_consistent t ->
  exists later, main (run_campaign_ops datetime_json event_validate ops w) = later ++ t :: k /\
    Forall cancellation_consistent later.
Proof.
  intros Hops Hm Ht.
  eapply (run_campaign_ops_later datetime_json event_validate commit_oid); [done..|].
  intros t0 t1. apply cancellation_step.
Qed.

(** That a tree records an event: the same request, whenever it was observed. *)
Definition records (t : tree) (c : string) (event : CampaignEvent) : Prop :=
  exists o, t !! event_path c event = Some (DJson o) /\ _same_event_request o (dump event) = true.

(** What a return of [ensure_event] means: [false], that the event was
    already recorded; [true], that this call recorded it on a tree that did not
    have it, a cancellation together with its marker. *)
Theorem ensure_event_records c event w b w' :
  ensure_event datetime_json event_validate c event w = (Ok b, w') ->
  if b then exists t t' k, main w' = t' :: t :: k /\ t !! event_path c event = None /\
    t' !! event_path c event = Some (DJson (dump event)) /\
    (kind event = campaign_cancel_requested ->
       t !! file_path (FCancellation c) = None /\
       t' !! file_path (FCancellation c) = Some (DJson (cancellation_marker c event)))
  else exists t, t ∈ main w' /\ records t c event.
Proof.
  unfold ensure_event. intros (u & w1 & Eu & E)%hub_bind_inv. unfold hub_lift in Eu. injection Eu as <- <-.
  destruct (_validate_event_scope c event) as [u|e] eqn:Es; [|by destruct E].
  apply scope_safe in Es.
  assert (Hplain : forall body, (forall r, reads (body r) r (ensure_spec datetime_json (event_path c event) event)) ->
    kind event <> campaign_cancel_requested -> control_loop body w = (Ok b, w') ->
    if b then exists t t' k, main w' = t' :: t :: k /\ t !! event_path c event = None /\
      t' !! event_path c event = Some (DJson (dump event)) /\
      (kind event = campaign_cancel_requested ->
         t !! file_path (FCancellation c) = None /\
         t' !! file_path (FCancellation c) = Some (DJson (cancellation_marker c event)))
    else exists t, t ∈ main w' /\ records t c event).
  { intros body Hb Hk E0. apply (commit_loop_ok _ _ _ _ _ _ _ _ Hb) in E0.
    destruct E0 as [(t & Hin & -> & Ho)|(t & ops & k & (-> & Hn & ->) & Hm)]; [by exists t|].
    exists t, (<[event_path c event := DJson (dump event)]> t), k.
    split_and!; [done|done|by rewrite lookup_insert_eq|done]. }
  case_bool_decide as Hk.
  - unfold _ensure_cancellation_event in E.
    apply (commit_loop_ok _ _ _ _ (cancellation_spec datetime_json c event)) in E;
      [|apply cancellation_body_spec].
    destruct E as [(t & Hin & -> & Ho & _)|(t & ops & k & (-> & Hn & Hq & ->) & Hm)]; [by exists t|].
    assert (event_path c event <> file_path (FCancellation c)) as Hne.
    { intros Heq. by apply file_path_inj in Heq. }
    eexists t, _, k. split; [done|]. cbn. rewrite lookup_insert_ne, !lookup_insert_eq by done. done.
  - case_bool_decide; (eapply Hplain; [|done|exact E]); intros r;
      [apply resolution_body_spec|apply ensure_body_spec].
Qed.

(** C15: terminal trial events lose against a cancellation.  A return of
    [ensure_events_unless_cancelled] means that every event is recorded, and
    where this call recorded any, it did so in one commit on a tree without a
    cancellation marker that changed nothing but the files of these events. *)
Theorem terminal_events_lose_to_cancellation c events w b w' :
  ensure_events_unless_cancelled datetime_json c events w = (Ok b, w') ->
  if b then exists t t' k, main w' = t' :: t :: k /\ t !! file_path (FCancellation c) = None /\
    Forall (records t' c) events /\
    (forall p, p ∉ map (fun e => event_path c e) events -> t' !! p = t !! p)
  else exists t, t ∈ main w' /\ Forall (records t c) events.
Proof.
  unfold ensure_events_unless_cancelled. intros (x & w1 & Ex & E)%hub_bind_inv.
  unfold hub_lift in Ex. injection Ex as <- <-.
  destruct (_guarded_event_payloads _ _ _) as [expected|e] eqn:Ep; [|by destruct E].
  unfold _guarded_event_payloads in Ep. destruct (is_nil events); [done|].
  apply result_bind_Ok in Ep as (us & _ & Ep).
  destruct (Z.eqb_spec (len (expected_by_path datetime_json c events)) (len events)) as [Hlen|];
    [|done]. injection Ep as <-. apply expected_distinct in Hlen.
  assert (Hrec : forall t event j, event ∈ events -> (event_path c event, j) ∈ expected_by_path datetime_json c events ->
            t !! event_path c event = Some (DJson j) -> records t c event).
  { intros t event j Hin Hj Ht. exists j. split; [done|].
    assert (dict_wf (expected_by_path datetime_json c events)) as Hwf by apply dict_wf_of.
    assert ((event_path c event, dump event) ∈ expected_by_path datetime_json c events) as He.
    { rewrite Hlen. apply list_elem_of_fmap. by exists event. }
    apply dict_get_some_iff in Hj, He; [|done..]. rewrite Hj in He. injection He as ->.
    apply same_event_refl. }
  apply (commit_loop_ok _ _ _ _ (guarded_spec c (expected_by_path datetime_json c events))) in E;
    [|apply guarded_body_spec].
  assert (Hexp : forall event, event ∈ events ->
            (event_path c event, dump event) ∈ expected_by_path datetime_json c events).
  { intros event Hin. rewrite Hlen. apply list_elem_of_fmap. by exists event. }
  destruct E as [(t & Hin & -> & Hm)|(t & ops & k & (-> & Hq & missing & -> & Hm) & Hmain)].
  - exists t. split; [done|]. apply Forall_forall. intros event He.
    destruct Hm as (_ & _ & Hm). destruct (Hm _ _ (Hexp _ He)) as [Hk%elem_of_nil|Ho]; [done|exact Ho].
  - eexists t, _, k. split_and!; [done|done| |].
    + apply Forall_forall. intros event He. destruct Hm as (Hwf & Hm1 & Hm2).
      destruct (Hm2 _ _ (Hexp _ He)) as [Hk|(o & Ho & Hs)].
      * unfold dict_keys in Hk. apply list_elem_of_fmap in Hk as ([p j] & Hp & Hj). cbn in Hp. subst p.
        apply (Hrec _ _ j He); [by apply Hm1|]. by apply lookup_additions.
      * destruct (decide (event_path c event ∈ map fst missing)) as [Hk|Hk].
        { apply list_elem_of_fmap in Hk as ([p j] & Hp & Hj). cbn in Hp. subst p.
          destruct (Hm1 _ _ Hj) as [_ Hn]. cbn in Ho. rewrite Ho in Hn. discriminate Hn. }
        exists o. split; [|done]. rewrite apply_ops_other; [done|by rewrite op_path_additions].
    + intros p Hp. apply apply_ops_other. rewrite op_path_additions. intros Hk. apply Hp.
      apply list_elem_of_fmap in Hk as ([q j] & -> & Hj). destruct Hm as (_ & Hm1 & _).
      destruct (Hm1 _ _ Hj) as [He _]. rewrite Hlen in He.
      apply list_elem_of_fmap in He as (event & [= -> _] & He). apply list_elem_of_fmap. by exists event.
Qed.
End properties.

(** The campaign store and the controller store share one repository
    without interfering: a commit of either one is a step both protocols allow. *)
Theorem stores_do_not_interfere {MC : PydanticModel ControllerClaim} {MS : PydanticModel ControllerStatus}
    {MK : PydanticModel ControllerLaunchClaim} {MP : PydanticModel ProviderCapacityClaim}
    {ML : PydanticModel CampaignLock} dt t t' :
  shared_step dt t t' -> controller_step t t' /\ campaign_step dt t t'.
Proof. intros Hs. split; [by eapply shared_step_controller|by apply shared_step_campaign]. Qed.

(** ** Examples *)
#[local] Instance demo_lock_model : PydanticModel CampaignLock := {|
  model_dump lock := jobj [("campaign_id", JStr (campaign_id lock)); ("plan_digest", JStr (plan_digest lock))];
  model_validate _ := Err (ValueError "not modelled");
|}.

Definition demo_date (instant : Z) : string := pretty instant.
Definition demo_parse (j : json) : result CampaignEvent := Err (ValueError "not modelled").

Definition demo_terminal (n : Z) (trial : string) : CampaignEvent :=
  demo_event n subject_trial trial trial_invalid
    (payload_lifecycle {| lp_parent_id := None; lp_message := None |}).

(** A campaign is created, an action is reserved, a wave opens, a trial is
    found invalid; then the campaign is cancelled, and nothing else of a trial
    is recorded. *)
Definition campaign_first : list campaign_op := [
  OpCreateCampaign demo_lock (DBytes "request") demo_submitted;
  OpReserveAction "demo" [("shard_ids", jstrs ["shard-1"])] demo_reserved;
  OpEnsureEvents "demo" [demo_succeeded; demo_wave 3 wave_acquiring];
  OpEnsureEventsUnlessCancelled "demo" [demo_terminal 4 "t1"]].

Definition campaign_second : list campaign_op := [
  OpEnsureEvent "demo" (demo_cancelled 5);
  OpEnsureEvent "demo" (demo_cancelled 5);
  OpEnsureEventsUnlessCancelled "demo" [demo_terminal 6 "t2"];
  OpAppendEvent "demo" (demo_wave 7 wave_draining)].

Definition campaign_hub : memory := run_campaign_ops demo_date demo_parse campaign_first fresh_hub.
Definition campaign_hub_end : memory := run_campaign_ops demo_date demo_parse campaign_second campaign_hub.
Definition campaign_tree : tree := match campaign_hub with t :: _ => t | [] => ∅ end.
Definition campaign_history : list tree := match campaign_hub with _ :: k => k | [] => [] end.

Example campaign_hub_runs : length campaign_hub = 5%nat /\ length campaign_hub_end = 7%nat.
Proof. vm_compute. split; reflexivity. Qed.

(** The trees [main] of the example repository went through, newest first. *)
#[local] Notation history := (main (HubLaws := memory_laws (campaign_step demo_date))).

Lemma campaign_hub_shape : history campaign_hub = campaign_tree :: campaign_history.
Proof.
  assert (length campaign_hub = 5%nat) as H by (vm_compute; reflexivity). revert H.
  change (history campaign_hub) with campaign_hub.
  unfold campaign_tree, campaign_history. by destruct campaign_hub.
Qed.

Lemma memory_commit_oid r ops w oid w' :
  create_commit (W := memory) r ops w = (Ok oid, w') -> is_Some oid.
Proof. cbn. destruct w as [|t w]; [done|]. case_bool_decide; [|done]. by intros [= <- <-]. Qed.

Lemma campaign_records_are_permanent_witness :
  exists later, history (run_campaign_ops demo_date demo_parse campaign_second campaign_hub) =
      later ++ campaign_tree :: campaign_history /\
    Forall (fun t => is_Some (t !! file_path (FLock "demo")) /\
                     (true = true -> t !! file_path (FLock "demo") = Some (DJson (model_dump demo_lock)))) later.
Proof.
  apply (campaign_records_are_permanent (LAWS := memory_laws _) demo_date demo_parse memory_commit_oid
           campaign_second campaign_hub campaign_tree campaign_history (FLock "demo"));
    (exact campaign_hub_shape || (vm_compute; reflexivity)).
Defined.

Lemma fresh_consistent : cancellation_consistent ∅.
Proof. intros c d _ Hd. by rewrite lookup_empty in Hd. Qed.

Lemma cancellation_is_atomic_witness :
  exists later, history (run_campaign_ops demo_date demo_parse (campaign_first ++ campaign_second) fresh_hub) =
      later ++ [∅] /\ Forall cancellation_consistent later.
Proof.
  apply (cancellation_is_atomic (LAWS := memory_laws _) demo_date demo_parse memory_commit_oid
           (campaign_first ++ campaign_second) fresh_hub ∅ []);
    [vm_compute; reflexivity|reflexivity|apply fresh_consistent].
Defined.

Lemma ensure_event_records_witness :
  let w := (ensure_event demo_date demo_parse "demo" (demo_cancelled 5) campaign_hub).2 in
  exists t t' k, history w = t' :: t :: k /\
    t !! file_path (FEvent "demo" (event_id (demo_cancelled 5))) = None /\
    t' !! file_path (FEvent "demo" (event_id (demo_cancelled 5))) =
      Some (DJson (event_dump demo_date (demo_cancelled 5))) /\
    (kind (demo_cancelled 5) = campaign_cancel_requested ->
       t !! file_path (FCancellation "demo") = None /\
       t' !! file_path (FCancellation "demo") =
         Some (DJson (cancellation_marker "demo" (demo_cancelled 5)))).
Proof.
  intros w.
  apply (ensure_event_records (LAWS := memory_laws _) demo_date demo_parse "demo" (demo_cancelled 5)
           campaign_hub true w).
  rewrite (surjective_pairing (ensure_event demo_date demo_parse "demo" (demo_cancelled 5) campaign_hub)).
  f_equal; try (vm_compute; reflexivity).
Defined.

Lemma terminal_events_lose_to_cancellation_witness :
  let w := (ensure_events_unless_cancelled demo_date "demo" [demo_terminal 6 "t2"] campaign_hub).2 in
  exists t t' k, history w = t' :: t :: k /\ t !! file_path (FCancellation "demo") = None /\
    Forall (records demo_date t' "demo") [demo_terminal 6 "t2"] /\
    (forall p, p ∉ map (fun e => file_path (FEvent "demo" (event_id e))) [demo_terminal 6 "t2"] ->
       t' !! p = t !! p).
Proof.
  intros w.
  apply (terminal_events_lose_to_cancellation (LAWS := memory_laws _) demo_date "demo"
           [demo_terminal 6 "t2"] campaign_hub true w).
  rewrite (surjective_pairing (ensure_events_unless_cancelled demo_date "demo" [demo_terminal 6 "t2"] campaign_hub)).
  f_equal; try (vm_compute; reflexivity).
Defined.

Lemma stores_do_not_interfere_witness :
  controller_step ∅ (apply_ops ∅ (campaign_operations demo_date demo_lock (DBytes "request") demo_submitted)) /\
  campaign_step demo_date ∅
    (apply_ops ∅ (campaign_operations demo_date demo_lock (DBytes "request") demo_submitted)).
Proof.
  apply stores_do_not_interfere. apply shared_campaign. apply change_campaign;
    [vm_compute; reflexivity|reflexivity|reflexivity|apply lookup_empty].
Defined.
