(* ===== verification/CoordinationProperties.v ===== *)
(** Properties of the claims of [Coordination]: who may hold a claim, and who
    may give it back. *)
From S2P Require Import Prelude.
From S2P Require Import PyDict.
From S2P Require Import Json.
From S2P Require Import PyText.
From S2P Require Import Hub.
From S2P Require Import Coordination.
From S2P Require Import ControlStore.
From S2P Require Import CampaignStoreFacts.
From S2P Require Import HubModel.

Section properties.
Context {W : Type} {API : HubApi W} {R : tree -> tree -> Prop} {LAWS : HubLaws W R}.
Variable fromisoformat : string -> option (option Z).
Variable clock : hub W Z.

(** Reading the clock is no commit. *)
Hypothesis clock_grows : forall w res w', clock w = (res, w') -> grows w w'.

Lemma reads_owner path r :
  reads (_read_owner path r) r (fun t res => forall o, res = Ok o -> t !! path = Some (DJson o)).
Proof.
  unfold _read_owner.
  apply (reads_then_value _ _ _ (fun t b => b = is_some (t !! path))); [apply reads_control_exists|done|].
  intros [|]; [|by apply reads_error].
  apply (reads_then_value _ _ _ (fun t d => t !! path = Some d)); [apply reads_download|done|].
  intros [j|b]; [|by apply reads_error].
  destruct (json_is_object j); [|by apply reads_error].
  apply reads_value. intros t Hd _ o [= <-]. done.
Qed.

(** The instant from which a claim no longer counts: the aware datetime its
    [expires_at] gives.  A claim without one never expires. *)
Definition claim_expiry (o : json) : option Z :=
  match json_get o "expires_at" with
  | Some (JStr value) => match fromisoformat value with Some (Some at_) => Some at_ | _ => None end
  | _ => None
  end.

Definition expired_at (o : json) (now : Z) : Prop := exists e, claim_expiry o = Some e /\ e <= now.

Lemma claim_expired_iff o now : _claim_expired fromisoformat o now = true <-> expired_at o now.
Proof.
  unfold _claim_expired, expired_at, claim_expiry.
  destruct (json_get o "expires_at") as [[]|]; try (split; [done|by intros (? & ? & ?)]).
  destruct (fromisoformat _) as [[e|]|]; try (split; [done|by intros (? & ? & ?)]).
  rewrite Z.leb_le. split; [by exists e|]. by intros (? & [= ->] & ?).
Qed.

(** The clock was read between [w] and [w'] and showed [now]. *)
Definition clock_showed (w w' : W) (now : Z) : Prop :=
  exists v v', grows w v /\ clock v = (Ok now, v') /\ grows v' w'.

Lemma clock_showed_wider v w w' v' now : grows v w -> grows w' v' -> clock_showed w w' now -> clock_showed v v' now.
Proof.
  intros Hv Hw (a & b & Ha & E & Hb). exists a, b. split_and!; [|done|]; by eapply grows_trans.
Qed.

(** The services of the store raise no [ClaimConflict] of their own. *)
Definition no_conflict {A} (m : hub W A) : Prop := forall w x w', m w <> (Err (ClaimConflict x), w').

Record quiet_services : Prop := {
  quiet_info : no_conflict repo_info_sha;
  quiet_paths path r : no_conflict (get_paths_info path r);
  quiet_download path r : no_conflict (hf_hub_download path r);
  quiet_commit r ops : no_conflict (create_commit r ops);
  quiet_clock : no_conflict clock;
}.

Lemma call_bind {A B} (m : hub W A) (k : A -> hub W B) :
  no_conflict m -> (forall a, no_conflict (k a)) -> no_conflict (hub_bind m k).
Proof.
  intros Hm Hk w x w' E. apply hub_bind_inv in E as ([a|e] & w1 & Em & E).
  - by eapply Hk.
  - destruct E as [[= <-] <-]. by eapply Hm.
Qed.

Lemma quiet_owner path r : quiet_services -> no_conflict (_read_owner path r).
Proof.
  intros Q. unfold _read_owner. apply call_bind; [apply Q|]. intros [|]; cbn [negb]; [|by intros w x w' [=]].
  apply call_bind; [apply Q|]. intros [j|b].
  - by destruct (json_is_object j); intros w x w' [=].
  - intros w x w'. unfold hub_raise, hub_lift, undecoded. by destruct (utf8_accepts _).
Qed.

Lemma quiet_head missing : quiet_services -> (forall x, missing <> ClaimConflict x) -> no_conflict (hub_head missing).
Proof.
  intros Q Hm. unfold hub_head. apply call_bind; [apply Q|].
  assert (Hr : no_conflict (hub_raise (A := string) missing)) by (intros w x w' [= E]; by eapply Hm).
  intros [r|]; [|exact Hr]. destruct (String.eqb r ""); [exact Hr|by intros w x w' [=]].
Qed.

(** What [acquire] decides on the tree of a head: to take a free or expired
    claim, or to refuse a claim that counts. *)
Definition acquire_decides (path : string) (owner : dict string) (t : tree) (w : W)
    (d : result (decision unit)) (w' : W) : Prop :=
  match d with
  | Ok (Return _) => False
  | Ok (Commit ops _) => ops = [CommitOperationAdd path (DJson (_owner_payload owner))] /\
      (t !! path = None \/
       exists o now, t !! path = Some (DJson o) /\ clock_showed w w' now /\ expired_at o now)
  | Err (ClaimConflict _) => quiet_services -> exists o now,
      t !! path = Some (DJson o) /\ clock_showed w w' now /\ ~ expired_at o now
  | Err _ => True
  end.

Lemma acquire_claim_body_spec path owner r w d w' t :
  tree_at w r = Some t -> acquire_claim_body fromisoformat clock path owner r w = (d, w') ->
  grows w w' /\ acquire_decides path owner t w d w'.
Proof.
  intros Ht. unfold acquire_claim_body, claim_exists.
  intros (b & w1 & Eb & E)%hub_bind_inv. destruct (reads_exists path r _ _ _ _ Ht Eb) as [Hg1 Hb].
  destruct b as [b|e].
  2: { destruct E as [-> ->]. split; [done|]. destruct e; try done. intros Q. by apply (quiet_paths Q) in Eb. }
  specialize (Hb _ eq_refl) as ->. pose proof (proj1 Hg1 _ _ Ht) as Ht1.
  destruct (t !! path) as [x|] eqn:Ep; cbn [is_some] in E.
  2: { injection E as <- <-. split; [done|]. cbn. split; [done|by left]. }
  apply hub_bind_inv in E as (o & w2 & Eo & E). destruct (reads_owner path r _ _ _ _ Ht1 Eo) as [Hg2 Ho].
  destruct o as [o|e].
  2: { destruct E as [-> ->]. split; [exact (grows_trans _ _ _ Hg1 Hg2)|]. destruct e; try done. intros Q.
       by apply (quiet_owner path r Q) in Eo. }
  specialize (Ho _ eq_refl). apply hub_bind_inv in E as (now & w3 & En & E). pose proof (clock_grows _ _ _ En) as Hg3.
  pose proof (grows_trans _ _ _ Hg1 (grows_trans _ _ _ Hg2 Hg3)) as Hg.
  destruct now as [now|e].
  2: { destruct E as [-> ->]. split; [done|]. destruct e; try done. intros Q. by apply (quiet_clock Q) in En. }
  assert (Hc : clock_showed w w3 now).
  { exists w2, w3. split; [exact (grows_trans _ _ _ Hg1 Hg2)|]. split; [done|apply grows_refl]. }
  rewrite Ep in Ho. destruct (_claim_expired fromisoformat o now) eqn:Ee; cbn [negb] in E.
  - injection E as <- <-. split; [done|]. cbn. split; [done|]. right. exists o, now. rewrite <- claim_expired_iff. by rewrite Ep.
  - injection E as <- <-. split; [done|]. cbn. intros _. exists o, now. rewrite <- claim_expired_iff, Ee. by rewrite Ep.
Qed.

Lemma release_claim_body_spec path owner r :
  reads (release_claim_body path owner r) r (fun t res => forall d, res = Ok d ->
    d = Commit [CommitOperationDelete path] tt /\ t !! path = Some (DJson (_owner_payload owner))).
Proof.
  unfold release_claim_body.
  apply (reads_then_value _ _ _ (fun t o => t !! path = Some (DJson o))); [apply reads_owner|done|].
  intros o. case_bool_decide as Ho; cbn [negb]; [|by apply reads_error].
  apply reads_value. intros t Hp d [= <-]. by subst o.
Qed.

(** The commit that ended a call was sent from [w]. *)
Definition commit_sent (w w' : W) : Prop := exists r ops oid, create_commit r ops w = (Ok oid, w').

(** C30: a claim passes on only when it is free.  [acquire] returns only after a
    commit that records the caller, made on a head of [main] that is no older
    than the call and in which nobody held the claim, or whose holder's
    [expires_at] was an instant that the clock, read during the call before that
    commit was sent, had reached; it refuses with [ClaimConflict] only a claim
    that stood in a head of the time of the call and had not expired by a reading
    of the clock during the call; and [release] returns only after a commit that
    removes the claim from a head in which exactly the caller held it. *)
Theorem claims_are_exclusive path owner w w' :
  (acquire_claim fromisoformat clock path owner w = (Ok tt, w') ->
   exists t k, main w' = <[path := DJson (_owner_payload owner)]> t :: t :: k /\ extends R (main w) (t :: k) /\
     (t !! path = None \/
      exists o now u, t !! path = Some (DJson o) /\ clock_showed w u now /\ commit_sent u w' /\
        expired_at o now)) /\
  (forall m, quiet_services -> acquire_claim fromisoformat clock path owner w = (Err (ClaimConflict m), w') ->
   exists t k o now, extends R (main w) (t :: k) /\ extends R (t :: k) (main w') /\
     t !! path = Some (DJson o) /\ clock_showed w w' now /\ ~ expired_at o now) /\
  (release_claim path owner w = (Ok tt, w') ->
   exists t k, main w' = delete path t :: t :: k /\ t !! path = Some (DJson (_owner_payload owner))).
Proof.
  assert (Hbody : forall r v d v' t, tree_at v r = Some t ->
    acquire_claim_body fromisoformat clock path owner r v = (d, v') -> grows v v').
  { intros r v d v' t Ht E. by apply (acquire_claim_body_spec _ _ _ _ _ _ _ Ht E). }
  split_and!.
  - intros E%commit_loop_run; [|exact Hbody]. inversion E as [| |r t k d w1 w2 res v Hg1 Ht He1 He2 Eb Hg2 Hd]; subst.
    apply (acquire_claim_body_spec _ _ _ _ _ _ _ Ht) in Eb as [_ Hdec].
    destruct d as [[a|ops a]|e]; [by destruct Hdec| |by destruct Hd].
    destruct Hdec as [-> Hp]. destruct Hd as ([oid|e] & Ec & Hres); [|by destruct Hres].
    pose proof (create_commit_law _ _ _ _ _ Ec) as (_ & t' & k' & Ht' & Hext & Hmain & _).
    pose proof (Ht' _ (proj1 Hg2 _ _ Ht)) as <-. exists t, k'. split_and!; [exact Hmain| |].
    + eapply extends_trans; [apply (grows_trans _ _ _ Hg1 Hg2)|exact Hext].
    + destruct Hp as [Hp|(o & now & Ho & Hc & He)]; [by left|right]. exists o, now, w2.
      split_and!; [done| |by eexists _, _, _|done]. by eapply clock_showed_wider; [exact Hg1|apply grows_refl|].
  - intros m Q E%commit_loop_run; [|exact Hbody].
    inversion E as [|e w1 v Hg Eh|r t k d w1 w2 res v Hg1 Ht He1 He2 Eb Hg2 Hd]; subst.
    { by apply (quiet_head (CoordinationError "coordination repository has no commit identity") Q) in Eh. }
    apply (acquire_claim_body_spec _ _ _ _ _ _ _ Ht) in Eb as [_ Hdec].
    destruct d as [[a|ops a]|e]; [by destruct Hdec| |].
    { destruct Hd as ([oid|e] & Ec & Hres); [done|]. destruct Hres as [_ [= <-]]. by apply (quiet_commit Q) in Ec. }
    destruct Hd as [[= <-] ->]. destruct (Hdec Q) as (o & now & Ho & Hc & He). exists t, k, o, now.
    split_and!; [done| |done| |done].
    + eapply extends_trans; [exact He2|apply Hg2].
    + by eapply clock_showed_wider; [exact Hg1|apply grows_refl|].
  - intros E. eapply commit_loop_ok in E; [|intros r; apply release_claim_body_spec].
    destruct E as [(t & _ & Ht)|(t & ops & k & Ht & Hm)]; [by destruct (Ht _ eq_refl)|].
    destruct (Ht _ eq_refl) as [[= -> ] Hp]. by exists t, k.
Qed.
End properties.

(** ** Example: an expired claim is taken over on the in-memory repository *)
Definition example_clock : hub memory Z := hub_ret 100.
Definition example_date (s : string) : option (option Z) :=
  if String.eqb s "50" then Some (Some 50) else if String.eqb s "200" then Some (Some 200) else None.
Definition example_owner (id expires : string) : dict string := [("owner", id); ("expires_at", expires)].
Definition example_hub : memory :=
  [<["claim.json" := DJson (_owner_payload (example_owner "first" "50"))]> ∅].

(** The trees [main] of the example repository went through, newest first. *)
#[local] Notation history := (main (HubLaws := memory_laws (fun _ _ => True))).

Lemma example_clock_grows w res w' :
  example_clock w = (res, w') -> grows (HubLaws := memory_laws (fun _ _ => True)) w w'.
Proof. intros [= <- <-]. apply grows_refl. Qed.

Lemma example_quiet : quiet_services example_clock.
Proof.
  split.
  - by intros w x w' [=].
  - intros path r w x w'. cbn. unfold at_revision. by destruct (memory_tree w r).
  - intros path r w x w'. cbn. unfold at_revision. destruct (memory_tree w r) as [t|]; [|done].
    by destruct (t !! path).
  - intros r ops w x w'. cbn. destruct w as [|t w]; [done|]. by destruct (bool_decide _).
  - by intros w x w' [=].
Qed.

(** The second owner takes the expired claim over, a third one is refused it, and
    the second gives it back. *)
Lemma claims_are_exclusive_witness :
  let owner := example_owner "second" "200" in
  let w := (acquire_claim example_date example_clock "claim.json" owner example_hub).2 in
  let w' := (release_claim "claim.json" owner w).2 in
  (exists t k, history w = <["claim.json" := DJson (_owner_payload owner)]> t :: t :: k /\
     (t !! "claim.json" = None \/ exists o now, t !! "claim.json" = Some (DJson o) /\ expired_at example_date o now)) /\
  (exists (t : tree) o now, t !! "claim.json" = Some (DJson o) /\ ~ expired_at example_date o now) /\
  (exists t k, history w' = delete "claim.json" t :: t :: k /\
     t !! "claim.json" = Some (DJson (_owner_payload owner))).
Proof.
  intros owner w w'. split; [|split].
  - destruct (proj1 (claims_are_exclusive (LAWS := memory_laws _) example_date example_clock example_clock_grows
      "claim.json" owner example_hub w)) as (t & k & Hm & _ & Hp); [vm_compute; reflexivity|].
    exists t, k. split; [exact Hm|]. destruct Hp as [Hp|(o & now & u & Ho & _ & _ & He)]; [by left|right].
    exists o, now. split; [exact Ho|exact He].
  - destruct (proj1 (proj2 (claims_are_exclusive (LAWS := memory_laws (fun _ _ => True)) example_date example_clock
      example_clock_grows "claim.json" (example_owner "third" "200") w
      (acquire_claim example_date example_clock "claim.json" (example_owner "third" "200") w).2))
      "claim is already held: claim.json" example_quiet) as (t & k & o & now & _ & _ & Ho & _ & He);
      [vm_compute; reflexivity|].
    exists t, o, now. split; [exact Ho|exact He].
  - apply (proj2 (proj2 (claims_are_exclusive (LAWS := memory_laws _) example_date example_clock example_clock_grows
                    "claim.json" owner w w'))). vm_compute. reflexivity.
Defined.
