(* ===== verification/EndpointProperties.v ===== *)
(** Properties of managed endpoints. *)
From Stdlib Require Import Floats.SpecFloat.
From S2P Require Import Prelude.
From S2P Require Import PyDict.
From S2P Require Import Float64.
From S2P Require Import Sha256.
From S2P Require Import Paths.
From S2P Require Import Json.
From S2P Require Import Patterns.
From S2P Require Import Campaigns.
From S2P Require Import Models.
From S2P Require Import Manifest.
From S2P Require Import Planner.
From S2P Require Import Hub.
From S2P Require Import Endpoints.
From S2P Require Import EndpointFacts.

(** ** Identities *)
Lemma hex_profile_chars s :
  str_forall is_hex_char s = true ->
  str_forall (fun c => (is_lower c || is_digit c) || Ascii.eqb c "-"%char) s = true.
Proof.
  apply str_forall_impl. intros c Hc. unfold is_hex_char in Hc. unfold is_lower, is_digit, char_between in *.
  change (Ascii.N_of_ascii "f"%char) with 102%N in Hc. change (Ascii.N_of_ascii "z"%char) with 122%N.
  apply orb_true_iff in Hc. rewrite !andb_true_iff, !N.leb_le in Hc.
  apply orb_true_iff. left. rewrite orb_true_iff, !andb_true_iff, !N.leb_le.
  destruct Hc as [?|[? ?]]; [by right|left]. split; [done|lia].
Qed.

Lemma identity_name_valid h :
  str_forall is_hex_char h = true -> String.length h = 64%nat ->
  is_profile_id ("harbor-hf-" +:+ str_take 40 h) = true.
Proof.
  intros Hh Hl. change ("harbor-hf-" +:+ str_take 40 h) with (String "h" ("arbor-hf-" +:+ str_take 40 h)).
  unfold is_profile_id, head_rest. rewrite !andb_true_iff. split_and!; [done| |].
  - change ("arbor-hf-" +:+ str_take 40 h) with (String "a" (String "r" (String "b" (String "o" (String "r"
      (String "-" (String "h" (String "f" (String "-" (str_take 40 h)))))))))).
    cbn [str_forall]. rewrite hex_profile_chars by (by apply str_forall_take). done.
  - change (String.length ("arbor-hf-" +:+ str_take 40 h)) with (9 + String.length (str_take 40 h))%nat.
    rewrite str_take_length by lia. done.
Qed.

(** The identity of a managed endpoint is a function of its namespace,
    campaign and deployment, and it is always a valid one: the name it computes
    fits the pattern of endpoint names, the tags are the sorted computed ones,
    so constructing it never fails for a valid campaign and digest. *)
Theorem managed_identity_is_valid namespace campaign_id digest :
  nonempty namespace = true -> safe_component 99 campaign_id = true -> is_content_digest digest = true ->
  exists i, managed_endpoint_identity namespace campaign_id digest = Ok i /\
    mi_namespace i = namespace /\ mi_campaign_id i = campaign_id /\ mi_deployment_digest i = digest /\
    (mi_name i, mi_tags i) = _managed_identity_values namespace campaign_id digest /\
    is_profile_id (mi_name i) = true /\ _MANAGED_TAG ∈ mi_tags i /\
    validate_identity i = Ok i.
Proof.
  intros Hn Hc Hd. unfold managed_endpoint_identity.
  destruct (_managed_identity_values namespace campaign_id digest) as [name tags] eqn:Ev.
  assert (Hname : is_profile_id name = true).
  { unfold _managed_identity_values in Ev. injection Ev as <- _. unfold _digest.
    rewrite removeprefix_app. apply identity_name_valid; apply sha256_hex_chars. }
  assert (Htags : sort_by str_leb tags = tags /\ _MANAGED_TAG ∈ tags).
  { assert (Et : tags = (_managed_identity_values namespace campaign_id digest).2) by (by rewrite Ev).
    rewrite Et. unfold _managed_identity_values. cbn [snd]. split.
    - apply sort_by_id, sort_by_sorted; [apply str_leb_total|apply str_leb_trans].
    - apply sort_by_elem_of. by left. }
  destruct Htags as [Hsort Hin].
  exists {| mi_namespace := namespace; mi_name := name; mi_campaign_id := campaign_id;
            mi_deployment_digest := digest; mi_tags := tags |}.
  assert (Hv : forall i, mi_namespace i = namespace -> mi_name i = name -> mi_campaign_id i = campaign_id ->
            mi_deployment_digest i = digest -> mi_tags i = tags -> validate_identity i = Ok i).
  { intros [ns nm c d t]. cbn. intros -> -> -> -> ->. unfold validate_identity.
    cbn [mi_namespace mi_name mi_campaign_id mi_deployment_digest mi_tags].
    rewrite Hsort, Hn, Hname, Hc, Hd. unfold fields_ok.
    cbn [andb result_bind]. rewrite Ev, String.eqb_refl, (bool_decide_eq_true_2 (tags = tags)) by done. done. }
  split_and!; try done; by apply Hv.
Qed.

Lemma managed_identity_is_valid_witness :
  exists i, managed_endpoint_identity "owner" "demo" ("sha256:" +:+ sha256_hex "x") = Ok i /\
    mi_namespace i = "owner" /\ mi_campaign_id i = "demo" /\
    mi_deployment_digest i = "sha256:" +:+ sha256_hex "x" /\
    (mi_name i, mi_tags i) = _managed_identity_values "owner" "demo" ("sha256:" +:+ sha256_hex "x") /\
    is_profile_id (mi_name i) = true /\ _MANAGED_TAG ∈ mi_tags i /\ validate_identity i = Ok i.
Proof.
  apply (managed_identity_is_valid "owner" "demo" ("sha256:" +:+ sha256_hex "x"));
    [reflexivity|reflexivity|vm_compute; reflexivity].
Defined.

(** ** Provisioning *)
Section provisioning.
Context {W : Type} {PORT : EndpointProvisioningPort W}.

(** C28: what provisioning returns is what was asked for, and costs nothing yet:
    the snapshot has the deterministic identity, its configuration equals the
    desired one field by field (environments as dictionaries), and the last
    inspection of the provider saw it paused without a replica.  An endpoint
    that already exists is only looked at: it is adopted if it is exact and
    paused, otherwise an error is raised and nothing was asked of the provider. *)
Theorem provisioning_is_exact_and_paused desired timeout poll w res w' :
  create_or_adopt desired timeout poll w = (res, w') ->
  (forall r, res = Ok r ->
     let s := pr_snapshot r in
     sn_namespace s = mi_namespace (de_identity desired) /\ sn_name s = mi_name (de_identity desired) /\
     (configuration_wf (de_configuration desired) -> configuration_wf (sn_configuration s) ->
      same_configuration (de_configuration desired) (sn_configuration s)) /\
     seen_paused (de_identity desired) s w') /\
  (forall s w1, port_inspect (de_identity desired) w = (Ok (Some s), w1) ->
     w' = w1 /\
     (verified desired s -> _is_paused_zero_ready s = true ->
      res = Ok {| pr_action := endpoint_adopted; pr_snapshot := s |}) /\
     (verified desired s -> _is_paused_zero_ready s = false -> exists m, res = Err (EndpointNotPaused m)) /\
     (~ verified desired s -> exists e, res = Err e /\ is_mismatch e = true)).
Proof.
  intros E. split.
  - intros r ->. assert (Hs : verified desired (pr_snapshot r) /\
                         seen_paused (de_identity desired) (pr_snapshot r) w').
    { apply hub_bind_ok in E as ([s|] & w1 & E1 & E).
      - apply hub_bind_ok in E as ([] & w2 & E2 & E). injection E2 as E2 <-. injection E as <- <-. cbn.
        apply endpoint_inspect_ok in E1 as [Hv Hi]. split; [done|]. split; [|eauto].
        unfold require_paused_zero_ready in E2. by destruct (_is_paused_zero_ready s).
      - apply hub_bind_ok in E as (c & w2 & _ & E). apply hub_bind_ok in E as ([] & w3 & _ & E).
        apply hub_bind_ok in E as (p & w4 & E4 & E). injection E as <- <-. by eapply pause_created_ok. }
    destruct Hs as [Hv Hp]. unfold verified, verify_exact_endpoint in Hv.
    destruct (String.eqb_spec (sn_namespace (pr_snapshot r)) (mi_namespace (de_identity desired))); [|done].
    destruct (String.eqb_spec (sn_name (pr_snapshot r)) (mi_name (de_identity desired))); [|done].
    destruct (subset_of _ _); [|done]. cbn [negb orb] in Hv.
    destruct (effective_configuration_mismatches _ _) eqn:Em; [|done].
    split_and!; try done. intros H1 H2. by apply no_mismatch_iff.
  - intros s w1 Es. unfold create_or_adopt, endpoint_inspect, hub_bind in E. rewrite Es in E. cbn in E.
    unfold verified, hub_lift, hub_ret in *. destruct (verify_exact_endpoint desired s) as [[]|e] eqn:Ev.
    + unfold require_paused_zero_ready in E. destruct (_is_paused_zero_ready s); injection E as <- <-.
      * split_and!; [done|done|done|by intros []].
      * split_and!; [done|done|eauto|by intros []].
    + injection E as <- <-. split_and!; try done. intros _. eexists. split; [done|].
      unfold verify_exact_endpoint in Ev. repeat case_match; simplify_eq; done.
Qed.

(** A created endpoint is never left running behind a plain failure.  Once
    the provider has created the endpoint as desired, [create_or_adopt] returns
    it paused, or fails with [AmbiguousEndpointPause], which callers must
    retry, or reports a mismatch after an inspection that saw it paused; only
    exceptions that are no provisioning errors escape otherwise. *)
Theorem created_endpoint_is_not_left_running desired timeout poll w w1 w2 s res w' :
  port_inspect (de_identity desired) w = (Ok None, w1) ->
  port_create desired w1 = (Ok s, w2) -> verified desired s ->
  create_or_adopt desired timeout poll w = (res, w') ->
  (exists r, res = Ok r /\ seen_paused (de_identity desired) (pr_snapshot r) w') \/
  (exists m, res = Err (AmbiguousEndpointPause m)) \/
  (exists e t, res = Err e /\ is_mismatch e = true /\ seen_paused (de_identity desired) t w') \/
  (exists e, res = Err e /\ is_provisioning_error e = false).
Proof.
  intros E1 E2 Hv E. unfold create_or_adopt, endpoint_inspect, hub_bind in E. rewrite E1 in E. cbn in E.
  unfold create_endpoint, hub_catch, hub_bind in E. rewrite E2 in E. cbn in E.
  unfold hub_lift in E. unfold verified in Hv. rewrite Hv in E. cbn in E.
  destruct (pause_created desired timeout poll w2) as [[p|e] w3] eqn:Ep; injection E as <- <-.
  - left. eexists. split; [done|]. cbn. by eapply pause_created_ok.
  - destruct (is_provisioning_error e) eqn:He; [|right; right; right; eauto].
    right. destruct (pause_created_err _ _ _ _ _ _ Ep He) as [[m ->]|[Hm [t Ht]]]; [left; eauto|].
    right. left. exists e, t. done.
Qed.

(** C29: provisioning terminates.  With a clock that never turns back and that
    [sleep] advances by what it is asked for, whatever the provider answers,
    creating, pausing and deleting an endpoint end after finitely many polls:
    the fuel of the loops, one more than the polls that fit into the timeout
    plus one, is never used up. *)
Theorem provisioning_terminates (now : W -> Z) {CLOCK : ClockLaws W now} desired timeout poll w :
  (create_or_adopt desired timeout poll w).1 <> Err OutOfFuel /\
  (pause_and_verify desired timeout poll w).1 <> Err OutOfFuel /\
  (endpoint_delete desired timeout poll w).1 <> Err OutOfFuel.
Proof.
  split_and!.
  - destruct (create_or_adopt desired timeout poll w) as [res w'] eqn:E.
    by apply (create_or_adopt_timely now _ _ _ _ _ _ E).
  - destruct (pause_and_verify desired timeout poll w) as [res w'] eqn:E.
    by apply (pause_and_verify_timely now _ _ _ _ _ _ E).
  - destruct (endpoint_delete desired timeout poll w) as [res w'] eqn:E.
    by apply (endpoint_delete_timely now _ _ _ _ _ _ E).
Qed.
End provisioning.

(** ** A provider in memory *)

(** One endpoint, a clock, and how the provider misbehaves: what it configures
    instead, whether a create answers with an error, and whether pausing is
    refused. *)
Record cloud := {
  cl_now : Z;
  cl_endpoint : option EndpointSnapshot;
  cl_configures : option EndpointConfiguration;
  cl_create_ambiguous : bool;
  cl_pause_refused : bool;
}.

Definition cloud_with (c : cloud) (now : Z) (e : option EndpointSnapshot) : cloud := {|
  cl_now := now; cl_endpoint := e; cl_configures := cl_configures c;
  cl_create_ambiguous := cl_create_ambiguous c; cl_pause_refused := cl_pause_refused c |}.

Definition running : EndpointStatus :=
  {| st_state := "running"; st_ready_replicas := 1; st_target_replicas := 1; st_url := None |}.
Definition paused : EndpointStatus :=
  {| st_state := "paused"; st_ready_replicas := 0; st_target_replicas := 0; st_url := None |}.

Definition cloud_create (d : DesiredEndpoint) (c : cloud) : result EndpointSnapshot * cloud :=
  let s := {| sn_namespace := mi_namespace (de_identity d); sn_name := mi_name (de_identity d);
              sn_configuration := match cl_configures c with Some x => x | None => de_configuration d end;
              sn_status := running |} in
  (if cl_create_ambiguous c then Err (AmbiguousEndpointCreate "no response") else Ok s,
   cloud_with c (cl_now c + 1) (Some s)).

Definition cloud_inspect (c : cloud) : result (option EndpointSnapshot) * cloud :=
  (Ok (cl_endpoint c), cloud_with c (cl_now c + 1) (cl_endpoint c)).

Definition cloud_pause (c : cloud) : result EndpointSnapshot * cloud :=
  if cl_pause_refused c then (Err (EndpointProviderError "HTTP 403"), cloud_with c (cl_now c + 1) (cl_endpoint c))
  else match cl_endpoint c with
       | None => (Err (EndpointNotFound "no endpoint"), cloud_with c (cl_now c + 1) None)
       | Some s =>
           let s := {| sn_namespace := sn_namespace s; sn_name := sn_name s;
                       sn_configuration := sn_configuration s; sn_status := paused |} in
           (Ok s, cloud_with c (cl_now c + 1) (Some s))
       end.

#[local] Instance cloud_port : EndpointProvisioningPort cloud := {|
  port_create := cloud_create;
  port_inspect _ := cloud_inspect;
  port_pause _ := cloud_pause;
  port_delete _ c := (Ok tt, cloud_with c (cl_now c + 1) None);
  clock_sleep d c := (Ok tt, cloud_with c (cl_now c + Z.max 0 d) (cl_endpoint c));
  clock_monotonic c := (Ok (cl_now c), c);
|}.

#[local] Instance cloud_clock : ClockLaws cloud cl_now.
Proof.
  split; cbn; unfold cloud_create, cloud_inspect, cloud_pause; intros;
    repeat case_match; simplify_eq; cbn; split; try lia; try done; eauto with lia.
Defined.

Definition demo_endpoint_configuration (image : string) (tags : list string) : EndpointConfiguration := {|
  cf_model := {| em_repository := "org/model"; em_revision := "1"; em_framework := "custom";
                 em_task := "text-generation";
                 em_image := {| ei_url := image; ei_health_route := "/health"; ei_port := None |};
                 em_command := []; em_arguments := []; em_environment := [("A", "1")]; em_secret_names := [] |};
  cf_compute := {| ec_accelerator := "gpu"; ec_instance_size := "x1"; ec_instance_type := "nvidia-a10g";
                   ec_scaling := {| sc_min_replicas := 1; sc_max_replicas := 1; sc_scale_to_zero_timeout := None;
                                    sc_metric := None; sc_threshold := None |} |};
  cf_provider := {| ev_vendor := "aws"; ev_region := "us-east-1"; ev_account_id := None |};
  cf_access_type := access_authenticated;
  cf_route := {| rt_domain := None; rt_path := None |};
  cf_cache_http_responses := false;
  cf_tags := tags;
|}.

Definition demo_identity : ManagedEndpointIdentity := {|
  mi_namespace := "owner"; mi_name := "harbor-hf-demo"; mi_campaign_id := "demo";
  mi_deployment_digest := "digest"; mi_tags := ["harbor-hf-managed"] |}.

Definition demo_desired : DesiredEndpoint := {|
  de_identity := demo_identity;
  de_configuration := demo_endpoint_configuration "image" ["harbor-hf-managed"] |}.

Definition empty_cloud (configures : option EndpointConfiguration) (ambiguous refused : bool) : cloud :=
  {| cl_now := 0; cl_endpoint := None; cl_configures := configures;
     cl_create_ambiguous := ambiguous; cl_pause_refused := refused |}.

Definition demo_provision (c : cloud) : result ProvisioningResult * cloud :=
  create_or_adopt demo_desired 300000000 5000000 c.

Example demo_provision_created :
  match (demo_provision (empty_cloud None false false)).1 with
  | Ok r => (pr_action r, st_state (sn_status (pr_snapshot r)))
  | Err _ => (endpoint_adopted, "")
  end = (endpoint_created, "paused").
Proof. vm_compute. reflexivity. Qed.

Example demo_provision_ambiguous :
  match (demo_provision (empty_cloud None true false)).1 with
  | Ok r => (pr_action r, st_state (sn_status (pr_snapshot r)))
  | Err _ => (endpoint_created, "")
  end = (endpoint_adopted, "paused").
Proof. vm_compute. reflexivity. Qed.

Example demo_delete :
  (hub_bind (create_or_adopt demo_desired 300000000 5000000)
     (fun _ => endpoint_delete demo_desired 300000000 5000000) (empty_cloud None false false)).1 = Ok true.
Proof. vm_compute. reflexivity. Qed.

(** Refusing to pause costs the whole timeout in polls, and ends. *)
Example demo_refused :
  (pause_and_verify demo_desired 300000000 5000000
     (demo_provision (empty_cloud None false true)).2).1 = Err (EndpointProviderError "HTTP 403").
Proof. vm_compute. reflexivity. Qed.

Lemma provisioning_is_exact_and_paused_witness :
  let c := empty_cloud None false false in
  exists r, (demo_provision c).1 = Ok r /\
     sn_namespace (pr_snapshot r) = "owner" /\ sn_name (pr_snapshot r) = "harbor-hf-demo" /\
     seen_paused demo_identity (pr_snapshot r) (demo_provision c).2.
Proof.
  intros c. assert (Hok : match (demo_provision c).1 with Ok _ => true | Err _ => false end = true)
    by (vm_compute; reflexivity).
  destruct (demo_provision c) as [[r|] c'] eqn:E; [|discriminate Hok]. exists r. split; [reflexivity|].
  destruct (proj1 (provisioning_is_exact_and_paused demo_desired 300000000 5000000 c (Ok r) c' E) r eq_refl)
    as (H1 & H2 & _ & H3).
  split; [exact H1|]. split; [exact H2|exact H3].
Defined.

Lemma created_endpoint_is_not_left_running_witness :
  let c := empty_cloud None false true in
  (exists r, (demo_provision c).1 = Ok r /\ seen_paused demo_identity (pr_snapshot r) (demo_provision c).2) \/
  (exists m, (demo_provision c).1 = Err (AmbiguousEndpointPause m)) \/
  (exists e t, (demo_provision c).1 = Err e /\ is_mismatch e = true /\
     seen_paused demo_identity t (demo_provision c).2) \/
  (exists e, (demo_provision c).1 = Err e /\ is_provisioning_error e = false).
Proof.
  intros c.
  apply (created_endpoint_is_not_left_running demo_desired 300000000 5000000 c
           (cloud_with c 1 None) (cloud_create demo_desired (cloud_with c 1 None)).2
           {| sn_namespace := "owner"; sn_name := "harbor-hf-demo";
              sn_configuration := de_configuration demo_desired; sn_status := running |}
           (demo_provision c).1 (demo_provision c).2);
    [reflexivity|reflexivity|vm_compute; reflexivity|apply (surjective_pairing (demo_provision c))].
Defined.

Lemma provisioning_terminates_witness :
  let c := empty_cloud None true true in
  (create_or_adopt demo_desired 300000000 5000000 c).1 <> Err OutOfFuel /\
  (pause_and_verify demo_desired 300000000 5000000 c).1 <> Err OutOfFuel /\
  (endpoint_delete demo_desired 300000000 5000000 c).1 <> Err OutOfFuel.
Proof. intros c. apply (provisioning_terminates cl_now demo_desired 300000000 5000000 c). Defined.

(** The guarantee does not extend to an endpoint the provider configured
    differently: when its cleanup is refused, [create_or_adopt] raises the
    provider's plain [EndpointProviderError] instead of
    [AmbiguousEndpointPause], while the endpoint it created keeps running. *)
Theorem mismatched_endpoint_is_left_running :
  let c := empty_cloud (Some (demo_endpoint_configuration "other" ["harbor-hf-managed"])) false true in
  (demo_provision c).1 = Err (EndpointProviderError "HTTP 403") /\
  exists s, cl_endpoint (demo_provision c).2 = Some s /\ st_state (sn_status s) = "running" /\
    st_ready_replicas (sn_status s) = 1.
Proof. split; [vm_compute; reflexivity|]. eexists. split_and!; vm_compute; reflexivity. Qed.
