(* ===== verification/PlannerProperties.v ===== *)
(** Properties of manifests, campaign plans and wave locks. *)
From Stdlib Require Import Floats.SpecFloat.
From S2P Require Import Prelude.
From S2P Require Import PyDict.
From S2P Require Import Float64.
From S2P Require Import Sha256.
From S2P Require Import Json.
From S2P Require Import Patterns.
From S2P Require Import Control.
From S2P Require Import Recovery.
From S2P Require Import Reconciler.
From S2P Require Import Admission.
From S2P Require Import Scenario.
From S2P Require Import Campaigns.
From S2P Require Import Models.
From S2P Require Import Manifest.
From S2P Require Import ManifestFacts.
From S2P Require Import Planner.
From S2P Require Import PlannerFacts.
From S2P Require Import Endpoints.
From S2P Require Import Waves.
From S2P Require Import WaveFacts.

(** ** Manifests *)

(** C39: validation is a normal form.  A manifest that was validated keeps every
    section but the benchmark as it was; of the benchmark, the repository of a Git
    source is canonicalized, with its revision, its path and any other source kept,
    and the dataset digest becomes the one that the source or the content address
    of the dataset determines, if they do, a digest that was given being kept;
    the other fields are kept; and validating the result again, as every run lock
    does, returns it unchanged, provided the repository is canonical. *)
Theorem validation_is_idempotent spec spec' :
  validate_ExperimentSpec spec = Ok spec' ->
  let b := spec_benchmark spec in
  let b' := spec_benchmark spec' in
  same_but_benchmark spec spec' /\
  bm_dataset b' = bm_dataset b /\ bm_judge b' = bm_judge b /\
  bm_task_names b' = bm_task_names b /\ bm_task_digests b' = bm_task_digests b /\
  source_canonicalized (bm_source b) (bm_source b') /\ digest_determined b b' /\
  (source_is_canonical (bm_source b') -> validate_ExperimentSpec spec' = Ok spec').
Proof.
  intros (Hs & Hb & _ & _ & _ & Hagain)%validate_ExperimentSpec_ok. cbv zeta.
  pose proof (validated_digest _ _ Hb) as Hd.
  apply validate_BenchmarkSpec_ok in Hb as (H1 & H2 & H3 & H4 & Hsrc & _). apply source_validated in Hsrc.
  split; [exact Hs|]. repeat (split; [done|]). exact Hagain.
Qed.

Lemma validation_is_idempotent_witness :
  same_but_benchmark demo_spec demo_spec /\
  source_canonicalized (bm_source (spec_benchmark demo_spec)) (bm_source (spec_benchmark demo_spec)) /\
  digest_determined (spec_benchmark demo_spec) (spec_benchmark demo_spec) /\
  (source_is_canonical (bm_source (spec_benchmark demo_spec)) -> validate_ExperimentSpec demo_spec = Ok demo_spec).
Proof.
  destruct (validation_is_idempotent demo_spec demo_spec) as (Hs & _ & _ & _ & _ & Hsrc & Hd & Ha);
    [vm_compute; reflexivity|].
  split; [exact Hs|]. split; [exact Hsrc|]. split; [exact Hd|exact Ha].
Defined.

(** A repository named [x.git] is not canonical after one validation: the second
    one strips the suffix again, and with it changes the source digest. *)
Example repository_suffix_stripped_twice :
  let source r := {| gs_repository := r; gs_revision := commit_of "1"; gs_path := "tasks" |} in
  match validate_GitBenchmarkSource (source "https://github.com/owner/x.git.git") with
  | Ok s => gs_repository s = "owner/x.git" /\
            match validate_GitBenchmarkSource s with
            | Ok s' => gs_repository s' = "owner/x" /\
                       git_benchmark_source_digest s' <> git_benchmark_source_digest s
            | Err _ => False
            end
  | Err _ => False
  end.
Proof. cbv zeta. split; [vm_compute; reflexivity|]. split; [vm_compute; reflexivity|]. by vm_compute. Qed.




(** ** Campaign locks *)
(** C38: a campaign lock is reproducible.  Rebuilding the plan and the lock of a
    campaign from its manifest, with the benchmark source, the recovery policy,
    the identifier and the time that the lock records (the check that every wave
    lock makes), gives the same lock again, whichever defaults the plan was
    first built with. *)
Theorem campaign_lock_is_reproducible spec lock policy id now p campaign :
  build_campaign_plan spec lock policy = Ok p -> build_campaign_lock p id now = Ok campaign ->
  expected_campaign campaign spec = Ok campaign.
Proof.
  intros Hp%build_campaign_plan_default Hl.
  destruct (build_campaign_lock_ids _ _ _ _ Hl) as (Hid & Hnow & Hsource & Hpolicy).
  unfold expected_campaign. rewrite Hid, Hnow, Hsource, Hpolicy, Hp. exact Hl.
Qed.

Lemma demo_campaign_exists :
  exists p campaign, build_campaign_plan demo_spec None None = Ok p /\
    build_campaign_lock p "demo-campaign" demo_created_at = Ok campaign.
Proof.
  destruct (result_ok_exists demo_campaign_result demo_campaign_ok) as [campaign E].
  apply result_bind_Ok in E as (p & Hp & Hl). exists p, campaign. split; [exact Hp|exact Hl].
Qed.

Lemma campaign_lock_is_reproducible_witness :
  exists campaign, campaign_id campaign = "demo-campaign" /\ expected_campaign campaign demo_spec = Ok campaign.
Proof.
  destruct demo_campaign_exists as (p & campaign & Hp & Hl). exists campaign.
  split; [apply (build_campaign_lock_ids _ _ _ _ Hl)|].
  apply (campaign_lock_is_reproducible demo_spec None None "demo-campaign" demo_created_at p campaign Hp Hl).
Defined.



(** ** Where plans and waves part *)
(** A wave that closes before it reached all of its shards stops the
    controller.  The reconciler returns the untouched shard to the pool and
    proposes a wave that joins it with shards of the next initial wave; that
    set of shards is no initial wave of the campaign lock, so looking up its
    planned duration raises, and the controller ends instead of submitting it. *)
Theorem partial_wave_stops_the_controller :
  returns (let* campaign := demo_campaign_result in
           let* planned := plan_reconciliation campaign (partial_wave_events campaign) default_context 20000000 in
           Ok (campaign, planned))
    (fun '(campaign, (_, plan)) =>
       exists action, rpl_actions plan = [action] /\ act_kind action = submit_wave /\
         (exists wave shard, wave ∈ initial_waves campaign /\ shard ∈ lw_shard_ids wave /\
            shard ∈ act_shard_ids action) /\
         _planned_action_seconds campaign action =
           Err (CampaignControllerError "provider action does not match one locked initial wave")).
Proof.
  apply (decides_returns _ (fun '(campaign, (_, plan)) =>
    match rpl_actions plan with
    | [action] =>
        bool_decide (act_kind action = submit_wave) &&
        existsb (fun wave => existsb (fun shard => str_mem shard (act_shard_ids action)) (lw_shard_ids wave))
          (initial_waves campaign) &&
        bool_decide (_planned_action_seconds campaign action =
          Err (CampaignControllerError "provider action does not match one locked initial wave"))
    | _ => false
    end)); [rewrite demo_campaign_computed; vm_compute; reflexivity|].
  intros [campaign [p plan]] Hall. destruct (rpl_actions plan) as [|action [|]]; try discriminate Hall.
  apply andb_true_iff in Hall as [[H1 H2]%andb_true_iff H3]. exists action.
  apply existsb_exists in H2 as (wave & Hw & (shard & Hs & Hm)%existsb_exists).
  apply bool_decide_eq_true in H1, H3. split_and!; try done.
  exists wave, shard. split_and!; [by apply list_elem_of_In..|by apply str_mem_true].
Qed.

(** A locked wave can be planned shorter than its trials take.  The lock
    groups the shards of a deployment in the order of their identifiers, but
    keeps the duration of the largest wave of the plan, which groups them in
    the order of the matrix; a locked wave of 16 trials then gets the 2925
    seconds of a planned wave of 13, while the duration rule asks for 3300. *)
Theorem locked_wave_is_underestimated :
  returns uneven_campaign_result
    (fun campaign => exists wave policy, wave ∈ initial_waves campaign /\
       controller_policy campaign = Some policy /\ lw_trial_count wave = 16 /\
       lw_planned_duration_seconds wave = 2925 /\
       planned_provider_wave_seconds policy (lw_trial_count wave) (lw_effective_concurrency wave) = Ok 3300).
Proof.
  apply (decides_returns _ (fun campaign =>
    match controller_policy campaign with
    | Some policy =>
        existsb (fun wave => (lw_trial_count wave =? 16) && (lw_planned_duration_seconds wave =? 2925) &&
          bool_decide (planned_provider_wave_seconds policy (lw_trial_count wave)
                         (lw_effective_concurrency wave) = Ok 3300)) (initial_waves campaign)
    | None => false
    end)); [vm_compute; reflexivity|].
  intros campaign Hall. destruct (controller_policy campaign) as [policy|]; [|discriminate Hall].
  apply existsb_exists in Hall as (wave & Hw & H). rewrite !andb_true_iff, !Z.eqb_eq in H.
  destruct H as [[H1 H2] H3]. apply bool_decide_eq_true in H3. exists wave, policy.
  split_and!; try done. by apply list_elem_of_In.
Qed.
