(* ===== verification/LaunchProperties.v ===== *)
(** Properties of launching and recovering campaign controllers. *)
From S2P Require Import Prelude.
From S2P Require Import PyDict.
From S2P Require Import Json.
From S2P Require Import Campaigns.
From S2P Require Import Control.
From S2P Require Import Recovery.
From S2P Require Import Hub.
From S2P Require Import ControllerStatus.
From S2P Require Import ControllerProtocol.
From S2P Require Import ControllerStoreFacts.
From S2P Require Import ControlStore.
From S2P Require Import Launch.
From S2P Require Import LaunchFacts.
From S2P Require Import Watchdog.
From S2P Require Import HubModel.
From S2P Require Import Models.
From S2P Require Import Scenario.
From S2P Require Import ControllerScenario.

Section properties.
Context {MC : PydanticModel ControllerClaim} {PC : PydanticLaws ControllerClaim ControllerClaim_valid}
  {MS : PydanticModel ControllerStatus} {PS : PydanticLaws ControllerStatus ControllerStatus_valid}
  {ML : PydanticModel ControllerLaunchClaim}
  {PL : PydanticLaws ControllerLaunchClaim ControllerLaunchClaim_valid}
  {MP : PydanticModel ProviderCapacityClaim}
  {PP : PydanticLaws ProviderCapacityClaim ProviderCapacityClaim_valid}
  {MR : PydanticModel ControllerLaunchReceipt}
  {PR : PydanticLaws ControllerLaunchReceipt ControllerLaunchReceipt_valid}
  {MAT : PydanticModel ControllerAttemptReservation}
  {PAT : PydanticLaws ControllerAttemptReservation ControllerAttemptReservation_valid}
  {MRD : PydanticModel ControllerRecoveryDecision}
  {PRD : PydanticLaws ControllerRecoveryDecision ControllerRecoveryDecision_valid}
  {MST : PydanticModel ControllerStartedReceipt} {MEN : PydanticModel ControllerEndedReceipt}
  {MCL : PydanticModel CampaignLock}.
Context {W : Type} {API : HubApi W} {LAWS : HubLaws W controller_step} {JOBS : JobsApi W}
  {JLAWS : JobsLaws W}.

(** A receipt that is recorded is found by the look-up. *)
Lemma read_launch_recorded r job w res w' :
  launched r job w -> read_launch (at_campaign_id r) (at_attempt r) w = (res, w') ->
  res <> Ok None /\ launched r job w'.
Proof.
  intros Hl E. set (l := LLaunchReceipt (at_campaign_id r) (at_attempt r)).
  apply hub_bind_inv in E as (h & w1 & Eh & E).
  destruct (hub_head_law _ _ _ _ Eh) as [Hg1 Hh]. pose proof (launched_stable _ _ _ _ Hl Hg1) as Hl1.
  destruct h as [h|e]; [|by destruct E as [-> ->]].
  destruct (Hh h eq_refl) as (t & k & Ht & Hext & _).
  apply hub_bind_inv in E as (p & w2 & Ep & E). unfold hub_lift in Ep. injection Ep as <- <-.
  destruct (controller_launch_receipt_path _ _) as [p|e] eqn:Ep; [|by destruct E as [-> ->]].
  apply launch_receipt_path_ok in Ep as [Hok ->].
  destruct (reads_optional _ _ _ _ _ _ _ Ht E) as [Hg2 Hr].
  split; [|by eapply launched_stable]. intros ->. unfold read_spec in Hr.
  destruct Hl as [_ (t0 & k0 & Hm & Hrec)]. rewrite Hm in Hext.
  destruct (extends_rtc _ _ _ _ Hext) as (t' & k' & [= <- <-] & Hs).
  apply record_at_present in Hrec as [d Hd].
  apply (steps_keep _ _ l d Hs Hok eq_refl) in Hd. unfold l in Hd. rewrite Hd in Hr. discriminate Hr.
Qed.

(** C24: an attempt has one Job.  Two launches of one attempt that return, the
    second one any time after the first, return the same Job; and once the Job of
    an attempt is recorded, a launch only looks it up: it starts nothing, takes
    no lease and writes nothing. *)
Theorem one_job_per_attempt local r1 r2 ns1 ns2 labels1 labels2 cmd1 cmd2 names1 names2 w w1 w2 res w3 job1 :
  at_campaign_id r2 = at_campaign_id r1 -> at_attempt r2 = at_attempt r1 ->
  _launch_or_adopt_controller local ns1 labels1 cmd1 names1 r1 w = (Ok job1, w1) -> grows w1 w2 ->
  _launch_or_adopt_controller local ns2 labels2 cmd2 names2 r2 w2 = (res, w3) ->
  (forall job2, res = Ok job2 -> job2 = job1) /\
  (res, w3) = hub_bind (read_launch (at_campaign_id r1) (at_attempt r1)) (fun recorded =>
    match recorded with
    | Some receipt => hub_lift (_validated_launch_receipt receipt r2)
    | None => hub_raise AssertionError
    end) w2.
Proof.
  intros Hc Ha E1 Hg E2.
  destruct (launch_triple _ _ _ _ _ _ _ _ _ I E1) as [_ H1]. specialize (H1 job1 eq_refl).
  pose proof (launched_stable _ _ _ _ H1 Hg) as H2.
  destruct (launch_triple _ _ _ _ _ _ _ _ _ I E2) as [Hg3 H3].
  pose proof (launched_stable _ _ _ _ H2 Hg3) as [_ (t & k & Hm & Hr1)]. split.
  - intros job2 ->. destruct (H3 job2 eq_refl) as [_ (t' & k' & Hm' & Hr2)].
    rewrite Hm in Hm'. injection Hm' as <- <-. unfold recorded in Hr1, Hr2.
    rewrite Hc, Ha, Hr1 in Hr2. by injection Hr2.
  - rewrite <- E2. unfold _launch_or_adopt_controller, _existing_controller_launch. rewrite Hc, Ha.
    destruct (read_launch (at_campaign_id r1) (at_attempt r1) w2) as [o w4] eqn:Er.
    destruct (read_launch_recorded _ _ _ _ _ H2 Er) as [Hne _].
    unfold hub_bind, hub_lift, hub_ret. rewrite Er.
    destruct o as [[x|]|e]; [|done|done]. by destruct (_validated_launch_receipt x r2).
Qed.

(** The states of a controller that was lost rather than stopped. *)
Definition is_lost_state (s : ControllerState) : bool :=
  match s with
  | controller_starting | controller_running | controller_waiting_retry | controller_finalizing
  | controller_failed_infrastructure => true
  | _ => false
  end.

(** A controller was lost: the campaign has a controller policy, every Job of it has
    ended, nobody holds an unexpired claim, its status is one of a controller at
    work or of an infrastructure failure, and attempts are left. *)
Definition controller_lost (lock : CampaignLock) (s : ControllerStatus) (claim : option ControllerClaim)
    (jobs : list ControllerJob) (now : Z) : Prop :=
  exists policy, controller_policy lock = Some policy /\
    Forall (fun job => job_terminal job = true) jobs /\
    (forall c, claim = Some c -> cc_expires_at c <= now) /\
    is_lost_state (cs_state s) = true /\ cs_attempt s < max_attempts policy.

Lemma plan_recovers_iff lock status claim jobs terminal now d :
  plan_controller_watchdog lock status claim jobs terminal now = Ok d ->
  (wd_action d = watchdog_recover <->
   exists policy s, controller_policy lock = Some policy /\ status = Some s /\ terminal = false /\
     Forall (fun job => job_terminal job = true) jobs /\
     (forall c, claim = Some c -> cc_expires_at c <= now) /\
     is_lost_state (cs_state s) = true /\ cs_attempt s < max_attempts policy) /\
  (wd_action d = watchdog_recover ->
   exists s, status = Some s /\ wd_replacement_attempt d = Some (cs_attempt s + 1)).
Proof.
  unfold plan_controller_watchdog. destruct (controller_policy lock) as [policy|].
  2: { intros [= <-]. split; [|done]. split; [done|]. intros (? & ? & ? & _). done. }
  destruct terminal; cbn [orb].
  { intros [= <-]. split; [|done]. split; [done|]. by intros (? & ? & _ & _ & ? & _). }
  assert (Hactive : is_nil (List.filter (fun job => negb (job_terminal job)) jobs) = true <->
    Forall (fun job => job_terminal job = true) jobs).
  { clear. induction jobs as [|j jobs IH]; [by split|]. rewrite Forall_cons. cbn [List.filter].
    destruct (job_terminal j); cbn [negb]; [|by split; [|intros [? _]]]. rewrite IH. by intuition. }
  destruct status as [s|]; cbn [_status_recovery_decision].
  - case_bool_decide as Hdone.
    { intros [= <-]. split; [|done]. split; [done|].
      intros (? & ? & _ & [= <-] & _ & _ & _ & Hs & _). by rewrite Hdone in Hs. }
    destruct (is_nil _) eqn:En; cbn [negb].
    2: { intros [= <-]. split; [|done]. split; [done|].
         intros (? & ? & _ & _ & _ & Hj & _). apply Hactive in Hj. congruence. }
    destruct (match claim with Some c => now <? cc_expires_at c | None => false end) eqn:Ec.
    { intros [= <-]. split; [|done]. split; [done|]. intros (? & ? & _ & _ & _ & _ & Hc & _).
      destruct claim as [c|]; [|done]. specialize (Hc c eq_refl). lia. }
    assert (Hclaim : forall c, claim = Some c -> cc_expires_at c <= now) by (intros c ->; lia).
    pose proof (proj1 Hactive eq_refl) as Hjobs.
    destruct (Z.leb_spec (max_attempts policy) (cs_attempt s)) as [Hm|Hm].
    + destruct (cs_state s) eqn:Es; intros [= <-]; (split; [|done]);
        (split; [done|]); intros (p' & s' & [= <-] & [= <-] & _ & _ & _ & _ & Hlt); lia.
    + destruct (cs_state s) eqn:Es; try congruence;
        try (intros [= <-]; split; [|done]; split; [done|];
             intros (p' & s' & _ & [= <-] & _ & _ & _ & Hst & _); by rewrite Es in Hst);
        (destruct (cs_attempt s + 1 <? 2); [done|]); intros [= <-];
        (split; [|intros _; by exists s]); (split; [intros _|done]);
        exists policy, s; split_and!; try done; by rewrite Es.
  - cbn [negb]. destruct (is_nil _); cbn [negb].
    2: { intros [= <-]. split; [|done]. split; [done|]. by intros (? & ? & _ & ? & _). }
    destruct (match claim with Some c => now <? cc_expires_at c | None => false end);
      intros [= <-]; (split; [|done]); (split; [done|]); by intros (? & ? & _ & ? & _).
Qed.

Lemma plan_recovers lock status claim jobs terminal now d :
  plan_controller_watchdog lock status claim jobs terminal now = Ok d -> wd_action d = watchdog_recover ->
  exists s, status = Some s /\ terminal = false /\ wd_replacement_attempt d = Some (cs_attempt s + 1) /\
    controller_lost lock s claim jobs now.
Proof.
  intros Hd Ha. destruct (plan_recovers_iff _ _ _ _ _ _ _ Hd) as [Hi Hn].
  destruct (Hn Ha) as (s & -> & Hr). destruct (proj1 Hi Ha) as (policy & s' & Hp & [= <-] & Ht & Hrest).
  exists s. split_and!; [done|done|done|]. by exists policy.
Qed.

(** The watchdog starts the next attempt exactly for a controller that was
    lost: the campaign has a controller policy and is not over, every Job of it
    has ended, nobody holds an unexpired claim, the last status is one of a
    controller at work or of an infrastructure failure, and attempts are left.
    The next attempt is the last one plus one. *)
Theorem watchdog_recovers_lost_controllers lock status claim jobs terminal now d :
  plan_controller_watchdog lock status claim jobs terminal now = Ok d ->
  (wd_action d = watchdog_recover <->
   exists policy s, controller_policy lock = Some policy /\ status = Some s /\ terminal = false /\
     Forall (fun job => job_terminal job = true) jobs /\
     (forall c, claim = Some c -> cc_expires_at c <= now) /\
     is_lost_state (cs_state s) = true /\ cs_attempt s < max_attempts policy) /\
  (wd_action d = watchdog_recover ->
   exists s, status = Some s /\ wd_replacement_attempt d = Some (cs_attempt s + 1)).
Proof. apply plan_recovers_iff. Qed.

(** C25: a recovery of the watchdog is due and complete.  When it reports a
    submission, the status it read, which was that of the newest tree at that
    time, is one of a controller that was lost: by the snapshot of the campaign, the
    claim and the Jobs it read and the time it asked for, the campaign is not over,
    every Job of the controller has ended, nobody holds an unexpired claim and
    attempts are left.  The newest tree then records the decision for the attempt
    after that of the status, the reservation of that attempt with the launch
    contract that is recorded for the prior one, and the Job that was started for
    it; the decision names the commit of the snapshot and the time of the clock,
    unless an interrupted recovery had already recorded them. *)
Theorem watchdog_recovery_is_recorded event_validate load_experiment local campaign dry_run w r w' sub :
  run_campaign_watchdog event_validate load_experiment local campaign dry_run w = (Ok r, w') ->
  wr_submission r = Some sub ->
  dry_run = false /\ wd_action (wr_decision r) = watchdog_recover /\
  exists snapshot spec projection status claim jobs now w1 w2 w3 w4 w5 w6 t k,
    load_snapshot event_validate campaign w = (Ok snapshot, w1) /\
    load_experiment (snap_request snapshot) = Ok spec /\
    project_recovery (snap_lock snapshot) (snap_events snapshot) = Ok projection /\
    watchdog_terminal projection = false /\
    read_status campaign w1 = (Ok (Some status), w2) /\
    extends controller_step (main w1) (t :: k) /\ extends controller_step (t :: k) (main w2) /\
    recorded (LStatus campaign) status t /\
    read_claim campaign w2 = (Ok claim, w3) /\
    _controller_jobs (snap_lock snapshot)
      (match spec_remote spec with Some r => job_namespace (remote_job r) | None => "" end) w3 = (Ok jobs, w4) /\
    grows w4 w5 /\ utc_now w5 = (Ok now, w6) /\
    controller_lost (snap_lock snapshot) status claim jobs now /\
    wd_replacement_attempt (wr_decision r) = Some (cs_attempt status + 1) /\
    recovered campaign snapshot status (cs_attempt status + 1) sub w6 w'.
Proof.
  unfold run_campaign_watchdog. intros E Hsub.
  apply hub_bind_ok in E as (snapshot & w1 & E1 & E). apply hub_bind_ok in E as (spec & w1' & Es & E).
  injection Es as Es <-. apply hub_bind_ok in E as (projection & w1' & Ep & E). injection Ep as Ep <-.
  apply hub_bind_ok in E as (status & w2 & E2 & E). apply hub_bind_ok in E as (claim & w3 & E3 & E).
  apply hub_bind_ok in E as (jobs & w4 & E4 & E). apply hub_bind_ok in E as ([] & w5 & E5 & E).
  apply hub_bind_ok in E as (now & w6 & E6 & E). apply hub_bind_ok in E as (d & w7 & Ed & E).
  injection Ed as Ed <-.
  destruct (negb (bool_decide (wd_action d = watchdog_recover)) || dry_run) eqn:Eg.
  { injection E as <- <-. discriminate Hsub. }
  apply orb_false_iff in Eg as [Eg ->]. apply negb_false_iff, bool_decide_eq_true in Eg.
  destruct (plan_recovers _ _ _ _ _ _ _ Ed Eg) as (s & -> & Ht & Hn & Hlost). rewrite Hn in E.
  apply hub_bind_ok in E as (sub' & w10 & Er & E). injection E as <- <-. cbn in Hsub |- *. injection Hsub as ->.
  apply recover_controller_ok in Er. destruct (read_status_ok _ _ _ _ E2) as (t & k & He1 & He2 & Hst).
  split_and!; [done|done|].
  exists snapshot, spec, projection, s, claim, jobs, now, w1, w2, w3, w4, w5, w6, t, k.
  split_and!; try done. by eapply release_capacity_quiet.
Qed.
End properties.

(** ** Examples *)
Definition demo_job_id : string := "0123456789abcdef01234567".

(** A Jobs service that lists one ended Job of the first attempt, and whose
    command line prints the identity of the Job it started. *)
#[local] Instance demo_jobs_api : JobsApi memory := {|
  list_jobs labels _ := hub_ret (
    if dict_has labels "harbor-hf-controller-attempt" then []
    else [{| res_id := Some "job-1";
             res_labels := Some (dict_set labels "harbor-hf-controller-attempt" "1");
             res_stage := Some "completed" |}]);
  run_text _ := hub_ret ("Job started with ID: " +:+ demo_job_id);
  temporary_file := hub_ret "/tmp/secrets";
  utc_now := hub_ret 1000;
  new_identifier := hub_ret "launcher";
|}.

#[local] Instance demo_jobs_laws : JobsLaws (LAWS := memory_laws controller_step) memory.
Proof.
  split; intros; match goal with E : _ = (_, _) |- _ => injection E as <- <- end; apply grows_refl.
Qed.

#[local] Instance launch_receipt_laws :
  PydanticLaws ControllerLaunchReceipt ControllerLaunchReceipt_valid := coded_laws _.
#[local] Instance attempt_laws :
  PydanticLaws ControllerAttemptReservation ControllerAttemptReservation_valid := coded_laws _.
#[local] Instance recovery_laws :
  PydanticLaws ControllerRecoveryDecision ControllerRecoveryDecision_valid := coded_laws _.

Definition demo_local : LocalSettings := {|
  environ := [("HARBOR_HF_JOB_TOKEN", "token"); ("HARBOR_HF_JOB_OPENAI_API_KEY", "key")];
  hf_job_token_name := None;
  stored_job_hf_tokens := [];
|}.

(** The command of a controller, with its secrets in a file. *)
Example demo_command :
  match build_submit_campaign_controller_command demo_lock demo_spec "hf://buckets/in" "owner/out" 2 with
  | Ok command =>
      match _materialized_named_job_secrets demo_local "/tmp/secrets" ["HF_TOKEN"; "OPENAI_API_KEY"] command with
      | Ok rendered => (take 14 rendered, drop 26 rendered)
      | Err _ => ([], [])
      end
  | Err _ => ([], [])
  end =
  (["hf"; "jobs"; "run"; "--detach"; "--namespace"; "owner"; "--flavor"; "cpu-basic"; "--timeout"; "10800s";
    "--expose"; "8000"; "--expose"; "8001"],
   ["--secrets-file"; "/tmp/secrets"; "--"; "image@" +:+ digest_of "0"; "bash"; "-lc";
    locked_source_script "https://github.com/owner/harbor-hf" "0123456789012345678901234567890123456789";
    "locked-source"; "harbor-hf"; "campaign-controller"; "/input/manifest.yaml"; "/input/campaign.lock.json";
    "--attempt"; "2"; "--prior-job-terminal"; "--output-root"; "/output"]).
Proof. vm_compute. reflexivity. Qed.

Definition demo_launch (w : memory) : result string * memory :=
  _launch_or_adopt_controller demo_local "owner" (_controller_labels demo_lock 1)
    ["hf"; "jobs"; "run"; "--"] ["HF_TOKEN"] (demo_attempt 1) w.

Lemma one_job_per_attempt_witness :
  let w1 := (demo_launch fresh_hub).2 in
  let '(res, w3) := demo_launch w1 in
  (forall job, res = Ok job -> job = demo_job_id) /\
  (res, w3) = hub_bind (read_launch "demo" 1) (fun recorded =>
    match recorded with
    | Some receipt => hub_lift (_validated_launch_receipt receipt (demo_attempt 1))
    | None => hub_raise AssertionError
    end) w1.
Proof.
  intros w1. destruct (demo_launch w1) as [res w3] eqn:E.
  apply (one_job_per_attempt (LAWS := memory_laws controller_step) demo_local (demo_attempt 1) (demo_attempt 1)
           "owner" "owner" (_controller_labels demo_lock 1) (_controller_labels demo_lock 1)
           ["hf"; "jobs"; "run"; "--"] ["hf"; "jobs"; "run"; "--"] ["HF_TOKEN"] ["HF_TOKEN"]
           fresh_hub w1 w1 res w3 demo_job_id);
    [reflexivity|reflexivity| |apply grows_refl|exact E].
  change ((demo_launch fresh_hub) = (Ok demo_job_id, w1)).
  rewrite (surjective_pairing (demo_launch fresh_hub)). f_equal; try (vm_compute; reflexivity).
Defined.

Lemma watchdog_recovers_lost_controllers_witness :
  match plan_controller_watchdog demo_lock (Some (demo_status "job-1" 1 10)) (Some (demo_claim "job-1" 1 0 10))
          [{| cj_job_id := "job-1"; cj_stage := "Error"; cj_attempt := 1 |}] false 500 with
  | Ok d => wd_action d = watchdog_recover ->
      exists s, Some (demo_status "job-1" 1 10) = Some s /\ wd_replacement_attempt d = Some (cs_attempt s + 1)
  | Err _ => False
  end.
Proof.
  destruct (plan_controller_watchdog _ _ _ _ _ _) as [d|e] eqn:E; [|vm_compute in E; discriminate E].
  apply (watchdog_recovers_lost_controllers _ _ _ _ _ _ d E).
Defined.

(** A campaign whose first controller reported, and was lost. *)
#[local] Instance demo_lock_model : PydanticModel CampaignLock := {|
  model_dump lock := jobj [("campaign_id", JStr (campaign_id lock)); ("plan_digest", JStr (plan_digest lock))];
  model_validate j :=
    if bool_decide (json_get j "campaign_id" = Some (JStr "demo")) then Ok demo_lock
    else Err (ValueError "not modelled");
|}.

Definition demo_date (instant : Z) : string := pretty instant.

(** Parses the submission of the campaign, and nothing else. *)
Definition demo_parse (j : json) : result CampaignEvent :=
  if bool_decide (j = event_dump demo_date demo_submitted) then Ok demo_submitted
  else Err (ValueError "not modelled").

Definition demo_load (d : document) : result ExperimentSpec := Ok demo_spec.

Definition lost_hub : memory :=
  run_ops [OpReserveAttempt (demo_attempt 1); OpWriteStatus (demo_status "job-1" 1 10)]
    (create_campaign demo_date demo_lock (DBytes "request") demo_submitted fresh_hub).2.

Definition demo_watchdog : result WatchdogResult * memory :=
  run_campaign_watchdog demo_parse demo_load demo_local "demo" false lost_hub.

Definition demo_submission : option CampaignControllerSubmission :=
  match demo_watchdog.1 with Ok r => wr_submission r | Err _ => None end.

Example demo_watchdog_runs :
  match demo_submission with Some sub => (sub_job_id sub, sub_attempt sub) | None => (None, 0) end =
  (Some demo_job_id, 2).
Proof. vm_compute. reflexivity. Qed.

Lemma watchdog_recovery_is_recorded_witness :
  match demo_watchdog.1 with
  | Ok r => exists sub snapshot status w1 w2 w6, wr_submission r = Some sub /\
      load_snapshot demo_parse "demo" lost_hub = (Ok snapshot, w1) /\
      read_status "demo" w1 = (Ok (Some status), w2) /\
      recovered (LAWS := memory_laws controller_step) "demo" snapshot status (cs_attempt status + 1) sub
        w6 demo_watchdog.2
  | Err _ => False
  end.
Proof.
  destruct (demo_watchdog.1) as [r|e] eqn:E; [|vm_compute in E; discriminate E].
  destruct (wr_submission r) as [sub|] eqn:Es.
  - destruct (watchdog_recovery_is_recorded (LAWS := memory_laws controller_step) demo_parse demo_load demo_local
      "demo" false lost_hub r demo_watchdog.2 sub) as (_ & _ & snapshot & spec & projection & status & claim &
      jobs & now & w1 & w2 & w3 & w4 & w5 & w6 & t & k & E1 & _ & _ & _ & E2 & _ & _ & _ & _ & _ & _ & _ & _ & _ & Hr);
      [|exact Es|].
    + change (demo_watchdog = (Ok r, demo_watchdog.2)). rewrite <- E. apply surjective_pairing.
    + exists sub, snapshot, status, w1, w2, w6. split; [reflexivity|]. split; [exact E1|]. split; [exact E2|exact Hr].
  - exfalso. pose proof demo_watchdog_runs as Hrun. unfold demo_submission in Hrun. rewrite E, Es in Hrun.
    discriminate Hrun.
Defined.
