(* ===== verification/ControlProperties.v ===== *)
(** Properties of the campaign state machine of [Control]: ordering and
    duplicate delivery, the campaign status, the action table and the errors.
    Every theorem that has a hypothesis is followed by a witness on the data
    of [Scenario]. *)
From S2P Require Import Prelude.
From S2P Require Import PyDict.
From S2P Require Import Json.
From S2P Require Import Campaigns.
From S2P Require Import Control.
From S2P Require Import ControlFacts.
From S2P Require Import Scenario.

(** A log of valid events with no spend recorded against the campaign itself. *)
Definition well_formed_log (events : list CampaignEvent) : Prop :=
  forall e, e ∈ events -> event_valid e = true /\ is_campaign_spend e = false.

(** Ordering removes duplicate deliveries and sorts by instant and then by
    identifier: the result is the one sorted list without repeated identifiers
    that has exactly the given events; ordering fails, with the error of the
    source, exactly when two different events share an identifier. *)
Theorem ordered_events_correct events :
  match ordered_events events with
  | Ok l => consistent events /\ is_ordered events l /\ forall l', is_ordered events l' -> l' = l
  | Err x => x = ControlError "event ID has conflicting records" /\ ~ consistent events
  end.
Proof.
  destruct (ordered_events events) as [l|x] eqn:H.
  - apply ordered_events_ok in H. split_and!; [by eapply is_ordered_consistent|done|].
    intros l' H'. by eapply is_ordered_unique.
  - by apply ordered_events_err.
Qed.

(** C34: a campaign is terminal exactly when its latest event is a terminal
    campaign event, whose kind then is the status; nothing follows a terminal
    event in a log that projects. *)
Theorem terminal_status_is_final lock events p
    (Hp : project_campaign lock events = Ok p) :
  exists ordered, ordered_events events = Ok ordered /\
    (campaign_status_is_terminal (proj_status p) = true <->
     exists l e, ordered = l ++ [e] /\ is_terminal_event e = true) /\
    (forall l e later, ordered = l ++ e :: later -> is_terminal_event e = true ->
       later = [] /\ campaign_status_of_kind (kind e) = Some (proj_status p)).
Proof.
  apply project_campaign_ok in Hp as (f & r & st & Ho & Hm & Hf & _ & _ & -> & _).
  exists (f :: r). apply submission_matches_kind in Hm.
  assert (Hne : is_terminal_event f = false).
  { unfold is_terminal_event. rewrite Hm. by destruct (bool_decide _). }
  destruct (campaign_fold_terminal_iff lock r campaign_loop_init st eq_refl Hf) as [Hiff Hlast].
  split_and!; [done| |].
  - rewrite Hiff. split.
    + intros (l & e & -> & He). by exists (f :: l), e.
    + intros (l & e & Hl & He). destruct l as [|f' l]; injection Hl as <- ->.
      * congruence.
      * by exists l, e.
  - intros l e later Hl He. destruct l as [|f' l]; injection Hl as <- ->; [congruence|].
    by eapply Hlast.
Qed.

Definition demo_terminal_events : list CampaignEvent := [
  demo_submitted; demo_cancelled 1;
  demo_event 2 subject_campaign "demo" campaign_cancelled
    (payload_terminal {| tp_summary_path := None; tp_summary_sha256 := None;
                         tp_message := None |})].

Lemma terminal_status_is_final_witness :
  returns (project_campaign demo_lock demo_terminal_events) (fun p =>
    campaign_status_is_terminal (proj_status p) = true).
Proof.
  run_returns p E.
  destruct (terminal_status_is_final demo_lock _ _ E) as (ordered & Ho & [_ Hback] & _).
  apply Hback. vm_compute in Ho. injection Ho as <-.
  eexists (_ :: _ :: []), _. split; reflexivity.
Defined.

(** C35: cancellation is permanent: once the log holds a cancellation request or
    a draining event, every projection of it, however the campaign went on,
    shows a status in which no new work starts (cancel requested, draining,
    manual intervention or terminal). *)
Theorem cancellation_is_permanent lock events e p
    (He : e ∈ events) (Hc : cancel_like e) (Hp : project_campaign lock events = Ok p) :
  stopping_or_terminal (proj_status p) = true.
Proof. by eapply project_campaign_stopping. Qed.

Lemma cancellation_is_permanent_witness :
  returns (project_campaign demo_lock [demo_submitted; demo_reserved; demo_cancelled 5])
    (fun p => stopping_or_terminal (proj_status p) = true).
Proof.
  run_returns p E.
  apply (cancellation_is_permanent demo_lock _ (demo_cancelled 5) _
           ltac:(right; right; left) ltac:(split; [reflexivity|by left]) E).
Defined.

(** A campaign that has not terminated is in manual intervention exactly
    while some required intervention has not been resolved by a later event. *)
Theorem manual_intervention_iff_open lock events p
    (Hp : project_campaign lock events = Ok p)
    (Ht : campaign_status_is_terminal (proj_status p) = false) :
  exists reqs, open_requirements events = Ok reqs /\
    (proj_status p = campaign_status_manual_intervention <-> reqs <> []).
Proof. by eapply project_campaign_manual. Qed.

Lemma manual_intervention_iff_open_witness :
  returns (project_campaign demo_lock demo_manual_events) (fun p =>
    proj_status p = campaign_status_manual_intervention).
Proof.
  run_returns p E.
  assert (Ht : campaign_status_is_terminal (proj_status p) = false)
    by (vm_compute in E; injection E as <-; reflexivity).
  destruct (manual_intervention_iff_open demo_lock _ _ E Ht) as (reqs & Hr & [_ Hback]).
  apply Hback. vm_compute in Hr. injection Hr as <-. discriminate.
Defined.

(** The action table only grows and only advances as the log grows: every
    action keeps its identifier, key, kind and targets; a reserved action can
    become ambiguous, succeeded or failed, an ambiguous one succeeded or
    failed, and an action that succeeded or failed never changes again. *)
Theorem actions_only_advance lock events events' later p p'
    (Hl : extends_log events events' later)
    (Hp : project_campaign lock events = Ok p) (Hp' : project_campaign lock events' = Ok p') :
  forall k a, dict_get (proj_actions p) k = Some a ->
     ap_action_id a = k /\ exists b, dict_get (proj_actions p') k = Some b /\ action_advances a b.
Proof.
  intros k a Ha.
  destruct (extends_log_project _ _ _ _ _ _ Hl Hp Hp')
    as (f & r & st & st' & _ & _ & Hf & Hf' & _ & Hpa & _ & Hpa').
  rewrite Hpa in Ha. rewrite Hpa'. split.
  - apply campaign_fold_actions in Hf as [_ Hwf].
    destruct (Hwf (dict_keyed_nil ap_action_id)) as [_ Hk]. by apply Hk.
  - apply campaign_fold_actions in Hf' as [Hext _]. by apply Hext.
Qed.

Lemma actions_only_advance_witness :
  returns (project_campaign demo_lock [demo_submitted; demo_reserved]) (fun p =>
  returns (project_campaign demo_lock [demo_succeeded; demo_submitted; demo_reserved]) (fun p' =>
    exists a b, dict_get (proj_actions p) ("act-" +:+ demo_key) = Some a /\
      dict_get (proj_actions p') ("act-" +:+ demo_key) = Some b /\ action_advances a b /\
      ap_status a = status_reserved /\ ap_status b = status_succeeded)).
Proof.
  run_returns p E. run_returns p' E'.
  assert (Hl : extends_log [demo_submitted; demo_reserved]
                 [demo_succeeded; demo_submitted; demo_reserved] [demo_succeeded])
    by (eexists; split; vm_compute; reflexivity).
  destruct (dict_get (proj_actions p) ("act-" +:+ demo_key)) as [a|] eqn:Ha;
    [|exfalso; vm_compute in E; injection E as <-; vm_compute in Ha; discriminate Ha].
  destruct (actions_only_advance demo_lock _ _ _ _ _ Hl E E' _ _ Ha) as (_ & b & Hb & Hab).
  exists a, b. split_and!; [reflexivity|exact Hb|exact Hab| |].
  - vm_compute in E. injection E as <-. vm_compute in Ha. by injection Ha as <-.
  - vm_compute in E'. injection E' as <-. vm_compute in Hb. by injection Hb as <-.
Defined.

(** The actions of a projection are exactly the recorded reservations: an
    entry of the table was reserved by an event of the log with its identifier,
    key, kind and targets, and every reservation event has its entry. *)
Theorem actions_are_reservations lock events p
    (Hp : project_campaign lock events = Ok p) :
  (forall k a, dict_get (proj_actions p) k = Some a -> exists e, e ∈ events /\ reserves e a) /\
  (forall e q, e ∈ events -> subject_type e = subject_campaign -> kind e = action_reserved ->
     payload e = payload_action_reserved q ->
     exists a, dict_get (proj_actions p) (ar_action_id q) = Some a /\ reserves e a).
Proof.
  apply project_campaign_ok in Hp as (f & r & st & Ho & Hm & Hf & _ & _ & _ & -> & _).
  apply submission_matches_kind in Hm.
  destruct (campaign_fold_reservations _ _ _ _ Hf) as [H1 H2]. split.
  - intros k a Ha. destruct (H1 k a Ha) as [(e & He & Hr)|(a' & Ha' & _)]; [|discriminate].
    exists e. split; [|done]. apply (ordered_events_elem _ _ _ Ho). by right.
  - intros e q He Hs Hk Hq. apply (H2 e q); try done.
    apply (ordered_events_elem _ _ _ Ho) in He. apply elem_of_cons in He as [->|He]; [congruence|done].
Qed.

Lemma actions_are_reservations_witness :
  returns (project_campaign demo_lock demo_events) (fun p =>
    exists a, dict_get (proj_actions p) ("act-" +:+ demo_key) = Some a /\ reserves demo_reserved a).
Proof.
  run_returns p E.
  destruct (actions_are_reservations demo_lock _ _ E) as [_ H].
  refine (H demo_reserved _ _ eq_refl eq_refl eq_refl). right. left.
Defined.

(** The campaign projection of a log of valid events fails only with a
    [ControlError]; the single exception is a spend recorded against the
    campaign subject (see [campaign_spend_crashes]). *)
Theorem projection_fails_cleanly lock events x
    (Hv : well_formed_log events) (Hx : project_campaign lock events = Err x) :
  exists message, x = ControlError message.
Proof.
  unfold project_campaign in Hx.
  destruct (ordered_events events) as [l|y] eqn:Ho; cbn in Hx.
  - destruct l as [|f r]; [injection Hx as <-; by eexists|].
    destruct (submission_matches lock f); cbn in Hx; [|injection Hx as <-; by eexists].
    destruct (foldM (campaign_loop_step lock) campaign_loop_init r) as [st|y] eqn:Hf;
      cbn in Hx; [discriminate|].
    injection Hx as <-.
    refine (foldM_error is_control_error _ _ _ _ _ Hf). intros s e z He Hz.
    assert (Hin : e ∈ events) by (apply (ordered_events_elem _ _ _ Ho); by right).
    destruct (Hv e Hin). by eapply campaign_loop_step_error.
  - injection Hx as <-. apply ordered_events_err in Ho as [-> _]. by eexists.
Qed.

Lemma projection_fails_cleanly_witness :
  exists message, ControlError "campaign has multiple submission events" = ControlError message.
Proof.
  apply (projection_fails_cleanly demo_lock
           [demo_submitted; demo_event 1 subject_campaign "demo" campaign_submitted
              (payload_submitted {| csp_plan_digest := "sha256:plan" |})]).
  - intros e He. repeat (apply elem_of_cons in He as [->|He]; [split; vm_compute; reflexivity|]).
    by apply elem_of_nil in He.
  - vm_compute. reflexivity.
Defined.

(** C40: the divergence behind that exception.  A log that holds a valid
    [spend.recorded] event of the campaign subject never projects; and a log that
    projects, of a campaign that has not ended, stops projecting with an
    [AttributeError] when such an event of the campaign is appended to it, later
    than the others and with an identifier of its own. *)
Theorem campaign_spend_crashes lock events e :
  event_valid e = true -> is_campaign_spend e = true ->
  (e ∈ events -> forall p, project_campaign lock events <> Ok p) /\
  (forall p, project_campaign lock events = Ok p ->
     campaign_status_is_terminal (proj_status p) = false ->
     subject_id e = campaign_id lock -> event_id e ∉ map event_id events ->
     (forall x, x ∈ events -> observed_at x < observed_at e) ->
     project_campaign lock (events ++ [e]) = Err AttributeError).
Proof.
  intros Hv Hsp. split.
  - intros He p (f & r & st & Ho & Hm & Hf & _)%project_campaign_ok.
    apply (ordered_events_elem _ _ _ Ho) in He as [->|He]%elem_of_cons.
    + apply submission_matches_kind in Hm. by rewrite (campaign_spend_kind _ Hsp) in Hm.
    + apply list_elem_of_split in He as (l & l' & ->).
      rewrite foldM_app in Hf. inv_ok. cbn in Hf. inv_ok.
      match goal with E : campaign_loop_step _ _ e = Ok _ |- _ => by eapply campaign_spend_step in E end.
  - intros p (f & r & st & Ho & Hm & Hf & _ & _ & Hs & _)%project_campaign_ok Ht Hi Hid Hlt.
    unfold project_campaign. rewrite (ordered_events_snoc _ _ _ Ho Hlt Hid). cbn [result_bind app].
    rewrite Hm. cbn [negb]. rewrite foldM_app, Hf. cbn [result_bind foldM].
    rewrite Hs in Ht. by rewrite (campaign_spend_raises _ _ _ Hv Hsp Ht Hi).
Qed.

Lemma campaign_spend_crashes_witness :
  let e := demo_event 1 subject_campaign "demo" spend_recorded
             (payload_spend {| sp_amount_microusd := 5; sp_source_execution_id := None |}) in
  project_campaign demo_lock ([demo_submitted] ++ [e]) = Err AttributeError.
Proof.
  cbv zeta.
  assert (E : exists p, project_campaign demo_lock [demo_submitted] = Ok p /\
    campaign_status_is_terminal (proj_status p) = false) by (vm_compute; eexists; split; reflexivity).
  destruct E as (p & E & Ht).
  refine (proj2 (campaign_spend_crashes demo_lock [demo_submitted] (demo_event 1 subject_campaign "demo" spend_recorded
    (payload_spend {| sp_amount_microusd := 5; sp_source_execution_id := None |})) _ _) p E Ht _ _ _);
    [vm_compute; reflexivity|reflexivity|reflexivity| |].
  - apply str_mem_false. vm_compute. reflexivity.
  - intros x Hx. apply list_elem_of_singleton in Hx as ->. reflexivity.
Defined.
