(* ===== verification/RecoveryProperties.v ===== *)
(** Properties of the recovery projection of [Recovery]: the life of
    executions, waves and trials, the accounting of spend, the retry schedule,
    the aggregation of shards and runs, and the decision that a campaign has
    terminated. *)
From S2P Require Import Prelude.
From S2P Require Import PyDict.
From S2P Require Import Json.
From S2P Require Import Campaigns.
From S2P Require Import Control.
From S2P Require Import Recovery.
From S2P Require Import ControlFacts.
From S2P Require Import RecoveryFacts.
From S2P Require Import Scenario.

(** What both projections of a growing log fold over. *)
Lemma extends_log_recovery lock events events' later p p' :
  extends_log events events' later ->
  project_recovery lock events = Ok p -> project_recovery lock events' = Ok p' ->
  exists st st', recovery_ok st (rp_spend_microusd p) /\
    recovery_ok st' (rp_spend_microusd p') /\ recovery_extends st st' /\
    rp_executions p = rs_executions st /\ rp_executions p' = rs_executions st' /\
    rp_waves p = rs_waves st /\ rp_waves p' = rs_waves st'.
Proof.
  intros (l & Hl & Hl') (c & l1 & st & P)%project_recovery_ok (c' & l2 & st' & P')%project_recovery_ok.
  rewrite (part_ordered _ _ _ _ _ _ P) in Hl. injection Hl as <-.
  rewrite (part_ordered _ _ _ _ _ _ P') in Hl'. injection Hl' as ->.
  pose proof (part_fold _ _ _ _ _ _ P') as Hf. rewrite foldM_app, (part_fold _ _ _ _ _ _ P) in Hf.
  simpl in Hf. exists st, st'.
  destruct (recovery_fold_ok _ _ _ _ _ (part_ok _ _ _ _ _ _ P) Hf) as (Hok & Hext & _).
  split_and!; try done.
  all: first [exact (part_ok _ _ _ _ _ _ P)|exact (part_executions _ _ _ _ _ _ P)
    |exact (part_executions _ _ _ _ _ _ P')|exact (part_waves _ _ _ _ _ _ P)
    |exact (part_waves _ _ _ _ _ _ P')].
Qed.

Lemma terminal_decision_counts lock campaign runs trials waves counts d :
  _terminal_decision lock campaign runs trials waves counts = Some d ->
  td_counts d = _terminal_counts campaign counts.
Proof. unfold _terminal_decision. intros H. repeat case_match; by simplify_eq. Qed.

(** C31: executions of a projection are filed by identifier, belong to a trial
    of their shard, and no two of them are the same physical attempt of one
    trial.  As the log grows an execution keeps its identity, and once it has
    completed, failed or been cancelled its record never changes again. *)
Theorem execution_lifecycle lock events events' later p p'
    (Hl : extends_log events events' later)
    (Hp : project_recovery lock events = Ok p) (Hp' : project_recovery lock events' = Ok p') :
  forall k a, dict_get (rp_executions p) k = Some a ->
    ep_execution_id a = k /\
    (exists t, dict_get (rp_trials p) (ep_trial_id a) = Some t /\ tr_shard_id t = ep_shard_id a) /\
    (forall k' b, dict_get (rp_executions p) k' = Some b -> ep_trial_id a = ep_trial_id b ->
       ep_physical_attempt a = ep_physical_attempt b -> k = k') /\
    exists a', dict_get (rp_executions p') k = Some a' /\ execution_advances a a'.
Proof.
  intros k a Ha.
  destruct (extends_log_recovery _ _ _ _ _ _ Hl Hp Hp')
    as (st & st' & Hok & _ & Hext & Hx & Hx' & _).
  destruct (project_recovery_ok _ _ _ Hp) as (c & l & st0 & P).
  rewrite Hx in *. destruct (ok_executions _ _ Hok) as [[_ Hkey] _ Hdist _].
  split_and!.
  - by apply Hkey.
  - pose proof (part_executions _ _ _ _ _ _ P) as Hst. rewrite Hx in Hst. rewrite Hst in Ha.
    destruct (executions_known _ _ (ok_executions _ _ (part_ok _ _ _ _ _ _ P)) _ _ Ha)
      as (r & Hr & Hs).
    destruct (part_trials _ _ _ _ _ _ P) as [Hkeys Hder].
    assert (Hin : is_Some (dict_get (rp_trials p) (ep_trial_id a))).
    { apply dict_get_is_some_iff. rewrite Hkeys. apply dict_get_is_some_iff. by eexists. }
    destruct Hin as [t Ht]. exists t. split; [done|].
    destruct (Hder _ _ Ht) as (r' & Hr' & _ & Hs' & _). congruence.
  - intros k' b Hb. by eapply Hdist.
  - rewrite Hx'. by apply (extends_executions _ _ Hext).
Qed.

Definition demo_prefix : list CampaignEvent := take 7 demo_events.

Lemma demo_extends : extends_log demo_prefix demo_events (drop 7 demo_events).
Proof. eexists. split; vm_compute; reflexivity. Qed.

Lemma execution_lifecycle_witness :
  returns (project_recovery demo_lock demo_prefix) (fun p =>
  returns (project_recovery demo_lock demo_events) (fun p' =>
    exists a a', dict_get (rp_executions p) "x1" = Some a /\
      dict_get (rp_executions p') "x1" = Some a' /\ ep_status a = exec_s_failed /\ a = a')).
Proof.
  run_returns p E. run_returns p' E'.
  destruct (dict_get (rp_executions p) "x1") as [a|] eqn:Ha;
    [|exfalso; vm_compute in E; injection E as <-; vm_compute in Ha; discriminate Ha].
  destruct (execution_lifecycle demo_lock _ _ _ _ _ demo_extends E E' _ _ Ha)
    as (_ & _ & _ & a' & Ha' & Hadv).
  assert (Hs : ep_status a = exec_s_failed)
    by (vm_compute in E; injection E as <-; vm_compute in Ha; by injection Ha as <-).
  exists a, a'. split_and!; [reflexivity|exact Ha'|exact Hs|].
  apply Hadv. rewrite Hs. discriminate.
Defined.

(** Waves keep their identity (deployment, provider, shards, estimated
    cost) as the log grows, move only along the transitions of the source, and
    a closed wave stays closed. *)
Theorem wave_lifecycle lock events events' later p p'
    (Hl : extends_log events events' later)
    (Hp : project_recovery lock events = Ok p) (Hp' : project_recovery lock events' = Ok p') :
  forall k w, dict_get (rp_waves p) k = Some w ->
    wv_wave_id w = k /\
    exists w', dict_get (rp_waves p') k = Some w' /\ wave_advances w w' /\
      (wv_status w = wave_s_closed -> wv_status w' = wave_s_closed).
Proof.
  intros k w Hw.
  destruct (extends_log_recovery _ _ _ _ _ _ Hl Hp Hp')
    as (st & st' & Hok & _ & Hext & _ & _ & Hx & Hx').
  rewrite Hx in Hw. rewrite Hx'. split.
  - destruct (ok_waves _ _ Hok) as [[_ Hkey] _]. by apply Hkey.
  - destruct (extends_waves _ _ Hext _ _ Hw) as (w' & Hw' & Ha). exists w'. split_and!; [done..|].
    intros Hc. by eapply wave_closed_advances.
Qed.

Lemma wave_lifecycle_witness :
  returns (project_recovery demo_lock demo_prefix) (fun p =>
  returns (project_recovery demo_lock demo_events) (fun p' =>
    exists w w', dict_get (rp_waves p) demo_wave_id = Some w /\
      dict_get (rp_waves p') demo_wave_id = Some w' /\ wave_advances w w')).
Proof.
  run_returns p E. run_returns p' E'.
  destruct (dict_get (rp_waves p) demo_wave_id) as [w|] eqn:Hw;
    [|exfalso; vm_compute in E; injection E as <-; vm_compute in Hw; discriminate Hw].
  destruct (wave_lifecycle demo_lock _ _ _ _ _ demo_extends E E' _ _ Hw) as (_ & w' & Hw' & Ha & _).
  exists w, w'. by split_and!.
Defined.

(** C32: the recorded spend of a campaign is the sum of what its executions
    reported plus the spend recorded by separate events: no amount is lost or
    counted twice, whatever sentinel outcomes are ignored. *)
Theorem spend_accounting lock events p (Hp : project_recovery lock events = Ok p) :
  exists ordered, ordered_events events = Ok ordered /\
    rp_spend_microusd p =
      sum_z (map ep_spend_microusd (dict_values (rp_executions p))) +
      sum_z (map recorded_amount ordered).
Proof.
  destruct (project_recovery_ok _ _ _ Hp) as (c & l & st & P). exists l.
  split; [apply P|].
  destruct (recovery_fold_ok _ _ _ _ _ (recovery_ok_initial lock) (part_fold _ _ _ _ _ _ P))
    as (_ & _ & Hs).
  rewrite (part_executions _ _ _ _ _ _ P).
  assert (H0 : execution_spend (rs_executions (initial_state lock)) = 0).
  { unfold initial_state. by destruct (_initial_projections lock) as [[? ?] ?]. }
  rewrite H0 in Hs. unfold execution_spend in Hs. lia.
Qed.

Lemma spend_accounting_witness :
  returns (project_recovery demo_lock demo_events) (fun p =>
    rp_spend_microusd p = sum_z (map ep_spend_microusd (dict_values (rp_executions p)))).
Proof.
  run_returns p E. destruct (spend_accounting demo_lock _ _ E) as (l & Hl & ->).
  vm_compute in Hl. injection Hl as <-.
  match goal with |- _ + ?x = _ => replace x with 0 by (vm_compute; reflexivity) end.
  apply Z.add_0_r.
Defined.

(** The trials of a projection are the trials of the lock.  The executions
    of a trial are exactly the recorded ones in attempt order, numbered from 1
    without a gap; if one of them completed, the last one did.  A trial waits
    for a retry only when its last execution failed for a retryable reason and
    physical attempts remain, and is active only while its last execution is. *)
Theorem trial_derivation lock events p (Hp : project_recovery lock events = Ok p) :
  dict_keys (rp_trials p) = dict_keys (rs_trials (initial_state lock)) /\
  forall k t, dict_get (rp_trials p) k = Some t ->
    tr_trial_id t = k /\
    tr_executions t = map (fun e => (ep_execution_id e, e))
                        (sort_by_attempt (trial_executions (rp_executions p) k)) /\
    map ep_physical_attempt (dict_values (tr_executions t)) = range1 (len (tr_executions t)) /\
    (existsb is_completed (dict_values (tr_executions t)) = true ->
       exists e, last (dict_values (tr_executions t)) = Some e /\ is_completed e = true) /\
    (tr_status t = trial_s_retry_wait -> retry_pending lock t) /\
    (tr_status t = trial_s_active -> exists latest,
       last (dict_values (tr_executions t)) = Some latest /\ ep_status latest = exec_s_active).
Proof.
  destruct (project_recovery_ok _ _ _ Hp) as (c & l & st & P).
  destruct (part_trials _ _ _ _ _ _ P) as [Hk Hd]. split.
  - rewrite Hk. symmetry. apply (extends_trials _ _ (part_extends _ _ _ _ _ _ P)).
  - intros k t Ht. destruct (Hd _ _ Ht) as (r & Hr & Hid & _ & _ & [[Hn Hc] [Hw Ha]] & Hx).
    rewrite (part_executions _ _ _ _ _ _ P). rewrite len_values in Hn. by split_and!.
Qed.

Lemma trial_derivation_witness :
  returns (project_recovery demo_lock demo_events) (fun p =>
    exists t, dict_get (rp_trials p) "t1" = Some t /\ tr_status t = trial_s_retry_wait /\
      retry_pending demo_lock t).
Proof.
  run_returns p E. destruct (dict_get (rp_trials p) "t1") as [t|] eqn:Ht;
    [|exfalso; vm_compute in E; injection E as <-; vm_compute in Ht; discriminate Ht].
  assert (Hs : tr_status t = trial_s_retry_wait)
    by (vm_compute in E; injection E as <-; vm_compute in Ht; by injection Ht as <-).
  destruct (trial_derivation demo_lock _ _ E) as [_ H].
  destruct (H _ _ Ht) as (_ & _ & _ & _ & Hw & _). exists t. split_and!; auto.
Defined.

(** C37: the delay before a retry: terminal categories are refused; for the
    others it is at least one second and at most the configured maximum, never
    shorter (up to that maximum) than three quarters of the exponential backoff
    of the attempt or than the delay the provider asked for. *)
Theorem retry_delay_bounds lock c n id after
    (Hv : CampaignRecoveryPolicy_valid (recovery_policy lock) = true) (Hn : 1 <= n) :
  match retry_delay_seconds lock c n id after with
  | Err e => is_retryable_category c = false /\
             e = ValueError ("retry category is terminal: " +:+ category_name c)
  | Ok d => is_retryable_category c = true /\ 1 <= d <= retry_max_seconds (recovery_policy lock) /\
      Z.min (retry_max_seconds (recovery_policy lock))
            (retry_raw_seconds (recovery_policy lock) c n * 75 / 100) <= d /\
      d <= Z.max (Z.max 1 (or_zero after))
                 (retry_raw_seconds (recovery_policy lock) c n * 125 / 100) /\
      Z.min (retry_max_seconds (recovery_policy lock)) (or_zero after) <= d
  end.
Proof.
  unfold CampaignRecoveryPolicy_valid in Hv. rewrite !andb_true_iff in Hv.
  destruct Hv as ((((((_ & _) & Hb) & Hm) & _) & _) & _).
  unfold retry_delay_seconds. destruct (is_retryable_category c) eqn:Ec; cbn; [|by split].
  pose proof (retry_jitter_bounds id c n) as Hj.
  pose proof (retry_raw_bounds (recovery_policy lock) c n ltac:(lia) Hn) as Hr.
  set (raw := retry_raw_seconds _ _ _) in *. set (j := retry_jitter _ _ _) in *.
  assert (raw * 75 / 100 <= raw * j / 100) by (apply Z.div_le_mono; nia).
  assert (raw * j / 100 <= raw * 125 / 100) by (apply Z.div_le_mono; nia).
  split_and!; try done; lia.
Qed.

Lemma retry_delay_bounds_witness :
  returns (retry_delay_seconds demo_lock category_rate_limit 2 "x1" (Some 200)) (fun d =>
    200 <= d <= 1800).
Proof.
  run_returns d E.
  pose proof (retry_delay_bounds demo_lock category_rate_limit 2 "x1" (Some 200)
                eq_refl ltac:(lia)) as H.
  rewrite E in H. destruct H as (_ & Hd & _ & _ & Hr).
  change (retry_max_seconds (recovery_policy demo_lock)) with 1800 in *.
  change (or_zero (Some 200)) with 200 in *. lia.
Defined.

(** Every trial of the lock is counted in exactly one category, terminal
    counts move planned and retrying trials of a cancelling campaign to the
    cancelled ones without losing any, and the physical retries are the
    executions beyond the first of each trial. *)
Theorem counts_are_a_partition lock events p (Hp : project_recovery lock events = Ok p) :
  counts_total (rp_counts p) = len (rs_trials (initial_state lock)) /\
  pc_physical_retries (rp_counts p) =
    sum_z (map (fun t => Z.max 0 (len (tr_executions t) - 1)) (dict_values (rp_trials p))) /\
  (forall d, rp_terminal_decision p = Some d ->
     counts_total (td_counts d) = counts_total (rp_counts p)).
Proof.
  destruct (project_recovery_ok _ _ _ Hp) as (c & l & st & P).
  destruct (part_trials _ _ _ _ _ _ P) as [Hk _].
  rewrite (part_counts _ _ _ _ _ _ P). split_and!.
  - rewrite counts_partition.
    assert (Hkeys : dict_keys (rp_trials p) = dict_keys (rs_trials (initial_state lock)))
      by (rewrite Hk; symmetry; apply (extends_trials _ _ (part_extends _ _ _ _ _ _ P))).
    apply (f_equal len) in Hkeys. unfold dict_keys in Hkeys. by rewrite !len_map in Hkeys.
  - apply physical_retries_spec.
  - intros d Hd. rewrite (part_decision _ _ _ _ _ _ P), (part_counts _ _ _ _ _ _ P) in Hd.
    by rewrite (terminal_decision_counts _ _ _ _ _ _ _ Hd), terminal_counts_total.
Qed.

Lemma counts_are_a_partition_witness :
  returns (project_recovery demo_lock demo_events) (fun p => counts_total (rp_counts p) = 3).
Proof.
  run_returns p E. destruct (counts_are_a_partition demo_lock _ _ E) as [-> _].
  vm_compute. reflexivity.
Defined.

(** C36: a decision that a running campaign has terminated is taken only when
    cleanup is complete (every observed wave closed, and the wave of every
    action that did not fail observed and closed) and every trial is terminal
    or, in a cancelling campaign, not running; the campaign is completed exactly
    when it has runs and all of them are complete. *)
Theorem terminal_decision_is_sound lock events p d
    (Hp : project_recovery lock events = Ok p)
    (Hr : campaign_status_is_terminal (proj_status (rp_campaign p)) = false)
    (Hd : rp_terminal_decision p = Some d) :
  decision_sound (rp_campaign p) (rp_runs p) (rp_trials p) (rp_waves p) d.
Proof.
  destruct (project_recovery_ok _ _ _ Hp) as (c & l & st & P).
  rewrite (part_decision _ _ _ _ _ _ P) in Hd.
  by destruct (terminal_decision_sound _ _ _ _ _ _ _ Hr Hd).
Qed.

(** A cancelled campaign whose only wave closed. *)
Definition demo_cancelled_events : list CampaignEvent := [
  demo_submitted; demo_reserved; demo_succeeded; demo_wave 3 wave_acquiring;
  demo_started 4 "x1" "t1" 1;
  demo_outcome 5 "x1" "t1" 1 execution_failed (Some category_transient) 100;
  demo_cancelled 6; demo_wave 7 wave_draining; demo_wave 8 wave_closed].

Lemma terminal_decision_is_sound_witness :
  returns (project_recovery demo_lock demo_cancelled_events) (fun p =>
    exists d, rp_terminal_decision p = Some d /\ td_status d = terminal_cancelled /\
      decision_sound (rp_campaign p) (rp_runs p) (rp_trials p) (rp_waves p) d).
Proof.
  run_returns p E.
  assert (Hr : campaign_status_is_terminal (proj_status (rp_campaign p)) = false)
    by (vm_compute in E; injection E as <-; reflexivity).
  destruct (rp_terminal_decision p) as [d|] eqn:Hd;
    [|exfalso; vm_compute in E; injection E as <-; discriminate Hd].
  exists d. split_and!; [reflexivity| |exact (terminal_decision_is_sound demo_lock _ _ _ E Hr Hd)].
  vm_compute in E. injection E as <-. vm_compute in Hd. by injection Hd as <-.
Defined.

(** Shards and runs aggregate their children.  A shard or run is terminal
    exactly when all its children are; it is complete exactly when all its
    children reached a scored outcome and at least one completed. *)
Theorem aggregation_is_exact lock events p (Hp : project_recovery lock events = Ok p) :
  (forall k s, dict_get (rp_shards p) k = Some s ->
     exists statuses, shard_trial_statuses (rp_trials p) s = Ok statuses /\
       is_terminal (sh_status s) = forallb is_terminal statuses /\
       (sh_status s = shard_s_complete <->
        forallb is_scored statuses = true /\ existsb (is_named "complete") statuses = true)) /\
  (forall k r, dict_get (rp_runs p) k = Some r ->
     exists statuses, run_shard_statuses (rp_shards p) r = Ok statuses /\
       is_terminal (rn_status r) = forallb is_terminal statuses /\
       (rn_status r = run_s_complete <->
        forallb is_scored statuses = true /\ existsb (is_named "complete") statuses = true)).
Proof.
  destruct (project_recovery_ok _ _ _ Hp) as (c & l & st & P). split.
  - intros k s Hs. destruct (part_shards _ _ _ _ _ _ P) as [_ H].
    destruct (H _ _ Hs) as (r & status & _ & Ha & ->).
    destruct (aggregate_shard_spec _ _ _ Ha) as (statuses & H1 & H2 & H3 & _).
    exists statuses. by split_and!.
  - intros k s Hs. destruct (part_runs _ _ _ _ _ _ P) as [_ H].
    destruct (H _ _ Hs) as (r & status & _ & Ha & ->).
    destruct (aggregate_run_spec _ _ _ Ha) as (statuses & H1 & H2 & H3 & _).
    exists statuses. by split_and!.
Qed.

Lemma aggregation_is_exact_witness :
  returns (project_recovery demo_lock demo_events) (fun p =>
    exists s, dict_get (rp_shards p) "shard-1" = Some s /\ sh_status s <> shard_s_complete).
Proof.
  run_returns p E. destruct (dict_get (rp_shards p) "shard-1") as [s|] eqn:Hs;
    [|exfalso; vm_compute in E; injection E as <-; discriminate Hs].
  exists s. split; [reflexivity|].
  destruct (aggregation_is_exact demo_lock _ _ E) as [H _].
  destruct (H _ _ Hs) as (statuses & Hst & _ & Hc).
  rewrite Hc. intros [Hall _]. vm_compute in E. injection E as <-.
  vm_compute in Hs. injection Hs as <-. vm_compute in Hst. injection Hst as <-. discriminate Hall.
Defined.

(** Sealing a partial campaign leaves every trial with a scored outcome and
    every run complete.  Only trials that were waiting for a retry change: they
    take the outcome of their latest physical attempt, which had failed;
    executions, waves and spend are untouched. *)
Theorem sealing_is_sound p p' (H : seal_partial_projection p = Ok p') :
  rp_executions p' = rp_executions p /\ rp_waves p' = rp_waves p /\
  rp_spend_microusd p' = rp_spend_microusd p /\
  (forall k w, dict_get (rp_waves p) k = Some w -> wave_is_closed w = true) /\
  dict_keys (rp_trials p') = dict_keys (rp_trials p) /\
  (forall k t', dict_get (rp_trials p') k = Some t' ->
     is_scored (tr_status t') = true /\
     exists t, dict_get (rp_trials p) k = Some t /\ (t' = t \/ sealed_trial t t')) /\
  (forall r, r ∈ dict_values (rp_runs p') -> rn_status r = run_s_complete).
Proof.
  unfold seal_partial_projection in H.
  destruct (rp_terminal_decision p) as [d|]; [|discriminate].
  destruct (negb (bool_decide (proj_status _ = _))); [discriminate|].
  destruct (negb (bool_decide (td_status d = _))); [discriminate|].
  destruct (existsb _ (dict_values (rp_waves p))) eqn:Hw; [discriminate|].
  apply result_bind_Ok in H as (trials & Ht & H).
  apply result_bind_Ok in H as (shards & Hs & H).
  apply result_bind_Ok in H as (runs & Hr & H).
  destruct (existsb _ (dict_values runs)) eqn:Hc; [discriminate|]. injection H as <-. simpl.
  split_and!; try reflexivity.
  - intros k w Hk. apply (forallb_dict_values wave_is_closed _ _ _) with (2 := Hk).
    by apply existsb_negb.
  - by eapply dict_keys_mapM.
  - intros k t' Hk. destruct (dict_mapM_get _ _ _ _ _ Ht Hk) as (t & Hget & Hf).
    destruct (is_scored (tr_status t)) eqn:Esc.
    + injection Hf as <-. split; [done|]. exists t. auto.
    + apply seal_retry_wait_trial_ok in Hf. split; [by eapply sealed_trial_scored|]. exists t. auto.
  - intros r Hin. apply existsb_negb in Hc. rewrite forallb_forall in Hc.
    apply list_elem_of_In in Hin. by apply Hc, bool_decide_eq_true in Hin.
Qed.

Definition demo_partial_events : list CampaignEvent := [
  demo_submitted; demo_started 1 "x1" "t1" 1; demo_started 2 "x2" "t2" 1;
  demo_outcome 3 "x1" "t1" 1 execution_failed (Some category_transient) 100;
  demo_outcome 4 "x2" "t2" 1 execution_completed None 200;
  demo_event 5 subject_trial "t3" trial_failed_infrastructure
    (payload_lifecycle {| lp_parent_id := None; lp_message := None |});
  demo_cancelled 6;
  demo_event 7 subject_campaign "demo" campaign_partial
    (payload_terminal {| tp_summary_path := None; tp_summary_sha256 := None;
                         tp_message := None |})].

Lemma sealing_is_sound_witness :
  returns (project_recovery demo_lock demo_partial_events) (fun p =>
  returns (seal_partial_projection p) (fun p' =>
    exists t, dict_get (rp_trials p') "t1" = Some t /\ is_scored (tr_status t) = true)).
Proof.
  run_returns p E.
  destruct (seal_partial_projection p) as [p'|] eqn:Es;
    [|exfalso; vm_compute in E; injection E as <-; vm_compute in Es; discriminate Es].
  cbn [returns]. cbv beta. destruct (dict_get (rp_trials p') "t1") as [t|] eqn:Ht;
    [|exfalso; vm_compute in E; injection E as <-; vm_compute in Es; injection Es as <-;
      vm_compute in Ht; discriminate Ht].
  exists t. split; [reflexivity|].
  destruct (sealing_is_sound _ _ Es) as (_ & _ & _ & _ & _ & H & _). by destruct (H _ _ Ht).
Defined.

(** The operator's cancel command is idempotent: once the event it made is
    recorded, repeating the command, with any reason, clock or identifier,
    returns that event and asks for nothing to be recorded. *)
Theorem cancel_command_is_idempotent lock events reason now id e
    (H : durable_cancellation_event lock events reason now id = Ok (e, true))
    (Hfresh : event_id e ∉ map event_id events) :
  kind e = campaign_cancel_requested /\ observed_at e = now /\
  forall reason' now' id',
    durable_cancellation_event lock (events ++ [e]) reason' now' id' = Ok (e, false).
Proof.
  unfold durable_cancellation_event in H.
  destruct (ordered_events events) as [l|] eqn:Ho; [|discriminate]. cbn in H.
  destruct (List.find _ l) as [y|] eqn:Hf; [discriminate|].
  destruct (new_event _ _ _ _ _ _ _) as [e'|] eqn:He; [|discriminate].
  cbn in H. injection H as ->. unfold new_event in He.
  destruct (negb _); [discriminate|]. injection He as He.
  assert (Hk : kind e = campaign_cancel_requested) by (by rewrite <- He).
  split_and!; [done|by rewrite <- He|]. intros reason' now' id'.
  unfold durable_cancellation_event.
  destruct (ordered_events (events ++ [e])) as [l'|x] eqn:Ho'.
  - cbn. rewrite (find_unique _ _ e); [done| | |].
    + apply (ordered_events_elem _ _ _ Ho'). set_solver.
    + by rewrite Hk.
    + intros y Hy Hky. apply (ordered_events_elem _ _ _ Ho'), elem_of_app in Hy as [Hy|Hy].
      * apply (ordered_events_elem _ _ _ Ho), list_elem_of_In in Hy.
        pose proof (find_none _ _ Hf _ Hy) as Hn. simpl in Hn. congruence.
      * by apply list_elem_of_singleton in Hy.
  - exfalso. apply ordered_events_err in Ho' as [_ Hn]. apply Hn.
    apply ordered_events_ok, is_ordered_consistent in Ho.
    assert (Hf' : forall y, y ∈ events -> event_id y <> event_id e).
    { intros y Hy Hid. apply Hfresh. rewrite <- Hid. apply list_elem_of_In, in_map. by apply list_elem_of_In. }
    intros x1 x2 [H1|H1%list_elem_of_singleton]%elem_of_app
      [H2|H2%list_elem_of_singleton]%elem_of_app Hid; subst; auto.
    + by destruct (Hf' x1).
    + by destruct (Hf' x2).
Qed.

Lemma cancel_command_is_idempotent_witness :
  returns (durable_cancellation_event demo_lock demo_events "stop" 20 None) (fun r =>
    r.2 = true /\ durable_cancellation_event demo_lock (demo_events ++ [r.1]) "again" 30 None =
      Ok (r.1, false)).
Proof.
  run_returns r E. destruct r as [e new].
  assert (new = true) as -> by (vm_compute in E; by injection E as <- <-).
  split; [reflexivity|].
  refine (proj2 (proj2 (cancel_command_is_idempotent demo_lock _ _ _ _ _ E _)) _ _ _).
  vm_compute in E. injection E as <-. apply (bool_decide_eq_true_1 (_ ∉ _)).
  vm_compute. reflexivity.
Defined.

(** The check that no completed trial is executed again misses a case: when
    the repeated execution completed too, [completed[-1]] is the last execution
    and [_derive_trial] accepts the history instead of rejecting it. *)
Theorem reexecuted_completed_trial_accepted :
  returns (project_recovery demo_lock [
      demo_submitted; demo_started 1 "x1" "t1" 1;
      demo_outcome 2 "x1" "t1" 1 execution_completed None 100;
      demo_started 3 "x2" "t1" 2;
      demo_outcome 4 "x2" "t1" 2 execution_completed None 100]) (fun p =>
    exists t, dict_get (rp_trials p) "t1" = Some t /\ tr_status t = trial_s_complete /\
      len (tr_executions t) = 2) /\
  project_recovery demo_lock [
      demo_submitted; demo_started 1 "x1" "t1" 1;
      demo_outcome 2 "x1" "t1" 1 execution_completed None 100;
      demo_started 3 "x2" "t1" 2;
      demo_outcome 4 "x2" "t1" 2 execution_failed (Some category_transient) 100] =
    Err (ValueError "a completed logical trial was physically re-executed").
Proof. split; [vm_compute; eexists; split_and!|vm_compute]; reflexivity. Qed.
