(* ===== verification/PlanProperties.v ===== *)
(** Properties of the reconciliation planner of [Reconciler]: what a plan may
    contain, the budgets it respects, and that it depends on the recorded
    events as a set. *)
From S2P Require Import Prelude.
From S2P Require Import PyDict.
From S2P Require Import Json.
From S2P Require Import Campaigns.
From S2P Require Import Control.
From S2P Require Import Recovery.
From S2P Require Import Reconciler.
From S2P Require Import ControlFacts.
From S2P Require Import RecoveryFacts.
From S2P Require Import ReconcilerFacts.
From S2P Require Import SubmissionFacts.
From S2P Require Import Scenario.

(** ** What a prefix of admitted actions uses *)
Definition billable_with (f : ReconcileAction -> bool) (l : list ReconcileAction) : Z :=
  count_if (fun a => is_billable (act_kind a) && f a) l.

Definition billed_cost (l : list ReconcileAction) : Z :=
  sum_z (map (fun a => if is_billable (act_kind a) then or_zero (act_estimated_cost_microusd a) else 0) l).

Definition open_waves (f : WaveProjection -> bool) (p : RecoveryProjection) : Z :=
  count_if (fun w => wave_is_open w && f w) (dict_values (rp_waves p)).

Lemma usage_after_spec campaign l u :
  let v := usage_after campaign u l in
  mu_global_waves v = mu_global_waves u + billable_with (fun _ => true) l /\
  (forall d, dict_get_default (mu_deployments v) d 0 = dict_get_default (mu_deployments u) d 0 +
     billable_with (fun a => String.eqb (act_deployment_digest a) d) l) /\
  (forall q, dict_get_default (mu_providers v) q 0 = dict_get_default (mu_providers u) q 0 +
     billable_with (fun a => String.eqb (act_provider a) q) l) /\
  dict_get_default (mu_campaigns v) campaign 0 = dict_get_default (mu_campaigns u) campaign 0 +
     billable_with (fun _ => true) l /\
  dict_get_default (mu_spend v) campaign 0 = dict_get_default (mu_spend u) campaign 0 + billed_cost l.
Proof.
  unfold usage_after, billable_with, billed_cost. revert u.
  induction l as [|a l IH]; intros u; cbn [fold_left map].
  { split_and!; intros; change (count_if _ []) with 0; change (sum_z []) with 0; lia. }
  destruct (IH (usage_with campaign u a)) as (H1 & H2 & H3 & H4 & H5).
  unfold usage_with in *.
  destruct (is_billable (act_kind a)) eqn:Ea; cbn in H1, H2, H3, H4, H5;
    (split_and!; [rewrite H1|intros k; rewrite H2|intros k; rewrite H3|rewrite H4|rewrite H5]);
    rewrite ?count_if_cons, ?sum_z_cons, ?dict_get_default_add, ?Ea, ?String.eqb_refl;
    cbn [andb];
    repeat destruct (String.eqb _ _); try lia.
Qed.

Lemma count_if_filter {A} (f g : A -> bool) l :
  count_if g (List.filter f l) = count_if (fun x => f x && g x) l.
Proof.
  induction l as [|x l IH]; simpl; [done|].
  destruct (f x) eqn:E; rewrite !count_if_cons, ?E; simpl; by rewrite IH.
Qed.

Lemma initial_usage_spec context p :
  let u := initial_usage context p in
  let campaign := proj_campaign_id (rp_campaign p) in
  mu_global_waves u = used_global_active_waves (usage context) + open_waves (fun _ => true) p /\
  (forall d, dict_get_default (mu_deployments u) d 0 =
     dict_get_default (used_deployment_active_waves (usage context)) d 0 +
     open_waves (fun w => String.eqb (wv_deployment_digest w) d) p) /\
  (forall q, dict_get_default (mu_providers u) q 0 =
     dict_get_default (used_provider_active_waves (usage context)) q 0 +
     open_waves (fun w => String.eqb (wv_provider w) q) p) /\
  dict_get_default (mu_campaigns u) campaign 0 =
     dict_get_default (used_campaign_active_waves (usage context)) campaign 0 +
     open_waves (fun _ => true) p /\
  dict_get_default (mu_spend u) campaign 0 =
     dict_get_default (used_campaign_spend_microusd (usage context)) campaign 0 + durable_spend p.
Proof.
  unfold initial_usage, open_waves. cbn [mu_global_waves mu_deployments mu_providers mu_campaigns mu_spend].
  split_and!; intros.
  - f_equal. unfold count_if. f_equal. apply map_ext. intros w. by rewrite andb_true_r.
  - by rewrite fold_dict_add, count_if_filter.
  - by rewrite fold_dict_add, count_if_filter.
  - rewrite (fold_dict_add (fun _ => proj_campaign_id (rp_campaign p))), count_if_filter, String.eqb_refl.
    done.
  - by rewrite dict_get_default_add, String.eqb_refl.
Qed.

Lemma plan_campaign_id lock events context now p plan :
  plan_parts lock events context now p plan -> proj_campaign_id (rp_campaign p) = campaign_id lock.
Proof.
  intros P. destruct (project_recovery_ok _ _ _ (plan_projection _ _ _ _ _ _ P)) as (c & l & st & Q).
  destruct (part_campaign_rest _ _ _ _ _ _ Q) as (_ & -> & _).
  by destruct (project_campaign_ok _ _ _ (part_campaign _ _ _ _ _ _ Q))
    as (? & ? & ? & _ & _ & _ & -> & _).
Qed.

(** In a stopping campaign a plan only cleans up or publishes. *)
Lemma stopping_plan_kinds lock events context now p plan a :
  plan_parts lock events context now p plan ->
  stopping_or_terminal (proj_status (rp_campaign p)) = true -> a ∈ rpl_actions plan ->
  is_cleanup_kind (act_kind a) = true \/ act_kind a = publish_summary.
Proof.
  intros P Hs Ha.
  destruct (campaign_status_is_terminal (proj_status (rp_campaign p))) eqn:Et.
  { destruct (plan_terminal _ _ _ _ _ _ P Et) as [Hnil _]. rewrite Hnil in Ha.
    by apply elem_of_nil in Ha. }
  assert (Hstop : campaign_is_stopping (proj_status (rp_campaign p)) = true)
    by (by destruct (proj_status (rp_campaign p))).
  destruct (plan_source _ _ _ _ _ _ P _ Ha) as (cs & Hsrc & Hclass).
  destruct Hsrc as [c Hc Hm|c Hc Hk _ Hm].
  - rewrite (made_kind _ _ _ _ Hm). destruct (Hclass _ Hc) as [Hk|d _ ->|Hn _|? Hn _ _];
      [by left|by right|congruence..].
  - exfalso. destruct (Hclass _ Hc) as [Hk'|d _ ->|Hn _|? Hn _ _]; try congruence;
      [by rewrite Hk in Hk'|discriminate Hk].
Qed.

(** C3: the projections and the plan depend on the recorded events only as a
    set: neither the order in which the store lists them nor repeated delivery
    changes the status, the executions, the spend or any planned action. *)
Theorem plan_depends_on_event_set lock events events' context now
    (H : forall e, e ∈ events <-> e ∈ events') :
  project_campaign lock events = project_campaign lock events' /\
  project_recovery lock events = project_recovery lock events' /\
  plan_reconciliation lock events context now = plan_reconciliation lock events' context now.
Proof.
  assert (Hp : project_recovery lock events = project_recovery lock events')
    by (by apply project_recovery_ext).
  split_and!; [by apply project_campaign_ext|done|]. unfold plan_reconciliation. by rewrite Hp.
Qed.

Lemma plan_depends_on_event_set_witness :
  plan_reconciliation demo_lock (rev demo_events ++ demo_events) default_context 100 =
  plan_reconciliation demo_lock demo_events default_context 100.
Proof.
  apply (plan_depends_on_event_set demo_lock). intros e.
  rewrite elem_of_app, !list_elem_of_In, <- in_rev. tauto.
Defined.

(** C1: a plan never exceeds its budgets.  For every wave it starts, counting
    the waves that are open, those other campaigns use, and those the plan
    itself started before: the global, deployment, provider and campaign bounds
    leave room for it, and for every spend cap that applies (of the recovery
    policy or of the run) the cost of the wave is known and the recorded and
    reserved spend together with it stays within the cap. *)
Theorem plan_respects_budgets lock events context now p plan l a l'
    (H : plan_reconciliation lock events context now = Ok (p, plan))
    (Hsplit : rpl_actions plan = l ++ a :: l') (Ha : is_billable (act_kind a) = true) :
  let limit := limits context in let used := usage context in
  used_global_active_waves used + open_waves (fun _ => true) p +
    billable_with (fun _ => true) l + 1 <= global_active_waves limit /\
  dict_get_default (used_deployment_active_waves used) (act_deployment_digest a) 0 +
    open_waves (fun w => String.eqb (wv_deployment_digest w) (act_deployment_digest a)) p +
    billable_with (fun b => String.eqb (act_deployment_digest b) (act_deployment_digest a)) l + 1
    <= deployment_active_waves limit /\
  dict_get_default (used_provider_active_waves used) (act_provider a) 0 +
    open_waves (fun w => String.eqb (wv_provider w) (act_provider a)) p +
    billable_with (fun b => String.eqb (act_provider b) (act_provider a)) l + 1
    <= provider_active_waves limit /\
  dict_get_default (used_campaign_active_waves used) (campaign_id lock) 0 +
    open_waves (fun _ => true) p + billable_with (fun _ => true) l + 1
    <= Z.min (campaign_active_waves limit) (max_active_waves (recovery_policy lock)) /\
  forall cap,
    policy_spend_cap_microusd (recovery_policy lock) = Some cap \/ act_spend_cap_microusd a = Some cap ->
    exists cost, act_estimated_cost_microusd a = Some cost /\
      dict_get_default (used_campaign_spend_microusd used) (campaign_id lock) 0 +
        durable_spend p + billed_cost l + cost <= cap.
Proof.
  intros limit used. pose proof (plan_reconciliation_ok _ _ _ _ _ _ H) as P.
  destruct (plan_budget _ _ _ _ _ _ P _ _ _ Hsplit Ha) as [Hg Hd Hp [Hc1 Hc2] Hs].
  destruct (usage_after_spec (campaign_id lock) l (initial_usage context p)) as (U1 & U2 & U3 & U4 & U5).
  destruct (initial_usage_spec context p) as (I1 & I2 & I3 & I4 & I5).
  rewrite (plan_campaign_id _ _ _ _ _ _ P) in I4, I5.
  rewrite U1, I1 in Hg. rewrite U2, I2 in Hd. rewrite U3, I3 in Hp. rewrite U4, I4 in Hc1, Hc2.
  split_and!; try (unfold limit, used; lia).
  intros cap Hcap. destruct (Hs cap Hcap) as (cost & -> & Hle). exists cost. split; [done|].
  rewrite U5, I5 in Hle. unfold used. lia.
Qed.

Lemma plan_respects_budgets_witness :
  returns (plan_reconciliation demo_lock demo_events default_context 1000000000) (fun r =>
    exists a, rpl_actions r.2 = [a] /\ act_kind a = retry_shard /\
      exists cost, act_estimated_cost_microusd a = Some cost /\ durable_spend r.1 + cost <= 5000).
Proof.
  run_returns r E. destruct r as [p plan].
  destruct (rpl_actions plan) as [|a [|]] eqn:Ha;
    [exfalso; vm_compute in E; injection E as <- <-; discriminate Ha| |
     exfalso; vm_compute in E; injection E as <- <-; discriminate Ha].
  assert (Hk : act_kind a = retry_shard)
    by (vm_compute in E; injection E as <- <-; by injection Ha as <-).
  exists a. split_and!; [exact Ha|exact Hk|].
  destruct (plan_respects_budgets demo_lock _ _ _ _ _ [] a [] E Ha ltac:(by rewrite Hk))
    as (_ & _ & _ & _ & Hs).
  destruct (Hs 5000 (or_introl eq_refl)) as (cost & Hcost & Hle). exists cost. split; [exact Hcost|].
  cbn in Hle. change (billed_cost []) with 0 in Hle. cbn [fst]. lia.
Defined.

(** C2: once the log holds a cancellation request or a draining event, or while
    it leaves a required manual intervention unresolved, a plan starts nothing:
    every action it contains winds down executions or waves or publishes the
    summary, and when the campaign has terminated the plan is empty. *)
Theorem cancelled_campaign_spends_nothing lock events context now p plan
    (Hw : work_is_stopped events)
    (H : plan_reconciliation lock events context now = Ok (p, plan)) :
  (forall a, a ∈ rpl_actions plan ->
     is_billable (act_kind a) = false /\
     (is_cleanup_kind (act_kind a) = true \/ act_kind a = publish_summary)) /\
  (campaign_status_is_terminal (proj_status (rp_campaign p)) = true ->
     rpl_actions plan = [] /\ rpl_blocked plan = []).
Proof.
  pose proof (plan_reconciliation_ok _ _ _ _ _ _ H) as P. split; [|apply (plan_terminal _ _ _ _ _ _ P)].
  intros a Ha.
  pose proof (project_recovery_stopped _ _ _ (plan_projection _ _ _ _ _ _ P) Hw) as Hs.
  pose proof (stopping_plan_kinds _ _ _ _ _ _ _ P Hs Ha) as Hk. split; [|done].
  destruct Hk as [Hk| ->]; [by destruct (act_kind a)|done].
Qed.

Lemma cancelled_campaign_spends_nothing_witness :
  returns (plan_reconciliation demo_lock [demo_submitted; demo_reserved; demo_wave 3 wave_acquiring;
             demo_cancelled 4] default_context 10000000) (fun r =>
    exists a, a ∈ rpl_actions r.2 /\ is_billable (act_kind a) = false).
Proof.
  run_returns r E. destruct r as [p plan]. cbn [snd].
  destruct (rpl_actions plan) as [|a l] eqn:Ha;
    [exfalso; vm_compute in E; injection E as <- <-; discriminate Ha|].
  exists a. split; [left|].
  assert (Hw : work_is_stopped [demo_submitted; demo_reserved; demo_wave 3 wave_acquiring; demo_cancelled 4]).
  { left. exists (demo_cancelled 4). split; [right; right; right; left|]. split; [reflexivity|by left]. }
  destruct (cancelled_campaign_spends_nothing demo_lock _ _ _ _ _ Hw E) as [Hk _].
  apply Hk. rewrite Ha. left.
Defined.

(** New waves are only planned for work nobody holds: in a campaign that is
    neither stopping nor terminal, the shards of a planned submission are
    planned or queued shards of one deployment of the lock, within the shard
    bound, and none of them is in an open wave, has an execution, or is the
    target of a recorded wave action that is still open. *)
Definition takes_free_shards (lock : CampaignLock) (p : RecoveryProjection) (a : ReconcileAction) : Prop :=
  campaign_is_stopping (proj_status (rp_campaign p)) = false /\
  0 < len (act_shard_ids a) <= max_shards_per_wave lock /\ act_trial_ids a = [] /\
  forall s, s ∈ act_shard_ids a ->
    shard_of_deployment lock (act_deployment_digest a) s /\
    (exists sh, dict_get (rp_shards p) s = Some sh /\ shard_is_startable (sh_status sh) = true) /\
    (forall w, w ∈ dict_values (rp_waves p) -> wave_is_open w = true -> s ∉ wv_shard_ids w) /\
    (forall e, e ∈ dict_values (rp_executions p) -> ep_shard_id e <> s) /\
    (forall b, b ∈ dict_values (proj_actions (rp_campaign p)) ->
       is_wave_action_kind (ap_action_kind b) = true -> _action_is_spent p b = false ->
       s ∉ _action_shard_ids lock (ap_action_kind b) (ap_target_ids b)).

Theorem new_waves_take_free_shards lock events context now p plan a
    (H : plan_reconciliation lock events context now = Ok (p, plan))
    (Ha : a ∈ rpl_actions plan) (Hk : act_kind a = submit_wave) : takes_free_shards lock p a.
Proof.
  pose proof (plan_reconciliation_ok _ _ _ _ _ _ H) as P.
  destruct (plan_source _ _ _ _ _ _ P _ Ha) as (cs & [c Hc Hm|c Hc _ _ Hm] & Hclass);
    [|by rewrite (made_kind _ _ _ _ Hm) in Hk].
  rewrite (made_kind _ _ _ _ Hm) in Hk.
  destruct (Hclass _ Hc) as [Hk'|d _ ->|_ [Hk' _ _ _ _]|assigned Hst Has [_ [Hne Hlen] [_ Htr] Hd Hun _]];
    [by rewrite Hk in Hk'|done|congruence|].
  rewrite <- (made_shards _ _ _ _ Hm), <- (made_trials _ _ _ _ Hm), <- (made_deployment _ _ _ _ Hm) in *.
  split_and!; try done.
  { destruct (act_shard_ids a); [done|]. rewrite len_cons. pose proof (len_nonneg l). lia. }
  intros s Hs. destruct (Hun _ Hs) as [Hna Hsh].
  pose proof (fun x => assigned_shards_elem _ _ _ s Has x) as Hassigned.
  split_and!; [auto..| | |].
  - intros w Hw Ho Hin. apply Hna, Hassigned. left. eauto.
  - intros e He Hid. apply Hna, Hassigned. right; left. eauto.
  - intros b Hb Hbk Hbs Hin. apply Hna, Hassigned. right; right. eauto.
Qed.

Lemma new_waves_take_free_shards_witness :
  returns (plan_reconciliation demo_lock [demo_submitted] default_context 0) (fun r =>
    exists a, rpl_actions r.2 = [a] /\ 0 < len (act_shard_ids a) <= 1).
Proof.
  run_returns r E. destruct r as [p plan]. cbn [snd].
  destruct (rpl_actions plan) as [|a [|]] eqn:Ha;
    [exfalso; vm_compute in E; injection E as <- <-; discriminate Ha| |
     exfalso; vm_compute in E; injection E as <- <-; discriminate Ha].
  assert (Hk : act_kind a = submit_wave)
    by (vm_compute in E; injection E as <- <-; by injection Ha as <-).
  exists a. split; [reflexivity|].
  refine (proj1 (proj2 (new_waves_take_free_shards demo_lock _ _ _ _ _ a E _ Hk))).
  rewrite Ha. left.
Defined.

(** Retries are safe: a planned retry names at least one trial, and every
    trial it names either waits for a retry whose instant has passed, its last
    execution having failed for a retryable reason with physical attempts left,
    or was planned but skipped by a wave that closed; no recorded open retry
    already covers it. *)
Definition takes_due_trials (lock : CampaignLock) (p : RecoveryProjection) (now : Z) (a : ReconcileAction) : Prop :=
  act_trial_ids a <> [] /\
  forall trial_id, trial_id ∈ act_trial_ids a -> trial_id ∉ reserved_retry_trials p /\
    exists t, dict_get (rp_trials p) trial_id = Some t /\ tr_shard_id t ∈ act_shard_ids a /\
      ((tr_status t = trial_s_retry_wait /\ retry_pending lock t /\
        exists due, tr_retry_not_before t = Some due /\
          due <= Z.max now (proj_last_observed_at (rp_campaign p))) \/
       (tr_status t = trial_s_planned /\
        _trial_was_skipped_in_closed_wave p (tr_shard_id t) = Ok true)).

Theorem retries_are_due lock events context now p plan a
    (H : plan_reconciliation lock events context now = Ok (p, plan))
    (Ha : a ∈ rpl_actions plan) (Hk : act_kind a = retry_shard) : takes_due_trials lock p now a.
Proof.
  pose proof (plan_reconciliation_ok _ _ _ _ _ _ H) as P.
  destruct (project_recovery_ok _ _ _ (plan_projection _ _ _ _ _ _ P)) as (c0 & l & st & Q).
  destruct (plan_source _ _ _ _ _ _ P _ Ha) as (cs & [c Hc Hm|c Hc _ _ Hm] & Hclass);
    [|by rewrite (made_kind _ _ _ _ Hm) in Hk].
  rewrite (made_kind _ _ _ _ Hm) in Hk.
  destruct (Hclass _ Hc) as [Hk'|d _ ->|_ [_ _ _ [Hne _] Hdue _]|? _ _ [Hk' _ _ _ _ _]];
    [by rewrite Hk in Hk'|done| |congruence].
  rewrite <- (made_shards _ _ _ _ Hm), <- (made_trials _ _ _ _ Hm) in *. split; [done|].
  intros trial_id Ht. destruct (Hdue _ Ht) as (s & Hs & t & Hin & Hid & <- & Hcase & Hres).
  split; [done|]. destruct (part_trials _ _ _ _ _ _ Q) as [Hkeys Hd].
  assert (Hwf : dict_wf (rp_trials p)).
  { unfold dict_wf. rewrite Hkeys. apply (ok_trials _ _ (part_ok _ _ _ _ _ _ Q)). }
  apply (dict_wf_values _ _ Hwf) in Hin as (k & Hget).
  destruct (Hd _ _ Hget) as (r & _ & Hk' & _ & _ & [_ [Hw _]] & _).
  exists t. split_and!; [congruence|done|]. destruct Hcase as [[Hst Hat]|Hpl]; [left|by right].
  split_and!; auto.
Qed.

Lemma retries_are_due_witness :
  returns (plan_reconciliation demo_lock demo_events default_context 1000000000) (fun r =>
    exists a, rpl_actions r.2 = [a] /\ act_trial_ids a <> []).
Proof.
  run_returns r E. destruct r as [p plan]. cbn [snd].
  destruct (rpl_actions plan) as [|a [|]] eqn:Ha;
    [exfalso; vm_compute in E; injection E as <- <-; discriminate Ha| |
     exfalso; vm_compute in E; injection E as <- <-; discriminate Ha].
  assert (Hk : act_kind a = retry_shard)
    by (vm_compute in E; injection E as <- <-; by injection Ha as <-).
  exists a. split; [reflexivity|].
  refine (proj1 (retries_are_due demo_lock _ _ _ _ _ a E _ Hk)). rewrite Ha. left.
Defined.

(** C33: every wave the planner starts is a well-formed action over work that
    nobody holds.  The action passes [_validate_submit_wave_action] (kind,
    campaign, distinct shards within the bound, trials for retries only, identity
    digest), and [_selected_wave_shards] resolves it, without mixing deployments,
    to exactly the shards it names; a new wave takes only startable shards of one
    deployment that are in no open wave, have no execution and are no target of
    an open wave action, in a campaign that is not stopping; a retry names only
    trials that wait for a retry that is due, or that a closed wave skipped, and
    that no open retry covers.  It says nothing of the further check of a
    provider campaign, that the shards are those of one locked initial wave:
    [PlannerProperties.partial_wave_stops_the_controller] shows that it may fail. *)
Theorem planned_waves_take_free_work lock events context now p plan a
    (Hids : NoDup (lock_shard_ids lock))
    (H : plan_reconciliation lock events context now = Ok (p, plan))
    (Ha : a ∈ rpl_actions plan) (Hb : is_billable (act_kind a) = true) :
  _validate_submit_wave_action lock a = Ok tt /\
  (exists selected, _selected_wave_shards lock a = Ok selected /\
     forall x, x ∈ concat (map (fun entry => map sl_shard_id entry.2) selected) <-> x ∈ act_shard_ids a) /\
  (act_kind a = submit_wave /\ takes_free_shards lock p a \/
   act_kind a = retry_shard /\ takes_due_trials lock p now a).
Proof.
  destruct (planned_action_valid _ _ _ _ _ _ _ Hids H Ha Hb) as [Hv Hs]. split; [done|]. split; [done|].
  destruct (act_kind a) eqn:Hk; try discriminate Hb; [left|right]; (split; [done|]).
  - by eapply new_waves_take_free_shards.
  - by eapply retries_are_due.
Qed.

Lemma planned_waves_take_free_work_witness :
  returns (plan_reconciliation demo_lock demo_events default_context 1000000000) (fun r =>
    exists a, rpl_actions r.2 = [a] /\ _validate_submit_wave_action demo_lock a = Ok tt /\
      (act_kind a = submit_wave /\ takes_free_shards demo_lock r.1 a \/
       act_kind a = retry_shard /\ takes_due_trials demo_lock r.1 1000000000 a)).
Proof.
  run_returns r E. destruct r as [p plan]. cbn [fst snd].
  destruct (rpl_actions plan) as [|a [|]] eqn:Ha;
    [exfalso; vm_compute in E; injection E as <- <-; discriminate Ha| |
     exfalso; vm_compute in E; injection E as <- <-; discriminate Ha].
  assert (Hb : is_billable (act_kind a) = true)
    by (vm_compute in E; injection E as <- <-; by injection Ha as <-).
  exists a. split; [reflexivity|].
  assert (Hids : NoDup (lock_shard_ids demo_lock)) by (apply str_unique_NoDup; vm_compute; reflexivity).
  assert (Hin : a ∈ rpl_actions plan) by (rewrite Ha; left).
  destruct (planned_waves_take_free_work demo_lock _ _ _ _ _ a Hids E Hin Hb) as (Hv & _ & Hk).
  split; [exact Hv|exact Hk].
Defined.

(** Planning is idempotent on recorded actions: an action of a plan has the
    identity of its content digest, and none repeats the key of a recorded
    action that is still open (neither failed nor with a closed wave); the plan
    counts its actions and holds at most the configured number. *)
Theorem plan_repeats_no_open_action lock events context now p plan
    (H : plan_reconciliation lock events context now = Ok (p, plan)) :
  rpl_action_count plan = len (rpl_actions plan) /\
  len (rpl_actions plan) <= Z.max 0 (action_limit (limits context)) /\
  forall a, a ∈ rpl_actions plan ->
    ra_action_id a = "act-" +:+ ra_action_key a /\ act_campaign_id a = campaign_id lock /\
    forall b, b ∈ dict_values (proj_actions (rp_campaign p)) ->
      ap_action_key b = ra_action_key a -> _action_is_spent p b = true.
Proof.
  pose proof (plan_reconciliation_ok _ _ _ _ _ _ H) as P.
  split_and!; [by apply (plan_count _ _ _ _ _ _ P)|by apply (plan_limit _ _ _ _ _ _ P)|].
  intros a Ha. destruct (plan_source _ _ _ _ _ _ P _ Ha) as (cs & Hs & _).
  assert (Hm : exists c, made_from lock p c a) by (destruct Hs; eauto).
  destruct Hm as [c Hm]. split_and!; [apply Hm|apply Hm|]. intros b Hb Hkey.
  destruct (_action_is_spent p b) eqn:Es; [done|]. exfalso. apply (made_new _ _ _ _ Hm). by exists b.
Qed.

Lemma plan_repeats_no_open_action_witness :
  returns (plan_reconciliation demo_lock demo_events default_context 1000000000) (fun r =>
    len (rpl_actions r.2) <= 64).
Proof.
  run_returns r E. destruct r as [p plan].
  exact (proj1 (proj2 (plan_repeats_no_open_action demo_lock _ _ _ _ _ E))).
Defined.
