(* ===== verification/PassProperties.v ===== *)
(** Properties of reconciliation passes: billable work starts only for actions
    whose reservation is recorded, a stopped campaign starts none, every outcome
    is on record, and an unfinished action is taken up again. *)
From S2P Require Import Prelude.
From S2P Require Import PyDict.
From S2P Require Import Json.
From S2P Require Import Campaigns.
From S2P Require Import Models.
From S2P Require Import Hub.
From S2P Require Import Endpoints.
From S2P Require Import Coordination.
From S2P Require Import Control.
From S2P Require Import ControlStore.
From S2P Require Import Recovery.
From S2P Require Import Reconciler.
From S2P Require Import Waves.
From S2P Require Import EndpointFacts.
From S2P Require Import ControlFacts.
From S2P Require Import Apply.
From S2P Require Import CampaignPass.
From S2P Require Import PassFacts.
From S2P Require Import Scenario.
From S2P Require Import PassScenario.

(** ** Starting work *)
Section pass.
Context {W : Type} `{SL : CampaignStoreLaws W later} `{ClaimStore W} `{EndpointApplicationPort W}
  `{WaveJobPort W} `{ReconcilerServices W} `{PydanticModel EndpointSettings}.

(** C9: the pass is write-ahead.  Whatever way it ends, there is a moment up to
    which it started no Job, and every Job it started after that is that of an
    action that was pending before the pass, or that was reserved at that
    moment, with the record of the reservation and its event in the store; and
    it started one only for a campaign that is queued or active. *)
Theorem jobs_start_after_their_reservation (started : W -> string -> Prop)
    lock spec request reservations effective projection plan expected s r s' :
  campaign_id_safe (campaign_id lock) = true ->
  jobs_start later started (campaign_id lock) ->
  select_and_apply lock spec request reservations effective projection plan expected s = (r, s') ->
  exists w, later (pass_world s) w /\ later w (pass_world s') /\
    (forall i, started w i -> started (pass_world s) i) /\
    (forall i, started (pass_world s') i -> started w i \/
       takes_work projection = true /\
       exists pending a, ra_action_id a = i /\
         _pending_actions (proj_actions (rp_campaign projection)) reservations = Ok pending /\
         (a ∈ pending \/ a ∈ rpl_actions plan /\ action_reserved_in w (campaign_id lock) a)).
Proof.
  intros Hsafe HJ E%select_and_apply_inv.
  assert (P : forall ids, ports_keep (starts_only later started ids) true ids (campaign_id lock))
    by (intros ids; by apply jobs_start_keep).
  assert (Hres : forall res s1, _reserve_new lock (rpl_actions plan) s = (res, s1) ->
            starts_only later started (fun _ => False) (pass_world s) (pass_world s1)).
  { intros res s1 Er. pose proof (keeps_reserve_new _ true _ lock (P (fun _ => False)) (rpl_actions plan) s) as K.
    by rewrite Er in K. }
  match goal with |- ?G =>
    assert (Hend : starts_only later started (fun _ => False) (pass_world s) (pass_world s') -> G) end.
  { intros [Hl Hs]. exists (pass_world s'). split_and!; [done|reflexivity| |by left].
    intros i [?|[]]%Hs. done. }
  destruct E as [e|e s' Er|reserved e s' Er|pending reserved s1 r s' Ep Er Ea];
    [apply Hend; reflexivity|by apply Hend, (Hres _ _ Er)..|]. clear Hend.
  destruct (Hres _ _ Er) as [Hl Hs]. exists (pass_world s1).
  set (ids := fun i => takes_work projection = true /\
    exists a, a ∈ pass_selection effective pending reserved /\ ra_action_id a = i).
  assert (K : starts_only later started ids (pass_world s1) (pass_world s')).
  { pose proof (keeps_apply_selected (starts_only later started ids) (takes_work projection) ids lock) as K.
    specialize (K ltac:(destruct (P ids); split; auto) spec request (pass_selection effective pending reserved)
      projection (rpl_terminal_decision plan)).
    specialize (K ltac:(intros Ht; apply Forall_forall; intros a Ha; by split; [|exists a]) s1).
    by rewrite Ea in K. }
  destruct K as [Hl' Hs']. split_and!; [done|done|intros i [?|[]]%Hs; done|].
  intros i [Hi|[Ht (a & Ha & Hi)]]%Hs'; [by left|right]. split; [done|].
  exists pending, a. split_and!; [done|done|].
  apply pass_selection_elem in Ha as [Ha|Ha]; [by left|right].
  apply (reserve_new_inv lock) in Er; [|by eapply jobs_start_later|done].
  rewrite Forall_forall in Er. by apply Er.
Qed.

(** C10: a campaign that is stopping starts nothing billable.  When its status is
    neither queued nor active, a pass keeps every relation between worlds that
    all operations keep except the creation of an endpoint and the submission of
    a Job, the two that start billable work, whatever way the pass ends and
    whatever actions are pending. *)
Theorem stopped_campaign_starts_nothing (R : W -> W -> Prop) `{!PreOrder R}
    lock spec request reservations effective projection plan expected s r s' :
  ports_keep R false (fun _ => False) (campaign_id lock) ->
  proj_status (rp_campaign projection) <> campaign_status_queued ->
  proj_status (rp_campaign projection) <> campaign_status_active ->
  select_and_apply lock spec request reservations effective projection plan expected s = (r, s') ->
  R (pass_world s) (pass_world s').
Proof.
  intros P Hq Ha E%select_and_apply_inv.
  assert (Ht : takes_work projection = false) by (unfold takes_work; by rewrite !bool_decide_false).
  assert (Hres : forall res s1, _reserve_new lock (rpl_actions plan) s = (res, s1) ->
            R (pass_world s) (pass_world s1)).
  { intros res s1 Er. pose proof (keeps_reserve_new R _ _ lock P (rpl_actions plan) s) as K.
    by rewrite Er in K. }
  destruct E as [e|e s' Er|reserved e s' Er|pending reserved s1 r s' Ep Er E];
    [reflexivity|by eapply Hres..|].
  transitivity (pass_world s1); [by eapply Hres|]. rewrite Ht in E.
  pose proof (keeps_apply_selected R false _ lock P spec request (pass_selection effective pending reserved)
    projection (rpl_terminal_decision plan) ltac:(done) s1) as K. by rewrite E in K.
Qed.

(** C11: a pass does what its selection says.  When it returns, there is a moment
    [w] up to which it reserved: each action of its plan is then in the store with
    its reservation event, or the store answered that it was reserved already.
    The pending and the newly reserved actions were put in the order of
    [handling_order], then of their identifiers, the first of them up to the
    limit were selected, and these were taken in that order: each was skipped
    because the claim the pass asked for was refused, or was claimed and has
    exactly one outcome, on record as an event before the next action was taken;
    and the pass ended early only at an ambiguous outcome or a published summary. *)
Theorem pass_follows_its_selection
    lock spec request reservations effective projection plan expected s applied s' :
  campaign_id_safe (campaign_id lock) = true ->
  ports_all_keep later (campaign_id lock) ->
  select_and_apply lock spec request reservations effective projection plan expected s = (Ok applied, s') ->
  exists pending reserved selected rest w,
    _pending_actions (proj_actions (rp_campaign projection)) reservations = Ok pending /\
    later (pass_world s) w /\
    Forall (fun a => a ∈ rpl_actions plan /\ action_reserved_in w (campaign_id lock) a) reserved /\
    (forall a, a ∈ rpl_actions plan ->
       a ∈ reserved \/ reserved_before (later := later) lock a (pass_world s) w) /\
    selected ++ rest ≡ₚ pending ++ reserved /\
    StronglySorted taken_before (selected ++ rest) /\
    (0 <= action_limit (limits effective) ->
       len selected = Z.min (action_limit (limits effective)) (len (pending ++ reserved))) /\
    pass_outcomes (later := later) lock w (pass_world s') selected applied.
Proof.
  intros Hsafe P E%select_and_apply_inv. inversion E as [| | |pending reserved s1 r s2 Ep Er Ea]; subst.
  destruct (pass_selection_sorted effective pending reserved) as (rest & Hp & Hs).
  exists pending, reserved, (pass_selection effective pending reserved), rest, (pass_world s1).
  split_and!; [done| |by eapply reserve_new_inv|by eapply reserve_new_covers|done|done
    |by apply pass_selection_length|by eapply apply_selected_inv].
  eapply kept_world; [|exact Er]. apply (keeps_reserve_new later _ _ lock P).
Qed.

End pass.

(** *** On the demonstration campaign *)
Lemma jobs_start_after_their_reservation_witness :
  exists d i w, demo_first_pass = Ok d /\ of_started (pass_world (dr_end d)) = [i] /\
    i ∉ of_started w /\
    exists a, ra_action_id a = i /\ action_reserved_in w (campaign_id (dr_campaign d)) a.
Proof.
  destruct demo_first_pass_submits as (d & Hd & [Hsafe Hnew Hs Hone _]).
  destruct (rpl_actions (dr_plan d)) as [|a [|]] eqn:Ea; try discriminate Hone.
  destruct (jobs_start_after_their_reservation office_started (dr_campaign d) demo_spec (DBytes "request") []
    default_context (dr_projection d) (dr_plan d) None first_pass (Ok (dr_applied d)) (dr_end d) Hsafe
    (office_jobs_start _) (demo_first_pass_run d Hd)) as (w & _ & _ & Hw & Hw').
  exists d, (ra_action_id a), w. split; [exact Hd|]. split; [exact Hs|].
  assert (Hn : ra_action_id a ∉ of_started w) by (intros Hin; by apply Hw, elem_of_nil in Hin).
  split; [exact Hn|].
  destruct (Hw' (ra_action_id a)) as [?|(_ & pending & b & Hb & Hp & Hr)];
    [unfold office_started; rewrite Hs; by left|by destruct Hn|].
  rewrite Hnew in Hp. injection Hp as <-. destruct Hr as [[]%elem_of_nil|[_ Hr]].
  exists b. split; [exact Hb|exact Hr].
Defined.

Lemma pass_follows_its_selection_witness :
  exists d w reserved selected, demo_first_pass = Ok d /\ length (dr_applied d) = 1%nat /\
    Forall (fun a => a ∈ rpl_actions (dr_plan d) /\
      action_reserved_in w (campaign_id (dr_campaign d)) a) reserved /\
    pass_outcomes (later := office_later) (dr_campaign d) w (pass_world (dr_end d)) selected (dr_applied d).
Proof.
  destruct demo_first_pass_submits as (d & Hd & [Hsafe Hnew _ _ Ha]).
  destruct (pass_follows_its_selection (dr_campaign d) demo_spec (DBytes "request") []
    default_context (dr_projection d) (dr_plan d) None first_pass (dr_applied d) (dr_end d) Hsafe
    (jobs_start_later _ _ (office_jobs_start _)) (demo_first_pass_run d Hd))
    as (pending & reserved & selected & rest & w & _ & _ & Hres & _ & _ & _ & _ & Ho).
  exists d, w, reserved, selected. split; [exact Hd|].
  split; [apply (f_equal length) in Ha; by rewrite length_map in Ha|]. split; [exact Hres|exact Ho].
Defined.

Definition same_started (w w' : office) : Prop := of_started w' = of_started w.

#[local] Instance same_started_preorder : PreOrder same_started.
Proof. split; [done|]. intros a b c Hab Hbc. unfold same_started in *. congruence. Qed.

Lemma office_keeps_started c : ports_keep same_started false (fun _ => False) c.
Proof.
  split; intros; try done; intros ?; cbn; try done.
  unfold office_reserve. destruct (payload_action_id _); [by destruct (is_reserved _ _ _)|done].
Qed.

(** The submission of a wave is pending when the cancellation arrives. *)
Definition cancelled_pass : result (RecoveryProjection * ReconcilePlan) :=
  plan_reconciliation demo_lock [demo_submitted; demo_reserved; demo_cancelled 5] default_context 6000000.

Lemma cancelled_pass_status :
  exists p, cancelled_pass = Ok p /\ proj_status (rp_campaign p.1) = campaign_status_cancel_requested.
Proof.
  enough (Hr : returns cancelled_pass (fun p => proj_status (rp_campaign p.1) = campaign_status_cancel_requested)).
  { destruct cancelled_pass as [p|]; [|done]. by exists p. }
  apply (decides_returns cancelled_pass
    (fun p => bool_decide (proj_status (rp_campaign p.1) = campaign_status_cancel_requested))).
  - vm_compute. reflexivity.
  - intros p. apply bool_decide_eq_true.
Qed.
#[local] Opaque cancelled_pass.

Lemma stopped_campaign_starts_nothing_witness :
  exists p, cancelled_pass = Ok p /\ proj_status (rp_campaign p.1) = campaign_status_cancel_requested /\
    of_started (pass_world (select_and_apply demo_lock demo_spec (DBytes "request")
      [("act-" +:+ demo_key, wave_action demo_lock 0)] default_context p.1 p.2 None first_pass).2) = [].
Proof.
  destruct cancelled_pass_status as (p & Hp & Hs). exists p. split; [exact Hp|]. split; [exact Hs|].
  apply (stopped_campaign_starts_nothing same_started demo_lock demo_spec (DBytes "request")
    [("act-" +:+ demo_key, wave_action demo_lock 0)] default_context p.1 p.2 None first_pass
    (select_and_apply demo_lock demo_spec (DBytes "request")
      [("act-" +:+ demo_key, wave_action demo_lock 0)] default_context p.1 p.2 None first_pass).1
    (select_and_apply demo_lock demo_spec (DBytes "request")
      [("act-" +:+ demo_key, wave_action demo_lock 0)] default_context p.1 p.2 None first_pass).2
    (office_keeps_started _)).
  - rewrite Hs. discriminate.
  - rewrite Hs. discriminate.
  - apply surjective_pairing.
Defined.


(** ** The outcome of an action in the log *)

(** An outcome that a pass records is what the next pass sees.  Appending the
    outcome event of an unfinished action, later than all events of the log as
    the pass makes it, succeeds to project unless the campaign has ended, and
    the projection has that outcome and message for the action, everything else
    of it and all other actions unchanged; a queued campaign has become active. *)
Theorem recorded_outcome_is_projected lock events projection e outcome p a :
  project_campaign lock events = Ok projection ->
  campaign_status_is_terminal (proj_status projection) = false ->
  (forall x, x ∈ events -> observed_at x < observed_at e) ->
  event_id e ∉ map event_id events ->
  subject_type e = subject_campaign -> subject_id e = campaign_id lock ->
  kind e = _OUTCOME_KINDS outcome -> payload e = payload_action_outcome p ->
  dict_get (proj_actions projection) (ao_action_id p) = Some a ->
  ap_status a = status_reserved \/
    ap_status a = status_ambiguous /\
    (outcome = outcome_ambiguous -> forall x y, ap_remote_id a = Some x -> ao_remote_id p = Some y -> x = y) ->
  exists projection' b,
    project_campaign lock (events ++ [e]) = Ok projection' /\
    proj_status projection' =
      (if bool_decide (proj_status projection = campaign_status_queued)
       then campaign_status_active else proj_status projection) /\
    proj_event_count projection' = proj_event_count projection + 1 /\
    (forall k, k <> ao_action_id p ->
       dict_get (proj_actions projection') k = dict_get (proj_actions projection) k) /\
    dict_get (proj_actions projection') (ao_action_id p) = Some b /\
    (ap_action_id b, ap_action_key b, ap_action_kind b, ap_target_ids b) =
      (ap_action_id a, ap_action_key a, ap_action_kind a, ap_target_ids a) /\
    ap_message b = ao_message p /\
    ap_status b = match outcome with
                  | outcome_succeeded => status_succeeded
                  | outcome_failed => status_failed
                  | outcome_ambiguous => status_ambiguous
                  end.
Proof.
  intros (first & rest & st & Ho & Hm & Hf & _ & _ & Es & Ea & En & _)%project_campaign_ok Ht Hlt Hid Hs Hi Hk Hp Ha Hst.
  rewrite Es in Ht |- *. rewrite Ea in Ha |- *. rewrite En.
  destruct (campaign_outcome_step lock st e p
    match outcome with
    | outcome_succeeded => status_succeeded
    | outcome_failed => status_failed
    | outcome_ambiguous => status_ambiguous
    end a) as (st' & b & Hstep & Hs' & Ha' & Hident & Hob & Hmb); try done.
  { rewrite Hk. by destruct outcome. }
  { destruct Hst as [?|[? Hsame]]; [by left|right]. split; [done|]. intros Hout. apply Hsame. by destruct outcome. }
  unfold project_campaign. rewrite (ordered_events_snoc _ _ _ Ho Hlt Hid). cbn [result_bind app].
  rewrite Hm. cbn [negb]. rewrite foldM_app, Hf. cbn [result_bind foldM]. rewrite Hstep. cbn [result_bind].
  eexists _, b. split; [done|]. cbn [proj_status proj_actions proj_event_count].
  rewrite Ha', Hs'. split_and!; try done.
  - unfold len. cbn. rewrite length_app. cbn. lia.
  - intros k Hne. by rewrite dict_get_set_ne.
  - apply dict_get_set_eq.
Qed.

Lemma recorded_outcome_is_projected_witness :
  exists projection projection' b, project_campaign demo_lock [demo_submitted; demo_reserved] = Ok projection /\
    project_campaign demo_lock ([demo_submitted; demo_reserved] ++ [demo_succeeded]) = Ok projection' /\
    dict_get (proj_actions projection') ("act-" +:+ demo_key) = Some b /\ ap_status b = status_succeeded.
Proof.
  assert (E : exists projection, project_campaign demo_lock [demo_submitted; demo_reserved] = Ok projection)
    by (apply result_ok_exists; vm_compute; reflexivity).
  destruct E as [projection E].
  destruct (recorded_outcome_is_projected demo_lock [demo_submitted; demo_reserved] projection demo_succeeded
    outcome_succeeded {| ao_action_id := "act-" +:+ demo_key; ao_message := None; ao_remote_id := Some "job-1" |}
    {| ap_action_id := "act-" +:+ demo_key; ap_action_key := demo_key; ap_action_kind := submit_wave;
       ap_target_ids := ["shard-1"]; ap_status := status_reserved; ap_remote_id := None; ap_message := None |})
    as (projection' & b & E' & _ & _ & _ & Hb & _ & _ & Hs);
    try reflexivity; try (revert E; vm_compute; intros [= <-]; reflexivity).
  - intros x Hx. apply elem_of_cons in Hx as [->|Hx]; [reflexivity|].
    apply elem_of_cons in Hx as [->|Hx]; [reflexivity|by apply elem_of_nil in Hx].
  - apply str_mem_false. vm_compute. reflexivity.
  - left. reflexivity.
  - exists projection, projection', b. split; [exact E|]. split; [exact E'|]. split; [exact Hb|exact Hs].
Defined.
