(* ===== verification/UsageProperties.v ===== *)
(** Properties of the admission usage (campaign_apply.py): each campaign counts
    every wave it holds once, and the usage of several campaigns adds up. *)
From S2P Require Import Prelude.
From S2P Require Import PyDict.
From S2P Require Import Campaigns.
From S2P Require Import Control.
From S2P Require Import Recovery.
From S2P Require Import Reconciler.
From S2P Require Import Apply.
From S2P Require Import Scenario.

(** ** Admission usage *)
Lemma get_default_set d k k' (v : Z) :
  dict_get_default (dict_set d k v) k' 0 = if String.eqb k k' then v else dict_get_default d k' 0.
Proof. unfold dict_get_default. rewrite dict_get_set. by destruct (String.eqb k k'). Qed.

Lemma merge_counts_get source target k :
  dict_wf source ->
  dict_get_default (merge_counts target source) k 0 = dict_get_default target k 0 + dict_get_default source k 0.
Proof.
  unfold merge_counts. revert target. induction source as [|[i n] source IH]; intros target Hwf; cbn [fold_left].
  { unfold dict_get_default. cbn. lia. }
  inversion Hwf as [|? ? Hi Hwf']; subst. rewrite IH, get_default_set by done. unfold dict_get_default. cbn [fst snd].
  change (dict_get ((i, n) :: source) k) with (if String.eqb k i then Some n else dict_get source k).
  rewrite (String.eqb_sym k i). destruct (String.eqb_spec i k) as [->|]; [|lia].
  apply (dict_get_none_iff source) in Hi. rewrite Hi. lia.
Qed.

Lemma merge_counts_wf source target : dict_wf target -> dict_wf (merge_counts target source).
Proof.
  unfold merge_counts. revert target. induction source as [|[i n] source IH]; intros target Hwf; [done|].
  cbn. by apply IH, dict_wf_set.
Qed.

Lemma count_admissions_get {A} (f : A -> string) l d k :
  dict_get_default (fold_left (fun d e => count_admission d (f e)) l d) k 0 =
    dict_get_default d k 0 + count_if (fun e => String.eqb (f e) k) l.
Proof.
  revert d. induction l as [|a l IH]; intros d; cbn [fold_left]; [change (count_if _ []) with 0; lia|].
  rewrite IH, count_if_cons. unfold count_admission. rewrite get_default_set.
  destruct (String.eqb_spec (f a) k) as [->|]; lia.
Qed.

Lemma count_admissions_wf {A} (f : A -> string) l d :
  dict_wf d -> dict_wf (fold_left (fun d e => count_admission d (f e)) l d).
Proof. revert d. induction l as [|a l IH]; intros d Hd; [done|]. cbn. by apply IH, dict_wf_set. Qed.

(** Every counter has one entry per key. *)
Definition usage_wf (u : AdmissionUsage) : Prop :=
  dict_wf (used_deployment_active_waves u) /\ dict_wf (used_provider_active_waves u) /\
  dict_wf (used_campaign_active_waves u) /\ dict_wf (used_campaign_spend_microusd u).

Lemma usage_from_admissions_wf c spend admissions : usage_wf (_usage_from_admissions c spend admissions).
Proof.
  unfold usage_wf, _usage_from_admissions. cbn. split_and!; try (apply count_admissions_wf; constructor);
    destruct (_ =? 0); repeat constructor; set_solver.
Qed.

(** The counters of a usage, by key. *)
Definition usage_counters : list (AdmissionUsage -> dict Z) := [
  used_deployment_active_waves; used_provider_active_waves; used_campaign_active_waves;
  used_campaign_spend_microusd].

Lemma add_usage_counter counter a b k :
  counter ∈ usage_counters -> usage_wf b ->
  dict_get_default (counter (add_usage a b)) k 0 =
    dict_get_default (counter a) k 0 + dict_get_default (counter b) k 0.
Proof.
  unfold usage_counters. intros Hc (H1 & H2 & H3 & H4).
  repeat (apply elem_of_cons in Hc as [->|Hc]; [by apply merge_counts_get|]). by apply elem_of_nil in Hc.
Qed.

(** The admissions that the actions [entries] of a campaign keep. *)
Definition holds_admission (projection : RecoveryProjection) (reservations : dict ReconcileAction)
    (entries : dict ActionProjection) (admitted : admission) : Prop :=
  exists id st a, (id, st) ∈ entries /\
    is_wave_action_kind (ap_action_kind st) = true /\ ap_status st <> status_failed /\
    dict_get reservations id = Some a /\
    (forall wave, dict_get (rp_waves projection) (action_wave_id a) = Some wave -> wave_is_closed wave = false) /\
    admitted = (action_wave_id a, (act_deployment_digest a, act_provider a,
                                   or_zero (act_estimated_cost_microusd a))).

Lemma active_action_admissions_spec projection reservations admissions :
  _active_action_admissions projection reservations = Ok admissions ->
  forall x, x ∈ admissions <-> holds_admission projection reservations (proj_actions (rp_campaign projection)) x.
Proof.
  unfold _active_action_admissions.
  apply (foldM_prefix_invariant (fun l acc => forall x, x ∈ acc <-> holds_admission projection reservations l x)).
  { intros x. split; [by intros ?%elem_of_nil|]. by intros (? & ? & ? & ?%elem_of_nil & _). }
  intros l [id st] l2 acc acc' _ Hinv E x.
  assert (Hsplit : holds_admission projection reservations (l ++ [(id, st)]) x <->
            x ∈ acc \/ holds_admission projection reservations [(id, st)] x).
  { rewrite Hinv. unfold holds_admission. split.
    - intros (i & s & a & [Hi|Hi]%elem_of_app & Hx); [left|right]; by exists i, s, a.
    - intros [(i & s & a & Hi & Hx)|(i & s & a & Hi & Hx)]; exists i, s, a; (split; [|done]);
        apply elem_of_app; [by left|by right]. }
  rewrite Hsplit. clear Hsplit Hinv. unfold holds_admission.
  setoid_rewrite list_elem_of_singleton.
  unfold active_action_admission in E.
  destruct (is_wave_action_kind (ap_action_kind st)) eqn:Hk; cbn [negb orb] in E;
    [|injection E as <-; split; [by left|]; intros [?|(? & ? & ? & [= -> ->] & ? & _)]; congruence].
  case_bool_decide as Hf;
    [injection E as <-; split; [by left|]; intros [?|(? & ? & ? & [= -> ->] & _ & ? & _)]; [done|congruence]|].
  destruct (dict_get reservations id) as [a|] eqn:Ha; [|discriminate E]. injection E as <-.
  destruct (dict_get (rp_waves projection) (action_wave_id a)) as [w|] eqn:Hw;
    [destruct (wave_is_closed w) eqn:Hc|]; rewrite ?elem_of_app, ?list_elem_of_singleton.
  - split; [by left|]. intros [?|(i & s & b & [= -> ->] & _ & _ & Hb & Ho & _)]; [done|].
    rewrite Ha in Hb. injection Hb as <-. apply Ho in Hw. congruence.
  - apply or_iff_compat_l. split; [intros ->; exists id, st, a|
      intros (i & s & b & [= -> ->] & _ & _ & Hb & _ & ->); rewrite Ha in Hb; by injection Hb as <-].
    split_and!; try done. intros v Hv. congruence.
  - apply or_iff_compat_l. split; [intros ->; exists id, st, a|
      intros (i & s & b & [= -> ->] & _ & _ & Hb & _ & ->); rewrite Ha in Hb; by injection Hb as <-].
    split_and!; try done. intros v Hv. congruence.
Qed.

(** ** The usage of a campaign *)
(** What one campaign holds: its open waves, and the waves of its actions. *)
Definition holds_wave (projection : RecoveryProjection) (reservations : dict ReconcileAction)
    (x : admission) : Prop :=
  (exists wave, wave ∈ dict_values (rp_waves projection) /\ wave_is_open wave = true /\
     x = (wv_wave_id wave, (wv_deployment_digest wave, wv_provider wave, wv_estimated_cost_microusd wave))) \/
  holds_admission projection reservations (proj_actions (rp_campaign projection)) x.

(** C13: a campaign reports exactly what it holds.  Its usage counts every wave
    that is open or that one of its actions may have started exactly once, in
    the total, for its deployment and for its provider; its spend is what was
    recorded, plus the estimates of its closed waves, plus the estimate of each
    wave it holds. *)
Theorem campaign_usage_is_exact campaign projection reservations u :
  _build_admission_usage campaign projection reservations = Ok u ->
  exists waves, dict_wf waves /\
    (forall x, x ∈ waves -> holds_wave projection reservations x) /\
    (forall x, holds_wave projection reservations x -> x.1 ∈ dict_keys waves) /\
    used_global_active_waves u = len waves /\
    (forall d, dict_get_default (used_deployment_active_waves u) d 0 =
       count_if (fun x => String.eqb x.2.1.1 d) waves) /\
    (forall p, dict_get_default (used_provider_active_waves u) p 0 =
       count_if (fun x => String.eqb x.2.1.2 p) waves) /\
    (forall c, dict_get_default (used_campaign_active_waves u) c 0 =
       if String.eqb campaign c then len waves else 0) /\
    (forall c, dict_get_default (used_campaign_spend_microusd u) c 0 =
       if String.eqb campaign c
       then rp_spend_microusd projection +
            sum_z (map wv_estimated_cost_microusd
                     (List.filter wave_is_closed (dict_values (rp_waves projection)))) +
            sum_z (map (fun x => x.2.2) waves)
       else 0).
Proof.
  unfold _build_admission_usage. intros (admissions & Ha & [= <-])%result_bind_Ok.
  pose proof (active_action_admissions_spec _ _ _ Ha) as Hs.
  set (opened := map _ (List.filter wave_is_open _)).
  assert (Ho : forall x, x ∈ opened ++ admissions <-> holds_wave projection reservations x).
  { intros x. unfold holds_wave. rewrite elem_of_app, Hs. apply or_iff_compat_r. unfold opened.
    rewrite list_elem_of_fmap. split.
    - intros (w & -> & [Hw Hop]%filter_elem_of). by exists w.
    - intros (w & Hw & Hop & ->). exists w. split; [done|]. by apply filter_elem_of. }
  exists (dict_of (opened ++ admissions)). unfold _usage_from_admissions. cbn [used_global_active_waves
    used_deployment_active_waves used_provider_active_waves used_campaign_active_waves used_campaign_spend_microusd].
  assert (Hval : forall f : string * string * Z -> bool, count_if f (dict_values (dict_of (opened ++ admissions))) =
            count_if (fun x : admission => f x.2) (dict_of (opened ++ admissions))).
  { intros f. unfold count_if, dict_values. by rewrite map_map. }
  assert (Hlen : len (dict_values (dict_of (opened ++ admissions))) = len (dict_of (opened ++ admissions)))
    by (unfold len, dict_values; by rewrite length_map).
  split_and!.
  - apply dict_wf_of.
  - intros x [Hx%elem_of_nil|Hx]%dict_update_in; [done|]. by apply Ho.
  - intros x Hx. apply dict_update_keys_elem. right. apply list_elem_of_fmap. exists x. split; [done|]. by apply Ho.
  - exact Hlen.
  - intros d. rewrite (count_admissions_get (fun e : string * string * Z => e.1.1)). apply Hval.
  - intros p. rewrite (count_admissions_get (fun e : string * string * Z => e.1.2)). apply Hval.
  - intros c. rewrite Hlen. destruct (Z.eqb_spec (len (dict_of (opened ++ admissions))) 0) as [->|].
    + by destruct (String.eqb campaign c).
    + apply (get_default_set [] campaign c).
  - intros c. assert (Hsum : sum_z (map snd (dict_values (dict_of (opened ++ admissions)))) =
              sum_z (map (fun x : admission => x.2.2) (dict_of (opened ++ admissions))))
      by (unfold dict_values; by rewrite map_map). rewrite Hsum.
    match goal with |- context [if ?n =? 0 then _ else _] => destruct (Z.eqb_spec n 0) as [Hn|Hn] end.
    + destruct (String.eqb campaign c); [exact (eq_sym Hn)|done].
    + apply (get_default_set [] campaign c).
Qed.

(** Usage is additive.  Adding what other campaigns hold to a baseline adds
    up every counter key by key, whatever the order of the entries. *)
Theorem usage_is_additive baseline contributions :
  Forall usage_wf contributions ->
  used_global_active_waves (_combined_usage baseline contributions) =
    used_global_active_waves baseline + sum_z (map used_global_active_waves contributions) /\
  forall counter k, counter ∈ usage_counters ->
    dict_get_default (counter (_combined_usage baseline contributions)) k 0 =
      dict_get_default (counter baseline) k 0 +
      sum_z (map (fun u => dict_get_default (counter u) k 0) contributions).
Proof.
  unfold _combined_usage. intros Hwf. revert baseline.
  induction Hwf as [|u us Hu Hus IH]; intros baseline; cbn [fold_left map].
  { split; [change (sum_z []) with 0; lia|]. intros counter k _. change (sum_z []) with 0. lia. }
  destruct (IH (add_usage baseline u)) as [IH1 IH2]. split.
  - rewrite IH1, sum_z_cons. cbn. lia.
  - intros counter k Hc. rewrite IH2, add_usage_counter, sum_z_cons by done. lia.
Qed.

(** *** A campaign with one open wave, whose action counts as the same wave *)
Definition demo_usage_events : list CampaignEvent :=
  [demo_submitted; demo_reserved; demo_succeeded; demo_wave 3 wave_acquiring].

Definition demo_usage : result (RecoveryProjection * AdmissionUsage) :=
  let* projection := project_recovery demo_lock demo_usage_events in
  let* u := _build_admission_usage "demo" projection [("act-" +:+ demo_key, wave_action demo_lock 0)] in
  Ok (projection, u).

Lemma demo_usage_ok : result_ok demo_usage = true.
Proof. vm_compute. reflexivity. Qed.

Example demo_usage_counts_once : decides demo_usage (fun x => used_global_active_waves x.2 =? 1) = true.
Proof. vm_compute. reflexivity. Qed.

Lemma campaign_usage_is_exact_witness :
  exists projection u (waves : list admission),
    _build_admission_usage "demo" projection [("act-" +:+ demo_key, wave_action demo_lock 0)] = Ok u /\
    dict_wf waves /\ used_global_active_waves u = len waves.
Proof.
  destruct (result_ok_exists demo_usage demo_usage_ok) as [[projection u] E].
  apply result_bind_Ok in E as (projection' & _ & E). apply result_bind_Ok in E as (u' & E & _).
  destruct (campaign_usage_is_exact "demo" projection' [("act-" +:+ demo_key, wave_action demo_lock 0)] u' E)
    as (waves & Hwf & _ & _ & Hn & _).
  exists projection', u', waves. split; [exact E|]. split; [exact Hwf|exact Hn].
Defined.

Lemma usage_is_additive_witness :
  used_global_active_waves (_combined_usage default_usage
    [_usage_from_admissions "a" 5 [("w1", ("d", "p", 7))]; _usage_from_admissions "b" 0 [("w2", ("d", "p", 9))]]) = 2 /\
  dict_get_default (used_deployment_active_waves (_combined_usage default_usage
    [_usage_from_admissions "a" 5 [("w1", ("d", "p", 7))]; _usage_from_admissions "b" 0 [("w2", ("d", "p", 9))]])) "d" 0 = 2.
Proof.
  destruct (usage_is_additive default_usage
    [_usage_from_admissions "a" 5 [("w1", ("d", "p", 7))]; _usage_from_admissions "b" 0 [("w2", ("d", "p", 9))]])
    as [H1 H2].
  - apply Forall_cons. split; [apply usage_from_admissions_wf|]. apply Forall_singleton, usage_from_admissions_wf.
  - split; [exact H1|]. rewrite (H2 used_deployment_active_waves "d"); [reflexivity|by left].
Defined.
