(* ===== verification/EvidenceProperties.v ===== *)
(** Properties of evidence: what the observer believes, that reading is
    repeatable, and that evidence is never changed once it is written. *)
From S2P Require Import Prelude.
From S2P Require Import PyDict.
From S2P Require Import Json.
From S2P Require Import PyText.
From S2P Require Import Campaigns.
From S2P Require Import Models.
From S2P Require Import Hub.
From S2P Require Import Waves.
From S2P Require Import Coordination.
From S2P Require Import Control.
From S2P Require Import Observer.
From S2P Require Import BucketEvidence.
From S2P Require Import ObserverFacts.
From S2P Require Import BucketFacts.
From S2P Require Import Scenario.
From S2P Require Import EvidenceScenario.

(** C17: the observer believes only verified evidence.  Every event it returns is
    valid and rests on a unit that the listing of the evidence of the campaign
    shows with exactly one terminal marker, and whose critical files, as they were
    read, have the digests of its checksum manifest: that of a wave of the
    campaign, or of an execution whose lock names the campaign and one of its
    trials and lies at the path of that trial.  In particular an execution is
    reported completed only when its sole marker is [_SUCCESS] and its
    verification record is among the verified files.  The events are sorted. *)
Theorem observation_rests_on_verified_evidence {W} `{EvidenceReaderLaws W later} `{EvidenceParsers}
    spec lock w events w' :
  observe_campaign spec lock w = (Ok events, w') ->
  StronglySorted (fun x y => event_leb x y = true) events /\
  exists paths w1, list_files (as_bucket (spec_artifacts spec)) (artifact_prefix lock) w = (Ok paths, w1) /\
   later w1 w' /\ forall e, e ∈ events -> event_valid e = true /\
    ((exists path marker wave, verified_wave spec lock w' paths path marker wave /\ is_wave_event wave e) \/
     (exists path marker execution, verified_execution spec lock w' paths path marker execution /\
        is_execution_event execution marker e /\
        (kind e = execution_completed ->
           marker = "_SUCCESS" /\ exists c content manifest,
             holds_file spec lock w' (parent_of path +:+ "/checksums.json") content /\
             checksum_manifest content = Ok manifest /\
             holds_file spec lock w' (parent_of path +:+ "/verification.json") c /\
             dict_get manifest "verification.json" = Some (JStr ("sha256:" +:+ sha256_bytes c))))).
Proof.
  intros [Hs (paths & w1 & Hlist & Hl & Hev)]%observe_campaign_ok. split; [done|]. exists paths, w1.
  split; [done|]. split; [done|]. intros e He.
  destruct (Hev e He) as (Hv & _ & [Hw|(path & marker & execution & Hx & Hk)]); (split; [done|]); [by left|right].
  exists path, marker, execution. split_and!; [done|done|]. intros Hc.
  assert (Hm : marker = "_SUCCESS").
  { destruct Hk as (_ & _ & [[Hk _]|[Hk _]]); [congruence|]. unfold outcome_kind in Hk.
    destruct (String.eqb_spec marker "_SUCCESS"); [done|]. destruct (String.eqb _ _); congruence. }
  subst marker. split; [done|].
  destruct (ve_files _ _ _ _ _ _ _ Hx) as (content & manifest & Hcont & Hman & Hfiles).
  destruct (Hfiles "verification.json") as (c & Hfile & Hd); [unfold critical_files; cbn; set_solver|].
  by exists c, content, manifest.
Qed.

Lemma observation_rests_on_verified_evidence_witness :
  exists events, evidence_observation.1 = Ok events /\ map kind events = [execution_started; execution_completed] /\
    StronglySorted (fun x y => event_leb x y = true) events.
Proof.
  assert (Hk : returns evidence_observation.1 (fun events => map kind events = [execution_started; execution_completed])).
  { apply (decides_returns _ _ _ evidence_observation_kinds). intros events. apply bool_decide_eq_true. }
  destruct evidence_observation as [r w'] eqn:E. cbn [fst] in *. destruct r as [events|]; [|destruct Hk].
  exists events. split; [reflexivity|]. split; [exact Hk|].
  destruct (observation_rests_on_verified_evidence demo_spec demo_lock (fresh_reader evidence_cellar) events w' E)
    as [Hs _]. exact Hs.
Defined.

(** C18: evidence is written once.  Whatever way [write_immutable] ends, with or
    without a claim, every object of the bucket is as it was; it returns [True]
    only when it created the object with this content, and [False] only when
    the object was there with this content already, so that a repeated write is
    adopted and a conflicting one refused. *)
Theorem evidence_is_written_once {W} `{BucketLaws W} claims uuid_hex now bucket path content w r w' :
  keeps (quiet_at (bucket_id bucket) path) uuid_hex -> keeps (quiet_at (bucket_id bucket) path) now ->
  (forall store p o, claims = Some store ->
     keeps (quiet_at (bucket_id bucket) path) (claim_acquire p o) /\
     keeps (quiet_at (bucket_id bucket) path) (claim_release p o)) ->
  write_immutable claims uuid_hex now bucket path content w = (r, w') ->
  objects w ⊆ objects w' /\
  (objects w' !! (bucket_id bucket, path) = objects w !! (bucket_id bucket, path) \/
   objects w !! (bucket_id bucket, path) = None /\ objects w' !! (bucket_id bucket, path) = Some content) /\
  (r = Ok true -> objects w !! (bucket_id bucket, path) = None /\
                  objects w' !! (bucket_id bucket, path) = Some content) /\
  (r = Ok false -> objects w !! (bucket_id bucket, path) = Some content /\
                   objects w' !! (bucket_id bucket, path) = Some content).
Proof.
  intros Hu Hn Hclaims. change (write_immutable claims uuid_hex now bucket path content w = (r, w') ->
    written_once (bucket_id bucket) path content w r w'). unfold write_immutable.
  destruct claims as [store|]; [|apply write_locked_once].
  intros (id & w1 & E1 & E)%hub_bind_inv. pose proof (keeps_run _ _ _ _ _ Hu E1) as L1.
  destruct id as [id|e]; [|destruct E as [-> ->]; by apply failed_quiet].
  apply hub_bind_inv in E as (instant & w2 & E2 & E). pose proof (keeps_run _ _ _ _ _ Hn E2) as L2.
  assert (L12 : quiet_at (bucket_id bucket) path w w2) by (by etransitivity).
  destruct instant as [instant|e]; [|destruct E as [-> ->]; by apply failed_quiet].
  cbn zeta in E. apply hub_bind_inv in E as (a & w3 & E3 & E).
  assert (L3 : quiet_at (bucket_id bucket) path w2 w3).
  { eapply keeps_run; [|exact E3]. apply keeps_catch; [apply _|by apply Hclaims|].
    intros e k Hk. destruct e; try discriminate Hk. injection Hk as <-. apply keeps_raise. apply _. }
  assert (L13 : quiet_at (bucket_id bucket) path w w3) by (by etransitivity).
  destruct a as [a|e]; [|destruct E as [-> ->]; by apply failed_quiet].
  destruct (_write_locked (bucket_id bucket) path content w3) as [outcome w4] eqn:E4. injection E as <- <-.
  apply write_locked_once in E4. eapply written_once_quiet; [exact L13|exact E4|].
  by apply Hclaims.
Qed.

#[local] Opaque evidence_cellar evidence_bucket evidence_path write_immutable.

Lemma evidence_is_written_once_witness :
  let w := evidence_cellar in
  let '(r, w') := write_immutable (W := cellar) None (hub_ret "writer") (hub_ret 0) evidence_bucket
                    (evidence_path "_SUCCESS") "other" w in
  objects w ⊆ objects w' /\
  (r = Ok true -> objects w !! (bucket_id evidence_bucket, evidence_path "_SUCCESS") = None).
Proof.
  cbv zeta. destruct (write_immutable (W := cellar) None (hub_ret "writer") (hub_ret 0) evidence_bucket
                    (evidence_path "_SUCCESS") "other" evidence_cellar) as [r w'] eqn:E.
  destruct (evidence_is_written_once (W := cellar) None (hub_ret "writer") (hub_ret 0) evidence_bucket
    (evidence_path "_SUCCESS") "other" evidence_cellar r w') as (H1 & _ & H2 & _).
  - apply keeps_ret. apply _.
  - apply keeps_ret. apply _.
  - intros store p o Hs. discriminate Hs.
  - exact E.
  - split; [exact H1|]. intros Hr. destruct (H2 Hr) as [H3 _]. exact H3.
Defined.

#[local] Transparent evidence_cellar evidence_bucket evidence_path write_immutable.

(** Reading is repeatable.  Until the reader is refreshed, reading a path again
    gives the content it gave before and does not touch the bucket, whatever
    was listed, prefetched or read in between. *)
Theorem evidence_reads_are_repeatable {W} `{BucketApi W} bucket prefix path s c s1 s2 :
  bucket_read_bytes bucket prefix path s = (Ok c, s1) -> reader_later s1 s2 ->
  bucket_read_bytes bucket prefix path s2 = (Ok c, s2) /\
  (forall b p x, reader_later s1 (bucket_read_bytes b p x s1).2) /\
  (forall b p, reader_later s1 (bucket_list_files b p s1).2) /\
  (forall b p xs, reader_later s1 (bucket_prefetch_files b p xs s1).2).
Proof.
  intros E [Hl1 Hl2]. apply bucket_read_cached in E as (Hc & listing & Hl & Hx). split_and!.
  - eapply bucket_read_again; [by apply Hl1|by apply Hl2|done].
  - intros b p x. exact (keeps_bucket_read b p x s1).
  - intros b p. exact (list_files_keeps (later := reader_later) b p s1).
  - intros b p xs. exact (prefetch_keeps (later := reader_later) _ b p xs eq_refl s1).
Qed.

Lemma evidence_reads_are_repeatable_witness :
  exists c s, bucket_read_bytes (as_bucket (spec_artifacts demo_spec)) (artifact_prefix demo_lock)
      (evidence_folder +:+ "/events.jsonl") (fresh_reader evidence_cellar) = (Ok c, s) /\
    bucket_read_bytes (as_bucket (spec_artifacts demo_spec)) (artifact_prefix demo_lock)
      (evidence_folder +:+ "/events.jsonl") s = (Ok c, s).
Proof.
  assert (Hr : result_ok (bucket_read_bytes (as_bucket (spec_artifacts demo_spec)) (artifact_prefix demo_lock)
      (evidence_folder +:+ "/events.jsonl") (fresh_reader evidence_cellar)).1 = true) by (vm_compute; reflexivity).
  destruct (bucket_read_bytes (as_bucket (spec_artifacts demo_spec)) (artifact_prefix demo_lock)
      (evidence_folder +:+ "/events.jsonl") (fresh_reader evidence_cellar)) as [r s] eqn:E.
  apply result_ok_exists in Hr as [c Hr]. cbn [fst] in Hr. rewrite Hr in E |- *. exists c, s. split; [reflexivity|].
  destruct (evidence_reads_are_repeatable _ _ _ _ c s s E) as [H1 _]; [reflexivity|exact H1].
Defined.
