(* ===== verification/ResultProperties.v ===== *)
(** Properties of finalization and results: what markers, publications and compositions rest on. *)
From S2P Require Import Prelude.
From S2P Require Import PyDict.
From S2P Require Import Json.
From S2P Require Import PyText.
From S2P Require Import Campaigns.
From S2P Require Import Models.
From S2P Require Import Control.
From S2P Require Import Recovery.
From S2P Require Import Hub.
From S2P Require Import Waves.
From S2P Require Import Coordination.
From S2P Require Import Observer.
From S2P Require Import BucketEvidence.
From S2P Require Import Envelope.
From S2P Require Import NativeBundle.
From S2P Require Import ResultModels.
From S2P Require Import Finalizer.
From S2P Require Import ResultTables.
From S2P Require Import Results.
From S2P Require Import Composition.
From S2P Require Import ObserverFacts.
From S2P Require Import BucketFacts.
From S2P Require Import FinalizerFacts.
From S2P Require Import ShelfFacts.
From S2P Require Import ResultFacts.
From S2P Require Import Scenario.
From S2P Require Import EvidenceScenario.
From S2P Require Import FinalizerScenario.

(** ** Properties of finalization: no marker without what it stands for. *)
(** C19: a campaign is marked only when it is finalized.  Whatever way [finalize]
    ends for a terminal decision, either it failed and did not make the
    marker, or the campaign summary is stored with the checksum of every
    complete run: each of them is the digest of the stored manifest that
    finalizing this run returned, which names exactly the files of the run (those
    the listing of the campaign showed at the start, those staged for its trials
    meanwhile, and its verification, summary and envelope, but neither itself nor
    a terminal marker) with the digests of contents that are there; and a campaign
    that is marked completed has no incomplete run. *)
Theorem campaign_marker_rests_on_sealed_runs {W} `{EvidenceShelf W later}
    `{EvidenceParsers} `{BundleParsers} `{RunLockParser} spec campaign projection status counts reason s r s' :
  let decision := _decision campaign status counts reason in
  let bucket := evidence_bucket_of spec in
  finalize_evidence spec campaign projection decision s = (r, s') ->
  (exists e, r = Err e) /\ (shows (fz_services s') bucket (td_marker_path decision) ->
     shows (fz_services s) bucket (td_marker_path decision)) \/
  (exists campaign_paths w1 rc,
    list_files bucket (artifact_prefix campaign) (fz_services s) = (Ok campaign_paths, w1) /\
    later w1 (fz_services s') /\
    stored (fz_services s') bucket (td_summary_path decision) (_json_bytes (campaign_summary campaign decision rc)) /\
    dict_wf rc /\
    (forall id digest, (id, digest) ∈ rc -> exists run checksums f s1 s2,
       run ∈ runs campaign /\ rl_run_id run = id /\ run_complete projection id /\
       later w1 (fz_services s1) /\ later (fz_services s2) (fz_services s') /\
       _finalize_run spec campaign run campaign_paths projection s1 = (Ok f, s2) /\
       run_sealed later spec campaign run (fz_services s') campaign_paths
         (staged_during spec campaign s1 s2) checksums /\
       records_manifest f checksums /\
       digest = content_digest (_json_bytes (checksums_json checksums))) /\
    (forall run, run ∈ runs campaign -> run_complete projection (rl_run_id run) -> rl_run_id run ∈ dict_keys rc) /\
    (status = terminal_completed ->
       forall run, run ∈ runs campaign -> run_complete projection (rl_run_id run))) /\
  (r = Ok tt -> stored (fz_services s') bucket (td_marker_path decision) newline_text).
Proof.
  cbv zeta. intros E.
  apply (finalize_ok later) in E as [Hf|[(paths & w1 & rc & El & Hl & Hs & (Hw & Hf & Hk) & Hc) Hm]].
  - by left.
  - right. split; [|done]. exists paths, w1, rc. split_and!; try done.
    intros id digest He. rewrite Forall_forall in Hf.
    destruct (Hf (id, digest) He) as (run & Hin & Hi & Hd & checksums & f & s1 & s2 & Hrest).
    exists run, checksums, f, s1, s2. split_and!; [done|done|done|apply Hrest..].
  - intros path Hp. apply (inj (String.append _)) in Hp. destruct status; discriminate Hp.
  - intros Hp. apply (inj (String.append _)) in Hp. destruct status; discriminate Hp.
Qed.

Lemma campaign_marker_rests_on_sealed_runs_witness :
  let s' := finalization.2 in
  exists campaign_paths w1 staged checksums,
    list_files (evidence_bucket_of demo_spec) "campaigns/demo" (fz_services final_start) = (Ok campaign_paths, w1) /\
    run_sealed shelf_later demo_spec final_lock final_run (fz_services s') campaign_paths staged checksums /\
    stored (fz_services s') (evidence_bucket_of demo_spec) "campaigns/demo/_SUCCESS" newline_text.
Proof.
  cbv zeta. destruct finalization_seals_the_campaign as [Hok _]. unfold finalization in *.
  destruct final_projection as [p|] eqn:Ep; [|discriminate Hok]. unfold final_decision in *.
  destruct (finalize_evidence demo_spec final_lock p _ final_start) as [r s'] eqn:E. cbn [fst snd] in *.
  destruct r as [[]|]; [|discriminate Hok].
  destruct (campaign_marker_rests_on_sealed_runs demo_spec final_lock p _ _ _ _ _ _ E)
    as [[[e He] _]|[(paths & w1 & rc & El & _ & _ & Hw & Hrc & Hk & Hc) Hm]]; [discriminate He|].
  assert (Hin : final_run ∈ runs final_lock) by (by left).
  pose proof (Hk final_run Hin (Hc eq_refl final_run Hin)) as Hkey.
  apply list_elem_of_fmap in Hkey as ([id digest] & _ & He).
  destruct (Hrc id digest He) as (run & checksums & f & s1 & s2 & Hr & _ & _ & _ & _ & _ & Hs & _).
  apply list_elem_of_singleton in Hr as ->. exists paths, w1, (staged_during demo_spec final_lock s1 s2), checksums.
  split; [exact El|]. split; [exact Hs|exact (Hm eq_refl)].
Defined.

(** C20: a run is marked only when it is sealed.  Whatever way [_finalize_run] ends,
    either it failed and did not make the marker of the run, or a manifest is
    stored whose keys are exactly the files of the run (the listed ones, the ones
    staged for its interrupted trials meanwhile, and the records of the run)
    but itself and the terminal markers, each with the digest of its
    content; a returned record is about this manifest, and then the marker is
    stored.  No other marked object, as the marker of the campaign, is made. *)
Theorem run_marker_rests_on_its_manifest {W} `{EvidenceShelf W later}
    `{EvidenceParsers} `{BundleParsers} `{RunLockParser} spec campaign run campaign_paths projection s r s' :
  let bucket := evidence_bucket_of spec in
  let run_prefix := "runs/" +:+ rl_run_id run in
  let file path := artifact_prefix campaign +:+ "/" +:+ run_prefix +:+ "/" +:+ path in
  staged_ok later spec campaign s ->
  _finalize_run spec campaign run campaign_paths projection s = (r, s') ->
  ((exists checksums,
      stored (fz_services s') bucket (file "checksums.json") (_json_bytes (checksums_json checksums)) /\
      dict_wf checksums /\
      (forall path, path ∈ dict_keys checksums <->
         (path ∈ _under campaign_paths run_prefix \/
          staged_during spec campaign s s' (run_prefix +:+ "/" +:+ path) \/ path ∈ added_paths) /\
         path <> "checksums.json" /\ str_mem path _TERMINAL_MARKERS = false) /\
      (forall path digest, dict_get checksums path = Some digest -> exists c, digest = content_digest c /\
         (stored (fz_services s') bucket (file path) c \/
          evidence (fz_services s') bucket (artifact_prefix campaign) (run_prefix +:+ "/" +:+ path) c)) /\
      (forall f, r = Ok f -> records_manifest f checksums /\
         stored (fz_services s') bucket (file "_SUCCESS") newline_text)) \/
   (exists e, r = Err e) /\
   (shows (fz_services s') bucket (file "_SUCCESS") -> shows (fz_services s) bucket (file "_SUCCESS"))) /\
  (forall path, (forall file', path <> file file') ->
     shows (fz_services s') bucket path -> shows (fz_services s) bucket path).
Proof.
  cbv zeta. intros Hs E. split.
  - apply (finalize_run_ok later spec campaign (fun path => path = artifact_prefix campaign +:+ "/runs/" +:+
      rl_run_id run +:+ "/_SUCCESS")) in E as (_ & _ & _ & Hr); [|intros path Hp|done].
    2: { change (artifact_prefix campaign +:+ "/runs/" +:+ rl_run_id run +:+ "/" +:+ path =
           artifact_prefix campaign +:+ "/runs/" +:+ rl_run_id run +:+ "/" +:+ "_SUCCESS") in Hp.
         by do 4 apply (inj (String.append _)) in Hp. }
    destruct Hr as [(checksums & (Hst & Hw & Hk & Hd) & Hf)|[He Hm]]; [left|right; split; auto].
    exists checksums. split_and!; done.
  - apply (finalize_run_ok later spec campaign (fun path => forall file', path <> artifact_prefix campaign +:+
      "/runs/" +:+ rl_run_id run +:+ "/" +:+ file')) in E as (_ & _ & Hm & _);
      [|intros path Hp; by destruct (Hp path)|done].
    intros path Hp. apply Hm; [done|]. intros ->. by apply (Hp "_SUCCESS").
Qed.

Definition final_run_start : result (list string) * finalizer (reader cellar) :=
  on_services (list_files (evidence_bucket_of demo_spec) (artifact_prefix final_lock)) final_start.

Definition final_run_end : result _FinalizedRun * finalizer (reader cellar) :=
  match final_run_start.1, final_projection with
  | Ok paths, Ok p => _finalize_run demo_spec final_lock final_run paths p final_run_start.2
  | _, _ => (Err AssertionError, final_start)
  end.

Lemma final_run_start_staged : staged_ok shelf_later demo_spec final_lock final_run_start.2.
Proof.
  assert (Hn : fz_staged final_run_start.2 = []) by (vm_compute; reflexivity).
  intros path c Hc. rewrite Hn in Hc. discriminate Hc.
Qed.

Lemma run_marker_rests_on_its_manifest_witness :
  exists checksums f, final_run_end.1 = Ok f /\ records_manifest f checksums /\
    "verification.json" ∈ dict_keys checksums /\
    stored (fz_services final_run_end.2) (evidence_bucket_of demo_spec)
      "campaigns/demo/runs/run-1/checksums.json" (_json_bytes (checksums_json checksums)).
Proof.
  assert (Hok : result_ok final_run_end.1 = true) by (vm_compute; reflexivity). unfold final_run_end in *.
  destruct final_run_start.1 as [paths|]; [|discriminate Hok].
  destruct final_projection as [p|]; [|discriminate Hok].
  destruct (_finalize_run demo_spec final_lock final_run paths p final_run_start.2) as [r s'] eqn:E.
  cbn [fst snd] in *. destruct r as [f|]; [|discriminate Hok].
  destruct (run_marker_rests_on_its_manifest demo_spec final_lock final_run paths p final_run_start.2 (Ok f) s')
    as [[(checksums & Hst & _ & Hk & _ & Hf)|[[e He] _]] _]; [exact final_run_start_staged|exact E| |discriminate He].
  exists checksums, f. destruct (Hf f eq_refl) as [Hrec _].
  split; [reflexivity|]. split; [exact Hrec|]. split; [|exact Hst]. apply Hk.
  split; [right; right; by left|]. split; [discriminate|reflexivity].
Defined.

(** C21: a scored trial rests on an execution that succeeded.  When the records of a
    complete trial are returned, its outcome is scored, its physical executions
    are those of the execution locks of the trial among the files of the run, one
    for each lock and in order, and the selected execution is one of them: it
    succeeded and refers to a Harbor bundle at its own place whose manifest,
    documents, archive and compatibility export were read with the digests the
    manifest gives. *)
Theorem scored_trial_has_a_verified_bundle {W} `{EvidenceShelf W later}
    `{EvidenceParsers} `{BundleParsers} spec campaign run_prefix trial k outcome s t s' :
  let locks := execution_lock_paths (fz_run_paths s) ("trials/" +:+ tl_trial_id trial) in
  _trial_records spec campaign run_prefix trial k trial_s_complete outcome s = (Ok t, s') ->
  outcome = Some outcome_scored /\ te_outcome (trs_trial t) = task_scored /\
  te_trial_id (trs_trial t) = tl_trial_id trial /\
  Forall2 (referenced_at later spec campaign run_prefix s') locks (trs_physical_executions t) /\
  exists selected_id i relative p b,
    te_selected_execution_id (trs_trial t) = Some selected_id /\
    locks !! i = Some relative /\ trs_physical_executions t !! i = Some p /\
    px_execution_id p = selected_id /\ px_status p = physical_succeeded /\
    px_harbor_bundle p = Some b /\ px_bundle_status p = bundle_verified /\
    bundle_verified_at later spec campaign s' (parent_of relative) (run_prefix +:+ "/" +:+ parent_of relative) b.
Proof. cbv zeta. intros E. by apply (trial_records_ok later) in E as (Ho & Hi & Hsc & Hf & Hrest). Qed.

Definition final_trial_start : finalizer (reader cellar) := {|
  fz_services := fz_services final_run_start.2; fz_staged := [];
  fz_run_paths := match final_run_start.1 with Ok paths => _under paths "runs/run-1" | Err _ => [] end |}.

Lemma scored_trial_has_a_verified_bundle_witness :
  exists t s' p b, _trial_records demo_spec final_lock "runs/run-1" final_trial runtime_provider trial_s_complete
      (Some outcome_scored) final_trial_start = (Ok t, s') /\
    te_outcome (trs_trial t) = task_scored /\ p ∈ trs_physical_executions t /\ px_harbor_bundle p = Some b.
Proof.
  assert (Hok : result_ok (_trial_records demo_spec final_lock "runs/run-1" final_trial runtime_provider
    trial_s_complete (Some outcome_scored) final_trial_start).1 = true) by (vm_compute; reflexivity).
  destruct (_trial_records demo_spec final_lock "runs/run-1" final_trial runtime_provider trial_s_complete
    (Some outcome_scored) final_trial_start) as [r s'] eqn:E. destruct r as [t|]; [|discriminate Hok].
  destruct (scored_trial_has_a_verified_bundle demo_spec final_lock "runs/run-1" final_trial runtime_provider
    _ _ t s' E) as (_ & Hsc & _ & _ & id & i & relative & p & b & _ & _ & Hp & _ & _ & Hb & _).
  exists t, s', p, b. split; [reflexivity|]. split; [exact Hsc|]. split; [|exact Hb].
  exact (list_elem_of_lookup_2 _ _ _ Hp).
Defined.

(** ** Properties of results: what a publication rests on and what a composition
    takes. *)
(** C22: a publication rests on complete and verified evidence.  When
    [build_result_tables] returns, the listing was that of an exclusively
    successful run, the checksum manifest names exactly its other files, every
    one of them was read with the digest it gives, and so were the summary and
    the run lock; the tasks of the summary are exactly those of the run lock;
    every artifact is backed by its checksum and has its size; and the rows are
    exactly the records of the summary, each with the trace of this publication,
    whose bundles are among the verified files. *)
Theorem publication_rests_on_verified_evidence {W} `{EvidenceReaderLaws W later} `{ResultParsers}
    source control_commit w t w' :
  build_result_tables source control_commit w = (Ok t, w') ->
  exists v trace provenance,
    evidence_verified source w' v /\
    tables_of t trace (vd_summary v) provenance /\
    tc_control_commit trace = control_commit /\ tc_source_checksum trace = vd_source_checksum v /\
    tc_run_lock_sha256 trace = vd_lock_checksum v /\ tc_source_bucket trace = src_bucket source /\
    tc_source_prefix trace = src_prefix source /\
    Forall (fun d => exists path, dict_get (vd_checksums v) path = Some d)
      (pp_harbor_bundle_manifest_sha256s provenance ++ pp_harbor_archive_sha256s provenance) /\
    dict_get (vd_checksums v) PUBLICATION_ENVELOPE_PATH = Some (pp_envelope_sha256 provenance).
Proof.
  unfold build_result_tables. destruct (negb _); [done|]. intros E. ok_bind E as v Ev.
  apply (verify_evidence_ok (later := later)) in Ev. ok_bind E as p Ep.
  apply (provenance_ok (later := later)) in Ep as (L & Hb & digest & Hd & Hp).
  unfold hub_lift in E. injection E as Et <-. apply result_tables_ok in Et.
  exists v, (trace_of source control_commit v p), p. split_and!; try done; [|congruence].
  by eapply evidence_verified_later.
Qed.

Lemma publication_rests_on_verified_evidence_witness :
  exists t trace provenance v, (published sealed_cellar).1 = Ok t /\ tables_of t trace (vd_summary v) provenance /\
    evidence_verified final_source (published sealed_cellar).2 v.
Proof.
  destruct (published sealed_cellar) as [r w'] eqn:E.
  pose proof sealed_run_is_published as Hok. rewrite E in Hok. cbn [fst snd] in *.
  destruct r as [t|]; [|discriminate Hok]. unfold published in E.
  destruct (publication_rests_on_verified_evidence final_source _ _ t w' E) as (v & trace & p & Hv & Ht & _).
  exists t, trace, p, v. split; [reflexivity|]. split; [exact Ht|exact Hv].
Defined.

(** C23: a composition resolves every task exactly once.  The tasks of a composed
    publication are those of its base, each once, and the unsupported ones of the
    manifest; every other trial is the trial of a selection of the manifest, as
    its source has it, with every execution the source recorded for it, and a
    correction replaces a task of the base of the same digest.  Trials,
    executions and metrics have distinct identities, and all rows carry the
    trace of the composition. *)
Theorem composition_resolves_every_task_once manifest sources control_commit r :
  compose_result_tables manifest sources control_commit = Ok r ->
  validate_ResultCompositionManifest manifest = Ok manifest ->
  let t := cr_tables r in
  exists base,
    (exists reference, reference ∈ cm_sources manifest /\ sr_role reference = source_base /\
       dict_get sources (sr_publication_id reference) = Some base) /\
    map _trial_key (rt_trials t) ≡ₚ map _trial_key (rt_trials base) ++ unsupported_keys manifest /\
    NoDup (map _trial_key (rt_trials t)) /\
    (forall trial, trial ∈ rt_trials t ->
      (exists source selection row, source ∈ cm_sources manifest /\ selection ∈ sr_selected_trials source /\
         selected_from sources base source selection row /\ trial_of_row trial = trial_of_row row.1 /\
         forall x, x ∈ rt_executions row.2 -> xw_trial_id x = tw_trial_id row.1 ->
           exists x', x' ∈ rt_executions t /\ execution_of_row x' = execution_of_row x) \/
      tw_outcome trial = task_unsupported /\ _trial_key trial ∈ unsupported_keys manifest) /\
    NoDup (map tw_trial_id (rt_trials t)) /\ NoDup (map xw_execution_id (rt_executions t)) /\
    NoDup (map mw_metric_id (rt_metrics t)) /\
    exists trace, tc_control_commit trace = control_commit /\ rt_publication_id t = tc_publication_id trace /\
      Forall (fun row => row = trace) (row_traces t).
Proof.
  intros E Hv. destruct (compose_ok _ _ _ _ E Hv) as (base & [Hb Ht Ho Htr (U1 & U2 & U3) Hc]). exists base.
  split_and!; done.
Qed.

Lemma composition_resolves_every_task_once_witness :
  exists r base, demo_composition = Ok r /\
    map _trial_key (rt_trials (cr_tables r)) ≡ₚ map _trial_key (rt_trials base) ++ [("task-c", 1)] /\
    NoDup (map tw_trial_id (rt_trials (cr_tables r))).
Proof.
  pose proof composition_takes_the_correction as Hok. destruct demo_composition as [r|] eqn:E; [|discriminate Hok].
  clear Hok. unfold demo_composition in E.
  assert (Hv : validate_ResultCompositionManifest (demo_manifest "task-b") = Ok (demo_manifest "task-b"))
    by (vm_compute; reflexivity).
  destruct (composition_resolves_every_task_once _ _ _ r E Hv) as (base & _ & Hp & _ & _ & Hid & _).
  exists r, base. split; [reflexivity|]. split; [exact Hp|exact Hid].
Defined.
